(* ===== verification/_CoqProject ===== *)
-Q . S2P
Prelude.v
CppString.v
Regex.v
BoostInstance.v
SipUri.v
TextUtil.v
SipTags.v
TextCorrect.v
Client.v
ClientCorrect.v
ClientController.v
ClientControllerCorrect.v
TimerQueue.v
TimerQueueSpec.v
TimerQueueCorrect.v
TimerQueueManager.v
RequestRouter.v
Cdr.v
Statistics.v
PendingRequests.v
PendingCorrect.v
SipDialog.v
StackMessages.v
SipDialogCorrect.v
SipTransports.v
SipTransportsCorrect.v
TransportsWitness.v
Connections.v
ConnectionsCorrect.v
Settings.v
CommandLine.v
CommandLineCorrect.v
SettingsCorrect.v
ConfigFile.v
Startup.v
StartupCorrect.v
DialogWorld.v
InviteInProgress.v
InviteInProgressCorrect.v
InviteInProgressSafety.v
TimerD.v
TimerDCorrect.v
DialogController.v
Messages.v
ProxyDispatch.v
Dispatch.v
LegSetup.v
DialogResponses.v
DialogRequests.v
DialogSend.v
DialogRespond.v
DialogSendOut.v
DispatchCorrect.v
LegSetupCorrect.v
DialogTimers.v
DialogEnds.v
DialogHandlersCorrect.v
DialogSendCorrect.v
Blacklist.v
BlacklistCorrect.v
HttpRouting.v
Connecting.v
RequestHandler.v
CurlSockets.v
CurlSocketsCorrect.v
HttpRoutingCorrect.v
DialogSendOutCorrect.v
DialogWitness.v
DispatchWitness.v
DialogSendWitness.v
HttpRoutingWitness.v
StartupWitness.v
ProxyChallenges.v
ProxyChallengesCorrect.v
ProxyCore.v
ProxyCorrect.v
ProxyStart.v
ProxyStartCorrect.v
ProxyEnds.v
ProxyWitness.v
