(* ===== verification/Prelude.v ===== *)
(** * A verification development for drachtio-server

    drachtio-server is a SIP server that applications control over TCP: it
    speaks SIP through the sofia-sip stack and hands the requests it receives
    to applications, which answer them, send requests of their own or ask the
    server to proxy.  This library models its own logic (the C++ code in src/)
    as executable functions and proves what that logic does, faults included.

    ** The parts of the program

    Four threads matter.  The sofia thread runs the callbacks of the stack and
    of all timers; the asio thread reads messages from the applications; web
    requests have a thread of their own, and so has the blacklist.  Work
    crosses from one to another by [post] or by a cloned sofia message.
    - A connection ([Client]) cuts the byte stream of an application into
      messages and dispatches them to the controllers.
    - [ClientController] accepts and opens these connections, knows which
      application wants which kind of request and owns which dialog,
      transaction and API request.
    - [DrachtioController] reads the settings, starts everything, and
      dispatches the messages that the stack hands over: to the proxies, the
      dialogs, or the pending requests.
    - [PendingRequestController] keeps requests outside a dialog until an
      application takes them, and limits how long that may take.  It asks
      [ClientController] for an application, or [RequestRouter] and
      [RequestHandler] for a web service that says what to do.
    - [SipDialogController] and [IIP] answer and send requests, inside and
      outside dialogs; [SipDialog] is the dialog object with its resources.
    - [SipProxyController] proxies requests; each is a [ProxyCore] with one
      server transaction and a client transaction per target, under the
      timers A to K of RFC 3261.
    - [SipTransport] chooses the transport for a destination; two tables
      remember the connections of registered users and of contacts.
    - [TimerQueue] and [SipTimerQueueManager] implement the timers.
    - drachtio.cpp has the functions on messages, headers, URIs and tags that
      all of them use; [Cdr] posts call records; [StatsCollector] counts.

    ** How code is modelled

    A method is a function in the state monad [M] of this file, over the
    record of its object's fields.  A run gives [Ok] of a result and a state,
    or a [Fault] that says how the C++ program would have gone wrong: an
    [assert] that fails, an access through a null or dangling pointer or out
    of range, an exception, a mutex locked twice by one thread, or a loop that
    has used up its fuel.  A theorem whose conclusion is [Ok ...] therefore
    says that the code terminates without any of them.  An exception that the
    program catches is a value: the model of what throws returns [false] or
    [None], and the caller goes on as its [catch] does.  Objects that are
    shared through pointers live in finite maps from addresses to objects, and
    a raw pointer is an address; a weak pointer is an address that may no
    longer be there.  A dialog or an invite in progress dies at the end of the
    handler in which its last owner lets go of it ([handler] in
    DialogController.v).  Using a stack object after its destroy call is a fault.
    References on messages are an account per message ([mt_owed]): how many
    nobody accounts for, negative when one was given back twice.  [zoom] runs
    a method on a component of a larger object and [Lens] states the laws of
    that component; [lock_guard] is [std::lock_guard].  Calls on the stack or
    on other threads, where nothing is returned, are recorded in order in a
    list of the state.  Integers are [Z] or [N]; where their width matters the
    wrap-around is written out.

    Code from outside the repository is a class of operations, with the
    documented behaviour that proofs rely on as a class of laws, and a
    concrete instance in the witnesses:
    - [SuTime], [SuTimeLaws] (TimerQueue.v): sofia's times and timers;
    - [Boost], [BoostLaws] (CppString.v; instance in BoostInstance.v): boost's
      string algorithms and [lexical_cast];
    - [CircularBuffer], [CircularBufferLaws] (Client.v): the receive buffer;
    - [SofiaUrl] (SipTags.v): decoding and encoding of name-addr headers;
    - [SofiaTport] (SipDialog.v), [TportTree], [TportTreeLaws]
      (SipTransports.v), [TportByName], [TportByNameLaws] (Connections.v),
      [TportKind] (StackMessages.v): names, kinds and relations of transports;
    - [NtaAgent], [NtaMessages] (DialogWorld.v), [NtaMessage],
      [NtaMessageLaws] (Messages.v), [NtaOutside] (DialogSendOut.v): what the
      stack says of transactions, legs, and messages that came in or were
      made;
    - [SipAuth] (ProxyChallenges.v): the authentication headers of a message;
    - [Inet], [InetLaws], [StdSort], [StdSortLaws] (SipTransports.v): address
      parsing and [std::sort], whose results are permutations in the order
      that the comparison asks for;
    - [Floats], [PropertyTree], [PropertyTreeLaws] (Settings.v, ConfigFile.v),
      [Jansson], [JanssonLaws] (HttpRouting.v): numbers, XML and JSON;
    - [Redis] (Blacklist.v), [TcpOutside] (Connecting.v), [Doubles]
      (Statistics.v): the network outside SIP and [double].
    Values that are not determined by the state (results of [nta_msg_tsend],
    random numbers, uuids, the callbacks of libcurl, the outcome of attempts)
    are consumed from lists in the state or are arguments.  Where a component
    calls a part of the program that is modelled elsewhere, it may do so
    through a class as well, so that its theorems hold for whatever is behind
    it: [ClientEnv] (what a connection calls), [ControllerDeps] (what the
    client controller calls), [OutboundConnections] (implemented in
    Connecting.v), [ProxyEnv] (outbound proxy and choice of transport),
    [ProxyCoreOps] (what the dispatch asks of a proxied call), [MainSending], [MainConfig], [MainConfigLaws] and [DialogConfig]
    (what the controllers read of the settings), [ProxyLaunch] (the start of a
    proxied call).

    ** The files

    A file with [Correct] in its name proves the theorems of the file before
    it; one with [Witness] applies them to concrete runs.

    Foundations.
    - Prelude.v: faults, the monad, lenses, mutexes, tactics, shared lemmas.
    - CppString.v, BoostInstance.v, Regex.v: [std::string], <cctype>, Boost,
      and [std::regex] as a backtracking matcher.
    - TextUtil.v, SipTags.v, TextCorrect.v (src/drachtio.cpp, src/drachtio.h):
      the header and method tables, [splitMsg], [parseStartLine],
      [GetValueForHeader], identifiers, encodings; the tag arrays of
      [makeTags] and [makeSafeTags] with the memory they allocate.  Messages
      and identifiers survive the round trip, an application cannot set a
      protected header, all memory of a tag array is freed.
    - SipUri.v: [parseSipUri] and its round trip.  StackMessages.v: the data
      taken from a message, and [ackResponse].
    - TimerQueue.v (src/timer-queue.cpp): the doubly linked list of entries in
      the C++ heap, with every pointer assignment.  TimerQueueSpec.v: the
      abstract queue, a list of timers, and the refinement.
      TimerQueueCorrect.v: the invariant (links, order, counter, no leak,
      sofia timer armed for the head), what [add], [remove] and [doTimer] do,
      and the cases where they abort, deadlock or use freed memory.
      TimerQueueManager.v: one queue per timer class.
    - RequestRouter.v, Cdr.v, Statistics.v: routes to web services, call
      records, and the metrics that reach Prometheus.

    Applications.
    - Client.v, ClientCorrect.v (src/client.cpp): however TCP cuts the stream,
      exactly the framed messages are processed, in order; malformed and
      oversized lengths; messages that crash the dispatcher.
    - ClientController.v, ClientControllerCorrect.v
      (src/client-controller.cpp): selection is fair and returns only eligible
      clients, requests inside a dialog reach its owner, no public operation
      deadlocks or leaves the mutex locked.
    - Connecting.v (both): accepting connections and opening them over TCP or
      TLS; a route to an application ends in one connection or one 480.
    - PendingRequests.v, PendingCorrect.v: the indexes, the objects and the
      timer queue stay consistent; timeouts and answers clear a request
      everywhere; the outcome of every new request.
    - HttpRouting.v, RequestHandler.v, HttpRoutingCorrect.v
      (src/controller.cpp, src/request-handler.cpp): the reply of a routing
      service and what is done with it; easy handles and transfers.
      CurlSockets.v, CurlSocketsCorrect.v: the sockets that libcurl watches
      are waited for unless waiting failed, and when freed memory is read.

    Settings.
    - Settings.v, CommandLine.v, SettingsCorrect.v, CommandLineCorrect.v
      (src/controller.cpp): environment and command line; every option has the
      name, letter and effect that the tables of the source give it.
      [getopt_long] is the GNU C library's, modelled from its documentation
      (POSIXLY_CORRECT unset), not from code of the repository.
    - ConfigFile.v, Startup.v, StartupCorrect.v (src/drachtio-config.cpp): the
      configuration file, which setting wins at the start, and reloading.
    - Blacklist.v, BlacklistCorrect.v (src/blacklist.cpp): the thread that
      reads addresses from redis; when it stops doing so.

    Dialogs (src/sip-dialog-controller.cpp unless said otherwise).
    - SipDialog.v, SipDialogCorrect.v (src/sip-dialog.cpp): the dialog and the
      transports, legs, transactions and timers it holds; every reference is
      given back and nothing is released twice.
    - SipTransports.v, SipTransportsCorrect.v, TransportsWitness.v
      (src/sip-transports.cpp): the choice of a transport.  Connections.v,
      ConnectionsCorrect.v (src/controller.cpp, src/ua-invalid.hpp): the
      tables of connections refine maps and keep their references.
    - DialogWorld.v: the state that the following share, and the state of the
      main controller.  InviteInProgress.v, InviteInProgressCorrect.v,
      InviteInProgressSafety.v (src/invite-in-progress.cpp): no sequence of
      operations uses a dead invite or loses a resource.  TimerD.v,
      TimerDCorrect.v: ACKs that are kept for retransmission, and connections
      that are closed under them.
    - DialogController.v, DialogResponses.v, DialogRequests.v: tables, timers,
      responses to what was sent, requests of the peer.  DialogTimers.v,
      DialogEnds.v, DialogHandlersCorrect.v: retransmission of final
      responses, the end of a call that is not acknowledged, one end for every
      request in progress.
    - DialogSend.v, DialogRespond.v, DialogSendOut.v and DialogSendCorrect.v,
      DialogSendOutCorrect.v: what applications send: it goes out
      once, the command is answered once, and responses find their way back.  DialogWitness.v, DialogSendWitness.v.

    The main controller and proxying.
    - Messages.v, ProxyDispatch.v, Dispatch.v, LegSetup.v, DispatchCorrect.v,
      LegSetupCorrect.v, DispatchWitness.v (src/controller.cpp,
      src/sip-proxy-controller.cpp): what happens to a message that comes in;
      which messages are given back, and the requests that abort or leak; an
      INVITE becomes a dialog when it is answered.
    - ProxyCore.v, ProxyCorrect.v (src/sip-proxy-controller.cpp): transactions
      and the core of a proxied call; the timers that run in every state, the
      best response, and the event sequences that abort or answer twice.
    - ProxyChallenges.v, ProxyStart.v and their proofs: challenges that are
      remembered, and [doProxy].  ProxyEnds.v: an INVITE that nobody answers
      ends; ProxyWitness.v.

    ** Fuel

    Loops over linked entries ([add_iterate], [expire_loop], [fire_loop],
    [destroy_loop], ...) get the number of live entries plus one or two: a
    list without repetition cannot be longer, and the refinement proves that
    the fuel does not run out.  [message_loop] gets the length of the buffer
    plus one, since every round consumes bytes; [utf8_loop] the length of the
    string plus one; a star of a regular expression what is left of the
    text.  [bl_threadFunc] gets the number of turns that its loop may take,
    and the theorem says how many it needs.  Other loops recurse on their
    data.  ProxyEnds.v plays the timers of a call in the order in which they
    are due, and proves that no timer is left.

    ** Not modelled

    Log messages and their sinks (apart from one that throws), the counts of
    stored objects that are logged, the usage text, becoming a daemon, and the
    set-up of the stack and of TLS contexts; the calls that bump a statistic
    at their place in the handlers (the statistics themselves are modelled);
    [parseGenericHeader], which hands a text to sofia; the headers that an
    application adds to a proxied request; the collector that cuts the stack's log of
    messages into messages ([StackMsg] in controller.cpp, with the constructor
    of [SipMsgData_t] from a line of that log); the JSON allocator, which
    nothing calls; main.cpp and the
    test programs.  What libcurl, asio, OpenSSL, sofia and redis do inside is
    outside.  Threads are modelled by the mutexes they take and by the order
    of calls; there is no memory model. *)
From stdpp Require Export base tactics gmap strings list fin_maps numbers sorting.
From Stdlib Require Export ZArith Ascii Lia.

(** ** Outcomes of C++ code *)

(** Why a call does not return normally.  [AssertFail] is an [assert] whose
    condition is false (the build never defines NDEBUG, so it aborts),
    [BadAccess] an access through NULL or a freed pointer or out of range of
    a vector, [Thrown] a C++ exception, [Deadlock] a second acquisition of a
    [std::mutex] by its owner, [OutOfFuel] a loop that has not ended. *)
Inductive fault :=
  | AssertFail
  | BadAccess
  | Thrown (what : string)
  | Deadlock
  | OutOfFuel.

Inductive res (A : Type) :=
  | Ok (a : A)
  | Fault (f : fault).
Arguments Ok {A} _.
Arguments Fault {A} _.

#[export] Instance fault_eq_dec : EqDecision fault.
Proof. solve_decision. Defined.
#[export] Instance res_eq_dec {A} `{EqDecision A} : EqDecision (res A).
Proof. solve_decision. Defined.

#[export] Instance res_ret : MRet res := fun _ => Ok.
#[export] Instance res_bind : MBind res := fun A B k m =>
  match m with Ok a => k a | Fault f => Fault f end.

(** State monad over an object of type [S]; a faulting call has no final
    state, because nothing in the program observes one. *)
Definition M (S A : Type) : Type := S -> res (A * S).

#[export] Instance M_ret {S} : MRet (M S) := fun _ a s => Ok (a, s).
#[export] Instance M_bind {S} : MBind (M S) := fun A B k m s =>
  match m s with Ok (a, s') => k a s' | Fault f => Fault f end.

#[export] Instance M_fmap {S} : FMap (M S) := fun A B f m s =>
  match m s with Ok (a, s') => Ok (f a, s') | Fault e => Fault e end.

Definition get {S} : M S S := fun s => Ok (s, s).
Definition modify {S} (f : S -> S) : M S unit := fun s => Ok (tt, f s).
Definition fail {S A} (f : fault) : M S A := fun _ => Fault f.
Definition assertb {S} (b : bool) : M S unit := fun s =>
  if b then Ok (tt, s) else Fault AssertFail.
(** [*p] for a pointer that may be NULL. *)
Definition deref {S A} (p : option A) : M S A := fun s =>
  match p with Some a => Ok (a, s) | None => Fault BadAccess end.
(** Run [m] on a component of the object. *)
Definition zoom {S T A} (proj : S -> T) (upd : T -> S -> S) (m : M T A) : M S A :=
  fun s => match m (proj s) with
           | Ok (a, t) => Ok (a, upd t s)
           | Fault f => Fault f
           end.

(** The laws of a component [proj]/[upd] of an object. *)
Class Lens {S T} (proj : S -> T) (upd : T -> S -> S) : Prop := {
  lens_proj_upd t s : proj (upd t s) = t;
  lens_upd_upd t t' s : upd t (upd t' s) = upd t s;
  lens_upd_proj s : upd (proj s) s = s;
}.
#[export] Instance id_lens {S} : Lens (fun s : S => s) (fun t _ => t).
Proof. by split. Qed.

(** [std::lock_guard<std::mutex>] around [m]; [held] says whether the thread
    already holds the (non-recursive) mutex. *)
Definition lock_guard {S A} (held : S -> bool) (set : bool -> S -> S) (m : M S A) : M S A :=
  s ← get;
  if held s then fail Deadlock else
    _ ← modify (set true); a ← m; _ ← modify (set false); mret a.

Section monad_lemmas.
Context {S : Type}.

Lemma M_bind_ok {A B} (m : M S A) (k : A -> M S B) s a s' :
  m s = Ok (a, s') -> (m ≫= k) s = k a s'.
Proof. unfold mbind, M_bind. by intros ->. Qed.

Lemma M_bind_fault {A B} (m : M S A) (k : A -> M S B) s f :
  m s = Fault f -> (m ≫= k) s = Fault f.
Proof. unfold mbind, M_bind. by intros ->. Qed.

Lemma M_bind_inv {A B} (m : M S A) (k : A -> M S B) s b s'' :
  (m ≫= k) s = Ok (b, s'') ->
  exists a s', m s = Ok (a, s') /\ k a s' = Ok (b, s'').
Proof.
  unfold mbind, M_bind. destruct (m s) as [[a s']|f]; [|done]. eauto.
Qed.

Lemma M_ret_run {A} (a : A) (s : S) : (mret a : M S A) s = Ok (a, s).
Proof. done. Qed.

Lemma assertb_true (b : bool) (s : S) : b = true -> assertb b s = Ok (tt, s).
Proof. by intros ->. Qed.

Lemma zoom_ok {T A} (proj : S -> T) (upd : T -> S -> S) (m : M T A) s a t :
  m (proj s) = Ok (a, t) -> zoom proj upd m s = Ok (a, upd t s).
Proof. unfold zoom. by intros ->. Qed.

Lemma zoom_fault {T A} (proj : S -> T) (upd : T -> S -> S) (m : M T A) s f :
  m (proj s) = Fault f -> zoom proj upd m s = Fault f.
Proof. unfold zoom. by intros ->. Qed.

Lemma lock_guard_held {A} held set (m : M S A) s :
  held s = true -> lock_guard held set m s = Fault Deadlock.
Proof. intros E. unfold lock_guard, mbind, M_bind, get. by rewrite E. Qed.

Lemma lock_guard_ok {A} held set (m : M S A) s a s' :
  held s = false -> m (set true s) = Ok (a, s') ->
  lock_guard held set m s = Ok (a, set false s').
Proof. intros E Hm. unfold lock_guard, mbind, M_bind, get. rewrite E. cbn. by rewrite Hm. Qed.

Lemma lock_guard_fault {A} held set (m : M S A) s f :
  held s = false -> m (set true s) = Fault f -> lock_guard held set m s = Fault f.
Proof. intros E Hm. unfold lock_guard, mbind, M_bind, get. rewrite E. cbn. by rewrite Hm. Qed.
End monad_lemmas.

Create HintDb drachtio.
Create Rewrite HintDb drachtio.
#[export] Hint Rewrite @M_ret_run : drachtio.

(** One symbolic step of a monadic call whose first action is known. *)
Ltac mstep := first
  [ erewrite M_bind_ok; [| solve [eauto using assertb_true | reflexivity] ]
  | erewrite M_bind_fault; [| solve [eauto | reflexivity] ] ]; cbn beta iota.
(** Take apart a monadic run that succeeded. *)
Ltac minv := repeat match goal with
  | H : (_ ≫= _) _ = Ok _ |- _ => apply M_bind_inv in H as (? & ? & ? & ?)
  | H : mret _ _ = Ok _ |- _ => rewrite M_ret_run in H; simplify_eq
  end.

(** ** Generic lemmas *)

Section list_lemmas.
Context {A B : Type}.

(** [l] ends in an element or is empty. *)
Lemma list_rcons_cases (l : list A) : l = [] \/ exists l' x, l = l' ++ [x].
Proof.
  destruct l as [|y l] using rev_ind; [by left|right; by eexists _, _].
Qed.

Lemma NoDup_fmap_app_cons (f : A -> B) l1 x l2 :
  NoDup (f <$> (l1 ++ x :: l2)) ->
  (f x ∉ (f <$> l1)) /\ (f x ∉ (f <$> l2)) /\ NoDup (f <$> (l1 ++ l2)).
Proof.
  rewrite !fmap_app, fmap_cons. intros Hnd.
  apply NoDup_app in Hnd as (H1 & Hd & H2).
  apply NoDup_cons in H2 as [Hx H2].
  split_and!; [|done|].
  - intros Hin. apply (Hd _ Hin). by left.
  - apply NoDup_app; split_and!; [done| |done].
    intros y Hy Hy'. apply (Hd _ Hy). by right.
Qed.
End list_lemmas.

(** The smallest address above every live one: where [new] puts an object. *)
Definition fresh_addr {A} (h : gmap positive A) : positive := fresh (dom h).

Lemma fresh_addr_lookup {A} (h : gmap positive A) : h !! fresh_addr h = None.
Proof. apply not_elem_of_dom. unfold fresh_addr. apply is_fresh. Qed.
#[export] Hint Resolve fresh_addr_lookup : drachtio.
