(* ===== verification/CppString.v ===== *)
(** The operations of [std::string], [<cctype>] (C locale) and the character
    arithmetic that the program uses, and the interface of the Boost string
    algorithms it calls. *)
From stdpp Require Export pretty.
From S2P Require Import Prelude.

Open Scope string_scope.

(** ** [std::string] *)

(** [s.find(pat)]; [None] is [npos]. *)
Fixpoint str_find (pat s : string) : option nat :=
  if String.prefix pat s then Some 0 else
  match s with
  | EmptyString => None
  | String _ s' => S <$> str_find pat s'
  end.

(** [s.substr(0, n)] and [s.substr(n)] for [n <= s.size()]. *)
Fixpoint str_take (n : nat) (s : string) : string :=
  match n, s with
  | S n, String c s' => String c (str_take n s')
  | _, _ => ""
  end.
Fixpoint str_drop (n : nat) (s : string) : string :=
  match n, s with
  | S n, String _ s' => str_drop n s'
  | _, _ => s
  end.

(** Fold over the characters, for the [for_each] and [transform] loops. *)
Fixpoint str_map (f : ascii -> ascii) (s : string) : string :=
  match s with EmptyString => "" | String c s' => String (f c) (str_map f s') end.
Fixpoint str_forall (p : ascii -> bool) (s : string) : bool :=
  match s with EmptyString => true | String c s' => p c && str_forall p s' end.
Definition str_mem (c : ascii) (s : string) : bool := negb (str_forall (fun d => negb (Ascii.eqb c d)) s).

(** The C string that [c_str()] points to. *)
Fixpoint c_str (s : string) : string :=
  match s with
  | EmptyString => ""
  | String c s' => if Ascii.eqb c zero then "" else String c (c_str s')
  end.

(** ** Characters *)

Definition code (c : ascii) : N := N_of_ascii c.
Definition is_digit (c : ascii) : bool := (48 <=? code c)%N && (code c <=? 57)%N.
Definition is_upper (c : ascii) : bool := (65 <=? code c)%N && (code c <=? 90)%N.
Definition is_lower (c : ascii) : bool := (97 <=? code c)%N && (code c <=? 122)%N.
Definition to_upper (c : ascii) : ascii := if is_lower c then ascii_of_N (code c - 32) else c.
Definition to_lower (c : ascii) : ascii := if is_upper c then ascii_of_N (code c + 32) else c.
(** [char] is signed on the platforms the server is built for. *)
Definition schar (c : ascii) : Z :=
  let n := Z.of_N (code c) in if (n <? 128)%Z then n else (n - 256)%Z.

Definition CR : ascii := ascii_of_N 13.
Definition LF : ascii := ascii_of_N 10.
Definition DR_CRLF : string := String CR (String LF "").
Definition DR_CRLF2 : string := DR_CRLF +:+ DR_CRLF.

(** [boost::algorithm::join], and the concatenations with a separator. *)
Fixpoint join (sep : string) (l : list string) : string :=
  match l with
  | [] => ""
  | [s] => s
  | s :: l' => s +:+ sep +:+ join sep l'
  end.

(** ** Lemmas *)

Lemma str_app_cons c s1 s2 : String c s1 +:+ s2 = String c (s1 +:+ s2).
Proof. done. Qed.
Lemma str_app_nil_r s : s +:+ "" = s.
Proof. induction s as [|c s IH]; [done|]. by rewrite str_app_cons, IH. Qed.
Lemma str_app_assoc s1 s2 s3 : (s1 +:+ s2) +:+ s3 = s1 +:+ s2 +:+ s3.
Proof. induction s1 as [|c s1 IH]; [done|]. by rewrite !str_app_cons, IH. Qed.
Lemma str_length_app s1 s2 : String.length (s1 +:+ s2) = String.length s1 + String.length s2.
Proof. induction s1 as [|c s1 IH]; [done|]. rewrite str_app_cons. simpl. by rewrite IH. Qed.
Lemma str_take_app s1 s2 : str_take (String.length s1) (s1 +:+ s2) = s1.
Proof. induction s1 as [|c s1 IH]; [by destruct s2|]. rewrite str_app_cons. simpl. by rewrite IH. Qed.
Lemma str_drop_app s1 s2 : str_drop (String.length s1) (s1 +:+ s2) = s2.
Proof. induction s1 as [|c s1 IH]; [by destruct s2|]. exact IH. Qed.
Lemma str_drop_add n m s : str_drop (n + m) s = str_drop m (str_drop n s).
Proof.
  revert s. induction n as [|n IH]; intros s; [done|]. destruct s; [by destruct m|]. apply IH.
Qed.
Lemma str_take_drop n s : str_take n s +:+ str_drop n s = s.
Proof. revert s. induction n as [|n IH]; intros [|c s]; [done..|]. simpl. by rewrite str_app_cons, IH. Qed.

Lemma str_prefix_app p s : String.prefix p (p +:+ s) = true.
Proof.
  induction p as [|c p IH]; [by destruct s|]. rewrite str_app_cons. simpl. by destruct (ascii_dec c c).
Qed.

Lemma str_forall_app p s1 s2 : str_forall p (s1 +:+ s2) = str_forall p s1 && str_forall p s2.
Proof. induction s1 as [|c s1 IH]; [done|]. rewrite str_app_cons. simpl. by rewrite IH, andb_assoc. Qed.

(** A pattern is found right after a prefix without its first character. *)
Lemma str_find_after c pat a b :
  str_mem c a = false -> str_find (String c pat) (a +:+ String c pat +:+ b) = Some (String.length a).
Proof.
  unfold str_mem. induction a as [|d a IH]; intros Ha.
  - change ("" +:+ String c pat +:+ b) with (String c pat +:+ b).
    pose proof (str_prefix_app (String c pat) b) as Hp. rewrite str_app_cons in *.
    cbn [str_find]. by rewrite Hp.
  - cbn in Ha. destruct (Ascii.eqb_spec c d) as [->|Hd]; [done|]. cbn in Ha.
    rewrite (str_app_cons d). cbn [str_find String.prefix]. destruct (ascii_dec c d); [done|].
    by rewrite IH.
Qed.

Lemma str_find_none c pat s : str_mem c s = false -> str_find (String c pat) s = None.
Proof.
  unfold str_mem. induction s as [|d s IH]; intros Hs; [done|].
  cbn in Hs. destruct (Ascii.eqb_spec c d) as [->|Hd]; [done|]. cbn in Hs.
  cbn [str_find String.prefix]. destruct (ascii_dec c d); [done|]. by rewrite IH.
Qed.

Lemma str_mem_app c a b : str_mem c (a +:+ b) = str_mem c a || str_mem c b.
Proof. unfold str_mem. rewrite str_forall_app. by rewrite negb_andb. Qed.

Lemma join_cons sep s l : l ≠ [] -> join sep (s :: l) = s +:+ sep +:+ join sep l.
Proof. by destruct l. Qed.
Lemma join_mem_false c sep l :
  str_mem c sep = false -> Forall (fun s => str_mem c s = false) l -> str_mem c (join sep l) = false.
Proof.
  intros Hsep. induction 1 as [|s l Hs Hl IH]; [done|]. destruct l as [|s' l]; [done|].
  rewrite join_cons by done. by rewrite !str_mem_app, Hs, Hsep, IH.
Qed.

Lemma ascii_of_N_code c : ascii_of_N (code c) = c.
Proof. apply ascii_N_embedding. Qed.
Lemma code_bound c : (code c < 256)%N.
Proof. apply N_ascii_bounded. Qed.

(** ** Decimal numbers *)

(** Value of a string of digits, read after a number [acc]. *)
Fixpoint dec_value (s : string) (acc : N) : N :=
  match s with
  | EmptyString => acc
  | String c s' => dec_value s' (10 * acc + (code c - 48))
  end.

Lemma pretty_N_char_digit n :
  (n < 10)%N -> is_digit (pretty_N_char n) = true /\ (code (pretty_N_char n) - 48)%N = n.
Proof.
  intros Hn. assert (n ∈ [0; 1; 2; 3; 4; 5; 6; 7; 8; 9]%N) as Hin.
  { rewrite !elem_of_cons. lia. }
  rewrite !elem_of_cons in Hin.
  repeat (destruct Hin as [->|Hin]; [by split|]). by apply elem_of_nil in Hin.
Qed.

Lemma pretty_N_go_digits k n s :
  (0 < n)%N -> (n < 10 ^ N.of_nat k)%N ->
  exists d, pretty_N_go n s = d +:+ s /\ str_forall is_digit d = true /\
    0 < String.length d <= k /\ forall acc, dec_value d acc = (acc * 10 ^ N.of_nat (String.length d) + n)%N.
Proof.
  revert n s. induction k as [|k IH]; intros n s H0 Hk; [simpl in Hk; lia|].
  rewrite pretty_N_go_step by done.
  pose proof (N.div_mod n 10 ltac:(lia)) as Hn. pose proof (N.mod_lt n 10 ltac:(lia)) as Hm.
  destruct (pretty_N_char_digit (n mod 10)) as [Hd Hv]; [done|].
  destruct (decide (n / 10 = 0)%N) as [E|E].
  - rewrite E, pretty_N_go_0. exists (String (pretty_N_char (n mod 10)) ""). split_and!.
    + done.
    + cbn [str_forall]. by rewrite Hd.
    + simpl. lia.
    + simpl. lia.
    + intros acc. cbn [dec_value String.length]. rewrite Hv. change (10 ^ N.of_nat 1)%N with 10%N. lia.
  - destruct (IH (n / 10)%N (String (pretty_N_char (n mod 10)) s)) as (d & -> & Hd' & Hl & Hv').
    { lia. }
    { rewrite Nat2N.inj_succ, N.pow_succ_r in Hk by lia. lia. }
    exists (d +:+ String (pretty_N_char (n mod 10)) ""). split_and!.
    + by rewrite str_app_assoc.
    + rewrite str_forall_app, Hd'. cbn [str_forall]. by rewrite Hd.
    + rewrite str_length_app. simpl. lia.
    + rewrite str_length_app. simpl. lia.
    + intros acc. assert (Happ : forall a b x, dec_value (a +:+ b) x = dec_value b (dec_value a x)).
      { clear. intros a. induction a as [|c a IHa]; intros b x; [done|]. apply IHa. }
      rewrite Happ, Hv'. cbn [dec_value]. rewrite Hv, str_length_app. cbn [String.length].
      rewrite Nat.add_1_r, Nat2N.inj_succ, N.pow_succ_r by lia. lia.
Qed.

(** The decimal representation of a number below [10 ^ k]. *)
Lemma pretty_N_digits k n :
  0 < k -> (n < 10 ^ N.of_nat k)%N ->
  str_forall is_digit (pretty n) = true /\ 0 < String.length (pretty n) <= k /\ dec_value (pretty n) 0 = n.
Proof.
  intros Hk Hn. unfold pretty, pretty_N. case_decide as E; [subst; cbn; split_and!; [done|lia|lia|done]|].
  destruct (pretty_N_go_digits k n "") as (d & -> & Hd & Hl & Hv); [lia|done|].
  rewrite str_app_nil_r. split_and!; [done|lia|lia|]. by rewrite Hv.
Qed.

(** [atoi]: white space, a sign, digits. *)
Definition c_isspace (c : ascii) : bool := ((9 <=? code c)%N && (code c <=? 13)%N) || (code c =? 32)%N.
Fixpoint atoi_digits (s : string) (acc : Z) : Z :=
  match s with
  | String c s' => if is_digit c then atoi_digits s' (10 * acc + (Z.of_N (code c) - 48))%Z else acc
  | EmptyString => acc
  end.
Fixpoint c_atoi (s : string) : Z :=
  match s with
  | EmptyString => 0
  | String c s' =>
    if c_isspace c then c_atoi s'
    else if Ascii.eqb c "-" then - atoi_digits s' 0
    else if Ascii.eqb c "+" then atoi_digits s' 0
    else atoi_digits s 0
  end%Z.

(** ** Boost *)

(** [boost::split] without and with [token_compress_on] (both
    [is_any_of(seps)]), the tokens of a [tokenizer<char_separator>] that
    drops [seps], [trim], [iequals], [to_lower_copy], [replace_all_copy] and
    [lexical_cast] to [int] and [unsigned]; [None] is [bad_lexical_cast]. *)
Class Boost := {
  split : string -> string -> list string;
  split_compress : string -> string -> list string;
  tokenizer : string -> string -> list string;
  trim : string -> string;
  iequals : string -> string -> bool;
  to_lower_copy : string -> string;
  replace_all_copy : string -> string -> string -> string;
  lexical_cast_int : string -> option Z;
  lexical_cast_unsigned : string -> option N;
}.

Definition no_sep (seps s : string) : Prop := str_forall (fun c => negb (str_mem c seps)) s = true.

(** What their documentation says, as far as the proofs rely on it. *)
Class BoostLaws `{Boost} := {
  split_nonempty seps s : split seps s ≠ [];
  split_join c l : l ≠ [] -> Forall (no_sep (String c "")) l ->
    split (String c "") (join (String c "") l) = l;
  split_compress_lines l : l ≠ [] -> Forall (fun s => s ≠ "" /\ no_sep DR_CRLF s) l ->
    split_compress DR_CRLF (join DR_CRLF l) = l;
  split_compress_char seps c l : str_mem c seps = true -> l ≠ [] -> Forall (fun s => s ≠ "" /\ no_sep seps s) l ->
    split_compress seps (join (String c "") l) = l;
  tokenizer_join c l : Forall (fun s => s ≠ "" /\ no_sep (String c "") s) l ->
    tokenizer (String c "") (join (String c "") l) = l;
  trim_solid s : str_mem " " s = false -> str_forall (fun c => (32 <? code c)%N) s = true -> trim s = s;
  trim_padded s : trim (" " +:+ s) = trim s;
  iequals_refl s : iequals s s = true;
  to_lower_ascii s : to_lower_copy s = str_map to_lower s;
  replace_char s f t : replace_all_copy s (String f "") (String t "") = str_map (fun c => if Ascii.eqb c f then t else c) s;
  lexical_cast_unsigned_empty : lexical_cast_unsigned "" = None;
  lexical_cast_unsigned_range s n : lexical_cast_unsigned s = Some n -> (n < 2 ^ 32)%N;
  lexical_cast_unsigned_digits s : s ≠ "" -> str_forall is_digit s = true ->
    (dec_value s 0 < 2 ^ 32)%N -> lexical_cast_unsigned s = Some (dec_value s 0);
}.

(** *** Prefixes *)

Lemma str_take_length n s : (String.length (str_take n s) <= n)%nat.
Proof. revert s. induction n as [|n IH]; intros [|c s]; cbn; try lia. specialize (IH s). lia. Qed.
Lemma str_take_all n s : (String.length s <= n)%nat -> str_take n s = s.
Proof. revert s. induction n as [|n IH]; intros [|c s]; cbn; intros Hl; try done; [lia|]. rewrite IH; [done|lia]. Qed.
