(* ===== verification/Regex.v ===== *)
(** [std::regex] as far as the program uses it: ECMAScript expressions (single
    line, so [^] and [$] match only at the two ends of the input), matched by
    backtracking, greedy and with the left alternative first. *)
From S2P Require Import Prelude CppString.

(** ** Expressions *)

Inductive regex :=
  | RChar (p : ascii -> bool)
  | REmpty
  | RSeq (a b : regex)
  | RAlt (a b : regex)
  | RStar (a : regex)
  | RGroup (n : nat) (a : regex)
  | RBegin
  | REnd.

Declare Scope regex_scope.
Delimit Scope regex_scope with re.
Bind Scope regex_scope with regex.
Infix "·" := RSeq (at level 45, right associativity) : regex_scope.
Infix "∥" := RAlt (at level 50, left associativity) : regex_scope.

Definition RPlus (a : regex) : regex := RSeq a (RStar a).
Definition ROpt (a : regex) : regex := RAlt a REmpty.
Definition RChr (c : ascii) : regex := RChar (Ascii.eqb c).
Fixpoint RLit (s : string) : regex :=
  match s with EmptyString => REmpty | String c s' => RSeq (RChr c) (RLit s') end.
(** A literal under the flag [icase]. *)
Fixpoint RLit_icase (s : string) : regex :=
  match s with
  | EmptyString => REmpty
  | String c s' => RSeq (RChar (fun d => Ascii.eqb (to_lower c) (to_lower d))) (RLit_icase s')
  end.
(** A negated character set. *)
Definition none_of (s : string) (c : ascii) : bool := negb (str_mem c s).
(** [\s] and [\w] of the C locale, and the dot. *)
Definition is_space (c : ascii) : bool := ((9 <=? code c)%N && (code c <=? 13)%N) || (code c =? 32)%N.
Definition is_word (c : ascii) : bool := is_digit c || is_upper c || is_lower c || Ascii.eqb c "_".
Definition is_dot (c : ascii) : bool := negb (Ascii.eqb c LF) && negb (Ascii.eqb c CR).

(** ** Matching *)

(** The text of each group that took part in the match. *)
Abbreviation captures := (gmap nat string).

(** [rmatch total r s caps k] matches [r] at the start of [s], the last part
    of an input of length [total], and continues with [k]; an iteration of a
    star must consume something. *)
Fixpoint rmatch {R} (total : nat) (r : regex) (s : string) (caps : captures)
    (k : string -> captures -> option R) : option R :=
  match r with
  | RChar p => match s with String c s' => if p c then k s' caps else None | EmptyString => None end
  | REmpty => k s caps
  | RSeq a b => rmatch total a s caps (fun s' caps' => rmatch total b s' caps' k)
  | RAlt a b => match rmatch total a s caps k with Some x => Some x | None => rmatch total b s caps k end
  | RStar a =>
    (fix star (n : nat) (s : string) (caps : captures) : option R :=
       match n with
       | O => k s caps
       | S n =>
         match rmatch total a s caps (fun s' caps' =>
                 if Nat.ltb (String.length s') (String.length s) then star n s' caps' else None) with
         | Some x => Some x
         | None => k s caps
         end
       end) (String.length s) s caps
  | RGroup n a =>
    rmatch total a s caps (fun s' caps' => k s' (<[n := str_take (String.length s - String.length s') s]> caps'))
  | RBegin => if Nat.eqb (String.length s) total then k s caps else None
  | REnd => match s with EmptyString => k s caps | _ => None end
  end.

(** [regex_search]: the leftmost position at which the expression matches. *)
Fixpoint search_from (total : nat) (r : regex) (s : string) : option captures :=
  match rmatch total r s ∅ (fun _ caps => Some caps) with
  | Some caps => Some caps
  | None => match s with EmptyString => None | String _ s' => search_from total r s' end
  end.
Definition regex_search (s : string) (r : regex) : option captures := search_from (String.length s) r s.
(** [regex_match]: the whole input. *)
Definition regex_match (s : string) (r : regex) : option captures :=
  rmatch (String.length s) r s ∅ (fun s' caps => if String.eqb s' "" then Some caps else None).
(** [mr[n]] as a string: empty when the group took no part. *)
Definition group (n : nat) (caps : captures) : string := default "" (caps !! n).

(** ** Lemmas *)

Section lemmas.
Context {R : Type} (total : nat).
Implicit Types (k : string -> captures -> option R) (s : string).

Lemma rmatch_lit p s caps k : rmatch total (RLit p) (p +:+ s) caps k = k s caps.
Proof.
  induction p as [|c p IH]; [done|]. rewrite str_app_cons. cbn. by rewrite Ascii.eqb_refl.
Qed.

Lemma rmatch_chr c s caps k : rmatch total (RChr c) (String c s) caps k = k s caps.
Proof. cbn. by rewrite Ascii.eqb_refl. Qed.

Lemma rmatch_chr_app c s caps k : rmatch total (RChr c) (String c "" +:+ s) caps k = k s caps.
Proof. apply rmatch_chr. Qed.

(** [y] does not start with a character of the class. *)
Definition stops (p : ascii -> bool) (y : string) : Prop :=
  match y with EmptyString => True | String c _ => p c = false end.

Lemma rmatch_chr_stops c y caps k : stops (Ascii.eqb c) y -> rmatch total (RChr c) y caps k = None.
Proof. destruct y as [|d y]; [done|]. cbn. by intros ->. Qed.

(** One unfolding of a star over a class. *)
Lemma star_class_cons p c s caps k :
  p c = true ->
  rmatch total (RStar (RChar p)) (String c s) caps k =
    match rmatch total (RStar (RChar p)) s caps k with Some x => Some x | None => k (String c s) caps end.
Proof.
  intros Hc. cbn [rmatch String.length]. rewrite Hc.
  assert (Nat.ltb (String.length s) (S (String.length s)) = true) as -> by (apply Nat.ltb_lt; lia). done.
Qed.
Lemma star_class_stop p y caps k : stops p y -> rmatch total (RStar (RChar p)) y caps k = k y caps.
Proof. destruct y as [|c y]; [done|]. cbn [rmatch String.length stops]. by intros ->. Qed.

(** The star takes [x] and gives back [z] when every longer choice fails. *)
Lemma star_class p x z y caps k r :
  str_forall p (x +:+ z) = true -> stops p y ->
  (forall z1 z2, z = z1 +:+ z2 -> z1 ≠ "" -> k (z2 +:+ y) caps = None) ->
  k (z +:+ y) caps = Some r ->
  rmatch total (RStar (RChar p)) (x +:+ z +:+ y) caps k = Some r.
Proof.
  intros Hp Hy Hz Hk. induction x as [|c x IH].
  - change ("" +:+ z +:+ y) with (z +:+ y). change ("" +:+ z) with z in Hp.
    clear -Hp Hy Hz Hk. destruct z as [|c z].
    { change ("" +:+ y) with y in *. by rewrite star_class_stop. }
    rewrite str_app_cons in *. cbn in Hp. apply andb_prop in Hp as [Hc Hp].
    rewrite star_class_cons by done.
    assert (rmatch total (RStar (RChar p)) (z +:+ y) caps k = None) as ->; [|done].
    assert (Hz' : forall z1 z2, z = z1 +:+ z2 -> k (z2 +:+ y) caps = None).
    { intros z1 z2 ->. apply (Hz (String c z1)); [done|done]. }
    clear Hz Hk. induction z as [|d z IH].
    { change ("" +:+ y) with y in *. rewrite star_class_stop by done. apply (Hz' "" ""). done. }
    rewrite str_app_cons. cbn in Hp. apply andb_prop in Hp as [Hd Hp]. rewrite star_class_cons by done.
    rewrite IH; [|done|intros z1 z2 ->; by apply (Hz' (String d z1))].
    by apply (Hz' "" (String d z)).
  - rewrite !str_app_cons in *. cbn in Hp. apply andb_prop in Hp as [Hc Hp].
    rewrite star_class_cons by done. by rewrite IH.
Qed.
(** It fails when every choice fails. *)
Lemma star_class_none p z y caps k :
  str_forall p z = true -> stops p y ->
  (forall z1 z2, z = z1 +:+ z2 -> k (z2 +:+ y) caps = None) ->
  rmatch total (RStar (RChar p)) (z +:+ y) caps k = None.
Proof.
  intros Hp Hy. induction z as [|d z IH]; intros Hz.
  { change ("" +:+ y) with y in *. rewrite star_class_stop by done. by apply (Hz "" ""). }
  rewrite str_app_cons. cbn in Hp. apply andb_prop in Hp as [Hd Hp]. rewrite star_class_cons by done.
  rewrite IH; [by apply (Hz "" (String d z))|done|]. intros z1 z2 ->. by apply (Hz (String d z1)).
Qed.

(** The greedy choice succeeds. *)
Lemma star_class_all p x y caps k r :
  str_forall p x = true -> stops p y -> k y caps = Some r ->
  rmatch total (RStar (RChar p)) (x +:+ y) caps k = Some r.
Proof.
  intros Hp Hy Hk. change (x +:+ y) with (x +:+ "" +:+ y). apply star_class; [by rewrite str_app_nil_r|done| |done].
  intros [|] z2 E ?; done.
Qed.
Lemma rmatch_plus_cons p c s caps k :
  rmatch total (RPlus (RChar p)) (String c s) caps k =
    if p c then rmatch total (RStar (RChar p)) s caps k else None.
Proof. done. Qed.
Lemma plus_class_all p x y caps k r :
  x ≠ "" -> str_forall p x = true -> stops p y -> k y caps = Some r ->
  rmatch total (RPlus (RChar p)) (x +:+ y) caps k = Some r.
Proof.
  intros Hx Hp Hy Hk. destruct x as [|c x]; [done|]. rewrite str_app_cons. cbn in Hp.
  apply andb_prop in Hp as [Hc Hp]. rewrite rmatch_plus_cons, Hc. by apply star_class_all.
Qed.

Lemma rmatch_opt_some a s caps k r : rmatch total a s caps k = Some r -> rmatch total (ROpt a) s caps k = Some r.
Proof. intros E. cbn. by rewrite E. Qed.
Lemma rmatch_opt_none a s caps k : rmatch total a s caps k = None -> rmatch total (ROpt a) s caps k = k s caps.
Proof. intros E. cbn. by rewrite E. Qed.

Lemma take_diff x y : str_take (String.length (x +:+ y) - String.length y) (x +:+ y) = x.
Proof. rewrite str_length_app, Nat.add_sub. apply str_take_app. Qed.
End lemmas.

Lemma search_at_start r s caps :
  rmatch (String.length s) r s ∅ (fun _ caps => Some caps) = Some caps -> regex_search s r = Some caps.
Proof. intros E. unfold regex_search. destruct s; cbn [search_from]; by rewrite E. Qed.

(** An expression anchored at the beginning is tried only there. *)
Lemma search_anchored r s :
  regex_search s (RSeq RBegin r) = rmatch (String.length s) r s ∅ (fun _ caps => Some caps).
Proof.
  assert (Hlater : forall n s', String.length s' < n -> search_from n (RSeq RBegin r) s' = None).
  { intros n s'. induction s' as [|c s' IH]; cbn [search_from rmatch]; intros Hl;
      rewrite (proj2 (Nat.eqb_neq _ _)) by lia; [done|]. apply IH. cbn in Hl. lia. }
  unfold regex_search. destruct s as [|c s]; cbn [search_from rmatch]; rewrite Nat.eqb_refl.
  - by destruct (rmatch _ _ _ _ _).
  - destruct (rmatch _ _ _ _ _); [done|]. apply Hlater. simpl. lia.
Qed.

(** Equations of [rmatch]. *)
Lemma rmatch_seq {R} t a b s caps (k : string -> captures -> option R) :
  rmatch t (RSeq a b) s caps k = rmatch t a s caps (fun s' caps' => rmatch t b s' caps' k).
Proof. done. Qed.
Lemma rmatch_alt {R} t a b s caps (k : string -> captures -> option R) :
  rmatch t (RAlt a b) s caps k = match rmatch t a s caps k with Some x => Some x | None => rmatch t b s caps k end.
Proof. done. Qed.
Lemma rmatch_group {R} t n a s caps (k : string -> captures -> option R) :
  rmatch t (RGroup n a) s caps k =
    rmatch t a s caps (fun s' caps' => k s' (<[n := str_take (String.length s - String.length s') s]> caps')).
Proof. done. Qed.
(** A group over a class that takes [x], all of it. *)
Lemma group_plus_all {R} t n p x y caps (k : string -> captures -> option R) r :
  x ≠ "" -> str_forall p x = true -> stops p y -> k y (<[n := x]> caps) = Some r ->
  rmatch t (RGroup n (RPlus (RChar p))) (x +:+ y) caps k = Some r.
Proof.
  intros Hx Hp Hy Hk. rewrite rmatch_group. apply plus_class_all; [done..|]. by rewrite take_diff.
Qed.
