(* ===== verification/BoostInstance.v ===== *)
(** A concrete instance of the Boost interface, which shows that its laws can
    hold together; only witnesses use it. *)
From S2P Require Import Prelude CppString.

(** [split] with [keep] the current token and [sep] the separator test. *)
Fixpoint split_at (sep : ascii -> bool) (s : string) : string * list string :=
  match s with
  | EmptyString => ("", [])
  | String c s' =>
    let '(t, ts) := split_at sep s' in
    if sep c then ("", t :: ts) else (String c t, ts)
  end.
Definition split_list (sep : ascii -> bool) (s : string) : list string :=
  let '(t, ts) := split_at sep s in t :: ts.
Definition nonempty_tokens (l : list string) : list string := filter (fun t => t ≠ "") l.
(** Adjacent separators count as one: only the first and the last token can
    be empty. *)
Definition compress (l : list string) : list string :=
  match l with
  | [] => []
  | t :: ts =>
    t :: nonempty_tokens ts ++ match last ts with Some "" => [""] | _ => [] end
  end.

Definition is_space (c : ascii) : bool := (code c =? 32)%N || ((9 <=? code c) && (code c <=? 13))%N.
Fixpoint trim_left (s : string) : string :=
  match s with String c s' => if is_space c then trim_left s' else s | EmptyString => "" end.
Definition str_rev (s : string) : string := String.string_of_list_ascii (rev (String.list_ascii_of_string s)).
Definition trim_both (s : string) : string := str_rev (trim_left (str_rev (trim_left s))).

Definition parse_digits (s : string) : option N :=
  if negb (String.eqb s "") && str_forall is_digit s then Some (dec_value s 0) else None.

#[export] Instance boost : Boost := {|
  split seps := split_list (fun c => str_mem c seps);
  split_compress seps s := compress (split_list (fun c => str_mem c seps) s);
  tokenizer seps s := nonempty_tokens (split_list (fun c => str_mem c seps) s);
  trim := trim_both;
  iequals s t := String.eqb (str_map to_lower s) (str_map to_lower t);
  to_lower_copy := str_map to_lower;
  replace_all_copy s from to :=
    match from, to with
    | String f "", String t "" => str_map (fun c => if Ascii.eqb c f then t else c) s
    | _, _ => s
    end;
  lexical_cast_int s := n ← parse_digits s; if (n <? 2 ^ 31)%N then Some (Z.of_N n) else None;
  lexical_cast_unsigned s := n ← parse_digits s; if (n <? 2 ^ 32)%N then Some n else None;
|}.

(** ** The laws *)

Lemma split_at_plain sep s : str_forall (fun c => negb (sep c)) s = true -> split_at sep s = (s, []).
Proof.
  induction s as [|c s IH]; [done|]. cbn [str_forall split_at]. intros [Hc Hs]%andb_true_iff.
  rewrite (IH Hs). by destruct (sep c).
Qed.

Lemma split_at_sep sep s c r :
  str_forall (fun c => negb (sep c)) s = true -> sep c = true ->
  split_at sep (s +:+ String c r) = (s, split_list sep r).
Proof.
  intros Hs Hc. induction s as [|d s IH].
  - change ("" +:+ String c r) with (String c r). unfold split_list. cbn [split_at]. rewrite Hc.
    by destruct (split_at sep r).
  - cbn [str_forall] in Hs. apply andb_true_iff in Hs as [Hd Hs]. rewrite str_app_cons. cbn [split_at].
    rewrite (IH Hs). by destruct (sep d).
Qed.

Lemma split_list_join sep c l :
  sep c = true -> l ≠ [] -> Forall (fun s => str_forall (fun c => negb (sep c)) s = true) l ->
  split_list sep (join (String c "") l) = l.
Proof.
  intros Hc Hne Hl. destruct Hl as [|s l Hs Hl]; [done|]. clear Hne. revert s Hs.
  induction Hl as [|s' l Hs' Hl IH]; intros s Hs.
  - unfold split_list. cbn [join]. by rewrite split_at_plain.
  - rewrite join_cons by done. unfold split_list. rewrite (str_app_cons c "").
    change ("" +:+ join (String c "") (s' :: l)) with (join (String c "") (s' :: l)).
    rewrite split_at_sep by done. by rewrite IH.
Qed.

Lemma no_sep_forall c s :
  no_sep (String c "") s -> str_forall (fun d => negb (str_mem d (String c ""))) s = true.
Proof. done. Qed.

Lemma nonempty_tokens_id l : Forall (fun s => s ≠ "") l -> nonempty_tokens l = l.
Proof.
  unfold nonempty_tokens. induction 1 as [|s l Hs Hl IH]; [done|].
  rewrite filter_cons_True by done. by rewrite IH.
Qed.

(** Lines joined by CRLF split at each of the two characters. *)
Lemma split_list_crlf l :
  l ≠ [] -> Forall (no_sep DR_CRLF) l ->
  split_list (fun c => str_mem c DR_CRLF) (join DR_CRLF l) =
    match l with [] => [] | s :: l' => s :: concat ((fun t => [""; t]) <$> l') end.
Proof.
  intros Hne Hl. destruct Hl as [|s l Hs Hl]; [done|]. clear Hne. revert s Hs.
  induction Hl as [|s' l Hs' Hl IH]; intros s Hs.
  - unfold split_list. cbn [join]. by rewrite split_at_plain.
  - rewrite join_cons by done. unfold split_list.
    change (DR_CRLF +:+ join DR_CRLF (s' :: l)) with (String CR ("" +:+ String LF (join DR_CRLF (s' :: l)))).
    rewrite split_at_sep by done. unfold split_list at 1. rewrite split_at_sep by done.
    rewrite IH by done. done.
Qed.

Lemma compress_lines s l :
  Forall (fun t => t ≠ "") l -> compress (s :: concat ((fun t => [""; t]) <$> l)) = s :: l.
Proof.
  intros Hl. cbn [compress]. f_equal.
  assert (nonempty_tokens (concat ((fun t => [""; t]) <$> l)) = l) as Hn.
  { unfold nonempty_tokens. induction Hl as [|t l Ht Hl IH]; [done|]. cbn [fmap list_fmap concat app].
    rewrite filter_cons_False by (intros E; by apply E). rewrite filter_cons_True by done.
    by rewrite IH. }
  rewrite Hn. destruct (list_rcons_cases l) as [->|(l' & t & ->)]; [done|].
  rewrite fmap_app, concat_app. cbn. rewrite last_app. cbn.
  apply Forall_app in Hl as [_ Ht]. apply Forall_cons in Ht as [Ht _].
  destruct t; [done|]. by rewrite app_nil_r.
Qed.

Lemma trim_left_solid s : str_forall (fun c => (32 <? code c)%N) s = true -> trim_left s = s.
Proof.
  destruct s as [|c s]; [done|]. cbn [str_forall trim_left]. intros [Hc%N.ltb_lt _]%andb_true_iff.
  unfold is_space. destruct (N.eqb_spec (code c) 32); [lia|].
  destruct (N.leb_spec (code c) 13); [lia|]. by rewrite andb_false_r.
Qed.

Lemma str_forall_rev p s : str_forall p (str_rev s) = str_forall p s.
Proof.
  assert (forall l, str_forall p (String.string_of_list_ascii l) = forallb p l) as Hf.
  { induction l as [|c l IH]; [done|]. cbn. by rewrite IH. }
  assert (str_forall p s = forallb p (String.list_ascii_of_string s)) as ->.
  { induction s as [|c s IH]; [done|]. cbn. by rewrite IH. }
  unfold str_rev. rewrite Hf. generalize (String.list_ascii_of_string s). intros l.
  induction l as [|c l IH]; [done|]. cbn. rewrite forallb_app, IH. cbn. rewrite andb_true_r. apply andb_comm.
Qed.

Lemma str_rev_involutive s : str_rev (str_rev s) = s.
Proof.
  unfold str_rev. rewrite String.list_ascii_of_string_of_list_ascii, rev_involutive.
  apply String.string_of_list_ascii_of_string.
Qed.

#[export] Instance boost_laws : BoostLaws.
Proof.
  constructor.
  - intros seps s. cbn. unfold split_list. by destruct (split_at _ s).
  - intros c l Hne Hl. apply split_list_join; [|done|done].
    unfold str_mem. cbn. by rewrite Ascii.eqb_refl.
  - intros l Hne Hl. cbn [split_compress boost]. rewrite split_list_crlf; [|done|by eapply Forall_impl; [exact Hl|intros ? [_ ?]]].
    destruct l as [|s l]; [done|]. apply compress_lines. apply Forall_cons in Hl as [_ Hl].
    eapply Forall_impl; [done|]. by intros ? [? _].
  - intros seps c l Hc Hne Hl. cbn [split_compress boost]. rewrite split_list_join;
      [|done|done|by eapply Forall_impl; [exact Hl|intros ? [_ ?]]].
    destruct l as [|s l]; [done|]. cbn [compress]. apply Forall_cons in Hl as [_ Hl].
    rewrite nonempty_tokens_id by (by eapply Forall_impl; [exact Hl|intros ? [? _]]).
    destruct (list_rcons_cases l) as [->|(l' & t & ->)]; [done|]. rewrite last_app. cbn.
    apply Forall_app in Hl as [_ [[Ht _] _]%Forall_cons]. destruct t; [done|]. by rewrite app_nil_r.
  - intros c l Hl. cbn [tokenizer boost]. destruct l as [|s l]; [done|].
    rewrite split_list_join; [|unfold str_mem; cbn; by rewrite Ascii.eqb_refl|done|].
    + apply nonempty_tokens_id. by eapply Forall_impl; [exact Hl|intros ? [? _]].
    + by eapply Forall_impl; [exact Hl|intros ? [_ ?]].
  - intros s _ Hs. cbn [trim boost]. unfold trim_both. rewrite (trim_left_solid s Hs).
    rewrite trim_left_solid by (by rewrite str_forall_rev). apply str_rev_involutive.
  - done.
  - intros s. apply String.eqb_refl.
  - done.
  - done.
  - done.
  - intros s n. cbn [lexical_cast_unsigned boost]. destruct (parse_digits s) as [m|]; [|done].
    cbn [mbind option_bind]. destruct (N.ltb_spec m (2 ^ 32)); [by intros [= <-]|done].
  - intros s Hne Hd Hlt. cbn [lexical_cast_unsigned boost]. unfold parse_digits.
    destruct (String.eqb_spec s ""); [done|]. rewrite Hd. cbn [negb andb mbind option_bind].
    by apply N.ltb_lt in Hlt as ->.
Qed.
