(* ===== verification/SipUri.v ===== *)
(** The functions of src/drachtio.cpp and src/sip-dialog-controller.cpp that
    are written with regular expressions: [parseSipUri], [FindCSeqMethod],
    [containsCseqUpdate] and the tag of a To header. *)
From S2P Require Import Prelude CppString Regex.

Section model.
Context `{Boost}.
Open Scope re.

(** ** SIP URIs *)

Definition host_class : regex := RPlus (RChar (none_of ";|^>:")).
Definition host6_class : regex :=
  RChr "[" · RPlus (RChar (fun c => is_digit c || ((97 <=? code c)%N && (code c <=? 102)%N)
                     || ((65 <=? code c)%N && (code c <=? 70)%N) || Ascii.eqb c ":")) · RChr "]".
Definition sip_uri_re (host : regex) : regex :=
  RBegin · ROpt (RChr "<") · RGroup 1 (RLit "sip" ∥ RLit "sips") · RChr ":" ·
  ROpt (RGroup 2 (RPlus (RChar (none_of ";"))) · RChr "@") ·
  RGroup 3 host · ROpt (RChr ":" · RGroup 4 (RPlus (RChar is_digit))) ·
  ROpt (RChr ";" · RGroup 5 (RPlus (RChar (none_of ">")))) · ROpt (RChr ">") · REnd.

(** The output parameters of [parseSipUri]. *)
Record sip_uri := SipUri {
  su_scheme : string;
  su_userpart : string;
  su_hostpart : string;
  su_port : string;
  su_params : list (string * string);
}.

Definition parse_param (s : string) : string * string :=
  let kv := split "=" s in (default "" (head kv), match kv with [_; v] => v | _ => "" end).
Definition parseSipUri (uri : string) : option sip_uri :=
  let mr := match regex_search uri (sip_uri_re host_class) with
            | Some mr => Some mr
            | None => regex_search uri (sip_uri_re host6_class)
            end in
  match mr with
  | None => None
  | Some mr =>
    let paramString := group 5 mr in
    Some (SipUri (group 1 mr) (group 2 mr) (group 3 mr) (group 4 mr)
      (if String.eqb paramString "" then [] else parse_param <$> split ";" paramString))
  end.

(** ** CSeq and tags *)

Definition FindCSeqMethod (headers : string) : option string :=
  group 1 <$> regex_search headers
    (RBegin · RLit "CSeq:" · RPlus (RChar is_space) · RPlus (RChar is_digit) · RPlus (RChar is_space) ·
     RGroup 1 (RPlus (RChar is_word)) · REnd).

Definition containsCseqUpdate (input : string) : bool :=
  bool_decide (is_Some (regex_search input
    ((RBegin ∥ RChr LF) · RLit_icase "cseq:" · RStar (RChar is_space) · RGroup 1 (RPlus (RChar is_digit)) ·
     RStar (RChar is_space) · RLit_icase "UPDATE"))).

(** The local tag that an application sets in the To header of a response. *)
Definition tag_of_to (toValue : string) : option string :=
  group 1 <$> regex_search toValue (RLit "tag=" · RGroup 1 (RStar (RChar is_dot))).
End model.

(** ** Printing and parsing back *)

Definition print_param (p : string * string) : string :=
  if String.eqb p.2 "" then p.1 else p.1 +:+ "=" +:+ p.2.
Definition print_uri (angle : bool) (u : sip_uri) : string :=
  (if angle then "<" else "") +:+ su_scheme u +:+ ":" +:+
  (if String.eqb (su_userpart u) "" then "" else su_userpart u +:+ "@") +:+
  su_hostpart u +:+
  (if String.eqb (su_port u) "" then "" else ":" +:+ su_port u) +:+
  (if bool_decide (su_params u = []) then "" else ";" +:+ join ";" (print_param <$> su_params u)) +:+
  (if angle then ">" else "").

(** The URIs of the grammar that the first expression is written for. *)
Record wf_uri (u : sip_uri) : Prop := WfUri {
  wf_scheme : su_scheme u = "sip" \/ su_scheme u = "sips";
  wf_user : str_mem ";" (su_userpart u) = false;
  wf_host : su_hostpart u ≠ "" /\ str_forall (none_of ";|^>:@") (su_hostpart u) = true;
  wf_port : str_forall is_digit (su_port u) = true;
  wf_params : Forall (fun p => p.1 ≠ "" /\ str_forall (none_of ";=>") p.1 = true /\
                               str_forall (none_of ";=>") p.2 = true) (su_params u);
}.

Lemma none_of_mem c set s : str_mem c set = true -> str_forall (none_of set) s = true -> str_mem c s = false.
Proof.
  intros Hc. unfold str_mem at 1. induction s as [|d s IH]; [done|]. cbn [str_forall]. intros [Hd Hs]%andb_prop.
  cbn [str_forall]. rewrite negb_andb, (IH Hs), orb_false_r, negb_involutive.
  destruct (Ascii.eqb_spec c d) as [->|]; [|done]. unfold none_of in Hd. by rewrite Hc in Hd.
Qed.
Lemma mem_none_of c s : str_mem c s = false -> str_forall (none_of (String c "")) s = true.
Proof.
  unfold str_mem. intros Hs%negb_false_iff. induction s as [|d s IH]; [done|]. cbn [str_forall] in *.
  apply andb_prop in Hs as [Hd Hs]. rewrite IH by done. rewrite andb_true_r. unfold none_of, str_mem. cbn.
  rewrite andb_true_r, negb_involutive. by rewrite Ascii.eqb_sym.
Qed.
Lemma forall_weaken (p q : ascii -> bool) s :
  (forall c, p c = true -> q c = true) -> str_forall p s = true -> str_forall q s = true.
Proof.
  intros Hpq. induction s as [|c s IH]; [done|]. cbn. intros [Hc Hs]%andb_prop. by rewrite (Hpq c Hc), IH.
Qed.
Lemma none_of_weaken set set' s :
  (forall c, str_mem c set' = true -> str_mem c set = true) ->
  str_forall (none_of set) s = true -> str_forall (none_of set') s = true.
Proof.
  intros Hsub. apply forall_weaken. intros c. unfold none_of. specialize (Hsub c).
  destruct (str_mem c set'); [|done]. by rewrite Hsub.
Qed.

Section roundtrip.
Context {R : Type} (t : nat).
Implicit Types (k : string -> captures -> option R) (caps : captures).

Definition cap_if (n : nat) (s : string) (caps : captures) : captures :=
  if String.eqb s "" then caps else <[n := s]> caps.
(** [s] behind the character [c], nothing when it is empty. *)
Definition behind (c : ascii) (s : string) : string := if String.eqb s "" then "" else String c s.
Definition closing (angle : bool) : string := if angle then ">" else "".

Lemma behind_stops p c s y : p c = false -> stops p y -> stops p (behind c s +:+ y).
Proof. unfold behind. by destruct (String.eqb_spec s ""). Qed.

(** An optional part behind a separator. *)
Lemma opt_part c n p s y caps k r :
  str_forall p s = true -> stops p y -> stops (Ascii.eqb c) y ->
  k y (cap_if n s caps) = Some r ->
  rmatch t (ROpt (RSeq (RChr c) (RGroup n (RPlus (RChar p))))) (behind c s +:+ y) caps k = Some r.
Proof.
  unfold behind, cap_if. intros Hs Hp Hc Hk. destruct (String.eqb_spec s "") as [->|Hne].
  - rewrite rmatch_opt_none; [done|]. rewrite rmatch_seq. by apply rmatch_chr_stops.
  - apply rmatch_opt_some. rewrite rmatch_seq, str_app_cons, rmatch_chr. by apply group_plus_all.
Qed.

Lemma closing_match angle caps (k : string -> captures -> option R) r :
  k "" caps = Some r -> rmatch t (RSeq (ROpt (RChr ">")) REnd) (closing angle) caps k = Some r.
Proof. intros E. destruct angle; cbn; by rewrite E. Qed.

(** The optional user part: greedy up to the last [@] before the parameters. *)
Lemma user_part user hp y caps k r :
  str_mem ";" user = false -> str_mem ";" hp = false -> str_mem "@" hp = false ->
  stops (none_of ";") y -> stops (Ascii.eqb "@") y ->
  k (hp +:+ y) (cap_if 2 user caps) = Some r ->
  rmatch t (ROpt (RSeq (RGroup 2 (RPlus (RChar (none_of ";")))) (RChr "@")))
    ((if String.eqb user "" then "" else user +:+ "@") +:+ hp +:+ y) caps k = Some r.
Proof.
  intros Hu Hh Ha Hy Hay Hk. pose proof (mem_none_of _ _ Hu) as Hu'. pose proof (mem_none_of _ _ Hh) as Hh'.
  assert (Hno : forall z1 z2 caps', hp = z1 +:+ z2 -> rmatch t (RChr "@") (z2 +:+ y) caps' k = None).
  { intros z1 z2 caps' ->. apply rmatch_chr_stops. rewrite str_mem_app in Ha. apply orb_false_iff in Ha as [_ Ha].
    destruct z2 as [|d z2]; [done|]. unfold str_mem in Ha. cbn [str_forall] in Ha. rewrite str_app_cons.
    cbn [stops]. by destruct (Ascii.eqb "@" d). }
  unfold cap_if in Hk. destruct (String.eqb_spec user "") as [->|Hne].
  - change ("" +:+ hp +:+ y) with (hp +:+ y). rewrite rmatch_opt_none; [done|].
    rewrite rmatch_seq, rmatch_group. destruct hp as [|c hp].
    { destruct y as [|d y]; [done|]. cbn [stops] in Hy. change ("" +:+ String d y) with (String d y).
      by rewrite rmatch_plus_cons, Hy. }
    rewrite str_app_cons, rmatch_plus_cons. cbn [str_forall] in Hh'. apply andb_prop in Hh' as [-> Hh'].
    apply star_class_none; [done..|]. intros z1 z2 ->. apply (Hno (String c z1)). done.
  - apply rmatch_opt_some. rewrite rmatch_seq, rmatch_group. destruct user as [|c user]; [done|].
    rewrite str_app_assoc, str_app_cons, rmatch_plus_cons. cbn [str_forall] in Hu'.
    apply andb_prop in Hu' as [-> Hu'].
    replace (user +:+ "@" +:+ hp +:+ y) with (user +:+ ("@" +:+ hp) +:+ y) by (by rewrite !str_app_assoc).
    apply star_class.
    + rewrite !str_forall_app, Hu'. exact Hh'.
    + done.
    + intros [|d z1] z2 E ?; [done|]. apply (Hno z1). rewrite str_app_cons in E. by inversion E.
    + rewrite !str_app_assoc. change ("@" +:+ hp +:+ y) with (String "@" (hp +:+ y)). rewrite rmatch_chr.
      rewrite <-(str_app_cons c user), take_diff. done.
Qed.
End roundtrip.

Section parse.
Context `{BoostLaws}.

Lemma parse_print_param p :
  str_forall (none_of ";=>") p.1 = true -> str_forall (none_of ";=>") p.2 = true ->
  parse_param (print_param p) = p.
Proof.
  destruct p as [a b]. cbn. intros Ha Hb. unfold parse_param, print_param. cbn.
  assert (Hs : forall s, str_forall (none_of ";=>") s = true -> no_sep "=" s).
  { intros s. unfold no_sep. apply none_of_weaken. intros c. unfold str_mem. cbn.
    by destruct (Ascii.eqb c ";"), (Ascii.eqb c "="). }
  destruct (String.eqb_spec b "") as [->|].
  - by rewrite (split_join "=" [a]) by (constructor || done; eauto).
  - rewrite (split_join "=" [a; b]); [done|done|]. eauto.
Qed.

Lemma print_param_class (p : string * string) :
  p.1 ≠ "" /\ str_forall (none_of ";=>") p.1 = true /\ str_forall (none_of ";=>") p.2 = true ->
  print_param p ≠ "" /\ str_forall (none_of ";>") (print_param p) = true.
Proof.
  destruct p as [a b]. cbn. intros (Ha & H1 & H2). unfold print_param. cbn.
  assert (Hs : forall s, str_forall (none_of ";=>") s = true -> str_forall (none_of ";>") s = true).
  { intros s. apply none_of_weaken. intros c. unfold str_mem. cbn.
    by destruct (Ascii.eqb c ";"), (Ascii.eqb c "="), (Ascii.eqb c ">"). }
  destruct (String.eqb_spec b "") as [->|]; [by auto|]. split; [by destruct a|].
  rewrite !str_forall_app, (Hs a), (Hs b) by done. done.
Qed.

Lemma join_class sep l p :
  str_forall p sep = true -> Forall (fun s => str_forall p s = true) l -> str_forall p (join sep l) = true.
Proof.
  intros Hsep. induction 1 as [|s l Hs Hl IH]; [done|]. destruct l as [|s' l]; [done|].
  rewrite join_cons by done. by rewrite !str_forall_app, Hs, Hsep, IH.
Qed.

Definition wf_param (p : string * string) : Prop :=
  p.1 ≠ "" /\ str_forall (none_of ";=>") p.1 = true /\ str_forall (none_of ";=>") p.2 = true.
Lemma print_params_class params :
  Forall wf_param params ->
  Forall (fun s => s ≠ "" /\ str_forall (none_of ";>") s = true) (print_param <$> params).
Proof. intros Hps. apply Forall_fmap. eapply Forall_impl; [exact Hps|]. intros x Hx. by apply print_param_class. Qed.
Lemma params_text params : Forall wf_param params -> join ";" (print_param <$> params) = "" <-> params = [].
Proof.
  intros Hps%print_params_class. destruct params as [|p l]; [done|]. split; [|done].
  rewrite fmap_cons in *. apply Forall_cons in Hps as [[Hp _] _]. destruct l; [done|].
  rewrite fmap_cons, join_cons by done. by destruct (print_param p).
Qed.

(** The captures of a well-formed URI. *)
Definition uri_captures (u : sip_uri) : captures :=
  cap_if 5 (join ";" (print_param <$> su_params u)) (cap_if 4 (su_port u)
    (<[3 := su_hostpart u]> (cap_if 2 (su_userpart u) (<[1 := su_scheme u]> ∅)))).

Lemma uri_tail t angle port ps caps :
  str_forall is_digit port = true -> str_forall (none_of ">") ps = true ->
  rmatch t (RSeq (ROpt (RSeq (RChr ":") (RGroup 4 (RPlus (RChar is_digit)))))
    (RSeq (ROpt (RSeq (RChr ";") (RGroup 5 (RPlus (RChar (none_of ">")))))) (RSeq (ROpt (RChr ">")) REnd)))
    (behind ":" port +:+ behind ";" ps +:+ closing angle) caps (fun _ caps => Some caps)
  = Some (cap_if 5 ps (cap_if 4 port caps)).
Proof.
  intros Hport Hps. rewrite rmatch_seq.
  apply opt_part; [done|by apply behind_stops; [|destruct angle]..|].
  rewrite rmatch_seq. apply opt_part; [done|by destruct angle|by destruct angle|].
  by apply closing_match.
Qed.

Lemma host_stops port ps angle :
  stops (none_of ";|^>:") (behind ":" port +:+ behind ";" ps +:+ closing angle).
Proof. apply behind_stops; [done|]. apply behind_stops; [done|]. by destruct angle. Qed.

Lemma scheme_match {R} t scheme s caps (k : string -> captures -> option R) r :
  scheme = "sip" \/ scheme = "sips" -> k s (<[1 := scheme]> caps) = Some r ->
  rmatch t (RSeq (RGroup 1 (RAlt (RLit "sip") (RLit "sips"))) (RChr ":")) (scheme +:+ String ":" s) caps k = Some r.
Proof.
  intros Hs Hk. rewrite rmatch_seq, rmatch_group, rmatch_alt.
  destruct Hs as [-> | ->].
  - rewrite rmatch_lit, rmatch_chr, (take_diff "sip" (String ":" s)). by rewrite Hk.
  - change ("sips" +:+ String ":" s) with ("sip" +:+ (String "s" (String ":" s))) at 1 2.
    rewrite rmatch_lit, rmatch_chr_stops by done. rewrite rmatch_lit, rmatch_chr.
    by rewrite (take_diff "sips" (String ":" s)).
Qed.

Lemma port_mem c port :
  c = ";"%char \/ c = "@"%char -> str_forall is_digit port = true -> str_mem c (behind ":" port) = false.
Proof.
  intros Hc Hp. unfold behind. destruct (String.eqb _ _); [done|].
  assert (Hd : str_mem c port = false); [|by destruct Hc as [-> | ->]].
  induction port as [|d s IH]; [done|]. cbn [str_forall] in Hp. apply andb_prop in Hp as [Hd Hp].
  specialize (IH Hp). unfold str_mem in *. cbn [str_forall].
  destruct (Ascii.eqb_spec c d) as [->|]; [|done]. by destruct Hc as [-> | ->].
Qed.

(** The text of a URI is its scheme, then the part the user expression sees. *)
Lemma uri_body_match t u angle ps caps :
  wf_uri u -> str_forall (none_of ">") ps = true ->
  rmatch t (RSeq (ROpt (RSeq (RGroup 2 (RPlus (RChar (none_of ";")))) (RChr "@")))
    (RSeq (RGroup 3 host_class) (RSeq (ROpt (RSeq (RChr ":") (RGroup 4 (RPlus (RChar is_digit)))))
      (RSeq (ROpt (RSeq (RChr ";") (RGroup 5 (RPlus (RChar (none_of ">")))))) (RSeq (ROpt (RChr ">")) REnd)))))
    ((if String.eqb (su_userpart u) "" then "" else su_userpart u +:+ "@") +:+
     su_hostpart u +:+ behind ":" (su_port u) +:+ behind ";" ps +:+ closing angle) caps (fun _ caps => Some caps)
  = Some (cap_if 5 ps (cap_if 4 (su_port u) (<[3 := su_hostpart u]> (cap_if 2 (su_userpart u) caps)))).
Proof.
  intros [Hs Hu [Hh1 Hh2] Hp _] Hps. rewrite rmatch_seq.
  set (y := if String.eqb ps "" then "" else behind ";" ps +:+ closing angle).
  set (hp := su_hostpart u +:+ behind ":" (su_port u) +:+ if String.eqb ps "" then closing angle else "").
  replace (su_hostpart u +:+ behind ":" (su_port u) +:+ behind ";" ps +:+ closing angle) with (hp +:+ y); cycle 1.
  { unfold hp, y, behind. destruct (String.eqb_spec ps "") as [->|]; rewrite ?str_app_nil_r, ?str_app_assoc; done. }
  assert (Hno : forall c, str_mem c ";@" = true -> str_mem c hp = false).
  { intros c Hc. unfold hp.
    assert (c = ";"%char \/ c = "@"%char) as Hcc.
    { revert Hc. unfold str_mem. cbn. destruct (Ascii.eqb_spec c ";"), (Ascii.eqb_spec c "@"); (by auto) || done. }
    clear Hc. assert (str_mem c (su_hostpart u) = false) as Hch.
    { apply (none_of_mem c ";|^>:@"); [|done]. by destruct Hcc as [-> | ->]. }
    rewrite !str_mem_app, Hch, (port_mem c) by done. cbn [orb].
    destruct (String.eqb ps ""), angle; by destruct Hcc as [-> | ->]. }
  apply user_part; [done|by apply Hno..| | |].
  1,2: unfold y, behind; by destruct (String.eqb_spec ps "").
  rewrite rmatch_seq. unfold hp. rewrite !str_app_assoc. apply group_plus_all; [done| | |].
  - revert Hh2. apply none_of_weaken. intros c. unfold str_mem. cbn.
    by destruct (Ascii.eqb c ";"), (Ascii.eqb c "|"), (Ascii.eqb c "^"), (Ascii.eqb c ">"), (Ascii.eqb c ":"), (Ascii.eqb c "@").
  - unfold y, behind. destruct (String.eqb (su_port u) ""), (String.eqb ps ""), angle; done.
  - replace (behind ":" (su_port u) +:+ (if String.eqb ps "" then closing angle else "") +:+ y)
      with (behind ":" (su_port u) +:+ behind ";" ps +:+ closing angle); [by apply uri_tail|].
    unfold y, behind. destruct (String.eqb_spec ps "") as [->|]; rewrite ?str_app_nil_r; done.
Qed.

Lemma uri_from_scheme t u angle ps caps :
  wf_uri u -> str_forall (none_of ">") ps = true ->
  rmatch t (RSeq (RGroup 1 (RAlt (RLit "sip") (RLit "sips"))) (RSeq (RChr ":")
    (RSeq (ROpt (RSeq (RGroup 2 (RPlus (RChar (none_of ";")))) (RChr "@")))
    (RSeq (RGroup 3 host_class) (RSeq (ROpt (RSeq (RChr ":") (RGroup 4 (RPlus (RChar is_digit)))))
      (RSeq (ROpt (RSeq (RChr ";") (RGroup 5 (RPlus (RChar (none_of ">")))))) (RSeq (ROpt (RChr ">")) REnd)))))))
    (su_scheme u +:+ ":" +:+ (if String.eqb (su_userpart u) "" then "" else su_userpart u +:+ "@") +:+
     su_hostpart u +:+ behind ":" (su_port u) +:+ behind ";" ps +:+ closing angle) caps (fun _ caps => Some caps)
  = Some (cap_if 5 ps (cap_if 4 (su_port u) (<[3 := su_hostpart u]> (cap_if 2 (su_userpart u) (<[1 := su_scheme u]> caps))))).
Proof.
  intros Hw Hps.
  exact (scheme_match t (su_scheme u) _ caps (fun s caps => rmatch t _ s caps _) _ (wf_scheme _ Hw)
    (uri_body_match t u angle ps _ Hw Hps)).
Qed.

Lemma group_cap_if n s caps : group n caps = "" -> group n (cap_if n s caps) = s.
Proof.
  unfold group, cap_if. destruct (String.eqb_spec s "") as [->|]; [done|]. by rewrite lookup_insert_eq.
Qed.
Lemma group_cap_if_ne n m s caps : n ≠ m -> group n (cap_if m s caps) = group n caps.
Proof.
  intros Hn. unfold group, cap_if. destruct (String.eqb s ""); [done|]. by rewrite lookup_insert_ne.
Qed.
Lemma group_insert n s caps : group n (<[n := s]> caps) = s.
Proof. unfold group. by rewrite lookup_insert_eq. Qed.
Lemma group_insert_ne n m s caps : n ≠ m -> group n (<[m := s]> caps) = group n caps.
Proof. intros Hn. unfold group. by rewrite lookup_insert_ne. Qed.

Lemma uri_of_captures u :
  wf_uri u ->
  SipUri (group 1 (uri_captures u)) (group 2 (uri_captures u)) (group 3 (uri_captures u)) (group 4 (uri_captures u))
    (if String.eqb (group 5 (uri_captures u)) "" then [] else parse_param <$> split ";" (group 5 (uri_captures u))) = u.
Proof.
  intros Hw. unfold uri_captures.
  repeat (first [rewrite group_cap_if_ne by done | rewrite group_insert_ne by done | rewrite group_insert
                | rewrite group_cap_if by (repeat first [rewrite group_cap_if_ne by done | rewrite group_insert_ne by done]; done)]).
  pose proof (wf_params _ Hw) as Hps. destruct u as [scheme user host port params]. cbn in *. f_equal.
  destruct params as [|p l]; [done|].
  pose proof (print_params_class _ Hps) as Hcl. pose proof (params_text _ Hps) as Hne.
  destruct (String.eqb_spec (join ";" (print_param <$> p :: l)) "") as [E|_]; [by apply Hne in E|].
  rewrite split_join; [|done|]; cycle 1.
  { eapply Forall_impl; [exact Hcl|]. intros s [_ Hs]. unfold no_sep. revert Hs. apply none_of_weaken.
    intros c. unfold str_mem. cbn. by destruct (Ascii.eqb c ";"), (Ascii.eqb c ">"). }
  rewrite <-list_fmap_compose. clear -Hps H0. induction Hps as [|x xs (_ & H1 & H2) Hxs IH]; [done|].
  cbn. f_equal; [by apply parse_print_param|done].
Qed.

(** C40: Parsing the text of a SIP URI gives back its scheme, user, host, port
    and parameters, with or without angle brackets; the first expression of
    [parseSipUri] is enough for hosts other than IPv6 addresses. *)
Theorem parseSipUri_roundtrip angle u : wf_uri u -> parseSipUri (print_uri angle u) = Some u.
Proof.
  intros Hw. pose proof (wf_params _ Hw) as Hps. set (ps := join ";" (print_param <$> su_params u)).
  pose proof (print_params_class _ Hps) as Hcl.
  assert (Hps1 : str_forall (none_of ">") ps = true).
  { apply join_class; [done|]. eapply Forall_impl; [exact Hcl|]. intros s [_ Hs]. revert Hs.
    apply none_of_weaken. intros c. unfold str_mem. cbn. by destruct (Ascii.eqb c ">"), (Ascii.eqb c ";"). }
  pose proof (params_text _ Hps : ps = "" <-> _) as Hnil.
  assert (Hre : regex_search (print_uri angle u) (sip_uri_re host_class) = Some (uri_captures u)).
  { unfold sip_uri_re. rewrite search_anchored. set (total := String.length _). clearbody total.
    unfold print_uri. fold ps. rewrite rmatch_seq.
    match goal with |- context [su_hostpart u +:+ ?b] => set (body := su_hostpart u +:+ b) end.
    assert (body = su_hostpart u +:+ behind ":" (su_port u) +:+ behind ";" ps +:+ closing angle) as ->.
    { unfold body, behind, closing. f_equal. f_equal. f_equal.
      destruct (String.eqb_spec ps "") as [E|E]; [by rewrite bool_decide_eq_true_2 by by apply Hnil|].
      by rewrite bool_decide_eq_false_2 by (by intros ?%Hnil). }
    assert (Hgo : forall caps, rmatch total (RSeq (RGroup 1 (RAlt (RLit "sip") (RLit "sips"))) (RSeq (RChr ":") _))
       _ caps _ = _) by (intros caps; apply (uri_from_scheme total u angle ps caps Hw Hps1)).
    destruct angle.
    - apply rmatch_opt_some. apply Hgo.
    - rewrite rmatch_opt_none; [apply Hgo|]. by destruct (wf_scheme _ Hw) as [-> | ->]. }
  unfold parseSipUri. rewrite Hre. f_equal. by apply uri_of_captures.
Qed.
End parse.


(** ** [FindCSeqMethod] *)

Lemma rmatch_lit_inv {R} t p s caps (k : string -> captures -> option R) r :
  rmatch t (RLit p) s caps k = Some r -> exists s', s = p +:+ s' /\ k s' caps = Some r.
Proof.
  revert s. induction p as [|c p IH]; intros s; cbn; [by exists s|].
  destruct s as [|d s]; [done|]. destruct (Ascii.eqb_spec c d) as [->|]; [|done].
  intros (s' & -> & Hk)%IH. by exists s'.
Qed.
Lemma star_class_inv {R} t p s caps (k : string -> captures -> option R) r :
  rmatch t (RStar (RChar p)) s caps k = Some r ->
  exists x y, s = x +:+ y /\ str_forall p x = true /\ k y caps = Some r.
Proof.
  induction s as [|c s IH]; [intros E; by exists "", ""|]. destruct (p c) eqn:Hc.
  - rewrite star_class_cons by done. destruct (rmatch t _ s caps k) eqn:E.
    + intros [= <-]. destruct (IH eq_refl) as (x & y & -> & Hx & Hy). exists (String c x), y.
      split_and!; [done| |done]. cbn. by rewrite Hc.
    + intros Hk. by exists "", (String c s).
  - rewrite star_class_stop by done. intros Hk. by exists "", (String c s).
Qed.
Lemma plus_class_inv {R} t p s caps (k : string -> captures -> option R) r :
  rmatch t (RPlus (RChar p)) s caps k = Some r ->
  exists x y, s = x +:+ y /\ str_forall p x = true /\ k y caps = Some r.
Proof.
  destruct s as [|c s]; [done|]. rewrite rmatch_plus_cons. destruct (p c) eqn:Hc; [|done].
  intros (x & y & -> & Hx & Hy)%star_class_inv. exists (String c x), y. cbn. by rewrite Hc.
Qed.

Lemma class_mem p c s : p c = false -> str_forall p s = true -> str_mem c s = false.
Proof.
  intros Hc. unfold str_mem. induction s as [|d s IH]; [done|]. cbn. intros [Hd Hs]%andb_prop.
  specialize (IH Hs). destruct (Ascii.eqb_spec c d) as [->|]; [congruence|done].
Qed.

(** [FindCSeqMethod] finds a method only in headers that consist of the
    CSeq header alone: its expression is anchored at both ends of the text, so
    a second colon anywhere behind the first five characters, which every
    second header has, makes it fail. *)
Theorem FindCSeqMethod_single_header :
  (forall headers m, FindCSeqMethod headers = Some m ->
     exists rest, headers = "CSeq:" +:+ rest /\ str_mem ":" rest = false) /\
  (forall a b, 5 <= String.length a -> str_mem ":" b = true -> FindCSeqMethod (a +:+ b) = None) /\
  FindCSeqMethod "CSeq: 2 CANCEL" = Some "CANCEL" /\
  FindCSeqMethod ("CSeq: 2 CANCEL" +:+ DR_CRLF +:+ "Via: SIP/2.0/UDP a") = None.
Proof.
  assert (Hone : forall h m, FindCSeqMethod h = Some m -> exists rest, h = "CSeq:" +:+ rest /\ str_mem ":" rest = false).
  { intros h m. unfold FindCSeqMethod. rewrite search_anchored.
    destruct (rmatch _ _ _ _ _) as [caps|] eqn:E; [|done]. intros _. rewrite rmatch_seq in E.
    apply rmatch_lit_inv in E as (s1 & -> & E). exists s1. split; [done|]. cbv beta in E.
    rewrite rmatch_seq in E. apply plus_class_inv in E as (x1 & s2 & -> & H1 & E).
    rewrite rmatch_seq in E. apply plus_class_inv in E as (x2 & s3 & -> & H2 & E).
    rewrite rmatch_seq in E. apply plus_class_inv in E as (x3 & s4 & -> & H3 & E).
    rewrite rmatch_seq, rmatch_group in E. apply plus_class_inv in E as (x4 & s5 & -> & H4 & E).
    destruct s5; [|done]. rewrite !str_mem_app.
    by rewrite (class_mem _ ":" _ eq_refl H1), (class_mem _ ":" _ eq_refl H2), (class_mem _ ":" _ eq_refl H3),
      (class_mem _ ":" _ eq_refl H4). }
  split_and!; [exact Hone| |by vm_compute..]. intros a b Ha Hb.
  destruct (FindCSeqMethod (a +:+ b)) as [m|] eqn:E; [|done].
  apply Hone in E as (rest & E & Hr). exfalso.
  assert (rest = str_drop 5 a +:+ b) as ->.
  { do 5 (destruct a as [|? a]; [simpl in Ha; lia|]). rewrite !str_app_cons in E. by inversion E. }
  rewrite str_mem_app, Hb, orb_true_r in Hr. done.
Qed.
