(* ===== verification/TextUtil.v ===== *)
(** Model of the message and header utilities of src/drachtio.cpp and
    src/drachtio.h: header tables, start line and header parsing, and the
    small string functions. *)
From S2P Require Import Prelude CppString.

(** ** Tables *)

(** [tag_type_t]: the tags the program compares with by name, and the tag of
    a well-known header by the name of its symbol. *)
Inductive tag_type_t :=
  | tag_null
  | tag_skip
  | siptag_unknown_str
  | siptag (symbol : string).
#[export] Instance tag_type_eq_dec : EqDecision tag_type_t.
Proof. solve_decision. Defined.

Inductive sip_method_t :=
  | sip_method_invalid | sip_method_unknown | sip_method_invite | sip_method_ack
  | sip_method_cancel | sip_method_bye | sip_method_options | sip_method_register
  | sip_method_info | sip_method_prack | sip_method_update | sip_method_message
  | sip_method_subscribe | sip_method_notify | sip_method_refer | sip_method_publish.
#[export] Instance sip_method_eq_dec : EqDecision sip_method_t.
Proof. solve_decision. Defined.

(** An [unordered_map] built from an initializer list keeps the first of two
    entries with one key. *)
Definition map_of_inits {V} (l : list (string * V)) : gmap string V :=
  foldl (fun m kv => match m !! kv.1 with Some _ => m | None => <[kv.1 := kv.2]> m end) ∅ l.

Definition hdr2tag_inits : list (string * tag_type_t) :=
  [
    ("user_agent", siptag "siptag_user_agent_str"); ("subject", siptag "siptag_subject_str");
    ("max_forwards", siptag "siptag_max_forwards_str");
    ("proxy_require", siptag "siptag_proxy_require_str");
    ("accept_contact", siptag "siptag_accept_contact_str");
    ("reject_contact", siptag "siptag_reject_contact_str");
    ("expires", siptag "siptag_expires_str"); ("date", siptag "siptag_date_str");
    ("retry_after", siptag "siptag_retry_after_str");
    ("timestamp", siptag "siptag_timestamp_str");
    ("min_expires", siptag "siptag_min_expires_str"); ("priority", siptag "siptag_priority_str");
    ("call_info", siptag "siptag_call_info_str");
    ("organization", siptag "siptag_organization_str"); ("server", siptag "siptag_server_str");
    ("in_reply_to", siptag "siptag_in_reply_to_str"); ("accept", siptag "siptag_accept_str");
    ("accept_encoding", siptag "siptag_accept_encoding_str");
    ("accept_language", siptag "siptag_accept_language_str");
    ("allow", siptag "siptag_allow_str"); ("require", siptag "siptag_require_str");
    ("supported", siptag "siptag_supported_str");
    ("unsupported", siptag "siptag_unsupported_str"); ("event", siptag "siptag_event_str");
    ("allow_events", siptag "siptag_allow_events_str");
    ("subscription_state", siptag "siptag_subscription_state_str");
    ("proxy_authenticate", siptag "siptag_proxy_authenticate_str");
    ("proxy_authentication_info", siptag "siptag_proxy_authentication_info_str");
    ("proxy_authorization", siptag "siptag_proxy_authorization_str");
    ("authorization", siptag "siptag_authorization_str");
    ("www_authenticate", siptag "siptag_www_authenticate_str");
    ("authentication_info", siptag "siptag_authentication_info_str");
    ("error_info", siptag "siptag_error_info_str"); ("warning", siptag "siptag_warning_str");
    ("refer_to", siptag "siptag_refer_to_str"); ("referred_by", siptag "siptag_referred_by_str");
    ("replaces", siptag "siptag_replaces_str");
    ("session_expires", siptag "siptag_session_expires_str");
    ("min_se", siptag "siptag_min_se_str"); ("path", siptag "siptag_path_str");
    ("service_route", siptag "siptag_service_route_str"); ("reason", siptag "siptag_reason_str");
    ("security_client", siptag "siptag_security_client_str");
    ("security_server", siptag "siptag_security_server_str");
    ("security_verify", siptag "siptag_security_verify_str");
    ("privacy", siptag "siptag_privacy_str"); ("sip_etag", siptag "siptag_etag_str");
    ("sip_if_match", siptag "siptag_if_match_str");
    ("mime_version", siptag "siptag_mime_version_str");
    ("content_type", siptag "siptag_content_type_str");
    ("content_encoding", siptag "siptag_content_encoding_str");
    ("content_language", siptag "siptag_content_language_str");
    ("content_disposition", siptag "siptag_content_disposition_str");
    ("request_disposition", siptag "siptag_request_disposition_str");
    ("error", siptag "siptag_error_str"); ("refer_sub", siptag "siptag_refer_sub_str");
    ("alert_info", siptag "siptag_alert_info_str"); ("reply_to", siptag "siptag_reply_to_str");
    ("p_asserted_identity", siptag "siptag_p_asserted_identity_str");
    ("p_preferred_identity", siptag "siptag_p_preferred_identity_str");
    ("remote_party_id", siptag "siptag_remote_party_id_str");
    ("payload", siptag "siptag_payload_str"); ("from", siptag "siptag_from_str");
    ("to", siptag "siptag_to_str"); ("call_id", siptag "siptag_call_id_str");
    ("cseq", siptag "siptag_cseq_str"); ("via", siptag "siptag_via_str");
    ("route", siptag "siptag_route_str"); ("contact", siptag "siptag_contact_str");
    ("from", siptag "siptag_from_str"); ("to", siptag "siptag_to_str");
    ("rseq", siptag "siptag_rseq_str"); ("rack", siptag "siptag_rack_str");
    ("record_route", siptag "siptag_record_route_str");
    ("content_length", siptag "siptag_content_length_str")
  ].
Definition m_mapHdr2Tag : gmap string tag_type_t := map_of_inits hdr2tag_inits.

Definition m_setImmutableHdrs : gset string :=
  list_to_set ["via"; "route"; "rseq"; "record_route"; "content_length"].

Definition m_mapMethod2Type : gmap string sip_method_t := map_of_inits
  [("INVITE", sip_method_invite); ("ACK", sip_method_ack); ("CANCEL", sip_method_cancel);
   ("BYE", sip_method_bye); ("OPTIONS", sip_method_options); ("REGISTER", sip_method_register);
   ("INFO", sip_method_info); ("PRACK", sip_method_prack); ("UPDATE", sip_method_update);
   ("MESSAGE", sip_method_message); ("SUBSCRIBE", sip_method_subscribe);
   ("NOTIFY", sip_method_notify); ("REFER", sip_method_refer); ("PUBLISH", sip_method_publish)].

Definition isImmutableHdr (hdr : string) : bool := bool_decide (hdr ∈ m_setImmutableHdrs).

Definition getTagTypeForHdr (hdr : string) : option tag_type_t := m_mapHdr2Tag !! hdr.

Definition methodType (method : string) : sip_method_t :=
  match m_mapMethod2Type !! method with Some t => t | None => sip_method_unknown end.

(** [RFC3261_TOKEN_CHARS] *)
Definition RFC3261_TOKEN_CHARS : string :=
  "abcdefghijklmnopqrstuvwxyzABCDEFGHIJKLMNOPQRSTUVWXYZ01234567890-._!%*+`'~".

(** ** SIP messages *)

(** The parts of sofia's [sip_t] that the functions read. *)
Record sip_t := MkSip {
  sip_call_id : string;
  sip_request_method : option sip_method_t;   (** [sip_request->rq_method] *)
  sip_cseq_method_name : string;
  sip_cseq_seq : Z;
  sip_via_branch : option string;             (** of the top Via, if both exist *)
  sip_record_route : list (option string);    (** [url_params] of each entry *)
  sip_contact_params : option (option string);
}.

(** Decimal digits of a non-negative number ([lexical_cast<string>],
    [to_string]). *)
Definition to_string (n : Z) : string := pretty n.

(** [makeUniqueSipTransactionIdentifier(sip, str)] *)
Definition makeUniqueSipTransactionIdentifier (sip : sip_t) : string :=
  let str := sip_call_id sip +:+ "|" +:+
    (if bool_decide (sip_request_method sip = Some sip_method_cancel) then "INVITE"
     else sip_cseq_method_name sip) +:+ "|" +:+ to_string (sip_cseq_seq sip) in
  match sip_via_branch sip with
  | Some branch => str +:+ "|" +:+ branch
  | None => str
  end.

(** [strstr(s, pat) != NULL] *)
Definition strstr (s pat : string) : bool := bool_decide (is_Some (str_find pat s)).

(** [sipMsgHasNatEqualsYes(sip, weAreUac, checkContact)] *)
Definition sipMsgHasNatEqualsYes (sip : sip_t) (weAreUac checkContact : bool) : bool :=
  match sip_record_route sip with
  | r :: rs =>
    match (if weAreUac then last (r :: rs) else Some r) with
    | Some (Some params) => strstr params "nat=yes"
    | _ => false
    end
  | [] =>
    if negb checkContact then false else
    match sip_contact_params sip with
    | Some (Some params) => strstr params "nat=yes"
    | _ => false
    end
  end.

(** [SipMsgData_t] and [toMessageFormat] *)
Record SipMsgData_t := MkSipMsgData {
  m_protocol : string;
  m_bytes : string;
  m_address : string;
  m_port : string;
  m_time : string;
  m_source : string;
  m_destAddress : string;
  m_destPort : string;
}.
Definition SipMsgData_toMessageFormat (d : SipMsgData_t) : string :=
  m_source d +:+ "|" +:+ m_bytes d +:+ "|" +:+ m_protocol d +:+ "|" +:+ m_address d +:+
    "|" +:+ m_port d +:+ "|" +:+ m_time d.

(** [EncodeStackMessage]: a header is its original fragment [h_data], or is
    encoded into a buffer of 8192 bytes by [msg_header_e], which returns the
    length it needs, or a negative number. *)
Section encode.
Context {header : Type} (msg_header_e : header -> Z * string).

Fixpoint EncodeStackMessage (chain : list (header * option string)) : res string :=
  match chain with
  | [] => Ok ""
  | (p, h_data) :: rest =>
    frag ← match h_data with
           | Some data => mret data
           | None =>
             let '(n, buf) := msg_header_e p in
             if bool_decide (n < 0)%Z then Fault (Thrown "length_error")
             else if bool_decide (8192 < n)%Z then Fault BadAccess
             else mret (str_take (Z.to_nat n) buf)
           end;
    tail ← EncodeStackMessage rest;
    mret (frag +:+ tail)
  end.
End encode.

(** ** Parsing of client messages *)

Section parsing.
Context `{Boost}.

Definition splitLines (s : string) : list string :=
  if bool_decide (s = "") then [] else split_compress DR_CRLF s.

Definition splitTokens (s : string) : list string := split "|" s.

(** [splitMsg(msg, meta, startLine, headers, body)], the out parameters being
    empty before the call. *)
Definition splitMsg (msg : string) : string * string * string * string :=
  match str_find DR_CRLF msg with
  | None => (msg, "", "", "")
  | Some pos =>
    let meta := str_take pos msg in
    let chunk := str_drop (pos + 2) msg in
    let '(chunk, body) :=
      match str_find DR_CRLF2 chunk with
      | Some pos => (str_take pos chunk, str_drop (pos + 4) chunk)
      | None => (chunk, "")
      end in
    match str_find DR_CRLF chunk with
    | None => (meta, chunk, "", body)
    | Some pos => (meta, str_take pos chunk, str_drop (pos + 2) chunk, body)
    end
  end.

(** [parseStartLine(startLine, methodName, requestUri)]: the method and the
    two out parameters. *)
Definition parseStartLine (startLine : string) : sip_method_t * string * string :=
  match tokenizer " " startLine with
  | [] => (sip_method_invalid, "", "")
  | t :: rest =>
    let method :=
      if String.eqb t "INVITE" then sip_method_invite
      else if String.eqb t "ACK" then sip_method_ack
      else if String.eqb t "PRACK" then sip_method_prack
      else if String.eqb t "CANCEL" then sip_method_cancel
      else if String.eqb t "BYE" then sip_method_bye
      else if String.eqb t "OPTIONS" then sip_method_options
      else if String.eqb t "REGISTER" then sip_method_register
      else if String.eqb t "INFO" then sip_method_info
      else if String.eqb t "UPDATE" then sip_method_update
      else if String.eqb t "MESSAGE" then sip_method_message
      else if String.eqb t "SUBSCRIBE" then sip_method_subscribe
      else if String.eqb t "NOTIFY" then sip_method_notify
      else if String.eqb t "REFER" then sip_method_refer
      else if String.eqb t "PUBLISH" then sip_method_publish
      else sip_method_unknown in
    (method, t, default "" (head rest))
  end.

(** [GetValueForHeader(headers, szHeaderName, headerValue)] *)
Fixpoint GetValueForHeader_lines (vec : list string) (szHeaderName : string) : option string :=
  match vec with
  | [] => None
  | line :: vec' =>
    match str_find ":" line with
    | None => GetValueForHeader_lines vec' szHeaderName
    | Some pos =>
      if iequals (trim (str_take pos line)) szHeaderName
      then Some (trim (str_drop (pos + 1) line))
      else GetValueForHeader_lines vec' szHeaderName
    end
  end.
Definition GetValueForHeader (headers szHeaderName : string) : option string :=
  GetValueForHeader_lines (splitLines headers) szHeaderName.

(** [isRfc1918(szHost)] *)
Definition isRfc1918 (szHost : string) : bool :=
  match mapM lexical_cast_int (tokenizer "." szHost) with
  | Some [a; b; _; _] =>
    ((a =? 10) || ((a =? 172) && ((b >? 15) || (b <? 32))) || ((a =? 192) && (b =? 168)))%Z
  | _ => false
  end.

(** [capitalizeAfterDash(input)] *)
Fixpoint capitalize_loop (capitalizeNext : bool) (s : string) : string :=
  match s with
  | EmptyString => ""
  | String c s' =>
    let c := if capitalizeNext then to_upper c else c in
    String c (capitalize_loop (Ascii.eqb c "-") s')
  end.
Definition capitalizeAfterDash (preservedHeaders : list string) (input : string) : string :=
  if existsb (fun header => iequals (trim header) input) preservedHeaders then input
  else if String.eqb (str_take 2 input) "X-" || String.eqb (str_take 2 input) "x-" then input
  else capitalize_loop true input.
End parsing.

(** ** String functions *)

(** [urlencode(s)] *)
Definition hex_digit (n : Z) : ascii :=
  default zero (String.get (Z.to_nat n) "0123456789abcdef").
Definition is_unreserved (c : ascii) : bool :=
  let z := schar c in
  ((48 <=? z) && (z <=? 57) || (65 <=? z) && (z <=? 90) || (97 <=? z) && (z <=? 122))%Z
  || Ascii.eqb c "-" || Ascii.eqb c "_" || Ascii.eqb c "." || Ascii.eqb c "~".
Fixpoint urlencode (s : string) : string :=
  match s with
  | EmptyString => ""
  | String c s' =>
    if is_unreserved c then String c (urlencode s')
    else String "%" (String (hex_digit (Z.shiftr (Z.land (schar c) 240) 4))
                       (String (hex_digit (Z.land (schar c) 15)) (urlencode s')))
  end.

(** [utf8_strlen(str)]: [i] skips the continuation bytes it expects. *)
Fixpoint utf8_loop (fuel : nat) (s : string) (q : Z) : option Z :=
  match fuel with
  | O => None
  | S fuel =>
    match s with
    | EmptyString => Some q
    | String ch s' =>
      let c := Z.of_N (code ch) in
      if (c <=? 127)%Z then utf8_loop fuel s' (q + 1)
      else if (Z.land c 224 =? 192)%Z then utf8_loop fuel (str_drop 1 s') (q + 1)
      else if (Z.land c 240 =? 224)%Z then utf8_loop fuel (str_drop 2 s') (q + 1)
      else if (Z.land c 248 =? 240)%Z then utf8_loop fuel (str_drop 3 s') (q + 1)
      else Some 0%Z
    end
  end.
Definition utf8_strlen (s : string) : option Z := utf8_loop (S (String.length s)) s 0.
