(* ===== verification/SipTags.v ===== *)
(** Model of the functions of src/drachtio.cpp that build the tag arrays for
    the SIP stack from the headers a client sends ([makeTags], [makeSafeTags],
    [deleteTags]) with the memory they allocate, and of the functions that
    rewrite and compare SIP URIs. *)
From S2P Require Import Prelude CppString TextUtil.

(** ** SIP URIs *)

(** sofia's [url_t]; the remaining parts of a decoded name-addr are opaque. *)
Record url_t := MkUrl {
  url_scheme : option string;
  url_user : option string;
  url_host : option string;
  url_port : option string;
}.

(** Decoding and encoding of name-addrs: [sip_name_addr_d] on a C string
    ([None]: a negative result) and [sip_name_addr_e] with the buffer size and
    the brackets argument (its result and the buffer). *)
Class SofiaUrl := {
  name_addr_rest : Type;
  sip_name_addr_d : string -> option (name_addr_rest * url_t);
  sip_name_addr_e : Z -> Z -> name_addr_rest -> url_t -> Z * string;
}.

Definition MAX_SIP_URI_LEN : Z := 1024.

(** [strncpy(buf, s, n)] followed by a read of the C string in [buf]: the
    buffer is terminated only when the string is shorter than [n]. *)
Definition strncpy_read (n : nat) (s : string) : res string :=
  if bool_decide (String.length (c_str s) < n) then Ok (c_str s) else Fault BadAccess.

Section uris.
Context `{SofiaUrl}.

(** [normalizeSipUri(uri, brackets)]: the result and the new [uri]. *)
Definition normalizeSipUri (uri : string) (brackets : Z) : res (bool * string) :=
  s ← strncpy_read (Z.to_nat MAX_SIP_URI_LEN) uri;
  match sip_name_addr_d s with
  | None => mret (false, uri)
  | Some (rest, url) =>
    if bool_decide (url_user url = None) && bool_decide (is_Some (str_find "@" uri)) then mret (false, uri)
    else
      let url :=
        match url_scheme url, url_user url, url_host url with
        | None, None, Some h => MkUrl (Some "sip") (Some h) (Some "localhost") (url_port url)
        | _, _, _ => url
        end in
      let '(nChars, obuf) := sip_name_addr_e MAX_SIP_URI_LEN brackets rest url in
      if bool_decide (nChars <= 0)%Z then mret (false, uri)
      else mret (bool_decide (Z.of_nat (String.length obuf) < MAX_SIP_URI_LEN)%Z, obuf)
  end.

(** [replaceHostInUri(uri, szHost, szPort)] *)
Definition replaceHostInUri (uri szHost szPort : string) : res (bool * string) :=
  s ← strncpy_read 255 uri;
  match sip_name_addr_d s with
  | None => mret (false, uri)
  | Some (rest, url) =>
    let url := MkUrl (url_scheme url) (url_user url) (Some szHost) (Some szPort) in
    let '(nChars, obuf) := sip_name_addr_e MAX_SIP_URI_LEN 1 rest url in
    if bool_decide (nChars <= 0)%Z then mret (false, uri) else mret (true, obuf)
  end.

(** The static variables of [isLocalSipUri] after their initialization, from
    the agent's transports (host and optional port), the external contacts and
    the environment variable DRACHTIO_LOCAL_DOMAIN. *)
Record localUris := MkLocalUris {
  vecLocalUris : list (string * string);
  localDomain : string;
}.
Fixpoint tport_uris (tports : list (string * option string)) : list (string * string) :=
  match tports with
  | [] => []
  | (host, port) :: tports' =>
    let localPort := default "5060" port in
    if String.eqb host "*" then tport_uris tports'
    else (host, localPort) ::
         (if String.eqb host "127.0.0.1" then [("localhost", localPort)] else []) ++ tport_uris tports'
  end.
Definition isLocalSipUri_init (tports : list (string * option string)) (vecIps : list (string * string))
    (envLocalDomain : option string) : localUris :=
  MkLocalUris (tport_uris tports ++ vecIps) (str_map to_lower (default "" envLocalDomain)).

(** [boost::algorithm::ends_with] *)
Fixpoint ends_with (s suffix : string) : bool :=
  String.eqb s suffix || match s with EmptyString => false | String _ s' => ends_with s' suffix end.

(** [isLocalSipUri(requestUri)]; [host.compare(NULL)] reads through NULL. *)
Fixpoint local_uri_match (l : list (string * string)) (url : url_t) : res bool :=
  match l with
  | [] => mret false
  | (host, port) :: l' =>
    let port := if String.eqb port "" then "5060" else port in
    match url_host url with
    | None => Fault BadAccess
    | Some h =>
      if String.eqb host h &&
         match url_port url with
         | None => String.eqb port "5060"
         | Some p => String.eqb port p
         end
      then mret true else local_uri_match l' url
    end
  end.
Definition isLocalSipUri (u : localUris) (requestUri : string) : res bool :=
  if bool_decide (str_find "tel:" requestUri = Some 0) then mret false else
  s ← strncpy_read 255 requestUri;
  match sip_name_addr_d s with
  | None => mret false
  | Some (_, url) =>
    found ← local_uri_match (vecLocalUris u) url;
    if found : bool then mret true else
    match url_host url with
    | Some h =>
      let host := str_map to_lower h in
      mret (negb (String.eqb (localDomain u) "") &&
            (String.eqb host (localDomain u) || ends_with host ("." +:+ localDomain u)))
    | None => mret false
    end
  end.
End uris.

(** [parseTransportDescription]: the expression ^(.star)/(.star):(\d+).
    [greedy sep s k] is the longest run of characters other than line ends
    that is followed by [sep] and a rest that [k] matches. *)
Definition is_line_end (c : ascii) : bool := Ascii.eqb c CR || Ascii.eqb c LF.
Fixpoint greedy {A} (sep : ascii) (s : string) (k : string -> option A) : option (string * A) :=
  match s with
  | EmptyString => None
  | String c s' =>
    if is_line_end c then None else
    match greedy sep s' k with
    | Some (p, a) => Some (String c p, a)
    | None => if Ascii.eqb c sep then pair "" <$> k s' else None
    end
  end.
Fixpoint digits (s : string) : string :=
  match s with
  | String c s' => if is_digit c then String c (digits s') else ""
  | EmptyString => ""
  end.
Definition parseTransportDescription (desc : string) : option (string * (string * string)) :=
  greedy "/" desc (fun r => greedy ":" r (fun r => if String.eqb (digits r) "" then None else Some (digits r))).

(** ** Tag arrays *)

(** Memory from [new char[]] and [new tagi_t[]]. *)
Record tagi_t := MkTag { t_tag : tag_type_t; t_value : option positive }.
Inductive block :=
  | CharArray (s : string)
  | TagArray (tags : list tagi_t).
Abbreviation mem := (gmap positive block).

Definition new_block (b : block) : M mem positive := fun m =>
  let p := fresh_addr m in Ok (p, <[p := b]> m).
Definition delete_block (p : positive) : M mem unit := fun m =>
  match m !! p with Some _ => Ok (tt, delete p m) | None => Fault BadAccess end.
Definition write_block (p : positive) (b : block) : M mem unit := fun m =>
  match m !! p with Some _ => Ok (tt, <[p := b]> m) | None => Fault BadAccess end.

(** [deleteTags(tags)] *)
Fixpoint deleteTags_loop (tags : list tagi_t) : M mem unit :=
  match tags with
  | [] => fail BadAccess
  | t :: tags' =>
    if bool_decide (t_tag t = tag_null) then mret tt else
    _ ← match t_value t with Some p => delete_block p | None => mret tt end;
    deleteTags_loop tags'
  end.
Definition deleteTags (tags : option positive) : M mem unit :=
  match tags with
  | None => mret tt
  | Some p =>
    m ← get;
    match m !! p with
    | Some (TagArray l) => _ ← deleteTags_loop l; delete_block p
    | _ => fail BadAccess
    end
  end.

Section tags.
Context `{Boost} (preservedHeaders : list string).

(** A line split into header name and value; [None]: it is skipped. *)
Definition parse_header_line (line : string) : option (string * string) :=
  match str_find ":" line with
  | None => None
  | Some pos =>
    let hdrName := trim (str_take pos line) in
    if str_forall (fun c => str_mem c RFC3261_TOKEN_CHARS) hdrName then
      let hdrValue := trim (str_drop (pos + 1) line) in
      match str_find DR_CRLF hdrValue with None => Some (hdrName, hdrValue) | Some _ => None end
    else None
  end.
Definition header_key (hdrName : string) : string := to_lower_copy (replace_all_copy hdrName "-" "_").
Definition rewritten_headers : list string := ["from"; "contact"; "to"; "p_asserted_identity"].

(** What [makeSafeTags] puts in the entry of a line. *)
Definition safe_tag (line : string) : option (tag_type_t * string) :=
  match parse_header_line line with
  | None => None
  | Some (hdrName, hdrValue) =>
    let hdr := header_key hdrName in
    if isImmutableHdr hdr then None else
    match getTagTypeForHdr hdr with
    | Some tag => if bool_decide (hdr ∈ rewritten_headers) then None else Some (tag, hdrValue)
    | None => Some (siptag_unknown_str, capitalizeAfterDash preservedHeaders hdrName +:+ ": " +:+ hdrValue)
    end
  end.

(** The loop over the lines: the entries, with their values allocated. *)
Fixpoint fill_tags (entries : list (option (tag_type_t * string))) : M mem (list tagi_t) :=
  match entries with
  | [] => mret []
  | None :: es => rest ← fill_tags es; mret (MkTag tag_skip None :: rest)
  | Some (tag, v) :: es =>
    p ← new_block (CharArray (c_str v));
    rest ← fill_tags es;
    mret (MkTag tag (Some p) :: rest)
  end.
Definition make_tag_array (entries : list (option (tag_type_t * string))) : M mem positive :=
  tags ← new_block (TagArray []);
  l ← fill_tags entries;
  _ ← write_block tags (TagArray (l ++ [MkTag tag_null None]));
  mret tags.

(** [makeSafeTags(hdrs)] *)
Definition makeSafeTags (hdrs : string) : M mem positive :=
  make_tag_array (safe_tag <$> splitLines hdrs).

(** What [makeTags] puts in the entry of a line. *)
Context `{SofiaUrl}.
Definition full_tag (host port line : string) : res (option (tag_type_t * string)) :=
  match parse_header_line line with
  | None => mret None
  | Some (hdrName, hdrValue) =>
    let hdr := header_key hdrName in
    if isImmutableHdr hdr then mret None else
    match getTagTypeForHdr hdr with
    | Some tag =>
      if bool_decide (is_Some (str_find "@localhost" hdrValue)) && bool_decide (hdr ∈ rewritten_headers) then
        r ← replaceHostInUri hdrValue (c_str host) (c_str port);
        mret (Some (tag, r.2))
      else mret (Some (tag, hdrValue))
    | None =>
      mret (Some (siptag_unknown_str, capitalizeAfterDash preservedHeaders hdrName +:+ ": " +:+ hdrValue))
    end
  end.

(** [makeTags(hdrs, transport, szExternalIP)] *)
Definition transport_hostport (transport : string) : string * string :=
  match parseTransportDescription transport with
  | Some (_, (host, port)) => (host, port)
  | None => ("", "")
  end.
Definition makeTags (hdrs transport : string) (szExternalIP : option string) : M mem positive := fun m =>
  let '(host, port) := transport_hostport transport in
  let host := match szExternalIP with Some ip => ip | None => host end in
  match mapM (full_tag host port) (splitLines hdrs) with
  | Ok entries => make_tag_array entries m
  | Fault f => Fault f
  end.
End tags.

(** The tag list that the SIP stack reads: entries before [tag_null], without
    the skipped ones. *)
Fixpoint tag_list (m : mem) (tags : list tagi_t) : list (tag_type_t * string) :=
  match tags with
  | [] => []
  | t :: tags' =>
    if bool_decide (t_tag t = tag_null) then []
    else if bool_decide (t_tag t = tag_skip) then tag_list m tags'
    else match t_value t ≫= fun p => m !! p with
         | Some (CharArray s) => (t_tag t, s) :: tag_list m tags'
         | _ => tag_list m tags'
         end
  end.
Definition tags_at (m : mem) (p : positive) : list (tag_type_t * string) :=
  match m !! p with Some (TagArray l) => tag_list m l | _ => [] end.
