(* ===== verification/TextCorrect.v ===== *)
(** Correctness of the text utilities: round trips, agreement of the method
    tables, and what the tag arrays may contain and how they are freed. *)
From S2P Require Import Prelude CppString BoostInstance TextUtil SipTags.

(** ** Tables *)

Fixpoint assoc {V} (k : string) (l : list (string * V)) : option V :=
  match l with
  | [] => None
  | (k', v) :: l' => if String.eqb k k' then Some v else assoc k l'
  end.

Lemma map_of_inits_lookup {V} (l : list (string * V)) k : map_of_inits l !! k = assoc k l.
Proof.
  unfold map_of_inits.
  assert (forall m : gmap string V, foldl (fun (m : gmap string V) kv => match m !! kv.1 with Some _ => m | None => <[kv.1 := kv.2]> m end) m l !! k
    = match m !! k with Some v => Some v | None => assoc k l end) as Hg; [|by rewrite Hg, lookup_empty].
  induction l as [|[k' v] l IH]; intros m; [cbn; by destruct (m !! k)|].
  cbn [foldl fst snd assoc]. rewrite IH. destruct (String.eqb_spec k k') as [->|Hk].
  - destruct (m !! k') as [w|] eqn:E; [by rewrite E|]. by rewrite lookup_insert_eq.
  - destruct (m !! k') as [w|]; [done|]. by rewrite lookup_insert_ne.
Qed.

(** ** Splitting a client message *)

Lemma str_find_crlf a b : str_mem CR a = false -> str_find DR_CRLF (a +:+ DR_CRLF +:+ b) = Some (String.length a).
Proof. apply str_find_after. Qed.

Lemma str_find_crlf_none a : str_mem CR a = false -> str_find DR_CRLF a = None.
Proof. apply str_find_none. Qed.

Definition starts_with (c : ascii) (s : string) : bool :=
  match s with String d _ => Ascii.eqb c d | EmptyString => false end.

Lemma find_crlf2_line a b :
  str_mem CR a = false -> starts_with CR b = false ->
  str_find DR_CRLF2 (a +:+ DR_CRLF +:+ b) = (fun n => String.length a + 2 + n) <$> str_find DR_CRLF2 b.
Proof.
  unfold str_mem. induction a as [|c a IH]; intros Ha Hb.
  - change ("" +:+ DR_CRLF +:+ b) with (String CR (String LF b)).
    destruct b as [|d b]; [done|]. cbn [starts_with] in Hb. destruct (Ascii.eqb_spec CR d) as [|Hd]; [done|].
    change DR_CRLF2 with (String CR (String LF (String CR (String LF "")))).
    cbn [str_find String.prefix].
    destruct (ascii_dec CR CR); [|done]. destruct (ascii_dec LF LF); [|done].
    destruct (ascii_dec CR LF); [done|]. destruct (ascii_dec CR d); [done|].
    by destruct (str_find _ b).
  - cbn [str_forall] in Ha. destruct (Ascii.eqb_spec CR c) as [|Hc]; [done|]. cbn [negb andb] in Ha.
    rewrite (str_app_cons c). cbn [str_find]. rewrite (IH Ha Hb).
    change DR_CRLF2 with (String CR (String LF (String CR (String LF "")))). cbn [String.prefix].
    destruct (ascii_dec CR c); [done|]. by destruct (str_find _ b).
Qed.

Lemma find_crlf2_here b : str_find DR_CRLF2 (DR_CRLF2 +:+ b) = Some 0.
Proof.
  pose proof (str_prefix_app DR_CRLF2 b) as Hp. unfold DR_CRLF2, DR_CRLF in *.
  rewrite !str_app_cons in *. cbn [str_find]. by rewrite Hp.
Qed.

(** A line of a message: not empty and without CR. *)
Definition good_line (s : string) : Prop := s ≠ "" /\ str_mem CR s = false.

Lemma good_line_start s b : good_line s -> starts_with CR (s +:+ b) = false.
Proof.
  intros [Hne Hm]. destruct s as [|c s]; [done|]. unfold str_mem in Hm.
  rewrite str_app_cons. cbn [starts_with str_forall] in *. by destruct (Ascii.eqb CR c).
Qed.

Lemma find_crlf2_last a b :
  str_mem CR a = false -> str_find DR_CRLF2 (a +:+ DR_CRLF2 +:+ b) = Some (String.length a).
Proof. apply (str_find_after CR). Qed.

Lemma find_crlf2_join l0 l b :
  str_mem CR l0 = false -> Forall good_line l ->
  str_find DR_CRLF2 (join DR_CRLF (l0 :: l) +:+ DR_CRLF2 +:+ b) = Some (String.length (join DR_CRLF (l0 :: l))).
Proof.
  intros H0 Hl. revert l0 H0. induction Hl as [|l1 l Hl1 Hl IH]; intros l0 H0.
  - cbn [join]. by apply find_crlf2_last.
  - rewrite join_cons by done. rewrite !str_app_assoc.
    rewrite find_crlf2_line; [|done|].
    + rewrite IH by apply Hl1. cbn. rewrite !str_length_app. cbn. f_equal. lia.
    + destruct l; cbn [join]; rewrite ?str_app_assoc; by apply good_line_start.
Qed.

(** ** Percent encoding *)

Definition hex_value (c : ascii) : option N :=
  if is_digit c then Some (code c - 48)%N
  else if ((97 <=? code c) && (code c <=? 102))%N then Some (code c - 87)%N
  else None.
Fixpoint urldecode (s : string) : option string :=
  match s with
  | EmptyString => Some ""
  | String "%" (String h (String l s')) =>
    hi ← hex_value h; lo ← hex_value l; rest ← urldecode s';
    Some (String (ascii_of_N (16 * hi + lo)) rest)
  | String "%" _ => None
  | String c s' => String c <$> urldecode s'
  end.

Lemma urlencode_char c :
  is_unreserved c = false ->
  exists h l, hex_value (hex_digit (Z.shiftr (Z.land (schar c) 240) 4)) = Some h /\
    hex_value (hex_digit (Z.land (schar c) 15)) = Some l /\ ascii_of_N (16 * h + l) = c.
Proof. destruct c as [[] [] [] [] [] [] [] []]; try done; intros _; eexists _, _; vm_compute; done. Qed.

(** ** UTF-8 *)

(** The encoding of a code point (RFC 3629). *)
Definition utf8_encode (n : N) : string :=
  let byte m := ascii_of_N m in
  let cont m := ascii_of_N (128 + m mod 64) in
  (if n <? 128 then String (byte n) ""
   else if n <? 2048 then String (byte (192 + n / 64)) (String (cont n) "")
   else if n <? 65536 then
     String (byte (224 + n / 4096)) (String (cont (n / 64)) (String (cont n) ""))
   else String (byte (240 + n / 262144))
          (String (cont (n / 4096)) (String (cont (n / 64)) (String (cont n) ""))))%N.
Fixpoint utf8_concat (l : list N) : string :=
  match l with [] => "" | n :: l' => utf8_encode n +:+ utf8_concat l' end.

(** Number of bytes announced by a lead byte. *)
Definition utf8_skip (ch : ascii) : option nat :=
  let c := Z.of_N (code ch) in
  if (c <=? 127)%Z then Some 0
  else if (Z.land c 224 =? 192)%Z then Some 1
  else if (Z.land c 240 =? 224)%Z then Some 2
  else if (Z.land c 248 =? 240)%Z then Some 3
  else None.

Lemma utf8_loop_step fuel ch s q :
  utf8_loop (S fuel) (String ch s) q =
    match utf8_skip ch with
    | Some n => utf8_loop fuel (str_drop n s) (q + 1)
    | None => Some 0%Z
    end.
Proof. unfold utf8_skip. cbn [utf8_loop]. by repeat case_match. Qed.

Lemma utf8_skip_spec ch :
  utf8_skip ch = if (code ch <? 128)%N then Some 0
                 else if (code ch <? 192)%N then None
                 else if (code ch <? 224)%N then Some 1
                 else if (code ch <? 240)%N then Some 2
                 else if (code ch <? 248)%N then Some 3 else None.
Proof. destruct ch as [[] [] [] [] [] [] [] []]; reflexivity. Qed.

Lemma code_ascii_of_N n : (n < 256)%N -> code (ascii_of_N n) = n.
Proof. apply N_ascii_embedding. Qed.

(** Decide the comparisons of the goal. *)
Ltac ltb_cases := repeat match goal with
  | |- context [(?a <? ?b)%N] => destruct (N.ltb_spec a b); try lia
  end; try done.

Lemma utf8_encode_shape n :
  (n < 1114112)%N ->
  exists ch s, utf8_encode n = String ch s /\ utf8_skip ch = Some (String.length s).
Proof.
  intros Hn. unfold utf8_encode.
  destruct (N.ltb_spec n 128); [|destruct (N.ltb_spec n 2048); [|destruct (N.ltb_spec n 65536)]];
    eexists _, _; (split; [reflexivity|]); rewrite utf8_skip_spec; cbn [String.length].
  - rewrite code_ascii_of_N by lia. ltb_cases.
  - assert (n / 64 < 32)%N as Hd by (apply N.Div0.div_lt_upper_bound; lia).
    revert Hd. match goal with |- context [(n / ?k)%N] => generalize (n / k)%N end. intros d Hd.
    rewrite code_ascii_of_N by lia. ltb_cases.
  - assert (n / 4096 < 16)%N as Hd by (apply N.Div0.div_lt_upper_bound; lia).
    revert Hd. match goal with |- context [(n / ?k)%N] => generalize (n / k)%N end. intros d Hd.
    rewrite code_ascii_of_N by lia. ltb_cases.
  - assert (n / 262144 < 5)%N as Hd by (apply N.Div0.div_lt_upper_bound; lia).
    revert Hd. match goal with |- context [(n / ?k)%N] => generalize (n / k)%N end. intros d Hd.
    rewrite code_ascii_of_N by lia. ltb_cases.
Qed.

Lemma utf8_loop_concat l fuel q :
  Forall (fun n => (n < 1114112)%N) l -> length l < fuel ->
  utf8_loop fuel (utf8_concat l) q = Some (q + Z.of_nat (length l))%Z.
Proof.
  intros Hl. revert fuel q. induction Hl as [|n l Hn Hl IH]; intros [|fuel] q Hf; try (simpl in Hf; lia).
  - cbn. f_equal. lia.
  - cbn [utf8_concat]. destruct (utf8_encode_shape n Hn) as (ch & s & -> & Hs).
    rewrite str_app_cons, utf8_loop_step, Hs, str_drop_app. simpl in Hf. rewrite IH by lia.
    f_equal. simpl. lia.
Qed.

Lemma utf8_concat_length l : length l <= String.length (utf8_concat l).
Proof.
  induction l as [|n l IH]; cbn [utf8_concat]; [done|]. rewrite str_length_app.
  assert (1 <= String.length (utf8_encode n)) by (unfold utf8_encode; repeat case_match; simpl; lia).
  simpl. lia.
Qed.

(** ** Transport descriptions *)

Lemma digits_all s : str_forall is_digit s = true -> digits s = s.
Proof.
  induction s as [|c s IH]; [done|]. cbn [str_forall digits].
  intros [-> Hs]%andb_true_iff. by rewrite IH.
Qed.

Definition one_line (s : string) : Prop := str_forall (fun c => negb (is_line_end c)) s = true.

Lemma greedy_none {A} sep s (k : string -> option A) : str_mem sep s = false -> greedy sep s k = None.
Proof.
  unfold str_mem. induction s as [|c s IH]; [done|]. cbn [str_forall greedy].
  intros Hs. destruct (Ascii.eqb_spec sep c) as [->|Hne]; [done|]. cbn in Hs.
  rewrite IH by done. destruct (is_line_end c); [done|].
  by destruct (Ascii.eqb_spec c sep) as [->|].
Qed.

Lemma greedy_found {A} sep p s (k : string -> option A) a :
  is_line_end sep = false -> one_line p -> greedy sep s k = None -> k s = Some a ->
  greedy sep (p +:+ String sep s) k = Some (p, a).
Proof.
  intros Hsep Hp Hs Hk. unfold one_line in Hp. induction p as [|c p IH].
  - change ("" +:+ String sep s) with (String sep s). cbn [greedy]. by rewrite Hsep, Hs, Ascii.eqb_refl, Hk.
  - cbn [str_forall] in Hp. apply andb_true_iff in Hp as [Hc Hp].
    rewrite str_app_cons. cbn [greedy]. rewrite (IH Hp).
    by destruct (is_line_end c).
Qed.

(** ** Tag arrays *)

Section tag_arrays.
Context `{Boost}.
Implicit Types (m : mem).

(** What a filled array denotes. *)
Definition tag_entries (es : list (option (tag_type_t * string))) : list (tag_type_t * string) :=
  omap (fun e => (fun tv => (tv.1, c_str tv.2)) <$> e) es.
Definition real_tag (e : option (tag_type_t * string)) : Prop :=
  match e with Some (tag, _) => tag ≠ tag_null /\ tag ≠ tag_skip | None => True end.

(** [fill_tags] allocates [new] blocks beside those of [m]; whatever else is
    in memory, the array denotes the entries and [deleteTags] frees exactly
    the new blocks. *)
Lemma fill_tags_spec es m :
  Forall real_tag es ->
  exists l new, fill_tags es m = Ok (l, new ∪ m) /\ new ##ₘ m /\
    forall m0, new ##ₘ m0 ->
      tag_list (new ∪ m0) (l ++ [MkTag tag_null None]) = tag_entries es /\
      deleteTags_loop (l ++ [MkTag tag_null None]) (new ∪ m0) = Ok (tt, m0).
Proof.
  intros Hes. revert m. induction Hes as [|e es He Hes IH]; intros m.
  { exists [], ∅. rewrite map_empty_union. split_and!; [done|apply map_disjoint_empty_l|].
    intros m0 _. by rewrite map_empty_union. }
  destruct e as [[tag v]|]; cbn [fill_tags].
  - set (p := fresh_addr m). set (b := CharArray (c_str v)).
    destruct (IH (<[p := b]> m)) as (l & new & Hrun & Hdisj & Hfree).
    apply map_disjoint_insert_r in Hdisj as [Hnp Hdisj].
    assert (Hmp : m !! p = None) by apply fresh_addr_lookup.
    exists (MkTag tag (Some p) :: l), (<[p := b]> new). split_and!.
    + erewrite M_bind_ok by reflexivity. cbn beta. fold p b.
      erewrite M_bind_ok by exact Hrun. cbn beta.
      rewrite <-insert_union_r by done. by rewrite insert_union_l.
    + by apply map_disjoint_insert_l.
    + intros m0 [Hm0 Hd0]%map_disjoint_insert_l. destruct He as [Hnull Hskip].
      assert (Hd1 : new ##ₘ <[p := b]> m0) by (by apply map_disjoint_insert_r).
      destruct (Hfree _ Hd1) as [Ht _]. destruct (Hfree _ Hd0) as [_ Hdel].
      assert (Hmem : <[p := b]> new ∪ m0 = new ∪ <[p := b]> m0).
      { rewrite <-insert_union_l. by apply insert_union_r. }
      assert (Hp : (new ∪ <[p := b]> m0) !! p = Some b).
      { by rewrite lookup_union_r, lookup_insert_eq. }
      rewrite Hmem, <-app_comm_cons. split.
      * cbn [tag_list t_tag]. rewrite !bool_decide_eq_false_2 by done. cbn [t_value].
        cbn [mbind option_bind]. rewrite Hp. unfold b at 1. by rewrite Ht.
      * cbn [deleteTags_loop t_tag t_value]. rewrite bool_decide_eq_false_2 by done.
        erewrite M_bind_ok by (unfold delete_block; by rewrite Hp). cbn beta.
        rewrite <-Hmem, <-insert_union_l, delete_insert_id; [exact Hdel|].
        by rewrite lookup_union_None.
  - destruct (IH m) as (l & new & Hrun & Hdisj & Hfree).
    exists (MkTag tag_skip None :: l), new. split_and!; [by rewrite (M_bind_ok _ _ _ _ _ Hrun)|done|].
    intros m0 Hm0. destruct (Hfree _ Hm0) as [Ht Hdel]. rewrite <-app_comm_cons. split.
    + cbn [tag_list t_tag]. rewrite bool_decide_eq_false_2, bool_decide_eq_true_2 by done. done.
    + cbn [deleteTags_loop t_tag t_value]. rewrite bool_decide_eq_false_2 by done. done.
Qed.

Lemma make_tag_array_spec es m :
  Forall real_tag es ->
  exists p m', make_tag_array es m = Ok (p, m') /\ tags_at m' p = tag_entries es /\
    m ⊆ m' /\ deleteTags (Some p) m' = Ok (tt, m).
Proof.
  intros Hes. unfold make_tag_array. set (p := fresh_addr m). set (m1 := <[p := TagArray []]> m).
  destruct (fill_tags_spec es m1 Hes) as (l & new & Hrun & Hdisj & Hfree).
  set (arr := (l ++ [MkTag tag_null None])%list) in *.
  apply map_disjoint_insert_r in Hdisj as [Hnp Hdisj].
  assert (Hmp : m !! p = None) by apply fresh_addr_lookup.
  assert (Hm' : <[p := TagArray arr]> (new ∪ m1) = new ∪ <[p := TagArray arr]> m).
  { unfold m1. rewrite insert_union_r by done. by rewrite insert_insert_eq. }
  assert (Hd1 : new ##ₘ <[p := TagArray arr]> m) by (by apply map_disjoint_insert_r).
  assert (Hp : (new ∪ <[p := TagArray arr]> m) !! p = Some (TagArray arr)).
  { by rewrite lookup_union_r, lookup_insert_eq. }
  exists p, (new ∪ <[p := TagArray arr]> m). destruct (Hfree _ Hd1) as [Htags Hdel]. split_and!.
  - erewrite M_bind_ok by reflexivity. cbn beta. fold p m1. rewrite (M_bind_ok _ _ _ _ _ Hrun).
    erewrite M_bind_ok; [|unfold write_block; rewrite lookup_union_r by done; unfold m1; rewrite lookup_insert_eq; reflexivity].
    cbn beta. fold m1 arr. by rewrite Hm'.
  - unfold tags_at. by rewrite Hp.
  - transitivity (<[p := TagArray arr]> m); [by apply insert_subseteq|]. by apply map_union_subseteq_r.
  - unfold deleteTags. erewrite M_bind_ok by reflexivity. cbn beta. rewrite Hp.
    rewrite (M_bind_ok _ _ _ _ _ Hdel). unfold delete_block. rewrite lookup_insert_eq.
    by rewrite delete_insert_id.
Qed.

(** Tags of the headers that a client must not set. *)
Definition protected_keys : list string :=
  ["via"; "route"; "rseq"; "record_route"; "content_length"; "from"; "to"; "contact"; "p_asserted_identity"].
Definition protected_tags : list tag_type_t := omap (fun k => m_mapHdr2Tag !! k) protected_keys.

(** In the table only the protected keys have protected tags, and no key has
    the end or the skip tag. *)
Lemma table_protected :
  map_Forall (fun k tag => (tag ∈ protected_tags -> k ∈ protected_keys) /\ tag ≠ tag_null /\ tag ≠ tag_skip)
    m_mapHdr2Tag.
Proof. apply (bool_decide_unpack _). vm_compute. exact I. Qed.

Lemma unprotected_key k :
  isImmutableHdr k = false -> (k ∉ rewritten_headers) -> k ∉ protected_keys.
Proof.
  unfold isImmutableHdr. intros Hi%bool_decide_eq_false Hr. unfold m_setImmutableHdrs, rewritten_headers, protected_keys in *.
  set_solver.
Qed.

Lemma safe_tag_spec preserved line tag v :
  safe_tag preserved line = Some (tag, v) ->
  tag ≠ tag_null /\ tag ≠ tag_skip /\ (tag ∉ protected_tags).
Proof.
  unfold safe_tag. destruct (parse_header_line line) as [[n hv]|]; [|done].
  destruct (isImmutableHdr _) eqn:Ei; [done|]. unfold getTagTypeForHdr.
  destruct (m_mapHdr2Tag !! header_key n) as [t|] eqn:Et; [case_bool_decide as Er; [done|]|];
    intros [= <- <-].
  - destruct (table_protected _ _ Et) as (Hp & ? & ?). split_and!; [done..|].
    intros Hin. by apply Hp, (unprotected_key _ Ei Er) in Hin.
  - split_and!; [done..|]. apply (bool_decide_unpack _). vm_compute. exact I.
Qed.

Lemma full_tag_real `{SofiaUrl} preserved host port line e :
  full_tag preserved host port line = Ok e -> real_tag e.
Proof.
  unfold full_tag. destruct (parse_header_line line) as [[n hv]|]; [|by intros [= <-]].
  destruct (isImmutableHdr _); [by intros [= <-]|]. unfold getTagTypeForHdr.
  destruct (m_mapHdr2Tag !! header_key n) as [t|] eqn:Et;
    [|clear; intros [= <-]; split; discriminate].
  destruct (table_protected _ _ Et) as (_ & Hn & Hs). clear Et. generalize dependent t. intros t Hn Hs.
  destruct (_ && _); [|by intros [= <-]]. cbn.
  destruct (replaceHostInUri _ _ _) as [[? ?]|]; [by intros [= <-]|done].
Qed.
End tag_arrays.

(** ** Properties *)

Section properties.
Context `{BoostLaws}.

(** C7: [splitMsg] inverts the format of a client message: for a meta line,
    a start line, non-empty header lines and any body it returns exactly the
    four parts. *)
Theorem splitMsg_roundtrip meta startLine headerLines body :
  str_mem CR meta = false -> str_mem CR startLine = false -> Forall good_line headerLines ->
  splitMsg (meta +:+ DR_CRLF +:+ join DR_CRLF (startLine :: headerLines) +:+ DR_CRLF2 +:+ body)
    = (meta, startLine, join DR_CRLF headerLines, body).
Proof.
  intros Hm Hs Hh. unfold splitMsg. rewrite str_find_crlf by done. rewrite str_take_app.
  rewrite str_drop_add, str_drop_app.
  set (ls := join DR_CRLF (startLine :: headerLines)).
  change (str_drop 2 (DR_CRLF +:+ ls +:+ DR_CRLF2 +:+ body)) with (ls +:+ DR_CRLF2 +:+ body).
  unfold ls at 1. rewrite find_crlf2_join by done. fold ls.
  rewrite str_take_app, str_drop_add, str_drop_app.
  change (str_drop 4 (DR_CRLF2 +:+ body)) with body.
  unfold ls. destruct headerLines as [|h hs].
  - cbn [join]. by rewrite str_find_crlf_none.
  - rewrite join_cons by done. rewrite str_find_crlf by done.
    rewrite str_take_app, str_drop_add, str_drop_app.
    done.
Qed.

(** On a start line of space-separated words [parseStartLine] returns
    the first word, the second, and the method that [methodType] gives the
    first word: the two tables of methods agree. *)
Theorem parseStartLine_methodType m uri rest :
  Forall (fun s => s ≠ "" /\ no_sep " " s) (m :: uri :: rest) ->
  parseStartLine (join " " (m :: uri :: rest)) = (methodType m, m, uri).
Proof.
  intros Hl. unfold parseStartLine, methodType. rewrite tokenizer_join by done.
  unfold m_mapMethod2Type. rewrite map_of_inits_lookup. cbn [assoc head default].
  repeat match goal with |- context [String.eqb m ?k] => destruct (String.eqb_spec m k) as [->|?]; [done|] end.
  done.
Qed.

(** A header line as a client writes it. *)
Definition header_line (h : string * string) : string := h.1 +:+ ":" +:+ " " +:+ h.2.
Definition plain_text (s : string) : Prop :=
  str_mem " " s = false /\ str_forall (fun c => (32 <? code c)%N) s = true.

(** [GetValueForHeader] on well-formed header lines returns the value of
    the first header whose name matches case-insensitively, and nothing when
    there is none. *)
Theorem GetValueForHeader_first (hs : list (string * string)) name :
  Forall (fun h => plain_text h.1 /\ str_mem ":" h.1 = false /\ plain_text h.2 /\ no_sep DR_CRLF (header_line h)) hs ->
  GetValueForHeader (join DR_CRLF (header_line <$> hs)) name =
    (fun h => h.2) <$> head (filter (fun h => iequals h.1 name = true) hs).
Proof.
  intros Hhs. unfold GetValueForHeader.
  assert (splitLines (join DR_CRLF (header_line <$> hs)) = header_line <$> hs) as ->.
  { destruct hs as [|h hs]; [done|]. unfold splitLines.
    assert (Forall (fun s => s ≠ "" /\ no_sep DR_CRLF s) (header_line <$> (h :: hs))) as Hf.
    { apply Forall_fmap. eapply Forall_impl; [exact Hhs|]. intros [n v] (? & ? & ? & ?).
      split; [|done]. cbn. by destruct n. }
    rewrite bool_decide_eq_false_2.
    - by apply split_compress_lines.
    - intros E. apply (f_equal String.length) in E. destruct h as [n v].
      rewrite fmap_cons in E. destruct hs; cbn [fmap list_fmap] in E;
        rewrite ?join_cons in E by done; cbn [join] in E; unfold header_line in E; cbn [fst snd] in E;
        rewrite !str_length_app in E; simpl in E; lia. }
  induction Hhs as [|[n v] hs (Hn & Hc & Hv & _) _ IH]; [done|].
  cbn [fmap list_fmap GetValueForHeader_lines fst snd] in *. unfold header_line at 1 2 3. cbn [fst snd].
  rewrite (str_find_after ":" "") by done. rewrite str_take_app, str_drop_add, str_drop_app.
  change (str_drop 1 (":" +:+ " " +:+ v)) with (" " +:+ v).
  rewrite trim_padded. destruct Hn, Hv. rewrite !trim_solid by done.
  destruct (iequals n name) eqn:E.
  - rewrite filter_cons_True by done. done.
  - rewrite filter_cons_False by (cbn; congruence). apply IH.
Qed.
End properties.

Section tag_properties.
Context `{Boost}.

(** C8: [makeSafeTags] never gives the SIP stack a value for a header that a
    client must not set (Via, Route, RSeq, Record-Route, Content-Length, From,
    To, Contact, P-Asserted-Identity), whatever text the client sends; the
    array is terminated, nothing else in memory changes, and [deleteTags]
    frees exactly what was allocated. *)
Theorem makeSafeTags_safe preserved hdrs (m : mem) :
  exists p m', makeSafeTags preserved hdrs m = Ok (p, m') /\
    (forall tag v, (tag, v) ∈ tags_at m' p -> tag ∉ protected_tags) /\
    m ⊆ m' /\ deleteTags (Some p) m' = Ok (tt, m).
Proof.
  assert (Hreal : Forall real_tag (safe_tag preserved <$> splitLines hdrs)).
  { apply Forall_fmap, Forall_true. intros line. unfold compose, real_tag.
    destruct (safe_tag preserved line) as [[tag v]|] eqn:E; [|done].
    by destruct (safe_tag_spec _ _ _ _ E) as (? & ? & _). }
  destruct (make_tag_array_spec _ m Hreal) as (p & m' & Hrun & Htags & Hsub & Hdel).
  exists p, m'. split_and!; [done| |done|done]. intros tag v. rewrite Htags.
  unfold tag_entries. intros ([[tag' v']|] & Hin & [= <- <-])%list_elem_of_omap.
  apply list_elem_of_fmap in Hin as (line & Hs & _). symmetry in Hs.
  by destruct (safe_tag_spec _ _ _ _ Hs) as (_ & _ & ?).
Qed.

Context `{SofiaUrl}.

Lemma full_tag_fault preserved host port line f :
  full_tag preserved host port line = Fault f -> f = BadAccess.
Proof.
  unfold full_tag. destruct (parse_header_line line) as [[n v]|]; [|done].
  destruct (isImmutableHdr _); [done|]. destruct (getTagTypeForHdr _); [|done].
  destruct (_ && _); [|done]. unfold replaceHostInUri, strncpy_read.
  case_bool_decide; cbn; [|by intros [= <-]].
  destruct (sip_name_addr_d _) as [[rest url]|]; [|done]. cbn.
  destruct (sip_name_addr_e _ _ _ _) as [n' obuf]. by case_bool_decide.
Qed.

Lemma full_tags_result preserved host port lines :
  (exists es, mapM (full_tag preserved host port) lines = Ok es /\ Forall real_tag es) \/
  mapM (full_tag preserved host port) lines = Fault BadAccess.
Proof.
  induction lines as [|line lines IH]; [left; by exists []|]. cbn [mapM].
  destruct (full_tag preserved host port line) as [e|f] eqn:E;
    [|right; by rewrite (full_tag_fault _ _ _ _ _ E)].
  destruct IH as [(es & -> & Hes)| ->]; [left|by right].
  exists (e :: es). split; [done|]. constructor; [|done]. by eapply full_tag_real.
Qed.

(** Memory safety of [makeTags]: it either reads past a buffer while it
    rewrites a URI, which happens whenever a From, To, Contact or
    P-Asserted-Identity value contains "@localhost" and has 255 characters or
    more, or it returns an array that [deleteTags] frees completely. *)
Theorem makeTags_memory preserved hdrs transport szExternalIP (m : mem) :
  (makeTags preserved hdrs transport szExternalIP m = Fault BadAccess \/
   exists p m', makeTags preserved hdrs transport szExternalIP m = Ok (p, m') /\
     m ⊆ m' /\ deleteTags (Some p) m' = Ok (tt, m)) /\
  (forall line n v, line ∈ splitLines hdrs -> parse_header_line line = Some (n, v) ->
     header_key n ∈ rewritten_headers -> is_Some (str_find "@localhost" v) ->
     255 <= String.length (c_str v) -> makeTags preserved hdrs transport szExternalIP m = Fault BadAccess).
Proof.
  unfold makeTags. destruct (transport_hostport transport) as [host port].
  set (host' := match szExternalIP with Some ip => ip | None => host end).
  destruct (full_tags_result preserved host' port (splitLines hdrs)) as [(es & Hes & Hreal)|Hf];
    [|rewrite Hf; by split; [left|]].
  rewrite Hes. destruct (make_tag_array_spec es m Hreal) as (p & m' & Hrun & _ & Hsub & Hdel).
  split; [right; by exists p, m'|]. intros line n v Hin Hp Hk Hl Hlen. exfalso. clear -Hes Hin Hp Hk Hl Hlen.
  assert (Hbad : full_tag preserved host' port line = Fault BadAccess).
  { unfold full_tag. rewrite Hp. cbn.
    assert (isImmutableHdr (header_key n) = false /\ is_Some (getTagTypeForHdr (header_key n))) as [-> [tag ->]].
    { unfold getTagTypeForHdr. revert Hk. generalize (header_key n). intros k Hk.
      assert (Forall (fun k => isImmutableHdr k = false /\ is_Some (m_mapHdr2Tag !! k)) rewritten_headers) as Hall.
      { apply (bool_decide_unpack _). vm_compute. exact I. }
      rewrite Forall_forall in Hall. by apply Hall. }
    rewrite !bool_decide_eq_true_2 by done. cbn. unfold replaceHostInUri, strncpy_read.
    by rewrite bool_decide_eq_false_2 by lia. }
  revert es Hes. induction (splitLines hdrs) as [|l ls IH]; intros es Hes; [by apply elem_of_nil in Hin|].
  cbn [mapM] in Hes. apply elem_of_cons in Hin as [<-|Hin]; [by rewrite Hbad in Hes|].
  destruct (full_tag preserved host' port l) as [e|]; [|done]. cbn in Hes.
  destruct (mapM _ ls) as [es'|] eqn:E; [|done]. by eapply IH.
Qed.
End tag_properties.

(** [urlencode] is injective on all byte strings (percent decoding
    recovers the argument) and its result has only unreserved characters and
    percent signs. *)
Theorem urlencode_roundtrip s :
  urldecode (urlencode s) = Some s /\
  str_forall (fun c => is_unreserved c || Ascii.eqb c "%") (urlencode s) = true.
Proof.
  induction s as [|c s [IH1 IH2]]; [done|]. cbn [urlencode]. destruct (is_unreserved c) eqn:E.
  - split; [|cbn [str_forall]; by rewrite E, IH2].
    destruct (Ascii.eqb_spec c "%") as [->|Hc]; [done|].
    transitivity (String c <$> urldecode (urlencode s)); [|by rewrite IH1].
    clear -Hc. destruct c as [[] [] [] [] [] [] [] []]; done.
  - destruct (urlencode_char c E) as (h & l & Hh & Hl & Hc). split.
    + change (urldecode ?t) with (hi ← hex_value (hex_digit (Z.shiftr (Z.land (schar c) 240) 4));
        lo ← hex_value (hex_digit (Z.land (schar c) 15)); rest ← urldecode (urlencode s);
        Some (String (ascii_of_N (16 * hi + lo)) rest)).
      rewrite Hh, Hl, IH1. cbn. by rewrite Hc.
    + cbn [str_forall]. rewrite IH2, Ascii.eqb_refl, orb_true_r. clear -c.
      by destruct c as [[] [] [] [] [] [] [] []].
Qed.

(** [utf8_strlen] of the UTF-8 encoding of any sequence of code points is
    the number of code points. *)
Theorem utf8_strlen_encode (l : list N) :
  Forall (fun n => (n < 1114112)%N) l -> utf8_strlen (utf8_concat l) = Some (Z.of_nat (length l)).
Proof.
  intros Hl. unfold utf8_strlen. rewrite utf8_loop_concat; [done|done|].
  pose proof (utf8_concat_length l). lia.
Qed.

(** [isRfc1918] accepts every dotted quad that starts with 172, because
    its condition on the second number is always true; for other quads it is
    the definition of the private networks 10/8 and 192.168/16. *)
Theorem isRfc1918_exact `{Boost} szHost a b c d :
  mapM lexical_cast_int (tokenizer "." szHost) = Some [a; b; c; d] ->
  isRfc1918 szHost = bool_decide (a = 10 \/ a = 172 \/ (a = 192 /\ b = 168))%Z.
Proof.
  intros E. unfold isRfc1918. rewrite E. symmetry.
  destruct (Z.eqb_spec a 10), (Z.eqb_spec a 172), (Z.eqb_spec a 192), (Z.eqb_spec b 168),
    (Z.gtb_spec b 15), (Z.ltb_spec b 32); cbn; try lia;
    (apply bool_decide_eq_true_2; lia) || (apply bool_decide_eq_false_2; lia).
Qed.

(** [parseTransportDescription] recovers protocol, host and port from a
    description, also when the host is an IPv6 literal that contains colons. *)
Theorem parseTransportDescription_roundtrip proto host port :
  one_line proto -> one_line host -> str_mem "/" host = false -> port ≠ "" ->
  str_forall is_digit port = true ->
  parseTransportDescription (proto +:+ "/" +:+ host +:+ ":" +:+ port) = Some (proto, (host, port)).
Proof.
  intros Hp Hh Hs Hne Hd. unfold parseTransportDescription.
  assert (Hpm : forall c, is_digit c = false -> str_mem c port = false).
  { intros c Hc. unfold str_mem. apply negb_false_iff. clear Hne. induction port as [|d port IH]; [done|].
    cbn [str_forall] in *. apply andb_true_iff in Hd as [Hd Hd']. rewrite IH by done.
    destruct (Ascii.eqb_spec c d) as [->|]; [congruence|done]. }
  apply greedy_found; [done|done| |].
  - apply greedy_none. by rewrite !str_mem_app, Hs, (Hpm "/"%char).
  - apply greedy_found; [done|done| |].
    + by apply greedy_none, Hpm.
    + rewrite digits_all by done. by destruct (String.eqb_spec port "").
Qed.

(** A CANCEL has the transaction identifier of the INVITE with the same
    Call-ID, sequence number and branch, so that it finds the transaction it
    cancels. *)
Theorem cancel_identifies_invite cancel invite :
  sip_request_method cancel = Some sip_method_cancel ->
  sip_request_method invite ≠ Some sip_method_cancel -> sip_cseq_method_name invite = "INVITE" ->
  sip_call_id cancel = sip_call_id invite -> sip_cseq_seq cancel = sip_cseq_seq invite ->
  sip_via_branch cancel = sip_via_branch invite ->
  makeUniqueSipTransactionIdentifier cancel = makeUniqueSipTransactionIdentifier invite.
Proof.
  intros Hc Hi Hn E1 E2 E3. unfold makeUniqueSipTransactionIdentifier.
  rewrite bool_decide_eq_true_2 by done. rewrite bool_decide_eq_false_2 by done.
  by rewrite Hn, E1, E2, E3.
Qed.

(** ** Concrete messages and tags
    Concrete instances of the text properties that have hypotheses. *)

(** A name-addr codec that keeps the text it was given as host. *)
#[export] Instance echo_url : SofiaUrl := {|
  name_addr_rest := unit;
  sip_name_addr_d s := Some (tt, MkUrl (Some "sip") None (Some s) None);
  sip_name_addr_e _ _ _ url := (1%Z, "<sip:" +:+ default "" (url_host url) +:+ ">");
|}.

Lemma splitMsg_roundtrip_witness :
  splitMsg ("1|sip||" +:+ DR_CRLF +:+ join DR_CRLF ["INVITE sip:a SIP/2.0"; "To: b"] +:+ DR_CRLF2 +:+ "v=0")
    = ("1|sip||", "INVITE sip:a SIP/2.0", "To: b", "v=0").
Proof.
  apply (splitMsg_roundtrip "1|sip||" "INVITE sip:a SIP/2.0" ["To: b"] "v=0"); [reflexivity..|].
  repeat constructor. discriminate.
Defined.

Lemma parseStartLine_methodType_witness :
  parseStartLine (join " " ["PRACK"; "sip:a"; "SIP/2.0"]) = (sip_method_prack, "PRACK", "sip:a").
Proof.
  refine (parseStartLine_methodType "PRACK" "sip:a" ["SIP/2.0"] _).
  repeat constructor; discriminate.
Defined.

Lemma GetValueForHeader_first_witness :
  GetValueForHeader (join DR_CRLF (header_line <$> [("To", "x"); ("Call-ID", "77"); ("call-id", "78")])) "Call-ID"
    = Some "77".
Proof.
  refine (GetValueForHeader_first [("To", "x"); ("Call-ID", "77"); ("call-id", "78")] "Call-ID" _).
  repeat constructor.
Defined.

Definition long_uri : string := "sip:" +:+ join "" (replicate 250 "a") +:+ "@localhost".
Lemma makeTags_memory_witness :
  makeTags [] "From: <sip:me@localhost>" "udp/10.0.0.1:5060" None ∅ ≠ Fault BadAccess /\
  makeTags [] ("From: " +:+ long_uri) "udp/10.0.0.1:5060" None ∅ = Fault BadAccess.
Proof.
  split; [vm_compute; discriminate|].
  refine (proj2 (makeTags_memory [] ("From: " +:+ long_uri) "udp/10.0.0.1:5060" None ∅)
    ("From: " +:+ long_uri) "From" long_uri _ _ _ _ _).
  - apply (bool_decide_unpack _). vm_compute. exact I.
  - vm_compute. reflexivity.
  - left.
  - vm_compute. by eexists.
  - apply (bool_decide_unpack _). vm_compute. exact I.
Defined.

Lemma utf8_strlen_encode_witness : utf8_strlen (utf8_concat [72; 233; 8364; 128512])%N = Some 4%Z.
Proof. refine (utf8_strlen_encode [72; 233; 8364; 128512]%N _). repeat constructor. Defined.

Lemma isRfc1918_exact_witness : isRfc1918 "172.217.16.1" = true /\ isRfc1918 "8.8.8.8" = false.
Proof.
  split.
  - rewrite (isRfc1918_exact "172.217.16.1" 172 217 16 1) by reflexivity. reflexivity.
  - rewrite (isRfc1918_exact "8.8.8.8" 8 8 8 8) by reflexivity. reflexivity.
Defined.

Lemma parseTransportDescription_roundtrip_witness :
  parseTransportDescription "udp/[::1]:5060" = Some ("udp", ("[::1]", "5060")).
Proof.
  refine (parseTransportDescription_roundtrip "udp" "[::1]" "5060" _ _ _ _ _); done.
Defined.

Lemma cancel_identifies_invite_witness :
  makeUniqueSipTransactionIdentifier (MkSip "c" (Some sip_method_cancel) "CANCEL" 2 (Some "z9") [] None) =
  makeUniqueSipTransactionIdentifier (MkSip "c" (Some sip_method_invite) "INVITE" 2 (Some "z9") [] None).
Proof. apply cancel_identifies_invite; done. Defined.
