(* ===== verification/Client.v ===== *)
(** Model of a client connection (src/client.hpp, src/client.cpp): the
    length-prefixed framing of the byte stream and the dispatch of client
    messages to the controllers. *)
From S2P Require Import Prelude CppString TextUtil.

(** ** Environment *)

(** [boost::circular_buffer<char>]: insertion of a range, or of one element,
    at the end of a buffer of some capacity. *)
Class CircularBuffer := {
  cb_insert_end : nat -> list ascii -> list ascii -> list ascii;
  cb_push_back : nat -> list ascii -> ascii -> list ascii;
}.
(** Documented: when the capacity is exceeded, elements at the front are
    overwritten, oldest first. *)
Class CircularBufferLaws `{CircularBuffer} := {
  cb_insert_end_spec cap b d : length b <= cap ->
    cb_insert_end cap b d = drop (length b + length d - cap) (b ++ d)%list;
  cb_push_back_spec cap b c : length b < cap -> cb_push_back cap b c = (b ++ [c])%list;
}.

(** The operations of the client controller, the dialog controller and the
    main controller that a client calls, on their state [W]; the client
    argument [shared_from_this()] is this connection. *)
Class ClientEnv (W : Type) := {
  env_leave : M W unit;
  env_outboundReady : string -> M W unit;
  env_generateUuid : M W string;
  env_wants_requests : string -> M W bool;
  env_no_longer_wants_requests : string -> M W bool;
  env_isSecret : string -> bool;
  env_getMyHostports : list string;
  env_getMyLocalHostports : list string;
  DRACHTIO_VERSION : string;
  (** msgId, transactionId, startLine, headers, body *)
  env_respondToSipRequest : string -> string -> string -> string -> string -> M W bool;
  (** clientMsgId, dialogId, startLine, headers, body, transactionId *)
  env_sendRequestInsideDialog : string -> string -> string -> string -> string -> string -> M W bool;
  (** msgId, transactionId, startLine, headers, body *)
  env_sendCancelRequest : string -> string -> string -> string -> string -> M W bool;
  (** clientMsgId, startLine, headers, body, transactionId, dialogId, routeUrl *)
  env_sendRequestOutsideDialog : string -> string -> string -> string -> string -> string -> string -> M W bool;
  (** the dialog id of the dialog that is found *)
  env_findDialogByCallId : string -> M W (option string);
  (** clientMsgId, transactionId, recordRoute, fullResponse, followRedirects,
      simultaneous, provisionalTimeout, finalTimeout, vecDestinations, headers *)
  env_proxyRequest : string -> string -> bool -> bool -> bool -> bool -> string -> string ->
    list string -> string -> M W bool;
}.

(** ** State *)

(** [class BaseClient]; [m_sent] holds what was given to [async_write], latest
    last. *)
Record BaseClient := MkClient {
  m_buffer : list ascii;
  m_nMessageLength : N;
  m_tags : gset string;
  m_transactionId : string;
  m_sent : list string;
}.
Definition buffer_capacity : nat := Z.to_nat 12228.
Definition set_buffer b c := MkClient b (m_nMessageLength c) (m_tags c) (m_transactionId c) (m_sent c).
Definition set_messageLength n c := MkClient (m_buffer c) n (m_tags c) (m_transactionId c) (m_sent c).
Definition add_tags l c := MkClient (m_buffer c) (m_nMessageLength c) (m_tags c ∪ list_to_set l) (m_transactionId c) (m_sent c).
Definition add_sent s c := MkClient (m_buffer c) (m_nMessageLength c) (m_tags c) (m_transactionId c) (m_sent c ++ [s])%list.

Definition BaseClient_new (transactionId : string) : BaseClient := MkClient [] 0 ∅ transactionId [].
Definition BaseClient_isOutbound (c : BaseClient) : bool := negb (String.eqb (m_transactionId c) "").
Definition BaseClient_hasTag (tag : string) (c : BaseClient) : bool := bool_decide (tag ∈ m_tags c).

(** ** Framing *)

Section framing.
Context `{Boost} `{CircularBuffer}.

(** The loop of [readMessageLength]: the digits read, the rest of the buffer
    and the last character. *)
Fixpoint readMessageLength_loop (buf ch : list ascii) : res (list ascii * list ascii * ascii) :=
  match buf with
  | [] => Fault BadAccess
  | c :: buf' =>
    if Ascii.eqb c "#" then Ok (ch, buf', c)
    else if negb (is_digit c) then Fault (Thrown "std::runtime_error")
    else
      let ch := (ch ++ [c])%list in
      if bool_decide (buf' ≠ []) && bool_decide (length ch < 6)
      then readMessageLength_loop buf' ch else Ok (ch, buf', c)
  end.

(** [readMessageLength(len)] on [m_buffer]: the result and [len]. *)
Definition readMessageLength : M (list ascii) (bool * N) := fun buf =>
  match readMessageLength_loop buf [] with
  | Fault f => Fault f
  | Ok (ch, buf', c) =>
    if bool_decide (length ch = 6) then Fault (Thrown "std::runtime_error")
    else if bool_decide (buf' = []) && negb (Ascii.eqb c "#") then
      Ok ((false, 0%N), foldl (cb_push_back buffer_capacity) buf' ch)
    else
      match lexical_cast_unsigned (String.string_of_list_ascii ch) with
      | None => Fault (Thrown "boost::bad_lexical_cast")
      | Some len => Ok ((bool_decide (buf' ≠ []), len), buf')
      end
  end.
End framing.

(** [to_string(len) + "#" + msg], what is written to the socket. *)
Definition frame (msg : string) : string := pretty (N.of_nat (String.length msg)) +:+ "#" +:+ msg.

Section client.
Context `{Boost} `{CircularBuffer} {W : Type} `{ClientEnv W}.
Abbreviation CM := (M (BaseClient * W)).

Definition on_client {A} (m : M BaseClient A) : CM A := zoom fst (fun c s => (c, s.2)) m.
Definition env {A} (m : M W A) : CM A := zoom snd (fun w s => (s.1, w)) m.
Definition try_runtime_error {A} (m handler : CM A) : CM A := fun s =>
  match m s with
  | Fault (Thrown "std::runtime_error") => handler s
  | r => r
  end.

(** [Client<T,S>::send(str)] *)
Definition Client_send (str : string) : CM unit :=
  if String.eqb str "" then mret tt else on_client (modify (add_sent (frame str))).

(** *** Messages to the client *)

(** [sendSipMessageToClient] for a request or response inside a dialog, and
    for a request outside one. *)
Definition sendSipMessageToClient_dialog (transactionId dialogId rawSipMsg : string) (meta : SipMsgData_t) : CM unit :=
  strUuid ← env env_generateUuid;
  Client_send (strUuid +:+ "|sip|" +:+ SipMsgData_toMessageFormat meta +:+ "|" +:+ transactionId +:+ "|" +:+
    dialogId +:+ "|" +:+ DR_CRLF +:+ rawSipMsg).
Definition sendSipMessageToClient (transactionId rawSipMsg : string) (meta : SipMsgData_t) : CM unit :=
  strUuid ← env env_generateUuid;
  Client_send (strUuid +:+ "|sip|" +:+ SipMsgData_toMessageFormat meta +:+ "|" +:+ transactionId +:+ "||" +:+
    (if String.eqb (m_destAddress meta) "" then ""
     else m_destAddress meta +:+ "|" +:+ m_destPort meta +:+ "|") +:+ DR_CRLF +:+ rawSipMsg).
Definition sendCdrToClient (rawSipMsg meta : string) : CM unit :=
  strUuid ← env env_generateUuid;
  Client_send (strUuid +:+ "|" +:+ meta +:+ DR_CRLF +:+ rawSipMsg).
Definition sendApiResponseToClient (clientMsgId responseText additionalResponseText : string) : CM unit :=
  strUuid ← env env_generateUuid;
  Client_send (strUuid +:+ "|response|" +:+ clientMsgId +:+ "|" +:+ responseText +:+
    (if String.eqb additionalResponseText "" then "" else "|" +:+ additionalResponseText)).
Definition createResponseMsg (msgId : string) (ok : bool) (szReason : option string) : CM string :=
  strUuid ← env env_generateUuid;
  mret (strUuid +:+ "|response|" +:+ msgId +:+ "|" +:+ (if ok then "OK" else "NO") +:+
    match szReason with Some r => "|" +:+ r | None => "" end).

(** *** [processClientMessage] *)

(** [tokens[i]] *)
Definition token (tokens : list string) (i : nat) : CM string := deref (tokens !! i).

(** A response and the result of [processClientMessage]. *)
Definition reply (msgId : string) (ok : bool) (szReason : option string) (result : bool) : CM (bool * string) :=
  msgResponse ← createResponseMsg msgId ok szReason;
  mret (result, msgResponse).

Definition process_authenticate (tokens : list string) (t0 : string) : CM (bool * string) :=
  secret ← token tokens 2;
  _ ← match tokens !! 3 with
      | Some tags => on_client (modify (add_tags (split "," tags)))
      | None => mret tt
      end;
  if negb (env_isSecret secret) then reply t0 false (Some "incorrect secret") false
  else
    reply t0 true (Some (join "," env_getMyHostports +:+ "|" +:+ DRACHTIO_VERSION +:+ "|" +:+
                         join "," env_getMyLocalHostports)) true.

Definition process_sip (tokens : list string) (t0 startLine headers body : string) : CM (bool * string) :=
  _ ← assertb (bool_decide (4 <= length tokens));
  transactionId ← token tokens 2;
  dialogId ← token tokens 3;
  let routeUrl := default "" (tokens !! 4) in
  if bool_decide (str_find "SIP/" startLine = Some 0) then
    if String.eqb transactionId "" then reply t0 false (Some "transaction id missing") false
    else
      _ ← env (env_respondToSipRequest t0 transactionId startLine headers body);
      mret (true, "")
  else if negb (String.eqb dialogId "") then
    _ ← env (env_sendRequestInsideDialog t0 dialogId startLine headers body transactionId);
    mret (true, "")
  else if negb (String.eqb transactionId "") then
    if bool_decide (str_find "CANCEL" startLine = Some 0) then
      _ ← env (env_sendCancelRequest t0 transactionId startLine headers body);
      mret (true, "")
    else fail AssertFail
  else
    dlg ← match GetValueForHeader headers "Call-ID" with
          | Some strCallId => env (env_findDialogByCallId strCallId)
          | None => mret None
          end;
    match dlg with
    | Some dlgId =>
      _ ← env (env_sendRequestInsideDialog t0 dlgId startLine headers body transactionId);
      mret (true, "")
    | None =>
      _ ← env (env_sendRequestOutsideDialog t0 startLine headers body transactionId dialogId routeUrl);
      mret (true, "")
    end.

Definition process_proxy (tokens : list string) (t0 headers : string) : CM (bool * string) :=
  if bool_decide (length tokens < 4) then
    reply t0 false (Some "Invalid proxy request: not enough information provided") false
  else
    transactionId ← token tokens 2;
    t3 ← token tokens 3;
    t4 ← token tokens 4;
    t5 ← token tokens 5;
    t6 ← token tokens 6;
    provisionalTimeout ← token tokens 7;
    finalTimeout ← token tokens 8;
    _ ← env (env_proxyRequest t0 transactionId (String.eqb t3 "remainInDialog") (String.eqb t4 "fullResponse")
               (String.eqb t5 "followRedirects") (String.eqb t6 "simultaneous") provisionalTimeout finalTimeout
               (drop 9 tokens) headers);
    mret (true, "").

(** [processClientMessage(msg, msgResponse)]: the result and [msgResponse]. *)
Definition processClientMessage (msg : string) : CM (bool * string) :=
  let '(meta, startLine, headers, body) := splitMsg msg in
  let tokens := splitTokens meta in
  t0 ← token tokens 0;
  if bool_decide (length tokens < 2) then reply t0 false (Some "Invalid message format") false
  else
    t1 ← token tokens 1;
    if String.eqb t1 "ping" then reply t0 true (Some "pong") true
    else if String.eqb t1 "route" then
      t2 ← token tokens 2;
      ok ← env (env_wants_requests t2);
      if ok : bool then reply t0 true None true
      else reply t0 false (Some "Route request includes unsupported verb") false
    else if String.eqb t1 "remove_route" then
      t2 ← token tokens 2;
      ok ← env (env_no_longer_wants_requests t2);
      if ok : bool then reply t0 true None true
      else reply t0 false (Some "Remove route request includes unsupported verb") false
    else if String.eqb t1 "authenticate" then process_authenticate tokens t0
    else if String.eqb t1 "sip" then process_sip tokens t0 startLine headers body
    else if String.eqb t1 "proxy" then process_proxy tokens t0 headers
    else reply t0 false (Some "Unknown message type") false.

(** *** [read_handler] *)

Section read_handler.
(** The message processor; the connection uses [processClientMessage]. *)
Context (process : string -> CM (bool * string)).

(** The result: false when the client has left, true when another read was
    started. *)
Definition leave_connection : CM bool := _ ← env env_leave; mret false.

Definition read_length : CM bool :=
  r ← on_client (zoom m_buffer set_buffer readMessageLength);
  _ ← on_client (modify (set_messageLength r.2));
  mret r.1.

(** [try { ... } catch( runtime_error ) { leave ; return ; }]: [None] when
    the client has left. *)
Definition try_or_leave {A} (m : CM A) : CM (option A) :=
  try_runtime_error (Some <$> m) (_ ← env env_leave; mret None).

(** One message is complete in the buffer: process it, send the response,
    drop it and read the length of the next one. *)
Definition handle_message (next : CM bool) : CM bool :=
  s ← get;
  let len := N.to_nat (m_nMessageLength s.1) in
  let in_ := String.string_of_list_ascii (take len (m_buffer s.1)) in
  r ← try_or_leave (process in_);
  match r with
  | None => mret false
  | Some (bContinue, msgResponse) =>
    _ ← (if String.eqb msgResponse "" then mret tt else on_client (modify (add_sent (frame msgResponse))));
    if negb bContinue then leave_connection else
    s ← get;
    _ ← (if BaseClient_isOutbound s.1 && bool_decide (is_Some (str_find "|authenticate|" in_))
         then env (env_outboundReady (m_transactionId s.1)) else mret tt);
    _ ← on_client (modify (fun c => set_buffer (drop len (m_buffer c)) c));
    s ← get;
    if bool_decide (m_buffer s.1 ≠ []) then
      more ← try_or_leave read_length;
      match more with
      | None => mret false
      | Some false => mret true
      | Some true => next
      end
    else
      _ ← on_client (modify (set_messageLength 0));
      next
  end.

(** The [while] loop. *)
Fixpoint message_loop (fuel : nat) : CM bool :=
  match fuel with
  | O => fail OutOfFuel
  | S fuel =>
    s ← get;
    let len := m_nMessageLength s.1 in
    if bool_decide (len <= N.of_nat (length (m_buffer s.1)))%N && bool_decide (0 < len)%N
    then handle_message (message_loop fuel)
    else mret true
  end.

(** [read_handler(ec, bytes_transferred)]: [None] when the read failed. *)
Definition read_handler (data : option (list ascii)) : CM bool :=
  match data with
  | None => leave_connection
  | Some data =>
    _ ← on_client (modify (fun c => set_buffer (cb_insert_end buffer_capacity (m_buffer c) data) c));
    s ← get;
    if bool_decide (m_nMessageLength s.1 = 0%N) then
      go ← try_or_leave read_length;
      match go with
      | None => mret false
      | Some false => mret true
      | Some true => s ← get; message_loop (S (length (m_buffer s.1)))
      end
    else message_loop (S (length (m_buffer s.1)))
  end.

(** Successive reads, until the client leaves. *)
Fixpoint read_all (chunks : list (list ascii)) : CM bool :=
  match chunks with
  | [] => mret true
  | d :: ds => go ← read_handler (Some d); if go : bool then read_all ds else mret false
  end.
End read_handler.
End client.
