(* ===== verification/ClientCorrect.v ===== *)
(** Correctness of the client connection: the framing delivers exactly the
    messages that were sent, however TCP cuts the stream; what happens to
    oversized and malformed lengths; which messages crash the dispatcher. *)
From S2P Require Import Prelude CppString BoostInstance TextUtil Client.

Open Scope list_scope.

(** ** Streams *)

Definition bytes : string -> list ascii := String.list_ascii_of_string.
Definition encode (msgs : list string) : list ascii := m ← msgs; bytes (frame m).

Lemma bytes_app s t : bytes (s +:+ t) = bytes s ++ bytes t.
Proof. induction s as [|c s IH]; [done|]. rewrite str_app_cons. cbn. by rewrite IH. Qed.
Lemma bytes_length s : length (bytes s) = String.length s.
Proof. induction s as [|c s IH]; [done|]. cbn. by rewrite IH. Qed.
Lemma bytes_string s : String.string_of_list_ascii (bytes s) = s.
Proof. apply String.string_of_list_ascii_of_string. Qed.
Lemma bytes_forall p s : str_forall p s = forallb p (bytes s).
Proof. induction s as [|c s IH]; [done|]. cbn. by rewrite IH. Qed.

(** A message that the length prefix can announce. *)
Definition sendable (m : string) : Prop := 0 < String.length m /\ (N.of_nat (String.length m) < 100000)%N.
Definition header (m : string) : list ascii := bytes (pretty (N.of_nat (String.length m))).

Lemma frame_bytes m : bytes (frame m) = header m ++ "#"%char :: bytes m.
Proof. unfold frame. by rewrite !bytes_app. Qed.
Lemma encode_cons m msgs : encode (m :: msgs) = header m ++ "#"%char :: bytes m ++ encode msgs.
Proof. unfold encode. rewrite bind_cons, frame_bytes. by rewrite <-app_assoc, <-app_comm_cons. Qed.

Lemma header_spec m :
  sendable m -> forallb is_digit (header m) = true /\ 0 < length (header m) <= 5.
Proof.
  intros [H0 H1]. unfold header. rewrite <-bytes_forall, bytes_length.
  destruct (pretty_N_digits 5 (N.of_nat (String.length m))) as (? & ? & _); [lia| |done].
  change (10 ^ N.of_nat 5)%N with 100000%N. lia.
Qed.

(** ** [readMessageLength] *)

Section read_length.
Context `{BoostLaws} `{CircularBufferLaws}.

Lemma header_value m :
  sendable m -> lexical_cast_unsigned (String.string_of_list_ascii (header m)) = Some (N.of_nat (String.length m)).
Proof.
  intros Hm. unfold header. rewrite bytes_string. destruct Hm as [H0' H1'].
  destruct (pretty_N_digits 5 (N.of_nat (String.length m))) as (Hd & Hl & Hv); [lia| |].
  { change (10 ^ N.of_nat 5)%N with 100000%N. lia. }
  rewrite lexical_cast_unsigned_digits; [by rewrite Hv| |done|].
  - intros E. rewrite E in Hl. simpl in Hl. lia.
  - rewrite Hv. change (2 ^ 32)%N with 4294967296%N. lia.
Qed.

(** The loop stops at the marker, or at the end of a buffer of digits. *)
Lemma loop_marker ds ch r :
  forallb is_digit ds = true -> length ch + length ds <= 5 ->
  readMessageLength_loop (ds ++ "#"%char :: r) ch = Ok (ch ++ ds, r, "#"%char).
Proof.
  revert ch. induction ds as [|d ds IH]; intros ch Hd Hl; [by rewrite app_nil_r|].
  cbn [forallb] in Hd. apply andb_true_iff in Hd as [Hd Hds].
  cbn [app readMessageLength_loop]. destruct (Ascii.eqb_spec d "#") as [->|_]; [done|].
  rewrite Hd. cbn [negb]. simpl in Hl.
  rewrite bool_decide_eq_true_2 by (by destruct ds). rewrite bool_decide_eq_true_2 by (rewrite length_app; simpl; lia).
  cbn [andb]. rewrite IH; [by rewrite <-app_assoc|done|rewrite length_app; simpl; lia].
Qed.

Lemma loop_digits ds d ch :
  forallb is_digit (ds ++ [d]) = true -> length ch + length ds < 5 ->
  readMessageLength_loop (ds ++ [d]) ch = Ok (ch ++ ds ++ [d], [], d).
Proof.
  revert ch. induction ds as [|e ds IH]; intros ch Hd Hl; cbn [app forallb] in Hd;
    apply andb_true_iff in Hd as [Hd Hds]; cbn [app readMessageLength_loop].
  - destruct (Ascii.eqb_spec d "#") as [->|_]; [done|]. rewrite Hd. cbn [negb].
    by rewrite (bool_decide_eq_false_2 ([] ≠ [])) by naive_solver.
  - destruct (Ascii.eqb_spec e "#") as [->|_]; [done|]. rewrite Hd. cbn [negb]. simpl in Hl.
    rewrite bool_decide_eq_true_2 by (by destruct ds). rewrite bool_decide_eq_true_2 by (rewrite length_app; simpl; lia).
    cbn [andb]. rewrite IH; [by rewrite <-app_assoc|done|rewrite length_app; simpl; lia].
Qed.

Lemma push_back_all b ds :
  length b + length ds <= buffer_capacity -> foldl (cb_push_back buffer_capacity) b ds = b ++ ds.
Proof.
  revert b. induction ds as [|d ds IH]; intros b Hl; [by rewrite app_nil_r|].
  simpl in Hl. cbn [foldl]. rewrite cb_push_back_spec by lia.
  rewrite IH by (rewrite length_app; simpl; lia). by rewrite <-app_assoc.
Qed.

Lemma buffer_capacity_value : buffer_capacity = Z.to_nat 12228.
Proof. done. Qed.
Opaque buffer_capacity.

(** The length of a message whose header is complete. *)
Lemma readMessageLength_full m r :
  sendable m ->
  readMessageLength (header m ++ "#"%char :: r) = Ok ((bool_decide (r ≠ []), N.of_nat (String.length m)), r).
Proof.
  intros Hm. destruct (header_spec m Hm) as [Hd Hl]. unfold readMessageLength.
  rewrite loop_marker by (done || simpl; lia). cbn [app].
  rewrite bool_decide_eq_false_2 by lia. rewrite Ascii.eqb_refl, andb_false_r. by rewrite header_value.
Qed.

(** A header that is not complete goes back to the buffer. *)
Lemma readMessageLength_partial ds :
  ds ≠ [] -> forallb is_digit ds = true -> length ds <= 5 ->
  readMessageLength ds = Ok ((false, 0%N), ds).
Proof.
  intros Hne Hd Hl. destruct (list_rcons_cases ds) as [->|(ds' & d & ->)]; [done|].
  rewrite length_app in Hl. simpl in Hl. unfold readMessageLength.
  rewrite loop_digits by (done || simpl; lia). cbn [app].
  rewrite bool_decide_eq_false_2 by (rewrite length_app; simpl; lia).
  rewrite bool_decide_eq_true_2 by done.
  assert (Ascii.eqb d "#" = false) as ->.
  { rewrite forallb_app in Hd. apply andb_true_iff in Hd as [_ Hd]. cbn in Hd.
    destruct (Ascii.eqb_spec d "#") as [->|]; [done|done]. }
  cbn [negb andb]. rewrite push_back_all; [done|]. rewrite buffer_capacity_value, length_app. simpl. lia.
Qed.

(** Any non-empty buffer that begins the encoding of some messages. *)
Lemma readMessageLength_stream buf rest msgs :
  Forall sendable msgs -> buf ≠ [] -> buf ++ rest = encode msgs ->
  exists m msgs', msgs = m :: msgs' /\
    ((length buf <= length (header m) /\ forallb is_digit buf = true /\
      readMessageLength buf = Ok ((false, 0%N), buf)) \/
     (exists r, buf = header m ++ "#"%char :: r /\ r ++ rest = bytes m ++ encode msgs' /\
      readMessageLength buf = Ok ((bool_decide (r ≠ []), N.of_nat (String.length m)), r))).
Proof.
  intros Hs Hne Hbuf. destruct Hs as [|m msgs' Hm Hs]; [by destruct buf|].
  exists m, msgs'. split; [done|]. rewrite encode_cons in Hbuf.
  destruct (header_spec m Hm) as [Hd Hl].
  destruct (decide (length buf <= length (header m))) as [Hle|Hgt].
  - left. assert (exists k, header m = buf ++ k) as [k Hk].
    { exists (drop (length buf) (header m)). apply (f_equal (take (length buf))) in Hbuf.
      rewrite take_app_length, take_app_le in Hbuf by lia.
      rewrite Hbuf at 1. by rewrite take_drop. }
    rewrite Hk, forallb_app in Hd. apply andb_true_iff in Hd as [Hd _].
    split_and!; [done..|]. apply readMessageLength_partial; [done..|lia].
  - right. exists (drop (length (header m) + 1) buf).
    assert (buf = header m ++ "#"%char :: drop (length (header m) + 1) buf) as Hb.
    { pose proof (f_equal (take (length (header m) + 1)) Hbuf) as Ht.
      rewrite take_app_le in Ht by lia.
      rewrite (take_app_add (header m)) in Ht. cbn [take] in Ht.
      rewrite <-(take_drop (length (header m) + 1) buf) at 1. rewrite Ht.
      rewrite <-app_assoc. cbn. done. }
    split_and!; [done| |].
    + rewrite Hb, <-app_assoc in Hbuf. apply app_inv_head in Hbuf. by injection Hbuf.
    + rewrite Hb at 1. by apply readMessageLength_full.
Qed.
End read_length.

(** ** The read loop *)

Section framing.
Context `{BoostLaws} `{CircularBufferLaws} {W : Type} `{!ClientEnv W}.
Context (process : string -> M (BaseClient * W) (bool * string)).

Lemma read_length_ok c w b len buf' :
  readMessageLength (m_buffer c) = Ok ((b, len), buf') ->
  try_or_leave read_length (c, w) = Ok (Some b, (set_messageLength len (set_buffer buf' c), w)).
Proof.
  intros Hr. unfold try_or_leave, try_runtime_error, read_length, on_client, fmap, M_fmap.
  erewrite M_bind_ok; [|by do 2 apply zoom_ok]. done.
Qed.

(** A message that the processor accepts: its response is sent and it leaves
    the buffer. *)
Definition respond (resp : string) (c : BaseClient) : BaseClient :=
  if String.eqb resp "" then c else add_sent (frame resp) c.

Lemma handle_message_run next c w m r resp c' w' :
  m_nMessageLength c = N.of_nat (String.length m) -> m_buffer c = bytes m ++ r ->
  process m (c, w) = Ok ((true, resp), (c', w')) -> m_buffer c' = m_buffer c -> m_transactionId c' = "" ->
  handle_message process next (c, w) =
    (if bool_decide (r ≠ []) then
       more ← try_or_leave read_length;
       match more with None => mret false | Some false => mret true | Some true => next end
     else _ ← on_client (modify (set_messageLength 0)); next) (set_buffer r (respond resp c'), w').
Proof.
  intros Hl Hb Hp Hb' Ht'.
  assert (Hin : String.string_of_list_ascii (take (N.to_nat (m_nMessageLength c)) (m_buffer c)) = m).
  { rewrite Hl, Nat2N.id, Hb, <-bytes_length, take_app_length. apply bytes_string. }
  assert (Hc2 : m_buffer (respond resp c') = m_buffer c /\ m_transactionId (respond resp c') = "")
    by (unfold respond; by case_match).
  destruct Hc2 as [Hb2 Ht2].
  unfold handle_message. erewrite M_bind_ok by reflexivity. cbn beta zeta. cbn [fst snd].
  rewrite Hin. erewrite M_bind_ok; [|unfold try_or_leave, try_runtime_error, fmap, M_fmap; rewrite Hp; reflexivity].
  cbn beta iota. erewrite (M_bind_ok _ _ _ tt (respond resp c', w')); [|unfold respond; by case_match].
  cbn [negb]. erewrite M_bind_ok by reflexivity. cbn [fst snd]. unfold BaseClient_isOutbound. rewrite Ht2.
  cbn [String.eqb negb andb]. erewrite M_bind_ok by reflexivity.
  erewrite M_bind_ok by reflexivity. erewrite M_bind_ok by reflexivity.
  cbn [fst snd]. rewrite Hb2, Hb, Hl, Nat2N.id, <-bytes_length, drop_app_length. done.
Qed.

Lemma message_loop_done fuel c w :
  0 < fuel -> m_nMessageLength c = 0%N -> message_loop process fuel (c, w) = Ok (true, (c, w)).
Proof.
  intros Hf Hl. destruct fuel; [lia|]. cbn [message_loop]. erewrite M_bind_ok by reflexivity.
  cbn [fst]. rewrite Hl. by rewrite andb_false_r.
Qed.

(** A processor that keeps the connection open and leaves the buffer alone;
    [log] is the sequence of messages it was given. *)
Context (log : W -> list string).
Definition keeps_open : Prop := forall m c w, exists resp c' w',
  process m (c, w) = Ok ((true, resp), (c', w')) /\ m_buffer c' = m_buffer c /\
  m_nMessageLength c' = m_nMessageLength c /\ m_transactionId c' = m_transactionId c /\
  log w' = log w ++ [m].
Context (Hproc : keeps_open).

Lemma handle_message_ok next c w m r :
  m_transactionId c = "" -> m_nMessageLength c = N.of_nat (String.length m) -> m_buffer c = bytes m ++ r ->
  exists c1 w1, m_buffer c1 = r /\ m_transactionId c1 = "" /\ log w1 = log w ++ [m] /\
    handle_message process next (c, w) =
      (if bool_decide (r ≠ []) then
         more ← try_or_leave read_length;
         match more with None => mret false | Some false => mret true | Some true => next end
       else _ ← on_client (modify (set_messageLength 0)); next) (c1, w1).
Proof.
  intros Ht Hl Hb. destruct (Hproc m c w) as (resp & c' & w' & Hp & Hb' & Hl' & Ht' & Hlog).
  eexists _, w'. split_and!; [| | |eapply handle_message_run; [done..|congruence]]; [done| |done].
  cbn [m_transactionId set_buffer]. unfold respond. case_match; cbn; congruence.
Qed.

(** The state between reads: the buffer holds a partial length, or the length
    is known and the buffer holds a partial message. *)
Definition leftover (c : BaseClient) (rest : list ascii) (msgs : list string) : Prop :=
  (m_nMessageLength c = 0%N /\ m_buffer c ++ rest = encode msgs /\
   forallb is_digit (m_buffer c) = true /\ length (m_buffer c) <= 5) \/
  (exists m msgs', msgs = m :: msgs' /\ m_nMessageLength c = N.of_nat (String.length m) /\
     m_buffer c ++ rest = bytes m ++ encode msgs' /\ length (m_buffer c) < String.length m).

Lemma message_loop_ok m msgs fuel c w rest :
  Forall sendable (m :: msgs) -> m_transactionId c = "" ->
  m_nMessageLength c = N.of_nat (String.length m) ->
  m_buffer c ++ rest = bytes m ++ encode msgs -> length (m_buffer c) < fuel ->
  exists k c' w', message_loop process fuel (c, w) = Ok (true, (c', w')) /\
    m_transactionId c' = "" /\ log w' = log w ++ take k (m :: msgs) /\
    leftover c' rest (drop k (m :: msgs)).
Proof.
  revert m fuel c w. induction msgs as [|m2 msgs IH]; intros m [|fuel] c w Hs Ht Hl Hb Hf;
    try lia; cbn [message_loop]; erewrite M_bind_ok by reflexivity; cbn [fst snd]; rewrite Hl;
    pose proof (Forall_inv Hs) as [Hm0 Hm1]; apply Forall_inv_tail in Hs;
    (destruct (decide (length (m_buffer c) < String.length m)) as [Hlt|Hge];
     [rewrite (bool_decide_eq_false_2 (_ <= _)%N) by lia; exists 0, c, w; cbn [take drop andb]; rewrite app_nil_r;
      split_and!; [done..|]; right; by eexists _, _|]).
  all: assert (exists r, m_buffer c = bytes m ++ r /\ length r < length (m_buffer c)) as (r & Hr & Hrl);
    [exists (drop (String.length m) (m_buffer c)); split; [|rewrite length_drop; lia];
     rewrite <-(take_drop (String.length m) (m_buffer c)) at 1; f_equal;
     apply (f_equal (take (String.length m))) in Hb; rewrite take_app_le in Hb by lia;
     by rewrite Hb, <-bytes_length, take_app_length|].
  all: rewrite Hr, <-app_assoc in Hb; apply app_inv_head in Hb.
  all: rewrite !bool_decide_eq_true_2 by lia; cbn [andb].
  all: destruct (handle_message_ok (message_loop process fuel) c w m r Ht Hl Hr) as (c1 & w1 & Hb1 & Ht1 & Hlog & ->).
  all: destruct (decide (r = [])) as [->|Hne];
    [rewrite bool_decide_eq_false_2 by naive_solver | rewrite bool_decide_eq_true_2 by done].
  all: try (exists 1, (set_messageLength 0 c1), w1; cbn [take drop]; split_and!;
    [erewrite M_bind_ok by reflexivity; apply message_loop_done; [simpl in *; lia|done]|done|by rewrite Hlog|];
    left; cbn [m_nMessageLength m_buffer set_messageLength]; rewrite Hb1; split_and!; done || (simpl; lia)).
  - by destruct r.
  - destruct (readMessageLength_stream r rest (m2 :: msgs) Hs Hne Hb) as (m2' & msgs' & [= <- <-] & Hcase).
    pose proof (Forall_inv Hs) as Hm2. destruct (header_spec m2 Hm2) as [_ Hhl].
    rewrite <-Hb1 in Hcase.
    destruct Hcase as [(Hrle & Hdig & Hrun)|(r2 & Hr2 & Hb2 & Hrun)];
      rewrite (M_bind_ok _ _ _ _ _ (read_length_ok _ _ _ _ _ Hrun)).
    + exists 1. eexists _, _. split; [reflexivity|]. cbn [take drop]. split_and!; [done|done|].
      left. cbn [m_nMessageLength m_buffer set_messageLength set_buffer].
      split_and!; [done|by rewrite Hb1|done|lia].
    + destruct (decide (r2 = [])) as [->|Hne2].
      * rewrite bool_decide_eq_false_2 by naive_solver. exists 1. eexists _, _.
        split; [reflexivity|]. cbn [take drop]. split_and!; [done|done|].
        right. exists m2, msgs. cbn [m_nMessageLength m_buffer set_messageLength set_buffer].
        split_and!; [done|done|done|]. destruct Hm2. simpl. lia.
      * rewrite bool_decide_eq_true_2 by done.
        destruct (IH m2 fuel (set_messageLength (N.of_nat (String.length m2)) (set_buffer r2 c1)) w1)
          as (k & c' & w' & Hrun' & Ht' & Hlog' & Hleft); [done|done|done|done| |].
        { cbn [m_buffer set_messageLength set_buffer]. rewrite Hb1 in Hr2.
          apply (f_equal length) in Hr2. rewrite length_app in Hr2. simpl in Hr2. lia. }
        exists (S k), c', w'. cbn [take drop]. split_and!; [done|done| |done].
        by rewrite Hlog', Hlog, <-app_assoc.
Qed.

Lemma read_handler_ok c w d rest msgs :
  Forall sendable msgs -> m_transactionId c = "" -> d ≠ [] ->
  length (m_buffer c) + length d <= buffer_capacity -> leftover c (d ++ rest) msgs ->
  exists k c' w', read_handler process (Some d) (c, w) = Ok (true, (c', w')) /\
    m_transactionId c' = "" /\ log w' = log w ++ take k msgs /\ leftover c' rest (drop k msgs).
Proof.
  intros Hs Ht Hd Hcap Hleft. unfold read_handler.
  erewrite M_bind_ok by reflexivity. erewrite M_bind_ok by reflexivity. cbn [fst snd].
  rewrite cb_insert_end_spec by lia. rewrite (proj2 (Nat.sub_0_le _ _)) by lia. rewrite drop_0.
  set (c1 := set_buffer (m_buffer c ++ d) c).
  change (m_buffer (set_buffer _ c)) with (m_buffer c ++ d).
  destruct Hleft as [(Hl & Hb & Hdig & H5)|(m & msgs' & -> & Hl & Hb & Hlt)];
    change (m_nMessageLength c1) with (m_nMessageLength c); rewrite Hl.
  - rewrite bool_decide_eq_true_2 by done. rewrite app_assoc in Hb.
    destruct (readMessageLength_stream (m_buffer c ++ d) rest msgs Hs) as (m & msgs' & -> & Hcase);
      [by destruct (m_buffer c), d|done|]. change (m_buffer c ++ d) with (m_buffer c1) in Hcase.
    pose proof (Forall_inv Hs) as Hm. destruct (header_spec m Hm) as [_ Hhl].
    destruct Hcase as [(Hle & Hdg & Hrun)|(r & Hr & Hbr & Hrun)];
      rewrite (M_bind_ok _ _ _ _ _ (read_length_ok _ _ _ _ _ Hrun)).
    + exists 0. eexists _, w. split; [reflexivity|]. cbn [take drop]. rewrite app_nil_r.
      split_and!; [done|done|]. left. cbn [m_nMessageLength m_buffer set_messageLength set_buffer].
      split_and!; [done|done|done|]. cbn [c1 m_buffer set_buffer] in Hle. unfold c1. cbn [m_buffer set_buffer]. lia.
    + destruct (decide (r = [])) as [->|Hne].
      * rewrite bool_decide_eq_false_2 by naive_solver.
        exists 0. eexists _, w. split; [reflexivity|]. cbn [take drop]. rewrite app_nil_r.
        split_and!; [done|done|]. right. exists m, msgs'.
        cbn [m_nMessageLength m_buffer set_messageLength set_buffer]. destruct Hm. by split_and!.
      * rewrite bool_decide_eq_true_2 by done. cbn beta iota.
        erewrite M_bind_ok by reflexivity. cbn [fst].
        apply message_loop_ok; cbn [m_nMessageLength m_buffer set_messageLength set_buffer]; done || lia.
  - assert (0 < String.length m) by (pose proof (Forall_inv Hs) as [? _]; lia).
    rewrite bool_decide_eq_false_2 by lia. cbn [fst].
    apply message_loop_ok; cbn [m_nMessageLength m_buffer set_messageLength set_buffer]; try done || lia.
    unfold c1. cbn [m_buffer set_buffer]. by rewrite <-app_assoc.
Qed.

(** Bytes that can be in the buffer between reads, whatever was read. *)
Lemma leftover_bound c rest msgs n :
  Forall (fun m => String.length m <= n) msgs -> leftover c rest msgs -> length (m_buffer c) <= Nat.max 5 (n - 1).
Proof.
  intros Hn [(_ & _ & _ & ?)|(m & msgs' & -> & _ & _ & ?)]; [lia|].
  pose proof (Forall_inv Hn) as Hm. cbn in Hm. lia.
Qed.

Lemma leftover_nothing c msgs : Forall sendable msgs -> leftover c [] msgs -> msgs = [].
Proof.
  intros Hs [(_ & Hb & Hd & _)|(m & msgs' & -> & _ & Hb & Hlt)].
  - destruct msgs as [|m msgs]; [done|]. rewrite app_nil_r in Hb.
    rewrite Hb, encode_cons, forallb_app in Hd. cbn [forallb] in Hd.
    change (is_digit "#") with false in Hd. by rewrite andb_false_l, andb_false_r in Hd.
  - apply (f_equal length) in Hb. rewrite app_nil_r, length_app, bytes_length in Hb. lia.
Qed.

Lemma read_all_ok chunks c w rest msgs :
  Forall sendable msgs -> Forall (fun m => String.length m <= 4037) msgs -> m_transactionId c = "" ->
  Forall (fun d => 0 < length d /\ (N.of_nat (length d) <= 8192)%N) chunks ->
  leftover c (concat chunks ++ rest) msgs ->
  exists k c' w', read_all process chunks (c, w) = Ok (true, (c', w')) /\
    log w' = log w ++ take k msgs /\ leftover c' rest (drop k msgs).
Proof.
  intros Hs Hn Ht Hc Hleft. revert c w msgs Hs Hn Ht Hleft.
  induction Hc as [|d ds [Hd0 Hd] Hc IH]; intros c w msgs Hs Hn Ht Hleft.
  { exists 0, c, w. cbn. by rewrite app_nil_r. }
  pose proof (leftover_bound _ _ _ _ Hn Hleft) as Hbound.
  cbn [concat] in Hleft. rewrite <-app_assoc in Hleft.
  destruct (read_handler_ok c w d (concat ds ++ rest) msgs) as (k & c1 & w1 & Hrun & Ht1 & Hlog1 & Hleft1);
    [done|done|intros ->; simpl in Hd0; lia|rewrite buffer_capacity_value; lia|done|].
  destruct (IH c1 w1 (drop k msgs)) as (k2 & c2 & w2 & Hrun2 & Hlog2 & Hleft2);
    [by apply Forall_drop|by apply Forall_drop|done|done|].
  exists (k + k2), c2, w2. cbn [read_all]. rewrite (M_bind_ok _ _ _ _ _ Hrun). split_and!; [done| |].
  - by rewrite Hlog2, Hlog1, <-app_assoc, take_take_drop.
  - by rewrite <-drop_drop.
Qed.

(** C3: Framing. Whatever way TCP cuts the stream of framed messages into
    reads of at most 8192 bytes, the connection hands the processor exactly
    the messages that were sent, in order and unaltered, each as soon as its
    bytes are complete, provided no message has more than 4037 bytes (so that
    one read always fits behind what is left in the 12228-byte buffer). *)
Theorem Client_framing_correct chunks rest msgs w :
  Forall sendable msgs -> Forall (fun m => String.length m <= 4037) msgs ->
  Forall (fun d => 0 < length d /\ (N.of_nat (length d) <= 8192)%N) chunks ->
  concat chunks ++ rest = encode msgs ->
  exists k c' w', read_all process chunks (BaseClient_new "", w) = Ok (true, (c', w')) /\
    log w' = log w ++ take k msgs /\ leftover c' rest (drop k msgs) /\ (rest = [] -> take k msgs = msgs).
Proof.
  intros Hs Hn Hc Hb.
  destruct (read_all_ok chunks (BaseClient_new "") w rest msgs) as (k & c' & w' & Hrun & Hlog & Hleft);
    [done|done|done|done|left; cbn; split_and!; [done|done|done|lia]|].
  exists k, c', w'. split_and!; [done..|]. intros ->.
  apply leftover_nothing in Hleft; [|by apply Forall_drop].
  rewrite <-(take_drop k msgs) at 2. by rewrite Hleft, app_nil_r.
Qed.
End framing.

(** ** Bad lengths *)

Section bad_lengths.
Context `{BoostLaws} `{CircularBufferLaws} {W : Type} `{!ClientEnv W}.
Context (process : string -> M (BaseClient * W) (bool * string)).

(** A length prefix between 12229 and 99999 is accepted although the
    buffer holds 12228 bytes: the connection then ignores all further data,
    processes nothing, answers nothing and is never closed. *)
Theorem Client_oversized_stalls c w d :
  (12228 < m_nMessageLength c)%N -> length (m_buffer c) <= buffer_capacity ->
  exists c', read_handler process (Some d) (c, w) = Ok (true, (c', w)) /\
    m_nMessageLength c' = m_nMessageLength c /\ length (m_buffer c') <= buffer_capacity /\
    m_sent c' = m_sent c.
Proof.
  intros Hl Hb. unfold read_handler. erewrite M_bind_ok by reflexivity.
  erewrite M_bind_ok by reflexivity. cbn [fst snd m_nMessageLength set_buffer].
  rewrite bool_decide_eq_false_2 by lia.
  rewrite cb_insert_end_spec by done. set (b := drop _ _).
  assert (length b <= buffer_capacity) by (unfold b; rewrite length_drop, length_app; lia).
  exists (set_buffer b c). cbn [fst m_buffer set_buffer message_loop]. split; [|done].
  erewrite M_bind_ok by reflexivity. cbn [fst m_nMessageLength m_buffer set_buffer].
  rewrite buffer_capacity_value in *. rewrite (bool_decide_eq_false_2 (_ <= _)%N) by lia. done.
Qed.

(** What a new connection does with a malformed length: a first byte that
    is neither a digit nor the marker, and a length of six digits, make the
    client leave; the marker without digits raises an exception that nothing
    in the connection catches, so the client neither leaves nor reads again. *)
Theorem Client_malformed_length w d r ds :
  (Ascii.eqb d "#" = false -> is_digit d = false -> length (d :: r) <= buffer_capacity ->
   read_handler process (Some (d :: r)) (BaseClient_new "", w) =
     (_ ← env env_leave; mret false) (set_buffer (d :: r) (BaseClient_new ""), w)) /\
  (forallb is_digit ds = true -> length ds = 6 -> length (ds ++ r) <= buffer_capacity ->
   read_handler process (Some (ds ++ r)) (BaseClient_new "", w) =
     (_ ← env env_leave; mret false) (set_buffer (ds ++ r) (BaseClient_new ""), w)) /\
  (length ("#"%char :: r) <= buffer_capacity ->
   read_handler process (Some ("#"%char :: r)) (BaseClient_new "", w) = Fault (Thrown "boost::bad_lexical_cast")).
Proof.
  assert (Hgo : forall buf f, length buf <= buffer_capacity -> readMessageLength buf = Fault (Thrown f) ->
    read_handler process (Some buf) (BaseClient_new "", w) =
      if decide (f = "std::runtime_error") then (_ ← env env_leave; mret false) (set_buffer buf (BaseClient_new ""), w)
      else Fault (Thrown f)).
  { intros buf f Hl Hf. unfold read_handler. erewrite M_bind_ok by reflexivity.
    erewrite M_bind_ok by reflexivity. cbn [fst m_nMessageLength set_buffer BaseClient_new m_buffer].
    rewrite bool_decide_eq_true_2 by done. rewrite cb_insert_end_spec by (simpl; lia).
    rewrite (proj2 (Nat.sub_0_le _ _)) by (simpl; lia). rewrite drop_0. cbn [app].
    set (s0 := (set_buffer buf (BaseClient_new ""), w)).
    assert (Hr : (Some <$> read_length) s0 = Fault (Thrown f)).
    { unfold fmap, M_fmap, read_length, on_client.
      erewrite M_bind_fault; [done|]. do 2 apply zoom_fault. exact Hf. }
    assert (Ht : try_or_leave read_length s0 =
      if decide (f = "std::runtime_error") then (_ ← env env_leave; mret None) s0 else Fault (Thrown f)).
    { unfold try_or_leave, try_runtime_error. rewrite Hr.
      destruct (decide (f = "std::runtime_error")) as [->|Hne]; [done|].
      repeat (case_match; try done); simplify_eq. }
    unfold mbind at 1, M_bind at 1. cbn [snd]. fold s0. rewrite Ht. destruct (decide _); [|done].
    unfold mbind, M_bind, env. by destruct (zoom _ _ _ s0) as [[? ?]|]. }
  split_and!.
  - intros Hd Hnd Hl. rewrite (Hgo _ "std::runtime_error"); [done|done|].
    unfold readMessageLength. cbn [readMessageLength_loop]. by rewrite Hd, Hnd.
  - intros Hds Hl Hcap. rewrite (Hgo _ "std::runtime_error"); [done|done|].
    unfold readMessageLength. destruct ds as [|d1 [|d2 [|d3 [|d4 [|d5 [|d6 [|]]]]]]]; try done.
    cbn [forallb] in Hds. repeat (apply andb_true_iff in Hds as [? Hds]).
    assert (Hne : forall c, is_digit c = true -> Ascii.eqb c "#" = false)
      by (intros c Hc; by destruct (Ascii.eqb_spec c "#") as [->|]).
    cbn [app readMessageLength_loop].
    repeat match goal with Hc : is_digit ?c = true |- _ => rewrite ?Hc, (Hne c Hc); clear Hc end.
    destruct r; done.
  - intros Hl. rewrite (Hgo _ "boost::bad_lexical_cast"); [done|done|].
    unfold readMessageLength. cbn [readMessageLength_loop].
    change (Ascii.eqb "#" "#") with true. cbn [length]. rewrite bool_decide_eq_false_2 by done.
    cbn [negb]. rewrite andb_false_r. cbn [String.string_of_list_ascii].
    by rewrite lexical_cast_unsigned_empty.
Qed.
End bad_lengths.

(** ** Dispatch *)

Section dispatch.
Context `{BoostLaws} `{CircularBufferLaws} {W : Type} `{!ClientEnv W}.

(** Client messages that abort or corrupt the server: "route",
    "remove_route" and "authenticate" without an argument and "proxy" with
    fewer than nine fields index past the end of the token vector; "sip" with
    fewer than four fields, or with a transaction id, no dialog id and a
    request other than CANCEL, fails an assertion. *)
Theorem processClientMessage_crashes msg meta startLine headers body t0 t1 ts (s : BaseClient * W) :
  splitMsg msg = (meta, startLine, headers, body) -> splitTokens meta = t0 :: t1 :: ts ->
  (t1 ∈ ["route"; "remove_route"; "authenticate"] -> ts = [] -> processClientMessage msg s = Fault BadAccess) /\
  (t1 = "proxy" -> 2 <= length ts < 7 -> processClientMessage msg s = Fault BadAccess) /\
  (t1 = "sip" -> length ts < 2 -> processClientMessage msg s = Fault AssertFail) /\
  (forall tid rest, t1 = "sip" -> ts = tid :: "" :: rest -> tid ≠ "" ->
     str_find "SIP/" startLine ≠ Some 0 -> str_find "CANCEL" startLine ≠ Some 0 ->
     processClientMessage msg s = Fault AssertFail).
Proof.
  intros Hmsg Htok. unfold processClientMessage. rewrite Hmsg, Htok.
  erewrite M_bind_ok by reflexivity. rewrite bool_decide_eq_false_2 by (simpl; lia).
  erewrite M_bind_ok by reflexivity. split_and!.
  - intros Ht1 ->. rewrite !elem_of_cons in Ht1. destruct Ht1 as [->|[->|[->|[]%elem_of_nil]]]; done.
  - intros -> Hl. cbn [String.eqb Ascii.eqb Bool.eqb]. unfold process_proxy.
    rewrite (bool_decide_eq_false_2 (_ < 4)) by (simpl; lia).
    destruct ts as [|? [|? [|? [|? [|? [|? [|]]]]]]]; simpl in Hl; try lia; done.
  - intros -> Hl. cbn [String.eqb Ascii.eqb Bool.eqb]. unfold process_sip.
    by rewrite (bool_decide_eq_false_2 (4 <= _)) by (simpl; lia).
  - intros tid rest -> -> Hne Hsip Hcan. cbn [String.eqb Ascii.eqb Bool.eqb]. unfold process_sip.
    rewrite (bool_decide_eq_true_2 (4 <= _)) by (simpl; lia). do 3 erewrite M_bind_ok by reflexivity.
    rewrite !bool_decide_eq_false_2 by done. cbn [negb String.eqb].
    by destruct (String.eqb_spec tid "").
Qed.

(** A connection that has not authenticated is served: the framed message
    "id|route|verb" on a new connection registers it for the verb and is
    answered with OK. *)
Theorem Client_route_unauthenticated id verb uuid (w w1 w2 : W) :
  no_sep "|" id -> no_sep "|" verb -> str_mem CR id = false -> str_mem CR verb = false ->
  sendable (id +:+ "|route|" +:+ verb) ->
  length (bytes (frame (id +:+ "|route|" +:+ verb))) <= buffer_capacity ->
  env_wants_requests verb w = Ok (true, w1) -> env_generateUuid w1 = Ok (uuid, w2) -> uuid ≠ "" ->
  read_handler processClientMessage (Some (bytes (frame (id +:+ "|route|" +:+ verb)))) (BaseClient_new "", w) =
    Ok (true, (MkClient [] 0 ∅ "" [frame (uuid +:+ "|response|" +:+ id +:+ "|OK")], w2)).
Proof.
  intros Hi Hv Hci Hcv Hs Hcap Hw Hu Hne. set (msg := id +:+ "|route|" +:+ verb) in *.
  assert (Hp : forall c, processClientMessage msg (c, w) =
    Ok ((true, uuid +:+ "|response|" +:+ id +:+ "|OK"), (c, w2))).
  { intros c. unfold processClientMessage, splitMsg.
    assert (str_find DR_CRLF msg = None) as ->.
    { apply (str_find_none CR). unfold msg. by rewrite !str_mem_app, Hci, Hcv. }
    assert (splitTokens msg = [id; "route"; verb]) as ->.
    { apply (split_join "|" [id; "route"; verb]); [done|]. by repeat constructor. }
    erewrite M_bind_ok by reflexivity. rewrite bool_decide_eq_false_2 by (simpl; lia).
    erewrite M_bind_ok by reflexivity. cbn [String.eqb Ascii.eqb Bool.eqb].
    erewrite M_bind_ok by reflexivity.
    erewrite M_bind_ok by (apply zoom_ok; exact Hw). cbn beta iota. unfold reply, createResponseMsg.
    erewrite M_bind_ok; [|erewrite M_bind_ok by (apply zoom_ok; exact Hu); reflexivity].
    cbn [fst snd]. done. }
  unfold read_handler. erewrite M_bind_ok by reflexivity. erewrite M_bind_ok by reflexivity.
  cbn [fst snd m_nMessageLength set_buffer BaseClient_new m_buffer].
  rewrite bool_decide_eq_true_2 by done. rewrite cb_insert_end_spec by (simpl; lia).
  rewrite (proj2 (Nat.sub_0_le _ _)) by (simpl; lia). rewrite drop_0. cbn [app].
  rewrite frame_bytes.
  assert (Hm : bytes msg ≠ []).
  { intros E. apply (f_equal length) in E. rewrite bytes_length in E. destruct Hs. simpl in E. lia. }
  erewrite M_bind_ok by (apply read_length_ok, readMessageLength_full, Hs).
  rewrite bool_decide_eq_true_2 by done. cbn beta iota. erewrite M_bind_ok by reflexivity.
  cbn [message_loop]. erewrite M_bind_ok by reflexivity.
  cbn [fst m_nMessageLength m_buffer set_messageLength set_buffer].
  destruct Hs as [Hs0 Hs1]. rewrite bytes_length, !bool_decide_eq_true_2 by lia. cbn [andb].
  erewrite (handle_message_run processClientMessage _ _ w msg []); [|done|by rewrite app_nil_r|apply Hp|done|done].
  rewrite bool_decide_eq_false_2 by naive_solver. erewrite M_bind_ok by reflexivity.
  rewrite message_loop_done; [|lia|done]. unfold respond.
  destruct (String.eqb_spec (uuid +:+ "|response|" +:+ id +:+ "|OK") "") as [E|_]; [|done].
  by destruct uuid.
Qed.
End dispatch.

(** ** A concrete buffer and environment
    Concrete instances of the client properties: a buffer with the documented
    behaviour and an environment that logs. *)

#[export] Instance ring : CircularBuffer := {|
  cb_insert_end cap b d := drop (length b + length d - cap) (b ++ d);
  cb_push_back cap b c := drop (length b + 1 - cap) (b ++ [c]);
|}.
#[export] Instance ring_laws : CircularBufferLaws.
Proof.
  constructor; [done|]. intros cap b c Hb. cbn. by rewrite (proj2 (Nat.sub_0_le _ _)) by lia.
Qed.

(** The environment accepts every request and logs nothing. *)
#[export] Instance yes_env : ClientEnv (list string) := {|
  env_leave := mret tt;
  env_outboundReady _ := mret tt;
  env_generateUuid := mret "u1"%string;
  env_wants_requests verb := (fun w => Ok (true, w ++ [verb]));
  env_no_longer_wants_requests _ := mret true;
  env_isSecret _ := false;
  env_getMyHostports := [];
  env_getMyLocalHostports := [];
  DRACHTIO_VERSION := "v1"%string;
  env_respondToSipRequest _ _ _ _ _ := mret true;
  env_sendRequestInsideDialog _ _ _ _ _ _ := mret true;
  env_sendCancelRequest _ _ _ _ _ := mret true;
  env_sendRequestOutsideDialog _ _ _ _ _ _ _ := mret true;
  env_findDialogByCallId _ := mret None;
  env_proxyRequest _ _ _ _ _ _ _ _ _ _ := mret true;
|}.

Definition log_message (m : string) : M (BaseClient * list string) (bool * string) :=
  fun s => Ok ((true, ""%string), (s.1, s.2 ++ [m])).

Lemma Client_framing_correct_witness :
  exists k c' w', read_all log_message [bytes "3#ab"; bytes "c2"; bytes "#de1"] (BaseClient_new "", []) = Ok (true, (c', w')) /\
    w' = [] ++ take k ["abc"; "de"; "x"]%string /\ leftover c' (bytes "#x") (drop k ["abc"; "de"; "x"]%string) /\
    (bytes "#x" = [] -> take k ["abc"; "de"; "x"]%string = ["abc"; "de"; "x"]%string).
Proof.
  apply (Client_framing_correct log_message (fun w => w)).
  - intros m c w. by exists ""%string, c, (w ++ [m]).
  - repeat constructor.
  - by repeat (constructor; [apply Nat.leb_le; vm_compute|]).
  - by repeat (constructor; [split; [apply Nat.ltb_lt|apply N.leb_le]; vm_compute|]).
  - reflexivity.
Defined.

Lemma Client_oversized_stalls_witness :
  exists c', read_handler log_message (Some (bytes "abc")) (MkClient [] 20000 ∅ "" [], []) = Ok (true, (c', [])) /\
    m_nMessageLength c' = 20000%N /\ length (m_buffer c') <= buffer_capacity /\ m_sent c' = [].
Proof.
  apply (Client_oversized_stalls log_message (MkClient [] 20000 ∅ "" []) [] (bytes "abc")).
  - reflexivity.
  - apply Nat.le_0_l.
Defined.

Lemma Client_malformed_length_witness :
  read_handler log_message (Some (bytes "#5#hello")) (BaseClient_new "", []) = Fault (Thrown "boost::bad_lexical_cast").
Proof.
  apply (proj2 (proj2 (Client_malformed_length log_message [] "x" (bytes "5#hello") []))).
  rewrite buffer_capacity_value. apply Nat.leb_le. vm_compute. reflexivity.
Defined.

Lemma processClientMessage_crashes_witness :
  processClientMessage "7|route" (BaseClient_new "", [] : list string) = Fault BadAccess /\
  processClientMessage "7|proxy|tid|remainInDialog" (BaseClient_new "", [] : list string) = Fault BadAccess /\
  processClientMessage "7|sip|tid" (BaseClient_new "", [] : list string) = Fault AssertFail.
Proof.
  split_and!.
  - refine (proj1 (processClientMessage_crashes "7|route" "7|route" "" "" "" "7" "route" [] _ _ _) _ _);
      [reflexivity|reflexivity|left|reflexivity].
  - refine (proj1 (proj2 (processClientMessage_crashes "7|proxy|tid|remainInDialog" "7|proxy|tid|remainInDialog"
      "" "" "" "7" "proxy" ["tid"; "remainInDialog"]%string _ _ _)) _ _); [reflexivity..|cbn; lia].
  - refine (proj1 (proj2 (proj2 (processClientMessage_crashes "7|sip|tid" "7|sip|tid"
      "" "" "" "7" "sip" ["tid"]%string _ _ _))) _ _); [reflexivity..|cbn; lia].
Defined.

Lemma Client_route_unauthenticated_witness :
  read_handler processClientMessage (Some (bytes (frame "7|route|INVITE"))) (BaseClient_new "", []) =
    Ok (true, (MkClient [] 0 ∅ "" [frame "u1|response|7|OK"], ["INVITE"%string])).
Proof.
  apply (Client_route_unauthenticated "7" "INVITE" "u1" [] ["INVITE"%string] ["INVITE"%string]);
    [reflexivity..|split; [apply Nat.ltb_lt; reflexivity|reflexivity]|rewrite buffer_capacity_value; apply Nat.leb_le; vm_compute; reflexivity|reflexivity|reflexivity|discriminate].
Defined.
