(* ===== verification/ClientController.v ===== *)
(** Model of [ClientController] (src/client-controller.hpp,
    src/client-controller.cpp): which connected application handles which
    request, dialog and transaction. *)
From S2P Require Import Prelude CppString TextUtil.

Open Scope list_scope.

(** ** State *)

(** A client object.  [weak_ptr]s hold its identity; locking one succeeds
    while the object exists. *)
Abbreviation client_id := positive.
Record client_info := ClientInfo {
  ci_tags : gset string;
  ci_appName : string;
}.

(** Work posted to the event loop: the calls made later on a client. *)
Inductive posted_call :=
  | sendSipMessage (c : client_id) (transactionId dialogId rawSipMsg : string) (meta : SipMsgData_t)
  | sendNewSipMessage (c : client_id) (transactionId rawSipMsg : string) (meta : SipMsgData_t)
  | sendApiResponse (c : client_id) (clientMsgId responseText additionalResponseText : string).

(** [class ClientController].  [objects] are the client objects that exist;
    [m_clients] the ones that have joined.  An [unordered_multimap] is a list
    of entries, later insertions last; [equal_range] keeps that order. *)
Record ClientController := MkClientController {
  objects : gmap client_id client_info;
  m_lock : bool;
  m_clients : gset client_id;
  m_services : list (string * client_id);
  m_request_types : list (string * client_id);
  m_map_of_request_type_offsets : gmap string nat;
  m_mapDialogs : gmap string client_id;
  m_mapAppTransactions : gmap string client_id;
  m_mapNetTransactions : gmap string client_id;
  m_mapApiRequests : gmap string client_id;
  m_mapDialogId2Appname : gmap string string;
  m_posted : list posted_call;
}.

Definition set_lock b cc :=
  MkClientController (objects cc) b (m_clients cc) (m_services cc) (m_request_types cc)
    (m_map_of_request_type_offsets cc) (m_mapDialogs cc) (m_mapAppTransactions cc) (m_mapNetTransactions cc)
    (m_mapApiRequests cc) (m_mapDialogId2Appname cc) (m_posted cc).
Definition on_clients u cc :=
  MkClientController (objects cc) (m_lock cc) (u (m_clients cc)) (m_services cc) (m_request_types cc)
    (m_map_of_request_type_offsets cc) (m_mapDialogs cc) (m_mapAppTransactions cc) (m_mapNetTransactions cc)
    (m_mapApiRequests cc) (m_mapDialogId2Appname cc) (m_posted cc).
Definition on_services u cc :=
  MkClientController (objects cc) (m_lock cc) (m_clients cc) (u (m_services cc)) (m_request_types cc)
    (m_map_of_request_type_offsets cc) (m_mapDialogs cc) (m_mapAppTransactions cc) (m_mapNetTransactions cc)
    (m_mapApiRequests cc) (m_mapDialogId2Appname cc) (m_posted cc).
Definition on_request_types u cc :=
  MkClientController (objects cc) (m_lock cc) (m_clients cc) (m_services cc) (u (m_request_types cc))
    (m_map_of_request_type_offsets cc) (m_mapDialogs cc) (m_mapAppTransactions cc) (m_mapNetTransactions cc)
    (m_mapApiRequests cc) (m_mapDialogId2Appname cc) (m_posted cc).
Definition on_offsets u cc :=
  MkClientController (objects cc) (m_lock cc) (m_clients cc) (m_services cc) (m_request_types cc)
    (u (m_map_of_request_type_offsets cc)) (m_mapDialogs cc) (m_mapAppTransactions cc) (m_mapNetTransactions cc)
    (m_mapApiRequests cc) (m_mapDialogId2Appname cc) (m_posted cc).
Definition on_dialogs u cc :=
  MkClientController (objects cc) (m_lock cc) (m_clients cc) (m_services cc) (m_request_types cc)
    (m_map_of_request_type_offsets cc) (u (m_mapDialogs cc)) (m_mapAppTransactions cc) (m_mapNetTransactions cc)
    (m_mapApiRequests cc) (m_mapDialogId2Appname cc) (m_posted cc).
Definition on_app u cc :=
  MkClientController (objects cc) (m_lock cc) (m_clients cc) (m_services cc) (m_request_types cc)
    (m_map_of_request_type_offsets cc) (m_mapDialogs cc) (u (m_mapAppTransactions cc)) (m_mapNetTransactions cc)
    (m_mapApiRequests cc) (m_mapDialogId2Appname cc) (m_posted cc).
Definition on_net u cc :=
  MkClientController (objects cc) (m_lock cc) (m_clients cc) (m_services cc) (m_request_types cc)
    (m_map_of_request_type_offsets cc) (m_mapDialogs cc) (m_mapAppTransactions cc) (u (m_mapNetTransactions cc))
    (m_mapApiRequests cc) (m_mapDialogId2Appname cc) (m_posted cc).
Definition on_api u cc :=
  MkClientController (objects cc) (m_lock cc) (m_clients cc) (m_services cc) (m_request_types cc)
    (m_map_of_request_type_offsets cc) (m_mapDialogs cc) (m_mapAppTransactions cc) (m_mapNetTransactions cc)
    (u (m_mapApiRequests cc)) (m_mapDialogId2Appname cc) (m_posted cc).
Definition on_appnames u cc :=
  MkClientController (objects cc) (m_lock cc) (m_clients cc) (m_services cc) (m_request_types cc)
    (m_map_of_request_type_offsets cc) (m_mapDialogs cc) (m_mapAppTransactions cc) (m_mapNetTransactions cc)
    (m_mapApiRequests cc) (u (m_mapDialogId2Appname cc)) (m_posted cc).
Definition on_posted u cc :=
  MkClientController (objects cc) (m_lock cc) (m_clients cc) (m_services cc) (m_request_types cc)
    (m_map_of_request_type_offsets cc) (m_mapDialogs cc) (m_mapAppTransactions cc) (m_mapNetTransactions cc)
    (m_mapApiRequests cc) (m_mapDialogId2Appname cc) (u (m_posted cc)).

Abbreviation CC := (M ClientController).

(** [std::lock_guard<std::mutex> l( m_lock )] *)
Definition locked {A} (m : CC A) : CC A := lock_guard m_lock set_lock m.

(** [p.lock()] of a weak pointer. *)
Definition lock_ptr (cc : ClientController) (c : client_id) : option client_id :=
  match objects cc !! c with Some _ => Some c | None => None end.
Definition hasTag (cc : ClientController) (c : client_id) (tag : string) : bool :=
  match objects cc !! c with Some i => bool_decide (tag ∈ ci_tags i) | None => false end.
Definition getAppName (cc : ClientController) (c : client_id) : option string :=
  match objects cc !! c with
  | Some i => if String.eqb (ci_appName i) "" then None else Some (ci_appName i)
  | None => None
  end.

(** [map.insert(value_type(k, v))]: nothing happens when the key is there. *)
Definition map_insert {V} (k : string) (v : V) (m : gmap string V) : gmap string V :=
  match m !! k with Some _ => m | None => <[k := v]> m end.

(** ** Connections *)

Definition ClientController_join (client : client_id) : CC unit := modify (on_clients (fun c => c ∪ {[client]})).
Definition ClientController_leave (client : client_id) : CC unit := modify (on_clients (fun c => c ∖ {[client]})).
Definition addNamedService (client : client_id) (strAppName : string) : CC unit :=
  modify (on_services (fun s => s ++ [(strAppName, client)])).

(** ** Request types *)

Definition wants_requests (client : client_id) (verb : string) : CC bool :=
  locked (
    _ ← modify (on_request_types (fun r => r ++ [(verb, client)]));
    _ ← modify (on_offsets (map_insert verb 0));
    mret true).

(** The loop compares the locked pointer of every entry with the client; the
    verb is not looked at. *)
Definition no_longer_wants_requests (client : client_id) (verb : string) : CC bool :=
  locked (
    cc ← get;
    _ ← modify (on_request_types (filter (fun e => lock_ptr cc e.2 ≠ Some client)));
    mret true).

(** Can [client] take a request with this tag? *)
Definition takes (cc : ClientController) (tag : option string) (c : client_id) : bool :=
  bool_decide (is_Some (objects cc !! c)) &&
  match tag with Some t => hasTag cc c t | None => true end.

(** First loop of [selectClientForRequestOutsideDialog]: the entries that
    stay (pruned of disconnected clients in the range), and [nPossibles]. *)
Fixpoint prune_and_count (cc : ClientController) (method_name : string) (tag : option string)
    (entries : list (string * client_id)) : list (string * client_id) * nat :=
  match entries with
  | [] => ([], 0)
  | (verb, c) :: es =>
    let '(es', n) := prune_and_count cc method_name tag es in
    if negb (String.eqb verb method_name) then ((verb, c) :: es', n)
    else match lock_ptr cc c with
         | None => (es', n)
         | Some c => ((verb, c) :: es', if takes cc tag c then S n else n)
         end
  end.

(** Second loop: the client at position [nOffset] among those that take it. *)
Fixpoint pick_nth (cc : ClientController) (method_name : string) (tag : option string)
    (entries : list (string * client_id)) (nOffset : nat) : option client_id :=
  match entries with
  | [] => None
  | (verb, c) :: es =>
    if negb (String.eqb verb method_name) || negb (takes cc tag c) then pick_nth cc method_name tag es nOffset
    else match nOffset with O => Some c | S n => pick_nth cc method_name tag es n end
  end.

Definition offset_key (method_name : string) (tag : option string) : string :=
  match tag with Some t => method_name +:+ ":" +:+ t | None => method_name end.

Definition selectClientForRequestOutsideDialog (keyword : string) (tag : option string) : CC (option client_id) :=
  let method_name := str_map to_lower keyword in
  locked (
    cc ← get;
    let '(entries, nPossibles) := prune_and_count cc method_name tag (m_request_types cc) in
    _ ← modify (on_request_types (fun _ => entries));
    if bool_decide (nPossibles = 0) then mret None else
    let offsetKey := offset_key method_name tag in
    let nOffset := default 0 (m_map_of_request_type_offsets cc !! offsetKey) mod nPossibles in
    _ ← modify (on_offsets (insert offsetKey (nOffset + 1)));
    mret (pick_nth cc method_name tag entries nOffset)).

(** ** Transactions and dialogs *)

Definition addAppTransaction (client : client_id) (transactionId : string) : CC unit :=
  locked (modify (on_app (map_insert transactionId client))).
Definition addNetTransaction (client : client_id) (transactionId : string) : CC unit :=
  locked (modify (on_net (map_insert transactionId client))).
Definition addApiRequest (client : client_id) (clientMsgId : string) : CC unit :=
  locked (modify (on_api (map_insert clientMsgId client))).
Definition removeAppTransaction (transactionId : string) : CC unit :=
  locked (modify (on_app (delete transactionId))).
Definition removeNetTransaction (transactionId : string) : CC unit :=
  locked (modify (on_net (delete transactionId))).
Definition removeApiRequest (clientMsgId : string) : CC unit :=
  locked (modify (on_api (delete clientMsgId))).
Definition removeDialog (dialogId : string) : CC unit :=
  locked (
    cc ← get;
    match m_mapDialogs cc !! dialogId with
    | None => mret tt
    | Some _ => modify (on_dialogs (delete dialogId))
    end).

Definition find_in (proj : ClientController -> gmap string client_id) (key : string) : CC (option client_id) :=
  locked (cc ← get; mret (proj cc !! key ≫= lock_ptr cc)).
Definition findClientForAppTransaction := find_in m_mapAppTransactions.
Definition findClientForNetTransaction := find_in m_mapNetTransactions.
Definition findClientForApiRequest := find_in m_mapApiRequests.

(** The [do .. while] over the clients of an app from a random offset; it
    ends after one try per client. *)
Fixpoint try_services (cc : ClientController) (services : list client_id) (tries nOffset : nat) : option client_id :=
  match tries with
  | O => None
  | S tries =>
    match services !! nOffset ≫= lock_ptr cc with
    | Some c => Some c
    | None => try_services cc services tries (if bool_decide (S nOffset = length services) then 0 else S nOffset)
    end
  end.

(** [findClientForDialog_nolock]; [rand] is the value of [rand()]. *)
Definition findClientForDialog_nolock (rand : nat) (dialogId : string) (cc : ClientController) : option client_id :=
  match m_mapDialogs cc !! dialogId ≫= lock_ptr cc with
  | Some c => Some c
  | None =>
    match m_mapDialogId2Appname cc !! dialogId with
    | None => None
    | Some appName =>
      let services := (filter (fun e => e.1 = appName) (m_services cc)).*2 in
      if bool_decide (services = []) then None
      else try_services cc services (length services) (rand mod length services)
    end
  end.
Definition findClientForDialog (rand : nat) (dialogId : string) : CC (option client_id) :=
  locked (cc ← get; mret (findClientForDialog_nolock rand dialogId cc)).

Definition addDialogForTransaction (rand : nat) (transactionId dialogId : string) : CC unit :=
  locked (
    cc ← get;
    go ← match m_mapNetTransactions cc !! transactionId with
         | Some c => _ ← modify (on_dialogs (map_insert dialogId c)); mret true
         | None =>
           match m_mapDialogs cc !! dialogId with
           | Some _ => mret true
           | None =>
             match m_mapAppTransactions cc !! transactionId with
             | Some c => _ ← modify (on_dialogs (map_insert dialogId c)); mret true
             | None => mret false
             end
           end
         end;
    if negb go then mret tt else
    cc ← get;
    match findClientForDialog_nolock rand dialogId cc with
    | None => modify (on_dialogs (delete dialogId))
    | Some client =>
      match getAppName cc client with
      | Some strAppName => modify (on_appnames (map_insert dialogId strAppName))
      | None => mret tt
      end
    end).

Definition getDialogIds : CC (list string) := locked (cc ← get; mret (map_to_list (m_mapDialogs cc)).*1).
Definition getNetTransactionIds : CC (list string) := locked (cc ← get; mret (map_to_list (m_mapNetTransactions cc)).*1).

(** ** Routing to clients *)

Definition post (p : posted_call) : CC unit := modify (on_posted (fun q => q ++ [p])).

(** [client], or when it is null the result of [other]. *)
Definition or_else (client : option client_id) (other : CC (option client_id)) : CC (option client_id) :=
  match client with Some c => mret (Some c) | None => other end.

Definition route_ack_request_inside_dialog (rand : nat) (rawSipMsg : string) (meta : SipMsgData_t)
    (transactionId inviteTransactionId dialogId : string) : CC bool :=
  client ← findClientForDialog rand dialogId;
  client ← or_else client (findClientForNetTransaction inviteTransactionId);
  match client with
  | None => mret false
  | Some c =>
    _ ← post (sendSipMessage c transactionId dialogId rawSipMsg meta);
    _ ← removeNetTransaction inviteTransactionId;
    mret true
  end.

Definition route_request_inside_invite (rand : nat) (rawSipMsg : string) (meta : SipMsgData_t)
    (transactionId dialogId : string) : CC bool :=
  client ← findClientForDialog rand dialogId;
  client ← or_else client (findClientForNetTransaction transactionId);
  client ← or_else client (findClientForAppTransaction transactionId);
  match client with
  | None => mret false
  | Some c => _ ← post (sendSipMessage c transactionId dialogId rawSipMsg meta); mret true
  end.

(** What [route_request_inside_dialog] reads of the request. *)
Record dialog_request := DialogRequest {
  rq_method_name : string;
  rq_method : sip_method_t;
  ss_substate : option string;       (** of the Subscription-State header *)
  o_type : option (option string);   (** of the Event header *)
}.
Definition ends_subscription (sip : dialog_request) : bool :=
  bool_decide (rq_method sip = sip_method_notify) &&
  match ss_substate sip with Some s => strstr s "terminated" | None => false end &&
  match o_type sip with
  | None => true
  | Some None => false
  | Some (Some t) => negb (strstr t "refer") && negb (strstr t "REFER")
  end.

Definition route_request_inside_dialog (rand : nat) (rawSipMsg : string) (meta : SipMsgData_t)
    (sip : dialog_request) (transactionId dialogId : string) : CC bool :=
  client ← findClientForDialog rand dialogId;
  let isBye := String.eqb (rq_method_name sip) "BYE" in
  let isUpdate := String.eqb (rq_method_name sip) "UPDATE" in
  let ends := isBye || ends_subscription sip in
  client ← (if isUpdate then or_else client (findClientForNetTransaction transactionId) else mret client);
  match client with
  | None =>
    _ ← (if ends then removeDialog dialogId else mret tt);
    mret false
  | Some c =>
    _ ← (if strstr transactionId "unsolicited" then mret tt else addNetTransaction c transactionId);
    _ ← post (sendSipMessage c transactionId dialogId rawSipMsg meta);
    _ ← (if ends then removeDialog dialogId else mret tt);
    mret true
  end.

(** [cs_method_name] and [st_status] of the response. *)
Definition route_response_inside_transaction (rawSipMsg : string) (meta : SipMsgData_t)
    (cs_method_name : string) (st_status : Z) (transactionId dialogId : string) : CC bool :=
  client ← findClientForAppTransaction transactionId;
  match client with
  | None =>
    _ ← removeAppTransaction transactionId;
    _ ← removeDialog dialogId;
    mret false
  | Some c =>
    _ ← post (sendSipMessage c transactionId dialogId rawSipMsg meta);
    _ ← (if (200 <=? st_status)%Z then removeAppTransaction transactionId else mret tt);
    _ ← (if String.eqb cs_method_name "BYE" then removeDialog dialogId else mret tt);
    mret true
  end.

Definition route_api_response (clientMsgId responseText additionalResponseData : string) : CC bool :=
  if String.eqb clientMsgId "" then mret true else
  client ← findClientForApiRequest clientMsgId;
  match client with
  | None => _ ← removeApiRequest clientMsgId; mret false
  | Some c =>
    _ ← (if strstr additionalResponseData "|continue" then mret tt else removeApiRequest clientMsgId);
    _ ← post (sendApiResponse c clientMsgId responseText additionalResponseData);
    mret true
  end.

(** ** Requests from clients *)

(** The other controllers, on a state [W] beside this one. *)
Class ControllerDeps (W : Type) := {
  dep_generateUuid : M W string;
  dep_sendRequestInsideDialog : string -> string -> string -> string -> string -> string -> M W bool;
  dep_sendRequestOutsideDialog : string -> string -> string -> string -> string -> string -> string -> M W bool;
  dep_respondToSipRequest : string -> string -> string -> string -> string -> M W bool;
  dep_sendCancelRequest : string -> string -> string -> string -> string -> M W bool;
  dep_proxyRequest : string -> string -> bool -> bool -> bool -> bool -> string -> string ->
    list string -> string -> M W unit;
  dep_getMethodForRequest : string -> M W (option string);
  (** client, transactionId: the return code *)
  dep_routeNewRequestToClient : client_id -> string -> M W Z;
}.

Section requests.
Context {W : Type} `{!ControllerDeps W}.
Abbreviation CW := (M (ClientController * W)).
Definition here {A} (m : CC A) : CW A := zoom fst (fun c s => (c, s.2)) m.
Definition dep {A} (m : M W A) : CW A := zoom snd (fun w s => (s.1, w)) m.

Definition sendRequestInsideDialog (client : client_id) (clientMsgId dialogId startLine headers body : string) : CW bool :=
  transactionId ← dep dep_generateUuid;
  _ ← (if bool_decide (str_find "ACK" startLine = Some 0) then mret tt
       else here (addAppTransaction client transactionId));
  _ ← here (addApiRequest client clientMsgId);
  dep (dep_sendRequestInsideDialog clientMsgId dialogId startLine headers body transactionId).

Definition sendRequestOutsideDialog (client : client_id)
    (clientMsgId startLine headers body dialogId routeUrl : string) : CW bool :=
  transactionId ← dep dep_generateUuid;
  _ ← (if bool_decide (str_find "ACK" startLine = Some 0) then mret tt
       else here (addAppTransaction client transactionId));
  _ ← here (addApiRequest client clientMsgId);
  dep (dep_sendRequestOutsideDialog clientMsgId startLine headers body transactionId dialogId routeUrl).

Definition respondToSipRequest (client : client_id) (clientMsgId transactionId startLine headers body : string) : CW bool :=
  _ ← here (addApiRequest client clientMsgId);
  dep (dep_respondToSipRequest clientMsgId transactionId startLine headers body).

Definition sendCancelRequest (client : client_id) (clientMsgId transactionId startLine headers body : string) : CW bool :=
  _ ← here (addApiRequest client clientMsgId);
  dep (dep_sendCancelRequest clientMsgId transactionId startLine headers body).

Definition proxyRequest (client : client_id) (clientMsgId transactionId : string)
    (recordRoute fullResponse followRedirects simultaneous : bool) (provisionalTimeout finalTimeout : string)
    (vecDestination : list string) (headers : string) : CW bool :=
  _ ← here (addApiRequest client clientMsgId);
  _ ← dep (dep_proxyRequest clientMsgId transactionId recordRoute fullResponse followRedirects simultaneous
             provisionalTimeout finalTimeout vecDestination headers);
  _ ← here (removeNetTransaction transactionId);
  mret true.

Definition outboundFailed (transactionId : string) : CW unit :=
  _ ← dep (dep_respondToSipRequest "" transactionId "SIP/2.0 480 Temporarily Unavailable" "" "");
  mret tt.

Definition outboundReady (client : client_id) (transactionId : string) : CW unit :=
  rc ← dep (dep_routeNewRequestToClient client transactionId);
  if bool_decide (rc = 0%Z) then mret tt else outboundFailed transactionId.

Definition selectClientForTag (transactionId tag : string) : CW unit :=
  method ← dep (dep_getMethodForRequest transactionId);
  match method with
  | None => outboundFailed transactionId
  | Some method =>
    client ← here (selectClientForRequestOutsideDialog method (Some tag));
    match client with
    | None => outboundFailed transactionId
    | Some client =>
      rc ← dep (dep_routeNewRequestToClient client transactionId);
      if bool_decide (rc = 0%Z) then mret tt else outboundFailed transactionId
    end
  end.
End requests.
