(* ===== verification/ClientControllerCorrect.v ===== *)
(** Correctness of the client controller: round-robin selection, routing of
    dialogs and transactions to the application that owns them, and absence of
    self-deadlock on its mutex. *)
From S2P Require Import Prelude CppString TextUtil ClientController.

Open Scope list_scope.

(** ** Locking discipline *)

(** From a state with the mutex free, [m] returns and leaves it free. *)
Definition unlocked_ok {A} (m : CC A) : Prop :=
  forall cc, m_lock cc = false -> exists a cc', m cc = Ok (a, cc') /\ m_lock cc' = false.
(** With the mutex held or not, [m] returns and does not touch it. *)
Definition lock_neutral {A} (m : CC A) : Prop :=
  forall cc, exists a cc', m cc = Ok (a, cc') /\ m_lock cc' = m_lock cc.

Lemma neutral_unlocked {A} (m : CC A) : lock_neutral m -> unlocked_ok m.
Proof. intros Hm cc Hc. destruct (Hm cc) as (a & cc' & ? & E). exists a, cc'. by rewrite E. Qed.
Lemma neutral_ret {A} (a : A) : lock_neutral (mret a).
Proof. intros cc. by exists a, cc. Qed.
Lemma neutral_get : lock_neutral get.
Proof. intros cc. by exists cc, cc. Qed.
Lemma neutral_bind {A B} (m : CC A) (k : A -> CC B) :
  lock_neutral m -> (forall a, lock_neutral (k a)) -> lock_neutral (m ≫= k).
Proof.
  intros Hm Hk cc. destruct (Hm cc) as (a & cc1 & E1 & L1). destruct (Hk a cc1) as (b & cc2 & E2 & L2).
  exists b, cc2. split; [by rewrite (M_bind_ok _ _ _ _ _ E1)|congruence].
Qed.
Lemma neutral_modify u : (forall cc, m_lock (u cc) = m_lock cc) -> lock_neutral (modify u).
Proof. intros Hu cc. by exists tt, (u cc). Qed.
Lemma unlocked_bind {A B} (m : CC A) (k : A -> CC B) :
  unlocked_ok m -> (forall a, unlocked_ok (k a)) -> unlocked_ok (m ≫= k).
Proof.
  intros Hm Hk cc Hc. destruct (Hm cc Hc) as (a & cc1 & E1 & L1). destruct (Hk a cc1 L1) as (b & cc2 & E2 & L2).
  exists b, cc2. split; [by rewrite (M_bind_ok _ _ _ _ _ E1)|done].
Qed.
Lemma unlocked_locked {A} (m : CC A) : lock_neutral m -> unlocked_ok (locked m).
Proof.
  intros Hm cc Hc. destruct (Hm (set_lock true cc)) as (a & cc' & E & _).
  exists a, (set_lock false cc'). split; [by apply lock_guard_ok|done].
Qed.

#[export] Hint Resolve neutral_ret neutral_get neutral_bind neutral_modify unlocked_locked unlocked_bind : drachtio.

(** Split a call down to the operations above. *)
Ltac lock_tac :=
  repeat first
    [ progress intros
    | apply unlocked_locked
    | apply neutral_bind
    | apply neutral_ret
    | apply neutral_get
    | apply neutral_modify; reflexivity
    | apply unlocked_bind
    | match goal with
      | |- unlocked_ok (match ?x with _ => _ end) => destruct x
      | |- lock_neutral (match ?x with _ => _ end) => destruct x
      end
    | apply neutral_unlocked ].

(** The result of a locked operation, from the run of its body. *)
Lemma locked_run {A} (m : CC A) cc a cc' :
  m_lock cc = false -> m (set_lock true cc) = Ok (a, cc') -> locked m cc = Ok (a, set_lock false cc').
Proof. intros Hc Hm. by apply lock_guard_ok. Qed.

Lemma set_lock_false cc : m_lock cc = false -> set_lock false (set_lock true cc) = cc.
Proof. destruct cc. cbn. by intros ->. Qed.

(** ** Selection *)

(** The clients that can take a request, in order of registration. *)
Definition eligible (cc : ClientController) (method_name : string) (tag : option string) : list client_id :=
  (filter (fun e => e.1 = method_name /\ takes cc tag e.2 = true) (m_request_types cc)).*2.

Lemma takes_alive cc tag c : takes cc tag c = true -> lock_ptr cc c = Some c.
Proof.
  unfold takes, lock_ptr. intros [Ha _]%andb_true_iff. apply bool_decide_eq_true in Ha as [i ->]. done.
Qed.

Lemma prune_and_count_spec cc mth tag entries :
  prune_and_count cc mth tag entries =
    (filter (fun e => e.1 = mth -> is_Some (objects cc !! e.2)) entries,
     length (filter (fun e => e.1 = mth /\ takes cc tag e.2 = true) entries)).
Proof.
  induction entries as [|[verb c] es IH]; [done|]. cbn [prune_and_count]. rewrite IH.
  destruct (String.eqb_spec verb mth) as [->|Hne]; cbn [negb].
  - unfold lock_ptr. destruct (objects cc !! c) as [i|] eqn:E.
    + rewrite (filter_cons_True (fun e => e.1 = mth -> _)) by (cbn; rewrite E; eauto).
      destruct (takes cc tag c) eqn:Et.
      * by rewrite (filter_cons_True (fun e => _ /\ _)).
      * rewrite (filter_cons_False (fun e => _ /\ _)); [done|]. cbn. intros [_ ?]. congruence.
    + rewrite (filter_cons_False (fun e => e.1 = mth -> _)) by (cbn; rewrite E; intros Hx; by destruct (Hx eq_refl)).
      rewrite (filter_cons_False (fun e => _ /\ _)); [done|]. cbn. intros [_ Ht].
      apply takes_alive in Ht. unfold lock_ptr in Ht. by rewrite E in Ht.
  - rewrite (filter_cons_True (fun e => e.1 = mth -> _)) by (cbn; congruence).
    by rewrite (filter_cons_False (fun e => _ /\ _)) by (cbn; naive_solver).
Qed.

(** Pruning does not change which clients are eligible for anything. *)
Lemma filter_pruned cc mth (mth' : string) tag (entries : list (string * client_id)) :
  filter (fun e => e.1 = mth' /\ takes cc tag e.2 = true)
    (filter (fun e : string * client_id => e.1 = mth -> is_Some (objects cc !! e.2)) entries) =
  filter (fun e => e.1 = mth' /\ takes cc tag e.2 = true) entries.
Proof.
  induction entries as [|[verb c] es IH]; [done|]. rewrite !filter_cons. cbn [fst snd].
  destruct (decide (verb = mth' /\ takes cc tag c = true)) as [[Hv Ht]|Hn];
    destruct (decide (verb = mth -> is_Some (objects cc !! c))) as [Hp|Hp];
    rewrite ?filter_cons; cbn [fst snd]; rewrite ?IH; repeat case_decide; try done; try tauto.
  exfalso. apply Hp. intros _. unfold takes in Ht. apply andb_true_iff in Ht as [Ht _].
  by apply bool_decide_eq_true in Ht.
Qed.

Lemma pick_nth_spec cc mth tag entries n :
  pick_nth cc mth tag entries n =
    (filter (fun e => e.1 = mth /\ takes cc tag e.2 = true) entries).*2 !! n.
Proof.
  revert n. induction entries as [|[verb c] es IH]; intros n; [done|]. cbn [pick_nth].
  rewrite filter_cons. cbn [fst snd].
  destruct (String.eqb_spec verb mth) as [->|Hne]; cbn [negb orb].
  - destruct (takes cc tag c) eqn:Et; cbn [negb].
    + rewrite decide_True by done. destruct n; [done|]. apply IH.
    + rewrite decide_False by (intros [_ ?]; congruence). apply IH.
  - rewrite decide_False by naive_solver. apply IH.
Qed.

(** Offset of the next selection for a key. *)
Definition offset_of (cc : ClientController) (key : string) : nat :=
  default 0 (m_map_of_request_type_offsets cc !! key).

(** What a selection does. *)
Lemma select_run cc keyword tag :
  m_lock cc = false ->
  let mth := str_map to_lower keyword in
  let els := eligible cc mth tag in
  let key := offset_key mth tag in
  exists cc', selectClientForRequestOutsideDialog keyword tag cc =
      Ok (if bool_decide (els = []) then None else els !! (offset_of cc key mod length els), cc') /\
    m_lock cc' = false /\ objects cc' = objects cc /\
    (forall mth' tag', eligible cc' mth' tag' = eligible cc mth' tag') /\
    (forall c, (mth, c) ∈ m_request_types cc' -> is_Some (objects cc !! c)) /\
    (els ≠ [] -> offset_of cc' key = offset_of cc key mod length els + 1).
Proof.
  intros Hc mth els key. unfold selectClientForRequestOutsideDialog. fold mth.
  set (entries := filter (fun e => e.1 = mth -> is_Some (objects cc !! e.2)) (m_request_types cc)).
  assert (Hlen : length (filter (fun e => e.1 = mth /\ takes cc tag e.2 = true) (m_request_types cc)) = length els).
  { unfold els, eligible. by rewrite length_fmap. }
  assert (Helig : forall cc', objects cc' = objects cc -> m_request_types cc' = entries ->
    forall mth' tag', eligible cc' mth' tag' = eligible cc mth' tag').
  { intros cc' Ho He mth' tag'. unfold eligible. rewrite He.
    assert (Ht : forall t c, takes cc' t c = takes cc t c) by (intros; unfold takes, hasTag; by rewrite Ho).
    rewrite (list_filter_iff _ (fun e => e.1 = mth' /\ takes cc tag' e.2 = true)); [|intros; by rewrite Ht].
    unfold entries. by rewrite filter_pruned. }
  assert (Hdead : forall c, (mth, c) ∈ entries -> is_Some (objects cc !! c)).
  { intros c [Hx _]%list_elem_of_filter. by apply Hx. }
  assert (Hpc : prune_and_count (set_lock true cc) mth tag (m_request_types (set_lock true cc)) = (entries, length els)).
  { rewrite <-Hlen. apply (prune_and_count_spec (set_lock true cc)). }
  destruct (decide (els = [])) as [E|E].
  - rewrite bool_decide_eq_true_2 by done. eexists. split.
    { apply locked_run; [done|]. erewrite M_bind_ok by reflexivity. cbn beta. rewrite Hpc.
      rewrite E. erewrite M_bind_ok by reflexivity. by rewrite bool_decide_eq_true_2. }
    split_and!; [done..|by apply Helig|by apply Hdead|done].
  - rewrite (bool_decide_eq_false_2 (els = [])) by done. eexists. split.
    { apply locked_run; [done|]. erewrite M_bind_ok by reflexivity. cbn beta. rewrite Hpc.
      erewrite M_bind_ok by reflexivity.
      rewrite bool_decide_eq_false_2 by (by intros ?%nil_length_inv).
      erewrite M_bind_ok by reflexivity. rewrite pick_nth_spec.
      change (takes (set_lock true cc)) with (takes cc). unfold entries. rewrite filter_pruned.
      reflexivity. }
    split_and!; [done..|by apply Helig|by apply Hdead|].
    intros _. unfold offset_of. cbn. by rewrite lookup_insert_eq.
Qed.

(** ** Repeated selection *)

Fixpoint select_times (k : nat) (keyword : string) (tag : option string) : CC (list (option client_id)) :=
  match k with
  | O => mret []
  | S k =>
    r ← selectClientForRequestOutsideDialog keyword tag;
    rs ← select_times k keyword tag;
    mret (r :: rs)
  end.

Lemma select_times_run k keyword tag cc :
  m_lock cc = false ->
  let els := eligible cc (str_map to_lower keyword) tag in
  let key := offset_key (str_map to_lower keyword) tag in
  els ≠ [] ->
  exists cc', select_times k keyword tag cc =
    Ok ((fun i => els !! ((offset_of cc key + i) mod length els)) <$> seq 0 k, cc').
Proof.
  cbn zeta. revert cc. induction k as [|k IH]; intros cc Hc Hne; [by exists cc|].
  set (mth := str_map to_lower keyword) in *. set (els := eligible cc mth tag) in *. set (key := offset_key mth tag) in *.
  destruct (select_run cc keyword tag Hc) as (cc1 & Hrun & Hc1 & Ho1 & Hel1 & _ & Hoff).
  fold mth in Hrun, Hel1, Hoff. fold els key in Hrun, Hoff. specialize (Hoff Hne).
  destruct (IH cc1 Hc1) as (cc2 & Hrun2); [by rewrite Hel1|].
  exists cc2. cbn [select_times]. rewrite (M_bind_ok _ _ _ _ _ Hrun), (M_bind_ok _ _ _ _ _ Hrun2).
  rewrite Hel1. fold els. rewrite Hoff, bool_decide_eq_false_2 by done.
  rewrite M_ret_run. do 2 f_equal. cbn [seq]. rewrite fmap_cons, Nat.add_0_r. f_equal.
  rewrite <-(fmap_S_seq 0), <-list_fmap_compose. apply list_fmap_ext. intros _ i _. unfold compose.
  assert (length els ≠ 0) by (by intros ?%nil_length_inv).
  by rewrite <-Nat.add_assoc, Nat.Div0.add_mod_idemp_l.
Qed.

Lemma rotation_permutation {A} (l : list A) o :
  l ≠ [] -> (fun i => l !! ((o + i) mod length l)) <$> seq 0 (length l) ≡ₚ Some <$> l.
Proof.
  intros Hne. assert (Hn : length l ≠ 0) by (by intros ?%nil_length_inv).
  set (r := o mod length l). assert (Hr : r < length l) by (by apply Nat.mod_upper_bound).
  transitivity (Some <$> (drop r l ++ take r l)); [|by rewrite Permutation_app_comm, take_drop].
  apply reflexive_eq, list_eq. intros i. rewrite list_lookup_fmap.
  destruct (decide (i < length l)) as [Hi|Hi].
  - rewrite lookup_seq_lt by done. cbn [fmap option_fmap option_map Nat.add]. rewrite list_lookup_fmap.
    rewrite <-Nat.Div0.add_mod_idemp_l. fold r.
    destruct (decide (r + i < length l)) as [Hs|Hs].
    + rewrite Nat.mod_small, lookup_app_l, lookup_drop by (rewrite ?length_drop; lia).
      destruct (lookup_lt_is_Some_2 l (r + i) Hs) as [x ->]. done.
    + rewrite lookup_app_r, length_drop, lookup_take_lt by (rewrite ?length_drop; lia).
      replace ((r + i) mod length l) with (i - (length l - r)).
      * assert (i - (length l - r) < length l) as Hx by lia.
        destruct (lookup_lt_is_Some_2 l _ Hx) as [x ->]. done.
      * apply Nat.mod_unique with 1; lia.
  - rewrite lookup_seq_ge by lia. cbn. symmetry. rewrite list_lookup_fmap. apply fmap_None, lookup_ge_None_2.
    rewrite length_app, length_drop, length_take. lia.
Qed.

(** ** Properties *)

(** Selection of an application for a request: the result is the client
    at the stored offset among those that are connected, registered for the
    method and have the tag, or none when there is none; in particular it
    never returns a disconnected client, and afterwards no entry of the method
    belongs to one. *)
Theorem select_returns_eligible keyword tag cc :
  m_lock cc = false ->
  let mth := str_map to_lower keyword in
  exists r cc', selectClientForRequestOutsideDialog keyword tag cc = Ok (r, cc') /\ m_lock cc' = false /\
    (r = None <-> eligible cc mth tag = []) /\
    (forall c, r = Some c -> c ∈ eligible cc mth tag /\ is_Some (objects cc !! c) /\
       (mth, c) ∈ m_request_types cc /\ forall t, tag = Some t -> hasTag cc c t = true) /\
    (forall c, (mth, c) ∈ m_request_types cc' -> is_Some (objects cc !! c)).
Proof.
  intros Hc mth. destruct (select_run cc keyword tag Hc) as (cc' & Hrun & Hc' & _ & _ & Hdead & _).
  fold mth in Hrun. eexists _, cc'. split; [exact Hrun|]. split_and!; [done| | |done].
  - case_bool_decide as E; [done|]. split; [|done]. intros Hl. apply lookup_ge_None in Hl.
    assert (length (eligible cc mth tag) ≠ 0) as Hn by (by intros ?%nil_length_inv).
    pose proof (Nat.mod_upper_bound (offset_of cc (offset_key mth tag)) _ Hn). lia.
  - intros c Hr. case_bool_decide; [done|]. apply list_elem_of_lookup_2 in Hr. split; [done|].
    apply list_elem_of_fmap in Hr as ([v c'] & -> & [[Hv Ht] Hin]%list_elem_of_filter). cbn in *. subst v.
    unfold takes in Ht. apply andb_true_iff in Ht as [Ha Ht]. apply bool_decide_eq_true in Ha.
    split_and!; [done|done|]. by intros t ->.
Qed.

(** Fairness. While the set of eligible clients does not change, as many
    consecutive selections as there are eligible registrations give each of
    them exactly once, whatever the offset was before. *)
Theorem select_round_robin keyword tag cc :
  m_lock cc = false ->
  let els := eligible cc (str_map to_lower keyword) tag in
  els ≠ [] ->
  exists rs cc', select_times (length els) keyword tag cc = Ok (rs, cc') /\ rs ≡ₚ Some <$> els.
Proof.
  intros Hc els Hne. destruct (select_times_run (length els) keyword tag cc Hc Hne) as (cc' & Hrun).
  eexists _, cc'. split; [exact Hrun|]. by apply rotation_permutation.
Qed.

(** [no_longer_wants_requests] for one verb unregisters the client for
    every verb: the verb it is given is never looked at. *)
Theorem no_longer_wants_requests_all_verbs client verb cc :
  m_lock cc = false -> is_Some (objects cc !! client) ->
  exists cc', no_longer_wants_requests client verb cc = Ok (true, cc') /\
    m_request_types cc' = filter (fun e => e.2 ≠ client) (m_request_types cc) /\
    (forall mth tag, client ∉ eligible cc' mth tag).
Proof.
  intros Hc [i Hi]. eexists. split; [by apply locked_run|]. cbn [m_request_types set_lock on_request_types].
  assert (E : filter (fun e => lock_ptr (set_lock true cc) e.2 ≠ Some client) (m_request_types cc) =
    filter (fun e => e.2 ≠ client) (m_request_types cc)).
  { apply list_filter_iff. intros [v c]. unfold lock_ptr. cbn [objects set_lock snd].
    destruct (objects cc !! c) eqn:Eo; [naive_solver|]. split; [|done]. intros _ ->. congruence. }
  split; [exact E|]. intros mth tag Hin. unfold eligible in Hin. cbn [m_request_types set_lock on_request_types] in Hin.
  change (m_request_types (set_lock true cc)) with (m_request_types cc) in Hin. rewrite E in Hin.
  apply list_elem_of_fmap in Hin as ([v c] & -> & [_ [? _]%list_elem_of_filter]%list_elem_of_filter). done.
Qed.

Lemma locked_modify u cc :
  m_lock cc = false -> locked (modify u) cc = Ok (tt, set_lock false (u (set_lock true cc))).
Proof. intros Hc. by apply locked_run. Qed.

Lemma map_insert_new {V} k (v : V) m : m !! k = None -> map_insert k v m !! k = Some v.
Proof. unfold map_insert. intros ->. apply lookup_insert_eq. Qed.

(** C19: A dialog belongs to the application that handled its INVITE: once the
    network transaction of client [c] has been turned into dialog [d], and the
    transaction removed, any request inside [d] is posted to [c], and only to
    [c], under its transaction id; the dialog is forgotten exactly when the
    request is a BYE or ends a subscription. *)
Theorem dialog_requests_reach_owner rand rand' c i t d t2 raw meta sip cc :
  m_lock cc = false -> objects cc !! c = Some i ->
  m_mapNetTransactions cc !! t = None -> m_mapDialogs cc !! d = None ->
  exists cc', (_ ← addNetTransaction c t; _ ← addDialogForTransaction rand t d;
               _ ← removeNetTransaction t; route_request_inside_dialog rand' raw meta sip t2 d) cc = Ok (true, cc') /\
    m_posted cc' = m_posted cc ++ [sendSipMessage c t2 d raw meta] /\
    m_mapDialogs cc' !! d =
      (if String.eqb (rq_method_name sip) "BYE" || ends_subscription sip then None else Some c) /\
    m_lock cc' = false.
Proof.
  intros Hc Ho Ht Hd. unfold addNetTransaction. erewrite M_bind_ok by (by apply locked_modify). cbn beta.
  set (cc1 := set_lock false _).
  assert (exists cc2, addDialogForTransaction rand t d cc1 = Ok (tt, cc2) /\ m_lock cc2 = false /\
    objects cc2 = objects cc /\ m_mapDialogs cc2 !! d = Some c /\ m_posted cc2 = m_posted cc) as
    (cc2 & Hrun2 & Hl2 & Ho2 & Hd2 & Hp2).
  { assert (Hnet : m_mapNetTransactions cc1 !! t = Some c) by (by apply map_insert_new).
    assert (Hdn : map_insert d c (m_mapDialogs cc1) !! d = Some c) by (by apply map_insert_new).
    unfold addDialogForTransaction.
    destruct (getAppName cc c) as [app|] eqn:Ea; eexists; (split;
      [apply locked_run; [done|]; erewrite M_bind_ok by reflexivity; cbn beta;
       change (m_mapNetTransactions (set_lock true cc1)) with (m_mapNetTransactions cc1); rewrite Hnet;
       erewrite M_bind_ok by reflexivity; cbn [negb]; erewrite M_bind_ok by reflexivity; cbn beta;
       unfold findClientForDialog_nolock;
       cbn [m_mapDialogs on_dialogs set_lock]; rewrite Hdn; cbn [mbind option_bind]; unfold lock_ptr;
       change (objects _) with (objects cc) at 1; rewrite Ho;
       change (getAppName _ c) with (getAppName cc c); rewrite Ea; reflexivity|]); split_and!; done. }
  rewrite (M_bind_ok _ _ _ _ _ Hrun2). unfold removeNetTransaction.
  erewrite M_bind_ok by (by apply locked_modify). cbn beta. set (cc3 := set_lock false _).
  assert (Hfind : findClientForDialog rand' d cc3 = Ok (Some c, cc3)).
  { unfold findClientForDialog. erewrite locked_run; [|done|erewrite M_bind_ok by reflexivity; reflexivity].
    unfold findClientForDialog_nolock. cbn [m_mapDialogs set_lock cc3 on_net].
    unfold cc3. cbn [m_mapDialogs set_lock on_net]. rewrite Hd2. cbn [mbind option_bind]. unfold lock_ptr.
    cbn [objects set_lock on_net]. by rewrite Ho2, Ho. }
  unfold route_request_inside_dialog. rewrite (M_bind_ok _ _ _ _ _ Hfind).
  erewrite (M_bind_ok _ _ _ (Some c) cc3); [|by destruct (String.eqb _ "UPDATE")].
  set (cc4 := if strstr t2 "unsolicited" then cc3 else set_lock false (on_net (map_insert t2 c) (set_lock true cc3))).
  erewrite (M_bind_ok _ _ _ tt cc4); [|unfold cc4; case_match; [done|by apply locked_modify]].
  erewrite M_bind_ok by reflexivity. cbn beta.
  assert (Hcc4 : m_lock cc4 = false /\ m_mapDialogs cc4 !! d = Some c /\ m_posted cc4 = m_posted cc)
    by (unfold cc4; by case_match).
  destruct Hcc4 as (Hl4 & Hd4 & Hp4).
  destruct (String.eqb (rq_method_name sip) "BYE" || ends_subscription sip).
  - unfold removeDialog. erewrite M_bind_ok.
    2:{ apply locked_run; [done|]. erewrite M_bind_ok by reflexivity. cbn beta.
        cbn [m_mapDialogs set_lock on_posted]. rewrite Hd4. reflexivity. }
    eexists. split; [reflexivity|]. cbn [m_posted m_mapDialogs m_lock set_lock on_dialogs on_posted].
    rewrite Hp4. split_and!; [done| |done]. apply lookup_delete_eq.
  - erewrite M_bind_ok by reflexivity. eexists. split; [reflexivity|].
    cbn [m_posted m_mapDialogs m_lock on_posted]. by rewrite Hp4.
Qed.

(** No public operation of the controller deadlocks on its mutex: called
    with the mutex free, each returns and leaves it free. *)
Theorem ClientController_lock_discipline (c : client_id) (s1 s2 s3 s4 : string) (tag : option string)
    (meta : SipMsgData_t) (sip : dialog_request) (n : nat) (z : Z) :
  unlocked_ok (wants_requests c s1) /\ unlocked_ok (no_longer_wants_requests c s1) /\
  unlocked_ok (selectClientForRequestOutsideDialog s1 tag) /\
  unlocked_ok (addDialogForTransaction n s1 s2) /\ unlocked_ok (removeDialog s1) /\
  unlocked_ok (route_ack_request_inside_dialog n s1 meta s2 s3 s4) /\
  unlocked_ok (route_request_inside_invite n s1 meta s2 s3) /\
  unlocked_ok (route_request_inside_dialog n s1 meta sip s2 s3) /\
  unlocked_ok (route_response_inside_transaction s1 meta s2 z s3 s4) /\
  unlocked_ok (route_api_response s1 s2 s3) /\ unlocked_ok getDialogIds /\ unlocked_ok getNetTransactionIds.
Proof.
  split_and!; unfold wants_requests, no_longer_wants_requests, selectClientForRequestOutsideDialog,
    addDialogForTransaction, route_ack_request_inside_dialog, route_request_inside_invite,
    route_request_inside_dialog, route_response_inside_transaction, route_api_response, removeDialog,
    findClientForDialog, findClientForNetTransaction, findClientForAppTransaction, findClientForApiRequest,
    find_in, or_else, post, addNetTransaction, removeNetTransaction, removeAppTransaction, removeApiRequest,
    removeDialog, getDialogIds, getNetTransactionIds; lock_tac.
Qed.

(** ** Witnesses *)

(** Three clients, two of them connected; 1 and 2 take "invite", 1 also "bye". *)
Definition cc0 : ClientController :=
  MkClientController {[ 1%positive := ClientInfo ∅ ""; 2%positive := ClientInfo ∅ "" ]} false {[ 1%positive; 2%positive ]}
    [] [("invite", 1%positive); ("bye", 1%positive); ("invite", 3%positive); ("invite", 2%positive)]%string
    ∅ ∅ ∅ ∅ ∅ ∅ [].

Lemma select_returns_eligible_witness :
  exists r cc', selectClientForRequestOutsideDialog "INVITE" None cc0 = Ok (r, cc') /\ m_lock cc' = false /\
    (r = None <-> eligible cc0 "invite" None = []) /\
    (forall c, r = Some c -> c ∈ eligible cc0 "invite" None /\ is_Some (objects cc0 !! c) /\
       ("invite"%string, c) ∈ m_request_types cc0 /\ forall t, None = Some t -> hasTag cc0 c t = true) /\
    (forall c, ("invite"%string, c) ∈ m_request_types cc' -> is_Some (objects cc0 !! c)).
Proof. exact (select_returns_eligible "INVITE" None cc0 eq_refl). Defined.

Lemma select_round_robin_witness :
  exists rs cc', select_times 2 "INVITE" None cc0 = Ok (rs, cc') /\ rs ≡ₚ [Some 1%positive; Some 2%positive].
Proof.
  refine (select_round_robin "INVITE" None cc0 eq_refl _).
  intros E. apply (f_equal length) in E. vm_compute in E. discriminate.
Defined.

Lemma no_longer_wants_requests_all_verbs_witness :
  exists cc', no_longer_wants_requests 1%positive "bye" cc0 = Ok (true, cc') /\
    m_request_types cc' = [("invite", 3%positive); ("invite", 2%positive)]%string /\
    (forall mth tag, 1%positive ∉ eligible cc' mth tag).
Proof.
  refine (no_longer_wants_requests_all_verbs 1%positive "bye" cc0 eq_refl _).
  vm_compute. by eexists.
Defined.

Lemma dialog_requests_reach_owner_witness :
  exists cc', (_ ← addNetTransaction 2%positive "t"; _ ← addDialogForTransaction 0 "t" "d";
     _ ← removeNetTransaction "t";
     route_request_inside_dialog 0 "raw" (MkSipMsgData "" "" "" "" "" "" "" "")
       (DialogRequest "BYE" sip_method_bye None None) "t2" "d") cc0 = Ok (true, cc') /\
    m_posted cc' = [sendSipMessage 2%positive "t2" "d" "raw" (MkSipMsgData "" "" "" "" "" "" "" "")] /\
    m_mapDialogs cc' !! "d"%string = None /\ m_lock cc' = false.
Proof.
  exact (dialog_requests_reach_owner 0 0 2%positive (ClientInfo ∅ "") "t" "d" "t2" "raw"
    (MkSipMsgData "" "" "" "" "" "" "" "") (DialogRequest "BYE" sip_method_bye None None) cc0
    eq_refl eq_refl eq_refl eq_refl).
Defined.
