(* ===== verification/TimerQueue.v ===== *)
(** Model of [TimerQueue] and [LockingTimerQueue] (src/timer-queue.hpp,
    src/timer-queue.cpp): a doubly linked list of timers in the C++ heap,
    ordered by expiry, behind one sofia-sip timer that is armed for the head. *)
From S2P Require Import Prelude.

(** ** What the queue uses of sofia-sip *)

(** [su_time_t] and its operations, and the status that [su_timer_set_at]
    returns for a deadline. *)
Class SuTime := {
  su_time_t : Type;
  su_time_cmp : su_time_t -> su_time_t -> Z;
  su_time_add : su_time_t -> Z -> su_time_t;
  su_timer_set_at_rc : su_time_t -> Z;
}.

(** Their documentation: times are instants on a microsecond line, [cmp] is
    negative, zero or positive as its first argument is earlier, equal or
    later, [add] adds milliseconds, and setting a timer succeeds. *)
Class SuTimeLaws `{SuTime} := {
  su_time_us : su_time_t -> Z;
  su_time_cmp_sgn t1 t2 :
    Z.sgn (su_time_cmp t1 t2) = Z.sgn (su_time_us t1 - su_time_us t2);
  su_time_add_us t ms : su_time_us (su_time_add t ms) = (su_time_us t + 1000 * ms)%Z;
  su_timer_set_at_ok t : su_timer_set_at_rc t = 0%Z;
}.

(** Address of a [queueEntry_t]; a [queueEntry_t*] is an [option ptr]. *)
Abbreviation ptr := positive.

(** Calls on [m_timer]. *)
Inductive timer_call {T : Type} :=
  | su_timer_set_at (when : T)
  | su_timer_reset.
Arguments timer_call : clear implicits.

Section model.
Context `{SuTime} {TimerFunc : Type}.

(** ** State *)

(** [struct queueEntry_t] without [m_queue], which is never read. *)
Record queueEntry_t := QueueEntry {
  m_next : option ptr;
  m_prev : option ptr;
  m_function : TimerFunc;
  m_functionArgs : option ptr;
  m_when : su_time_t;
}.

(** [class TimerQueue]; [heap] holds the live entries, [m_timer] the calls
    made on the sofia timer, latest first. *)
Record TimerQueue := MkTimerQueue {
  heap : gmap ptr queueEntry_t;
  m_timer : list (timer_call su_time_t);
  m_head : option ptr;
  m_tail : option ptr;
  m_length : Z;
  m_in_timer : bool;
}.

Definition set_heap f q := MkTimerQueue (f (heap q)) (m_timer q) (m_head q) (m_tail q) (m_length q) (m_in_timer q).
Definition set_head p q := MkTimerQueue (heap q) (m_timer q) p (m_tail q) (m_length q) (m_in_timer q).
Definition set_tail p q := MkTimerQueue (heap q) (m_timer q) (m_head q) p (m_length q) (m_in_timer q).
Definition add_length n q := MkTimerQueue (heap q) (m_timer q) (m_head q) (m_tail q) (m_length q + n)%Z (m_in_timer q).
Definition set_in_timer b q := MkTimerQueue (heap q) (m_timer q) (m_head q) (m_tail q) (m_length q) b.
Definition timer_op c q := MkTimerQueue (heap q) (c :: m_timer q) (m_head q) (m_tail q) (m_length q) (m_in_timer q).

Definition set_next p e := QueueEntry p (m_prev e) (m_function e) (m_functionArgs e) (m_when e).
Definition set_prev p e := QueueEntry (m_next e) p (m_function e) (m_functionArgs e) (m_when e).

Abbreviation TQ := (M TimerQueue).

(** [p->...] as an rvalue, [p->m_x = v], [new queueEntry_t] and [delete]. *)
Definition load (p : ptr) : TQ queueEntry_t := fun q =>
  match heap q !! p with Some e => Ok (e, q) | None => Fault BadAccess end.
Definition store (p : ptr) (f : queueEntry_t -> queueEntry_t) : TQ unit := fun q =>
  match heap q !! p with
  | Some e => Ok (tt, set_heap (insert p (f e)) q)
  | None => Fault BadAccess
  end.
Definition alloc (e : queueEntry_t) : TQ ptr := fun q =>
  let p := fresh_addr (heap q) in Ok (p, set_heap (insert p e) q).
Definition free (p : ptr) : TQ unit := fun q =>
  match heap q !! p with
  | Some _ => Ok (tt, set_heap (delete p) q)
  | None => Fault BadAccess
  end.

Definition TimerQueue_new : TimerQueue := MkTimerQueue ∅ [] None None 0 false.

(** ** Operations *)

(** The [do .. while] of [add]: link [entry] before the first element that
    expires later; returns the final value of the local [ptr]. *)
Fixpoint add_iterate (fuel : nat) (entry : ptr) (when : su_time_t) (p : ptr) (idx : nat)
    : TQ (option ptr) :=
  match fuel with
  | O => fail OutOfFuel
  | S fuel =>
    e ← load p;
    if bool_decide (su_time_cmp when (m_when e) < 0)%Z then
      _ ← store entry (set_next (Some p));
      _ ← (if bool_decide (idx = 0) then modify (set_head (Some entry))
           else
             e ← load p;
             _ ← store entry (set_prev (m_prev e));
             pp ← deref (m_prev e);
             store pp (set_next (Some entry)));
      _ ← store p (set_prev (Some entry));
      mret (Some p)
    else
      match m_next e with
      | None => mret None
      | Some p' => add_iterate fuel entry when p' (S idx)
      end
  end.

(** The branches of [add] that link the new cell. *)
Definition add_link (entry : ptr) (when : su_time_t) : TQ unit :=
  q ← get;
  match m_head q with
  | None =>
    _ ← assertb (bool_decide (m_tail q = None));
    _ ← modify (set_tail (Some entry));
    modify (set_head (Some entry))
  | Some hd =>
    later ← match m_tail q with
            | None => mret false
            | Some tl => t ← load tl; mret (bool_decide (su_time_cmp when (m_when t) > 0)%Z)
            end;
    if later : bool then
      _ ← store entry (set_prev (m_tail q));
      tl ← deref (m_tail q);
      _ ← store tl (set_next (Some entry));
      modify (set_tail (Some entry))
    else
      r ← add_iterate (S (size (heap q))) entry when hd 0;
      assertb (bool_decide (r ≠ None))
  end.

(** The end of [add]: count the entry, and set the timer if it is first. *)
Definition add_finish (entry : ptr) (when : su_time_t) : TQ ptr :=
  _ ← modify (add_length 1);
  q ← get;
  _ ← (if bool_decide (m_head q = Some entry) then
         _ ← modify (timer_op (su_timer_set_at when));
         assertb (bool_decide (su_timer_set_at_rc when = 0%Z))
       else mret tt);
  mret entry.

(** [TimerQueue::add(f, functionArgs, milliseconds, now)] *)
Definition TimerQueue_add (f : TimerFunc) (functionArgs : option ptr)
    (milliseconds : Z) (now : su_time_t) : TQ ptr :=
  let when := su_time_add now milliseconds in
  entry ← alloc (QueueEntry None None f functionArgs when);
  _ ← add_link entry when;
  add_finish entry when.

(** The branches of [remove] that unlink the entry; the result is false
    when the entry was not in the queue and [remove] has returned. *)
Definition remove_unlink (entry : ptr) : TQ bool :=
  q ← get;
  if bool_decide (m_head q = Some entry) then
    e ← load entry;
    _ ← modify (set_head (m_next e));
    match m_next e with
    | Some h => _ ← store h (set_prev None); mret true
    | None =>
      _ ← assertb (bool_decide (m_length q = 1%Z));
      _ ← modify (set_tail None); mret true
    end
  else if bool_decide (m_tail q = Some entry) then
    e ← load entry;
    _ ← assertb (bool_decide (m_head q ≠ None /\ m_prev e ≠ None));
    _ ← modify (set_tail (m_prev e));
    t ← deref (m_prev e);
    _ ← store t (set_next None); mret true
  else
    e ← load entry;
    if bool_decide (m_prev e = None /\ m_next e = None) then
      _ ← free entry; mret false
    else
      _ ← assertb (bool_decide (m_prev e ≠ None));
      _ ← assertb (bool_decide (m_next e ≠ None));
      p ← deref (m_prev e);
      _ ← store p (set_next (m_next e));
      e ← load entry;
      n ← deref (m_next e);
      _ ← store n (set_prev (m_prev e)); mret true.

(** The end of [remove]: count, reset or set the timer, [delete entry]. *)
Definition remove_finish (entry : ptr) : TQ unit :=
  _ ← modify (add_length (-1));
  q ← get;
  _ ← assertb (bool_decide (m_length q >= 0)%Z);
  e ← load entry;
  _ ← match m_head q with
      | None => modify (timer_op su_timer_reset)
      | Some h =>
        if bool_decide (m_head q = m_next e) then
          he ← load h;
          modify (timer_op (su_timer_set_at (m_when he)))
        else mret tt
      end;
  free entry.

(** [TimerQueue::remove(entry)] *)
Definition TimerQueue_remove (entry : ptr) : TQ unit :=
  inQueue ← remove_unlink entry;
  if inQueue : bool then remove_finish entry else mret tt.

(** The first [while] of [doTimer]: detach expired entries; [expired] and
    [tailExpired] are its local variables. *)
Fixpoint expire_loop (fuel : nat) (now : su_time_t) (p expired tailExpired : option ptr)
    : TQ (option ptr) :=
  match fuel with
  | O => fail OutOfFuel
  | S fuel =>
    match p with
    | None => mret expired
    | Some p =>
      e ← load p;
      if bool_decide (su_time_cmp (m_when e) now < 0)%Z then
        _ ← modify (add_length (-1));
        _ ← modify (set_head (m_next e));
        _ ← match m_next e with
            | Some h => store h (set_prev None)
            | None => modify (set_tail None)
            end;
        x ← match expired with
            | None =>
              _ ← store p (set_next None ∘ set_prev None);
              mret (Some p, Some p)
            | Some _ =>
              t ← deref tailExpired;
              _ ← store t (set_next (Some p));
              _ ← store p (set_prev tailExpired);
              mret (expired, Some p)
            end;
        e ← load p;
        expire_loop fuel now (m_next e) x.1 x.2
      else mret expired
    end
  end.

(** [doTimer] up to the point where it calls the expired functions. *)
Definition doTimer_detach (now : su_time_t) : TQ (option ptr) :=
  _ ← modify (set_in_timer true);
  q ← get;
  _ ← assertb (bool_decide (m_head q ≠ None));
  expired ← expire_loop (S (S (size (heap q)))) now (m_head q) None None;
  q ← get;
  _ ← match m_head q with
      | None => assertb (bool_decide (m_length q = 0%Z))
      | Some h => e ← load h; modify (timer_op (su_timer_set_at (m_when e)))
      end;
  _ ← modify (set_in_timer false);
  mret expired.

(** The queue lives in some larger program state [S]; calling the function
    of an entry is a computation on that state. *)
Section doTimer.
Context {S : Type} (proj : S -> TimerQueue) (upd : TimerQueue -> S -> S)
  (call : TimerFunc -> option ptr -> M S unit).

Fixpoint fire_loop (fuel : nat) (expired : option ptr) : M S unit :=
  match fuel with
  | O => fail OutOfFuel
  | Datatypes.S fuel =>
    match expired with
    | None => mret tt
    | Some p =>
      e ← zoom proj upd (load p);
      _ ← call (m_function e) (m_functionArgs e);
      e ← zoom proj upd (load p);
      _ ← zoom proj upd (free p);
      fire_loop fuel (m_next e)
    end
  end.

(** [TimerQueue::doTimer(timer)]; [now] is the clock when it runs. *)
Definition TimerQueue_doTimer (now : su_time_t) : M S unit :=
  s ← get;
  if m_in_timer (proj s) then mret tt else
    expired ← zoom proj upd (doTimer_detach now);
    s' ← get;
    fire_loop (Datatypes.S (size (heap (proj s')))) expired.
End doTimer.

(** [positionOf], [numberOfElements], [isEmpty], [size] *)
Fixpoint positionOf_loop (fuel : nat) (p : option ptr) (handle : ptr) (pos : Z) : TQ Z :=
  match fuel with
  | O => fail OutOfFuel
  | S fuel =>
    match p with
    | None => mret (-1)%Z
    | Some p =>
      if bool_decide (p = handle) then mret pos
      else e ← load p; positionOf_loop fuel (m_next e) handle (pos + 1)%Z
    end
  end.
Definition TimerQueue_positionOf (handle : ptr) : TQ Z :=
  q ← get; positionOf_loop (S (size (heap q))) (m_head q) handle 0.

Fixpoint numberOfElements_loop (fuel : nat) (p : option ptr) (len : Z) : TQ Z :=
  match fuel with
  | O => fail OutOfFuel
  | S fuel =>
    match p with
    | None => mret len
    | Some p => e ← load p; numberOfElements_loop fuel (m_next e) (len + 1)%Z
    end
  end.
Definition TimerQueue_numberOfElements : TQ Z :=
  q ← get; numberOfElements_loop (S (size (heap q))) (m_head q) 0.

Definition TimerQueue_isEmpty (q : TimerQueue) : bool := bool_decide (m_length q = 0%Z).
Definition TimerQueue_size (q : TimerQueue) : Z := m_length q.

(** [~TimerQueue]: delete the entries from the head. *)
Fixpoint destroy_loop (fuel : nat) (p : option ptr) : TQ unit :=
  match fuel with
  | O => fail OutOfFuel
  | S fuel =>
    match p with
    | None => mret tt
    | Some p =>
      e ← load p;
      _ ← free p;
      _ ← modify (add_length (-1));
      _ ← modify (set_head (m_next e));
      destroy_loop fuel (m_next e)
    end
  end.
Definition TimerQueue_destroy : TQ unit :=
  q ← get; destroy_loop (S (size (heap q))) (m_head q).

(** ** [LockingTimerQueue]: every public method holds [m_mutex] *)

Record LockingTimerQueue := MkLocking {
  base : TimerQueue;
  m_mutex : bool;
}.
Definition set_base (q : TimerQueue) (lq : LockingTimerQueue) := MkLocking q (m_mutex lq).
Definition set_mutex (b : bool) (lq : LockingTimerQueue) := MkLocking (base lq) b.

#[export] Instance base_lens : Lens base set_base.
Proof. split; [done..|by intros []]. Qed.

Definition guarded {A} (m : TQ A) : M LockingTimerQueue A :=
  lock_guard m_mutex set_mutex (zoom base set_base m).

Definition LockingTimerQueue_add f functionArgs milliseconds now :=
  guarded (TimerQueue_add f functionArgs milliseconds now).
Definition LockingTimerQueue_remove handle := guarded (TimerQueue_remove handle).
Definition LockingTimerQueue_isEmpty := guarded (q ← get; mret (TimerQueue_isEmpty q)).
Definition LockingTimerQueue_size := guarded (q ← get; mret (TimerQueue_size q)).
Definition LockingTimerQueue_positionOf handle := guarded (TimerQueue_positionOf handle).

Section locking_doTimer.
Context {S : Type} (proj : S -> LockingTimerQueue) (upd : LockingTimerQueue -> S -> S)
  (call : TimerFunc -> option ptr -> M S unit).

(** The mutex stays locked while the callbacks run. *)
Definition LockingTimerQueue_doTimer (now : su_time_t) : M S unit :=
  lock_guard (m_mutex ∘ proj) (fun b s => upd (set_mutex b (proj s)) s)
    (TimerQueue_doTimer (base ∘ proj) (fun q s => upd (set_base q (proj s)) s) call now).
End locking_doTimer.
End model.
Arguments queueEntry_t {_} _.
Arguments TimerQueue {_} _.
Arguments TimerQueue_new {_ _}.
Arguments LockingTimerQueue {_} _.
