(* ===== verification/TimerQueueSpec.v ===== *)
(** Abstract specification of the timer queue: an ordered list of timers, and
    the proof that the pointer code of [TimerQueue] refines it. *)
From S2P Require Import Prelude TimerQueue.

(** ** The abstract queue *)

Section spec.
Context `{SuTime} {TimerFunc : Type}.

(** A queued timer: its handle, its function, argument and expiry. *)
Definition timer : Type := ptr * (TimerFunc * option ptr * su_time_t).
Definition expiry (c : timer) : su_time_t := c.2.2.
Definition handles (l : list timer) : list ptr := c ← l; [c.1].

Definition before (t : su_time_t) (c : timer) : Prop := (su_time_cmp t (expiry c) < 0)%Z.
#[export] Instance before_dec t c : Decision (before t c).
Proof. unfold before. apply _. Defined.

(** Insert before the first timer that expires later, if there is one. *)
Fixpoint insert_before (c : timer) (l : list timer) : option (list timer) :=
  match l with
  | [] => None
  | d :: l' =>
    if decide (before (expiry c) d) then Some (c :: l)
    else (d ::.) <$> insert_before c l'
  end.

(** What [add] does to the list; [None]: it does not find a place. *)
Definition spec_add (c : timer) (l : list timer) : option (list timer) :=
  match last l with
  | None => Some [c]
  | Some d =>
    if decide (su_time_cmp (expiry c) (expiry d) > 0)%Z then Some (l ++ [c])
    else insert_before c l
  end.
End spec.
Arguments timer {_} _.

(** ** Representation of a list of timers in the heap *)

Section repr.
Context `{SuTime} {TimerFunc : Type}.
Implicit Types (l : list (timer TimerFunc)) (h : gmap ptr (queueEntry_t TimerFunc)).

Definition entry_of (nx pv : option ptr) (c : timer TimerFunc) : queueEntry_t TimerFunc :=
  QueueEntry nx pv c.2.1.1 c.2.1.2 c.2.2.
Definition hd_ptr l (nx : option ptr) : option ptr :=
  match l with [] => nx | c :: _ => Some c.1 end.
Definition last_ptr l (pv : option ptr) : option ptr :=
  match last l with None => pv | Some c => Some c.1 end.

Fixpoint dll h (pv : option ptr) l (nx : option ptr) : Prop :=
  match l with
  | [] => True
  | c :: l' => h !! c.1 = Some (entry_of (hd_ptr l' nx) pv c) /\ dll h (Some c.1) l' nx
  end.

(** [q] holds exactly the timers [l], in this order. *)
Record represents (q : TimerQueue TimerFunc) l : Prop := Represents {
  rep_dll : dll (heap q) None l None;
  rep_nodup : NoDup (l.*1);
  rep_head : m_head q = hd_ptr l None;
  rep_tail : m_tail q = last_ptr l None;
  rep_length : m_length q = Z.of_nat (length l);
}.

(** Every entry of the heap is linked: no leak, no foreign cell. *)
Definition no_leak (q : TimerQueue TimerFunc) l : Prop :=
  forall p, is_Some (heap q !! p) <-> p ∈ l.*1.

Lemma last_ptr_snoc l c pv : last_ptr (l ++ [c]) pv = Some c.1.
Proof. unfold last_ptr. by rewrite last_snoc. Qed.
Lemma last_ptr_cons c l pv : last_ptr (c :: l) pv = last_ptr l (Some c.1).
Proof. destruct l; [done|]. unfold last_ptr. rewrite last_cons_cons. by destruct (last (t :: l)) eqn:E; [|apply last_None in E]. Qed.
Lemma hd_ptr_app l1 l2 nx : hd_ptr (l1 ++ l2) nx = hd_ptr l1 (hd_ptr l2 nx).
Proof. by destruct l1. Qed.
Lemma last_ptr_app l1 l2 pv : last_ptr (l1 ++ l2) pv = last_ptr l2 (last_ptr l1 pv).
Proof.
  destruct (list_rcons_cases l2) as [->|(l' & x & ->)].
  - by rewrite app_nil_r.
  - by rewrite app_assoc, !last_ptr_snoc.
Qed.

Lemma dll_app h pv l1 l2 nx :
  dll h pv (l1 ++ l2) nx <-> dll h pv l1 (hd_ptr l2 nx) /\ dll h (last_ptr l1 pv) l2 nx.
Proof.
  revert pv. induction l1 as [|c l1 IH]; intros pv; simpl; [tauto|].
  rewrite IH, hd_ptr_app, last_ptr_cons. tauto.
Qed.

Lemma dll_insert_ne h p e pv l nx : p ∉ l.*1 -> dll (<[p:=e]> h) pv l nx <-> dll h pv l nx.
Proof.
  revert pv. induction l as [|c l IH]; intros pv Hp; simpl; [done|].
  rewrite fmap_cons, not_elem_of_cons in Hp. destruct Hp as [Hne Hp].
  by rewrite (IH _ Hp), lookup_insert_ne by done.
Qed.

Lemma dll_delete_ne h p pv l nx : p ∉ l.*1 -> dll (delete p h) pv l nx <-> dll h pv l nx.
Proof.
  revert pv. induction l as [|c l IH]; intros pv Hp; simpl; [done|].
  rewrite fmap_cons, not_elem_of_cons in Hp. destruct Hp as [Hne Hp].
  by rewrite (IH _ Hp), lookup_delete_ne by done.
Qed.

(** Rewriting the cell at a split point of the list. *)
Lemma dll_lookup h pv l1 c l2 nx :
  dll h pv (l1 ++ c :: l2) nx ->
  h !! c.1 = Some (entry_of (hd_ptr l2 nx) (last_ptr l1 pv) c).
Proof. intros [_ [Hc _]]%dll_app. done. Qed.

Lemma dll_is_Some h pv l nx p : dll h pv l nx -> p ∈ l.*1 -> is_Some (h !! p).
Proof.
  intros Hd (c & -> & (l1 & l2 & ->)%list_elem_of_split)%list_elem_of_fmap.
  by apply dll_lookup in Hd as ->.
Qed.

Lemma dll_relink_last h pv l c nx nx' :
  c.1 ∉ l.*1 -> dll h pv (l ++ [c]) nx ->
  dll (<[c.1 := entry_of nx' (last_ptr l pv) c]> h) pv (l ++ [c]) nx'.
Proof.
  intros Hc [Hl _]%dll_app. apply dll_app. split.
  - by apply dll_insert_ne.
  - simpl. by rewrite lookup_insert_eq.
Qed.

Lemma dll_relink_first h pv pv' c l nx :
  c.1 ∉ l.*1 -> dll h pv (c :: l) nx ->
  dll (<[c.1 := entry_of (hd_ptr l nx) pv' c]> h) pv' (c :: l) nx.
Proof.
  intros Hc [_ Hl]. split; [by rewrite lookup_insert_eq|]. by apply dll_insert_ne.
Qed.
End repr.

(** ** Symbolic execution of the heap operations *)

Section steps.
Context `{SuTime} {TimerFunc : Type}.
Implicit Types (q : TimerQueue TimerFunc).

Lemma load_ok q p e : heap q !! p = Some e -> load p q = Ok (e, q).
Proof. unfold load. by intros ->. Qed.
Lemma store_ok q p f e :
  heap q !! p = Some e -> store p f q = Ok (tt, set_heap (insert p (f e)) q).
Proof. unfold store. by intros ->. Qed.
Lemma free_ok q p e : heap q !! p = Some e -> free p q = Ok (tt, set_heap (delete p) q).
Proof. unfold free. by intros ->. Qed.
End steps.

(** Prove a lookup in a heap that is a chain of updates. *)
Ltac heap_lookup :=
  cbn; repeat (first
    [ eassumption
    | apply lookup_insert_eq
    | rewrite lookup_insert_ne by (eauto || congruence)
    | rewrite lookup_delete_ne by (eauto || congruence) ]).
(** One action of a heap program. *)
Ltac tq_step :=
  erewrite M_bind_ok;
  [| first [ reflexivity
           | apply load_ok; solve [heap_lookup]
           | apply store_ok; solve [heap_lookup]
           | eapply free_ok; solve [heap_lookup]
           | apply assertb_true; solve [reflexivity | apply bool_decide_eq_true_2; done || lia] ] ];
  cbn beta iota.
Ltac case_bd := match goal with
  | |- context [bool_decide ?P] =>
    let E := fresh "E" in destruct (bool_decide_reflect P) as [E|E]
  end.

(** ** [add] *)

Section add.
Context `{SuTime} {TimerFunc : Type}.
Implicit Types (q : TimerQueue TimerFunc) (l : list (timer TimerFunc)).

(** Same fields, and the same heap except in the cells [ps]. *)
Definition frame (ps : list ptr) q q' : Prop :=
  m_timer q' = m_timer q /\ m_tail q' = m_tail q /\ m_length q' = m_length q /\
  m_in_timer q' = m_in_timer q /\
  (forall p, is_Some (heap q' !! p) <-> is_Some (heap q !! p)) /\
  (forall p, p ∉ ps -> heap q' !! p = heap q !! p).

Lemma insert_is_Some {A} (h : gmap ptr A) p e :
  is_Some (h !! p) -> forall k, is_Some (<[p:=e]> h !! k) <-> is_Some (h !! k).
Proof.
  intros Hp k. destruct (decide (p = k)) as [<-|Hne].
  - rewrite lookup_insert_eq. naive_solver.
  - by rewrite lookup_insert_ne.
Qed.

(** [x] has been linked by [add_iterate] between [l1] and [c :: l2]. *)
Definition cell_linked q x l1 c l2 fuel : Prop :=
  exists q', add_iterate (S fuel) x.1 (expiry x) c.1 (length l1) q = Ok (Some c.1, q') /\
    dll (heap q') None (l1 ++ x :: c :: l2) None /\
    m_head q' = hd_ptr (l1 ++ x :: c :: l2) None /\
    frame (x.1 :: (l1 ++ c :: l2).*1) q q'.

(** Linking the fresh cell [x] at the head of the queue. *)
Lemma link_first q x c l2 fuel :
  heap q !! x.1 = Some (entry_of None None x) ->
  c.1 ∉ l2.*1 -> x.1 ≠ c.1 -> x.1 ∉ l2.*1 ->
  dll (heap q) None (c :: l2) None -> before (expiry x) c ->
  cell_linked q x [] c l2 fuel.
Proof.
  intros Hx Hcn Hxc Hx2 Hd2 Hb. pose proof (dll_lookup _ _ [] _ _ _ Hd2) as Hc.
  unfold cell_linked. cbn [add_iterate]. tq_step. rewrite bool_decide_eq_true_2 by done. tq_step.
  cbn [length]. rewrite bool_decide_eq_true_2 by done. do 2 tq_step.
  eexists. split; [reflexivity|]. cbn. split_and!.
  + rewrite lookup_insert_ne, lookup_insert_eq by done. done.
  + rewrite lookup_insert_eq. done.
  + apply dll_insert_ne; [done|]. apply dll_insert_ne; [done|]. apply Hd2.
  + done.
  + repeat (split; [done|]). cbn. split.
    * intros p. rewrite insert_is_Some, insert_is_Some; [done|naive_solver|].
      rewrite lookup_insert_ne by done. naive_solver.
    * intros p Hp. rewrite !not_elem_of_cons in Hp.
      by rewrite !lookup_insert_ne by naive_solver.
Qed.

(** Linking it between two neighbours [y] and [c]. *)
Lemma link_inner q x l1' y c l2 fuel :
  heap q !! x.1 = Some (entry_of None None x) ->
  NoDup (((l1' ++ [y]) ++ c :: l2).*1) -> (x.1 ∉ ((l1' ++ [y]) ++ c :: l2).*1) ->
  dll (heap q) None ((l1' ++ [y]) ++ c :: l2) None ->
  m_head q = hd_ptr ((l1' ++ [y]) ++ c :: l2) None ->
  before (expiry x) c ->
  cell_linked q x (l1' ++ [y]) c l2 fuel.
Proof.
  intros Hx Hnd Hxn Hdll Hhd Hb. pose proof (dll_lookup _ _ _ _ _ _ Hdll) as Hc.
  apply dll_app in Hdll as [Hd1 Hd2].
  rewrite fmap_app, fmap_cons in Hnd, Hxn.
  apply NoDup_app in Hnd as (Hnd1 & Hdis & Hnd2). apply NoDup_cons in Hnd2 as [Hcn Hnd2].
  apply not_elem_of_app in Hxn as [Hx1 Hx2]. apply not_elem_of_cons in Hx2 as [Hxc Hx2].
  assert (Hc1 : c.1 ∉ (l1' ++ [y]).*1) by (intros Hin; apply (Hdis _ Hin); by left).
  unfold cell_linked. cbn [add_iterate]. tq_step. rewrite bool_decide_eq_true_2 by done. tq_step.
  rewrite length_app, Nat.add_1_r, bool_decide_eq_false_2 by done.
  rewrite fmap_app, not_elem_of_app in Hx1, Hc1. cbn in Hx1, Hc1.
  destruct Hx1 as [Hx1 Hxy], Hc1 as [Hc1 Hcy].
  rewrite not_elem_of_cons in Hxy, Hcy. destruct Hxy as [Hxy _], Hcy as [Hcy _].
  rewrite fmap_app in Hnd1. apply NoDup_app in Hnd1 as (Hnd1 & Hy1 & _).
  assert (Hyn : y.1 ∉ l1'.*1) by (intros Hin; apply (Hy1 _ Hin); by left).
  assert (Hy2 : y.1 ∉ l2.*1).
  { intros Hin. apply (Hdis y.1); [rewrite fmap_app; apply elem_of_app; right; by left|by right]. }
  pose proof (dll_lookup _ _ _ _ _ _ Hd1) as Hy.
  rewrite last_ptr_snoc in Hc. cbn [entry_of] in Hc.
  erewrite M_bind_ok; cycle 1.
  { tq_step. tq_step. cbn [m_prev entry_of]. tq_step. apply store_ok. heap_lookup. }
  cbn beta iota. tq_step.
  eexists. split; [reflexivity|]. cbn. split_and!.
  + apply dll_app. split.
    * assert ((c.1 ∉ (l1' ++ [y]).*1) /\ (x.1 ∉ (l1' ++ [y]).*1)) as [Hcl Hxl].
      { rewrite !fmap_app, !not_elem_of_app. cbn. rewrite !not_elem_of_cons.
        split_and!; (done || apply not_elem_of_nil). }
      apply dll_insert_ne; [done|].
      apply (dll_relink_last _ None l1' y (Some c.1) (Some x.1)); [done|].
      by do 2 (apply dll_insert_ne; [done|]).
    * rewrite last_ptr_snoc. cbn. split_and!.
      -- rewrite !lookup_insert_ne by done. rewrite lookup_insert_eq. done.
      -- by rewrite lookup_insert_eq.
      -- do 4 (apply dll_insert_ne; [done|]). apply Hd2.
  + rewrite Hhd, <-!app_assoc. by destruct l1'.
  + repeat (split; [done|]). cbn. split.
    * intros p. rewrite !insert_is_Some; [done|..]; repeat first
        [rewrite lookup_insert_eq | rewrite lookup_insert_ne by done]; naive_solver.
    * intros p Hp. rewrite !fmap_app, !not_elem_of_cons, !not_elem_of_app in Hp.
      cbn in Hp. rewrite !not_elem_of_cons in Hp.
      by rewrite !lookup_insert_ne by naive_solver.
Qed.

(** Linking the fresh cell [x] between [l1] and [c :: l2]. *)
Lemma link_between q x l1 c l2 fuel :
  heap q !! x.1 = Some (entry_of None None x) ->
  NoDup ((l1 ++ c :: l2).*1) -> (x.1 ∉ (l1 ++ c :: l2).*1) ->
  dll (heap q) None (l1 ++ c :: l2) None ->
  m_head q = hd_ptr (l1 ++ c :: l2) None ->
  before (expiry x) c ->
  cell_linked q x l1 c l2 fuel.
Proof.
  intros Hx Hnd Hxn Hdll Hhd Hb. destruct (list_rcons_cases l1) as [->|(l1' & y & ->)].
  - rewrite app_nil_l, fmap_cons in Hnd, Hxn.
    apply NoDup_cons in Hnd as [Hcn _]. apply not_elem_of_cons in Hxn as [Hxc Hx2].
    by apply link_first.
  - by apply link_inner.
Qed.

Lemma add_iterate_spec q x l1 l2 c fuel :
  length (c :: l2) <= fuel ->
  heap q !! x.1 = Some (entry_of None None x) ->
  NoDup ((l1 ++ c :: l2).*1) -> (x.1 ∉ (l1 ++ c :: l2).*1) ->
  dll (heap q) None (l1 ++ c :: l2) None ->
  m_head q = hd_ptr (l1 ++ c :: l2) None ->
  match insert_before x (c :: l2) with
  | Some l2' => exists q' p, add_iterate fuel x.1 (expiry x) c.1 (length l1) q = Ok (Some p, q') /\
      dll (heap q') None (l1 ++ l2') None /\ m_head q' = hd_ptr (l1 ++ l2') None /\
      frame (x.1 :: (l1 ++ c :: l2).*1) q q'
  | None => add_iterate fuel x.1 (expiry x) c.1 (length l1) q = Ok (None, q)
  end.
Proof.
  revert l1 c fuel. induction l2 as [|d l2 IH]; intros l1 c fuel Hf Hx Hnd Hxn Hdll Hhd;
    (destruct fuel as [|fuel]; [simpl in Hf; lia|]);
    pose proof (dll_lookup _ _ _ _ _ _ Hdll) as Hc; cbn [insert_before];
    (destruct (decide (before (expiry x) c)) as [Hb|Hb];
     [destruct (link_between q x l1 c _ fuel Hx Hnd Hxn Hdll Hhd Hb) as (q' & ?); eauto|]);
    cbn [add_iterate]; tq_step; rewrite bool_decide_eq_false_2 by done; [done|].
  specialize (IH (l1 ++ [c]) d fuel). rewrite <-app_assoc in IH.
  cbn [hd_ptr entry_of m_next]. replace (S (length l1)) with (length (l1 ++ [c]))
    by (rewrite length_app; simpl; lia).
  simpl in Hf. assert (length (d :: l2) <= fuel) as Hf' by (simpl; lia).
  specialize (IH Hf' Hx Hnd Hxn Hdll Hhd). cbn [insert_before] in IH.
  destruct (decide (before (expiry x) d)); simpl in IH |- *; [|destruct (insert_before x l2); simpl in *; [|done]];
    destruct IH as (q' & p & ? & ? & ? & ?); exists q', p; by rewrite <-app_assoc in *.
Qed.

Lemma insert_before_perm (x : timer TimerFunc) l l' : insert_before x l = Some l' -> l' ≡ₚ x :: l.
Proof.
  revert l'. induction l as [|c l IH]; intros l' Hs; simpl in Hs; [done|].
  destruct (decide _); simplify_eq; [done|].
  destruct (insert_before x l) as [l1|]; simplify_eq/=. rewrite (IH l1) by done. constructor.
Qed.

Lemma insert_before_last (x : timer TimerFunc) l l' pv :
  insert_before x l = Some l' -> last_ptr l' pv = last_ptr l pv.
Proof.
  revert l' pv. induction l as [|c l IH]; intros l' pv Hs; simpl in Hs; [done|].
  destruct (decide _); simplify_eq; [by rewrite !last_ptr_cons|].
  destruct (insert_before x l) as [l1|]; simplify_eq/=. rewrite !last_ptr_cons. eauto.
Qed.

Lemma spec_add_perm (x : timer TimerFunc) l l' : spec_add x l = Some l' -> l' ≡ₚ x :: l.
Proof.
  unfold spec_add. destruct (list_rcons_cases l) as [->|(l1 & c & ->)]; [by intros [= <-]|].
  rewrite last_snoc. destruct (decide _); [intros [= <-]; by rewrite Permutation_app_comm|].
  apply insert_before_perm.
Qed.

(** What [add] leaves behind when [spec_add] finds a place. *)
Record added q (x : timer TimerFunc) l' q' : Prop := Added {
  add_rep : represents q' l';
  add_in_timer : m_in_timer q' = m_in_timer q;
  add_timer : m_timer q' = if decide (hd_ptr l' None = Some x.1)
                           then su_timer_set_at (expiry x) :: m_timer q else m_timer q;
  add_dom : forall p, is_Some (heap q' !! p) <-> p = x.1 \/ is_Some (heap q !! p);
  add_heap : forall p, p ∉ l'.*1 -> heap q' !! p = heap q !! p;
}.

(** What the branches of [add] establish about the heap [q1] they leave,
    starting from the heap [q] before the allocation. *)
Record linked q (x : timer TimerFunc) l l' q1 : Prop := Linked {
  lk_timer : m_timer q1 = m_timer q;
  lk_length : m_length q1 = m_length q;
  lk_in_timer : m_in_timer q1 = m_in_timer q;
  lk_perm : l' ≡ₚ x :: l;
  lk_nodup : NoDup (l'.*1);
  lk_dll : dll (heap q1) None l' None;
  lk_head : m_head q1 = hd_ptr l' None;
  lk_tail : m_tail q1 = last_ptr l' None;
  lk_dom : forall p, is_Some (heap q1 !! p) <-> p = x.1 \/ is_Some (heap q !! p);
  lk_heap : forall p, p ∉ l'.*1 -> heap q1 !! p = heap q !! p;
}.

Lemma add_finish_ok `{!SuTimeLaws} q q1 (x : timer TimerFunc) l l' :
  m_length q = Z.of_nat (length l) -> linked q x l l' q1 ->
  exists q', add_finish x.1 (expiry x) q1 = Ok (x.1, q') /\ added q x l' q'.
Proof.
  intros Hlen [Ht Hl Hin Hp Hnd Hd Hhd Htl Hdom Hheap]. unfold add_finish. do 2 tq_step.
  change (m_head (add_length 1 q1)) with (m_head q1). rewrite Hhd.
  assert (Hlen' : (m_length q1 + 1 = Z.of_nat (length l'))%Z) by (rewrite Hl, Hlen, Hp; simpl; lia).
  destruct (decide (hd_ptr l' None = Some x.1)) as [E|E].
  - rewrite bool_decide_eq_true_2 by done.
    erewrite M_bind_ok; [|tq_step; apply assertb_true, bool_decide_eq_true_2, su_timer_set_at_ok].
    eexists; split; [reflexivity|]. constructor; [by constructor|done| |done|done].
    cbn. by rewrite decide_True, Ht.
  - rewrite bool_decide_eq_false_2 by done. tq_step.
    eexists; split; [reflexivity|]. constructor; [by constructor|done| |done|done].
    cbn. by rewrite decide_False, Ht.
Qed.
End add.

Section add_refinement.
Context `{SuTimeLaws} {TimerFunc : Type}.
Implicit Types (q : TimerQueue TimerFunc) (l : list (timer TimerFunc)).

Lemma represents_fresh q l : represents q l -> fresh_addr (heap q) ∉ l.*1.
Proof.
  intros Hr Hin. destruct (dll_is_Some _ _ _ _ _ (rep_dll _ _ Hr) Hin) as [e He].
  by rewrite fresh_addr_lookup in He.
Qed.

Lemma represents_size q l : represents q l -> length l <= size (heap q).
Proof.
  intros Hr. transitivity (size (list_to_set l.*1 : gset ptr)).
  - rewrite size_list_to_set by apply Hr. by rewrite length_fmap.
  - rewrite <-size_dom. apply subseteq_size. intros p Hp%elem_of_list_to_set.
    apply elem_of_dom. eapply dll_is_Some; [apply Hr|done].
Qed.

(** The queue right after [new queueEntry_t]. *)
Definition allocated q (x : timer TimerFunc) : TimerQueue TimerFunc :=
  set_heap (insert x.1 (entry_of None None x)) q.

Lemma allocated_dom q x p :
  is_Some (heap (allocated q x) !! p) <-> p = x.1 \/ is_Some (heap q !! p).
Proof. cbn. rewrite lookup_insert_is_Some'. naive_solver. Qed.

Lemma allocated_ne q x p : p ≠ x.1 -> heap (allocated q x) !! p = heap q !! p.
Proof. intros Hp. cbn. by rewrite lookup_insert_ne. Qed.

Lemma nodup_cons_perm (x : timer TimerFunc) l l' :
  (x.1 ∉ l.*1) -> NoDup (l.*1) -> l' ≡ₚ x :: l -> NoDup (l'.*1).
Proof. intros ?? ->. rewrite fmap_cons. by constructor. Qed.

Lemma add_link_empty q x :
  represents q [] ->
  exists q1, add_link x.1 (expiry x) (allocated q x) = Ok (tt, q1) /\ linked q x [] [x] q1.
Proof.
  intros [Hd Hnd Hhd Htl Hlen]. cbn in Hhd, Htl. unfold add_link. tq_step.
  change (m_head (allocated q x)) with (m_head q).
  change (m_tail (allocated q x)) with (m_tail q). rewrite Hhd, Htl. do 2 tq_step.
  eexists; split; [reflexivity|]. constructor; try done.
  - apply NoDup_singleton.
  - split; [apply lookup_insert_eq|done].
  - apply allocated_dom.
  - intros p Hp. apply allocated_ne. intros ->. apply Hp. by left.
Qed.

Lemma add_link_tail q x l d :
  represents q (l ++ [d]) -> (x.1 ∉ (l ++ [d]).*1) ->
  (su_time_cmp (expiry x) (expiry d) > 0)%Z ->
  exists q1, add_link x.1 (expiry x) (allocated q x) = Ok (tt, q1) /\
    linked q x (l ++ [d]) ((l ++ [d]) ++ [x]) q1.
Proof.
  intros [Hd Hnd Hhd Htl Hlen] Hfr Hgt. rewrite last_ptr_snoc in Htl.
  assert (Hd0 : dll (heap (allocated q x)) None (l ++ [d]) None) by (by apply dll_insert_ne).
  pose proof (dll_lookup _ _ _ _ _ _ Hd0) as Hd1.
  assert (Hx0 : heap (allocated q x) !! x.1 = Some (entry_of None None x)) by apply lookup_insert_eq.
  assert (Hp : (l ++ [d]) ++ [x] ≡ₚ x :: l ++ [d]) by (by rewrite Permutation_app_comm).
  unfold add_link. tq_step.
  change (m_head (allocated q x)) with (m_head q).
  change (m_tail (allocated q x)) with (m_tail q). rewrite Htl.
  assert (exists c, m_head q = Some c) as [c Hc] by (rewrite Hhd; destruct l; cbn; eauto).
  assert (Hxd : x.1 ≠ d.1 /\ (x.1 ∉ l.*1)) by (clear -Hfr; set_solver).
  pose proof Hnd as Hnd'. rewrite fmap_app in Hnd'. apply NoDup_app in Hnd' as (Hnd1 & Hdn & _).
  assert (Hdn' : d.1 ∉ l.*1) by (intros Hin; apply (Hdn _ Hin); by left).
  destruct Hxd as [Hxd Hxl]. rewrite Hc.
  erewrite M_bind_ok; [|tq_step; reflexivity]. rewrite bool_decide_eq_true_2 by done.
  do 3 tq_step. eexists; split; [reflexivity|]. constructor; try done.
  - by eapply nodup_cons_perm; [| |exact Hp].
  - apply dll_app. split.
    + apply (dll_relink_last _ None l d None (Some x.1)); [done|]. by apply dll_insert_ne.
    + rewrite last_ptr_snoc. cbn. by rewrite lookup_insert_ne, lookup_insert_eq by done.
  - cbn. rewrite Hhd. by destruct l.
  - symmetry. apply last_ptr_snoc.
  - intros p. rewrite <-allocated_dom. etransitivity; apply insert_is_Some; [|by rewrite Hx0].
    cbn. rewrite lookup_insert_ne by done. exact (mk_is_Some _ _ Hd1).
  - intros p Hp'. assert (p ≠ x.1 /\ p ≠ d.1) as [? ?] by (clear -Hp'; set_solver).
    rewrite <-(allocated_ne q x) by done. cbn. by rewrite !lookup_insert_ne by done.
Qed.

Lemma add_link_iterate q x l d :
  represents q (l ++ [d]) -> (x.1 ∉ (l ++ [d]).*1) ->
  ~ (su_time_cmp (expiry x) (expiry d) > 0)%Z ->
  match insert_before x (l ++ [d]) with
  | Some l' => exists q1, add_link x.1 (expiry x) (allocated q x) = Ok (tt, q1) /\
                          linked q x (l ++ [d]) l' q1
  | None => add_link x.1 (expiry x) (allocated q x) = Fault AssertFail
  end.
Proof.
  intros Hr Hfr Hgt. pose proof (represents_size _ _ Hr) as Hsz.
  destruct Hr as [Hd Hnd Hhd Htl Hlen]. rewrite last_ptr_snoc in Htl.
  assert (Hd0 : dll (heap (allocated q x)) None (l ++ [d]) None) by (by apply dll_insert_ne).
  pose proof (dll_lookup _ _ _ _ _ _ Hd0) as Hd1.
  assert (Hx0 : heap (allocated q x) !! x.1 = Some (entry_of None None x)) by apply lookup_insert_eq.
  unfold add_link. tq_step.
  change (m_head (allocated q x)) with (m_head q).
  change (m_tail (allocated q x)) with (m_tail q). rewrite Htl.
  assert (exists c l2, l ++ [d] = c :: l2) as (c & l2 & El) by (destruct l; eauto).
  assert (Hlast : last_ptr (c :: l2) None = Some d.1) by (by rewrite <-El, last_ptr_snoc).
  rewrite El in *. rewrite Hhd. cbn [hd_ptr].
  erewrite M_bind_ok; [|tq_step; reflexivity]. rewrite bool_decide_eq_false_2 by done.
  assert (Hfuel : length (c :: l2) <= S (size (heap (allocated q x)))).
  { cbn [allocated set_heap heap]. rewrite map_size_insert.
    case_match; simpl in *; lia. }
  pose proof (add_iterate_spec (allocated q x) x [] l2 c _ Hfuel Hx0 Hnd Hfr Hd0 Hhd) as Hit.
  cbn [length app] in Hit.
  destruct (insert_before x (c :: l2)) as [l'|] eqn:Ei.
  - destruct Hit as (q1 & p & Hrun & Hd' & Hh' & (Hft & Hftl & Hfl & Hfi & Hfd & Hfh)).
    rewrite (M_bind_ok _ _ _ _ _ Hrun). eexists; split; [reflexivity|].
    pose proof (insert_before_perm _ _ _ Ei) as Hperm.
    constructor; rewrite ?Hftl, ?(insert_before_last _ _ _ None Ei); try done.
    + by eapply nodup_cons_perm; [| |exact Hperm].
    + by rewrite Hlast.
    + intros p'. rewrite Hfd. apply allocated_dom.
    + intros p' Hp'. rewrite Hperm, fmap_cons in Hp'. rewrite Hfh by done.
      apply allocated_ne. intros ->. apply Hp'. by left.
  - rewrite (M_bind_ok _ _ _ _ _ Hit). by rewrite bool_decide_eq_false_2 by naive_solver.
Qed.

(** [add] and its abstract counterpart succeed together, with the same
    list, and fail together. *)
Lemma add_refines_aux f args ms now q l :
  represents q l ->
  let x := (fresh_addr (heap q), (f, args, su_time_add now ms)) in
  match spec_add x l with
  | Some l' => exists q', TimerQueue_add f args ms now q = Ok (x.1, q') /\ added q x l' q'
  | None => TimerQueue_add f args ms now q = Fault AssertFail
  end.
Proof.
  intros Hr x. pose proof (represents_fresh _ _ Hr) as Hfr.
  assert (Hrun : TimerQueue_add f args ms now q =
    (add_link x.1 (expiry x) ≫= λ _, add_finish x.1 (expiry x)) (allocated q x)) by done.
  rewrite Hrun. change (fresh_addr (heap q)) with x.1 in Hfr. clearbody x.
  unfold spec_add. destruct (list_rcons_cases l) as [->|(l1 & d & ->)].
  - destruct (add_link_empty q x Hr) as (q1 & Hl & Hlk).
    rewrite (M_bind_ok _ _ _ _ _ Hl). eapply add_finish_ok; [apply Hr|done].
  - rewrite last_snoc. destruct (decide _) as [Hgt|Hgt].
    + destruct (add_link_tail q x l1 d Hr Hfr Hgt) as (q1 & Hl & Hlk).
      rewrite (M_bind_ok _ _ _ _ _ Hl). eapply add_finish_ok; [apply Hr|done].
    + pose proof (add_link_iterate q x l1 d Hr Hfr Hgt) as Hit.
      destruct (insert_before x (l1 ++ [d])) as [l'|]; [|by rewrite (M_bind_fault _ _ _ _ Hit)].
      destruct Hit as (q1 & Hl & Hlk).
      rewrite (M_bind_ok _ _ _ _ _ Hl). eapply add_finish_ok; [apply Hr|done].
Qed.
End add_refinement.

(** ** [remove] *)

Section remove_refinement.
Context `{SuTime} {TimerFunc : Type}.
Implicit Types (q : TimerQueue TimerFunc) (l : list (timer TimerFunc)).

(** The state after unlinking [x] from [l1 ++ x :: l2]. *)
Record unlinked q (x : timer TimerFunc) l1 l2 q1 : Prop := Unlinked {
  ul_cell : heap q1 !! x.1 = Some (entry_of (hd_ptr l2 None) (last_ptr l1 None) x);
  ul_dll : dll (heap q1) None (l1 ++ l2) None;
  ul_head : m_head q1 = hd_ptr (l1 ++ l2) None;
  ul_tail : m_tail q1 = last_ptr (l1 ++ l2) None;
  ul_timer : m_timer q1 = m_timer q;
  ul_length : m_length q1 = m_length q;
  ul_in_timer : m_in_timer q1 = m_in_timer q;
  ul_dom : forall p, is_Some (heap q1 !! p) <-> is_Some (heap q !! p);
  ul_heap : forall p, p ∉ (l1 ++ x :: l2).*1 -> heap q1 !! p = heap q !! p;
}.

(** What [remove] leaves behind. *)
Record removed q (x : timer TimerFunc) l1 l2 q' : Prop := Removed {
  rm_rep : represents q' (l1 ++ l2);
  rm_in_timer : m_in_timer q' = m_in_timer q;
  rm_timer : m_timer q' = match l1, l2 with
                          | [], [] => su_timer_reset :: m_timer q
                          | [], c :: _ => su_timer_set_at (expiry c) :: m_timer q
                          | _, _ => m_timer q
                          end;
  rm_dom : forall p, is_Some (heap q' !! p) <-> p ≠ x.1 /\ is_Some (heap q !! p);
  rm_heap : forall p, p ∉ (l1 ++ x :: l2).*1 -> heap q' !! p = heap q !! p;
}.

Lemma hd_ptr_elem l p : hd_ptr l None = Some p -> p ∈ l.*1.
Proof. destruct l; [done|]. intros [= <-]. by left. Qed.
Lemma last_ptr_elem l p : last_ptr l None = Some p -> p ∈ l.*1.
Proof.
  destruct (list_rcons_cases l) as [->|(l' & c & ->)]; [done|].
  rewrite last_ptr_snoc. intros [= <-]. rewrite fmap_app. set_solver.
Qed.

Lemma unlink_first q x l2 :
  represents q (x :: l2) ->
  exists q1, remove_unlink x.1 q = Ok (true, q1) /\ unlinked q x [] l2 q1.
Proof.
  intros [Hd Hnd Hhd Htl Hlen]. pose proof (dll_lookup _ _ [] _ _ _ Hd) as Hx.
  apply NoDup_cons in Hnd as [Hxn Hnd]. destruct Hd as [_ Hd].
  unfold remove_unlink. tq_step. rewrite bool_decide_eq_true_2 by done. do 2 tq_step.
  cbn [m_next entry_of]. destruct l2 as [|y l2]; cbn [hd_ptr].
  - tq_step. tq_step. eexists; split; [reflexivity|]. by constructor.
  - apply not_elem_of_cons in Hxn as [Hxy Hxn]. pose proof (proj1 Hd) as Hy. apply NoDup_cons in Hnd as [Hyn Hnd].
    tq_step. eexists; split; [reflexivity|]. constructor; try done.
    + cbn. by rewrite lookup_insert_ne by done.
    + by eapply (dll_relink_first _ _ None).
    + intros p. apply insert_is_Some. cbn. exact (mk_is_Some _ _ Hy).
    + intros p Hp. cbn. rewrite lookup_insert_ne; [done|]. clear -Hp; set_solver.
Qed.

Lemma unlink_last q x l y :
  represents q ((l ++ [y]) ++ [x]) ->
  exists q1, remove_unlink x.1 q = Ok (true, q1) /\ unlinked q x (l ++ [y]) [] q1.
Proof.
  intros [Hd Hnd Hhd Htl Hlen]. pose proof (dll_lookup _ _ _ _ _ _ Hd) as Hx.
  apply dll_app in Hd as [Hd _]. pose proof (dll_lookup _ _ _ _ _ _ Hd) as Hy.
  rewrite last_ptr_snoc in Htl, Hx. pose proof Hnd as Hnd'.
  rewrite fmap_app in Hnd'. apply NoDup_app in Hnd' as (Hnd1 & Hdis & _).
  assert (Hyl : y.1 ∉ l.*1).
  { rewrite fmap_app in Hnd1. apply NoDup_app in Hnd1 as (_ & Hdy & _).
    intros Hin. apply (Hdy _ Hin). by left. }
  assert (Hxl : x.1 ∉ (l ++ [y]).*1) by (intros Hin; apply (Hdis _ Hin); by left).
  assert (Hxy : x.1 ≠ y.1) by (intros E; apply Hxl; rewrite E; clear; set_solver).
  assert (Hhdx : m_head q ≠ Some x.1).
  { rewrite Hhd. intros E. apply Hxl, hd_ptr_elem. by destruct l. }
  unfold remove_unlink. tq_step. rewrite bool_decide_eq_false_2, bool_decide_eq_true_2 by done.
  tq_step. cbn [m_prev entry_of].
  erewrite M_bind_ok; cycle 1.
  { apply assertb_true, bool_decide_eq_true_2. rewrite Hhd. by destruct l. }
  do 3 tq_step. eexists; split; [reflexivity|]. constructor; rewrite ?app_nil_r; try done.
  - cbn. rewrite lookup_insert_ne by done. by rewrite last_ptr_snoc.
  - by apply (dll_relink_last _ None l y (Some x.1) None).
  - cbn. rewrite Hhd. by destruct l.
  - symmetry. apply last_ptr_snoc.
  - intros p. apply insert_is_Some. exact (mk_is_Some _ _ Hy).
  - intros p Hp. cbn. rewrite lookup_insert_ne; [done|]. clear -Hp; set_solver.
Qed.

Lemma unlink_middle q x l y z l2 :
  represents q ((l ++ [y]) ++ x :: z :: l2) ->
  exists q1, remove_unlink x.1 q = Ok (true, q1) /\ unlinked q x (l ++ [y]) (z :: l2) q1.
Proof.
  intros [Hd Hnd Hhd Htl Hlen]. pose proof (dll_lookup _ _ _ _ _ _ Hd) as Hx.
  apply dll_app in Hd as [Hd1 Hd2]. destruct Hd2 as [_ Hd2].
  pose proof (dll_lookup _ _ _ _ _ _ Hd1) as Hy.
  pose proof (dll_lookup _ _ [] _ _ _ Hd2) as Hz.
  rewrite last_ptr_snoc in Hx. cbn [hd_ptr] in Hx, Hy.
  apply (NoDup_fmap_app_cons fst) in Hnd as (Hx1 & Hx2 & Hnd).
  rewrite fmap_app in Hnd. apply NoDup_app in Hnd as (Hnd1 & Hdis & Hnd2).
  apply NoDup_cons in Hnd2 as [Hzl Hnd2]. cbn in Hx2. apply not_elem_of_cons in Hx2 as [Hxz Hx2].
  assert (Hz1 : z.1 ∉ (l ++ [y]).*1) by (intros Hin; apply (Hdis _ Hin); by left).
  assert (Hyl : y.1 ∉ l.*1).
  { rewrite fmap_app in Hnd1. apply NoDup_app in Hnd1 as (_ & Hdy & _).
    intros Hin. apply (Hdy _ Hin). by left. }
  assert (Hxy : x.1 ≠ y.1) by (intros E; apply Hx1; rewrite E; clear; set_solver).
  assert (Hyz : z.1 ≠ y.1) by (intros E; apply Hz1; rewrite E; clear; set_solver).
  assert (Hy2 : y.1 ∉ l2.*1).
  { intros Hin. apply (Hdis y.1); [clear; set_solver|by right]. }
  assert (Hhdx : m_head q ≠ Some x.1).
  { rewrite Hhd. intros E. apply Hx1, hd_ptr_elem. by destruct l. }
  assert (Htlx : m_tail q ≠ Some x.1).
  { rewrite Htl, last_ptr_app, last_ptr_cons, last_ptr_cons. intros E.
    rewrite <-(last_ptr_cons z l2 None) in E. apply last_ptr_elem in E. clear -E Hxz Hx2. set_solver. }
  unfold remove_unlink. tq_step. rewrite !bool_decide_eq_false_2 by done. tq_step.
  cbn [m_prev m_next entry_of]. rewrite bool_decide_eq_false_2 by naive_solver.
  do 5 tq_step. cbn [m_prev m_next entry_of]. do 2 tq_step.
  eexists; split; [reflexivity|]. constructor; try done.
  - cbn. rewrite !lookup_insert_ne by done. by rewrite last_ptr_snoc.
  - apply dll_app. split.
    + apply dll_insert_ne; [done|]. by apply (dll_relink_last _ None l y (Some x.1) (Some z.1)).
    + rewrite last_ptr_snoc. apply (dll_relink_first _ (Some x.1) (Some y.1)); [done|].
      apply dll_insert_ne; [|done]. cbn. clear -Hyz Hy2. set_solver.
  - cbn. rewrite Hhd. by destruct l.
  - change (m_tail q = last_ptr ((l ++ [y]) ++ z :: l2) None).
    by rewrite Htl, !last_ptr_app, !last_ptr_cons.
  - intros p. etransitivity; apply insert_is_Some; [|exact (mk_is_Some _ _ Hy)].
    cbn. rewrite lookup_insert_ne by done. exact (mk_is_Some _ _ Hz).
  - intros p Hp. cbn. rewrite !lookup_insert_ne; [done|clear -Hp; set_solver..].
Qed.

Lemma remove_finish_ok q q1 x l1 l2 :
  represents q (l1 ++ x :: l2) -> unlinked q x l1 l2 q1 ->
  exists q', remove_finish x.1 q1 = Ok (tt, q') /\ removed q x l1 l2 q'.
Proof.
  intros Hr [Hx Hd Hhd Htl Ht Hl Hin Hdom Hheap].
  pose proof (rep_nodup _ _ Hr) as Hnd.
  apply (NoDup_fmap_app_cons fst) in Hnd as (Hx1 & Hx2 & Hnd).
  assert (Hx12 : x.1 ∉ (l1 ++ l2).*1) by (rewrite fmap_app; clear -Hx1 Hx2; set_solver).
  assert (Hlen : m_length q = (Z.of_nat (length (l1 ++ l2)) + 1)%Z).
  { rewrite (rep_length _ _ Hr), !length_app. simpl. lia. }
  assert (Hdel : forall q2, heap q2 = heap q1 -> m_head q2 = m_head q1 -> m_tail q2 = m_tail q1 ->
    m_length q2 = (m_length q1 - 1)%Z -> represents (set_heap (delete x.1) q2) (l1 ++ l2)).
  { intros q2 E1 E2 E3 E4. constructor; cbn; rewrite ?E2, ?E3, ?E4; try done.
    - rewrite E1. by apply dll_delete_ne.
    - rewrite Hl, Hlen. lia. }
  assert (Hdom' : forall p, is_Some (delete x.1 (heap q1) !! p) <-> p ≠ x.1 /\ is_Some (heap q !! p)).
  { intros p. rewrite lookup_delete_is_Some, Hdom. naive_solver. }
  assert (Hheap' : forall p, p ∉ (l1 ++ x :: l2).*1 -> delete x.1 (heap q1) !! p = heap q !! p).
  { intros p Hp. rewrite lookup_delete_ne; [by apply Hheap|]. clear -Hp. set_solver. }
  unfold remove_finish. do 2 tq_step.
  erewrite M_bind_ok; [|apply assertb_true, bool_decide_eq_true_2; cbn; rewrite Hl, Hlen; lia].
  cbn beta. tq_step. change (m_head (add_length (-1) q1)) with (m_head q1).
  rewrite Hhd. cbn [m_next entry_of].
  destruct l1 as [|c l1]; [destruct l2 as [|d l2]|]; cbn [app hd_ptr].
  - tq_step. erewrite free_ok by exact Hx. eexists; split; [reflexivity|].
    constructor; [by apply Hdel|done|cbn; by rewrite Ht|done|done].
  - rewrite bool_decide_eq_true_2 by done. pose proof (proj1 Hd) as Hd'.
    erewrite M_bind_ok; [|tq_step; reflexivity]. erewrite free_ok by exact Hx.
    eexists; split; [reflexivity|]. constructor; [by apply Hdel|done|cbn; by rewrite Ht|done|done].
  - rewrite bool_decide_eq_false_2; cycle 1.
    { intros E. symmetry in E. apply hd_ptr_elem in E. cbn in Hnd.
      apply NoDup_cons in Hnd as [Hn _]. apply Hn. rewrite fmap_app. clear -E. set_solver. }
    tq_step. erewrite free_ok by exact Hx. eexists; split; [reflexivity|].
    constructor; [by apply Hdel|done|cbn; rewrite Ht; by destruct l2|done|done].
Qed.

Lemma remove_refines_aux q x l1 l2 :
  represents q (l1 ++ x :: l2) ->
  exists q', TimerQueue_remove x.1 q = Ok (tt, q') /\ removed q x l1 l2 q'.
Proof.
  intros Hr.
  assert (exists q1, remove_unlink x.1 q = Ok (true, q1) /\ unlinked q x l1 l2 q1) as (q1 & Hu & Hlk).
  { destruct (list_rcons_cases l1) as [->|(l & y & ->)]; [by apply unlink_first|].
    destruct l2 as [|z l2]; [by apply unlink_last|by apply unlink_middle]. }
  unfold TimerQueue_remove. rewrite (M_bind_ok _ _ _ _ _ Hu). by eapply remove_finish_ok.
Qed.
End remove_refinement.

(** ** [doTimer] *)

Section doTimer_refinement.
Context `{SuTime} {TimerFunc : Type}.
Implicit Types (q : TimerQueue TimerFunc) (l : list (timer TimerFunc)).

Definition expired (now : su_time_t) (x : timer TimerFunc) : Prop := (su_time_cmp (expiry x) now < 0)%Z.

(** The calls on the sofia timer when [l] remains after detaching. *)
Definition rearm l (calls : list (timer_call su_time_t)) :=
  match l with [] => calls | c :: _ => su_timer_set_at (expiry c) :: calls end.

(** The state when the head [x] has been detached and [l] remains. *)
Record detached q (x : timer TimerFunc) l q' : Prop := Detached {
  dt_rep : represents q' l;
  dt_cell : heap q' !! x.1 = Some (entry_of None None x);
  dt_in_timer : m_in_timer q' = false;
  dt_timer : m_timer q' = rearm l (m_timer q);
  dt_dom : forall p, is_Some (heap q' !! p) <-> is_Some (heap q !! p);
  dt_heap : forall p, p ∉ (x :: l).*1 -> heap q' !! p = heap q !! p;
}.

(** One run of the first loop of [doTimer] detaches exactly the head: the
    loop follows [m_next] of the cell it has just cleared. *)
Lemma expire_loop_one q x l now fuel :
  represents q (x :: l) -> expired now x ->
  exists q1, expire_loop (S (S fuel)) now (Some x.1) None None q = Ok (Some x.1, q1) /\
    represents q1 l /\ heap q1 !! x.1 = Some (entry_of None None x) /\
    m_timer q1 = m_timer q /\ (forall p, is_Some (heap q1 !! p) <-> is_Some (heap q !! p)) /\
    (forall p, p ∉ (x :: l).*1 -> heap q1 !! p = heap q !! p).
Proof.
  intros [Hd Hnd Hhd Htl Hlen] Hexp. pose proof (dll_lookup _ _ [] _ _ _ Hd) as Hx.
  apply NoDup_cons in Hnd as [Hxn Hnd]. destruct Hd as [_ Hd].
  cbn [expire_loop]. tq_step. rewrite bool_decide_eq_true_2 by done. do 2 tq_step.
  cbn [m_next entry_of]. destruct l as [|y l]; cbn [hd_ptr].
  - tq_step. erewrite M_bind_ok; [|tq_step; reflexivity]. tq_step. cbn [m_next set_next compose].
    eexists; split; [reflexivity|]. split_and!; try done.
    + constructor; try done. cbn. rewrite Hlen. done.
    + apply lookup_insert_eq.
    + intros p. apply insert_is_Some. exact (mk_is_Some _ _ Hx).
    + intros p Hp. cbn. rewrite lookup_insert_ne; [done|]. clear -Hp; set_solver.
  - apply not_elem_of_cons in Hxn as [Hxy Hxn]. pose proof (proj1 Hd) as Hy.
    apply NoDup_cons in Hnd as [Hyn Hnd].
    tq_step. erewrite M_bind_ok; [|tq_step; reflexivity]. tq_step. cbn [m_next set_next compose].
    eexists; split; [reflexivity|]. split_and!; try done.
    + constructor; try done.
      * apply dll_insert_ne; [cbn; by apply not_elem_of_cons|].
        by eapply (dll_relink_first _ (Some x.1) None).
      * by constructor.
      * cbn. rewrite Hlen. simpl. lia.
    + apply lookup_insert_eq.
    + intros p. etransitivity; apply insert_is_Some; [|exact (mk_is_Some _ _ Hy)].
      cbn. rewrite lookup_insert_ne by done. exact (mk_is_Some _ _ Hx).
    + intros p Hp. cbn. rewrite !lookup_insert_ne; [done|clear -Hp; set_solver..].
Qed.

Lemma doTimer_detach_expired q x l now :
  represents q (x :: l) -> expired now x ->
  exists q', doTimer_detach now q = Ok (Some x.1, q') /\ detached q x l q'.
Proof.
  intros Hr Hexp. unfold doTimer_detach. do 2 tq_step.
  assert (Hr1 : represents (set_in_timer true q) (x :: l)) by (by destruct Hr).
  erewrite M_bind_ok; cycle 1.
  { apply assertb_true, bool_decide_eq_true_2. by rewrite (rep_head _ _ Hr1). }
  cbn beta. rewrite (rep_head _ _ Hr1).
  destruct (expire_loop_one _ x l now (size (heap (set_in_timer true q))) Hr1 Hexp)
    as (q1 & Hrun & Hr2 & Hx & Ht & Hdom & Hheap).
  rewrite (M_bind_ok _ _ _ _ _ Hrun). tq_step. rewrite (rep_head _ _ Hr2).
  destruct l as [|y l]; cbn [hd_ptr].
  - erewrite M_bind_ok; [|apply assertb_true, bool_decide_eq_true_2, Hr2]. tq_step.
    eexists; split; [reflexivity|]. constructor; try done. by destruct Hr2.
  - pose proof (proj1 (rep_dll _ _ Hr2)) as Hy.
    erewrite M_bind_ok; [|tq_step; reflexivity]. tq_step.
    eexists; split; [reflexivity|]. constructor; try done; [by destruct Hr2|].
    cbn. by rewrite Ht.
Qed.

Lemma doTimer_detach_none q x l now :
  represents q (x :: l) -> ~ expired now x ->
  exists q', doTimer_detach now q = Ok (None, q') /\ represents q' (x :: l) /\
    heap q' = heap q /\ m_in_timer q' = false /\
    m_timer q' = su_timer_set_at (expiry x) :: m_timer q.
Proof.
  intros Hr Hexp. unfold doTimer_detach. do 2 tq_step.
  assert (Hr1 : represents (set_in_timer true q) (x :: l)) by (by destruct Hr).
  erewrite M_bind_ok; cycle 1.
  { apply assertb_true, bool_decide_eq_true_2. by rewrite (rep_head _ _ Hr1). }
  cbn beta. rewrite (rep_head _ _ Hr1). pose proof (proj1 (rep_dll _ _ Hr)) as Hx.
  cbn [hd_ptr expire_loop].
  erewrite M_bind_ok; [|tq_step; by rewrite bool_decide_eq_false_2]. tq_step.
  rewrite (rep_head _ _ Hr1). cbn [hd_ptr].
  erewrite M_bind_ok; [|tq_step; reflexivity]. tq_step.
  eexists; split; [reflexivity|]. split_and!; try done. by destruct Hr.
Qed.

(** The queue as a component of a program state. *)
Context {S : Type} (proj : S -> TimerQueue TimerFunc) (upd : TimerQueue TimerFunc -> S -> S)
  (call : TimerFunc -> option ptr -> M S unit).

Context {Hlens : Lens proj upd}.

(** [doTimer] is: detach the head, call its function once, delete it. *)
Lemma doTimer_expired_run s x l now :
  represents (proj s) (x :: l) -> m_in_timer (proj s) = false -> expired now x ->
  exists q1 fuel, detached (proj s) x l q1 /\
    TimerQueue_doTimer proj upd call now s =
      (_ ← call x.2.1.1 x.2.1.2;
       e ← zoom proj upd (load x.1);
       _ ← zoom proj upd (free x.1);
       fire_loop proj upd call (Datatypes.S fuel) (m_next e)) (upd q1 s).
Proof.
  intros Hr Hin Hexp. destruct (doTimer_detach_expired _ _ _ _ Hr Hexp) as (q1 & Hrun & Hdt).
  assert (exists n, size (heap q1) = Datatypes.S n) as [n Hn].
  { destruct (size (heap q1)) eqn:E; [|eauto]. apply map_size_empty_inv in E.
    pose proof (dt_cell _ _ _ _ Hdt) as Hc. by rewrite E in Hc. }
  exists q1, n. split; [done|]. unfold TimerQueue_doTimer. tq_step. rewrite Hin.
  erewrite M_bind_ok; [|by apply zoom_ok]. cbn beta. tq_step. rewrite (lens_proj_upd q1 s).
  cbn [fire_loop]. erewrite M_bind_ok; cycle 1.
  { eapply zoom_ok. rewrite (lens_proj_upd q1 s). apply load_ok, Hdt. }
  cbn beta. by rewrite (lens_upd_upd q1 q1 s), Hn.
Qed.

Lemma doTimer_fires_aux s s2 x l now :
  represents (proj s) (x :: l) -> m_in_timer (proj s) = false -> expired now x ->
  (forall q1, detached (proj s) x l q1 -> call x.2.1.1 x.2.1.2 (upd q1 s) = Ok (tt, s2)) ->
  heap (proj s2) !! x.1 = Some (entry_of None None x) ->
  TimerQueue_doTimer proj upd call now s = Ok (tt, upd (set_heap (delete x.1) (proj s2)) s2).
Proof.
  intros Hr Hin Hexp Hcall Hx.
  destruct (doTimer_expired_run _ _ _ _ Hr Hin Hexp) as (q1 & n & Hdt & ->).
  rewrite (M_bind_ok _ _ _ _ _ (Hcall _ Hdt)).
  erewrite M_bind_ok by (by apply zoom_ok, load_ok). cbn beta. rewrite (lens_upd_proj s2).
  erewrite M_bind_ok by (eapply zoom_ok, free_ok, Hx). done.
Qed.
End doTimer_refinement.
