(* ===== verification/TimerQueueCorrect.v ===== *)
(** Correctness of the timer queue: the invariant that its public operations
    maintain, what they return, and the ways in which they abort. *)
From S2P Require Import Prelude TimerQueue TimerQueueSpec.

Section invariant.
Context `{SuTimeLaws} {TimerFunc : Type}.
Implicit Types (q : TimerQueue TimerFunc) (l X : list (timer TimerFunc)).

(** In order of expiry, on the microsecond line. *)
Definition by_expiry (c d : timer TimerFunc) : Prop :=
  (su_time_us (expiry c) <= su_time_us (expiry d))%Z.

(** The sofia timer is armed for the first timer of the list. *)
Definition armed q l : Prop :=
  match l with
  | [] => True
  | c :: _ => head (m_timer q) = Some (su_timer_set_at (expiry c))
  end.

(** [q] holds the timers [l], and besides them only the detached timers
    [X], whose functions are being called. *)
Record queue_inv X q l : Prop := QueueInv {
  inv_rep : represents q l;
  inv_sorted : StronglySorted by_expiry l;
  inv_armed : armed q l;
  inv_in_timer : m_in_timer q = false;
  inv_detached : forall x, x ∈ X -> heap q !! x.1 = Some (entry_of None None x) /\ (x.1 ∉ l.*1);
  inv_dom : forall p, is_Some (heap q !! p) <-> (p ∈ X.*1) \/ (p ∈ l.*1);
}.

(** ** The abstract operations keep the order *)

Lemma before_us t (c : timer TimerFunc) : before t c <-> (su_time_us t < su_time_us (expiry c))%Z.
Proof. unfold before. pose proof (su_time_cmp_sgn t (expiry c)). lia. Qed.

Lemma cmp_gt t t' : (su_time_cmp t t' > 0 <-> su_time_us t' < su_time_us t)%Z.
Proof. pose proof (su_time_cmp_sgn t t'). lia. Qed.

Lemma sorted_snoc l (x : timer TimerFunc) :
  StronglySorted by_expiry l -> (forall c, c ∈ l -> by_expiry c x) ->
  StronglySorted by_expiry (l ++ [x]).
Proof.
  induction 1 as [|c l Hs IH Hc]; intros Hx; simpl; constructor.
  - constructor.
  - constructor.
  - apply IH. intros d Hd. apply Hx. by right.
  - apply Forall_app. split; [done|]. constructor; [|done]. apply Hx. by left.
Qed.

Lemma sorted_last l d c : StronglySorted by_expiry (l ++ [d]) -> c ∈ l ++ [d] -> by_expiry c d.
Proof.
  intros Hs [Hc| ->%list_elem_of_singleton]%elem_of_app; [|unfold by_expiry; lia].
  eapply (StronglySorted_app_1_elem_of by_expiry); [exact Hs|done|by left].
Qed.

Lemma insert_before_sorted (x : timer TimerFunc) l l' :
  StronglySorted by_expiry l -> insert_before x l = Some l' -> StronglySorted by_expiry l'.
Proof.
  intros Hs. revert l'. induction Hs as [|c l Hs IH Hc]; intros l'; simpl; [done|].
  destruct (decide (before (expiry x) c)) as [Hb%before_us|Hb].
  - intros [= <-]. constructor; [by constructor|]. constructor; [unfold by_expiry; lia|].
    eapply Forall_impl; [exact Hc|]. unfold by_expiry. lia.
  - destruct (insert_before x l) as [l1|] eqn:E; [|done]. intros [= <-].
    constructor; [by apply IH|]. rewrite (insert_before_perm _ _ _ E).
    constructor; [|done]. rewrite before_us in Hb. unfold by_expiry. lia.
Qed.

Lemma spec_add_sorted (x : timer TimerFunc) l l' :
  StronglySorted by_expiry l -> spec_add x l = Some l' -> StronglySorted by_expiry l'.
Proof.
  intros Hs. unfold spec_add. destruct (list_rcons_cases l) as [->|(l1 & d & ->)].
  - intros [= <-]. by repeat constructor.
  - rewrite last_snoc. destruct (decide _) as [Hgt%cmp_gt|Hgt]; [|by apply insert_before_sorted].
    intros [= <-]. apply sorted_snoc; [done|]. intros c Hc.
    pose proof (sorted_last _ _ _ Hs Hc). unfold by_expiry in *. lia.
Qed.

Lemma insert_before_none (x : timer TimerFunc) l :
  insert_before x l = None <-> Forall (fun c => ~ before (expiry x) c) l.
Proof.
  induction l as [|c l IH]; simpl; [by split|]. rewrite Forall_cons.
  destruct (decide _) as [Hb|Hb]; [naive_solver|].
  rewrite fmap_None, IH. naive_solver.
Qed.

Lemma spec_add_none (x : timer TimerFunc) l :
  StronglySorted by_expiry l ->
  spec_add x l = None <-> exists d, last l = Some d /\ su_time_us (expiry x) = su_time_us (expiry d).
Proof.
  intros Hs. unfold spec_add. destruct (list_rcons_cases l) as [->|(l1 & d & ->)].
  { simpl. naive_solver. }
  rewrite last_snoc. destruct (decide _) as [Hgt%cmp_gt|Hgt].
  { split; [done|]. intros (? & [= <-] & ?). lia. }
  rewrite cmp_gt in Hgt. rewrite insert_before_none, Forall_forall. split.
  - intros Hf. exists d. split; [done|].
    assert (d ∈ l1 ++ [d]) as Hd by (apply elem_of_app; right; by left).
    specialize (Hf d Hd). rewrite before_us in Hf. lia.
  - intros (? & [= <-] & Heq) c Hc. rewrite before_us.
    pose proof (sorted_last _ _ _ Hs Hc). unfold by_expiry in *. lia.
Qed.

(** ** [add] and [remove] keep the invariant *)

Lemma hd_ptr_fresh (x : timer TimerFunc) l l' :
  spec_add x l = Some l' -> (x.1 ∉ l.*1) ->
  l' = x :: l \/ (exists c l1 l2, l = c :: l1 /\ l' = c :: l2 /\ hd_ptr l' None ≠ Some x.1).
Proof.
  unfold spec_add. destruct (list_rcons_cases l) as [->|(l1 & d & E)]; [by left; simplify_eq/=|].
  assert (exists c l2, l = c :: l2) as (c & l2 & El) by (rewrite E; destruct l1; eauto).
  rewrite E, last_snoc, <-E, El. clear E El. rewrite fmap_cons, not_elem_of_cons.
  intros Hs [Hx _]. assert (Some c.1 ≠ Some x.1) by congruence.
  destruct (decide _); simplify_eq/=; [right; naive_solver|].
  destruct (decide _); simplify_eq/=; [by left|].
  destruct (insert_before x l2); simplify_eq/=. right; naive_solver.
Qed.

Lemma add_inv f args ms now X q l :
  queue_inv X q l ->
  let x := (fresh_addr (heap q), (f, args, su_time_add now ms)) in
  match spec_add x l with
  | Some l' => exists q', TimerQueue_add f args ms now q = Ok (x.1, q') /\ queue_inv X q' l'
  | None => TimerQueue_add f args ms now q = Fault AssertFail
  end.
Proof.
  intros [Hr Hs Ha Hin Hx Hdom] x. pose proof (add_refines_aux f args ms now q l Hr) as Hadd.
  assert (Hxf : heap q !! x.1 = None) by apply fresh_addr_lookup.
  assert (Hxl : x.1 ∉ l.*1) by apply represents_fresh, Hr.
  fold x in Hadd. clearbody x. cbn zeta in Hadd.
  destruct (spec_add x l) as [l'|] eqn:E; [|done].
  destruct Hadd as (q' & Hrun & [Hr' Hin' Ht Hdom' Hheap]). exists q'. split; [done|].
  pose proof (spec_add_perm _ _ _ E) as Hperm. constructor; [done| | |congruence| |].
  - by eapply spec_add_sorted.
  - unfold armed in *. destruct (hd_ptr_fresh _ _ _ E Hxl) as [->|(c & l1 & l2 & -> & -> & Hne)].
    + rewrite Ht. by rewrite decide_True.
    + rewrite Ht. by rewrite decide_False.
  - intros y Hy. destruct (Hx y Hy) as [Hc Hn].
    assert (y.1 ∉ l'.*1).
    { rewrite Hperm, fmap_cons, not_elem_of_cons. split; [|done]. intros Ey. by rewrite Ey, Hxf in Hc. }
    by rewrite Hheap.
  - intros p. rewrite Hdom', Hdom, Hperm, fmap_cons, elem_of_cons. tauto.
Qed.

Lemma sorted_remove l1 (x : timer TimerFunc) l2 :
  StronglySorted by_expiry (l1 ++ x :: l2) -> StronglySorted by_expiry (l1 ++ l2).
Proof.
  induction l1 as [|c l1 IH]; simpl; intros Hs; inversion_clear Hs as [|?? Hs' Hf]; [done|].
  constructor; [by apply IH|]. rewrite Forall_app, Forall_cons in Hf.
  rewrite Forall_app. naive_solver.
Qed.

Lemma remove_inv X q l1 x l2 :
  queue_inv X q (l1 ++ x :: l2) ->
  exists q', TimerQueue_remove x.1 q = Ok (tt, q') /\ queue_inv X q' (l1 ++ l2).
Proof.
  intros [Hr Hs Ha Hin Hx Hdom].
  destruct (remove_refines_aux q x l1 l2 Hr) as (q' & Hrun & [Hr' Hin' Ht Hdom' Hheap]).
  exists q'. split; [done|]. pose proof (rep_nodup _ _ Hr) as Hnd.
  apply (NoDup_fmap_app_cons fst) in Hnd as (Hx1 & Hx2 & _).
  constructor; [done|by eapply sorted_remove| |congruence| |].
  - unfold armed in *. destruct l1 as [|c l1]; simpl in *; [|by rewrite Ht].
    destruct l2; simpl; [done|]. by rewrite Ht.
  - intros y Hy. destruct (Hx y Hy) as [Hc Hn]. rewrite Hheap by done. split; [done|].
    rewrite fmap_app, elem_of_app. rewrite fmap_app, fmap_cons, elem_of_app, elem_of_cons in Hn. tauto.
  - intros p. rewrite Hdom', Hdom, !fmap_app, fmap_cons, !elem_of_app, elem_of_cons.
    assert (forall y, y ∈ X -> y.1 ≠ x.1).
    { intros y Hy E. apply (Hx y Hy). rewrite E, fmap_app, elem_of_app. right. by left. }
    assert (p ∈ X.*1 -> p ≠ x.1) by (intros (y & -> & Hy)%list_elem_of_fmap; eauto).
    split; [naive_solver|]. intros Hp. split; [|tauto]. intros ->. tauto.
Qed.

(** Detaching the head for [doTimer]. *)
Lemma detached_inv q x l q1 :
  queue_inv [] q (x :: l) -> detached q x l q1 -> queue_inv [x] q1 l.
Proof.
  intros [Hr Hs Ha Hin Hx Hdom] [Hr' Hc Hin' Ht Hdom' Hheap].
  apply StronglySorted_inv in Hs as [Hs _]. constructor; [done|done| |done| |].
  - unfold armed. rewrite Ht. by destruct l.
  - intros y ->%list_elem_of_singleton. split; [done|].
    pose proof (rep_nodup _ _ Hr) as Hnd. by apply NoDup_cons in Hnd as [? _].
  - intros p. rewrite Hdom', Hdom. cbn. set_solver.
Qed.

Lemma delete_detached_inv q x l :
  queue_inv [x] q l -> queue_inv [] (set_heap (delete x.1) q) l.
Proof.
  intros [Hr Hs Ha Hin Hx Hdom]. destruct (Hx x) as [Hc Hn]; [by left|].
  constructor; [|done|done|done|by intros ? ?%elem_of_nil|].
  - destruct Hr as [Hd ????]. constructor; [|done..]. by apply dll_delete_ne.
  - intros p. cbn [heap set_heap]. rewrite lookup_delete_is_Some, Hdom. clear -Hn.
    destruct (decide (p = x.1)) as [->|]; set_solver.
Qed.
End invariant.

(** ** The queries and the destructor *)

Section queries.
Context `{SuTimeLaws} {TimerFunc : Type}.
Implicit Types (q : TimerQueue TimerFunc) (l : list (timer TimerFunc)).

(** Position of [handle] in [l] counting from [n]; -1 when absent. *)
Fixpoint index_from (n : Z) (handle : ptr) l : Z :=
  match l with
  | [] => -1
  | c :: l' => if decide (c.1 = handle) then n else index_from (n + 1) handle l'
  end.

Lemma positionOf_loop_ok q fuel pv l handle n :
  length l < fuel -> dll (heap q) pv l None ->
  positionOf_loop fuel (hd_ptr l None) handle n q = Ok (index_from n handle l, q).
Proof.
  revert pv n fuel. induction l as [|c l IH]; intros pv n [|fuel] Hf Hd; simpl in Hf; try lia; [done|].
  cbn [hd_ptr positionOf_loop index_from]. destruct (decide (c.1 = handle)) as [E|E].
  - by rewrite bool_decide_eq_true_2.
  - rewrite bool_decide_eq_false_2 by done. destruct Hd as [Hc Hd]. tq_step.
    cbn [m_next entry_of]. eapply IH; [lia|exact Hd].
Qed.

Lemma numberOfElements_loop_ok q fuel pv l n :
  length l < fuel -> dll (heap q) pv l None ->
  numberOfElements_loop fuel (hd_ptr l None) n q = Ok ((n + Z.of_nat (length l))%Z, q).
Proof.
  revert pv n fuel. induction l as [|c l IH]; intros pv n [|fuel] Hf Hd; simpl in Hf; try lia.
  { cbn. by rewrite Z.add_0_r. }
  cbn [hd_ptr numberOfElements_loop]. destruct Hd as [Hc Hd]. tq_step.
  cbn [m_next entry_of]. erewrite IH by (lia || exact Hd).
  by replace (n + 1 + Z.of_nat (length l))%Z with (n + Z.of_nat (length (c :: l)))%Z by (simpl; lia).
Qed.

Lemma destroy_loop_ok fuel pv l q :
  length l < fuel -> NoDup (l.*1) -> dll (heap q) pv l None ->
  exists q', destroy_loop fuel (hd_ptr l None) q = Ok (tt, q') /\
    (forall p, is_Some (heap q' !! p) <-> is_Some (heap q !! p) /\ (p ∉ l.*1)).
Proof.
  revert q pv fuel. induction l as [|c l IH]; intros q pv [|fuel] Hf Hnd Hd; simpl in Hf; try lia.
  { exists q. split; [done|]. intros p. pose proof (not_elem_of_nil p). tauto. }
  cbn [hd_ptr destroy_loop]. destruct Hd as [Hc Hd]. apply NoDup_cons in Hnd as [Hcl Hnd].
  do 4 tq_step. cbn [m_next entry_of].
  destruct (IH (set_head (hd_ptr l None) (add_length (-1) (set_heap (delete c.1) q))) (Some c.1) fuel)
    as (q' & -> & Hq'); [lia|done|by apply dll_delete_ne|].
  exists q'. split; [done|]. intros p. rewrite Hq'. cbn [heap set_head add_length set_heap].
  rewrite lookup_delete_is_Some, fmap_cons, not_elem_of_cons. naive_solver.
Qed.
End queries.

(** ** A concrete clock, for the witnesses *)

Module ClockZ.
#[export] Instance clock : SuTime := {|
  su_time_t := Z; su_time_cmp := Z.sub; su_time_add t ms := (t + 1000 * ms)%Z;
  su_timer_set_at_rc _ := 0%Z |}.
#[export] Instance clock_laws : SuTimeLaws.
Proof. by refine {| su_time_us := (fun t => t : Z) : su_time_t -> Z |}. Defined.
Definition at_us (us : Z) : su_time_t := us.
End ClockZ.

Section examples.
Context `{SuTimeLaws} {TimerFunc : Type}.

(** The queue that holds [x] only. *)
Definition one_timer (x : timer TimerFunc) : TimerQueue TimerFunc :=
  MkTimerQueue {[ x.1 := entry_of None None x ]} [su_timer_set_at (expiry x)] (Some x.1) (Some x.1) 1 false.

Lemma one_timer_inv x : queue_inv [] (one_timer x) [x].
Proof.
  constructor; [|by repeat constructor|done|done|by intros ? ?%elem_of_nil|].
  - constructor; [|apply NoDup_singleton|done..]. split; [apply lookup_singleton_eq|done].
  - intros p. cbn [heap one_timer]. rewrite lookup_singleton_is_Some. set_solver.
Qed.

Lemma new_inv : queue_inv [] (TimerQueue_new (TimerFunc:=TimerFunc)) [].
Proof.
  constructor; [|constructor|done|done|by intros ? ?%elem_of_nil|].
  - by constructor; [|constructor|..].
  - intros p. cbn [heap TimerQueue_new]. rewrite lookup_empty.
    split; [by intros []|set_solver].
Qed.
End examples.

(** ** Properties *)

Section properties.
Context `{SuTimeLaws} {TimerFunc : Type}.
Implicit Types (q : TimerQueue TimerFunc) (l X : list (timer TimerFunc)).

(** C1: [TimerQueue::add] refines insertion into an ordered list: when the
    list operation finds a place it returns the new handle and leaves a
    well-formed queue (links, order, length, sofia timer armed for the first
    timer, no cell leaked) that holds the old timers and the new one;
    otherwise it aborts. *)
Theorem TimerQueue_add_correct f args ms now X q l :
  queue_inv X q l ->
  let x := (fresh_addr (heap q), (f, args, su_time_add now ms)) in
  match spec_add x l with
  | Some l' => exists q', TimerQueue_add f args ms now q = Ok (x.1, q') /\
                          queue_inv X q' l' /\ l' ≡ₚ x :: l
  | None => TimerQueue_add f args ms now q = Fault AssertFail
  end.
Proof.
  intros Hi x. pose proof (add_inv f args ms now X q l Hi) as Hadd. fold x in Hadd.
  cbn zeta in Hadd. destruct (spec_add x l) as [l'|] eqn:E; [|done].
  destruct Hadd as (q' & ? & ?). exists q'. split_and!; [done..|by apply spec_add_perm].
Qed.

(** [add] aborts the server (its [assert( NULL != ptr )]) exactly when
    the new timer expires in the same microsecond as the last timer of a
    non-empty queue. *)
Theorem TimerQueue_add_aborts_iff f args ms now X q l :
  queue_inv X q l ->
  TimerQueue_add f args ms now q = Fault AssertFail <->
  exists d, last l = Some d /\ (su_time_us now + 1000 * ms = su_time_us (expiry d))%Z.
Proof.
  intros Hi. pose proof (add_inv f args ms now X q l Hi) as Hadd. cbn zeta in Hadd.
  set (x := (fresh_addr (heap q), (f, args, su_time_add now ms))) in *.
  assert (Ex : su_time_us (expiry x) = (su_time_us now + 1000 * ms)%Z) by apply su_time_add_us.
  rewrite <-Ex, <-spec_add_none by apply Hi.
  destruct (spec_add x l); [|done]. destruct Hadd as (q' & -> & _). done.
Qed.

(** C2: [TimerQueue::remove] of a queued handle, wherever it is, removes
    exactly that timer, frees its cell and re-arms the sofia timer for the
    new first timer. *)
Theorem TimerQueue_remove_correct X q l1 x l2 :
  queue_inv X q (l1 ++ x :: l2) ->
  exists q', TimerQueue_remove x.1 q = Ok (tt, q') /\ queue_inv X q' (l1 ++ l2) /\
    heap q' !! x.1 = None.
Proof.
  intros Hi. destruct (remove_inv _ _ _ _ _ Hi) as (q' & Hrun & Hi').
  exists q'. split_and!; [done..|]. apply eq_None_not_Some. rewrite (inv_dom _ _ _ Hi').
  pose proof (rep_nodup _ _ (inv_rep _ _ _ Hi)) as Hnd.
  apply (NoDup_fmap_app_cons fst) in Hnd as (Hx1 & Hx2 & _).
  rewrite fmap_app, elem_of_app. intros [(y & E & Hy)%list_elem_of_fmap|]; [|tauto].
  apply (inv_detached _ _ _ Hi) in Hy as [_ Hy]. apply Hy. rewrite <-E, fmap_app. set_solver.
Qed.

(** [positionOf] and [numberOfElements] terminate and return the index
    of the handle (-1 when it is not queued) and the length, which agrees
    with the counter that [size] returns. *)
Theorem TimerQueue_positionOf_correct X q l handle :
  queue_inv X q l ->
  TimerQueue_positionOf handle q = Ok (index_from 0 handle l, q) /\
  TimerQueue_numberOfElements q = Ok (TimerQueue_size q, q) /\
  TimerQueue_size q = Z.of_nat (length l) /\
  (TimerQueue_isEmpty q = true <-> l = []).
Proof.
  intros [Hr _ _ _ _ _]. pose proof (represents_size _ _ Hr). destruct Hr as [Hd Hnd Hhd Htl Hlen].
  unfold TimerQueue_positionOf, TimerQueue_numberOfElements. do 2 tq_step. rewrite Hhd.
  erewrite positionOf_loop_ok by (lia || exact Hd).
  erewrite numberOfElements_loop_ok by (lia || exact Hd).
  unfold TimerQueue_size, TimerQueue_isEmpty. rewrite Hlen, bool_decide_eq_true.
  split_and!; [done..|]. rewrite <-length_zero_iff_nil. lia.
Qed.

(** The destructor ends and frees every queued cell, so that only the
    cells detached by a running [doTimer] are still allocated. *)
Theorem TimerQueue_destroy_frees X q l :
  queue_inv X q l ->
  exists q', TimerQueue_destroy q = Ok (tt, q') /\ (forall p, is_Some (heap q' !! p) <-> p ∈ X.*1).
Proof.
  intros Hi. pose proof (represents_size _ _ (inv_rep _ _ _ Hi)).
  destruct (inv_rep _ _ _ Hi) as [Hd Hnd Hhd Htl Hlen].
  unfold TimerQueue_destroy. tq_step. rewrite Hhd.
  destruct (destroy_loop_ok (S (size (heap q))) None l q) as (q' & Hrun & Hdom); [lia|done..|].
  exists q'. split; [done|]. intros p. rewrite Hdom, (inv_dom _ _ _ Hi). split; [tauto|].
  intros Hp. split; [by left|]. apply list_elem_of_fmap in Hp as (y & -> & Hy).
  by apply (inv_detached _ _ _ Hi).
Qed.

(** *** [doTimer] *)

Context {S : Type} (proj : S -> TimerQueue TimerFunc) (upd : TimerQueue TimerFunc -> S -> S)
  (call : TimerFunc -> option ptr -> M S unit) `{!Lens proj upd}.

(** C6: When the first timer has expired, one run of [doTimer] calls its
    function once and no other, with the timer already out of the queue, and
    then frees its cell; a function that adds and removes other timers finds
    and leaves a well-formed queue. *)
Theorem TimerQueue_doTimer_fires now s x l :
  queue_inv [] (proj s) (x :: l) -> expired now x ->
  (forall s1, queue_inv [x] (proj s1) l -> exists s2 l2,
     call x.2.1.1 x.2.1.2 s1 = Ok (tt, s2) /\ queue_inv [x] (proj s2) l2) ->
  exists s1 s2 l2, queue_inv [x] (proj s1) l /\ call x.2.1.1 x.2.1.2 s1 = Ok (tt, s2) /\
    TimerQueue_doTimer proj upd call now s = Ok (tt, upd (set_heap (delete x.1) (proj s2)) s2) /\
    queue_inv [] (set_heap (delete x.1) (proj s2)) l2.
Proof.
  intros Hi Hexp Hcall.
  destruct (doTimer_expired_run proj upd call s x l now) as (q1 & n & Hdt & Hrun); [apply Hi..|done|].
  pose proof (detached_inv _ _ _ _ Hi Hdt) as Hi1. rewrite <-(lens_proj_upd q1 s) in Hi1.
  destruct (Hcall _ Hi1) as (s2 & l2 & Hc & Hi2).
  exists (upd q1 s), s2, l2. split_and!; [done..| |by apply delete_detached_inv].
  rewrite Hrun, (M_bind_ok _ _ _ _ _ Hc).
  destruct (inv_detached _ _ _ Hi2 x) as [Hx _]; [by left|].
  erewrite M_bind_ok by (by apply zoom_ok, load_ok). cbn beta. rewrite (lens_upd_proj s2).
  erewrite M_bind_ok by (eapply zoom_ok, free_ok, Hx). done.
Qed.

(** [doTimer] does nothing when it is re-entered, aborts on an empty
    queue, and on a queue whose first timer has not expired only re-arms the
    sofia timer for it. *)
Theorem TimerQueue_doTimer_idle now s l :
  (m_in_timer (proj s) = true -> TimerQueue_doTimer proj upd call now s = Ok (tt, s)) /\
  (queue_inv [] (proj s) l ->
   match l with
   | [] => TimerQueue_doTimer proj upd call now s = Fault AssertFail
   | x :: _ => ~ expired now x ->
     exists q', TimerQueue_doTimer proj upd call now s = Ok (tt, upd q' s) /\ queue_inv [] q' l
   end).
Proof.
  split.
  { intros Hin. unfold TimerQueue_doTimer. tq_step. by rewrite Hin. }
  intros Hi. unfold TimerQueue_doTimer. tq_step. rewrite (inv_in_timer _ _ _ Hi).
  destruct l as [|x l].
  - erewrite M_bind_fault; [done|]. apply zoom_fault. unfold doTimer_detach. do 2 tq_step.
    cbn [m_head set_in_timer]. by rewrite (rep_head _ _ (inv_rep _ _ _ Hi)).
  - intros Hexp.
    destruct (doTimer_detach_none _ _ _ _ (inv_rep _ _ _ Hi) Hexp) as (q' & Hrun & Hr' & Hh & Hin & Ht).
    exists q'. erewrite M_bind_ok by (by apply zoom_ok). split; [done|].
    destruct Hi as [Hr Hs Ha Hin0 Hx Hdom].
    constructor; [done|done|cbn; by rewrite Ht|done|by intros ? ?%elem_of_nil|by rewrite Hh].
Qed.

(** A timer function that removes its own handle makes [doTimer] use
    the cell after it was freed: [remove] takes it for a timer that is not
    queued and deletes it. *)
Theorem TimerQueue_doTimer_self_remove now s x l :
  queue_inv [] (proj s) (x :: l) -> expired now x ->
  (forall s', call x.2.1.1 x.2.1.2 s' = zoom proj upd (TimerQueue_remove x.1) s') ->
  TimerQueue_doTimer proj upd call now s = Fault BadAccess.
Proof.
  intros Hi Hexp Hcall.
  destruct (doTimer_expired_run proj upd call s x l now) as (q1 & n & Hdt & ->); [apply Hi..|done|].
  pose proof (detached_inv _ _ _ _ Hi Hdt) as Hi1.
  destruct (inv_detached _ _ _ Hi1 x) as [Hx Hn]; [by left|].
  assert (Hrm : TimerQueue_remove x.1 q1 = Ok (tt, set_heap (delete x.1) q1)).
  { unfold TimerQueue_remove, remove_unlink.
    erewrite M_bind_ok; [|tq_step; rewrite !bool_decide_eq_false_2; [tq_step; rewrite bool_decide_eq_true_2 by done; by tq_step|..]].
    - done.
    - rewrite (rep_tail _ _ (inv_rep _ _ _ Hi1)). by intros ?%last_ptr_elem.
    - rewrite (rep_head _ _ (inv_rep _ _ _ Hi1)). by intros ?%hd_ptr_elem. }
  erewrite M_bind_ok by (rewrite Hcall; eapply zoom_ok; rewrite (lens_proj_upd q1 s); exact Hrm).
  apply M_bind_fault, zoom_fault. unfold load. rewrite (lens_proj_upd (set_heap (delete x.1) q1) (upd q1 s)). cbn [heap set_heap].
  by rewrite lookup_delete_eq.
Qed.
End properties.

Section locking_properties.
Context `{SuTimeLaws} {TimerFunc S : Type}.
Context (proj : S -> LockingTimerQueue TimerFunc) (upd : LockingTimerQueue TimerFunc -> S -> S)
  (call : TimerFunc -> option ptr -> M S unit) `{!Lens proj upd}.

#[export] Instance locked_base_lens :
  Lens (base ∘ proj) (fun q s => upd (set_base q (proj s)) s).
Proof.
  split; intros; cbn; rewrite ?lens_proj_upd, ?lens_upd_upd; [done|done|].
  by rewrite (lens_upd_proj (upd:=set_base)), lens_upd_proj.
Qed.

(** [LockingTimerQueue] holds its mutex while timer functions run: a
    function that adds a timer to, or removes one from, the queue that is
    firing it blocks its thread for ever. *)
Theorem LockingTimerQueue_callback_deadlocks now s x l (op : M (LockingTimerQueue TimerFunc) unit) :
  m_mutex (proj s) = false -> queue_inv [] (base (proj s)) (x :: l) -> expired now x ->
  (forall s', call x.2.1.1 x.2.1.2 s' = zoom proj upd op s') ->
  (exists handle, op = LockingTimerQueue_remove handle) \/
  (exists f args ms, op = (_ ← LockingTimerQueue_add f args ms now; mret tt)) ->
  LockingTimerQueue_doTimer proj upd call now s = Fault Deadlock.
Proof.
  intros Hm Hi Hexp Hcall Hop. apply lock_guard_fault; [done|].
  set (s1 := upd (set_mutex true (proj s)) s).
  assert (Hs1 : base (proj s1) = base (proj s)) by (unfold s1; by rewrite lens_proj_upd).
  destruct (doTimer_expired_run (base ∘ proj) (fun q s => upd (set_base q (proj s)) s) call s1 x l now)
    as (q1 & n & Hdt & ->); [cbn; rewrite Hs1; apply Hi..|done|].
  apply M_bind_fault. rewrite Hcall. apply zoom_fault. cbn beta.
  rewrite (lens_proj_upd (set_base q1 (proj s1)) s1).
  assert (Hheld : m_mutex (set_base q1 (proj s1)) = true) by (unfold s1; by rewrite lens_proj_upd).
  destruct Hop as [(handle & ->)|(f & args & ms & ->)].
  - by apply lock_guard_held.
  - by apply M_bind_fault, lock_guard_held.
Qed.
End locking_properties.

(** ** Witnesses *)

Module Witnesses.
Import ClockZ.

(** A timer at address 1 that expires one millisecond after time 0. *)
Definition x1 : timer nat := (1%positive, (7, None, at_us 1000)).
Definition q1 : TimerQueue nat := one_timer x1.
Definition noop : nat -> option ptr -> M (TimerQueue nat) unit := fun _ _ => mret tt.

Lemma TimerQueue_add_correct_witness :
  exists q', TimerQueue_add 8 None 5 (at_us 0) q1 = Ok (2%positive, q') /\
    queue_inv [] q' [x1; (2%positive, (8, None, at_us 5000))].
Proof.
  destruct (TimerQueue_add_correct 8 None 5 (at_us 0) [] q1 [x1] (one_timer_inv x1))
    as (q' & Hrun & Hi & _).
  exists q'. split; [exact Hrun|exact Hi].
Defined.

Lemma TimerQueue_add_aborts_iff_witness : TimerQueue_add 8 None 1 (at_us 0) q1 = Fault AssertFail.
Proof.
  apply (TimerQueue_add_aborts_iff 8 None 1 (at_us 0) [] q1 [x1] (one_timer_inv x1)).
  by exists x1.
Defined.

Lemma TimerQueue_remove_correct_witness :
  exists q', TimerQueue_remove 1%positive q1 = Ok (tt, q') /\ queue_inv [] q' [].
Proof.
  destruct (TimerQueue_remove_correct [] q1 [] x1 [] (one_timer_inv x1)) as (q' & Hrun & Hi & _).
  by exists q'.
Defined.

Lemma TimerQueue_positionOf_correct_witness :
  TimerQueue_positionOf 1%positive q1 = Ok (0%Z, q1) /\ TimerQueue_positionOf 2%positive q1 = Ok ((-1)%Z, q1).
Proof.
  split; [exact (proj1 (TimerQueue_positionOf_correct [] q1 [x1] 1%positive (one_timer_inv x1)))|].
  exact (proj1 (TimerQueue_positionOf_correct [] q1 [x1] 2%positive (one_timer_inv x1))).
Defined.

Lemma TimerQueue_destroy_frees_witness :
  exists q', TimerQueue_destroy q1 = Ok (tt, q') /\ heap q' !! 1%positive = None.
Proof.
  destruct (TimerQueue_destroy_frees [] q1 [x1] (one_timer_inv x1)) as (q' & Hrun & Hd).
  exists q'. split; [done|]. apply eq_None_not_Some. rewrite Hd. apply not_elem_of_nil.
Defined.

Lemma TimerQueue_doTimer_fires_witness :
  exists s1 s2 l2, queue_inv [x1] s1 [] /\ noop 7 None s1 = Ok (tt, s2) /\
    TimerQueue_doTimer (fun s => s) (fun q _ => q) noop (at_us 2000) q1 =
      Ok (tt, set_heap (delete 1%positive) s2) /\
    queue_inv [] (set_heap (delete 1%positive) s2) l2.
Proof.
  apply (TimerQueue_doTimer_fires (fun s => s) (fun q _ => q) noop (at_us 2000) q1 x1 [] (one_timer_inv x1)).
  - reflexivity.
  - intros s1 Hs1. by exists s1, [].
Defined.

Lemma TimerQueue_doTimer_idle_witness :
  TimerQueue_doTimer (fun s => s) (fun q _ => q) noop (at_us 2000) TimerQueue_new = Fault AssertFail /\
  exists q', TimerQueue_doTimer (fun s => s) (fun q _ => q) noop (at_us 500) q1 = Ok (tt, q') /\
    queue_inv [] q' [x1].
Proof.
  split.
  - exact (proj2 (TimerQueue_doTimer_idle (fun s => s) (fun q _ => q) noop (at_us 2000) TimerQueue_new []) new_inv).
  - apply (proj2 (TimerQueue_doTimer_idle (fun s => s) (fun q _ => q) noop (at_us 500) q1 [x1]) (one_timer_inv x1)).
    intros Hexp. by vm_compute in Hexp.
Defined.

Lemma TimerQueue_doTimer_self_remove_witness :
  TimerQueue_doTimer (fun s => s) (fun q _ => q)
    (fun _ _ => zoom (fun s => s) (fun q _ => q) (TimerQueue_remove 1%positive)) (at_us 2000) q1 = Fault BadAccess.
Proof.
  by apply (TimerQueue_doTimer_self_remove (fun s => s) (fun q _ => q) _ (at_us 2000) q1 x1 [] (one_timer_inv x1)).
Defined.

Lemma LockingTimerQueue_callback_deadlocks_witness :
  LockingTimerQueue_doTimer (fun s => s) (fun q _ => q)
    (fun _ _ => zoom (fun s => s) (fun q _ => q) (LockingTimerQueue_remove 1%positive)) (at_us 2000)
    (MkLocking q1 false) = Fault Deadlock.
Proof.
  apply (LockingTimerQueue_callback_deadlocks (fun s => s) (fun q _ => q) _ (at_us 2000)
    (MkLocking q1 false) x1 [] (LockingTimerQueue_remove 1%positive)); [done|exact (one_timer_inv x1)|done|done|].
  left. by eexists.
Defined.
End Witnesses.
