(* ===== verification/TimerQueueManager.v ===== *)
(** Model of [SipTimerQueueManager] (src/timer-queue-manager.hpp,
    src/timer-queue-manager.cpp): one timer queue per SIP timer class. *)
From S2P Require Import Prelude TimerQueue TimerQueueSpec TimerQueueCorrect.

Section model.
Context `{SuTime} {TimerFunc : Type}.

Record SipTimerQueueManager := MkManager {
  m_queue : TimerQueue TimerFunc;
  m_queueA : TimerQueue TimerFunc;
  m_queueB : TimerQueue TimerFunc;
  m_queueC : TimerQueue TimerFunc;
  m_queueD : TimerQueue TimerFunc;
  m_queueE : TimerQueue TimerFunc;
  m_queueF : TimerQueue TimerFunc;
  m_queueG : TimerQueue TimerFunc;
  m_queueH : TimerQueue TimerFunc;
  m_queueK : TimerQueue TimerFunc;
}.

Definition SipTimerQueueManager_new : SipTimerQueueManager :=
  MkManager TimerQueue_new TimerQueue_new TimerQueue_new TimerQueue_new TimerQueue_new
    TimerQueue_new TimerQueue_new TimerQueue_new TimerQueue_new TimerQueue_new.

Definition set_queue q '(MkManager _ a b c d e f g h k) := MkManager q a b c d e f g h k.
Definition set_queueA q '(MkManager m _ b c d e f g h k) := MkManager m q b c d e f g h k.
Definition set_queueB q '(MkManager m a _ c d e f g h k) := MkManager m a q c d e f g h k.
Definition set_queueC q '(MkManager m a b _ d e f g h k) := MkManager m a b q d e f g h k.
Definition set_queueD q '(MkManager m a b c _ e f g h k) := MkManager m a b c q e f g h k.
Definition set_queueE q '(MkManager m a b c d _ f g h k) := MkManager m a b c d q f g h k.
Definition set_queueF q '(MkManager m a b c d e _ g h k) := MkManager m a b c d e q g h k.
Definition set_queueG q '(MkManager m a b c d e f _ h k) := MkManager m a b c d e f q h k.
Definition set_queueH q '(MkManager m a b c d e f g _ k) := MkManager m a b c d e f g q k.
Definition set_queueK q '(MkManager m a b c d e f g h _) := MkManager m a b c d e f g h q.

(** [addTimer(szTimerClass, f, functionArgs, milliseconds)] at time [now] *)
Definition SipTimerQueueManager_addTimer (szTimerClass : string) (f : TimerFunc)
    (functionArgs : option ptr) (milliseconds : Z) (now : su_time_t) : M SipTimerQueueManager ptr :=
  let add := TimerQueue_add f functionArgs milliseconds now in
  if String.eqb "timerA" szTimerClass then zoom m_queueA set_queueA add
  else if String.eqb "timerB" szTimerClass then zoom m_queueB set_queueB add
  else if String.eqb "timerC" szTimerClass then zoom m_queueC set_queueC add
  else if String.eqb "timerD" szTimerClass then zoom m_queueD set_queueD add
  else if String.eqb "timerE" szTimerClass then zoom m_queueE set_queueE add
  else if String.eqb "timerF" szTimerClass then zoom m_queueF set_queueF add
  else if String.eqb "timerG" szTimerClass then zoom m_queueG set_queueG add
  else if String.eqb "timerH" szTimerClass then zoom m_queueH set_queueH add
  else if String.eqb "timerK" szTimerClass then zoom m_queueK set_queueK add
  else zoom m_queue set_queue add.

(** [removeTimer(handle, szTimerClass)] *)
Definition SipTimerQueueManager_removeTimer (handle : ptr) (szTimerClass : string)
    : M SipTimerQueueManager unit :=
  let remove := TimerQueue_remove handle in
  if String.eqb "timerA" szTimerClass then zoom m_queueA set_queueA remove
  else if String.eqb "timerB" szTimerClass then zoom m_queueB set_queueB remove
  else if String.eqb "timerC" szTimerClass then zoom m_queueC set_queueC remove
  else if String.eqb "timerD" szTimerClass then zoom m_queueD set_queueD remove
  else if String.eqb "timerE" szTimerClass then zoom m_queueE set_queueE remove
  else if String.eqb "timerF" szTimerClass then zoom m_queueF set_queueF remove
  else if String.eqb "timerG" szTimerClass then zoom m_queueG set_queueG remove
  else if String.eqb "timerH" szTimerClass then zoom m_queueH set_queueH remove
  else if String.eqb "timerK" szTimerClass then zoom m_queueK set_queueK remove
  else zoom m_queue set_queue remove.

(** [logQueueSizes]: the lines it logs, label and number. *)
Definition SipTimerQueueManager_logQueueSizes (m : SipTimerQueueManager) : list (string * Z) :=
  [("general", TimerQueue_size (m_queue m)); ("A", TimerQueue_size (m_queueA m));
   ("B", TimerQueue_size (m_queueB m)); ("C", TimerQueue_size (m_queueC m));
   ("D", TimerQueue_size (m_queueD m)); ("E", TimerQueue_size (m_queueE m));
   ("F", TimerQueue_size (m_queueF m)); ("G", TimerQueue_size (m_queueF m));
   ("K", TimerQueue_size (m_queueK m))].
End model.
Arguments SipTimerQueueManager {_} _.

(** ** Routing by class name *)

Inductive queue_name :=
  | QueueGeneral | QueueA | QueueB | QueueC | QueueD | QueueE | QueueF | QueueG | QueueH | QueueK.
#[export] Instance queue_name_eq_dec : EqDecision queue_name.
Proof. solve_decision. Defined.

Section routing.
Context `{SuTimeLaws} {TimerFunc : Type}.
Abbreviation manager := (SipTimerQueueManager TimerFunc).

(** The queue that a class name stands for. *)
Definition class_index (cls : string) : queue_name :=
  if String.eqb "timerA" cls then QueueA
  else if String.eqb "timerB" cls then QueueB
  else if String.eqb "timerC" cls then QueueC
  else if String.eqb "timerD" cls then QueueD
  else if String.eqb "timerE" cls then QueueE
  else if String.eqb "timerF" cls then QueueF
  else if String.eqb "timerG" cls then QueueG
  else if String.eqb "timerH" cls then QueueH
  else if String.eqb "timerK" cls then QueueK
  else QueueGeneral.
Definition queue_at (i : queue_name) (m : manager) : TimerQueue TimerFunc :=
  match i with
  | QueueGeneral => m_queue m
  | QueueA => m_queueA m
  | QueueB => m_queueB m
  | QueueC => m_queueC m
  | QueueD => m_queueD m
  | QueueE => m_queueE m
  | QueueF => m_queueF m
  | QueueG => m_queueG m
  | QueueH => m_queueH m
  | QueueK => m_queueK m
  end.
Definition queue_of (cls : string) : manager -> TimerQueue TimerFunc := queue_at (class_index cls).

(** [mop] runs [op] on the queue of [cls] and touches no other. *)
Definition routed {A} (cls : string) (op : M (TimerQueue TimerFunc) A) (mop : M manager A) : Prop :=
  forall m, match op (queue_of cls m) with
            | Fault f => mop m = Fault f
            | Ok (a, q') => exists m', mop m = Ok (a, m') /\ queue_of cls m' = q' /\
                forall cls', class_index cls' ≠ class_index cls -> queue_of cls' m' = queue_of cls' m
            end.

(** The chain of [strcmp]s that both methods go through. *)
Definition dispatch {A} (cls : string) (op : M (TimerQueue TimerFunc) A) : M manager A :=
  if String.eqb "timerA" cls then zoom m_queueA set_queueA op
  else if String.eqb "timerB" cls then zoom m_queueB set_queueB op
  else if String.eqb "timerC" cls then zoom m_queueC set_queueC op
  else if String.eqb "timerD" cls then zoom m_queueD set_queueD op
  else if String.eqb "timerE" cls then zoom m_queueE set_queueE op
  else if String.eqb "timerF" cls then zoom m_queueF set_queueF op
  else if String.eqb "timerG" cls then zoom m_queueG set_queueG op
  else if String.eqb "timerH" cls then zoom m_queueH set_queueH op
  else if String.eqb "timerK" cls then zoom m_queueK set_queueK op
  else zoom m_queue set_queue op.

(** What [dispatch] reaches is a component, at the index of the class. *)
Lemma dispatch_component {A} cls (op : M (TimerQueue TimerFunc) A) :
  exists proj upd, dispatch cls op = zoom proj upd op /\
    (forall m, queue_of cls m = proj m) /\ (forall q m, proj (upd q m) = q) /\
    (forall j q m, j ≠ class_index cls -> queue_at j (upd q m) = queue_at j m).
Proof.
  unfold dispatch, queue_of, class_index.
  repeat match goal with |- context [String.eqb ?a cls] => destruct (String.eqb a cls) end;
    (eexists _, _; split; [reflexivity|]; split_and!;
     [done|by intros ? []|by intros [] q [] Hj]).
Qed.

Lemma dispatch_routed {A} cls (op : M (TimerQueue TimerFunc) A) : routed cls op (dispatch cls op).
Proof.
  intros m. destruct (dispatch_component cls op) as (proj & upd & -> & Hq & Hpu & Hne).
  rewrite Hq. destruct (op (proj m)) as [[a q']|f] eqn:E; [|by apply zoom_fault].
  exists (upd q' m). split; [by apply zoom_ok|]. rewrite Hq. split; [done|].
  intros cls' Hcls. by apply Hne.
Qed.

Lemma addTimer_dispatch cls f args ms now :
  SipTimerQueueManager_addTimer cls f args ms now = dispatch cls (TimerQueue_add f args ms now).
Proof. done. Qed.
Lemma removeTimer_dispatch cls h :
  SipTimerQueueManager_removeTimer h cls = dispatch cls (TimerQueue_remove h).
Proof. done. Qed.

Lemma spec_add_split (x : timer TimerFunc) l l' :
  spec_add x l = Some l' -> exists l1 l2, l' = l1 ++ x :: l2 /\ l = l1 ++ l2.
Proof.
  unfold spec_add. destruct (last l) eqn:E; [|intros [= <-]; apply last_None in E as ->; by exists [], []].
  destruct (decide _); [intros [= <-]; exists l, []; by rewrite app_nil_r|]. clear E.
  revert l'. induction l as [|c l IH]; intros l'; simpl; [done|].
  destruct (decide _); [intros [= <-]; by exists [], (c :: l)|].
  destruct (insert_before x l) as [l0|]; [|done]. intros [= <-].
  destruct (IH l0 eq_refl) as (l1 & l2 & -> & ->). by exists (c :: l1), l2.
Qed.

(** Every queue of the manager is well-formed. *)
Definition manager_inv (m : manager) : Prop :=
  forall cls, exists l, queue_inv [] (queue_of cls m) l.

Lemma new_manager_inv : manager_inv SipTimerQueueManager_new.
Proof.
  intros cls. exists []. unfold queue_of. destruct (class_index cls); apply new_inv.
Qed.

(** A timer added under a class name and removed under the same name
    goes to and comes from the queue of that class: the queues of the other
    classes are untouched, its own holds the same timers as before, and
    every queue stays well-formed.  [addTimer] aborts when the class already
    holds a last timer for the same microsecond. *)
Theorem SipTimerQueueManager_roundtrip cls f args ms now (m : manager) l :
  manager_inv m -> queue_inv [] (queue_of cls m) l ->
  SipTimerQueueManager_addTimer cls f args ms now m = Fault AssertFail \/
  exists handle m1 m2, SipTimerQueueManager_addTimer cls f args ms now m = Ok (handle, m1) /\
    SipTimerQueueManager_removeTimer handle cls m1 = Ok (tt, m2) /\
    queue_inv [] (queue_of cls m2) l /\
    (forall cls', class_index cls' ≠ class_index cls -> queue_of cls' m2 = queue_of cls' m) /\
    manager_inv m1 /\ manager_inv m2.
Proof.
  intros Hm Hi. rewrite addTimer_dispatch.
  pose proof (dispatch_routed cls (TimerQueue_add f args ms now) m) as Hadd.
  pose proof (add_inv f args ms now [] _ l Hi) as Hq. cbn zeta in Hq.
  set (x := (fresh_addr (heap (queue_of cls m)), (f, args, su_time_add now ms))) in *.
  destruct (spec_add x l) as [l'|] eqn:E; [|left; by rewrite Hq in Hadd].
  destruct Hq as (q1 & Hrun & Hi1). rewrite Hrun in Hadd. destruct Hadd as (m1 & Hrun1 & Hq1 & Hne1).
  destruct (spec_add_split _ _ _ E) as (l1 & l2 & -> & ->).
  destruct (remove_inv _ _ _ _ _ Hi1) as (q2 & Hrun2 & Hi2).
  pose proof (dispatch_routed cls (TimerQueue_remove x.1) m1) as Hrem.
  rewrite Hq1, Hrun2 in Hrem. destruct Hrem as (m2 & Hrm & Hq2 & Hne2).
  right. exists x.1, m1, m2. split_and!; [done|done|by rewrite Hq2|..].
  - intros cls' Hc. by rewrite Hne2, Hne1.
  - intros cls'. destruct (decide (class_index cls' = class_index cls)) as [Ec|Ec].
    + unfold queue_of in *. rewrite Ec, Hq1. eauto.
    + rewrite Hne1 by done. apply Hm.
  - intros cls'. destruct (decide (class_index cls' = class_index cls)) as [Ec|Ec].
    + unfold queue_of in *. rewrite Ec, Hq2. eauto.
    + rewrite Hne2, Hne1 by done. apply Hm.
Qed.

(** [logQueueSizes] reports the F queue under the label of the G queue and
    does not report the H queue. *)
Lemma logQueueSizes_G (m : manager) :
  SipTimerQueueManager_logQueueSizes m !! 7 = Some ("G", TimerQueue_size (queue_of "timerF" m)) /\
  (forall n, ("H", n) ∉ SipTimerQueueManager_logQueueSizes m).
Proof.
  split; [done|]. intros n. unfold SipTimerQueueManager_logQueueSizes. rewrite !elem_of_cons.
  intros Hin. repeat (destruct Hin as [Hin|Hin]; [done|]). by apply elem_of_nil in Hin.
Qed.
End routing.

Import ClockZ.

Lemma SipTimerQueueManager_roundtrip_witness :
  SipTimerQueueManager_addTimer "timerC" 7 None 180000 (at_us 0) SipTimerQueueManager_new = Fault AssertFail \/
  exists handle m1 m2,
    SipTimerQueueManager_addTimer "timerC" 7 None 180000 (at_us 0) SipTimerQueueManager_new = Ok (handle, m1) /\
    SipTimerQueueManager_removeTimer handle "timerC" m1 = Ok (tt, m2) /\
    queue_inv [] (m_queueC m2) [] /\
    (forall cls', class_index cls' ≠ class_index "timerC" -> queue_of cls' m2 = queue_of cls' SipTimerQueueManager_new) /\
    manager_inv m1 /\ manager_inv m2.
Proof.
  exact (SipTimerQueueManager_roundtrip "timerC" 7 None 180000 (at_us 0) SipTimerQueueManager_new []
    new_manager_inv new_inv).
Defined.
