(* ===== verification/RequestRouter.v ===== *)
(** Model of [RequestRouter] (src/request-router.hpp, src/request-router.cpp):
    the web callback of a SIP method. *)
From S2P Require Import Prelude CppString TextUtil.

Open Scope list_scope.

Record Route_t := MkRoute {
  rt_httpMethod : string;
  rt_url : string;
  rt_verifyPeer : bool;
}.

(** [m_mapSipMethod2Route] *)
Abbreviation RequestRouter := (gmap string Route_t).

(** [boost::to_upper_copy] in the C locale. *)
Definition to_upper_copy : string -> string := str_map to_upper.

Definition RequestRouter_clearRoutes (r : RequestRouter) : RequestRouter := ∅.

(** [insert] does not replace an existing route. *)
Definition RequestRouter_addRoute (sipMethod httpMethod httpUrl : string) (verifyPeer : bool) (r : RequestRouter) : RequestRouter :=
  match r !! to_upper_copy sipMethod with
  | Some _ => r
  | None => <[to_upper_copy sipMethod := MkRoute httpMethod httpUrl verifyPeer]> r
  end.

Definition RequestRouter_getRoute (szMethod : string) (r : RequestRouter) : option (string * string * bool) :=
  let it := match r !! szMethod with Some route => Some route | None => r !! "*"%string end in
  (fun route => (rt_httpMethod route, rt_url route, rt_verifyPeer route)) <$> it.

Definition route_description (it : string * Route_t) : string :=
  "sip-method: " +:+ it.1 +:+ ", http-method: " +:+ rt_httpMethod it.2 +:+ ", http-url: " +:+ rt_url it.2 +:+
  (if strstr (rt_url it.2) "https"
   then ", cert " +:+ (if rt_verifyPeer it.2 then "will" else "will not") +:+ " be verified" else "").
Definition RequestRouter_getAllRoutes (r : RequestRouter) : list string * nat :=
  (route_description <$> map_to_list r, length (map_to_list r)).
Definition RequestRouter_getCountOfRoutes (r : RequestRouter) : nat := size r.

(** ** Properties *)

(** The routes added by a configuration, in order. *)
Definition add_routes (l : list (string * Route_t)) (r : RequestRouter) : RequestRouter :=
  foldl (fun r x => RequestRouter_addRoute x.1 (rt_httpMethod x.2) (rt_url x.2) (rt_verifyPeer x.2) r) r l.

(** The first route configured for exactly the key [k]. *)
Definition first_route (k : string) (l : list (string * Route_t)) : option Route_t :=
  snd <$> head (filter (fun x => to_upper_copy x.1 = k) l).

Lemma add_routes_lookup l r k :
  add_routes l r !! k = match r !! k with Some route => Some route | None => first_route k l end.
Proof.
  revert r. induction l as [|[m rt] l IH]; intros r; [unfold add_routes; cbn; by destruct (r !! k)|].
  change (add_routes ((m, rt) :: l) r) with
    (add_routes l (RequestRouter_addRoute m (rt_httpMethod rt) (rt_url rt) (rt_verifyPeer rt) r)).
  rewrite IH.
  unfold RequestRouter_addRoute, first_route. rewrite filter_cons. cbn [fst snd].
  destruct (r !! to_upper_copy m) as [x|] eqn:E, (decide (to_upper_copy m = k)) as [<-|Hne].
  - by rewrite E.
  - done.
  - rewrite lookup_insert_eq, E. by destruct rt.
  - by rewrite lookup_insert_ne.
Qed.

(** The route of a request is the first one configured for its method
    (method names in the configuration compare without case), failing that the
    first one configured for "*", failing that there is none; [getAllRoutes]
    lists every method once. *)
Theorem RequestRouter_getRoute_first (l : list (string * Route_t)) (szMethod : string) :
  RequestRouter_getRoute szMethod (add_routes l ∅) =
    (fun route => (rt_httpMethod route, rt_url route, rt_verifyPeer route)) <$>
      match first_route szMethod l with Some r => Some r | None => first_route "*" l end /\
  (RequestRouter_getAllRoutes (add_routes l ∅)).2 = RequestRouter_getCountOfRoutes (add_routes l ∅).
Proof.
  split; [|apply length_map_to_list].
  unfold RequestRouter_getRoute. by rewrite !add_routes_lookup, !lookup_empty.
Qed.
