(* ===== verification/Cdr.v ===== *)
(** Model of [Cdr] (src/cdr.hpp, src/cdr.cpp): call detail records and the
    text of their meta data. *)
From S2P Require Import Prelude CppString TextUtil.

Open Scope list_scope.

Inductive AgentRole_t := role_undefined | proxy_uac | proxy_uas | uac | uas.
Inductive RecordType_t := attempt_record | start_record | stop_record.
Inductive TerminationReason_t :=
  | no_termination | call_rejected | call_canceled | normal_release | session_expired
  | ackbye | system_initiated_termination | system_error_initiated_termination.

(** [static_cast<int>] of the enumerators. *)
Definition AgentRole_int (r : AgentRole_t) : nat :=
  match r with role_undefined => 0 | proxy_uac => 1 | proxy_uas => 2 | uac => 3 | uas => 4 end.
Definition RecordType_int (r : RecordType_t) : nat :=
  match r with attempt_record => 0 | start_record => 1 | stop_record => 2 end.
Definition TerminationReason_int (r : TerminationReason_t) : nat :=
  match r with
  | no_termination => 0 | call_rejected => 1 | call_canceled => 2 | normal_release => 3
  | session_expired => 4 | ackbye => 5 | system_initiated_termination => 6
  | system_error_initiated_termination => 7
  end.

Definition szRecordTypes : list string := ["cdr:attempt"; "cdr:start"; "cdr:stop"]%string.
Definition szRoles : list string := ["undefined"; "proxy-uac"; "proxy-uas"; "uac"; "uas"]%string.
Definition szReasons : list string :=
  ["undefined"; "call-rejected"; "call-canceled"; "normal-release"; "session-expired";
   "system-initiated-termination"; "system-error-initiated-termination"]%string.

(** [class Cdr]; the message is kept as its encoding. *)
Record Cdr := MkCdr {
  cdr_msg : res string;
  cdr_recordType : RecordType_t;
  cdr_agentRole : AgentRole_t;
  cdr_eventTime : Z * Z;          (** seconds, microseconds *)
  cdr_terminationReason : TerminationReason_t;
  cdr_encodedMessage : string;
  cdr_source : string;
}.
Definition CdrAttempt (msg : res string) (source : string) : Cdr :=
  MkCdr msg attempt_record role_undefined (0, 0)%Z no_termination "" source.
Definition CdrStart (msg : res string) (source : string) (agentRole : AgentRole_t) : Cdr :=
  MkCdr msg start_record agentRole (0, 0)%Z no_termination "" source.
Definition CdrStop (msg : res string) (source : string) (terminationReason : TerminationReason_t) : Cdr :=
  MkCdr msg stop_record role_undefined (0, 0)%Z terminationReason "" source.

(** Reading a static array. *)
Definition array_get (a : list string) (i : nat) : res string :=
  match a !! i with Some s => Ok s | None => Fault BadAccess end.
Definition Cdr_getRecordType (c : Cdr) : res string := array_get szRecordTypes (RecordType_int (cdr_recordType c)).
Definition Cdr_getAgentRole (c : Cdr) : res string := array_get szRoles (AgentRole_int (cdr_agentRole c)).
Definition Cdr_getTerminationReason (c : Cdr) : res string :=
  array_get szReasons (TerminationReason_int (cdr_terminationReason c)).

Definition Cdr_encodeMessage (c : Cdr) : res string :=
  if String.eqb (cdr_encodedMessage c) "" then cdr_msg c else Ok (cdr_encodedMessage c).

(** A number with at least [w] digits ("%0wu"). *)
Fixpoint zeros (n : nat) : string := match n with O => "" | S n => String "0" (zeros n) end.
Definition pad (w : nat) (n : Z) : string :=
  let s := pretty (Z.to_N n) in zeros (w - String.length s) +:+ s.
Definition time_text (t : Z * Z) : string :=
  pad 2 ((t.1 / 3600) mod 24) +:+ ":" +:+ pad 2 ((t.1 / 60) mod 60) +:+ ":" +:+ pad 2 (t.1 mod 60) +:+
    "." +:+ pad 6 t.2.

Definition Cdr_encodeMetaData (c : Cdr) : res string :=
  rt ← Cdr_getRecordType c;
  let metaData := rt +:+ "|" +:+ cdr_source c +:+ "|" +:+ time_text (cdr_eventTime c) in
  match cdr_recordType c with
  | start_record => role ← Cdr_getAgentRole c; mret (metaData +:+ "|" +:+ role)
  | stop_record => reason ← Cdr_getTerminationReason c; mret (metaData +:+ "|" +:+ reason)
  | attempt_record => mret metaData
  end.

(** [postCdr]: the record stamped, and the message and meta data posted to
    the client that was selected for the record type, if any. *)
Definition Cdr_postCdr (generateCdrs : bool) (now : Z * Z) (select : string -> option positive)
    (c : Cdr) (encodedMessage : string) : res (Cdr * option (positive * string * string)) :=
  if negb generateCdrs then mret (c, None) else
  let c := MkCdr (cdr_msg c) (cdr_recordType c) (cdr_agentRole c) now (cdr_terminationReason c)
             encodedMessage (cdr_source c) in
  keyword ← Cdr_getRecordType c;
  match select keyword with
  | None => mret (c, None)
  | Some client =>
    msg ← Cdr_encodeMessage c;
    meta ← Cdr_encodeMetaData c;
    mret (c, Some (client, msg, meta))
  end.

(** ** Properties *)

(** The name that the reason of a record is meant to have. *)
Definition reason_name (r : TerminationReason_t) : string :=
  match r with
  | no_termination => "undefined" | call_rejected => "call-rejected" | call_canceled => "call-canceled"
  | normal_release => "normal-release" | session_expired => "session-expired" | ackbye => "ackbye"
  | system_initiated_termination => "system-initiated-termination"
  | system_error_initiated_termination => "system-error-initiated-termination"
  end.

(** Posting a stop record for a termination reason: the first five reasons
    are reported by their names; "ackbye" is reported as a system-initiated
    termination, a system-initiated one as a system error, and a system error
    reads past the end of the array of names. *)
Theorem Cdr_stop_reasons msg source reason now select client enc :
  select "cdr:stop"%string = Some client -> enc ≠ ""%string ->
  Cdr_postCdr true now select (CdrStop msg source reason) enc =
    match reason with
    | system_error_initiated_termination => Fault BadAccess
    | _ => Ok (MkCdr msg stop_record role_undefined now reason enc source,
               Some (client, enc, ("cdr:stop|" +:+ source +:+ "|" +:+ time_text now +:+ "|" +:+
                 match reason with
                 | ackbye => reason_name system_initiated_termination
                 | system_initiated_termination => reason_name system_error_initiated_termination
                 | r => reason_name r
                 end)%string))
    end.
Proof.
  intros Hs He. unfold Cdr_postCdr. cbn [negb Cdr_getRecordType CdrStop cdr_recordType]. unfold Cdr_getRecordType.
  cbn [RecordType_int cdr_recordType array_get szRecordTypes lookup list_lookup mbind res_bind].
  rewrite Hs. unfold Cdr_encodeMessage. cbn [cdr_encodedMessage cdr_msg cdr_source cdr_agentRole cdr_terminationReason].
  destruct (String.eqb_spec enc ""); [done|]. cbn [mbind res_bind].
  unfold Cdr_encodeMetaData. cbn -[String.append time_text]. by destruct reason; cbn -[String.append time_text]; rewrite ?str_app_assoc.
Qed.

Lemma Cdr_stop_reasons_witness :
  Cdr_postCdr true (3661, 5)%Z (fun _ => Some 1%positive) (CdrStop (Ok "BYE") "network" ackbye) "BYE" =
    Ok (MkCdr (Ok "BYE"%string) stop_record role_undefined (3661, 5)%Z ackbye "BYE" "network",
        Some (1%positive, "BYE"%string, "cdr:stop|network|01:01:01.000005|system-initiated-termination"%string)).
Proof.
  exact (Cdr_stop_reasons (Ok "BYE"%string) "network" ackbye (3661, 5)%Z (fun _ => Some 1%positive) 1%positive "BYE"
    eq_refl ltac:(discriminate)).
Defined.
