(* ===== verification/Statistics.v ===== *)
(** Model of the statistics (src/stats-collector.hpp, src/stats-collector.cpp,
    the macros of src/drachtio.h and [initStats] of src/controller.cpp):
    families of metrics that are created at the start, and the updates of a
    metric that are passed on to Prometheus. *)
From S2P Require Import Prelude CppString ClientController.

Open Scope string_scope.
Open Scope list_scope.

Inductive Metric_t := COUNTER | GAUGE | HISTOGRAM | SUMMARY.
#[export] Instance Metric_t_eq_dec : EqDecision Metric_t.
Proof. solve_decision. Defined.

(** Numbers of type [double], with those that the program writes down. *)
Class Doubles := { double : Type; to_double : Z -> double }.

Section statistics.
Context `{Doubles}.

Inductive update :=
  | Increment
  | IncrementBy (val : double)
  | Decrement
  | DecrementBy (val : double)
  | SetTo (val : double)
  | SetToCurrentTime
  | Observe (val : double).
(** What Prometheus is asked: to register a family, and to update the metric
    of a family that has certain labels, for a histogram with its buckets. *)
Inductive prom_call :=
  | Expose (hostport : string)
  | Register (m : Metric_t) (name desc : string)
  | Update (m : Metric_t) (name : string) (labels : gmap string string) (buckets : list double) (u : update).
(** [class StatsCollector::PromImpl] *)
Record PromImpl := MkPromImpl {
  m_mapCounter : gmap string unit;
  m_mapGauge : gmap string unit;
  m_mapHistogram : gmap string (list double);
  pr_calls : list prom_call;
}.
Definition on_calls u p := MkPromImpl (m_mapCounter p) (m_mapGauge p) (m_mapHistogram p) (u (pr_calls p)).
(** [m_pimpl]; NULL: Prometheus is not enabled. *)
Definition StatsCollector : Type := option PromImpl.

Abbreviation SC := (M StatsCollector).
Definition impl (f : PromImpl -> PromImpl) : SC unit := modify (fmap f).
Definition enabled (s : StatsCollector) : bool := bool_decide (is_Some s).
Definition enablePrometheus (szHostport : string) : SC unit :=
  s ← get; _ ← assertb (negb (enabled s)); modify (fun _ => Some (MkPromImpl ∅ ∅ ∅ [Expose szHostport])).

(** [unordered_map::insert] keeps the first entry of a name. *)
Definition buildCounter (name desc : string) (p : PromImpl) : PromImpl :=
  MkPromImpl (map_insert name tt (m_mapCounter p)) (m_mapGauge p) (m_mapHistogram p) (pr_calls p ++ [Register COUNTER name desc]).
Definition buildGauge (name desc : string) (p : PromImpl) : PromImpl :=
  MkPromImpl (m_mapCounter p) (map_insert name tt (m_mapGauge p)) (m_mapHistogram p) (pr_calls p ++ [Register GAUGE name desc]).
Definition buildHistogram (name desc : string) (buckets : list double) (p : PromImpl) : PromImpl :=
  MkPromImpl (m_mapCounter p) (m_mapGauge p) (map_insert name buckets (m_mapHistogram p)) (pr_calls p ++ [Register HISTOGRAM name desc]).
Definition update_counter (name : string) (labels : gmap string string) (u : update) (p : PromImpl) : PromImpl :=
  match m_mapCounter p !! name with Some _ => on_calls (fun l => l ++ [Update COUNTER name labels [] u]) p | None => p end.
Definition update_gauge (name : string) (labels : gmap string string) (u : update) (p : PromImpl) : PromImpl :=
  match m_mapGauge p !! name with Some _ => on_calls (fun l => l ++ [Update GAUGE name labels [] u]) p | None => p end.
Definition update_histogram (name : string) (labels : gmap string string) (u : update) (p : PromImpl) : PromImpl :=
  match m_mapHistogram p !! name with Some buckets => on_calls (fun l => l ++ [Update HISTOGRAM name labels buckets u]) p | None => p end.

(** The functions of [StatsCollector]. *)
Definition counterCreate (name desc : string) : SC unit := impl (buildCounter name desc).
Definition counterIncrement (name : string) (labels : gmap string string) : SC unit := impl (update_counter name labels Increment).
Definition counterIncrementBy (name : string) (val : double) (labels : gmap string string) : SC unit :=
  impl (update_counter name labels (IncrementBy val)).
Definition gaugeCreate (name desc : string) : SC unit := impl (buildGauge name desc).
Definition gaugeIncrement (name : string) (labels : gmap string string) : SC unit := impl (update_gauge name labels Increment).
Definition gaugeIncrementBy (name : string) (val : double) (labels : gmap string string) : SC unit :=
  impl (update_gauge name labels (IncrementBy val)).
Definition gaugeDecrement (name : string) (labels : gmap string string) : SC unit := impl (update_gauge name labels Decrement).
Definition gaugeDecrementBy (name : string) (val : double) (labels : gmap string string) : SC unit :=
  impl (update_gauge name labels (DecrementBy val)).
Definition gaugeSet (name : string) (val : double) (labels : gmap string string) : SC unit := impl (update_gauge name labels (SetTo val)).
Definition gaugeSetToCurrentTime (name : string) (labels : gmap string string) : SC unit :=
  impl (update_gauge name labels SetToCurrentTime).
Definition histogramCreate (name desc : string) (buckets : list double) : SC unit := impl (buildHistogram name desc buckets).
Definition histogramObserve (name : string) (val : double) (labels : gmap string string) : SC unit :=
  impl (update_histogram name labels (Observe val)).
(** The macros look first whether statistics are enabled. *)
Definition if_enabled (m : SC unit) : SC unit := s ← get; if enabled s then m else mret tt.

(** ** The statistics of the server *)

Definition STATS_COUNTER_BUILD_INFO := "drachtio_build_info".
Definition STATS_GAUGE_START_TIME := "drachtio_time_started".
Definition counters : list (string * string) :=
  [("drachtio_sip_requests_in_total", "count of sip requests received"); ("drachtio_sip_requests_out_total", "count of sip requests sent");
   ("drachtio_sip_responses_in_total", "count of sip responses received");
   ("drachtio_sip_responses_out_total", "count of sip responses sent"); (STATS_COUNTER_BUILD_INFO, "drachtio version running")].
Definition gauges : list (string * string) :=
  [(STATS_GAUGE_START_TIME, "drachtio start time"); ("drachtio_stable_dialogs", "count of SIP dialogs in progress");
   ("drachtio_proxy_cores", "count of proxied call setups in progress"); ("drachtio_registered_endpoints", "count of registered endpoints");
   ("drachtio_app_connections", "count of connections to drachtio applications");
   ("drachtio_sofia_client_txn_hash_size", "current size of sofia hash table for client transactions");
   ("drachtio_sofia_server_txn_hash_size", "current size of sofia hash table for server transactions");
   ("drachtio_sofia_dialog_hash_size", "current size of sofia hash table for dialogs");
   ("drachtio_sofia_server_txns", "count of sofia server-side transactions");
   ("drachtio_sofia_client_txns", "count of sofia client-side transactions"); ("drachtio_sofia_dialogs", "count of sofia dialogs");
   ("drachtio_sofia_msgs_recv", "count of sip messages received by sofia sip stack");
   ("drachtio_sofia_msgs_sent", "count of sip messages sent by sofia sip stack");
   ("drachtio_sofia_requests_recv_total", "count of sip requests received by sofia sip stack");
   ("drachtio_sofia_requests_sent", "count of sip requests sent by sofia sip stack");
   ("drachtio_sofia_bad_msgs_recv", "count of invalid sip messages received by sofia sip stack");
   ("drachtio_sofia_bad_reqs_recv", "count of invalid sip requests received by sofia sip stack");
   ("drachtio_sofia_retransmitted_requests", "count of sip requests retransmitted by sofia sip stack");
   ("drachtio_sofia_retransmitted_responses", "count of sip responses retransmitted by sofia sip stack")].
Definition answer_buckets : list Z := [1; 3; 6; 10; 15; 20; 30; 60]%Z.
Definition delay_buckets : list Z := [1; 2; 3; 5; 7; 10; 15; 20]%Z.
Definition histograms : list (string * string * list Z) :=
  [("drachtio_call_answer_seconds_in", "call answer time in seconds for calls received", answer_buckets);
   ("drachtio_call_answer_seconds_out", "call answer time in seconds for calls sent", answer_buckets);
   ("drachtio_call_pdd_seconds_in", "call post-dial delay seconds for calls received", delay_buckets);
   ("drachtio_call_pdd_seconds_out", "call post-dial delay seconds for calls received", delay_buckets)].

Fixpoint each {A} (f : A -> SC unit) (l : list A) : SC unit := match l with [] => mret tt | a :: l => _ ← f a; each f l end.
Definition initStats (DRACHTIO_VERSION : string) : SC unit :=
  _ ← each (fun c => if_enabled (counterCreate c.1 c.2)) counters;
  _ ← each (fun g => if_enabled (gaugeCreate g.1 g.2)) gauges;
  _ ← each (fun h => if_enabled (histogramCreate h.1.1 h.1.2 (to_double <$> h.2))) histograms;
  _ ← if_enabled (counterIncrement STATS_COUNTER_BUILD_INFO {["version" := DRACHTIO_VERSION]});
  if_enabled (gaugeSetToCurrentTime STATS_GAUGE_START_TIME ∅).
(** The part of [run]: Prometheus is enabled when it has a port. *)
Definition start_stats (hostport : option string) (DRACHTIO_VERSION : string) : SC unit :=
  _ ← match hostport with Some h => enablePrometheus h | None => mret tt end;
  initStats DRACHTIO_VERSION.

(** The statistics that the program updates after the start. *)
Inductive use :=
  | UseCounter (name : string) (labels : gmap string string)
  | UseGauge (name : string) (val : double)
  | UseHistogram (name : string) (val : double).
Definition run_use (u : use) : SC unit :=
  match u with
  | UseCounter name labels => if_enabled (counterIncrement name labels)
  | UseGauge name val => if_enabled (gaugeSet name val ∅)
  | UseHistogram name val => histogramObserve name val ∅
  end.
End statistics.

(** ** What arrives at Prometheus *)

Section correct.
Context `{Doubles}.

(** The call that a use stands for, if its statistic was created. *)
Definition histogram_map : gmap string (list double) := 
  list_to_map ((fun h : string * string * list Z => (h.1.1, to_double <$> h.2)) <$> histograms).
Definition reported (u : use) : list prom_call :=
  match u with
  | UseCounter name labels => if bool_decide (name ∈ counters.*1) then [Update COUNTER name labels [] Increment] else []
  | UseGauge name val => if bool_decide (name ∈ gauges.*1) then [Update GAUGE name ∅ [] (SetTo val)] else []
  | UseHistogram name val => match histogram_map !! name with Some b => [Update HISTOGRAM name ∅ b (Observe val)] | None => [] end
  end.
(** The families of the server have been created. *)
Record created (p : PromImpl) : Prop := {
  cr_counter : m_mapCounter p = list_to_map ((fun c => (c.1, tt)) <$> counters);
  cr_gauge : m_mapGauge p = list_to_map ((fun g => (g.1, tt)) <$> gauges);
  cr_histogram : m_mapHistogram p = histogram_map;
}.
Definition registered : list prom_call :=
  ((fun c => Register COUNTER c.1 c.2) <$> counters) ++ ((fun g => Register GAUGE g.1 g.2) <$> gauges) ++
  ((fun h : string * string * list Z => Register HISTOGRAM h.1.1 h.1.2) <$> histograms).
(** Insertions of which the first of each name counts. *)
Lemma foldl_map_insert {A} (l : list (string * A)) m : foldl (fun m e => map_insert e.1 e.2 m) m l = m ∪ list_to_map l.
Proof.
  revert m. induction l as [|[k x] l IH]; intros m; cbn; [by rewrite (right_id_L ∅ (∪))|]. rewrite IH.
  assert (map_insert k x m = m ∪ {[k := x]}) as ->.
  { unfold map_insert. destruct (m !! k) as [y|] eqn:E.
    - symmetry. apply map_eq. intros k'. rewrite lookup_union. destruct (decide (k' = k)) as [->|Hne].
      + rewrite E. by rewrite lookup_singleton_eq.
      + rewrite lookup_singleton_ne by done. by rewrite (right_id None _).
    - rewrite insert_union_singleton_r by done. done. }
  by rewrite <-(assoc_L (∪)), <-insert_union_singleton_l.
Qed.
Lemma each_enabled {A} (f : A -> PromImpl -> PromImpl) l p :
  each (fun a => if_enabled (impl (f a))) l (Some p) = Ok (tt, Some (foldl (fun p a => f a p) p l)).
Proof. revert p. induction l as [|a l IH]; intros p; [done|]. cbn [each]. erewrite M_bind_ok by reflexivity. apply IH. Qed.
Lemma counters_built l p : foldl (fun p c => buildCounter c.1 c.2 p) p l =
  MkPromImpl (m_mapCounter p ∪ list_to_map ((fun c => (c.1, tt)) <$> l)) (m_mapGauge p) (m_mapHistogram p)
    (pr_calls p ++ ((fun c => Register COUNTER c.1 c.2) <$> l)).
Proof.
  rewrite <-foldl_map_insert. revert p. induction l as [|c l IH]; intros p; [destruct p; cbn; by rewrite app_nil_r|].
  cbn [foldl fmap list_fmap]. rewrite IH. cbn. by rewrite <-app_assoc.
Qed.
Lemma gauges_built l p : foldl (fun p c => buildGauge c.1 c.2 p) p l =
  MkPromImpl (m_mapCounter p) (m_mapGauge p ∪ list_to_map ((fun c => (c.1, tt)) <$> l)) (m_mapHistogram p)
    (pr_calls p ++ ((fun c => Register GAUGE c.1 c.2) <$> l)).
Proof.
  rewrite <-foldl_map_insert. revert p. induction l as [|c l IH]; intros p; [destruct p; cbn; by rewrite app_nil_r|].
  cbn [foldl fmap list_fmap]. rewrite IH. cbn. by rewrite <-app_assoc.
Qed.
Lemma histograms_built (l : list (string * string * list Z)) p : foldl (fun p h => buildHistogram h.1.1 h.1.2 (to_double <$> h.2 : list double) p) p l =
  MkPromImpl (m_mapCounter p) (m_mapGauge p)
    (m_mapHistogram p ∪ list_to_map ((fun h : string * string * list Z => (h.1.1, to_double <$> h.2)) <$> l))
    (pr_calls p ++ ((fun h : string * string * list Z => Register HISTOGRAM h.1.1 h.1.2) <$> l)).
Proof.
  rewrite <-foldl_map_insert. revert p. induction l as [|c l IH]; intros p; [destruct p; cbn; by rewrite app_nil_r|].
  cbn [foldl fmap list_fmap]. rewrite IH. cbn. by rewrite <-app_assoc.
Qed.
Lemma start_stats_disabled v : start_stats None v None = Ok (tt, None).
Proof. by vm_compute. Qed.

Lemma named_lookup {A} (l : list (string * A)) name :
  is_Some ((list_to_map ((fun c => (c.1, tt)) <$> l) : gmap string unit) !! name) <-> name ∈ l.*1.
Proof.
  rewrite <-elem_of_dom, dom_list_to_map_L, elem_of_list_to_set. by rewrite <-list_fmap_compose.
Qed.
Lemma run_use_reported u (p : PromImpl) : created p -> run_use u (Some p) = Ok (tt, Some (on_calls (fun l => l ++ reported u) p)).
Proof.
  intros [Hc Hg Hh]. assert (p = on_calls (fun l => l ++ []) p) as Hp by (destruct p; unfold on_calls; cbn; by rewrite app_nil_r).
  destruct u as [name labels|name val|name val]; cbn [reported].
  - change (run_use (UseCounter name labels) (Some p)) with (Ok (tt, Some (update_counter name labels Increment p))). unfold update_counter. rewrite Hc. pose proof (named_lookup counters name) as Hn.
    case_bool_decide as Hin; [apply Hn in Hin as [x ->]; done|].
    destruct (list_to_map _ !! name) eqn:E; [destruct Hin; apply Hn; by eexists|]. by rewrite <-Hp.
  - change (run_use (UseGauge name val) (Some p)) with (Ok (tt, Some (update_gauge name ∅ (SetTo val) p))). unfold update_gauge. rewrite Hg. pose proof (named_lookup gauges name) as Hn.
    case_bool_decide as Hin; [apply Hn in Hin as [x ->]; done|].
    destruct (list_to_map _ !! name) eqn:E; [destruct Hin; apply Hn; by eexists|]. by rewrite <-Hp.
  - change (run_use (UseHistogram name val) (Some p)) with (Ok (tt, Some (update_histogram name ∅ (Observe val) p))). unfold update_histogram. rewrite Hh. destruct (histogram_map !! name); [done|]. by rewrite <-Hp.
Qed.
Lemma run_uses_reported us (p : PromImpl) : created p -> each run_use us (Some p) = Ok (tt, Some (on_calls (fun l => l ++ (us ≫= reported)) p)).
Proof.
  revert p. induction us as [|u us IH]; intros p Hp; cbn [each].
  - destruct p. unfold on_calls. cbn. by rewrite app_nil_r.
  - rewrite (M_bind_ok _ _ _ _ _ (run_use_reported u p Hp)). rewrite IH by (destruct Hp; by split). unfold on_calls. cbn. by rewrite <-app_assoc.
Qed.

Lemma start_stats_run h v : exists p, start_stats (Some h) v None = Ok (tt, Some p) /\ created p /\
  pr_calls p = [Expose h] ++ registered ++
    [Update COUNTER STATS_COUNTER_BUILD_INFO {["version" := v]} [] Increment; Update GAUGE STATS_GAUGE_START_TIME ∅ [] SetToCurrentTime].
Proof.
  unfold start_stats, initStats, counterCreate, gaugeCreate, histogramCreate. erewrite M_bind_ok by reflexivity. cbn beta.
  rewrite (M_bind_ok _ _ _ _ _ (each_enabled (fun c => buildCounter c.1 c.2) counters _)), counters_built.
  rewrite (M_bind_ok _ _ _ _ _ (each_enabled (fun g => buildGauge g.1 g.2) gauges _)), gauges_built.
  erewrite M_bind_ok by apply (each_enabled (fun h : string * string * list Z => buildHistogram h.1.1 h.1.2 (to_double <$> h.2))). rewrite histograms_built.
  cbn [m_mapCounter m_mapGauge m_mapHistogram pr_calls]. rewrite !(left_id_L ∅ (∪)).
  match goal with |- exists p, _ (Some ?q) = _ /\ _ => set (p0 := q) end.
  assert (created p0) as Hp by by split.
  erewrite M_bind_ok by exact (run_use_reported (UseCounter STATS_COUNTER_BUILD_INFO {["version" := v]}) _ Hp).
  cbn [reported]. rewrite bool_decide_eq_true_2 by (apply list_elem_of_In; cbn; tauto). destruct Hp as [Hc Hg Hh].
  eexists. split; [|split].
  - unfold if_enabled. erewrite M_bind_ok by reflexivity. change (enabled _) with true. cbn iota.
    unfold gaugeSetToCurrentTime, impl, modify, fmap, option_fmap, option_map, update_gauge. cbn [m_mapGauge on_calls]. rewrite Hg.
    destruct (proj2 (named_lookup gauges STATS_GAUGE_START_TIME)) as [x ->]; [apply list_elem_of_In; cbn; tauto|]. reflexivity.
  - split; [exact Hc|exact Hg|exact Hh].
  - unfold p0, on_calls, registered. cbn [pr_calls]. by rewrite <-!app_assoc.
Qed.

(** With Prometheus enabled at the start, every later use of a statistic
    that the server created arrives there, under its name and labels and in
    order, and a use of any other is dropped; when it is not enabled nothing
    is created and no use has an effect. *)
Theorem statistics_reported (us : list use) (h v : string) :
  (_ ← start_stats None v; each run_use us) None = Ok (tt, None) /\
  exists p, (_ ← start_stats (Some h) v; each run_use us) None = Ok (tt, Some p) /\
    pr_calls p = [Expose h] ++ registered ++ [Update COUNTER STATS_COUNTER_BUILD_INFO {["version" := v]} [] Increment;
      Update GAUGE STATS_GAUGE_START_TIME ∅ [] SetToCurrentTime] ++ (us ≫= reported).
Proof.
  split.
  - rewrite (M_bind_ok _ _ _ _ _ (start_stats_disabled v)). induction us as [|u us IH]; [done|]. cbn [each].
    assert (run_use u None = Ok (tt, None)) as E by by destruct u. by rewrite (M_bind_ok _ _ _ _ _ E).
  - destruct (start_stats_run h v) as (p & E & Hp & Hc). eexists. split; [rewrite (M_bind_ok _ _ _ _ _ E); by apply run_uses_reported|].
    cbn [pr_calls on_calls]. rewrite Hc. by rewrite <-!app_assoc.
Qed.
End correct.
