(* ===== verification/PendingRequests.v ===== *)
(** Model of [PendingRequest_t] and [PendingRequestController]
    (src/pending-request-controller.hpp, src/pending-request-controller.cpp):
    requests that arrived outside a dialog and that no application has
    answered yet. *)
From S2P Require Import Prelude CppString TextUtil ClientController RequestRouter TimerQueue.

Open Scope list_scope.

Section model.
Context `{SuTime} `{Boost}.

(** ** State *)

(** [CLIENT_TIMEOUT] *)
Definition CLIENT_TIMEOUT : Z := 64000.

(** [class PendingRequest_t]; [pr_method_name] is that of the CSeq header. *)
Record PendingRequest_t := MkPendingRequest {
  pr_sip : sip_t;
  pr_transactionId : string;
  pr_handle : option ptr;
  pr_canceled : bool;
  pr_meta : SipMsgData_t;
  pr_encodedMsg : string;
}.
Definition no_meta : SipMsgData_t := MkSipMsgData "" "" "" "" "" "" "" "".
Definition pr_getMethodName (p : PendingRequest_t) : string := sip_cseq_method_name (pr_sip p).
Definition pr_id (p : PendingRequest_t) : string := makeUniqueSipTransactionIdentifier (pr_sip p).
Definition set_handle h p :=
  MkPendingRequest (pr_sip p) (pr_transactionId p) h (pr_canceled p) (pr_meta p) (pr_encodedMsg p).
Definition set_meta m p :=
  MkPendingRequest (pr_sip p) (pr_transactionId p) (pr_handle p) (pr_canceled p) m (pr_encodedMsg p).
Definition set_encoded e p :=
  MkPendingRequest (pr_sip p) (pr_transactionId p) (pr_handle p) (pr_canceled p) (pr_meta p) e.

(** [class PendingRequestController].  The maps hold shared pointers to
    objects of [pr_objects]; the timer queue calls [timeout] with the
    transaction id that was bound when the timer was added. *)
Record PendingRequestController := MkPRC {
  pr_objects : gmap positive PendingRequest_t;
  pr_mutex : bool;
  m_mapCallId2Invite : gmap string positive;
  m_mapTxnId2Invite : gmap string positive;
  m_timerQueue : LockingTimerQueue string;
}.
Definition PRC_new : PendingRequestController := MkPRC ∅ false ∅ ∅ (MkLocking TimerQueue_new false).
Definition on_objects u c :=
  MkPRC (u (pr_objects c)) (pr_mutex c) (m_mapCallId2Invite c) (m_mapTxnId2Invite c) (m_timerQueue c).
Definition set_pr_mutex b c :=
  MkPRC (pr_objects c) b (m_mapCallId2Invite c) (m_mapTxnId2Invite c) (m_timerQueue c).
Definition on_callids u c :=
  MkPRC (pr_objects c) (pr_mutex c) (u (m_mapCallId2Invite c)) (m_mapTxnId2Invite c) (m_timerQueue c).
Definition on_txnids u c :=
  MkPRC (pr_objects c) (pr_mutex c) (m_mapCallId2Invite c) (u (m_mapTxnId2Invite c)) (m_timerQueue c).
Definition set_timerQueue q c :=
  MkPRC (pr_objects c) (pr_mutex c) (m_mapCallId2Invite c) (m_mapTxnId2Invite c) q.

#[export] Instance timerQueue_lens : Lens m_timerQueue set_timerQueue.
Proof. split; [done..|by intros []]. Qed.

Abbreviation PR := (M PendingRequestController).
Definition pr_locked {A} (m : PR A) : PR A := lock_guard pr_mutex set_pr_mutex m.
Definition on_timers {A} (m : M (LockingTimerQueue string) A) : PR A := zoom m_timerQueue set_timerQueue m.
Definition pr_load (p : positive) : PR PendingRequest_t := c ← get; deref (pr_objects c !! p).
Definition pr_store (p : positive) (f : PendingRequest_t -> PendingRequest_t) : PR unit :=
  o ← pr_load p; modify (on_objects (insert p (f o))).
Definition pr_new (o : PendingRequest_t) : PR positive := fun c =>
  let p := fresh_addr (pr_objects c) in Ok (p, on_objects (insert p o) c).

(** ** Operations *)

(** [add(msg, sip)]; [uuid] is the id that the constructor generates. *)
Definition pending_add (uuid : string) (sip : sip_t) (now : su_time_t) : PR positive :=
  p ← pr_new (MkPendingRequest sip uuid None false no_meta "");
  handle ← on_timers (LockingTimerQueue_add uuid None CLIENT_TIMEOUT now);
  _ ← pr_store p (set_handle (Some handle));
  o ← pr_load p;
  let id := pr_id o in
  _ ← pr_locked (
        _ ← modify (on_callids (map_insert id p));
        modify (on_txnids (map_insert (pr_transactionId o) p)));
  mret p.

(** [findAndRemove(transactionId, timeout)] *)
Definition findAndRemove (transactionId : string) (timeout : bool) : PR (option positive) :=
  pr_locked (
    c ← get;
    match m_mapTxnId2Invite c !! transactionId with
    | None => mret None
    | Some p =>
      _ ← modify (on_txnids (delete transactionId));
      o ← pr_load p;
      let id := pr_id o in
      c ← get;
      _ ← assertb (bool_decide (is_Some (m_mapCallId2Invite c !! id)));
      _ ← modify (on_callids (delete id));
      _ ← (if timeout then mret tt
           else h ← deref (pr_handle o); on_timers (LockingTimerQueue_remove h));
      mret (Some p)
    end).

(** [find(transactionId)] *)
Definition pending_find (transactionId : string) : PR (option positive) :=
  pr_locked (c ← get; mret (m_mapTxnId2Invite c !! transactionId)).

(** [isRetransmission(sip)] *)
Definition pending_isRetransmission (sip : sip_t) : PR bool :=
  pr_locked (c ← get; mret (bool_decide (is_Some (m_mapCallId2Invite c !! makeUniqueSipTransactionIdentifier sip)))).

(** [getMethodForRequest(transactionId, method)] *)
Definition getMethodForRequest (transactionId : string) : PR (option string) :=
  p ← pending_find transactionId;
  match p with
  | None => mret None
  | Some p => o ← pr_load p; mret (Some (pr_getMethodName o))
  end.

(** The two searches; [iter] is the order in which the unordered map is
    walked. *)
Section iteration.
Context (iter : gmap string positive -> list (string * positive)).

Fixpoint find_entry (test : PendingRequest_t -> bool) (l : list (string * positive)) : PR (option positive) :=
  match l with
  | [] => mret None
  | (_, p) :: l =>
    o ← pr_load p;
    if test o then mret (Some p) else find_entry test l
  end.
Definition is_invite_of (callId : string) (o : PendingRequest_t) : bool :=
  String.eqb callId (sip_call_id (pr_sip o)) && bool_decide (sip_request_method (pr_sip o) = Some sip_method_invite).
Definition findInviteByCallId (callId : string) : PR (option positive) :=
  pr_locked (c ← get; find_entry (is_invite_of callId) (iter (m_mapCallId2Invite c))).
(** [sip->sip_via->v_branch] must exist in every message compared. *)
Definition is_invite_branch (callId branch : string) (o : PendingRequest_t) : bool :=
  is_invite_of callId o && bool_decide (sip_via_branch (pr_sip o) = Some branch).
Definition findInviteByCallIdAndBranch (sip : sip_t) : PR (option positive) :=
  match sip_via_branch sip with
  | None => fail BadAccess
  | Some branch =>
    pr_locked (c ← get; find_entry (is_invite_branch (sip_call_id sip) branch) (iter (m_mapCallId2Invite c)))
  end.
End iteration.

(** ** With the client controller and the router *)

(** A call of [RequestHandler::makeRequestForRoute]. *)
Record web_request := WebRequest {
  wr_transactionId : string;
  wr_httpMethod : string;
  wr_httpUrl : string;
  wr_body : string;
}.
Record server := MkServer {
  srv_prc : PendingRequestController;
  srv_clients : ClientController;
  srv_router : RequestRouter;
  srv_web : list web_request;
}.
Definition set_prc c s := MkServer c (srv_clients s) (srv_router s) (srv_web s).
Definition set_clients c s := MkServer (srv_prc s) c (srv_router s) (srv_web s).
Definition add_web r s := MkServer (srv_prc s) (srv_clients s) (srv_router s) (srv_web s ++ [r]).
#[export] Instance prc_lens : Lens srv_prc set_prc.
Proof. split; [done..|by intros []]. Qed.

Abbreviation SRV := (M server).
Definition on_prc {A} (m : PR A) : SRV A := zoom srv_prc set_prc m.
Definition on_cc {A} (m : CC A) : SRV A := zoom srv_clients set_clients m.

(** [timeout(transactionId)] *)
Definition pending_timeout (transactionId : string) : SRV unit :=
  _ ← on_prc (findAndRemove transactionId true);
  on_cc (removeNetTransaction transactionId).

(** The timer of [m_timerQueue] goes off. *)
Definition pending_doTimer (now : su_time_t) : SRV unit :=
  LockingTimerQueue_doTimer (fun s => m_timerQueue (srv_prc s))
    (fun q s => set_prc (set_timerQueue q (srv_prc s)) s) (fun f _ => pending_timeout f) now.

(** [routeNewRequestToClient(client, transactionId)] *)
Definition routeNewRequestToClient (client : client_id) (transactionId : string) : SRV Z :=
  p ← on_prc (pending_find transactionId);
  match p with
  | None => mret 500%Z
  | Some p =>
    o ← on_prc (pr_load p);
    _ ← on_cc (addNetTransaction client (pr_transactionId o));
    _ ← on_cc (post (sendNewSipMessage client (pr_transactionId o) (pr_encodedMsg o) (pr_meta o)));
    mret 0%Z
  end.

(** What [processNewRequest] reads of the request and its transport: the
    message, its encoding by [EncodeStackMessage], the meta data that
    [SipMsgData_t] takes from it, and the URI as [url_e] writes it. *)
Record new_request := NewRequest {
  nr_sip : sip_t;
  nr_method_name : string;
  nr_to_tag : option string;
  nr_encoded : string;
  nr_meta : SipMsgData_t;
  nr_tport : string * string;
  nr_url_host : option string;
  nr_url_user : option string;
  nr_from_user : option string;
  nr_to_user : option string;
  nr_content_type : option string;
  nr_uri : string;
  nr_url_params : option string;
}.
Definition set_dest (host port : string) (d : SipMsgData_t) : SipMsgData_t :=
  MkSipMsgData (m_protocol d) (m_bytes d) (m_address d) (m_port d) (m_time d) (m_source d) host port.

(** The parameters of the query string. *)
Definition uri_param (s : string) : string * string :=
  match split "=" s with
  | [] => ("", "")
  | [k; v] => (k, v)
  | k :: _ => (k, "")
  end.
Definition query_params (r : new_request) (meta : SipMsgData_t) : list (string * string) :=
  [("method", nr_method_name r); ("domain", default "" (nr_url_host r));
   ("protocol", m_protocol meta); ("source_address", m_address meta);
   ("fromUser", default "" (nr_from_user r)); ("toUser", default "" (nr_to_user r));
   ("uriUser", default "" (nr_url_user r)); ("contentType", default "" (nr_content_type r));
   ("uri", nr_uri r)]%string ++
  match nr_url_params r with
  | None => []
  | Some params => uri_param <$> split ";" params
  end.
(** The loop that appends them; [i] counts the ones before. *)
Fixpoint append_params (i : nat) (v : list (string * string)) (httpUrl : string) : string :=
  match v with
  | [] => httpUrl
  | (k, x) :: v =>
    append_params (S i) v
      (httpUrl +:+ (if bool_decide (0 < i) then "&" else "?") +:+ k +:+ "=" +:+ urlencode x)
  end.
(** Does the route lead to a web callback (and not straight to a client)? *)
Definition is_direct (httpUrl : string) : bool :=
  bool_decide (str_find "tcp:" httpUrl = Some 0) || bool_decide (str_find "tls:" httpUrl = Some 0).
Definition callback_url (r : new_request) (meta : SipMsgData_t) (httpUrl : string) : string :=
  if is_direct httpUrl then httpUrl else append_params 0 (query_params r meta) (httpUrl +:+ "/").

(** [processNewRequest(msg, sip, tp_incoming, transactionId)]: the status and
    the value it leaves in [transactionId], if any. *)
Definition processNewRequest (uuid : string) (r : new_request) (now : su_time_t) : SRV (Z * option string) :=
  if bool_decide (sip_request_method (nr_sip r) = Some sip_method_invite) && bool_decide (is_Some (nr_to_tag r))
  then mret (481%Z, None) else
  s ← get;
  let route := RequestRouter_getRoute (nr_method_name r) (srv_router s) in
  client ← match route with
           | Some _ => mret None
           | None => on_cc (selectClientForRequestOutsideDialog (nr_method_name r) None)
           end;
  if bool_decide (route = None) && bool_decide (client = None) then mret (503%Z, Some uuid) else
  p ← on_prc (pending_add uuid (nr_sip r) now);
  o ← on_prc (pr_load p);
  let transactionId := pr_transactionId o in
  let meta := set_dest (nr_tport r).1 (nr_tport r).2 (nr_meta r) in
  _ ← on_prc (pr_store p (set_meta meta));
  _ ← on_prc (pr_store p (set_encoded (nr_encoded r)));
  let '(httpMethod, httpUrl) := match route with Some (m, u, _) => (m, u) | None => ("", "")%string end in
  _ ← (if String.eqb httpUrl "" then
         client ← deref client;
         _ ← on_cc (addNetTransaction client transactionId);
         on_cc (post (sendNewSipMessage client transactionId (nr_encoded r) meta))
       else
         modify (add_web (WebRequest transactionId httpMethod (callback_url r meta httpUrl) (nr_encoded r))));
  mret (0%Z, Some transactionId).
End model.
