(* ===== verification/PendingCorrect.v ===== *)
(** Correctness of the pending requests: the two maps, the objects and the
    timer queue stay consistent, timeouts clear a request everywhere, and new
    requests go to an application or a web callback or are refused. *)
From S2P Require Import Prelude CppString TextUtil ClientController ClientControllerCorrect RequestRouter.
From S2P Require Import TimerQueue TimerQueueSpec TimerQueueCorrect TimerQueueManager PendingRequests BoostInstance.

Open Scope list_scope.

(** ** A locking queue whose callback leaves it alone *)

Section quiet.
Context `{SuTimeLaws} {TimerFunc S : Type}.
Context (proj : S -> LockingTimerQueue TimerFunc) (upd : LockingTimerQueue TimerFunc -> S -> S)
  (call : TimerFunc -> option ptr -> M S unit) `{!Lens proj upd}.

Lemma locking_doTimer_quiet now s x l :
  m_mutex (proj s) = false -> queue_inv [] (base (proj s)) (x :: l) -> expired now x ->
  (forall lq, exists s2, call x.2.1.1 x.2.1.2 (upd lq s) = Ok (tt, s2) /\ proj s2 = lq) ->
  exists lq s2 lq', call x.2.1.1 x.2.1.2 (upd lq s) = Ok (tt, s2) /\ proj s2 = lq /\
    LockingTimerQueue_doTimer proj upd call now s = Ok (tt, upd lq' s2) /\
    m_mutex lq' = false /\ queue_inv [] (base lq') l.
Proof.
  intros Hm Hi Hexp Hcall. set (s1 := upd (set_mutex true (proj s)) s).
  assert (Hs1 : proj s1 = set_mutex true (proj s)) by (unfold s1; by rewrite lens_proj_upd).
  destruct (doTimer_expired_run (base ∘ proj) (fun q s => upd (set_base q (proj s)) s) call s1 x l now)
    as (q1 & n & Hdt & Hrun); [cbn; rewrite Hs1; apply Hi..|done|].
  cbn beta in Hrun. rewrite Hs1 in Hrun. unfold s1 in Hrun at 2. rewrite lens_upd_upd in Hrun.
  assert (Hi1 : queue_inv [x] q1 l) by (eapply detached_inv; [|exact Hdt]; cbn; by rewrite Hs1).
  set (lq := set_base q1 (set_mutex true (proj s))) in *.
  destruct (Hcall lq) as (s2 & Hc & Hp). rewrite (M_bind_ok _ _ _ _ _ Hc) in Hrun.
  destruct (inv_detached _ _ _ Hi1 x) as [Hx _]; [by left|].
  set (pj := base ∘ proj) in Hrun. set (up := fun q s => upd (set_base q (proj s)) s) in Hrun.
  assert (Hl : zoom pj up (load x.1) s2 = Ok (entry_of None None x, s2)).
  { erewrite zoom_ok; [|unfold pj; cbn; rewrite Hp; apply load_ok, Hx]. unfold up. cbn. rewrite Hp.
    do 2 f_equal. transitivity (upd (proj s2) s2); [by rewrite Hp|apply lens_upd_proj]. }
  assert (Hf : zoom pj up (free x.1) s2 = Ok (tt, upd (set_base (set_heap (delete x.1) q1) lq) s2)).
  { erewrite zoom_ok; [|unfold pj; cbn; rewrite Hp; eapply free_ok, Hx]. unfold up. by rewrite Hp. }
  rewrite (M_bind_ok _ _ _ _ _ Hl) in Hrun. cbn beta in Hrun. rewrite (M_bind_ok _ _ _ _ _ Hf) in Hrun.
  set (lq' := set_base (set_heap (delete x.1) q1) lq) in *.
  exists lq, s2, (set_mutex false lq'). split_and!; [done..| |done|by apply delete_detached_inv].
  unfold LockingTimerQueue_doTimer. erewrite lock_guard_ok; [|by cbn|exact Hrun]. cbn beta.
  by rewrite (lens_proj_upd lq' s2), (lens_upd_upd _ lq' s2).
Qed.
End quiet.

(** ** Invariant *)

Section invariant.
Context `{SuTimeLaws} `{Boost}.
Implicit Types (c : PendingRequestController) (l : list (timer string)).

(** The transaction a timer is for. *)
Definition timer_txn (x : timer string) : string := x.2.1.1.

(** The maps agree with each other, with the objects, and with the timers
    [l]: one timer per pending request. *)
Record maps_ok c l : Prop := MapsOk {
  mo_txn : forall t p, m_mapTxnId2Invite c !! t = Some p ->
    exists o x, pr_objects c !! p = Some o /\ pr_transactionId o = t /\
      m_mapCallId2Invite c !! pr_id o = Some p /\ x ∈ l /\ timer_txn x = t /\ pr_handle o = Some x.1;
  mo_call : forall id p, m_mapCallId2Invite c !! id = Some p ->
    exists o, pr_objects c !! p = Some o /\ pr_id o = id /\ m_mapTxnId2Invite c !! pr_transactionId o = Some p;
  mo_timer : forall x, x ∈ l -> is_Some (m_mapTxnId2Invite c !! timer_txn x);
  mo_nodup : NoDup (timer_txn <$> l);
}.
Record pending_inv c l : Prop := PendingInv {
  pi_mutex : pr_mutex c = false;
  pi_queue_mutex : m_mutex (m_timerQueue c) = false;
  pi_queue : queue_inv [] (base (m_timerQueue c)) l;
  pi_maps : maps_ok c l;
}.

Lemma maps_ok_proper c l l' : l ≡ₚ l' -> maps_ok c l -> maps_ok c l'.
Proof.
  intros Hl [Ht Hc Hx Hn]. constructor.
  - intros t p Hp. destruct (Ht t p Hp) as (o & x & ? & ? & ? & Hin & ? & ?). exists o, x. by rewrite <-Hl.
  - done.
  - intros x Hin. apply Hx. by rewrite Hl.
  - by rewrite <-Hl.
Qed.

(** Only the maps and the objects matter. *)
Lemma maps_ok_ext c c' l :
  pr_objects c' = pr_objects c -> m_mapCallId2Invite c' = m_mapCallId2Invite c ->
  m_mapTxnId2Invite c' = m_mapTxnId2Invite c -> maps_ok c l -> maps_ok c' l.
Proof. intros E1 E2 E3 [Ht Hc Hx Hn]. constructor; rewrite ?E1, ?E2, ?E3; done. Qed.

Lemma PRC_new_inv : pending_inv PRC_new [].
Proof.
  constructor; [done|done|apply new_inv|]. constructor; [by intros ??..|by intros ? ?%elem_of_nil|constructor].
Qed.

(** *** Removal *)

Definition forget (t id : string) c : PendingRequestController :=
  on_callids (delete id) (on_txnids (delete t) c).

(** Removing one request from the maps. *)
Lemma forget_maps c t p o x l :
  maps_ok c (x :: l) -> m_mapTxnId2Invite c !! t = Some p -> pr_objects c !! p = Some o ->
  timer_txn x = t -> maps_ok (forget t (pr_id o) c) l.
Proof.
  intros [Ht Hc Hx Hn] Hp Ho Hxt. apply NoDup_cons in Hn as [Hnin Hn].
  assert (Hto : pr_transactionId o = t /\ m_mapCallId2Invite c !! pr_id o = Some p).
  { destruct (Ht _ _ Hp) as (o' & ? & ? & ? & ? & _). by simplify_eq. }
  destruct Hto as [Hto Hcp]. constructor; cbn [forget on_callids on_txnids m_mapCallId2Invite m_mapTxnId2Invite pr_objects].
  - intros t' p' [Hne Hp']%lookup_delete_Some.
    destruct (Ht _ _ Hp') as (o' & x' & Ho' & Ht' & Hc' & Hin & Hxt' & Hh). exists o', x'.
    split_and!; [done..| | |done|done].
    + apply lookup_delete_Some. split; [|done]. intros E. rewrite <-E, Hcp in Hc'. simplify_eq.
    + apply elem_of_cons in Hin as [->|]; [|done]. congruence.
  - intros id' p' [Hne Hp']%lookup_delete_Some. destruct (Hc _ _ Hp') as (o' & Ho' & Hid & Ht').
    exists o'. split_and!; [done..|]. apply lookup_delete_Some. split; [|done].
    intros E. rewrite <-E, Hp in Ht'. simplify_eq.
  - intros y Hy. apply lookup_delete_is_Some. split; [|apply Hx; by right].
    intros E. apply Hnin. rewrite Hxt, E. apply list_elem_of_fmap. eauto.
  - done.
Qed.

Lemma find_timer c l t p :
  maps_ok c l -> m_mapTxnId2Invite c !! t = Some p ->
  exists o x l1 l2, pr_objects c !! p = Some o /\ pr_transactionId o = t /\ m_mapCallId2Invite c !! pr_id o = Some p /\
    l = l1 ++ x :: l2 /\ timer_txn x = t /\ pr_handle o = Some x.1.
Proof.
  intros Hm Hp. destruct (mo_txn _ _ Hm _ _ Hp) as (o & x & ? & ? & ? & Hin & ? & ?).
  apply list_elem_of_split in Hin as (l1 & l2 & ->). by exists o, x, l1, l2.
Qed.

Lemma pr_load_ok c p o : pr_objects c !! p = Some o -> pr_load p c = Ok (o, c).
Proof. intros E. unfold pr_load, mbind, M_bind, get. by rewrite E. Qed.
Lemma pr_store_ok c p o f :
  pr_objects c !! p = Some o -> pr_store p f c = Ok (tt, on_objects (insert p (f o)) c).
Proof. intros E. unfold pr_store. by rewrite (M_bind_ok _ _ _ _ _ (pr_load_ok _ _ _ E)). Qed.

(** [findAndRemove] of a pending request. *)
Lemma findAndRemove_timeout c t p o :
  pr_mutex c = false -> m_mapTxnId2Invite c !! t = Some p -> pr_objects c !! p = Some o ->
  is_Some (m_mapCallId2Invite c !! pr_id o) ->
  findAndRemove t true c = Ok (Some p, forget t (pr_id o) c).
Proof.
  intros Hm Hp Ho Hc. unfold findAndRemove, pr_locked. erewrite lock_guard_ok; [|done|].
  2: { unfold mbind, M_bind, get. cbn. rewrite Hp. cbn.
       erewrite pr_load_ok by exact Ho. by rewrite (assertb_true _ _ (bool_decide_eq_true_2 _ Hc)). }
  do 2 f_equal. unfold forget. destruct c. cbn in *. by rewrite Hm.
Qed.

Lemma findAndRemove_cancel c l1 x l2 t p o :
  pending_inv c (l1 ++ x :: l2) -> m_mapTxnId2Invite c !! t = Some p -> pr_objects c !! p = Some o ->
  is_Some (m_mapCallId2Invite c !! pr_id o) -> pr_handle o = Some x.1 ->
  exists q', findAndRemove t false c = Ok (Some p, set_timerQueue (MkLocking q' false) (forget t (pr_id o) c)) /\
    queue_inv [] q' (l1 ++ l2).
Proof.
  intros [Hm Hqm Hq Hmaps] Hp Ho Hc Hh. destruct (remove_inv _ _ _ _ _ Hq) as (q' & Hrun & Hi).
  exists q'. split; [|done]. unfold findAndRemove, pr_locked. erewrite lock_guard_ok; [|done|].
  2: { unfold mbind, M_bind, get. cbn. rewrite Hp. cbn.
       erewrite pr_load_ok by exact Ho. rewrite (assertb_true _ _ (bool_decide_eq_true_2 _ Hc)).
       rewrite Hh. cbn. unfold on_timers. erewrite zoom_ok; [reflexivity|].
       unfold LockingTimerQueue_remove, guarded. apply lock_guard_ok; [exact Hqm|]. cbn. eapply zoom_ok. exact Hrun. }
  do 2 f_equal. unfold forget, set_timerQueue, set_pr_mutex. cbn. by rewrite Hm.
Qed.

(** *** Lookups *)

Lemma set_pr_mutex_false c : pr_mutex c = false -> set_pr_mutex false (set_pr_mutex true c) = c.
Proof. destruct c. cbn. by intros ->. Qed.
Lemma pr_locked_read {A} (f : PendingRequestController -> A) c :
  pr_mutex c = false -> pr_locked (c ← get; mret (f c)) c = Ok (f (set_pr_mutex true c), c).
Proof.
  intros Hm. unfold pr_locked. erewrite lock_guard_ok; [|done|reflexivity]. by rewrite set_pr_mutex_false.
Qed.
Lemma find_run c t : pr_mutex c = false -> pending_find t c = Ok (m_mapTxnId2Invite c !! t, c).
Proof. intros Hm. by apply pr_locked_read. Qed.
Lemma isRetransmission_run c sip : pr_mutex c = false ->
  pending_isRetransmission sip c =
    Ok (bool_decide (is_Some (m_mapCallId2Invite c !! makeUniqueSipTransactionIdentifier sip)), c).
Proof. intros Hm. by apply pr_locked_read. Qed.

(** *** Addition *)

Definition added c (p : positive) (o : PendingRequest_t) (q : TimerQueue string) : PendingRequestController :=
  MkPRC (<[p := o]> (pr_objects c)) false (map_insert (pr_id o) p (m_mapCallId2Invite c))
    (map_insert (pr_transactionId o) p (m_mapTxnId2Invite c)) (MkLocking q false).

Lemma map_insert_fresh {V} k (v : V) (m : gmap string V) : m !! k = None -> map_insert k v m = <[k := v]> m.
Proof. unfold map_insert. by intros ->. Qed.

Lemma added_maps c p o q x l :
  maps_ok c l -> pr_objects c !! p = None ->
  m_mapCallId2Invite c !! pr_id o = None -> m_mapTxnId2Invite c !! pr_transactionId o = None ->
  timer_txn x = pr_transactionId o -> pr_handle o = Some x.1 -> maps_ok (added c p o q) (x :: l).
Proof.
  intros [Ht Hc Hx Hn] Hp Hid Htx Hxt Hh.
  constructor; cbn [added m_mapCallId2Invite m_mapTxnId2Invite pr_objects];
    rewrite ?(map_insert_fresh _ _ _ Hid), ?(map_insert_fresh _ _ _ Htx).
  - intros t p' [[<- <-]|[Hne Hp']]%lookup_insert_Some.
    + exists o, x. rewrite !lookup_insert_eq. set_solver.
    + destruct (Ht _ _ Hp') as (o' & x' & Ho' & Ht' & Hc' & Hin & Hxt' & Hh'). exists o', x'.
      rewrite !lookup_insert_ne by congruence. set_solver.
  - intros id p' [[<- <-]|[Hne Hp']]%lookup_insert_Some.
    + exists o. by rewrite !lookup_insert_eq.
    + destruct (Hc _ _ Hp') as (o' & Ho' & Hid' & Ht'). exists o'.
      by rewrite !lookup_insert_ne by congruence.
  - intros y [->|Hy]%elem_of_cons; [rewrite Hxt, lookup_insert_eq; eauto|].
    apply lookup_insert_is_Some'. right. by apply Hx.
  - apply NoDup_cons. split; [|done]. intros (y & E & Hy)%list_elem_of_fmap.
    destruct (Hx y Hy) as [? Hs]. rewrite <-E, Hxt, Htx in Hs. done.
Qed.

Lemma add_run c l uuid sip now :
  pending_inv c l ->
  let x := (fresh_addr (heap (base (m_timerQueue c))), (uuid, None, su_time_add now CLIENT_TIMEOUT)) in
  let p := fresh_addr (pr_objects c) in
  let o := MkPendingRequest sip uuid (Some x.1) false no_meta "" in
  match spec_add x l with
  | None => pending_add uuid sip now c = Fault AssertFail
  | Some l' => exists q', pending_add uuid sip now c = Ok (p, added c p o q') /\ queue_inv [] q' l' /\ l' ≡ₚ x :: l
  end.
Proof.
  intros [Hm Hqm Hq Hmaps] x p o.
  pose proof (add_inv uuid None CLIENT_TIMEOUT now [] _ l Hq) as Hadd. cbn zeta in Hadd. fold x in Hadd.
  unfold pending_add. erewrite M_bind_ok by reflexivity. cbn beta. fold p.
  destruct (spec_add x l) as [l'|] eqn:E.
  - destruct Hadd as (q' & Hrun & Hi). exists q'. split_and!; [|done|by apply spec_add_perm].
    erewrite M_bind_ok; cycle 1.
    { apply zoom_ok, lock_guard_ok; [exact Hqm|]. eapply zoom_ok. exact Hrun. }
    cbn beta. erewrite M_bind_ok; [|by apply pr_store_ok, lookup_insert_eq]. cbn beta.
    erewrite M_bind_ok; [|by apply pr_load_ok, lookup_insert_eq]. cbn beta zeta.
    erewrite M_bind_ok; [|apply lock_guard_ok; [exact Hm|reflexivity]]. cbn beta.
    rewrite M_ret_run. do 2 f_equal. unfold added, set_pr_mutex, on_txnids, on_callids, on_objects, set_timerQueue.
    cbn [pr_objects m_mapCallId2Invite m_mapTxnId2Invite pr_mutex m_timerQueue]. by rewrite insert_insert_eq.
  - erewrite M_bind_fault; [done|]. apply zoom_fault, lock_guard_fault; [exact Hqm|]. by apply zoom_fault.
Qed.

Lemma added_inv c l l' p o q x :
  pending_inv c l -> queue_inv [] q l' -> l' ≡ₚ x :: l -> pr_objects c !! p = None ->
  m_mapCallId2Invite c !! pr_id o = None -> m_mapTxnId2Invite c !! pr_transactionId o = None ->
  timer_txn x = pr_transactionId o -> pr_handle o = Some x.1 -> pending_inv (added c p o q) l'.
Proof.
  intros Hi Hq Hperm **. constructor; [done..|]. eapply maps_ok_proper; [symmetry; exact Hperm|].
  apply added_maps; try done. apply Hi.
Qed.

(** *** Changing what is kept of a request *)

Lemma store_inv c l p o o' :
  pending_inv c l -> pr_objects c !! p = Some o ->
  pr_sip o' = pr_sip o -> pr_transactionId o' = pr_transactionId o -> pr_handle o' = pr_handle o ->
  pending_inv (on_objects (insert p o') c) l.
Proof.
  intros [Hm Hqm Hq [Ht Hc Hx Hn]] Ho Hs Htx Hh. assert (Hid : pr_id o' = pr_id o) by (unfold pr_id; by rewrite Hs).
  constructor; [done..|]. constructor; cbn [on_objects pr_objects m_mapCallId2Invite m_mapTxnId2Invite]; [| |done..].
  - intros t p' Hp'. destruct (Ht _ _ Hp') as (o1 & x & Ho1 & ? & ? & ? & ? & ?).
    destruct (decide (p' = p)) as [->|]; [|exists o1, x; by rewrite lookup_insert_ne].
    simplify_eq. exists o', x. rewrite lookup_insert_eq, Hid, Htx, Hh. done.
  - intros id p' Hp'. destruct (Hc _ _ Hp') as (o1 & Ho1 & ? & ?).
    destruct (decide (p' = p)) as [->|]; [|exists o1; by rewrite lookup_insert_ne].
    simplify_eq. exists o'. by rewrite lookup_insert_eq, Hid, Htx.
Qed.

(** A request that is added now would expire in the same microsecond as the
    last timer of the queue; the queue then aborts. *)
Definition collides (now : su_time_t) (l : list (timer string)) : Prop :=
  exists d, last l = Some d /\ (su_time_us now + 1000 * CLIENT_TIMEOUT = su_time_us (expiry d))%Z.

(** Adding a request and keeping its encoding and meta data. *)
Lemma add_and_keep c l uuid sip now meta enc :
  pending_inv c l -> m_mapCallId2Invite c !! makeUniqueSipTransactionIdentifier sip = None ->
  m_mapTxnId2Invite c !! uuid = None ->
  collides now l /\ pending_add uuid sip now c = Fault AssertFail \/
  ~ collides now l /\
  exists p o c1 c2 c3 l', pending_add uuid sip now c = Ok (p, c1) /\ pr_load p c1 = Ok (o, c1) /\
    pr_transactionId o = uuid /\ pr_store p (set_meta meta) c1 = Ok (tt, c2) /\
    pr_store p (set_encoded enc) c2 = Ok (tt, c3) /\ pending_inv c3 l' /\
    m_mapTxnId2Invite c3 !! uuid = Some p /\ pr_objects c3 !! p = Some (set_encoded enc (set_meta meta o)).
Proof.
  intros Hi Hid Htx. pose proof (add_run c l uuid sip now Hi) as Hadd. cbn zeta in Hadd.
  set (x := (_, _) : timer string) in Hadd. assert (Hcol : collides now l <-> spec_add x l = None).
  { unfold collides. rewrite <-su_time_add_us. symmetry. apply spec_add_none, (pi_queue _ _ Hi). }
  destruct (spec_add x l) as [l'|]; [right; split; [by intros ?%Hcol|]|left; by rewrite Hcol].
  destruct Hadd as (q' & Hrun & Hq & Hperm). set (p := fresh_addr (pr_objects c)) in *.
  set (o := MkPendingRequest sip uuid _ false no_meta "") in *. set (c1 := added c p o q') in *.
  assert (Hi1 : pending_inv c1 l') by (eapply added_inv; eauto using fresh_addr_lookup).
  assert (Ho1 : pr_objects c1 !! p = Some o) by apply lookup_insert_eq.
  set (c2 := on_objects (insert p (set_meta meta o)) c1).
  assert (Ho2 : pr_objects c2 !! p = Some (set_meta meta o)) by apply lookup_insert_eq.
  exists p, o, c1, c2, (on_objects (insert p (set_encoded enc (set_meta meta o))) c2), l'.
  split_and!; [done|by apply pr_load_ok|done|by apply pr_store_ok|by apply pr_store_ok| | |apply lookup_insert_eq].
  - eapply store_inv; [|exact Ho2|done..]. by eapply store_inv.
  - cbn. rewrite map_insert_fresh by done. apply lookup_insert_eq.
Qed.
End invariant.

(** ** Properties *)

Section properties.
Context `{SuTimeLaws} `{Boost}.
Implicit Types (c : PendingRequestController) (l : list (timer string)).

(** A request that is not a retransmission can be added and taken out
    again: after [add] (which aborts only when the timer queue does) the
    request is found by its transaction id and recognized when it is
    retransmitted; [findAndRemove] returns it, cancels its timer and restores
    both maps; maps, objects and timers stay consistent throughout. *)
Theorem pending_add_findAndRemove c l uuid sip now :
  pending_inv c l -> pending_isRetransmission sip c = Ok (false, c) -> pending_find uuid c = Ok (None, c) ->
  pending_add uuid sip now c = Fault AssertFail \/
  exists p c1 l1 c2, pending_add uuid sip now c = Ok (p, c1) /\ pending_inv c1 l1 /\
    length l1 = S (length l) /\
    pending_find uuid c1 = Ok (Some p, c1) /\ pending_isRetransmission sip c1 = Ok (true, c1) /\
    getMethodForRequest uuid c1 = Ok (Some (sip_cseq_method_name sip), c1) /\
    findAndRemove uuid false c1 = Ok (Some p, c2) /\ pending_inv c2 l /\
    m_mapTxnId2Invite c2 = m_mapTxnId2Invite c /\ m_mapCallId2Invite c2 = m_mapCallId2Invite c.
Proof.
  intros Hi. pose proof (pi_mutex _ _ Hi) as Hm. rewrite isRetransmission_run, find_run by done.
  intros [= Hid%bool_decide_eq_false] [= Htx]. rewrite <-eq_None_not_Some in Hid.
  pose proof (add_run c l uuid sip now Hi) as Hadd. cbn zeta in Hadd.
  set (x := (_, _) : timer string) in Hadd. destruct (spec_add x l) as [l'|] eqn:E; [right|by left].
  destruct Hadd as (q' & Hrun & Hq & Hperm). set (p := fresh_addr (pr_objects c)) in *.
  set (o := MkPendingRequest sip uuid _ false no_meta "") in *. set (c1 := added c p o q') in *.
  assert (Hi' : pending_inv c1 l') by (eapply added_inv; eauto using fresh_addr_lookup).
  destruct (spec_add_split _ _ _ E) as (la & lb & -> & ->).
  assert (Hp1 : m_mapTxnId2Invite c1 !! uuid = Some p)
    by (cbn; rewrite map_insert_fresh by done; apply lookup_insert_eq).
  assert (Hc1 : m_mapCallId2Invite c1 !! pr_id o = Some p)
    by (cbn; rewrite map_insert_fresh by done; apply lookup_insert_eq).
  assert (Ho1 : pr_objects c1 !! p = Some o) by apply lookup_insert_eq.
  destruct (findAndRemove_cancel c1 la x lb uuid p o Hi') as (q2 & Hrm & Hq2); [done..|by rewrite Hc1|done|].
  eexists p, c1, _, _. split_and!; [exact Hrun|exact Hi'|by rewrite Hperm| | | |exact Hrm| | |].
  - by rewrite find_run, Hp1.
  - rewrite isRetransmission_run by done. unfold pr_id in Hc1. cbn [pr_sip o] in Hc1. by rewrite Hc1.
  - unfold getMethodForRequest. erewrite M_bind_ok by (by rewrite find_run, Hp1). cbn beta iota.
    by rewrite (M_bind_ok _ _ _ _ _ (pr_load_ok _ _ _ Ho1)).
  - constructor; [done..|]. apply (maps_ok_ext (forget uuid (pr_id o) c1)); [done..|].
    apply (forget_maps c1 uuid p o x); [|done..]. eapply maps_ok_proper; [exact Hperm|apply Hi'].
  - cbn. rewrite map_insert_fresh by done. by apply delete_insert_id.
  - cbn. rewrite map_insert_fresh by done. by apply delete_insert_id.
Qed.

(** C10: When the timer of a pending request expires, the request leaves both
    maps and the client controller forgets its transaction; no other request
    is touched, the mutexes are free again (the callback runs while the queue
    is locked and must not call it back) and the state stays consistent. *)
Theorem pending_timeout_clears (s : server) x l now :
  pending_inv (srv_prc s) (x :: l) -> m_lock (srv_clients s) = false -> expired now x ->
  exists s', pending_doTimer now s = Ok (tt, s') /\ pending_inv (srv_prc s') l /\
    m_lock (srv_clients s') = false /\
    m_mapTxnId2Invite (srv_prc s') = delete (timer_txn x) (m_mapTxnId2Invite (srv_prc s)) /\
    size (m_mapCallId2Invite (srv_prc s')) = pred (size (m_mapCallId2Invite (srv_prc s))) /\
    m_mapNetTransactions (srv_clients s') = delete (timer_txn x) (m_mapNetTransactions (srv_clients s)).
Proof.
  intros Hi Hcl Hexp. destruct Hi as [Hm Hqm Hq Hmaps].
  destruct (mo_timer _ _ Hmaps x) as [p Hp]; [by left|].
  destruct (mo_txn _ _ Hmaps _ _ Hp) as (o & ? & Ho & Hto & Hc & _).
  set (proj := fun s => m_timerQueue (srv_prc s)). set (upd := fun q s => set_prc (set_timerQueue q (srv_prc s)) s).
  assert (Hlens : Lens proj upd) by (split; [done..|by intros [[] ???]]).
  assert (Hcall : forall lq, pending_timeout (timer_txn x) (upd lq s) =
    Ok (tt, set_clients (set_lock false (on_net (delete (timer_txn x)) (set_lock true (srv_clients s))))
              (set_prc (set_timerQueue lq (forget (timer_txn x) (pr_id o) (srv_prc s))) s))).
  { intros lq. unfold pending_timeout. erewrite M_bind_ok; cycle 1.
    { apply zoom_ok, findAndRemove_timeout with (o := o); [done..|]. eexists. exact Hc. }
    unfold on_cc. erewrite zoom_ok; [|by apply locked_run]. done. }
  destruct (locking_doTimer_quiet proj upd (fun f _ => pending_timeout f) now s x l) as (lq & s2 & lq' & Hrun & Hlq & Hdo & Hmx & Hqi);
    [done..| |]. { intros lq. eexists. split; [apply Hcall|done]. }
  change (x.2.1.1) with (timer_txn x) in Hrun. rewrite Hcall in Hrun. injection Hrun as <-.
  eexists. split; [exact Hdo|]. split_and!; [|done|done| |done].
  - constructor; [done|done|done|]. apply (maps_ok_ext (forget (timer_txn x) (pr_id o) (srv_prc s))); [done..|].
    by apply forget_maps with (p := p) (x := x).
  - cbn. rewrite map_size_delete, Hc. by destruct (size _).
Qed.

(** [add] relies on its caller having discarded retransmissions: a
    second pending request with the same identifier is not entered under it,
    and once the first has been removed, removing the second aborts. *)
Theorem pending_duplicate_aborts c l p uuid uuid2 sip o now :
  pending_inv c l -> m_mapTxnId2Invite c !! uuid = Some p -> pr_objects c !! p = Some o -> pr_sip o = sip ->
  pending_find uuid2 c = Ok (None, c) ->
  pending_add uuid2 sip now c = Fault AssertFail \/
  exists p2 c1, pending_add uuid2 sip now c = Ok (p2, c1) /\
    m_mapCallId2Invite c1 = m_mapCallId2Invite c /\ pending_find uuid2 c1 = Ok (Some p2, c1) /\
    exists c2, findAndRemove uuid true c1 = Ok (Some p, c2) /\
      forall timeout, findAndRemove uuid2 timeout c2 = Fault AssertFail.
Proof.
  intros Hi Hp Ho Hsip. pose proof (pi_mutex _ _ Hi) as Hm. rewrite find_run by done. intros [= Htx].
  destruct (mo_txn _ _ (pi_maps _ _ Hi) _ _ Hp) as (? & ? & ? & Hto & Hc & _). simplify_eq.
  pose proof (add_run c l uuid2 (pr_sip o) now Hi) as Hadd. cbn zeta in Hadd.
  set (x := (_, _) : timer string) in Hadd. destruct (spec_add x l) as [l'|] eqn:E; [right|by left].
  destruct Hadd as (q' & Hrun & Hq & Hperm). set (p2 := fresh_addr (pr_objects c)) in *.
  set (o2 := MkPendingRequest (pr_sip o) uuid2 _ false no_meta "") in *. set (c1 := added c p2 o2 q') in *.
  assert (Hpp : p2 ≠ p) by (intros Epp; pose proof (fresh_addr_lookup (pr_objects c)) as Hf; fold p2 in Hf; congruence).
  assert (Hc1 : m_mapCallId2Invite c1 = m_mapCallId2Invite c).
  { cbn. unfold map_insert. change (pr_id o2) with (pr_id o). by rewrite Hc. }
  assert (Ht1 : m_mapTxnId2Invite c1 = <[uuid2 := p2]> (m_mapTxnId2Invite c)) by (by apply map_insert_fresh).
  assert (Hne : uuid2 ≠ pr_transactionId o) by congruence.
  exists p2, c1. split_and!; [exact Hrun|done|by rewrite find_run, Ht1, lookup_insert_eq|].
  exists (forget (pr_transactionId o) (pr_id o) c1). split.
  - apply findAndRemove_timeout; [done| | |by rewrite Hc1, Hc].
    + by rewrite Ht1, lookup_insert_ne.
    + cbn. by rewrite lookup_insert_ne.
  - intros timeout. apply lock_guard_fault; [done|]. unfold mbind, M_bind, get. cbn -[map_insert].
    fold c1. change (map_insert _ _ (m_mapTxnId2Invite c)) with (m_mapTxnId2Invite c1).
    rewrite Ht1, lookup_delete_ne, lookup_insert_eq by done. cbn -[map_insert].
    erewrite pr_load_ok by (cbn; apply lookup_insert_eq). cbn -[map_insert].
    unfold assertb. rewrite bool_decide_eq_false_2; [done|].
    change (pr_id o2) with (pr_id o). rewrite lookup_delete_eq. by intros [].
Qed.

(** A selection touches neither the transactions nor what was posted. *)
Lemma select_frame keyword tag cc a cc' :
  selectClientForRequestOutsideDialog keyword tag cc = Ok (a, cc') ->
  m_posted cc' = m_posted cc /\ m_mapNetTransactions cc' = m_mapNetTransactions cc.
Proof.
  unfold selectClientForRequestOutsideDialog, locked, lock_guard, mbind, M_bind, get, modify.
  destruct (m_lock cc); [done|]. cbn. destruct (prune_and_count _ _ _ _) as [es n].
  destruct (bool_decide (n = 0)); by intros [= <- <-].
Qed.

Lemma lookup_mod {A} (l : list A) n : l ≠ [] -> exists a, l !! (n mod length l) = Some a.
Proof.
  intros Hl. apply lookup_lt_is_Some. apply Nat.mod_upper_bound. by destruct l.
Qed.

Ltac prc_step := erewrite M_bind_ok; [|apply zoom_ok; eassumption]; cbn beta zeta.

(** Is it an INVITE with a tag in its To header? *)
Definition tagged_invite (r : new_request) : bool :=
  bool_decide (sip_request_method (nr_sip r) = Some sip_method_invite) && bool_decide (is_Some (nr_to_tag r)).
Definition kept_meta (r : new_request) : SipMsgData_t := set_dest (nr_tport r).1 (nr_tport r).2 (nr_meta r).
(** [s'] holds the new request under [uuid], with what is needed to route it later. *)
Definition holds_request (s' : server) (uuid : string) (r : new_request) : Prop :=
  exists l' p o, pending_inv (srv_prc s') l' /\ m_mapTxnId2Invite (srv_prc s') !! uuid = Some p /\
    pr_objects (srv_prc s') !! p = Some o /\ pr_meta o = kept_meta r /\ pr_encodedMsg o = nr_encoded r.

(** [processNewRequest] on every branch: an INVITE with an unknown tag is
    refused with 481; without a route, 503 when no client takes the method,
    else the request is kept pending and posted to an eligible client, which
    becomes the owner of its transaction; with a route the request is kept
    and its web callback is called with the query string of the request.  To
    keep it aborts exactly when its timer collides with the last one. *)
Theorem processNewRequest_outcome (s : server) l uuid r now :
  pending_inv (srv_prc s) l -> m_lock (srv_clients s) = false ->
  m_mapCallId2Invite (srv_prc s) !! makeUniqueSipTransactionIdentifier (nr_sip r) = None ->
  m_mapTxnId2Invite (srv_prc s) !! uuid = None -> m_mapNetTransactions (srv_clients s) !! uuid = None ->
  let els := eligible (srv_clients s) (str_map to_lower (nr_method_name r)) None in
  let run := processNewRequest uuid r now s in
  if tagged_invite r then run = Ok ((481, None)%Z, s) else
  match RequestRouter_getRoute (nr_method_name r) (srv_router s) with
  | None =>
    if bool_decide (els = []) then exists cc', run = Ok ((503%Z, Some uuid), set_clients cc' s) /\
      m_posted cc' = m_posted (srv_clients s)
    else collides now l /\ run = Fault AssertFail \/ ~ collides now l /\ exists client s', client ∈ els /\ run = Ok ((0%Z, Some uuid), s') /\
      holds_request s' uuid r /\ m_mapNetTransactions (srv_clients s') !! uuid = Some client /\
      m_posted (srv_clients s') = m_posted (srv_clients s) ++ [sendNewSipMessage client uuid (nr_encoded r) (kept_meta r)] /\
      srv_web s' = srv_web s
  | Some (httpMethod, httpUrl, _) => httpUrl ≠ ""%string ->
    collides now l /\ run = Fault AssertFail \/ ~ collides now l /\ exists s', run = Ok ((0%Z, Some uuid), s') /\ holds_request s' uuid r /\
      srv_clients s' = srv_clients s /\
      srv_web s' = srv_web s ++ [WebRequest uuid httpMethod (callback_url r (kept_meta r) httpUrl) (nr_encoded r)]
  end.
Proof.
  intros Hi Hcl Hid Htx Hnet els run. subst run. unfold processNewRequest. fold (tagged_invite r).
  destruct (tagged_invite r); [done|]. erewrite M_bind_ok by reflexivity. cbn beta zeta.
  destruct (add_and_keep _ _ uuid (nr_sip r) now (kept_meta r) (nr_encoded r) Hi Hid Htx)
    as [[Hcol Hf]|(Hcol & p & o & c1 & c2 & c3 & l' & Hadd & Hload & Hto & Hst1 & Hst2 & Hi3 & Hp3 & Ho3)].
  all: assert (Hsel := select_run (srv_clients s) (nr_method_name r) None Hcl); cbn zeta in Hsel; fold els in Hsel.
  all: destruct Hsel as (cc' & Hsel & Hlock & _); destruct (select_frame _ _ _ _ _ Hsel) as [Hpost Hnt].
  all: destruct (RequestRouter_getRoute _ _) as [[[m u] v]|].
  - intros Hu. left. split; [done|]. erewrite M_bind_ok by reflexivity. cbn. by apply M_bind_fault, zoom_fault.
  - erewrite M_bind_ok by (apply zoom_ok; exact Hsel). cbn beta.
    destruct (bool_decide_reflect (els = [])) as [He|He]; [by exists cc'|]. left. split; [done|].
    destruct (lookup_mod els (offset_of (srv_clients s) (offset_key (str_map to_lower (nr_method_name r)) None)) He)
      as [client ->]. by apply M_bind_fault, zoom_fault.
  - intros Hu. right. split; [done|]. erewrite M_bind_ok by reflexivity. cbn beta. rewrite (bool_decide_eq_false_2 (Some _ = None)) by done.
    cbn [andb]. do 4 prc_step. destruct (String.eqb_spec u ""); [done|]. subst uuid. fold (kept_meta r).
    eexists. split; [reflexivity|]. split_and!; [|done..]. exists l', p. by eexists.
  - erewrite M_bind_ok by (apply zoom_ok; exact Hsel). cbn beta.
    destruct (bool_decide_reflect (els = [])) as [He|He]; [by exists cc'|]. right. split; [done|].
    destruct (lookup_mod els (offset_of (srv_clients s) (offset_key (str_map to_lower (nr_method_name r)) None)) He)
      as [client Ecl]. rewrite Ecl.
    cbn [andb]. rewrite (bool_decide_eq_false_2 (Some _ = None)), andb_false_r by done. do 4 prc_step.
    cbn [String.eqb]. subst uuid. fold (kept_meta r).
    exists client. eexists. split; [by eapply list_elem_of_lookup_2|]. split.
    { erewrite M_bind_ok; [reflexivity|]. erewrite M_bind_ok by reflexivity. cbn beta.
      erewrite M_bind_ok; [reflexivity|]. apply zoom_ok, locked_run; [exact Hlock|reflexivity]. }
    split_and!; [exists l', p; by eexists| | |done].
    + cbn. rewrite map_insert_fresh by congruence. apply lookup_insert_eq.
    + cbn. by rewrite Hpost.
Qed.
End properties.

(** ** Witnesses *)

Module PendingWitnesses.
Import ClockZ.

Definition an_invite : sip_t := MkSip "call1" (Some sip_method_invite) "INVITE" 1 (Some "z9hG4bK1") [] None.
(** One pending request, "t1", whose timer expires after 64 seconds. *)
Definition x1 : timer string := (1%positive, ("t1"%string, None, at_us 64000000)).
Definition o1 : PendingRequest_t := MkPendingRequest an_invite "t1" (Some 1%positive) false no_meta "".
Definition prc1 : PendingRequestController := added PRC_new 1%positive o1 (one_timer x1).
Lemma prc1_inv : pending_inv prc1 [x1].
Proof.
  apply (added_inv PRC_new [] [x1] 1%positive o1 (one_timer x1) x1); try done; [apply PRC_new_inv|apply one_timer_inv].
Qed.
Definition cc1 : ClientController :=
  MkClientController {[ 2%positive := ClientInfo ∅ "" ]} false {[ 2%positive ]} []
    [("invite"%string, 2%positive)] ∅ ∅ ∅ {[ "t1"%string := 2%positive ]} ∅ ∅ [].
Definition server1 : server := MkServer prc1 cc1 ∅ [].

Lemma pending_add_findAndRemove_witness :
  pending_add "t1" an_invite (at_us 0) PRC_new = Fault AssertFail \/
  exists p c1 l1 c2, pending_add "t1" an_invite (at_us 0) PRC_new = Ok (p, c1) /\ pending_inv c1 l1 /\
    length l1 = 1 /\ pending_find "t1" c1 = Ok (Some p, c1) /\ pending_isRetransmission an_invite c1 = Ok (true, c1) /\
    getMethodForRequest "t1" c1 = Ok (Some "INVITE"%string, c1) /\
    findAndRemove "t1" false c1 = Ok (Some p, c2) /\ pending_inv c2 [] /\
    m_mapTxnId2Invite c2 = ∅ /\ m_mapCallId2Invite c2 = ∅.
Proof.
  exact (pending_add_findAndRemove PRC_new [] "t1" an_invite (at_us 0) PRC_new_inv eq_refl eq_refl).
Defined.

Lemma pending_timeout_clears_witness :
  exists s', pending_doTimer (at_us 64000001) server1 = Ok (tt, s') /\ pending_inv (srv_prc s') [] /\
    m_lock (srv_clients s') = false /\
    m_mapTxnId2Invite (srv_prc s') = delete "t1"%string (m_mapTxnId2Invite prc1) /\
    size (m_mapCallId2Invite (srv_prc s')) = 0 /\
    m_mapNetTransactions (srv_clients s') = delete "t1"%string (m_mapNetTransactions cc1).
Proof.
  exact (pending_timeout_clears server1 x1 [] (at_us 64000001) prc1_inv eq_refl ltac:(vm_compute; reflexivity)).
Defined.

Lemma pending_duplicate_aborts_witness :
  pending_add "t2" an_invite (at_us 5) prc1 = Fault AssertFail \/
  exists p2 c1, pending_add "t2" an_invite (at_us 5) prc1 = Ok (p2, c1) /\
    m_mapCallId2Invite c1 = m_mapCallId2Invite prc1 /\ pending_find "t2" c1 = Ok (Some p2, c1) /\
    exists c2, findAndRemove "t1" true c1 = Ok (Some 1%positive, c2) /\
      forall timeout, findAndRemove "t2" timeout c2 = Fault AssertFail.
Proof.
  exact (pending_duplicate_aborts prc1 [x1] 1%positive "t1" "t2" an_invite o1 (at_us 5) prc1_inv eq_refl eq_refl eq_refl eq_refl).
Defined.

Definition new_invite : new_request :=
  NewRequest (MkSip "call2" (Some sip_method_invite) "INVITE" 1 (Some "z9hG4bK2") [] None) "INVITE" None "INVITE sip:a@b"
    no_meta ("127.0.0.1", "5060")%string None None None None None "sip:a@b" None.
Lemma processNewRequest_outcome_witness :
  collides (at_us 5) [x1] /\ processNewRequest "t2" new_invite (at_us 5) server1 = Fault AssertFail \/
  ~ collides (at_us 5) [x1] /\ exists c s', c ∈ eligible cc1 "invite" None /\ processNewRequest "t2" new_invite (at_us 5) server1 = Ok ((0%Z, Some "t2"%string), s') /\
    holds_request s' "t2" new_invite /\ m_mapNetTransactions (srv_clients s') !! "t2"%string = Some c /\
    m_posted (srv_clients s') = [sendNewSipMessage c "t2" "INVITE sip:a@b" (kept_meta new_invite)] /\ srv_web s' = [].
Proof.
  exact (processNewRequest_outcome server1 [x1] "t2" new_invite (at_us 5) prc1_inv eq_refl eq_refl eq_refl eq_refl).
Defined.
End PendingWitnesses.
