(* ===== verification/SipDialog.v ===== *)
(** Model of [SipDialog] and the container of stable dialogs
    (src/sip-dialog.hpp, src/sip-dialog.cpp): the resources a dialog holds in
    the SIP stack, its session timer, its retransmission timers and its
    identity. *)
From S2P Require Import Prelude CppString TextUtil SipTags.

Open Scope list_scope.

(** ** The SIP stack as the dialog sees it *)

Record tp_name_t := TpName {
  tpn_host : string;
  tpn_port : string;
  tpn_proto : string;
}.
(** What sofia answers about a transport: a primary one is a listening socket,
    a secondary one a connection. *)
Class SofiaTport := {
  tport_name : positive -> tp_name_t;
  tport_is_dgram : positive -> bool;
  tport_is_secondary : positive -> bool;
  tport_is_udp : positive -> bool;
}.

(** Calls that the dialog makes on the other controllers. *)
Inductive dialog_call :=
  | stopTimerD (orq : positive)
  | clearDanglingIncomingRequests (txnIds : list string)
  | removeNetTransactionOf (transactionId : string)
  | notifyRefreshDialog
  | notifyTerminateStaleDialog.

(** [tp_refs] counts the references the program holds on each transport,
    [tp_closed] are the closed ones; [st_orqs] are the live outgoing
    transactions with their transport; [st_timers], [st_cells] and [st_legs]
    the live sofia timers, weak pointers and legs. *)
Record stack := MkStack {
  tp_refs : gmap positive nat;
  tp_closed : gset positive;
  st_orqs : gmap positive (option positive);
  st_timers : gset positive;
  st_cells : gset positive;
  st_legs : gset positive;
  st_calls : list dialog_call;
}.
Definition on_refs u s := MkStack (u (tp_refs s)) (tp_closed s) (st_orqs s) (st_timers s) (st_cells s) (st_legs s) (st_calls s).
Definition on_closed u s := MkStack (tp_refs s) (u (tp_closed s)) (st_orqs s) (st_timers s) (st_cells s) (st_legs s) (st_calls s).
Definition on_orqs u s := MkStack (tp_refs s) (tp_closed s) (u (st_orqs s)) (st_timers s) (st_cells s) (st_legs s) (st_calls s).
Definition on_su_timers u s := MkStack (tp_refs s) (tp_closed s) (st_orqs s) (u (st_timers s)) (st_cells s) (st_legs s) (st_calls s).
Definition on_cells u s := MkStack (tp_refs s) (tp_closed s) (st_orqs s) (st_timers s) (u (st_cells s)) (st_legs s) (st_calls s).
Definition on_legs u s := MkStack (tp_refs s) (tp_closed s) (st_orqs s) (st_timers s) (st_cells s) (u (st_legs s)) (st_calls s).
Definition on_calls u s := MkStack (tp_refs s) (tp_closed s) (st_orqs s) (st_timers s) (st_cells s) (st_legs s) (u (st_calls s)).

Abbreviation ST := (M stack).
Definition refs_of (s : stack) (tp : positive) : nat := default 0 (tp_refs s !! tp).
Definition tport_ref (tp : positive) : ST unit := fun s =>
  Ok (tt, on_refs (insert tp (S (refs_of s tp))) s).
(** Giving back a reference that is not held is a fault. *)
Definition tport_unref (tp : positive) : ST unit := fun s =>
  match refs_of s tp with
  | O => Fault BadAccess
  | S n => Ok (tt, on_refs (insert tp n) s)
  end.
Definition tport_is_closed (s : stack) (tp : positive) : bool := bool_decide (tp ∈ tp_closed s).
(** The transport of a transaction, with a reference for the caller. *)
Definition nta_outgoing_transport (orq : positive) : ST (option positive) :=
  s ← get;
  tp ← deref (st_orqs s !! orq);
  match tp with
  | None => mret None
  | Some tp => _ ← tport_ref tp; mret (Some tp)
  end.
Definition nta_outgoing_destroy (orq : positive) : ST unit :=
  s ← get; _ ← deref (st_orqs s !! orq); modify (on_orqs (delete orq)).
(** Release one of a set of live resources. *)
Definition release (proj : stack -> gset positive) (on : (gset positive -> gset positive) -> stack -> stack)
    (p : positive) : ST unit :=
  s ← get; if bool_decide (p ∈ proj s) then modify (on (fun x => x ∖ {[p]})) else fail BadAccess.
Definition acquire (proj : stack -> gset positive) (on : (gset positive -> gset positive) -> stack -> stack) : ST positive :=
  fun s => let p := fresh (proj s) in Ok (p, on (fun x => {[p]} ∪ x) s).
Definition call (c : dialog_call) : ST unit := modify (on_calls (fun l => l ++ [c])).

(** ** The dialog *)

Inductive DialogType_t := we_are_uac | we_are_uas.
Inductive SessionRefresher_t := no_refresher | we_are_refresher | they_are_refresher.
#[export] Instance DialogType_eq_dec : EqDecision DialogType_t.
Proof. solve_decision. Defined.
#[export] Instance SessionRefresher_eq_dec : EqDecision SessionRefresher_t.
Proof. solve_decision. Defined.

Record Endpoint_t := Endpoint {
  m_strSdp : string;
  m_strContentType : string;
  m_strTag : string;
}.

(** The members of [class SipDialog], in groups. *)
Record dialog_ids := DialogIds {
  m_type : DialogType_t;
  m_strCallId : string;
  m_dialogId : string;
  m_transactionId : string;
  m_localEndpoint : Endpoint_t;
  m_remoteEndpoint : Endpoint_t;
}.
Record dialog_net := DialogNet {
  m_tp : option positive;
  m_orqAck : option positive;
  m_bDestroyAckOnClose : bool;
  m_transportAddress : string;
  m_transportPort : string;
  m_protocol : string;
  m_sourceAddress : string;
  m_sourcePort : Z;
  m_routeUri : string;
}.
Record session_timer := SessionTimer {
  m_refresher : SessionRefresher_t;
  m_timerSessionRefresh : option positive;
  m_ppSelf : option positive;
  m_nSessionExpiresSecs : Z;
  m_nMinSE : Z;
  m_nSessionTimerDuration : Z;
}.
Record SipDialog := MkSipDialog {
  d_ids : dialog_ids;
  d_net : dialog_net;
  d_session : session_timer;
  m_leg : option positive;
  m_orq : option positive;
  m_seq : Z;
  m_recentSipStatus : Z;
  m_bInviteDialog : bool;
  m_durationTimerG : Z;
  m_incomingRequestTransactionIds : gset string;
}.
Definition set_ids i d :=
  MkSipDialog i (d_net d) (d_session d) (m_leg d) (m_orq d) (m_seq d) (m_recentSipStatus d) (m_bInviteDialog d)
    (m_durationTimerG d) (m_incomingRequestTransactionIds d).
Definition set_net n d :=
  MkSipDialog (d_ids d) n (d_session d) (m_leg d) (m_orq d) (m_seq d) (m_recentSipStatus d) (m_bInviteDialog d)
    (m_durationTimerG d) (m_incomingRequestTransactionIds d).
Definition set_session t d :=
  MkSipDialog (d_ids d) (d_net d) t (m_leg d) (m_orq d) (m_seq d) (m_recentSipStatus d) (m_bInviteDialog d)
    (m_durationTimerG d) (m_incomingRequestTransactionIds d).
Definition set_leg l d :=
  MkSipDialog (d_ids d) (d_net d) (d_session d) l (m_orq d) (m_seq d) (m_recentSipStatus d) (m_bInviteDialog d)
    (m_durationTimerG d) (m_incomingRequestTransactionIds d).
Definition set_durationTimerG g d :=
  MkSipDialog (d_ids d) (d_net d) (d_session d) (m_leg d) (m_orq d) (m_seq d) (m_recentSipStatus d) (m_bInviteDialog d)
    g (m_incomingRequestTransactionIds d).
Definition on_incoming u d :=
  MkSipDialog (d_ids d) (d_net d) (d_session d) (m_leg d) (m_orq d) (m_seq d) (m_recentSipStatus d) (m_bInviteDialog d)
    (m_durationTimerG d) (u (m_incomingRequestTransactionIds d)).
Definition set_tp tp n :=
  DialogNet tp (m_orqAck n) (m_bDestroyAckOnClose n) (m_transportAddress n) (m_transportPort n) (m_protocol n)
    (m_sourceAddress n) (m_sourcePort n) (m_routeUri n).
Definition set_orqAck q n :=
  DialogNet (m_tp n) q (m_bDestroyAckOnClose n) (m_transportAddress n) (m_transportPort n) (m_protocol n)
    (m_sourceAddress n) (m_sourcePort n) (m_routeUri n).

Abbreviation DLG := (M (SipDialog * stack)).
Definition stk {A} (m : ST A) : DLG A := zoom snd (fun s x => (x.1, s)) m.
Definition this (f : SipDialog -> SipDialog) : DLG unit := modify (fun x => (f x.1, x.2)).
Definition self : DLG SipDialog := x ← get; mret x.1.
Definition on_net_group (f : dialog_net -> dialog_net) : DLG unit := this (fun d => set_net (f (d_net d)) d).
Definition on_session (f : session_timer -> session_timer) : DLG unit := this (fun d => set_session (f (d_session d)) d).

(** ** Transports *)

Section transports.
Context `{SofiaTport}.

Definition checkTportState : DLG unit :=
  x ← get;
  match m_tp (d_net x.1) with
  | Some tp =>
    if tport_is_closed x.2 tp then
      _ ← stk (tport_unref tp); on_net_group (set_tp None)
    else mret tt
  | None => mret tt
  end.

Definition setTport (tp : positive) : DLG unit :=
  d ← self;
  _ ← match m_tp (d_net d) with Some old => stk (tport_unref old) | None => mret tt end;
  _ ← stk (tport_ref tp);
  let tpn := tport_name tp in
  on_net_group (fun n => DialogNet (Some tp) (m_orqAck n) (m_bDestroyAckOnClose n) (tpn_host tpn) (tpn_port tpn)
    (tpn_proto tpn) (m_sourceAddress n) (m_sourcePort n) (m_routeUri n)).

Definition getTport : DLG (option positive) :=
  _ ← checkTportState;
  d ← self;
  match m_tp (d_net d), m_orqAck (d_net d) with
  | Some tp, _ => mret (Some tp)
  | None, Some orqAck =>
    tp ← stk (nta_outgoing_transport orqAck);
    match tp with
    | None => mret None
    | Some tp =>
      x ← get;
      r ← (if tport_is_closed x.2 tp then _ ← stk (tport_unref tp); mret None
           else _ ← setTport tp; _ ← stk (tport_unref tp); mret (Some tp));
      _ ← stk (nta_outgoing_destroy orqAck);
      _ ← on_net_group (set_orqAck None);
      mret r
    end
  | None, None => mret None
  end.

Definition setOrqAck (orq : positive) (destroyAckOnClose : bool) : DLG unit :=
  on_net_group (fun n => DialogNet (m_tp n) (Some orq) destroyAckOnClose (m_transportAddress n) (m_transportPort n)
    (m_protocol n) (m_sourceAddress n) (m_sourcePort n) (m_routeUri n)).

(** ** Construction *)

(** [atoi] of a C string: leading digits (the strings are port numbers). *)
Fixpoint atoi_loop (s : string) (acc : Z) : Z :=
  match s with
  | String c s' => if is_digit c then atoi_loop s' (10 * acc + (Z.of_N (code c) - 48))%Z else acc
  | EmptyString => acc
  end.
Definition atoi (s : string) : Z := atoi_loop s 0.

Definition no_session : session_timer := SessionTimer no_refresher None None 0 90 0.
Definition no_endpoint : Endpoint_t := Endpoint "" "" "".

(** What the constructor for an incoming INVITE reads: the transaction's
    remote host and port, protocol and URL scheme, the remote tag of the leg,
    the message (call id, method, payload, content type, host and port of the
    Contact URL), and the configuration. *)
Record incoming_invite := IncomingInvite {
  ii_leg : positive;
  ii_tport : positive;
  ii_remote_host : string;
  ii_remote_port : string;
  ii_protocol : string;
  ii_scheme : string;
  ii_rtag : option string;
  ii_sip : sip_t;
  ii_payload : string;
  ii_content_type : string;
  ii_contact_url : option (option string * option string);
}.

(** The UDP nat check. *)
Definition behind_nat (aggressiveNat natDetectionDisabled : bool) (i : incoming_invite) : res bool :=
  if aggressiveNat && sipMsgHasNatEqualsYes (ii_sip i) false false then mret true else
  if negb natDetectionDisabled && bool_decide (sip_record_route (ii_sip i) = []) then
    match ii_contact_url i with
    | None => mret false
    | Some (None, _) => Fault BadAccess
    | Some (Some host, port) =>
      mret (negb (String.eqb (ii_remote_host i) host) ||
            match port with Some p => negb (Z.eqb (atoi p) (atoi (ii_remote_port i))) | None => false end)
    end
  else mret false.

Definition lift {A} (r : res A) : ST A := fun s => match r with Ok a => Ok (a, s) | Fault f => Fault f end.
Definition SipDialog_uas (aggressiveNat natDetectionDisabled : bool) (i : incoming_invite) : ST SipDialog :=
  _ ← tport_ref (ii_tport i);
  let tpn := tport_name (ii_tport i) in
  rtag ← match ii_rtag i with Some t => mret t | None => fail AssertFail end;
  nat ← (if tport_is_dgram (ii_tport i) then lift (behind_nat aggressiveNat natDetectionDisabled i) else mret false);
  let routeUri := if (nat : bool)
    then ii_scheme i +:+ ":" +:+ ii_remote_host i +:+ ":" +:+ to_string (atoi (ii_remote_port i)) else ""%string in
  mret (MkSipDialog
    (DialogIds we_are_uas (sip_call_id (ii_sip i)) "" "" no_endpoint (Endpoint (ii_payload i) (ii_content_type i) rtag))
    (DialogNet (Some (ii_tport i)) None false (tpn_host tpn) (tpn_port tpn) (ii_protocol i) (ii_remote_host i)
       (atoi (ii_remote_port i)) routeUri)
    no_session (Some (ii_leg i)) None 0 100
    (bool_decide (sip_request_method (ii_sip i) = Some sip_method_invite)) 0 ∅).

(** The same for an outgoing INVITE: [oi_name] and [oi_port] are the address
    the message was sent to, [oi_route] the route of the transaction. *)
Record outgoing_invite := OutgoingInvite {
  oi_transactionId : string;
  oi_leg : positive;
  oi_orq : positive;
  oi_ltag : option string;
  oi_seq : Z;
  oi_sip : sip_t;
  oi_payload : string;
  oi_content_type : string;
  oi_name : string;
  oi_port : Z;
  oi_route : option string;
  oi_transport : string;
}.
Definition SipDialog_uac (i : outgoing_invite) : ST SipDialog :=
  tp ← nta_outgoing_transport (oi_orq i);
  let '(proto, (host, port)) :=
    match tp with
    | Some tp => (tpn_proto (tport_name tp), (tpn_host (tport_name tp), tpn_port (tport_name tp)))
    | None => default ("", ("", ""))%string (parseTransportDescription (oi_transport i))
    end in
  ltag ← match oi_ltag i with Some t => mret t | None => fail AssertFail end;
  let source := if strstr (oi_name i) ":" then ("[" +:+ oi_name i +:+ "]")%string else oi_name i in
  mret (MkSipDialog
    (DialogIds we_are_uac (sip_call_id (oi_sip i)) "" (oi_transactionId i)
       (Endpoint (oi_payload i) (oi_content_type i) ltag) no_endpoint)
    (DialogNet tp None false host port proto source (oi_port i) (default ""%string (oi_route i)))
    no_session (Some (oi_leg i)) (Some (oi_orq i)) (oi_seq i) 0
    (bool_decide (sip_request_method (oi_sip i) = Some sip_method_invite)) 0 ∅).
End transports.

(** ** Session timer *)

(** [unsigned long] to [su_duration_t] ([long]). *)
Definition to_long (n : Z) : Z :=
  let u := (n mod 2 ^ 64)%Z in if (u <? 2 ^ 63)%Z then u else (u - 2 ^ 64)%Z.

Definition areWeRefresher (t : session_timer) : bool := bool_decide (m_refresher t = we_are_refresher).

Definition cancelSessionTimer : DLG unit :=
  d ← self;
  match m_timerSessionRefresh (d_session d) with
  | None => fail AssertFail
  | Some t =>
    _ ← stk (release st_timers on_su_timers t);
    on_session (fun s => SessionTimer no_refresher None (m_ppSelf s) 0 (m_nMinSE s) (m_nSessionTimerDuration s))
  end.

(** [rand] is the value of [rand()]. *)
Definition timer_duration (rand nSecs : Z) (whoIsResponsible : SessionRefresher_t) : Z :=
  let d := to_long (nSecs * 1000) in
  if bool_decide (whoIsResponsible = we_are_refresher) then (Z.quot d 2 + (Z.rem rand 10000 - 5000))%Z else d.
Definition setSessionTimer (rand nSecs : Z) (whoIsResponsible : SessionRefresher_t) : DLG unit :=
  d ← self;
  _ ← (if bool_decide (is_Some (m_timerSessionRefresh (d_session d))) then cancelSessionTimer else mret tt);
  t ← stk (acquire st_timers on_su_timers);
  p ← stk (acquire st_cells on_cells);
  on_session (fun s => SessionTimer whoIsResponsible (Some t) (Some p) nSecs (m_nMinSE s)
    (timer_duration rand nSecs whoIsResponsible)).

(** What follows the notification. *)
Definition doSessionTimerHandling_end : DLG unit :=
  d ← self;
  match m_ppSelf (d_session d) with
  | None => fail AssertFail
  | Some p =>
    _ ← stk (release st_cells on_cells p);
    on_session (fun s => SessionTimer no_refresher None None 0 (m_nMinSE s) (m_nSessionTimerDuration s))
  end.
Definition doSessionTimerHandling : DLG unit :=
  d ← self;
  _ ← stk (call (if areWeRefresher (d_session d) then notifyRefreshDialog else notifyTerminateStaleDialog));
  doSessionTimerHandling_end.

(** ** Destruction *)

Definition when_some {A} (o : option A) (k : A -> DLG unit) : DLG unit :=
  match o with Some a => k a | None => mret tt end.
Definition SipDialog_destroy : DLG unit :=
  d ← self;
  _ ← when_some (m_timerSessionRefresh (d_session d)) (fun _ =>
        _ ← cancelSessionTimer;
        if bool_decide (is_Some (m_ppSelf (d_session d))) then mret tt else fail AssertFail);
  _ ← when_some (m_ppSelf (d_session d)) (fun p => stk (release st_cells on_cells p));
  _ ← when_some (m_leg d) (fun l => _ ← stk (release st_legs on_legs l); this (set_leg None));
  _ ← when_some (m_tp (d_net d)) (fun tp => stk (tport_unref tp));
  _ ← (if bool_decide (m_type (d_ids d) = we_are_uac) then when_some (m_orq d) (fun q => stk (call (stopTimerD q)))
       else mret tt);
  _ ← when_some (m_orqAck (d_net d)) (fun q =>
        if m_bDestroyAckOnClose (d_net d) then stk (nta_outgoing_destroy q) else mret tt);
  _ ← when_some (m_orq d) (fun q => stk (nta_outgoing_destroy q));
  _ ← stk (call (clearDanglingIncomingRequests (elements (m_incomingRequestTransactionIds d))));
  stk (call (removeNetTransactionOf (m_transactionId (d_ids d)))).

(** ** Retransmission of a final response (timer G) *)

Definition NTA_SIP_T1 : Z := 500.
Definition NTA_SIP_T2 : Z := 4000.
Definition setTimerG (d : SipDialog) : SipDialog :=
  if Z.eqb (m_durationTimerG d) 0 then set_durationTimerG NTA_SIP_T1 d else d.
(** [m_durationTimerG << 1] on 32 bits. *)
Definition bumpTimerG (d : SipDialog) : Z * SipDialog :=
  let g := Z.min (Z.shiftl (m_durationTimerG d) 1 mod 2 ^ 32) NTA_SIP_T2 in (g, set_durationTimerG g d).

(** ** Identity *)

Definition getDialogId (d : SipDialog) : string * SipDialog :=
  let i := d_ids d in
  if String.eqb (m_dialogId i) "" then
    let id := m_strCallId i +:+ ";from-tag=" +:+
      (match m_type i with we_are_uac => m_strTag (m_localEndpoint i) | we_are_uas => m_strTag (m_remoteEndpoint i) end) in
    (id, set_ids (DialogIds (m_type i) (m_strCallId i) id (m_transactionId i) (m_localEndpoint i) (m_remoteEndpoint i)) d)
  else (m_dialogId i, d).

Definition addIncomingRequestTransaction (txnId : string) : SipDialog -> SipDialog := on_incoming (fun s => {[txnId]} ∪ s).
Definition removeIncomingRequestTransaction (txnId : string) : SipDialog -> SipDialog := on_incoming (fun s => s ∖ {[txnId]}).
Definition getIncomingRequestTransactionIds (d : SipDialog) : list string := elements (m_incomingRequestTransactionIds d).

(** [StableDialogs_t]: a multi-index container, unique by object, by leg and
    by dialog id; an insertion that collides in any of them is refused. *)
Record sd_key := SdKey { sd_leg : option positive; sd_dialogId : string; sd_role : DialogType_t }.
Abbreviation StableDialogs_t := (gmap positive sd_key).
Definition key_of (d : SipDialog) : sd_key := SdKey (m_leg d) (getDialogId d).1 (m_type (d_ids d)).
Definition sd_find (test : sd_key -> bool) (dialogs : StableDialogs_t) : option positive :=
  fst <$> head (filter (fun e => test e.2 = true) (map_to_list dialogs)).
Definition same_leg (leg : option positive) (k : sd_key) : bool := bool_decide (sd_leg k = leg).
Definition same_id (id : string) (k : sd_key) : bool := bool_decide (sd_dialogId k = id).
Definition SD_FindByLeg (leg : option positive) (dialogs : StableDialogs_t) : option positive := sd_find (same_leg leg) dialogs.
Definition SD_FindByDialogId (dialogId : string) (dialogs : StableDialogs_t) : option positive := sd_find (same_id dialogId) dialogs.
Definition SD_Insert (p : positive) (k : sd_key) (dialogs : StableDialogs_t) : StableDialogs_t :=
  if bool_decide (is_Some (dialogs !! p)) || bool_decide (is_Some (SD_FindByLeg (sd_leg k) dialogs))
     || bool_decide (is_Some (SD_FindByDialogId (sd_dialogId k) dialogs))
  then dialogs else <[p := k]> dialogs.
Definition SD_Clear (p : positive) (dialogs : StableDialogs_t) : StableDialogs_t := delete p dialogs.
Definition SD_Clear_id (dialogId : string) (dialogs : StableDialogs_t) : StableDialogs_t :=
  match SD_FindByDialogId dialogId dialogs with Some p => delete p dialogs | None => dialogs end.
Definition SD_Clear_leg (leg : option positive) (dialogs : StableDialogs_t) : StableDialogs_t :=
  match SD_FindByLeg leg dialogs with Some p => delete p dialogs | None => dialogs end.
Definition SD_Size (dialogs : StableDialogs_t) : nat * (nat * nat) :=
  let roles := (sd_role ∘ snd) <$> map_to_list dialogs in
  (size dialogs, (length (filter (fun r => r = we_are_uac) roles), length (filter (fun r => r = we_are_uas) roles))).
