(* ===== verification/StackMessages.v ===== *)
(** Model of what drachtio.cpp takes from a message of the stack
    ([SipMsgData_t]: where it came from or goes to, and when), and of the ACK
    that [ackResponse] sends for a response. *)
From S2P Require Import Prelude CppString TextUtil SipTags Cdr SipDialog.

Open Scope string_scope.
Open Scope list_scope.

(** What the stack knows of a message and of a transport, which may be NULL. *)
Record msg_view := MsgView {
  mv_host : string;
  mv_port : Z;
  mv_size : Z;
}.
Class TportKind := {
  kind_is_udp : option positive -> bool;
  kind_has_tls : option positive -> bool;
  kind_is_tcp : option positive -> bool;
}.

(** ** Metadata *)

Section meta.
Context `{SofiaTport} `{TportKind}.

(** TLS before TCP; [otherwise]: when none fits. *)
Definition protocol_of (tport : option positive) (otherwise : string) : string :=
  if kind_is_udp tport then "udp" else if kind_has_tls tport then "tls" else if kind_is_tcp tport then "tcp" else otherwise.
Definition unref (tport : option positive) : ST unit := match tport with Some tp => tport_unref tp | None => mret tt end.
Definition SipMsgData_init (m : msg_view) (protocol source time : string) : SipMsgData_t :=
  MkSipMsgData protocol (str_take 9 (to_string (mv_size m mod 2 ^ 32))) (mv_host m) (str_take 9 (to_string (mv_port m))) time source "" "".
(** [tport]: what [nta_incoming_transport] returns; [sec] and [usec]: what
    [su_now] does. *)
Definition incoming_transport (tport : option positive) : ST unit := match tport with Some tp => tport_ref tp | None => mret tt end.
Definition SipMsgData_of_msg (m : msg_view) (tport : option positive) (sec usec : Z) : ST SipMsgData_t :=
  _ ← incoming_transport tport;
  _ ← assertb (bool_decide (is_Some tport));
  _ ← unref tport;
  mret (SipMsgData_init m (protocol_of tport "") "network" (time_text (sec, usec))).
Definition SipMsgData_of_irq (m : msg_view) (tport : option positive) (source : string) (sec usec : Z) : ST SipMsgData_t :=
  _ ← incoming_transport tport;
  _ ← unref tport;
  mret (SipMsgData_init m (protocol_of tport "") source (time_text (sec, usec))).
Definition set_address (host port : string) (d : SipMsgData_t) : SipMsgData_t :=
  MkSipMsgData (TextUtil.m_protocol d) (m_bytes d) host port (m_time d) (m_source d) (m_destAddress d) (m_destPort d).
Definition SipMsgData_of_orq (m : msg_view) (orq : positive) (source : string) (sec usec : Z) : ST SipMsgData_t :=
  tport ← nta_outgoing_transport orq;
  let d := SipMsgData_init m (protocol_of tport "unknown") source (time_text (sec, usec)) in
  let d := match tport with
           | Some tp => if String.eqb source "application" then set_address (tpn_host (tport_name tp)) (tpn_port (tport_name tp)) d else d
           | None => d
           end in
  _ ← unref tport;
  mret d.
End meta.

(** ** The ACK for a response *)

(** What it takes from the response. *)
Record response_view := ResponseView {
  rv_from_to_callid : string * string * string;
  rv_contact : option string;
  rv_status : Z;
  rv_cseq : Z;
  rv_branch : string;
  rv_addr : msg_view;
}.
Record ack_request := AckRequest {
  ak_from_to_callid : string * string * string;
  ak_ruri : string;
  ak_cseq : Z;
  ak_branch : string;
  ak_tport : option positive;
}.
Definition ack_uri (r : response_view) : string :=
  match rv_contact r with
  | Some uri => if bool_decide (399 < rv_status r)%Z then uri
                else "sip:" +:+ mv_host (rv_addr r) +:+ ":" +:+ str_take 9 (to_string (mv_port (rv_addr r)))
  | None => "sip:" +:+ mv_host (rv_addr r) +:+ ":" +:+ str_take 9 (to_string (mv_port (rv_addr r)))
  end.
(** Whether the new message can be made, its CSeq, its request line, and
    whether it can be sent. *)
Record ack_steps := AckSteps { as_message : bool; as_cseq : bool; as_request : bool; as_sent : bool }.
(** The result, the message that was sent, and whether the message is
    destroyed here. *)
Definition ackResponse (r : response_view) (tport : option positive) (ok : ack_steps) : ST (Z * option ack_request * bool) :=
  _ ← incoming_transport tport;
  if negb (as_message ok) then mret ((-1)%Z, None, false) else
  if negb (as_cseq ok && as_request ok && as_sent ok) then mret ((-1)%Z, None, true) else
  mret (0%Z, Some (AckRequest (rv_from_to_callid r) (ack_uri r) (rv_cseq r) (rv_branch r) tport), false).

(** ** What they leave behind *)

Section references.
Context `{SofiaTport} `{TportKind}.

Lemma ref_unref tp (s : stack) : exists s', (_ ← tport_ref tp; tport_unref tp) s = Ok (tt, s') /\ forall t, refs_of s' t = refs_of s t.
Proof.
  eexists. split.
  - erewrite M_bind_ok by reflexivity. unfold tport_unref, refs_of, on_refs. cbn. rewrite lookup_insert_eq. cbn. reflexivity.
  - intros t. unfold refs_of, on_refs. cbn. rewrite insert_insert_eq. destruct (decide (t = tp)) as [->|Hne]; [by rewrite lookup_insert_eq|].
    by rewrite lookup_insert_ne.
Qed.
(** The data of a message is complete, with the clock time in hours, minutes
    and seconds, and no reference on its transport is kept. *)
Lemma SipMsgData_of_msg_ok m tp sec usec (s : stack) : exists s',
  SipMsgData_of_msg m (Some tp) sec usec s =
    Ok (SipMsgData_init m (protocol_of (Some tp) "") "network" (time_text (sec, usec)), s') /\ forall t, refs_of s' t = refs_of s t.
Proof.
  destruct (ref_unref tp s) as (s' & E & Hs). exists s'. split; [|done]. unfold SipMsgData_of_msg, incoming_transport, unref.
  erewrite M_bind_ok by reflexivity. cbn beta. erewrite M_bind_ok by reflexivity. cbn beta.
  erewrite M_bind_ok in E by reflexivity. cbn beta in E. by rewrite (M_bind_ok _ _ _ _ _ E).
Qed.
(** Every ACK keeps a reference on the transport that the response came over:
    it is never closed for good. *)
Lemma ack_keeps_transport r tp ok (s : stack) : exists x s', ackResponse r (Some tp) ok s = Ok (x, s') /\ refs_of s' tp = S (refs_of s tp).
Proof.
  unfold ackResponse. erewrite M_bind_ok by reflexivity. cbn beta.
  assert (refs_of (on_refs (insert tp (S (refs_of s tp))) s) tp = S (refs_of s tp)) as Hr by (unfold refs_of at 1; cbn; by rewrite lookup_insert_eq).
  destruct (as_message ok); cbn [negb]; [|by do 2 eexists]. destruct (as_cseq ok && as_request ok && as_sent ok); by do 2 eexists.
Qed.
End references.
