(* ===== verification/SipDialogCorrect.v ===== *)
(** Correctness of the dialog: references to transports are given back, the
    session timer, retransmission intervals and the container of dialogs. *)
From S2P Require Import Prelude CppString TextUtil SipTags SipDialog.

Open Scope list_scope.

(** ** References to transports *)

Section refs.
Context `{SofiaTport}.
Implicit Types (d : SipDialog) (st : stack).

(** The resources the dialog refers to are live. *)
Record dialog_ok d st : Prop := DialogOk {
  ok_tp : forall tp, m_tp (d_net d) = Some tp -> 0 < refs_of st tp;
  ok_timer : forall t, m_timerSessionRefresh (d_session d) = Some t -> t ∈ st_timers st /\ is_Some (m_ppSelf (d_session d));
  ok_cell : forall p, m_ppSelf (d_session d) = Some p -> p ∈ st_cells st;
  ok_leg : forall l, m_leg d = Some l -> l ∈ st_legs st;
  ok_orq : forall q, m_orq d = Some q -> is_Some (st_orqs st !! q);
  ok_orqAck : forall q, m_orqAck (d_net d) = Some q -> is_Some (st_orqs st !! q) /\ m_orq d ≠ Some q;
}.

(** References the dialog holds on [tp]. *)
Definition holds d (tp : positive) : nat := if decide (m_tp (d_net d) = Some tp) then 1 else 0.

(** [m] keeps the dialog well-formed and its reference count right. *)
Definition balanced {A} (m : DLG A) : Prop := forall d st, dialog_ok d st ->
  exists a d' st', m (d, st) = Ok (a, (d', st')) /\ dialog_ok d' st' /\
    forall tp, refs_of st' tp + holds d tp = refs_of st tp + holds d' tp.

Lemma refs_of_insert s tp n tp' :
  refs_of (on_refs (insert tp n) s) tp' = if decide (tp = tp') then n else refs_of s tp'.
Proof.
  unfold refs_of. cbn. destruct (decide (tp = tp')) as [->|]; [by rewrite lookup_insert_eq|by rewrite lookup_insert_ne].
Qed.

Lemma tport_unref_ok s tp n : refs_of s tp = S n -> tport_unref tp s = Ok (tt, on_refs (insert tp n) s).
Proof. unfold tport_unref. by intros ->. Qed.

Lemma stk_ok {A} (m : ST A) d st a st' : m st = Ok (a, st') -> stk m (d, st) = Ok (a, (d, st')).
Proof. intros E. unfold stk, zoom. cbn. by rewrite E. Qed.

Lemma balanced_ret {A} (a : A) : balanced (mret a).
Proof. intros d st Hok. by exists a, d, st. Qed.
Lemma balanced_bind {A B} (m : DLG A) (k : A -> DLG B) :
  balanced m -> (forall a, balanced (k a)) -> balanced (m ≫= k).
Proof.
  intros Hm Hk d st Hok. destruct (Hm d st Hok) as (a & d1 & st1 & E1 & Hok1 & R1).
  destruct (Hk a d1 st1 Hok1) as (b & d2 & st2 & E2 & Hok2 & R2). exists b, d2, st2.
  split_and!; [by rewrite (M_bind_ok _ _ _ _ _ E1)|done|]. intros tp. specialize (R1 tp). specialize (R2 tp). lia.
Qed.
Lemma balanced_self {B} (k : SipDialog -> DLG B) :
  (forall d st, dialog_ok d st -> exists b d' st', k d (d, st) = Ok (b, (d', st')) /\ dialog_ok d' st' /\
     forall tp, refs_of st' tp + holds d tp = refs_of st tp + holds d' tp) -> balanced (self ≫= k).
Proof. intros Hk d st Hok. apply (Hk d st Hok). Qed.

Lemma balanced_checkTportState : balanced checkTportState.
Proof.
  intros d st Hok. unfold checkTportState. erewrite M_bind_ok by reflexivity. cbn [fst snd].
  destruct (m_tp (d_net d)) as [tp|] eqn:Etp; [|by apply balanced_ret].
  destruct (tport_is_closed st tp); [|by apply balanced_ret].
  destruct (refs_of st tp) as [|n] eqn:En; [pose proof (ok_tp _ _ Hok tp Etp); lia|].
  eexists _, _, _. split; [|split].
  - erewrite M_bind_ok; [|by apply stk_ok, tport_unref_ok]. reflexivity.
  - destruct Hok. constructor; cbn; try done.
  - intros tp'. cbn [fst snd]. rewrite refs_of_insert. unfold holds. cbn. rewrite Etp.
    repeat case_decide; simplify_eq; lia.
Qed.

Lemma balanced_setTport tp : balanced (setTport tp).
Proof.
  apply balanced_self. intros d st Hok.
  destruct (m_tp (d_net d)) as [old|] eqn:Etp.
  - destruct (refs_of st old) as [|n] eqn:En; [pose proof (ok_tp _ _ Hok old Etp); lia|].
    eexists _, _, _. split; [|split].
    + erewrite M_bind_ok; [|by apply stk_ok, tport_unref_ok]. cbn beta.
      erewrite M_bind_ok; [|by apply stk_ok]. cbn. reflexivity.
    + destruct Hok. constructor; cbn; try done. intros tp' [= <-]. rewrite !refs_of_insert. case_decide; [lia|done].
    + intros tp'. cbn [fst snd]. rewrite !refs_of_insert. unfold holds. cbn. rewrite Etp.
      repeat case_decide; simplify_eq; rewrite ?decide_True by done; rewrite ?refs_of_insert; repeat case_decide; simplify_eq; lia.
  - eexists _, _, _. split; [|split].
    + erewrite M_bind_ok by reflexivity. cbn beta. erewrite M_bind_ok; [|by apply stk_ok]. cbn. reflexivity.
    + destruct Hok. constructor; cbn; try done. intros tp' [= <-]. rewrite !refs_of_insert. case_decide; [lia|done].
    + intros tp'. cbn [fst snd]. rewrite !refs_of_insert. unfold holds. cbn. rewrite Etp.
      repeat case_decide; simplify_eq; lia.
Qed.

Lemma outgoing_transport_ok st q otp :
  st_orqs st !! q = Some otp ->
  nta_outgoing_transport q st =
    Ok (otp, match otp with Some tp => on_refs (insert tp (S (refs_of st tp))) st | None => st end).
Proof. intros E. unfold nta_outgoing_transport, mbind, M_bind, get, deref. rewrite E. by destruct otp. Qed.
Lemma outgoing_destroy_ok st q :
  is_Some (st_orqs st !! q) -> nta_outgoing_destroy q st = Ok (tt, on_orqs (delete q) st).
Proof. intros [o E]. unfold nta_outgoing_destroy, mbind, M_bind, get, deref. by rewrite E. Qed.

(** The dialog after [setTport]. *)
Definition with_tport (tp : positive) d : SipDialog :=
  let tpn := tport_name tp in
  set_net (DialogNet (Some tp) (m_orqAck (d_net d)) (m_bDestroyAckOnClose (d_net d)) (tpn_host tpn) (tpn_port tpn)
    (tpn_proto tpn) (m_sourceAddress (d_net d)) (m_sourcePort (d_net d)) (m_routeUri (d_net d))) d.
Lemma setTport_first tp d st :
  m_tp (d_net d) = None -> setTport tp (d, st) = Ok (tt, (with_tport tp d, on_refs (insert tp (S (refs_of st tp))) st)).
Proof.
  intros Htp. unfold setTport. erewrite M_bind_ok by reflexivity. cbn beta. cbn [fst]. rewrite Htp.
  erewrite M_bind_ok by reflexivity. cbn beta. by erewrite M_bind_ok by (by apply stk_ok).
Qed.

(** The ACK transaction is destroyed and forgotten. *)
Definition drop_ack (d : SipDialog) : SipDialog := set_net (set_orqAck None (d_net d)) d.
Lemma drop_ack_ok d st st' q :
  dialog_ok d st -> m_orqAck (d_net d) = Some q ->
  (forall tp, m_tp (d_net d) = Some tp -> 0 < refs_of st' tp) -> st_timers st' = st_timers st ->
  st_cells st' = st_cells st -> st_legs st' = st_legs st -> st_orqs st' = st_orqs st ->
  dialog_ok (drop_ack d) (on_orqs (delete q) st').
Proof.
  intros [H1 H2 H3 H4 H5 H6] Hq Htp Et Ec El Eo. destruct (H6 q Hq) as [_ Hne].
  constructor; cbn; rewrite ?Et, ?Ec, ?El, ?Eo; try done.
  intros q' Hq'. rewrite lookup_delete_ne by congruence. by apply H5.
Qed.

(** [getTport] when the transport has to come from the ACK transaction. *)
Lemma delayed_run d st q otp :
  m_tp (d_net d) = None -> m_orqAck (d_net d) = Some q -> st_orqs st !! q = Some otp ->
  exists st', getTport (d, st) =
      Ok (match otp with
          | Some tp => if tport_is_closed st tp then (None, (drop_ack d, on_orqs (delete q) st'))
                       else (Some tp, (drop_ack (with_tport tp d), on_orqs (delete q) st'))
          | None => (None, (d, st))
          end) /\
    st_timers st' = st_timers st /\ st_cells st' = st_cells st /\ st_legs st' = st_legs st /\ st_orqs st' = st_orqs st /\
    match otp with
    | Some tp => forall tp', refs_of st' tp' =
        if tport_is_closed st tp then refs_of st tp' else if decide (tp = tp') then S (refs_of st tp') else refs_of st tp'
    | None => True
    end.
Proof.
  intros Htp Hack Hq. unfold getTport. erewrite M_bind_ok; cycle 1.
  { unfold checkTportState. erewrite M_bind_ok by reflexivity. cbn. rewrite Htp. reflexivity. }
  cbn beta. erewrite M_bind_ok by reflexivity. cbn beta. cbn [fst]. rewrite Htp, Hack.
  rewrite (M_bind_ok _ _ _ _ _ (stk_ok _ d _ _ _ (outgoing_transport_ok _ _ _ Hq))).
  destruct otp as [tp|]; [|by exists st]. erewrite M_bind_ok by reflexivity. cbn [snd].
  set (st1 := on_refs (insert tp (S (refs_of st tp))) st).
  assert (Hr1 : forall tp', refs_of st1 tp' = if decide (tp = tp') then S (refs_of st tp) else refs_of st tp')
    by (intros; apply refs_of_insert).
  change (tport_is_closed st1 tp) with (tport_is_closed st tp). destruct (tport_is_closed st tp).
  - exists (on_refs (insert tp (refs_of st tp)) st1). split; [|split_and!; [done..|]].
    + erewrite M_bind_ok; cycle 1.
      { erewrite M_bind_ok; [reflexivity|]. apply stk_ok, tport_unref_ok. rewrite Hr1. by rewrite decide_True. }
      by erewrite M_bind_ok by (by apply stk_ok, outgoing_destroy_ok; eexists).
    + intros tp'. rewrite refs_of_insert, Hr1. by case_decide; subst.
  - exists (on_refs (insert tp (S (refs_of st tp))) (on_refs (insert tp (S (S (refs_of st tp)))) st1)).
    split; [|split_and!; [done..|]].
    + erewrite M_bind_ok; cycle 1.
      { rewrite (M_bind_ok _ _ _ _ _ (setTport_first tp d st1 Htp)). erewrite M_bind_ok; [reflexivity|].
        apply stk_ok, tport_unref_ok. by rewrite refs_of_insert, Hr1, !decide_True. }
      erewrite M_bind_ok by (by apply stk_ok, outgoing_destroy_ok; eexists). cbn beta.
      rewrite Hr1, decide_True by done. done.
    + intros tp'. rewrite !refs_of_insert, Hr1. by case_decide; subst.
Qed.

Lemma balanced_delayed d st q :
  dialog_ok d st -> m_tp (d_net d) = None -> m_orqAck (d_net d) = Some q ->
  exists a d' st', getTport (d, st) = Ok (a, (d', st')) /\ dialog_ok d' st' /\
    forall tp, refs_of st' tp + holds d tp = refs_of st tp + holds d' tp.
Proof.
  intros Hok Htp Hack. destruct (ok_orqAck _ _ Hok _ Hack) as [[otp Hq] Hne].
  destruct (delayed_run d st q otp Htp Hack Hq) as (st' & Hrun & Et & Ec & El & Eo & Hr).
  destruct otp as [tp|]; [|by exists None, d, st].
  destruct (tport_is_closed st tp); eexists _, _, _; (split; [exact Hrun|]).
  - split; [apply (drop_ack_ok d st); try done; by rewrite Htp|].
    intros tp'. change (refs_of (on_orqs _ st') tp') with (refs_of st' tp'). by rewrite Hr.
  - split.
    + apply (drop_ack_ok (with_tport tp d) st' st'); try done.
      * destruct Hok. constructor; cbn; rewrite ?Et, ?Ec, ?El, ?Eo; try done.
        intros ? [= <-]. rewrite Hr, decide_True by done. lia.
      * intros ? [= <-]. rewrite Hr, decide_True by done. lia.
    + intros tp'. change (refs_of (on_orqs _ st') tp') with (refs_of st' tp'). rewrite Hr.
      unfold holds. cbn. rewrite Htp. repeat case_decide; simplify_eq; lia.
Qed.

Lemma balanced_getTport : balanced getTport.
Proof.
  intros d st Hok. destruct (balanced_checkTportState d st Hok) as ([] & d1 & st1 & E1 & Hok1 & R1).
  assert (Hrun : getTport (d, st) = getTport (d1, st1) \/ exists tp, m_tp (d_net d1) = Some tp).
  { destruct (m_tp (d_net d1)) eqn:Etp; [right; eauto|left]. unfold getTport.
    rewrite (M_bind_ok _ _ _ _ _ E1). symmetry. erewrite M_bind_ok; [reflexivity|].
    unfold checkTportState. erewrite M_bind_ok by reflexivity. cbn. by rewrite Etp. }
  destruct (m_tp (d_net d1)) as [tp|] eqn:Etp; [|destruct (m_orqAck (d_net d1)) as [q|] eqn:Eq].
  - exists (Some tp), d1, st1. split_and!; [|done..]. unfold getTport. rewrite (M_bind_ok _ _ _ _ _ E1).
    erewrite M_bind_ok by reflexivity. cbn. by rewrite Etp.
  - destruct Hrun as [->|[? [=]]]. destruct (balanced_delayed d1 st1 q Hok1 Etp Eq) as (a & d2 & st2 & E2 & Hok2 & R2).
    exists a, d2, st2. split_and!; [done..|]. intros tp. specialize (R1 tp). specialize (R2 tp). lia.
  - exists None, d1, st1. split_and!; [|done..]. unfold getTport. rewrite (M_bind_ok _ _ _ _ _ E1).
    erewrite M_bind_ok by reflexivity. cbn. by rewrite Etp, Eq.
Qed.

(** *** The session timer *)

Lemma release_ok proj on p s :
  p ∈ proj s -> release proj on p s = Ok (tt, on (fun x => x ∖ {[p]}) s).
Proof. intros Hp. unfold release, mbind, M_bind, get. by rewrite bool_decide_eq_true_2. Qed.

Definition cancelled (t : session_timer) : session_timer :=
  SessionTimer no_refresher None (m_ppSelf t) 0 (m_nMinSE t) (m_nSessionTimerDuration t).
Lemma cancel_run d st t :
  dialog_ok d st -> m_timerSessionRefresh (d_session d) = Some t ->
  cancelSessionTimer (d, st) =
    Ok (tt, (set_session (cancelled (d_session d)) d, on_su_timers (fun x => x ∖ {[t]}) st)).
Proof.
  intros Hok Et. unfold cancelSessionTimer. erewrite M_bind_ok by reflexivity. cbn [fst]. rewrite Et.
  by erewrite M_bind_ok by (apply stk_ok, release_ok; by apply (ok_timer _ _ Hok)).
Qed.
Lemma cancel_ok d st t :
  dialog_ok d st -> m_timerSessionRefresh (d_session d) = Some t ->
  dialog_ok (set_session (cancelled (d_session d)) d) (on_su_timers (fun x => x ∖ {[t]}) st).
Proof. intros [] Et. by constructor. Qed.

(** The session timer after [setSessionTimer], with its timer and weak
    pointer. *)
Definition armed_session (rand nSecs : Z) (who : SessionRefresher_t) (t p : positive) (s : session_timer) : session_timer :=
  SessionTimer who (Some t) (Some p) nSecs (m_nMinSE s) (timer_duration rand nSecs who).
Lemma setSessionTimer_run rand nSecs who d st :
  dialog_ok d st ->
  exists d1 st1 t p, setSessionTimer rand nSecs who (d, st) =
      Ok (tt, (set_session (armed_session rand nSecs who t p (d_session d)) d,
               on_cells (fun x => {[p]} ∪ x) (on_su_timers (fun x => {[t]} ∪ x) st1))) /\
    (t ∉ st_timers st1) /\ (p ∉ st_cells st) /\ dialog_ok d1 st1 /\ d_net d1 = d_net d /\ m_leg d1 = m_leg d /\
    m_orq d1 = m_orq d /\ st1 = match m_timerSessionRefresh (d_session d) with
      | Some old => on_su_timers (fun x => x ∖ {[old]}) st | None => st end.
Proof.
  intros Hok. unfold setSessionTimer. erewrite M_bind_ok by reflexivity. cbn [fst].
  destruct (m_timerSessionRefresh (d_session d)) as [old|] eqn:E.
  - rewrite bool_decide_eq_true_2 by eauto. rewrite (M_bind_ok _ _ _ _ _ (cancel_run _ _ _ Hok E)).
    eexists _, _, _, _. split; [reflexivity|]. split_and!; [apply is_fresh|apply is_fresh|by apply (cancel_ok _ _ _ Hok)|done..].
  - rewrite bool_decide_eq_false_2 by (by intros []). erewrite M_bind_ok by reflexivity.
    eexists d, st, _, _. split; [reflexivity|]. split_and!; [apply is_fresh|apply is_fresh|done..].
Qed.

Lemma balanced_setSessionTimer rand nSecs who : balanced (setSessionTimer rand nSecs who).
Proof.
  intros d st Hok.
  destruct (setSessionTimer_run rand nSecs who d st Hok) as (d1 & st1 & t & p & E & Ht & Hp & Hok1 & En & El & Eo & Est).
  eexists _, _, _. split; [exact E|]. split.
  - destruct Hok1 as [H1 H2 H3 H4 H5 H6]. rewrite En, El, Eo in *.
    constructor; cbn; try done; set_solver.
  - intros tp. unfold holds. cbn. rewrite Est. by destruct (m_timerSessionRefresh (d_session d)).
Qed.

(** The timer goes off: it can while it is set. *)
Definition expire_session : DLG unit :=
  d ← self; when_some (m_timerSessionRefresh (d_session d)) (fun _ => doSessionTimerHandling).
Lemma balanced_expire : balanced expire_session.
Proof.
  apply balanced_self. intros d st Hok. destruct (m_timerSessionRefresh (d_session d)) as [t|] eqn:E; cbn [when_some].
  2: { by eexists _, d, st. }
  destruct (ok_timer _ _ Hok _ E) as [Ht [p Hp]]. unfold doSessionTimerHandling, doSessionTimerHandling_end.
  erewrite M_bind_ok by reflexivity. cbn beta. erewrite M_bind_ok by reflexivity. cbn beta.
  erewrite M_bind_ok by reflexivity. cbn [fst]. rewrite Hp.
  erewrite M_bind_ok by (apply stk_ok, release_ok; by apply (ok_cell _ _ Hok)).
  eexists _, _, _. split; [reflexivity|]. split; [|done]. destruct Hok. by constructor.
Qed.

(** *** Destruction *)

(** The part of the stack other than the timers, weak pointers and calls. *)
Definition same_rest (st st' : stack) : Prop :=
  tp_refs st' = tp_refs st /\ st_legs st' = st_legs st /\ st_orqs st' = st_orqs st.

Lemma destroy_session d st :
  dialog_ok d st ->
  exists d1 st1,
    (_ ← when_some (m_timerSessionRefresh (d_session d)) (fun _ =>
        _ ← cancelSessionTimer;
        if bool_decide (is_Some (m_ppSelf (d_session d))) then mret tt else fail AssertFail);
     when_some (m_ppSelf (d_session d)) (fun p => stk (release st_cells on_cells p))) (d, st) = Ok (tt, (d1, st1)) /\
    same_rest st st1.
Proof.
  intros Hok. destruct (m_timerSessionRefresh (d_session d)) as [t|] eqn:E; cbn [when_some].
  - destruct (ok_timer _ _ Hok _ E) as [Ht [p Hp]]. erewrite M_bind_ok; cycle 1.
    { rewrite (M_bind_ok _ _ _ _ _ (cancel_run _ _ _ Hok E)). by rewrite bool_decide_eq_true_2 by (rewrite Hp; eauto). }
    rewrite Hp. cbn [when_some]. eexists _, _. split; [by apply stk_ok, release_ok, (ok_cell _ _ Hok)|done].
  - erewrite M_bind_ok by reflexivity. destruct (m_ppSelf (d_session d)) as [p|] eqn:Hp; cbn [when_some].
    + eexists _, _. split; [by apply stk_ok, release_ok, (ok_cell _ _ Hok)|done].
    + by exists d, st.
Qed.

Lemma bind_assoc_run {A B C} (m : DLG A) (k : A -> DLG B) (h : B -> DLG C) x :
  (a ← m; (k a ≫= h)) x = ((m ≫= k) ≫= h) x.
Proof. unfold mbind, M_bind. by destruct (m x) as [[a y]|]. Qed.

Lemma destroy_leg (leg : option positive) d st :
  (forall l, leg = Some l -> l ∈ st_legs st) ->
  exists d1 st1, when_some leg (fun l => _ ← stk (release st_legs on_legs l); this (set_leg None)) (d, st) = Ok (tt, (d1, st1)) /\
    tp_refs st1 = tp_refs st /\ st_orqs st1 = st_orqs st /\ (forall l, leg = Some l -> l ∉ st_legs st1).
Proof.
  intros Hl. destruct leg as [l|]; cbn [when_some]; [|by exists d, st].
  erewrite M_bind_ok by (by apply stk_ok, release_ok, Hl).
  eexists _, _. split; [reflexivity|]. split_and!; [done..|]. intros ? [= <-]. cbn. set_solver.
Qed.

Lemma destroy_tport (tp : option positive) d st :
  (forall t, tp = Some t -> 0 < refs_of st t) ->
  exists st1, when_some tp (fun t => stk (tport_unref t)) (d, st) = Ok (tt, (d, st1)) /\
    st_orqs st1 = st_orqs st /\ st_legs st1 = st_legs st /\
    (forall t, refs_of st1 t + (if decide (tp = Some t) then 1 else 0) = refs_of st t).
Proof.
  intros Hr. destruct tp as [tp|]; cbn [when_some]; cycle 1.
  { exists st. split_and!; [done..|]. intros t. case_decide; [done|lia]. }
  destruct (refs_of st tp) as [|n] eqn:E; [specialize (Hr tp eq_refl); lia|].
  eexists. split; [by apply stk_ok, tport_unref_ok|]. split_and!; [done..|].
  intros t. rewrite refs_of_insert. repeat case_decide; simplify_eq; lia.
Qed.

Lemma destroy_orqs (uac destroyAck : bool) (orqAck orq : option positive) d st :
  (forall q, orqAck = Some q -> is_Some (st_orqs st !! q) /\ orq ≠ Some q) ->
  (forall q, orq = Some q -> is_Some (st_orqs st !! q)) ->
  exists st1,
    (_ ← (if uac then when_some orq (fun q => stk (call (stopTimerD q))) else mret tt);
     _ ← when_some orqAck (fun q => if destroyAck then stk (nta_outgoing_destroy q) else mret tt);
     when_some orq (fun q => stk (nta_outgoing_destroy q))) (d, st) = Ok (tt, (d, st1)) /\
    tp_refs st1 = tp_refs st /\ st_legs st1 = st_legs st /\ (forall q, orq = Some q -> st_orqs st1 !! q = None).
Proof.
  intros Ha Ho.
  assert (exists st0, (if uac then when_some orq (fun q => stk (call (stopTimerD q))) else mret tt) (d, st) = Ok (tt, (d, st0)) /\
    st_orqs st0 = st_orqs st /\ tp_refs st0 = tp_refs st /\ st_legs st0 = st_legs st) as (st0 & E0 & Eo & Et & El).
  { destruct uac, orq; by eexists. }
  rewrite (M_bind_ok _ _ _ _ _ E0).
  assert (exists st1, when_some orqAck (fun q => if destroyAck then stk (nta_outgoing_destroy q) else mret tt) (d, st0) = Ok (tt, (d, st1)) /\
    (forall q, orq = Some q -> is_Some (st_orqs st1 !! q)) /\ tp_refs st1 = tp_refs st /\ st_legs st1 = st_legs st)
    as (st1 & E1 & Eo1 & Et1 & El1).
  { rewrite <-Eo in Ha, Ho. destruct orqAck as [q|], destroyAck; cbn [when_some]; try by exists st0.
    destruct (Ha q eq_refl) as [Hq Hne]. eexists. split; [by apply stk_ok, outgoing_destroy_ok|].
    split_and!; [|done..]. intros q' Hq'. cbn. rewrite lookup_delete_ne by congruence. by apply Ho. }
  rewrite (M_bind_ok _ _ _ _ _ E1). destruct orq as [q|]; cbn [when_some]; [|by exists st1].
  eexists. split; [by apply stk_ok, outgoing_destroy_ok, Eo1|]. split_and!; [done..|].
  intros ? [= <-]. cbn. apply lookup_delete_eq.
Qed.

Lemma destroy_ok d st :
  dialog_ok d st -> exists d' st', SipDialog_destroy (d, st) = Ok (tt, (d', st')) /\
    (forall tp, refs_of st' tp + holds d tp = refs_of st tp) /\
    (forall l, m_leg d = Some l -> l ∉ st_legs st') /\ (forall q, m_orq d = Some q -> st_orqs st' !! q = None).
Proof.
  intros Hok. unfold SipDialog_destroy. erewrite M_bind_ok by reflexivity. cbn [fst]. rewrite bind_assoc_run.
  destruct (destroy_session d st Hok) as (d1 & st1 & E1 & Er & El & Eo). rewrite (M_bind_ok _ _ _ _ _ E1). clear E1.
  destruct (destroy_leg (m_leg d) d1 st1) as (d2 & st2 & E2 & Er2 & Eo2 & Hl2).
  { intros l Hl. rewrite El. by apply (ok_leg _ _ Hok). }
  rewrite (M_bind_ok _ _ _ _ _ E2). clear E2.
  assert (Hrr : forall t, refs_of st2 t = refs_of st t) by (intros t; unfold refs_of; by rewrite Er2, Er).
  destruct (destroy_tport (m_tp (d_net d)) d2 st2) as (st3 & E3 & Eo3 & El3 & Hr3).
  { intros t Ht. rewrite Hrr. by apply (ok_tp _ _ Hok). }
  rewrite (M_bind_ok _ _ _ _ _ E3). clear E3.
  destruct (destroy_orqs (bool_decide (m_type (d_ids d) = we_are_uac)) (m_bDestroyAckOnClose (d_net d))
    (m_orqAck (d_net d)) (m_orq d) d2 st3) as (st4 & E4 & Er4 & El4 & Ho4).
  { rewrite Eo3, Eo2, Eo. apply Hok. } { rewrite Eo3, Eo2, Eo. apply Hok. }
  rewrite bind_assoc_run in E4. do 2 rewrite bind_assoc_run. rewrite (M_bind_ok _ _ _ _ _ E4).
  eexists _, _. split; [reflexivity|]. split_and!.
  - intros tp. specialize (Hr3 tp). unfold refs_of at 1. cbn. rewrite Er4. rewrite Hrr in Hr3. exact Hr3.
  - intros l Hl. cbn. rewrite El4, El3. by apply Hl2.
  - intros q Hq. cbn. by apply Ho4.
Qed.
End refs.

(** ** The container of dialogs *)

Section container.
Implicit Types (m : StableDialogs_t).

Lemma sd_find_some test m p : sd_find test m = Some p -> exists k, m !! p = Some k /\ test k = true.
Proof.
  unfold sd_find. intros ([p' k] & Hh%head_Some_elem_of & ->)%fmap_Some.
  apply list_elem_of_filter in Hh as [Ht Hin]. apply elem_of_map_to_list in Hin. eauto.
Qed.
Lemma sd_find_none test m : sd_find test m = None <-> forall p k, m !! p = Some k -> test k = false.
Proof.
  unfold sd_find. rewrite fmap_None, head_None. split.
  - intros Hn p k Hp. apply not_true_iff_false. intros Ht. apply (not_elem_of_nil (p, k)). rewrite <-Hn.
    apply list_elem_of_filter. by rewrite elem_of_map_to_list.
  - intros Hall. apply elem_of_nil_inv. intros [p k] [Ht Hin]%list_elem_of_filter.
    apply elem_of_map_to_list in Hin. apply Hall in Hin. cbn in Ht. congruence.
Qed.

(** No two dialogs share a leg or an id. *)
Definition sd_unique m : Prop := forall p p' k k', m !! p = Some k -> m !! p' = Some k' ->
  sd_leg k = sd_leg k' \/ sd_dialogId k = sd_dialogId k' -> p = p'.

Lemma sd_find_unique test m p k :
  (forall p' k', m !! p' = Some k' -> test k' = true -> p' = p) -> m !! p = Some k -> test k = true ->
  sd_find test m = Some p.
Proof.
  intros Hu Hp Ht. destruct (sd_find test m) as [p'|] eqn:E.
  - apply sd_find_some in E as (k' & Hp' & Ht'). f_equal. eauto.
  - rewrite sd_find_none in E. rewrite (E p k Hp) in Ht. done.
Qed.

Lemma sd_lookups m p k :
  sd_unique m -> m !! p = Some k -> SD_FindByLeg (sd_leg k) m = Some p /\ SD_FindByDialogId (sd_dialogId k) m = Some p.
Proof.
  intros Hu Hp. split; (eapply sd_find_unique; [|exact Hp|by apply bool_decide_eq_true]);
    intros p' k' Hp' ?%bool_decide_eq_true; eapply Hu; eauto.
Qed.

Lemma sd_delete_unique m p : sd_unique m -> sd_unique (delete p m).
Proof. intros Hu q q' k k' [_ Hq]%lookup_delete_Some [_ Hq']%lookup_delete_Some. by eapply Hu. Qed.

Lemma sd_insert_unique m p k : sd_unique m -> sd_unique (SD_Insert p k m).
Proof.
  intros Hu. unfold SD_Insert. destruct (_ || _) eqn:E; [done|].
  apply orb_false_iff in E as [[E1 E2]%orb_false_iff E3].
  apply bool_decide_eq_false in E2, E3. rewrite <-eq_None_not_Some in E2, E3.
  unfold SD_FindByLeg in E2. unfold SD_FindByDialogId in E3. rewrite sd_find_none in E2, E3.
  assert (Hnew : forall q kq, m !! q = Some kq -> ~ (sd_leg kq = sd_leg k \/ sd_dialogId kq = sd_dialogId k)).
  { intros q kq Hq [Hl|Hi]; [apply E2 in Hq|apply E3 in Hq]; by apply bool_decide_eq_false in Hq. }
  intros q q' kq kq' [[<- <-]|[Hne Hq]]%lookup_insert_Some [[<- <-]|[Hne' Hq']]%lookup_insert_Some Heq; [done|..].
  - destruct (Hnew _ _ Hq'). naive_solver.
  - by destruct (Hnew _ _ Hq).
  - by eapply Hu.
Qed.

(** The container of stable dialogs keeps at most one dialog per leg and
    per dialog id: [SD_Insert] refuses a collision and otherwise makes the
    dialog findable by both, and [SD_Clear] by either key removes exactly
    that dialog. *)
Theorem StableDialogs_unique m p k :
  sd_unique m -> m !! p = None ->
  sd_unique (SD_Insert p k m) /\
  (SD_Insert p k m = m \/
   (SD_FindByLeg (sd_leg k) (SD_Insert p k m) = Some p /\ SD_FindByDialogId (sd_dialogId k) (SD_Insert p k m) = Some p /\
    SD_Clear_id (sd_dialogId k) (SD_Insert p k m) = m /\ SD_Clear_leg (sd_leg k) (SD_Insert p k m) = m /\
    (SD_Size (SD_Insert p k m)).1 = S (SD_Size m).1)) /\
  (SD_Insert p k m = m <->
   is_Some (SD_FindByLeg (sd_leg k) m) \/ is_Some (SD_FindByDialogId (sd_dialogId k) m)).
Proof.
  intros Hu Hp. pose proof (sd_insert_unique m p k Hu) as Hu'. split; [done|].
  unfold SD_Insert in *. rewrite (bool_decide_eq_false_2 (is_Some (m !! p))) in * by (rewrite Hp; by intros []).
  cbn [orb] in *. destruct (bool_decide (is_Some (SD_FindByLeg (sd_leg k) m)) || _) eqn:E.
  - split; [by left|]. apply orb_true_iff in E as [E|E]; apply bool_decide_eq_true in E; tauto.
  - destruct (sd_lookups _ p k Hu') as [Hl Hi]; [apply lookup_insert_eq|]. split; [right|].
    + unfold SD_Clear_id, SD_Clear_leg. rewrite Hl, Hi, delete_insert_id by done. split_and!; [done..|].
      cbn. by apply map_size_insert_None.
    + apply orb_false_iff in E as [E1 E2]. apply bool_decide_eq_false in E1, E2. split; [|tauto].
      intros Heq. apply (f_equal (lookup p)) in Heq. by rewrite lookup_insert_eq, Hp in Heq.
Qed.
End container.

(** ** Properties *)

Section properties.
Context `{SofiaTport}.

(** What happens to a dialog during its life; transports may also be closed
    by the stack. *)
Inductive dialog_op :=
  | OpCheck
  | OpSetTport (tp : positive)
  | OpGetTport
  | OpClose (tp : positive)
  | OpSetSessionTimer (rand nSecs : Z) (who : SessionRefresher_t)
  | OpExpire.
Definition run_op (o : dialog_op) : DLG unit :=
  match o with
  | OpCheck => checkTportState
  | OpSetTport tp => setTport tp
  | OpGetTport => _ ← getTport; mret tt
  | OpClose tp => stk (modify (on_closed (fun c => {[tp]} ∪ c)))
  | OpSetSessionTimer rand nSecs who => setSessionTimer rand nSecs who
  | OpExpire => expire_session
  end.
Fixpoint run_ops (l : list dialog_op) : DLG unit :=
  match l with
  | [] => mret tt
  | o :: l => _ ← run_op o; run_ops l
  end.

Lemma balanced_op o : balanced (run_op o).
Proof.
  destruct o; cbn [run_op].
  - apply balanced_checkTportState.
  - apply balanced_setTport.
  - apply balanced_bind; [apply balanced_getTport|intros; apply balanced_ret].
  - intros d st Hok. eexists _, _, _. split; [reflexivity|]. split; [by destruct Hok|done].
  - apply balanced_setSessionTimer.
  - apply balanced_expire.
Qed.
Lemma balanced_ops l : balanced (run_ops l).
Proof. induction l; cbn [run_ops]; auto using balanced_ret, balanced_bind, balanced_op. Qed.

(** C9: A dialog gives back every reference to a transport that it took:
    whatever sequence of operations it goes through (transports set, looked
    up through the ACK transaction, found closed; session timers set and
    expired), none faults, and after its destructor the reference count of
    each transport is what it was without the dialog; the leg and the INVITE
    transaction are destroyed. *)
Theorem SipDialog_releases_transports d st ops :
  dialog_ok d st ->
  exists d1 st1 d2 st2, run_ops ops (d, st) = Ok (tt, (d1, st1)) /\ dialog_ok d1 st1 /\
    SipDialog_destroy (d1, st1) = Ok (tt, (d2, st2)) /\
    (forall tp, refs_of st2 tp + holds d tp = refs_of st tp) /\
    (forall l, m_leg d1 = Some l -> l ∉ st_legs st2) /\ (forall q, m_orq d1 = Some q -> st_orqs st2 !! q = None).
Proof.
  intros Hok. destruct (balanced_ops ops d st Hok) as ([] & d1 & st1 & E1 & Hok1 & R1).
  destruct (destroy_ok d1 st1 Hok1) as (d2 & st2 & E2 & R2 & Hl & Hq). exists d1, st1, d2, st2.
  split_and!; [done..| |done|done]. intros tp. specialize (R1 tp). specialize (R2 tp). lia.
Qed.

Lemma timer_duration_bounds rand nSecs who :
  (0 <= rand)%Z -> (0 <= nSecs < 2 ^ 50)%Z ->
  timer_duration rand nSecs who =
    (match who with we_are_refresher => 500 * nSecs + (rand mod 10000 - 5000) | _ => 1000 * nSecs end)%Z.
Proof.
  intros Hr Hn. unfold timer_duration, to_long.
  rewrite Z.mod_small by lia. rewrite (proj2 (Z.ltb_lt _ _)) by lia.
  destruct who; cbn [bool_decide]; rewrite ?bool_decide_eq_false_2, ?bool_decide_eq_true_2 by done; try lia.
  rewrite Z.quot_div_nonneg, Z.rem_mod_nonneg by lia.
  replace (nSecs * 1000)%Z with (500 * nSecs * 2)%Z by lia. rewrite Z.div_mul by lia. lia.
Qed.

(** [setSessionTimer]: when the peer refreshes, the timer runs for the
    whole interval; when we do, for half of it give or take five seconds,
    which is surely positive only if the interval is longer than ten seconds.  The
    weak pointer of an earlier timer is never deleted, and when the timer
    goes off the sofia timer is dropped without being destroyed. *)
Theorem setSessionTimer_effect rand nSecs who d st :
  dialog_ok d st -> (0 <= rand)%Z -> (0 <= nSecs < 2 ^ 50)%Z ->
  exists d' st' t p, setSessionTimer rand nSecs who (d, st) = Ok (tt, (d', st')) /\ dialog_ok d' st' /\
    m_timerSessionRefresh (d_session d') = Some t /\ m_ppSelf (d_session d') = Some p /\
    (let dur := m_nSessionTimerDuration (d_session d') in
     match who with
     | we_are_refresher => (500 * nSecs - 5000 <= dur < 500 * nSecs + 5000)%Z /\ ((10 < nSecs)%Z -> (0 < dur)%Z)
     | _ => dur = (1000 * nSecs)%Z
     end) /\
    (forall old, m_ppSelf (d_session d) = Some old -> old ≠ p /\ old ∈ st_cells st') /\
    exists d2 st2, expire_session (d', st') = Ok (tt, (d2, st2)) /\
      m_timerSessionRefresh (d_session d2) = None /\ t ∈ st_timers st2 /\
      last (st_calls st2) = Some (if bool_decide (who = we_are_refresher) then notifyRefreshDialog else notifyTerminateStaleDialog).
Proof.
  intros Hok Hr Hn.
  destruct (setSessionTimer_run rand nSecs who d st Hok) as (d1 & st1 & t & p & E & Ht & Hp & Hok1 & En & El & Eo & Est).
  destruct (balanced_setSessionTimer rand nSecs who d st Hok) as (? & ? & ? & E' & Hok' & _).
  rewrite E in E'. simplify_eq. eexists _, _, t, p. split; [exact E|]. split_and!; [done..| | |].
  - cbn. rewrite timer_duration_bounds by done. pose proof (Z.mod_pos_bound rand 10000).
    destruct who; lia.
  - intros old Hold. apply (ok_cell _ _ Hok) in Hold. split; [congruence|].
    cbn. destruct (m_timerSessionRefresh (d_session d)); cbn; set_solver.
  - eexists _, _. split.
    { unfold expire_session. erewrite M_bind_ok by reflexivity. cbn [fst]. cbn [when_some set_session d_session armed_session m_timerSessionRefresh].
      unfold doSessionTimerHandling, doSessionTimerHandling_end. do 3 (erewrite M_bind_ok by reflexivity; cbn beta). cbn [fst].
      cbn [set_session d_session armed_session m_ppSelf]. erewrite M_bind_ok; [reflexivity|]. apply stk_ok, release_ok. cbn. set_solver. }
    split_and!; [done|cbn; set_solver|]. cbn. by rewrite last_snoc.
Qed.

(** The [n]-th retransmission interval. *)
Fixpoint timerG_after (n : nat) (d : SipDialog) : Z :=
  match n with
  | O => m_durationTimerG d
  | S n => timerG_after n (bumpTimerG d).2
  end.
(** The intervals between retransmissions of a final response double from T1
    up to T2. *)
Lemma timerG_intervals d n :
  m_durationTimerG d = 0%Z -> timerG_after n (setTimerG d) = Z.min (NTA_SIP_T1 * 2 ^ Z.of_nat n) NTA_SIP_T2.
Proof.
  intros Hd. unfold setTimerG. rewrite Hd. cbn [Z.eqb].
  assert (Hgen : forall m e, (0 < m_durationTimerG e <= NTA_SIP_T2)%Z ->
    timerG_after m e = Z.min (m_durationTimerG e * 2 ^ Z.of_nat m) NTA_SIP_T2).
  { induction m as [|m IH]; intros e He; [cbn; unfold NTA_SIP_T2 in *; lia|].
    cbn [timerG_after bumpTimerG snd]. rewrite IH; cbn [set_durationTimerG m_durationTimerG];
      rewrite Z.shiftl_mul_pow2, Z.mod_small by (unfold NTA_SIP_T2 in *; lia).
    - rewrite Nat2Z.inj_succ, Z.pow_succ_r by lia.
      pose proof (Z.pow_pos_nonneg 2 (Z.of_nat m)).
      unfold NTA_SIP_T2 in *. nia.
    - unfold NTA_SIP_T2 in *. lia. }
  by apply Hgen.
Qed.
End properties.

(** ** Witnesses *)

Module SipDialogWitnesses.

#[export] Instance two_tports : SofiaTport := {|
  tport_name _ := TpName "127.0.0.1" "5060" "udp";
  tport_is_dgram _ := true;
  tport_is_secondary _ := false;
  tport_is_udp _ := true |}.
(** The caller's dialog: an INVITE transaction 1 and an ACK transaction 2
    that has a transport, 7, while the dialog has none yet. *)
Definition st0 : stack := MkStack {[ 7%positive := 1 ]} ∅ {[ 1%positive := None; 2%positive := Some 7%positive ]} ∅ ∅ {[ 3%positive ]} [].
Definition d0 : SipDialog :=
  MkSipDialog (DialogIds we_are_uac "call" "" "t1" no_endpoint no_endpoint)
    (DialogNet None (Some 2%positive) true "" "" "" "" 0 "") no_session (Some 3%positive) (Some 1%positive) 1 0 true 0 ∅.
Lemma d0_ok : dialog_ok d0 st0.
Proof.
  constructor; cbn; try done; intros ? [= <-]; [set_solver|by eexists|split; [by eexists|done]].
Qed.

Lemma SipDialog_releases_transports_witness :
  exists d1 st1 d2 st2,
    run_ops [OpGetTport; OpSetTport 8%positive; OpClose 8%positive; OpCheck] (d0, st0) = Ok (tt, (d1, st1)) /\
    dialog_ok d1 st1 /\ SipDialog_destroy (d1, st1) = Ok (tt, (d2, st2)) /\
    (forall tp, refs_of st2 tp + holds d0 tp = refs_of st0 tp) /\
    (forall l, m_leg d1 = Some l -> l ∉ st_legs st2) /\ (forall q, m_orq d1 = Some q -> st_orqs st2 !! q = None).
Proof.
  exact (SipDialog_releases_transports d0 st0 [OpGetTport; OpSetTport 8%positive; OpClose 8%positive; OpCheck] d0_ok).
Defined.

Lemma setSessionTimer_effect_witness :
  exists d' st' t p, setSessionTimer 0 90 we_are_refresher (d0, st0) = Ok (tt, (d', st')) /\ dialog_ok d' st' /\
    m_timerSessionRefresh (d_session d') = Some t /\ m_ppSelf (d_session d') = Some p /\
    (let dur := m_nSessionTimerDuration (d_session d') in
     (500 * 90 - 5000 <= dur < 500 * 90 + 5000)%Z /\ ((10 < 90)%Z -> (0 < dur)%Z)) /\
    (forall old, None = Some old -> old ≠ p /\ old ∈ st_cells st') /\
    exists d2 st2, expire_session (d', st') = Ok (tt, (d2, st2)) /\
      m_timerSessionRefresh (d_session d2) = None /\ t ∈ st_timers st2 /\
      last (st_calls st2) = Some notifyRefreshDialog.
Proof.
  exact (setSessionTimer_effect 0 90 we_are_refresher d0 st0 d0_ok ltac:(lia) ltac:(lia)).
Defined.

Definition sd0 : StableDialogs_t := {[ 1%positive := SdKey (Some 3%positive) "call;from-tag=a" we_are_uac ]}.
Lemma sd0_unique : sd_unique sd0.
Proof. unfold sd0. intros p p' k k' [<- _]%lookup_singleton_Some [<- _]%lookup_singleton_Some. done. Qed.
Lemma StableDialogs_unique_witness :
  let k := SdKey (Some 4%positive) "call;from-tag=b" we_are_uas in
  sd_unique (SD_Insert 2%positive k sd0) /\
  (SD_Insert 2%positive k sd0 = sd0 \/
   (SD_FindByLeg (sd_leg k) (SD_Insert 2%positive k sd0) = Some 2%positive /\
    SD_FindByDialogId (sd_dialogId k) (SD_Insert 2%positive k sd0) = Some 2%positive /\
    SD_Clear_id (sd_dialogId k) (SD_Insert 2%positive k sd0) = sd0 /\ SD_Clear_leg (sd_leg k) (SD_Insert 2%positive k sd0) = sd0 /\
    (SD_Size (SD_Insert 2%positive k sd0)).1 = S (SD_Size sd0).1)) /\
  (SD_Insert 2%positive k sd0 = sd0 <->
   is_Some (SD_FindByLeg (sd_leg k) sd0) \/ is_Some (SD_FindByDialogId (sd_dialogId k) sd0)).
Proof.
  exact (StableDialogs_unique sd0 2%positive (SdKey (Some 4%positive) "call;from-tag=b" we_are_uas) sd0_unique eq_refl).
Defined.
End SipDialogWitnesses.
