(* ===== verification/SipTransports.v ===== *)
(** Model of [SipTransport] (src/sip-transports.hpp, src/sip-transports.cpp):
    the listening transports, the addresses and Contact URIs they advertise,
    and the choice of one for a destination. *)
From S2P Require Import Prelude CppString TextUtil SipTags SipDialog Regex SipUri.

Open Scope list_scope.

(** [inet_pton(AF_INET, s)] followed by [htonl]: the address as a number; it
    fails for anything but an IPv4 literal and then leaves its output as it
    was, here what an uninitialised [sockaddr_in] holds. *)
Class Inet := {
  inet_pton : string -> option Z;
  uninitialized : Z;
}.
(** Documented: decimal numbers between 0 and 255 of at most three digits,
    separated by dots. *)
Definition quad (a b c d : N) : string :=
  join "." [pretty a; pretty b; pretty c; pretty d].
Definition quad_value (a b c d : N) : Z := Z.of_N (((a * 256 + b) * 256 + c) * 256 + d).
Class InetLaws `{Inet} := {
  inet_pton_quad a b c d : (a < 256)%N -> (b < 256)%N -> (c < 256)%N -> (d < 256)%N ->
    inet_pton (quad a b c d) = Some (quad_value a b c d);
  inet_pton_bound s n : inet_pton s = Some n -> (0 <= n < 2 ^ 32)%Z;
}.

(** [tport_parent]: the primary transport of a transport. *)
Class TportTree := { tport_parent : positive -> positive }.
Class TportTreeLaws `{TportTree} := { tport_parent_idem tp : tport_parent (tport_parent tp) = tport_parent tp }.

(** [std::sort]; what it does with comparisons that order by a key but answer
    anything for equal keys (libstdc++ sorts up to sixteen elements by
    insertion and is content with that). *)
Class StdSort := { std_sort {A} : (A -> A -> bool) -> list A -> list A }.
Class StdSortLaws `{StdSort} := {
  std_sort_perm {A} (comp : A -> A -> bool) l : std_sort comp l ≡ₚ l;
  std_sort_key {A} (comp : A -> A -> bool) (key : A -> nat) l :
    (forall x y, key x < key y -> comp x y = true /\ comp y x = false) ->
    length l <= 16 -> StronglySorted (fun x y => key x <= key y) (std_sort comp l);
}.

Section model.
Context `{Boost} `{Inet} `{SofiaTport} `{TportTree} `{StdSort}.

(** ** State *)

Record SipTransport := MkSipTransport {
  m_strContact : string;
  m_strExternalIp : string;
  m_strLocalNet : string;
  m_network : string;
  m_netmask : Z;
  m_range : Z;
  m_contact : sip_uri;
  m_dnsNames : list string;
  m_tport : option positive;
  m_tpName : option tp_name_t;
}.
Definition setTport_of tp t :=
  MkSipTransport (m_strContact t) (m_strExternalIp t) (m_strLocalNet t) (m_network t) (m_netmask t) (m_range t)
    (m_contact t) (m_dnsNames t) (Some tp) (m_tpName t).
Definition setTportName tpn t :=
  MkSipTransport (m_strContact t) (m_strExternalIp t) (m_strLocalNet t) (m_network t) (m_netmask t) (m_range t)
    (m_contact t) (m_dnsNames t) (m_tport t) (Some tpn).
Definition addDnsName name t :=
  MkSipTransport (m_strContact t) (m_strExternalIp t) (m_strLocalNet t) (m_network t) (m_netmask t) (m_range t)
    (m_contact t) (m_dnsNames t ++ [name]) (m_tport t) (m_tpName t).
Definition set_networks localNet network netmask range t :=
  MkSipTransport (m_strContact t) (m_strExternalIp t) localNet network netmask range
    (m_contact t) (m_dnsNames t) (m_tport t) (m_tpName t).

(** ** Construction *)

(** [htonl(range.sin_addr.s_addr)] after [inet_pton]. *)
Definition ipv4_of (s : string) : Z := default uninitialized (inet_pton s).
(** [~(~uint32_t(0) >> netbits)]; the shift instruction takes the amount
    modulo 32. *)
Definition netmask_of (netbits : Z) : Z :=
  (2 ^ 32 - 1 - Z.shiftr (2 ^ 32 - 1) (netbits mod 2 ^ 32 mod 32))%Z.

Definition re_externalIp : regex :=
  (RBegin · RGroup 1 (RStar (RChar (fun c => is_digit c || Ascii.eqb c "."))) · REnd)%re.
Definition re_localNet : regex :=
  (RBegin · RGroup 1 (RStar (RChar (fun c => is_digit c || Ascii.eqb c "."))) · RChr "/" ·
   RGroup 2 (RStar (RChar is_dot)) · REnd)%re.

(** The constructors: [init()] on the given members; [mask0] and [range0] are
    [m_netmask] and the uninitialised [m_range]. *)
Definition SipTransport_init (contact localNet externalIp : string) (dnsNames : list string) (mask0 : Z) : res SipTransport :=
  match parseSipUri contact with
  | None => Fault (Thrown "runtime_error")
  | Some uri =>
    if negb (String.eqb externalIp "") && negb (bool_decide (is_Some (regex_search externalIp re_externalIp)))
    then Fault (Thrown "runtime_error")
    else if String.eqb localNet ""
    then Ok (MkSipTransport contact externalIp localNet "" mask0 uninitialized uri dnsNames None None)
    else match regex_search localNet re_localNet with
         | None => Fault (Thrown "runtime_error")
         | Some mr =>
           Ok (MkSipTransport contact externalIp localNet "" (netmask_of (c_atoi (group 2 mr))) (ipv4_of (group 1 mr))
                 uri dnsNames None None)
         end
  end.
Definition SipTransport_new (contact localNet externalIp : string) : res SipTransport :=
  SipTransport_init contact localNet externalIp [] 0.
Definition SipTransport_copy (other : SipTransport) : res SipTransport :=
  SipTransport_init (m_strContact other) (m_strLocalNet other) (m_strExternalIp other) (m_dnsNames other) (m_netmask other).

(** ** Queries *)

Definition hasTport (t : SipTransport) : bool := bool_decide (is_Some (m_tport t)).
Definition hasTportAndTpname (t : SipTransport) : bool := hasTport t && bool_decide (is_Some (m_tpName t)).
Definition hasExternalIp (t : SipTransport) : bool := negb (String.eqb (m_strExternalIp t) "").
Definition getHost (t : SipTransport) : string := match m_tpName t with Some n => tpn_host n | None => "" end.
Definition getPort (t : SipTransport) : string := match m_tpName t with Some n => tpn_port n | None => "" end.
Definition getProtocol (t : SipTransport) : string := match m_tpName t with Some n => tpn_proto n | None => "" end.
Definition isSips (t : SipTransport) : bool := String.eqb (su_scheme (m_contact t)) "sips".

Definition isInNetwork (t : SipTransport) (address : string) : bool :=
  if Z.eqb (m_netmask t) 0 then false
  else Z.eqb (Z.land (ipv4_of address) (m_netmask t)) (Z.land (m_range t) (m_netmask t)).
Definition shouldAdvertisePublic (t : SipTransport) (address : string) : bool :=
  if negb (hasExternalIp t) then false else negb (isInNetwork t address).

Definition isIpV6 (t : SipTransport) : bool := hasTport t && strstr (getHost t) "[" && strstr (getHost t) "]".
Definition isLocalhost (t : SipTransport) : bool :=
  hasTport t && (String.eqb (getHost t) "127.0.0.1" || String.eqb (getHost t) "[::1]").
Definition isLocal (t : SipTransport) (szHost : string) : bool :=
  String.eqb (getHost t) szHost || String.eqb (su_hostpart (m_contact t)) szHost
  || (hasExternalIp t && String.eqb (m_strExternalIp t) szHost)
  || existsb (fun name => String.eqb name szHost) (m_dnsNames t).

Definition re_octets : regex :=
  (RBegin · RGroup 1 (RPlus (RChar is_digit)) · RChr "." · RGroup 2 (RPlus (RChar is_digit)) · RChr "." ·
   RGroup 3 (RPlus (RChar is_digit)) · RChr "." · RGroup 4 (RPlus (RChar is_digit)))%re.
Definition octets_of (mr : captures) : list string := [group 1 mr; group 2 mr; group 3 mr; group 4 mr].
(** The loop over the four pairs. *)
Fixpoint count_equal (them mine : list string) : nat :=
  match them, mine with
  | a :: them, b :: mine => if String.eqb a b then S (count_equal them mine) else 0
  | _, _ => 0
  end.
Definition getOctetMatchCount (t : SipTransport) (address : string) : nat :=
  match regex_search address re_octets with
  | None => 0
  | Some them =>
    match regex_search (getHost t) re_octets with
    | None => 0
    | Some mine => count_equal (octets_of them) (octets_of mine)
    end
  end.

(** ** Text *)

Definition print_contact_params (params : list (string * string)) : string :=
  foldr (fun kv s => ";" +:+ kv.1 +:+ (if String.eqb kv.2 "" then "" else "=" +:+ kv.2) +:+ s)%string ""%string params.

Definition getDescription (t : SipTransport) (shortVersion : bool) : string :=
  let name := (getProtocol t +:+ "/" +:+ getHost t +:+ ":" +:+ getPort t)%string in
  if hasTport t && shortVersion then name else
  ((if hasTport t then name +:+ " " else "") +:+
   "(" +:+ m_strContact t +:+ ", external-ip: " +:+ m_strExternalIp t +:+ ", local-net: " +:+ m_strLocalNet t +:+ ")" +:+
   (if bool_decide (m_dnsNames t = []) then "" else " dns names: " +:+ join ", " (m_dnsNames t)))%string.
Definition getHostport (t : SipTransport) : res string :=
  if hasTport t
  then Ok (getProtocol t +:+ "/" +:+ (if hasExternalIp t then m_strExternalIp t else getHost t) +:+ ":" +:+ getPort t)%string
  else Fault AssertFail.
Definition getLocalHostport (t : SipTransport) : string :=
  if hasTport t then (getProtocol t +:+ "/" +:+ getHost t +:+ ":" +:+ getPort t)%string else "".

Definition getBindableContactUri (t : SipTransport) : string :=
  let u := m_contact t in
  (su_scheme u +:+ ":" +:+ (if hasExternalIp t then m_strExternalIp t else su_hostpart u) +:+
   (if String.eqb (su_port u) "" then "" else ":" +:+ su_port u) +:+ print_contact_params (su_params u) +:+
   (if hasExternalIp t then ";maddr=" +:+ su_hostpart u else ""))%string.

Definition getContactUri (t : SipTransport) (useExternalIp : bool) : string :=
  let u := m_contact t in
  let public := useExternalIp && hasExternalIp t in
  (su_scheme u +:+ ":" +:+ (if String.eqb (su_userpart u) "" then "" else su_userpart u +:+ "@") +:+
   (if hasTport t then
      (if public then m_strExternalIp t else getHost t) +:+
      (if String.eqb (getPort t) "" then "" else ":" +:+ getPort t) +:+
      (if String.eqb (getProtocol t) "" || String.eqb (getProtocol t) "udp" then "" else ";transport=" +:+ getProtocol t)
    else
      (if public then m_strExternalIp t else su_hostpart u) +:+
      (if String.eqb (su_port u) "" then "" else ":" +:+ su_port u) +:+ print_contact_params (su_params u)))%string.

(** The arguments of [sip_via_create]: host, port and transport. *)
Definition makeVia (t : SipTransport) (szRemoteHost : option string) : string * string * string :=
  let isInSubnet := match szRemoteHost with Some h => isInNetwork t h | None => false end in
  let host := if hasExternalIp t && negb isInSubnet then m_strExternalIp t else getHost t in
  let proto := if String.eqb (getProtocol t) "" then "UDP" else getProtocol t in
  (host, getPort t, "SIP/2.0/" +:+ str_map to_upper proto)%string.

(** ** The transports of the server *)

(** The parameters set on a transport of the stack. *)
Inductive tport_param := TPTAG_MTU (n : Z) | TPTAG_UDP_WMEM_RMEM (n : Z).

(** [m_mapTport2SipTransport], [m_masterTransport], and the calls of
    [tport_set_params] in order. *)
Record SipTransports := MkTransports {
  m_mapTport2SipTransport : gmap positive SipTransport;
  m_masterTransport : option SipTransport;
  tport_params : list (positive * tport_param);
}.
Definition on_map u s := MkTransports (u (m_mapTport2SipTransport s)) (m_masterTransport s) (tport_params s).
Definition set_master t s := MkTransports (m_mapTport2SipTransport s) (Some t) (tport_params s).
Definition add_params l s := MkTransports (m_mapTport2SipTransport s) (m_masterTransport s) (tport_params s ++ l).

Abbreviation TS := (M SipTransports).
Definition lift_res {S A} (r : res A) : M S A := fun s => match r with Ok a => Ok (a, s) | Fault f => Fault f end.

(** The network assumed for an address when none is configured. *)
Definition guess_network (host : string) : option (string * string) :=
  if String.eqb host "127.0.0.1" then Some ("127.0.0.1", "32")
  else if String.prefix "192.168.0." host then Some ("192.168.0.0", "24")
  else if String.prefix "172.16." host then Some ("172.16.0.0", "16")
  else if String.prefix "10." host then Some ("10.0.0.0", "8")
  else None.
Definition with_guessed_network (t : SipTransport) : SipTransport :=
  if negb (String.eqb (m_strLocalNet t) "") then t else
  match guess_network (if hasExternalIp t then m_strExternalIp t else getHost t) with
  | None => t
  | Some (network, bits) =>
    set_networks (network +:+ "/" +:+ bits)%string network (netmask_of (c_atoi bits)) (ipv4_of network) t
  end.

(** One turn of the loop of [addTransports]. *)
Definition addTransport (config : SipTransport) (udpBufferSize : Z) (tp : positive) : TS unit :=
  let tpn := tport_name tp in
  _ ← modify (add_params [(tp, TPTAG_MTU 65535)]);
  _ ← (if String.eqb (tpn_proto tpn) "udp"
       then modify (add_params [(tp, TPTAG_UDP_WMEM_RMEM (if Z.eqb udpBufferSize 0 then 4 * 1024 * 1024 else udpBufferSize))])
       else mret tt);
  s ← get;
  match m_mapTport2SipTransport s !! tp with
  | Some _ => mret tt
  | None =>
    p ← lift_res (SipTransport_copy config);
    modify (on_map (insert tp (with_guessed_network (setTportName tpn (setTport_of tp p)))))
  end.
Fixpoint addTransports_loop (config : SipTransport) (udpBufferSize : Z) (tports : list positive) : TS unit :=
  match tports with
  | [] => mret tt
  | tp :: tports => _ ← addTransport config udpBufferSize tp; addTransports_loop config udpBufferSize tports
  end.
(** [agent_tports] is the list that [nta_agent_tports] and [tport_next] walk. *)
Definition addTransports (config : SipTransport) (udpBufferSize : Z) (agent_tports : list positive) : TS unit :=
  match agent_tports with
  | [] => fail BadAccess
  | master :: tports =>
    m ← lift_res (SipTransport_copy config);
    _ ← modify (set_master (setTport_of master m));
    addTransports_loop config udpBufferSize tports
  end.

Definition findTransport (s : SipTransports) (tp : positive) : res SipTransport :=
  match m_mapTport2SipTransport s !! tp with
  | Some t => Ok t
  | None =>
    match m_mapTport2SipTransport s !! tport_parent (tport_parent tp) with
    | Some t => Ok t
    | None => Fault AssertFail
    end
  end.

(** The values of the map, in its iteration order. *)
Definition all_transports (s : SipTransports) : list SipTransport := (map_to_list (m_mapTport2SipTransport s)).*2.

(** ** Choosing a transport *)

(** The comparison passed to [sort]. *)
Definition preferred (host : string) (a b : SipTransport) : bool :=
  if isInNetwork a host then true
  else if isInNetwork b host then false
  else
    let na := getOctetMatchCount a host in
    let nb := getOctetMatchCount b host in
    if bool_decide (nb < na) then true
    else if bool_decide (na < nb) then false
    else if hasExternalIp a then true
    else if hasExternalIp b then false
    else if isLocalhost a then false
    else if isLocalhost b then true
    else true.

(** Host and protocol that a request to [remoteHost] asks for, and whether
    the URI names a transport. *)
Definition requested (remoteHost : string) (proto : option string) : string * string * bool :=
  let '(host, params) := match parseSipUri remoteHost with
                         | Some u => (su_hostpart u, su_params u)
                         | None => (remoteHost, [])
                         end in
  match list_find (fun kv => kv.1 = "transport"%string) params with
  | Some (_, (_, v)) => (host, str_map to_lower v, true)
  | None => (host, str_map to_lower (default "" proto), false)
  end.

Definition candidates (s : SipTransports) (remoteHost : string) (requestedProto : string) : list SipTransport :=
  let wantsIpV6 := strstr remoteHost "[" && strstr remoteHost "]" in
  filter (fun t => isIpV6 t = wantsIpV6 /\ (requestedProto = "" \/ getProtocol t = requestedProto))
    (all_transports s).

Definition findAppropriateTransport (s : SipTransports) (remoteHost : string) (proto : option string) :
    res (option SipTransport) :=
  let '(host, requestedProto, explicitTransport) := requested remoteHost proto in
  match std_sort (preferred host) (candidates s remoteHost requestedProto) with
  | [] =>
    if explicitTransport then Ok None else
    match m_masterTransport s with
    | None => Fault BadAccess
    | Some m => Ok (if hasTportAndTpname m then Some m else None)
    end
  | t :: _ => Ok (Some t)
  end.

(** ** Lists of addresses *)

Definition getAllExternalIps (s : SipTransports) : list string :=
  t ← all_transports s; (if hasExternalIp t then [m_strExternalIp t] else []) ++ m_dnsNames t.
Definition getAllExternalContacts (s : SipTransports) : list (string * string) :=
  t ← all_transports s;
  (if hasExternalIp t then [(m_strExternalIp t, getPort t)] else []) ++ ((fun n => (n, getPort t)) <$> m_dnsNames t).
Definition getAllHostports (s : SipTransports) : res (list string) :=
  foldr (fun t r => h ← getHostport t; l ← r; mret (h :: l)) (Ok []) (all_transports s).
Definition getAllLocalHostports (s : SipTransports) : list string := getLocalHostport <$> all_transports s.
Definition isLocalAddress (s : SipTransports) (szHost : string) (tp : option positive) : res bool :=
  match tp with
  | Some tp => t ← findTransport s tp; mret (isLocal t szHost)
  | None => mret (existsb (fun t => isLocal t szHost || existsb (fun n => String.eqb n szHost) (m_dnsNames t)) (all_transports s))
  end.
End model.
