(* ===== verification/SipTransportsCorrect.v ===== *)
(** Correctness of the transports: networks in CIDR notation, octet matches,
    the table of transports, Contact URIs and the choice of a transport. *)
From S2P Require Import Prelude CppString TextUtil SipTags SipDialog Regex SipUri SipTransports.

Open Scope list_scope.

(** ** Numbers in text *)

Lemma pretty_N_byte n : (n < 256)%N ->
  str_forall is_digit (pretty n) = true /\ pretty n ≠ "" /\ dec_value (pretty n) 0 = n.
Proof.
  intros Hn. destruct (pretty_N_digits 3 n) as (Hd & Hl & Hv); [lia| |].
  { change (10 ^ N.of_nat 3)%N with 1000%N. lia. }
  split_and!; [done| |done]. intros E. rewrite E in Hl. cbn in Hl. lia.
Qed.

Lemma atoi_digits_dec s acc : str_forall is_digit s = true -> atoi_digits s (Z.of_N acc) = Z.of_N (dec_value s acc).
Proof.
  revert acc. induction s as [|c s IH]; intros acc; [done|]. cbn. intros [Hc Hs]%andb_prop. rewrite Hc.
  rewrite <-IH by done. f_equal. unfold is_digit in Hc. apply andb_prop in Hc as [Hc%N.leb_le _]. lia.
Qed.
Lemma c_atoi_pretty n : (n < 256)%N -> c_atoi (pretty n) = Z.of_N n.
Proof.
  intros Hn. destruct (pretty_N_byte n Hn) as (Hd & Hne & Hv).
  transitivity (atoi_digits (pretty n) (Z.of_N 0)); [|by rewrite atoi_digits_dec, Hv].
  destruct (pretty n) as [|c s]; [done|]. cbn [str_forall] in Hd. apply andb_prop in Hd as [Hc _].
  cbn [c_atoi]. unfold c_isspace, is_digit in *. apply andb_prop in Hc as [H1%N.leb_le H2%N.leb_le].
  replace ((9 <=? code c)%N && (code c <=? 13)%N || (code c =? 32)%N) with false; cycle 1.
  { symmetry. apply orb_false_iff. split; [apply andb_false_iff; right; by apply N.leb_gt; lia|].
    apply N.eqb_neq. lia. }
  destruct (Ascii.eqb_spec c "-") as [->|]; [by vm_compute in H1|].
  destruct (Ascii.eqb_spec c "+") as [->|]; [by vm_compute in H1|]. done.
Qed.

(** ** Masks *)

Lemma netmask_value n : (0 <= n < 32)%Z -> netmask_of n = (2 ^ 32 - 2 ^ (32 - n))%Z.
Proof.
  intros Hn. unfold netmask_of. rewrite (Z.mod_small n (2 ^ 32)), (Z.mod_small n 32) by lia. rewrite Z.shiftr_div_pow2 by lia.
  assert (2 ^ 32 = 2 ^ (32 - n) * 2 ^ n)%Z as E by (rewrite <-Z.pow_add_r; [f_equal|..]; lia).
  assert (0 < 2 ^ n)%Z by (apply Z.pow_pos_nonneg; lia).
  replace ((2 ^ 32 - 1) / 2 ^ n)%Z with (2 ^ (32 - n) - 1)%Z; [lia|].
  apply Z.div_unique with (2 ^ n - 1)%Z; [lia|nia].
Qed.

Lemma land_netmask x n : (0 <= n < 32)%Z -> (0 <= x < 2 ^ 32)%Z ->
  Z.land x (netmask_of n) = Z.shiftl (Z.shiftr x (32 - n)) (32 - n).
Proof.
  intros Hn Hx. rewrite netmask_value by done. apply Z.bits_inj'. intros i Hi.
  assert (2 ^ 32 - 2 ^ (32 - n) = Z.shiftl (Z.ones n) (32 - n))%Z as ->.
  { rewrite Z.shiftl_mul_pow2, Z.ones_equiv by lia. rewrite <-Z.sub_1_r, Z.mul_sub_distr_r, <-Z.pow_add_r by lia.
    replace (n + (32 - n))%Z with 32%Z by lia. lia. }
  rewrite Z.land_spec, !Z.shiftl_spec by done.
  destruct (Z.ltb_spec i (32 - n)) as [Hlt|Hge].
  - rewrite (Z.testbit_neg_r _ (i - _)), andb_false_r, Z.testbit_neg_r by lia. done.
  - rewrite Z.shiftr_spec by lia. replace (i - (32 - n) + (32 - n))%Z with i by lia.
    destruct (Z.ltb_spec i 32) as [Hlt|Hge'].
    + rewrite Z.ones_spec_low, andb_true_r by lia. done.
    + rewrite Z.ones_spec_high, andb_false_r by lia. destruct (Z.eq_dec x 0%Z) as [->|Hx0]; [by rewrite Z.bits_0|].
      symmetry. apply Z.bits_above_log2; [lia|]. apply Z.log2_lt_pow2; [lia|].
      eapply Z.lt_le_trans; [apply Hx|]. apply Z.pow_le_mono_r; lia.
Qed.

Lemma same_network x y n : (0 <= n < 32)%Z -> (0 <= x < 2 ^ 32)%Z -> (0 <= y < 2 ^ 32)%Z ->
  Z.eqb (Z.land x (netmask_of n)) (Z.land y (netmask_of n)) = Z.eqb (Z.shiftr x (32 - n)) (Z.shiftr y (32 - n)).
Proof.
  intros Hn Hx Hy. rewrite !land_netmask by done.
  destruct (Z.eqb_spec (Z.shiftr x (32 - n)) (Z.shiftr y (32 - n))) as [->|Hne]; [apply Z.eqb_refl|].
  apply Z.eqb_neq. intros E. apply Hne. apply (f_equal (fun z => Z.shiftr z (32 - n))) in E.
  rewrite !Z.shiftr_shiftl_l, Z.sub_diag, !Z.shiftl_0_r in E by lia. done.
Qed.

(** ** Dotted quads *)

Lemma quad_eq a b c d :
  quad a b c d = (pretty a +:+ "." +:+ pretty b +:+ "." +:+ pretty c +:+ "." +:+ pretty d)%string.
Proof. done. Qed.
Lemma quad_value_bound a b c d :
  (a < 256)%N -> (b < 256)%N -> (c < 256)%N -> (d < 256)%N -> (0 <= quad_value a b c d < 2 ^ 32)%Z.
Proof. intros. unfold quad_value. lia. Qed.

Section octets.
Context (a b c d : N) (Ha : (a < 256)%N) (Hb : (b < 256)%N) (Hc : (c < 256)%N) (Hd : (d < 256)%N).

Lemma octets_quad : octets_of <$> regex_search (quad a b c d) re_octets = Some [pretty a; pretty b; pretty c; pretty d].
Proof.
  destruct (pretty_N_byte a Ha) as (Ha1 & Ha2 & _), (pretty_N_byte b Hb) as (Hb1 & Hb2 & _),
    (pretty_N_byte c Hc) as (Hc1 & Hc2 & _), (pretty_N_byte d Hd) as (Hd1 & Hd2 & _).
  assert (exists caps, regex_search (quad a b c d) re_octets = Some caps /\
            octets_of caps = [pretty a; pretty b; pretty c; pretty d]) as (caps & -> & E); [|by cbn; rewrite E].
  unfold re_octets. rewrite search_anchored, quad_eq. set (total := String.length _). clearbody total.
  eexists. split.
  - rewrite rmatch_seq. apply group_plus_all; [done..|]. rewrite rmatch_seq, rmatch_chr_app, rmatch_seq.
    apply group_plus_all; [done..|]. rewrite rmatch_seq, rmatch_chr_app, rmatch_seq.
    apply group_plus_all; [done..|]. rewrite rmatch_seq, rmatch_chr_app. rewrite <-(str_app_nil_r (pretty d)).
    apply group_plus_all; [done..|]. reflexivity.
  - unfold octets_of, group. by simplify_map_eq.
Qed.

Lemma localNet_quad n : (n < 256)%N -> exists caps,
  regex_search (quad a b c d +:+ "/" +:+ pretty n)%string re_localNet = Some caps /\
  group 1 caps = quad a b c d /\ group 2 caps = pretty n.
Proof.
  intros Hn. destruct (pretty_N_byte a Ha) as (Ha1 & _), (pretty_N_byte b Hb) as (Hb1 & _),
    (pretty_N_byte c Hc) as (Hc1 & _), (pretty_N_byte d Hd) as (Hd1 & _), (pretty_N_byte n Hn) as (Hn1 & _).
  assert (Hdig : forall s, str_forall is_digit s = true ->
    str_forall (fun c => is_digit c || Ascii.eqb c ".") s = true /\ str_forall is_dot s = true).
  { intros s Hs. split; revert Hs; apply forall_weaken; intros x Hx; [by rewrite Hx|].
    unfold is_dot. destruct (Ascii.eqb_spec x LF) as [->|]; [done|]. by destruct (Ascii.eqb_spec x CR) as [->|]. }
  unfold re_localNet. rewrite search_anchored. set (total := String.length _). clearbody total.
  eexists. split.
  - rewrite rmatch_seq, rmatch_group. apply star_class_all; [|done|].
    { rewrite quad_eq, !str_forall_app, (proj1 (Hdig _ Ha1)), (proj1 (Hdig _ Hb1)), (proj1 (Hdig _ Hc1)), (proj1 (Hdig _ Hd1)). done. }
    rewrite take_diff, rmatch_seq, rmatch_chr_app, rmatch_seq, rmatch_group, <-(str_app_nil_r (pretty n)).
    apply star_class_all; [by apply Hdig|done|]. rewrite take_diff. reflexivity.
  - unfold group. by simplify_map_eq.
Qed.
End octets.

(** ** Networks *)

Section networks.
Context `{Boost} `{InetLaws}.

(** A transport configured with the network a.b.c.d/n has exactly the
    IPv4 addresses in its network that agree with a.b.c.d in the first n bits,
    except that 0 and 32 bits stand for no network at all (the mask of a /32
    is computed with a shift by 32). For a host that is not an IPv4 literal
    the answer depends on uninitialised memory and not on the host. *)
Theorem isInNetwork_cidr contact u externalIp a b c d n :
  parseSipUri contact = Some u -> externalIp = ""%string ->
  (a < 256)%N -> (b < 256)%N -> (c < 256)%N -> (d < 256)%N -> (n <= 32)%N ->
  let prefix x := Z.shiftr x (32 - Z.of_N n) in
  let net := quad_value a b c d in
  let real := (0 <? n)%N && (n <? 32)%N in
  exists t, SipTransport_new contact (quad a b c d +:+ "/" +:+ pretty n) externalIp = Ok t /\
    (forall e f g h, (e < 256)%N -> (f < 256)%N -> (g < 256)%N -> (h < 256)%N ->
       isInNetwork t (quad e f g h) = real && Z.eqb (prefix (quad_value e f g h)) (prefix net)) /\
    (forall host, inet_pton host = None -> (0 <= uninitialized < 2 ^ 32)%Z ->
       isInNetwork t host = real && Z.eqb (prefix uninitialized) (prefix net)).
Proof.
  intros Hu -> Ha Hb Hc Hd Hn prefix net real.
  destruct (localNet_quad a b c d Ha Hb Hc Hd n ltac:(lia)) as (caps & Hs & G1 & G2).
  pose proof (quad_value_bound _ _ _ _ Ha Hb Hc Hd) as Hnet.
  unfold SipTransport_new, SipTransport_init. rewrite Hu. cbn [String.eqb negb andb].
  destruct (String.eqb_spec (quad a b c d +:+ "/" +:+ pretty n) "") as [E|_].
  { rewrite E in Hs. by vm_compute in Hs. }
  rewrite Hs, G1, G2, c_atoi_pretty by lia. eexists. split; [done|].
  assert (Hin : forall address x, ipv4_of address = x -> (0 <= x < 2 ^ 32)%Z ->
    forall t, m_netmask t = netmask_of (Z.of_N n) -> m_range t = net ->
    isInNetwork t address = real && Z.eqb (prefix x) (prefix net)).
  { intros address x Ex Hx t Em Er. unfold isInNetwork. rewrite Em, Er, Ex. unfold real.
    destruct (N.ltb_spec 0 n) as [Hz|Hz]; cycle 1.
    { by replace n with 0%N by lia. }
    destruct (N.ltb_spec n 32) as [Hw|Hw]; cycle 1.
    { by replace n with 32%N by lia. }
    cbn [andb]. rewrite same_network by lia.
    destruct (Z.eqb_spec (netmask_of (Z.of_N n)) 0) as [E|_]; [|done].
    rewrite netmask_value in E by lia.
    assert (2 ^ (32 - Z.of_N n) < 2 ^ 32)%Z by (apply Z.pow_lt_mono_r; lia). lia. }
  split.
  - intros e f g h He Hf Hg Hh. apply Hin; [unfold ipv4_of; by rewrite inet_pton_quad| |done|].
    + by apply quad_value_bound.
    + cbn [m_range]. unfold ipv4_of. by rewrite inet_pton_quad.
  - intros host Eh Hun. apply Hin; [unfold ipv4_of; by rewrite Eh|done|done|].
    cbn [m_range]. unfold ipv4_of. by rewrite inet_pton_quad.
Qed.
End networks.

(** ** Octet matches *)

Lemma pretty_N_inj (a b : N) : pretty a = pretty b -> a = b.
Proof. apply pretty_N_inj. Qed.
Lemma eqb_pretty (a b : N) : String.eqb (pretty a) (pretty b) = N.eqb a b.
Proof.
  destruct (N.eqb_spec a b) as [->|Hne]; [apply String.eqb_refl|].
  apply String.eqb_neq. by intros ?%(inj pretty).
Qed.

(** The reference definition: leading numbers that agree. *)
Fixpoint common_prefix (l1 l2 : list N) : nat :=
  match l1, l2 with
  | x :: l1, y :: l2 => if N.eqb x y then S (common_prefix l1 l2) else 0
  | _, _ => 0
  end.

Lemma count_equal_bound l1 l2 : count_equal l1 l2 <= length l1.
Proof.
  revert l2. induction l1 as [|x l1 IH]; intros [|y l2]; cbn; [lia..|].
  destruct (String.eqb x y); [specialize (IH l2)|]; lia.
Qed.

(** For IPv4 addresses [getOctetMatchCount] is the number of leading
    octets that the address and the host of the transport share; it is never
    more than four. *)
Theorem getOctetMatchCount_correct t a b c d e f g h :
  (a < 256)%N -> (b < 256)%N -> (c < 256)%N -> (d < 256)%N ->
  (e < 256)%N -> (f < 256)%N -> (g < 256)%N -> (h < 256)%N ->
  getHost t = quad e f g h ->
  getOctetMatchCount t (quad a b c d) = common_prefix [a; b; c; d] [e; f; g; h] /\
  forall address, getOctetMatchCount t address <= 4.
Proof.
  intros Ha Hb Hc Hd He Hf Hg Hh Ht. split.
  - pose proof (octets_quad a b c d Ha Hb Hc Hd) as E1. pose proof (octets_quad e f g h He Hf Hg Hh) as E2.
    unfold getOctetMatchCount. rewrite Ht.
    destruct (regex_search (quad a b c d) re_octets) as [m1|]; [|done].
    destruct (regex_search (quad e f g h) re_octets) as [m2|]; [|done].
    change (Some (octets_of m1) = Some [pretty a; pretty b; pretty c; pretty d]) in E1.
    change (Some (octets_of m2) = Some [pretty e; pretty f; pretty g; pretty h]) in E2.
    rewrite (Some_inj _ _ E1), (Some_inj _ _ E2).
    cbn [count_equal common_prefix]. by rewrite !eqb_pretty.
  - intros address. unfold getOctetMatchCount. destruct (regex_search address re_octets); [|lia].
    destruct (regex_search (getHost t) re_octets); [|lia]. apply count_equal_bound.
Qed.

(** ** The table of transports *)

Section table.
Context `{Boost} `{Inet} `{SofiaTport} `{TportTree} `{StdSort}.

(** What a transport of the stack becomes. *)
Definition transport_of (c : SipTransport) (tp : positive) : SipTransport :=
  with_guessed_network (setTportName (tport_name tp) (setTport_of tp c)).

Lemma addTransport_map config c udp tp s :
  SipTransport_copy config = Ok c ->
  exists s', addTransport config udp tp s = Ok (tt, s') /\ m_masterTransport s' = m_masterTransport s /\
    m_mapTport2SipTransport s' = match m_mapTport2SipTransport s !! tp with
      | Some _ => m_mapTport2SipTransport s
      | None => <[tp := transport_of c tp]> (m_mapTport2SipTransport s)
      end.
Proof.
  intros Hc. unfold addTransport. mstep.
  set (s1 := add_params _ s).
  assert (exists s2, (if String.eqb (tpn_proto (tport_name tp)) "udp"
      then modify (add_params [(tp, TPTAG_UDP_WMEM_RMEM (if Z.eqb udp 0 then 4 * 1024 * 1024 else udp))])
      else mret tt) s1 = Ok (tt, s2) /\ m_mapTport2SipTransport s2 = m_mapTport2SipTransport s /\
      m_masterTransport s2 = m_masterTransport s) as (s2 & E & Em & Ema).
  { destruct (String.eqb _ _); by eexists. }
  rewrite (M_bind_ok _ _ _ _ _ E). mstep. rewrite Em.
  destruct (m_mapTport2SipTransport s !! tp) eqn:El; [by exists s2|].
  unfold lift_res. rewrite Hc. mstep. eexists. split; [done|]. cbn. by rewrite Em.
Qed.

Lemma addTransports_loop_map config c udp tports s :
  SipTransport_copy config = Ok c ->
  exists s', addTransports_loop config udp tports s = Ok (tt, s') /\ m_masterTransport s' = m_masterTransport s /\
    forall tp, m_mapTport2SipTransport s' !! tp = match m_mapTport2SipTransport s !! tp with
      | Some t => Some t
      | None => if bool_decide (tp ∈ tports) then Some (transport_of c tp) else None
      end.
Proof.
  intros Hc. revert s. induction tports as [|tp tports IH]; intros s.
  { exists s. split_and!; [done..|]. intros tp. destruct (_ !! tp); [done|].
    by rewrite bool_decide_eq_false_2 by apply not_elem_of_nil. }
  destruct (addTransport_map config c udp tp s Hc) as (s1 & E1 & Ma1 & Em1).
  destruct (IH s1) as (s2 & E2 & Ma2 & Em2). exists s2. cbn [addTransports_loop].
  rewrite (M_bind_ok _ _ _ _ _ E1), E2. split_and!; [done|congruence|]. intros tp'. rewrite Em2, Em1.
  destruct (m_mapTport2SipTransport s !! tp) eqn:El.
  - destruct (m_mapTport2SipTransport s !! tp') eqn:El'; [done|].
    assert (tp' ≠ tp) by congruence.
    rewrite (bool_decide_ext (tp' ∈ tports) (tp' ∈ tp :: tports)); [done|]. rewrite elem_of_cons. naive_solver.
  - destruct (decide (tp' = tp)) as [->|Hne].
    + rewrite lookup_insert_eq, El. by rewrite bool_decide_eq_true_2 by by left.
    + rewrite lookup_insert_ne by done. destruct (m_mapTport2SipTransport s !! tp'); [done|].
      rewrite (bool_decide_ext (tp' ∈ tports) (tp' ∈ tp :: tports)); [done|]. rewrite elem_of_cons. naive_solver.
Qed.

(** [addTransports] turns every transport of the stack that is not in the
    table yet into a transport with the configuration's addresses, and leaves
    the others alone; a primary transport is found by [findTransport] under
    itself and under its secondary connections. The master transport gets no
    name, which makes the fallback of [findAppropriateTransport] dead. *)
Theorem addTransports_correct config c udp master tports s :
  (forall tp, tport_parent (tport_parent tp) = tport_parent tp) ->
  SipTransport_copy config = Ok c ->
  exists s', addTransports config udp (master :: tports) s = Ok (tt, s') /\
    (forall tp, m_mapTport2SipTransport s' !! tp =
       match m_mapTport2SipTransport s !! tp with
       | Some t => Some t
       | None => if bool_decide (tp ∈ tports) then Some (transport_of c tp) else None
       end) /\
    (forall tp tp', tp ∈ tports -> m_mapTport2SipTransport s !! tp = None ->
       m_mapTport2SipTransport s' !! tp' = None \/ tp' = tp -> tport_parent tp' = tp ->
       findTransport s' tp' = Ok (transport_of c tp)) /\
    exists m, m_masterTransport s' = Some m /\ hasTportAndTpname m = false.
Proof.
  intros Hidem Hc. unfold addTransports, lift_res. rewrite Hc.
  erewrite M_bind_ok by reflexivity. cbn beta iota. mstep.
  destruct (addTransports_loop_map config c udp tports (set_master (setTport_of master c) s) Hc) as (s' & E & Ma & Em).
  exists s'. split_and!; [done|done| |].
  - intros tp tp' Hin Hn Hp Hpar. specialize (Em tp) as Etp. cbn in Etp. rewrite Hn in Etp.
    rewrite bool_decide_eq_true_2 in Etp by done. unfold findTransport.
    destruct Hp as [Hp|Hp].
    + by rewrite Hp, Hidem, Hpar, Etp.
    + by rewrite Hp, Etp.
  - rewrite Ma. cbn. eexists. split; [done|]. unfold SipTransport_copy, SipTransport_init in Hc.
    destruct (parseSipUri _); [|done]. destruct (_ && _); [done|].
    destruct (String.eqb _ _); [by inversion Hc; subst|].
    destruct (regex_search _ _); by inversion Hc; subst.
Qed.
End table.

(** ** The choice of a transport *)

Section choice.
Context `{Boost} `{Inet} `{TportTree} `{StdSortLaws}.

(** The order that the comparison of the code makes: a transport in the
    network of the destination first, then by the number of octets shared with
    it, and only then transports with an external address, transports bound to
    localhost last.  The comment in front of the code does not mention the
    octets: it puts transports with an external address before all others that
    are not in the network. *)
Definition distance (host : string) (t : SipTransport) : nat :=
  if isInNetwork t host then 0
  else S ((4 - getOctetMatchCount t host) * 4 + (if hasExternalIp t then 0 else if isLocalhost t then 2 else 1)).

Lemma getOctetMatchCount_le t address : getOctetMatchCount t address <= 4.
Proof.
  unfold getOctetMatchCount. destruct (regex_search address re_octets); [|lia].
  destruct (regex_search (getHost t) re_octets); [|lia]. apply count_equal_bound.
Qed.

Lemma preferred_distance host x y :
  distance host x < distance host y -> preferred host x y = true /\ preferred host y x = false.
Proof.
  unfold distance, preferred. pose proof (getOctetMatchCount_le x host). pose proof (getOctetMatchCount_le y host).
  destruct (isInNetwork x host) eqn:Nx, (isInNetwork y host) eqn:Ny; intros Hd; try (simpl in Hd; lia).
  set (nx := getOctetMatchCount x host) in *. set (ny := getOctetMatchCount y host) in *.
  destruct (decide (ny < nx)) as [Hlt|Hge].
  { rewrite (bool_decide_eq_true_2 (ny < nx)), (bool_decide_eq_false_2 (nx < ny)) by lia. done. }
  assert (nx = ny) as E.
  { destruct (decide (nx < ny)); [|lia]. exfalso.
    destruct (hasExternalIp x), (isLocalhost x), (hasExternalIp y), (isLocalhost y); lia. }
  rewrite E, !bool_decide_eq_false_2 by lia. rewrite E in Hd.
  destruct (hasExternalIp x), (hasExternalIp y), (isLocalhost x), (isLocalhost y); simpl in Hd; (lia || done).
Qed.

(** C39: [findAppropriateTransport] returns a transport of the address family
    and protocol asked for that no other such transport beats in the order of
    preference, for up to sixteen candidates; without candidates it returns
    nothing, or the master transport when that has a name and the URI does not
    insist on a transport. The order of preference counts octets shared with the
    destination before an external address, against the comment in the code:
    outside the network of the destination a transport that shares more octets
    is preferred even to one with an external address. The comparison calls
    almost every transport better than itself, which [std::sort] does not
    allow: that it orders up to sixteen candidates all the same is what
    libstdc++ does. *)
Theorem findAppropriateTransport_best s remoteHost proto m :
  m_masterTransport s = Some m ->
  let '(host, want, explicit) := requested remoteHost proto in
  let cs := candidates s remoteHost want in
  length cs <= 16 ->
  (exists r, findAppropriateTransport s remoteHost proto = Ok r /\
    match r with
    | Some t =>
      (t ∈ cs /\ isIpV6 t = strstr remoteHost "[" && strstr remoteHost "]" /\
       (want = ""%string \/ getProtocol t = want) /\ forall t', t' ∈ cs -> distance host t <= distance host t') \/
      (cs = [] /\ explicit = false /\ t = m /\ hasTportAndTpname m = true)
    | None => cs = [] /\ (explicit = true \/ hasTportAndTpname m = false)
    end) /\
  (forall t, preferred host t t = negb (negb (isInNetwork t host) && negb (hasExternalIp t) && isLocalhost t)) /\
  (forall a b, isInNetwork a host = false -> isInNetwork b host = false -> getOctetMatchCount b host < getOctetMatchCount a host ->
     preferred host a b = true /\ preferred host b a = false /\ distance host a < distance host b).
Proof.
  intros Hm. unfold findAppropriateTransport. destruct (requested remoteHost proto) as [[host want] explicit].
  intros Hlen. set (cs := candidates s remoteHost want) in *. split; [|split]; cycle 1.
  { intros t. unfold preferred. destruct (isInNetwork t host); [done|]. rewrite !bool_decide_eq_false_2 by lia.
    by destruct (hasExternalIp t), (isLocalhost t). }
  { intros a b Ha Hb Hl. assert (distance host a < distance host b) as Hd; [|by split_and!; [apply preferred_distance..|]].
    unfold distance. rewrite Ha, Hb. pose proof (getOctetMatchCount_le a host).
    destruct (hasExternalIp a), (isLocalhost a), (hasExternalIp b), (isLocalhost b); lia. }
  pose proof (std_sort_perm (preferred host) cs) as Hperm.
  pose proof (std_sort_key (preferred host) (distance host) cs (preferred_distance host) Hlen) as Hsort.
  destruct (std_sort (preferred host) cs) as [|t l].
  - apply Permutation_nil in Hperm. rewrite Hm. destruct explicit; [by exists None; split; [|split; [|left]]|].
    destruct (hasTportAndTpname m) eqn:E; eexists; (split; [done|]); rewrite <-?Hperm; [right|]; auto.
  - exists (Some t). split; [done|]. left. assert (t ∈ cs) as Ht by (rewrite <-Hperm; by left).
    pose proof Ht as Hf. unfold cs, candidates in Hf. apply list_elem_of_filter in Hf as [[Hv Hp] _].
    split_and!; [done..|]. intros t' Ht'. rewrite <-Hperm in Ht'. apply elem_of_cons in Ht' as [->|Ht']; [done|].
    apply StronglySorted_inv in Hsort as [_ Hall]. rewrite Forall_forall in Hall. by apply Hall.
Qed.
End choice.

(** ** Contact URIs *)

Section contact.
Context `{BoostLaws} `{Inet}.

Lemma print_contact_params_eq params :
  print_contact_params params =
    (if bool_decide (params = []) then "" else ";" +:+ join ";" (print_param <$> params))%string.
Proof.
  induction params as [|p l IH]; [done|]. rewrite bool_decide_eq_false_2 by done. cbn [print_contact_params foldr fmap list_fmap].
  change (foldr _ "" l)%string with (print_contact_params l). rewrite IH.
  assert (print_param p = (p.1 +:+ (if String.eqb p.2 "" then "" else "=" +:+ p.2)))%string as ->.
  { unfold print_param. destruct (String.eqb p.2 ""); [by rewrite str_app_nil_r|done]. }
  destruct l as [|q l]; [rewrite bool_decide_eq_true_2 by done; by rewrite str_app_nil_r|].
  rewrite bool_decide_eq_false_2 by done.
  rewrite join_cons by done. by rewrite !str_app_assoc.
Qed.

(** A transport made from the text of a SIP URI advertises that URI: the
    Contact URI before it is bound to a transport of the stack is the URI
    itself, and parses back to its parts with the external address, if there
    is one, in place of the host. *)
Theorem getContactUri_roundtrip angle u externalIp t :
  wf_uri u -> (externalIp = "" \/ (externalIp ≠ "" /\ str_forall (none_of ";|^>:@") externalIp = true))%string ->
  SipTransport_new (print_uri angle u) "" externalIp = Ok t ->
  let host := if String.eqb externalIp "" then su_hostpart u else externalIp in
  getContactUri t false = print_uri false u /\
  parseSipUri (getContactUri t true) = Some (SipUri (su_scheme u) (su_userpart u) host (su_port u) (su_params u)).
Proof.
  intros Hw He Hnew host. pose proof (parseSipUri_roundtrip angle u Hw) as Hparse.
  unfold SipTransport_new, SipTransport_init in Hnew. rewrite Hparse in Hnew.
  assert (m_contact t = u /\ m_tport t = None /\ m_strExternalIp t = externalIp) as (Hc & Ht & Hx).
  { destruct (_ && _); [done|]. cbn in Hnew. by inversion Hnew. }
  assert (Hprint : forall ext, getContactUri t ext = print_uri false
    (SipUri (su_scheme u) (su_userpart u) (if ext && negb (String.eqb externalIp "") then externalIp else su_hostpart u)
       (su_port u) (su_params u))).
  { intros ext. unfold getContactUri, print_uri, hasTport, hasExternalIp. rewrite Hc, Ht, Hx, print_contact_params_eq.
    cbn [su_scheme su_userpart su_hostpart su_port su_params]. rewrite bool_decide_eq_false_2 by by intros [? ?].
    rewrite str_app_nil_r. done. }
  rewrite !Hprint. cbn [andb]. split; [by destruct u|].
  unfold host. destruct (String.eqb_spec externalIp "") as [->|Hne]; cbn [negb].
  - apply parseSipUri_roundtrip. by destruct u.
  - destruct He as [?|[_ He]]; [done|]. apply parseSipUri_roundtrip. destruct Hw. by split.
Qed.
End contact.
