(* ===== verification/TransportsWitness.v ===== *)
(** Concrete instances of the properties of URIs and transports: an
    [inet_pton], an insertion sort and a tree of transports, which show that
    the laws assumed of them can hold together. *)
From S2P Require Import Prelude CppString BoostInstance TextUtil SipTags SipDialog Regex SipUri SipTransports SipTransportsCorrect.

Open Scope list_scope.

(** ** IPv4 literals *)

Definition octet (s : string) : option N := n ← parse_digits s; if (n <? 256)%N then Some n else None.
#[export] Instance inet : Inet := {|
  inet_pton s :=
    match split_list (fun c => str_mem c ".") s with
    | [a; b; c; d] =>
      a ← octet a; b ← octet b; c ← octet c; d ← octet d; Some (quad_value a b c d)
    | _ => None
    end;
  uninitialized := 0%Z;
|}.
Lemma octet_bound s n : octet s = Some n -> (n < 256)%N.
Proof.
  unfold octet. destruct (parse_digits s) as [m|]; [|done]. cbn. destruct (N.ltb_spec m 256); [|done]. by intros [= <-].
Qed.
Lemma octet_pretty n : (n < 256)%N -> octet (pretty n) = Some n.
Proof.
  intros Hn. destruct (pretty_N_byte n Hn) as (Hd & Hne & Hv). unfold octet, parse_digits.
  destruct (String.eqb_spec (pretty n) ""); [done|]. rewrite Hd, Hv. cbn. by apply N.ltb_lt in Hn as ->.
Qed.
Lemma pretty_no_dot n : (n < 256)%N -> str_forall (fun c => negb (str_mem c ".")) (pretty n) = true.
Proof.
  intros Hn. destruct (pretty_N_byte n Hn) as (Hd & _). revert Hd. apply forall_weaken. intros c Hc.
  unfold str_mem. cbn. destruct (Ascii.eqb_spec c "."); [by subst|done].
Qed.
#[export] Instance inet_laws : InetLaws.
Proof.
  split.
  - intros a b c d Ha Hb Hc Hd. cbn [inet_pton inet]. unfold quad. rewrite split_list_join; [|done|done|].
    + by rewrite !octet_pretty.
    + repeat constructor; by apply pretty_no_dot.
  - intros s n. cbn [inet_pton inet]. destruct (split_list _ s) as [|a [|b [|c [|d []]]]]; try done.
    destruct (octet a) as [x1|] eqn:E1; [|done]. destruct (octet b) as [x2|] eqn:E2; [|done].
    destruct (octet c) as [x3|] eqn:E3; [|done]. destruct (octet d) as [x4|] eqn:E4; [|done].
    cbn. intros [= <-]. apply quad_value_bound; by eapply octet_bound.
Qed.

(** ** Sorting *)

Fixpoint insert_by {A} (comp : A -> A -> bool) (x : A) (l : list A) : list A :=
  match l with [] => [x] | y :: l' => if comp x y then x :: l else y :: insert_by comp x l' end.
Definition sort_by {A} (comp : A -> A -> bool) (l : list A) : list A := foldr (insert_by comp) [] l.
#[export] Instance insertion_sort : StdSort := {| std_sort A := sort_by |}.
Lemma insert_by_perm {A} (comp : A -> A -> bool) x l : insert_by comp x l ≡ₚ x :: l.
Proof.
  induction l as [|y l IH]; [done|]. cbn. destruct (comp x y); [done|]. rewrite IH. apply Permutation_swap.
Qed.
Lemma insert_by_sorted {A} (comp : A -> A -> bool) (key : A -> nat) x l :
  (forall x y, key x < key y -> comp x y = true /\ comp y x = false) ->
  StronglySorted (fun x y => key x <= key y) l -> StronglySorted (fun x y => key x <= key y) (insert_by comp x l).
Proof.
  intros Hkey Hl. induction Hl as [|y l Hl IH Hy]; [repeat constructor|]. cbn.
  assert (key x < key y -> comp x y = true) as H1 by (intros; by apply Hkey).
  assert (key y < key x -> comp x y = false) as H2 by (intros; by apply Hkey).
  destruct (comp x y).
  - assert (key x <= key y) by (destruct (decide (key y < key x)); [naive_solver|lia]).
    constructor; [by constructor|]. constructor; [done|]. eapply Forall_impl; [exact Hy|]. intros; cbn in *; lia.
  - assert (key y <= key x) by (destruct (decide (key x < key y)); [naive_solver|lia]).
    constructor; [done|]. rewrite insert_by_perm. by constructor.
Qed.
#[export] Instance insertion_sort_laws : StdSortLaws.
Proof.
  split.
  - intros A comp l. cbn. induction l as [|x l IH]; [done|]. cbn. by rewrite insert_by_perm, IH.
  - intros A comp key l Hkey _. cbn. induction l as [|x l IH]; [constructor|]. by apply insert_by_sorted.
Qed.

(** ** Transports *)

(** Odd transports are primary and listen on 10.0.0.1; each even one is the
    secondary connection of the next. *)
#[export] Instance tports : TportTree := {| tport_parent tp := match tp with xO q => xI q | _ => tp end |}.
#[export] Instance tports_laws : TportTreeLaws.
Proof. split. by intros []. Qed.
#[export] Instance names : SofiaTport := {|
  tport_name tp := TpName "10.0.0.1" (match tp with 3%positive => "5062" | _ => "5060" end) "udp";
  tport_is_dgram tp := true;
  tport_is_secondary tp := match tp with xO _ => true | _ => false end;
  tport_is_udp tp := true;
|}.

Definition uri1 : sip_uri := SipUri "sip" "bob" "example.com" "5060" [("transport", "udp"); ("lr", "")].
Definition contact1 : string := print_uri true uri1.
Lemma wf_uri1 : wf_uri uri1.
Proof. split; [by left|done|done|done|]. repeat constructor; done. Qed.

Lemma parseSipUri_roundtrip_witness : parseSipUri (print_uri true uri1) = Some uri1.
Proof. apply (parseSipUri_roundtrip true uri1 wf_uri1). Defined.
Lemma isInNetwork_cidr_witness :
  exists t, SipTransport_new "sip:*" "10.1.0.0/16" "" = Ok t /\ isInNetwork t "10.1.7.9" = true /\ isInNetwork t "10.2.7.9" = false.
Proof.
  destruct (isInNetwork_cidr "sip:*" (SipUri "sip" "" "*" "" []) "" 10 1 0 0 16 ltac:(by vm_compute) eq_refl
    eq_refl eq_refl eq_refl eq_refl ltac:(done)) as (t & E & Hin & _).
  exists t. split; [exact E|]. split.
  - exact (Hin 10%N 1%N 7%N 9%N eq_refl eq_refl eq_refl eq_refl).
  - exact (Hin 10%N 2%N 7%N 9%N eq_refl eq_refl eq_refl eq_refl).
Defined.
Definition named (host : string) : SipTransport :=
  MkSipTransport "" "" "" "" 0 0 uri1 [] (Some 1%positive) (Some (TpName host "5060" "udp")).
Lemma getOctetMatchCount_correct_witness : getOctetMatchCount (named "10.0.7.1") "10.0.9.1" = 2.
Proof.
  exact (proj1 (getOctetMatchCount_correct (named "10.0.7.1") 10 0 9 1 10 0 7 1 eq_refl eq_refl eq_refl eq_refl
    eq_refl eq_refl eq_refl eq_refl eq_refl)).
Defined.
Definition config1 : SipTransport := match SipTransport_new "sip:*" "" "" with Ok t => t | Fault _ => named "" end.
Lemma config1_copy : SipTransport_copy config1 = Ok config1.
Proof. by vm_compute. Qed.
Definition no_transports : SipTransports := MkTransports ∅ None [].
Lemma addTransports_correct_witness :
  exists s', addTransports config1 0 [1%positive; 3%positive] no_transports = Ok (tt, s') /\
    findTransport s' 2%positive = Ok (transport_of config1 3%positive).
Proof.
  destruct (addTransports_correct config1 config1 0 1%positive [3%positive] no_transports
    (fun tp => tport_parent_idem tp) config1_copy) as (s' & E & Hmap & Hfind & _).
  exists s'. split; [exact E|]. apply Hfind; [by left|done| |done]. left. by rewrite Hmap.
Defined.
Definition two_transports : SipTransports :=
  MkTransports {[ 1%positive := named "10.0.0.1"; 3%positive := named "172.16.0.1" ]} (Some config1) [].
(** The first has an external address, and still the second is preferred. *)
Definition external_host (host ip : string) : SipTransport :=
  MkSipTransport "" ip "" "" 0 0 uri1 [] (Some 1%positive) (Some (TpName host "5060" "udp")).
Lemma findAppropriateTransport_best_witness :
  (exists t, findAppropriateTransport two_transports "172.16.3.4" (Some "UDP"%string) = Ok (Some t) /\ getHost t = "172.16.0.1"%string) /\
  preferred "172.16.3.4" (named "172.16.0.1") (external_host "10.0.0.1" "203.0.113.9") = true /\
  preferred "172.16.3.4" (external_host "10.0.0.1" "203.0.113.9") (named "172.16.0.1") = false.
Proof.
  pose proof (findAppropriateTransport_best two_transports "172.16.3.4" (Some "UDP"%string) config1 eq_refl) as Hb.
  replace (requested "172.16.3.4" (Some "UDP"%string)) with ("172.16.3.4"%string, "udp"%string, false) in Hb by by vm_compute.
  destruct Hb as [(r & E & _) [_ Hoct]]; [by vm_compute; lia|]. split.
  - rewrite E. vm_compute in E. injection E as <-. eexists. split; [reflexivity|reflexivity].
  - destruct (Hoct (named "172.16.0.1") (external_host "10.0.0.1" "203.0.113.9")) as (? & ? & _); [by vm_compute|by vm_compute|by vm_compute; lia|done].
Defined.
Lemma getContactUri_roundtrip_witness :
  exists t, SipTransport_new contact1 "" "203.0.113.9" = Ok t /\
    parseSipUri (getContactUri t true) = Some (SipUri "sip" "bob" "203.0.113.9" "5060" [("transport", "udp"); ("lr", "")]).
Proof.
  destruct (SipTransport_new contact1 "" "203.0.113.9") as [t|f] eqn:E; [|by vm_compute in E].
  exists t. split; [done|].
  refine (proj2 (getContactUri_roundtrip true uri1 "203.0.113.9" t wf_uri1 _ E)). right. by split.
Defined.
