(* ===== verification/Connections.v ===== *)
(** Model of the tables in which [DrachtioController] keeps connections
    (src/controller.cpp, src/ua-invalid.hpp, src/ua-invalid.cpp): the
    connection that a registered or subscribed user can be reached on, and the
    connection that a peer behind an advertised contact uses now. *)
From S2P Require Import Prelude CppString TextUtil SipTags SipDialog SipTransports ClientController.

Open Scope list_scope.

#[export] Instance tp_name_eq_dec : EqDecision tp_name_t.
Proof. solve_decision. Defined.

Definition URI_LEN : nat := 256.

(** [class UaInvalidData] *)
Record UaInvalidData := MkUaInvalidData {
  m_szUser : string;
  m_szHost : string;
  ua_expires : Z;
  ua_tport : positive;
}.

(** The members of [DrachtioController] that hold connections, and the clock
    that [time(0)] reads. *)
Record conn_tables := ConnTables {
  m_bContactAlias : bool;
  m_mapUri2InvalidData : gmap string UaInvalidData;
  m_mapContactAlias : gmap string (string * string);
  time_now : Z;
}.
Definition on_uris u t := ConnTables (m_bContactAlias t) (u (m_mapUri2InvalidData t)) (m_mapContactAlias t) (time_now t).
Definition on_aliases u t := ConnTables (m_bContactAlias t) (m_mapUri2InvalidData t) (u (m_mapContactAlias t)) (time_now t).

Abbreviation CT := (M (conn_tables * stack)).
Definition ct_stack {A} (m : ST A) : CT A := zoom snd (fun s x => (x.1, s)) m.
Definition ct_tables (f : conn_tables -> conn_tables) : CT unit := modify (fun x => (f x.1, x.2)).

(** [tport_by_name(pinned, tpn)]: a connection of the primary of [pinned] with
    that name, or the primary itself, or NULL. *)
Class TportByName := { tport_by_name : stack -> positive -> tp_name_t -> option positive }.
(** Only open connections are found, and those have the name asked for. *)
Class TportByNameLaws `{SofiaTport} `{TportByName} := {
  tport_by_name_sound s pinned n t :
    tport_by_name s pinned n = Some t -> tport_is_secondary t = true -> tport_is_closed s t = false /\ tport_name t = n
}.

(** ** Registrations and subscriptions *)

Section uris.

(** The buffers are zeroed; a text is copied up to 255 bytes. *)
Definition UaInvalidData_new (user host : option string) (expires : Z) (tp : positive) (now : Z) : ST UaInvalidData :=
  _ ← tport_ref tp;
  mret (MkUaInvalidData (str_take (URI_LEN - 1) (default ""%string user)) (str_take (URI_LEN - 1) (default ""%string host))
    (now + expires) tp).
Definition ua_destroy (ua : UaInvalidData) : ST unit := tport_unref (ua_tport ua).
Definition getUri (ua : UaInvalidData) : string :=
  if String.eqb (m_szUser ua) "" then m_szHost ua else (m_szUser ua +:+ "@" +:+ m_szHost ua)%string.
Definition ua_setTport (tp : positive) (ua : UaInvalidData) : ST UaInvalidData :=
  if Pos.eqb tp (ua_tport ua) then mret ua else
  _ ← tport_unref (ua_tport ua);
  _ ← tport_ref tp;
  mret (MkUaInvalidData (m_szUser ua) (m_szHost ua) (ua_expires ua) tp).
Definition extendExpires (expires now : Z) (ua : UaInvalidData) : UaInvalidData :=
  MkUaInvalidData (m_szUser ua) (m_szHost ua) (now + expires) (ua_tport ua).
Definition isExpired (now : Z) (ua : UaInvalidData) : bool := (ua_expires ua <? now)%Z.

(** When the address is known already the new object dies and the old one
    gets the connection. *)
Definition ct_cacheTportForSubscription (user host : option string) (expires : Z) (tp : positive) : CT unit :=
  match host with
  | None => mret tt
  | Some _ =>
    x ← get;
    let now := time_now x.1 in
    pUa ← ct_stack (UaInvalidData_new user host expires tp now);
    let uri := getUri pUa in
    match m_mapUri2InvalidData x.1 !! uri with
    | Some old =>
      _ ← ct_stack (ua_destroy pUa);
      old ← ct_stack (ua_setTport tp (extendExpires expires now old));
      ct_tables (on_uris (insert uri old))
    | None => ct_tables (on_uris (insert uri pUa))
    end
  end.
(** The address as the other two functions write it. *)
Definition uri_of (user : option string) (host : string) : string :=
  match user with Some u => (u +:+ "@" +:+ host)%string | None => host end.
Definition ct_flushTportForSubscription (user host : option string) : CT unit :=
  match host with
  | None => mret tt
  | Some host =>
    x ← get;
    let uri := uri_of user host in
    match m_mapUri2InvalidData x.1 !! uri with
    | Some ua => _ ← ct_tables (on_uris (delete uri)); ct_stack (ua_destroy ua)
    | None => mret tt
    end
  end.
Definition ct_findTportForSubscription (user : option string) (host : string) : CT (option UaInvalidData) :=
  x ← get; mret (m_mapUri2InvalidData x.1 !! uri_of user host).

(** The walk of the watchdog timer over the entries. *)
Fixpoint expire_entries (l : list (string * UaInvalidData)) : CT unit :=
  match l with
  | [] => mret tt
  | (uri, ua) :: l =>
    x ← get;
    _ ← (if isExpired (time_now x.1) ua then _ ← ct_tables (on_uris (delete uri)); ct_stack (ua_destroy ua) else mret tt);
    expire_entries l
  end.
Definition processWatchdogTimer : CT unit :=
  x ← get; expire_entries (map_to_list (m_mapUri2InvalidData x.1)).
End uris.

(** ** Contact aliases *)

Section aliases.
Context `{SofiaTport} `{TportTree} `{TportByName}.

Definition makeContactAliasKey (proto srcAddress advertisedHost : string) (advertisedPort : option string) : string :=
  str_map to_lower (proto +:+ "|" +:+ srcAddress +:+ "|" +:+ advertisedHost +:+ ":" +:+
    (match advertisedPort with Some p => if String.eqb p "" then "0" else p | None => "0" end))%string.

Definition MAX_ALIASES : nat := Z.to_nat 10000.
(** [contact] is the URL of the Contact, [method] that of a request. *)
Definition cacheContactAlias (tp : positive) (contact : option url_t) (method : option sip_method_t) : CT unit :=
  x ← get;
  if negb (m_bContactAlias x.1) then mret tt else
  if negb (tport_is_secondary tp) || tport_is_udp tp then mret tt else
  match contact ≫= url_host with
  | None => mret tt
  | Some host =>
    if bool_decide (method = Some sip_method_register) then mret tt else
    let tpn := tport_name tp in
    let key := makeContactAliasKey (tpn_proto tpn) (tpn_host tpn) host (contact ≫= url_port) in
    let target := (tpn_host tpn, tpn_port tpn) in
    match m_mapContactAlias x.1 !! key with
    | Some old => if bool_decide (old = target) then mret tt else ct_tables (on_aliases (insert key target))
    | None =>
      _ ← (if bool_decide (MAX_ALIASES <= size (m_mapContactAlias x.1)) then ct_tables (on_aliases (fun _ => ∅)) else mret tt);
      ct_tables (on_aliases (insert key target))
    end
  end.

Definition ct_getTportForContactAlias (pinned : positive) (proto srcAddress advertisedHost : string)
    (advertisedPort : option string) : CT (option positive) :=
  x ← get;
  if negb (m_bContactAlias x.1) then mret None else
  let key := makeContactAliasKey proto srcAddress advertisedHost advertisedPort in
  match m_mapContactAlias x.1 !! key with
  | None => mret None
  | Some (host, port) =>
    match tport_by_name x.2 pinned (TpName host port (tpn_proto (tport_name pinned))) with
    | Some tp =>
      if negb (tport_is_secondary tp) then _ ← ct_tables (on_aliases (delete key)); mret None else
      if negb (Pos.eqb (tport_parent tp) (tport_parent pinned)) then mret None else mret (Some tp)
    | None => _ ← ct_tables (on_aliases (delete key)); mret None
    end
  end.
End aliases.
