(* ===== verification/ConnectionsCorrect.v ===== *)
(** What the tables of connections guarantee: the references they hold, what
    is found under an address, and which connection a contact leads to. *)
From S2P Require Import Prelude CppString TextUtil SipTags ClientController SipDialog SipDialogCorrect SipTransports Connections.

Open Scope list_scope.

(** ** References *)

Section references.

(** Entries of the table that hold a reference on [tp]. *)
Definition entries_of (m : gmap string UaInvalidData) (tp : positive) : nat :=
  length (filter (fun e : string * UaInvalidData => ua_tport e.2 = tp) (map_to_list m)).
Lemma entries_of_insert m uri ua tp :
  m !! uri = None -> entries_of (<[uri := ua]> m) tp = entries_of m tp + (if decide (ua_tport ua = tp) then 1 else 0).
Proof.
  intros Hu. unfold entries_of. rewrite (map_to_list_insert m uri ua Hu), filter_cons. cbn [snd].
  destruct (decide (ua_tport ua = tp)); cbn; lia.
Qed.
Lemma entries_of_delete m uri ua tp :
  m !! uri = Some ua -> entries_of m tp = entries_of (delete uri m) tp + (if decide (ua_tport ua = tp) then 1 else 0).
Proof.
  intros Hu. rewrite <- (entries_of_insert (delete uri m) uri ua tp (lookup_delete_eq m uri)). by rewrite insert_delete_id.
Qed.
Lemma entries_of_replace m uri old ua tp :
  m !! uri = Some old ->
  entries_of (<[uri := ua]> m) tp + (if decide (ua_tport old = tp) then 1 else 0) =
  entries_of m tp + (if decide (ua_tport ua = tp) then 1 else 0).
Proof.
  intros Hu. rewrite <- (insert_delete_eq m uri ua), (entries_of_insert (delete uri m)) by apply lookup_delete_eq.
  rewrite (entries_of_delete m uri old tp Hu). lia.
Qed.

(** The tables hold one reference for each entry, besides [base]. *)
Definition held_refs (base : positive -> nat) (x : conn_tables * stack) : Prop :=
  forall tp, refs_of x.2 tp = base tp + entries_of (m_mapUri2InvalidData x.1) tp.

Lemma unref_refs tp s n :
  refs_of s tp = S n ->
  exists s', tport_unref tp s = Ok (tt, s') /\ (forall t, refs_of s' t + (if decide (tp = t) then 1 else 0) = refs_of s t) /\
    tp_closed s' = tp_closed s.
Proof.
  intros E. eexists. split; [by apply tport_unref_ok|]. split; [|done]. intros t. rewrite refs_of_insert.
  destruct (decide (tp = t)) as [<-|]; lia.
Qed.
Lemma ref_refs tp s :
  exists s', tport_ref tp s = Ok (tt, s') /\ (forall t, refs_of s' t = refs_of s t + (if decide (tp = t) then 1 else 0)) /\
    tp_closed s' = tp_closed s.
Proof.
  eexists. split; [done|]. split; [|done]. intros t. rewrite refs_of_insert. destruct (decide (tp = t)) as [<-|]; lia.
Qed.
Lemma held_pos base x uri ua : held_refs base x -> m_mapUri2InvalidData x.1 !! uri = Some ua -> exists n, refs_of x.2 (ua_tport ua) = S n.
Proof.
  intros Hx Hu. rewrite Hx, (entries_of_delete _ uri ua _ Hu), decide_True by done.
  exists (base (ua_tport ua) + entries_of (delete uri (m_mapUri2InvalidData x.1)) (ua_tport ua)). lia.
Qed.
Lemma set_tport_run tp ua s n :
  refs_of s (ua_tport ua) = S n ->
  exists s', ua_setTport tp ua s = Ok (MkUaInvalidData (m_szUser ua) (m_szHost ua) (ua_expires ua) tp, s') /\
    (forall t, refs_of s' t + (if decide (ua_tport ua = t) then 1 else 0) = refs_of s t + (if decide (tp = t) then 1 else 0)).
Proof.
  intros En. unfold ua_setTport. destruct (Pos.eqb_spec tp (ua_tport ua)) as [->|Hne].
  - exists s. split; [by destruct ua|done].
  - destruct (unref_refs _ s n En) as (s1 & E1 & R1 & _). destruct (ref_refs tp s1) as (s2 & E2 & R2 & _).
    rewrite (M_bind_ok _ _ _ _ _ E1), (M_bind_ok _ _ _ _ _ E2). exists s2. split; [done|]. intros t. rewrite R2.
    specialize (R1 t). repeat case_decide; lia.
Qed.

(** The entry that [cacheTportForSubscription] leaves. *)
Definition cached_entry (user : option string) (host : string) (expires : Z) (tp : positive) (now : Z) : UaInvalidData :=
  MkUaInvalidData (str_take 255 (default ""%string user)) (str_take 255 host) (now + expires) tp.
Lemma cache_run base user host expires tp x :
  held_refs base x -> (forall uri ua, m_mapUri2InvalidData x.1 !! uri = Some ua -> getUri ua = uri) ->
  exists x', ct_cacheTportForSubscription user (Some host) expires tp x = Ok (tt, x') /\ held_refs base x' /\
    let e := cached_entry user host expires tp (time_now x.1) in
    exists ua, getUri ua = getUri e /\ ua_expires ua = ua_expires e /\ ua_tport ua = tp /\ x'.1 = on_uris (insert (getUri e) ua) x.1.
Proof.
  intros Hx Hk. destruct x as [t s]. unfold ct_cacheTportForSubscription. mstep. destruct (ref_refs tp s) as (s1 & E1 & R1 & _).
  set (e := cached_entry user host expires tp (time_now t)).
  erewrite (M_bind_ok _ _ (t, s) e (t, s1)); cycle 1.
  { unfold ct_stack, zoom. cbn [fst snd]. unfold UaInvalidData_new. by rewrite (M_bind_ok _ _ _ _ _ E1). }
  cbn [fst snd]. destruct (m_mapUri2InvalidData t !! getUri e) as [old|] eqn:Eo.
  - destruct (held_pos base (t, s) _ old Hx Eo) as [n En]. cbn [fst snd] in *.
    destruct (unref_refs tp s1 (refs_of s tp)) as (s2 & E2 & R2 & _); [rewrite R1, decide_True by done; lia|].
    assert (forall q, refs_of s2 q = refs_of s q) as R12 by (intros q; specialize (R1 q); specialize (R2 q); lia).
    destruct (set_tport_run tp (extendExpires expires (time_now t) old) s2 n) as (s3 & E3 & R3); [cbn; by rewrite R12|].
    erewrite (M_bind_ok _ _ (t, s1) tt (t, s2)) by (unfold ct_stack, zoom, ua_destroy; cbn; by rewrite E2).
    erewrite (M_bind_ok _ _ (t, s2)); [|unfold ct_stack, zoom; cbn [fst snd]; rewrite E3; reflexivity]. cbn beta.
    eexists. split; [done|]. split.
    + intros q. cbn [fst snd]. specialize (R3 q). specialize (Hx q). cbn in *. rewrite R12 in R3.
      pose proof (entries_of_replace _ _ old (MkUaInvalidData (m_szUser old) (m_szHost old) (time_now t + expires) tp) q Eo) as Hr.
      cbn in Hr. lia.
    + exists (MkUaInvalidData (m_szUser old) (m_szHost old) (time_now t + expires) tp). split_and!; [exact (Hk _ _ Eo)|done..].
  - eexists. split; [done|]. split.
    + intros q. cbn [fst snd]. rewrite R1. cbn -[entries_of]. rewrite entries_of_insert by done.
      specialize (Hx q). cbn in Hx |- *. rewrite Hx. lia.
    + exists e. done.
Qed.
End references.

(** ** Sequences of operations *)

Section operations.
Context `{SofiaTport} `{TportTree} `{TportByName}.

Inductive conn_op :=
  | op_cache (user host : option string) (expires : Z) (tp : positive)
  | op_flush (user host : option string)
  | op_find (user : option string) (host : string)
  | op_watchdog
  | op_time_passes (seconds : N)
  | op_message (tp : positive) (contact : option url_t) (method : option sip_method_t)
  | op_alias (pinned : positive) (proto srcAddress host : string) (port : option string).
Definition conn_run (o : conn_op) : CT unit :=
  match o with
  | op_cache u h e tp => ct_cacheTportForSubscription u h e tp
  | op_flush u h => ct_flushTportForSubscription u h
  | op_find u h => _ ← ct_findTportForSubscription u h; mret tt
  | op_watchdog => processWatchdogTimer
  | op_time_passes n => ct_tables (fun t => ConnTables (m_bContactAlias t) (m_mapUri2InvalidData t) (m_mapContactAlias t) (time_now t + Z.of_N n))
  | op_message tp c m => cacheContactAlias tp c m
  | op_alias p pr sa h po => _ ← ct_getTportForContactAlias p pr sa h po; mret tt
  end.
Fixpoint conn_runs (l : list conn_op) : CT unit :=
  match l with [] => mret tt | o :: l => _ ← conn_run o; conn_runs l end.

(** References are counted, entries are filed under their address, and there
    are at most [MAX_ALIASES] aliases. *)
Record conn_wf (base : positive -> nat) (x : conn_tables * stack) : Prop := ConnWf {
  cw_refs : held_refs base x;
  cw_keys uri ua : m_mapUri2InvalidData x.1 !! uri = Some ua -> getUri ua = uri;
  cw_size : size (m_mapContactAlias x.1) <= MAX_ALIASES;
}.

(** What is known of an address: the connection and the time it expires. *)
Definition bindings (x : conn_tables * stack) : gmap string (positive * Z) :=
  (fun ua => (ua_tport ua, ua_expires ua)) <$> m_mapUri2InvalidData x.1.

(** *** The table of addresses as a map *)

Definition fits (user : option string) (host : string) : bool :=
  bool_decide (String.length host <= 255) &&
  match user with Some u => bool_decide (String.length u <= 255) && negb (String.eqb u "") | None => true end.
Definition spec_step (o : conn_op) (now : Z) (b : gmap string (positive * Z)) : gmap string (positive * Z) :=
  match o with
  | op_cache u (Some h) e tp => <[uri_of u h := (tp, (now + e)%Z)]> b
  | op_flush u (Some h) => delete (uri_of u h) b
  | op_watchdog => filter (fun e : string * (positive * Z) => (now <= e.2.2)%Z) b
  | _ => b
  end.
Definition op_fits (o : conn_op) : bool := match o with op_cache u (Some h) _ _ => fits u h | _ => true end.

Lemma getUri_cached user host expires tp now : fits user host = true -> getUri (cached_entry user host expires tp now) = uri_of user host.
Proof.
  unfold fits, getUri, cached_entry, uri_of. cbn [m_szUser m_szHost]. intros [Hh%bool_decide_eq_true Hu]%andb_true_iff.
  rewrite (str_take_all _ host Hh). destruct user as [u|]; cbn [default]; [|done].
  apply andb_true_iff in Hu as [Hl%bool_decide_eq_true Hne%negb_true_iff]. unfold id. by rewrite str_take_all, Hne.
Qed.

Lemma expire_run base l x :
  conn_wf base x -> NoDup l.*1 -> (forall uri ua, (uri, ua) ∈ l -> m_mapUri2InvalidData x.1 !! uri = Some ua) ->
  exists x', expire_entries l x = Ok (tt, x') /\ conn_wf base x' /\ time_now x'.1 = time_now x.1 /\ m_mapContactAlias x'.1 = m_mapContactAlias x.1 /\
    m_bContactAlias x'.1 = m_bContactAlias x.1 /\ tp_closed x'.2 = tp_closed x.2 /\
    forall uri, m_mapUri2InvalidData x'.1 !! uri =
      match m_mapUri2InvalidData x.1 !! uri with
      | Some ua => if bool_decide (uri ∈ l.*1) && isExpired (time_now x.1) ua then None else Some ua
      | None => None
      end.
Proof.
  revert x. induction l as [|[uri ua] l IH]; intros x Hx Hnd Hl.
  { exists x. split_and!; [done..|]. intros uri. by destruct (_ !! uri). }
  cbn [fmap list_fmap fst] in Hnd. apply NoDup_cons in Hnd as [Hin Hnd]. pose proof (Hl uri ua ltac:(by left)) as Hu.
  cbn [expire_entries]. mstep. destruct x as [t s]. cbn [fst snd] in *. destruct (isExpired (time_now t) ua) eqn:Ee.
  - destruct (held_pos base _ uri ua (cw_refs _ _ Hx) Hu) as [n En]. destruct (unref_refs _ s n En) as (s1 & E1 & R1 & K1).
    set (x1 := (on_uris (delete uri) t, s1)).
    assert (conn_wf base x1) as Hx1.
    { destruct Hx as [A B C]. split; [|intros u a Ha; cbn in Ha; apply lookup_delete_Some in Ha as [_ Ha]; by apply B|done]. intros q. specialize (A q). specialize (R1 q).
      cbn -[entries_of] in *. rewrite (entries_of_delete _ uri ua q Hu) in A. lia. }
    erewrite (M_bind_ok _ _ (t, s) tt x1).
    2: { unfold ct_tables. mstep. unfold ct_stack, zoom, ua_destroy. cbn [fst snd]. by rewrite E1. }
    destruct (IH x1 Hx1 Hnd) as (x' & E & Hx' & T1 & T2 & T3 & T4 & T5).
    { intros u a Ha. cbn. rewrite lookup_delete_ne; [by apply Hl; right|]. intros ->. apply Hin. apply list_elem_of_fmap. by exists (u, a). }
    exists x'. split_and!; [done|done|by rewrite T1|by rewrite T2|by rewrite T3|rewrite T4; exact K1|]. intros u. rewrite T5. cbn.
    destruct (decide (u = uri)) as [->|Hne].
    + rewrite lookup_delete_eq, Hu, Ee, bool_decide_eq_true_2 by (by left). done.
    + rewrite lookup_delete_ne by done. destruct (_ !! u) as [a|]; [|done].
      rewrite (bool_decide_ext (u ∈ uri :: l.*1) (u ∈ l.*1)); [done|]. rewrite elem_of_cons. naive_solver.
  - mstep. destruct (IH (t, s) Hx Hnd) as (x' & E & Hx' & T1 & T2 & T3 & T4 & T5); [intros; apply Hl; by right|].
    exists x'. split_and!; [done..|]. intros u. rewrite T5. cbn. destruct (decide (u = uri)) as [->|Hne].
    + rewrite Hu, Ee, !andb_false_r. done.
    + destruct (_ !! u) as [a|]; [|done]. rewrite (bool_decide_ext (u ∈ uri :: l.*1) (u ∈ l.*1)); [done|]. rewrite elem_of_cons. naive_solver.
Qed.

Lemma cache_alias_run base tp contact method x :
  conn_wf base x ->
  exists x', cacheContactAlias tp contact method x = Ok (tt, x') /\ conn_wf base x' /\ bindings x' = bindings x /\
    time_now x'.1 = time_now x.1 /\ x'.2 = x.2.
Proof.
  intros Hx. pose proof Hx as [A B C]. destruct x as [t s]. unfold cacheContactAlias. mstep. cbn [fst snd] in *.
  destruct (negb _); [by eexists|]. destruct (_ || _); [by eexists|]. destruct (contact ≫= url_host) as [host|]; [|by eexists].
  destruct (bool_decide _); [by eexists|]. set (key := makeContactAliasKey _ _ _ _). destruct (m_mapContactAlias t !! key) as [old|] eqn:Ek.
  - destruct (bool_decide _); [by eexists|]. eexists. split; [done|]. split; [|done]. split; [done|done|].
    cbn. rewrite map_size_insert, Ek. cbn. lia.
  - destruct (bool_decide_reflect (MAX_ALIASES <= size (m_mapContactAlias t))) as [Hs|Hs]; mstep.
    + eexists. split; [done|]. split; [|done]. split; [done|done|]. cbn. rewrite map_size_insert, lookup_empty, map_size_empty.
      apply (bool_decide_unpack _). by vm_compute.
    + eexists. split; [done|]. split; [|done]. split; [done|done|]. cbn. rewrite map_size_insert, Ek. cbn. cbn in C. lia.
Qed.
Lemma get_alias_run base pinned pr sa h po x :
  conn_wf base x ->
  exists o x', ct_getTportForContactAlias pinned pr sa h po x = Ok (o, x') /\ conn_wf base x' /\ bindings x' = bindings x /\
    time_now x'.1 = time_now x.1 /\ x'.2 = x.2.
Proof.
  intros Hx. pose proof Hx as [A B C]. destruct x as [t s]. unfold ct_getTportForContactAlias. mstep. cbn [fst snd] in *.
  destruct (negb _); [by do 2 eexists|]. destruct (_ !! _) as [[h' p']|] eqn:Ek; [|by do 2 eexists].
  assert (conn_wf base (on_aliases (delete (makeContactAliasKey pr sa h po)) t, s)) as Hd.
  { split; [done|done|]. cbn. rewrite map_size_delete, Ek. cbn in C |- *. lia. }
  destruct (tport_by_name _ _ _) as [tp|]; [|by do 2 eexists]. destruct (negb _); [by do 2 eexists|].
  destruct (negb _); by do 2 eexists.
Qed.

Lemma conn_step base o x :
  conn_wf base x ->
  exists x', conn_run o x = Ok (tt, x') /\ conn_wf base x' /\
    (op_fits o = true -> bindings x' = spec_step o (time_now x.1) (bindings x)).
Proof.
  intros Hx. pose proof Hx as [A B C]. destruct x as [t s]. destruct o as [u h e tp|u h|u h| |n|tp c m|p pr sa h po]; cbn [conn_run].
  - destruct h as [h|]; [|by exists (t, s)].
    destruct (cache_run base u h e tp (t, s) A B) as ([t' s'] & E & R & ua & Hk & He & Htp & Et). cbn [fst snd] in *. subst t'.
    exists (on_uris (insert (getUri (cached_entry u h e tp (time_now t))) ua) t, s'). split; [done|]. split.
    + split; [exact R| |exact C]. intros uri a Ha. cbn in Ha. apply lookup_insert_Some in Ha as [[<- <-]|[_ Ha]]; [done|by apply B].
    + cbn [op_fits spec_step]. intros Hf. unfold bindings. cbn. rewrite fmap_insert, Htp, He, (getUri_cached u h e tp _ Hf). done.
  - destruct h as [h|]; [|by exists (t, s)]. unfold ct_flushTportForSubscription. mstep. cbn [fst snd].
    destruct (m_mapUri2InvalidData t !! uri_of u h) as [ua|] eqn:Eu.
    + destruct (held_pos base _ _ ua A Eu) as [n En]. destruct (unref_refs _ s n En) as (s1 & E1 & R1 & _).
      mstep. unfold ct_stack, zoom, ua_destroy. cbn [fst snd]. rewrite E1.
      exists (on_uris (delete (uri_of u h)) t, s1). split; [done|]. split.
      * split; [|intros uri a Ha; cbn in Ha; apply lookup_delete_Some in Ha as [_ Ha]; by apply B|exact C]. intros q.
        specialize (A q). specialize (R1 q). cbn -[entries_of] in *. rewrite (entries_of_delete _ _ ua q Eu) in A. lia.
      * intros _. unfold bindings. cbn. by rewrite fmap_delete.
    + exists (t, s). split; [done|]. split; [done|]. intros _. unfold bindings. cbn. symmetry. apply delete_id. by rewrite lookup_fmap, Eu.
  - by exists (t, s).
  - unfold processWatchdogTimer. mstep. destruct (expire_run base (map_to_list (m_mapUri2InvalidData t)) (t, s) Hx) as (x' & E & Hx' & _ & _ & _ & _ & Hl).
    { apply NoDup_fst_map_to_list. }
    { intros uri ua. apply elem_of_map_to_list. }
    exists x'. split; [done|]. split; [done|]. intros _. unfold bindings. cbn [spec_step fst snd] in *. apply map_eq. intros uri.
    rewrite lookup_fmap, Hl. destruct (m_mapUri2InvalidData t !! uri) as [ua|] eqn:Eu.
    + rewrite bool_decide_eq_true_2; cycle 1.
      { apply list_elem_of_fmap. exists (uri, ua). split; [done|]. by apply elem_of_map_to_list. }
      cbn [andb]. unfold isExpired. symmetry. destruct (Z.ltb_spec (ua_expires ua) (time_now t)).
      * apply map_lookup_filter_None. right. intros y. rewrite lookup_fmap, Eu. intros [= <-]. cbn. lia.
      * cbn. apply map_lookup_filter_Some. split; [by rewrite lookup_fmap, Eu|]. cbn. lia.
    + cbn. symmetry. apply map_lookup_filter_None. left. by rewrite lookup_fmap, Eu.
  - eexists. split; [done|]. split; [|done]. by split.
  - destruct (cache_alias_run base tp c m _ Hx) as (x' & E & Hx' & Hb & _). by exists x'.
  - destruct (get_alias_run base p pr sa h po _ Hx) as (o & x' & E & Hx' & Hb & _). exists x'.
    split; [by rewrite (M_bind_ok _ _ _ _ _ E)|]. by split.
Qed.

(** The table of addresses that a sequence of operations leads to; [now] is
    the clock. *)
Definition spec_time (o : conn_op) (now : Z) : Z := match o with op_time_passes n => now + Z.of_N n | _ => now end.
Fixpoint spec_run (l : list conn_op) (now : Z) (b : gmap string (positive * Z)) : gmap string (positive * Z) :=
  match l with [] => b | o :: l => spec_run l (spec_time o now) (spec_step o now b) end.
Lemma conn_time o x x' base : conn_wf base x -> conn_run o x = Ok (tt, x') -> time_now x'.1 = spec_time o (time_now x.1).
Proof.
  intros Hx. destruct x as [t s]. destruct o as [u h e tp|u h|u h| |n|tp c m|p pr sa h po]; cbn [conn_run spec_time].
  - destruct h as [h|]; [|by intros [= <-]].
    destruct (cache_run base u h e tp (t, s) (cw_refs _ _ Hx) (cw_keys _ _ Hx)) as ([t' s'] & E & _ & ua & _ & _ & _ & Et). cbn [fst snd] in *.
    rewrite E. intros [= <-]. by rewrite Et.
  - destruct h as [h|]; [|by intros [= <-]]. unfold ct_flushTportForSubscription. mstep. cbn [fst snd]. destruct (_ !! _); [|by intros [= <-]].
    mstep. unfold ct_stack, zoom. cbn. destruct (ua_destroy _ _) as [[? ?]|]; [|done]. by inversion 1; subst.
  - by intros [= <-].
  - unfold processWatchdogTimer. mstep. destruct (expire_run base (map_to_list (m_mapUri2InvalidData t)) (t, s) Hx) as (x1 & E & _ & Et & _).
    { apply NoDup_fst_map_to_list. }
    { intros uri ua. apply elem_of_map_to_list. }
    cbn [fst]. rewrite E. by intros [= <-].
  - by intros [= <-].
  - destruct (cache_alias_run base tp c m _ Hx) as (x1 & E & _ & _ & Et & _). rewrite E. by intros [= <-].
  - destruct (get_alias_run base p pr sa h po _ Hx) as (o & x1 & E & _ & _ & Et & _). rewrite (M_bind_ok _ _ _ _ _ E). by intros [= <-].
Qed.
Lemma conn_runs_ok base l x :
  conn_wf base x ->
  exists x', conn_runs l x = Ok (tt, x') /\ conn_wf base x' /\
    (forallb op_fits l = true -> bindings x' = spec_run l (time_now x.1) (bindings x)).
Proof.
  revert x. induction l as [|o l IH]; intros x Hx; [by exists x|]. cbn [conn_runs spec_run forallb].
  destruct (conn_step base o x Hx) as (x1 & E1 & Hx1 & Hb1). destruct (IH x1 Hx1) as (x' & E & Hx' & Hb).
  exists x'. split; [by rewrite (M_bind_ok _ _ _ _ _ E1)|]. split; [done|]. intros [Hf Hl]%andb_true_iff.
  by rewrite (Hb Hl), (Hb1 Hf), (conn_time o x x1 base Hx E1).
Qed.

(** C37: Over any sequence of registrations, refreshes, removals, expiries,
    messages and lookups the tables hold exactly one reference on the
    connection of each entry: no operation releases a reference that is not
    held, and the references on a connection are those that others hold plus
    its entries. Entries stay filed under their address, and there are never
    more than 10000 contact aliases. *)
Theorem connection_references base l x :
  conn_wf base x -> exists x', conn_runs l x = Ok (tt, x') /\ conn_wf base x'.
Proof. intros Hx. destruct (conn_runs_ok base l x Hx) as (x' & E & Hx' & _). by exists x'. Qed.

(** C36: For user and host names of up to 255 bytes the table of addresses is
    a map from addresses to connections with an expiry time: a registration
    sets the entry of its address, an address that is removed has none, the
    watchdog takes out exactly the entries whose time has passed, and a lookup
    finds the entry of its address. *)
Theorem connections_refine_map base l x user host :
  conn_wf base x -> forallb op_fits l = true ->
  exists x' o, conn_runs l x = Ok (tt, x') /\ ct_findTportForSubscription user host x' = Ok (o, x') /\
    (fun ua => (ua_tport ua, ua_expires ua)) <$> o = spec_run l (time_now x.1) (bindings x) !! uri_of user host.
Proof.
  intros Hx Hf. destruct (conn_runs_ok base l x Hx) as (x' & E & _ & Hb). exists x', (m_mapUri2InvalidData x'.1 !! uri_of user host).
  split; [done|]. split; [done|]. rewrite <- (Hb Hf). unfold bindings. by rewrite lookup_fmap.
Qed.
End operations.

(** ** Contact aliases *)

Section keys.
Lemma str_map_app f a b : str_map f (a +:+ b) = (str_map f a +:+ str_map f b)%string.
Proof. induction a as [|c a IH]; [done|]. rewrite str_app_cons. cbn [str_map]. by rewrite str_app_cons, IH. Qed.
Lemma lower_bar c : Ascii.eqb "|" (to_lower c) = Ascii.eqb "|" c.
Proof. by destruct c as [[] [] [] [] [] [] [] []]. Qed.
Lemma lower_colon c : Ascii.eqb ":" (to_lower c) = Ascii.eqb ":" c.
Proof. by destruct c as [[] [] [] [] [] [] [] []]. Qed.
Lemma str_mem_cons c d s : str_mem c (String d s) = Ascii.eqb c d || str_mem c s.
Proof. unfold str_mem. cbn. by rewrite negb_andb, negb_involutive. Qed.
Lemma str_mem_lower c s : (forall d, Ascii.eqb c (to_lower d) = Ascii.eqb c d) -> str_mem c (str_map to_lower s) = str_mem c s.
Proof. intros Hc. induction s as [|d s IH]; [done|]. cbn [str_map]. by rewrite !str_mem_cons, Hc, IH. Qed.
Lemma split_first c a b r r' :
  str_mem c a = false -> str_mem c b = false -> a +:+ String c r = b +:+ String c r' -> a = b /\ r = r'.
Proof.
  revert b. induction a as [|x a IH]; intros [|y b] Ha Hb; rewrite ?str_app_cons.
  - by intros [= ->].
  - intros [= -> _]. rewrite str_mem_cons, Ascii.eqb_refl in Hb. done.
  - intros [= <- _]. rewrite str_mem_cons, Ascii.eqb_refl in Ha. done.
  - rewrite str_mem_cons in Ha, Hb. apply orb_false_iff in Ha as [_ Ha], Hb as [_ Hb]. intros [= -> E].
    by destruct (IH b Ha Hb E) as [-> ->].
Qed.
Lemma split_last c a b r r' :
  str_mem c r = false -> str_mem c r' = false -> a +:+ String c r = b +:+ String c r' -> a = b /\ r = r'.
Proof.
  intros Hr Hr'. revert b. induction a as [|x a IH]; intros [|y b]; rewrite ?str_app_cons.
  - by intros [= ->].
  - intros [= -> ->]. rewrite str_mem_app, str_mem_cons, Ascii.eqb_refl, orb_true_r in Hr. done.
  - intros [= <- E]. rewrite <- E, str_mem_app, str_mem_cons, Ascii.eqb_refl, orb_true_r in Hr'. done.
  - intros [= -> E]. by destruct (IH b E) as [-> ->].
Qed.
Definition key_port (port : option string) : string := match port with Some p => if String.eqb p "" then "0" else p | None => "0" end.

(** Two peers share a key only if protocol, source address, advertised host
    and port are the same, but for the case of letters and a missing port. *)
Lemma contact_key_injective p1 s1 h1 q1 p2 s2 h2 q2 :
  str_mem "|" p1 = false -> str_mem "|" p2 = false -> str_mem "|" s1 = false -> str_mem "|" s2 = false ->
  str_mem ":" (key_port q1) = false -> str_mem ":" (key_port q2) = false ->
  makeContactAliasKey p1 s1 h1 q1 = makeContactAliasKey p2 s2 h2 q2 ->
  str_map to_lower p1 = str_map to_lower p2 /\ str_map to_lower s1 = str_map to_lower s2 /\
  str_map to_lower h1 = str_map to_lower h2 /\ str_map to_lower (key_port q1) = str_map to_lower (key_port q2).
Proof.
  intros Hp1 Hp2 Hs1 Hs2 Hq1 Hq2. unfold makeContactAliasKey. fold (key_port q1). fold (key_port q2).
  rewrite !str_map_app. change (str_map to_lower "|") with "|"%string. change (str_map to_lower ":") with ":"%string.
  assert (forall s r, ("|" +:+ s = String "|" s /\ ":" +:+ r = String ":" r)%string) as Hcons by done.
  rewrite !(proj1 (Hcons _ ""%string)), !(proj2 (Hcons ""%string _)).
  intros E. apply split_first in E as [Ep E]; [|by rewrite str_mem_lower by apply lower_bar..].
  apply split_first in E as [Es E]; [|by rewrite str_mem_lower by apply lower_bar..].
  apply split_last in E as [Eh Eq]; [done|by rewrite str_mem_lower by apply lower_colon..].
Qed.
End keys.

Section aliases.
Context `{SofiaTport} `{TportTree} `{TportByName} `{!TportByNameLaws}.

(** A message that arrived: its connection, the URL of its Contact and its
    method. *)
Definition message : Type := positive * option url_t * option sip_method_t.
Fixpoint messages (l : list message) : CT unit :=
  match l with [] => mret tt | (tp, c, m) :: l => _ ← cacheContactAlias tp c m; messages l end.
(** The key and the name of its connection that a message leaves. *)
Definition leaves (m : message) : option (string * (string * string)) :=
  let '(tp, c, method) := m in
  if negb (tport_is_secondary tp) || tport_is_udp tp || bool_decide (method = Some sip_method_register) then None else
  host ← c ≫= url_host;
  let tpn := tport_name tp in
  Some (makeContactAliasKey (tpn_proto tpn) (tpn_host tpn) host (c ≫= url_port), (tpn_host tpn, tpn_port tpn)).
Definition named (l : list message) : list (string * (string * string)) := omap leaves l.
(** The table after [l]: the last name under each key. *)
Definition names_of (l : list (string * (string * string))) (m : gmap string (string * string)) : gmap string (string * string) :=
  foldl (fun m e => <[e.1 := e.2]> m) m l.

Lemma message_run m t s :
  m_bContactAlias t = true -> size (m_mapContactAlias t) < MAX_ALIASES ->
  exists t', (let '(tp, c, method) := m in cacheContactAlias tp c method) (t, s) = Ok (tt, (t', s)) /\ m_bContactAlias t' = true /\
    m_mapContactAlias t' = names_of (named [m]) (m_mapContactAlias t).
Proof.
  destruct m as [[tp c] method]. intros Hb Hs. unfold named, cacheContactAlias. cbn [omap list_omap leaves]. mstep. cbn [fst snd]. rewrite Hb. cbn [negb].
  destruct (negb (tport_is_secondary tp) || tport_is_udp tp); [by exists t|]. cbn [orb].
  destruct (bool_decide (method = Some sip_method_register)) eqn:Em.
  { destruct (c ≫= url_host); rewrite ?Em; by exists t. }
  destruct (c ≫= url_host) as [host|]; [|by exists t]. cbn -[insert lookup]. set (key := makeContactAliasKey _ _ _ _).
  destruct (m_mapContactAlias t !! key) as [old|] eqn:Ek.
  - destruct (bool_decide_reflect (old = (tpn_host (tport_name tp), tpn_port (tport_name tp)))) as [->|].
    + exists t. split; [done|]. split; [done|]. symmetry. by apply insert_id.
    + eexists. split; [done|]. by split.
  - rewrite bool_decide_eq_false_2 by lia. mstep. eexists. split; [done|]. by split.
Qed.
Lemma names_size l m : size (names_of l m) <= size m + length l.
Proof.
  revert m. induction l as [|[k v] l IH]; intros m; cbn; [lia|]. etrans; [apply IH|]. rewrite map_size_insert.
  destruct (m !! k); cbn; lia.
Qed.
Lemma messages_run l t s :
  m_bContactAlias t = true -> size (m_mapContactAlias t) + length l <= MAX_ALIASES ->
  exists t', messages l (t, s) = Ok (tt, (t', s)) /\ m_bContactAlias t' = true /\ m_mapContactAlias t' = names_of (named l) (m_mapContactAlias t).
Proof.
  revert t. induction l as [|m l IH]; intros t Hb Hs; [by exists t|]. cbn [length] in Hs.
  destruct (message_run m t s Hb ltac:(lia)) as (t1 & E1 & Hb1 & Em1).
  destruct (IH t1 Hb1) as (t' & E & Hb' & Em).
  { rewrite Em1. pose proof (names_size (named [m]) (m_mapContactAlias t)). unfold named in *. cbn in *. destruct (leaves m); cbn in *; lia. }
  exists t'. destruct m as [[tp c] method]. cbn [messages]. split; [by rewrite (M_bind_ok _ _ _ _ _ E1)|]. split; [done|].
  rewrite Em, Em1. unfold names_of, named. rewrite <- foldl_app. f_equal. cbn [omap list_omap]. by destruct (leaves (tp, c, method)).
Qed.
(** The last name under a key. *)
Definition last_name (key : string) (l : list (string * (string * string))) : option (string * string) :=
  snd <$> last (filter (fun e => e.1 = key) l).
Lemma names_lookup l m key : names_of l m !! key = match last_name key l with Some n => Some n | None => m !! key end.
Proof.
  revert m. induction l as [|[k v] l IH]; intros m; [done|]. change (names_of ((k, v) :: l) m) with (names_of l (<[k := v]> m)).
  rewrite IH. unfold last_name. rewrite filter_cons. cbn [fst]. destruct (decide (k = key)) as [->|Hne].
  - rewrite lookup_insert_eq. destruct (filter _ l) as [|e l'] eqn:El; [done|]. rewrite last_cons_cons.
    destruct (last (e :: l')) eqn:Ee; [done|]. by apply last_None in Ee.
  - destruct (last _); [done|]. cbn. by rewrite lookup_insert_ne.
Qed.

(** A contact leads to the connection its peer used last: after any up to
    10000 messages, a lookup gives exactly the open connection, on the
    interface of the dialog's own connection, that has the address and port
    from which the last message with that protocol, source address and Contact
    came over a connection; requests to register and messages over UDP or
    without a Contact do not count. It gives nothing when there is no such
    message or no such connection; the name of a connection that is gone is
    forgotten. *)
Theorem contact_alias_follows l t s pinned proto src host port :
  m_bContactAlias t = true -> m_mapContactAlias t = ∅ -> length l <= MAX_ALIASES ->
  exists t1 o t2, messages l (t, s) = Ok (tt, (t1, s)) /\
    ct_getTportForContactAlias pinned proto src host port (t1, s) = Ok (o, (t2, s)) /\
    (forall tp, o = Some tp <-> exists n, last_name (makeContactAliasKey proto src host port) (named l) = Some n /\
       tport_by_name s pinned (TpName n.1 n.2 (tpn_proto (tport_name pinned))) = Some tp /\
       tport_is_secondary tp = true /\ tport_parent tp = tport_parent pinned) /\
    (forall tp, o = Some tp -> tport_is_closed s tp = false) /\
    (forall n, last_name (makeContactAliasKey proto src host port) (named l) = Some n ->
       m_mapContactAlias t2 !! makeContactAliasKey proto src host port =
         match tport_by_name s pinned (TpName n.1 n.2 (tpn_proto (tport_name pinned))) with
         | Some tp => if tport_is_secondary tp then Some n else None
         | None => None
         end).
Proof.
  intros Hb Hm Hl. destruct (messages_run l t s Hb) as (t1 & E1 & Hb1 & Em1); [rewrite Hm, map_size_empty; lia|].
  set (key := makeContactAliasKey proto src host port).
  assert (m_mapContactAlias t1 !! key = last_name key (named l)) as Ek.
  { rewrite Em1, names_lookup, Hm. by destruct (last_name key (named l)). }
  exists t1. unfold ct_getTportForContactAlias. mstep. cbn [fst snd]. rewrite Hb1. cbn [negb]. fold key. rewrite Ek.
  destruct (last_name key (named l)) as [[h p]|] eqn:En.
  - destruct (tport_by_name s pinned (TpName h p (tpn_proto (tport_name pinned)))) as [tp|] eqn:Eb.
    + destruct (tport_is_secondary tp) eqn:Esec; cbn [negb].
      * destruct (Pos.eqb_spec (tport_parent tp) (tport_parent pinned)) as [Ep|Ep]; cbn [negb].
        -- eexists _, _. split; [done|]. split; [done|]. split_and!.
           ++ intros tp'. split; [intros [= <-]; by exists (h, p)|]. intros (n & [= <-] & Hn & _). cbn in Hn. congruence.
           ++ intros tp' [= <-]. by destruct (tport_by_name_sound s pinned _ tp Eb Esec).
           ++ intros n [= <-]. cbn. by rewrite Eb, Esec, Ek.
        -- eexists _, _. split; [done|]. split; [done|]. split_and!; [|done|].
           ++ intros tp'. split; [done|]. intros (n & [= <-] & Hn & _ & Hp). cbn in Hn. congruence.
           ++ intros n [= <-]. cbn. by rewrite Eb, Esec, Ek.
      * mstep. eexists _, _. split; [done|]. split; [done|]. split_and!; [|done|].
        -- intros tp'. split; [done|]. intros (n & [= <-] & Hn & Hs & _). cbn in Hn. congruence.
        -- intros n [= <-]. cbn -[delete]. rewrite Eb, Esec. apply lookup_delete_eq.
    + mstep. eexists _, _. split; [done|]. split; [done|]. split_and!; [|done|].
      * intros tp'. split; [done|]. intros (n & [= <-] & Hn & _). cbn in Hn. congruence.
      * intros n [= <-]. cbn -[delete]. rewrite Eb. apply lookup_delete_eq.
  - eexists _, _. split; [done|]. split; [done|]. split_and!; [|done|done]. intros tp'. split; [done|]. by intros (n & [=] & _).
Qed.
End aliases.

(** ** A client that moves, and a trunk
    Concrete runs of the tables of connections: a client that registers over
    a connection and moves to another, and a trunk whose contact follows it. *)

(** Socket 1 listens; even numbers are TCP connections of one peer. *)
#[export] Instance tcp_tports : SofiaTport := {|
  tport_name tp := TpName "192.0.2.7" (to_string (Z.pos tp)) "tcp";
  tport_is_dgram _ := false;
  tport_is_secondary tp := match tp with xO _ => true | _ => false end;
  tport_is_udp _ := false |}.
#[export] Instance one_socket : TportTree := {| tport_parent _ := 1%positive |}.
#[export] Instance by_name : TportByName := {|
  tport_by_name s _ n := List.find (fun t => bool_decide (tport_name t = n) && negb (tport_is_closed s t)) [12%positive; 14%positive] |}.
#[export] Instance by_name_laws : TportByNameLaws.
Proof.
  split. intros s pinned n t. cbn [tport_by_name by_name]. intros Hf%List.find_some _. destruct Hf as [_ Hf].
  apply andb_true_iff in Hf as [Hn%bool_decide_eq_true Hc%negb_true_iff]. done.
Qed.

Definition no_stack : stack := MkStack ∅ ∅ ∅ ∅ ∅ ∅ [].
Definition empty_tables : conn_tables := ConnTables true ∅ ∅ 1000.
Definition no_refs : positive -> nat := fun _ => 0.
Lemma empty_wf : conn_wf no_refs (empty_tables, no_stack).
Proof. split; [done|done|]. cbn. rewrite map_size_empty. lia. Qed.

(** Alice registers over 12 for a minute, then over 14 for an hour; the first
    connection is not kept. *)
Definition moves : list conn_op :=
  [op_cache (Some "alice"%string) (Some "example.com"%string) 60 12; op_time_passes 30;
   op_cache (Some "alice"%string) (Some "example.com"%string) 3600 14; op_time_passes 100; op_watchdog].
Lemma connection_references_witness :
  exists x', conn_runs moves (empty_tables, no_stack) = Ok (tt, x') /\ refs_of x'.2 12 = 0 /\ refs_of x'.2 14 = 1.
Proof.
  destruct (connection_references no_refs moves (empty_tables, no_stack) empty_wf) as (x' & E & _).
  exists x'. split; [done|]. vm_compute in E. injection E as <-. by vm_compute.
Defined.
Lemma connections_refine_map_witness :
  exists x' ua, conn_runs moves (empty_tables, no_stack) = Ok (tt, x') /\
    ct_findTportForSubscription (Some "alice"%string) "example.com" x' = Ok (Some ua, x') /\ ua_tport ua = 14%positive /\ ua_expires ua = 4630%Z.
Proof.
  destruct (connections_refine_map no_refs moves (empty_tables, no_stack) (Some "alice"%string) "example.com" empty_wf) as (x' & o & E & Ef & Eo);
    [by vm_compute|].
  vm_compute in Eo. destruct o as [ua|]; [|done]. injection Eo as H1 H2. exists x', ua. split; [exact E|]. split; [exact Ef|]. split; [exact H1|exact H2].
Defined.
(** A user name of 256 bytes is filed under another address and not found. *)
Definition long_user : string := join "" (replicate 256 "a"%string).
Definition long_user_ops : CT (option UaInvalidData * nat) :=
  _ ← conn_runs [op_cache (Some long_user) (Some "example.com"%string) 60 12];
  found ← ct_findTportForSubscription (Some long_user) "example.com";
  _ ← ct_flushTportForSubscription (Some long_user) (Some "example.com"%string);
  x ← get;
  mret (found, size (m_mapUri2InvalidData x.1)).
Lemma long_user_not_found :
  match long_user_ops (empty_tables, no_stack) with Ok (r, _) => r = (None, 1) | Fault _ => False end.
Proof. by vm_compute. Qed.

(** The trunk sends from 12, then, without closing it, from 14. *)
Definition trunk_contact : option url_t := Some (MkUrl (Some "sip"%string) None (Some "10.1.1.1"%string) (Some "5060"%string)).
Lemma contact_alias_follows_witness :
  exists t1 t2, messages [(12%positive, trunk_contact, Some sip_method_invite); (14%positive, trunk_contact, Some sip_method_options);
      (12%positive, trunk_contact, Some sip_method_register)] (empty_tables, no_stack) = Ok (tt, (t1, no_stack)) /\
    ct_getTportForContactAlias 12 "TCP" "192.0.2.7" "10.1.1.1" (Some "5060"%string) (t1, no_stack) = Ok (Some 14%positive, (t2, no_stack)).
Proof.
  destruct (contact_alias_follows [(12%positive, trunk_contact, Some sip_method_invite); (14%positive, trunk_contact, Some sip_method_options);
      (12%positive, trunk_contact, Some sip_method_register)] empty_tables no_stack 12 "TCP" "192.0.2.7" "10.1.1.1" (Some "5060"%string))
    as (t1 & o & t2 & E1 & E2 & Ho & _); [done|done|apply (bool_decide_unpack _); by vm_compute|].
  exists t1, t2. split; [done|]. rewrite E2. replace o with (Some 14%positive); [done|]. symmetry. apply Ho.
  exists ("192.0.2.7", "14")%string. split; [by vm_compute|]. split; [by vm_compute|done].
Defined.
