(* ===== verification/Settings.v ===== *)
(** Model of the settings of the server (src/controller.hpp,
    src/controller.cpp): the values that the constructor of
    [DrachtioController] starts from and those that [getEnv] takes from the
    environment. *)
From S2P Require Import Prelude CppString TextUtil SipUri SipTransports RequestRouter.

Open Scope string_scope.
Open Scope list_scope.

(** ** Numbers *)

(** [::atoi] and its conversion to [unsigned int]; a number that does not fit
    an [int] loses its high bits. *)
Definition c_int (s : string) : Z := ((c_atoi s + 2 ^ 31) mod 2 ^ 32 - 2 ^ 31)%Z.
Definition to_unsigned_int (z : Z) : Z := (z mod 2 ^ 32)%Z.
(** Values of type [float]: [::atof], zero, and comparisons with tenths. *)
Class Floats := {
  float : Type;
  c_atof : string -> float;
  float_zero : float;
  (** at least, at most, and more than so many tenths *)
  float_ge : float -> Z -> bool;
  float_le : float -> Z -> bool;
  float_gt : float -> Z -> bool;
}.

Inductive severity_levels := log_none | log_notice | log_error | log_warning | log_info | log_debug.
#[export] Instance severity_levels_eq : EqDecision severity_levels.
Proof. solve_decision. Defined.
Definition severity_of (s : string) : option severity_levels :=
  if String.eqb s "notice" then Some log_notice
  else if String.eqb s "error" then Some log_error
  else if String.eqb s "warning" then Some log_warning
  else if String.eqb s "info" then Some log_info
  else if String.eqb s "debug" then Some log_debug
  else None.

Section settings.
Context `{Floats} `{Boost}.

(** ** Members

    In groups.  The port and interval of the redis server are not initialised
    ([None]). *)

Record process_settings := ProcessSettings {
  m_bDaemonize : bool;
  m_bNoConfig : bool;
  m_configFilename : string;
  m_user : string;
  m_bMemoryDebug : bool;
}.
Record admin_settings := AdminSettings {
  m_adminAddress : string;
  m_adminTcpPort : Z;
  m_adminTlsPort : Z;
  m_secret : string;
}.
Record tls_settings := TlsSettings {
  m_tlsKeyFile : string;
  m_tlsCertFile : string;
  m_tlsChainFile : string;
  m_dhParam : string;
  m_tlsCipherList : string;
  m_minTlsVersion : float;
  m_bTlsVerifyClientCert : bool;
}.
Record log_settings := LogSettings {
  m_current_severity_threshold : severity_levels;
  m_nSofiaLoglevel : Z;
  m_bConsoleLogging : bool;
  m_bGloballyReadableLogs : bool;
}.
Record monitor_settings := MonitorSettings {
  m_strHomerAddress : string;
  m_nHomerPort : Z;
  m_nHomerId : Z;
  m_strPrometheusAddress : string;
  m_nPrometheusPort : Z;
}.
Record redis_settings := RedisSettings {
  m_redisAddress : string;
  m_redisSentinels : string;
  m_redisMaster : string;
  m_redisPassword : string;
  m_redisPort : option Z;
  m_redisKey : string;
  m_redisRefreshSecs : option Z;
}.
Record sip_settings := SipSettings {
  m_mtu : Z;
  m_tcpKeepaliveSecs : Z;
  m_tportQueuesize : Z;
  m_tportMaxConsecutiveTimeouts : Z;
  m_bContactAlias : bool;
  m_bAggressiveNatDetection : bool;
  m_bDisableNatDetection : bool;
  m_bAlwaysSend180 : bool;
  m_bRejectRegisterWithNoRealm : bool;
  m_strUserAgentAutoAnswerOptions : string;
  m_preservedHeaderNames : gset string;
}.
Record settings := Settings {
  st_process : process_settings;
  st_admin : admin_settings;
  st_tls : tls_settings;
  st_log : log_settings;
  st_monitor : monitor_settings;
  st_redis : redis_settings;
  st_sip : sip_settings;
  m_vecTransports : list SipTransport;
  m_requestRouter : RequestRouter;
}.
Definition on_process u s := Settings (u (st_process s)) (st_admin s) (st_tls s) (st_log s) (st_monitor s) (st_redis s) (st_sip s) (m_vecTransports s) (m_requestRouter s).
Definition on_admin u s := Settings (st_process s) (u (st_admin s)) (st_tls s) (st_log s) (st_monitor s) (st_redis s) (st_sip s) (m_vecTransports s) (m_requestRouter s).
Definition on_tls u s := Settings (st_process s) (st_admin s) (u (st_tls s)) (st_log s) (st_monitor s) (st_redis s) (st_sip s) (m_vecTransports s) (m_requestRouter s).
Definition on_log u s := Settings (st_process s) (st_admin s) (st_tls s) (u (st_log s)) (st_monitor s) (st_redis s) (st_sip s) (m_vecTransports s) (m_requestRouter s).
Definition on_monitor u s := Settings (st_process s) (st_admin s) (st_tls s) (st_log s) (u (st_monitor s)) (st_redis s) (st_sip s) (m_vecTransports s) (m_requestRouter s).
Definition on_redis u s := Settings (st_process s) (st_admin s) (st_tls s) (st_log s) (st_monitor s) (u (st_redis s)) (st_sip s) (m_vecTransports s) (m_requestRouter s).
Definition on_sip u s := Settings (st_process s) (st_admin s) (st_tls s) (st_log s) (st_monitor s) (st_redis s) (u (st_sip s)) (m_vecTransports s) (m_requestRouter s).
Definition on_vecTransports u s := Settings (st_process s) (st_admin s) (st_tls s) (st_log s) (st_monitor s) (st_redis s) (st_sip s) (u (m_vecTransports s)) (m_requestRouter s).
Definition on_requestRouter u s := Settings (st_process s) (st_admin s) (st_tls s) (st_log s) (st_monitor s) (st_redis s) (st_sip s) (m_vecTransports s) (u (m_requestRouter s)).
Definition set_bDaemonize v := on_process (fun x => ProcessSettings v (m_bNoConfig x) (m_configFilename x) (m_user x) (m_bMemoryDebug x)).
Definition set_bNoConfig v := on_process (fun x => ProcessSettings (m_bDaemonize x) v (m_configFilename x) (m_user x) (m_bMemoryDebug x)).
Definition set_configFilename v := on_process (fun x => ProcessSettings (m_bDaemonize x) (m_bNoConfig x) v (m_user x) (m_bMemoryDebug x)).
Definition set_user v := on_process (fun x => ProcessSettings (m_bDaemonize x) (m_bNoConfig x) (m_configFilename x) v (m_bMemoryDebug x)).
Definition set_bMemoryDebug v := on_process (fun x => ProcessSettings (m_bDaemonize x) (m_bNoConfig x) (m_configFilename x) (m_user x) v).
Definition set_adminAddress v := on_admin (fun x => AdminSettings v (m_adminTcpPort x) (m_adminTlsPort x) (m_secret x)).
Definition set_adminTcpPort v := on_admin (fun x => AdminSettings (m_adminAddress x) v (m_adminTlsPort x) (m_secret x)).
Definition set_adminTlsPort v := on_admin (fun x => AdminSettings (m_adminAddress x) (m_adminTcpPort x) v (m_secret x)).
Definition set_secret v := on_admin (fun x => AdminSettings (m_adminAddress x) (m_adminTcpPort x) (m_adminTlsPort x) v).
Definition set_tlsKeyFile v := on_tls (fun x => TlsSettings v (m_tlsCertFile x) (m_tlsChainFile x) (m_dhParam x) (m_tlsCipherList x) (m_minTlsVersion x) (m_bTlsVerifyClientCert x)).
Definition set_tlsCertFile v := on_tls (fun x => TlsSettings (m_tlsKeyFile x) v (m_tlsChainFile x) (m_dhParam x) (m_tlsCipherList x) (m_minTlsVersion x) (m_bTlsVerifyClientCert x)).
Definition set_tlsChainFile v := on_tls (fun x => TlsSettings (m_tlsKeyFile x) (m_tlsCertFile x) v (m_dhParam x) (m_tlsCipherList x) (m_minTlsVersion x) (m_bTlsVerifyClientCert x)).
Definition set_dhParam v := on_tls (fun x => TlsSettings (m_tlsKeyFile x) (m_tlsCertFile x) (m_tlsChainFile x) v (m_tlsCipherList x) (m_minTlsVersion x) (m_bTlsVerifyClientCert x)).
Definition set_tlsCipherList v := on_tls (fun x => TlsSettings (m_tlsKeyFile x) (m_tlsCertFile x) (m_tlsChainFile x) (m_dhParam x) v (m_minTlsVersion x) (m_bTlsVerifyClientCert x)).
Definition set_minTlsVersion v := on_tls (fun x => TlsSettings (m_tlsKeyFile x) (m_tlsCertFile x) (m_tlsChainFile x) (m_dhParam x) (m_tlsCipherList x) v (m_bTlsVerifyClientCert x)).
Definition set_bTlsVerifyClientCert v := on_tls (fun x => TlsSettings (m_tlsKeyFile x) (m_tlsCertFile x) (m_tlsChainFile x) (m_dhParam x) (m_tlsCipherList x) (m_minTlsVersion x) v).
Definition set_current_severity_threshold v := on_log (fun x => LogSettings v (m_nSofiaLoglevel x) (m_bConsoleLogging x) (m_bGloballyReadableLogs x)).
Definition set_nSofiaLoglevel v := on_log (fun x => LogSettings (m_current_severity_threshold x) v (m_bConsoleLogging x) (m_bGloballyReadableLogs x)).
Definition set_bConsoleLogging v := on_log (fun x => LogSettings (m_current_severity_threshold x) (m_nSofiaLoglevel x) v (m_bGloballyReadableLogs x)).
Definition set_bGloballyReadableLogs v := on_log (fun x => LogSettings (m_current_severity_threshold x) (m_nSofiaLoglevel x) (m_bConsoleLogging x) v).
Definition set_strHomerAddress v := on_monitor (fun x => MonitorSettings v (m_nHomerPort x) (m_nHomerId x) (m_strPrometheusAddress x) (m_nPrometheusPort x)).
Definition set_nHomerPort v := on_monitor (fun x => MonitorSettings (m_strHomerAddress x) v (m_nHomerId x) (m_strPrometheusAddress x) (m_nPrometheusPort x)).
Definition set_nHomerId v := on_monitor (fun x => MonitorSettings (m_strHomerAddress x) (m_nHomerPort x) v (m_strPrometheusAddress x) (m_nPrometheusPort x)).
Definition set_strPrometheusAddress v := on_monitor (fun x => MonitorSettings (m_strHomerAddress x) (m_nHomerPort x) (m_nHomerId x) v (m_nPrometheusPort x)).
Definition set_nPrometheusPort v := on_monitor (fun x => MonitorSettings (m_strHomerAddress x) (m_nHomerPort x) (m_nHomerId x) (m_strPrometheusAddress x) v).
Definition set_redisAddress v := on_redis (fun x => RedisSettings v (m_redisSentinels x) (m_redisMaster x) (m_redisPassword x) (m_redisPort x) (m_redisKey x) (m_redisRefreshSecs x)).
Definition set_redisSentinels v := on_redis (fun x => RedisSettings (m_redisAddress x) v (m_redisMaster x) (m_redisPassword x) (m_redisPort x) (m_redisKey x) (m_redisRefreshSecs x)).
Definition set_redisMaster v := on_redis (fun x => RedisSettings (m_redisAddress x) (m_redisSentinels x) v (m_redisPassword x) (m_redisPort x) (m_redisKey x) (m_redisRefreshSecs x)).
Definition set_redisPassword v := on_redis (fun x => RedisSettings (m_redisAddress x) (m_redisSentinels x) (m_redisMaster x) v (m_redisPort x) (m_redisKey x) (m_redisRefreshSecs x)).
Definition set_redisPort v := on_redis (fun x => RedisSettings (m_redisAddress x) (m_redisSentinels x) (m_redisMaster x) (m_redisPassword x) v (m_redisKey x) (m_redisRefreshSecs x)).
Definition set_redisKey v := on_redis (fun x => RedisSettings (m_redisAddress x) (m_redisSentinels x) (m_redisMaster x) (m_redisPassword x) (m_redisPort x) v (m_redisRefreshSecs x)).
Definition set_redisRefreshSecs v := on_redis (fun x => RedisSettings (m_redisAddress x) (m_redisSentinels x) (m_redisMaster x) (m_redisPassword x) (m_redisPort x) (m_redisKey x) v).
Definition set_mtu v := on_sip (fun x => SipSettings v (m_tcpKeepaliveSecs x) (m_tportQueuesize x) (m_tportMaxConsecutiveTimeouts x) (m_bContactAlias x) (m_bAggressiveNatDetection x) (m_bDisableNatDetection x) (m_bAlwaysSend180 x) (m_bRejectRegisterWithNoRealm x) (m_strUserAgentAutoAnswerOptions x) (m_preservedHeaderNames x)).
Definition set_tcpKeepaliveSecs v := on_sip (fun x => SipSettings (m_mtu x) v (m_tportQueuesize x) (m_tportMaxConsecutiveTimeouts x) (m_bContactAlias x) (m_bAggressiveNatDetection x) (m_bDisableNatDetection x) (m_bAlwaysSend180 x) (m_bRejectRegisterWithNoRealm x) (m_strUserAgentAutoAnswerOptions x) (m_preservedHeaderNames x)).
Definition set_tportQueuesize v := on_sip (fun x => SipSettings (m_mtu x) (m_tcpKeepaliveSecs x) v (m_tportMaxConsecutiveTimeouts x) (m_bContactAlias x) (m_bAggressiveNatDetection x) (m_bDisableNatDetection x) (m_bAlwaysSend180 x) (m_bRejectRegisterWithNoRealm x) (m_strUserAgentAutoAnswerOptions x) (m_preservedHeaderNames x)).
Definition set_tportMaxConsecutiveTimeouts v := on_sip (fun x => SipSettings (m_mtu x) (m_tcpKeepaliveSecs x) (m_tportQueuesize x) v (m_bContactAlias x) (m_bAggressiveNatDetection x) (m_bDisableNatDetection x) (m_bAlwaysSend180 x) (m_bRejectRegisterWithNoRealm x) (m_strUserAgentAutoAnswerOptions x) (m_preservedHeaderNames x)).
Definition set_bContactAlias v := on_sip (fun x => SipSettings (m_mtu x) (m_tcpKeepaliveSecs x) (m_tportQueuesize x) (m_tportMaxConsecutiveTimeouts x) v (m_bAggressiveNatDetection x) (m_bDisableNatDetection x) (m_bAlwaysSend180 x) (m_bRejectRegisterWithNoRealm x) (m_strUserAgentAutoAnswerOptions x) (m_preservedHeaderNames x)).
Definition set_bAggressiveNatDetection v := on_sip (fun x => SipSettings (m_mtu x) (m_tcpKeepaliveSecs x) (m_tportQueuesize x) (m_tportMaxConsecutiveTimeouts x) (m_bContactAlias x) v (m_bDisableNatDetection x) (m_bAlwaysSend180 x) (m_bRejectRegisterWithNoRealm x) (m_strUserAgentAutoAnswerOptions x) (m_preservedHeaderNames x)).
Definition set_bDisableNatDetection v := on_sip (fun x => SipSettings (m_mtu x) (m_tcpKeepaliveSecs x) (m_tportQueuesize x) (m_tportMaxConsecutiveTimeouts x) (m_bContactAlias x) (m_bAggressiveNatDetection x) v (m_bAlwaysSend180 x) (m_bRejectRegisterWithNoRealm x) (m_strUserAgentAutoAnswerOptions x) (m_preservedHeaderNames x)).
Definition set_bAlwaysSend180 v := on_sip (fun x => SipSettings (m_mtu x) (m_tcpKeepaliveSecs x) (m_tportQueuesize x) (m_tportMaxConsecutiveTimeouts x) (m_bContactAlias x) (m_bAggressiveNatDetection x) (m_bDisableNatDetection x) v (m_bRejectRegisterWithNoRealm x) (m_strUserAgentAutoAnswerOptions x) (m_preservedHeaderNames x)).
Definition set_bRejectRegisterWithNoRealm v := on_sip (fun x => SipSettings (m_mtu x) (m_tcpKeepaliveSecs x) (m_tportQueuesize x) (m_tportMaxConsecutiveTimeouts x) (m_bContactAlias x) (m_bAggressiveNatDetection x) (m_bDisableNatDetection x) (m_bAlwaysSend180 x) v (m_strUserAgentAutoAnswerOptions x) (m_preservedHeaderNames x)).
Definition set_strUserAgentAutoAnswerOptions v := on_sip (fun x => SipSettings (m_mtu x) (m_tcpKeepaliveSecs x) (m_tportQueuesize x) (m_tportMaxConsecutiveTimeouts x) (m_bContactAlias x) (m_bAggressiveNatDetection x) (m_bDisableNatDetection x) (m_bAlwaysSend180 x) (m_bRejectRegisterWithNoRealm x) v (m_preservedHeaderNames x)).
Definition set_preservedHeaderNames v := on_sip (fun x => SipSettings (m_mtu x) (m_tcpKeepaliveSecs x) (m_tportQueuesize x) (m_tportMaxConsecutiveTimeouts x) (m_bContactAlias x) (m_bAggressiveNatDetection x) (m_bDisableNatDetection x) (m_bAlwaysSend180 x) (m_bRejectRegisterWithNoRealm x) (m_strUserAgentAutoAnswerOptions x) v).

Definition UINT16_MAX : Z := 65535.
Definition DEFAULT_CONFIG_FILENAME : string := "/etc/drachtio.conf.xml".
(** The initial values of the constructor. *)
Definition initial_settings : settings :=
  Settings (ProcessSettings false false DEFAULT_CONFIG_FILENAME "" false) (AdminSettings "" 0 0 "")
    (TlsSettings "" "" "" "" "" float_zero false) (LogSettings log_none (-1) false false)
    (MonitorSettings "" 0 0 "0.0.0.0" 0) (RedisSettings "" "" "" "" None "" None)
    (SipSettings 0 UINT16_MAX 64 0 false false false false false "" ∅) [] ∅.

(** ** The environment *)

Abbreviation SET := (settings -> res settings).
Definition BAD_CAST {A} : res A := Fault (Thrown "bad_lexical_cast").
Definition lexical_unsigned (s : string) : res Z :=
  match lexical_cast_unsigned s with Some n => Ok (Z.of_N n) | None => BAD_CAST end.

(** What is done with the value of a variable: it is kept; it is a number
    above 0; it is 1. *)
Definition env_text (set : string -> settings -> settings) (p : string) : SET := fun s => Ok (set p s).
Definition env_positive (set : Z -> settings -> settings) (p : string) : SET := fun s =>
  Ok (if (0 <? c_int p)%Z then set (c_int p) s else s).
Definition env_switch (set : settings -> settings) (p : string) : SET := fun s =>
  Ok (if (c_int p =? 1)%Z then set s else s).
Definition env_number (set : option Z -> settings -> settings) (p : string) : SET := fun s =>
  match lexical_unsigned p with Ok n => Ok (set (Some n) s) | Fault f => Fault f end.

Definition env_http_handler (p : string) : SET := fun s =>
  Ok (on_requestRouter (fun r => RequestRouter_addRoute "*" "GET" p true (RequestRouter_clearRoutes r)) s).
Definition env_loglevel (p : string) : SET := fun s =>
  Ok (match severity_of p with Some l => set_current_severity_threshold l s | None => s end).
Definition env_sofia_loglevel (p : string) : SET := fun s =>
  Ok (if (0 <? c_int p)%Z && (c_int p <=? 9)%Z then set_nSofiaLoglevel (c_int p) s else s).
Definition env_keepalive (p : string) : SET := fun s =>
  Ok (if (0 <=? c_int p)%Z then set_tcpKeepaliveSecs (c_int p) s else s).
Definition env_queuesize (p : string) : SET := fun s =>
  Ok (if (0 <? c_int p)%Z then set_tportQueuesize (if (1000 <? c_int p)%Z then 1000 else c_int p)%Z s else s).
Definition env_max_timeouts (p : string) : SET := fun s =>
  Ok (if (0 <? c_int p)%Z then
        let n := (if (c_int p <? 2)%Z then 2 else c_int p)%Z in
        set_tportMaxConsecutiveTimeouts (if (1000 <? n)%Z then 1000 else n)%Z s
      else s).
(** [host:port], or a port; also of the command line. *)
Definition prometheus_scrape_port (p : string) : SET := fun s =>
  match split ":" p with
  | [host; port] =>
    match lexical_unsigned port with Ok n => Ok (set_nPrometheusPort n (set_strPrometheusAddress host s)) | Fault f => Fault f end
  | _ => match lexical_unsigned p with Ok n => Ok (set_nPrometheusPort n s) | Fault f => Fault f end
  end.
Definition env_min_tls_version (p : string) : SET := fun s =>
  let min := c_atof p in Ok (if float_ge min 10 && float_le min 13 then set_minTlsVersion min s else s).
Definition env_preserve_header_names (p : string) : SET := fun s =>
  Ok (set_preservedHeaderNames (m_preservedHeaderNames (st_sip s) ∪ list_to_set (trim <$> split "," p)) s).

(** The variables, in the order in which they are read. *)
Definition env_rules : list (string * (string -> SET)) :=
  [("DRACHTIO_ADMIN_ADDRESS", env_text set_adminAddress);
   ("DRACHTIO_ADMIN_TCP_PORT", env_positive set_adminTcpPort);
   ("DRACHTIO_ADMIN_TLS_PORT", env_positive set_adminTlsPort);
   ("DRACHTIO_AGRESSIVE_NAT_DETECTION", env_switch (set_bAggressiveNatDetection true));
   ("DRACHTIO_MEMORY_DEBUG", env_switch (set_bMemoryDebug true));
   ("DRACHTIO_TLS_CERT_FILE", env_text set_tlsCertFile);
   ("DRACHTIO_TLS_CHAIN_FILE", env_text set_tlsChainFile);
   ("DRACHTIO_TLS_KEY_FILE", env_text set_tlsKeyFile);
   ("DRACHTIO_TLS_DH_PARAM_FILE", env_text set_dhParam);
   ("DRACHTIO_TLS_VERIFY_CLIENT_CERT", env_switch (set_bTlsVerifyClientCert true));
   ("DRACHTIO_CONFIG_FILE_PATH", env_text set_configFilename);
   ("DRACHTIO_HOMER_ADDRESS", env_text set_strHomerAddress);
   ("DRACHTIO_HOMER_PORT", env_positive set_nHomerPort);
   ("DRACHTIO_HOMER_ID", env_positive set_nHomerId);
   ("DRACHTIO_HTTP_HANDLER_URI", env_http_handler);
   ("DRACHTIO_LOGLEVEL", env_loglevel);
   ("DRACHTIO_SOFIA_LOGLEVEL", env_sofia_loglevel);
   ("DRACHTIO_UDP_MTU", env_positive set_mtu);
   ("DRACHTIO_TCP_KEEPALIVE_INTERVAL", env_keepalive);
   ("DRACHTIO_TPORT_QUEUESIZE", env_queuesize);
   ("DRACHTIO_TPORT_MAX_CONSECUTIVE_TIMEOUTS", env_max_timeouts);
   ("DRACHTIO_TPORT_CONTACT_ALIAS", env_switch (set_bContactAlias true));
   ("DRACHTIO_SECRET", env_text set_secret);
   ("DRACHTIO_CONSOLE_LOGGING", env_switch (set_bConsoleLogging true));
   ("DRACHTIO_PROMETHEUS_SCRAPE_PORT", prometheus_scrape_port);
   ("DRACHTIO_MIN_TLS_VERSION", env_min_tls_version);
   ("DRACHTIO_BLACKLIST_REDIS_ADDRESS", env_text set_redisAddress);
   ("DRACHTIO_BLACKLIST_REDIS_SENTINELS", env_text set_redisSentinels);
   ("DRACHTIO_BLACKLIST_REDIS_MASTER", env_text set_redisMaster);
   ("DRACHTIO_BLACKLIST_REDIS_PASSWORD", env_text set_redisPassword);
   ("DRACHTIO_BLACKLIST_REDIS_PORT", env_number set_redisPort);
   ("DRACHTIO_BLACKLIST_REDIS_KEY", env_text set_redisKey);
   ("DRACHTIO_BLACKLIST_REDIS_REFRESH_SECS", env_number set_redisRefreshSecs);
   ("DRACHTIO_USER_AGENT_OPTIONS_AUTO_RESPOND", env_text set_strUserAgentAutoAnswerOptions);
   ("DRACHTIO_REJECT_REGISTER_WITH_NO_REALM", env_switch (set_bRejectRegisterWithNoRealm true));
   ("DRACHTIO_TLS_CIPHER_LIST", env_text set_tlsCipherList);
   ("DRACHTIO_PRESERVE_HEADER_NAMES", env_preserve_header_names)].
(** [std::getenv] is [env]. *)
Fixpoint apply_env (env : string -> option string) (rules : list (string * (string -> SET))) (s : settings) : res settings :=
  match rules with
  | [] => Ok s
  | (name, rule) :: rules =>
    match env name with
    | None => apply_env env rules s
    | Some p => match rule p s with Ok s => apply_env env rules s | Fault f => Fault f end
    end
  end.
Definition getEnv (env : string -> option string) : SET := apply_env env env_rules.
End settings.
