(* ===== verification/CommandLine.v ===== *)
(** Model of the command line of the server (src/controller.cpp:
    [parseCmdArgs] and the constructor of [DrachtioController], over GNU
    [getopt_long]). *)
From S2P Require Import Prelude CppString TextUtil Regex SipUri SipTransports RequestRouter Settings.

Open Scope string_scope.
Open Scope list_scope.

(** ** [getopt_long]

    What it documents for an option string that starts with a letter, with
    [POSIXLY_CORRECT] unset: options are found among the arguments, in order,
    until ["--"]; the other arguments are left for the end.  Messages on
    [stderr] are not modelled. *)

(** The members an option without a value can set by itself. *)
Inductive flag_member := flag_bDaemonize | flag_bNoConfig | flag_bRejectRegisterWithNoRealm.
#[export] Instance flag_member_eq : EqDecision flag_member.
Proof. solve_decision. Defined.
(** [flag] and [val] of a [struct option]. *)
Inductive opt_return := ReturnFlag (f : flag_member) | ReturnZero | ReturnChar (c : ascii).
Record long_option := Long { lo_name : string; lo_required_argument : bool; lo_return : opt_return }.
(** A call that finds an option: it sets a flag and returns 0, returns 0, the
    character of the option, or '?'. *)
Inductive getopt_event :=
  | EvFlag (f : flag_member)
  | EvZero (name : string) (optarg : option string)
  | EvChar (c : ascii) (optarg : option string)
  | EvUnknown.

Definition event_of (o : long_option) (optarg : option string) : getopt_event :=
  match lo_return o with
  | ReturnFlag f => EvFlag f
  | ReturnZero => EvZero (lo_name o) optarg
  | ReturnChar c => EvChar c optarg
  end.

Section getopt.
Context (shortopts : list (ascii * bool)) (longopts : list long_option).

Definition short_argument (c : ascii) : option bool :=
  snd <$> head (filter (fun o => o.1 = c) shortopts).

(** An exact name, or the only one that starts like this. *)
Definition find_long (name : string) : option long_option :=
  match filter (fun o => lo_name o = name) longopts with
  | o :: _ => Some o
  | [] => match filter (fun o => String.prefix name (lo_name o) = true) longopts with
          | [o] => Some o
          | _ => None
          end
  end.

(** The name and the value of ["--name=value"], without the dashes. *)
Fixpoint split_equals (s : string) : string * option string :=
  match s with
  | EmptyString => ("", None)
  | String c s' =>
    if Ascii.eqb c "=" then ("", Some s')
    else let r := split_equals s' in (String c r.1, r.2)
  end.

(** The second component: the next argument was taken as the value. *)
Definition long_events (body : string) (next : option string) : list getopt_event * bool :=
  let '(name, value) := split_equals body in
  match find_long name with
  | None => ([EvUnknown], false)
  | Some o =>
    match lo_required_argument o, value, next with
    | false, None, _ => ([event_of o None], false)
    | false, Some _, _ => ([EvUnknown], false)
    | true, Some v, _ => ([event_of o (Some v)], false)
    | true, None, Some v => ([event_of o (Some v)], true)
    | true, None, None => ([EvUnknown], false)
    end
  end.
Fixpoint short_events (cluster : string) (next : option string) : list getopt_event * bool :=
  match cluster with
  | EmptyString => ([], false)
  | String c rest =>
    match short_argument c with
    | None => let r := short_events rest next in (EvUnknown :: r.1, r.2)
    | Some false => let r := short_events rest next in (EvChar c None :: r.1, r.2)
    | Some true =>
      if String.eqb rest ""
      then match next with Some v => ([EvChar c (Some v)], true) | None => ([EvUnknown], false) end
      else ([EvChar c (Some rest)], false)
    end
  end.
Definition is_option_arg (a : string) : bool :=
  match a with String "-" (String _ _) => true | _ => false end.
Definition option_events (a : string) (next : option string) : list getopt_event * bool :=
  match a with
  | String "-" (String "-" body) => long_events body next
  | String "-" cluster => short_events cluster next
  | _ => ([], false)
  end.

(** All the calls, and the arguments that are not options. *)
Fixpoint getopt_long (args : list string) : list getopt_event * list string :=
  match args with
  | [] => ([], [])
  | a :: rest =>
    if String.eqb a "--" then ([], rest)
    else if is_option_arg a then
      match option_events a (head rest), rest with
      | (evs, true), _ :: rest' => let r := getopt_long rest' in (evs ++ r.1, r.2)
      | (evs, _), _ => let r := getopt_long rest in (evs ++ r.1, r.2)
      end
    else let r := getopt_long rest in (r.1, a :: r.2)
  end.
End getopt.

(** ** The options of the server *)

Definition short_options : list (ascii * bool) :=
  [("a", true); ("c", true); ("f", true); ("h", false); ("i", false); ("l", true); ("m", true); ("p", true);
   ("n", true); ("u", true); ("v", false); ("x", true); ("y", true); ("z", true); ("A", true); ("B", true);
   ("C", true); ("D", true); ("E", true); ("F", true); ("G", true); ("I", false)]%char.
Definition long_options : list long_option :=
  [Long "daemon" false (ReturnFlag flag_bDaemonize);
   Long "noconfig" false (ReturnFlag flag_bNoConfig);
   Long "reject-register-with-no-realm" false (ReturnFlag flag_bRejectRegisterWithNoRealm);
   Long "file" true (ReturnChar "f");
   Long "help" false (ReturnChar "h");
   Long "user" true (ReturnChar "u");
   Long "port" true (ReturnChar "p");
   Long "contact" true (ReturnChar "c");
   Long "external-ip" true (ReturnChar "x");
   Long "local-net" true (ReturnChar "n");
   Long "dns-name" true (ReturnChar "d");
   Long "http-handler" true (ReturnChar "a");
   Long "http-method" true (ReturnChar "m");
   Long "loglevel" true (ReturnChar "l");
   Long "sofia-loglevel" true (ReturnChar "s");
   Long "stdout" false (ReturnChar "b");
   Long "homer" true (ReturnChar "y");
   Long "homer-id" true (ReturnChar "z");
   Long "key-file" true (ReturnChar "A");
   Long "cert-file" true (ReturnChar "B");
   Long "chain-file" true (ReturnChar "C");
   Long "mtu" true (ReturnChar "D");
   Long "address" true (ReturnChar "E");
   Long "secret" true (ReturnChar "F");
   Long "dh-param" true (ReturnChar "G");
   Long "tls-port" true (ReturnChar "H");
   Long "aggressive-nat-detection" false (ReturnChar "I");
   Long "prometheus-scrape-port" true (ReturnChar "J");
   Long "memory-debug" false (ReturnChar "K");
   Long "tcp-keepalive-interval" true (ReturnChar "L");
   Long "min-tls-version" true (ReturnChar "M");
   Long "disable-nat-detection" false (ReturnChar "N");
   Long "blacklist-redis-address" true (ReturnChar "O");
   Long "blacklist-redis-port" true (ReturnChar "P");
   Long "blacklist-redis-key" true (ReturnChar "Q");
   Long "blacklist-refresh-secs" true (ReturnChar "R");
   Long "always-send-180" false (ReturnChar "S");
   Long "user-agent-options-auto-respond" false (ReturnChar "T");
   Long "globally-readable-logs" false (ReturnChar "U");
   Long "blacklist-redis-sentinels" true (ReturnChar "V");
   Long "blacklist-redis-master" true (ReturnChar "W");
   Long "blacklist-redis-password" true (ReturnChar "X");
   Long "tls-cipherlist" true ReturnZero;
   Long "version" false (ReturnChar "v")].

(** ** [parseCmdArgs] *)

(** The process goes on with the value, [parseCmdArgs] returns false, or the
    process exits. *)
Inductive outcome (A : Type) := Continue (a : A) | Refused | Exited (code : Z).
Arguments Continue {A} _.
Arguments Refused {A}.
Arguments Exited {A} _.

Definition by_char {A} (c : ascii) (l : list (ascii * A)) : option A :=
  snd <$> head (filter (fun o => o.1 = c) l).

Section commandline.
Context `{Floats} `{Boost} `{Inet}.

(** The settings and the local variables. *)
Record cmdline := CmdLine {
  cl_settings : settings;
  cl_contact : string;
  cl_publicAddress : string;
  cl_localNet : string;
  cl_vecDnsNames : list string;
  cl_httpMethod : string;
  cl_httpUrl : string;
}.
Definition on_settings u x :=
  CmdLine (u (cl_settings x)) (cl_contact x) (cl_publicAddress x) (cl_localNet x) (cl_vecDnsNames x) (cl_httpMethod x) (cl_httpUrl x).
Definition set_contact contact publicAddress localNet x :=
  CmdLine (cl_settings x) contact publicAddress localNet (cl_vecDnsNames x) (cl_httpMethod x) (cl_httpUrl x).
Definition add_dns name x :=
  CmdLine (cl_settings x) (cl_contact x) (cl_publicAddress x) (cl_localNet x) (cl_vecDnsNames x ++ [name]) (cl_httpMethod x) (cl_httpUrl x).
Definition set_http method url x :=
  CmdLine (cl_settings x) (cl_contact x) (cl_publicAddress x) (cl_localNet x) (cl_vecDnsNames x) method url.

Definition set_flag (f : flag_member) : settings -> settings :=
  match f with
  | flag_bDaemonize => set_bDaemonize true
  | flag_bNoConfig => set_bNoConfig true
  | flag_bRejectRegisterWithNoRealm => set_bRejectRegisterWithNoRealm true
  end.

(** The options that only keep their value; its number; that are switches. *)
Definition text_options : list (ascii * (string -> settings -> settings)) :=
  [("A"%char, set_tlsKeyFile); ("B"%char, set_tlsCertFile); ("C"%char, set_tlsChainFile); ("E"%char, set_adminAddress);
   ("F"%char, set_secret); ("G"%char, set_dhParam); ("f"%char, set_configFilename); ("u"%char, set_user);
   ("O"%char, set_redisAddress); ("Q"%char, set_redisKey); ("T"%char, set_strUserAgentAutoAnswerOptions);
   ("V"%char, set_redisSentinels); ("W"%char, set_redisMaster); ("X"%char, set_redisPassword)].
Definition number_options : list (ascii * (Z -> settings -> settings)) :=
  [("D"%char, set_mtu); ("p"%char, set_adminTcpPort); ("H"%char, set_adminTlsPort); ("L"%char, set_tcpKeepaliveSecs);
   ("P"%char, fun n => set_redisPort (Some n)); ("R"%char, fun n => set_redisRefreshSecs (Some n))].
Definition switch_options : list (ascii * (settings -> settings)) :=
  [("b"%char, set_bConsoleLogging true); ("I"%char, set_bAggressiveNatDetection true); ("K"%char, set_bMemoryDebug true);
   ("N"%char, set_bDisableNatDetection true); ("S"%char, set_bAlwaysSend180 true); ("U"%char, set_bGloballyReadableLogs true)].

Abbreviation CL := (res (outcome cmdline)).
Definition go (x : cmdline) : CL := Ok (Continue x).

Definition DEFAULT_HOMER_PORT : Z := 9060.
Definition option_loglevel (v : string) (x : cmdline) : CL :=
  match severity_of v with
  | Some l => go (on_settings (set_current_severity_threshold l) x)
  | None => Ok Refused
  end.
Definition option_sofia_loglevel (v : string) (x : cmdline) : CL :=
  let n := c_int v in
  if (n <? 0)%Z || (9 <? n)%Z then Ok Refused else go (on_settings (set_nSofiaLoglevel n) x).
Definition option_http_method (v : string) (x : cmdline) : CL :=
  go (if iequals v "POST" then set_http "POST" (cl_httpUrl x) x else x).
Definition option_contact (v : string) (x : cmdline) : CL :=
  if String.eqb (cl_contact x) "" then go (set_contact v (cl_publicAddress x) (cl_localNet x) x)
  else match SipTransport_new (cl_contact x) (cl_localNet x) (cl_publicAddress x) with
       | Fault f => Fault f
       | Ok t => go (set_contact v "" "" (on_settings (on_vecTransports (fun l => l ++ [t])) x))
       end.
Definition option_external_ip (v : string) (x : cmdline) : CL :=
  if String.eqb (cl_contact x) "" then Ok Refused
  else if negb (String.eqb (cl_publicAddress x) "") then Ok Refused
  else go (set_contact (cl_contact x) v (cl_localNet x) x).
Definition option_local_net (v : string) (x : cmdline) : CL :=
  if String.eqb (cl_contact x) "" then Ok Refused
  else if negb (String.eqb (cl_localNet x) "") then Ok Refused
  else go (set_contact (cl_contact x) (cl_publicAddress x) v x).
Definition option_homer (v : string) (x : cmdline) : CL :=
  match split ":" v with
  | [address] => go (on_settings (fun s => set_strHomerAddress address (set_nHomerPort DEFAULT_HOMER_PORT s)) x)
  | [address; port] =>
    match lexical_unsigned port with
    | Ok n => go (on_settings (fun s => set_nHomerPort n (set_strHomerAddress address s)) x)
    | Fault f => Fault f
    end
  | _ => Ok Refused
  end.
Definition option_homer_id (v : string) (x : cmdline) : CL :=
  match lexical_cast_unsigned v with
  | Some n => if (n =? 0)%N then Ok Refused else go (on_settings (set_nHomerId (Z.of_N n)) x)
  | None => Ok Refused
  end.
Definition option_prometheus (v : string) (x : cmdline) : CL :=
  match prometheus_scrape_port v (cl_settings x) with
  | Ok s => go (on_settings (fun _ => s) x)
  | Fault f => Fault f
  end.
Definition special_options : list (ascii * (string -> cmdline -> CL)) :=
  [("a"%char, fun v x => go (set_http (cl_httpMethod x) v x)); ("d"%char, fun v x => go (add_dns v x));
   ("l"%char, option_loglevel); ("m"%char, option_http_method); ("s"%char, option_sofia_loglevel); ("c"%char, option_contact);
   ("x"%char, option_external_ip); ("n"%char, option_local_net); ("y"%char, option_homer); ("z"%char, option_homer_id);
   ("J"%char, option_prometheus); ("M"%char, fun v x => go (on_settings (set_minTlsVersion (c_atof v)) x))].

(** The [switch]; a null [optarg] cannot be copied, the default is [abort]. *)
Definition with_optarg (optarg : option string) (k : string -> CL) : CL :=
  match optarg with Some v => k v | None => Fault BadAccess end.
Definition case_char (c : ascii) (optarg : option string) (x : cmdline) : CL :=
  match by_char c text_options with
  | Some set => with_optarg optarg (fun v => go (on_settings (set v) x))
  | None =>
    match by_char c number_options with
    | Some set => with_optarg optarg (fun v => go (on_settings (set (to_unsigned_int (c_int v))) x))
    | None =>
      match by_char c switch_options with
      | Some set => go (on_settings set x)
      | None =>
        match by_char c special_options with
        | Some option => with_optarg optarg (fun v => option v x)
        | None => if Ascii.eqb c "h" || Ascii.eqb c "v" then Ok (Exited 0) else Fault AssertFail
        end
      end
    end
  end.
Definition cmd_event (ev : getopt_event) (x : cmdline) : CL :=
  match ev with
  | EvFlag f => go (on_settings (set_flag f) x)
  | EvZero name optarg =>
    if String.eqb name "tls-cipherlist" then with_optarg optarg (fun v => go (on_settings (set_tlsCipherList v) x)) else go x
  | EvChar c optarg => case_char c optarg x
  | EvUnknown => go x
  end.
Fixpoint cmd_events (evs : list getopt_event) (x : cmdline) : CL :=
  match evs with
  | [] => go x
  | ev :: evs =>
    match cmd_event ev x with
    | Ok (Continue x) => cmd_events evs x
    | stop => stop
    end
  end.

(** After the loop.  Reading an uninitialised member is undefined. *)
Definition or_default (d : Z) (v : option Z) : res (option Z) :=
  match v with Some n => Ok (Some (if (n =? 0)%Z then d else n)) | None => Fault BadAccess end.
Definition finish_contact (x : cmdline) (s : settings) : res settings :=
  if String.eqb (cl_contact x) "" then Ok s
  else match SipTransport_new (cl_contact x) (cl_localNet x) (cl_publicAddress x) with
       | Fault f => Fault f
       | Ok t => Ok (on_vecTransports (fun l => l ++ [foldl (fun t name => addDnsName name t) t (cl_vecDnsNames x)]) s)
       end.
Definition finish_redis (s : settings) : res settings :=
  let r := st_redis s in
  if String.eqb (m_redisAddress r) "" then Ok s
  else match or_default 6379 (m_redisPort r), or_default 300 (m_redisRefreshSecs r) with
       | Ok port, Ok secs => Ok (set_redisRefreshSecs secs (set_redisPort port s))
       | _, _ => Fault BadAccess
       end.
Definition finish_http (x : cmdline) (s : settings) : settings :=
  if String.eqb (cl_httpUrl x) "" then s
  else on_requestRouter (RequestRouter_addRoute "*" (cl_httpMethod x) (cl_httpUrl x) true) s.
Definition finish (x : cmdline) : res (outcome settings) :=
  let s := cl_settings x in
  if negb (String.eqb (m_strHomerAddress (st_monitor s)) "") && (m_nHomerId (st_monitor s) =? 0)%Z then Ok Refused
  else match finish_contact x s with
       | Fault f => Fault f
       | Ok s =>
         match finish_redis s with
         | Fault f => Fault f
         | Ok s => Ok (Continue (finish_http x s))
         end
       end.

(** [args]: the arguments after the name of the program. *)
Definition cmdline_init (s : settings) : cmdline := CmdLine s "" "" "" [] "GET" "".
Definition parseCmdArgs (args : list string) (s : settings) : res (outcome settings) :=
  match cmd_events (getopt_long short_options long_options args).1 (cmdline_init s) with
  | Fault f => Fault f
  | Ok Refused => Ok Refused
  | Ok (Exited code) => Ok (Exited code)
  | Ok (Continue x) => finish x
  end.

(** The constructor, up to reading the configuration file. *)
Definition DrachtioController_init (env : string -> option string) (args : list string) : res (outcome settings) :=
  match getEnv env initial_settings with
  | Fault f => Fault f
  | Ok s =>
    match parseCmdArgs args s with
    | Ok Refused => Ok (Exited (-1))
    | r => r
    end
  end.
End commandline.
