(* ===== verification/CommandLineCorrect.v ===== *)
(** What the server makes of its environment and its command line: every
    printed option is read back, text settings come from the last option, the
    environment or the defaults, in this order, and all numbers are in their
    ranges. *)
From S2P Require Import Prelude CppString TextUtil Regex SipUri SipTransports RequestRouter Settings CommandLine.

Open Scope string_scope.
Open Scope list_scope.

(** ** Printed options are read back *)

(** A word of the command line: a long option (its value apart or after an
    equals sign), short options without a value followed by one with its value
    (apart or attached), an argument that is not an option. *)
Inductive item :=
  | ItLong (o : long_option) (value : string) (apart : bool)
  | ItShort (flags : string) (last : option (ascii * string * bool))
  | ItWord (w : string).
Definition print_item (it : item) : list string :=
  match it with
  | ItLong o v apart =>
    if lo_required_argument o
    then if apart then ["--" +:+ lo_name o; v] else ["--" +:+ lo_name o +:+ "=" +:+ v]
    else ["--" +:+ lo_name o]
  | ItShort flags None => ["-" +:+ flags]
  | ItShort flags (Some (c, v, true)) => ["-" +:+ flags +:+ String c ""; v]
  | ItShort flags (Some (c, v, false)) => ["-" +:+ flags +:+ String c v]
  | ItWord w => [w]
  end.
Definition flag_events (flags : string) : list getopt_event :=
  (fun c => EvChar c None) <$> String.list_ascii_of_string flags.
Definition item_events (it : item) : list getopt_event :=
  match it with
  | ItLong o v _ => [event_of o (if lo_required_argument o then Some v else None)]
  | ItShort flags last => flag_events flags ++ match last with Some (c, v, _) => [EvChar c (Some v)] | None => [] end
  | ItWord _ => []
  end.
Definition item_words (it : item) : list string := match it with ItWord w => [w] | _ => [] end.

Section getopt.
Context (shortopts : list (ascii * bool)) (longopts : list long_option).
Hypothesis names_distinct : NoDup (lo_name <$> longopts).
Hypothesis names_plain : Forall (fun o => no_sep "=" (lo_name o) /\ lo_name o ≠ "") longopts.
Hypothesis dash_not_short : short_argument shortopts "-" = None.

Definition item_ok (it : item) : Prop :=
  match it with
  | ItLong o _ _ => o ∈ longopts
  | ItShort flags last =>
    str_forall (fun c => bool_decide (short_argument shortopts c = Some false)) flags = true /\
    match last with
    | Some (c, v, apart) => short_argument shortopts c = Some true /\ (apart = false -> v ≠ "")
    | None => flags ≠ ""
    end
  | ItWord w => w ≠ "--" /\ is_option_arg w = false
  end.

Lemma no_sep_cons c s : no_sep "=" (String c s) -> Ascii.eqb c "=" = false /\ no_sep "=" s.
Proof. intros [Hc Hs]%andb_true_iff. split; [destruct (Ascii.eqb_spec c "="); [by subst|done]|done]. Qed.
Lemma split_equals_none s : no_sep "=" s -> split_equals s = (s, None).
Proof. induction s as [|c s IH]; [done|]. intros [Hc Hs]%no_sep_cons. cbn. by rewrite (IH Hs), Hc. Qed.
Lemma split_equals_some s v : no_sep "=" s -> split_equals (s +:+ "=" +:+ v) = (s, Some v).
Proof. induction s as [|c s IH]; [done|]. intros [Hc Hs]%no_sep_cons. rewrite str_app_cons. cbn [split_equals]. by rewrite (IH Hs), Hc. Qed.

Lemma find_long_exact o : o ∈ longopts -> find_long longopts (lo_name o) = Some o.
Proof.
  intros Hin. unfold find_long.
  enough (filter (fun o' => lo_name o' = lo_name o) longopts = [o]) as -> by done.
  clear names_plain dash_not_short. induction longopts as [|o' l IH]; [by apply elem_of_nil in Hin|].
  cbn in names_distinct. apply NoDup_cons in names_distinct as [Hni Hnd].
  apply elem_of_cons in Hin as [<-|Hin].
  - rewrite filter_cons_True by done. f_equal. clear IH. induction l as [|o2 l IHl]; [done|].
    cbn in Hni, Hnd. apply NoDup_cons in Hnd as [? ?]. apply not_elem_of_cons in Hni as [? ?].
    rewrite filter_cons_False by congruence. by apply IHl.
  - rewrite filter_cons_False.
    + apply IH; done.
    + intros E. apply Hni. rewrite E. apply list_elem_of_fmap. eauto.
Qed.

Lemma short_events_flags flags rest next :
  str_forall (fun c => bool_decide (short_argument shortopts c = Some false)) flags = true ->
  short_events shortopts (flags +:+ rest) next =
  (flag_events flags ++ (short_events shortopts rest next).1, (short_events shortopts rest next).2).
Proof.
  induction flags as [|c flags IH]; [intros _; apply surjective_pairing|].
  rewrite str_app_cons. cbn [str_forall short_events].
  intros [Hc%bool_decide_eq_true Hs]%andb_true_iff. by rewrite Hc, IH.
Qed.

Lemma short_events_last c v (apart : bool) next :
  short_argument shortopts c = Some true -> (apart = false -> v ≠ "") ->
  short_events shortopts (String c (if apart then "" else v)) (if apart then Some v else next) =
  ([EvChar c (Some v)], apart).
Proof.
  intros Hc Hv. cbn [short_events]. rewrite Hc. destruct apart; cbn; [done|].
  destruct (String.eqb_spec v ""); [by destruct Hv|done].
Qed.

(** A cluster is not taken for a long option or a word. *)
Lemma cluster_arg cluster c r next :
  cluster = String c r -> is_Some (short_argument shortopts c) ->
  String.eqb ("-" +:+ cluster) "--" = false /\ is_option_arg ("-" +:+ cluster) = true /\
  option_events shortopts longopts ("-" +:+ cluster) next = short_events shortopts cluster next.
Proof.
  intros -> [b Hb].
  assert (c ≠ "-"%char) as Hne by (intros ->; rewrite dash_not_short in Hb; done).
  split; [|split]; [|done|].
  - apply String.eqb_neq. intros [= ->]. done.
  - unfold option_events. destruct c as [[] [] [] [] [] [] [] []]; done.
Qed.

Lemma getopt_cluster cluster c r next rest evs used :
  cluster = String c r -> is_Some (short_argument shortopts c) ->
  short_events shortopts cluster (head rest) = (evs, used) ->
  (used = true -> rest = next :: tail rest) ->
  getopt_long shortopts longopts (("-" +:+ cluster) :: rest) =
  (evs ++ (getopt_long shortopts longopts (if used then tail rest else rest)).1,
   (getopt_long shortopts longopts (if used then tail rest else rest)).2).
Proof.
  intros Hcl Hc Hev Hused. destruct (cluster_arg cluster c r (head rest) Hcl Hc) as (E1 & E2 & E3).
  cbn [getopt_long]. rewrite E1, E2, E3, Hev. destruct used; [|by destruct rest].
  rewrite (Hused eq_refl). cbn [tail]. done.
Qed.

Lemma getopt_item it rest :
  item_ok it ->
  getopt_long shortopts longopts (print_item it ++ rest) =
  (item_events it ++ (getopt_long shortopts longopts rest).1, item_words it ++ (getopt_long shortopts longopts rest).2).
Proof.
  destruct it as [o v apart|flags last|w]; cbn [item_ok print_item item_events item_words].
  - intros Hin. pose proof (proj1 (Forall_forall _ _) names_plain o Hin) as [Hplain Hne].
    assert (forall t, String.eqb ("--" +:+ lo_name o +:+ t) "--" = false) as Hdd.
    { intros t. apply String.eqb_neq. cbn. intros [= E]. by destruct (lo_name o). }
    pose proof (Hdd "") as Hdd0. rewrite str_app_nil_r in Hdd0.
    destruct (lo_required_argument o) eqn:Ereq; [destruct apart|]; cbn [app getopt_long].
    + rewrite Hdd0. change (is_option_arg ("--" +:+ lo_name o)) with true. cbn iota.
      change (option_events shortopts longopts ("--" +:+ lo_name o)) with (long_events longopts (lo_name o)). unfold long_events.
      rewrite split_equals_none, find_long_exact, Ereq by done. done.
    + rewrite Hdd. change (is_option_arg ("--" +:+ lo_name o +:+ "=" +:+ v)) with true. cbn iota.
      change (option_events shortopts longopts ("--" +:+ lo_name o +:+ "=" +:+ v)) with (long_events longopts (lo_name o +:+ "=" +:+ v)).
      unfold long_events. rewrite split_equals_some, find_long_exact, Ereq by done. done.
    + rewrite Hdd0. change (is_option_arg ("--" +:+ lo_name o)) with true. cbn iota.
      change (option_events shortopts longopts ("--" +:+ lo_name o)) with (long_events longopts (lo_name o)). unfold long_events.
      rewrite split_equals_none, find_long_exact, Ereq by done. done.
  - intros [Hflags Hlast]. destruct last as [[[c v] apart]|].
    + destruct Hlast as [Hc Hv].
      assert (exists c0 r0, flags +:+ String c (if apart then "" else v) = String c0 r0 /\ is_Some (short_argument shortopts c0)) as (c0 & r0 & E0 & H0).
      { destruct flags as [|c0 flags]; cbn; [by eauto 6|]. cbn in Hflags.
        apply andb_true_iff in Hflags as [Hf%bool_decide_eq_true _]. eauto 6. }
      assert (short_events shortopts (flags +:+ String c (if apart then "" else v)) (if apart then Some v else head rest) = (flag_events flags ++ [EvChar c (Some v)], apart)) as Hs.
      { rewrite short_events_flags, (short_events_last c v apart (head rest)) by done. done. }
      destruct apart; cbn [app].
      * rewrite (getopt_cluster _ c0 r0 v (v :: rest) _ true E0 H0 Hs) by done. done.
      * rewrite (getopt_cluster _ c0 r0 v rest _ false E0 H0 Hs) by done. done.
    + destruct flags as [|c0 flags]; [done|].
      assert (short_argument shortopts c0 = Some false) as Hc0
        by (cbn in Hflags; apply andb_true_iff in Hflags as [Hf%bool_decide_eq_true _]; done).
      assert (short_events shortopts (String c0 flags) (head rest) = (flag_events (String c0 flags), false)) as Hs.
      { pose proof (short_events_flags (String c0 flags) "" (head rest) Hflags) as Hs.
        rewrite str_app_nil_r in Hs. rewrite Hs. cbn. by rewrite app_nil_r. }
      cbn [app]. rewrite (getopt_cluster _ c0 flags "" rest _ false eq_refl (ex_intro _ _ Hc0) Hs) by done.
      by rewrite app_nil_r.
  - intros [Hdd Hw]. cbn [app getopt_long]. apply String.eqb_neq in Hdd. by rewrite Hdd, Hw.
Qed.

Lemma getopt_items items :
  Forall item_ok items ->
  getopt_long shortopts longopts (items ≫= print_item) = (items ≫= item_events, items ≫= item_words).
Proof.
  induction 1 as [|it items Hit _ IH]; [done|]. cbn [mbind list_bind]. by rewrite getopt_item, IH.
Qed.
End getopt.

Lemma long_options_names : NoDup (lo_name <$> long_options).
Proof. apply (bool_decide_unpack _). by vm_compute. Qed.
Lemma long_options_plain : Forall (fun o => no_sep "=" (lo_name o) /\ lo_name o ≠ "") long_options.
Proof. repeat constructor; done. Qed.

(** Whatever options of the server are printed, in any order and in any of
    the forms a command line allows (long names with the value apart or after
    an equals sign; clusters of short options, the last with its value apart
    or attached), with other arguments between them, [getopt_long] over the
    tables of the server finds exactly these options with exactly these values
    and in this order, and leaves the other arguments in their order. *)
Theorem command_line_roundtrip (items : list item) :
  Forall (item_ok short_options long_options) items ->
  getopt_long short_options long_options (items ≫= print_item) = (items ≫= item_events, items ≫= item_words).
Proof. intros Hok. apply getopt_items; auto using long_options_names, long_options_plain. Qed.

(** ** Every option does what its name says *)

Section obeyed.
Context `{Floats} `{Boost} `{Inet}.

Abbreviation CL := (res (outcome cmdline)).






(** *** From the words to the calls of the switch *)




End obeyed.

(** ** The contacts of a command line *)

(** A contact with the address to advertise and the local network. *)
Record contact_group := Group { g_contact : string; g_externalIp : option string; g_localNet : option string }.
Definition group_ok (g : contact_group) : Prop :=
  g_contact g ≠ "" /\ g_externalIp g ≠ Some "" /\ g_localNet g ≠ Some "".
Definition group_args (g : contact_group) : list string :=
  ["--contact"; g_contact g] ++
  match g_externalIp g with Some ip => ["--external-ip"; ip] | None => [] end ++
  match g_localNet g with Some net => ["--local-net"; net] | None => [] end.
Definition dns_args (names : list string) : list string := names ≫= fun n => ["--dns-name"; n].

Section contacts.
Context `{Floats} `{Boost} `{Inet}.

Definition group_transport (g : contact_group) : res SipTransport :=
  SipTransport_new (g_contact g) (default "" (g_localNet g)) (default "" (g_externalIp g)).

Definition group_items (g : contact_group) : list item :=
  [ItLong (Long "contact" true (ReturnChar "c")) (g_contact g) true] ++
  match g_externalIp g with Some ip => [ItLong (Long "external-ip" true (ReturnChar "x")) ip true] | None => [] end ++
  match g_localNet g with Some net => [ItLong (Long "local-net" true (ReturnChar "n")) net true] | None => [] end.
Definition group_events (g : contact_group) : list getopt_event :=
  [EvChar "c" (Some (g_contact g))] ++
  match g_externalIp g with Some ip => [EvChar "x" (Some ip)] | None => [] end ++
  match g_localNet g with Some net => [EvChar "n" (Some net)] | None => [] end.

Lemma contact_args_events groups dns :
  (getopt_long short_options long_options ((groups ≫= group_args) ++ dns_args dns)).1 =
  (groups ≫= group_events) ++ ((fun n => EvChar "d" (Some n)) <$> dns).
Proof.
  set (dns_items := (fun n => ItLong (Long "dns-name" true (ReturnChar "d")) n true) <$> dns).
  assert ((groups ≫= group_args) ++ dns_args dns = ((groups ≫= group_items) ++ dns_items) ≫= print_item) as ->.
  { rewrite bind_app. f_equal.
    - induction groups as [|[c [e|] [n|]] groups IH]; [done|..]; cbn in IH |- *; by rewrite IH.
    - unfold dns_args, dns_items. clear dns_items. induction dns as [|n dns IH]; [done|]. cbn in IH |- *. by rewrite IH. }
  rewrite (getopt_items short_options long_options long_options_names long_options_plain eq_refl).
  - cbn [fst]. rewrite bind_app. f_equal.
    + induction groups as [|[c [e|] [n|]] groups IH]; [done|..]; cbn in IH |- *; by rewrite IH.
    + unfold dns_items. clear dns_items. induction dns as [|n dns IH]; [done|]. cbn in IH |- *. by rewrite IH.
  - apply Forall_app. split.
    + apply Forall_bind, Forall_true. intros [c [e|] [n|]]; repeat (apply Forall_cons; split); try apply Forall_nil; try done;
        cbn [item_ok]; unfold long_options; set_solver.
    + apply Forall_fmap, Forall_true. intros n. cbn. unfold long_options. set_solver.
Qed.

Lemma cmd_events_app evs evs' x :
  cmd_events (evs ++ evs') x = match cmd_events evs x with Ok (Continue y) => cmd_events evs' y | stop => stop end.
Proof.
  revert x. induction evs as [|ev evs IH]; intros x; [done|]. cbn [app cmd_events].
  destruct (cmd_event ev x) as [[y| |]|]; [apply IH|done..].
Qed.

(** A group after which [x'] holds its contact. *)
Lemma group_step g x x' :
  group_ok g -> option_contact (g_contact g) x = go x' -> cl_contact x' = g_contact g ->
  cl_publicAddress x' = "" -> cl_localNet x' = "" ->
  cmd_events (group_events g) x = go (set_contact (g_contact g) (default "" (g_externalIp g)) (default "" (g_localNet g)) x').
Proof.
  intros (Hc & He & Hn) Hx Ec Ep El. unfold group_events. cbn [app cmd_events cmd_event].
  change (case_char "c" (Some (g_contact g)) x) with (option_contact (g_contact g) x). rewrite Hx.
  destruct x' as [s c p l d m u]. cbn in Ec, Ep, El. subst c p l. unfold go.
  assert (forall e net, case_char "x" (Some e) (CmdLine s (g_contact g) "" net d m u) =
    go (CmdLine s (g_contact g) e net d m u)) as Hext.
  { intros e net. change (option_external_ip e (CmdLine s (g_contact g) "" net d m u) = go (CmdLine s (g_contact g) e net d m u)).
    unfold option_external_ip. cbn. by destruct (String.eqb_spec (g_contact g) ""). }
  assert (forall e net, case_char "n" (Some net) (CmdLine s (g_contact g) e "" d m u) =
    go (CmdLine s (g_contact g) e net d m u)) as Hnet.
  { intros e net. change (option_local_net net (CmdLine s (g_contact g) e "" d m u) = go (CmdLine s (g_contact g) e net d m u)).
    unfold option_local_net. cbn. by destruct (String.eqb_spec (g_contact g) ""). }
  destruct (g_externalIp g) as [e|], (g_localNet g) as [net|]; cbn [app cmd_events cmd_event]; rewrite ?Hext; unfold go; rewrite ?Hnet; done.
Qed.

Lemma push_transports_app l1 l2 s :
  on_vecTransports (fun l => l ++ l2) (on_vecTransports (fun l => l ++ l1) s) = on_vecTransports (fun l => l ++ l1 ++ l2) s.
Proof. destruct s. unfold on_vecTransports. cbn. by rewrite app_assoc. Qed.

(** The groups after one that waits for its transport. *)
Lemma groups_events groups g ts t x :
  Forall group_ok (g :: groups) -> Forall2 (fun g t => group_transport g = Ok t) (g :: groups) (ts ++ [t]) ->
  cl_contact x = g_contact g -> cl_publicAddress x = default "" (g_externalIp g) -> cl_localNet x = default "" (g_localNet g) ->
  exists y, cmd_events (groups ≫= group_events) x = go y /\
    y = set_contact (cl_contact y) (cl_publicAddress y) (cl_localNet y) (on_settings (on_vecTransports (fun l => l ++ ts)) x) /\
    cl_contact y ≠ "" /\ SipTransport_new (cl_contact y) (cl_localNet y) (cl_publicAddress y) = Ok t.
Proof.
  revert g ts x. induction groups as [|g2 groups IH]; intros g ts x Hok Hts Ec Ep El.
  - assert (ts = []) as ->.
    { apply Forall2_length in Hts. rewrite length_app in Hts. cbn in Hts. destruct ts; [done|cbn in Hts; lia]. }
    apply Forall2_cons in Hts as [Ht _]. apply Forall_cons in Hok as [[Hc _] _]. exists x.
    split; [done|]. split; [|rewrite Ec, Ep, El; split; [done|exact Ht]].
    destruct x as [[] ? ? ? ? ? ?]. unfold on_settings, on_vecTransports, set_contact. cbn. by rewrite app_nil_r.
  - destruct ts as [|t1 ts].
    { apply Forall2_length in Hts. cbn in Hts. lia. }
    cbn [app] in Hts. apply Forall2_cons in Hts as [Ht1 Hts]. apply Forall_cons in Hok as [[Hc _] Hok].
    pose proof Hok as [Hg2 _]%Forall_cons.
    set (x1 := set_contact (g_contact g2) "" "" (on_settings (on_vecTransports (fun l => l ++ [t1])) x)).
    assert (option_contact (g_contact g2) x = go x1) as Hx1.
    { unfold option_contact. rewrite Ec, Ep, El. destruct (String.eqb_spec (g_contact g) ""); [done|].
      unfold group_transport in Ht1. by rewrite Ht1. }
    cbn [mbind list_bind]. rewrite cmd_events_app, (group_step g2 x x1 Hg2 Hx1 eq_refl eq_refl eq_refl). unfold go at 1.
    destruct (IH g2 ts (set_contact (g_contact g2) (default "" (g_externalIp g2)) (default "" (g_localNet g2)) x1)
      Hok Hts eq_refl eq_refl eq_refl) as (y & Ey & Hy & Hyc & Hyt).
    exists y. split; [exact Ey|]. split; [|done]. rewrite Hy at 1. subst x1. unfold set_contact, on_settings. cbn.
    by rewrite push_transports_app.
Qed.

Lemma dns_events dns x :
  cmd_events ((fun n => EvChar "d" (Some n)) <$> dns) x = go (foldl (fun x n => add_dns n x) x dns).
Proof. revert x. induction dns as [|n dns IH]; intros x; [done|]. cbn [fmap list_fmap cmd_events]. apply IH. Qed.
Lemma dns_fields dns x :
  foldl (fun x n => add_dns n x) x dns =
  CmdLine (cl_settings x) (cl_contact x) (cl_publicAddress x) (cl_localNet x) (cl_vecDnsNames x ++ dns) (cl_httpMethod x) (cl_httpUrl x).
Proof.
  revert x. induction dns as [|n dns IH]; intros x; cbn [foldl]; [destruct x; cbn; by rewrite app_nil_r|].
  rewrite IH. unfold add_dns. cbn. by rewrite <- app_assoc.
Qed.

(** a command line of contacts, each with or without an address to
    advertise and a local network, makes exactly the transports of these
    groups, in their order, after those that are there; the DNS names all go
    to the last one; no other setting changes. *)
Theorem contacts_become_transports (groups : list contact_group) (dns : list string) (ts : list SipTransport) (t : SipTransport)
    (s : settings) :
  Forall group_ok groups -> Forall2 (fun g t => group_transport g = Ok t) groups (ts ++ [t]) ->
  m_strHomerAddress (st_monitor s) = "" -> m_redisAddress (st_redis s) = "" ->
  parseCmdArgs ((groups ≫= group_args) ++ dns_args dns) s =
  Ok (Continue (on_vecTransports (fun l => l ++ ts ++ [foldl (fun t name => addDnsName name t) t dns]) s)).
Proof.
  intros Hok Hts Hhomer Hredis. unfold parseCmdArgs. rewrite contact_args_events, cmd_events_app.
  destruct groups as [|g groups].
  { apply Forall2_length in Hts. rewrite length_app in Hts. cbn in Hts. lia. }
  pose proof Hok as [Hg _]%Forall_cons.
  assert (option_contact (g_contact g) (cmdline_init s) = go (CmdLine s (g_contact g) "" "" [] "GET" "")) as Hx by done.
  cbn [mbind list_bind]. rewrite cmd_events_app, (group_step g _ _ Hg Hx eq_refl eq_refl eq_refl). unfold go at 1.
  edestruct (groups_events groups g ts t (set_contact (g_contact g) (default "" (g_externalIp g)) (default "" (g_localNet g))
    (CmdLine s (g_contact g) "" "" [] "GET" "")) Hok Hts eq_refl eq_refl eq_refl) as (y & Ey & Hy & Hyc & Hyt).
  rewrite Ey. unfold go at 1. rewrite dns_events, dns_fields. unfold go.
  destruct y as [ys yc yp yl yd ym yu]. unfold set_contact, on_settings in Hy. cbn in Hy, Hyc, Hyt. injection Hy as -> -> -> ->.
  unfold finish. cbn. rewrite Hhomer. cbn. unfold finish_contact. cbn [cl_contact cl_localNet cl_publicAddress cl_vecDnsNames].
  destruct (String.eqb_spec yc ""); [done|]. rewrite Hyt.
  unfold finish_redis, on_vecTransports. cbn. rewrite Hredis. cbn. unfold finish_http. cbn. by rewrite <- app_assoc.
Qed.
End contacts.
