(* ===== verification/SettingsCorrect.v ===== *)
(** The settings the server starts with: where every text setting comes from,
    the ranges of the numbers, and the transports made of the contacts of the
    command line. *)
From S2P Require Import Prelude CppString TextUtil Regex SipUri SipTransports RequestRouter Settings CommandLine.

Open Scope string_scope.
Open Scope list_scope.

Section settings.
Context `{Floats} `{BoostLaws} `{Inet}.

(** ** Shapes of the steps *)

Lemma by_char_elem {A} c (l : list (ascii * A)) a : by_char c l = Some a -> (c, a) ∈ l.
Proof.
  unfold by_char. intros (p & Hh & ->)%fmap_Some.
  assert (p ∈ filter (fun o => o.1 = c) l) as [Hc Hin]%list_elem_of_filter.
  { destruct (filter _ l); [done|]. cbn in Hh. injection Hh as ->. left. }
  cbn in Hc. subst c. by destruct p.
Qed.
(** What one option does to the settings when the loop goes on. *)
Inductive changes (x : cmdline) : getopt_event -> settings -> Prop :=
  | changes_same ev : (forall c v, ev = EvChar c (Some v) -> by_char c text_options = None) -> changes x ev (cl_settings x)
  | changes_flag f : changes x (EvFlag f) (set_flag f (cl_settings x))
  | changes_ciphers name v : changes x (EvZero name (Some v)) (set_tlsCipherList v (cl_settings x))
  | changes_text c v set : (c, set) ∈ text_options -> changes x (EvChar c (Some v)) (set v (cl_settings x))
  | changes_number c v set : by_char c text_options = None -> (c, set) ∈ number_options ->
      changes x (EvChar c (Some v)) (set (to_unsigned_int (c_int v)) (cl_settings x))
  | changes_switch c v set : by_char c text_options = None -> (c, set) ∈ switch_options ->
      changes x (EvChar c v) (set (cl_settings x))
  | changes_loglevel c v l : by_char c text_options = None ->
      changes x (EvChar c (Some v)) (set_current_severity_threshold l (cl_settings x))
  | changes_sofia c v : by_char c text_options = None -> (0 <= c_int v <= 9)%Z ->
      changes x (EvChar c (Some v)) (set_nSofiaLoglevel (c_int v) (cl_settings x))
  | changes_contact c v t : by_char c text_options = None ->
      changes x (EvChar c (Some v)) (on_vecTransports (fun l => l ++ [t]) (cl_settings x))
  | changes_homer c v address port : by_char c text_options = None -> (0 <= port < 2 ^ 32)%Z ->
      changes x (EvChar c (Some v)) (set_nHomerPort port (set_strHomerAddress address (cl_settings x)))
  | changes_homer_id c v id : by_char c text_options = None -> (0 < id < 2 ^ 32)%Z ->
      changes x (EvChar c (Some v)) (set_nHomerId id (cl_settings x))
  | changes_prometheus c v s : by_char c text_options = None -> prometheus_scrape_port v (cl_settings x) = Ok s ->
      changes x (EvChar c (Some v)) s
  | changes_tls c v f : by_char c text_options = None ->
      changes x (EvChar c (Some v)) (set_minTlsVersion f (cl_settings x)).

Lemma lexical_unsigned_range v n : lexical_unsigned v = Ok n -> (0 <= n < 2 ^ 32)%Z.
Proof.
  unfold lexical_unsigned. destruct (lexical_cast_unsigned v) as [m|] eqn:E; [|done]. intros [= <-].
  apply lexical_cast_unsigned_range in E. lia.
Qed.

Lemma special_changes c (v : string) option x x' :
  by_char c text_options = None -> (c, option) ∈ special_options -> option v x = Ok (Continue x') ->
  changes x (EvChar c (Some v)) (cl_settings x').
Proof.
  intros Ht Hin.
  assert (changes x (EvChar c (Some v)) (cl_settings x)) as Hsame
    by (apply changes_same; intros ? ? [= <- <-]; done).
  unfold special_options in Hin.
  repeat (apply elem_of_cons in Hin as [[= -> ->]|Hin]); [..|by apply elem_of_nil in Hin].
  - by intros [= <-].
  - by intros [= <-].
  - unfold option_loglevel. destruct (severity_of v) as [l|]; [intros [= <-]|done]. by constructor.
  - unfold option_http_method. by destruct (iequals v "POST"); intros [= <-].
  - unfold option_sofia_loglevel. destruct (_ || _) eqn:E; [done|]. apply orb_false_iff in E as [?%Z.ltb_ge ?%Z.ltb_ge]. intros [= <-]. by apply changes_sofia.
  - unfold option_contact. destruct (String.eqb _ _); [by intros [= <-]|].
    destruct (SipTransport_new _ _ _); [|done]. intros [= <-]. by apply changes_contact.
  - unfold option_external_ip. destruct (String.eqb _ _); [done|]. destruct (negb _); [done|]. by intros [= <-].
  - unfold option_local_net. destruct (String.eqb _ _); [done|]. destruct (negb _); [done|]. by intros [= <-].
  - unfold option_homer. destruct (split ":" v) as [|a [|p [|]]]; try done.
    + intros [= <-]. by apply changes_homer.
    + destruct (lexical_unsigned p) as [n|] eqn:E; [|done]. intros [= <-].
      apply changes_homer; [done|]. by apply lexical_unsigned_range in E.
  - unfold option_homer_id. destruct (lexical_cast_unsigned v) as [n|] eqn:E; [|done].
    destruct (N.eqb_spec n 0); [done|]. intros [= <-]. apply changes_homer_id; [done|].
    apply lexical_cast_unsigned_range in E. lia.
  - unfold option_prometheus. destruct (prometheus_scrape_port v (cl_settings x)) as [s|] eqn:E; [|done].
    intros [= <-]. by apply changes_prometheus.
  - intros [= <-]. by apply changes_tls.
Qed.

Lemma cmd_event_changes ev x x' : cmd_event ev x = Ok (Continue x') -> changes x ev (cl_settings x').
Proof.
  destruct ev as [f|name o|c o|]; cbn [cmd_event].
  - intros [= <-]. apply changes_flag.
  - destruct (String.eqb name _); [|intros [= <-]; by apply changes_same].
    destruct o as [v|]; [|done]. intros [= <-]. apply changes_ciphers.
  - unfold case_char. destruct (by_char c text_options) as [set|] eqn:Et.
    { destruct o as [v|]; [|done]. intros [= <-]. apply changes_text. by apply by_char_elem. }
    destruct (by_char c number_options) as [set|] eqn:En.
    { destruct o as [v|]; [|done]. intros [= <-]. apply changes_number; [done|]. by apply by_char_elem. }
    destruct (by_char c switch_options) as [set|] eqn:Es.
    { intros [= <-]. apply changes_switch; [done|]. by apply by_char_elem. }
    destruct (by_char c special_options) as [set|] eqn:Ex; [|by destruct (_ || _)].
    destruct o as [v|]; [|done]. intros Hv. eapply special_changes; [done| |exact Hv]. by apply by_char_elem.
  - intros [= <-]. by apply changes_same.
Qed.

(** A property of the settings that every step keeps holds at the end. *)
Lemma cmd_events_keep (P : settings -> Prop) evs x x' :
  (forall ev x s, changes x ev s -> P (cl_settings x) -> P s) ->
  cmd_events evs x = Ok (Continue x') -> P (cl_settings x) -> P (cl_settings x').
Proof.
  intros Hkeep. revert x. induction evs as [|ev evs IH]; intros x; cbn [cmd_events]; [by intros [= <-]|].
  destruct (cmd_event ev x) as [[y| |]|] eqn:E; try done. intros Hev HP.
  apply (IH y Hev). apply cmd_event_changes in E. eauto.
Qed.
Lemma apply_env_keep (P : settings -> Prop) env rules s s' :
  Forall (fun r : string * (string -> _) => forall p s s', r.2 p s = Ok s' -> P s -> P s') rules ->
  apply_env env rules s = Ok s' -> P s -> P s'.
Proof.
  intros Hall. revert s. induction Hall as [|[name rule] rules Hr Hall IH]; intros s; cbn [apply_env]; [by intros [= <-]|].
  destruct (env name) as [p|]; [|exact (IH s)]. destruct (rule p s) as [s1|] eqn:E; [|done]. intros Hs HP.
  apply (IH s1 Hs). by eapply Hr.
Qed.

(** ** Ranges *)

Definition u32 (z : Z) : Prop := (0 <= z < 2 ^ 32)%Z.
Definition settings_ok (s : settings) : Prop :=
  u32 (m_adminTcpPort (st_admin s)) /\ u32 (m_adminTlsPort (st_admin s)) /\
  u32 (m_nHomerPort (st_monitor s)) /\ u32 (m_nHomerId (st_monitor s)) /\ u32 (m_nPrometheusPort (st_monitor s)) /\
  from_option u32 True (m_redisPort (st_redis s)) /\ from_option u32 True (m_redisRefreshSecs (st_redis s)) /\
  u32 (m_mtu (st_sip s)) /\ u32 (m_tcpKeepaliveSecs (st_sip s)) /\
  (1 <= m_tportQueuesize (st_sip s) <= 1000)%Z /\
  (m_tportMaxConsecutiveTimeouts (st_sip s) = 0 \/ 2 <= m_tportMaxConsecutiveTimeouts (st_sip s) <= 1000)%Z /\
  (-1 <= m_nSofiaLoglevel (st_log s) <= 9)%Z.

Lemma to_unsigned_u32 z : u32 (to_unsigned_int z).
Proof. apply Z.mod_pos_bound. lia. Qed.
Lemma positive_u32 v : (0 < c_int v)%Z -> u32 (c_int v).
Proof. unfold c_int, u32. pose proof (Z.mod_pos_bound (c_atoi v + 2 ^ 31) (2 ^ 32)). lia. Qed.

(** Splits [settings_ok] into the members and closes those that did not change. *)
Ltac ok_members :=
  lazymatch goal with
  | |- settings_ok _ -> _ => intros (? & ? & ? & ? & ? & ? & ? & ? & ? & ? & ? & ?); refine (conj _ (conj _ (conj _ (conj _ (conj _ (conj _ (conj _ (conj _ (conj _ (conj _ (conj _ _))))))))))); try done
  end.

Lemma settings_ok_text c v set s : (c, set) ∈ text_options -> settings_ok s -> settings_ok (set v s).
Proof.
  unfold text_options. intros Hin Hok.
  repeat (apply elem_of_cons in Hin as [[= -> ->]|Hin]; [exact Hok|]). by apply elem_of_nil in Hin.
Qed.
Lemma settings_ok_switch c set s : (c, set) ∈ switch_options -> settings_ok s -> settings_ok (set s).
Proof.
  unfold switch_options. intros Hin Hok.
  repeat (apply elem_of_cons in Hin as [[= -> ->]|Hin]; [exact Hok|]). by apply elem_of_nil in Hin.
Qed.
Lemma settings_ok_number c z set s : (c, set) ∈ number_options -> u32 z -> settings_ok s -> settings_ok (set z s).
Proof.
  unfold number_options. intros Hin Hz.
  repeat (apply elem_of_cons in Hin as [[= -> ->]|Hin]; [ok_members|]). by apply elem_of_nil in Hin.
Qed.
Lemma settings_ok_prometheus v s s' : prometheus_scrape_port v s = Ok s' -> settings_ok s -> settings_ok s'.
Proof.
  unfold prometheus_scrape_port.
  assert (forall f, match lexical_unsigned v with Ok n => Ok (set_nPrometheusPort n (f s)) | Fault f => Fault f end = Ok s' ->
    (settings_ok s -> settings_ok (f s)) -> settings_ok s -> settings_ok s') as Hport.
  { intros f. destruct (lexical_unsigned v) as [n|] eqn:E; [|done]. apply lexical_unsigned_range in E.
    intros [= <-] Hf Hok. generalize (Hf Hok). clear Hf Hok. ok_members. }
  destruct (split ":" v) as [|host [|port [|]]]; try (intros E; by apply (Hport id E)).
  destruct (lexical_unsigned port) as [n|] eqn:E; [|done]. apply lexical_unsigned_range in E.
  intros [= <-]. ok_members.
Qed.

Lemma changes_ok ev x s : changes x ev s -> settings_ok (cl_settings x) -> settings_ok s.
Proof.
  destruct 1; try done.
  - by destruct f.
  - by eapply settings_ok_text.
  - eapply settings_ok_number; [done|]. apply to_unsigned_u32.
  - by eapply settings_ok_switch.
  - ok_members; cbn; lia.
  - ok_members.
  - ok_members. unfold u32 in *; cbn; lia.
  - by eapply settings_ok_prometheus.
Qed.

Lemma env_rule_ok : Forall (fun r : string * (string -> _) => forall p s s', r.2 p s = Ok s' -> settings_ok s -> settings_ok s') env_rules.
Proof.
  unfold env_rules. repeat (apply Forall_cons; split); [..|by apply Forall_nil]; intros p s s'; cbn [snd].
  all: try (intros [= <-] Hok; exact Hok).
  all: try (unfold env_positive; destruct (Z.ltb_spec 0 (c_int p)); intros [= <-]; [ok_members; by apply positive_u32|done]).
  all: try (unfold env_switch; destruct (Z.eqb_spec (c_int p) 1); intros [= <-] Hok; exact Hok).
  all: try (unfold env_number; destruct (lexical_unsigned p) as [n|] eqn:E; [|done]; apply lexical_unsigned_range in E; intros [= <-]; ok_members).
  - unfold env_loglevel. destruct (severity_of p); intros [= <-] Hok; exact Hok.
  - unfold env_sofia_loglevel. destruct (_ && _) eqn:E; intros [= <-]; [|done].
    apply andb_true_iff in E as [?%Z.ltb_lt ?%Z.leb_le]. ok_members; cbn; lia.
  - unfold env_keepalive. destruct (Z.leb_spec 0 (c_int p)); intros [= <-]; [|done]. ok_members.
    cbn. unfold c_int, u32 in *. pose proof (Z.mod_pos_bound (c_atoi p + 2 ^ 31) (2 ^ 32)). lia.
  - unfold env_queuesize. destruct (Z.ltb_spec 0 (c_int p)); intros [= <-]; [|done]. ok_members.
    all: cbn; destruct (Z.ltb_spec 1000 (c_int p)); lia.
  - unfold env_max_timeouts. destruct (Z.ltb_spec 0 (c_int p)); intros [= <-]; [|done]. ok_members.
    cbn. right. destruct (Z.ltb_spec (c_int p) 2); cbn; [lia|]. destruct (Z.ltb_spec 1000 (c_int p)); lia.
  - apply settings_ok_prometheus.
  - unfold env_min_tls_version. destruct (_ && _); intros [= <-] Hok; exact Hok.
Qed.

Lemma getEnv_ok env s : getEnv env initial_settings = Ok s -> settings_ok s.
Proof.
  unfold getEnv. intros Henv. eapply (apply_env_keep settings_ok); [exact env_rule_ok|exact Henv|].
  unfold settings_ok, u32. split_and!; first [done | by left].
Qed.
Lemma finish_settings x s : finish x = Ok (Continue s) ->
  (m_strHomerAddress (st_monitor (cl_settings x)) = "" \/ m_nHomerId (st_monitor (cl_settings x)) ≠ 0%Z) /\
  exists s1 s2, finish_contact x (cl_settings x) = Ok s1 /\ finish_redis s1 = Ok s2 /\ s = finish_http x s2.
Proof.
  unfold finish. destruct (_ && _) eqn:Eh; [done|].
  destruct (finish_contact x (cl_settings x)) as [s1|] eqn:E1; [|done].
  destruct (finish_redis s1) as [s2|] eqn:E2; [|done]. intros [= <-]. split; [|by eauto].
  destruct (String.eqb_spec (m_strHomerAddress (st_monitor (cl_settings x))) ""); [by left|].
  destruct (Z.eqb_spec (m_nHomerId (st_monitor (cl_settings x))) 0); [done|by right].
Qed.
(** What is done after the loop concerns the transports, the redis server and
    the routes only. *)
Lemma finish_contact_same x s s1 : finish_contact x s = Ok s1 -> exists u, s1 = on_vecTransports u s.
Proof.
  unfold finish_contact. destruct (String.eqb _ _); [intros [= <-]; exists id; by destruct s|].
  destruct (SipTransport_new _ _ _); [|done]. intros [= <-]. by eexists.
Qed.
Lemma finish_redis_same s s2 : finish_redis s = Ok s2 ->
  s2 = s \/ exists port secs n1 n2,
    m_redisPort (st_redis s) = Some n1 /\ m_redisRefreshSecs (st_redis s) = Some n2 /\
    port = (if (n1 =? 0)%Z then 6379 else n1)%Z /\ secs = (if (n2 =? 0)%Z then 300 else n2)%Z /\
    s2 = set_redisRefreshSecs (Some secs) (set_redisPort (Some port) s).
Proof.
  unfold finish_redis, or_default. destruct (String.eqb _ _); [intros [= <-]; by left|].
  destruct (m_redisPort (st_redis s)) as [n1|] eqn:E1; [|done].
  destruct (m_redisRefreshSecs (st_redis s)) as [n2|] eqn:E2; [|done].
  intros [= <-]. right. by do 4 eexists.
Qed.
Lemma finish_http_same x s : exists u, finish_http x s = on_requestRouter u s.
Proof. unfold finish_http. destruct (String.eqb _ _); [exists id; by destruct s|by eexists]. Qed.

Lemma finish_ok x s : finish x = Ok (Continue s) -> settings_ok (cl_settings x) -> settings_ok s.
Proof.
  intros (_ & s1 & s2 & E1 & E2 & ->)%finish_settings Hok.
  apply finish_contact_same in E1 as [u ->]. destruct (finish_http_same x s2) as [u2 ->].
  assert (settings_ok (on_vecTransports u (cl_settings x))) as Hok1 by exact Hok. revert Hok1. clear Hok.
  apply finish_redis_same in E2 as [->|(port & secs & n1 & n2 & E1 & E3 & -> & -> & ->)]; [done|].
  ok_members; rewrite ?E1, ?E3 in *; cbn in *; unfold u32 in *; destruct (Z.eqb_spec n1 0), (Z.eqb_spec n2 0); lia.
Qed.

(** The constructor in two parts. *)
Lemma init_inv env args s : DrachtioController_init env args = Ok (Continue s) ->
  exists s0 x, getEnv env initial_settings = Ok s0 /\
    cmd_events (getopt_long short_options long_options args).1 (cmdline_init s0) = Ok (Continue x) /\ finish x = Ok (Continue s).
Proof.
  unfold DrachtioController_init, parseCmdArgs. destruct (getEnv env initial_settings) as [s0|] eqn:E0; [|done].
  destruct (cmd_events _ _) as [[x| |]|] eqn:E; try done. intros Hf. exists s0, x. split; [done|]. split; [done|].
  by destruct (finish x) as [[]|].
Qed.

(** C28: whatever the environment and the command line are, when the server
    goes on then every number among its settings is one of its type and range:
    ports, ids, sizes and intervals are 32-bit unsigned numbers, the send queue
    of a connection has between 1 and 1000 places, timeouts of a connection are
    not counted or are tolerated between 2 and 1000 times, the log level of the
    SIP library is unset or between 0 and 9; and a Homer server comes with an
    id other than 0. *)
Theorem settings_in_range (env : string -> option string) (args : list string) (s : settings) :
  DrachtioController_init env args = Ok (Continue s) ->
  settings_ok s /\ (m_strHomerAddress (st_monitor s) = "" \/ (0 < m_nHomerId (st_monitor s) < 2 ^ 32)%Z).
Proof.
  intros (s0 & x & E0 & Ex & Ef)%init_inv.
  assert (settings_ok (cl_settings x)) as Hok.
  { eapply (cmd_events_keep settings_ok _ _ _ changes_ok Ex). by eapply getEnv_ok. }
  pose proof (finish_ok _ _ Ef Hok) as Hoks. split; [done|].
  apply finish_settings in Ef as (Hid & s1 & s2 & E1 & E2 & ->).
  apply finish_contact_same in E1 as [u ->]. destruct (finish_http_same x s2) as [u2 ->].
  assert (st_monitor (on_requestRouter u2 s2) = st_monitor (cl_settings x)) as Em
    by (apply finish_redis_same in E2 as [->|(? & ? & ? & ? & _ & _ & _ & _ & ->)]; done).
  rewrite Em. destruct Hid as [->|Hid]; [by left|right]. destruct Hok as (_ & _ & _ & Hi & _). unfold u32 in Hi. lia.
Qed.

(** ** Where a text setting comes from *)

(** The value a step gives to the setting of the option [c]. *)
Definition value_for (c : ascii) (ev : getopt_event) : option string :=
  match ev with EvChar c' (Some v) => if decide (c' = c) then Some v else None | _ => None end.
Definition last_value (c : ascii) (evs : list getopt_event) : option string := last (omap (value_for c) evs).

Lemma value_for_other c c' (v : option string) set :
  by_char c text_options = Some set -> by_char c' text_options = None -> value_for c (EvChar c' v) = None.
Proof. intros Hc Hc'. cbn. destruct v; [|done]. destruct (decide (c' = c)); [congruence|done]. Qed.

(** A member that the steps change as the option [c] says: other members do
    not change it. *)
Class TextMember (c : ascii) (get : settings -> string) := {
  tm_set : string -> settings -> settings;
  tm_text : by_char c text_options = Some tm_set;
  tm_get c' set v s : (c', set) ∈ text_options -> get (set v s) = default (get s) (value_for c (EvChar c' (Some v)));
  tm_number c' set v s : (c', set) ∈ number_options -> get (set v s) = get s;
  tm_switch c' set s : (c', set) ∈ switch_options -> get (set s) = get s;
  tm_flag f s : get (set_flag f s) = get s;
  tm_other s : (forall v, get (set_tlsCipherList v s) = get s) /\ (forall l, get (set_current_severity_threshold l s) = get s) /\
    (forall n, get (set_nSofiaLoglevel n s) = get s) /\ (forall u, get (on_vecTransports u s) = get s) /\
    (forall u, get (on_requestRouter u s) = get s) /\ (forall u, get (on_monitor u s) = get s) /\
    (forall f, get (set_minTlsVersion f s) = get s) /\
    (forall p, get (set_redisPort p s) = get s) /\ (forall p, get (set_redisRefreshSecs p s) = get s);
}.

Ltac text_member set :=
  refine {| tm_set := set |};
  [ reflexivity
  | intros c' st v s Hin; unfold text_options in Hin;
    repeat (apply elem_of_cons in Hin as [[= -> ->]|Hin]; [reflexivity|]); by apply elem_of_nil in Hin
  | intros c' st v s Hin; unfold number_options in Hin;
    repeat (apply elem_of_cons in Hin as [[= -> ->]|Hin]; [reflexivity|]); by apply elem_of_nil in Hin
  | intros c' st s Hin; unfold switch_options in Hin;
    repeat (apply elem_of_cons in Hin as [[= -> ->]|Hin]; [reflexivity|]); by apply elem_of_nil in Hin
  | by intros []
  | intros s; repeat split ].
#[local] Instance tlsKeyFile_member : TextMember "A" (fun s => m_tlsKeyFile (st_tls s)).
Proof. text_member set_tlsKeyFile. Defined.
#[local] Instance tlsCertFile_member : TextMember "B" (fun s => m_tlsCertFile (st_tls s)).
Proof. text_member set_tlsCertFile. Defined.
#[local] Instance tlsChainFile_member : TextMember "C" (fun s => m_tlsChainFile (st_tls s)).
Proof. text_member set_tlsChainFile. Defined.
#[local] Instance adminAddress_member : TextMember "E" (fun s => m_adminAddress (st_admin s)).
Proof. text_member set_adminAddress. Defined.
#[local] Instance secret_member : TextMember "F" (fun s => m_secret (st_admin s)).
Proof. text_member set_secret. Defined.
#[local] Instance dhParam_member : TextMember "G" (fun s => m_dhParam (st_tls s)).
Proof. text_member set_dhParam. Defined.
#[local] Instance configFilename_member : TextMember "f" (fun s => m_configFilename (st_process s)).
Proof. text_member set_configFilename. Defined.
#[local] Instance redisAddress_member : TextMember "O" (fun s => m_redisAddress (st_redis s)).
Proof. text_member set_redisAddress. Defined.
#[local] Instance redisKey_member : TextMember "Q" (fun s => m_redisKey (st_redis s)).
Proof. text_member set_redisKey. Defined.
#[local] Instance redisSentinels_member : TextMember "V" (fun s => m_redisSentinels (st_redis s)).
Proof. text_member set_redisSentinels. Defined.
#[local] Instance redisMaster_member : TextMember "W" (fun s => m_redisMaster (st_redis s)).
Proof. text_member set_redisMaster. Defined.
#[local] Instance redisPassword_member : TextMember "X" (fun s => m_redisPassword (st_redis s)).
Proof. text_member set_redisPassword. Defined.

Lemma prometheus_member v s s' : prometheus_scrape_port v s = Ok s' -> exists u, s' = on_monitor u s.
Proof.
  unfold prometheus_scrape_port. destruct (split ":" v) as [|host [|port [|]]];
    try (destruct (lexical_unsigned v); [intros [= <-]; by eexists|done]).
  destruct (lexical_unsigned port) as [n|]; [|done]. intros [= <-].
  exists (fun m => MonitorSettings (m_strHomerAddress m) (m_nHomerPort m) (m_nHomerId m) host n). done.
Qed.

Definition rule_for (name : string) (get : settings -> string) (set : string -> settings -> settings)
  (r : string * (string -> settings -> res settings)) : Prop :=
  if decide (r.1 = name) then r.2 = env_text set else forall p s s', r.2 p s = Ok s' -> get s' = get s.
Section member.
Context (c : ascii) (get : settings -> string) `{!TextMember c get}.

Lemma member_step x ev s : changes x ev s -> get s = default (get (cl_settings x)) (value_for c ev).
Proof.
  destruct 1 as [ev Hev| | | | | | | | |c' v address port Hc| |c' v s Hc Hp|];
    try (rewrite (value_for_other c _ _ tm_set tm_text) by done); cbn [default from_option].
  - destruct ev as [| |c' [v|]|]; try done. cbn. destruct (decide (c' = c)) as [->|]; [|done].
    specialize (Hev c v eq_refl). by rewrite tm_text in Hev.
  - cbn. apply tm_flag.
  - cbn. apply tm_other.
  - by apply tm_get.
  - by eapply tm_number.
  - by eapply tm_switch.
  - apply tm_other.
  - apply tm_other.
  - apply tm_other.
  - destruct (tm_other (cl_settings x)) as (_ & _ & _ & _ & _ & Hm & _).
    apply (Hm (fun m => MonitorSettings address port (m_nHomerId m) (m_strPrometheusAddress m) (m_nPrometheusPort m))).
  - apply tm_other.
  - apply prometheus_member in Hp as [u ->]. apply tm_other.
  - apply tm_other.
Qed.
Lemma member_events evs x x' : cmd_events evs x = Ok (Continue x') ->
  get (cl_settings x') = default (get (cl_settings x)) (last_value c evs).
Proof.
  revert x. induction evs as [|ev evs IH]; intros x; cbn [cmd_events]; [by intros [= <-]|].
  destruct (cmd_event ev x) as [[y| |]|] eqn:E; try done. intros Hev. rewrite (IH y Hev).
  apply cmd_event_changes, member_step in E. rewrite E. unfold last_value. cbn [omap list_omap].
  destruct (value_for c ev) as [v|]; [|done]. cbn [default].
  destruct (omap (value_for c) evs) as [|w l] eqn:El; [done|]. rewrite last_cons_cons.
  by destruct (last (w :: l)) eqn:El2; [|apply last_None in El2].
Qed.
Lemma member_finish x s : finish x = Ok (Continue s) -> get s = get (cl_settings x).
Proof.
  intros (_ & s1 & s2 & E1 & E2 & ->)%finish_settings. apply finish_contact_same in E1 as [u ->].
  destruct (finish_http_same x s2) as [u2 ->]. destruct (tm_other s2) as (_ & _ & _ & _ & -> & _).
  pose proof (tm_other (cl_settings x)) as (_ & _ & _ & Ht & _).
  apply finish_redis_same in E2 as [->|(port & secs & _ & _ & _ & _ & _ & _ & ->)]; [apply Ht|].
  pose proof (tm_other (set_redisPort (Some port) (on_vecTransports u (cl_settings x)))) as (_ & _ & _ & _ & _ & _ & _ & _ & ->).
  pose proof (tm_other (on_vecTransports u (cl_settings x))) as (_ & _ & _ & _ & _ & _ & _ & -> & _). apply Ht.
Qed.

(** The environment: the rule of the variable [name] keeps its text, the
    others leave the member as it is. *)
Lemma member_env env name rules s s' :
  Forall (rule_for name get tm_set) rules ->
  apply_env env rules s = Ok s' ->
  get s' = match env name with Some p => if decide (name ∈ rules.*1) then p else get s | None => get s end.
Proof.
  intros Hall. revert s. induction Hall as [|[n rule] rules Hr Hall IH]; intros s; cbn [apply_env].
  { intros [= <-]. cbn. destruct (env name); [|done]. by rewrite decide_False by (by intros ?%elem_of_nil). }
  cbn [fmap list_fmap fst]. unfold rule_for in Hr. cbn [fst snd] in Hr. destruct (decide (n = name)) as [->|Hne].
  - subst rule. destruct (env name) as [p|] eqn:Ep; [|by apply IH].
    unfold env_text at 1. intros Hs. rewrite (IH _ Hs).
    rewrite (decide_True (P := name ∈ name :: _)) by left.
    destruct (decide (name ∈ rules.*1)); [done|].
    rewrite (tm_get c tm_set p s) by (apply by_char_elem, tm_text). cbn. by rewrite decide_True.
  - assert (forall A (a b : A), (if decide (name ∈ n :: rules.*1) then a else b) = if decide (name ∈ rules.*1) then a else b) as Hif.
    { intros A a b. destruct (decide (name ∈ n :: rules.*1)) as [Hd|Hd], (decide (name ∈ rules.*1)); rewrite elem_of_cons in Hd; naive_solver. }
    destruct (env n) as [p|]; [|intros Hs; rewrite (IH _ Hs); by destruct (env name); rewrite ?Hif].
    destruct (rule p s) as [s1|] eqn:E1; [|done]. intros Hs. rewrite (IH _ Hs), (Hr _ _ _ E1).
    by destruct (env name); rewrite ?Hif.
Qed.
End member.

Lemma getEnv_rules env s : getEnv env s = apply_env env env_rules s.
Proof. unfold getEnv. reflexivity. Qed.
Lemma member_getEnv c get `{!TextMember c get} (env : string -> option string) name s0 :
  Forall (rule_for name get tm_set) env_rules -> name ∈ env_rules.*1 ->
  getEnv env initial_settings = Ok s0 -> get s0 = default (get initial_settings) (env name).
Proof.
  intros Hr Hn. rewrite getEnv_rules. intros E0. rewrite (member_env c get env name _ _ _ Hr E0).
  destruct (env name); [by rewrite decide_True|done].
Qed.
Lemma member_init c get `{!TextMember c get} (env : string -> option string) args s :
  DrachtioController_init env args = Ok (Continue s) -> exists s0, getEnv env initial_settings = Ok s0 /\
  get s = default (get s0) (last_value c (getopt_long short_options long_options args).1).
Proof.
  intros (s0 & x & E0 & Ex & Ef)%init_inv. exists s0. split; [done|].
  by rewrite (member_finish c get x s Ef), (member_events c get _ _ _ Ex).
Qed.
Lemma member_setting c get `{!TextMember c get} (env : string -> option string) args s name d :
  Forall (rule_for name get tm_set) env_rules -> name ∈ env_rules.*1 -> get initial_settings = d ->
  DrachtioController_init env args = Ok (Continue s) ->
  get s = default (default d (env name)) (last_value c (getopt_long short_options long_options args).1).
Proof.
  intros Hr Hn <- (s0 & E0 & Es)%(member_init c get). by rewrite Es, (member_getEnv c get env name s0 Hr Hn E0).
Qed.

Ltac rule_member :=
  lazymatch goal with
  | |- forall p s s', env_text _ p s = Ok s' -> _ => by intros ? ? ? [= <-]
  | |- forall p s s', env_positive _ p s = Ok s' -> _ =>
      let p := fresh in intros p ? ?; unfold env_positive; destruct (Z.ltb 0 (c_int p)); by intros [= <-]
  | |- forall p s s', env_switch _ p s = Ok s' -> _ =>
      let p := fresh in intros p ? ?; unfold env_switch; destruct (Z.eqb (c_int p) 1); by intros [= <-]
  | |- forall p s s', env_number _ p s = Ok s' -> _ =>
      let p := fresh in intros p ? ?; unfold env_number; destruct (lexical_unsigned p); by intros [= <-]
  | |- forall p s s', prometheus_scrape_port p s = Ok s' -> _ => by intros ? ? ? [u ->]%prometheus_member
  | |- forall p s s', env_loglevel p s = Ok s' -> _ =>
      let p := fresh in intros p ? ?; unfold env_loglevel; destruct (severity_of p); by intros [= <-]
  | |- forall p s s', env_sofia_loglevel p s = Ok s' -> _ => intros ? ? ?; unfold env_sofia_loglevel; destruct (_ && _); by intros [= <-]
  | |- forall p s s', env_keepalive p s = Ok s' -> _ => intros ? ? ?; unfold env_keepalive; destruct (Z.leb _ _); by intros [= <-]
  | |- forall p s s', env_queuesize p s = Ok s' -> _ =>
      let p := fresh in intros p ? ?; unfold env_queuesize; destruct (Z.ltb 0 (c_int p)); by intros [= <-]
  | |- forall p s s', env_max_timeouts p s = Ok s' -> _ =>
      let p := fresh in intros p ? ?; unfold env_max_timeouts; destruct (Z.ltb 0 (c_int p)); by intros [= <-]
  | |- forall p s s', env_min_tls_version p s = Ok s' -> _ => intros ? ? ?; unfold env_min_tls_version; destruct (_ && _); by intros [= <-]
  | |- forall p s s', _ p s = Ok s' -> _ => by intros ? ? ? [= <-]
  | |- _ = env_text _ => reflexivity
  end.
Ltac rules_member :=
  unfold env_rules; repeat (apply Forall_cons; split; [unfold rule_for; cbn [fst snd]; case_decide; [try done; reflexivity|try congruence; rule_member]|]);
  by apply Forall_nil.

(** A text setting: its option, its variable, the member, the default. *)
Record text_setting := TextSetting { ts_option : ascii; ts_env : string; ts_get : settings -> string; ts_default : string }.
Definition text_settings : list text_setting :=
  [TextSetting "A" "DRACHTIO_TLS_KEY_FILE" (fun s => m_tlsKeyFile (st_tls s)) "";
   TextSetting "B" "DRACHTIO_TLS_CERT_FILE" (fun s => m_tlsCertFile (st_tls s)) "";
   TextSetting "C" "DRACHTIO_TLS_CHAIN_FILE" (fun s => m_tlsChainFile (st_tls s)) "";
   TextSetting "E" "DRACHTIO_ADMIN_ADDRESS" (fun s => m_adminAddress (st_admin s)) "";
   TextSetting "F" "DRACHTIO_SECRET" (fun s => m_secret (st_admin s)) "";
   TextSetting "G" "DRACHTIO_TLS_DH_PARAM_FILE" (fun s => m_dhParam (st_tls s)) "";
   TextSetting "f" "DRACHTIO_CONFIG_FILE_PATH" (fun s => m_configFilename (st_process s)) DEFAULT_CONFIG_FILENAME;
   TextSetting "O" "DRACHTIO_BLACKLIST_REDIS_ADDRESS" (fun s => m_redisAddress (st_redis s)) "";
   TextSetting "Q" "DRACHTIO_BLACKLIST_REDIS_KEY" (fun s => m_redisKey (st_redis s)) "";
   TextSetting "V" "DRACHTIO_BLACKLIST_REDIS_SENTINELS" (fun s => m_redisSentinels (st_redis s)) "";
   TextSetting "W" "DRACHTIO_BLACKLIST_REDIS_MASTER" (fun s => m_redisMaster (st_redis s)) "";
   TextSetting "X" "DRACHTIO_BLACKLIST_REDIS_PASSWORD" (fun s => m_redisPassword (st_redis s)) ""].

Ltac text_setting_row Hs :=
  lazymatch goal with
  | |- ts_get ?row _ = _ =>
    let c := eval cbn in (ts_option row) in
    let get := eval cbn in (ts_get row) in
    let d := eval cbn in (ts_default row) in
    apply (member_setting c get _ _ _ _ d); [rules_member|apply (bool_decide_unpack _); vm_compute; done|reflexivity|exact Hs]
  end.

Lemma text_setting_value (env : string -> option string) (args : list string) (s : settings) (ts : text_setting) :
  DrachtioController_init env args = Ok (Continue s) -> ts ∈ text_settings ->
  ts_get ts s = default (default (ts_default ts) (env (ts_env ts)))
                  (last_value (ts_option ts) (getopt_long short_options long_options args).1).
Proof.
  intros Hs Hin. unfold text_settings in Hin.
  repeat (apply elem_of_cons in Hin as [->|Hin];
    [text_setting_row Hs|]).
  by apply elem_of_nil in Hin.
Qed.

(** the command line overrides the environment and the environment the
    defaults: when the server goes on, the secret, the address for
    applications, the TLS files, the name of the configuration file and the
    texts of the redis server are each the value of the last such option of
    the command line; without the option, the value of the variable; without
    both, the default. *)
Theorem text_settings_precedence (env : string -> option string) (args : list string) (s : settings) (ts : text_setting) :
  DrachtioController_init env args = Ok (Continue s) -> ts ∈ text_settings ->
  ts_get ts s = default (default (ts_default ts) (env (ts_env ts)))
                  (last_value (ts_option ts) (getopt_long short_options long_options args).1).
Proof. apply text_setting_value. Qed.
End settings.
