(* ===== verification/ConfigFile.v ===== *)
(** Model of the configuration file (src/drachtio-config.cpp,
    src/drachtio-config.hpp): the settings read from it, and what the rest of
    the server asks for. *)
From S2P Require Import Prelude CppString TextUtil Regex SipUri SipTransports RequestRouter Settings.

Open Scope string_scope.
Open Scope list_scope.

(** ** Property trees

    A [boost::property_tree::ptree] is a text and a sequence of named
    children; the attributes of an XML element are children of its child
    ["<xmlattr>"]. *)
Inductive ptree := Tree (data : string) (children : list (string * ptree)).
Definition pt_data (t : ptree) : string := match t with Tree d _ => d end.
Definition pt_children (t : ptree) : list (string * ptree) := match t with Tree _ l => l end.

(** What the library does: reading a file, finding a child of a name (which
    one is not said when there are several), and reading values. *)
Class PropertyTree `{Floats} := {
  read_xml : string -> option ptree;
  find_child : string -> list (string * ptree) -> option ptree;
  to_unsigned : string -> option Z;
  to_bool : string -> option bool;
  to_float : string -> option float;
}.
Class PropertyTreeLaws `{PropertyTree} := {
  find_child_some k l c : find_child k l = Some c -> (k, c) ∈ l;
  find_child_none k l : find_child k l = None -> k ∉ l.*1;
  to_unsigned_range s n : to_unsigned s = Some n -> (0 <= n < 2 ^ 32)%Z;
}.

Section config.
Context `{Floats} `{Boost} `{Inet} `{!PropertyTree}.

(** [get_child_optional], [get_optional] and [get] with a default; [get] without
    one throws. *)
Fixpoint get_child (path : list string) (t : ptree) : option ptree :=
  match path with
  | [] => Some t
  | k :: path => c ← find_child k (pt_children t); get_child path c
  end.
Definition get_optional {A} (conv : string -> option A) (path : list string) (t : ptree) : option A :=
  c ← get_child path t; conv (pt_data c).
Definition get_or {A} (conv : string -> option A) (path : list string) (d : A) (t : ptree) : A :=
  default d (get_optional conv path t).
Definition get_text_or (path : list string) (d : string) (t : ptree) : string := get_or Some path d t.
Definition get_unsigned_or (path : list string) (d : Z) (t : ptree) : Z := get_or to_unsigned path d t.
Definition xmlattr (path : list string) (name : string) : list string := path ++ ["<xmlattr>"; name].

(** The exceptions: one of a path that is not there, and all others. *)
Definition bad_path : fault := Thrown "ptree_bad_path".
Definition bad_data : fault := Thrown "ptree_bad_data".

Definition pA : list string := ["drachtio"; "admin"].
Definition pS (rest : list string) : list string := "drachtio" :: "sip" :: rest.
Definition pL (rest : list string) : list string := "drachtio" :: "logging" :: rest.

(** ** The members

    In groups; those that are only set when their element is there, and only
    used then, are in an option. *)
Record admin_config := AdminConfig {
  cf_adminTcpPort : Z;
  cf_adminTlsPort : Z;
  cf_secret : string;
  cf_adminAddress : string;
  cf_tcpKeepalive : Z;
}.
Record capture_config := CaptureConfig {
  cf_captureServerAddress : string;
  cf_captureServerPort : Z;
  cf_captureServerAgentId : Z;
  cf_captureHepVersion : Z;
}.
Record blacklist_config := BlacklistConfig {
  cf_redisAddress : string;
  cf_redisSentinels : string;
  cf_redisMaster : string;
  cf_redisPassword : string;
  cf_redisPort : Z;
  cf_redisKey : string;
  cf_redisRefreshSecs : Z;
}.
Record tls_config := TlsConfig {
  cf_minTlsVersion : float;
  cf_tlsKeyFile : string;
  cf_tlsCertFile : string;
  cf_tlsChainFile : string;
  cf_dhParam : string;
}.
Record log_file_config := LogFileConfig {
  cf_logFileName : string;
  cf_logArchiveDirectory : string;
  cf_rotationSize : Z;
  cf_maxSize : Z;
  cf_minSize : Z;
  cf_bAutoFlush : bool;
  cf_maxFiles : Z;
}.
Record log_config := LogConfig {
  cf_nSofiaLogLevel : Z;
  cf_syslogAddress : string;
  cf_sysLogPort : Z;
  cf_syslogFacility : string;
  cf_logFile : option log_file_config;
  cf_bConsoleLogger : bool;
  cf_loglevel : severity_levels;
}.
Record timer_config := TimerConfig { cf_nTimerT1 : Z; cf_nTimerT2 : Z; cf_nTimerT4 : Z; cf_nTimerT1x64 : Z }.
Record spammer_config := SpammerConfig {
  cf_mapSpammers : gmap string (list string);
  cf_actionSpammer : string;
  cf_tcpActionSpammer : string;
}.
Record config := Config {
  cf_admin : admin_config;
  cf_vecTransports : list SipTransport;
  cf_sipOutboundProxy : string;
  cf_bRejectRegisterWithNoRealm : bool;
  cf_capture : option capture_config;
  cf_autoAnswerOptionsUserAgent : string;
  cf_blacklist : option blacklist_config;
  cf_bAggressiveNatDetection : bool;
  cf_sessionTimerDefaultRefresher : string;
  cf_tls : tls_config;
  cf_router : RequestRouter;
  cf_prometheusPort : Z;
  cf_prometheusAddress : string;
  cf_log : log_config;
  cf_timers : timer_config;
  cf_spammers : spammer_config;
  cf_bGenerateCdrs : bool;
  cf_mtu : Z;
  cf_udpBufferSize : Z;
}.

(** ** Reading, element by element *)

Definition one_of (l : list string) (s : string) : bool := existsb (String.eqb s) l.

Definition read_admin (t : ptree) : res admin_config :=
  match get_child pA t with
  | None => Fault bad_path
  | Some admin =>
    Ok (AdminConfig (get_unsigned_or (xmlattr pA "port") 9022 t) (get_unsigned_or (xmlattr pA "tls-port") 0 t)
          (get_text_or (xmlattr pA "secret") "admin" t) (pt_data admin) (get_unsigned_or (xmlattr pA "tcp-keepalive") 45 t))
  end.

(** A [<contact>] of [<contacts>]. *)
Definition read_contact (v : ptree) : res SipTransport :=
  match SipTransport_new (pt_data v) (get_text_or ["<xmlattr>"; "local-net"] "" v) (get_text_or ["<xmlattr>"; "external-ip"] "" v) with
  | Fault f => Fault f
  | Ok t =>
    Ok (foldl (fun t name => if String.eqb name "" then t else addDnsName name t) t
          (split ",; " (get_text_or ["<xmlattr>"; "dns-names"] "" v)))
  end.
Fixpoint read_contacts (l : list (string * ptree)) : res (list SipTransport) :=
  match l with
  | [] => Ok []
  | (name, v) :: l =>
    if String.eqb name "contact"
    then match read_contact v with
         | Fault f => Fault f
         | Ok t => match read_contacts l with Ok ts => Ok (t :: ts) | Fault f => Fault f end
         end
    else read_contacts l
  end.
Definition read_transports (t : ptree) : res (list SipTransport) :=
  match get_child (pS ["contact"]) t with
  | Some c => match SipTransport_new (pt_data c) "" "" with Ok tr => Ok [tr] | Fault f => Fault f end
  | None => match get_child (pS ["contacts"]) t with
            | Some c => read_contacts (pt_children c)
            | None => Ok []
            end
  end.

Definition read_capture (t : ptree) : option capture_config :=
  let path := pS ["capture-server"] in
  c ← get_child path t;
  let id := get_unsigned_or (xmlattr path "id") 0 t in
  Some (CaptureConfig (if String.eqb (pt_data c) "" || (id =? 0)%Z then "" else pt_data c)
          (get_unsigned_or (xmlattr path "port") 9060 t) id (get_unsigned_or (xmlattr path "hep-version") 3 t)).

Definition read_blacklist (t : ptree) : option blacklist_config :=
  let path := pS ["blacklist"] in
  _ ← get_child path t;
  let address := get_text_or (path ++ ["redis-address"]) "" t in
  let sentinels := get_text_or (path ++ ["redis-sentinels"]) "" t in
  let master := get_text_or (path ++ ["redis-master"]) "" t in
  let key := get_text_or (path ++ ["redis-key"]) "" t in
  let invalid := String.eqb key "" || (negb (String.eqb sentinels "") && String.eqb master "") in
  Some (BlacklistConfig (if invalid then "" else address) sentinels master (get_text_or (path ++ ["redis-password"]) "" t)
          (get_unsigned_or (path ++ ["redis-port"]) 6379 t) key (get_unsigned_or (path ++ ["refresh-secs"]) 0 t)).

Definition read_refresher (t : ptree) : string :=
  let r := to_lower_copy (get_text_or (xmlattr (pS ["session-timers"]) "default-refresher") "none" t) in
  if one_of ["uac"; "uas"; "none"] r then r else "none".

Definition read_tls (t : ptree) : tls_config :=
  let path := pS ["tls"] in
  TlsConfig (get_or to_float (path ++ ["min-tls-version"]) float_zero t) (get_text_or (path ++ ["key-file"]) "" t)
    (get_text_or (path ++ ["cert-file"]) "" t) (get_text_or (path ++ ["chain-file"]) "" t) (get_text_or (path ++ ["dh-param"]) "" t).

(** The name of the method is put in upper case here and by [addRoute]. *)
Definition read_route (v : ptree) : string * Route_t :=
  (to_upper_copy (get_text_or ["<xmlattr>"; "sip-method"] "*" v),
   MkRoute (get_text_or ["<xmlattr>"; "http-method"] "GET" v) (pt_data v)
     (one_of ["true"; "1"; "yes"] (get_text_or ["<xmlattr>"; "verify-peer"] "false" v))).
Definition read_routes (t : ptree) : RequestRouter :=
  match get_child ["drachtio"; "request-handlers"] t with
  | None => ∅
  | Some c =>
    add_routes ((fun v => read_route v.2) <$> filter (fun v => v.1 = "request-handler") (pt_children c)) ∅
  end.

(** The port must be there to count and must be a number. *)
Definition read_prometheus (t : ptree) : res (Z * string) :=
  let path := ["drachtio"; "monitoring"; "prometheus"] in
  match get_child path t, get_child (xmlattr path "port") t with
  | Some c, Some p => match to_unsigned (pt_data p) with Some n => Ok (n, pt_data c) | None => Fault bad_data end
  | _, _ => Ok (0%Z, "0.0.0.0")
  end.

(** The members are set one after the other, until an element is missing; a
    port that is not a number is the default. *)
Definition read_syslog (t : ptree) : string * Z * string :=
  match get_child (pL ["syslog"; "address"]) t with
  | None => ("", 0%Z, "")
  | Some a => (pt_data a, (get_unsigned_or (pL ["syslog"; "port"]) 514 t mod 2 ^ 16)%Z, get_text_or (pL ["syslog"; "facility"]) "" t)
  end.
Definition read_log_file (t : ptree) : option log_file_config :=
  c ← get_child (pL ["file"; "name"]) t;
  Some (LogFileConfig (pt_data c) (get_text_or (pL ["file"; "archive"]) "archive" t) (get_unsigned_or (pL ["file"; "size"]) 50 t)
          (get_unsigned_or (pL ["file"; "maxSize"]) 1000 t) (get_unsigned_or (pL ["file"; "minSize"]) 0 t)
          (get_or to_bool (pL ["file"; "auto-flush"]) true t) (get_unsigned_or (pL ["file"; "maxFiles"]) 100 t)).
Definition logFileName (f : option log_file_config) : string := from_option cf_logFileName "" f.
Definition read_log (t : ptree) : log_config :=
  let '(address, port, facility) := read_syslog t in
  let file := read_log_file t in
  LogConfig (get_unsigned_or (pL ["sofia-loglevel"]) 1 t) address port facility file
    ((String.eqb (logFileName file) "" && String.eqb address "") || bool_decide (is_Some (get_child (pL ["console"]) t)))
    (default log_info (severity_of (get_text_or (pL ["loglevel"]) "info" t))).

Definition read_timers (t : ptree) : timer_config :=
  let path := pS ["timers"] in
  TimerConfig (get_unsigned_or (path ++ ["t1"]) 500 t) (get_unsigned_or (path ++ ["t2"]) 4000 t)
    (get_unsigned_or (path ++ ["t4"]) 5000 t) (get_unsigned_or (path ++ ["t1x64"]) 32000 t).

(** A [<header>]: its name in lower case and the texts of all its children;
    [insert] keeps the first of a name.  The actions are read with every child
    of [<spammers>]. *)
Definition read_spammer (m : gmap string (list string)) (v : string * ptree) : gmap string (list string) :=
  if String.eqb v.1 "header" then
    let header := get_text_or ["<xmlattr>"; "name"] "" v.2 in
    if String.eqb header "" then m
    else let key := str_map to_lower header in
         match m !! key with
         | Some _ => m
         | None => <[key := filter (fun s => s ≠ "") ((fun c => pt_data c.2) <$> pt_children v.2)]> m
         end
  else m.
Definition read_spammers (t : ptree) : spammer_config :=
  let path := pS ["spammers"] in
  match get_child path t with
  | Some (Tree _ ((_ :: _) as l)) =>
    SpammerConfig (foldl read_spammer ∅ l) (get_text_or (xmlattr path "action") "discard" t)
      (get_text_or (xmlattr path "tcp-action") "discard" t)
  | _ => SpammerConfig ∅ "" ""
  end.

(** The whole file, in the order of the constructor; every exception but those
    of paths that are not there leaves the configuration invalid. *)
Definition read_config (t : ptree) : res config :=
  admin ← read_admin t;
  transports ← read_transports t;
  prometheus ← read_prometheus t;
  Ok (Config admin transports (get_text_or (pS ["outbound-proxy"]) "" t)
        (one_of ["true"; "yes"; "1"] (get_text_or (pS ["reject-register-with-no-realm"]) "false" t))
        (read_capture t) (get_text_or (pS ["user-agent-options-auto-respond"]) "" t) (read_blacklist t)
        (one_of ["yes"; "YES"; "true"; "TRUE"; "on"; "ON"] (get_text_or (pS ["aggressive-nat-detection"]) "no" t))
        (read_refresher t) (read_tls t) (read_routes t) prometheus.1 prometheus.2 (read_log t) (read_timers t) (read_spammers t)
        (one_of ["true"; "yes"] (str_map to_lower (get_text_or ["drachtio"; "cdrs"] "" t)))
        (get_unsigned_or (pS ["udp-mtu"]) 0 t) (get_unsigned_or (pS ["udp-buffer-size"]) 0 t)).
(** [isValid()] is that there is a result; [file] is what the file holds, if
    it can be opened. *)
Definition DrachtioConfig_new (file : option string) : option config :=
  text ← file; t ← read_xml text;
  match read_config t with Ok c => Some c | Fault _ => None end.

(** ** What the server asks for *)

Definition getSyslogTarget (c : config) : option (string * Z) :=
  if String.eqb (cf_syslogAddress (cf_log c)) "" then None else Some (cf_syslogAddress (cf_log c), cf_sysLogPort (cf_log c)).
(** The file, the archive, size, flushing, the largest and the smallest size of
    the archive, the number of files; the smallest size is not passed on. *)
Definition getFileLogTarget (c : config) : option (string * string * Z * bool * Z * option Z * Z) :=
  f ← cf_logFile (cf_log c);
  if String.eqb (cf_logFileName f) "" then None
  else Some (cf_logFileName f, cf_logArchiveDirectory f, cf_rotationSize f, cf_bAutoFlush f, cf_maxSize f, None, cf_maxFiles f).
Definition getSyslogFacility (c : config) : option nat :=
  let names := ["local0"; "local1"; "local2"; "local3"; "local4"; "local5"; "local6"; "local7"] in
  if String.eqb (cf_syslogFacility (cf_log c)) "" then None else fst <$> list_find (eq (cf_syslogFacility (cf_log c))) names.
Definition getSipOutboundProxy (c : config) : option string :=
  if String.eqb (cf_sipOutboundProxy c) "" then None else Some (cf_sipOutboundProxy c).
Definition getTlsFiles (c : config) : string * string * string * string * bool :=
  let t := cf_tls c in
  (cf_tlsKeyFile t, cf_tlsCertFile t, cf_tlsChainFile t, cf_dhParam t,
   negb (String.eqb (cf_tlsKeyFile t) "") && negb (String.eqb (cf_tlsCertFile t) "")).
Definition config_isSecret (c : config) (secret : string) : bool := String.eqb secret (cf_secret (cf_admin c)).
Definition getSpammers (c : config) : gmap string (list string) * option (string * string) :=
  let s := cf_spammers c in
  (cf_mapSpammers s, if bool_decide (cf_mapSpammers s = ∅) then None else Some (cf_actionSpammer s, cf_tcpActionSpammer s)).
Definition getCaptureServer (c : config) : option capture_config :=
  s ← cf_capture c; if String.eqb (cf_captureServerAddress s) "" then None else Some s.
(** The password is not among what is given; no interval means an hour. *)
Definition getBlacklistServer (c : config) : option (string * string * string * Z * string * Z) :=
  b ← cf_blacklist c;
  if String.eqb (cf_redisAddress b) "" && String.eqb (cf_redisSentinels b) "" then None
  else Some (cf_redisAddress b, cf_redisSentinels b, cf_redisMaster b, cf_redisPort b, cf_redisKey b,
             if (cf_redisRefreshSecs b =? 0)%Z then 3600%Z else cf_redisRefreshSecs b).
Definition getAutoAnswerOptionsUserAgent (c : config) : option string :=
  if String.eqb (cf_autoAnswerOptionsUserAgent c) "" then None else Some (cf_autoAnswerOptionsUserAgent c).
Definition getPrometheusAddress (c : config) : option (string * Z) :=
  if (cf_prometheusPort c =? 0)%Z then None else Some (cf_prometheusAddress c, cf_prometheusPort c).
End config.
