(* ===== verification/Startup.v ===== *)
(** Model of the start of the server and of the reloading of its configuration
    (src/controller.cpp: [installConfig], [handleSigHup], and [run] up to the
    event loop): what the command line, the environment and the configuration
    file together come to. *)
From S2P Require Import Prelude CppString TextUtil Regex SipUri SipTransports RequestRouter Settings CommandLine ConfigFile.

Open Scope string_scope.
Open Scope list_scope.

Section startup.
Context `{Floats} `{Boost} `{Inet} `{!PropertyTree}.

(** ** Installing a configuration *)

(** The settings, the configuration in use and the one to be installed, the
    level of the SIP library and whether the next statistics are detailed. *)
Record server := Server {
  sv_settings : settings;
  m_Config : config;
  m_ConfigNew : option config;
  sv_sofia_loglevel : option Z;
  m_bDumpMemory : bool;
}.
Definition server_isSecret (s : server) (secret : string) : bool :=
  let m_secret := m_secret (st_admin (sv_settings s)) in
  if String.eqb m_secret "" then config_isSecret (m_Config s) secret else String.eqb m_secret secret.

Definition installConfig (s : server) : server :=
  let c := default (m_Config s) (m_ConfigNew s) in
  let st := sv_settings s in
  let st := if decide (m_current_severity_threshold (st_log st) = log_none)
            then set_current_severity_threshold (cf_loglevel (cf_log c)) st else st in
  let st := if bool_decide (m_requestRouter st = ∅) then on_requestRouter (fun _ => cf_router c) st else st in
  Server st c None (sv_sofia_loglevel s) (m_bDumpMemory s).
(** The end of the constructor; without a valid configuration the process
    exits. *)
Definition DrachtioController_configure (read_file : string -> option string) (s : settings) : option server :=
  c ← DrachtioConfig_new (read_file (m_configFilename (st_process s)));
  Some (installConfig (Server s c None None false)).

Definition handleSigHup (read_file : string -> option string) (s : server) : server :=
  let s := Server (sv_settings s) (m_Config s) (m_ConfigNew s) (sv_sofia_loglevel s) true in
  match m_ConfigNew s with
  | Some _ => s
  | None =>
    match DrachtioConfig_new (read_file (m_configFilename (st_process (sv_settings s)))) with
    | None => s
    | Some c =>
      installConfig (Server (set_current_severity_threshold (cf_loglevel (cf_log c)) (sv_settings s)) (m_Config s) (Some c)
                       (Some (cf_nSofiaLogLevel (cf_log c))) true)
    end
  end.

(** ** [run] *)

Definition text_or (s d : string) : string := if String.eqb s "" then d else s.
Definition number_or (n d : Z) : Z := if (n =? 0)%Z then d else n.

(** The server for applications: the arguments of the constructor of
    [ClientController] that is called. *)
Record client_server := ClientServer {
  cs_address : string;
  cs_tcpPort : Z;
  cs_tlsPort : Z;
  cs_chainFile : string;
  cs_certFile : string;
  cs_keyFile : string;
  cs_dhParam : string;
}.
Definition open_admin (s : settings) (c : config) : res client_server :=
  let admin := st_admin s in let tls := st_tls s in
  let '(keyFile, certFile, chainFile, dhParam, _) := getTlsFiles c in
  let address := text_or (m_adminAddress admin) (cf_adminAddress (cf_admin c)) in
  let tcpPort := number_or (m_adminTcpPort admin) (cf_adminTcpPort (cf_admin c)) in
  let tlsPort := number_or (m_adminTlsPort admin) (cf_adminTlsPort (cf_admin c)) in
  let key := text_or (m_tlsKeyFile tls) keyFile in
  let cert := text_or (m_tlsCertFile tls) certFile in
  let chain := text_or (m_tlsChainFile tls) chainFile in
  let dh := text_or (m_dhParam tls) dhParam in
  if negb (tlsPort =? 0)%Z && ((String.eqb chain "" && String.eqb cert "") || String.eqb key "" || String.eqb dh "")
  then Fault (Thrown "missing tls settings")
  else if negb (tcpPort =? 0)%Z && (tlsPort =? 0)%Z then Ok (ClientServer address tcpPort 0 "" "" "" "")
  else Ok (ClientServer address tcpPort tlsPort chain cert key dh).

Definition choose_transports (s : settings) (c : config) : res settings :=
  let l := match m_vecTransports s with [] => cf_vecTransports c | l => l end in
  match l with
  | [] => match SipTransport_new "sip:*;transport=udp,tcp" "" "" with
          | Ok t => Ok (on_vecTransports (fun _ => [t]) s)
          | Fault f => Fault f
          end
  | _ => Ok (on_vecTransports (fun _ => l) s)
  end.

(** The TLS files for SIP, if there are enough of them. *)
Definition sip_tls_files (s : settings) (c : config) : option (string * string * string) :=
  let '(keyFile, certFile, chainFile, _, has) := getTlsFiles c in
  let key := text_or (m_tlsKeyFile (st_tls s)) keyFile in
  let cert := text_or (m_tlsCertFile (st_tls s)) certFile in
  if has || (negb (String.eqb key "") && negb (String.eqb cert "")) then Some (key, cert, text_or (m_tlsChainFile (st_tls s)) chainFile)
  else None.
Inductive tls_version := TLSv1 | TLSv1_1 | TLSv1_2.
(** [getMinTlsVersion] writes to the setting when the configuration has a
    version. *)
Definition min_tls_version (s : settings) (c : config) : float * list tls_version :=
  let all := [TLSv1; TLSv1_1; TLSv1_2] in
  let bound f := if float_ge f 12 then [TLSv1_2] else if float_ge f 11 then [TLSv1_1; TLSv1_2] else all in
  let f := m_minTlsVersion (st_tls s) in
  if float_ge f 10 then (f, bound f)
  else let g := cf_minTlsVersion (cf_tls c) in
       if float_gt g 0 then (g, if float_gt g 10 then bound g else all) else (f, all).

Definition pretty_number (z : Z) : string := pretty z.
Definition capture_string (s : settings) (c : config) : option string :=
  let m := st_monitor s in
  if negb (String.eqb (m_strHomerAddress m) "")
  then Some ("udp:" +:+ m_strHomerAddress m +:+ ":" +:+ pretty_number (m_nHomerPort m) +:+ ";hep=3;capture_id=" +:+ pretty_number (m_nHomerId m))
  else match getCaptureServer c with
       | None => None
       | Some k =>
         if (cf_captureHepVersion k <? 1)%Z || (3 <? cf_captureHepVersion k)%Z then None
         else Some ("udp:" +:+ cf_captureServerAddress k +:+ ":" +:+ pretty_number (cf_captureServerPort k) +:+
                    ";hep=" +:+ pretty_number (cf_captureHepVersion k) +:+ ";capture_id=" +:+ pretty_number (cf_captureServerAgentId k))
       end.

(** The blacklist: a redis server, or a group of them behind sentinels. *)
Inductive blacklist :=
  | RedisServer (address : string) (port : Z) (password key : string) (refresh : Z)
  | RedisSentinels (sentinels master password key : string) (refresh : Z).
Definition choose_redis (s : settings) (c : config) : redis_settings :=
  let r := st_redis s in
  if String.eqb (m_redisAddress r) "" then
    match getBlacklistServer c with
    | None => r
    | Some (address, sentinels, master, port, key, refresh) =>
      RedisSettings address sentinels master "" (Some port) key (Some refresh)
    end
  else r.
Definition start_blacklist (r : redis_settings) : res (option blacklist) :=
  if negb (String.eqb (m_redisAddress r) "") && negb (String.eqb (m_redisKey r) "")
  then match m_redisPort r, m_redisRefreshSecs r with
       | Some port, Some refresh => Ok (Some (RedisServer (m_redisAddress r) port (m_redisPassword r) (m_redisKey r) refresh))
       | _, _ => Fault BadAccess
       end
  else if negb (String.eqb (m_redisSentinels r) "") && negb (String.eqb (m_redisMaster r) "") && negb (String.eqb (m_redisKey r) "")
  then match m_redisRefreshSecs r with
       | Some refresh => Ok (Some (RedisSentinels (m_redisSentinels r) (m_redisMaster r) (m_redisPassword r) (m_redisKey r) refresh))
       | None => Fault BadAccess
       end
  else Ok None.

Definition prometheus_hostport (s : settings) (c : config) : option string :=
  let m := st_monitor s in
  if (m_nPrometheusPort m =? 0)%Z
  then (fun '(host, port) => host +:+ ":" +:+ pretty_number port) <$> getPrometheusAddress c
  else Some (m_strPrometheusAddress m +:+ ":" +:+ pretty_number (m_nPrometheusPort m)).
Definition tcp_keepalive (s : settings) (c : config) : Z :=
  if (m_tcpKeepaliveSecs (st_sip s) =? UINT16_MAX)%Z then cf_tcpKeepalive (cf_admin c) else m_tcpKeepaliveSecs (st_sip s).

(** What [nta_agent_create] and [nta_agent_add_tport] are asked for one
    transport. *)
Record tport_request := TportRequest {
  tr_url : string;
  tr_capture : option string;
  tr_tls_files : option (string * string * option string);
  tr_tls_verify_peer : bool;
  tr_tls_versions : option (list tls_version);
  tr_tls_ciphers : option string;
  tr_queuesize : Z;
}.
Definition some_text (s : string) : option string := if String.eqb s "" then None else Some s.
Definition request_tport (s : settings) (capture : option string) (files : option (string * string * string))
    (versions : list tls_version) (t : SipTransport) : tport_request :=
  let tls := strstr (m_strContact t) "sips" || strstr (m_strContact t) "tls" in
  let files := if tls then files else None in
  TportRequest (getBindableContactUri t) capture ((fun '(key, cert, chain) => (key, cert, some_text chain)) <$> files)
    (bool_decide (is_Some files) && m_bTlsVerifyClientCert (st_tls s))
    ((fun _ => versions) <$> files) (_ ← files; some_text (m_tlsCipherList (st_tls s))) (m_tportQueuesize (st_sip s)).

(** All that [run] decides before the event loop. *)
Record start := Start {
  go_clients : client_server;
  go_outboundProxy : option string;
  go_bAggressiveNatDetection : bool;
  go_bRejectRegisterWithNoRealm : bool;
  go_minTlsVersion : float;
  go_autoAnswerOptions : string;
  go_blacklist : option blacklist;
  go_prometheus : option string;
  go_tcpKeepalive : Z;
  go_sofia_loglevel : Z;
  go_tports : list tport_request;
  go_timers : timer_config;
}.
Definition run (s : settings) (c : config) : res start :=
  s ← choose_transports s c;
  clients ← open_admin s c;
  blacklist ← start_blacklist (choose_redis s c);
  let '(min, versions) := min_tls_version s c in
  Ok (Start clients (getSipOutboundProxy c) (m_bAggressiveNatDetection (st_sip s) || cf_bAggressiveNatDetection c)
        (m_bRejectRegisterWithNoRealm (st_sip s) || cf_bRejectRegisterWithNoRealm c) min
        (text_or (m_strUserAgentAutoAnswerOptions (st_sip s)) (default "" (getAutoAnswerOptionsUserAgent c)))
        blacklist (prometheus_hostport s c) (tcp_keepalive s c)
        (if (0 <=? m_nSofiaLoglevel (st_log s))%Z then m_nSofiaLoglevel (st_log s) else cf_nSofiaLogLevel (cf_log c))
        (request_tport s (capture_string s c) (sip_tls_files s c) versions <$> m_vecTransports s) (cf_timers c)).

(** The log sinks of [initializeLogging]: the console, the syslog server with
    its facility (not initialised if the configuration has none), a file. *)
Definition log_console (s : settings) (c : config) : bool :=
  m_bNoConfig (st_process s) || cf_bConsoleLogger (cf_log c) || m_bConsoleLogging (st_log s).
Definition log_syslog (s : settings) (c : config) : option (string * Z * option nat) :=
  if m_bNoConfig (st_process s) then None else (fun t => (t.1, t.2, getSyslogFacility c)) <$> getSyslogTarget c.
Definition log_file (s : settings) (c : config) : option (string * string * Z * bool * Z * option Z * Z) :=
  if m_bNoConfig (st_process s) then None else getFileLogTarget c.
End startup.
