(* ===== verification/StartupCorrect.v ===== *)
(** The configuration file and the start of the server: which files are
    accepted, the ranges of what is read, what the three sources of settings
    come to together, and what a reload changes. *)
From S2P Require Import Prelude CppString TextUtil Regex SipUri SipTransports RequestRouter Settings CommandLine CommandLineCorrect SettingsCorrect ConfigFile Startup.

Open Scope string_scope.
Open Scope list_scope.

Section startup.
Context `{Floats} `{BoostLaws} `{Inet} `{!PropertyTree} `{!PropertyTreeLaws}.

(** ** Accepted files *)

Definition is_ok {A} (r : res A) : Prop := match r with Ok _ => True | Fault _ => False end.
Lemma is_ok_iff {A} (r : res A) : is_ok r <-> exists a, r = Ok a.
Proof. destruct r; cbn; naive_solver. Qed.

(** The contacts can be understood: the old single one, otherwise all those of
    the list. *)
Definition contacts_ok (t : ptree) : Prop :=
  match get_child (pS ["contact"]) t, get_child (pS ["contacts"]) t with
  | Some c, _ => is_ok (SipTransport_new (pt_data c) "" "")
  | None, Some c => forall v, ("contact", v) ∈ pt_children c ->
      is_ok (SipTransport_new (pt_data v) (get_text_or ["<xmlattr>"; "local-net"] "" v) (get_text_or ["<xmlattr>"; "external-ip"] "" v))
  | None, None => True
  end.
Definition prometheus_ok (t : ptree) : Prop :=
  forall p, get_child ["drachtio"; "monitoring"; "prometheus"; "<xmlattr>"; "port"] t = Some p -> is_Some (to_unsigned (pt_data p)).

Lemma read_contact_ok v :
  is_ok (read_contact v) <->
  is_ok (SipTransport_new (pt_data v) (get_text_or ["<xmlattr>"; "local-net"] "" v) (get_text_or ["<xmlattr>"; "external-ip"] "" v)).
Proof. unfold read_contact. by destruct (SipTransport_new _ _ _). Qed.
Lemma read_contacts_ok l :
  is_ok (read_contacts l) <-> forall v, ("contact", v) ∈ l -> is_ok (read_contact v).
Proof.
  induction l as [|[name v] l IH]; cbn [read_contacts].
  { split; [by intros _ v ?%elem_of_nil|done]. }
  setoid_rewrite elem_of_cons. destruct (String.eqb_spec name "contact") as [->|Hne].
  - destruct (read_contact v) as [t|] eqn:Ev.
    + assert (is_ok match read_contacts l with Ok ts => Ok (t :: ts) | Fault f => Fault f end <-> is_ok (read_contacts l)) as ->
        by (by destruct (read_contacts l)).
      rewrite IH. split; [intros Hl w [[= ->]|Hw]; [by rewrite Ev|by apply Hl]|intros Hl w Hw; apply Hl; by right].
    + cbn. split; [done|]. intros Hl. specialize (Hl v (or_introl eq_refl)). by rewrite Ev in Hl.
  - rewrite IH. split; [intros Hl w [[= <- ->]|Hw]; [done|by apply Hl]|intros Hl w Hw; apply Hl; by right].
Qed.
Lemma read_transports_ok t : is_ok (read_transports t) <-> contacts_ok t.
Proof.
  unfold read_transports, contacts_ok. destruct (get_child (pS ["contact"]) t) as [c|].
  { by destruct (SipTransport_new _ _ _). }
  destruct (get_child (pS ["contacts"]) t) as [c|]; [|done]. rewrite read_contacts_ok. by setoid_rewrite read_contact_ok.
Qed.

Lemma get_child_app p q t : get_child (p ++ q) t = c ← get_child p t; get_child q c.
Proof.
  revert t. induction p as [|k p IH]; intros t; [done|]. cbn [app get_child]. destruct (find_child k (pt_children t)) as [c|]; [|done].
  cbn [mbind option_bind]. apply IH.
Qed.
Lemma read_prometheus_ok t : is_ok (read_prometheus t) <-> prometheus_ok t.
Proof.
  unfold read_prometheus, prometheus_ok. cbn zeta.
  change (xmlattr ["drachtio"; "monitoring"; "prometheus"] "port") with
    (["drachtio"; "monitoring"; "prometheus"] ++ ["<xmlattr>"; "port"]).
  change ["drachtio"; "monitoring"; "prometheus"; "<xmlattr>"; "port"] with
    (["drachtio"; "monitoring"; "prometheus"] ++ ["<xmlattr>"; "port"]).
  rewrite get_child_app. destruct (get_child ["drachtio"; "monitoring"; "prometheus"] t) as [c|]; [|done].
  cbn [mbind option_bind]. destruct (get_child ["<xmlattr>"; "port"] c) as [p|]; [|done].
  destruct (to_unsigned (pt_data p)) as [n|] eqn:E; cbn; split; try done.
  - intros _ q [= ->]. by rewrite E.
  - intros Hp. destruct (Hp p eq_refl) as [m Hm]. congruence.
Qed.

(** C26: a configuration file is accepted exactly when it can be opened and is
    XML, has an [<admin>] element, every contact it gives can be understood,
    and the port of the Prometheus server, if there is one, is a number; every
    other element may be missing and every other number may be malformed. *)
Theorem config_accepted (file : option string) :
  is_Some (DrachtioConfig_new file) <->
  exists text t, file = Some text /\ read_xml text = Some t /\
    is_Some (get_child ["drachtio"; "admin"] t) /\ contacts_ok t /\ prometheus_ok t.
Proof.
  unfold DrachtioConfig_new. destruct file as [text|]; [|cbn; split; [intros [? ?]; done|naive_solver]].
  cbn [mbind option_bind]. destruct (read_xml text) as [t|] eqn:Ex; [|cbn; split; [intros [? ?]; done|naive_solver]].
  cbn [mbind option_bind].
  transitivity (is_Some (get_child pA t) /\ contacts_ok t /\ prometheus_ok t); [|naive_solver].
  rewrite <- read_transports_ok, <- read_prometheus_ok. unfold read_config, read_admin, mbind, res_bind.
  destruct (get_child pA t) as [a|]; [|by split; [intros [? ?]|intros [[? ?] _]]].
  destruct (read_transports t) as [l|]; [|by split; [intros [? ?]|intros (_ & [] & _)]].
  destruct (read_prometheus t) as [p|]; [|by split; [intros [? ?]|intros (_ & _ & [])]].
  split; [by repeat split|by eauto].
Qed.

(** ** Ranges *)

Lemma get_unsigned_range path d t : u32 d -> u32 (get_unsigned_or path d t).
Proof.
  intros Hd. unfold get_unsigned_or, get_or, get_optional. destruct (get_child path t) as [c|]; [|done]. cbn.
  destruct (to_unsigned (pt_data c)) as [n|] eqn:E; [|done]. by apply to_unsigned_range in E.
Qed.
Definition config_ok (c : config) : Prop :=
  Forall u32 [cf_adminTcpPort (cf_admin c); cf_adminTlsPort (cf_admin c); cf_tcpKeepalive (cf_admin c); cf_prometheusPort c;
              cf_nSofiaLogLevel (cf_log c); cf_mtu c; cf_udpBufferSize c;
              cf_nTimerT1 (cf_timers c); cf_nTimerT2 (cf_timers c); cf_nTimerT4 (cf_timers c); cf_nTimerT1x64 (cf_timers c)] /\
  (0 <= cf_sysLogPort (cf_log c) < 2 ^ 16)%Z /\
  cf_sessionTimerDefaultRefresher c ∈ ["uac"; "uas"; "none"] /\
  cf_loglevel (cf_log c) ≠ log_none /\
  (forall k, getCaptureServer c = Some k -> cf_captureServerAddress k ≠ "" /\ (0 < cf_captureServerAgentId k < 2 ^ 32)%Z) /\
  (forall address sentinels master port key refresh, getBlacklistServer c = Some (address, sentinels, master, port, key, refresh) ->
     u32 port /\ (0 < refresh < 2 ^ 32)%Z /\ (address ≠ "" -> key ≠ "" /\ (sentinels ≠ "" -> master ≠ ""))).

Lemma one_of_elem l s : one_of l s = true <-> s ∈ l.
Proof. unfold one_of. rewrite existsb_exists. setoid_rewrite String.eqb_eq. rewrite list_elem_of_In. naive_solver. Qed.
Lemma read_refresher_values t : read_refresher t ∈ ["uac"; "uas"; "none"].
Proof. unfold read_refresher. cbn zeta. destruct (one_of _ _) eqn:E; [by apply one_of_elem in E|set_solver]. Qed.
Lemma read_capture_ok t k : read_capture t = Some k ->
  cf_captureServerAddress k = "" \/ (0 < cf_captureServerAgentId k < 2 ^ 32)%Z.
Proof.
  unfold read_capture. destruct (get_child _ t) as [c|]; [|done]. cbn [mbind option_bind].
  assert (u32 (get_unsigned_or (xmlattr (pS ["capture-server"]) "id") 0 t)) as Hid by (by apply get_unsigned_range).
  revert Hid. generalize (get_unsigned_or (xmlattr (pS ["capture-server"]) "id") 0 t). intros id Hid [= <-]. cbn.
  destruct (Z.eqb_spec id 0); [left; by destruct (String.eqb _ _)|right]. unfold u32 in Hid. lia.
Qed.
Lemma read_blacklist_ok t b : read_blacklist t = Some b ->
  u32 (cf_redisPort b) /\ u32 (cf_redisRefreshSecs b) /\
  (cf_redisAddress b ≠ "" -> cf_redisKey b ≠ "" /\ (cf_redisSentinels b ≠ "" -> cf_redisMaster b ≠ "")).
Proof.
  unfold read_blacklist. destruct (get_child _ t) as [c|]; [|done]. cbn [mbind option_bind]. intros [= <-].
  cbn [cf_redisAddress cf_redisSentinels cf_redisMaster cf_redisPort cf_redisKey cf_redisRefreshSecs].
  split; [by apply get_unsigned_range|]. split; [by apply get_unsigned_range|].
  unfold pS. cbn [app].
  generalize (get_text_or ["drachtio"; "sip"; "blacklist"; "redis-key"] "" t), (get_text_or ["drachtio"; "sip"; "blacklist"; "redis-sentinels"] "" t),
    (get_text_or ["drachtio"; "sip"; "blacklist"; "redis-master"] "" t), (get_text_or ["drachtio"; "sip"; "blacklist"; "redis-address"] "" t).
  intros key sentinels master address.
  destruct (String.eqb_spec key ""), (String.eqb_spec sentinels ""), (String.eqb_spec master ""); cbn; naive_solver.
Qed.
Lemma severity_of_some s l : severity_of s = Some l -> l ≠ log_none.
Proof. unfold severity_of. repeat (destruct (String.eqb _ _); [by intros [= <-]|]). done. Qed.
Lemma read_log_ok t : u32 (cf_nSofiaLogLevel (read_log t)) /\ (0 <= cf_sysLogPort (read_log t) < 2 ^ 16)%Z /\ cf_loglevel (read_log t) ≠ log_none.
Proof.
  unfold read_log. destruct (read_syslog t) as [[address port] facility] eqn:E. cbn [cf_nSofiaLogLevel cf_sysLogPort cf_loglevel].
  split; [by apply get_unsigned_range|]. split.
  - unfold read_syslog in E. destruct (get_child _ t); injection E as <- <- <-; [|done]. by apply Z.mod_pos_bound.
  - destruct (severity_of _) as [l|] eqn:El; [|done]. by apply severity_of_some in El.
Qed.
Lemma read_prometheus_u32 t p : read_prometheus t = Ok p -> u32 p.1.
Proof.
  unfold read_prometheus. cbn zeta. destruct (get_child _ t); [|by intros [= <-]]. destruct (get_child _ t) as [q|]; [|by intros [= <-]].
  destruct (to_unsigned (pt_data q)) as [n|] eqn:E; [|done]. intros [= <-]. by apply to_unsigned_range in E.
Qed.

Lemma read_config_inv t c : read_config t = Ok c -> exists a p, read_admin t = Ok a /\ read_prometheus t = Ok p /\
  cf_admin c = a /\ cf_prometheusPort c = p.1 /\ cf_log c = read_log t /\ cf_timers c = read_timers t /\
  cf_capture c = read_capture t /\ cf_blacklist c = read_blacklist t /\ cf_sessionTimerDefaultRefresher c = read_refresher t /\
  cf_mtu c = get_unsigned_or (pS ["udp-mtu"]) 0 t /\ cf_udpBufferSize c = get_unsigned_or (pS ["udp-buffer-size"]) 0 t.
Proof.
  unfold read_config, mbind, res_bind. destruct (read_admin t) as [a|] eqn:Ea; [|done].
  destruct (read_transports t) as [l|]; [|done]. destruct (read_prometheus t) as [p|] eqn:Ep; [|done].
  intros [= <-]. exists a, p. by repeat split.
Qed.

(** in an accepted configuration every number is in its range (ports,
    intervals, levels and timers are 32-bit unsigned numbers, the port of the
    syslog server has 16 bits, an interval of the blacklist is never 0), the
    default refresher is one of the three, the log level is a level; a capture
    server has an address and an id other than 0; a blacklist on one redis
    server has a key, and a master if it names sentinels as well. *)
Theorem config_in_range (file : option string) (c : config) : DrachtioConfig_new file = Some c -> config_ok c.
Proof.
  unfold DrachtioConfig_new. destruct file as [text|]; [|done]. cbn [mbind option_bind].
  destruct (read_xml text) as [t|]; [|done]. cbn [mbind option_bind].
  destruct (read_config t) as [c'|] eqn:Ec; [|done]. intros [= ->].
  apply read_config_inv in Ec as (a & p & Ea & Ep & Eadm & Epp & Elog & Etim & Ecap & Ebl & Eref & Emtu & Ebuf).
  destruct (read_log_ok t) as (Hl1 & Hl2 & Hl3). apply read_prometheus_u32 in Ep.
  unfold config_ok, getCaptureServer, getBlacklistServer.
  rewrite Eadm, Epp, Elog, Etim, Ecap, Ebl, Eref, Emtu, Ebuf. split; [|split; [exact Hl2|split; [apply read_refresher_values|split; [exact Hl3|split]]]].
  - unfold read_admin in Ea. destruct (get_child pA t); [|done]. injection Ea as <-.
    cbn [cf_adminTcpPort cf_adminTlsPort cf_tcpKeepalive]. unfold read_timers. cbn [cf_nTimerT1 cf_nTimerT2 cf_nTimerT4 cf_nTimerT1x64].
    repeat (apply Forall_cons; split); try apply Forall_nil; first [done|by apply get_unsigned_range].
  - intros k. destruct (read_capture t) as [k'|] eqn:Ek; [|done]. cbn [mbind option_bind].
    destruct (String.eqb_spec (cf_captureServerAddress k') ""); [done|]. intros [= <-]. split; [done|].
    by destruct (read_capture_ok t k' Ek).
  - intros address sentinels master port key refresh. destruct (read_blacklist t) as [b|] eqn:Eb; [|done]. cbn [mbind option_bind].
    apply read_blacklist_ok in Eb as (Hport & Hrefresh & Haddr). destruct (_ && _); [done|]. intros [= <- <- <- <- <- <-].
    split; [done|]. split; [|done]. unfold u32 in Hrefresh. destruct (Z.eqb_spec (cf_redisRefreshSecs b) 0); lia.
Qed.

(** ** The three sources together *)

(** What a text setting comes to: the last option, the variable, what the
    configuration says. *)
Definition chosen_text (env : string -> option string) (args : list string) (c : ascii) (name : string) (of_config : string) : string :=
  text_or (default (default "" (env name)) (last_value c (getopt_long short_options long_options args).1)) of_config.

Lemma configure_inv read_file s sv : DrachtioController_configure read_file s = Some sv ->
  DrachtioConfig_new (read_file (m_configFilename (st_process s))) = Some (m_Config sv) /\
  st_admin (sv_settings sv) = st_admin s /\ st_tls (sv_settings sv) = st_tls s /\
  m_requestRouter (sv_settings sv) = (if bool_decide (m_requestRouter s = ∅) then cf_router (m_Config sv) else m_requestRouter s).
Proof.
  unfold DrachtioController_configure. destruct (DrachtioConfig_new _) as [c|]; [|done]. intros [= <-].
  unfold installConfig. cbn. by destruct (decide _), (bool_decide _).
Qed.
Lemma run_inv s c g : run s c = Ok g -> exists s', choose_transports s c = Ok s' /\
  (exists u, s' = on_vecTransports u s) /\ open_admin s' c = Ok (go_clients g) /\
  go_tports g = request_tport s' (capture_string s' c) (sip_tls_files s' c) (min_tls_version s' c).2 <$> m_vecTransports s'.
Proof.
  unfold run, mbind, res_bind. destruct (choose_transports s c) as [s'|] eqn:Es; [|done].
  destruct (open_admin s' c) as [cl|] eqn:Ec; [|done]. destruct (start_blacklist _); [|done].
  destruct (min_tls_version s' c) as [m v] eqn:Ev. intros [= <-]. exists s'. rewrite Ev. split; [done|]. split; [|done].
  unfold choose_transports in Es. destruct (match m_vecTransports s with [] => _ | _ => _ end); [|injection Es as <-; by eexists].
  destruct (SipTransport_new _ _ _); [|done]. injection Es as <-. by eexists.
Qed.
Lemma open_admin_address s c cl : open_admin s c = Ok cl ->
  cs_address cl = text_or (m_adminAddress (st_admin s)) (cf_adminAddress (cf_admin c)) /\
  cs_tcpPort cl = number_or (m_adminTcpPort (st_admin s)) (cf_adminTcpPort (cf_admin c)) /\
  cs_tlsPort cl = number_or (m_adminTlsPort (st_admin s)) (cf_adminTlsPort (cf_admin c)) /\
  (cs_tlsPort cl ≠ 0%Z -> cs_keyFile cl = text_or (m_tlsKeyFile (st_tls s)) (cf_tlsKeyFile (cf_tls c)) /\
     cs_certFile cl = text_or (m_tlsCertFile (st_tls s)) (cf_tlsCertFile (cf_tls c)) /\
     cs_chainFile cl = text_or (m_tlsChainFile (st_tls s)) (cf_tlsChainFile (cf_tls c)) /\
     cs_dhParam cl = text_or (m_dhParam (st_tls s)) (cf_dhParam (cf_tls c)) /\
     cs_keyFile cl ≠ "" /\ cs_dhParam cl ≠ "" /\ (cs_chainFile cl ≠ "" \/ cs_certFile cl ≠ "")).
Proof.
  unfold open_admin, getTlsFiles. destruct (negb _ && _) eqn:E; [done|].
  destruct (Z.eqb_spec (number_or (m_adminTlsPort (st_admin s)) (cf_adminTlsPort (cf_admin c))) 0) as [E0|Hne].
  - destruct (Z.eqb_spec (number_or (m_adminTcpPort (st_admin s)) (cf_adminTcpPort (cf_admin c))) 0); intros [= <-]; cbn; by rewrite E0.
  - rewrite andb_false_r. intros [= <-]. cbn in E |- *. apply orb_false_iff in E as [[E1 E2]%orb_false_iff E3].
    apply String.eqb_neq in E2, E3. split_and!; try done. intros _. split_and!; try done.
    apply andb_false_iff in E1 as [?%String.eqb_neq|?%String.eqb_neq]; [by left|by right].
Qed.
Lemma text_or_empty s d : text_or s d = "" <-> s = "" /\ d = "".
Proof. unfold text_or. destruct (String.eqb_spec s ""); naive_solver. Qed.
(** There are files for SIP exactly when there is a key and a certificate,
    wherever each of them comes from. *)
Lemma sip_tls_files_exact s c :
  let key := text_or (m_tlsKeyFile (st_tls s)) (cf_tlsKeyFile (cf_tls c)) in
  let cert := text_or (m_tlsCertFile (st_tls s)) (cf_tlsCertFile (cf_tls c)) in
  sip_tls_files s c = if String.eqb key "" || String.eqb cert "" then None
                      else Some (key, cert, text_or (m_tlsChainFile (st_tls s)) (cf_tlsChainFile (cf_tls c))).
Proof.
  cbn zeta. unfold sip_tls_files, getTlsFiles.
  destruct (String.eqb_spec (text_or (m_tlsKeyFile (st_tls s)) (cf_tlsKeyFile (cf_tls c))) "") as [[_ ->]%text_or_empty|_]; [done|].
  destruct (String.eqb_spec (text_or (m_tlsCertFile (st_tls s)) (cf_tlsCertFile (cf_tls c))) "") as [[_ ->]%text_or_empty|_].
  - by rewrite andb_false_r.
  - by rewrite orb_true_r.
Qed.
(** A transport whose contact names TLS. *)
Definition wants_tls (t : SipTransport) : bool := strstr (m_strContact t) "sips" || strstr (m_strContact t) "tls".
(** Key, certificate and chain that TLS transports are given, if there is a key
    and a certificate. *)
Definition chosen_tls_files (env : string -> option string) (args : list string) (tls : tls_config) : option (string * string * option string) :=
  let key := chosen_text env args "A" "DRACHTIO_TLS_KEY_FILE" (cf_tlsKeyFile tls) in
  let cert := chosen_text env args "B" "DRACHTIO_TLS_CERT_FILE" (cf_tlsCertFile tls) in
  if String.eqb key "" || String.eqb cert "" then None
  else Some (key, cert, some_text (chosen_text env args "C" "DRACHTIO_TLS_CHAIN_FILE" (cf_tlsChainFile tls))).

(** C25: the three sources together.  When the server starts, with whatever
    environment, command line and file: applications must give the secret of
    the command line, failing that of the environment, failing that of the
    file, and no other; the address it listens on for them comes from the same
    sources in this order.  Every transport of the stack whose contact names
    TLS is given key, certificate and chain, each from these sources in this
    order, as soon as there is a key and a certificate, be it from the command
    line or the environment alone; without both it is given none, and other
    transports are given none.  With TLS for applications the same key,
    certificate and chain are used there, and Diffie-Hellman parameters from
    the same sources; a key, parameters and a chain or a certificate are there. *)
Theorem startup_precedence (env : string -> option string) (args : list string) (read_file : string -> option string)
    (s : settings) (sv : server) (g : start) :
  DrachtioController_init env args = Ok (Continue s) ->
  DrachtioController_configure read_file s = Some sv ->
  run (sv_settings sv) (m_Config sv) = Ok g ->
  let admin := cf_admin (m_Config sv) in let tls := cf_tls (m_Config sv) in
  (forall w, server_isSecret sv w = true <-> w = chosen_text env args "F" "DRACHTIO_SECRET" (cf_secret admin)) /\
  cs_address (go_clients g) = chosen_text env args "E" "DRACHTIO_ADMIN_ADDRESS" (cf_adminAddress admin) /\
  (exists s', choose_transports (sv_settings sv) (m_Config sv) = Ok s' /\
     tr_tls_files <$> go_tports g = (fun t => if wants_tls t then chosen_tls_files env args tls else None) <$> m_vecTransports s') /\
  (cs_tlsPort (go_clients g) ≠ 0%Z ->
     cs_keyFile (go_clients g) = chosen_text env args "A" "DRACHTIO_TLS_KEY_FILE" (cf_tlsKeyFile tls) /\
     cs_certFile (go_clients g) = chosen_text env args "B" "DRACHTIO_TLS_CERT_FILE" (cf_tlsCertFile tls) /\
     cs_chainFile (go_clients g) = chosen_text env args "C" "DRACHTIO_TLS_CHAIN_FILE" (cf_tlsChainFile tls) /\
     cs_dhParam (go_clients g) = chosen_text env args "G" "DRACHTIO_TLS_DH_PARAM_FILE" (cf_dhParam tls) /\
     cs_keyFile (go_clients g) ≠ "" /\ cs_dhParam (go_clients g) ≠ "" /\
     (cs_chainFile (go_clients g) ≠ "" \/ cs_certFile (go_clients g) ≠ "")).
Proof.
  intros Hs Hsv Hrun. cbn zeta. pose proof (fun ts => text_setting_value env args s ts Hs) as Hval.
  assert (forall c name get d, TextSetting c name get "" ∈ text_settings -> text_or (get s) d = chosen_text env args c name d) as Hch.
  { intros c name get d Hin. specialize (Hval _ Hin). cbn [ts_get ts_default ts_env ts_option] in Hval. unfold chosen_text. by rewrite Hval. }
  pose proof (fun d => Hch "A"%char "DRACHTIO_TLS_KEY_FILE" (fun s => m_tlsKeyFile (st_tls s)) d ltac:(unfold text_settings; clear; set_solver)) as HA.
  pose proof (fun d => Hch "B"%char "DRACHTIO_TLS_CERT_FILE" (fun s => m_tlsCertFile (st_tls s)) d ltac:(unfold text_settings; clear; set_solver)) as HB.
  pose proof (fun d => Hch "C"%char "DRACHTIO_TLS_CHAIN_FILE" (fun s => m_tlsChainFile (st_tls s)) d ltac:(unfold text_settings; clear; set_solver)) as HC.
  pose proof (fun d => Hch "G"%char "DRACHTIO_TLS_DH_PARAM_FILE" (fun s => m_dhParam (st_tls s)) d ltac:(unfold text_settings; clear; set_solver)) as HG.
  pose proof (fun d => Hch "E"%char "DRACHTIO_ADMIN_ADDRESS" (fun s => m_adminAddress (st_admin s)) d ltac:(unfold text_settings; clear; set_solver)) as HE.
  pose proof (fun d => Hch "F"%char "DRACHTIO_SECRET" (fun s => m_secret (st_admin s)) d ltac:(unfold text_settings; clear; set_solver)) as HF.
  cbn beta in HA, HB, HC, HG, HE, HF. clear Hch Hval.
  apply configure_inv in Hsv as (_ & Eadm & Etls & _).
  apply run_inv in Hrun as (s' & Ech & [u ->] & Hopen & Htports).
  apply open_admin_address in Hopen as (Eaddr & _ & _ & Htls).
  pose proof (sip_tls_files_exact (on_vecTransports u (sv_settings sv)) (m_Config sv)) as Hfiles. cbn zeta in Hfiles.
  change (st_admin (on_vecTransports u (sv_settings sv))) with (st_admin (sv_settings sv)) in *.
  change (st_tls (on_vecTransports u (sv_settings sv))) with (st_tls (sv_settings sv)) in *.
  rewrite Eadm in *. rewrite Etls in *.
  rewrite HA, HB, HC in Hfiles, Htls. rewrite HG in Htls. rewrite HE in Eaddr.
  split; [|split; [exact Eaddr|split; [|exact Htls]]].
  - intros w. rewrite <- HF.
    unfold server_isSecret, config_isSecret, text_or. rewrite Eadm.
    destruct (String.eqb (m_secret (st_admin s)) ""); rewrite String.eqb_eq; naive_solver.
  - eexists. split; [exact Ech|]. rewrite Htports, Hfiles, <- list_fmap_compose. apply list_fmap_ext. intros i t _.
    unfold request_tport, wants_tls, chosen_tls_files. cbn. destruct (_ || strstr _ "tls"); [|done]. by destruct (_ || _).
Qed.

(** ** Reloading *)

(** a reload with a file that is not accepted changes nothing but the
    detail of the next statistics.  With an accepted file the new
    configuration is in use and its levels of logging are set, also over those
    of the command line; every other setting of the command line and of the
    environment stays, and so do the routes for requests, if there were any.
    Nothing is left to be installed, so that the next signal is obeyed. *)
Theorem reload_effect (read_file : string -> option string) (sv : server) :
  m_ConfigNew sv = None ->
  let s := sv_settings sv in let sv' := handleSigHup read_file sv in let s' := sv_settings sv' in
  m_ConfigNew sv' = None /\
  match DrachtioConfig_new (read_file (m_configFilename (st_process s))) with
  | None => s' = s /\ m_Config sv' = m_Config sv /\ sv_sofia_loglevel sv' = sv_sofia_loglevel sv
  | Some c =>
    m_Config sv' = c /\ sv_sofia_loglevel sv' = Some (cf_nSofiaLogLevel (cf_log c)) /\
    m_current_severity_threshold (st_log s') = cf_loglevel (cf_log c) /\
    st_process s' = st_process s /\ st_admin s' = st_admin s /\ st_tls s' = st_tls s /\ st_monitor s' = st_monitor s /\
    st_redis s' = st_redis s /\ st_sip s' = st_sip s /\ m_vecTransports s' = m_vecTransports s /\
    (m_requestRouter s ≠ ∅ -> m_requestRouter s' = m_requestRouter s) /\
    (m_requestRouter s = ∅ -> m_requestRouter s' = cf_router c)
  end.
Proof.
  intros Hnew. cbn zeta. unfold handleSigHup. cbn [m_ConfigNew]. rewrite Hnew. cbn [sv_settings].
  destruct (DrachtioConfig_new _) as [c|] eqn:Ec; [|done].
  assert (cf_loglevel (cf_log c) ≠ log_none) as Hlevel.
  { unfold DrachtioConfig_new in Ec. destruct (read_file _) as [text|]; [|done]. cbn [mbind option_bind] in Ec.
    destruct (read_xml text) as [t|]; [|done]. cbn [mbind option_bind] in Ec.
    destruct (read_config t) as [c'|] eqn:Ec'; [|done]. injection Ec as ->.
    apply read_config_inv in Ec' as (? & ? & _ & _ & _ & _ & -> & _). apply read_log_ok. }
  unfold installConfig. cbn [default from_option m_ConfigNew m_Config sv_settings]. rewrite decide_False by done.
  cbn [m_ConfigNew m_Config sv_sofia_loglevel sv_settings]. split; [done|]. split; [done|]. split; [done|].
  change (m_requestRouter (set_current_severity_threshold (cf_loglevel (cf_log c)) (sv_settings sv))) with (m_requestRouter (sv_settings sv)).
  destruct (bool_decide_reflect (m_requestRouter (sv_settings sv) = ∅)) as [He|Hne]; split_and!; by intros.
Qed.
End startup.
