(* ===== verification/DialogWorld.v ===== *)
(** The state that the dialog controller shares with the objects it manages
    (src/sip-dialog-controller.hpp, src/invite-in-progress.hpp,
    src/sip-dialog.hpp): dialogs, invites in progress, requests in progress,
    the SIP stack and the timers, and the primitive operations on them. *)
From S2P Require Import Prelude CppString TextUtil SipTags ClientController TimerQueue RequestRouter Cdr PendingRequests SipDialog SipTransports Connections.

Open Scope list_scope.

(** ** The state of the main controller
    The state of [DrachtioController] (src/controller.hpp) beside its tables
    of connections: pending requests, routes, blacklist and proxies, and the
    references on the messages that came in. *)

Section main_tables.
Context `{sutime : SuTime}.

(** [mt_prc], [mt_router] and [mt_web]: pending requests, router and the web
    requests made for it; [mt_held]: the message and transport that a pending
    request keeps, by transaction id; [mt_proxies]: [m_mapCallId2Proxy];
    [mt_blacklist]: the addresses of [m_pBlacklist], if there is one;
    [mt_owed]: for each message, the references that no transaction, pending
    request or proxy accounts for (negative: one of these lost its own);
    [mt_clock]: the time that the timer queue reads. *)
Record main_tables := MkMain {
  mt_prc : PendingRequestController;
  mt_router : RequestRouter;
  mt_web : list web_request;
  mt_held : gmap string (positive * positive);
  mt_proxies : gmap string positive;
  mt_blacklist : option (gset string);
  mt_owed : gmap positive Z;
  mt_clock : su_time_t;
}.
Definition set_mt_server (s : server) (t : main_tables) :=
  MkMain (srv_prc s) (srv_router s) (srv_web s) (mt_held t) (mt_proxies t) (mt_blacklist t) (mt_owed t) (mt_clock t).
Definition on_mt_held u t := MkMain (mt_prc t) (mt_router t) (mt_web t) (u (mt_held t)) (mt_proxies t) (mt_blacklist t) (mt_owed t) (mt_clock t).
Definition on_mt_proxies u t := MkMain (mt_prc t) (mt_router t) (mt_web t) (mt_held t) (u (mt_proxies t)) (mt_blacklist t) (mt_owed t) (mt_clock t).
Definition on_mt_owed u t := MkMain (mt_prc t) (mt_router t) (mt_web t) (mt_held t) (mt_proxies t) (mt_blacklist t) (u (mt_owed t)) (mt_clock t).
Definition owed (t : main_tables) (msg : positive) : Z := default 0%Z (mt_owed t !! msg).
Definition no_main (now : su_time_t) : main_tables := MkMain PRC_new ∅ [] ∅ ∅ None ∅ now.
End main_tables.

Section timed.
Context `{sutime : SuTime}.

(** ** The SIP stack *)

(** What the stack answers about the transports, incoming transactions and
    legs it handed out. *)
Class NtaAgent := {
  nta_incoming_method : positive -> sip_method_t;
  nta_leg_call_id : positive -> string;
  (** the remote target of a leg *)
  nta_leg_remote_target : positive -> option url_t;
  (** the text of a URL *)
  url_e : url_t -> string;
}.

(** ** Objects *)

(** [IIP]: an invite in progress. *)
Inductive agent_role := uac_role | uas_role.
Record IIP := MkIIP {
  iip_leg : option positive;
  iip_irq : option positive;
  iip_orq : option positive;
  iip_transactionId : string;
  iip_reliables : list positive;
  iip_dlg : positive;
  iip_role : agent_role;
  iip_canceled : bool;
  iip_timerCancel : option positive;
  iip_ppSelf : option positive;
}.
Definition on_iip_reliables u i := MkIIP (iip_leg i) (iip_irq i) (iip_orq i) (iip_transactionId i) (u (iip_reliables i)) (iip_dlg i)
  (iip_role i) (iip_canceled i) (iip_timerCancel i) (iip_ppSelf i).
Definition set_iip_canceled b i := MkIIP (iip_leg i) (iip_irq i) (iip_orq i) (iip_transactionId i) (iip_reliables i) (iip_dlg i)
  (iip_role i) b (iip_timerCancel i) (iip_ppSelf i).
Definition set_iip_timer t p i := MkIIP (iip_leg i) (iip_irq i) (iip_orq i) (iip_transactionId i) (iip_reliables i) (iip_dlg i)
  (iip_role i) (iip_canceled i) t p.

(** [RIP]: a request in progress. *)
Record RIP := MkRIP {
  rip_transactionId : string;
  rip_dialogId : string;
  rip_dlg : option positive;
  rip_bClearDialogOnResponse : bool;
}.

(** The members of a [SipDialog] that only the dialog controller uses. *)
Record dialog_ctl := DialogCtl {
  m_timerG : option positive;
  m_timerH : option positive;
  m_irqInvite : option positive;
  m_irqUpdate : option positive;
  m_updateTransactionId : string;
  m_bAckBye : bool;
  m_strLocalContact : string;
}.
Definition set_timerG h c := DialogCtl h (m_timerH c) (m_irqInvite c) (m_irqUpdate c) (m_updateTransactionId c) (m_bAckBye c) (m_strLocalContact c).
Definition set_timerH h c := DialogCtl (m_timerG c) h (m_irqInvite c) (m_irqUpdate c) (m_updateTransactionId c) (m_bAckBye c) (m_strLocalContact c).
Definition set_irqInvite q c := DialogCtl (m_timerG c) (m_timerH c) q (m_irqUpdate c) (m_updateTransactionId c) (m_bAckBye c) (m_strLocalContact c).
Definition set_update q txn c := DialogCtl (m_timerG c) (m_timerH c) (m_irqInvite c) q txn (m_bAckBye c) (m_strLocalContact c).
Definition set_ackBye b c := DialogCtl (m_timerG c) (m_timerH c) (m_irqInvite c) (m_irqUpdate c) (m_updateTransactionId c) b (m_strLocalContact c).
Definition set_localContact s c := DialogCtl (m_timerG c) (m_timerH c) (m_irqInvite c) (m_irqUpdate c) (m_updateTransactionId c) (m_bAckBye c) s.
Definition no_ctl : dialog_ctl := DialogCtl None None None None "" false "".

(** ** Timers *)

(** The functions that the dialog controller gives to the timer queues. *)
Inductive timer_fn :=
  | retransmitFinalResponse_fn (irq tp dlg : positive)
  | endRetransmitFinalResponse_fn (irq tp dlg : positive)
  | timerD_fn (invite : positive) (callIdAndCSeq : string)
  | timeoutBye_fn (transactionId : string).

(** ** Messages *)

(** What the handlers read of a response: whether the stack made it up
    ([nta_sip_is_internal]), the parsed message, the method of the CSeq, the
    status, the To tag, whether there is an RSeq, the body, delta and
    refresher of Session-Expires, the URL of the Contact, the host of the
    route that the response gives the leg (if there is a route, and if it has
    a host), and its encoding and meta data. *)
Record sip_response := SipResponse {
  rs_internal : bool;
  rs_sip : sip_t;
  rs_cs_method : sip_method_t;
  rs_status : Z;
  rs_to_tag : option string;
  rs_rseq : bool;
  rs_payload : option string;
  rs_session_expires : option (Z * option string);
  rs_contact : option url_t;
  rs_route_host : option (option string);
  rs_encoded : string;
  rs_meta : SipMsgData_t;
}.
(** The same for a request: what is routed to the clients, and the rest. *)
Record sip_request := SipRequest {
  rq_sip : sip_t;
  rq_dialog : dialog_request;
  rq_session_expires : option (Z * option string);
  rq_encoded : string;
  rq_meta : SipMsgData_t;
}.

(** The options of the server that the dialog controller reads. *)
Class DialogConfig := {
  tportMaxConsecutiveTimeouts : N;
  aggressiveNatEnabled : bool;
  natDetectionDisabled : bool;
}.

(** ** Outputs and inputs *)

(** What leaves through the stack or is posted, in order. *)
Inductive dc_event :=
  | SentRequest (orq leg : positive) (method : sip_method_t) (route uri : string) (tport : option positive)
  | SentWithHeaders (orq leg : positive) (method : sip_method_t) (route uri : string) (tport : option positive)
      (headers : list (tag_type_t * string))
  | SentReply (irq : positive) (status : Z)
  | SentResponse (irq : positive) (status : Z) (reliably : bool) (headers : list (tag_type_t * string))
  | RepliedTo (msg : positive) (status : Z)
  | RepliedToCopy (msg : positive) (status : Z)
  | DiscardedMessage (msg : positive)
  | ForwardedMessage (msg : positive) (tport : option positive)
  | RetransmittedReply (irq tp : positive)
  | RetransmittedRequest (orq : positive)
  | CancelledRequest (orq : positive)
  | ShutTport (tp : positive)
  | PostedCdr (record : RecordType_t) (source : string) (role : AgentRole_t) (reason : TerminationReason_t).

(** What the stack gives a transaction that it creates: the transport (none
    while a name is being resolved), the call id and CSeq of the request, its
    Session-Expires, the host of its URI, the scheme of its route, the substate
    of its Subscription-State, and the text and meta data of the message. *)
Record created := Created {
  cr_tport : option positive;
  nta_outgoing_call_id : string;
  nta_outgoing_cseq : Z;
  cr_session_expires : option Z;
  cr_request_host : option string;
  cr_route_scheme : option string;
  cr_substate : option string;
  cr_encoded : string;
  cr_meta : SipMsgData_t;
}.

(** Results that the state does not determine, used from the front: ids,
    [rand()], the transactions that the stack creates ([None]: the call
    returns NULL), and return codes of replies. *)
Record inputs := Inputs {
  in_uuids : list string;
  in_rands : list nat;
  in_creates : list (option created);
  in_replies : list Z;
}.

(** ** State *)

(** [TimerDHandler] *)
Record TimerDHandler := MkTimerD {
  m_mapCallIdAndCSeq2Invite : gmap string positive;
  m_mapInvite2Ack : gmap positive positive;
}.
Definition on_pending u t := MkTimerD (u (m_mapCallIdAndCSeq2Invite t)) (m_mapInvite2Ack t).
Definition on_acks u t := MkTimerD (m_mapCallIdAndCSeq2Invite t) (u (m_mapInvite2Ack t)).

(** [class SipDialogController] with what it works on: the stack, the live
    incoming transactions and reliable responses, the dialog objects, the
    container of stable dialogs, the invites in progress (objects, and the
    members of the container), requests in progress, incoming requests by
    transaction id, timer D, the timers in the queues (queue, function,
    milliseconds), timeouts per connection, the client controller, the tables
    of connections of [DrachtioController] and the rest of its state, and what
    was sent in each outgoing transaction (by address; one that was destroyed
    may be followed by another at the same address). *)
Record SipDialogController := MkDC {
  dc_stack : stack;
  dc_irqs : gset positive;
  dc_rels : gset positive;
  dc_dialogs : gmap positive (SipDialog * dialog_ctl);
  dc_stable : StableDialogs_t;
  dc_iips : gmap positive IIP;
  dc_inProgress : gset positive;
  dc_rips : gmap positive RIP;
  dc_txn2irq : gmap string positive;
  dc_timerD : TimerDHandler;
  dc_armed : gmap positive (string * timer_fn * Z);
  dc_timeouts : gmap string N;
  dc_clients : ClientController;
  dc_sent : gmap positive created;
  dc_events : list dc_event;
  dc_inputs : inputs;
  dc_conns : conn_tables;
  dc_main : main_tables;
}.
Definition on_dc_stack u w := MkDC (u (dc_stack w)) (dc_irqs w) (dc_rels w) (dc_dialogs w) (dc_stable w) (dc_iips w) (dc_inProgress w) (dc_rips w) (dc_txn2irq w) (dc_timerD w) (dc_armed w) (dc_timeouts w) (dc_clients w) (dc_sent w) (dc_events w) (dc_inputs w) (dc_conns w) (dc_main w).
Definition on_dc_irqs u w := MkDC (dc_stack w) (u (dc_irqs w)) (dc_rels w) (dc_dialogs w) (dc_stable w) (dc_iips w) (dc_inProgress w) (dc_rips w) (dc_txn2irq w) (dc_timerD w) (dc_armed w) (dc_timeouts w) (dc_clients w) (dc_sent w) (dc_events w) (dc_inputs w) (dc_conns w) (dc_main w).
Definition on_dc_rels u w := MkDC (dc_stack w) (dc_irqs w) (u (dc_rels w)) (dc_dialogs w) (dc_stable w) (dc_iips w) (dc_inProgress w) (dc_rips w) (dc_txn2irq w) (dc_timerD w) (dc_armed w) (dc_timeouts w) (dc_clients w) (dc_sent w) (dc_events w) (dc_inputs w) (dc_conns w) (dc_main w).
Definition on_dc_dialogs u w := MkDC (dc_stack w) (dc_irqs w) (dc_rels w) (u (dc_dialogs w)) (dc_stable w) (dc_iips w) (dc_inProgress w) (dc_rips w) (dc_txn2irq w) (dc_timerD w) (dc_armed w) (dc_timeouts w) (dc_clients w) (dc_sent w) (dc_events w) (dc_inputs w) (dc_conns w) (dc_main w).
Definition on_dc_stable u w := MkDC (dc_stack w) (dc_irqs w) (dc_rels w) (dc_dialogs w) (u (dc_stable w)) (dc_iips w) (dc_inProgress w) (dc_rips w) (dc_txn2irq w) (dc_timerD w) (dc_armed w) (dc_timeouts w) (dc_clients w) (dc_sent w) (dc_events w) (dc_inputs w) (dc_conns w) (dc_main w).
Definition on_dc_iips u w := MkDC (dc_stack w) (dc_irqs w) (dc_rels w) (dc_dialogs w) (dc_stable w) (u (dc_iips w)) (dc_inProgress w) (dc_rips w) (dc_txn2irq w) (dc_timerD w) (dc_armed w) (dc_timeouts w) (dc_clients w) (dc_sent w) (dc_events w) (dc_inputs w) (dc_conns w) (dc_main w).
Definition on_dc_inProgress u w := MkDC (dc_stack w) (dc_irqs w) (dc_rels w) (dc_dialogs w) (dc_stable w) (dc_iips w) (u (dc_inProgress w)) (dc_rips w) (dc_txn2irq w) (dc_timerD w) (dc_armed w) (dc_timeouts w) (dc_clients w) (dc_sent w) (dc_events w) (dc_inputs w) (dc_conns w) (dc_main w).
Definition on_dc_rips u w := MkDC (dc_stack w) (dc_irqs w) (dc_rels w) (dc_dialogs w) (dc_stable w) (dc_iips w) (dc_inProgress w) (u (dc_rips w)) (dc_txn2irq w) (dc_timerD w) (dc_armed w) (dc_timeouts w) (dc_clients w) (dc_sent w) (dc_events w) (dc_inputs w) (dc_conns w) (dc_main w).
Definition on_dc_txn2irq u w := MkDC (dc_stack w) (dc_irqs w) (dc_rels w) (dc_dialogs w) (dc_stable w) (dc_iips w) (dc_inProgress w) (dc_rips w) (u (dc_txn2irq w)) (dc_timerD w) (dc_armed w) (dc_timeouts w) (dc_clients w) (dc_sent w) (dc_events w) (dc_inputs w) (dc_conns w) (dc_main w).
Definition on_dc_timerD u w := MkDC (dc_stack w) (dc_irqs w) (dc_rels w) (dc_dialogs w) (dc_stable w) (dc_iips w) (dc_inProgress w) (dc_rips w) (dc_txn2irq w) (u (dc_timerD w)) (dc_armed w) (dc_timeouts w) (dc_clients w) (dc_sent w) (dc_events w) (dc_inputs w) (dc_conns w) (dc_main w).
Definition on_dc_armed u w := MkDC (dc_stack w) (dc_irqs w) (dc_rels w) (dc_dialogs w) (dc_stable w) (dc_iips w) (dc_inProgress w) (dc_rips w) (dc_txn2irq w) (dc_timerD w) (u (dc_armed w)) (dc_timeouts w) (dc_clients w) (dc_sent w) (dc_events w) (dc_inputs w) (dc_conns w) (dc_main w).
Definition on_dc_timeouts u w := MkDC (dc_stack w) (dc_irqs w) (dc_rels w) (dc_dialogs w) (dc_stable w) (dc_iips w) (dc_inProgress w) (dc_rips w) (dc_txn2irq w) (dc_timerD w) (dc_armed w) (u (dc_timeouts w)) (dc_clients w) (dc_sent w) (dc_events w) (dc_inputs w) (dc_conns w) (dc_main w).
Definition on_dc_clients u w := MkDC (dc_stack w) (dc_irqs w) (dc_rels w) (dc_dialogs w) (dc_stable w) (dc_iips w) (dc_inProgress w) (dc_rips w) (dc_txn2irq w) (dc_timerD w) (dc_armed w) (dc_timeouts w) (u (dc_clients w)) (dc_sent w) (dc_events w) (dc_inputs w) (dc_conns w) (dc_main w).
Definition on_dc_sent u w := MkDC (dc_stack w) (dc_irqs w) (dc_rels w) (dc_dialogs w) (dc_stable w) (dc_iips w) (dc_inProgress w) (dc_rips w) (dc_txn2irq w) (dc_timerD w) (dc_armed w) (dc_timeouts w) (dc_clients w) (u (dc_sent w)) (dc_events w) (dc_inputs w) (dc_conns w) (dc_main w).
Definition on_dc_events u w := MkDC (dc_stack w) (dc_irqs w) (dc_rels w) (dc_dialogs w) (dc_stable w) (dc_iips w) (dc_inProgress w) (dc_rips w) (dc_txn2irq w) (dc_timerD w) (dc_armed w) (dc_timeouts w) (dc_clients w) (dc_sent w) (u (dc_events w)) (dc_inputs w) (dc_conns w) (dc_main w).
Definition on_dc_inputs u w := MkDC (dc_stack w) (dc_irqs w) (dc_rels w) (dc_dialogs w) (dc_stable w) (dc_iips w) (dc_inProgress w) (dc_rips w) (dc_txn2irq w) (dc_timerD w) (dc_armed w) (dc_timeouts w) (dc_clients w) (dc_sent w) (dc_events w) (u (dc_inputs w)) (dc_conns w) (dc_main w).
Definition on_dc_conns u w := MkDC (dc_stack w) (dc_irqs w) (dc_rels w) (dc_dialogs w) (dc_stable w) (dc_iips w) (dc_inProgress w) (dc_rips w) (dc_txn2irq w) (dc_timerD w) (dc_armed w) (dc_timeouts w) (dc_clients w) (dc_sent w) (dc_events w) (dc_inputs w) (u (dc_conns w)) (dc_main w).
Definition on_dc_main u w := MkDC (dc_stack w) (dc_irqs w) (dc_rels w) (dc_dialogs w) (dc_stable w) (dc_iips w) (dc_inProgress w) (dc_rips w) (dc_txn2irq w) (dc_timerD w) (dc_armed w) (dc_timeouts w) (dc_clients w) (dc_sent w) (dc_events w) (dc_inputs w) (dc_conns w) (u (dc_main w)).

Abbreviation DC := (M SipDialogController).

(** What the stack knows of an incoming transaction: its method, the call id,
    Session-Expires, support of session timers and the Contact of the
    request, and the transport. *)
Record incoming_view := IncomingView {
  iv_method : sip_method_t;
  iv_call_id : string;
  iv_session_expires : option (Z * option string);
  iv_supports_timer : bool;
  iv_contact : option url_t;
  iv_tport : option positive;
}.
(** A response that the stack made: method of the CSeq, Expires and the
    expires parameter of the Contact (if there is a Contact), text and meta
    data. *)
Record made_response := MadeResponse {
  mr_cseq_method : string;
  mr_expires : option Z;
  mr_contact_expires : option (option string);
  mr_encoded : string;
  mr_meta : SipMsgData_t;
}.
Class NtaMessages := {
  nta_incoming_view : positive -> incoming_view;
  (** [nta_incoming_method(NULL)] *)
  nta_no_method : sip_method_t;
  (** [None]: a NULL result *)
  nta_incoming_getresponse : SipDialogController -> positive -> option made_response;
  (** the status and the interval and refresher that a text stands for *)
  sip_status_make : string -> option Z;
  sip_session_expires_make : string -> option (Z * option string);
  (** whether [nta_leg_get_route] succeeds *)
  nta_leg_has_route : positive -> bool;
  (** what [url_e] leaves in a buffer of 255 bytes *)
  url_e_255 : url_t -> string;
}.
(** What sending for an application asks of [DrachtioController]: the
    refresher by default, the environment's best-effort TLS, and the headers
    whose spelling is kept. *)
Class MainSending := {
  sessionTimerDefaultRefresher : string;
  supportBestEffortTls : bool;
  preservedHeaders : list string;
}.

Definition on_stack {A} (m : ST A) : DC A := zoom dc_stack (fun s => on_dc_stack (fun _ => s)) m.
Definition clients {A} (m : CC A) : DC A := zoom dc_clients (fun c => on_dc_clients (fun _ => c)) m.
(** The tables of connections, with the references they hold. *)
Definition on_conns {A} (m : CT A) : DC A := fun w =>
  match m (dc_conns w, dc_stack w) with
  | Ok (a, (t, s)) => Ok (a, on_dc_conns (fun _ => t) (on_dc_stack (fun _ => s) w))
  | Fault f => Fault f
  end.
(** The value of a computation that cannot change the state. *)
Definition pure {A} (r : res A) : DC A := fun w => match r with Ok a => Ok (a, w) | Fault f => Fault f end.
(** The rest of [DrachtioController], with the client controller. *)
Definition server_of (w : SipDialogController) : server :=
  MkServer (mt_prc (dc_main w)) (dc_clients w) (mt_router (dc_main w)) (mt_web (dc_main w)).
Definition set_server (s : server) (w : SipDialogController) : SipDialogController :=
  on_dc_main (set_mt_server s) (on_dc_clients (fun _ => srv_clients s) w).
Definition on_server {A} (m : M server A) : DC A := zoom server_of set_server m.
Definition on_main (f : main_tables -> main_tables) : DC unit := modify (on_dc_main f).
#[export] Instance server_lens : Lens server_of set_server.
Proof. split; [by intros []|done|]. by intros [? ? ? ? ? ? ? ? ? ? ? ? ? ? ? ? ? []]. Qed.
Definition findTportForSubscription (user : option string) (host : string) : DC (option positive) :=
  on_conns (ua ← ct_findTportForSubscription user host; mret (ua_tport <$> ua)).
Definition cacheTportForSubscription (user host : option string) (expires : Z) (tp : positive) : DC unit :=
  on_conns (ct_cacheTportForSubscription user host expires tp).
Definition flushTportForSubscription (user host : option string) : DC unit := on_conns (ct_flushTportForSubscription user host).
Definition getTportForContactAlias `{SofiaTport} `{TportTree} `{TportByName} (pinned : positive)
    (proto srcAddress advertisedHost : string) (advertisedPort : option string) : DC (option positive) :=
  on_conns (ct_getTportForContactAlias pinned proto srcAddress advertisedHost advertisedPort).
Definition emit (e : dc_event) : DC unit := modify (on_dc_events (fun l => l ++ [e])).

Definition next_uuid : DC string :=
  w ← get;
  let i := dc_inputs w in
  _ ← modify (on_dc_inputs (fun i => Inputs (tail (in_uuids i)) (in_rands i) (in_creates i) (in_replies i)));
  mret (default ""%string (head (in_uuids i))).
Definition next_rand : DC nat :=
  w ← get;
  let i := dc_inputs w in
  _ ← modify (on_dc_inputs (fun i => Inputs (in_uuids i) (tail (in_rands i)) (in_creates i) (in_replies i)));
  mret (default 0 (head (in_rands i))).
Definition next_create : DC (option created) :=
  w ← get;
  let i := dc_inputs w in
  _ ← modify (on_dc_inputs (fun i => Inputs (in_uuids i) (in_rands i) (tail (in_creates i)) (in_replies i)));
  mret (default None (head (in_creates i))).
Definition next_reply : DC Z :=
  w ← get;
  let i := dc_inputs w in
  _ ← modify (on_dc_inputs (fun i => Inputs (in_uuids i) (in_rands i) (in_creates i) (tail (in_replies i))));
  mret (default 0%Z (head (in_replies i))).

(** ** Transactions *)

(** [nta_incoming_destroy(irq)]; destroying a transaction twice is a fault,
    NULL is ignored. *)
Definition nta_incoming_destroy (irq : option positive) : DC unit :=
  match irq with
  | None => mret tt
  | Some q => w ← get; if bool_decide (q ∈ dc_irqs w) then modify (on_dc_irqs (fun s => s ∖ {[q]})) else fail BadAccess
  end.
(** Another use of a transaction, which must not have been destroyed. *)
Definition live_irq (irq : positive) : DC unit :=
  w ← get; if bool_decide (irq ∈ dc_irqs w) then mret tt else fail BadAccess.
(** [nta_incoming_treply(irq, status, ...)] *)
Definition nta_incoming_treply (irq : positive) (status : Z) : DC Z :=
  w ← get;
  if bool_decide (irq ∈ dc_irqs w) then
    rc ← next_reply;
    _ ← (if Z.eqb rc 0 then emit (SentReply irq status) else mret tt);
    mret rc
  else fail BadAccess.
Definition nta_reliable_destroy (rel : positive) : DC unit :=
  w ← get; if bool_decide (rel ∈ dc_rels w) then modify (on_dc_rels (fun s => s ∖ {[rel]})) else fail BadAccess.
(** [nta_outgoing_tcreate(leg, ..., route, method, uri, NTATAG_TPORT(tp))] *)
Definition nta_outgoing_tcreate (leg : positive) (route : string) (method : sip_method_t) (uri : string)
    (tp : option positive) : DC (option positive) :=
  w ← get;
  if bool_decide (leg ∈ st_legs (dc_stack w)) then
    c ← next_create;
    match c with
    | None => mret None
    | Some cr =>
      let q := fresh_addr (st_orqs (dc_stack w)) in
      _ ← on_stack (modify (on_orqs (insert q (cr_tport cr))));
      _ ← modify (on_dc_sent (insert q cr));
      _ ← emit (SentRequest q leg method route uri tp);
      mret (Some q)
    end
  else fail BadAccess.
Definition outgoing_destroy (orq : positive) : DC unit := on_stack (nta_outgoing_destroy orq).
(** A use of a transaction that must be live. *)
Definition live_orq (orq : positive) : DC unit :=
  w ← get; if bool_decide (is_Some (st_orqs (dc_stack w) !! orq)) then mret tt else fail BadAccess.
(** What is known of a live transaction. *)
Definition sent_of (orq : positive) : DC created := _ ← live_orq orq; w ← get; deref (dc_sent w !! orq).

Section agent.
Context `{NtaAgent}.
(** [nta_leg_by_call_id(agent, call_id)] *)
Definition nta_leg_by_call_id (callId : string) : DC (option positive) :=
  w ← get; mret (head (filter (fun l => nta_leg_call_id l = callId) (elements (st_legs (dc_stack w))))).
End agent.

(** ** Dialog objects *)

Definition dlg_load (p : positive) : DC (SipDialog * dialog_ctl) := w ← get; deref (dc_dialogs w !! p).
(** Run a method of the dialog [p]. *)
Definition on_dlg {A} (p : positive) (m : DLG A) : DC A := fun w =>
  match dc_dialogs w !! p with
  | None => Fault BadAccess
  | Some (d, c) =>
    match m (d, dc_stack w) with
    | Ok (a, (d', s')) => Ok (a, on_dc_dialogs (insert p (d', c)) (on_dc_stack (fun _ => s') w))
    | Fault f => Fault f
    end
  end.
Definition on_ctl (p : positive) (f : dialog_ctl -> dialog_ctl) : DC unit :=
  x ← dlg_load p; modify (on_dc_dialogs (insert p (x.1, f x.2))).
Definition dlg_ctl (p : positive) : DC dialog_ctl := x ← dlg_load p; mret x.2.
Definition dlg_self (p : positive) : DC SipDialog := x ← dlg_load p; mret x.1.
(** [dlg->getDialogId()], which caches the id. *)
Definition dlg_getDialogId (p : positive) : DC string :=
  on_dlg p (d ← self; _ ← this (fun d => (getDialogId d).2); mret (getDialogId d).1).
Definition dlg_getTransactionId (p : positive) : DC string := d ← dlg_self p; mret (m_transactionId (d_ids d)).
Definition dlg_getRouteUri (p : positive) : DC string := d ← dlg_self p; mret (m_routeUri (d_net d)).
Definition dlg_getSipStatus (p : positive) : DC Z := d ← dlg_self p; mret (m_recentSipStatus d).
Definition dlg_setSipStatus (p : positive) (status : Z) : DC unit :=
  on_dlg p (this (fun d => MkSipDialog (d_ids d) (d_net d) (d_session d) (m_leg d) (m_orq d) (m_seq d) status
    (m_bInviteDialog d) (m_durationTimerG d) (m_incomingRequestTransactionIds d))).

(** ** Timer queues *)

Definition addTimer (queue : string) (f : timer_fn) (ms : Z) : DC positive :=
  w ← get;
  let h := fresh_addr (dc_armed w) in
  _ ← modify (on_dc_armed (insert h (queue, f, ms)));
  mret h.
(** A handle must be armed in the queue it is removed from. *)
Definition removeTimer (h : positive) (queue : string) : DC unit :=
  w ← get;
  match dc_armed w !! h with
  | Some (q, _, _) => if String.eqb q queue then modify (on_dc_armed (delete h)) else fail BadAccess
  | None => fail BadAccess
  end.
End timed.
Abbreviation DC := (M SipDialogController).
