(* ===== verification/InviteInProgress.v ===== *)
(** Model of [IIP] and the container of invites in progress
    (src/invite-in-progress.hpp, src/invite-in-progress.cpp). *)
From S2P Require Import Prelude CppString TextUtil SipTags ClientController TimerQueue PendingRequests SipDialog DialogWorld.

Open Scope list_scope.

Section timed.
Context `{sutime : SuTime}.

(** ** Objects *)

Definition iip_load (p : positive) : DC IIP := w ← get; deref (dc_iips w !! p).
Definition iip_store (p : positive) (f : IIP -> IIP) : DC unit :=
  i ← iip_load p; modify (on_dc_iips (insert p (f i))).

Definition IIP_addReliable (p rel : positive) : DC unit := iip_store p (on_iip_reliables (fun l => l ++ [rel])).
(** [m_reliables.erase(it)] of the first occurrence. *)
Fixpoint erase_first (rel : positive) (l : list positive) : list positive :=
  match l with
  | [] => []
  | r :: l => if bool_decide (r = rel) then l else r :: erase_first rel l
  end.
Definition IIP_destroyReliable (p rel : positive) : DC unit :=
  i ← iip_load p;
  if bool_decide (rel ∈ iip_reliables i) then
    _ ← nta_reliable_destroy rel;
    iip_store p (on_iip_reliables (erase_first rel))
  else mret tt.
Fixpoint destroy_reliables (l : list positive) : DC unit :=
  match l with [] => mret tt | rel :: l => _ ← nta_reliable_destroy rel; destroy_reliables l end.
Definition IIP_destroyAllReliables (p : positive) : DC unit :=
  i ← iip_load p;
  _ ← destroy_reliables (iip_reliables i);
  iip_store p (on_iip_reliables (fun _ => [])).

(** ** Cancel timer *)

Definition startCancelTimer (p : positive) : DC unit :=
  i ← iip_load p;
  match iip_timerCancel i with
  | Some _ => mret tt
  | None =>
    c ← on_stack (acquire st_cells on_cells);
    t ← on_stack (acquire st_timers on_su_timers);
    iip_store p (set_iip_timer (Some t) (Some c))
  end.
Definition stopCancelTimer (p : positive) : DC unit :=
  i ← iip_load p;
  _ ← match iip_timerCancel i with
      | Some t => on_stack (release st_timers on_su_timers t)
      | None => mret tt
      end;
  iip_store p (set_iip_timer None (iip_ppSelf i)).
Definition IIP_setCanceled (p : positive) : DC unit :=
  _ ← iip_store p (set_iip_canceled true); startCancelTimer p.

(** [~IIP] *)
Definition IIP_destroy (p : positive) : DC unit :=
  _ ← stopCancelTimer p;
  _ ← IIP_destroyAllReliables p;
  i ← iip_load p;
  _ ← match iip_ppSelf i with Some c => on_stack (release st_cells on_cells c) | None => mret tt end;
  modify (on_dc_iips (delete p)).

(** ** The container *)

(** The members, and the first that passes a test. *)
Definition members (w : SipDialogController) : list (positive * IIP) :=
  filter (fun e => e.1 ∈ dc_inProgress w) (map_to_list (dc_iips w)).
Definition iip_find (test : IIP -> bool) : DC (option positive) :=
  w ← get; mret (fst <$> head (filter (fun e => test e.2 = true) (members w))).
Definition IIP_FindByIrq (irq : positive) : DC (option positive) :=
  iip_find (fun i => bool_decide (iip_irq i = Some irq)).
Definition IIP_FindByOrq (orq : positive) : DC (option positive) :=
  iip_find (fun i => bool_decide (iip_orq i = Some orq)).
Definition IIP_FindByLeg (leg : option positive) : DC (option positive) :=
  iip_find (fun i => bool_decide (iip_leg i = leg)).
Definition IIP_FindByReliable (rel : positive) : DC (option positive) :=
  iip_find (fun i => bool_decide (rel ∈ iip_reliables i)).
Definition IIP_FindByTransactionId (transactionId : string) : DC (option positive) :=
  iip_find (fun i => bool_decide (iip_transactionId i = transactionId)).
Definition IIP_Size : DC nat := w ← get; mret (length (members w)).

(** The container refuses a second member with a transaction id; the object
    that was made for it dies at once. *)
Definition IIP_insert (i : IIP) : DC unit :=
  old ← IIP_FindByTransactionId (iip_transactionId i);
  match old with
  | Some _ => mret tt
  | None =>
    w ← get;
    let p := fresh_addr (dc_iips w) in
    _ ← modify (on_dc_iips (insert p i));
    modify (on_dc_inProgress (fun s => {[p]} ∪ s))
  end.
Definition IIP_Insert_incoming (leg irq : positive) (transactionId : string) (dlg : positive) : DC unit :=
  IIP_insert (MkIIP (Some leg) (Some irq) None transactionId [] dlg uas_role false None None).
Definition IIP_Insert_outgoing (leg orq : positive) (transactionId : string) (dlg : positive) : DC unit :=
  IIP_insert (MkIIP (Some leg) None (Some orq) transactionId [] dlg uac_role false None None).

(** [IIP_Clear(iips, iip)] erases by leg. *)
Definition IIP_Clear (p : positive) : DC unit :=
  i ← iip_load p;
  _ ← match iip_irq i with
      | Some irq => _ ← on_ctl (iip_dlg i) (set_irqInvite None); nta_incoming_destroy (Some irq)
      | None => mret tt
      end;
  _ ← IIP_destroyAllReliables p;
  w ← get;
  let same := (filter (fun e : positive * IIP => iip_leg e.2 = iip_leg i) (members w)).*1 in
  modify (on_dc_inProgress (fun s => s ∖ list_to_set same)).
Definition IIP_Clear_leg (leg : option positive) : DC unit :=
  p ← IIP_FindByLeg leg; match p with Some p => IIP_Clear p | None => mret tt end.

(** [modify] on the element found by the transaction id. *)
Definition IIP_AddReliable (p rel : positive) : DC unit :=
  i ← iip_load p;
  q ← IIP_FindByTransactionId (iip_transactionId i);
  match q with Some q => IIP_addReliable q rel | None => fail BadAccess end.
Definition IIP_DestroyReliable (p rel : positive) : DC unit :=
  i ← iip_load p;
  q ← IIP_FindByTransactionId (iip_transactionId i);
  match q with Some q => IIP_destroyReliable q rel | None => fail BadAccess end.

(** ** The cancel timer goes off *)

Definition notifyCancelTimeoutReachedIIP (p : positive) : DC unit :=
  i ← iip_load p;
  _ ← clients (removeAppTransaction (iip_transactionId i));
  IIP_Clear p.
(** The handler fails an assertion when the object is gone. *)
Definition doCancelTimerHandling (p : positive) : DC unit :=
  w ← get;
  _ ← assertb (bool_decide (is_Some (dc_iips w !! p)));
  _ ← notifyCancelTimeoutReachedIIP p;
  i ← iip_load p;
  _ ← match iip_ppSelf i with Some c => on_stack (release st_cells on_cells c) | None => mret tt end;
  iip_store p (set_iip_timer None None).

(** The objects that have left the container die when the function that
    removed them returns and drops its local pointers. *)
Fixpoint destroy_iips (ps : list positive) : DC unit :=
  match ps with [] => mret tt | p :: ps => _ ← IIP_destroy p; destroy_iips ps end.
Definition reap_iips : DC unit :=
  w ← get;
  destroy_iips (filter (fun p => p ∉ dc_inProgress w) (map_to_list (dc_iips w)).*1).
End timed.
