(* ===== verification/InviteInProgressCorrect.v ===== *)
(** Correctness of the invites in progress: every resource of an invite is
    released once, transaction ids are unique, and what clearing removes. *)
From S2P Require Import Prelude CppString TextUtil SipTags ClientController TimerQueue PendingRequests SipDialog DialogWorld InviteInProgress.

Open Scope list_scope.

Section timed.
Context `{sutime : SuTime}.

(** ** Runs of the primitives *)

Section runs.
Implicit Types (w : SipDialogController).

Lemma iip_load_ok p i w : dc_iips w !! p = Some i -> iip_load p w = Ok (i, w).
Proof. intros E. unfold iip_load. mstep. unfold deref. by rewrite E. Qed.
Lemma iip_store_ok p f i w :
  dc_iips w !! p = Some i -> iip_store p f w = Ok (tt, on_dc_iips (insert p (f i)) w).
Proof. intros E. unfold iip_store. by rewrite (M_bind_ok _ _ _ _ _ (iip_load_ok _ _ _ E)). Qed.

Lemma destroy_reliables_ok l w :
  NoDup l -> (forall r, r ∈ l -> r ∈ dc_rels w) ->
  destroy_reliables l w = Ok (tt, on_dc_rels (fun s => s ∖ list_to_set l) w).
Proof.
  revert w. induction l as [|r l IH]; intros w Hnd Hl.
  { cbn. unfold on_dc_rels. assert (dc_rels w ∖ ∅ = dc_rels w) as -> by set_solver. by destruct w. }
  apply NoDup_cons in Hnd as [Hr Hnd]. cbn [destroy_reliables]. unfold nta_reliable_destroy at 1.
  erewrite M_bind_ok; cycle 1.
  { mstep. rewrite bool_decide_eq_true_2 by (apply Hl; by left). reflexivity. }
  rewrite IH; [|done|].
  - unfold on_dc_rels. cbn. by assert (dc_rels w ∖ {[r]} ∖ list_to_set l = dc_rels w ∖ ({[r]} ∪ list_to_set l)) as -> by set_solver.
  - intros r' Hr'. cbn. apply elem_of_difference. split; [apply Hl; by right|]. intros ->%elem_of_singleton. done.
Qed.

Lemma iip_destroyAll_ok p i w :
  dc_iips w !! p = Some i -> NoDup (iip_reliables i) -> (forall r, r ∈ iip_reliables i -> r ∈ dc_rels w) ->
  IIP_destroyAllReliables p w =
    Ok (tt, on_dc_iips (insert p (on_iip_reliables (fun _ => []) i)) (on_dc_rels (fun s => s ∖ list_to_set (iip_reliables i)) w)).
Proof.
  intros E Hnd Hl. unfold IIP_destroyAllReliables. rewrite (M_bind_ok _ _ _ _ _ (iip_load_ok _ _ _ E)).
  rewrite (M_bind_ok _ _ _ _ _ (destroy_reliables_ok _ _ Hnd Hl)). by apply iip_store_ok.
Qed.

Lemma release_live_ok (proj : stack -> gset positive) on r s :
  r ∈ proj s -> release proj on r s = Ok (tt, on (fun x => x ∖ {[r]}) s).
Proof. intros Hr. unfold release. mstep. by rewrite bool_decide_eq_true_2. Qed.
Lemma on_stack_ok {A} (m : ST A) a s w :
  m (dc_stack w) = Ok (a, s) -> on_stack m w = Ok (a, on_dc_stack (fun _ => s) w).
Proof. intros E. unfold on_stack, zoom. by rewrite E. Qed.
End runs.

(** ** Ownership *)

(** What an invite in progress owns, by kind, and what is live. *)
Inductive kind := KRel | KTimer | KCell.
Definition owns (i : IIP) (k : kind) : list positive :=
  match k with
  | KRel => iip_reliables i
  | KTimer => option_list (iip_timerCancel i)
  | KCell => option_list (iip_ppSelf i)
  end.
Definition live (w : SipDialogController) (k : kind) : gset positive :=
  match k with KRel => dc_rels w | KTimer => st_timers (dc_stack w) | KCell => st_cells (dc_stack w) end.

Record owned_wf (iips : gmap positive IIP) (lv : kind -> gset positive) : Prop := OwnedWf {
  ow_nodup p i k : iips !! p = Some i -> NoDup (owns i k);
  ow_live p i k r : iips !! p = Some i -> r ∈ owns i k -> r ∈ lv k;
  ow_disj p q i j k r : iips !! p = Some i -> iips !! q = Some j -> r ∈ owns i k -> r ∈ owns j k -> p = q;
}.

(** An object changes what it owns: it keeps some and gets fresh ones. *)
Lemma owned_update iips lv lv' p i i' :
  owned_wf iips lv -> iips !! p = Some i ->
  (forall k, NoDup (owns i' k)) ->
  (forall k r, r ∈ owns i' k -> r ∈ lv' k /\ (r ∈ owns i k \/ r ∉ lv k)) ->
  (forall k r, r ∈ lv k -> r ∉ owns i k -> r ∈ lv' k) ->
  owned_wf (<[p := i']> iips) lv'.
Proof.
  intros [Hn Hl Hd] Hp Hn' Hnew Hkeep. split.
  - intros q j k. destruct (decide (p = q)) as [<-|Hne]; [rewrite lookup_insert_eq|rewrite lookup_insert_ne by done];
      [intros [= <-]; apply Hn'|by apply Hn].
  - intros q j k r. destruct (decide (p = q)) as [<-|Hne]; [rewrite lookup_insert_eq|rewrite lookup_insert_ne by done].
    + intros [= <-] Hr. by apply Hnew.
    + intros Hq Hr. apply Hkeep; [by eapply Hl|]. intros Hr'. apply Hne. by apply (Hd p q i j k r).
  - intros q1 q2 j1 j2 k r.
    assert (Hfresh : forall q j, q ≠ p -> iips !! q = Some j -> r ∈ owns i' k -> r ∈ owns j k -> False).
    { intros q j Hq Hj Hr Hrj. destruct (Hnew k r Hr) as [_ [Hri|Hri]]; [by apply Hq, eq_sym, (Hd p q i j k r)|].
      by eapply Hri, Hl. }
    destruct (decide (p = q1)) as [<-|H1], (decide (p = q2)) as [<-|H2]; [done|..];
      rewrite ?lookup_insert_eq, ?lookup_insert_ne by done.
    + intros [= <-] Hj Hr Hr'. exfalso. by eapply (Hfresh q2).
    + intros Hj [= <-] Hr Hr'. exfalso. by eapply (Hfresh q1).
    + apply Hd.
Qed.
Lemma owned_delete iips lv lv' p i :
  owned_wf iips lv -> iips !! p = Some i -> (forall k r, r ∈ lv k -> r ∉ owns i k -> r ∈ lv' k) ->
  owned_wf (delete p iips) lv'.
Proof.
  intros [Hn Hl Hd] Hp Hkeep. split.
  - intros q j k [_ Hq]%lookup_delete_Some. by eapply Hn.
  - intros q j k r [Hne Hq]%lookup_delete_Some Hr. apply Hkeep; [by eapply Hl|].
    intros Hr'. apply Hne. by apply (Hd p q i j k r).
  - intros q1 q2 j1 j2 k r [_ H1]%lookup_delete_Some [_ H2]%lookup_delete_Some. by apply Hd.
Qed.
Lemma owned_new iips lv p i :
  owned_wf iips lv -> iips !! p = None -> (forall k, owns i k = []) -> owned_wf (<[p := i]> iips) lv.
Proof.
  intros [Hn Hl Hd] Hp Hi. split.
  - intros q j k [[<- <-]|[Hne Hq]]%lookup_insert_Some; [rewrite Hi; constructor|by eapply Hn].
  - intros q j k r [[<- <-]|[Hne Hq]]%lookup_insert_Some; [rewrite Hi; by intros ?%elem_of_nil|by eapply Hl].
  - intros q1 q2 j1 j2 k r [[<- <-]|[H1 Hq1]]%lookup_insert_Some [[<- <-]|[H2 Hq2]]%lookup_insert_Some;
      rewrite ?Hi; try by intros ?%elem_of_nil. + by intros _ ?%elem_of_nil. + by apply Hd.
Qed.

(** ** The invariant *)

(** The container holds objects; members have different transaction ids, live
    incoming transactions of their own, and dialogs. *)
Record iip_wf (w : SipDialogController) : Prop := IipWf {
  wf_owned : owned_wf (dc_iips w) (live w);
  wf_objects p : p ∈ dc_inProgress w -> is_Some (dc_iips w !! p);
  wf_txn p q i j : p ∈ dc_inProgress w -> q ∈ dc_inProgress w -> dc_iips w !! p = Some i -> dc_iips w !! q = Some j ->
    iip_transactionId i = iip_transactionId j -> p = q;
  wf_irq p i r : p ∈ dc_inProgress w -> dc_iips w !! p = Some i -> iip_irq i = Some r ->
    r ∈ dc_irqs w /\ is_Some (dc_dialogs w !! iip_dlg i);
  wf_irq_inj p q i j r : p ∈ dc_inProgress w -> q ∈ dc_inProgress w -> dc_iips w !! p = Some i -> dc_iips w !! q = Some j ->
    iip_irq i = Some r -> iip_irq j = Some r -> p = q;
}.

Lemma members_elem p i w : (p, i) ∈ members w <-> p ∈ dc_inProgress w /\ dc_iips w !! p = Some i.
Proof. unfold members. rewrite list_elem_of_filter, elem_of_map_to_list. done. Qed.

(** A search in the container. *)
Lemma iip_find_spec test w :
  exists o, iip_find test w = Ok (o, w) /\
    match o with
    | Some p => exists i, p ∈ dc_inProgress w /\ dc_iips w !! p = Some i /\ test i = true
    | None => forall p i, p ∈ dc_inProgress w -> dc_iips w !! p = Some i -> test i = false
    end.
Proof.
  unfold iip_find. eexists. split; [mstep; reflexivity|].
  destruct (filter _ (members w)) as [|[p i] l] eqn:E; cbn.
  - intros p i Hp Hi. destruct (test i) eqn:Et; [|done]. exfalso.
    assert ((p, i) ∈ filter (fun e : positive * IIP => test e.2 = true) (members w)) as Hin.
    { apply list_elem_of_filter. split; [done|]. by apply members_elem. }
    rewrite E in Hin. by apply elem_of_nil in Hin.
  - assert ((p, i) ∈ filter (fun e : positive * IIP => test e.2 = true) (members w)) as Hin by (rewrite E; by left).
    apply list_elem_of_filter in Hin as [Ht Hin]. apply members_elem in Hin as [Hp Hi]. by exists i.
Qed.

(** The members of [w'] are members of [w], with the same identity. *)
Definition same_identity (i i' : IIP) : Prop :=
  iip_leg i' = iip_leg i /\ iip_irq i' = iip_irq i /\ iip_orq i' = iip_orq i /\
  iip_transactionId i' = iip_transactionId i /\ iip_dlg i' = iip_dlg i.
Lemma iip_wf_shrink w w' :
  iip_wf w -> owned_wf (dc_iips w') (live w') -> dc_inProgress w' ⊆ dc_inProgress w ->
  (forall p, p ∈ dc_inProgress w' -> is_Some (dc_iips w' !! p)) ->
  (forall p i', p ∈ dc_inProgress w' -> dc_iips w' !! p = Some i' ->
     exists i, dc_iips w !! p = Some i /\ same_identity i i') ->
  (forall p i r, p ∈ dc_inProgress w' -> dc_iips w !! p = Some i -> iip_irq i = Some r -> r ∈ dc_irqs w -> r ∈ dc_irqs w') ->
  (forall p, is_Some (dc_dialogs w !! p) -> is_Some (dc_dialogs w' !! p)) ->
  iip_wf w'.
Proof.
  intros [Ho Hobj Htxn Hirq Hinj] Ho' Hsub Hobj' Hid Hq Hdlg. split; [done|done|..].
  - intros p q i' j' Hp Hq' Hi Hj Et. destruct (Hid p i' Hp Hi) as (i & Ei & (_ & _ & _ & E1 & _)).
    destruct (Hid q j' Hq' Hj) as (j & Ej & (_ & _ & _ & E2 & _)). eapply (Htxn p q i j); eauto. congruence.
  - intros p i' r Hp Hi Er. destruct (Hid p i' Hp Hi) as (i & Ei & (_ & E1 & _ & _ & E2)).
    rewrite E1 in Er. destruct (Hirq p i r) as [Hr Hd]; [auto..|]. rewrite E2. eauto.
  - intros p q i' j' r Hp Hq' Hi Hj E1 E2. destruct (Hid p i' Hp Hi) as (i & Ei & (_ & E3 & _)).
    destruct (Hid q j' Hq' Hj) as (j & Ej & (_ & E4 & _)). eapply (Hinj p q i j r); eauto; congruence.
Qed.

(** From [w] to [w']: what an invite owned is still its own or is released
    ([leaked] apart), what no invite owned is not touched, and an invite gets
    only what was not live. *)
Record accounted (leaked : kind -> positive -> Prop) (w w' : SipDialogController) : Prop := Accounted {
  ac_released p i k r : dc_iips w !! p = Some i -> r ∈ owns i k -> r ∈ live w' k ->
    leaked k r \/ exists j, dc_iips w' !! p = Some j /\ r ∈ owns j k;
  ac_others k r : r ∈ live w k -> (forall p i, dc_iips w !! p = Some i -> r ∉ owns i k) -> r ∈ live w' k;
  ac_new p j k r : dc_iips w' !! p = Some j -> r ∈ owns j k -> r ∈ live w k -> exists i, dc_iips w !! p = Some i /\ r ∈ owns i k;
}.
Definition nothing (k : kind) (r : positive) : Prop := False.

Lemma accounted_refl leaked w : accounted leaked w w.
Proof. split; [|done|]; eauto. Qed.

(** One object changes what it owns. *)
Lemma accounted_update leaked w w' p i i' :
  dc_iips w !! p = Some i -> dc_iips w' = <[p := i']> (dc_iips w) ->
  (forall k r, r ∈ owns i' k -> r ∈ live w' k /\ (r ∈ owns i k \/ r ∉ live w k)) ->
  (forall k r, r ∈ live w k -> r ∉ owns i k -> r ∈ live w' k) ->
  (forall k r, r ∈ owns i k -> r ∈ live w' k -> leaked k r \/ r ∈ owns i' k) ->
  accounted leaked w w'.
Proof.
  intros Hi Ei Hnew Hkeep Hgone. split.
  - intros q j k r Hq Hr Hlv. destruct (decide (p = q)) as [<-|Hne].
    + simplify_eq. destruct (Hgone k r Hr Hlv) as [|Hr']; [by left|]. right. exists i'. by rewrite Ei, lookup_insert_eq.
    + right. exists j. by rewrite Ei, lookup_insert_ne.
  - intros k r Hr Hno. apply Hkeep; [done|]. by apply (Hno p).
  - intros q j k r. rewrite Ei. intros [[<- <-]|[Hne Hj]]%lookup_insert_Some Hr Hlv; [|by exists j].
    exists i. split; [done|]. by destruct (Hnew k r Hr) as [_ [?|?]].
Qed.
Lemma iip_wf_update w w' p i i' :
  iip_wf w -> dc_iips w !! p = Some i -> same_identity i i' -> dc_iips w' = <[p := i']> (dc_iips w) ->
  dc_inProgress w' = dc_inProgress w -> dc_irqs w' = dc_irqs w -> dc_dialogs w' = dc_dialogs w ->
  (forall k, NoDup (owns i' k)) ->
  (forall k r, r ∈ owns i' k -> r ∈ live w' k /\ (r ∈ owns i k \/ r ∉ live w k)) ->
  (forall k r, r ∈ live w k -> r ∉ owns i k -> r ∈ live w' k) ->
  (forall k r, r ∈ owns i k -> r ∈ live w' k -> r ∈ owns i' k) ->
  iip_wf w' /\ accounted nothing w w'.
Proof.
  intros Hw Hi Hid Ei Em Eq Ed Hn Hnew Hkeep Hgone.
  split; [|eapply accounted_update; eauto]. apply (iip_wf_shrink w w' Hw).
  - rewrite Ei. eapply owned_update; eauto using wf_owned.
  - by rewrite Em.
  - intros q Hq. rewrite Em in Hq. rewrite Ei, lookup_insert_is_Some'. right. by apply Hw.
  - intros q j Hq. rewrite Ei. intros [[<- <-]|[Hne Hj]]%lookup_insert_Some; [by exists i|].
    by exists j.
  - intros. by rewrite Eq.
  - by rewrite Ed.
Qed.

Lemma dlg_load_ok p x w : dc_dialogs w !! p = Some x -> dlg_load p w = Ok (x, w).
Proof. intros E. unfold dlg_load. mstep. unfold deref. by rewrite E. Qed.
Lemma on_ctl_ok p d c f w :
  dc_dialogs w !! p = Some (d, c) -> on_ctl p f w = Ok (tt, on_dc_dialogs (insert p (d, f c)) w).
Proof. intros E. unfold on_ctl. by rewrite (M_bind_ok _ _ _ _ _ (dlg_load_ok _ _ _ E)). Qed.

Lemma singleton_nodup {A} (x : A) : NoDup [x].
Proof. constructor; [apply not_elem_of_nil|constructor]. Qed.
#[local] Hint Resolve singleton_nodup NoDup_nil_2 : core.

(** ** Operations *)

(** A new reliable provisional response. *)
Definition new_reliable : DC positive := fun w =>
  let r := fresh (dc_rels w) in Ok (r, on_dc_rels (fun s => {[r]} ∪ s) w).
Lemma IIP_reliable_wf w p i :
  iip_wf w -> p ∈ dc_inProgress w -> dc_iips w !! p = Some i ->
  exists w', (rel ← new_reliable; IIP_AddReliable p rel) w = Ok (tt, w') /\ (iip_wf w' /\ accounted nothing w w') /\
    dc_iips w' = <[p := on_iip_reliables (fun l => l ++ [fresh (dc_rels w)]) i]> (dc_iips w) /\
    dc_inProgress w' = dc_inProgress w /\ dc_clients w' = dc_clients w.
Proof.
  intros Hw Hp Hi. set (r := fresh (dc_rels w)). set (w1 := on_dc_rels (fun s => {[r]} ∪ s) w).
  assert (dc_iips w1 !! p = Some i) as Hi1 by done. pose proof (is_fresh (dc_rels w)) as Hfresh. fold r in Hfresh.
  unfold IIP_AddReliable. erewrite M_bind_ok by reflexivity. cbn beta. rewrite (M_bind_ok _ _ _ _ _ (iip_load_ok _ _ _ Hi1)).
  destruct (iip_find_spec (fun j => bool_decide (iip_transactionId j = iip_transactionId i)) w1) as (o & E & Ho).
  unfold IIP_FindByTransactionId. rewrite (M_bind_ok _ _ _ _ _ E). destruct o as [q|]; cycle 1.
  { specialize (Ho p i Hp Hi). by rewrite bool_decide_eq_true_2 in Ho. }
  destruct Ho as (j & Hq & Hj & Et). apply bool_decide_eq_true in Et.
  assert (q = p) as -> by (eapply (wf_txn w); eauto). simplify_eq.
  unfold IIP_addReliable. rewrite (iip_store_ok p _ i w1 Hi). eexists. split; [done|].
  split; [|by split_and!].
  apply (iip_wf_update w _ p i (on_iip_reliables (fun l => l ++ [r]) i)); [done..| | | |].
  - intros k. destruct k; cbn.
    + apply NoDup_app. split_and!; [apply (ow_nodup _ _ (wf_owned w Hw) p i KRel Hi)| |apply singleton_nodup].
      intros x Hx ->%list_elem_of_singleton. apply Hfresh. apply (ow_live _ _ (wf_owned w Hw) p i KRel r Hi Hx).
    + apply (ow_nodup _ _ (wf_owned w Hw) p i KTimer Hi).
    + apply (ow_nodup _ _ (wf_owned w Hw) p i KCell Hi).
  - intros k x Hx. destruct k; cbn in *.
    + apply elem_of_app in Hx as [Hx| ->%list_elem_of_singleton]; [|set_solver].
      split; [|by left]. pose proof (ow_live _ _ (wf_owned w Hw) p i KRel x Hi Hx) as H. cbn in H. set_solver.
    + split; [|by left]. apply (ow_live _ _ (wf_owned w Hw) p i KTimer x Hi Hx).
    + split; [|by left]. apply (ow_live _ _ (wf_owned w Hw) p i KCell x Hi Hx).
  - intros [] x; cbn; set_solver.
  - intros [] x; cbn; set_solver.
Qed.

Lemma erase_first_elem r x l : x ∈ erase_first r l -> x ∈ l.
Proof.
  induction l as [|y l IH]; [done|]. cbn. case_bool_decide; [by right|].
  intros [->|Hx]%elem_of_cons; [by left|right; by apply IH].
Qed.
Lemma erase_first_nodup r l : NoDup l -> NoDup (erase_first r l) /\ r ∉ erase_first r l.
Proof.
  induction 1 as [|y l Hy Hl [IH1 IH2]]; [split; [constructor|apply not_elem_of_nil]|]. cbn.
  case_bool_decide; [by subst|]. split.
  - constructor; [|done]. by intros ?%erase_first_elem.
  - intros [->|Hx]%elem_of_cons; done.
Qed.
Lemma erase_first_other r x l : x ∈ l -> x ≠ r -> x ∈ erase_first r l.
Proof.
  induction l as [|y l IH]; [by intros ?%elem_of_nil|]. cbn. intros [->|Hx]%elem_of_cons Hne; case_bool_decide; subst.
  - done.
  - by left.
  - done.
  - right. by apply IH.
Qed.

Lemma IIP_destroyReliable_wf w p i rel :
  iip_wf w -> dc_iips w !! p = Some i ->
  exists w', IIP_destroyReliable p rel w = Ok (tt, w') /\ (iip_wf w' /\ accounted nothing w w') /\
    dc_iips w' = <[p := on_iip_reliables (erase_first rel) i]> (dc_iips w) /\
    dc_inProgress w' = dc_inProgress w /\ dc_clients w' = dc_clients w /\ rel ∉ erase_first rel (iip_reliables i).
Proof.
  intros Hw Hi. unfold IIP_destroyReliable. rewrite (M_bind_ok _ _ _ _ _ (iip_load_ok _ _ _ Hi)).
  case_bool_decide as Hr; cycle 1.
  { exists w. split; [done|]. assert (erase_first rel (iip_reliables i) = iip_reliables i) as Ee.
    { revert Hr. clear. induction (iip_reliables i) as [|y l IH]; [done|]. cbn. intros [? ?]%not_elem_of_cons.
      rewrite bool_decide_eq_false_2 by congruence. by rewrite IH. }
    split; [split; [done|by apply accounted_refl]|]. rewrite Ee. split_and!; [|done..].
    rewrite insert_id; [done|]. rewrite Hi. f_equal. destruct i; cbn in *. unfold on_iip_reliables. cbn. by rewrite Ee. }
  pose proof (ow_live _ _ (wf_owned w Hw) p i KRel rel Hi Hr) as Hlive. cbn in Hlive.
  pose proof (ow_nodup _ _ (wf_owned w Hw) p i KRel Hi) as Hnd. cbn in Hnd.
  set (w1 := on_dc_rels (fun s => s ∖ {[rel]}) w).
  assert (nta_reliable_destroy rel w = Ok (tt, w1)) as E.
  { unfold nta_reliable_destroy. mstep. by rewrite bool_decide_eq_true_2. }
  rewrite (M_bind_ok _ _ _ _ _ E), (iip_store_ok p _ i w1 Hi). eexists. split; [done|].
  destruct (erase_first_nodup rel _ Hnd) as [Hnd' Hne]. split; [|by split_and!].
  apply (iip_wf_update w _ p i (on_iip_reliables (erase_first rel) i)); [done..| | | |].
  - intros []; cbn; [done|apply (ow_nodup _ _ (wf_owned w Hw) p i KTimer Hi)|apply (ow_nodup _ _ (wf_owned w Hw) p i KCell Hi)].
  - intros k x Hx. destruct k; cbn in *.
    + assert (x ≠ rel) by (by intros ->). pose proof (erase_first_elem _ _ _ Hx) as Hx'.
      pose proof (ow_live _ _ (wf_owned w Hw) p i KRel x Hi Hx') as H'. cbn in H'. set_solver.
    + split; [|by left]. apply (ow_live _ _ (wf_owned w Hw) p i KTimer x Hi Hx).
    + split; [|by left]. apply (ow_live _ _ (wf_owned w Hw) p i KCell x Hi Hx).
  - intros [] x; cbn; set_solver.
  - intros [] x; cbn; [|done..]. intros Hx [_ Hxr]%elem_of_difference. apply erase_first_other; [done|].
    intros ->. by apply Hxr, elem_of_singleton.
Qed.

(** The cancel timer and the pointer given to it come and go together. *)
Definition timer_paired (i : IIP) : Prop := is_Some (iip_timerCancel i) <-> is_Some (iip_ppSelf i).
Lemma IIP_setCanceled_wf w p i :
  iip_wf w -> dc_iips w !! p = Some i -> timer_paired i ->
  exists w', IIP_setCanceled p w = Ok (tt, w') /\ (iip_wf w' /\ accounted nothing w w') /\
    dc_inProgress w' = dc_inProgress w /\ dc_clients w' = dc_clients w /\
    exists i', dc_iips w' = <[p := i']> (dc_iips w) /\ iip_canceled i' = true /\ is_Some (iip_timerCancel i') /\ timer_paired i'.
Proof.
  intros Hw Hi Hpp. set (i1 := set_iip_canceled true i). set (w1 := on_dc_iips (insert p i1) w).
  assert (Hi1 : dc_iips w1 !! p = Some i1) by apply lookup_insert_eq.
  assert (Hown : forall k, owns i1 k = owns i k) by (by intros []).
  unfold IIP_setCanceled. rewrite (M_bind_ok _ _ _ _ _ (iip_store_ok p _ i w Hi)). fold i1 w1.
  unfold startCancelTimer. rewrite (M_bind_ok _ _ _ _ _ (iip_load_ok _ _ _ Hi1)). cbn [iip_timerCancel i1 set_iip_canceled].
  destruct (iip_timerCancel i) as [t|] eqn:Et.
  { exists w1. split; [done|]. split.
    - apply (iip_wf_update w _ p i i1); [done..| | | |].
      + intros k. rewrite Hown. by apply (ow_nodup _ _ (wf_owned w Hw) p i).
      + intros k x. rewrite Hown. intros Hx. split; [|by left].
        pose proof (ow_live _ _ (wf_owned w Hw) p i k x Hi Hx). by destruct k.
      + by intros [].
      + intros k. by rewrite Hown.
    - split_and!; [done|done|]. exists i1. split_and!; [done|done|by cbn; rewrite Et|].
      unfold timer_paired in *. cbn. by rewrite Et in *. }
  assert (iip_ppSelf i = None) as Hnone.
  { destruct (iip_ppSelf i) eqn:Ec; [|done]. unfold timer_paired in Hpp. rewrite Ec, Et in Hpp.
    destruct Hpp as [_ Hpp]. destruct Hpp as [? ?]; [by eexists|done]. }
  unfold on_stack, zoom, acquire. erewrite M_bind_ok by reflexivity. cbn beta. erewrite M_bind_ok by reflexivity. cbn beta.
  set (c := fresh (st_cells (dc_stack w1))). set (t := fresh (st_timers _)).
  match goal with |- exists w', iip_store p ?f ?w2 = _ /\ _ => rewrite (iip_store_ok p f i1 w2 Hi1) end.
  eexists. split; [done|]. split; cycle 1.
  { split_and!; [done|done|]. eexists. cbn. rewrite insert_insert_eq. split_and!; [done|done|done|done]. }
  pose proof (is_fresh (st_cells (dc_stack w))) as Hc. pose proof (is_fresh (st_timers (dc_stack w))) as Ht.
  apply (iip_wf_update w _ p i (set_iip_timer (Some t) (Some c) i1)); [done|done|done| |done|done|done| | | |].
  - cbn. by rewrite insert_insert_eq.
  - intros []; cbn; [apply (ow_nodup _ _ (wf_owned w Hw) p i KRel Hi)|apply singleton_nodup..].
  - intros k x Hx. destruct k; cbn in Hx |- *.
    + split; [|by left]. apply (ow_live _ _ (wf_owned w Hw) p i KRel x Hi Hx).
    + apply list_elem_of_singleton in Hx as ->. split; [set_solver|by right].
    + apply list_elem_of_singleton in Hx as ->. split; [set_solver|by right].
  - intros [] x; cbn; set_solver.
  - intros [] x; cbn; [done|rewrite Et|rewrite Hnone]; by intros ?%elem_of_nil.
Qed.

(** ** The death of an object *)

(** What the death of objects and the end of an invite leave alone. *)
Record same_frame (w w' : SipDialogController) : Prop := SameFrame {
  sf_inProgress : dc_inProgress w' = dc_inProgress w;
  sf_irqs : dc_irqs w' = dc_irqs w;
  sf_dialogs : dc_dialogs w' = dc_dialogs w;
  sf_clients : dc_clients w' = dc_clients w;
}.
Lemma same_frame_trans w1 w2 w3 : same_frame w1 w2 -> same_frame w2 w3 -> same_frame w1 w3.
Proof. intros [] []. split; congruence. Qed.

(** [m] releases [owned], of which every element is live. *)
Lemma stopCancelTimer_ok p i w :
  dc_iips w !! p = Some i -> (forall t, iip_timerCancel i = Some t -> t ∈ st_timers (dc_stack w)) ->
  stopCancelTimer p w =
    Ok (tt, on_dc_iips (insert p (set_iip_timer None (iip_ppSelf i) i))
              (on_dc_stack (on_su_timers (fun s => s ∖ list_to_set (option_list (iip_timerCancel i)))) w)).
Proof.
  intros Hi Ht. unfold stopCancelTimer. rewrite (M_bind_ok _ _ _ _ _ (iip_load_ok _ _ _ Hi)).
  destruct (iip_timerCancel i) as [t|] eqn:Et; cbn [option_list list_to_set].
  - erewrite M_bind_ok; [|apply on_stack_ok, release_live_ok, Ht, eq_refl]. rewrite (iip_store_ok p _ i) by done.
    f_equal. f_equal. destruct w as [[] ]. unfold on_dc_iips, on_dc_stack, on_su_timers. cbn. do 2 f_equal. set_solver.
  - mstep. rewrite (iip_store_ok p _ i w Hi). f_equal. f_equal.
    destruct w as [[] ]. unfold on_dc_iips, on_dc_stack, on_su_timers. cbn. do 2 f_equal. set_solver.
Qed.

Lemma IIP_destroy_ok p i w :
  owned_wf (dc_iips w) (live w) -> dc_iips w !! p = Some i ->
  exists w', IIP_destroy p w = Ok (tt, w') /\ same_frame w w' /\ dc_iips w' = delete p (dc_iips w) /\
    forall k r, r ∈ live w' k <-> r ∈ live w k /\ r ∉ owns i k.
Proof.
  intros Ho Hi. unfold IIP_destroy.
  erewrite M_bind_ok; [|apply (stopCancelTimer_ok p i w Hi)]; cycle 1.
  { intros t Et. apply (ow_live _ _ Ho p i KTimer t Hi). cbn. rewrite Et. by left. }
  match goal with |- context [on_dc_iips (insert p ?j) ?w0] => set (i1 := j); set (w1 := on_dc_iips (insert p j) w0) end.
  assert (dc_iips w1 !! p = Some i1) as Hi1 by apply lookup_insert_eq. cbn beta.
  rewrite (M_bind_ok _ _ _ _ _ (iip_destroyAll_ok p i1 w1 Hi1 (ow_nodup _ _ Ho p i KRel Hi) (fun r Hr => ow_live _ _ Ho p i KRel r Hi Hr))).
  set (i2 := on_iip_reliables (fun _ => []) i1).
  match goal with |- context [on_dc_iips (insert p i2) ?w0] => set (w2 := on_dc_iips (insert p i2) w0) end.
  assert (dc_iips w2 !! p = Some i2) as Hi2 by apply lookup_insert_eq.
  rewrite (M_bind_ok _ _ _ _ _ (iip_load_ok _ _ _ Hi2)). change (iip_ppSelf i2) with (iip_ppSelf i).
  set (w3 := on_dc_stack (on_cells (fun s => s ∖ list_to_set (option_list (iip_ppSelf i)))) w2).
  assert (match iip_ppSelf i with Some c => on_stack (release st_cells on_cells c) | None => mret tt end w2 = Ok (tt, w3)) as E.
  { destruct (iip_ppSelf i) as [c|] eqn:Ec; cbn [option_list list_to_set] in w3.
    - erewrite on_stack_ok; [|apply release_live_ok; cbn; apply (ow_live _ _ Ho p i KCell c Hi); cbn; rewrite Ec; by left].
      subst w3. do 2 f_equal. unfold on_dc_stack, on_cells. f_equal. f_equal. set_solver.
    - subst w3. unfold mret, M_ret. do 2 f_equal. unfold on_dc_stack, on_cells. destruct w2 as [[] ]. cbn. f_equal. f_equal. set_solver. }
  rewrite (M_bind_ok _ _ _ _ _ E). eexists. split; [done|]. split; [by split|]. split.
  - cbn. by rewrite insert_insert_eq, delete_insert_eq.
  - intros k r. destruct k; cbn; rewrite elem_of_difference, elem_of_list_to_set; done.
Qed.

Lemma destroy_iips_ok ps w :
  NoDup ps -> (forall p, p ∈ ps -> is_Some (dc_iips w !! p)) -> owned_wf (dc_iips w) (live w) ->
  exists w', destroy_iips ps w = Ok (tt, w') /\ same_frame w w' /\ owned_wf (dc_iips w') (live w') /\
    (forall q, q ∈ ps -> dc_iips w' !! q = None) /\ (forall q, q ∉ ps -> dc_iips w' !! q = dc_iips w !! q) /\
    forall k r, r ∈ live w' k <-> r ∈ live w k /\ forall p i, p ∈ ps -> dc_iips w !! p = Some i -> r ∉ owns i k.
Proof.
  revert w. induction ps as [|p ps IH]; intros w Hnd Hps Ho.
  { exists w. split_and!; [done|by split|done|by intros q ?%elem_of_nil|done|].
    intros k r. split; [|by intros []]. intros Hr. split; [done|]. by intros p i ?%elem_of_nil. }
  apply NoDup_cons in Hnd as [Hp Hnd]. destruct (Hps p) as [i Hi]; [by left|]. cbn [destroy_iips].
  destruct (IIP_destroy_ok p i w Ho Hi) as (w1 & E & Hf & Ei & Hl). rewrite (M_bind_ok _ _ _ _ _ E).
  assert (forall q, q ∈ ps -> dc_iips w1 !! q = dc_iips w !! q) as Hsame.
  { intros q Hq. rewrite Ei, lookup_delete_ne; [done|]. by intros ->. }
  destruct (IH w1) as (w' & E' & Hf' & Ho' & Hdead & Halive & Hl').
  - done.
  - intros q Hq. rewrite Hsame by done. apply Hps. by right.
  - rewrite Ei. eapply owned_delete; [done|done|]. intros k r Hr Hnr. by apply Hl.
  - exists w'. split_and!; [done|by eapply same_frame_trans|done|..].
    + intros q [->|Hq]%elem_of_cons; [|by apply Hdead]. rewrite Halive by done. by rewrite Ei, lookup_delete_eq.
    + intros q Hq. apply not_elem_of_cons in Hq as [Hne Hq]. rewrite Halive by done. by rewrite Ei, lookup_delete_ne.
    + intros k r. rewrite Hl', Hl. split.
      * intros [[Hr Hri] Hrest]. split; [done|]. intros q j [->|Hq]%elem_of_cons Hj; [by simplify_eq|].
        apply (Hrest q j Hq). by rewrite Hsame.
      * intros [Hr Hall]. split_and!; [done|apply (Hall p i); [by left|done]|].
        intros q j Hq Hj. apply (Hall q j); [by right|]. by rewrite <- Hsame.
Qed.

(** The objects outside the container die with what they own. *)
Lemma reap_iips_ok w :
  iip_wf w -> exists w', reap_iips w = Ok (tt, w') /\ iip_wf w' /\ same_frame w w' /\
    (forall q, dc_iips w' !! q = if bool_decide (q ∈ dc_inProgress w) then dc_iips w !! q else None) /\
    forall k r, r ∈ live w' k <-> r ∈ live w k /\ forall p i, p ∉ dc_inProgress w -> dc_iips w !! p = Some i -> r ∉ owns i k.
Proof.
  intros Hw. unfold reap_iips. mstep.
  set (ps := filter (fun p => p ∉ dc_inProgress w) (map_to_list (dc_iips w)).*1).
  assert (forall q, q ∈ ps <-> q ∉ dc_inProgress w /\ is_Some (dc_iips w !! q)) as Hps.
  { intros q. unfold ps. rewrite list_elem_of_filter, list_elem_of_fmap. split.
    - intros [Hq ([q' j] & -> & Hj%elem_of_map_to_list)]. by split.
    - intros [Hq [j Hj]]. split; [done|]. exists (q, j). split; [done|]. by apply elem_of_map_to_list. }
  destruct (destroy_iips_ok ps w) as (w' & E & Hf & Ho & Hdead & Halive & Hl).
  - apply NoDup_filter, NoDup_fst_map_to_list.
  - intros p [_ Hp]%Hps. done.
  - apply Hw.
  - exists w'. split; [done|].
    assert (forall q, dc_iips w' !! q = if bool_decide (q ∈ dc_inProgress w) then dc_iips w !! q else None) as Hlk.
    { intros q. case_bool_decide as Hq.
      - apply Halive. rewrite Hps. tauto.
      - destruct (dc_iips w !! q) as [j|] eqn:Ej; [apply Hdead, Hps; split; [done|by eexists]|].
        rewrite Halive; [done|]. rewrite Hps. rewrite Ej. by intros [_ [? ?]]. }
    split_and!; [|done|done|].
    + destruct Hf as [F1 F2 F3 F4]. apply (iip_wf_shrink w w' Hw Ho).
      * by rewrite F1.
      * intros p Hp. rewrite F1 in Hp. rewrite Hlk, bool_decide_eq_true_2 by done. by apply Hw.
      * intros p j Hp Hj. rewrite F1 in Hp. rewrite Hlk, bool_decide_eq_true_2 in Hj by done. exists j. by split.
      * intros. by rewrite F2.
      * by rewrite F3.
    + intros k r. rewrite Hl. split; intros [Hr Hall]; (split; [done|]); intros p i Hp Hi.
      * apply (Hall p i); [|done]. apply Hps. by split; [|eexists].
      * apply Hps in Hp as [Hp _]. by apply (Hall p i).
Qed.

(** ** Insertion and clearing *)

Definition no_timer (i : IIP) : Prop := iip_reliables i = [] /\ iip_timerCancel i = None /\ iip_ppSelf i = None.
(** *** A new member *)

Definition no_txn (transactionId : string) (w : SipDialogController) : Prop :=
  forall q i, q ∈ dc_inProgress w -> dc_iips w !! q = Some i -> iip_transactionId i ≠ transactionId.
Lemma find_txn_none txn w : no_txn txn w -> IIP_FindByTransactionId txn w = Ok (None, w).
Proof.
  intros Hno. unfold IIP_FindByTransactionId. destruct (iip_find_spec (fun i => bool_decide (iip_transactionId i = txn)) w) as (o & E & Ho).
  rewrite E. destruct o as [q|]; [|done]. destruct Ho as (i & Hq & Hi & Ht%bool_decide_eq_true). by destruct (Hno q i).
Qed.
Definition inserted (i : IIP) (w : SipDialogController) : SipDialogController :=
  let p := fresh_addr (dc_iips w) in on_dc_inProgress (fun s => {[p]} ∪ s) (on_dc_iips (insert p i) w).
Lemma insert_iip_run i w : no_txn (iip_transactionId i) w -> IIP_insert i w = Ok (tt, inserted i w).
Proof. intros Hno. unfold IIP_insert. by rewrite (M_bind_ok _ _ _ _ _ (find_txn_none _ w Hno)). Qed.
Lemma find_inserted i w w1 :
  no_txn (iip_transactionId i) w -> dc_iips w1 = dc_iips (inserted i w) -> dc_inProgress w1 = dc_inProgress (inserted i w) ->
  IIP_FindByTransactionId (iip_transactionId i) w1 = Ok (Some (fresh_addr (dc_iips w)), w1).
Proof.
  intros Hno E1 E2. unfold IIP_FindByTransactionId. set (ip := fresh_addr (dc_iips w)) in *.
  destruct (iip_find_spec (fun j => bool_decide (iip_transactionId j = iip_transactionId i)) w1) as (o & E & Ho). rewrite E.
  destruct o as [q|].
  - destruct Ho as (j & Hq & Hj & Ht%bool_decide_eq_true). rewrite E1 in Hj. rewrite E2 in Hq. cbn -[fresh_addr] in Hj, Hq.
    apply lookup_insert_Some in Hj as [[<- _]|[Hne Hj]]; [done|]. destruct (Hno q j); [set_solver|done|done].
  - specialize (Ho ip i). rewrite E1, E2 in Ho. cbn -[fresh_addr] in Ho. fold ip in Ho. rewrite lookup_insert_eq in Ho.
    specialize (Ho ltac:(set_solver) eq_refl). by rewrite bool_decide_eq_true_2 in Ho.
Qed.

Lemma IIP_insert_wf w i :
  iip_wf w -> no_timer i ->
  (forall r, iip_irq i = Some r -> r ∈ dc_irqs w /\ is_Some (dc_dialogs w !! iip_dlg i) /\
     forall q j, q ∈ dc_inProgress w -> dc_iips w !! q = Some j -> iip_irq j ≠ Some r) ->
  exists w', IIP_insert i w = Ok (tt, w') /\ iip_wf w' /\
    (w' = w /\ (exists q j, q ∈ dc_inProgress w /\ dc_iips w !! q = Some j /\ iip_transactionId j = iip_transactionId i) \/
     w' = on_dc_inProgress (fun s => {[fresh_addr (dc_iips w)]} ∪ s) (on_dc_iips (insert (fresh_addr (dc_iips w)) i) w) /\
     forall q j, q ∈ dc_inProgress w -> dc_iips w !! q = Some j -> iip_transactionId j ≠ iip_transactionId i).
Proof.
  intros Hw (Hrel & Ht & Hc) Hirq. unfold IIP_insert, IIP_FindByTransactionId.
  destruct (iip_find_spec (fun j => bool_decide (iip_transactionId j = iip_transactionId i)) w) as (o & E & Ho).
  rewrite (M_bind_ok _ _ _ _ _ E). destruct o as [q|].
  { exists w. split_and!; [done|done|]. left. split; [done|]. destruct Ho as (j & Hq & Hj & Ej%bool_decide_eq_true). by exists q, j. }
  mstep. set (p := fresh_addr (dc_iips w)). eexists. split; [reflexivity|].
  assert (dc_iips w !! p = None) as Hp by apply fresh_addr_lookup.
  assert (forall q, q ∈ dc_inProgress w -> q ≠ p) as Hne.
  { intros q Hq ->. destruct (wf_objects w Hw p Hq) as [? ?]. congruence. }
  assert (forall q j, q ∈ dc_inProgress w -> dc_iips w !! q = Some j -> iip_transactionId j ≠ iip_transactionId i) as Hu.
  { intros q j Hq Hj. specialize (Ho q j Hq Hj). by apply bool_decide_eq_false in Ho. }
  split; [|by right]. destruct Hw as [Hown Hobj Htxn Hirqs Hinj].
  assert (forall q j, q ∈ {[p]} ∪ dc_inProgress w -> <[p := i]> (dc_iips w) !! q = Some j ->
    q = p /\ j = i \/ q ∈ dc_inProgress w /\ dc_iips w !! q = Some j) as Hcase.
  { intros q j Hq [[<- <-]|[Hqp Hj]]%lookup_insert_Some; [by left|]. right. set_solver. }
  split; cbn.
  - apply owned_new; [done|done|]. by intros []; cbn; rewrite ?Hrel, ?Ht, ?Hc.
  - intros q [->%elem_of_singleton|Hq]%elem_of_union; [by rewrite lookup_insert_eq|].
    rewrite lookup_insert_ne by (by apply not_eq_sym, Hne). by apply Hobj.
  - intros q1 q2 j1 j2 H1 H2 Hj1 Hj2 Et.
    destruct (Hcase q1 j1 H1 Hj1) as [[-> ->]|[H1' E1]], (Hcase q2 j2 H2 Hj2) as [[-> ->]|[H2' E2]]; [done| | |by eapply Htxn].
    + by destruct (Hu q2 j2 H2' E2). + by destruct (Hu q1 j1 H1' E1).
  - intros q j r Hq Hj Er. destruct (Hcase q j Hq Hj) as [[-> ->]|[Hq' Ej]]; [|by eapply Hirqs].
    by destruct (Hirq r Er) as (? & ? & _).
  - intros q1 q2 j1 j2 r H1 H2 Hj1 Hj2 E3 E4.
    destruct (Hcase q1 j1 H1 Hj1) as [[-> ->]|[H1' E1]], (Hcase q2 j2 H2 Hj2) as [[-> ->]|[H2' E2]]; [done| | |by eapply Hinj].
    + by destruct (proj2 (proj2 (Hirq r E3)) q2 j2 H2' E2). + by destruct (proj2 (proj2 (Hirq r E4)) q1 j1 H1' E1).
Qed.

(** What clearing an invite does to the state. *)
Record cleared (p : positive) (i : IIP) (w w' : SipDialogController) : Prop := Cleared {
  cl_iips : dc_iips w' = <[p := on_iip_reliables (fun _ => []) i]> (dc_iips w);
  cl_members q : q ∈ dc_inProgress w' <-> q ∈ dc_inProgress w /\ forall j, dc_iips w !! q = Some j -> iip_leg j ≠ iip_leg i;
  cl_irqs : dc_irqs w' = dc_irqs w ∖ list_to_set (option_list (iip_irq i));
  cl_rels : dc_rels w' = dc_rels w ∖ list_to_set (iip_reliables i);
  cl_stack : dc_stack w' = dc_stack w;
  cl_clients : dc_clients w' = dc_clients w;
  cl_dialogs : dc_dialogs w' = match iip_irq i with
    | Some _ => alter (fun x => (x.1, set_irqInvite None x.2)) (iip_dlg i) (dc_dialogs w)
    | None => dc_dialogs w end;
  cl_rest : dc_armed w' = dc_armed w /\ dc_stable w' = dc_stable w /\ dc_events w' = dc_events w /\
    dc_inputs w' = dc_inputs w /\ dc_sent w' = dc_sent w /\ dc_timerD w' = dc_timerD w /\ dc_rips w' = dc_rips w;
}.
Lemma cleared_wf p i w w' :
  iip_wf w -> dc_iips w !! p = Some i -> p ∈ dc_inProgress w -> cleared p i w w' -> iip_wf w'.
Proof.
  intros Hw Hi Hp [C1 C2 C3 C4 C5 _ C6].
  assert (forall q, q ∈ dc_inProgress w' -> q ≠ p) as Hne by (intros q [_ Hq]%C2 ->; by eapply Hq).
  apply (iip_wf_shrink w w' Hw).
  - rewrite C1. eapply owned_update; [apply Hw|done|..].
    + intros []; cbn; [constructor|apply (ow_nodup _ _ (wf_owned w Hw) p i KTimer Hi)|apply (ow_nodup _ _ (wf_owned w Hw) p i KCell Hi)].
    + intros k r Hr. destruct k; cbn in *; [by apply elem_of_nil in Hr|..]; rewrite C5; (split; [|by left]).
      * apply (ow_live _ _ (wf_owned w Hw) p i KTimer r Hi Hr). * apply (ow_live _ _ (wf_owned w Hw) p i KCell r Hi Hr).
    + intros [] r; cbn; rewrite ?C4, ?C5; [|done..]. intros Hr Hnr. by rewrite elem_of_difference, elem_of_list_to_set.
  - by intros q [? _]%C2.
  - intros q Hq. pose proof (Hne q Hq). apply C2 in Hq as [Hq _]. rewrite C1, lookup_insert_ne by done. by apply Hw.
  - intros q j Hq. rewrite C1, lookup_insert_ne by (by apply not_eq_sym, Hne). intros Hj. exists j. by split.
  - intros q j r Hq Hj Er Hr. rewrite C3, elem_of_difference, elem_of_list_to_set. split; [done|].
    destruct (iip_irq i) as [r'|] eqn:Ei; cbn; [|apply not_elem_of_nil]. intros ->%list_elem_of_singleton.
    apply (Hne q Hq). apply C2 in Hq as [Hq _]. by eapply (wf_irq_inj w Hw q p j i r').
  - intros q. rewrite C6. destruct (iip_irq i); [|done]. by rewrite lookup_alter_is_Some.
Qed.

Lemma IIP_Clear_ok w p i :
  iip_wf w -> p ∈ dc_inProgress w -> dc_iips w !! p = Some i ->
  exists w', IIP_Clear p w = Ok (tt, w') /\ cleared p i w w'.
Proof.
  intros Hw Hp Hi. unfold IIP_Clear. rewrite (M_bind_ok _ _ _ _ _ (iip_load_ok _ _ _ Hi)).
  set (w1 := on_dc_irqs (fun s => s ∖ list_to_set (option_list (iip_irq i))) (on_dc_dialogs (fun ds => match iip_irq i with
    | Some _ => alter (fun x => (x.1, set_irqInvite None x.2)) (iip_dlg i) ds | None => ds end) w)).
  assert (match iip_irq i with
      | Some irq => _ ← on_ctl (iip_dlg i) (set_irqInvite None); nta_incoming_destroy (Some irq)
      | None => mret tt end w = Ok (tt, w1)) as E.
  { subst w1. destruct (iip_irq i) as [r|] eqn:Er.
    - destruct (wf_irq w Hw p i r Hp Hi Er) as [Hr [[d c] Hd]]. rewrite (M_bind_ok _ _ _ _ _ (on_ctl_ok _ d c _ _ Hd)).
      unfold nta_incoming_destroy. mstep. rewrite bool_decide_eq_true_2 by done. unfold modify. do 2 f_equal.
      unfold on_dc_irqs, on_dc_dialogs. cbn. f_equal; [set_solver|].
      apply map_eq. intros q. destruct (decide (q = iip_dlg i)) as [->|Hq].
      + by rewrite lookup_insert_eq, lookup_alter_eq, Hd.
      + by rewrite lookup_insert_ne, lookup_alter_ne.
    - unfold mret, M_ret. do 2 f_equal. destruct w. unfold on_dc_irqs, on_dc_dialogs. cbn. f_equal. set_solver. }
  rewrite (M_bind_ok _ _ _ _ _ E). assert (dc_iips w1 !! p = Some i) as Hi1 by done.
  rewrite (M_bind_ok _ _ _ _ _ (iip_destroyAll_ok p i w1 Hi1 (ow_nodup _ _ (wf_owned w Hw) p i KRel Hi)
    (fun r Hr => ow_live _ _ (wf_owned w Hw) p i KRel r Hi Hr))).
  mstep. eexists. split; [reflexivity|]. split; cbn; [done| |done..].
  intros q. rewrite elem_of_difference, elem_of_list_to_set, list_elem_of_fmap. split.
  - intros [Hq Hn]. split; [done|]. intros j Hj El. apply Hn.
    destruct (decide (q = p)) as [->|Hqp].
    + exists (p, on_iip_reliables (fun _ => []) i). split; [done|]. apply list_elem_of_filter. split; [done|].
      apply members_elem. cbn. by rewrite lookup_insert_eq.
    + exists (q, j). split; [done|]. apply list_elem_of_filter. split; [done|]. apply members_elem. cbn.
      by rewrite lookup_insert_ne.
  - intros [Hq Hn]. split; [done|]. intros ([q' j] & -> & [El [Hm Hj]%members_elem]%list_elem_of_filter). cbn in *.
    destruct (decide (q' = p)) as [->|Hqp]; [by apply (Hn i)|]. rewrite lookup_insert_ne in Hj by done. by apply (Hn j).
Qed.
End timed.
