(* ===== verification/InviteInProgressSafety.v ===== *)
(** Safety of the invites in progress over their whole life: any order of
    the operations, each followed by the destruction of the invites that left
    the container, runs without a fault, keeps the invariant and releases
    each resource with the invite that owns it, once. *)
From S2P Require Import Prelude CppString TextUtil SipTags ClientController TimerQueue TimerQueueCorrect PendingRequests SipDialog SipTransports Connections DialogWorld InviteInProgress InviteInProgressCorrect.

Open Scope list_scope.

Section timed.
Context `{sutime : SuTime}.

(** ** Operations and when the dialog controller makes them *)

Inductive iip_op :=
  | op_incoming (leg irq : positive) (transactionId : string) (dlg : positive)
  | op_outgoing (leg orq : positive) (transactionId : string) (dlg : positive)
  | op_reliable (p : positive)
  | op_prack (p rel : positive)
  | op_cancel (p : positive)
  | op_clear (p : positive)
  | op_clear_leg (leg : option positive)
  | op_timeout (p : positive).

Definition iip_act (op : iip_op) : DC unit :=
  match op with
  | op_incoming leg irq txn dlg => IIP_Insert_incoming leg irq txn dlg
  | op_outgoing leg orq txn dlg => IIP_Insert_outgoing leg orq txn dlg
  | op_reliable p => rel ← new_reliable; IIP_AddReliable p rel
  | op_prack p rel => IIP_DestroyReliable p rel
  | op_cancel p => IIP_setCanceled p
  | op_clear p => IIP_Clear p
  | op_clear_leg leg => IIP_Clear_leg leg
  | op_timeout p => doCancelTimerHandling p
  end.
Definition iip_run (op : iip_op) : DC unit := _ ← iip_act op; reap_iips.

Definition is_member (p : positive) (w : SipDialogController) : Prop := p ∈ dc_inProgress w.
Definition iip_enabled (op : iip_op) (w : SipDialogController) : Prop :=
  match op with
  | op_incoming leg irq txn dlg =>
    irq ∈ dc_irqs w /\ is_Some (dc_dialogs w !! dlg) /\
    forall q j, q ∈ dc_inProgress w -> dc_iips w !! q = Some j -> iip_irq j ≠ Some irq
  | op_outgoing _ _ _ _ | op_clear_leg _ => True
  | op_reliable p | op_prack p _ | op_cancel p | op_clear p => is_member p w
  | op_timeout p => exists i, dc_iips w !! p = Some i /\ is_Some (iip_timerCancel i)
  end.

(** The timer that went off is taken out of the object but not destroyed. *)
Definition leaked_by (op : iip_op) (w : SipDialogController) (k : kind) (r : positive) : Prop :=
  match op with
  | op_timeout p => k = KTimer /\ exists i, dc_iips w !! p = Some i /\ iip_timerCancel i = Some r
  | _ => False
  end.

(** ** Between two handlers *)

Record iip_rest (w : SipDialogController) : Prop := IipRest {
  rest_wf : iip_wf w;
  rest_members p : is_Some (dc_iips w !! p) -> p ∈ dc_inProgress w;
  rest_paired p i : dc_iips w !! p = Some i -> timer_paired i;
  rest_lock : m_lock (dc_clients w) = false;
}.

(** States of a running server: its own operations, and what the rest of the
    program and the stack do meanwhile. *)
Inductive iip_reach : SipDialogController -> Prop :=
  | reach_start w :
      dc_iips w = ∅ -> dc_inProgress w = ∅ -> m_lock (dc_clients w) = false -> iip_reach w
  | reach_op op w w' : iip_reach w -> iip_enabled op w -> iip_run op w = Ok (tt, w') -> iip_reach w'
  | reach_other w w' :
      iip_reach w -> dc_iips w' = dc_iips w -> dc_inProgress w' = dc_inProgress w -> m_lock (dc_clients w') = false ->
      (forall k p i r, dc_iips w !! p = Some i -> r ∈ owns i k -> r ∈ live w' k) ->
      (forall p i r, dc_iips w !! p = Some i -> iip_irq i = Some r -> r ∈ dc_irqs w' /\ is_Some (dc_dialogs w' !! iip_dlg i)) ->
      iip_reach w'.

(** ** Clearing and timing out *)

Lemma cleared_accounted p i w w' : iip_wf w -> dc_iips w !! p = Some i -> cleared p i w w' -> accounted nothing w w'.
Proof.
  intros Hw Hi [C1 _ _ C4 C5 _ _]. apply (accounted_update _ w w' p i _ Hi C1).
  - intros [] r; cbn; [by intros ?%elem_of_nil|..]; intros Hr; rewrite C5; (split; [|by left]).
    + apply (ow_live _ _ (wf_owned w Hw) p i KTimer r Hi Hr). + apply (ow_live _ _ (wf_owned w Hw) p i KCell r Hi Hr).
  - intros [] r; cbn; rewrite ?C4, ?C5; [|done..]. intros Hr Hnr. by rewrite elem_of_difference, elem_of_list_to_set.
  - intros [] r; cbn; [|by right..]. rewrite C4, elem_of_difference, elem_of_list_to_set. tauto.
Qed.

(** What [reap_iips] adds to an accounted step. *)
Lemma reap_accounted leaked w w1 :
  iip_wf w1 -> accounted leaked w w1 -> m_lock (dc_clients w1) = false ->
  (forall p i, p ∈ dc_inProgress w1 -> dc_iips w1 !! p = Some i -> timer_paired i) ->
  exists w', reap_iips w1 = Ok (tt, w') /\ iip_rest w' /\ accounted leaked w w' /\ same_frame w1 w' /\
    (forall q, dc_iips w' !! q = if bool_decide (q ∈ dc_inProgress w1) then dc_iips w1 !! q else None).
Proof.
  intros Hw1 [A1 A2 A3] Hlock Hpair. destruct (reap_iips_ok w1 Hw1) as (w' & E & Hw' & Hf & Hi & Hl).
  exists w'. split; [done|]. destruct Hf as [F1 F2 F3 F4]. split_and!; [split| |by split|done].
  - done.
  - intros p [i Hp]. rewrite Hi in Hp. rewrite F1. by case_bool_decide.
  - intros p i Hp. rewrite Hi in Hp. case_bool_decide; [|done]. by apply (Hpair p).
  - by rewrite F4.
  - split.
    + intros p i k r Hp Hr [Hlv Hno]%Hl. destruct (A1 p i k r Hp Hr Hlv) as [?|(j & Hj & Hrj)]; [by left|]. right.
      exists j. rewrite Hi. case_bool_decide as Hm; [done|]. by destruct (Hno p j Hm Hj).
    + intros k r Hr Hno. apply Hl. split; [by apply A2|]. intros p j Hm Hj Hrj.
      destruct (A3 p j k r Hj Hrj Hr) as (i & Hp & Hri). by apply (Hno p i Hp).
    + intros p j k r. rewrite Hi. case_bool_decide; [|done]. by apply A3.
Qed.

(** The states of two worlds that agree on the invites in progress. *)
Lemma iip_wf_clients u w : iip_wf w -> iip_wf (on_dc_clients u w).
Proof. by intros [[] ]. Qed.
Lemma removeAppTransaction_ok t w :
  m_lock (dc_clients w) = false ->
  exists u, clients (removeAppTransaction t) w = Ok (tt, on_dc_clients u w) /\ m_lock (u (dc_clients w)) = false.
Proof.
  intros Hl. exists (fun cc => set_lock false (on_app (delete t) (set_lock true cc))). split; [|done].
  unfold clients, zoom, removeAppTransaction, locked. by rewrite (lock_guard_ok _ _ _ _ tt _ Hl eq_refl).
Qed.

Lemma doCancelTimerHandling_ok w p i :
  iip_rest w -> dc_iips w !! p = Some i -> is_Some (iip_timerCancel i) ->
  exists w', doCancelTimerHandling p w = Ok (tt, w') /\ iip_wf w' /\ accounted (leaked_by (op_timeout p) w) w w' /\
    m_lock (dc_clients w') = false /\ p ∉ dc_inProgress w' /\ dc_inProgress w' ⊆ dc_inProgress w /\
    forall q, q ≠ p -> dc_iips w' !! q = dc_iips w !! q.
Proof.
  intros [Hw Hm Hpair Hlock] Hi Ht. assert (p ∈ dc_inProgress w) as Hp by (apply Hm; by eexists).
  destruct (proj1 (Hpair p i Hi) Ht) as [c Ec]. destruct Ht as [t Et].
  unfold doCancelTimerHandling. mstep.
  erewrite M_bind_ok; [|by apply assertb_true, bool_decide_eq_true_2; eexists]. cbn beta.
  destruct (removeAppTransaction_ok (iip_transactionId i) w Hlock) as (u & Eu & Hlock1).
  set (w1 := on_dc_clients u w) in *. assert (dc_iips w1 !! p = Some i) as Hi1 by done.
  destruct (IIP_Clear_ok w1 p i (iip_wf_clients u w Hw) Hp Hi1) as (w2 & E2 & C).
  assert (notifyCancelTimeoutReachedIIP p w = Ok (tt, w2)) as En.
  { unfold notifyCancelTimeoutReachedIIP. by rewrite (M_bind_ok _ _ _ _ _ (iip_load_ok _ _ _ Hi)), (M_bind_ok _ _ _ _ _ Eu). }
  rewrite (M_bind_ok _ _ _ _ _ En). pose proof (cleared_wf p i w1 w2 (iip_wf_clients u w Hw) Hi1 Hp C) as Hw2.
  destruct C as [C1 C2 C3 C4 C5 C6 C7]. set (i2 := on_iip_reliables (fun _ => []) i) in *.
  assert (dc_iips w2 !! p = Some i2) as Hi2 by (rewrite C1; apply lookup_insert_eq).
  rewrite (M_bind_ok _ _ _ _ _ (iip_load_ok _ _ _ Hi2)). change (iip_ppSelf i2) with (iip_ppSelf i). rewrite Ec.
  pose proof (ow_live _ _ (wf_owned w Hw) p i KCell c Hi) as Hc. cbn in Hc. rewrite Ec in Hc.
  erewrite M_bind_ok; [|apply on_stack_ok, release_live_ok; rewrite C5; apply Hc; by left]. cbn beta.
  rewrite (iip_store_ok p _ i2) by done. eexists. split; [done|].
  assert (p ∉ dc_inProgress w2) as Hout by (intros [_ Hn]%C2; by apply (Hn i)).
  split_and!; [| |by cbn; rewrite C6|done|cbn; by intros q [? _]%C2|].
  - apply (iip_wf_shrink w2 _ Hw2); cbn; [|done|..].
    + eapply owned_update; [apply Hw2|done|..].
      * intros []; constructor.
      * intros [] r; cbn; by intros ?%elem_of_nil.
      * intros [] r; cbn; [done|done|]. rewrite Ec. cbn. set_solver.
    + intros q Hq. rewrite lookup_insert_ne by (by intros ->). by apply Hw2.
    + intros q j Hq. rewrite lookup_insert_ne by (by intros ->). intros Hj. exists j. by split.
    + done.
    + done.
  - eapply (accounted_update _ w _ p i); [done|cbn; rewrite C1, insert_insert_eq; done|..].
    + intros [] r; cbn; by intros ?%elem_of_nil.
    + intros [] r; cbn; rewrite ?C4, ?C5; cbn; [|done|].
      * intros Hr Hnr. by rewrite elem_of_difference, elem_of_list_to_set.
      * rewrite Ec. cbn. set_solver.
    + intros [] r Hr Hlv; cbn in Hr, Hlv.
      * rewrite C4 in Hlv. cbn in Hlv. apply elem_of_difference in Hlv as [_ Hlv]. by rewrite elem_of_list_to_set in Hlv.
      * left. split; [done|]. exists i. split; [done|]. rewrite Et in *. apply list_elem_of_singleton in Hr. congruence.
      * rewrite Ec in Hr. cbn in Hr. set_solver.
  - intros q Hq. cbn. by rewrite lookup_insert_ne, C1, lookup_insert_ne.
Qed.

(** ** Every operation *)

(** An operation that leaves the members and the lock alone. *)
Lemma paired_update w w' p i i' :
  iip_rest w -> dc_iips w !! p = Some i -> timer_paired i' -> dc_iips w' = <[p := i']> (dc_iips w) ->
  forall q j, dc_iips w' !! q = Some j -> timer_paired j.
Proof.
  intros Hr Hi Hp Ei q j. rewrite Ei. intros [[<- <-]|[_ Hj]]%lookup_insert_Some; [done|]. by apply (rest_paired w Hr q).
Qed.

Lemma iip_act_ok op w :
  iip_rest w -> iip_enabled op w ->
  exists w', iip_act op w = Ok (tt, w') /\ iip_wf w' /\ accounted (leaked_by op w) w w' /\
    m_lock (dc_clients w') = false /\ forall p i, p ∈ dc_inProgress w' -> dc_iips w' !! p = Some i -> timer_paired i.
Proof.
  intros Hr Hen. pose proof (rest_wf w Hr) as Hw. pose proof (rest_lock w Hr) as Hlock.
  assert (forall i, no_timer i -> (forall r, iip_irq i = Some r -> r ∈ dc_irqs w /\ is_Some (dc_dialogs w !! iip_dlg i) /\
     forall q j, q ∈ dc_inProgress w -> dc_iips w !! q = Some j -> iip_irq j ≠ Some r) ->
    exists w', IIP_insert i w = Ok (tt, w') /\ iip_wf w' /\ accounted nothing w w' /\
    m_lock (dc_clients w') = false /\ forall p j, p ∈ dc_inProgress w' -> dc_iips w' !! p = Some j -> timer_paired j) as Hins.
  { intros i Hnew Hirq. destruct (IIP_insert_wf w i Hw Hnew Hirq) as (w' & E & Hw' & [[-> _]|[-> _]]).
    { exists w. split_and!; [done|done|apply accounted_refl|done|]. intros p j _. by apply (rest_paired w Hr p). }
    destruct Hnew as (N1 & N2 & N3). assert (timer_paired i) as Hpi by (unfold timer_paired; by rewrite N2, N3).
    eexists. split_and!; [done|done| |done|].
    - split; cbn.
      + intros p j k r Hp Hrj _. right. exists j. split; [|done]. rewrite lookup_insert_ne; [done|]. intros Ep.
        pose proof (fresh_addr_lookup (dc_iips w)). congruence.
      + done.
      + intros p j k r [[<- <-]|[_ Hj]]%lookup_insert_Some Hrj _; [|by exists j].
        destruct k; cbn in Hrj; rewrite ?N1, ?N2, ?N3 in Hrj; by apply elem_of_nil in Hrj.
    - cbn. intros p j _ [[<- <-]|[_ Hj]]%lookup_insert_Some; [done|]. by apply (rest_paired w Hr p). }
  assert (forall p, is_member p w -> exists w', IIP_Clear p w = Ok (tt, w') /\ iip_wf w' /\ accounted nothing w w' /\
    m_lock (dc_clients w') = false /\ forall q j, q ∈ dc_inProgress w' -> dc_iips w' !! q = Some j -> timer_paired j) as Hclr.
  { intros p Hp. destruct (wf_objects w Hw p Hp) as [i Hi]. destruct (IIP_Clear_ok w p i Hw Hp Hi) as (w' & E & C).
    exists w'. split_and!; [done|by eapply cleared_wf|by eapply cleared_accounted|by rewrite (cl_clients _ _ _ _ C)|].
    intros q j _. by apply (paired_update w w' p i (on_iip_reliables (fun _ => []) i)); [done|done|apply (rest_paired w Hr p i Hi)|apply C]. }
  destruct op as [leg irq txn dlg|leg orq txn dlg|p|p rel|p|p|leg|p]; cbn [iip_enabled iip_act] in *.
  - apply Hins; [done|]. intros r [= <-]. apply Hen.
  - by apply Hins.
  - destruct (wf_objects w Hw p Hen) as [i Hi]. destruct (IIP_reliable_wf w p i Hw Hen Hi) as (w' & E & [Hw' A] & Ei & Em & Ec).
    exists w'. split_and!; [done|done|done|by rewrite Ec|]. intros q j _.
    eapply (paired_update w w' p i); [done|done| |done]. apply (rest_paired w Hr p i Hi).
  - destruct (wf_objects w Hw p Hen) as [i Hi].
    destruct (iip_find_spec (fun j => bool_decide (iip_transactionId j = iip_transactionId i)) w) as (o & E & Ho).
    unfold IIP_DestroyReliable, IIP_FindByTransactionId. rewrite (M_bind_ok _ _ _ _ _ (iip_load_ok _ _ _ Hi)), (M_bind_ok _ _ _ _ _ E).
    destruct o as [q|]; [|specialize (Ho p i Hen Hi); by rewrite bool_decide_eq_true_2 in Ho].
    destruct Ho as (j & Hq & Hj & Et%bool_decide_eq_true). assert (q = p) as -> by (eapply (wf_txn w); eauto). simplify_eq.
    destruct (IIP_destroyReliable_wf w p i rel Hw Hi) as (w' & E' & [Hw' A] & Ei & Em & Ec & _).
    exists w'. split_and!; [done|done|done|by rewrite Ec|]. intros q j _.
    eapply (paired_update w w' p i); [done|done| |done]. apply (rest_paired w Hr p i Hi).
  - destruct (wf_objects w Hw p Hen) as [i Hi].
    destruct (IIP_setCanceled_wf w p i Hw Hi (rest_paired w Hr p i Hi)) as (w' & E & [Hw' A] & Em & Ec & i' & Ei & _ & _ & Hp').
    exists w'. split_and!; [done|done|done|by rewrite Ec|]. intros q j _. by eapply (paired_update w w' p i).
  - by apply Hclr.
  - unfold IIP_Clear_leg, IIP_FindByLeg. destruct (iip_find_spec (fun i => bool_decide (iip_leg i = leg)) w) as (o & E & Ho).
    rewrite (M_bind_ok _ _ _ _ _ E). destruct o as [p|].
    + apply Hclr. by destruct Ho as (j & Hj & _).
    + exists w. split_and!; [done|done|apply accounted_refl|done|]. intros q j _. by apply (rest_paired w Hr q).
  - destruct Hen as (i & Hi & Ht). destruct (doCancelTimerHandling_ok w p i Hr Hi Ht) as (w' & E & Hw' & A & Hl & Hout & Hsub & Hsame).
    exists w'. split_and!; [done..|]. intros q j Hq. assert (q ≠ p) as Hne by (by intros ->). rewrite Hsame by done.
    by apply (rest_paired w Hr q).
Qed.

Lemma iip_run_ok op w :
  iip_rest w -> iip_enabled op w ->
  exists w', iip_run op w = Ok (tt, w') /\ iip_rest w' /\ accounted (leaked_by op w) w w'.
Proof.
  intros Hr Hen. destruct (iip_act_ok op w Hr Hen) as (w1 & E & Hw1 & A & Hl & Hp).
  destruct (reap_accounted _ w w1 Hw1 A Hl Hp) as (w' & E' & Hr' & A' & _). exists w'.
  unfold iip_run. by rewrite (M_bind_ok _ _ _ _ _ E).
Qed.

Lemma iip_reach_rest w : iip_reach w -> iip_rest w.
Proof.
  induction 1 as [w Ei Em Hl|op w w' _ IH Hen E|w w' _ [Hw Hm Hp _] Ei Em Hl Hlive Hirq].
  - assert (forall p : positive, p ∉ dc_inProgress w) as Hno by (rewrite Em; set_solver).
    split; [split; [split|..]|..]; try done; intros; exfalso;
      match goal with
      | H : _ ∈ dc_inProgress w |- _ => by eapply Hno
      | H : dc_iips w !! _ = Some _ |- _ => by rewrite Ei in H
      | H : is_Some (dc_iips w !! _) |- _ => rewrite Ei in H; by destruct H
      end.
  - destruct (iip_run_ok op w IH Hen) as (w'' & E' & Hr & _). congruence.
  - split; rewrite ?Ei, ?Em; [|done..]. destruct Hw as [[O1 O2 O3] Hobj Htxn _ Hinj].
    split; rewrite ?Ei, ?Em; [split; [done| |done]|done|done| |done]; eauto.
Qed.

(** C38: From any state of a running server, every operation on the invites in
    progress that the dialog controller makes, followed by the destruction
    of the invites that left the container, runs without an access to a
    destroyed transaction, reliable response, timer or object.  The container
    and the objects agree again, transaction ids are unique, and every
    reliable response, cancel timer and weak pointer that an invite owned is
    live exactly as long as that invite owns it; the one exception is the
    timer of a cancel that timed out. *)
Theorem iip_safe op w :
  iip_reach w -> iip_enabled op w ->
  exists w', iip_run op w = Ok (tt, w') /\ iip_wf w' /\ (forall p, is_Some (dc_iips w' !! p) <-> p ∈ dc_inProgress w') /\
    (forall p i k r, dc_iips w !! p = Some i -> r ∈ owns i k -> ~ leaked_by op w k r ->
       (r ∈ live w' k <-> exists j, dc_iips w' !! p = Some j /\ r ∈ owns j k)) /\
    forall k r, r ∈ live w k -> (forall p i, dc_iips w !! p = Some i -> r ∉ owns i k) -> r ∈ live w' k.
Proof.
  intros Hr%iip_reach_rest Hen. destruct (iip_run_ok op w Hr Hen) as (w' & E & [Hw' Hm _ _] & [A1 A2 _]).
  exists w'. split_and!; [done|done| | |done].
  - intros p. split; [apply Hm|apply Hw'].
  - intros p i k r Hi Hr' Hnl. split.
    + intros Hlv. by destruct (A1 p i k r Hi Hr' Hlv).
    + intros (j & Hj & Hrj). by apply (ow_live _ _ (wf_owned w' Hw') p j k r).
Qed.

(** Clearing an invite takes exactly the members of its leg out of the
    container, destroys its incoming transaction and clears its dialog's
    pointer to it; the incoming transactions of the members that stay are
    untouched, and when the objects that left have died, nothing of what the
    invite owned is live and the objects are the members again. *)
Theorem clear_invite w p i :
  iip_reach w -> is_member p w -> dc_iips w !! p = Some i ->
  exists w', iip_run (op_clear p) w = Ok (tt, w') /\
    (forall q, is_Some (dc_iips w' !! q) <-> q ∈ dc_inProgress w') /\
    (forall q, q ∈ dc_inProgress w' <-> q ∈ dc_inProgress w /\ forall j, dc_iips w !! q = Some j -> iip_leg j ≠ iip_leg i) /\
    (forall q j, q ∈ dc_inProgress w' -> (dc_iips w' !! q = Some j <-> dc_iips w !! q = Some j)) /\
    dc_irqs w' = dc_irqs w ∖ list_to_set (option_list (iip_irq i)) /\
    (forall k r, r ∈ owns i k -> r ∉ live w' k) /\
    (is_Some (iip_irq i) -> exists d c, dc_dialogs w' !! iip_dlg i = Some (d, c) /\ m_irqInvite c = None).
Proof.
  intros Hr%iip_reach_rest Hp Hi. pose proof (rest_wf w Hr) as Hw.
  destruct (IIP_Clear_ok w p i Hw Hp Hi) as (w1 & E & C). pose proof (cleared_wf p i w w1 Hw Hi Hp C) as Hw1.
  assert (m_lock (dc_clients w1) = false) as Hl by (rewrite (cl_clients _ _ _ _ C); apply Hr).
  assert (forall q j, q ∈ dc_inProgress w1 -> dc_iips w1 !! q = Some j -> timer_paired j) as Hpair.
  { intros q j _. by apply (paired_update w w1 p i (on_iip_reliables (fun _ => []) i)); [done|done|apply (rest_paired w Hr p i Hi)|apply C]. }
  destruct (reap_accounted _ w w1 Hw1 (cleared_accounted p i w w1 Hw Hi C) Hl Hpair) as (w' & E' & Hr' & [A1 A2 _] & [F1 F2 F3 _] & Hlk).
  destruct C as [C1 C2 C3 C4 C5 C6 C7].
  assert (forall q, q ∈ dc_inProgress w1 -> q ≠ p) as Hne by (intros q [_ Hq]%C2 ->; by apply (Hq i)).
  exists w'. split_and!.
  - unfold iip_run. cbn [iip_act]. by rewrite (M_bind_ok _ _ _ _ _ E).
  - intros q. split; [apply Hr'|apply (wf_objects w' (rest_wf w' Hr'))].
  - by rewrite F1.
  - intros q j Hq. rewrite F1 in Hq. rewrite Hlk, bool_decide_eq_true_2, C1, lookup_insert_ne by (done || by apply not_eq_sym, Hne). done.
  - by rewrite F2.
  - intros k r Hrk Hlv. destruct (A1 p i k r Hi Hrk Hlv) as [[]|(j & Hj & _)]. rewrite Hlk in Hj. case_bool_decide as Hq; [|done].
    by apply (Hne p Hq).
  - intros [r Er]. rewrite F3, C7, Er, lookup_alter_eq. destruct (wf_irq w Hw p i r Hp Hi Er) as [_ [[d c] Hd]]. rewrite Hd. cbn. eauto.
Qed.

End timed.

(** ** A call that is set up, canceled and times out *)

Import ClockZ.

Definition no_clients : ClientController := MkClientController ∅ false ∅ [] [] ∅ ∅ ∅ ∅ ∅ ∅ [].
Definition no_endpoint : Endpoint_t := Endpoint "" "" "".
Definition plain_dialog (leg : option positive) : SipDialog :=
  MkSipDialog (DialogIds we_are_uas "call" "" "t1" no_endpoint no_endpoint)
    (DialogNet None None true "" "" "" "" 0 "") (SessionTimer no_refresher None None 0 90 0) leg None 1 0 true 0 ∅.
Definition no_connections : conn_tables := ConnTables false ∅ ∅ 0.
Definition plain_world : SipDialogController :=
  MkDC (MkStack ∅ ∅ ∅ ∅ ∅ {[ 3%positive ]} []) {[ 5%positive; 6%positive ]} ∅
    {[ 9%positive := (plain_dialog (Some 3%positive), no_ctl) ]} ∅ ∅ ∅ ∅ ∅ (MkTimerD ∅ ∅) ∅ ∅ no_clients ∅ []
    (Inputs [] [] [] []) no_connections (no_main (at_us 0)).
Definition run_world {A} (m : DC A) (w : SipDialogController) : SipDialogController :=
  match m w with Ok (_, w') => w' | Fault _ => w end.
Definition ringing : SipDialogController := run_world (iip_run (op_incoming 3 5 "t1" 9)) plain_world.
Definition the_iip : positive := fresh_addr (dc_iips plain_world).
Definition reliable : SipDialogController := run_world (iip_run (op_reliable the_iip)) ringing.
Definition canceled : SipDialogController := run_world (iip_run (op_cancel the_iip)) reliable.

Lemma canceled_reach : iip_reach canceled.
Proof.
  apply (reach_op (op_cancel the_iip) reliable); [|vm_compute; set_solver|by vm_compute].
  apply (reach_op (op_reliable the_iip) ringing); [|vm_compute; set_solver|by vm_compute].
  apply (reach_op (op_incoming 3 5 "t1" 9) plain_world); [by constructor| |by vm_compute].
  split; [by apply (bool_decide_unpack _); vm_compute|]. split; [by eexists|]. by intros q j Hq.
Defined.
Lemma iip_safe_witness : exists w', iip_run (op_timeout the_iip) canceled = Ok (tt, w') /\ dc_inProgress w' = ∅.
Proof.
  assert (iip_enabled (op_timeout the_iip) canceled) as Hen by (vm_compute; eauto).
  destruct (iip_safe (op_timeout the_iip) canceled canceled_reach Hen) as (w' & E & _). exists w'. split; [done|].
  vm_compute in E. by injection E as <-.
Defined.
Lemma clear_invite_witness : exists w', iip_run (op_clear the_iip) canceled = Ok (tt, w') /\ dc_irqs w' = {[ 6%positive ]}.
Proof.
  assert (exists i, dc_iips canceled !! the_iip = Some i) as [i Hi] by (vm_compute; eauto).
  assert (is_member the_iip canceled) as Hm by (unfold is_member; apply (bool_decide_unpack _); by vm_compute).
  destruct (clear_invite canceled the_iip i canceled_reach Hm Hi) as (w' & E & _). exists w'. split; [done|].
  vm_compute in E. by injection E as <-.
Defined.

(** The timer of the cancel that timed out stays with the stack. *)
Lemma cancel_timer_leaks :
  exists t, t ∈ st_timers (dc_stack canceled) /\ t ∈ st_timers (dc_stack (run_world (iip_run (op_timeout the_iip)) canceled)) /\
    dc_iips (run_world (iip_run (op_timeout the_iip)) canceled) = ∅.
Proof. exists (fresh (∅ : gset positive)). split_and!; [apply (bool_decide_unpack _); by vm_compute..|by vm_compute]. Qed.

(** Two invites on one leg: clearing one takes both out of the container and
    leaves the second one's incoming transaction behind. *)
Definition two_on_a_leg : SipDialogController := run_world (iip_run (op_incoming 3 6 "t2" 9)) ringing.
Lemma clear_same_leg_leaves_irq :
  dc_iips (run_world (iip_run (op_clear the_iip)) two_on_a_leg) = ∅ /\
  dc_irqs (run_world (iip_run (op_clear the_iip)) two_on_a_leg) = {[ 6%positive ]}.
Proof. by vm_compute. Qed.
