(* ===== verification/TimerD.v ===== *)
(** Model of [TimerDHandler], which keeps the ACK of a successful INVITE for
    retransmitted responses, and of [trackTportLiveness], which closes
    connections whose requests time out (src/sip-dialog-controller.cpp), with
    the life of an ACK and the condition for closing. *)
From S2P Require Import Prelude CppString TextUtil SipTags ClientController TimerQueue PendingRequests SipDialog DialogWorld InviteInProgressCorrect.

Open Scope list_scope.

Section timed.
Context `{sutime : SuTime}.

Definition TIMER_D_MSECS : Z := 30000.

(** ** Timer D *)

Definition combineCallIdAndCSeq (orq : positive) : DC string :=
  c ← sent_of orq; mret (nta_outgoing_call_id c +:+ " " +:+ to_string (nta_outgoing_cseq c))%string.
Definition pending : DC (gmap string positive) := w ← get; mret (m_mapCallIdAndCSeq2Invite (dc_timerD w)).
Definition acks : DC (gmap positive positive) := w ← get; mret (m_mapInvite2Ack (dc_timerD w)).

Definition addInvite (invite : positive) : DC unit :=
  callIdAndCSeq ← combineCallIdAndCSeq invite;
  m ← pending;
  _ ← assertb (bool_decide (m !! callIdAndCSeq = None));
  _ ← modify (on_dc_timerD (on_pending (insert callIdAndCSeq invite)));
  _ ← addTimer "timerD" (timerD_fn invite callIdAndCSeq) TIMER_D_MSECS;
  mret tt.

Definition addAck (ack : positive) : DC unit :=
  callIdAndCSeq ← combineCallIdAndCSeq ack;
  m ← pending;
  match m !! callIdAndCSeq with
  | Some invite =>
    _ ← modify (on_dc_timerD (on_acks (fun a => match a !! invite with Some _ => a | None => <[invite := ack]> a end)));
    modify (on_dc_timerD (on_pending (delete callIdAndCSeq)))
  | None => mret tt
  end.

(** [outgoing_retransmit(orq)] *)
Definition outgoing_retransmit (orq : positive) : DC unit := _ ← live_orq orq; emit (RetransmittedRequest orq).
Definition resendIfNeeded (invite : positive) : DC bool :=
  a ← acks;
  match a !! invite with
  | Some ack => _ ← outgoing_retransmit ack; mret true
  | None =>
    m ← pending;
    if bool_decide (m = ∅) then mret false else
    callIdAndCSeq ← combineCallIdAndCSeq invite;
    mret (bool_decide (is_Some (m !! callIdAndCSeq)))
  end.

(** What [timerD] and [clearTimerD] share; the result says whether an ACK was
    freed. *)
Definition forget_invite (invite : positive) (callIdAndCSeq : string) : DC bool :=
  m ← pending;
  match m !! callIdAndCSeq with
  | Some _ => _ ← modify (on_dc_timerD (on_pending (delete callIdAndCSeq))); mret false
  | None =>
    a ← acks;
    match a !! invite with
    | Some ack => _ ← outgoing_destroy ack; _ ← modify (on_dc_timerD (on_acks (delete invite))); mret true
    | None => mret false
    end
  end.
Definition timerD (invite : positive) (callIdAndCSeq : string) : DC unit :=
  _ ← forget_invite invite callIdAndCSeq; mret tt.
Definition clearTimerD (invite : positive) : DC bool :=
  callIdAndCSeq ← combineCallIdAndCSeq invite; forget_invite invite callIdAndCSeq.
Definition countTimerD (t : TimerDHandler) : nat := size (m_mapInvite2Ack t).
Definition countPending (t : TimerDHandler) : nat := size (m_mapCallIdAndCSeq2Invite t).

(** ** Connections that do not answer *)

Section liveness.
Context `{SofiaTport} `{NtaAgent} `{DialogConfig}.

Definition tport_key (tp : positive) : string :=
  let n := tport_name tp in (tpn_proto n +:+ "/" +:+ tpn_host n +:+ ":" +:+ tpn_port n)%string.
(** A NULL message is internal. *)
Definition is_internal (sip : option sip_response) : bool := match sip with Some s => rs_internal s | None => true end.
Definition is_timeout (sip : option sip_response) : bool :=
  is_internal sip && match sip with Some s => Z.eqb (rs_status s) 408 | None => true end.

(** A connection-oriented secondary transport is counted. *)
Definition count_outcome (tp : positive) (sip : option sip_response) : DC unit :=
  let N := tportMaxConsecutiveTimeouts in
  if negb (tport_is_secondary tp) || tport_is_udp tp then mret tt else
  let key := tport_key tp in
  if is_timeout sip then
    w ← get;
    let c := ((default 0 (dc_timeouts w !! key) + 1) mod 2 ^ 32)%N in
    _ ← modify (on_dc_timeouts (insert key c));
    if N.leb N c then _ ← emit (ShutTport tp); modify (on_dc_timeouts (delete key)) else mret tt
  else if negb (is_internal sip) then modify (on_dc_timeouts (delete key)) else mret tt.
Definition trackTportLiveness (orq : positive) (sip : option sip_response) : DC unit :=
  if N.eqb tportMaxConsecutiveTimeouts 0 then mret tt else
  w ← get;
  if negb (is_timeout sip) && bool_decide (dc_timeouts w = ∅) then mret tt else
  tp ← on_stack (nta_outgoing_transport orq);
  match tp with
  | None => mret tt
  | Some tp => _ ← count_outcome tp sip; on_stack (tport_unref tp)
  end.
End liveness.
End timed.
