(* ===== verification/TimerDCorrect.v ===== *)
(** The life of an ACK under timer D, and when a connection is closed for its
    timeouts. *)
From S2P Require Import Prelude CppString TextUtil SipTags ClientController TimerQueue PendingRequests SipDialog DialogWorld InviteInProgressCorrect TimerD.

Open Scope list_scope.

Section timed.
Context `{sutime : SuTime}.

(** ** The life of an ACK *)

Fixpoint times {A} (n : nat) (m : DC A) : DC unit :=
  match n with O => mret tt | S n => _ ← m; times n m end.
Definition key_text (c : created) : string := (nta_outgoing_call_id c +:+ " " +:+ to_string (nta_outgoing_cseq c))%string.
Definition is_live (w : SipDialogController) (q : positive) (c : created) : Prop :=
  is_Some (st_orqs (dc_stack w) !! q) /\ dc_sent w !! q = Some c.
(** Timer D goes off: the queue takes the entry out and calls its function. *)
Definition timerD_goes_off (h : positive) : DC unit :=
  w ← get;
  match dc_armed w !! h with
  | Some (_, timerD_fn invite callIdAndCSeq, _) => _ ← modify (on_dc_armed (delete h)); timerD invite callIdAndCSeq
  | _ => fail BadAccess
  end.

Lemma live_orq_ok q w : is_Some (st_orqs (dc_stack w) !! q) -> live_orq q w = Ok (tt, w).
Proof. intros Hq. unfold live_orq. mstep. by rewrite bool_decide_eq_true_2. Qed.
Lemma combine_ok q c w : is_live w q c -> combineCallIdAndCSeq q w = Ok (key_text c, w).
Proof.
  intros [Hq Hc]. unfold combineCallIdAndCSeq, sent_of.
  erewrite M_bind_ok; cycle 1.
  { rewrite (M_bind_ok _ _ _ _ _ (live_orq_ok q w Hq)). mstep. unfold deref. rewrite Hc. reflexivity. }
  reflexivity.
Qed.
Lemma on_dc_events_nil w : on_dc_events (fun l => l ++ []) w = w.
Proof. destruct w. unfold on_dc_events. cbn. by rewrite app_nil_r. Qed.

Lemma resend_acked i a w :
  m_mapInvite2Ack (dc_timerD w) !! i = Some a -> is_Some (st_orqs (dc_stack w) !! a) ->
  resendIfNeeded i w = Ok (true, on_dc_events (fun l => l ++ [RetransmittedRequest a]) w).
Proof.
  intros Ha Hq. unfold resendIfNeeded, acks. mstep. rewrite Ha. cbn beta iota.
  unfold outgoing_retransmit. erewrite M_bind_ok; [|by rewrite (M_bind_ok _ _ _ _ _ (live_orq_ok a w Hq))]. reflexivity.
Qed.
Lemma resend_waiting i c w :
  m_mapInvite2Ack (dc_timerD w) !! i = None -> is_live w i c -> is_Some (m_mapCallIdAndCSeq2Invite (dc_timerD w) !! key_text c) ->
  resendIfNeeded i w = Ok (true, w).
Proof.
  intros Ha Hq Hp. unfold resendIfNeeded, acks, pending. mstep. rewrite Ha. cbn beta iota. mstep.
  rewrite bool_decide_eq_false_2; cycle 1. { intros E. rewrite E, lookup_empty in Hp. by destruct Hp. }
  rewrite (M_bind_ok _ _ _ _ _ (combine_ok i c w Hq)). by rewrite bool_decide_eq_true_2.
Qed.
Lemma outgoing_destroy_live q w :
  is_Some (st_orqs (dc_stack w) !! q) -> outgoing_destroy q w = Ok (tt, on_dc_stack (on_orqs (delete q)) w).
Proof. intros [tp Hq]. unfold outgoing_destroy, on_stack, zoom, nta_outgoing_destroy. mstep. by rewrite Hq. Qed.
Lemma forget_acked i a k w :
  m_mapCallIdAndCSeq2Invite (dc_timerD w) !! k = None -> m_mapInvite2Ack (dc_timerD w) !! i = Some a ->
  is_Some (st_orqs (dc_stack w) !! a) ->
  forget_invite i k w = Ok (true, on_dc_timerD (on_acks (delete i)) (on_dc_stack (on_orqs (delete a)) w)).
Proof.
  intros Hk Ha Hq. unfold forget_invite, pending, acks. mstep. rewrite Hk. mstep. rewrite Ha.
  by rewrite (M_bind_ok _ _ _ _ _ (outgoing_destroy_live a w Hq)).
Qed.
Lemma times_same {A} n (m : DC A) a w : m w = Ok (a, w) -> times n m w = Ok (tt, w).
Proof. intros E. induction n as [|n IH]; [done|]. cbn. by rewrite (M_bind_ok _ _ _ _ _ E). Qed.
Lemma times_resend n i a w :
  m_mapInvite2Ack (dc_timerD w) !! i = Some a -> is_Some (st_orqs (dc_stack w) !! a) ->
  times n (resendIfNeeded i) w = Ok (tt, on_dc_events (fun l => l ++ replicate n (RetransmittedRequest a)) w).
Proof.
  revert w. induction n as [|n IH]; intros w Ha Hq; [by rewrite on_dc_events_nil|]. cbn [times].
  rewrite (M_bind_ok _ _ _ _ _ (resend_acked i a w Ha Hq)), IH by done.
  unfold on_dc_events. cbn. by rewrite <- app_assoc.
Qed.

Section life.
Context (w : SipDialogController) (i : positive) (c : created).
Hypothesis (Hlive : is_live w i c).
Hypothesis (Hpending : m_mapCallIdAndCSeq2Invite (dc_timerD w) !! key_text c = None).
Hypothesis (Hacks : m_mapInvite2Ack (dc_timerD w) !! i = None).

Definition accepted : SipDialogController :=
  on_dc_armed (insert (fresh_addr (dc_armed w)) ("timerD"%string, timerD_fn i (key_text c), TIMER_D_MSECS))
    (on_dc_timerD (on_pending (insert (key_text c) i)) w).
Lemma addInvite_ok : addInvite i w = Ok (tt, accepted).
Proof.
  unfold addInvite. rewrite (M_bind_ok _ _ _ _ _ (combine_ok i c w Hlive)). unfold pending. mstep.
  erewrite M_bind_ok; [|by apply assertb_true, bool_decide_eq_true_2]. reflexivity.
Qed.

(** The ACK, sent in any later state. *)
Context (w2 : SipDialogController) (a : positive) (ca : created).
Hypothesis (Htables : dc_timerD w2 = dc_timerD accepted).
Hypothesis (Hack : is_live w2 a ca) (Hkey : key_text ca = key_text c).
Definition acked : SipDialogController :=
  on_dc_timerD (fun t => MkTimerD (delete (key_text c) (m_mapCallIdAndCSeq2Invite t)) (<[i := a]> (m_mapInvite2Ack t))) w2.
Lemma addAck_ok : addAck a w2 = Ok (tt, acked).
Proof.
  unfold addAck. rewrite (M_bind_ok _ _ _ _ _ (combine_ok a ca w2 Hack)). unfold pending. mstep.
  rewrite Hkey, Htables. cbn -[lookup insert]. rewrite lookup_insert_eq. cbn beta iota. mstep.
  unfold modify, acked, on_dc_timerD, on_acks, on_pending. cbn -[lookup insert delete]. rewrite Htables. cbn -[lookup insert delete].
  by rewrite Hacks.
Qed.

Lemma timerD_frees h q ms :
  dc_armed w2 !! h = Some (q, timerD_fn i (key_text c), ms) ->
  timerD_goes_off h acked = Ok (tt, on_dc_stack (on_orqs (delete a)) (on_dc_armed (delete h) (on_dc_timerD (fun _ => dc_timerD w) w2))).
Proof.
  intros Hh. destruct Hack as [Ha _]. unfold timerD_goes_off. mstep. cbn [dc_armed acked on_dc_timerD]. rewrite Hh.
  mstep. unfold timerD. erewrite M_bind_ok; [|apply (forget_acked i a)].
  - unfold mret, M_ret. do 2 f_equal. unfold on_dc_timerD, on_dc_armed, on_dc_stack, on_acks. cbn -[insert delete]. f_equal.
    rewrite Htables. cbn -[insert delete]. rewrite !delete_insert_id by done. by destruct (dc_timerD w).
  - cbn -[delete]. by rewrite lookup_delete_eq.
  - cbn -[insert]. by rewrite lookup_insert_eq.
  - done.
Qed.
End life.

(** When an INVITE sent over UDP is accepted, timer D is armed for thirty
    seconds; until the application sends the ACK, retransmissions of the
    response are swallowed; after it every retransmission is answered by
    sending that ACK again, once; when timer D goes off the ACK's transaction
    is destroyed, and the tables are as they were before the call. *)
Theorem timerD_ack_life w i c n w2 a ca m h q ms :
  is_live w i c ->
  m_mapCallIdAndCSeq2Invite (dc_timerD w) !! key_text c = None -> m_mapInvite2Ack (dc_timerD w) !! i = None ->
  dc_timerD w2 = dc_timerD (accepted w i c) -> is_live w2 a ca -> key_text ca = key_text c ->
  dc_armed w2 !! h = Some (q, timerD_fn i (key_text c), ms) ->
  addInvite i w = Ok (tt, accepted w i c) /\
  (exists h0, dc_armed w !! h0 = None /\ dc_armed (accepted w i c) !! h0 = Some ("timerD"%string, timerD_fn i (key_text c), 30000%Z)) /\
  (_ ← times n (resendIfNeeded i); resendIfNeeded i) (accepted w i c) = Ok (true, accepted w i c) /\
  exists w3 w4, addAck a w2 = Ok (tt, w3) /\
    times m (resendIfNeeded i) w3 = Ok (tt, on_dc_events (fun l => l ++ replicate m (RetransmittedRequest a)) w3) /\
    timerD_goes_off h w3 = Ok (tt, w4) /\ dc_timerD w4 = dc_timerD w /\ dc_armed w4 = delete h (dc_armed w2) /\
    st_orqs (dc_stack w4) = delete a (st_orqs (dc_stack w2)) /\ dc_events w4 = dc_events w2.
Proof.
  intros Hl Hp Ha Ht Hla Hk Hh. split; [by apply addInvite_ok|]. split.
  { exists (fresh_addr (dc_armed w)). split; [apply fresh_addr_lookup|apply lookup_insert_eq]. }
  assert (resendIfNeeded i (accepted w i c) = Ok (true, accepted w i c)) as E.
  { apply (resend_waiting i c); [done|done|]. exists i. apply lookup_insert_eq. }
  split; [by rewrite (M_bind_ok _ _ _ _ _ (times_same n _ _ _ E))|].
  exists (acked i c w2 a). eexists. split; [by apply (addAck_ok w i c Ha w2 a ca)|]. split.
  { apply times_resend; [apply lookup_insert_eq|]. by destruct Hla. }
  split; [by eapply (timerD_frees w i c)|]. done.
Qed.

(** ** Closing connections that do not answer *)

Section liveness.
Context `{SofiaTport} `{NtaAgent} `{DialogConfig}.

Fixpoint track_all (l : list (positive * option sip_response)) : DC unit :=
  match l with [] => mret tt | (orq, sip) :: l => _ ← trackTportLiveness orq sip; track_all l end.
(** [w'] is [w] but for the counters and what was sent. *)
Definition same_stack (w w' : SipDialogController) : Prop :=
  st_orqs (dc_stack w') = st_orqs (dc_stack w) /\ forall t, refs_of (dc_stack w') t = refs_of (dc_stack w) t.
Definition after_response (tp : positive) (sip : option sip_response) (x : gmap string N * list dc_event) :
    gmap string N * list dc_event :=
  let '(m, ev) := x in
  let key := tport_key tp in
  if is_timeout sip then
    let c := ((default 0 (m !! key) + 1) mod 2 ^ 32)%N in
    if N.leb tportMaxConsecutiveTimeouts c then (delete key m, ev ++ [ShutTport tp]) else (<[key := c]> m, ev)
  else if negb (is_internal sip) then (delete key m, ev) else (m, ev).

Lemma on_stack_transport q tp w :
  st_orqs (dc_stack w) !! q = Some (Some tp) ->
  on_stack (nta_outgoing_transport q) w = Ok (Some tp, on_dc_stack (fun s => on_refs (insert tp (S (refs_of s tp))) s) w).
Proof. intros Hq. unfold on_stack, zoom, nta_outgoing_transport. mstep. by rewrite Hq. Qed.
Lemma on_stack_unref tp n w :
  refs_of (dc_stack w) tp = S n -> on_stack (tport_unref tp) w = Ok (tt, on_dc_stack (on_refs (insert tp n)) w).
Proof. intros E. unfold on_stack, zoom, tport_unref. by rewrite E. Qed.

Lemma count_outcome_ok tp sip w :
  tport_is_secondary tp = true -> tport_is_udp tp = false ->
  exists w', count_outcome tp sip w = Ok (tt, w') /\ dc_stack w' = dc_stack w /\
    (dc_timeouts w', dc_events w') = after_response tp sip (dc_timeouts w, dc_events w).
Proof.
  intros Hsec Hudp. unfold count_outcome, after_response. rewrite Hsec, Hudp. cbn [negb orb].
  destruct (is_timeout sip).
  - mstep. mstep. destruct (N.leb _ _).
    + eexists. split; [reflexivity|]. split; [done|]. cbn -[insert delete lookup]. by rewrite delete_insert_eq.
    + eexists. split; [reflexivity|]. by split.
  - destruct (negb (is_internal sip)); eexists; (split; [reflexivity|]); by split.
Qed.

Section one.
Context (tp : positive) (Hsec : tport_is_secondary tp = true) (Hudp : tport_is_udp tp = false).
Context (HN : (0 < tportMaxConsecutiveTimeouts < 2 ^ 32)%N).

Lemma track_step q sip w :
  st_orqs (dc_stack w) !! q = Some (Some tp) ->
  exists w', trackTportLiveness q sip w = Ok (tt, w') /\ same_stack w w' /\
    (dc_timeouts w', dc_events w') = after_response tp sip (dc_timeouts w, dc_events w).
Proof.
  intros Hq. unfold trackTportLiveness. destruct (N.eqb_spec tportMaxConsecutiveTimeouts 0); [lia|]. mstep.
  destruct (negb (is_timeout sip) && bool_decide (dc_timeouts w = ∅)) eqn:Ehot.
  { exists w. apply andb_true_iff in Ehot as [Et%negb_true_iff Em%bool_decide_eq_true].
    split; [done|]. split; [done|]. unfold after_response. rewrite Et, Em.
    destruct (negb (is_internal sip)); [|done]. by rewrite delete_empty. }
  rewrite (M_bind_ok _ _ _ _ _ (on_stack_transport q tp w Hq)). set (w1 := on_dc_stack _ w).
  destruct (count_outcome_ok tp sip w1 Hsec Hudp) as (w2 & E & Es & Ew). rewrite (M_bind_ok _ _ _ _ _ E).
  rewrite (on_stack_unref tp (refs_of (dc_stack w) tp)); cycle 1.
  { rewrite Es. unfold refs_of at 1. cbn -[insert lookup]. by rewrite lookup_insert_eq. }
  eexists. split; [done|]. split; [|done]. split; [cbn; by rewrite Es|].
  intros t. cbn. rewrite Es. unfold refs_of. cbn -[insert lookup].
  destruct (decide (t = tp)) as [->|Hne]; [by rewrite lookup_insert_eq|]. by rewrite !lookup_insert_ne.
Qed.

Definition timeouts_in (l : list (positive * option sip_response)) : N := N.of_nat (length (filter (fun r => is_timeout r.2 = true) l)).
Definition counter (n : N) : option N := if N.eqb n 0 then None else Some n.

Lemma track_segment l w c :
  Forall (fun r => st_orqs (dc_stack w) !! r.1 = Some (Some tp) /\ (is_internal r.2 = true)) l ->
  (c < tportMaxConsecutiveTimeouts)%N -> dc_timeouts w !! tport_key tp = counter c ->
  let t := (c + timeouts_in l)%N in
  exists w', track_all l w = Ok (tt, w') /\ same_stack w w' /\
    dc_events w' = dc_events w ++ replicate (N.to_nat (t / tportMaxConsecutiveTimeouts)) (ShutTport tp) /\
    dc_timeouts w' !! tport_key tp = counter (t mod tportMaxConsecutiveTimeouts) /\
    forall k, k ≠ tport_key tp -> dc_timeouts w' !! k = dc_timeouts w !! k.
Proof.
  intros Hl. revert w c Hl. induction l as [|[q sip] l IH]; intros w c Hl Hc Hcnt t.
  { exists w. subst t. unfold timeouts_in. cbn [filter list_filter length]. rewrite N.add_0_r, N.div_small, N.mod_small by done.
    cbn. by rewrite app_nil_r. }
  apply Forall_cons in Hl as [[Hq Hint] Hl]. cbn [fst snd] in *. cbn [track_all].
  destruct (track_step q sip w Hq) as (w1 & E & Hs & Ew). rewrite (M_bind_ok _ _ _ _ _ E).
  set (N0 := tportMaxConsecutiveTimeouts) in *.
  assert (forall c1, (c1 < N0)%N -> dc_timeouts w1 !! tport_key tp = counter c1 ->
    (forall k, k ≠ tport_key tp -> dc_timeouts w1 !! k = dc_timeouts w !! k) ->
    (exists d, dc_events w1 = dc_events w ++ replicate d (ShutTport tp) /\ (c + timeouts_in ((q, sip) :: l) = N.of_nat d * N0 + (c1 + timeouts_in l))%N) ->
    exists w', track_all l w1 = Ok (tt, w') /\ same_stack w w' /\
    dc_events w' = dc_events w ++ replicate (N.to_nat (t / N0)) (ShutTport tp) /\
    dc_timeouts w' !! tport_key tp = counter (t mod N0) /\ forall k, k ≠ tport_key tp -> dc_timeouts w' !! k = dc_timeouts w !! k) as Hgo.
  { intros c1 Hc1 Hcnt1 Hoth (d & Eev & Et). destruct (IH w1 c1) as (w' & E' & Hs' & Eev' & Hcnt' & Hoth'); [|done|done|].
    { eapply Forall_impl; [exact Hl|]. intros r [? ?]. destruct Hs as [-> _]. done. }
    exists w'. split; [done|]. split; [|split_and!].
    - destruct Hs as [S1 S2], Hs' as [S3 S4]. split; [congruence|]. intros. by rewrite S4.
    - subst t. rewrite Eev', Eev, <- app_assoc, <- replicate_add. do 2 f_equal. rewrite Et, N.div_add_l by lia. lia.
    - subst t. rewrite Hcnt', Et. f_equal. by rewrite (N.add_comm (N.of_nat d * N0)), N.Div0.mod_add.
    - intros k Hk. by rewrite Hoth', Hoth. }
  unfold after_response in Ew. unfold timeouts_in at 1 in Hgo. destruct (is_timeout sip) eqn:Et.
  - assert (default 0%N (dc_timeouts w !! tport_key tp) = c) as Ec.
    { rewrite Hcnt. unfold counter. destruct (N.eqb_spec c 0); [by subst|done]. }
    rewrite Ec, N.mod_small in Ew by lia. fold N0 in Ew. destruct (N.leb_spec N0 (c + 1)).
    + injection Ew as Em Eev. apply (Hgo 0%N); [lia|rewrite Em; by rewrite lookup_delete_eq|intros k Hk; by rewrite Em, lookup_delete_ne|].
      exists 1. split; [by rewrite Eev|]. rewrite filter_cons_True by done. unfold timeouts_in. cbn. lia.
    + injection Ew as Em Eev. apply (Hgo (c + 1)%N); [lia| |intros k Hk; by rewrite Em, lookup_insert_ne|].
      * rewrite Em, lookup_insert_eq. unfold counter. by destruct (N.eqb_spec (c + 1) 0); [lia|].
      * exists 0. split; [by rewrite Eev, app_nil_r|]. rewrite filter_cons_True by done. unfold timeouts_in. cbn. lia.
  - rewrite Hint in Ew. cbn in Ew. injection Ew as Em Eev. apply (Hgo c); [done|by rewrite Em|by rewrite Em|].
    exists 0. split; [by rewrite Eev, app_nil_r|]. rewrite filter_cons_False by (cbn; by rewrite Et). unfold timeouts_in. cbn. lia.
Qed.
End one.

(** C14: A connection is closed exactly at every N-th timeout since the last
    response that came over it: [t] timeouts among responses that the stack
    made up close it [t/N] times and leave [t mod N] counted, other failures
    do not count, a response from the network starts over and closes
    nothing, and the counters of other connections do not change.  Listening
    and UDP transports are never closed, and with N = 0 nothing is. *)
Theorem trackTportLiveness_closes tp l q r w :
  tport_is_secondary tp = true -> tport_is_udp tp = false -> (0 < tportMaxConsecutiveTimeouts < 2 ^ 32)%N ->
  Forall (fun r => st_orqs (dc_stack w) !! r.1 = Some (Some tp) /\ is_internal r.2 = true) l ->
  st_orqs (dc_stack w) !! q = Some (Some tp) -> rs_internal r = false ->
  dc_timeouts w !! tport_key tp = None ->
  let t := timeouts_in l in
  exists w1 w2, track_all l w = Ok (tt, w1) /\
    dc_events w1 = dc_events w ++ replicate (N.to_nat (t / tportMaxConsecutiveTimeouts)) (ShutTport tp) /\
    dc_timeouts w1 !! tport_key tp = counter (t mod tportMaxConsecutiveTimeouts) /\
    (forall k, k ≠ tport_key tp -> dc_timeouts w1 !! k = dc_timeouts w !! k) /\
    (forall tp, refs_of (dc_stack w1) tp = refs_of (dc_stack w) tp) /\
    trackTportLiveness q (Some r) w1 = Ok (tt, w2) /\ dc_events w2 = dc_events w1 /\ dc_timeouts w2 = delete (tport_key tp) (dc_timeouts w1).
Proof.
  intros Hsec Hudp HN Hl Hq Hr Hc t.
  destruct (track_segment tp Hsec Hudp HN l w 0%N Hl (proj1 HN) Hc) as (w1 & E & [S1 S2] & Eev & Hcnt & Hoth).
  destruct (track_step tp Hsec Hudp HN q (Some r) w1) as (w2 & E2 & _ & Ew); [by rewrite S1|].
  unfold after_response, is_timeout, is_internal in Ew. rewrite Hr in Ew. cbn [andb negb] in Ew. injection Ew as Em Ee.
  by exists w1, w2.
Qed.
Lemma trackTportLiveness_never q sip w :
  tportMaxConsecutiveTimeouts = 0%N \/
  (exists tp, st_orqs (dc_stack w) !! q = Some (Some tp) /\ (tport_is_secondary tp = false \/ tport_is_udp tp = true)) ->
  exists w', trackTportLiveness q sip w = Ok (tt, w') /\ dc_events w' = dc_events w /\ dc_timeouts w' = dc_timeouts w.
Proof.
  intros Hn. unfold trackTportLiveness. destruct (N.eqb_spec tportMaxConsecutiveTimeouts 0); [by exists w|]. mstep.
  destruct (_ && _); [by exists w|]. destruct Hn as [?|(tp & Hq & Ht)]; [done|].
  rewrite (M_bind_ok _ _ _ _ _ (on_stack_transport q tp w Hq)). unfold count_outcome.
  assert (negb (tport_is_secondary tp) || tport_is_udp tp = true) as -> by (destruct Ht as [-> | ->]; by rewrite ?orb_true_r).
  mstep. rewrite (on_stack_unref tp (refs_of (dc_stack w) tp)); [by eexists|].
  unfold refs_of at 1. cbn -[insert lookup]. by rewrite lookup_insert_eq.
Qed.
End liveness.
End timed.
