(* ===== verification/DialogController.v ===== *)
(** Model of the helpers of [SipDialogController] (src/sip-dialog-controller.hpp,
    src/sip-dialog-controller.cpp): its tables, the timers of final responses,
    the requests that it makes on its own, and the end of dialog objects. *)
From S2P Require Import Prelude CppString TextUtil SipTags ClientController TimerQueue Cdr PendingRequests SipDialog DialogWorld InviteInProgress TimerD.

Open Scope list_scope.

Section timed.
Context `{sutime : SuTime}.

(** ** Requests in progress and incoming requests *)

Definition addRIP (orq : positive) (rip : RIP) : DC unit :=
  modify (on_dc_rips (fun m => match m !! orq with Some _ => m | None => <[orq := rip]> m end)).
Definition findRIPByOrq (orq : positive) : DC (option RIP) := w ← get; mret (dc_rips w !! orq).
Definition clearRIP (orq : positive) : DC unit :=
  _ ← outgoing_destroy orq; modify (on_dc_rips (delete orq)).
(** The first entry of the dialog, in the order of the table. *)
Definition clearRIPByDialogId (dialogId : string) : DC unit :=
  w ← get;
  match head (filter (fun e : positive * RIP => rip_dialogId e.2 = dialogId) (map_to_list (dc_rips w))) with
  | Some (orq, _) => _ ← modify (on_dc_rips (delete orq)); outgoing_destroy orq
  | None => mret tt
  end.

Definition addIncomingRequestTransaction (irq : positive) (transactionId : string) : DC unit :=
  modify (on_dc_txn2irq (map_insert transactionId irq)).
Definition findIrqByTransactionId (transactionId : string) : DC (option positive) :=
  w ← get; mret (dc_txn2irq w !! transactionId).
Definition findAndRemoveTransactionIdForIncomingRequest (transactionId : string) : DC (option positive) :=
  w ← get;
  let irq := dc_txn2irq w !! transactionId in
  _ ← modify (on_dc_txn2irq (delete transactionId));
  mret irq.
Fixpoint clearDanglingIncomingRequests (txnIds : list string) : DC unit :=
  match txnIds with
  | [] => mret tt
  | txnId :: txnIds =>
    irq ← findAndRemoveTransactionIdForIncomingRequest txnId;
    _ ← clients (removeNetTransaction txnId);
    _ ← nta_incoming_destroy irq;
    clearDanglingIncomingRequests txnIds
  end.
Definition timeoutBye (transactionId : string) : DC unit :=
  irq ← findAndRemoveTransactionIdForIncomingRequest transactionId;
  match irq with
  | Some q => _ ← clients (removeNetTransaction transactionId); nta_incoming_destroy (Some q)
  | None => mret tt
  end.

(** ** Dialogs *)

Definition findDialogByLeg (leg : positive) : DC (option positive) :=
  iip ← IIP_FindByLeg (Some leg);
  match iip with
  | Some p => i ← iip_load p; mret (Some (iip_dlg i))
  | None => w ← get; mret (SD_FindByLeg (Some leg) (dc_stable w))
  end.
Definition findDialogById (dialogId : string) : DC (option positive) :=
  w ← get; mret (SD_FindByDialogId dialogId (dc_stable w)).
Definition findDialogByCallId (callId : string) : DC (option positive) :=
  w ← get;
  mret (match SD_FindByDialogId (callId +:+ ";uas")%string (dc_stable w) with
        | Some p => Some p
        | None => SD_FindByDialogId (callId +:+ ";uac")%string (dc_stable w)
        end).

Section controller.
Context `{SofiaTport} `{NtaAgent}.

Definition addDialog (p : positive) : DC unit :=
  strDialogId ← dlg_getDialogId p;
  d ← dlg_self p;
  leg ← nta_leg_by_call_id (m_strCallId (d_ids d));
  _ ← assertb (bool_decide (is_Some leg));
  _ ← modify (on_dc_stable (SD_Insert p (key_of d)));
  r ← next_rand;
  clients (addDialogForTransaction r (m_transactionId (d_ids d)) strDialogId).

(** [nta_incoming_tag] answers with the tag of the transaction. *)
Definition addIncomingInviteTransaction (leg irq : positive) (transactionId : string) (p : positive) (a_tag : string) : DC unit :=
  _ ← on_dlg p (this (fun d => set_ids (DialogIds (m_type (d_ids d)) (m_strCallId (d_ids d)) (m_dialogId (d_ids d))
        (m_transactionId (d_ids d))
        (Endpoint (m_strSdp (m_localEndpoint (d_ids d))) (m_strContentType (m_localEndpoint (d_ids d))) a_tag)
        (m_remoteEndpoint (d_ids d))) d));
  IIP_Insert_incoming leg irq transactionId p.
Definition addOutgoingInviteTransaction (leg orq p : positive) : DC unit :=
  txn ← dlg_getTransactionId p; IIP_Insert_outgoing leg orq txn p.

(** ** Timers G and H of a final response *)

(** [setTimerG] and [setTimerH] of the dialog. *)
Definition dlg_setTimerG (p h : positive) : DC unit :=
  _ ← on_ctl p (set_timerG (Some h)); on_dlg p (this setTimerG).
Definition dlg_setTimerH (p h : positive) : DC unit := on_ctl p (set_timerH (Some h)).

Definition stop_timerG (p : positive) : DC unit :=
  c ← dlg_ctl p;
  match m_timerG c with
  | Some h => _ ← removeTimer h "timerG"; on_ctl p (set_timerG None)
  | None => mret tt
  end.
Definition stop_timerH (p : positive) : DC unit :=
  c ← dlg_ctl p;
  match m_timerH c with
  | Some h => _ ← removeTimer h "timerH"; on_ctl p (set_timerH None)
  | None => mret tt
  end.
Definition clearSipTimers (p : positive) : DC unit :=
  _ ← stop_timerG p; _ ← stop_timerH p; on_ctl p (set_irqInvite None).

(** [incoming_retransmit_reply(irq, tp)] *)
Definition incoming_retransmit_reply (irq tp : positive) : DC unit :=
  w ← get; if bool_decide (irq ∈ dc_irqs w) then emit (RetransmittedReply irq tp) else fail BadAccess.
Definition retransmitFinalResponse (irq tp p : positive) : DC unit :=
  c ← dlg_ctl p;
  match m_irqInvite c with
  | None =>
    _ ← on_ctl p (set_timerG None);
    _ ← stop_timerH p;
    on_ctl p (set_irqInvite None)
  | Some currentIrq =>
    _ ← incoming_retransmit_reply currentIrq tp;
    ms ← on_dlg p (d ← self; _ ← this (fun d => (bumpTimerG d).2); mret (bumpTimerG d).1);
    t ← addTimer "timerG" (retransmitFinalResponse_fn irq tp p) ms;
    dlg_setTimerG p t
  end.

(** What is armed when a 200 OK to an INVITE has been sent; timer G only over
    datagram transports. *)
Definition TIMER_H_MSECS : Z := 64 * NTA_SIP_T1.
Definition start_final_response_timers (irq tp p : positive) : DC unit :=
  _ ← (if tport_is_dgram tp
       then t ← addTimer "timerG" (retransmitFinalResponse_fn irq tp p) NTA_SIP_T1; dlg_setTimerG p t
       else mret tt);
  t ← addTimer "timerH" (endRetransmitFinalResponse_fn irq tp p) TIMER_H_MSECS;
  _ ← dlg_setTimerH p t;
  on_ctl p (set_irqInvite (Some irq)).

(** ** Requests the server makes itself *)

Definition bye_request : dialog_request := DialogRequest "BYE" sip_method_bye None None.
(** The BYE [orq] is shown to the application as if it had been received; a
    NULL transaction is dereferenced. *)
Definition announce_bye (orq : option positive) (p : positive) : DC positive :=
  orq ← deref orq;
  c ← sent_of orq;
  dialogId ← dlg_getDialogId p;
  r ← next_rand;
  _ ← clients (route_request_inside_dialog r (cr_encoded c) (cr_meta c) bye_request "unsolicited" dialogId);
  mret orq.

Definition notifyTerminateStaleDialog (p : positive) (ackbye : bool) : DC unit :=
  d ← dlg_self p;
  _ ← match m_leg d with
      | Some leg =>
        routeUri ← dlg_getRouteUri p;
        tp ← on_dlg p getTport;
        orq ← nta_outgoing_tcreate leg routeUri sip_method_bye "" tp;
        orq ← announce_bye orq p;
        _ ← emit (PostedCdr stop_record "application" role_undefined (if ackbye then Cdr.ackbye else session_expired));
        outgoing_destroy orq
      | None => mret tt
      end;
  modify (on_dc_stable (SD_Clear p)).

Definition notifyRefreshDialog (p : positive) : DC unit :=
  d ← dlg_self p;
  match m_leg d with
  | None => notifyTerminateStaleDialog p false
  | Some leg =>
    _ ← assertb (negb (Z.eqb (m_nSessionExpiresSecs (d_session d)) 0));
    routeUri ← dlg_getRouteUri p;
    tp ← on_dlg p getTport;
    orq ← nta_outgoing_tcreate leg routeUri sip_method_invite "" tp;
    match orq with
    | None => notifyTerminateStaleDialog p false
    | Some orq =>
      transactionId ← next_uuid;
      dialogId ← dlg_getDialogId p;
      addRIP orq (MkRIP transactionId dialogId None false)
    end
  end.

(** Timer H goes off: the ACK never came. *)
Definition endRetransmitFinalResponse (irq tp p : positive) : DC unit :=
  d ← dlg_self p;
  _ ← stop_timerG p;
  _ ← on_ctl p (set_timerH None);
  _ ← on_ctl p (set_irqInvite None);
  _ ← IIP_Clear_leg (m_leg d);
  match m_leg d with
  | None => dialogId ← dlg_getDialogId p; modify (on_dc_stable (SD_Clear_id dialogId))
  | Some leg =>
    routeUri ← dlg_getRouteUri p;
    tp ← on_dlg p getTport;
    orq ← nta_outgoing_tcreate leg routeUri sip_method_bye "" tp;
    match orq with
    | None => modify (on_dc_stable (SD_Clear_leg (Some leg)))
    | Some orq =>
      _ ← announce_bye (Some orq) p;
      _ ← outgoing_destroy orq;
      modify (on_dc_stable (SD_Clear_leg (Some leg)))
    end
  end.

(** The session timer of a dialog goes off. *)
Definition sessionTimer_goes_off (p : positive) : DC unit :=
  d ← dlg_self p;
  _ ← (if areWeRefresher (d_session d) then notifyRefreshDialog p else notifyTerminateStaleDialog p false);
  on_dlg p doSessionTimerHandling_end.

(** A timer of the queues goes off: its entry is taken out first. *)
Definition timer_goes_off (h : positive) : DC unit :=
  w ← get;
  e ← deref (dc_armed w !! h);
  _ ← modify (on_dc_armed (delete h));
  match e with
  | (_, retransmitFinalResponse_fn irq tp p, _) => retransmitFinalResponse irq tp p
  | (_, endRetransmitFinalResponse_fn irq tp p, _) => endRetransmitFinalResponse irq tp p
  | (_, timerD_fn invite callIdAndCSeq, _) => timerD invite callIdAndCSeq
  | (_, timeoutBye_fn transactionId, _) => timeoutBye transactionId
  end.

(** ** The end of dialog objects *)

(** The dialogs that a table, an invite or a request in progress, or a timer
    still points to. *)
Definition timer_dialog (f : timer_fn) : option positive :=
  match f with
  | retransmitFinalResponse_fn _ _ p | endRetransmitFinalResponse_fn _ _ p => Some p
  | _ => None
  end.
Definition held (w : SipDialogController) (p : positive) : bool :=
  bool_decide (is_Some (dc_stable w !! p))
  || existsb (fun e => bool_decide (iip_dlg e.2 = p)) (map_to_list (dc_iips w))
  || existsb (fun e => bool_decide (rip_dlg e.2 = Some p)) (map_to_list (dc_rips w))
  || existsb (fun e => bool_decide (timer_dialog e.2.1.2 = Some p)) (map_to_list (dc_armed w)).

(** The calls that [~SipDialog] made on this controller; the transaction
    given to [stopTimerD] was still live then. *)
Definition stopTimerD_of (orq : positive) : DC unit :=
  w ← get;
  c ← deref (dc_sent w !! orq);
  _ ← forget_invite orq (nta_outgoing_call_id c +:+ " " +:+ to_string (nta_outgoing_cseq c))%string;
  mret tt.
Definition run_call (p : positive) (c : dialog_call) : DC unit :=
  match c with
  | stopTimerD orq => stopTimerD_of orq
  | SipDialog.clearDanglingIncomingRequests txnIds => clearDanglingIncomingRequests txnIds
  | removeNetTransactionOf transactionId => clients (removeNetTransaction transactionId)
  | SipDialog.notifyRefreshDialog => notifyRefreshDialog p
  | SipDialog.notifyTerminateStaleDialog => notifyTerminateStaleDialog p false
  end.
Fixpoint run_calls (p : positive) (l : list dialog_call) : DC unit :=
  match l with [] => mret tt | c :: l => _ ← run_call p c; run_calls p l end.
Definition destroy_dialog (p : positive) : DC unit :=
  _ ← on_dlg p SipDialog_destroy;
  w ← get;
  _ ← on_stack (modify (on_calls (fun _ => [])));
  _ ← run_calls p (st_calls (dc_stack w));
  modify (on_dc_dialogs (delete p)).
Fixpoint destroy_dialogs (ps : list positive) : DC unit :=
  match ps with [] => mret tt | p :: ps => _ ← destroy_dialog p; destroy_dialogs ps end.
Definition reap_dialogs : DC unit :=
  w ← get; destroy_dialogs (filter (fun p => held w p = false) (map_to_list (dc_dialogs w)).*1).

(** A handler of the event loop: when it returns, the objects that nothing
    holds any more die, invites before the dialogs they hold. *)
Definition handler {A} (m : DC A) : DC A := a ← m; _ ← reap_iips; _ ← reap_dialogs; mret a.
End controller.
End timed.
