(* ===== verification/Messages.v ===== *)
(** What the main controller reads of a message that comes in
    (src/controller.cpp), and what it makes the SIP stack do with it.  The
    stack frees a message with its last reference; [mt_owed] keeps account of
    them. *)
From S2P Require Import Prelude CppString TextUtil SipTags ClientController TimerQueue Cdr PendingRequests SipDialog SipTransports Connections DialogWorld.

Open Scope list_scope.

(** The first Route header: host of its URL, and whether it has the parameter
    lr. *)
Record route_view := RouteView {
  rt_host : option string;
  rt_lr : bool;
}.
(** A message: the address it came from, the transport it came over (none: a
    NULL result), what [sip_sanity_check] and [sip_error] say of it, its
    User-Agent, first Route, Contact and Expires, the text of the Route that
    follows the first (and whether it has lr) and that of the request URI, the
    branch of the second Via (if there is one, and if it has one), the method
    of the CSeq, whether there are a Call-ID and a To, the tag of From, and
    what [processNewRequest] reads. *)
Record incoming_msg := IncomingMsg {
  im_source : string;
  im_tport : option positive;
  im_sane : bool;
  im_error : bool;
  im_user_agent : option string;
  im_route : option route_view;
  im_contact : option url_t;
  im_expires : option Z;
  im_next_route : option (string * bool);
  im_uri : string;
  im_next_via : option (option string);
  im_cseq_method : sip_method_t;
  im_has_call_id : bool;
  im_has_to : bool;
  im_from_tag : option string;
  im_new : new_request;
}.
Definition im_sip (m : incoming_msg) : sip_t := nr_sip (im_new m).
(** [None]: a response. *)
Definition im_method (m : incoming_msg) : option sip_method_t := sip_request_method (im_sip m).
Definition im_is (m : incoming_msg) (k : sip_method_t) : bool := bool_decide (im_method m = Some k).

(** The message at an address, and the one of an incoming transaction; the
    incoming transaction that already exists for a request; the tag that
    [nta_incoming_tag] gives it; whether a leg can be made for it; and what
    the constructor of the dialog reads. *)
Class NtaMessage := {
  sip_object : positive -> incoming_msg;
  nta_incoming_getrequest : positive -> positive;
  nta_incoming_find : gset positive -> positive -> option positive;
  nta_incoming_tag : positive -> string -> string;
  nta_incoming_create_ok : positive -> bool;
  nta_leg_create_ok : positive -> bool;
  invite_of : positive -> positive -> positive -> incoming_invite;
}.
Class NtaMessageLaws `{NtaMessage} := {
  nta_incoming_find_live irqs msg irq : nta_incoming_find irqs msg = Some irq -> irq ∈ irqs
}.

(** The settings that the main controller reads. *)
Class MainConfig := {
  (** [getSpammers]: for a header, texts that mark a spammer *)
  spammers : list (string * list string);
  m_bRejectRegisterWithNoRealm : bool;
  m_bAlwaysSend180 : bool;
  m_strUserAgentAutoAnswerOptions : string;
  (** the transports that were set up *)
  main_transports : SipTransports;
  (** the order in which the pending requests are walked *)
  pending_iter : gmap string positive -> list (string * positive);
}.

Section timed.
Context `{sutime : SuTime}.

(** ** References on messages *)

Definition owe (msg : positive) (n : Z) : DC unit :=
  on_main (on_mt_owed (fun o => <[msg := (default 0 (o !! msg) + n)%Z]> o)).
Definition msg_ref_create (msg : positive) : DC unit := owe msg 1.
Definition msg_destroy (msg : positive) : DC unit := owe msg (-1).

(** [nta_msg_treply(agent, msg, status, ...)] takes the caller's reference. *)
Definition nta_msg_treply (msg : positive) (status : Z) : DC Z :=
  _ ← owe msg (-1);
  rc ← next_reply;
  _ ← (if Z.eqb rc (-1) then mret tt else emit (RepliedTo msg status));
  mret rc.
(** The same for [msg_dup(msg)]. *)
Definition nta_msg_treply_dup (msg : positive) (status : Z) : DC Z :=
  rc ← next_reply;
  _ ← (if Z.eqb rc (-1) then mret tt else emit (RepliedToCopy msg status));
  mret rc.
Definition nta_msg_discard (msg : positive) : DC unit := _ ← owe msg (-1); emit (DiscardedMessage msg).
(** [nta_msg_tsend(agent, msg, NULL, NTATAG_TPORT(tp))] *)
Definition nta_msg_tsend (msg : positive) (tp : option positive) : DC Z :=
  _ ← owe msg (-1);
  rc ← next_reply;
  _ ← (if (rc <? 0)%Z then mret tt else emit (ForwardedMessage msg tp));
  mret rc.

Context `{NtaMessage}.

(** [nta_incoming_create(agent, NULL, msg, sip, ...)]: the transaction keeps
    the caller's reference. *)
Definition nta_incoming_create (msg : positive) : DC (option positive) :=
  _ ← owe msg (-1);
  if nta_incoming_create_ok msg then
    w ← get;
    let irq := fresh (dc_irqs w) in
    _ ← modify (on_dc_irqs (fun s => {[irq]} ∪ s));
    mret (Some irq)
  else mret None.
(** [nta_incoming_transport(agent, NULL, msg)] gives a reference. *)
Definition msg_transport (msg : positive) : DC (option positive) :=
  match im_tport (sip_object msg) with
  | None => mret None
  | Some tp => _ ← on_stack (tport_ref tp); mret (Some tp)
  end.
(** A reply to a transaction that may be NULL. *)
Definition treply_irq (irq : option positive) (status : Z) : DC unit :=
  match irq with None => mret tt | Some q => _ ← nta_incoming_treply q status; mret tt end.
End timed.
