(* ===== verification/ProxyDispatch.v ===== *)
(** Model of how [SipProxyController] takes messages
    (src/sip-proxy-controller.hpp, src/sip-proxy-controller.cpp): its table of
    proxied calls, requests with and without a Route header, and responses. *)
From S2P Require Import Prelude CppString TextUtil SipTags ClientController TimerQueue Cdr PendingRequests SipDialog SipTransports Connections DialogWorld Messages.

Open Scope list_scope.

Section timed.
Context `{sutime : SuTime}.

(** What the controller asks of a [ProxyCore]: the message it was made for,
    and its operations on messages. *)
Class ProxyCoreOps := {
  core_msg : positive -> positive;
  core_processResponse : positive -> positive -> DC bool;
  core_forwardPrack : positive -> positive -> DC bool;
  core_forwardRequest : positive -> positive -> DC bool;
  core_setCanceled : positive -> bool -> DC unit;
  core_generateResponse : positive -> Z -> DC unit;
  core_cancelOutstandingRequests : positive -> DC unit;
}.

Context `{NtaMessage} `{!ProxyCoreOps} `{MainConfig} `{Inet} `{StdSort} `{Boost}.

(** [makeUniqueSipTransactionIdentifier]: for a response, the branch that the
    request came with is that of the second Via. *)
Definition proxy_id (m : incoming_msg) : string :=
  let sip := im_sip m in
  let str := (sip_call_id sip +:+ "|" +:+
    (if im_is m sip_method_cancel then "INVITE" else sip_cseq_method_name sip) +:+ "|" +:+ to_string (sip_cseq_seq sip))%string in
  let branch := match im_method m with None => mjoin (im_next_via m) | Some _ => sip_via_branch sip end in
  match branch with Some b => (str +:+ "|" +:+ b)%string | None => str end.

Definition getProxy (m : incoming_msg) : DC (option positive) :=
  w ← get; mret (mt_proxies (dc_main w) !! proxy_id m).
(** The first entry of the table whose key contains the call id. *)
Definition getProxyByCallId (m : incoming_msg) : DC (option positive) :=
  w ← get;
  mret (snd <$> head (filter (fun e => is_Some (str_find (sip_call_id (im_sip m)) e.1)) (map_to_list (mt_proxies (dc_main w))))).
Definition isProxyingRequest (m : incoming_msg) : DC bool :=
  w ← get; mret (bool_decide (is_Some (mt_proxies (dc_main w) !! proxy_id m))).
Definition proxy_isRetransmission (m : incoming_msg) : DC bool := isProxyingRequest m.
Definition removeProxy (m : incoming_msg) : DC (option positive) :=
  w ← get;
  let p := mt_proxies (dc_main w) !! proxy_id m in
  _ ← on_main (on_mt_proxies (delete (proxy_id m)));
  mret p.
(** [ServerTransaction::isRetransmission] *)
Definition core_isRetransmission (core : positive) (m : incoming_msg) : bool :=
  bool_decide (im_method m = im_method (sip_object (core_msg core))).

(** ** Requests with a Route header that names this server *)

(** The connection of a registered user, for a domain that says so. *)
Definition invalid_domain_tport (m : incoming_msg) : DC (option positive) :=
  host ← deref (nr_url_host (im_new m));
  if strstr host ".invalid" then findTportForSubscription (nr_url_user (im_new m)) host else mret None.
Definition next_hop (m : incoming_msg) : string :=
  match im_next_route m with Some (text, true) => text | _ => im_uri m end.
Definition transport_to (hop : string) : DC (option (option positive)) :=
  t ← pure (findAppropriateTransport main_transports hop (Some "udp"%string)); mret (m_tport <$> t).

Definition forward_in_dialog (msg : positive) (tp : option positive) : DC bool :=
  let m := sip_object msg in
  _ ← msg_ref_create msg;
  rc ← nta_msg_tsend msg tp;
  if (rc <? 0)%Z then _ ← msg_destroy msg; mret false
  else
    _ ← (if im_is m sip_method_bye then emit (PostedCdr stop_record "application" role_undefined normal_release) else mret tt);
    _ ← msg_destroy msg;
    mret true.
Definition processRequestWithRouteHeader (msg : positive) : DC bool :=
  let m := sip_object msg in
  _ ← (if im_is m sip_method_bye then emit (PostedCdr stop_record "network" role_undefined normal_release) else mret tt);
  if im_is m sip_method_prack then
    p ← getProxyByCallId m;
    match p with
    | None => _ ← nta_msg_discard msg; mret true
    | Some p => _ ← core_forwardPrack p msg; mret true
    end
  else
    registered ← invalid_domain_tport m;
    match registered with
    | Some tp => forward_in_dialog msg (Some tp)
    | None =>
      t ← transport_to (next_hop m);
      match t with
      | None => mret false
      | Some tp => forward_in_dialog msg tp
      end
    end.

(** ** Other requests of a proxied call *)

Definition processRequestWithoutRouteHeader (msg : positive) : DC bool :=
  let m := sip_object msg in
  p ← getProxy m;
  match p with
  | None => _ ← nta_msg_discard msg; mret false
  | Some p =>
    if im_is m sip_method_ack then _ ← nta_msg_discard msg; mret true
    else if core_isRetransmission p m then _ ← nta_msg_discard msg; mret false
    else if im_is m sip_method_cancel then
      _ ← core_setCanceled p true;
      _ ← nta_msg_treply msg 200;
      _ ← core_generateResponse p 487;
      _ ← core_cancelOutstandingRequests p;
      mret true
    else if im_is m sip_method_info then _ ← core_forwardRequest p msg; mret true
    else mret true
  end.

(** ** Responses *)

Definition proxy_processResponse (msg : positive) : DC bool :=
  if bool_decide (im_cseq_method (sip_object msg) = sip_method_prack) then _ ← nta_msg_tsend msg None; mret true
  else
    p ← getProxy (sip_object msg);
    match p with
    | None => mret false
    | Some p =>
      handled ← core_processResponse p msg;
      _ ← (if (handled : bool) then mret tt else _ ← nta_msg_tsend msg None; mret tt);
      mret true
    end.
End timed.
