(* ===== verification/Dispatch.v ===== *)
(** Model of [DrachtioController::processMessageStatelessly]
    (src/controller.cpp): what becomes of a message that belongs to no leg,
    and of the helpers with which the main controller keeps pending requests. *)
From S2P Require Import Prelude CppString Regex TextUtil SipTags ClientController TimerQueue Cdr PendingRequests SipDialog SipTransports Connections DialogWorld Messages ProxyDispatch.

Open Scope list_scope.

Section timed.
Context `{sutime : SuTime} `{SofiaTport} `{TportTree} `{NtaMessage} `{!ProxyCoreOps} `{MainConfig} `{Inet} `{StdSort} `{Boost}.

(** ** Pending requests *)

Definition isBlackListed (m : incoming_msg) : DC bool :=
  w ← get; mret (match mt_blacklist (dc_main w) with Some ips => bool_decide (im_source m ∈ ips) | None => false end).
Definition set_tport_name (tp : positive) (r : new_request) : new_request :=
  let tpn := tport_name (tport_parent tp) in
  NewRequest (nr_sip r) (nr_method_name r) (nr_to_tag r) (nr_encoded r) (nr_meta r) (tpn_host tpn, tpn_port tpn)
    (nr_url_host r) (nr_url_user r) (nr_from_user r) (nr_to_user r) (nr_content_type r) (nr_uri r) (nr_url_params r).
(** [processNewRequest(msg, sip, tp_incoming, transactionId)]: the pending
    request takes a reference on the message and on the transport, and the
    caller's reference on the message is given back. *)
Definition main_processNewRequest (msg tp : positive) : DC Z :=
  uuid ← next_uuid;
  w ← get;
  '(status, txn) ← on_server (processNewRequest uuid (set_tport_name tp (im_new (sip_object msg))) (mt_clock (dc_main w)));
  match txn with
  | Some transactionId =>
    if Z.eqb status 0 then
      _ ← on_stack (tport_ref tp);
      _ ← on_main (on_mt_held (insert transactionId (msg, tp)));
      _ ← msg_destroy msg;
      mret status
    else mret status
  | None => mret status
  end.
(** A pending request that was taken out dies with the last pointer to it. *)
Definition drop_pending (transactionId : string) : DC unit :=
  w ← get;
  match mt_held (dc_main w) !! transactionId with
  | Some (_, tp) => _ ← on_stack (tport_unref tp); on_main (on_mt_held (delete transactionId))
  | None => mret tt
  end.
Definition main_pending_timeout (transactionId : string) : DC unit :=
  _ ← on_server (pending_timeout transactionId); drop_pending transactionId.
(** [p->cancel()] *)
Definition set_canceled (o : PendingRequest_t) : PendingRequest_t :=
  MkPendingRequest (pr_sip o) (pr_transactionId o) (pr_handle o) true (pr_meta o) (pr_encodedMsg o).
Definition cancelPending (p : positive) : DC unit := on_server (on_prc (pr_store p set_canceled)).
Definition main_findInviteByCallId (callId : string) : DC (option positive) :=
  on_server (on_prc (findInviteByCallId pending_iter callId)).
Definition main_findInviteByCallIdAndBranch (sip : sip_t) : DC (option positive) :=
  on_server (on_prc (findInviteByCallIdAndBranch pending_iter sip)).
Definition load_pending (p : positive) : DC PendingRequest_t := on_server (on_prc (pr_load p)).
Definition held_msg (transactionId : string) : DC positive :=
  w ← get; x ← deref (mt_held (dc_main w) !! transactionId); mret x.1.

(** ** Checks *)

(** A header with one of the texts that mark a spammer. *)
Definition marks (texts : list string) (value : option string) : bool :=
  match value with Some v => existsb (fun t => strstr v t) texts | None => false end.
Definition spam_entry (m : incoming_msg) (e : string * list string) : bool :=
  (String.eqb e.1 "user-agent" && marks e.2 (im_user_agent m)) || (String.eqb e.1 "to" && marks e.2 (nr_to_user (im_new m)))
  || (String.eqb e.1 "from" && marks e.2 (nr_from_user (im_new m))).
Definition is_spammer (m : incoming_msg) : bool := existsb (spam_entry m) spammers.
(** [^(?:[0-9]{1,3}\.){3}[0-9]{1,3}$] *)
Definition one_to_three_digits : regex :=
  (RChar is_digit · ROpt (RChar is_digit · ROpt (RChar is_digit)))%re.
Definition ip_regex : regex :=
  (let part := one_to_three_digits · RChr "." in RBegin · part · part · part · one_to_three_digits · REnd)%re.
Definition is_ip (host : string) : bool := bool_decide (is_Some (regex_match host ip_regex)).

(** The status that a REGISTER is refused with at once. *)
Definition register_refused (m : incoming_msg) : DC (option Z) :=
  if negb (im_is m sip_method_register) then mret None else
  no_realm ← (if m_bRejectRegisterWithNoRealm then host ← deref (nr_url_host (im_new m)); mret (is_ip host) else mret false);
  if (no_realm : bool) then mret (Some 403%Z) else
  match im_contact m with
  | None => mret None
  | Some u =>
    match url_scheme u with
    | None => mret (Some 400%Z)
    | Some scheme =>
      match im_expires m with
      | Some n => mret (if String.eqb scheme "*" && negb (Z.eqb n 0) then Some 400%Z else None)
      | None => mret None
      end
    end
  end.

(** The first Route has lr and names this server, inside a dialog. *)
Definition routed_here (m : incoming_msg) : DC bool :=
  match im_route m with
  | Some r =>
    if bool_decide (is_Some (nr_to_tag (im_new m))) && rt_lr r then
      host ← deref (rt_host r);
      pure (isLocalAddress main_transports host None)
    else mret false
  | None => mret false
  end.

(** ** Requests that can start something *)

Definition new_methods : list sip_method_t :=
  [sip_method_invite; sip_method_register; sip_method_message; sip_method_options; sip_method_info; sip_method_notify;
   sip_method_subscribe; sip_method_publish].
(** 100 and 180; [false]: one could not be sent. *)
Definition send_provisional (msg : positive) : DC bool :=
  if negb (im_is (sip_object msg) sip_method_invite) then mret true else
  _ ← msg_ref_create msg;
  rc ← nta_msg_treply msg 100;
  if Z.eqb rc (-1) then mret false else
  if m_bAlwaysSend180 then
    _ ← msg_ref_create msg;
    rc ← nta_msg_treply msg 180;
    mret (negb (Z.eqb rc (-1)))
  else mret true.
(** OPTIONS of a known user agent. *)
Definition auto_answer (m : incoming_msg) : bool :=
  im_is m sip_method_options &&
  match im_user_agent m with Some ua => String.eqb m_strUserAgentAutoAnswerOptions ua | None => false end.
(** The reply of [processNewRequest]: on the transaction of the caller, or
    stateless. *)
Definition reject_new (msg : positive) (irq : option positive) (status : Z) : DC unit :=
  _ ← match irq with
      | Some q => treply_irq (Some q) status
      | None => _ ← nta_msg_treply msg status; mret tt
      end;
  if im_is (sip_object msg) sip_method_invite
  then emit (PostedCdr stop_record "application" role_undefined call_rejected) else mret tt.
Definition process_new (msg tp : positive) (irq : option positive) : DC Z :=
  let m := sip_object msg in
  pending ← on_server (on_prc (pending_isRetransmission (im_sip m)));
  proxied ← proxy_isRetransmission m;
  if (pending || proxied : bool) then
    _ ← nta_msg_discard msg;
    mret (if im_is m sip_method_invite then 100 else -1)%Z
  else
    ok ← send_provisional msg;
    if negb ok then mret (-1)%Z else
    if auto_answer m then _ ← nta_msg_treply msg 200; mret (-1)%Z else
    status ← main_processNewRequest msg tp;
    _ ← (if (0 <=? status)%Z && im_is m sip_method_invite
         then emit (PostedCdr attempt_record "network" role_undefined no_termination) else mret tt);
    _ ← (if (0 <? status)%Z then reject_new msg irq status else mret tt);
    mret 0%Z.

(** A CANCEL while the INVITE is out to a client. *)
Definition quick_cancel (msg : positive) : DC unit :=
  let m := sip_object msg in
  p ← main_findInviteByCallId (sip_call_id (im_sip m));
  match p with
  | None => _ ← nta_msg_treply msg 481; mret tt
  | Some p =>
    o ← load_pending p;
    client ← clients (findClientForNetTransaction (pr_transactionId o));
    _ ← match client with
        | Some c => clients (post (sendNewSipMessage c (pr_transactionId o) (nr_encoded (im_new m)) (nr_meta (im_new m))))
        | None => mret tt
        end;
    _ ← nta_msg_treply msg 200;
    _ ← cancelPending p;
    invite ← held_msg (pr_transactionId o);
    _ ← nta_msg_treply_dup invite 487;
    mret tt
  end.

(** ** The handler *)

Definition process_request (msg tp : positive) (irq : option positive) : DC Z :=
  let m := sip_object msg in
  proxying ← isProxyingRequest m;
  if (proxying : bool) then _ ← processRequestWithoutRouteHeader msg; mret 0%Z
  else
    refused ← register_refused m;
    match refused with
    | Some status => _ ← nta_msg_treply msg status; mret (-1)%Z
    | None =>
      if existsb (im_is m) new_methods then process_new msg tp irq
      else if im_is m sip_method_prack then fail AssertFail
      else if im_is m sip_method_cancel then _ ← quick_cancel msg; mret 0%Z
      else if im_is m sip_method_update || im_is m sip_method_bye then _ ← nta_msg_treply msg 481; mret 0%Z
      else _ ← nta_msg_discard msg; mret 0%Z
    end.

(** A spammer is declined; the transaction made for its ACK is left. *)
Definition decline_spammer (msg : positive) : DC bool :=
  irq ← nta_incoming_create msg;
  if im_is (sip_object msg) sip_method_ack then mret false
  else
    _ ← treply_irq irq 603;
    _ ← nta_incoming_destroy irq;
    mret true.
Definition process_sane_request (msg tp : positive) (irq : option positive) : DC Z :=
  let m := sip_object msg in
  declined ← (if is_spammer m then decline_spammer msg else mret false);
  if (declined : bool) then mret (-1)%Z else
  _ ← on_conns (cacheContactAlias tp (im_contact m) (im_method m));
  here ← routed_here m;
  if (here : bool) then
    proxied ← processRequestWithRouteHeader msg;
    _ ← (if (proxied : bool) then mret tt else nta_msg_discard msg);
    mret 0%Z
  else process_request msg tp irq.
Definition process_response (msg : positive) : DC Z :=
  handled ← proxy_processResponse msg;
  if (handled : bool) then mret 0%Z
  else match im_next_via (sip_object msg) with
       | Some _ => _ ← nta_msg_tsend msg None; mret 0%Z
       | None => _ ← nta_msg_discard msg; mret 0%Z
       end.

Definition processMessageStatelessly (msg : positive) (irq : option positive) : DC Z :=
  let m := sip_object msg in
  blacklisted ← isBlackListed m;
  if (blacklisted : bool) then mret (-1)%Z else
  tp ← msg_transport msg;
  match tp with
  | None => mret (-1)%Z
  | Some tp =>
    _ ← on_stack (tport_unref tp);
    match im_method m with
    | None => process_response msg
    | Some _ =>
      if negb (im_sane m) || im_error m then _ ← nta_msg_treply msg 400; mret (-1)%Z
      else process_sane_request msg tp irq
    end
  end.
End timed.
