(* ===== verification/LegSetup.v ===== *)
(** Model of [DrachtioController::setupLegForIncomingRequest]
    (src/controller.cpp): the application answers a request, and the pending
    request becomes a transaction, with a leg and a dialog if it was an INVITE
    or SUBSCRIBE. *)
From S2P Require Import Prelude CppString TextUtil SipTags ClientController TimerQueue PendingRequests SipDialog SipTransports Connections DialogWorld InviteInProgress TimerD DialogController Messages Dispatch.

Open Scope list_scope.

Section timed.
Context `{sutime : SuTime} `{SofiaTport} `{DialogConfig} `{NtaMessage}.

Definition starts_leg (msg : positive) : bool :=
  im_is (sip_object msg) sip_method_invite || im_is (sip_object msg) sip_method_subscribe.
Definition set_transactionId (txn : string) (d : SipDialog) : SipDialog :=
  let i := d_ids d in
  set_ids (DialogIds (m_type i) (m_strCallId i) (m_dialogId i) txn (m_localEndpoint i) (m_remoteEndpoint i)) d.
(** The leg and the dialog of a new INVITE; when the leg cannot be made, the
    transaction is left. *)
Definition new_incoming_leg (msg : positive) (transactionId tag : string) : DC bool :=
  irq ← nta_incoming_create msg;
  match irq with
  | None => mret false
  | Some irq =>
    if negb (nta_leg_create_ok msg) then mret false else
    leg ← on_stack (acquire st_legs on_legs);
    d ← on_stack (SipDialog_uas aggressiveNatEnabled natDetectionDisabled (invite_of msg irq leg));
    w ← get;
    let p := fresh_addr (dc_dialogs w) in
    _ ← modify (on_dc_dialogs (insert p (set_transactionId transactionId d, no_ctl)));
    _ ← addIncomingInviteTransaction leg irq transactionId p (nta_incoming_tag irq tag);
    _ ← msg_ref_create msg;
    mret true
  end.
(** A transaction for another request, or the one that it already has. *)
Definition new_incoming_request (msg : positive) (transactionId : string) : DC bool :=
  w ← get;
  irq ← match nta_incoming_find (dc_irqs w) msg with
        | Some irq => mret (Some irq)
        | None => nta_incoming_create msg
        end;
  match irq with
  | None => mret false
  | Some irq =>
    _ ← addIncomingRequestTransaction irq transactionId;
    _ ← msg_ref_create msg;
    mret true
  end.
Definition answer_pending (o : PendingRequest_t) (msg tp : positive) (transactionId tag : string) : DC bool :=
  if pr_canceled o then mret false else
  w ← get;
  if tport_is_closed (dc_stack w) tp then mret false else
  if starts_leg msg then new_incoming_leg msg transactionId tag else new_incoming_request msg transactionId.
(** The pending request dies when the function returns. *)
Definition setupLegForIncomingRequest (transactionId tag : string) : DC bool :=
  p ← on_server (on_prc (findAndRemove transactionId false));
  match p with
  | None => mret false
  | Some p =>
    o ← load_pending p;
    w ← get;
    '(msg, tp) ← deref (mt_held (dc_main w) !! transactionId);
    ok ← answer_pending o msg tp transactionId tag;
    _ ← drop_pending transactionId;
    mret ok
  end.
End timed.
