(* ===== verification/DialogResponses.v ===== *)
(** Model of the handlers of responses of [SipDialogController]
    (src/sip-dialog-controller.cpp): to requests that started a dialog, to
    requests inside a dialog, and to the re-INVITE that refreshes a session. *)
From S2P Require Import Prelude CppString TextUtil SipTags ClientController TimerQueue Cdr PendingRequests SipDialog DialogWorld InviteInProgress TimerD DialogController.

Open Scope list_scope.

Section timed.
Context `{sutime : SuTime}.

Section responses.
Context `{SofiaTport} `{NtaAgent} `{DialogConfig} `{Boost}.

(** Who refreshes the session of a request that we sent. *)
Definition uac_refresher (x_refresher : option string) : SessionRefresher_t :=
  match x_refresher with
  | None => we_are_refresher
  | Some r => if String.eqb r "uac" then we_are_refresher else they_are_refresher
  end.
Definition dlg_setSessionTimer (p : positive) (secs : Z) (who : SessionRefresher_t) : DC unit :=
  r ← next_rand; on_dlg p (setSessionTimer (Z.of_nat r) secs who).
Definition dlg_setRouteUri (p : positive) (uri : string) : DC unit :=
  on_dlg p (on_net_group (fun n => DialogNet (m_tp n) (m_orqAck n) (m_bDestroyAckOnClose n) (m_transportAddress n)
    (m_transportPort n) (m_protocol n) (m_sourceAddress n) (m_sourcePort n) uri)).
Definition dlg_setRemoteSdp (p : positive) (sdp : string) : DC unit :=
  on_dlg p (this (fun d => let i := d_ids d in set_ids (DialogIds (m_type i) (m_strCallId i) (m_dialogId i) (m_transactionId i)
    (m_localEndpoint i) (Endpoint sdp (m_strContentType (m_remoteEndpoint i)) (m_strTag (m_remoteEndpoint i)))) d)).
(** Timer D for a transaction on a datagram transport. *)
Definition start_timerD_if_dgram (orq : positive) : DC unit :=
  tp ← on_stack (nta_outgoing_transport orq);
  match tp with
  | Some tp => _ ← (if tport_is_dgram tp then addInvite orq else mret tt); on_stack (tport_unref tp)
  | None => mret tt
  end.
Definition cs_name (sip : sip_response) : string := sip_cseq_method_name (rs_sip sip).
Definition is_method (sip : sip_response) (m : sip_method_t) : bool := bool_decide (rs_cs_method sip = m).
Definition has_status (sip : sip_response) (s : Z) : bool := Z.eqb (rs_status sip) s.

(** ** Inside a dialog *)

Definition processResponseInsideDialog (orq : positive) (sip : option sip_response) : DC Z :=
  _ ← trackTportLiveness orq sip;
  sip ← deref sip;
  rip ← findRIPByOrq orq;
  match rip with
  | None => _ ← outgoing_destroy orq; mret 0%Z
  | Some rip =>
    _ ← clients (route_response_inside_transaction (rs_encoded sip) (rs_meta sip) (cs_name sip) (rs_status sip)
          (rip_transactionId rip) (rip_dialogId rip));
    _ ← (if is_method sip sip_method_invite && has_status sip 200 then
           _ ← start_timerD_if_dgram orq;
           match rs_session_expires sip with
           | None => mret tt
           | Some (delta, refresher) =>
             leg ← nta_leg_by_call_id (sip_call_id (rs_sip sip));
             dlg ← match leg with Some leg => findDialogByLeg leg | None => mret None end;
             match dlg with
             | Some p => dlg_setSessionTimer p delta (uac_refresher refresher)
             | None => mret tt
             end
           end
         else mret tt);
    _ ← (if rip_bClearDialogOnResponse rip then
           if is_method sip sip_method_bye && (has_status sip 407 || has_status sip 401) then mret tt
           else if String.eqb (rip_dialogId rip) "" then fail AssertFail
           else modify (on_dc_stable (SD_Clear_id (rip_dialogId rip)))
         else mret tt);
    _ ← clearRIP orq;
    mret 0%Z
  end.

(** ** The refreshing re-INVITE *)

Definition ack_refresh (p : positive) (contact : url_t) : DC unit :=
  routeUri ← dlg_getRouteUri p;
  tp ← on_dlg p getTport;
  d ← dlg_self p;
  ack ← match m_leg d with
        | Some leg => nta_outgoing_tcreate leg routeUri sip_method_ack (url_e contact) tp
        | None => mret None
        end;
  match ack with Some ack => outgoing_destroy ack | None => mret tt end.

Definition processResponseToRefreshingReinvite (orq : positive) (sip : option sip_response) : DC Z :=
  _ ← trackTportLiveness orq sip;
  rip ← findRIPByOrq orq;
  match rip with
  | None => _ ← outgoing_destroy orq; mret 0%Z
  | Some rip =>
    match sip with
    | None =>
      dlg ← findDialogById (rip_dialogId rip);
      _ ← match dlg with Some p => notifyTerminateStaleDialog p false | None => mret tt end;
      _ ← clearRIP orq; mret 0%Z
    | Some sip =>
      if (rs_status sip <? 200)%Z then mret 0%Z else
      dlg ← findDialogById (rip_dialogId rip);
      match dlg with
      | None => _ ← clearRIP orq; mret 0%Z
      | Some p =>
        _ ← (if has_status sip 200 then
               _ ← match rs_session_expires sip with
                   | Some (delta, refresher) => dlg_setSessionTimer p delta (uac_refresher refresher)
                   | None => mret tt
                   end;
               match rs_contact sip with Some url => ack_refresh p url | None => mret tt end
             else if has_status sip 491 then
               c ← sent_of orq;
               d ← dlg_self p;
               let secs := default (m_nSessionExpiresSecs (d_session d)) (cr_session_expires c) in
               if Z.eqb secs 0 then mret tt else dlg_setSessionTimer p secs we_are_refresher
             else notifyTerminateStaleDialog p false);
        _ ← clearRIP orq; mret 0%Z
      end
    end
  end.

(** ** Outside a dialog *)

(** The responses that make a dialog. *)
Definition makes_dialog (sip : sip_response) : bool :=
  (is_method sip sip_method_invite &&
   (has_status sip 200 || ((100 <? rs_status sip)%Z && (rs_status sip <? 200)%Z && rs_rseq sip)))
  || (is_method sip sip_method_subscribe && (has_status sip 202 || has_status sip 200)).

(** Whether the peer looks like a client behind a NAT. *)
Definition peer_behind_nat (sip : sip_response) : DC bool :=
  nat ← match rs_route_host sip with
        | Some (Some host) => mret (isRfc1918 host)
        | _ => mret false
        end;
  nat ← (if (nat : bool) then mret true else
         contact ← match rs_route_host sip, rs_contact sip with
                   | None, Some url =>
                     if is_method sip sip_method_invite
                     then host ← deref (url_host url); mret (negb (String.eqb host (m_address (rs_meta sip))))
                     else mret false
                   | _, _ => mret false
                   end;
         if (contact : bool) then mret true else mret (aggressiveNatEnabled && sipMsgHasNatEqualsYes (rs_sip sip) true true));
  mret (nat && negb natDetectionDisabled).

(** The route to such a client. *)
Definition nat_route (orq : positive) (sip : sip_response) : DC string :=
  tp ← on_stack (nta_outgoing_transport orq);
  c ← sent_of orq;
  let tls := match tp with Some tp => String.eqb (tpn_proto (tport_name tp)) "tls" | None => false end in
  let address := (m_address (rs_meta sip) +:+ ":" +:+ m_port (rs_meta sip))%string in
  _ ← match tp with Some tp => on_stack (tport_unref tp) | None => mret tt end;
  mret (if tls then "sips:" +:+ address +:+ ";transport=tls"
        else default "sip" (cr_route_scheme c) +:+ ":" +:+ address)%string.

Definition add_uac_dialog (orq p dlg : positive) (sip : sip_response) : DC unit :=
  _ ← dlg_getDialogId dlg;
  nat ← peer_behind_nat sip;
  _ ← (if (nat : bool) then
         c ← sent_of orq;
         host ← deref (cr_request_host c);
         if String.eqb host "feature-server" then mret tt
         else uri ← nat_route orq sip; dlg_setRouteUri dlg uri
       else dlg_setRouteUri dlg "");
  i ← iip_load p;
  _ ← (if iip_canceled i then on_ctl dlg (set_ackBye true) else mret tt);
  addDialog dlg.

Definition process_invite_response (orq : positive) (sip : sip_response) (p : positive) : DC (string * positive) :=
  i ← iip_load p;
  let dlg := iip_dlg i in
  _ ← dlg_setSipStatus dlg (rs_status sip);
  _ ← match rs_payload sip with Some sdp => dlg_setRemoteSdp dlg sdp | None => mret tt end;
  _ ← (if makes_dialog sip then add_uac_dialog orq p dlg sip else mret tt);
  let accepted := is_method sip sip_method_invite && has_status sip 200 in
  _ ← (if accepted then start_timerD_if_dgram orq
       else tp ← on_stack (nta_outgoing_transport orq);
            match tp with Some tp => on_stack (tport_unref tp) | None => mret tt end);
  _ ← match rs_session_expires sip with
      | Some (delta, refresher) =>
        if accepted then dlg_setSessionTimer dlg delta (uac_refresher refresher)
        else if (200 <? rs_status sip)%Z then IIP_Clear p else mret tt
      | None => if (200 <? rs_status sip)%Z then IIP_Clear p else mret tt
      end;
  mret (iip_transactionId i, dlg).

(** What is done for every response: routing, and call detail records. *)
Definition route_response (sip : sip_response) (transactionId : string) (dlg : option positive) : DC Z :=
  dialogId ← match dlg with Some p => dlg_getDialogId p | None => mret ""%string end;
  _ ← clients (route_response_inside_transaction (rs_encoded sip) (rs_meta sip) (cs_name sip) (rs_status sip)
        transactionId dialogId);
  _ ← (if is_method sip sip_method_invite then
         if (300 <=? rs_status sip)%Z
         then emit (PostedCdr stop_record "network" role_undefined (if has_status sip 487 then call_canceled else call_rejected))
         else if has_status sip 200 then emit (PostedCdr start_record "network" uac no_termination) else mret tt
       else mret tt);
  _ ← (if is_method sip sip_method_invite && (200 <? rs_status sip)%Z then
         p ← match dlg with Some p => mret p | None => fail AssertFail end;
         id ← dlg_getDialogId p;
         clients (removeDialog id)
       else mret tt);
  mret 0%Z.

Definition processResponseOutsideDialog (orq : positive) (sip : sip_response) : DC Z :=
  _ ← trackTportLiveness orq (Some sip);
  if is_method sip sip_method_invite || is_method sip sip_method_subscribe then
    resent ← (if is_method sip sip_method_invite then resendIfNeeded orq else mret false);
    if (resent : bool) then mret 0%Z else
    iip ← IIP_FindByOrq orq;
    match iip with
    | None => mret (-1)%Z
    | Some p => '(transactionId, dlg) ← process_invite_response orq sip p; route_response sip transactionId (Some dlg)
    end
  else
    rip ← findRIPByOrq orq;
    match rip with
    | None => mret (-1)%Z
    | Some rip =>
      _ ← (if (200 <=? rs_status sip)%Z then clearRIP orq else mret tt);
      route_response sip (rip_transactionId rip) None
    end.
End responses.
End timed.
