(* ===== verification/DialogRequests.v ===== *)
(** Model of the handlers of requests of [SipDialogController]
    (src/sip-dialog-controller.cpp): requests inside a dialog, CANCEL and ACK
    of an INVITE, and PRACK. *)
From S2P Require Import Prelude CppString TextUtil SipTags ClientController TimerQueue Cdr PendingRequests SipDialog SipTransports Connections DialogWorld InviteInProgress TimerD DialogController Messages ProxyDispatch Dispatch DialogResponses.

Open Scope list_scope.

Section timed.
Context `{sutime : SuTime}.

Section requests.
Context `{SofiaTport} `{NtaAgent} `{TportTree} `{TportByName} `{NtaMessage} `{!ProxyCoreOps} `{MainConfig} `{Inet} `{StdSort} `{Boost}.

Definition request_method (sip : sip_request) : sip_method_t := rq_method (rq_dialog sip).
Definition rq_is (sip : sip_request) (m : sip_method_t) : bool := bool_decide (request_method sip = m).

(** ** The connection of a dialog's peer *)

Definition currentTportForDialog (p : positive) (remoteTarget : option url_t) : DC (option positive) :=
  tp ← on_dlg p getTport;
  match tp, remoteTarget ≫= url_host with
  | Some tp, Some host =>
    d ← dlg_self p;
    if String.eqb (m_transportAddress (d_net d)) "" then mret (Some tp) else
    current ← getTportForContactAlias tp (SipDialog.m_protocol (d_net d)) (m_transportAddress (d_net d)) host (remoteTarget ≫= url_port);
    match current with
    | None => mret (Some tp)
    | Some c => if Pos.eqb c tp then mret (Some tp) else _ ← on_dlg p (setTport c); mret (Some c)
    end
  | _, _ => mret tp
  end.

(** ** ACK *)

(** The transaction id and the dialog that an ACK on [leg] belongs to; the
    dialog's timers are stopped. *)
Definition acknowledged (leg : positive) (transactionId : string) : DC (option (string * positive)) :=
  iip ← IIP_FindByLeg (Some leg);
  match iip with
  | None =>
    dlg ← findDialogByLeg leg;
    match dlg with
    | None => mret None
    | Some p => _ ← clearSipTimers p; mret (Some (transactionId, p))
    end
  | Some ip =>
    i ← iip_load ip;
    _ ← IIP_Clear ip;
    _ ← clearSipTimers (iip_dlg i);
    mret (Some (iip_transactionId i, iip_dlg i))
  end.
Definition route_ack (sip : sip_request) (transactionId : string) (p : positive) : DC unit :=
  inviteTransactionId ← dlg_getTransactionId p;
  dialogId ← dlg_getDialogId p;
  r ← next_rand;
  _ ← clients (route_ack_request_inside_dialog r (rq_encoded sip) (rq_meta sip) transactionId inviteTransactionId dialogId);
  mret tt.
Definition process_ack (leg irq : positive) (sip : sip_request) (transactionId : string) : DC Z :=
  found ← acknowledged leg transactionId;
  match found with
  | None => _ ← nta_incoming_destroy (Some irq); mret (-1)%Z
  | Some (transactionId, p) =>
    _ ← route_ack sip transactionId p;
    _ ← nta_incoming_destroy (Some irq);
    mret 0%Z
  end.

(** ** Other requests *)

Definition hasSessionTimer (d : SipDialog) : bool := bool_decide (is_Some (m_timerSessionRefresh (d_session d))).
(** The refresher when the peer asks for a session timer. *)
Definition uas_refresher (x_refresher : option string) (weAreRefresher : bool) : SessionRefresher_t :=
  match x_refresher with
  | None => if weAreRefresher then they_are_refresher else we_are_refresher
  | Some r => if String.eqb r "uac" then they_are_refresher else we_are_refresher
  end.
(** The session timer of a re-INVITE or UPDATE; [true]: refused. *)
Definition renegotiate_session (p irq : positive) (sip : sip_request) : DC bool :=
  d ← dlg_self p;
  let weAreRefresher := hasSessionTimer d && areWeRefresher (d_session d) in
  _ ← (if hasSessionTimer d then on_dlg p cancelSessionTimer else mret tt);
  match rq_session_expires sip with
  | None => mret false
  | Some (delta, refresher) =>
    if (delta <? m_nMinSE (d_session d))%Z then _ ← nta_incoming_treply irq 422; mret true
    else _ ← dlg_setSessionTimer p delta (uas_refresher refresher weAreRefresher); mret false
  end.

(** The methods that are handled as requests outside a dialog while the
    INVITE is not answered. *)
Definition early_methods : list sip_method_t :=
  [sip_method_notify; sip_method_options; sip_method_info; sip_method_message; sip_method_publish; sip_method_subscribe].
Definition terminates (sip : sip_request) (d : SipDialog) : bool :=
  rq_is sip sip_method_bye
  || (rq_is sip sip_method_notify && negb (m_bInviteDialog d) &&
      match ss_substate (rq_dialog sip) with Some s => strstr s "terminated" | None => false end).

(** What no client took before the INVITE was answered: [inl rc] ends the
    handler, [inr routed] goes on. *)
Definition unrouted_early (p irq : positive) (sip : sip_request) (transactionId : string) : DC (Z + bool) :=
  if bool_decide (request_method sip ∈ early_methods) then
    _ ← on_dlg p (this (removeIncomingRequestTransaction transactionId));
    rc ← processMessageStatelessly (nta_incoming_getrequest irq) (Some irq);
    _ ← nta_incoming_destroy (Some irq);
    mret (inl rc)
  else if rq_is sip sip_method_update then
    c ← dlg_ctl p;
    match m_irqUpdate c with
    | Some _ => _ ← nta_incoming_treply irq 500; mret (inl 0%Z)
    | None =>
      _ ← on_ctl p (set_update (Some irq) transactionId);
      inviteTransactionId ← dlg_getTransactionId p;
      dialogId ← dlg_getDialogId p;
      r ← next_rand;
      routed ← clients (route_request_inside_invite r (rq_encoded sip) (rq_meta sip) inviteTransactionId dialogId);
      mret (inr routed)
    end
  else mret (inr false).

(** The end of the dialog by a BYE or a final NOTIFY. *)
Definition end_dialog (p leg irq : positive) (sip : sip_request) (transactionId : string) (routed : bool) : DC unit :=
  _ ← clearSipTimers p;
  _ ← modify (on_dc_stable (SD_Clear_leg (Some leg)));
  _ ← (if negb routed then
         _ ← nta_incoming_treply irq 481;
         _ ← findAndRemoveTransactionIdForIncomingRequest transactionId;
         nta_incoming_destroy (Some irq)
       else if rq_is sip sip_method_bye then
         _ ← addTimer "general-sip" (timeoutBye_fn transactionId) 32000; mret tt
       else mret tt);
  txnId ← dlg_getTransactionId p;
  iip ← IIP_FindByTransactionId txnId;
  match iip with
  | None => mret tt
  | Some ip =>
    i ← iip_load ip;
    _ ← IIP_Clear ip;
    match iip_orq i with
    | None => mret tt
    | Some orq =>
      rip ← findRIPByOrq orq;
      match rip with
      | None => mret tt
      | Some rip => _ ← clients (removeAppTransaction (rip_transactionId rip)); clearRIP orq
      end
    end
  end.

Definition process_in_dialog (leg irq : positive) (sip : sip_request) (transactionId : string) : DC Z :=
  dlg ← findDialogByLeg leg;
  match dlg with
  | None => mret 481%Z
  | Some p =>
    _ ← (if rq_is sip sip_method_invite then _ ← nta_incoming_treply irq 100; mret tt else mret tt);
    _ ← (if rq_is sip sip_method_bye then mret tt
         else on_dlg p (this (SipDialog.addIncomingRequestTransaction transactionId)));
    refused ← (if rq_is sip sip_method_invite || rq_is sip sip_method_update
               then renegotiate_session p irq sip else mret false);
    if (refused : bool) then mret 0%Z else
    dialogId ← dlg_getDialogId p;
    r ← next_rand;
    routed ← clients (route_request_inside_dialog r (rq_encoded sip) (rq_meta sip) (rq_dialog sip) transactionId dialogId);
    status ← dlg_getSipStatus p;
    early ← (if negb routed && (status <? 200)%Z then unrouted_early p irq sip transactionId else mret (inr routed));
    match early with
    | inl rc => mret rc
    | inr routed =>
      if negb routed && (200 <=? status)%Z && negb (rq_is sip sip_method_bye) then
        _ ← nta_incoming_treply irq 481;
        _ ← nta_incoming_destroy (Some irq);
        mret 0%Z
      else
        _ ← addIncomingRequestTransaction irq transactionId;
        d ← dlg_self p;
        _ ← (if terminates sip d then end_dialog p leg irq sip transactionId routed else mret tt);
        _ ← (if rq_is sip sip_method_bye
             then emit (PostedCdr stop_record "network" role_undefined normal_release) else mret tt);
        mret 0%Z
    end
  end.

(** ** CANCEL of an answered INVITE *)

(** The reference on the message of [irq] is given back before the reply
    takes another one; the transaction stays. *)
Definition cancel_pending_fork (irq : positive) (sip : sip_request) (p : positive) : DC unit :=
  o ← load_pending p;
  client ← clients (findClientForNetTransaction (pr_transactionId o));
  _ ← match client with
      | Some c => clients (post (sendNewSipMessage c (pr_transactionId o) (rq_encoded sip) (rq_meta sip)))
      | None => mret tt
      end;
  _ ← nta_msg_treply (nta_incoming_getrequest irq) 200;
  _ ← cancelPending p;
  invite ← held_msg (pr_transactionId o);
  _ ← nta_msg_treply_dup invite 487;
  mret tt.
Definition cancel_answered (leg irq p : positive) : DC unit :=
  _ ← clearSipTimers p;
  _ ← nta_incoming_treply irq 481;
  let byeTarget := nta_leg_remote_target leg in
  byeTport ← on_dlg p getTport;
  byeTport ← match byeTarget ≫= url_host with
             | None => mret byeTport
             | Some host =>
               binding ← findTportForSubscription (byeTarget ≫= url_user) host;
               match binding with Some _ => mret byeTport | None => currentTportForDialog p byeTarget end
             end;
  orq ← nta_outgoing_tcreate leg "" sip_method_bye "" byeTport;
  orq ← announce_bye orq p;
  _ ← outgoing_destroy orq;
  _ ← modify (on_dc_stable (SD_Clear_leg (Some leg)));
  IIP_Clear_leg (Some leg).

(** The CANCEL case falls through to the default case of the switch. *)
Definition processRequestInsideDialog (leg irq : positive) (sip : sip_request) : DC Z :=
  transactionId ← next_uuid;
  if rq_is sip sip_method_ack then process_ack leg irq sip transactionId
  else if rq_is sip sip_method_cancel then
    pending ← main_findInviteByCallIdAndBranch (rq_sip sip);
    match pending with
    | Some p => _ ← cancel_pending_fork irq sip p; mret 0%Z
    | None =>
      dlg ← findDialogByLeg leg;
      match dlg with
      | None => mret 481%Z
      | Some p => _ ← cancel_answered leg irq p; process_in_dialog leg irq sip transactionId
      end
    end
  else process_in_dialog leg irq sip transactionId.

(** ** CANCEL and ACK of an INVITE, and PRACK *)

Definition processCancelOrAck (irq : positive) (sip : option sip_request) : DC Z :=
  match sip with
  | None =>
    iip ← IIP_FindByIrq irq;
    _ ← match iip with
        | Some ip => i ← iip_load ip; _ ← clearSipTimers (iip_dlg i); IIP_Clear ip
        | None => mret tt
        end;
    mret (-1)%Z
  | Some sip =>
    _ ← next_uuid;
    if rq_is sip sip_method_cancel then
      iip ← IIP_FindByIrq irq;
      match iip with
      | None => mret 0%Z
      | Some ip =>
        i ← iip_load ip;
        _ ← live_irq irq;
        _ ← emit (PostedCdr stop_record "network" role_undefined call_canceled);
        dialogId ← dlg_getDialogId (iip_dlg i);
        r ← next_rand;
        _ ← clients (route_request_inside_invite r (rq_encoded sip) (rq_meta sip) (iip_transactionId i) dialogId);
        _ ← clients (removeNetTransaction (iip_transactionId i));
        _ ← IIP_Clear ip;
        mret 0%Z
      end
    else if rq_is sip sip_method_ack then
      iip ← IIP_FindByIrq irq;
      match iip with
      | None => mret 0%Z
      | Some ip =>
        i ← iip_load ip;
        _ ← IIP_Clear ip;
        _ ← clearSipTimers (iip_dlg i);
        transactionId ← next_uuid;
        _ ← live_irq irq;
        _ ← route_ack sip transactionId (iip_dlg i);
        mret 0%Z
      end
    else mret 0%Z
  end.

Definition processPrack (rel prack : positive) (sip : sip_request) : DC Z :=
  iip ← IIP_FindByReliable rel;
  match iip with
  | None => mret 0%Z
  | Some ip =>
    transactionId ← next_uuid;
    i ← iip_load ip;
    inviteTransactionId ← dlg_getTransactionId (iip_dlg i);
    dialogId ← dlg_getDialogId (iip_dlg i);
    r ← next_rand;
    _ ← clients (addDialogForTransaction r inviteTransactionId dialogId);
    _ ← live_irq prack;
    r ← next_rand;
    _ ← clients (route_request_inside_dialog r (rq_encoded sip) (rq_meta sip) (rq_dialog sip) transactionId dialogId);
    _ ← IIP_destroyReliable ip rel;
    _ ← addIncomingRequestTransaction prack transactionId;
    mret 0%Z
  end.
End requests.
End timed.
