(* ===== verification/DialogSend.v ===== *)
(** Model of what [SipDialogController] sends for an application
    (src/sip-dialog-controller.hpp, src/sip-dialog-controller.cpp): the message
    that carries a command to the thread of the stack, CANCEL of an INVITE, and
    requests inside a dialog. *)
From S2P Require Import Prelude CppString TextUtil SipTags ClientController TimerQueue Cdr PendingRequests SipDialog SipTransports Connections DialogWorld InviteInProgress TimerD DialogController DialogResponses DialogRequests.

Open Scope list_scope.

Section timed.
Context `{sutime : SuTime}.

(** ** The message between the threads *)

Definition MSG_ID_LEN : nat := 128.
Definition MAX_DIALOG_ID_LEN : nat := 1024.
Definition START_LEN : nat := 512.
Definition HDR_LEN : nat := Z.to_nat 8400.
Definition BODY_LEN : nat := Z.to_nat 12288.

(** What the getters of [SipMessageData] return: the buffers are zeroed and
    one byte longer than what is copied. *)
Record SipMessageData := MkSipMessageData {
  getClientMsgId : string;
  getTransactionId : string;
  getRequestId : string;
  getDialogId_of : string;
  getStartLine : string;
  getHeaders : string;
  getBody : string;
  getRouteUrl : string;
}.
Definition buffer (n : nat) (s : string) : string := c_str (str_take n s).
Definition SipMessageData_new (clientMsgId transactionId requestId dialogId startLine headers body : string) : SipMessageData :=
  MkSipMessageData (buffer MSG_ID_LEN clientMsgId) (buffer MSG_ID_LEN transactionId) (buffer MSG_ID_LEN requestId)
    (buffer MAX_DIALOG_ID_LEN dialogId) (buffer START_LEN startLine) (buffer HDR_LEN headers) (buffer BODY_LEN body) "".
Definition SipMessageData_routed (clientMsgId transactionId requestId dialogId startLine headers body routeUrl : string) : SipMessageData :=
  MkSipMessageData (buffer MSG_ID_LEN clientMsgId) (buffer MSG_ID_LEN transactionId) (buffer MSG_ID_LEN requestId)
    (buffer MSG_ID_LEN dialogId) (buffer START_LEN startLine) (buffer HDR_LEN headers) (buffer BODY_LEN body)
    (buffer START_LEN routeUrl).

(** ** Tags *)

(** [searchForHeader(tags, header, value)] *)
Fixpoint searchForHeader (tags : list (tag_type_t * string)) (header : tag_type_t) : option string :=
  match tags with
  | [] => None
  | (t, v) :: tags => if bool_decide (t = header) then Some v else searchForHeader tags header
  end.
Definition siptag_contact_str : tag_type_t := siptag "siptag_contact_str".
Definition siptag_content_type_str : tag_type_t := siptag "siptag_content_type_str".
Definition siptag_payload_str : tag_type_t := siptag "siptag_payload_str".
Definition siptag_cseq_str : tag_type_t := siptag "siptag_cseq_str".
(** [TAG_IF(b, tag)] *)
Definition TAG_IF (b : bool) (tag : tag_type_t) (value : string) : list (tag_type_t * string) := if b then [(tag, value)] else [].
Definition nonempty (s : string) : bool := negb (String.eqb s "").

Definition api (clientMsgId responseText data : string) : DC unit :=
  _ ← clients (route_api_response clientMsgId responseText data); mret tt.
Definition msg_sent (c : created) (transactionId : string) : string :=
  (SipMsgData_toMessageFormat (cr_meta c) +:+ "|" +:+ transactionId +:+ "|Msg sent:|" +:+ DR_CRLF +:+ cr_encoded c)%string.

Section send.
Context `{SofiaTport} `{NtaAgent} `{!NtaMessages} `{TportTree} `{TportByName} `{MainSending} `{Boost} `{SofiaUrl}.

(** The tags that the stack reads; the array itself is freed at the end. *)
Definition tags_of (headers transport : string) (externalIp : option string) : res (list (tag_type_t * string)) :=
  match makeTags preservedHeaders headers transport externalIp ∅ with
  | Ok (p, m) => Ok (tags_at m p)
  | Fault f => Fault f
  end.
Definition safe_tags_of (headers : string) : res (list (tag_type_t * string)) :=
  match makeSafeTags preservedHeaders headers ∅ with
  | Ok (p, m) => Ok (tags_at m p)
  | Fault f => Fault f
  end.

(** ** CANCEL *)

(** [nta_outgoing_tcancel]: the transaction of the CANCEL is kept by the
    stack; NULL gives NULL. *)
Definition nta_outgoing_tcancel (orq : option positive) : DC (option created) :=
  match orq with
  | None => mret None
  | Some orq =>
    _ ← live_orq orq;
    c ← next_create;
    _ ← match c with Some _ => emit (CancelledRequest orq) | None => mret tt end;
    mret c
  end.
Definition doSendCancelRequest (pData : SipMessageData) : DC unit :=
  let transactionId := getTransactionId pData in
  iip ← IIP_FindByTransactionId transactionId;
  match iip with
  | Some p =>
    _ ← IIP_setCanceled p;
    _ ← pure (safe_tags_of (getHeaders pData));
    i ← iip_load p;
    cancel ← nta_outgoing_tcancel (iip_orq i);
    match cancel with
    | Some c =>
      cancelTransactionId ← next_uuid;
      api (getClientMsgId pData) "OK" (msg_sent c cancelTransactionId)
    | None => api (getClientMsgId pData) "NOK" ("internal server error canceling transaction id: " +:+ transactionId)
    end
  | None => api (getClientMsgId pData) "NOK" ("unable to cancel unknown transaction id: " +:+ transactionId)
  end.

(** ** Requests inside a dialog *)

Definition outgoing_create (leg : positive) (method : sip_method_t) (route uri : string) (tp : option positive)
    (headers : list (tag_type_t * string)) : DC (option positive) :=
  w ← get;
  if bool_decide (leg ∈ st_legs (dc_stack w)) then
    c ← next_create;
    match c with
    | None => mret None
    | Some cr =>
      let q := fresh_addr (st_orqs (dc_stack w)) in
      _ ← on_stack (modify (on_orqs (insert q (cr_tport cr))));
      _ ← modify (on_dc_sent (insert q cr));
      _ ← emit (SentWithHeaders q leg method route uri tp headers);
      mret (Some q)
    end
  else fail BadAccess.

Definition on_local (f : Endpoint_t -> Endpoint_t) (p : positive) : DC unit :=
  on_dlg p (this (fun d => let i := d_ids d in
    set_ids (DialogIds (m_type i) (m_strCallId i) (m_dialogId i) (m_transactionId i) (f (m_localEndpoint i)) (m_remoteEndpoint i)) d)).
Definition setLocalSdp (sdp : string) : positive -> DC unit := on_local (fun e => Endpoint sdp (m_strContentType e) (m_strTag e)).
Definition setLocalContentType (type : string) : positive -> DC unit := on_local (fun e => Endpoint (m_strSdp e) type (m_strTag e)).
Definition clearSeq (p : positive) : DC unit :=
  on_dlg p (this (fun d => MkSipDialog (d_ids d) (d_net d) (d_session d) (m_leg d) (m_orq d) 0 (m_recentSipStatus d)
    (m_bInviteDialog d) (m_durationTimerG d) (m_incomingRequestTransactionIds d))).

(** The connection for the request and whether it is forced; a registration
    of the peer comes before the connections known by its contact. *)
Definition choose_tport (p : positive) (remoteTarget : option url_t) : DC (option positive * bool * option positive) :=
  tp ← on_dlg p getTport;
  pRegBinding ← match remoteTarget ≫= url_host with
                | Some host => findTportForSubscription (remoteTarget ≫= url_user) host
                | None => mret None
                end;
  match pRegBinding with
  | Some _ => mret (tp, bool_decide (is_Some tp), pRegBinding)
  | None =>
    current ← currentTportForDialog p remoteTarget;
    mret (current, bool_decide (is_Some tp) || negb (bool_decide (current = tp)), pRegBinding)
  end.

(** A BYE during a re-INVITE cancels it. *)
Definition cancel_reinvite (p leg : positive) : DC unit :=
  iip ← IIP_FindByLeg (Some leg);
  match iip with
  | None => mret tt
  | Some ip =>
    i ← iip_load ip;
    match iip_orq i with
    | None => mret tt
    | Some orq =>
      _ ← live_orq orq;
      _ ← emit (CancelledRequest orq);
      _ ← IIP_Clear_leg (Some leg);
      id ← dlg_getDialogId p;
      clearRIPByDialogId id
    end
  end.

(** The URI, connection and whether it is forced: an ACK and a "placeholder"
    URI go to the remote target. *)
Definition resolve_target (method : sip_method_t) (dialogId requestUri : string) (leg : positive) (remoteTarget : option url_t)
    (tp : option positive) (forceTport : bool) (pRegBinding : option positive) : string + (string * option positive * bool) :=
  if (bool_decide (method = sip_method_ack) || strstr requestUri "placeholder") && nta_leg_has_route leg then
    match remoteTarget with
    | None => inl ("unable to find route when sending request inside dialog for dialog id " +:+ dialogId)%string
    | Some target =>
      match url_host target with
      | None => inl ("unable to find route for empty host when sending request inside dialog for dialog id " +:+ dialogId)%string
      | Some _ =>
        match pRegBinding with
        | Some t => if bool_decide (Some t = tp) then inr (url_e_255 target, tp, forceTport) else inr (url_e_255 target, Some t, true)
        | None => inr (url_e_255 target, tp, forceTport)
        end
      end
    end
  else inr (requestUri, tp, forceTport).

(** The content type of a body: as given, or application/sdp. *)
Definition content_type_of (body : string) (tags : list (tag_type_t * string)) : option string :=
  if nonempty body then
    match searchForHeader tags siptag_content_type_str with
    | Some t => Some t
    | None => if String.prefix "v=0" body then Some "application/sdp"%string else None
    end
  else Some ""%string.

(** The ACK of a 200 OK; [true]: its transaction is destroyed at the end. *)
Definition send_ack (p leg : positive) (routeUri requestUri body contentType : string) (tags : list (tag_type_t * string))
    (tp : option positive) : DC (positive * bool) :=
  d ← dlg_self p;
  let seq := m_seq d in
  _ ← clearSeq p;
  orq ← outgoing_create leg sip_method_ack routeUri requestUri tp
    (TAG_IF (0 <? seq)%Z siptag_cseq_str (to_string seq +:+ " ACK") ++ TAG_IF (nonempty body) siptag_payload_str body ++
     TAG_IF (nonempty contentType) siptag_content_type_str contentType ++ tags);
  orq ← deref orq;
  orq_tp ← on_stack (nta_outgoing_transport orq);
  destroyOrq ← match orq_tp with
    | Some t =>
      _ ← (if tport_is_dgram t then addAck orq else mret tt);
      _ ← on_dlg p (setTport t);
      _ ← on_stack (tport_unref t);
      mret (negb (tport_is_dgram t))
    | None => _ ← on_dlg p (setOrqAck orq true); mret false
    end;
  _ ← IIP_Clear_leg (Some leg);
  mret (orq, destroyOrq).
Definition send_prack (leg : positive) (routeUri : string) (tags : list (tag_type_t * string)) : DC (string + option positive) :=
  iip ← IIP_FindByLeg (Some leg);
  match iip with
  | None => mret (inl "unable to find IIP when sending PRACK"%string)
  | Some ip =>
    i ← iip_load ip;
    _ ← match iip_orq i with Some orq => live_orq orq | None => mret tt end;
    orq ← outgoing_create leg sip_method_prack routeUri "" None tags;
    mret (inr orq)
  end.
Definition makes_target (method : sip_method_t) : bool :=
  bool_decide (method = sip_method_invite) || bool_decide (method = sip_method_subscribe) || bool_decide (method = sip_method_refer).
Definition send_other (p leg : positive) (method : sip_method_t) (routeUri requestUri body contentType : string)
    (tags : list (tag_type_t * string)) (tp : option positive) : DC (option positive) :=
  c ← dlg_ctl p;
  outgoing_create leg method routeUri requestUri tp
    (TAG_IF (makes_target method && negb (bool_decide (is_Some (searchForHeader tags siptag_contact_str)))) siptag_contact_str (m_strLocalContact c) ++
     TAG_IF (nonempty body) siptag_payload_str body ++ TAG_IF (nonempty contentType) siptag_content_type_str contentType ++ tags).

(** What is kept of a request that was sent, and what the application is
    told. *)
Definition clears_dialog (method : sip_method_t) (d : SipDialog) (c : created) : bool :=
  bool_decide (method = sip_method_bye) ||
  (negb (m_bInviteDialog d) && bool_decide (method = sip_method_notify) &&
   match cr_substate c with Some s => strstr s "terminated" | None => false end).
Definition record_request (pData : SipMessageData) (p leg orq : positive) (method : sip_method_t) : DC unit :=
  c ← sent_of orq;
  status ← dlg_getSipStatus p;
  _ ← (if bool_decide (method = sip_method_ack) then
         if (200 <? status)%Z then id ← dlg_getDialogId p; clients (removeDialog id) else mret tt
       else d ← dlg_self p;
            addRIP orq (MkRIP (getTransactionId pData) (getDialogId_of pData) (Some p) (clears_dialog method d c)));
  _ ← (if bool_decide (method = sip_method_invite) then addOutgoingInviteTransaction leg orq p else mret tt);
  _ ← (if bool_decide (method = sip_method_bye)
       then emit (PostedCdr stop_record "application" role_undefined normal_release) else mret tt);
  api (getClientMsgId pData) "OK" (msg_sent c (getTransactionId pData)).

(** The transaction made, if any, and whether to destroy it at the end. *)
Definition send_method (p leg : positive) (method : sip_method_t) (requestUri body contentType : string)
    (tags : list (tag_type_t * string)) (tp : option positive) : DC (string + option positive * bool) :=
  routeUri ← dlg_getRouteUri p;
  if bool_decide (method = sip_method_ack) then
    status ← dlg_getSipStatus p;
    if Z.eqb status 200
    then '(orq, destroyOrq) ← send_ack p leg routeUri requestUri body contentType tags tp; mret (inr (Some orq, destroyOrq))
    else mret (inr (None, false))
  else
    orq ← (if bool_decide (method = sip_method_prack) then send_prack leg routeUri tags
           else orq ← send_other p leg method routeUri requestUri body contentType tags tp; mret (inr orq));
    match orq with
    | inl msg => mret (inl msg)
    | inr None => mret (inl "Error creating sip transaction for request"%string)
    | inr (Some orq) => mret (inr (Some orq, false))
    end.

(** The body of the try block: the message of the exception, or the
    transaction to destroy. *)
Definition send_in_dialog (pData : SipMessageData) (p : positive) (method : sip_method_t) (requestUri : string) :
    DC (string + option positive) :=
  tags ← pure (tags_of (getHeaders pData) "" None);
  d ← dlg_self p;
  match m_leg d with
  | None => fail AssertFail
  | Some leg =>
    let remoteTarget := if nta_leg_has_route leg then nta_leg_remote_target leg else None in
    '(tp, forceTport, pRegBinding) ← choose_tport p remoteTarget;
    _ ← (if bool_decide (method = sip_method_bye) then cancel_reinvite p leg else mret tt);
    match resolve_target method (getDialogId_of pData) requestUri leg remoteTarget tp forceTport pRegBinding with
    | inl msg => mret (inl msg)
    | inr (requestUri, tp, forceTport) =>
      if bool_decide (method = sip_method_invalid) || bool_decide (method = sip_method_unknown)
      then mret (inl ("invalid or missing method supplied on start line: " +:+ getStartLine pData)%string) else
      let body := getBody pData in
      match content_type_of body tags with
      | None => mret (inl "missing content-type"%string)
      | Some contentType =>
        _ ← (if bool_decide (method = sip_method_invite) && nonempty body && String.eqb contentType "application/sdp"
             then _ ← setLocalSdp body p; setLocalContentType contentType p else mret tt);
        sent ← send_method p leg method requestUri body contentType tags (if (forceTport : bool) then tp else None);
        match sent with
        | inl msg => mret (inl msg)
        | inr (orq, destroyOrq) =>
          status ← dlg_getSipStatus p;
          _ ← (if bool_decide (method = sip_method_ack) && negb (Z.eqb status 200) then
                 id ← dlg_getDialogId p;
                 _ ← modify (on_dc_stable (SD_Clear_id id));
                 api (getClientMsgId pData) "NOK" "ACK for non-success responses is automatically generated by the stack"
               else orq ← deref orq; record_request pData p leg orq method);
          status ← dlg_getSipStatus p;
          c ← dlg_ctl p;
          _ ← (if bool_decide (method = sip_method_ack) && Z.eqb status 200 && m_bAckBye c
               then notifyTerminateStaleDialog p true else mret tt);
          mret (inr (if (destroyOrq : bool) then orq else None))
        end
      end
    end
  end.

Definition doSendRequestInsideDialog (pData : SipMessageData) : DC unit :=
  let '(method, name, requestUri) := parseStartLine (getStartLine pData) in
  dlg ← findDialogById (getDialogId_of pData);
  r ← match dlg with
      | None => mret (inl (if bool_decide (method = sip_method_ack)
                           then "ACK for non-success final response is automatically generated by server"
                           else "unable to find dialog for dialog id provided")%string)
      | Some p => send_in_dialog pData p method requestUri
      end;
  match r with
  | inl msg =>
    _ ← api (getClientMsgId pData) "NOK" ("Server error: " +:+ msg);
    clients (removeAppTransaction (getTransactionId pData))
  | inr (Some orq) => outgoing_destroy orq
  | inr None => mret tt
  end.
End send.
End timed.
