(* ===== verification/DialogRespond.v ===== *)
(** Model of [doRespondToSipRequest] of [SipDialogController]
    (src/sip-dialog-controller.cpp): the responses that an application sends to
    requests inside a dialog, to an UPDATE before the answer, and to an INVITE
    or SUBSCRIBE in progress. *)
From S2P Require Import Prelude CppString SipUri TextUtil SipTags ClientController TimerQueue Cdr PendingRequests SipDialog SipTransports Connections DialogWorld InviteInProgress InviteInProgressCorrect TimerD DialogController Messages ProxyDispatch Dispatch LegSetup DialogResponses DialogRequests DialogSend.

Open Scope list_scope.

Section timed.
Context `{sutime : SuTime}.

(** What the steps leave for the end of the handler: the transaction,
    whether a response went out, the message if not, whether to destroy the
    transaction and to clear the invite, and the dialog id to report. *)
Record respond_result := RespondResult {
  rr_irq : option positive;
  rr_sentOK : bool;
  rr_failMsg : string;
  rr_destroyIrq : bool;
  rr_clearIIP : bool;
  rr_dialogId : string;
  rr_isUpdate : bool;
}.

Definition TRANSPORT_GONE : string := "transport for response has been shutdown or closed".
Definition UNKNOWN_ERROR : string := "Unknown server error sending response".
Definition CONNECTION_ERROR : string := "connection error: remote side may have closed socket".

(** [atoi] with blanks and a sign, as [unsigned long]. *)
Fixpoint skip_blanks (s : string) : string :=
  match s with String c s' => if Regex.is_space c then skip_blanks s' else s | EmptyString => s end.
Definition atoi_ulong (s : string) : Z :=
  (match skip_blanks s with
   | String "-" s' => - atoi s'
   | String "+" s' => atoi s'
   | s' => atoi s'
   end mod 2 ^ 64)%Z.

Section respond.
Context `{SofiaTport} `{NtaAgent} `{!NtaMessages} `{MainSending} `{Boost} `{SofiaUrl} `{Inet} `{TportTree} `{StdSort} `{DialogConfig} `{NtaMessage}.
(** The server's transports. *)
Context (transports : SipTransports).

(** ** The transaction of a response *)

Definition find_transaction (transactionId headers : string) : DC (option positive * bool * option positive) :=
  irq ← findAndRemoveTransactionIdForIncomingRequest transactionId;
  match irq with
  | Some irq => mret (Some irq, true, None)
  | None =>
    iip ← IIP_FindByTransactionId transactionId;
    match iip with
    | Some p => mret (None, false, Some p)
    | None =>
      let tag := match GetValueForHeader headers "to" with Some v => default "" (tag_of_to v) | None => "" end%string in
      ok ← setupLegForIncomingRequest transactionId tag;
      if (ok : bool) then
        iip ← IIP_FindByTransactionId transactionId;
        match iip with
        | Some p => mret (None, false, Some p)
        | None => irq ← findAndRemoveTransactionIdForIncomingRequest transactionId; mret (irq, false, None)
        end
      else mret (None, false, None)
    end
  end.

(** ** Transports and replies *)

(** [nta_incoming_transport], with a reference for the caller, and
    [!tp || tport_is_shutdown(tp)]. *)
Definition nta_incoming_transport (irq : positive) : DC (option positive) :=
  _ ← live_irq irq;
  match iv_tport (nta_incoming_view irq) with
  | None => mret None
  | Some tp => _ ← on_stack (tport_ref tp); mret (Some tp)
  end.
Definition usable_transport (irq : positive) : DC (option positive) :=
  tp ← nta_incoming_transport irq;
  match tp with
  | None => mret None
  | Some tp => w ← get; mret (if tport_is_closed (dc_stack w) tp then None else Some tp)
  end.
Definition external_ip (t : SipTransport) : option string := if hasExternalIp t then Some (m_strExternalIp t) else None.
Definition response_tags (headers : string) (t : SipTransport) : res (list (tag_type_t * string)) :=
  tags_of headers (getDescription t true) (external_ip t).
Definition treply_with (irq : positive) (status : Z) (headers : list (tag_type_t * string)) : DC Z :=
  _ ← live_irq irq;
  rc ← next_reply;
  _ ← (if Z.eqb rc 0 then emit (SentResponse irq status false headers) else mret tt);
  mret rc.
Definition nta_reliable_treply (irq : positive) (status : Z) (headers : list (tag_type_t * string)) : DC (option positive) :=
  _ ← live_irq irq;
  rc ← next_reply;
  if Z.eqb rc 0 then _ ← emit (SentResponse irq status true headers); rel ← new_reliable; mret (Some rel) else mret None.
Definition has_tag (tags : list (tag_type_t * string)) (t : tag_type_t) : bool := bool_decide (is_Some (searchForHeader tags t)).
Definition body_tags (body contentType : string) : list (tag_type_t * string) :=
  TAG_IF (nonempty body) siptag_payload_str body ++ TAG_IF (nonempty contentType) siptag_content_type_str contentType.

(** ** Requests other than those in progress *)

(** Sending; the second component is the message on failure. *)
Definition send_response (irq : positive) (code : Z) (headers body : string) : DC (bool * string) :=
  tp ← usable_transport irq;
  match tp with
  | None => mret (false, TRANSPORT_GONE)
  | Some tp =>
    t ← pure (findTransport transports (tport_parent tp));
    _ ← on_stack (tport_unref tp);
    tags ← pure (response_tags headers t);
    let contact := ("<" +:+ getContactUri t true +:+ ">")%string in
    let found := searchForHeader tags (siptag "siptag_content_type") in
    let contentType := match found with
      | Some v => if nonempty body then v else ""%string
      | None => if nonempty body && String.prefix "v=0" body then "application/sdp"%string else ""%string
      end in
    let m := iv_method (nta_incoming_view irq) in
    rc ← treply_with irq code
      (TAG_IF ((bool_decide (m = sip_method_invite) || bool_decide (m = sip_method_subscribe)) && negb (has_tag tags siptag_contact_str))
         siptag_contact_str contact ++ body_tags body contentType ++ tags);
    mret (if Z.eqb rc 0 then (true, ""%string) else (false, UNKNOWN_ERROR))
  end.

(** The connection of a peer that registers or subscribes is kept for later
    requests to it. *)
Definition keeps_connection (irq : positive) (code : Z) : bool :=
  let m := iv_method (nta_incoming_view irq) in
  (bool_decide (m = sip_method_subscribe) && (Z.eqb code 202 || Z.eqb code 200))
  || (bool_decide (m = sip_method_register) && Z.eqb code 200).
Definition binding_expires (irq : positive) (r : made_response) : Z :=
  let by_header := match mr_expires r with Some e => if Z.eqb e 0 then 0%Z else e | None => 0%Z end in
  if bool_decide (iv_method (nta_incoming_view irq) = sip_method_subscribe) then by_header
  else match mr_contact_expires r with
       | Some (Some s) => atoi_ulong s
       | _ => by_header
       end.
Definition keep_connection (irq : positive) : DC (bool * string) :=
  match iv_contact (nta_incoming_view irq), iv_tport (nta_incoming_view irq) with
  | Some url, Some tp =>
    if tport_is_dgram tp then mret (true, ""%string) else
    w ← get;
    match nta_incoming_getresponse w irq with
    | None => mret (false, CONNECTION_ERROR)
    | Some r =>
      let expires := binding_expires irq r in
      _ ← (if (0 <? expires)%Z then cacheTportForSubscription (url_user url) (url_host url) expires tp
           else flushTportForSubscription (url_user url) (url_host url));
      mret (true, ""%string)
    end
  | _, _ => mret (true, ""%string)
  end.

(** The dialog of a request that was answered. *)
Definition answered_in_dialog (irq : positive) (transactionId body : string) (sentOK : bool) : DC string :=
  leg ← nta_leg_by_call_id (iv_call_id (nta_incoming_view irq));
  dlg ← match leg with Some leg => findDialogByLeg leg | None => mret None end;
  match dlg with
  | None => mret ""%string
  | Some p =>
    dialogId ← dlg_getDialogId p;
    _ ← on_dlg p (this (removeIncomingRequestTransaction transactionId));
    _ ← (if bool_decide (iv_method (nta_incoming_view irq) = sip_method_invite) && nonempty body && sentOK
         then setLocalSdp body p else mret tt);
    mret dialogId
  end.
Definition respond_to_request (irq : positive) (existingDialog : bool) (code : Z) (transactionId headers body : string) :
    DC respond_result :=
  '(sentOK, failMsg) ← send_response irq code headers body;
  '(sentOK, failMsg) ← (if (sentOK : bool) && keeps_connection irq code then keep_connection irq else mret (sentOK, failMsg));
  dialogId ← (if existingDialog then answered_in_dialog irq transactionId body sentOK else mret ""%string);
  mret (RespondResult (Some irq) sentOK failMsg true false dialogId false).

(** ** An UPDATE while the INVITE is in progress *)

Definition respond_to_update (p irq : positive) (code : Z) (headers body : string) : DC respond_result :=
  tp ← usable_transport irq;
  '(sentOK, failMsg) ← match tp with
    | None => mret (false, TRANSPORT_GONE)
    | Some tp =>
      t ← pure (findTransport transports (tport_parent tp));
      _ ← on_stack (tport_unref tp);
      tags ← pure (response_tags headers t);
      rc ← treply_with irq code (body_tags body "" ++ tags);
      mret (if Z.eqb rc 0 then (true, ""%string) else (false, UNKNOWN_ERROR))
    end;
  c ← dlg_ctl p;
  let updateTxnId := m_updateTransactionId c in
  _ ← (if nonempty updateTxnId then
         _ ← findAndRemoveTransactionIdForIncomingRequest updateTxnId;
         _ ← on_dlg p (this (removeIncomingRequestTransaction updateTxnId));
         clients (removeNetTransaction updateTxnId)
       else mret tt);
  _ ← on_ctl p (set_update None "");
  mret (RespondResult (Some irq) sentOK failMsg true false "" true).

(** ** An INVITE or SUBSCRIBE in progress *)

Definition dlg_setLocalContact (p : positive) (contact : string) : DC unit := on_ctl p (set_localContact contact).
(** The Contact of the server; plain sip when the far end wants best-effort
    TLS. *)
Definition own_contact (t : SipTransport) (irq : positive) : string :=
  let contact := getContactUri t true in
  let best_effort := supportBestEffortTls && isSips t &&
    match iv_contact (nta_incoming_view irq) with
    | Some url => match url_scheme url with Some s => String.eqb s "sip" | None => false end
    | None => false
    end in
  ("<" +:+ (if best_effort then "sip:" +:+ str_drop 5 contact else contact) +:+ ">")%string.
Definition sent_reliably (irq : positive) (code : Z) (tags : list (tag_type_t * string)) : bool :=
  (100 <? code)%Z && (code <? 200)%Z && bool_decide (iv_method (nta_incoming_view irq) = sip_method_invite) &&
  existsb (fun e => bool_decide (e.1 = siptag "siptag_require_str") && strstr e.2 "100rel") tags.

(** The local description of the dialog; the content type found by the body. *)
Definition keep_local_sdp (p : positive) (body : string) (tags : list (tag_type_t * string)) : DC string :=
  if nonempty body then
    _ ← setLocalSdp body p;
    match searchForHeader tags siptag_content_type_str with
    | Some type => _ ← setLocalContentType type p; mret ""%string
    | None =>
      if String.prefix "v=0" body
      then _ ← setLocalContentType "application/sdp" p; mret "application/sdp"%string
      else mret ""%string
    end
  else mret ""%string.

(** The session timer of an accepted INVITE: the Session-Expires to add, and
    whether to require timers. *)
Definition refresher_of (x_refresher : option string) : SessionRefresher_t :=
  match x_refresher with
  | None => they_are_refresher
  | Some r => if String.eqb r "uac" then they_are_refresher else we_are_refresher
  end.
Definition requires_timer (irq : positive) (who : SessionRefresher_t) : bool :=
  bool_decide (who = they_are_refresher) || iv_supports_timer (nta_incoming_view irq).
Definition accept_session (p irq : positive) (code : Z) (tags : list (tag_type_t * string)) : DC (option string * bool) :=
  if Z.eqb code 200 && bool_decide (iv_method (nta_incoming_view irq) = sip_method_invite) then
    match searchForHeader tags (siptag "siptag_session_expires_str") with
    | Some s =>
      '(delta, x_refresher) ← deref (sip_session_expires_make s);
      let who := refresher_of x_refresher in
      _ ← dlg_setSessionTimer p (Z.max 90 delta) who;
      mret (None, requires_timer irq who)
    | None =>
      match iv_session_expires (nta_incoming_view irq) with
      | None => mret (None, false)
      | Some (delta, x_refresher) =>
        let refresher := match x_refresher with Some r => if nonempty r then r else sessionTimerDefaultRefresher | None => sessionTimerDefaultRefresher end in
        if String.eqb refresher "none" then mret (None, false) else
        let who := refresher_of (Some refresher) in
        let interval := Z.max 90 delta in
        _ ← dlg_setSessionTimer p interval who;
        mret (Some (to_string interval +:+ ";refresher=" +:+ refresher)%string, requires_timer irq who)
      end
    end
  else mret (None, false).

(** The response goes out, reliably or not. *)
Definition session_tags (sessionExpires : option string) (requireTimer : bool) : list (tag_type_t * string) :=
  match sessionExpires with Some s => [(siptag "siptag_session_expires", s)] | None => [] end
  ++ TAG_IF requireTimer (siptag "siptag_require_str") "timer".
Definition respond_reliably (ip irq : positive) (code : Z) (headers : list (tag_type_t * string)) : DC (bool * string) :=
  rel ← nta_reliable_treply irq code headers;
  match rel with
  | None => mret (false, "Remote endpoint does not support 100rel"%string)
  | Some rel => _ ← IIP_AddReliable ip rel; mret (true, ""%string)
  end.
(** What a sent final response starts; [true]: the invite is to be cleared. *)
Definition response_accepted (irq tp p : positive) (code : Z) : DC bool :=
  let m := nta_incoming_method irq in
  _ ← (if bool_decide (m = sip_method_subscribe) && (Z.eqb code 202 || Z.eqb code 200) then addDialog p else mret tt);
  _ ← (if bool_decide (m = sip_method_invite) && Z.eqb code 200
       then _ ← addDialog p; start_final_response_timers irq tp p else mret tt);
  mret (bool_decide (m = sip_method_subscribe)).
Definition send_invite_response (ip irq p tp : positive) (code : Z) (headers body : string) : DC (bool * string * bool) :=
  t ← pure (findTransport transports (tport_parent tp));
  _ ← on_stack (tport_unref tp);
  tags ← pure (response_tags headers t);
  let contact := own_contact t irq in
  let custom := searchForHeader tags siptag_contact_str in
  _ ← dlg_setLocalContact p (default contact custom);
  _ ← dlg_setSipStatus p code;
  contentType ← keep_local_sdp p body tags;
  '(sessionExpires, requireTimer) ← accept_session p irq code tags;
  let add_contact (b : bool) := TAG_IF (b && negb (has_tag tags siptag_contact_str)) siptag_contact_str contact in
  let rest := body_tags body contentType ++ session_tags sessionExpires requireTimer ++ tags in
  if sent_reliably irq code tags then
    '(sentOK, failMsg) ← respond_reliably ip irq code (add_contact true ++ rest);
    mret (sentOK, failMsg, false)
  else
    rc ← treply_with irq code (add_contact ((200 <=? code)%Z && (code <? 300)%Z) ++ rest);
    if Z.eqb rc 0 then clearIIP ← response_accepted irq tp p code; mret (true, ""%string, clearIIP)
    else mret (false, UNKNOWN_ERROR, false).

(** A final response that comes after another one is discarded; so is one to
    a fork of a call that was answered. *)
Definition respond_to_invite (ip : positive) (code : Z) (headers body : string) : DC respond_result :=
  i ← iip_load ip;
  let p := iip_dlg i in
  status ← dlg_getSipStatus p;
  if (200 <=? status)%Z then mret (RespondResult (iip_irq i) true "" false false "" false) else
  irq ← deref (iip_irq i);
  tp ← usable_transport irq;
  dialogId ← dlg_getDialogId p;
  match tp with
  | None => mret (RespondResult (Some irq) false TRANSPORT_GONE false false dialogId false)
  | Some tp =>
    existing ← findDialogById dialogId;
    match existing with
    | Some _ =>
      _ ← treply_with irq 480 [];
      mret (RespondResult (Some irq) false "dialog already exists, rejecting this request" false false dialogId false)
    | None =>
      '(sentOK, failMsg, clearIIP) ← send_invite_response ip irq p tp code headers body;
      mret (RespondResult (Some irq) sentOK failMsg false clearIIP dialogId false)
    end
  end.

Definition respond_in_progress (ip : positive) (code : Z) (headers body : string) : DC respond_result :=
  i ← iip_load ip;
  c ← dlg_ctl (iip_dlg i);
  match m_irqUpdate c with
  | Some irq => if containsCseqUpdate headers then respond_to_update (iip_dlg i) irq code headers body
                else respond_to_invite ip code headers body
  | None => respond_to_invite ip code headers body
  end.

(** ** The whole *)

Definition unknown_transaction (headers : string) : respond_result :=
  let failMsg := match FindCSeqMethod headers with
    | Some m => if String.eqb m "CANCEL" then "200 OK to incoming CANCEL is automatically generated by the stack"
                else "Response not sent due to unknown transaction"
    | None => "Response not sent due to unknown transaction"
    end%string in
  RespondResult None false failMsg false false "" false.

Definition response_sent (r : made_response) (transactionId dialogId : string) : string :=
  (SipMsgData_toMessageFormat (mr_meta r) +:+ "|" +:+ transactionId +:+ "|" +:+ dialogId +:+ "|" +:+ "|Msg sent:|" +:+
   DR_CRLF +:+ mr_encoded r)%string.
(** What the application is told, and the call detail record. *)
Definition report_response (clientMsgId transactionId : string) (code : Z) (inProgress : bool) (r : respond_result) : DC unit :=
  if rr_sentOK r then
    w ← get;
    irq ← deref (rr_irq r);
    match nta_incoming_getresponse w irq with
    | Some m =>
      _ ← api clientMsgId "OK" (response_sent m transactionId (rr_dialogId r));
      if inProgress && negb (rr_isUpdate r) then
        if (300 <=? code)%Z then emit (PostedCdr stop_record "application" role_undefined call_rejected)
        else if Z.eqb code 200 then emit (PostedCdr start_record "application" uas no_termination) else mret tt
      else mret tt
    | None => api clientMsgId "NOK" "failed sending, possibly due to far end closing socket"
    end
  else api clientMsgId "NOK" (rr_failMsg r).
Definition forgets_transaction (method : sip_method_t) (code : Z) (existingDialog isUpdate : bool) : bool :=
  let invite := bool_decide (method = sip_method_invite) in
  (negb invite && (200 <=? code)%Z && negb isUpdate) || (invite && (200 <? code)%Z) || (invite && Z.eqb code 200 && existingDialog).

Definition doRespondToSipRequest (pData : SipMessageData) : DC unit :=
  let transactionId := getTransactionId pData in
  let headers := getHeaders pData in
  let body := getBody pData in
  code ← deref (sip_status_make (getStartLine pData));
  '(irq, existingDialog, iip) ← find_transaction transactionId headers;
  r ← match irq, iip with
      | Some irq, _ => respond_to_request irq existingDialog code transactionId headers body
      | None, Some ip => respond_in_progress ip code headers body
      | None, None => mret (unknown_transaction headers)
      end;
  _ ← report_response (getClientMsgId pData) transactionId code (bool_decide (is_Some iip)) r;
  let method := match rr_irq r with Some irq => nta_incoming_method irq | None => nta_no_method end in
  _ ← (if forgets_transaction method code existingDialog (rr_isUpdate r)
       then clients (removeNetTransaction transactionId) else mret tt);
  _ ← match iip with
      | Some ip => if rr_clearIIP r then IIP_Clear ip else mret tt
      | None => mret tt
      end;
  if rr_destroyIrq r then nta_incoming_destroy (rr_irq r) else mret tt.
End respond.
End timed.

(** ** Requests on a leg
    Model of [DrachtioController::processRequestInsideDialog]
    (src/controller.cpp), the callback of the legs. *)

Section timed.
Context `{sutime : SuTime} `{SofiaTport} `{NtaAgent} `{TportTree} `{TportByName} `{NtaMessage} `{!ProxyCoreOps} `{MainConfig} `{Inet} `{StdSort} `{Boost} `{!NtaMessages}.

(** [validateSipMessage]: 0, or the status to refuse the request with. *)
Definition validateSipMessage (m : incoming_msg) : Z :=
  let invite := im_is m sip_method_invite in
  if invite && negb (bool_decide (is_Some (im_contact m ≫= url_host))) then 400 else
  if negb (im_has_call_id m) then 400 else
  if invite && negb (im_has_to m) then 400 else
  if invite && negb (bool_decide (is_Some (im_from_tag m))) then 400 else 0.

(** The connection that a request in a dialog came over. *)
Definition note_connection (irq : positive) (m : incoming_msg) : DC unit :=
  w ← get;
  if m_bContactAlias (dc_conns w) then
    tp ← nta_incoming_transport irq;
    match tp with
    | Some tp => _ ← on_conns (cacheContactAlias tp (im_contact m) (im_method m)); on_stack (tport_unref tp)
    | None => mret tt
    end
  else mret tt.

Definition leg_request (leg irq : positive) (sip : sip_request) : DC Z :=
  let m := sip_object (nta_incoming_getrequest irq) in
  let rc := validateSipMessage m in
  if negb (Z.eqb rc 0) then mret rc else
  _ ← note_connection irq m;
  dlg ← findDialogByLeg leg;
  match dlg with
  | None => _ ← nta_incoming_destroy (Some irq); mret (-1)%Z
  | Some p =>
    status ← dlg_getSipStatus p;
    if im_is m sip_method_invite && negb (bool_decide (is_Some (nr_to_tag (im_new m)))) && (200 <=? status)%Z
    then mret 491%Z
    else processRequestInsideDialog leg irq sip
  end.
End timed.
