(* ===== verification/DialogSendOut.v ===== *)
(** Model of what [SipDialogController] does to send a request outside a
    dialog (src/sip-dialog-controller.cpp, [doSendRequestOutsideDialog]), and
    of the functions that hand a command from the thread of a client to the
    thread of the stack. *)
From S2P Require Import Prelude CppString SipUri TextUtil SipTags ClientController TimerQueue Cdr PendingRequests SipDialog SipTransports Connections DialogWorld InviteInProgress TimerD DialogController DialogSend.

Open Scope list_scope.

Section timed.
Context `{sutime : SuTime}.

(** ** From the client's thread *)

(** [generateUuid] gives [uuid1], then [uuid2]; [su_msg_create] and
    [su_msg_send] succeed. *)
Definition sendRequestOutsideDialog (uuid1 uuid2 clientMsgId startLine headers body transactionId dialogId routeUrl : string) : SipMessageData :=
  SipMessageData_routed clientMsgId (if nonempty transactionId then transactionId else uuid1) ""
    (if bool_decide (is_Some (str_find "INVITE" startLine)) then (if nonempty transactionId then uuid1 else uuid2) else dialogId)
    startLine headers body routeUrl.
Definition sendRequestInsideDialog (uuid1 clientMsgId dialogId startLine headers body transactionId : string) : res SipMessageData :=
  if nonempty dialogId
  then Ok (SipMessageData_new clientMsgId (if nonempty transactionId then transactionId else uuid1) "" dialogId startLine headers body)
  else Fault AssertFail.
Definition sendCancelRequest (clientMsgId transactionId startLine headers body : string) : SipMessageData :=
  SipMessageData_new clientMsgId transactionId "" "" startLine headers body.
Definition respondToSipRequest (clientMsgId transactionId startLine headers body : string) : SipMessageData :=
  SipMessageData_new clientMsgId transactionId "" "" startLine headers body.

(** ** Requests outside a dialog *)

(** What sofia makes of a start line: the method, whether the type of the URL
    is known, and its user and host. *)
Record request_line := RequestLine {
  rl_method : sip_method_t;
  rl_url_known : bool;
  rl_user : option string;
  rl_host : option string;
}.
(** What the constructor of the dialog reads of the request and its leg. *)
Record invite_view := InviteView {
  v_ltag : option string;
  v_seq : Z;
  v_sip : sip_t;
  v_payload : string;
  v_content_type : string;
  v_name : string;
  v_port : Z;
  v_route : option string;
}.
(** [sip_request_make] ([None]: NULL); the text that [TPN_FORMAT] gives of a
    transport; whether [nta_leg_tcreate] succeeds with these From, To and
    Call-ID; the request of a transaction; and the proxy that the
    configuration gives. *)
Class NtaOutside := {
  sip_request_make : string -> option request_line;
  getTransportDescription : positive -> string;
  nta_leg_tcreate_ok : SipDialogController -> string -> string -> option string -> bool;
  invite_view_of : positive -> created -> invite_view;
  configOutboundProxy : option string;
}.
Definition siptag_from_str : tag_type_t := siptag "siptag_from_str".
Definition siptag_to_str : tag_type_t := siptag "siptag_to_str".
Definition siptag_call_id_str : tag_type_t := siptag "siptag_call_id_str".

Section outside.
Context `{SofiaTport} `{NtaAgent} `{!NtaMessages} `{MainSending} `{!NtaOutside} `{Boost} `{SofiaUrl} `{Inet} `{TportTree} `{StdSort}.
Context (transports : SipTransports) (localUris : localUris).

Definition invalid_method (m : sip_method_t) : bool := bool_decide (m = sip_method_invalid) || bool_decide (m = sip_method_unknown).
Definition valid_request (startLine : string) : option request_line :=
  rl ← sip_request_make startLine;
  if rl_url_known rl && negb (invalid_method (rl_method rl)) then Some rl else None.

(** Methods for which the connection of a registered user is looked up. *)
Definition finds_registration (m : sip_method_t) : bool :=
  bool_decide (m = sip_method_invite) || bool_decide (m = sip_method_options) || bool_decide (m = sip_method_notify) ||
  bool_decide (m = sip_method_message).
Definition registered_tport (rl : request_line) : DC (option positive) :=
  if finds_registration (rl_method rl)
  then host ← deref (rl_host rl); findTportForSubscription (rl_user rl) host
  else mret None.

(** The transport, its description, the contact, and the host and port that
    replace "localhost" in From; those stay empty for a registered user,
    because the inner block declares variables of the same names. *)
Record selection := Selection {
  sel_tport : option positive;
  sel_desc : string;
  sel_contact : string;
  sel_host : string;
  sel_port : string;
  sel_external : option string;
}.
Definition select_registered (tp : positive) : selection :=
  let tpn := tport_name (tport_parent tp) in
  Selection (Some tp) (getTransportDescription tp)
    ("<sip:" +:+ tpn_host tpn +:+ ":" +:+ tpn_port tpn +:+ ";transport=" +:+ tpn_proto tpn +:+ ">") "" "" None.
Definition select_transport (t : SipTransport) : selection :=
  Selection (m_tport t) (getDescription t true) ("<" +:+ getContactUri t true +:+ ">") (getHost t) (getPort t)
    (if hasExternalIp t then Some (m_strExternalIp t) else None).
(** [proxy]: the outbound proxy, if one is used. *)
Definition select_for (rl : request_line) (proxy : option string) (requestUri : string) : DC (option selection) :=
  reg ← registered_tport rl;
  match reg with
  | Some tp => mret (Some (select_registered tp))
  | None =>
    t ← pure (findAppropriateTransport transports (default requestUri proxy) (Some "udp"%string));
    mret (select_transport <$> t)
  end.

(** The From header; [None]: the value given cannot be rewritten. *)
Definition from_header (tags : list (tag_type_t * string)) (sel : selection) : res (string + string) :=
  match searchForHeader tags siptag_from_str with
  | None => mret (inr (sel_contact sel))
  | Some from =>
    if bool_decide (is_Some (str_find "localhost" from)) then
      '(ok, from') ← replaceHostInUri from (sel_host sel) (sel_port sel);
      mret (if (ok : bool) then inr from' else inl ("invalid from value provided by client: " +:+ from')%string)
    else mret (inr from)
  end.
(** The URI as it is sent; the message when it cannot be sent there. *)
Definition check_uri (requestUri : string) : res (string + string) :=
  '(ok, uri) ← normalizeSipUri requestUri 0;
  if negb ok then mret (inl ("invalid request-uri: " +:+ uri)%string) else
  local ← isLocalSipUri localUris uri;
  mret (if (local : bool) then inl "can not send request to myself"%string else inr uri).

Definition starts_dialog (m : sip_method_t) : bool := bool_decide (m = sip_method_invite) || bool_decide (m = sip_method_subscribe).
Definition outside_headers (m : sip_method_t) (contact body contentType : string) (tags : list (tag_type_t * string)) :=
  TAG_IF (starts_dialog m && negb (bool_decide (is_Some (searchForHeader tags siptag_contact_str)))) siptag_contact_str contact ++
  TAG_IF (nonempty body) siptag_payload_str body ++ TAG_IF (nonempty contentType) siptag_content_type_str contentType ++ tags.

Definition leg_destroy (leg : positive) : DC unit := on_stack (release st_legs on_legs leg).
(** The dialog of an INVITE or SUBSCRIBE that was sent. *)
Definition uac_dialog_of (transactionId : string) (leg orq : positive) (c : created) (desc : string) : outgoing_invite :=
  let v := invite_view_of orq c in
  OutgoingInvite transactionId leg orq (v_ltag v) (v_seq v) (v_sip v) (v_payload v) (v_content_type v) (v_name v) (v_port v) (v_route v) desc.
Definition new_uac_dialog (pData : SipMessageData) (m : sip_method_t) (leg orq : positive) (c : created) (desc contact : string) : DC unit :=
  d ← on_stack (SipDialog_uac (uac_dialog_of (getTransactionId pData) leg orq c desc));
  w ← get;
  let p := fresh_addr (dc_dialogs w) in
  _ ← modify (on_dc_dialogs (insert p (d, set_localContact contact no_ctl)));
  _ ← addOutgoingInviteTransaction leg orq p;
  if bool_decide (m = sip_method_invite) then emit (PostedCdr attempt_record "application" role_undefined no_termination) else mret tt.

(** The leg and the transaction. *)
Definition send_on_leg (pData : SipMessageData) (m : sip_method_t) (proxy : option string) (uri from to : string)
    (callid : option string) (contentType : string) (tags : list (tag_type_t * string)) (sel : selection) : DC (string + unit) :=
  w ← get;
  if negb (nta_leg_tcreate_ok w from to callid) then mret (inl "Error creating leg"%string) else
  leg ← on_stack (acquire st_legs on_legs);
  orq ← outgoing_create leg m (default ""%string proxy) uri (sel_tport sel)
    (outside_headers m (sel_contact sel) (getBody pData) contentType tags);
  match orq with
  | None => _ ← leg_destroy leg; mret (inl "Error creating sip transaction for uac request"%string)
  | Some orq =>
    c ← sent_of orq;
    _ ← (if starts_dialog m
         then new_uac_dialog pData m leg orq c (sel_desc sel) (default (sel_contact sel) (searchForHeader tags siptag_contact_str))
         else _ ← addRIP orq (MkRIP (getTransactionId pData) (getDialogId_of pData) None false); leg_destroy leg);
    _ ← api (getClientMsgId pData) "OK" (msg_sent c (getTransactionId pData));
    mret (inr tt)
  end.

(** The body of the try block. *)
Definition send_outside (pData : SipMessageData) : DC (string + unit) :=
  let proxy := if nonempty (getRouteUrl pData) then Some (getRouteUrl pData) else configOutboundProxy in
  match valid_request (getStartLine pData) with
  | None => mret (inl ("invalid request-uri: " +:+ getStartLine pData)%string)
  | Some rl =>
    let '(m, name, requestUri) := parseStartLine (getStartLine pData) in
    sel ← select_for rl proxy requestUri;
    match sel with
    | None => mret (inl "requested protocol/transport not available"%string)
    | Some sel =>
      tags ← pure (tags_of (getHeaders pData) (sel_desc sel) (sel_external sel));
      from ← pure (from_header tags sel);
      match from with
      | inl msg => mret (inl msg)
      | inr from =>
        let to := default requestUri (searchForHeader tags siptag_to_str) in
        match content_type_of (getBody pData) tags with
        | None => mret (inl "missing content-type"%string)
        | Some contentType =>
          uri ← pure (check_uri requestUri);
          match uri with
          | inl msg => mret (inl msg)
          | inr uri => send_on_leg pData m proxy uri from to (searchForHeader tags siptag_call_id_str) contentType tags sel
          end
        end
      end
    end
  end.
Definition doSendRequestOutsideDialog (pData : SipMessageData) : DC unit :=
  r ← send_outside pData;
  match r with
  | inl msg => _ ← api (getClientMsgId pData) "NOK" msg; clients (removeAppTransaction (getTransactionId pData))
  | inr _ => mret tt
  end.
End outside.
End timed.
