(* ===== verification/DispatchCorrect.v ===== *)
(** What the main controller owes: the references on the messages that come
    in, a request that is kept pending or refused, a quick CANCEL. *)
From S2P Require Import Prelude CppString TextUtil SipTags ClientController ClientControllerCorrect TimerQueue TimerQueueSpec TimerQueueCorrect RequestRouter Cdr PendingRequests PendingCorrect SipDialog SipTransports Connections DialogWorld Messages ProxyDispatch Dispatch.

Open Scope list_scope.

(** ** The account of references *)

Section ledger.
Context `{sutime : SuTime}.

Definition owed_of (w : SipDialogController) (msg : positive) : Z := owed (dc_main w) msg.
(** The stack takes what it is given to send. *)
Definition replies_ok (w : SipDialogController) : Prop := Forall (fun rc => 0 <= rc)%Z (in_replies (dc_inputs w)).
(** [m] changes neither the account nor the table of proxies. *)
Definition quiet {A} (m : DC A) : Prop := forall w a w', m w = Ok (a, w') ->
  mt_owed (dc_main w') = mt_owed (dc_main w) /\ mt_proxies (dc_main w') = mt_proxies (dc_main w) /\ (replies_ok w -> replies_ok w').

Lemma quiet_bind {A B} (m : DC A) (k : A -> DC B) : quiet m -> (forall a, quiet (k a)) -> quiet (m ≫= k).
Proof.
  intros Hm Hk w b w'' (a & w' & E1 & E2)%M_bind_inv.
  destruct (Hk _ _ _ _ E2) as (-> & -> & H2), (Hm _ _ _ E1) as (-> & -> & H1). auto.
Qed.
Lemma quiet_same {A} (m : DC A) :
  (forall w a w', m w = Ok (a, w') -> dc_main w' = dc_main w /\ dc_inputs w' = dc_inputs w) -> quiet m.
Proof. intros Hm w a w' E. unfold replies_ok. by destruct (Hm _ _ _ E) as [-> ->]. Qed.
Lemma quiet_ret {A} (a : A) : quiet (mret a).
Proof. by apply quiet_same; intros w ? ? [= <- <-]. Qed.
Lemma quiet_fail {A} f : quiet (fail f : DC A).
Proof. by intros w a w' ?. Qed.
Lemma quiet_get : quiet (get : DC _).
Proof. by apply quiet_same; intros w ? ? [= <- <-]. Qed.
Lemma quiet_deref {A} (o : option A) : quiet (deref o : DC A).
Proof. destruct o; [|done]. apply quiet_ret. Qed.
Lemma quiet_pure {A} (r : res A) : quiet (pure r).
Proof. apply quiet_same. intros w a w'. unfold pure. destruct r; [|done]. by intros [= <- <-]. Qed.
Lemma quiet_modify f : (forall w, dc_main (f w) = dc_main w /\ dc_inputs (f w) = dc_inputs w) -> quiet (modify f).
Proof. intros Hf. apply quiet_same. intros w a w' [= <- <-]. apply Hf. Qed.
Lemma quiet_stack {A} (m : ST A) : quiet (on_stack m).
Proof. apply quiet_same. intros w a w'. unfold on_stack, zoom. destruct (m _) as [[? ?]|]; [|done]. by intros [= <- <-]. Qed.
Lemma quiet_clients {A} (m : CC A) : quiet (clients m).
Proof. apply quiet_same. intros w a w'. unfold clients, zoom. destruct (m _) as [[? ?]|]; [|done]. by intros [= <- <-]. Qed.
Lemma quiet_conns {A} (m : CT A) : quiet (on_conns m).
Proof. apply quiet_same. intros w a w'. unfold on_conns. destruct (m _) as [[? []]|]; [|done]. by intros [= <- <-]. Qed.
Lemma quiet_server {A} (m : M server A) : quiet (on_server m).
Proof. intros w a w'. unfold on_server, zoom. destruct (m _) as [[? ?]|]; [|done]. by intros [= <- <-]. Qed.
Lemma quiet_emit e : quiet (emit e).
Proof. by apply quiet_modify. Qed.
Lemma quiet_reply : quiet next_reply.
Proof.
  intros w a w' [= <- <-]. split; [done|]. split; [done|]. unfold replies_ok. cbn.
  destruct (in_replies (dc_inputs w)); [done|]. by intros [? ?]%Forall_cons.
Qed.
Lemma quiet_uuid : quiet next_uuid.
Proof. by intros w a w' [= <- <-]. Qed.
Lemma quiet_held u : quiet (on_main (on_mt_held u)).
Proof. by intros w a w' [= <- <-]. Qed.

(** *** One message *)

Context `{NtaMessage} `{!ProxyCoreOps} (msg : positive).
Let m := sip_object msg.

(** The message is not one that a proxy core would be given: it belongs to
    no proxied request, or it is the ACK or a retransmission of one. *)
Definition proxied_ok (w : SipDialogController) : Prop := forall core, mt_proxies (dc_main w) !! proxy_id m = Some core ->
  im_method m ≠ None /\ (im_is m sip_method_ack = true \/ core_isRetransmission core m = true).
Definition calm w : Prop := replies_ok w /\ proxied_ok w.
(** [c] changes the account of the message by [n] with [Q a n], and no other. *)
Definition acct {A} (c : DC A) (Q : A -> Z -> Prop) : Prop := forall w a w', calm w -> c w = Ok (a, w') ->
  calm w' /\ exists n, Q a n /\ forall k, owed_of w' k = (owed_of w k + if decide (k = msg) then n else 0)%Z.
(** The same of the last action. *)
Definition settles {A} (c : DC A) (Q : A -> Z -> Prop) : Prop := forall w a w', calm w -> c w = Ok (a, w') ->
  exists n, Q a n /\ forall k, owed_of w' k = (owed_of w k + if decide (k = msg) then n else 0)%Z.

Lemma acct_weaken {A} (c : DC A) (P Q : A -> Z -> Prop) : acct c P -> (forall a n, P a n -> Q a n) -> acct c Q.
Proof. intros Hc HPQ w a w' Hw E. destruct (Hc _ _ _ Hw E) as (? & n & ? & ?). eauto. Qed.
Lemma acct_settles {A} (c : DC A) (P Q : A -> Z -> Prop) : acct c P -> (forall a n, P a n -> Q a n) -> settles c Q.
Proof. intros Hc HPQ w a w' Hw E. destruct (Hc _ _ _ Hw E) as (? & n & ? & ?). eauto. Qed.
Lemma settles_weaken {A} (c : DC A) (P Q : A -> Z -> Prop) : settles c P -> (forall a n, P a n -> Q a n) -> settles c Q.
Proof. intros Hc HPQ w a w' Hw E. destruct (Hc _ _ _ Hw E) as (n & ? & ?). eauto. Qed.
Lemma quiet_acct {A} (c : DC A) : quiet c -> acct c (fun _ n => n = 0%Z).
Proof.
  intros Hc w a w' [Hr Hp] E. destruct (Hc _ _ _ E) as (Eo & Epr & Hk). split.
  - split; [auto|]. intros core. rewrite Epr. apply Hp.
  - exists 0%Z. split; [done|]. intros k. unfold owed_of, owed. rewrite Eo. case_decide; lia.
Qed.
Lemma acct_bind {A B} (c : DC A) (k : A -> DC B) R Q :
  acct c R -> (forall a n, R a n -> acct (k a) (fun b n' => Q b (n + n')%Z)) -> acct (c ≫= k) Q.
Proof.
  intros Hc Hk w b w'' Hw (a & w' & E1 & E2)%M_bind_inv.
  destruct (Hc _ _ _ Hw E1) as (Hw' & n & Hn & D1), (Hk _ _ Hn _ _ _ Hw' E2) as (? & n' & Hn' & D2).
  split; [done|]. exists (n + n')%Z. split; [done|]. intros i. rewrite D2, D1. case_decide; lia.
Qed.
Lemma settles_bind {A B} (c : DC A) (k : A -> DC B) R Q :
  acct c R -> (forall a n, R a n -> settles (k a) (fun b n' => Q b (n + n')%Z)) -> settles (c ≫= k) Q.
Proof.
  intros Hc Hk w b w'' Hw (a & w' & E1 & E2)%M_bind_inv.
  destruct (Hc _ _ _ Hw E1) as (Hw' & n & Hn & D1), (Hk _ _ Hn _ _ _ Hw' E2) as (n' & Hn' & D2).
  exists (n + n')%Z. split; [done|]. intros i. rewrite D2, D1. case_decide; lia.
Qed.
(** After a quiet action. *)
Lemma acct_skip {A B} (c : DC A) (k : A -> DC B) Q : quiet c -> (forall a, acct (k a) Q) -> acct (c ≫= k) Q.
Proof.
  intros Hc Hk. apply acct_bind with (R := fun _ n => n = 0%Z); [by apply quiet_acct|].
  intros a ? ->. eapply acct_weaken; [apply Hk|]. intros b n. by rewrite Z.add_0_l.
Qed.
Lemma settles_skip {A B} (c : DC A) (k : A -> DC B) Q : quiet c -> (forall a, settles (k a) Q) -> settles (c ≫= k) Q.
Proof.
  intros Hc Hk. apply settles_bind with (R := fun _ n => n = 0%Z); [by apply quiet_acct|].
  intros a ? ->. eapply settles_weaken; [apply Hk|]. intros b n. by rewrite Z.add_0_l.
Qed.
Lemma acct_ret {A} (a : A) (Q : A -> Z -> Prop) : Q a 0%Z -> acct (mret a) Q.
Proof. intros HQ w b w' Hw [= <- <-]. split; [done|]. exists 0%Z. split; [done|]. intros k. case_decide; lia. Qed.
Lemma acct_fail {A} f (Q : A -> Z -> Prop) : acct (fail f) Q.
Proof. by intros w a w' _ ?. Qed.
Lemma acct_owe n : acct (owe msg n) (fun _ n' => n' = n).
Proof.
  intros w a w' Hw [= <- <-]. split; [done|]. exists n. split; [done|]. intros k. unfold owed_of, owed. cbn. case_decide as Hk.
  - by rewrite Hk, lookup_insert_eq.
  - rewrite lookup_insert_ne by done. lia.
Qed.

(** *** What the stack is given *)

Lemma acct_next_reply : acct next_reply (fun rc n => (0 <= rc)%Z /\ n = 0%Z).
Proof.
  intros w rc w' [Hr Hp] E. split; [by apply (quiet_acct _ quiet_reply _ _ _ (conj Hr Hp) E)|].
  exists 0%Z. injection E as <- <-. split; [split; [|done]|].
  - unfold replies_ok in Hr. destruct (in_replies (dc_inputs w)); [done|]. by apply Forall_cons in Hr as [? _].
  - intros k. case_decide; cbn; unfold owed_of; cbn; lia.
Qed.
Lemma acct_sends (k : Z -> DC unit) :
  (forall rc, quiet (k rc)) ->
  acct (_ ← owe msg (-1); rc ← next_reply; _ ← k rc; mret rc) (fun rc n => (0 <= rc)%Z /\ n = (-1)%Z).
Proof.
  intros Hk. eapply acct_bind; [apply acct_owe|]. intros _ ? ->.
  eapply acct_bind; [apply acct_next_reply|]. intros rc ? [Hrc ->].
  apply acct_skip; [apply Hk|]. intros _. by apply acct_ret.
Qed.
Lemma acct_treply status : acct (nta_msg_treply msg status) (fun rc n => (0 <= rc)%Z /\ n = (-1)%Z).
Proof. apply acct_sends. intros rc. destruct (rc =? -1)%Z; [apply quiet_ret|apply quiet_emit]. Qed.
Lemma acct_tsend tp : acct (nta_msg_tsend msg tp) (fun rc n => (0 <= rc)%Z /\ n = (-1)%Z).
Proof. apply acct_sends. intros rc. destruct (rc <? 0)%Z; [apply quiet_ret|apply quiet_emit]. Qed.
Lemma acct_discard : acct (nta_msg_discard msg) (fun _ n => n = (-1)%Z).
Proof.
  eapply acct_bind; [apply acct_owe|]. intros _ ? ->. eapply acct_weaken; [apply quiet_acct, quiet_emit|]. by intros _ ? ->.
Qed.
Lemma acct_incoming_create : acct (nta_incoming_create msg) (fun _ n => n = (-1)%Z).
Proof.
  eapply acct_bind; [apply acct_owe|]. intros _ ? ->. destruct (nta_incoming_create_ok msg); [|by apply acct_ret].
  apply acct_skip; [apply quiet_get|]. intros w. apply acct_skip; [by apply quiet_modify|]. intros _. by apply acct_ret.
Qed.
End ledger.

(** Goals [quiet c] by the structure of [c]. *)
Ltac quiet_tac :=
  repeat first
    [ progress intros
    | apply quiet_ret | apply quiet_fail | apply quiet_get | apply quiet_deref | apply quiet_pure
    | apply quiet_stack | apply quiet_clients | apply quiet_conns | apply quiet_server | apply quiet_emit
    | apply quiet_reply | apply quiet_uuid | apply quiet_held | (by apply quiet_modify) | apply quiet_bind | case_match ].

(** ** A message that belongs to no leg *)

Section stateless.
Context `{sutime : SuTime} `{SofiaTport} `{TportTree} `{NtaMessage} `{!ProxyCoreOps} `{MainConfig} `{Inet} `{StdSort} `{Boost}.
Context (msg : positive).
Let m := sip_object msg.

Lemma quiet_msg_transport : quiet (msg_transport msg).
Proof. unfold msg_transport. quiet_tac. Qed.
Lemma quiet_registered : quiet (register_refused m).
Proof. unfold register_refused. quiet_tac. Qed.
Lemma quiet_routed_here : quiet (routed_here m).
Proof. unfold routed_here. quiet_tac. Qed.
Lemma quiet_treply_irq irq status : quiet (treply_irq irq status).
Proof.
  unfold treply_irq, nta_incoming_treply. quiet_tac.
Qed.
Lemma quiet_incoming_destroy irq : quiet (nta_incoming_destroy irq).
Proof. unfold nta_incoming_destroy. quiet_tac. Qed.

Lemma processNewRequest_status uuid r now s z txn s' :
  processNewRequest uuid r now s = Ok ((z, txn), s') -> (0 <= z)%Z /\ (txn = None -> z = 481%Z).
Proof.
  unfold processNewRequest. case_match; [by intros [= <- <- _]|].
  intros (s1 & ? & [= <- <-] & E)%M_bind_inv. apply M_bind_inv in E as (client & s2 & _ & E).
  case_match; [by injection E as <- <- _|]. repeat (apply M_bind_inv in E as (? & ? & _ & E)). case_match.
  repeat (apply M_bind_inv in E as (? & ? & _ & E)). by injection E as <- <- _.
Qed.
Lemma acct_new_request tp :
  acct msg (main_processNewRequest msg tp) (fun status n => (0 <= status)%Z /\ n = if Z.eqb status 0 then (-1)%Z else 0%Z).
Proof.
  apply acct_skip; [apply quiet_uuid|]. intros uuid. apply acct_skip; [apply quiet_get|]. intros w.
  eapply acct_bind with (R := fun r n => n = 0%Z /\ (0 <= r.1)%Z /\ (r.2 = None -> r.1 = 481%Z)).
  - intros w1 [z txn] w2 Hw E. destruct (quiet_acct msg _ (quiet_server _) _ _ _ Hw E) as (? & ? & -> & ?). split; [done|].
    exists 0%Z. split; [|done]. split; [done|]. unfold on_server, zoom in E.
    destruct (processNewRequest _ _ _ _) as [[[z' txn'] s']|] eqn:E'; [|done]. injection E as -> -> _. by eapply processNewRequest_status.
  - intros [status txn] ? (-> & Hs & Hn). cbn in Hs, Hn. destruct txn as [txn|]; [|rewrite Hn by done; by apply acct_ret].
    destruct (Z.eqb_spec status 0) as [Es|Hs']; [|apply acct_ret; by apply Z.eqb_neq in Hs' as ->]. rewrite Es.
    apply acct_skip; [apply quiet_stack|]. intros _. apply acct_skip; [apply quiet_held|]. intros _.
    eapply acct_bind; [apply acct_owe|]. intros _ ? ->. by apply acct_ret.
Qed.
Lemma acct_provisional : acct msg (send_provisional msg) (fun ok n => ok = true /\ n = 0%Z).
Proof.
  unfold send_provisional. fold m. destruct (im_is m sip_method_invite); cbn [negb]; [|by apply acct_ret].
  assert (forall rc, (0 <= rc)%Z -> (rc =? -1)%Z = false) as Hno by (intros rc ?; apply Z.eqb_neq; lia).
  eapply acct_bind; [apply acct_owe|]. intros _ ? ->. eapply acct_bind; [apply acct_treply|]. intros rc ? [Hrc%Hno ->].
  rewrite Hrc. destruct m_bAlwaysSend180; [|by apply acct_ret].
  eapply acct_bind; [apply acct_owe|]. intros _ ? ->. eapply acct_bind; [apply acct_treply|]. intros rc' ? [Hrc'%Hno ->].
  rewrite Hrc'. by apply acct_ret.
Qed.

(** A new request without a transaction of its own. *)
Lemma acct_reply_and {A} status (a : A) : acct msg (_ ← nta_msg_treply msg status; mret a) (fun _ n => n = (-1)%Z).
Proof. eapply acct_bind; [apply acct_treply|]. intros rc ? [_ ->]. by apply acct_ret. Qed.
Lemma acct_discard_and {A} (a : A) : acct msg (_ ← nta_msg_discard msg; mret a) (fun _ n => n = (-1)%Z).
Proof. eapply acct_bind; [apply acct_discard|]. intros _ ? ->. by apply acct_ret. Qed.
Lemma acct_process_new tp : acct msg (process_new msg tp None) (fun _ n => n = (-1)%Z).
Proof.
  unfold process_new. apply acct_skip; [apply quiet_server|]. intros pending.
  apply acct_skip; [unfold proxy_isRetransmission, isProxyingRequest; quiet_tac|]. intros proxied.
  destruct (pending || proxied); [apply acct_discard_and|].
  eapply acct_bind; [apply acct_provisional|]. intros ok ? [-> ->]. cbn [negb].
  destruct (auto_answer _); [apply acct_reply_and|].
  eapply acct_bind; [apply acct_new_request|]. intros status ? [Hs ->]. apply acct_skip; [quiet_tac|]. intros _.
  destruct (Z.ltb_spec 0 status) as [Hlt|Hge].
  - replace (status =? 0)%Z with false by (symmetry; apply Z.eqb_neq; lia).
    eapply acct_bind with (R := fun _ n => n = (-1)%Z); [|intros _ ? ->; by apply acct_ret]. unfold reject_new. cbn beta iota.
    eapply acct_bind; [apply acct_reply_and|]. intros _ ? ->. destruct (im_is _ _); [|by apply acct_ret].
    eapply acct_weaken; [apply quiet_acct, quiet_emit|]. by intros _ ? ->.
  - replace (status =? 0)%Z with true by (symmetry; apply Z.eqb_eq; lia).
    apply acct_skip; [apply quiet_ret|]. intros _. by apply acct_ret.
Qed.
Lemma quiet_quick_lookup callId : quiet (main_findInviteByCallId callId).
Proof. apply quiet_server. Qed.
Lemma acct_quick_cancel : acct msg (_ ← quick_cancel msg; mret 0%Z) (fun _ n => n = (-1)%Z).
Proof.
  eapply acct_bind with (R := fun _ n => n = (-1)%Z); [|intros _ ? ->; by apply acct_ret].
  unfold quick_cancel. apply acct_skip; [apply quiet_server|]. intros [p|]; [|apply acct_reply_and].
  apply acct_skip; [apply quiet_server|]. intros o. apply acct_skip; [apply quiet_clients|]. intros client.
  apply acct_skip; [quiet_tac|]. intros _. eapply acct_bind; [apply acct_treply|]. intros rc ? [_ ->].
  apply acct_skip; [apply quiet_server|]. intros _. apply acct_skip; [unfold held_msg; quiet_tac|]. intros invite.
  apply acct_skip; [unfold nta_msg_treply_dup; quiet_tac|]. intros _. by apply acct_ret.
Qed.

(** *** Proxied messages *)

Lemma quiet_getProxy : quiet (getProxy m).
Proof. unfold getProxy. quiet_tac. Qed.
Lemma acct_getProxy : acct msg (getProxy m) (fun p n => n = 0%Z /\ forall core, p = Some core ->
  im_method m ≠ None /\ (im_is m sip_method_ack = true \/ core_isRetransmission core m = true)).
Proof.
  intros w p w' Hw E. destruct (quiet_acct msg _ quiet_getProxy _ _ _ Hw E) as (? & n & -> & ?). split; [done|]. exists 0%Z.
  split; [|done]. split; [done|]. intros core ->. destruct Hw as [_ Hp]. apply Hp. by injection E.
Qed.
Lemma acct_proxied : acct msg (_ ← processRequestWithoutRouteHeader msg; mret 0%Z) (fun _ n => n = (-1)%Z).
Proof.
  eapply acct_bind with (R := fun _ n => n = (-1)%Z); [|intros _ ? ->; by apply acct_ret].
  unfold processRequestWithoutRouteHeader. fold m.
  eapply acct_bind; [apply acct_getProxy|]. intros [core|] ? [-> Hcore]; [|apply acct_discard_and].
  destruct (im_is m sip_method_ack) eqn:Ea; [apply acct_discard_and|].
  destruct (core_isRetransmission core m) eqn:Er; [apply acct_discard_and|].
  destruct (Hcore core eq_refl) as [_ [?|?]]; congruence.
Qed.
Lemma acct_forward tp : acct msg (forward_in_dialog msg tp) (fun b n => b = true /\ n = (-1)%Z).
Proof.
  unfold forward_in_dialog. eapply acct_bind; [apply acct_owe|]. intros _ ? ->. eapply acct_bind; [apply acct_tsend|]. intros rc ? [Hrc ->].
  replace (rc <? 0)%Z with false by (symmetry; apply Z.ltb_ge; lia). apply acct_skip; [quiet_tac|]. intros _.
  eapply acct_bind; [apply acct_owe|]. intros _ ? ->. by apply acct_ret.
Qed.
Lemma acct_with_route : im_is m sip_method_prack = false ->
  acct msg (proxied ← processRequestWithRouteHeader msg; _ ← (if (proxied : bool) then mret tt else nta_msg_discard msg); mret 0%Z)
    (fun _ n => n = (-1)%Z).
Proof.
  intros Hp. eapply acct_bind with (R := fun b n => n = if b : bool then (-1)%Z else 0%Z).
  - unfold processRequestWithRouteHeader. fold m. rewrite Hp. apply acct_skip; [quiet_tac|]. intros _.
    apply acct_skip; [unfold invalid_domain_tport, findTportForSubscription; quiet_tac|]. intros [tp|].
    { eapply acct_weaken; [apply acct_forward|]. by intros b n [-> ->]. }
    apply acct_skip; [unfold transport_to; quiet_tac|]. intros [tp|]; [|by apply acct_ret].
    eapply acct_weaken; [apply acct_forward|]. by intros b n [-> ->].
  - intros [] ? ->; [apply acct_skip; [apply quiet_ret|]; intros _; by apply acct_ret|].
    eapply acct_weaken; [apply acct_discard_and|]. by intros _ ? ->.
Qed.
Lemma tsend_account tp w rc w' : nta_msg_tsend msg tp w = Ok (rc, w') ->
  forall k, owed_of w' k = (owed_of w k + if decide (k = msg) then -1 else 0)%Z.
Proof.
  intros E k. unfold nta_msg_tsend in E. apply M_bind_inv in E as (? & w1 & [= <- <-] & E). apply M_bind_inv in E as (? & w2 & [= <- <-] & E).
  apply M_bind_inv in E as (? & w3 & E & [= <- <-]). assert (owed_of w3 k = owed_of (on_dc_main (on_mt_owed (fun o => <[msg := (default 0 (o !! msg) + -1)%Z]> o)) w) k) as ->.
  { case_match; by injection E as <- <-. }
  unfold owed_of, owed. cbn. case_decide as Hk; [by rewrite Hk, lookup_insert_eq|]. rewrite lookup_insert_ne by done. lia.
Qed.
Lemma settles_response : im_method m = None -> settles msg (process_response msg) (fun _ n => n = (-1)%Z).
Proof.
  intros Hm. unfold process_response, proxy_processResponse. fold m. case_bool_decide.
  { intros w z w' Hw (b & w1 & (rc & w2 & E & [= <- <-])%M_bind_inv & [= <- <-])%M_bind_inv. exists (-1)%Z. split; [done|]. by eapply tsend_account. }
  intros w z w' Hw (b & w1 & E & Ez)%M_bind_inv. apply M_bind_inv in E as (p & w2 & Ep & E).
  injection Ep as Ep <-. destruct p as [core|]; [by destruct (proj2 Hw core Ep)|].
  injection E as <- <-. destruct (im_next_via m).
  - apply M_bind_inv in Ez as (rc & w5 & Es & [= <- <-]). exists (-1)%Z. split; [done|]. by eapply tsend_account.
  - by destruct (acct_discard_and 0%Z _ _ _ Hw Ez) as (_ & n & -> & ?); exists (-1)%Z.
Qed.

(** *** The whole *)

Lemma acct_final {A} (c : DC A) Q : acct msg c Q -> settles msg c Q.
Proof. intros Hc. by apply (acct_settles msg c Q). Qed.
Lemma settles_request tp : im_is m sip_method_prack = false -> settles msg (process_request msg tp None) (fun _ n => n = (-1)%Z).
Proof.
  intros Hp. unfold process_request. fold m. apply settles_skip; [unfold isProxyingRequest; quiet_tac|]. intros [].
  { apply acct_final, acct_proxied. }
  apply settles_skip; [apply quiet_registered|]. intros [status|]; [eapply acct_settles; [apply acct_reply_and|]; by intros _ ? ->|].
  rewrite Hp. repeat case_match; apply acct_final;
    first [apply acct_process_new | apply acct_quick_cancel | apply acct_reply_and | apply acct_discard_and].
Qed.
Lemma settles_sane tp : im_is m sip_method_prack = false -> (is_spammer m = true -> im_is m sip_method_ack = false) ->
  settles msg (process_sane_request msg tp None) (fun _ n => n = (-1)%Z).
Proof.
  intros Hp Hs. unfold process_sane_request. fold m.
  eapply settles_bind with (R := fun b n => n = if b : bool then (-1)%Z else 0%Z).
  - destruct (is_spammer m) eqn:E; [|by apply acct_ret]. unfold decline_spammer. fold m. rewrite Hs by done.
    eapply acct_bind; [apply acct_incoming_create|]. intros irq ? ->.
    apply acct_skip; [apply quiet_treply_irq|]. intros _. apply acct_skip; [apply quiet_incoming_destroy|]. intros _. by apply acct_ret.
  - intros [] ? ->; [by apply acct_final, acct_ret|]. apply settles_skip; [apply quiet_conns|]. intros _.
    apply settles_skip; [apply quiet_routed_here|]. intros [].
    + eapply acct_settles; [by apply acct_with_route|]. by intros _ ? ->.
    + eapply settles_weaken; [by apply settles_request|]. by intros _ ? ->.
Qed.

(** C16: A message that belongs to no leg and is given to no proxy core is
    given back exactly once: when the handler returns, the one reference that
    came with the message has gone to the stack with a reply, to a transaction
    or to the pending request, and the references on all other messages are
    untouched.  Excluded are a message from a blacklisted address, one without
    a known transport, a PRACK, the ACK of a spammer (some of which are never
    given back), what a proxy core is given (a response, CANCEL, INFO or other
    new request with the key of a proxied request; its ACK and retransmissions
    are covered), and sends that the stack refuses. *)
Theorem message_given_back w rc w' :
  replies_ok w -> proxied_ok msg w -> im_source m ∉ default ∅ (mt_blacklist (dc_main w)) -> is_Some (im_tport m) ->
  im_is m sip_method_prack = false -> (is_spammer m = true -> im_is m sip_method_ack = false) ->
  processMessageStatelessly msg None w = Ok (rc, w') ->
  owed_of w' msg = (owed_of w msg - 1)%Z /\ forall k, k ≠ msg -> owed_of w' k = owed_of w k.
Proof.
  intros Hr Hx Hb [tp Htp] Hp Hs E.
  unfold processMessageStatelessly in E. fold m in E. apply M_bind_inv in E as (b & w1 & Eb & E).
  assert (b = false /\ w1 = w) as [-> ->].
  { injection Eb as <- <-. split; [|done]. destruct (mt_blacklist _); [|done]. by apply bool_decide_eq_false. }
  assert (settles msg (tp ← msg_transport msg;
    match tp with
    | None => mret (-1)%Z
    | Some tp => _ ← on_stack (tport_unref tp);
      match im_method m with
      | None => process_response msg
      | Some _ => if negb (im_sane m) || im_error m then _ ← nta_msg_treply msg 400; mret (-1)%Z
                  else process_sane_request msg tp None
      end
    end) (fun _ n => n = (-1)%Z)) as Hset.
  { eapply settles_bind with (R := fun o n => n = 0%Z /\ o = Some tp).
    - unfold msg_transport. fold m. rewrite Htp. apply acct_skip; [apply quiet_stack|]. intros _. by apply acct_ret.
    - intros o ? [-> ->]. apply settles_skip; [apply quiet_stack|]. intros _. destruct (im_method m) eqn:Em; [|by apply settles_response].
      destruct (negb (im_sane m) || im_error m); [apply acct_final, acct_reply_and|]. by apply settles_sane. }
  destruct (Hset _ _ _ (conj Hr Hx) E) as (n & -> & D). split; [rewrite D, decide_True by done; lia|].
  intros k Hk. rewrite D, decide_False by done. lia.
Qed.
End stateless.

(** ** New requests *)

Section new_requests.
Context `{sutime : SuTime} `{!SuTimeLaws} `{SofiaTport} `{TportTree} `{NtaMessage} `{!ProxyCoreOps} `{MainConfig} `{Inet} `{StdSort} `{Boost}.
Context (msg : positive).
Let m := sip_object msg.

(** From [w] to [w'] only [es] was sent, and the account of the message
    changed by [d]. *)
Record sent (w w' : SipDialogController) (es : list dc_event) (d : Z) : Prop := Sent {
  sn_events : dc_events w' = dc_events w ++ es;
  sn_replies : in_replies (dc_inputs w') = [];
  sn_uuids : in_uuids (dc_inputs w') = in_uuids (dc_inputs w);
  sn_server : server_of w' = server_of w;
  sn_held : mt_held (dc_main w') = mt_held (dc_main w);
  sn_proxies : mt_proxies (dc_main w') = mt_proxies (dc_main w);
  sn_clock : mt_clock (dc_main w') = mt_clock (dc_main w);
  sn_stack : dc_stack w' = dc_stack w;
  sn_irqs : dc_irqs w' = dc_irqs w;
  sn_owed : forall k, owed_of w' k = (owed_of w k + if decide (k = msg) then d else 0)%Z;
}.
Lemma sent_trans w1 w2 w3 es1 es2 d1 d2 : sent w1 w2 es1 d1 -> sent w2 w3 es2 d2 -> sent w1 w3 (es1 ++ es2) (d1 + d2).
Proof.
  intros [A1 A2 A3 A4 A5 A6 A7 A8 A9 A10] [B1 B2 B3 B4 B5 B6 B7 B8 B9 B10].
  constructor; try congruence; [by rewrite B1, A1, <-app_assoc|]. intros k. rewrite B10, A10. case_decide; lia.
Qed.
Lemma sent_nothing w : in_replies (dc_inputs w) = [] -> sent w w [] 0.
Proof. intros E. constructor; try done; [by rewrite app_nil_r|]. intros k. case_decide; lia. Qed.
Lemma owe_run n w : in_replies (dc_inputs w) = [] -> exists w', owe msg n w = Ok (tt, w') /\ sent w w' [] n.
Proof.
  intros E. eexists. split; [reflexivity|]. constructor; try done; [by rewrite app_nil_r|]. intros k. unfold owed_of, owed. cbn.
  case_decide as Hk; [by rewrite Hk, lookup_insert_eq|]. rewrite lookup_insert_ne by done. lia.
Qed.
Lemma emit_run e w : in_replies (dc_inputs w) = [] -> exists w', emit e w = Ok (tt, w') /\ sent w w' [e] 0.
Proof. intros E. eexists. split; [reflexivity|]. constructor; try done. intros k. case_decide; unfold owed_of; cbn; lia. Qed.
Lemma next_reply_run w : in_replies (dc_inputs w) = [] -> exists w', next_reply w = Ok (0%Z, w') /\ sent w w' [] 0.
Proof.
  intros E. eexists. split; [unfold next_reply, mbind, M_bind, get, modify; cbn; by rewrite E|]. constructor; try done; [by rewrite app_nil_r|by cbn; rewrite E|].
  intros k. case_decide; unfold owed_of; cbn; lia.
Qed.
(** Chain [c], which runs from [w] by the lemma [H], with what follows. *)
Ltac run_sent H w' E S :=
  destruct H as (w' & E & S); [first [done | by eapply sn_replies]|]; rewrite ?(M_bind_ok _ _ _ _ _ E); cbn beta;
  try change (0 =? -1)%Z with false; try change (0 =? 0)%Z with true; cbn iota.
Lemma msg_treply_run status w : in_replies (dc_inputs w) = [] ->
  exists w', nta_msg_treply msg status w = Ok (0%Z, w') /\ sent w w' [RepliedTo msg status] (-1).
Proof.
  intros Hr. unfold nta_msg_treply. run_sent (owe_run (-1) w) w1 E1 S1. run_sent (next_reply_run w1) w2 E2 S2.
  run_sent (emit_run (RepliedTo msg status) w2) w3 E3 S3.
  eexists. split; [reflexivity|]. exact (sent_trans _ _ _ _ _ _ _ S1 (sent_trans _ _ _ _ _ _ _ S2 S3)).
Qed.
Definition provisional_events : list dc_event :=
  if im_is m sip_method_invite then RepliedTo msg 100 :: (if m_bAlwaysSend180 then [RepliedTo msg 180] else []) else [].
Lemma provisional_run w : in_replies (dc_inputs w) = [] ->
  exists w', send_provisional msg w = Ok (true, w') /\ sent w w' provisional_events 0.
Proof.
  intros Hr. unfold send_provisional, provisional_events. fold m. destruct (im_is m sip_method_invite); cbn [negb].
  2: { exists w. split; [done|]. by apply sent_nothing. }
  run_sent (owe_run 1 w) w1 E1 S1. run_sent (msg_treply_run 100 w1) w2 E2 S2.
  pose proof (sent_trans _ _ _ _ _ _ _ S1 S2) as S12. destruct m_bAlwaysSend180; [|by exists w2].
  run_sent (owe_run 1 w2) w3 E3 S3. run_sent (msg_treply_run 180 w3) w4 E4 S4. exists w4. split; [done|].
  exact (sent_trans _ _ _ _ _ _ _ S12 (sent_trans _ _ _ _ _ _ _ S3 S4)).
Qed.
Definition rejection_events (irq : option positive) (status : Z) : list dc_event :=
  (match irq with Some q => [SentReply q status] | None => [RepliedTo msg status] end) ++
  (if im_is m sip_method_invite then [PostedCdr stop_record "application" role_undefined call_rejected] else []).
Lemma irq_reply_run q status w : in_replies (dc_inputs w) = [] -> q ∈ dc_irqs w ->
  exists w', nta_incoming_treply q status w = Ok (0%Z, w') /\ sent w w' [SentReply q status] 0.
Proof.
  intros Hr Hq. unfold nta_incoming_treply. mstep. rewrite bool_decide_eq_true_2 by done.
  run_sent (next_reply_run w) w1 E1 S1. run_sent (emit_run (SentReply q status) w1) w2 E2 S2.
  eexists. split; [reflexivity|]. exact (sent_trans _ _ _ _ _ _ _ S1 S2).
Qed.
Lemma reject_run irq status w : in_replies (dc_inputs w) = [] -> (forall q, irq = Some q -> q ∈ dc_irqs w) ->
  exists w', reject_new msg irq status w = Ok (tt, w') /\
    sent w w' (rejection_events irq status) (match irq with Some _ => 0 | None => -1 end).
Proof.
  intros Hr Hq. unfold reject_new, rejection_events. fold m.
  assert (exists w1, (match irq with Some q => treply_irq (Some q) status | None => _ ← nta_msg_treply msg status; mret tt end) w = Ok (tt, w1) /\
    sent w w1 (match irq with Some q => [SentReply q status] | None => [RepliedTo msg status] end) (match irq with Some _ => 0 | None => -1 end))
    as (w1 & E1 & S1).
  { destruct irq as [q|].
    - destruct (irq_reply_run q status w Hr (Hq q eq_refl)) as (w1 & E1 & S1). exists w1. split; [|done]. cbn. by rewrite (M_bind_ok _ _ _ _ _ E1).
    - destruct (msg_treply_run status w Hr) as (w1 & E1 & S1). exists w1. split; [|done]. by rewrite (M_bind_ok _ _ _ _ _ E1). }
  rewrite (M_bind_ok _ _ _ _ _ E1). destruct (im_is m sip_method_invite).
  - destruct (emit_run (PostedCdr stop_record "application" role_undefined call_rejected) w1) as (w2 & E2 & S2); [by eapply sn_replies|].
    exists w2. split; [done|]. pose proof (sent_trans _ _ _ _ _ _ _ S1 S2) as S. by destruct irq.
  - exists w1. split; [done|]. by rewrite app_nil_r.
Qed.

(** The status that a request is refused with, if it is. *)
Definition refusal (r : new_request) (els : list client_id) (route : option (string * string * bool)) : option Z :=
  if tagged_invite r then Some 481%Z else
  if bool_decide (route = None) && bool_decide (els = []) then Some 503%Z else None.
Definition attempt_events : list dc_event :=
  if im_is m sip_method_invite then [PostedCdr attempt_record "network" role_undefined no_termination] else [].

(** Who gets a request that is kept pending: an eligible client, or the web
    callback of the route. *)
Definition handed_over (w w' : SipDialogController) (uuid : string) (r : new_request) (els : list client_id)
    (route : option (string * string * bool)) : Prop :=
  match route with
  | None => exists client, client ∈ els /\ m_mapNetTransactions (dc_clients w') !! uuid = Some client /\
      m_posted (dc_clients w') = m_posted (dc_clients w) ++ [sendNewSipMessage client uuid (nr_encoded r) (kept_meta r)] /\
      mt_web (dc_main w') = mt_web (dc_main w)
  | Some (httpMethod, httpUrl, _) => dc_clients w' = dc_clients w /\
      mt_web (dc_main w') = mt_web (dc_main w) ++ [WebRequest uuid httpMethod (callback_url r (kept_meta r) httpUrl) (nr_encoded r)]
  end.
(** The request is kept with the message and a reference on its transport. *)
Definition kept_pending (w w' : SipDialogController) (tp : positive) (uuid : string) (r : new_request) : Prop :=
  holds_request (server_of w') uuid r /\ mt_held (dc_main w') = <[uuid := (msg, tp)]> (mt_held (dc_main w)) /\
  dc_stack w' = on_refs (insert tp (S (refs_of (dc_stack w) tp))) (dc_stack w).
Definition next_id (w : SipDialogController) : string := default ""%string (head (in_uuids (dc_inputs w))).

Context (tp : positive).
Let r := set_tport_name tp (im_new m).
Definition takers (w : SipDialogController) : list client_id :=
  eligible (dc_clients w) (str_map to_lower (nr_method_name r)) None.
Definition route_of (w : SipDialogController) : option (string * string * bool) :=
  RequestRouter_getRoute (nr_method_name r) (mt_router (dc_main w)).

Lemma main_new_run w l : let uuid := next_id w in
  pending_inv (mt_prc (dc_main w)) l -> m_lock (dc_clients w) = false ->
  m_mapCallId2Invite (mt_prc (dc_main w)) !! makeUniqueSipTransactionIdentifier (im_sip m) = None ->
  m_mapTxnId2Invite (mt_prc (dc_main w)) !! uuid = None -> m_mapNetTransactions (dc_clients w) !! uuid = None ->
  (forall hm hu v, route_of w = Some (hm, hu, v) -> hu ≠ ""%string) ->
  match refusal r (takers w) (route_of w) with
  | Some status => exists cc, main_processNewRequest msg tp w =
      Ok (status, on_dc_clients (fun _ => cc) (on_dc_inputs (fun i => Inputs (tail (in_uuids i)) (in_rands i) (in_creates i) (in_replies i)) w)) /\
      m_posted cc = m_posted (dc_clients w)
  | None => collides (mt_clock (dc_main w)) l /\ main_processNewRequest msg tp w = Fault AssertFail \/
    ~ collides (mt_clock (dc_main w)) l /\ exists w', main_processNewRequest msg tp w = Ok (0%Z, w') /\
      kept_pending w w' tp uuid r /\ handed_over w w' uuid r (takers w) (route_of w) /\
      dc_events w' = dc_events w /\ in_replies (dc_inputs w') = in_replies (dc_inputs w) /\
      forall k, owed_of w' k = (owed_of w k + if decide (k = msg) then -1 else 0)%Z
  end.
Proof.
  intros uuid Hi Hl Hid Htx Hnet Hurl.
  pose proof (processNewRequest_outcome (server_of w) l uuid r (mt_clock (dc_main w)) Hi Hl Hid Htx Hnet) as Ho.
  cbn zeta in Ho. change (eligible (srv_clients (server_of w)) _ None) with (takers w) in Ho.
  change (RequestRouter_getRoute _ (srv_router (server_of w))) with (route_of w) in Ho.
  set (w1 := on_dc_inputs (fun i => Inputs (tail (in_uuids i)) (in_rands i) (in_creates i) (in_replies i)) w).
  assert (next_uuid w = Ok (uuid, w1)) as E1 by done. unfold main_processNewRequest. rewrite (M_bind_ok _ _ _ _ _ E1). mstep.
  fold r. change (mt_clock (dc_main w1)) with (mt_clock (dc_main w)). unfold refusal.
  destruct (tagged_invite r).
  { exists (dc_clients w). split; [|done]. erewrite M_bind_ok by (apply zoom_ok; exact Ho). cbn beta iota. by destruct w as [? ? ? ? ? ? ? ? ? ? ? ? ? ? ? ? ? []]. }
  destruct (route_of w) as [[[hm hu] v]|] eqn:Er.
  - rewrite bool_decide_eq_false_2 by done. cbn [andb]. specialize (Hurl hm hu v eq_refl).
    destruct (Ho Hurl) as [[Hcol Hf]|(Hcol & s' & Es & Hh & Hc & Hw)]; [left; split; [done|]; by apply M_bind_fault, zoom_fault|right; split; [done|]].
    eexists. split; [erewrite M_bind_ok by (apply zoom_ok; exact Es); reflexivity|].
    split; [|split; [exact (conj Hc Hw)|split; [done|split; [done|]]]].
    + split; [|done]. by destruct Hh as (l' & p & o & ?); exists l', p, o.
    + intros k. unfold owed_of, owed. cbn. case_decide as Hk; [by rewrite Hk, lookup_insert_eq|]. rewrite lookup_insert_ne by done. lia.
  - rewrite bool_decide_eq_true_2 by done. cbn [andb]. destruct (bool_decide (takers w = [])).
    + destruct Ho as (cc & Es & Hp). exists cc. split; [|done]. erewrite M_bind_ok by (apply zoom_ok; exact Es). cbn beta iota. by destruct w as [? ? ? ? ? ? ? ? ? ? ? ? ? ? ? ? ? []].
    + destruct Ho as [[Hcol Hf]|(Hcol & client & s' & Hin & Es & Hh & Hn & Hp & Hw)]; [left; split; [done|]; by apply M_bind_fault, zoom_fault|right; split; [done|]].
      eexists. split; [erewrite M_bind_ok by (apply zoom_ok; exact Es); reflexivity|].
      split; [|split; [by exists client|split; [done|split; [done|]]]].
      * split; [|done]. by destruct Hh as (l' & p & o & ?); exists l', p, o.
      * intros k. unfold owed_of, owed. cbn. case_decide as Hk; [by rewrite Hk, lookup_insert_eq|]. rewrite lookup_insert_ne by done. lia.
Qed.

(** C15: Every request that can start something, and is neither a
    retransmission nor a ping that is answered at once, is either refused or
    kept, and its sender is told at once.  An INVITE is answered with 100
    (and 180, when so configured) and recorded as an attempt.  An INVITE with
    an unknown tag is refused with 481, and a request that no route and no
    client takes with 503; a refused INVITE is recorded as ended, and the
    message has been given back (on the transaction of the caller the reply
    takes no reference).  Any other request is kept pending under a new id,
    with the message and a reference on the transport, and goes to an eligible
    client or to the web callback of its route; to keep it aborts the server
    exactly when it would expire in the same microsecond as the request that
    expires last (the insertion into the timer queue then finds no place). *)
Theorem new_request_outcome irq w l :
  let uuid := next_id w in
  pending_inv (mt_prc (dc_main w)) l -> m_lock (dc_clients w) = false -> in_replies (dc_inputs w) = [] ->
  m_mapCallId2Invite (mt_prc (dc_main w)) !! makeUniqueSipTransactionIdentifier (im_sip m) = None ->
  mt_proxies (dc_main w) !! proxy_id m = None -> auto_answer m = false ->
  m_mapTxnId2Invite (mt_prc (dc_main w)) !! uuid = None -> m_mapNetTransactions (dc_clients w) !! uuid = None ->
  (forall hm hu v, route_of w = Some (hm, hu, v) -> hu ≠ ""%string) -> (forall q, irq = Some q -> q ∈ dc_irqs w) ->
  match refusal r (takers w) (route_of w) with
  | Some status => exists w', process_new msg tp irq w = Ok (0%Z, w') /\
      dc_events w' = dc_events w ++ provisional_events ++ attempt_events ++ rejection_events irq status /\
      mt_held (dc_main w') = mt_held (dc_main w) /\ mt_prc (dc_main w') = mt_prc (dc_main w) /\
      dc_stack w' = dc_stack w /\ m_posted (dc_clients w') = m_posted (dc_clients w) /\
      owed_of w' msg = (owed_of w msg - match irq with Some _ => 0 | None => 1 end)%Z
  | None =>
      (collides (mt_clock (dc_main w)) l -> process_new msg tp irq w = Fault AssertFail) /\
      (~ collides (mt_clock (dc_main w)) l -> exists w', process_new msg tp irq w = Ok (0%Z, w') /\
        dc_events w' = dc_events w ++ provisional_events ++ attempt_events /\
        kept_pending w w' tp uuid r /\ handed_over w w' uuid r (takers w) (route_of w) /\
        owed_of w' msg = (owed_of w msg - 1)%Z)
  end.
Proof.
  intros uuid Hi Hl Hr Hid Hpx Hau Htx Hnet Hurl Hirq. unfold process_new. fold m.
  assert (on_server (on_prc (pending_isRetransmission (im_sip m))) w = Ok (false, w)) as E0.
  { unfold on_server. erewrite zoom_ok by (apply zoom_ok, isRetransmission_run, Hi). cbn [server_of srv_prc]. rewrite Hid.
    by destruct w as [? ? ? ? ? ? ? ? ? ? ? ? ? ? ? ? ? []]. }
  rewrite (M_bind_ok _ _ _ _ _ E0).
  assert (proxy_isRetransmission m w = Ok (false, w)) as E1 by (unfold proxy_isRetransmission, isProxyingRequest; mstep; by rewrite Hpx).
  rewrite (M_bind_ok _ _ _ _ _ E1). cbn [orb]. destruct (provisional_run w Hr) as (w1 & E2 & S1). rewrite (M_bind_ok _ _ _ _ _ E2).
  cbn [negb]. rewrite Hau.
  destruct S1 as [V1 V2 V3 V4 V5 V6 V7 V8 V9 V10]. pose proof V4 as Es. injection Es as P1 P2 P3 P4.
  assert (next_id w1 = uuid) as Eid by (unfold next_id; by rewrite V3).
  assert (takers w1 = takers w) as Et by (unfold takers; by rewrite P2).
  assert (route_of w1 = route_of w) as Ert by (unfold route_of; by rewrite P3).
  pose proof (main_new_run w1 l) as Hn. cbn zeta in Hn. rewrite Eid, Et, Ert, P1, P2 in Hn.
  specialize (Hn Hi Hl Hid Htx Hnet Hurl). assert (mt_clock (dc_main w1) = mt_clock (dc_main w)) as Eck by done.
  rewrite Eck in Hn. destruct (refusal r (takers w) (route_of w)) as [status|] eqn:Eref.
  - destruct Hn as (cc & E3 & Hcc). rewrite (M_bind_ok _ _ _ _ _ E3).
    set (w2 := on_dc_clients _ _) in *. assert (0 < status)%Z as Hst.
    { unfold refusal in Eref. repeat case_match; by simplify_eq. }
    assert (in_replies (dc_inputs w2) = []) as Hr2 by done.
    assert (exists w3, (if (0 <=? status)%Z && im_is m sip_method_invite then emit (PostedCdr attempt_record "network" role_undefined no_termination) else mret tt) w2 = Ok (tt, w3) /\
      sent w2 w3 attempt_events 0) as (w3 & E4 & S4).
    { replace (0 <=? status)%Z with true by (symmetry; apply Z.leb_le; lia). unfold attempt_events. cbn [andb].
      destruct (im_is m sip_method_invite); [by apply emit_run|]. exists w2. split; [done|]. by apply sent_nothing. }
    rewrite (M_bind_ok _ _ _ _ _ E4). replace (0 <? status)%Z with true by (symmetry; apply Z.ltb_lt; lia).
    destruct (reject_run irq status w3) as (w4 & E5 & S5); [by eapply sn_replies| |].
    { intros q Hq. rewrite (sn_irqs _ _ _ _ S4). change (dc_irqs w2) with (dc_irqs w1). rewrite V9. by apply Hirq. }
    rewrite (M_bind_ok _ _ _ _ _ E5). exists w4. split; [done|].
    pose proof (sent_trans _ _ _ _ _ _ _ S4 S5) as [A1 A2 A3 A4 A5 A6 A7 A8 A9 A10].
    injection A4 as Q1 Q2 Q3 Q4. split_and!.
    + rewrite A1. change (dc_events w2) with (dc_events w1). by rewrite V1, <-app_assoc.
    + rewrite A5. exact V5.
    + rewrite Q1. exact P1.
    + rewrite A8. exact V8.
    + rewrite Q2. cbn. by rewrite Hcc.
    + rewrite A10, decide_True by done. change (owed_of w2 msg) with (owed_of w1 msg). rewrite V10, decide_True by done. destruct irq; lia.
  - destruct Hn as [[Hcol Hf]|(Hcol & w2 & E3 & Hk & Hh & X1 & X2 & X3)].
    { split; [|done]. intros _. by apply M_bind_fault. }
    split; [done|]. intros _.
    rewrite (M_bind_ok _ _ _ _ _ E3). cbn [Z.leb andb].
    assert (exists w3, (if im_is m sip_method_invite then emit (PostedCdr attempt_record "network" role_undefined no_termination) else mret tt) w2 = Ok (tt, w3) /\
      sent w2 w3 attempt_events 0) as (w3 & E4 & S4).
    { unfold attempt_events. destruct (im_is m sip_method_invite); [apply emit_run; by rewrite X2|]. exists w2. split; [done|].
      apply sent_nothing. by rewrite X2. }
    change (0 <=? 0)%Z with true. cbn [andb]. rewrite (M_bind_ok _ _ _ _ _ E4). change (0 <? 0)%Z with false. cbn iota.
    mstep. exists w3. split; [done|]. destruct S4 as [A1 A2 A3 A4 A5 A6 A7 A8 A9 A10]. pose proof A4 as As. injection As as Q1 Q2 Q3 Q4.
    split_and!.
    + by rewrite A1, X1, V1, <-app_assoc.
    + destruct Hk as (K1 & K2 & K3). split_and!; [by rewrite A4|by rewrite A5, K2, V5|by rewrite A8, K3, V8].
    + unfold handed_over in *. rewrite Q2, Q4. destruct (route_of w) as [[[hm hu] v]|].
      * destruct Hh as [H1' H2']. rewrite H1', H2', P2, P4. done.
      * destruct Hh as (client & C1 & C2 & C3 & C4). exists client. rewrite C3, C4, P2, P4. done.
    + rewrite A10, X3, V10, !decide_True by done. lia.
Qed.
End new_requests.
