(* ===== verification/LegSetupCorrect.v ===== *)
(** What becomes of a pending request: a CANCEL that comes before the answer,
    and the answer of the application. *)
From S2P Require Import Prelude CppString TextUtil SipTags ClientController ClientControllerCorrect TimerQueue TimerQueueSpec TimerQueueCorrect RequestRouter Cdr PendingRequests PendingCorrect SipDialog SipTransports Connections DialogWorld InviteInProgress InviteInProgressCorrect TimerD DialogController Messages ProxyDispatch Dispatch LegSetup DispatchCorrect.

Open Scope list_scope.

(** The pending requests are walked in some order. *)
Class MainConfigLaws `{MainConfig} := {
  pending_iter_elements M : pending_iter M ≡ₚ map_to_list M
}.

Section pending.
Context `{sutime : SuTime} `{!SuTimeLaws} `{SofiaTport} `{TportTree} `{NtaMessage} `{!ProxyCoreOps} `{MainConfig} `{!MainConfigLaws} `{DialogConfig}.

Definition prc_of (w : SipDialogController) : PendingRequestController := mt_prc (dc_main w).
Definition with_prc (c : PendingRequestController) (w : SipDialogController) : SipDialogController :=
  set_server (set_prc c (server_of w)) w.
Lemma on_prc_run {A} (m : M PendingRequestController A) w a c :
  m (prc_of w) = Ok (a, c) -> on_server (on_prc m) w = Ok (a, with_prc c w).
Proof. intros E. unfold on_server. erewrite zoom_ok; [reflexivity|]. by apply zoom_ok. Qed.
Lemma with_prc_same w : with_prc (prc_of w) w = w.
Proof. by destruct w as [? ? ? ? ? ? ? ? ? ? ? ? ? ? ? ? ? []]. Qed.

Lemma find_entry_run test c l :
  (forall e, e ∈ l -> is_Some (pr_objects c !! e.2)) ->
  exists r, find_entry test l c = Ok (r, c) /\
    match r with
    | Some p => exists id o, (id, p) ∈ l /\ pr_objects c !! p = Some o /\ test o = true
    | None => forall id p o, (id, p) ∈ l -> pr_objects c !! p = Some o -> test o = false
    end.
Proof.
  induction l as [|[id p] l IH]; intros Hl; [exists None; split; [done|]; by intros ? ? ? ?%elem_of_nil|].
  destruct (Hl (id, p)) as [o Ho]; [by left|]. cbn in Ho. cbn [find_entry]. rewrite (M_bind_ok _ _ _ _ _ (pr_load_ok _ _ _ Ho)).
  destruct (test o) eqn:E; [exists (Some p); split; [done|]; exists id, o; by split; [left|]|].
  destruct IH as (res & -> & Hr); [intros e He; apply Hl; by right|]. exists res. split; [done|].
  destruct res as [q|]; [destruct Hr as (id' & o' & ? & ?); exists id', o'; by split; [right|]|].
  intros id' q o' [[= -> ->]|Hin]%elem_of_cons Ho'; [congruence|by eapply Hr].
Qed.
(** The pending INVITE of a call that has only one. *)
Lemma findInviteByCallId_run c l callId id p o :
  pending_inv c l -> m_mapCallId2Invite c !! id = Some p -> pr_objects c !! p = Some o -> is_invite_of callId o = true ->
  (forall id' q o', m_mapCallId2Invite c !! id' = Some q -> pr_objects c !! q = Some o' -> is_invite_of callId o' = true -> q = p) ->
  findInviteByCallId pending_iter callId c = Ok (Some p, c).
Proof.
  intros Hi Hp Ho Ht Hu. pose proof (pi_mutex _ _ Hi) as Hm. unfold findInviteByCallId, pr_locked.
  assert (forall e, e ∈ pending_iter (m_mapCallId2Invite c) <-> m_mapCallId2Invite c !! e.1 = Some e.2) as Hel.
  { intros [i q]. rewrite pending_iter_elements. apply elem_of_map_to_list. }
  destruct (find_entry_run (is_invite_of callId) (set_pr_mutex true c) (pending_iter (m_mapCallId2Invite c))) as (res & E & Hr).
  { intros [i q] Hq%Hel. destruct (mo_call _ _ (pi_maps _ _ Hi) _ _ Hq) as (o' & ? & _). by exists o'. }
  erewrite lock_guard_ok; [|done|]; cycle 1.
  { mstep. change (m_mapCallId2Invite (set_pr_mutex true c)) with (m_mapCallId2Invite c). exact E. }
  rewrite set_pr_mutex_false by done. destruct res as [q|].
  - destruct Hr as (i & o' & Hq%Hel & Ho' & Ht'). by rewrite (Hu i q o').
  - rewrite (Hr id p o) in Ht; [done|by apply Hel|done].
Qed.

(** ** CANCEL before the answer *)

Lemma find_net_run txn cc : m_lock cc = false ->
  findClientForNetTransaction txn cc = Ok (m_mapNetTransactions cc !! txn ≫= lock_ptr cc, cc).
Proof. intros Hl. unfold findClientForNetTransaction, find_in. erewrite locked_run by done. by rewrite set_lock_false. Qed.
(** The call of a request that is pending under [txn], and what it keeps. *)
Record pending_call (w : SipDialogController) (l : list (timer string)) (txn : string) (p : positive) (o : PendingRequest_t)
    (imsg tp : positive) (n : nat) : Prop := PendingCall {
  pl_inv : pending_inv (prc_of w) l;
  pl_txn : m_mapTxnId2Invite (prc_of w) !! txn = Some p;
  pl_object : pr_objects (prc_of w) !! p = Some o;
  pl_held : mt_held (dc_main w) !! txn = Some (imsg, tp);
  pl_refs : refs_of (dc_stack w) tp = S n;
  pl_lock : m_lock (dc_clients w) = false;
}.
Definition cancel_posts (msg : positive) (w : SipDialogController) (txn : string) : list posted_call :=
  match m_mapNetTransactions (dc_clients w) !! txn ≫= lock_ptr (dc_clients w) with
  | Some c => [sendNewSipMessage c txn (nr_encoded (im_new (sip_object msg))) (nr_meta (im_new (sip_object msg)))]
  | None => []
  end.

Lemma posted_nothing w : on_dc_clients (on_posted (fun q => q ++ [])) w = w.
Proof. destruct w as [? ? ? ? ? ? ? ? ? ? ? ? cc ? ? ? ? ?]. unfold on_dc_clients. f_equal. destruct cc. unfold on_posted. f_equal. apply app_nil_r. Qed.
Lemma quick_cancel_run w l txn p o imsg tp n msg :
  pending_call w l txn p o imsg tp n -> in_replies (dc_inputs w) = [] ->
  is_invite_of (sip_call_id (im_sip (sip_object msg))) o = true ->
  (forall id q o', m_mapCallId2Invite (prc_of w) !! id = Some q -> pr_objects (prc_of w) !! q = Some o' ->
     is_invite_of (sip_call_id (im_sip (sip_object msg))) o' = true -> q = p) ->
  exists w', quick_cancel msg w = Ok (tt, w') /\ pending_call w' l txn p (set_canceled o) imsg tp n /\
    dc_events w' = dc_events w ++ [RepliedTo msg 200; RepliedToCopy imsg 487] /\
    m_posted (dc_clients w') = m_posted (dc_clients w) ++ cancel_posts msg w txn /\
    dc_stack w' = dc_stack w /\ dc_irqs w' = dc_irqs w /\ mt_held (dc_main w') = mt_held (dc_main w) /\
    m_mapTxnId2Invite (prc_of w') = m_mapTxnId2Invite (prc_of w).
Proof.
  intros [Hi Hp Ho Hh Hrf Hl] Hr Ht Hu. unfold quick_cancel.
  destruct (mo_txn _ _ (pi_maps _ _ Hi) _ _ Hp) as (o1 & x & Ho1 & Htx & Hc & Hin & Hx & Hhx). rewrite Ho in Ho1. injection Ho1 as <-.
  assert (main_findInviteByCallId (sip_call_id (im_sip (sip_object msg))) w = Ok (Some p, w)) as E1.
  { unfold main_findInviteByCallId. rewrite <-(with_prc_same w) at 2. apply on_prc_run. by eapply findInviteByCallId_run. }
  rewrite (M_bind_ok _ _ _ _ _ E1).
  assert (load_pending p w = Ok (o, w)) as E2.
  { unfold load_pending. rewrite <-(with_prc_same w) at 2. apply on_prc_run. by apply pr_load_ok. }
  rewrite (M_bind_ok _ _ _ _ _ E2). rewrite Htx.
  assert (clients (findClientForNetTransaction txn) w = Ok (m_mapNetTransactions (dc_clients w) !! txn ≫= lock_ptr (dc_clients w), w)) as E3.
  { unfold clients. erewrite zoom_ok by by apply find_net_run. by destruct w. }
  rewrite (M_bind_ok _ _ _ _ _ E3).
  set (w1 := on_dc_clients (on_posted (fun q => q ++ cancel_posts msg w txn)) w).
  assert ((match m_mapNetTransactions (dc_clients w) !! txn ≫= lock_ptr (dc_clients w) with
    | Some c => clients (post (sendNewSipMessage c txn (nr_encoded (im_new (sip_object msg))) (nr_meta (im_new (sip_object msg)))))
    | None => mret tt end) w = Ok (tt, w1)) as E4.
  { unfold w1, cancel_posts. destruct (_ ≫= _); [done|]. by rewrite posted_nothing. }
  rewrite (M_bind_ok _ _ _ _ _ E4).
  destruct (msg_treply_run msg 200 w1) as (w2 & E5 & [A1 A2 A3 A4 A5 A6 A7 A8 A9 A10]); [done|]. rewrite (M_bind_ok _ _ _ _ _ E5).
  injection A4 as P1 P2 P3 P4.
  assert (cancelPending p w2 = Ok (tt, with_prc (on_objects (insert p (set_canceled o)) (prc_of w2)) w2)) as E6.
  { apply on_prc_run, pr_store_ok. unfold prc_of. by rewrite P1. }
  rewrite (M_bind_ok _ _ _ _ _ E6). set (w3 := with_prc _ w2).
  assert (held_msg txn w3 = Ok (imsg, w3)) as E7.
  { unfold held_msg. mstep. change (mt_held (dc_main w3)) with (mt_held (dc_main w2)). rewrite A5. change (mt_held (dc_main w1)) with (mt_held (dc_main w)). by rewrite Hh. }
  rewrite (M_bind_ok _ _ _ _ _ E7).
  destruct (next_reply_run msg w3) as (w4 & E8 & S8); [exact A2|].
  destruct (emit_run msg (RepliedToCopy imsg 487) w4) as (w5 & E9 & S9); [by eapply sn_replies|].
  assert (nta_msg_treply_dup imsg 487 w3 = Ok (0%Z, w5)) as E10.
  { unfold nta_msg_treply_dup. rewrite (M_bind_ok _ _ _ _ _ E8). cbn beta. change (0 =? -1)%Z with false. cbn iota.
    by rewrite (M_bind_ok _ _ _ _ _ E9). }
  rewrite (M_bind_ok _ _ _ _ _ E10). exists w5. split; [done|].
  destruct (sent_trans _ _ _ _ _ _ _ _ S8 S9) as [B1 B2 B3 B4 B5 B6 B7 B8 B9 B10]. injection B4 as Q1 Q2 Q3 Q4.
  split_and!.
  - constructor.
    + unfold prc_of. rewrite Q1. unfold prc_of. rewrite P1. by eapply store_inv.
    + unfold prc_of. rewrite Q1. unfold prc_of. by rewrite P1.
    + unfold prc_of. rewrite Q1. apply lookup_insert_eq.
    + rewrite B5. change (mt_held (dc_main w3)) with (mt_held (dc_main w2)). by rewrite A5.
    + rewrite B8. change (dc_stack w3) with (dc_stack w2). by rewrite A8.
    + by rewrite Q2, P2.
  - rewrite B1. change (dc_events w3) with (dc_events w2). rewrite A1. cbn. by rewrite <-app_assoc.
  - by rewrite Q2, P2.
  - rewrite B8. exact A8.
  - rewrite B9. exact A9.
  - rewrite B5. exact A5.
  - unfold prc_of. rewrite Q1. unfold prc_of. by rewrite P1.
Qed.

(** Taking a pending request out. *)
Lemma take_pending w l txn p o imsg tp n : pending_call w l txn p o imsg tp n ->
  exists w1, on_server (on_prc (findAndRemove txn false)) w = Ok (Some p, w1) /\ load_pending p w1 = Ok (o, w1) /\
    m_mapTxnId2Invite (prc_of w1) = delete txn (m_mapTxnId2Invite (prc_of w)) /\
    (exists l', pending_inv (prc_of w1) l') /\ dc_main w1 = set_mt_server (server_of w1) (dc_main w) /\ dc_stack w1 = dc_stack w /\
    dc_irqs w1 = dc_irqs w /\ dc_events w1 = dc_events w /\ dc_clients w1 = dc_clients w /\
    dc_inProgress w1 = dc_inProgress w /\ dc_iips w1 = dc_iips w /\ dc_dialogs w1 = dc_dialogs w.
Proof.
  intros [Hi Hp Ho Hh Hrf Hl]. destruct (find_timer _ _ _ _ (pi_maps _ _ Hi) Hp) as (o1 & x & l1 & l2 & Ho1 & Htx & Hc & -> & Hx & Hhx).
  rewrite Ho in Ho1. injection Ho1 as <-. rewrite <-Htx in Hp.
  destruct (findAndRemove_cancel (prc_of w) l1 x l2 txn p o Hi) as (q' & E & Hq); [by rewrite <-Htx|done|by rewrite Hc|done|].
  rewrite Htx in Hp.
  exists (with_prc (set_timerQueue (MkLocking q' false) (forget txn (pr_id o) (prc_of w))) w). split; [by apply on_prc_run|]. split.
  { unfold load_pending. erewrite on_prc_run; [|apply pr_load_ok; exact Ho]. done. }
  split; [done|]. split; [|done]. exists (l1 ++ l2). constructor; [apply Hi|done|done|].
  apply (maps_ok_ext (forget txn (pr_id o) (prc_of w))); [done..|]. eapply (forget_maps _ txn p o x); [|done..].
  eapply maps_ok_proper; [symmetry; apply Permutation_middle|apply Hi].
Qed.

Lemma drop_pending_run w txn imsg tp n : mt_held (dc_main w) !! txn = Some (imsg, tp) -> refs_of (dc_stack w) tp = S n ->
  drop_pending txn w = Ok (tt, on_dc_main (on_mt_held (delete txn)) (on_dc_stack (on_refs (insert tp n)) w)).
Proof.
  intros Hh Hr. unfold drop_pending. mstep. rewrite Hh. erewrite M_bind_ok; [reflexivity|].
  unfold on_stack. erewrite zoom_ok; [reflexivity|]. unfold tport_unref. by rewrite Hr.
Qed.

(** C18: A CANCEL that comes while the INVITE is out to a client ends the call:
    the CANCEL is answered with 200, the INVITE with 487, and the client that
    has the INVITE is shown the CANCEL.  When the client answers the INVITE
    afterwards, its answer starts no transaction and no leg; the request is
    then no longer pending, and the reference on its transport is given back. *)
Theorem canceled_before_answer w l txn p o imsg tp n msg tag :
  pending_call w l txn p o imsg tp n -> in_replies (dc_inputs w) = [] ->
  is_invite_of (sip_call_id (im_sip (sip_object msg))) o = true ->
  (forall id q o', m_mapCallId2Invite (prc_of w) !! id = Some q -> pr_objects (prc_of w) !! q = Some o' ->
     is_invite_of (sip_call_id (im_sip (sip_object msg))) o' = true -> q = p) ->
  exists w', (_ ← quick_cancel msg; setupLegForIncomingRequest txn tag) w = Ok (false, w') /\
    dc_events w' = dc_events w ++ [RepliedTo msg 200; RepliedToCopy imsg 487] /\
    m_posted (dc_clients w') = m_posted (dc_clients w) ++ cancel_posts msg w txn /\
    m_mapTxnId2Invite (prc_of w') = delete txn (m_mapTxnId2Invite (prc_of w)) /\ (exists l', pending_inv (prc_of w') l') /\
    mt_held (dc_main w') = delete txn (mt_held (dc_main w)) /\ refs_of (dc_stack w') tp = n /\
    dc_irqs w' = dc_irqs w /\ st_legs (dc_stack w') = st_legs (dc_stack w).
Proof.
  intros Hc Hr Ht Hu. destruct (quick_cancel_run w l txn p o imsg tp n msg Hc Hr Ht Hu) as (w1 & E1 & Hc1 & V1 & V2 & V3 & V4 & V5 & V6).
  rewrite (M_bind_ok _ _ _ _ _ E1). unfold setupLegForIncomingRequest.
  destruct (take_pending _ _ _ _ _ _ _ _ Hc1) as (w2 & E2 & E3 & T1 & T2 & T3 & T4 & T5 & T6 & T7 & _).
  rewrite (M_bind_ok _ _ _ _ _ E2). cbn beta iota. rewrite (M_bind_ok _ _ _ _ _ E3). mstep.
  assert (mt_held (dc_main w2) = mt_held (dc_main w1)) as Eh by by rewrite T3.
  rewrite Eh, (pl_held _ _ _ _ _ _ _ _ Hc1). mstep. cbn [answer_pending set_canceled pr_canceled]. mstep.
  rewrite (M_bind_ok _ _ _ _ _ (drop_pending_run w2 txn imsg tp n ltac:(by rewrite Eh; apply Hc1) ltac:(by rewrite T4; apply Hc1))).
  eexists. split; [reflexivity|]. split_and!.
  - cbn. by rewrite T6, V1.
  - cbn. by rewrite T7, V2.
  - rewrite <-V6. exact T1.
  - exact T2.
  - cbn. by rewrite Eh, V5.
  - unfold refs_of. cbn. by rewrite lookup_insert_eq.
  - cbn. by rewrite T5, V4.
  - cbn. by rewrite T4, V3.
Qed.

(** ** The application answers *)

Lemma SipDialog_uas_run i s rtag nat :
  ii_rtag i = Some rtag -> (tport_is_dgram (ii_tport i) = true -> behind_nat aggressiveNatEnabled natDetectionDisabled i = Ok nat) ->
  exists d, SipDialog_uas aggressiveNatEnabled natDetectionDisabled i s = Ok (d, on_refs (insert (ii_tport i) (S (refs_of s (ii_tport i)))) s) /\
    m_leg d = Some (ii_leg i) /\ m_tp (d_net d) = Some (ii_tport i) /\ m_strCallId (d_ids d) = sip_call_id (ii_sip i) /\
    m_recentSipStatus d = 100%Z.
Proof.
  intros Ht Hn. unfold SipDialog_uas. mstep. rewrite Ht. mstep. destruct (tport_is_dgram (ii_tport i)).
  - erewrite M_bind_ok; [|unfold lift; by rewrite Hn]. cbn beta iota. eexists. by split_and!.
  - mstep. eexists. by split_and!.
Qed.

Definition incoming_iip (leg irq : positive) (txn : string) (p : positive) : IIP :=
  MkIIP (Some leg) (Some irq) None txn [] p uas_role false None None.
(** What making the leg of [msg] changes, from [w] to [w']. *)
Record leg_made (w w' : SipDialogController) (msg irq leg : positive) (txn tag : string) (tp : positive) : Prop := LegMade {
  lm_iips : dc_iips w' = dc_iips (inserted (incoming_iip leg irq txn (fresh_addr (dc_dialogs w))) w);
  lm_inProgress : dc_inProgress w' = dc_inProgress (inserted (incoming_iip leg irq txn (fresh_addr (dc_dialogs w))) w);
  lm_irqs : dc_irqs w' = {[irq]} ∪ dc_irqs w;
  lm_legs : st_legs (dc_stack w') = {[leg]} ∪ st_legs (dc_stack w);
  lm_dialog : exists d, dc_dialogs w' !! fresh_addr (dc_dialogs w) = Some (d, no_ctl) /\ m_leg d = Some leg /\
    m_transactionId (d_ids d) = txn /\ m_strTag (m_localEndpoint (d_ids d)) = nta_incoming_tag irq tag;
  lm_refs : refs_of (dc_stack w') tp = S (refs_of (dc_stack w) tp);
  lm_server : server_of w' = server_of w;
  lm_held : mt_held (dc_main w') = mt_held (dc_main w);
  lm_owed : forall k, owed_of w' k = owed_of w k
}.

Definition with_owed (msg : positive) (n : Z) : SipDialogController -> SipDialogController :=
  on_dc_main (on_mt_owed (fun o => <[msg := (default 0 (o !! msg) + n)%Z]> o)).
Lemma incoming_create_run msg w : nta_incoming_create_ok msg = true ->
  nta_incoming_create msg w = Ok (Some (fresh (dc_irqs w)), on_dc_irqs (fun s => {[fresh (dc_irqs w)]} ∪ s) (with_owed msg (-1) w)).
Proof. intros Ho. unfold nta_incoming_create. mstep. by rewrite Ho. Qed.
Lemma with_owed_back msg w : forall k, owed_of (with_owed msg 1 (with_owed msg (-1) w)) k = owed_of w k.
Proof.
  intros k. unfold owed_of, owed. cbn. destruct (decide (k = msg)) as [->|Hk]; [|by rewrite !lookup_insert_ne].
  rewrite !lookup_insert_eq. cbn. lia.
Qed.

Lemma new_incoming_leg_run w msg txn tag tp rtag nat :
  let irq := fresh (dc_irqs w) in let leg := fresh (st_legs (dc_stack w)) in
  nta_incoming_create_ok msg = true -> nta_leg_create_ok msg = true -> no_txn txn w ->
  ii_leg (invite_of msg irq leg) = leg -> ii_tport (invite_of msg irq leg) = tp -> ii_rtag (invite_of msg irq leg) = Some rtag ->
  (tport_is_dgram tp = true -> behind_nat aggressiveNatEnabled natDetectionDisabled (invite_of msg irq leg) = Ok nat) ->
  exists w', new_incoming_leg msg txn tag w = Ok (true, w') /\ leg_made w w' msg irq leg txn tag tp.
Proof.
  intros irq leg Hir Hlg Hno Hi1 Hi2 Hi3 Hnat. unfold new_incoming_leg.
  rewrite (M_bind_ok _ _ _ _ _ (incoming_create_run msg w Hir)). cbn beta iota. rewrite Hlg. cbn [negb]. fold irq.
  set (w1 := on_dc_irqs _ _). mstep. change (fresh (st_legs (dc_stack w1))) with leg. set (w2 := on_dc_stack _ w1).
  destruct (SipDialog_uas_run (invite_of msg irq leg) (dc_stack w2) rtag nat Hi3) as (d & Ed & Hd & _); [by rewrite Hi2|].
  set (w3 := on_dc_stack (fun _ => on_refs (insert tp (S (refs_of (dc_stack w2) tp))) (dc_stack w2)) w2).
  assert (on_stack (SipDialog_uas aggressiveNatEnabled natDetectionDisabled (invite_of msg irq leg)) w2 = Ok (d, w3)) as E3.
  { unfold on_stack. erewrite zoom_ok by exact Ed. by rewrite Hi2. }
  rewrite (M_bind_ok _ _ _ _ _ E3). do 2 mstep. set (p := fresh_addr (dc_dialogs w3)). set (w4 := on_dc_dialogs _ w3).
  assert (dc_dialogs w4 !! p = Some (set_transactionId txn d, no_ctl)) as Hp by apply lookup_insert_eq.
  unfold addIncomingInviteTransaction.
  match goal with |- context [on_dlg p (this ?f)] =>
    assert (on_dlg p (this f) w4 = Ok (tt, on_dc_dialogs (insert p (f (set_transactionId txn d), no_ctl)) w4)) as E5 end.
  { unfold on_dlg. rewrite Hp. cbn -[fresh_addr]. by destruct w as [? ? ? ? ? ? ? ? ? ? ? ? ? ? ? ? ? []]. }
  match type of E5 with _ = Ok (tt, ?x) => set (w5 := x) in * end.
  assert (no_txn txn w5) as Hno5 by exact Hno.
  assert (IIP_Insert_incoming leg irq txn p w5 = Ok (tt, inserted (incoming_iip leg irq txn p) w5)) as E6 by by apply insert_iip_run.
  erewrite M_bind_ok by (rewrite (M_bind_ok _ _ _ _ _ E5); exact E6). mstep.
  eexists. split; [reflexivity|]. constructor; try done.
  - eexists. split; [apply lookup_insert_eq|]. cbn. by rewrite Hd, Hi1.
  - unfold refs_of. cbn. by rewrite lookup_insert_eq.
  - intros k. etransitivity; [|apply with_owed_back]. reflexivity.
Qed.
(** C17: When the application answers a pending INVITE or SUBSCRIBE whose
    transport is still open, the request becomes an incoming transaction with
    the message, a leg, and a dialog under the request's transaction id and
    with the tag that the transaction was given; the invite in progress that
    ties them together is found by the transaction id.  The request is no
    longer pending, and the references on message and transport are those
    that transaction and dialog hold now. *)
Theorem pending_invite_answered w l txn p o imsg tp n tag rtag nat :
  let irq := fresh (dc_irqs w) in let leg := fresh (st_legs (dc_stack w)) in
  pending_call w l txn p o imsg tp n -> pr_canceled o = false -> tport_is_closed (dc_stack w) tp = false ->
  starts_leg imsg = true -> nta_incoming_create_ok imsg = true -> nta_leg_create_ok imsg = true -> no_txn txn w ->
  ii_leg (invite_of imsg irq leg) = leg -> ii_tport (invite_of imsg irq leg) = tp -> ii_rtag (invite_of imsg irq leg) = Some rtag ->
  (tport_is_dgram tp = true -> behind_nat aggressiveNatEnabled natDetectionDisabled (invite_of imsg irq leg) = Ok nat) ->
  exists w' ip i d, setupLegForIncomingRequest txn tag w = Ok (true, w') /\
    IIP_FindByTransactionId txn w' = Ok (Some ip, w') /\ dc_iips w' !! ip = Some i /\
    iip_irq i = Some irq /\ iip_leg i = Some leg /\ dc_irqs w' = {[irq]} ∪ dc_irqs w /\ st_legs (dc_stack w') = {[leg]} ∪ st_legs (dc_stack w) /\
    dc_dialogs w !! iip_dlg i = None /\ dc_dialogs w' !! iip_dlg i = Some (d, no_ctl) /\ m_leg d = Some leg /\
    m_transactionId (d_ids d) = txn /\ m_strTag (m_localEndpoint (d_ids d)) = nta_incoming_tag irq tag /\
    m_mapTxnId2Invite (prc_of w') = delete txn (m_mapTxnId2Invite (prc_of w)) /\
    mt_held (dc_main w') = delete txn (mt_held (dc_main w)) /\ refs_of (dc_stack w') tp = S n /\
    forall k, owed_of w' k = owed_of w k.
Proof.
  intros irq leg Hc Hcan Hcl Hst Hir Hlg Hno Hi1 Hi2 Hi3 Hnat. unfold setupLegForIncomingRequest.
  destruct (take_pending _ _ _ _ _ _ _ _ Hc) as (w1 & E1 & E2 & T1 & T2 & T3 & T4 & T5 & T6 & T7 & T8 & T9 & T10).
  rewrite (M_bind_ok _ _ _ _ _ E1). cbn beta iota. rewrite (M_bind_ok _ _ _ _ _ E2). mstep.
  assert (mt_held (dc_main w1) = mt_held (dc_main w)) as Eh by by rewrite T3.
  rewrite Eh, (pl_held _ _ _ _ _ _ _ _ Hc). mstep.
  assert (no_txn txn w1) as Hno1 by (intros q i Hq Hi; eapply Hno; [rewrite <-T8; exact Hq|rewrite <-T9; exact Hi]).
  destruct (new_incoming_leg_run w1 imsg txn tag tp rtag nat) as (w2 & E3 & [L1 L2 L3 L4 (d & L5 & L5a & L5b & L5c) L6 L7 L8 L9]);
    rewrite ?T4, ?T5; [done..|].
  rewrite T4, T5 in *. rewrite T10 in *.
  assert (answer_pending o imsg tp txn tag w1 = Ok (true, w2)) as E4.
  { unfold answer_pending. rewrite Hcan. mstep. by rewrite T4, Hcl, Hst. }
  rewrite (M_bind_ok _ _ _ _ _ E4).
  rewrite (M_bind_ok _ _ _ _ _ (drop_pending_run w2 txn imsg tp (S n) ltac:(rewrite L8, Eh; apply Hc) ltac:(rewrite L6; f_equal; apply Hc))).
  set (w3 := on_dc_main _ _).
  exists w3, (fresh_addr (dc_iips w1)), (incoming_iip leg irq txn (fresh_addr (dc_dialogs w))), d. split; [reflexivity|].

  split.
  { apply (find_inserted (incoming_iip leg irq txn (fresh_addr (dc_dialogs w))) w1 w3); [exact Hno1|exact L1|exact L2]. }
  split_and!; try done.
  - change (dc_iips w3) with (dc_iips w2). rewrite L1. apply lookup_insert_eq.
  - apply fresh_addr_lookup.
  - injection L7 as P1 _ _ _. unfold prc_of. cbn. rewrite P1. exact T1.
  - cbn. by rewrite L8, Eh.
  - unfold refs_of. cbn. by rewrite lookup_insert_eq.
  - intros k. change (owed_of w3 k) with (owed_of w2 k). rewrite L9. unfold owed_of, owed. by rewrite T3.
Qed.
End pending.
