(* ===== verification/DialogTimers.v ===== *)
(** Timers G and H: whatever happens while the ACK for a 200 OK is awaited,
    the handles in the dialogs are the armed timers, and the response is
    retransmitted at growing intervals until it stops. *)
From S2P Require Import Prelude CppString TextUtil SipTags ClientController TimerQueue PendingRequests SipDialog SipDialogCorrect DialogWorld InviteInProgress InviteInProgressCorrect TimerD TimerDCorrect DialogController.

Open Scope list_scope.

Section timed.
Context `{sutime : SuTime}.

(** ** Runs of the primitives on dialogs and timers *)

Section runs.
Implicit Types (w : SipDialogController).

Lemma on_dlg_ok {A} p d c (m : DLG A) a d' s' w :
  dc_dialogs w !! p = Some (d, c) -> m (d, dc_stack w) = Ok (a, (d', s')) ->
  on_dlg p m w = Ok (a, on_dc_dialogs (insert p (d', c)) (on_dc_stack (fun _ => s') w)).
Proof. intros Ed Em. unfold on_dlg. by rewrite Ed, Em. Qed.
Lemma on_dc_stack_id w : on_dc_stack (fun _ => dc_stack w) w = w.
Proof. by destruct w. Qed.
Lemma on_dlg_this p d c f w :
  dc_dialogs w !! p = Some (d, c) -> on_dlg p (this f) w = Ok (tt, on_dc_dialogs (insert p (f d, c)) w).
Proof. intros Ed. rewrite (on_dlg_ok p d c _ tt (f d) (dc_stack w)); [|done|done]. by rewrite on_dc_stack_id. Qed.
Lemma dlg_ctl_ok p d c w : dc_dialogs w !! p = Some (d, c) -> dlg_ctl p w = Ok (c, w).
Proof. intros E. unfold dlg_ctl. by rewrite (M_bind_ok _ _ _ _ _ (dlg_load_ok _ _ _ E)). Qed.
Lemma dlg_self_ok p d c w : dc_dialogs w !! p = Some (d, c) -> dlg_self p w = Ok (d, w).
Proof. intros E. unfold dlg_self. by rewrite (M_bind_ok _ _ _ _ _ (dlg_load_ok _ _ _ E)). Qed.
Lemma addTimer_ok q f ms w : addTimer q f ms w = Ok (fresh_addr (dc_armed w), on_dc_armed (insert (fresh_addr (dc_armed w)) (q, f, ms)) w).
Proof. done. Qed.
Lemma removeTimer_ok h q f ms w :
  dc_armed w !! h = Some (q, f, ms) -> removeTimer h q w = Ok (tt, on_dc_armed (delete h) w).
Proof. intros E. unfold removeTimer. mstep. by rewrite E, String.eqb_refl. Qed.
End runs.

(** ** The invariant *)

(** Queue and function of a dialog's timers, and its handle. *)
Inductive final_timer := TG | TH.
Definition timer_queue (t : final_timer) : string := match t with TG => "timerG" | TH => "timerH" end.
Definition timer_call (t : final_timer) : positive -> positive -> positive -> timer_fn :=
  match t with TG => retransmitFinalResponse_fn | TH => endRetransmitFinalResponse_fn end.
Definition timer_handle (t : final_timer) : dialog_ctl -> option positive := match t with TG => m_timerG | TH => m_timerH end.

(** A handle in a dialog is armed for that dialog, an armed timer G or H is
    the handle of a live dialog; the transaction of a dialog's INVITE is live
    while the dialog points to it, and no invite of another dialog owns it. *)
Record timers_wf (w : SipDialogController) : Prop := TimersWf {
  tw_handle t p d c h : dc_dialogs w !! p = Some (d, c) -> timer_handle t c = Some h ->
    exists irq tp ms, dc_armed w !! h = Some (timer_queue t, timer_call t irq tp p, ms);
  tw_armed t h q irq tp p ms : dc_armed w !! h = Some (q, timer_call t irq tp p, ms) ->
    q = timer_queue t /\ exists d c, dc_dialogs w !! p = Some (d, c) /\ timer_handle t c = Some h;
  tw_irq p d c r : dc_dialogs w !! p = Some (d, c) -> m_irqInvite c = Some r ->
    r ∈ dc_irqs w /\ forall q i, q ∈ dc_inProgress w -> dc_iips w !! q = Some i -> iip_irq i = Some r -> iip_dlg i = p;
}.

Lemma timer_call_inj t t' irq tp p irq' tp' p' : timer_call t irq tp p = timer_call t' irq' tp' p' -> t = t' /\ p = p'.
Proof. destruct t, t'; cbn; intros [=]; by subst. Qed.

(** The dialogs change other than in their timers and INVITE transaction. *)
Lemma timers_wf_same w w' :
  timers_wf w -> dc_armed w' = dc_armed w ->
  (forall p x', dc_dialogs w' !! p = Some x' -> exists x, dc_dialogs w !! p = Some x /\
     (forall t, timer_handle t x'.2 = timer_handle t x.2) /\ (m_irqInvite x'.2 = m_irqInvite x.2 \/ m_irqInvite x'.2 = None)) ->
  (forall p x, dc_dialogs w !! p = Some x -> exists x', dc_dialogs w' !! p = Some x' /\ forall t, timer_handle t x'.2 = timer_handle t x.2) ->
  (forall p x' r, dc_dialogs w' !! p = Some x' -> m_irqInvite x'.2 = Some r -> r ∈ dc_irqs w -> r ∈ dc_irqs w') ->
  (forall q i', q ∈ dc_inProgress w' -> dc_iips w' !! q = Some i' ->
     exists i, q ∈ dc_inProgress w /\ dc_iips w !! q = Some i /\ iip_irq i' = iip_irq i /\ iip_dlg i' = iip_dlg i) ->
  timers_wf w'.
Proof.
  intros [Hh Ha Hi] Ea Hback Hfwd Hirqs Hiips. split.
  - intros t p d' c' h Hp Ht. destruct (Hback p (d', c') Hp) as ([d c] & Hd & Hsame & _). rewrite Ea.
    eapply Hh; [exact Hd|]. exact (eq_trans (eq_sym (Hsame t)) Ht).
  - intros t h q irq tp p ms. rewrite Ea. intros Hh'. destruct (Ha t h q irq tp p ms Hh') as (-> & d & c & Hd & Hc).
    split; [done|]. destruct (Hfwd p (d, c) Hd) as ([d' c'] & Hd' & Hsame). exists d', c'. split; [done|]. exact (eq_trans (Hsame t) Hc).
  - intros p d' c' r Hp Hr. destruct (Hback p (d', c') Hp) as ([d c] & Hd & _ & Hq). cbn in Hq.
    destruct Hq as [Hq|Hq]; [|congruence]. rewrite Hq in Hr. destruct (Hi p d c r Hd Hr) as [Hl Ho].
    split; [by eapply (Hirqs p (d', c')); [|cbn; congruence|]|]. intros q i' Hm Hi' Er.
    destruct (Hiips q i' Hm Hi') as (i & Hm0 & Hi0 & E1 & E2). rewrite E2. apply (Ho q i); congruence.
Qed.

(** The timers of one dialog are taken out. *)
Definition no_timers (c : dialog_ctl) : dialog_ctl := set_irqInvite None (set_timerH None (set_timerG None c)).
Definition without (o : option positive) (m : gmap positive (string * timer_fn * Z)) : gmap positive (string * timer_fn * Z) :=
  match o with Some h => delete h m | None => m end.

Lemma set_timerG_none c : m_timerG c = None -> set_timerG None c = c.
Proof. destruct c. cbn. by intros ->. Qed.
Lemma set_timerH_none c : m_timerH c = None -> set_timerH None c = c.
Proof. destruct c. cbn. by intros ->. Qed.
Lemma on_dc_dialogs_id p x w : dc_dialogs w !! p = Some x -> on_dc_dialogs (insert p x) w = w.
Proof. intros E. unfold on_dc_dialogs. rewrite insert_id by done. by destruct w. Qed.
Lemma on_dc_armed_id w : on_dc_armed (without None) w = w.
Proof. by destruct w. Qed.

Lemma stop_timerG_run p d c w :
  timers_wf w -> dc_dialogs w !! p = Some (d, c) ->
  stop_timerG p w = Ok (tt, on_dc_dialogs (insert p (d, set_timerG None c)) (on_dc_armed (without (m_timerG c)) w)).
Proof.
  intros Hw Hp. unfold stop_timerG. rewrite (M_bind_ok _ _ _ _ _ (dlg_ctl_ok p d c w Hp)).
  destruct (m_timerG c) as [h|] eqn:Eh.
  - destruct (tw_handle w Hw TG p d c h Hp Eh) as (irq & tp & ms & Ha). rewrite (M_bind_ok _ _ _ _ _ (removeTimer_ok _ _ _ _ _ Ha)).
    by rewrite (on_ctl_ok p d c).
  - rewrite on_dc_armed_id, set_timerG_none, on_dc_dialogs_id by done. done.
Qed.
(** Timer H is looked at after timer G is gone. *)
Lemma stop_timerH_run p d c w :
  dc_dialogs w !! p = Some (d, c) ->
  (forall h, m_timerH c = Some h -> exists f ms, dc_armed w !! h = Some ("timerH"%string, f, ms)) ->
  stop_timerH p w = Ok (tt, on_dc_dialogs (insert p (d, set_timerH None c)) (on_dc_armed (without (m_timerH c)) w)).
Proof.
  intros Hp Hh. unfold stop_timerH. rewrite (M_bind_ok _ _ _ _ _ (dlg_ctl_ok p d c w Hp)).
  destruct (m_timerH c) as [h|] eqn:Eh.
  - destruct (Hh h eq_refl) as (f & ms & Ha). rewrite (M_bind_ok _ _ _ _ _ (removeTimer_ok _ _ _ _ _ Ha)).
    by rewrite (on_ctl_ok p d c).
  - rewrite on_dc_armed_id, set_timerH_none, on_dc_dialogs_id by done. done.
Qed.
Lemma handles_differ w p d c g h :
  timers_wf w -> dc_dialogs w !! p = Some (d, c) -> m_timerG c = Some g -> m_timerH c = Some h -> g ≠ h.
Proof.
  intros Hw Hp Hg Hh ->. destruct (tw_handle w Hw TG p d c h Hp Hg) as (? & ? & ? & E1).
  destruct (tw_handle w Hw TH p d c h Hp Hh) as (? & ? & ? & E2). cbn in E1, E2. congruence.
Qed.

(** The state after [clearSipTimers]. *)
Definition timers_cleared (p : positive) (d : SipDialog) (c : dialog_ctl) (w : SipDialogController) : SipDialogController :=
  on_dc_dialogs (insert p (d, no_timers c)) (on_dc_armed (fun m => without (m_timerH c) (without (m_timerG c) m)) w).
Lemma clearSipTimers_run p d c w :
  timers_wf w -> dc_dialogs w !! p = Some (d, c) -> clearSipTimers p w = Ok (tt, timers_cleared p d c w).
Proof.
  intros Hw Hp. unfold clearSipTimers. rewrite (M_bind_ok _ _ _ _ _ (stop_timerG_run p d c w Hw Hp)).
  erewrite M_bind_ok; cycle 1.
  { apply (stop_timerH_run p d (set_timerG None c)); [apply lookup_insert_eq|].
    cbn -[insert without]. intros h Hh. destruct (tw_handle w Hw TH p d c h Hp Hh) as (irq & tp & ms & Ha).
    exists (endRetransmitFinalResponse_fn irq tp p), ms. destruct (m_timerG c) as [g|] eqn:Eg; cbn -[insert]; [|done].
    by rewrite lookup_delete_ne by (by eapply handles_differ). }
  rewrite (on_ctl_ok p d (set_timerH None (set_timerG None c))) by apply lookup_insert_eq.
  unfold timers_cleared, on_dc_dialogs, on_dc_armed. cbn -[insert]. by rewrite !insert_insert_eq.
Qed.
Lemma without_lookup o m h x : without o m !! h = Some x <-> m !! h = Some x /\ o ≠ Some h.
Proof.
  destruct o as [g|]; cbn; [|naive_solver]. rewrite lookup_delete_Some. naive_solver.
Qed.
Lemma cleared_lookup p d c w h e :
  dc_armed (timers_cleared p d c w) !! h = Some e <-> dc_armed w !! h = Some e /\ m_timerG c ≠ Some h /\ m_timerH c ≠ Some h.
Proof. cbn -[without]. rewrite !without_lookup. tauto. Qed.

(** [clearSipTimers] takes out the timers of that dialog and no others. *)
Lemma clearSipTimers_wf p d c w :
  timers_wf w -> dc_dialogs w !! p = Some (d, c) ->
  timers_wf (timers_cleared p d c w) /\
  forall h e, dc_armed (timers_cleared p d c w) !! h = Some e <-> dc_armed w !! h = Some e /\ timer_dialog e.1.2 ≠ Some p.
Proof.
  intros Hw Hp. assert (forall h e, dc_armed w !! h = Some e ->
    (m_timerG c ≠ Some h /\ m_timerH c ≠ Some h) <-> timer_dialog e.1.2 ≠ Some p) as Hmine.
  { intros h [[q f] ms] Ha. cbn. split.
    - intros [HG HH] Hf. destruct f as [irq tp p'|irq tp p'|?|?]; cbn in Hf; try done; injection Hf as ->.
      + destruct (tw_armed w Hw TG h q irq tp p ms Ha) as (_ & d0 & c0 & Hp0 & Hc0). cbn in Hc0. congruence.
      + destruct (tw_armed w Hw TH h q irq tp p ms Ha) as (_ & d0 & c0 & Hp0 & Hc0). cbn in Hc0. congruence.
    - intros Hf. split; intros Hh.
      + destruct (tw_handle w Hw TG p d c h Hp Hh) as (? & ? & ? & Ha'). rewrite Ha' in Ha. by injection Ha as <- <- <-.
      + destruct (tw_handle w Hw TH p d c h Hp Hh) as (? & ? & ? & Ha'). rewrite Ha' in Ha. by injection Ha as <- <- <-. }
  assert (forall h e, dc_armed (timers_cleared p d c w) !! h = Some e <-> dc_armed w !! h = Some e /\ timer_dialog e.1.2 ≠ Some p) as Harm.
  { intros h e. rewrite cleared_lookup. split; intros [Ha ?]; (split; [done|]); by apply (Hmine h e Ha). }
  split; [|done]. destruct Hw as [Hh Ha Hi]. split.
  - cbn -[without insert timer_handle]. intros t q d' c' h [[<- [= <- <-]]|[Hne Hq]]%lookup_insert_Some Ht.
    { by destruct t. }
    destruct (Hh t q d' c' h Hq Ht) as (irq & tp & ms & E). exists irq, tp, ms. apply Harm. split; [done|].
    destruct t; cbn; congruence.
  - intros t h q irq tp p' ms [E Hf]%Harm. destruct (Ha t h q irq tp p' ms E) as (-> & d' & c' & Hp' & Hc').
    split; [done|]. exists d', c'. split; [|done]. cbn -[insert]. rewrite lookup_insert_ne; [done|].
    intros ->. apply Hf. by destruct t.
  - cbn -[without insert]. intros q d' c' r [[<- [= <- <-]]|[Hne Hq]]%lookup_insert_Some Hr; [done|]. by eapply Hi.
Qed.

(** ** Arming and disarming *)

Definition set_handle (t : final_timer) (h : option positive) (c : dialog_ctl) : dialog_ctl :=
  match t with TG => set_timerG h c | TH => set_timerH h c end.
Lemma set_handle_eq t h c : timer_handle t (set_handle t h c) = h.
Proof. by destruct t. Qed.
Lemma set_handle_ne t t' h c : t ≠ t' -> timer_handle t' (set_handle t h c) = timer_handle t' c.
Proof. by destruct t, t'. Qed.
Lemma set_handle_irq t h c : m_irqInvite (set_handle t h c) = m_irqInvite c.
Proof. by destruct t. Qed.

(** A timer of the dialog [p] is put in its queue, or taken out. *)
Definition arm (t : final_timer) (irq tp p : positive) (ms : Z) (d : SipDialog) (c : dialog_ctl) (w : SipDialogController) :=
  let h := fresh_addr (dc_armed w) in
  on_dc_dialogs (insert p (d, set_handle t (Some h) c)) (on_dc_armed (insert h (timer_queue t, timer_call t irq tp p, ms)) w).
Definition disarm (t : final_timer) (p : positive) (d : SipDialog) (c : dialog_ctl) (w : SipDialogController) :=
  on_dc_dialogs (insert p (d, set_handle t None c)) (on_dc_armed (without (timer_handle t c)) w).

Lemma timer_kind_dec (t t' : final_timer) : {t = t'} + {t ≠ t'}.
Proof. decide equality. Qed.
Lemma arm_wf t irq tp p ms d d' c w :
  timers_wf w -> dc_dialogs w !! p = Some (d, c) -> timer_handle t c = None -> timers_wf (arm t irq tp p ms d' c w).
Proof.
  intros Hw Hp Ht. pose proof (fresh_addr_lookup (dc_armed w)) as Hf. destruct Hw as [Hh Ha Hi].
  set (h' := fresh_addr (dc_armed w)) in *. split; cbn -[insert timer_handle set_handle timer_queue timer_call lookup]; fold h'.
  - intros t' q d1 c1 h [[<- [= <- <-]]|[Hne Hq]]%lookup_insert_Some Hc.
    + destruct (timer_kind_dec t t') as [<-|Htt].
      * rewrite set_handle_eq in Hc. injection Hc as <-. rewrite lookup_insert_eq. eauto.
      * rewrite set_handle_ne in Hc by done. destruct (Hh t' p d c h Hp Hc) as (irq' & tp' & ms' & E).
        exists irq', tp', ms'. rewrite lookup_insert_ne; [done|]. intros <-. congruence.
    + destruct (Hh t' q d1 c1 h Hq Hc) as (irq' & tp' & ms' & E). exists irq', tp', ms'.
      rewrite lookup_insert_ne; [done|]. intros <-. congruence.
  - intros t' h q irq' tp' p' ms' [[<- E]|[Hne E]]%lookup_insert_Some.
    + assert (timer_call t irq tp p = timer_call t' irq' tp' p') as [<- <-]%timer_call_inj by congruence.
      split; [congruence|]. rewrite lookup_insert_eq. do 2 eexists. split; [done|]. apply set_handle_eq.
    + destruct (Ha t' h q irq' tp' p' ms' E) as (-> & d1 & c1 & Hp' & Hc). split; [done|].
      destruct (decide (p = p')) as [<-|Hpp]; [|rewrite lookup_insert_ne by done; eauto].
      simplify_eq. rewrite lookup_insert_eq. do 2 eexists. split; [done|]. rewrite set_handle_ne; [done|]. congruence.
  - intros q d1 c1 r [[<- [= <- <-]]|[Hne Hq]]%lookup_insert_Some; [rewrite set_handle_irq|]; eauto.
Qed.
Lemma disarm_wf t p d c w : timers_wf w -> dc_dialogs w !! p = Some (d, c) -> timers_wf (disarm t p d c w).
Proof.
  intros Hw Hp. destruct (Hw) as [Hh Ha Hi]. split; cbn -[insert timer_handle set_handle timer_queue timer_call lookup without].
  - intros t' q d1 c1 h Hq Hc. assert (exists d2 c2, dc_dialogs w !! q = Some (d2, c2) /\ timer_handle t' c2 = Some h /\ (q = p -> t' ≠ t)) as (d2 & c2 & Hq' & Hc' & Hqt).
    { apply lookup_insert_Some in Hq as [[<- [= <- <-]]|[Hne Hq]]; [|exists d1, c1; split_and!; congruence].
      exists d, c. destruct (timer_kind_dec t t') as [<-|Htt]; [by rewrite set_handle_eq in Hc|].
      rewrite set_handle_ne in Hc by done. split_and!; [done..|congruence]. }
    destruct (Hh t' q d2 c2 h Hq' Hc') as (irq' & tp' & ms' & E). exists irq', tp', ms'. apply without_lookup. split; [done|].
    intros Ht. destruct (Hh t p d c h Hp Ht) as (irq & tp & ms & E'). rewrite E in E'.
    assert (timer_call t' irq' tp' q = timer_call t irq tp p) as [-> ->]%timer_call_inj by congruence. by apply Hqt.
  - intros t' h q irq' tp' p' ms' [E Hno]%without_lookup. destruct (Ha t' h q irq' tp' p' ms' E) as (-> & d1 & c1 & Hp' & Hc).
    split; [done|]. destruct (decide (p = p')) as [<-|Hpp]; [|rewrite lookup_insert_ne by done; eauto].
    simplify_eq. rewrite lookup_insert_eq. do 2 eexists. split; [done|]. rewrite set_handle_ne; [done|]. by intros ->.
  - intros q d1 c1 r [[<- [= <- <-]]|[Hne Hq]]%lookup_insert_Some; [rewrite set_handle_irq|]; eauto.
Qed.
Lemma events_wf u w : timers_wf w -> timers_wf (on_dc_events u w).
Proof. by intros [? ? ?]. Qed.
(** The dialog points to the transaction of its INVITE. *)
Lemma set_irq_wf w p d c r :
  timers_wf w -> dc_dialogs w !! p = Some (d, c) -> r ∈ dc_irqs w ->
  (forall q i, q ∈ dc_inProgress w -> dc_iips w !! q = Some i -> iip_irq i = Some r -> iip_dlg i = p) ->
  timers_wf (on_dc_dialogs (insert p (d, set_irqInvite (Some r) c)) w).
Proof.
  intros [Hh Ha Hi] Hp Hr Hown. split; cbn -[insert timer_handle].
  - intros t q d1 c1 h [[<- [= <- <-]]|[Hne Hq]]%lookup_insert_Some Hc; [eapply Hh; [done|]; by destruct t|by eapply Hh].
  - intros t h q irq tp p' ms E. destruct (Ha t h q irq tp p' ms E) as (-> & d1 & c1 & Hp' & Hc). split; [done|].
    destruct (decide (p = p')) as [<-|Hpp]; [|rewrite lookup_insert_ne by done; eauto].
    simplify_eq. rewrite lookup_insert_eq. do 2 eexists. split; [done|]. by destruct t.
  - intros q d1 c1 r' [[<- [= <- <-]]|[Hne Hq]]%lookup_insert_Some; [|by eapply Hi]. cbn. by intros [= <-].
Qed.

(** ** Runs of the operations *)

Section operations.
Context `{SofiaTport} `{NtaAgent}.

Lemma on_dc_dialogs_twice p x y w : on_dc_dialogs (insert p y) (on_dc_dialogs (insert p x) w) = on_dc_dialogs (insert p y) w.
Proof. unfold on_dc_dialogs. cbn -[insert]. by rewrite insert_insert_eq. Qed.
Lemma dlg_setTimerG_run p h d c w :
  dc_dialogs w !! p = Some (d, c) ->
  dlg_setTimerG p h w = Ok (tt, on_dc_dialogs (insert p (setTimerG d, set_timerG (Some h) c)) w).
Proof.
  intros Hp. unfold dlg_setTimerG. rewrite (M_bind_ok _ _ _ _ _ (on_ctl_ok p d c _ w Hp)).
  rewrite (on_dlg_this p d (set_timerG (Some h) c)) by apply lookup_insert_eq. by rewrite on_dc_dialogs_twice.
Qed.
Lemma addTimer_G_run irq tp p ms d c w :
  dc_dialogs w !! p = Some (d, c) ->
  (t ← addTimer "timerG" (retransmitFinalResponse_fn irq tp p) ms; dlg_setTimerG p t) w = Ok (tt, arm TG irq tp p ms (setTimerG d) c w).
Proof. intros Hp. rewrite (M_bind_ok _ _ _ _ _ (addTimer_ok _ _ _ _)). by rewrite (dlg_setTimerG_run _ _ d c). Qed.

(** The state after a 200 OK to an INVITE. *)
Definition timers_started (irq tp p : positive) (d : SipDialog) (c : dialog_ctl) (w : SipDialogController) : SipDialogController :=
  let w1 := if tport_is_dgram tp then arm TG irq tp p NTA_SIP_T1 (setTimerG d) c w else w in
  let '(d1, c1) := if tport_is_dgram tp then (setTimerG d, set_timerG (Some (fresh_addr (dc_armed w))) c) else (d, c) in
  let w2 := arm TH irq tp p TIMER_H_MSECS d1 c1 w1 in
  on_dc_dialogs (insert p (d1, set_irqInvite (Some irq) (set_timerH (Some (fresh_addr (dc_armed w1))) c1))) w2.
Lemma start_run irq tp p d c w :
  dc_dialogs w !! p = Some (d, c) ->
  start_final_response_timers irq tp p w = Ok (tt, timers_started irq tp p d c w).
Proof.
  intros Hp. unfold start_final_response_timers, timers_started.
  set (w1 := if tport_is_dgram tp then _ else w).
  assert (exists d1 c1, (if tport_is_dgram tp then (setTimerG d, set_timerG (Some (fresh_addr (dc_armed w))) c) else (d, c)) = (d1, c1) /\
    dc_dialogs w1 !! p = Some (d1, c1)) as (d1 & c1 & -> & Hp1).
  { subst w1. destruct (tport_is_dgram tp); do 2 eexists; (split; [done|]); [apply lookup_insert_eq|done]. }
  erewrite (M_bind_ok _ _ _ _ w1); cycle 1.
  { subst w1. destruct (tport_is_dgram tp); [by apply addTimer_G_run|done]. }
  rewrite (M_bind_ok _ _ _ _ _ (addTimer_ok _ _ _ _)). unfold dlg_setTimerH.
  rewrite (M_bind_ok _ _ _ _ _ (on_ctl_ok p d1 c1 _ (on_dc_armed (insert _ _) w1) Hp1)).
  rewrite (on_ctl_ok p d1 (set_timerH (Some (fresh_addr (dc_armed w1))) c1)) by apply lookup_insert_eq. done.
Qed.
Lemma started_wf irq tp p d c w :
  timers_wf w -> dc_dialogs w !! p = Some (d, c) -> m_timerG c = None -> m_timerH c = None -> irq ∈ dc_irqs w ->
  (forall q i, q ∈ dc_inProgress w -> dc_iips w !! q = Some i -> iip_irq i = Some irq -> iip_dlg i = p) ->
  timers_wf (timers_started irq tp p d c w).
Proof.
  intros Hw Hp HG HH Hr Hown. unfold timers_started. destruct (tport_is_dgram tp).
  - apply set_irq_wf; [|apply lookup_insert_eq|done|done]. eapply arm_wf; [eapply arm_wf; done|apply lookup_insert_eq|done].
  - apply set_irq_wf; [|apply lookup_insert_eq|done|done]. by eapply arm_wf.
Qed.

(** Timer G goes off while the transaction is there: the response goes out
    again and the timer is armed again. *)
Definition retransmitted (h irq tp p cur : positive) (d : SipDialog) (c : dialog_ctl) (w : SipDialogController) : SipDialogController :=
  arm TG irq tp p (bumpTimerG d).1 (setTimerG (bumpTimerG d).2) (set_timerG None c)
    (on_dc_events (fun l => l ++ [RetransmittedReply cur tp]) (disarm TG p d c w)).
Lemma goes_off_run h e w :
  dc_armed w !! h = Some e ->
  timer_goes_off h w = (match e with
    | (_, retransmitFinalResponse_fn irq tp p, _) => retransmitFinalResponse irq tp p
    | (_, endRetransmitFinalResponse_fn irq tp p, _) => endRetransmitFinalResponse irq tp p
    | (_, timerD_fn invite callIdAndCSeq, _) => timerD invite callIdAndCSeq
    | (_, timeoutBye_fn transactionId, _) => timeoutBye transactionId end) (on_dc_armed (delete h) w).
Proof. intros Hh. unfold timer_goes_off. mstep. unfold deref. by rewrite Hh. Qed.
Lemma on_dlg_bump p d c w :
  dc_dialogs w !! p = Some (d, c) ->
  on_dlg p (d ← self; _ ← this (fun d => (bumpTimerG d).2); mret (bumpTimerG d).1) w =
    Ok ((bumpTimerG d).1, on_dc_dialogs (insert p ((bumpTimerG d).2, c)) w).
Proof. intros Hp. rewrite (on_dlg_ok p d c _ (bumpTimerG d).1 (bumpTimerG d).2 (dc_stack w)); [|done|done]. by rewrite on_dc_stack_id. Qed.

Lemma timerG_live_run h irq tp p cur q ms d c w :
  dc_armed w !! h = Some (q, retransmitFinalResponse_fn irq tp p, ms) -> dc_dialogs w !! p = Some (d, c) ->
  m_timerG c = Some h -> m_irqInvite c = Some cur -> cur ∈ dc_irqs w ->
  timer_goes_off h w = Ok (tt, retransmitted h irq tp p cur d c w).
Proof.
  intros Hh Hp HG Hc Hcur. rewrite (goes_off_run _ _ _ Hh). unfold retransmitFinalResponse.
  rewrite (M_bind_ok _ _ _ _ _ (dlg_ctl_ok p d c (on_dc_armed (delete h) w) Hp)), Hc.
  erewrite M_bind_ok; cycle 1.
  { unfold incoming_retransmit_reply. mstep. rewrite bool_decide_eq_true_2 by done. reflexivity. }
  set (w1 := on_dc_events _ _). rewrite (M_bind_ok _ _ _ _ _ (on_dlg_bump p d c w1 Hp)).
  rewrite (addTimer_G_run irq tp p _ (bumpTimerG d).2 c) by apply lookup_insert_eq.
  unfold retransmitted, arm, disarm, set_handle, timer_handle, without. rewrite HG. do 2 f_equal.
  unfold on_dc_dialogs, on_dc_armed, on_dc_events. cbn -[insert delete bumpTimerG setTimerG fresh_addr]. rewrite !insert_insert_eq. done.
Qed.
Lemma timerG_gone_run h irq tp p q ms d c w :
  timers_wf w -> dc_armed w !! h = Some (q, retransmitFinalResponse_fn irq tp p, ms) -> dc_dialogs w !! p = Some (d, c) ->
  m_timerG c = Some h -> m_irqInvite c = None ->
  timer_goes_off h w = Ok (tt, timers_cleared p d c w).
Proof.
  intros Hw Hh Hp HG Hc. rewrite (goes_off_run _ _ _ Hh). unfold retransmitFinalResponse.
  rewrite (M_bind_ok _ _ _ _ _ (dlg_ctl_ok p d c (on_dc_armed (delete h) w) Hp)), Hc.
  rewrite (M_bind_ok _ _ _ _ _ (on_ctl_ok p d c _ (on_dc_armed (delete h) w) Hp)).
  erewrite M_bind_ok; cycle 1.
  { apply (stop_timerH_run p d (set_timerG None c)); [apply lookup_insert_eq|]. cbn -[insert delete]. intros g Hg.
    destruct (tw_handle w Hw TH p d c g Hp Hg) as (irq' & tp' & ms' & Ha). do 2 eexists. rewrite lookup_delete_ne; [exact Ha|].
    by eapply handles_differ. }
  rewrite (on_ctl_ok p d (set_timerH None (set_timerG None c))) by apply lookup_insert_eq.
  unfold timers_cleared. rewrite HG. unfold on_dc_dialogs, on_dc_armed. cbn -[insert delete without]. by rewrite !insert_insert_eq.
Qed.
End operations.

(** ** The schedule of the retransmissions *)

Section schedule.
Context `{SofiaTport} `{NtaAgent}.

(** Timer G of the dialog goes off, if it is armed. *)
Definition timerG_goes_off (p : positive) : DC unit :=
  c ← dlg_ctl p; match m_timerG c with Some h => timer_goes_off h | None => mret tt end.
(** Timer G is armed for the next retransmission, [n] having been sent. *)
Record retransmitting (irq tp p : positive) (d0 : SipDialog) (n : nat) (w : SipDialogController) : Prop := Retransmitting {
  rt_state : exists d c h, dc_dialogs w !! p = Some (d, c) /\ m_timerG c = Some h /\ m_irqInvite c = Some irq /\
    m_durationTimerG d = timerG_after n d0 /\
    dc_armed w !! h = Some ("timerG"%string, retransmitFinalResponse_fn irq tp p, timerG_after n d0) /\
    exists g, m_timerH c = Some g /\ dc_armed w !! g = Some ("timerH"%string, endRetransmitFinalResponse_fn irq tp p, TIMER_H_MSECS);
  rt_irq : irq ∈ dc_irqs w;
}.
Lemma timerG_after_S n d : timerG_after (S n) d = Z.min (Z.shiftl (timerG_after n d) 1 mod 2 ^ 32) NTA_SIP_T2.
Proof. revert d. induction n as [|n IH]; intros d; [done|]. cbn [timerG_after] in *. by rewrite IH. Qed.
Lemma timerG_after_pos n d : m_durationTimerG d = 0%Z -> timerG_after n (setTimerG d) ≠ 0%Z.
Proof.
  intros Hd. rewrite (timerG_intervals d n Hd). pose proof (Z.pow_pos_nonneg 2 (Z.of_nat n)). unfold NTA_SIP_T1, NTA_SIP_T2. lia.
Qed.
Lemma retransmitting_step irq tp p d0 n w :
  m_durationTimerG d0 = 0%Z -> retransmitting irq tp p (setTimerG d0) n w ->
  exists w', timerG_goes_off p w = Ok (tt, w') /\ retransmitting irq tp p (setTimerG d0) (S n) w' /\
    dc_events w' = dc_events w ++ [RetransmittedReply irq tp] /\ (timers_wf w -> timers_wf w').
Proof.
  intros Hd0 [(d & c & h & Hp & HG & Hc & Hd & Ha & g & HH & Hg) Hr]. unfold timerG_goes_off.
  rewrite (M_bind_ok _ _ _ _ _ (dlg_ctl_ok p d c w Hp)), HG.
  rewrite (timerG_live_run h irq tp p irq _ _ d c w Ha Hp HG Hc Hr). eexists. split; [done|].
  assert (m_durationTimerG (setTimerG (bumpTimerG d).2) = timerG_after (S n) (setTimerG d0)) as Hd'.
  { pose proof (timerG_after_pos (S n) d0 Hd0) as Hpos. rewrite timerG_after_S in *. rewrite <- Hd in *. unfold setTimerG at 1. cbn [bumpTimerG snd].
    cbn [m_durationTimerG set_durationTimerG]. by destruct (Z.eqb_spec (Z.min (Z.shiftl (m_durationTimerG d) 1 mod 2 ^ 32) NTA_SIP_T2) 0). }
  split; [split; [|done]|split; [done|]].
  - do 3 eexists. split; [apply lookup_insert_eq|]. split_and!; [done|done|done| |exists g; split; [done|]].
    + unfold retransmitted, arm. cbn -[insert lookup fresh_addr bumpTimerG timerG_after]. rewrite lookup_insert_eq.
      do 2 f_equal. rewrite timerG_after_S, <- Hd. done.
    + unfold retransmitted, arm, disarm. cbn -[insert lookup fresh_addr without bumpTimerG timerG_after].
      assert (without (m_timerG c) (dc_armed w) !! g = Some ("timerH"%string, endRetransmitFinalResponse_fn irq tp p, TIMER_H_MSECS)) as Hg'.
      { apply without_lookup. split; [done|]. rewrite HG. intros [= ->]. congruence. }
      rewrite lookup_insert_ne; [done|]. intros Eg. rewrite <- Eg, fresh_addr_lookup in Hg'. done.
  - intros Hw. eapply arm_wf; [apply events_wf, disarm_wf; done|apply lookup_insert_eq|done].
Qed.

Lemma retransmitting_times irq tp p d0 m n w :
  m_durationTimerG d0 = 0%Z -> retransmitting irq tp p (setTimerG d0) n w -> timers_wf w ->
  exists w', times m (timerG_goes_off p) w = Ok (tt, w') /\ retransmitting irq tp p (setTimerG d0) (m + n) w' /\
    dc_events w' = dc_events w ++ replicate m (RetransmittedReply irq tp) /\ timers_wf w'.
Proof.
  intros Hd0. revert n w. induction m as [|m IH]; intros n w Hrt Hw.
  { exists w. cbn. by rewrite app_nil_r. }
  destruct (retransmitting_step irq tp p d0 n w Hd0 Hrt) as (w1 & E1 & Hrt1 & Ev1 & Hw1).
  destruct (IH (S n) w1 Hrt1 (Hw1 Hw)) as (w' & E' & Hrt' & Ev' & Hw'). exists w'. cbn [times replicate].
  rewrite (M_bind_ok _ _ _ _ _ E1). split_and!; [done| |by rewrite Ev', Ev1, <- app_assoc|done].
  by rewrite Nat.add_succ_r in Hrt'.
Qed.

(** What starting the timers gives. *)
Lemma started_dgram irq tp p d c w :
  tport_is_dgram tp = true -> m_durationTimerG d = 0%Z -> irq ∈ dc_irqs w ->
  retransmitting irq tp p (setTimerG d) 0 (timers_started irq tp p d c w).
Proof.
  intros Ht Hd Hr. unfold timers_started. rewrite Ht. split; [|done]. set (w1 := arm TG _ _ _ _ _ _ w).
  pose proof (fresh_addr_lookup (dc_armed w1)) as Hf. do 3 eexists. split; [apply lookup_insert_eq|]. split_and!; [done|done|done| |].
  - cbn -[lookup insert fresh_addr setTimerG w1]. rewrite lookup_insert_ne.
    + unfold w1. cbn -[lookup insert fresh_addr setTimerG]. rewrite lookup_insert_eq. unfold setTimerG. by rewrite Hd.
    + intros E. rewrite E in Hf. unfold w1 in Hf. cbn -[lookup insert fresh_addr setTimerG] in Hf. by rewrite lookup_insert_eq in Hf.
  - eexists. split; [done|]. cbn -[lookup insert fresh_addr setTimerG w1]. apply lookup_insert_eq.
Qed.
Lemma no_timerG p d c w n : dc_dialogs w !! p = Some (d, c) -> m_timerG c = None -> times n (timerG_goes_off p) w = Ok (tt, w).
Proof. intros Hp HG. apply (times_same n _ tt). unfold timerG_goes_off. by rewrite (M_bind_ok _ _ _ _ _ (dlg_ctl_ok p d c w Hp)), HG. Qed.

(** C13: Over UDP the 200 OK to an INVITE is retransmitted after 500 ms and
    then at intervals that double up to four seconds, one retransmission per
    time that timer G goes off, for as long as no ACK comes; the ACK (or
    anything that clears the dialog's timers) disarms both timers, and no
    retransmission follows it. Over other transports nothing is
    retransmitted, and timer H alone is armed. *)
Theorem final_response_schedule w irq tp p d c n :
  timers_wf w -> dc_dialogs w !! p = Some (d, c) -> m_timerG c = None -> m_timerH c = None -> m_durationTimerG d = 0%Z ->
  irq ∈ dc_irqs w -> (forall q i, q ∈ dc_inProgress w -> dc_iips w !! q = Some i -> iip_irq i = Some irq -> iip_dlg i = p) ->
  exists w1 w2 w3, start_final_response_timers irq tp p w = Ok (tt, w1) /\
    times n (timerG_goes_off p) w1 = Ok (tt, w2) /\
    dc_events w2 = dc_events w ++ (if tport_is_dgram tp then replicate n (RetransmittedReply irq tp) else []) /\
    (exists h, dc_armed w2 !! h = Some ("timerH"%string, endRetransmitFinalResponse_fn irq tp p, 32000%Z)) /\
    (forall h q ms, dc_armed w2 !! h = Some (q, retransmitFinalResponse_fn irq tp p, ms) ->
       tport_is_dgram tp = true /\ ms = Z.min (500 * 2 ^ Z.of_nat n) 4000) /\
    (tport_is_dgram tp = true -> exists h ms, dc_armed w2 !! h = Some ("timerG"%string, retransmitFinalResponse_fn irq tp p, ms)) /\
    clearSipTimers p w2 = Ok (tt, w3) /\
    (forall h e, dc_armed w3 !! h = Some e -> timer_dialog e.1.2 ≠ Some p) /\
    forall m, times m (timerG_goes_off p) w3 = Ok (tt, w3).
Proof.
  intros Hw Hp HG HH Hd Hr Hown. pose proof (started_wf irq tp p d c w Hw Hp HG HH Hr Hown) as Hw1.
  exists (timers_started irq tp p d c w). assert (exists w2, times n (timerG_goes_off p) (timers_started irq tp p d c w) = Ok (tt, w2) /\ timers_wf w2 /\
    dc_events w2 = dc_events w ++ (if tport_is_dgram tp then replicate n (RetransmittedReply irq tp) else []) /\
    (exists h, dc_armed w2 !! h = Some ("timerH"%string, endRetransmitFinalResponse_fn irq tp p, 32000%Z)) /\
    exists d2 c2, dc_dialogs w2 !! p = Some (d2, c2) /\
      match m_timerG c2 with
      | Some h => tport_is_dgram tp = true /\ dc_armed w2 !! h = Some ("timerG"%string, retransmitFinalResponse_fn irq tp p, timerG_after n (setTimerG d))
      | None => tport_is_dgram tp = false
      end) as (w2 & E2 & Hw2 & Hev & HtH & d2 & c2 & Hp2 & HtG).
  { destruct (tport_is_dgram tp) eqn:Et.
    - pose proof (started_dgram irq tp p d c w Et Hd Hr) as Hrt.
      destruct (retransmitting_times irq tp p d n 0 _ Hd Hrt Hw1) as (w2 & E2 & Hrt2 & Hev & Hw2). exists w2.
      rewrite Nat.add_0_r in Hrt2. destruct Hrt2 as [(d2 & c2 & h & Hp2 & HG2 & _ & _ & Ha & g & _ & Hg) _].
      split_and!; [done|done| |eauto|]; cycle 1. { exists d2, c2. by rewrite HG2. }
      rewrite Hev. unfold timers_started. by rewrite Et.
    - exists (timers_started irq tp p d c w). assert (exists d2 c2, dc_dialogs (timers_started irq tp p d c w) !! p = Some (d2, c2) /\ m_timerG c2 = None) as (d2 & c2 & Hp2 & HG2).
      { unfold timers_started. rewrite Et. do 2 eexists. split; [apply lookup_insert_eq|done]. }
      split_and!; [by eapply no_timerG|done| | |exists d2, c2; by rewrite HG2]; unfold timers_started; rewrite Et; cbn -[insert lookup fresh_addr].
      + by rewrite app_nil_r. + eexists. apply lookup_insert_eq. }
  exists w2, (timers_cleared p d2 c2 w2). split_and!; [by apply start_run|done..| | | | |].
  - intros h q ms Hh. destruct (tw_armed w2 Hw2 TG h q irq tp p ms Hh) as (_ & d3 & c3 & Hp3 & Hc3). cbn in Hc3.
    simplify_eq. rewrite Hc3 in HtG. destruct HtG as [Ht Ha]. split; [done|]. rewrite Hh in Ha. injection Ha as -> ->.
    by rewrite (timerG_intervals d n Hd).
  - intros Ht. destruct (m_timerG c2) as [h|]; [|congruence]. destruct HtG as [_ Ha]. eauto.
  - by apply clearSipTimers_run.
  - intros h e He. by apply (clearSipTimers_wf p d2 c2 w2 Hw2 Hp2) in He as [_ ?].
  - intros m. eapply no_timerG; [apply lookup_insert_eq|done].
Qed.
End schedule.
End timed.
