(* ===== verification/DialogEnds.v ===== *)
(** The end of a call whose 200 OK is never acknowledged, and the safety of
    timers G and H in any order of what can happen to them. *)
From S2P Require Import Prelude CppString TextUtil SipTags ClientController ClientControllerCorrect TimerQueue Cdr PendingRequests SipDialog SipDialogCorrect DialogWorld InviteInProgress InviteInProgressCorrect TimerD TimerDCorrect DialogController DialogTimers.

Open Scope list_scope.

Section timed.
Context `{sutime : SuTime}.

(** ** What looking up the transport changes *)

Section tport.
Context `{SofiaTport}.

(** [m] changes only the connection of the dialog, references and
    transactions. *)
Definition net_only {A} (m : DLG A) : Prop := forall x a x', m x = Ok (a, x') ->
  (exists n, x'.1 = set_net n x.1 /\ m_routeUri n = m_routeUri (d_net x.1)) /\ st_legs x'.2 = st_legs x.2 /\
  st_timers x'.2 = st_timers x.2 /\ st_cells x'.2 = st_cells x.2.

Lemma net_only_refl (x : SipDialog * stack) : exists n, x.1 = set_net n x.1 /\ m_routeUri n = m_routeUri (d_net x.1).
Proof. exists (d_net x.1). by destruct x as [[] ?]. Qed.
Lemma net_only_ret {A} (a : A) : net_only (mret a).
Proof. intros x b x' [= <- <-]. split; [apply net_only_refl|done]. Qed.
Lemma net_only_get : net_only get.
Proof. intros x b x' [= <- <-]. split; [apply net_only_refl|done]. Qed.
Lemma net_only_fail {A} f : net_only (fail f : DLG A).
Proof. by intros x a x'. Qed.
Lemma net_only_bind {A B} (m : DLG A) (k : A -> DLG B) : net_only m -> (forall a, net_only (k a)) -> net_only (m ≫= k).
Proof.
  intros Hm Hk x b x' (a & x1 & E1 & E2)%M_bind_inv.
  destruct (Hm _ _ _ E1) as ((n1 & N1 & R1) & L1 & T1 & C1). destruct (Hk a _ _ _ E2) as ((n2 & N2 & R2) & L2 & T2 & C2).
  split; [|split_and!; congruence]. exists n2. rewrite N2, N1 in *. split; [done|]. by rewrite R2.
Qed.
Lemma net_only_net f : (forall n, m_routeUri (f n) = m_routeUri n) -> net_only (on_net_group f).
Proof. intros Hf x a x' [= <- <-]. split; [|done]. exists (f (d_net x.1)). by rewrite Hf. Qed.
Lemma net_only_stk {A} (m : ST A) :
  (forall s a s', m s = Ok (a, s') -> st_legs s' = st_legs s /\ st_timers s' = st_timers s /\ st_cells s' = st_cells s) ->
  net_only (stk m).
Proof.
  intros Hm x a x'. unfold stk, zoom. destruct (m x.2) as [[b s']|] eqn:E; [|done]. intros [= <- <-].
  split; [exact (net_only_refl x)|]. cbn. by apply (Hm _ b).
Qed.
Lemma net_only_unref t : net_only (stk (tport_unref t)).
Proof. apply net_only_stk. intros s a s'. unfold tport_unref. destruct (refs_of s t); [done|]. by intros [= <- <-]. Qed.
Lemma net_only_setTport t : net_only (setTport t).
Proof.
  unfold setTport, self. apply net_only_bind; [apply net_only_bind; [apply net_only_get|intros; apply net_only_ret]|]. intros d.
  apply net_only_bind; [destruct (m_tp _); [apply net_only_unref|apply net_only_ret]|]. intros _.
  apply net_only_bind; [apply net_only_stk; by intros s a s' [= <- <-]|]. intros _. by apply net_only_net.
Qed.
Lemma net_only_getTport : net_only getTport.
Proof.
  assert (Hso : forall q, net_only (stk (nta_outgoing_transport q))).
  { intros q. apply net_only_stk. intros s a s'. unfold nta_outgoing_transport, mbind, M_bind, get, deref, fail.
    destruct (st_orqs s !! q) as [[t|]|]; [|by intros [= <- <-]|done]. by intros [= <- <-]. }
  assert (Hd : forall q, net_only (stk (nta_outgoing_destroy q))).
  { intros q. apply net_only_stk. intros s a s'. unfold nta_outgoing_destroy, mbind, M_bind, get, deref, fail, modify.
    destruct (st_orqs s !! q); [|done]. by intros [= <- <-]. }
  unfold getTport, checkTportState.
  unfold self. repeat first [progress intros | apply net_only_setTport | apply net_only_bind | apply net_only_ret | apply net_only_get | apply net_only_net; done
    | apply net_only_unref | apply net_only_setTport | apply Hso | apply Hd
    | match goal with |- net_only (match ?x with _ => _ end) => destruct x end | apply net_only_refl ].
Qed.
End tport.

(** ** What a request of the server itself leaves alone *)

Definition core (w : SipDialogController) :=
  (dc_irqs w, dc_rels w, dc_iips w, dc_inProgress w, dc_rips w, dc_txn2irq w, dc_timerD w, dc_armed w, dc_timeouts w,
   dc_stable w, (st_legs (dc_stack w), st_timers (dc_stack w), st_cells (dc_stack w))).
(** From [w] to [w'] of the tables and the dialogs only the connection and
    the cached id of the dialog [p] change. *)
Record beside (p : positive) (w w' : SipDialogController) : Prop := Beside {
  bs_core : core w' = core w;
  bs_dialog d c : dc_dialogs w !! p = Some (d, c) -> exists d', dc_dialogs w' !! p = Some (d', c) /\
    m_leg d' = m_leg d /\ m_routeUri (d_net d') = m_routeUri (d_net d) /\ (getDialogId d').1 = (getDialogId d).1;
  bs_others q : q ≠ p -> dc_dialogs w' !! q = dc_dialogs w !! q;
}.
Lemma beside_refl p w : beside p w w.
Proof. split; [done| |done]. intros d c E. by exists d. Qed.
Lemma beside_trans p w1 w2 w3 : beside p w1 w2 -> beside p w2 w3 -> beside p w1 w3.
Proof.
  intros [C1 D1 O1] [C2 D2 O2]. split; [congruence| |].
  - intros d c Hp. destruct (D1 d c Hp) as (d1 & Hp1 & ? & ? & ?). destruct (D2 d1 c Hp1) as (d2 & Hp2 & ? & ? & ?).
    exists d2. split_and!; congruence.
  - intros q Hq. by rewrite O2, O1.
Qed.
Lemma core_eqs w w' : core w' = core w ->
  dc_irqs w' = dc_irqs w /\ dc_iips w' = dc_iips w /\ dc_inProgress w' = dc_inProgress w /\ dc_armed w' = dc_armed w /\
  dc_stable w' = dc_stable w /\ st_legs (dc_stack w') = st_legs (dc_stack w) /\ forall k, live w' k = live w k.
Proof. unfold core. intros [=]. split_and!; [done..|]. by intros []. Qed.
Lemma beside_back p w w' x : beside p w w' -> dc_dialogs w !! p = Some x ->
  forall q y', dc_dialogs w' !! q = Some y' -> exists y, dc_dialogs w !! q = Some y /\ y'.2 = y.2.
Proof.
  intros [_ D O] Hp q y' Hq. destruct (decide (q = p)) as [->|Hne]; [|rewrite O in Hq by done; eauto].
  destruct x as [d c]. destruct (D d c Hp) as (d' & Hp' & _). exists (d, c). by simplify_eq.
Qed.
Lemma beside_fwd p w w' : beside p w w' ->
  forall q y, dc_dialogs w !! q = Some y -> exists y', dc_dialogs w' !! q = Some y' /\ y'.2 = y.2.
Proof.
  intros [_ D O] q [d c] Hq. destruct (decide (q = p)) as [->|Hne]; [|exists (d, c); by rewrite O].
  destruct (D d c Hq) as (d' & Hp' & _). by exists (d', c).
Qed.
Lemma beside_timers_wf p w w' x : timers_wf w -> dc_dialogs w !! p = Some x -> beside p w w' -> timers_wf w'.
Proof.
  intros Hw Hp Hb. destruct (core_eqs w w' (bs_core _ _ _ Hb)) as (E1 & E2 & E3 & E4 & _ & _ & _).
  apply (timers_wf_same w w' Hw E4).
  - intros q y' Hq. destruct (beside_back p w w' x Hb Hp q y' Hq) as (y & Hy & E). exists y. rewrite E. eauto.
  - intros q y Hq. destruct (beside_fwd p w w' Hb q y Hq) as (y' & Hy & E). exists y'. by rewrite E.
  - intros. by rewrite E1.
  - intros q i. rewrite E2, E3. eauto.
Qed.
Lemma same_iip_wf w w' :
  iip_wf w -> dc_irqs w' = dc_irqs w -> dc_iips w' = dc_iips w -> dc_inProgress w' = dc_inProgress w ->
  (forall k, live w' k = live w k) -> (forall q, is_Some (dc_dialogs w !! q) -> is_Some (dc_dialogs w' !! q)) -> iip_wf w'.
Proof.
  intros Hw E1 E2 E3 Hl Hd. apply (iip_wf_shrink w w' Hw); rewrite ?E2, ?E3; [|done|apply Hw| |by rewrite E1|done].
  - destruct (wf_owned w Hw) as [A B C]. split; [done| |done]. intros. rewrite Hl. eauto.
  - intros q i' _ Hi. exists i'. by split.
Qed.
Lemma beside_iip_wf p w w' : iip_wf w -> beside p w w' -> iip_wf w'.
Proof.
  intros Hw Hb. destruct (core_eqs w w' (bs_core _ _ _ Hb)) as (E1 & E2 & E3 & _ & _ & _ & El).
  apply (same_iip_wf w w' Hw E1 E2 E3 El).
  intros q [y Hq]. destruct (beside_fwd p w w' Hb q y Hq) as (y' & Hy & _). by eexists.
Qed.

(** ** A BYE that the server sends itself *)

Section bye.
Context `{SofiaTport} `{NtaAgent}.

Lemma net_run_ok {A} (m : DLG A) p d c w :
  net_only m -> balanced m -> dc_dialogs w !! p = Some (d, c) -> dialog_ok d (dc_stack w) ->
  exists a w' d', on_dlg p m w = Ok (a, w') /\ beside p w w' /\ dc_clients w' = dc_clients w /\
    dc_events w' = dc_events w /\ dc_inputs w' = dc_inputs w /\ dc_dialogs w' !! p = Some (d', c) /\ dialog_ok d' (dc_stack w') /\
    exists n, d' = set_net n d.
Proof.
  intros Hm Hb Hp Hok. destruct (Hb d (dc_stack w) Hok) as (tp & d' & s' & E & Hok' & _).
  destruct (Hm _ _ _ E) as ((n & En & Er) & El & Et & Ec). cbn [fst snd] in *.
  eexists tp, _, d'. split; [by apply (on_dlg_ok p d c)|]. split; [split|].
  - unfold core. cbn. by rewrite El, Et, Ec.
  - intros d1 c1 Hd1. simplify_eq. exists (set_net n d). split; [apply lookup_insert_eq|]. split_and!; [done|done|].
    unfold getDialogId. cbn. by destruct (String.eqb _ _).
  - intros q Hq. cbn. by rewrite lookup_insert_ne.
  - split_and!; [done..|apply lookup_insert_eq|done|by exists n].
Qed.
Lemma getTport_run p d c w :
  dc_dialogs w !! p = Some (d, c) -> dialog_ok d (dc_stack w) ->
  exists tp w', on_dlg p getTport w = Ok (tp, w') /\ beside p w w' /\ dc_clients w' = dc_clients w /\
    dc_events w' = dc_events w /\ dc_inputs w' = dc_inputs w.
Proof. intros Hp Hok. destruct (net_run_ok getTport p d c w net_only_getTport balanced_getTport Hp Hok) as (tp & w' & d' & ? & ? & ? & ? & ? & _). by exists tp, w'. Qed.

(** The transaction of a request that the stack makes. *)
Definition request_sent (leg : positive) (m : sip_method_t) (route : string) (tp : option positive) (cr : created)
    (w : SipDialogController) : SipDialogController :=
  let q := fresh_addr (st_orqs (dc_stack w)) in
  on_dc_events (fun l => l ++ [SentRequest q leg m route "" tp]) (on_dc_sent (insert q cr) (on_dc_stack (on_orqs (insert q (cr_tport cr)))
    (on_dc_inputs (fun i => Inputs (in_uuids i) (in_rands i) (tail (in_creates i)) (in_replies i)) w))).
Lemma tcreate_run leg m route tp cr w :
  leg ∈ st_legs (dc_stack w) -> default None (head (in_creates (dc_inputs w))) = Some cr ->
  nta_outgoing_tcreate leg route m "" tp w = Ok (Some (fresh_addr (st_orqs (dc_stack w))), request_sent leg m route tp cr w).
Proof.
  intros Hl Hc. unfold nta_outgoing_tcreate. mstep. rewrite bool_decide_eq_true_2 by done. unfold next_create. mstep.
  rewrite Hc. done.
Qed.
Lemma tcreate_fails leg m route tp w :
  leg ∈ st_legs (dc_stack w) -> default None (head (in_creates (dc_inputs w))) = None ->
  nta_outgoing_tcreate leg route m "" tp w =
    Ok (None, on_dc_inputs (fun i => Inputs (in_uuids i) (in_rands i) (tail (in_creates i)) (in_replies i)) w).
Proof.
  intros Hl Hc. unfold nta_outgoing_tcreate. mstep. rewrite bool_decide_eq_true_2 by done. unfold next_create. mstep.
  rewrite Hc. done.
Qed.

Lemma getDialogId_run p d c w :
  dc_dialogs w !! p = Some (d, c) ->
  dlg_getDialogId p w = Ok ((getDialogId d).1, on_dc_dialogs (insert p ((getDialogId d).2, c)) w).
Proof. intros Hp. unfold dlg_getDialogId. rewrite (on_dlg_ok p d c _ (getDialogId d).1 (getDialogId d).2 (dc_stack w)); [|done|done]. by rewrite on_dc_stack_id. Qed.
Lemma getDialogId_again d : m_leg (getDialogId d).2 = m_leg d /\ m_routeUri (d_net (getDialogId d).2) = m_routeUri (d_net d) /\
  (getDialogId (getDialogId d).2).1 = (getDialogId d).1.
Proof.
  unfold getDialogId. destruct (String.eqb (m_dialogId (d_ids d)) "") eqn:E; cbn; [|by rewrite E].
  split_and!; [done..|]. match goal with |- fst (if ?b then _ else _) = _ => by destruct b end.
Qed.
Lemma beside_getDialogId p d c w : dc_dialogs w !! p = Some (d, c) -> beside p w (on_dc_dialogs (insert p ((getDialogId d).2, c)) w).
Proof.
  intros Hp. split; [done| |].
  - intros d1 c1 Hd. simplify_eq. exists (getDialogId d).2. split; [apply lookup_insert_eq|]. apply getDialogId_again.
  - intros q Hq. cbn. by rewrite lookup_insert_ne.
Qed.

Lemma route_dialog_unlocked n raw meta sip t d : unlocked_ok (route_request_inside_dialog n raw meta sip t d).
Proof.
  unfold route_request_inside_dialog, findClientForDialog, findClientForNetTransaction, find_in, or_else, post,
    addNetTransaction, removeDialog; lock_tac.
Qed.
Lemma clients_ok {A} (m : CC A) a cc w : m (dc_clients w) = Ok (a, cc) -> clients m w = Ok (a, on_dc_clients (fun _ => cc) w).
Proof. intros E. unfold clients, zoom. by rewrite E. Qed.

Lemma getRouteUri_run p d c w : dc_dialogs w !! p = Some (d, c) -> dlg_getRouteUri p w = Ok (m_routeUri (d_net d), w).
Proof. intros Hp. unfold dlg_getRouteUri. by rewrite (M_bind_ok _ _ _ _ _ (dlg_self_ok p d c w Hp)). Qed.
(** The BYE is created, shown to the application, and left to the stack. *)
Definition send_bye (leg p : positive) (none then_ : DC unit) : DC unit :=
  routeUri ← dlg_getRouteUri p;
  tp ← on_dlg p getTport;
  orq ← nta_outgoing_tcreate leg routeUri sip_method_bye "" tp;
  match orq with
  | None => none
  | Some orq => _ ← announce_bye (Some orq) p; _ ← outgoing_destroy orq; then_
  end.
(** Its outcome, before [none] or [then_]. *)
Record bye_sent (leg p : positive) (d : SipDialog) (cr : created) (w w' : SipDialogController) : Prop := ByeSent {
  by_beside : beside p w w';
  by_event : exists q tp, dc_events w' = dc_events w ++ [SentRequest q leg sip_method_bye (m_routeUri (d_net d)) "" tp] /\
    st_orqs (dc_stack w') !! q = None;
  by_client : exists r routed, route_request_inside_dialog r (cr_encoded cr) (cr_meta cr) bye_request "unsolicited" (getDialogId d).1
    (dc_clients w) = Ok (routed, dc_clients w');
  by_lock : m_lock (dc_clients w') = false;
}.
Lemma send_bye_ok leg p d c cr none then_ w :
  dc_dialogs w !! p = Some (d, c) -> dialog_ok d (dc_stack w) -> m_leg d = Some leg -> m_lock (dc_clients w) = false ->
  default None (head (in_creates (dc_inputs w))) = Some cr ->
  exists w', bye_sent leg p d cr w w' /\ send_bye leg p none then_ w = then_ w'.
Proof.
  intros Hp Hok Hleg Hlk Hc. pose proof (ok_leg _ _ Hok leg Hleg) as Hl.
  destruct (getTport_run p d c w Hp Hok) as (tp & w1 & E1 & B1 & C1 & V1 & I1).
  unfold send_bye. rewrite (M_bind_ok _ _ _ _ _ (getRouteUri_run p d c w Hp)), (M_bind_ok _ _ _ _ _ E1).
  destruct (core_eqs w w1 (bs_core _ _ _ B1)) as (_ & _ & _ & _ & _ & El & _).
  rewrite (M_bind_ok _ _ _ _ _ (tcreate_run leg _ _ tp cr w1 ltac:(by rewrite El) ltac:(by rewrite I1))).
  set (q := fresh_addr _). set (w2 := request_sent _ _ _ _ _ w1).
  assert (beside p w w2) as B2. { eapply beside_trans; [exact B1|]. by split; [|intros d1 c1 ?; exists d1|]. }
  destruct (bs_dialog _ _ _ B2 d c Hp) as (d2 & Hp2 & _ & _ & Eid).
  assert (clients_of : dc_clients w2 = dc_clients w) by done.
  destruct (route_dialog_unlocked (default 0 (head (in_rands (dc_inputs w2)))) (cr_encoded cr) (cr_meta cr) bye_request
    "unsolicited" (getDialogId d2).1 (dc_clients w2)) as (routed & cc & Er & Hl'); [by rewrite clients_of|].
  set (w3 := on_dc_dialogs (insert p ((getDialogId d2).2, c)) w2).
  set (w3' := on_dc_inputs (fun i => Inputs (in_uuids i) (tail (in_rands i)) (in_creates i) (in_replies i)) w3).
  set (w4 := on_dc_clients (fun _ => cc) w3').
  assert (announce_bye (Some q) p w2 = Ok (q, w4)) as Ea.
  { unfold announce_bye. mstep. rewrite (M_bind_ok _ _ w2 cr w2); cycle 1.
    { unfold sent_of. rewrite (M_bind_ok _ _ _ _ _ (live_orq_ok q w2 ltac:(eexists; apply lookup_insert_eq))). mstep.
      unfold deref. cbn -[lookup insert]. by rewrite lookup_insert_eq. }
    rewrite (M_bind_ok _ _ _ _ _ (getDialogId_run p d2 c w2 Hp2)). fold w3. unfold next_rand at 1. mstep.
    fold w3'. by rewrite (M_bind_ok _ _ _ _ _ (clients_ok _ routed cc w3' Er)). }
  rewrite (M_bind_ok _ _ _ _ _ Ea), (M_bind_ok _ _ _ _ _ (outgoing_destroy_live q w4 ltac:(eexists; apply lookup_insert_eq))).
  eexists. split; [|done]. split.
  - eapply beside_trans; [exact B2|]. eapply beside_trans; [by apply (beside_getDialogId p d2 c)|]. fold w3.
    split; [done| |done]. intros d1 c1 ?. by exists d1.
  - exists q, tp. split; [cbn; by rewrite V1|]. apply lookup_delete_eq.
  - eexists _, routed. rewrite <- Eid, <- clients_of. exact Er.
  - done.
Qed.
Lemma send_bye_fails leg p d c none then_ w :
  dc_dialogs w !! p = Some (d, c) -> dialog_ok d (dc_stack w) -> m_leg d = Some leg ->
  default None (head (in_creates (dc_inputs w))) = None ->
  exists w', beside p w w' /\ dc_events w' = dc_events w /\ dc_clients w' = dc_clients w /\ send_bye leg p none then_ w = none w'.
Proof.
  intros Hp Hok Hleg Hc. pose proof (ok_leg _ _ Hok leg Hleg) as Hl.
  destruct (getTport_run p d c w Hp Hok) as (tp & w1 & E1 & B1 & C1 & V1 & I1).
  unfold send_bye. rewrite (M_bind_ok _ _ _ _ _ (getRouteUri_run p d c w Hp)), (M_bind_ok _ _ _ _ _ E1).
  destruct (core_eqs w w1 (bs_core _ _ _ B1)) as (_ & _ & _ & _ & _ & El & _).
  rewrite (M_bind_ok _ _ _ _ _ (tcreate_fails leg _ _ tp w1 ltac:(by rewrite El) ltac:(by rewrite I1))).
  eexists (on_dc_inputs _ w1). split_and!; [|exact V1|exact C1|done].
  eapply beside_trans; [exact B1|]. split; [done| |done]. intros d1 c1 ?. by exists d1.
Qed.
End bye.

(** ** Clearing an invite and the timers *)

Lemma cleared_timers_wf p i w w' :
  timers_wf w -> iip_wf w -> p ∈ dc_inProgress w -> dc_iips w !! p = Some i -> cleared p i w w' -> timers_wf w'.
Proof.
  intros Hw Hi Hm Hp [C1 C2 C3 _ _ _ C7 (Ea & _)].
  assert (forall q y', dc_dialogs w' !! q = Some y' -> exists y, dc_dialogs w !! q = Some y /\
    (forall t, timer_handle t y'.2 = timer_handle t y.2) /\
    (y' = y /\ (q ≠ iip_dlg i \/ iip_irq i = None) \/ m_irqInvite y'.2 = None)) as Hback.
  { intros q y' Hq. rewrite C7 in Hq. destruct (iip_irq i) as [r|]; [|exists y'; naive_solver].
    destruct (decide (q = iip_dlg i)) as [->|Hne].
    - rewrite lookup_alter_eq in Hq. destruct (dc_dialogs w !! iip_dlg i) as [y|]; [|done]. injection Hq as <-.
      exists y. split_and!; [done|by intros []|by right].
    - rewrite lookup_alter_ne in Hq by done. exists y'. naive_solver. }
  apply (timers_wf_same w w' Hw Ea).
  - intros q y' Hq. destruct (Hback q y' Hq) as (y & Hy & Ht & [[-> _]|Hn]); exists y; split_and!; auto.
  - intros q y Hq. rewrite C7. destruct (iip_irq i) as [r|]; [|by exists y].
    destruct (decide (q = iip_dlg i)) as [->|Hne].
    + rewrite lookup_alter_eq, Hq. eexists. split; [done|]. by intros [].
    + rewrite lookup_alter_ne by done. by exists y.
  - intros q y' r Hq Hr Hlive. rewrite C3, elem_of_difference, elem_of_list_to_set. split; [done|].
    destruct (iip_irq i) as [r'|] eqn:Er; cbn; [|apply not_elem_of_nil]. intros ->%list_elem_of_singleton.
    destruct (Hback q y' Hq) as (y & Hy & _ & [[-> [Hne|?]]|Hn]); [|done|congruence].
    destruct y as [d c]. destruct (tw_irq w Hw q d c r' Hy Hr) as [_ Hown]. by apply Hne, eq_sym, (Hown p i).
  - intros q j Hq Hj. assert (q ≠ p) as Hne by (intros ->; apply C2 in Hq as [_ Hq]; by apply (Hq i)).
    rewrite C1, lookup_insert_ne in Hj by done. exists j. apply C2 in Hq as [Hq _]. done.
Qed.
(** The leg's invite is cleared, if there is one. *)
Lemma IIP_Clear_leg_ok leg w :
  iip_wf w -> exists w', IIP_Clear_leg leg w = Ok (tt, w') /\ iip_wf w' /\ (timers_wf w -> timers_wf w') /\
    ((w' = w /\ forall q i, q ∈ dc_inProgress w -> dc_iips w !! q = Some i -> iip_leg i ≠ leg) \/
     exists p i, p ∈ dc_inProgress w /\ dc_iips w !! p = Some i /\ iip_leg i = leg /\ cleared p i w w').
Proof.
  intros Hw. unfold IIP_Clear_leg. destruct (iip_find_spec (fun i => bool_decide (iip_leg i = leg)) w) as (o & E & Ho).
  unfold IIP_FindByLeg. rewrite (M_bind_ok _ _ _ _ _ E). destruct o as [p|].
  - destruct Ho as (i & Hp & Hi & El%bool_decide_eq_true). destruct (IIP_Clear_ok w p i Hw Hp Hi) as (w' & Ec & C).
    exists w'. split_and!; [done|by eapply cleared_wf|intros; by eapply cleared_timers_wf|right; eauto 10].
  - exists w. split_and!; [done..|]. left. split; [done|]. intros q i Hq Hi. by apply (bool_decide_eq_false_1 _ (Ho q i Hq Hi)).
Qed.

(** ** Timer H goes off *)

Section timerH.
Context `{SofiaTport} `{NtaAgent}.

(** The dialog's timers and transaction are gone. *)
Definition quiet (p : positive) (w : SipDialogController) : Prop :=
  exists d c, dc_dialogs w !! p = Some (d, c) /\ m_timerG c = None /\ m_timerH c = None /\ m_irqInvite c = None.

Lemma delete_without h o (m : gmap positive (string * timer_fn * Z)) : delete h (without o m) = without o (delete h m).
Proof. destruct o; [|done]. cbn. apply delete_delete. Qed.
(** Up to the clearing of the invite. *)
Lemma end_timers_run {A} h irq tp p q ms d c w (k : DC A) :
  timers_wf w -> dc_dialogs w !! p = Some (d, c) -> dc_armed w !! h = Some (q, endRetransmitFinalResponse_fn irq tp p, ms) ->
  (_ ← stop_timerG p; _ ← on_ctl p (set_timerH None); _ ← on_ctl p (set_irqInvite None); k) (on_dc_armed (delete h) w) =
    k (timers_cleared p d c w).
Proof.
  intros Hw Hp Ha. destruct (tw_armed w Hw TH h q irq tp p ms Ha) as (_ & d1 & c1 & Hp1 & HH). cbn in HH. simplify_eq.
  set (wa := on_dc_armed (delete h) w).
  assert (stop_timerG p wa = Ok (tt, on_dc_dialogs (insert p (d, set_timerG None c)) (on_dc_armed (without (m_timerG c)) wa))) as Est.
  { unfold stop_timerG. rewrite (M_bind_ok _ _ _ _ _ (dlg_ctl_ok p d c wa Hp)).
    destruct (m_timerG c) as [g|] eqn:Eg.
    - destruct (tw_handle w Hw TG p d c g Hp Eg) as (irq' & tp' & ms' & Hg).
      erewrite M_bind_ok; cycle 1.
      { eapply removeTimer_ok. cbn -[delete]. rewrite lookup_delete_ne; [exact Hg|]. intros ->. by eapply handles_differ. }
      by rewrite (on_ctl_ok p d c).
    - rewrite on_dc_armed_id, set_timerG_none, on_dc_dialogs_id by done. done. }
  rewrite (M_bind_ok _ _ _ _ _ Est), (M_bind_ok _ _ _ _ _ (on_ctl_ok p d (set_timerG None c) _ _ (lookup_insert_eq _ _ _))).
  rewrite (M_bind_ok _ _ _ _ _ (on_ctl_ok p d (set_timerH None (set_timerG None c)) _ _ (lookup_insert_eq _ _ _))).
  f_equal. unfold timers_cleared, wa. rewrite HH. unfold on_dc_dialogs, on_dc_armed. cbn -[insert without].
  rewrite !insert_insert_eq. f_equal. by rewrite <- delete_without.
Qed.

(** What timer H leaves behind: no timer or transaction in the dialog, no
    invite on its leg, the dialog out of the container. *)
Record call_ended (leg p : positive) (w w' : SipDialogController) : Prop := CallEnded {
  ce_quiet : quiet p w';
  ce_armed g e : dc_armed w' !! g = Some e <-> dc_armed w !! g = Some e /\ timer_dialog e.1.2 ≠ Some p;
  ce_leg q i : q ∈ dc_inProgress w' -> dc_iips w' !! q = Some i -> iip_leg i ≠ Some leg;
  ce_irq q i r : q ∈ dc_inProgress w -> dc_iips w !! q = Some i -> iip_leg i = Some leg -> iip_irq i = Some r ->
    (forall q' i', q' ∈ dc_inProgress w -> dc_iips w !! q' = Some i' -> iip_leg i' = Some leg -> q' = q) -> r ∉ dc_irqs w';
  ce_stable : dc_stable w' = SD_Clear_leg (Some leg) (dc_stable w);
}.

(** After the invite is cleared. *)
Record invite_ended (leg p : positive) (d : SipDialog) (w w' : SipDialogController) : Prop := InviteEnded {
  ie_timers : timers_wf w';
  ie_iips : iip_wf w';
  ie_dialog : exists c, dc_dialogs w' !! p = Some (d, c) /\ m_timerG c = None /\ m_timerH c = None /\ m_irqInvite c = None;
  ie_armed g e : dc_armed w' !! g = Some e <-> dc_armed w !! g = Some e /\ timer_dialog e.1.2 ≠ Some p;
  ie_leg q i : q ∈ dc_inProgress w' -> dc_iips w' !! q = Some i -> iip_leg i ≠ Some leg;
  ie_irq q i r : q ∈ dc_inProgress w -> dc_iips w !! q = Some i -> iip_leg i = Some leg -> iip_irq i = Some r ->
    (forall q' i', q' ∈ dc_inProgress w -> dc_iips w !! q' = Some i' -> iip_leg i' = Some leg -> q' = q) -> r ∉ dc_irqs w';
  ie_rest : dc_stable w' = dc_stable w /\ dc_events w' = dc_events w /\ dc_stack w' = dc_stack w /\
    dc_clients w' = dc_clients w /\ dc_inputs w' = dc_inputs w;
}.
Lemma end_invite leg p d c w :
  timers_wf w -> iip_wf w -> dc_dialogs w !! p = Some (d, c) ->
  exists w', IIP_Clear_leg (Some leg) (timers_cleared p d c w) = Ok (tt, w') /\ invite_ended leg p d w w'.
Proof.
  intros Hw Hi Hp. set (w1 := timers_cleared p d c w). destruct (clearSipTimers_wf p d c w Hw Hp) as [Hw1 Ha1]. fold w1 in Hw1, Ha1.
  assert (iip_wf w1) as Hi1.
  { apply (same_iip_wf w w1 Hi eq_refl eq_refl eq_refl); [by intros []|]. intros q Hq. unfold w1. cbn -[insert]. apply lookup_insert_is_Some'. by right. }
  destruct (IIP_Clear_leg_ok (Some leg) w1 Hi1) as (w2 & E & Hi2 & Hw2 & [[-> Hno]|(q & i & Hq & Hqi & El & C)]); eexists; (split; [exact E|]).
  - split; [done..| |done|done| |done].
    + exists (no_timers c). split; [apply lookup_insert_eq|done].
    + intros q i r Hq Hqi El. by destruct (Hno q i Hq Hqi).
  - destruct C as [C1 C2 C3 C4 C5 C6 C7 (R1 & R2 & R3 & R4 & _)]. split; [auto|done| | | | |by split_and!].
    + assert (dc_dialogs w1 !! p = Some (d, no_timers c)) as Hp1 by apply lookup_insert_eq.
      rewrite C7. destruct (iip_irq i); [|by exists (no_timers c)].
      destruct (decide (p = iip_dlg i)) as [<-|Hne]; [rewrite lookup_alter_eq|rewrite lookup_alter_ne by done]; rewrite Hp1; eexists; by split.
    + intros g e. rewrite R1. apply Ha1.
    + intros q' i' Hq' Hi'. destruct (decide (q' = q)) as [->|Hne].
      * apply C2 in Hq' as [_ Hq']. by destruct (Hq' i).
      * rewrite C1, lookup_insert_ne in Hi' by done. apply C2 in Hq' as [_ Hq']. rewrite <- El. by apply Hq'.
    + intros q' i' r Hq' Hi' El' Er Hone. assert (q = q') as -> by (by apply (Hone q i)).
      assert (i' = i) as -> by (cbn in Hqi; congruence). rewrite C3, Er. cbn. set_solver.
Qed.
Lemma ended_beside leg p d w w1 w2 :
  invite_ended leg p d w w1 -> beside p w1 w2 ->
  let w' := on_dc_stable (SD_Clear_leg (Some leg)) w2 in call_ended leg p w w' /\ timers_wf w' /\ iip_wf w'.
Proof.
  intros [I1 I2 (c & Hp & HG & HH & HI) I4 I5 I6 (R1 & _)] Hb w'.
  destruct (core_eqs w1 w2 (bs_core _ _ _ Hb)) as (E1 & E2 & E3 & E4 & E5 & _ & El).
  pose proof (beside_timers_wf p w1 w2 _ I1 Hp Hb) as [Hh Ha Hi]. split_and!; [|by split|].
  - split; cbn; rewrite ?E1, ?E2, ?E3, ?E4, ?E5, ?R1; try done.
    destruct (bs_dialog _ _ _ Hb d c Hp) as (d' & Hp' & _). by exists d', c.
  - by apply (same_iip_wf w2 w' (beside_iip_wf p w1 w2 I2 Hb)).
Qed.

(** The BYE that was sent, if the stack made one. *)
Definition bye_outcome (leg : positive) (d : SipDialog) (w w' : SipDialogController) : Prop :=
  match default None (head (in_creates (dc_inputs w))) with
  | Some cr =>
    (exists bye tport, dc_events w' = dc_events w ++ [SentRequest bye leg sip_method_bye (m_routeUri (d_net d)) "" tport] /\
       st_orqs (dc_stack w') !! bye = None) /\
    exists r routed, route_request_inside_dialog r (cr_encoded cr) (cr_meta cr) bye_request "unsolicited" (getDialogId d).1
      (dc_clients w) = Ok (routed, dc_clients w')
  | None => dc_events w' = dc_events w /\ dc_clients w' = dc_clients w
  end.
Lemma timerH_run h irq tp p q ms d c leg w :
  timers_wf w -> iip_wf w -> m_lock (dc_clients w) = false ->
  dc_armed w !! h = Some (q, endRetransmitFinalResponse_fn irq tp p, ms) ->
  dc_dialogs w !! p = Some (d, c) -> dialog_ok d (dc_stack w) -> m_leg d = Some leg ->
  exists w1 w2, invite_ended leg p d w w1 /\ beside p w1 w2 /\ bye_outcome leg d w w2 /\
    timer_goes_off h w = Ok (tt, on_dc_stable (SD_Clear_leg (Some leg)) w2).
Proof.
  intros Hw Hi Hlk Ha Hp Hok Hleg. destruct (end_invite leg p d c w Hw Hi Hp) as (w1 & E1 & I).
  pose proof (ie_dialog _ _ _ _ _ I) as (c1 & Hp1 & _). destruct (ie_rest _ _ _ _ _ I) as (_ & R2 & R3 & R4 & R5).
  set (fin := modify (on_dc_stable (SD_Clear_leg (Some leg))) : DC unit).
  assert (timer_goes_off h w = send_bye leg p fin fin w1) as ->.
  { rewrite (goes_off_run _ _ _ Ha). unfold endRetransmitFinalResponse.
    rewrite (M_bind_ok _ _ _ _ _ (dlg_self_ok p d c (on_dc_armed (delete h) w) Hp)).
    rewrite (end_timers_run h irq tp p q ms d c w) by done. rewrite Hleg. by rewrite (M_bind_ok _ _ _ _ _ E1). }
  assert (dialog_ok d (dc_stack w1)) as Hok1 by (by rewrite R3). unfold bye_outcome. rewrite <- R5.
  destruct (default None (head (in_creates (dc_inputs w1)))) as [cr|] eqn:Ec.
  - destruct (send_bye_ok leg p d c1 cr fin fin w1) as (w2 & [B (bye & tport & Ev & Eq) Hcl _] & ->); [done|done|done|by rewrite R4|done|].
    exists w1, w2. split_and!; [done|done| |by rewrite <- R4|done]. exists bye, tport. by rewrite <- R2.
  - destruct (send_bye_fails leg p d c1 fin fin w1) as (w2 & B & Ev & Ecl & ->); [done..|].
    exists w1, w2. split_and!; [done|done|by rewrite <- R2|by rewrite <- R4|done].
Qed.

(** C12: When no ACK comes for a 200 OK and timer H goes off, timer G is
    disarmed, the INVITE's transaction is destroyed and its invite cleared; a
    BYE goes out on the dialog's leg, over its route and its current
    connection, and the client that owns the dialog receives it as an
    unsolicited request; the BYE's transaction is destroyed and the dialog
    leaves the container of stable dialogs. If the stack cannot make the BYE,
    all but the BYE is done. No step of it faults. *)
Theorem unacknowledged_call_ends h irq tp p q ms d c leg w :
  timers_wf w -> iip_wf w -> m_lock (dc_clients w) = false ->
  dc_armed w !! h = Some (q, endRetransmitFinalResponse_fn irq tp p, ms) ->
  dc_dialogs w !! p = Some (d, c) -> dialog_ok d (dc_stack w) -> m_leg d = Some leg ->
  exists w', timer_goes_off h w = Ok (tt, w') /\ call_ended leg p w w' /\ timers_wf w' /\ iip_wf w' /\
    match default None (head (in_creates (dc_inputs w))) with
    | Some cr =>
      (exists bye tport, dc_events w' = dc_events w ++ [SentRequest bye leg sip_method_bye (m_routeUri (d_net d)) "" tport] /\
         st_orqs (dc_stack w') !! bye = None) /\
      exists r routed, route_request_inside_dialog r (cr_encoded cr) (cr_meta cr) bye_request "unsolicited" (getDialogId d).1
        (dc_clients w) = Ok (routed, dc_clients w')
    | None => dc_events w' = dc_events w /\ dc_clients w' = dc_clients w
    end.
Proof.
  intros Hw Hi Hlk Ha Hp Hok Hleg. destruct (timerH_run h irq tp p q ms d c leg w) as (w1 & w2 & I & B & Ho & E); [done..|].
  destruct (ended_beside leg p d w w1 w2 I B) as (? & ? & ?). eexists. split; [exact E|]. by split_and!.
Qed.
End timerH.

(** ** Any order of operations *)

Section safety.
Context `{SofiaTport} `{NtaAgent}.

(** A 200 OK is sent; an ACK or a BYE arrives, or a CANCEL of the answered
    call ([ft_stop]); the invite is cleared; a timer goes off. *)
Inductive ft_op :=
  | ft_answer (irq tp p : positive)
  | ft_stop (p : positive)
  | ft_clear (q : positive)
  | ft_fire (h : positive).
Definition ft_run (op : ft_op) : DC unit :=
  match op with
  | ft_answer irq tp p => start_final_response_timers irq tp p
  | ft_stop p => clearSipTimers p
  | ft_clear q => IIP_Clear q
  | ft_fire h => timer_goes_off h
  end.
Definition ft_enabled (op : ft_op) (w : SipDialogController) : Prop :=
  match op with
  | ft_answer irq tp p => exists d c, dc_dialogs w !! p = Some (d, c) /\ m_timerG c = None /\ m_timerH c = None /\
      irq ∈ dc_irqs w /\ forall q i, q ∈ dc_inProgress w -> dc_iips w !! q = Some i -> iip_irq i = Some irq -> iip_dlg i = p
  | ft_stop p => is_Some (dc_dialogs w !! p)
  | ft_clear q => q ∈ dc_inProgress w
  | ft_fire h => exists q f ms p, dc_armed w !! h = Some (q, f, ms) /\ timer_dialog f = Some p /\
      (q = timer_queue TH -> m_lock (dc_clients w) = false /\
         forall d c, dc_dialogs w !! p = Some (d, c) -> dialog_ok d (dc_stack w) /\ is_Some (m_leg d))
  end.
(** The states of a server that starts with no such timer. *)
Inductive ft_reach : SipDialogController -> Prop :=
  | ft_start w :
      iip_wf w -> (forall p d c, dc_dialogs w !! p = Some (d, c) -> m_timerG c = None /\ m_timerH c = None /\ m_irqInvite c = None) ->
      (forall h e, dc_armed w !! h = Some e -> timer_dialog e.1.2 = None) -> ft_reach w
  | ft_step op w w' : ft_reach w -> ft_enabled op w -> ft_run op w = Ok (tt, w') -> ft_reach w'.

Lemma fire_dialog w h q f ms p :
  timers_wf w -> dc_armed w !! h = Some (q, f, ms) -> timer_dialog f = Some p ->
  exists t irq tp d c, f = timer_call t irq tp p /\ q = timer_queue t /\ dc_dialogs w !! p = Some (d, c) /\ timer_handle t c = Some h.
Proof.
  intros Hw Ha Hf. assert (exists t irq tp, f = timer_call t irq tp p) as (t & irq & tp & ->).
  { destruct f as [irq tp p'|irq tp p'|?|?]; cbn in Hf; try done; injection Hf as ->; [exists TG|exists TH]; eauto. }
  destruct (tw_armed w Hw t h q irq tp p ms Ha) as (-> & d & c & Hp & Hc). eauto 10.
Qed.
Lemma timers_cleared_iip_wf p d c w : iip_wf w -> dc_dialogs w !! p = Some (d, c) -> iip_wf (timers_cleared p d c w).
Proof.
  intros Hi Hp. apply (same_iip_wf w (timers_cleared p d c w) Hi eq_refl eq_refl eq_refl); [by intros []|]. intros q Hq.
  cbn -[insert]. apply lookup_insert_is_Some'. by right.
Qed.
Lemma ft_op_ok op w :
  timers_wf w -> iip_wf w -> ft_enabled op w -> exists w', ft_run op w = Ok (tt, w') /\ timers_wf w' /\ iip_wf w'.
Proof.
  intros Hw Hi. destruct op as [irq tp p|p|q|h]; cbn.
  - intros (d & c & Hp & HG & HH & Hr & Hown). exists (timers_started irq tp p d c w). split_and!; [by apply start_run|by apply started_wf|].
    unfold timers_started. destruct (tport_is_dgram tp); (eapply (same_iip_wf w); [exact Hi|done|done|done|by intros []|]);
      intros r Hr'; cbn -[insert]; rewrite !lookup_insert_is_Some'; tauto.
  - intros [[d c] Hp]. exists (timers_cleared p d c w). split_and!; [by apply clearSipTimers_run|by apply clearSipTimers_wf|by apply timers_cleared_iip_wf].
  - intros Hq. destruct (wf_objects w Hi q Hq) as [i Hqi]. destruct (IIP_Clear_ok w q i Hi Hq Hqi) as (w' & E & C).
    exists w'. split_and!; [done|by eapply cleared_timers_wf|by eapply cleared_wf].
  - intros (q & f & ms & p & Ha & Hf & HTH). destruct (fire_dialog w h q f ms p Hw Ha Hf) as (t & irq & tp & d & c & -> & -> & Hp & Hc).
    destruct t; cbn in Hc.
    + destruct (m_irqInvite c) as [cur|] eqn:Ec.
      * destruct (tw_irq w Hw p d c cur Hp Ec) as [Hcur _]. exists (retransmitted h irq tp p cur d c w).
        split_and!; [by eapply timerG_live_run| |].
        -- eapply arm_wf; [apply events_wf, disarm_wf; done|apply lookup_insert_eq|done].
        -- apply (same_iip_wf w (retransmitted h irq tp p cur d c w) Hi eq_refl eq_refl eq_refl); [by intros []|]. intros r Hr'. cbn -[insert]. rewrite !lookup_insert_is_Some'; tauto.
      * exists (timers_cleared p d c w). split_and!; [by eapply timerG_gone_run|by apply clearSipTimers_wf|by apply timers_cleared_iip_wf].
    + destruct (HTH eq_refl) as [Hlk Hok]. destruct (Hok d c Hp) as [Hd [leg Hl]].
      destruct (timerH_run h irq tp p "timerH" ms d c leg w) as (w1 & w2 & I & B & _ & E); [done..|].
      destruct (ended_beside leg p d w w1 w2 I B) as (_ & ? & ?). by eexists.
Qed.
Lemma ft_reach_wf w : ft_reach w -> timers_wf w /\ iip_wf w.
Proof.
  induction 1 as [w Hi Hd Ha|op w w' _ [Hw Hi] Hen E].
  - split; [split|done].
    + intros t p d c h Hp Hc. destruct (Hd p d c Hp) as (? & ? & ?). destruct t; cbn in Hc; congruence.
    + intros t h q irq tp p ms Hh. apply Ha in Hh. by destruct t.
    + intros p d c r Hp Hr. destruct (Hd p d c Hp) as (? & ? & ?). congruence.
  - destruct (ft_op_ok op w Hw Hi Hen) as (w1 & E1 & ? & ?). rewrite E in E1. injection E1 as <-. done.
Qed.

(** C5: Start timers G and H for 200 OKs, let ACKs, BYEs and CANCELs stop
    them, clear invites and let the timers go off, in any order: no operation
    faults (no timer is removed twice or from the wrong queue, no destroyed
    transaction is used), and afterwards the handle in a dialog is exactly the
    timer that is armed for it, and the transaction a dialog still points to
    is live. *)
Theorem final_response_timers_safe op w :
  ft_reach w -> ft_enabled op w ->
  exists w', ft_run op w = Ok (tt, w') /\
    (forall t p d c h, dc_dialogs w' !! p = Some (d, c) ->
       timer_handle t c = Some h <-> exists irq tp ms, dc_armed w' !! h = Some (timer_queue t, timer_call t irq tp p, ms)) /\
    (forall h e p, dc_armed w' !! h = Some e -> timer_dialog e.1.2 = Some p -> is_Some (dc_dialogs w' !! p)) /\
    (forall p d c r, dc_dialogs w' !! p = Some (d, c) -> m_irqInvite c = Some r -> r ∈ dc_irqs w').
Proof.
  intros [Hw Hi]%ft_reach_wf Hen. destruct (ft_op_ok op w Hw Hi Hen) as (w' & E & Hw' & _). exists w'. split_and!; [done|..].
  - intros t p d c h Hp. split; [exact (tw_handle _ Hw' t p d c h Hp)|]. intros (irq & tp & ms & Ha).
    destruct (tw_armed w' Hw' t h _ irq tp p ms Ha) as (_ & d' & c' & Hp' & Hc'). by simplify_eq.
  - intros h [[q f] ms] p Ha Hf. destruct (fire_dialog w' h q f ms p Hw' Ha Hf) as (t & irq & tp & d & c & _ & _ & Hp & _). by eexists.
  - intros p d c r Hp Hr. by destruct (tw_irq w' Hw' p d c r Hp Hr).
Qed.
End safety.
End timed.
