(* ===== verification/DialogHandlersCorrect.v ===== *)
(** What the handlers of messages inside a dialog do: an ACK ends the wait
    for it, and a response ends the request it answers. *)
From S2P Require Import Prelude CppString TextUtil SipTags ClientController ClientControllerCorrect TimerQueue Cdr PendingRequests SipDialog SipDialogCorrect SipTransports Connections DialogWorld InviteInProgress InviteInProgressCorrect TimerD TimerDCorrect DialogController DialogResponses DialogRequests DialogTimers DialogEnds.

Open Scope list_scope.

Section timed.
Context `{sutime : SuTime}.

(** ** ACK *)

Section ack.
Context `{SofiaTport} `{NtaAgent} `{TportTree} `{TportByName}.

Lemma route_ack_unlocked n raw meta t1 t2 d : unlocked_ok (route_ack_request_inside_dialog n raw meta t1 t2 d).
Proof.
  unfold route_ack_request_inside_dialog, findClientForDialog, findClientForNetTransaction, find_in, or_else, post,
    addNetTransaction, removeNetTransaction, removeDialog; lock_tac.
Qed.
Lemma route_ack_run sip txn p d c w :
  dc_dialogs w !! p = Some (d, c) -> m_lock (dc_clients w) = false ->
  exists w' r routed, route_ack sip txn p w = Ok (tt, w') /\ beside p w w' /\
    route_ack_request_inside_dialog r (rq_encoded sip) (rq_meta sip) txn (m_transactionId (d_ids d)) (getDialogId d).1 (dc_clients w)
      = Ok (routed, dc_clients w').
Proof.
  intros Hp Hlk. unfold route_ack, dlg_getTransactionId.
  erewrite M_bind_ok by (by rewrite (M_bind_ok _ _ _ _ _ (dlg_self_ok p d c w Hp))). cbn beta.
  rewrite (M_bind_ok _ _ _ _ _ (getDialogId_run p d c w Hp)). set (w1 := on_dc_dialogs _ w). unfold next_rand. mstep.
  set (w2 := on_dc_inputs _ w1). set (r := default 0 _).
  destruct (route_ack_unlocked r (rq_encoded sip) (rq_meta sip) txn (m_transactionId (d_ids d)) (getDialogId d).1 (dc_clients w2))
    as (routed & cc & E & _); [done|].
  rewrite (M_bind_ok _ _ _ _ _ (clients_ok _ routed cc w2 E)). eexists _, r, routed. split; [done|]. split; [|done].
  eapply beside_trans; [by apply (beside_getDialogId p d c)|]. split; [done| |done]. intros d1 c1 ?. by exists d1.
Qed.

(** The dialog that an ACK on [leg] is for, and the transaction id it is
    routed with: the invite in progress on the leg, or a stable dialog. *)
Definition ack_for (leg : positive) (own : string) (w : SipDialogController) (p : positive) (txn : string) : Prop :=
  (exists q i, q ∈ dc_inProgress w /\ dc_iips w !! q = Some i /\ iip_leg i = Some leg /\ iip_dlg i = p /\ iip_transactionId i = txn) \/
  ((forall q i, q ∈ dc_inProgress w -> dc_iips w !! q = Some i -> iip_leg i ≠ Some leg) /\
   SD_FindByLeg (Some leg) (dc_stable w) = Some p /\ txn = own).

(** The dialog's timers are cleared and the leg has no invite. *)
Record acknowledged_to (leg p : positive) (d : SipDialog) (w w' : SipDialogController) : Prop := AcknowledgedTo {
  ak_dialog : exists c, dc_dialogs w' !! p = Some (d, c) /\ m_timerG c = None /\ m_timerH c = None /\ m_irqInvite c = None;
  ak_armed g e : dc_armed w' !! g = Some e <-> dc_armed w !! g = Some e /\ timer_dialog e.1.2 ≠ Some p;
  ak_leg q i : q ∈ dc_inProgress w' -> dc_iips w' !! q = Some i -> iip_leg i ≠ Some leg;
  ak_irqs r : r ∈ dc_irqs w -> (forall q i, q ∈ dc_inProgress w -> dc_iips w !! q = Some i -> iip_leg i = Some leg -> iip_irq i ≠ Some r) ->
    r ∈ dc_irqs w';
  ak_clients : dc_clients w' = dc_clients w;
}.
Lemma cleared_to leg p d c w :
  timers_wf w -> dc_dialogs w !! p = Some (d, c) ->
  (forall q i, q ∈ dc_inProgress w -> dc_iips w !! q = Some i -> iip_leg i ≠ Some leg) ->
  acknowledged_to leg p d w (timers_cleared p d c w).
Proof.
  intros Hw Hp Hno. destruct (clearSipTimers_wf p d c w Hw Hp) as [_ Ha]. split; try done.
  exists (no_timers c). split; [apply lookup_insert_eq|done].
Qed.
Lemma findByLeg_run leg w : exists o, IIP_FindByLeg leg w = Ok (o, w) /\
    match o with
    | Some p => exists i, p ∈ dc_inProgress w /\ dc_iips w !! p = Some i /\ iip_leg i = leg
    | None => forall p i, p ∈ dc_inProgress w -> dc_iips w !! p = Some i -> iip_leg i ≠ leg
    end.
Proof.
  destruct (iip_find_spec (fun i => bool_decide (iip_leg i = leg)) w) as (o & E & Ho). exists o. split; [done|].
  destruct o as [p|].
  - destruct Ho as (i & ? & ? & ?%bool_decide_eq_true). by exists i.
  - intros p i Hp Hi. by apply (bool_decide_eq_false_1 _ (Ho p i Hp Hi)).
Qed.
Lemma acknowledged_ok leg txn w :
  timers_wf w -> iip_wf w ->
  (forall q i, q ∈ dc_inProgress w -> dc_iips w !! q = Some i -> iip_leg i = Some leg -> is_Some (dc_dialogs w !! iip_dlg i)) ->
  (forall p, SD_FindByLeg (Some leg) (dc_stable w) = Some p -> is_Some (dc_dialogs w !! p)) ->
  exists o w', acknowledged leg txn w = Ok (o, w') /\
    match o with
    | Some (t, p) => ack_for leg txn w p t /\ exists d c, dc_dialogs w !! p = Some (d, c) /\ acknowledged_to leg p d w w'
    | None => w' = w /\ forall p t, ~ ack_for leg txn w p t
    end.
Proof.
  intros Hw Hi Hdlg Hsd. unfold acknowledged. destruct (findByLeg_run (Some leg) w) as (o & E & Ho).
  rewrite (M_bind_ok _ _ _ _ _ E). destruct o as [q|].
  - destruct Ho as (i & Hq & Hqi & El). destruct (Hdlg q i Hq Hqi El) as [[d c] Hd].
    destruct (IIP_Clear_ok w q i Hi Hq Hqi) as (w1 & Ec & C). pose proof (cleared_timers_wf q i w w1 Hw Hi Hq Hqi C) as Hw1.
    destruct C as [C1 C2 C3 C4 C5 C6 C7 (R1 & _)].
    assert (exists c1, dc_dialogs w1 !! iip_dlg i = Some (d, c1)) as [c1 Hd1].
    { rewrite C7. destruct (iip_irq i); [rewrite lookup_alter_eq, Hd; by eexists|by exists c]. }
    assert (forall q' i', q' ∈ dc_inProgress w1 -> dc_iips w1 !! q' = Some i' -> iip_leg i' ≠ Some leg) as Hno.
    { intros q' i' Hq' Hi'. apply C2 in Hq' as [_ Hq']. destruct (decide (q' = q)) as [->|Hne]; [by destruct (Hq' i)|].
      rewrite C1, lookup_insert_ne in Hi' by done. rewrite <- El. by apply Hq'. }
    eexists _, _. split.
    { rewrite (M_bind_ok _ _ _ _ _ (iip_load_ok _ _ _ Hqi)), (M_bind_ok _ _ _ _ _ Ec).
      by rewrite (M_bind_ok _ _ _ _ _ (clearSipTimers_run _ d c1 w1 Hw1 Hd1)). }
    split; [left; eauto 10|]. exists d, c. split; [done|]. destruct (cleared_to leg _ d c1 w1 Hw1 Hd1 Hno) as [A1 A2 A3 A4 A5].
    split; [done| |done| |congruence].
    + intros g e. rewrite A2, R1. done.
    + intros r Hr Hne. apply A4; [|intros q' i' Hq' Hi' El'; by destruct (Hno q' i')]. rewrite C3, elem_of_difference, elem_of_list_to_set.
      split; [done|]. destruct (iip_irq i) as [r'|] eqn:Er; cbn; [|apply not_elem_of_nil]. intros ->%list_elem_of_singleton.
      by apply (Hne q i).
  - unfold findDialogByLeg. erewrite M_bind_ok; cycle 1.
    { rewrite (M_bind_ok _ _ _ _ _ E). mstep. reflexivity. }
    destruct (SD_FindByLeg (Some leg) (dc_stable w)) as [p|] eqn:Es.
    + destruct (Hsd p eq_refl) as [[d c] Hd]. eexists _, _.
      split; [by rewrite (M_bind_ok _ _ _ _ _ (clearSipTimers_run _ d c w Hw Hd))|].
      split; [by right|]. exists d, c. split; [done|by apply cleared_to].
    + eexists _, _. split; [done|]. split; [done|]. intros p t [(q & i & Hq & Hqi & El & _)|(_ & Hs & _)]; [by apply (Ho q i)|congruence].
Qed.

Lemma incoming_destroy_live irq w :
  irq ∈ dc_irqs w -> nta_incoming_destroy (Some irq) w = Ok (tt, on_dc_irqs (fun s => s ∖ {[irq]}) w).
Proof. intros Hr. unfold nta_incoming_destroy. mstep. by rewrite bool_decide_eq_true_2. Qed.

(** C11: An ACK inside a dialog ends the wait for it: whether its leg still has
    the invite in progress or only the stable dialog, timers G and H of that
    dialog are taken out (of no other), its pointer to the INVITE's
    transaction is cleared, the leg has no invite in progress any more, and
    the ACK is routed to the client of the dialog, with the transaction id of
    the invite if there was one. The ACK's own transaction is destroyed. An
    ACK for no dialog changes nothing else. No step faults. *)
Theorem ack_ends_wait leg irq sip txn w :
  timers_wf w -> iip_wf w -> m_lock (dc_clients w) = false -> irq ∈ dc_irqs w ->
  (forall q i, q ∈ dc_inProgress w -> dc_iips w !! q = Some i -> iip_leg i = Some leg ->
     is_Some (dc_dialogs w !! iip_dlg i) /\ iip_irq i ≠ Some irq) ->
  (forall p, SD_FindByLeg (Some leg) (dc_stable w) = Some p -> is_Some (dc_dialogs w !! p)) ->
  exists rc w', process_ack leg irq sip txn w = Ok (rc, w') /\ irq ∉ dc_irqs w' /\
    ((rc = 0%Z /\ exists p t d c, ack_for leg txn w p t /\ dc_dialogs w !! p = Some (d, c) /\ quiet p w' /\
        (forall g e, dc_armed w' !! g = Some e <-> dc_armed w !! g = Some e /\ timer_dialog e.1.2 ≠ Some p) /\
        (forall q i, q ∈ dc_inProgress w' -> dc_iips w' !! q = Some i -> iip_leg i ≠ Some leg) /\
        exists r routed, route_ack_request_inside_dialog r (rq_encoded sip) (rq_meta sip) t (m_transactionId (d_ids d)) (getDialogId d).1
          (dc_clients w) = Ok (routed, dc_clients w')) \/
     (rc = (-1)%Z /\ (forall p t, ~ ack_for leg txn w p t) /\ w' = on_dc_irqs (fun s => s ∖ {[irq]}) w)).
Proof.
  intros Hw Hi Hlk Hr Hdlg Hsd. destruct (acknowledged_ok leg txn w Hw Hi) as (o & w1 & E & Ho); [|done|].
  { intros q i Hq Hqi El. by apply (Hdlg q i). }
  unfold process_ack. rewrite (M_bind_ok _ _ _ _ _ E). destruct o as [[t p]|].
  - destruct Ho as (Hfor & d & c & Hp & [(c1 & Hp1 & HG & HH & HI) A2 A3 A4 A5]).
    destruct (route_ack_run sip t p d c1 w1 Hp1) as (w2 & r & routed & E2 & B & Er); [congruence|].
    destruct (core_eqs w1 w2 (bs_core _ _ _ B)) as (B1 & B2 & B3 & B4 & _).
    assert (irq ∈ dc_irqs w2) as Hr2. { rewrite B1. apply A4; [done|]. intros q i Hq Hqi El. by apply (Hdlg q i). }
    eexists _, _. split; [by rewrite (M_bind_ok _ _ _ _ _ E2), (M_bind_ok _ _ _ _ _ (incoming_destroy_live irq w2 Hr2))|].
    split; [cbn; set_solver|]. left. split; [done|]. exists p, t, d, c. split_and!; [done|done| | | |].
    + destruct (bs_dialog _ _ _ B d c1 Hp1) as (d2 & Hp2 & _). by exists d2, c1.
    + intros g e. cbn. by rewrite B4, A2.
    + cbn. by rewrite B2, B3.
    + exists r, routed. by rewrite <- A5.
  - destruct Ho as [-> Hno]. eexists _, _. split; [by rewrite (M_bind_ok _ _ _ _ _ (incoming_destroy_live irq w Hr))|].
    split; [cbn; set_solver|]. by right.
Qed.
End ack.

(** ** Responses inside a dialog *)

Section responses.
Context `{SofiaTport} `{NtaAgent} `{DialogConfig}.

(** Counting timeouts changes the counters, events and references only. *)
Definition kept (w : SipDialogController) :=
  (dc_rips w, dc_stable w, dc_clients w, dc_dialogs w, dc_timerD w, dc_armed w, dc_iips w, dc_inProgress w, dc_irqs w,
   dc_sent w, st_orqs (dc_stack w), (dc_inputs w, st_legs (dc_stack w))).
Lemma count_outcome_kept tp sip w :
  exists w', count_outcome tp sip w = Ok (tt, w') /\ dc_stack w' = dc_stack w /\ kept w' = kept w.
Proof.
  unfold count_outcome. destruct (negb (tport_is_secondary tp) || tport_is_udp tp); [by exists w|].
  destruct (is_timeout sip).
  - mstep. mstep. destruct (N.leb _ _); eexists; (split; [reflexivity|done]).
  - destruct (negb (is_internal sip)); eexists; (split; [reflexivity|done]).
Qed.
(** A reference taken and given back is nothing to a dialog. *)
Lemma dialog_ok_refs d s tp : dialog_ok d s -> dialog_ok d (on_refs (insert tp (refs_of s tp)) (on_refs (insert tp (S (refs_of s tp))) s)).
Proof.
  intros [Dt D2 D3 D4 D5 D6]. constructor; try done. intros t Ht. specialize (Dt t Ht). unfold refs_of in *. cbn.
  rewrite insert_insert_eq. destruct (decide (tp = t)) as [<-|]; [by rewrite lookup_insert_eq|by rewrite lookup_insert_ne].
Qed.
Lemma track_kept orq sip otp w :
  st_orqs (dc_stack w) !! orq = Some otp ->
  exists w', trackTportLiveness orq sip w = Ok (tt, w') /\ kept w' = kept w /\
    forall d, dialog_ok d (dc_stack w) -> dialog_ok d (dc_stack w').
Proof.
  intros Hq. unfold trackTportLiveness. destruct (N.eqb _ 0); [by exists w|]. mstep.
  destruct (negb (is_timeout sip) && bool_decide (dc_timeouts w = ∅)); [by exists w|].
  destruct otp as [tp|].
  - rewrite (M_bind_ok _ _ _ _ _ (on_stack_transport orq tp w Hq)). set (w1 := on_dc_stack _ w).
    destruct (count_outcome_kept tp sip w1) as (w2 & E & Es & Ek). rewrite (M_bind_ok _ _ _ _ _ E).
    rewrite (on_stack_unref tp (refs_of (dc_stack w) tp)); cycle 1.
    { rewrite Es. unfold refs_of at 1. cbn -[insert lookup]. by rewrite lookup_insert_eq. }
    eexists. split; [done|]. split; [unfold kept in *; cbn in *; by rewrite Ek|]. intros d Hd. cbn. rewrite Es. by apply dialog_ok_refs.
  - erewrite M_bind_ok; cycle 1.
    { unfold on_stack, zoom, nta_outgoing_transport. mstep. rewrite Hq. reflexivity. }
    cbn beta iota. eexists. split; [done|]. by destruct w.
Qed.
Lemma kept_eqs w w' : kept w' = kept w ->
  dc_rips w' = dc_rips w /\ dc_stable w' = dc_stable w /\ dc_clients w' = dc_clients w /\ dc_timerD w' = dc_timerD w /\
  dc_armed w' = dc_armed w /\ dc_sent w' = dc_sent w /\ st_orqs (dc_stack w') = st_orqs (dc_stack w).
Proof. unfold kept. intros [=]. by split_and!. Qed.

Lemma route_response_unlocked raw meta name status t d : unlocked_ok (route_response_inside_transaction raw meta name status t d).
Proof.
  unfold route_response_inside_transaction, findClientForAppTransaction, findClientForDialog, find_in, or_else, post,
    removeAppTransaction, addNetTransaction, removeDialog; lock_tac.
Qed.
Lemma clearRIP_live orq w :
  is_Some (st_orqs (dc_stack w) !! orq) ->
  clearRIP orq w = Ok (tt, on_dc_rips (delete orq) (on_dc_stack (on_orqs (delete orq)) w)).
Proof. intros Hq. unfold clearRIP. by rewrite (M_bind_ok _ _ _ _ _ (outgoing_destroy_live orq w Hq)). Qed.

(** Whether a response to the request ends the dialog. *)
Definition ends_dialog (sip : sip_response) (rip : RIP) : bool :=
  rip_bClearDialogOnResponse rip && negb (is_method sip sip_method_bye && (has_status sip 407 || has_status sip 401)).
Definition request_ended (orq : positive) (sip : sip_response) (rip : RIP) (w w' : SipDialogController) : Prop :=
  dc_rips w' = delete orq (dc_rips w) /\ st_orqs (dc_stack w') = delete orq (st_orqs (dc_stack w)) /\
  dc_stable w' = (if ends_dialog sip rip then SD_Clear_id (rip_dialogId rip) (dc_stable w) else dc_stable w) /\
  exists routed, route_response_inside_transaction (rs_encoded sip) (rs_meta sip) (cs_name sip) (rs_status sip)
    (rip_transactionId rip) (rip_dialogId rip) (dc_clients w) = Ok (routed, dc_clients w').
(** The end of the handler. *)
Lemma response_end orq sip rip w :
  is_Some (st_orqs (dc_stack w) !! orq) -> (ends_dialog sip rip = true -> rip_dialogId rip ≠ ""%string) ->
  (_ ← (if rip_bClearDialogOnResponse rip then
          if is_method sip sip_method_bye && (has_status sip 407 || has_status sip 401) then mret tt
          else if String.eqb (rip_dialogId rip) "" then fail AssertFail
          else modify (on_dc_stable (SD_Clear_id (rip_dialogId rip)))
        else mret tt);
   _ ← clearRIP orq; mret 0%Z) w =
  Ok (0%Z, on_dc_rips (delete orq) (on_dc_stack (on_orqs (delete orq))
    (on_dc_stable (fun s => if ends_dialog sip rip then SD_Clear_id (rip_dialogId rip) s else s) w))).
Proof.
  intros Hq Hid. unfold ends_dialog in *. set (b := is_method sip sip_method_bye && _) in *.
  set (w1 := on_dc_stable _ w). erewrite (M_bind_ok _ _ w tt w1).
  - by rewrite (M_bind_ok _ _ _ _ _ (clearRIP_live orq w1 Hq)).
  - destruct w, (rip_bClearDialogOnResponse rip); [|done]. destruct b; [done|]. cbn [negb andb] in *.
    destruct (String.eqb_spec (rip_dialogId rip) ""); [|done]. by destruct Hid.
Qed.

(** *** The 200 to a re-INVITE *)

Definition accepts_reinvite (sip : sip_response) : bool := is_method sip sip_method_invite && has_status sip 200.
Definition over_dgram (orq : positive) (w : SipDialogController) : bool :=
  match st_orqs (dc_stack w) !! orq with Some (Some tp) => tport_is_dgram tp | _ => false end.
(** The dialog whose session timer the response restarts. *)
Definition session_dialog (sip : sip_response) : DC (option positive) :=
  leg ← nta_leg_by_call_id (sip_call_id (rs_sip sip));
  match leg with Some leg => findDialogByLeg leg | None => mret None end.
(** What the handler does about timer D and the session timer relies on: no
    other INVITE with the same Call-ID and CSeq waits for its ACK, and the
    dialog is there. *)
Record reinvite_ready (orq : positive) (sip : sip_response) (w : SipDialogController) : Prop := {
  rr_timerD : over_dgram orq w = true -> exists c, dc_sent w !! orq = Some c /\ m_mapCallIdAndCSeq2Invite (dc_timerD w) !! key_text c = None;
  rr_dialog : forall p, session_dialog sip w = Ok (Some p, w) -> exists d c, dc_dialogs w !! p = Some (d, c) /\ dialog_ok d (dc_stack w);
}.
(** What it does: over a datagram transport timer D waits for the ACK, and
    with Session-Expires the session timer of the dialog is started. *)
Definition timerD_started (orq : positive) (w w' : SipDialogController) : Prop :=
  if over_dgram orq w then exists c, dc_sent w !! orq = Some c /\
    dc_timerD w' = on_pending (insert (key_text c) orq) (dc_timerD w) /\
    dc_armed w' = <[fresh_addr (dc_armed w) := ("timerD"%string, timerD_fn orq (key_text c), TIMER_D_MSECS)]> (dc_armed w)
  else dc_timerD w' = dc_timerD w /\ dc_armed w' = dc_armed w.
Definition session_started (sip : sip_response) (w w' : SipDialogController) : Prop :=
  match rs_session_expires sip with
  | None => dc_dialogs w' = dc_dialogs w
  | Some (delta, refresher) => exists o, session_dialog sip w = Ok (o, w) /\
    match o with
    | None => dc_dialogs w' = dc_dialogs w
    | Some p => exists d c t cell, dc_dialogs w !! p = Some (d, c) /\
        dc_dialogs w' = <[p := (set_session (armed_session (Z.of_nat (default 0 (head (in_rands (dc_inputs w))))) delta
          (uac_refresher refresher) t cell (d_session d)) d, c)]> (dc_dialogs w)
    end
  end.

(** What the search for the dialog reads, and what else neither of the two
    changes. *)
Definition searched (w : SipDialogController) := (dc_stable w, dc_iips w, dc_inProgress w, st_legs (dc_stack w)).
Definition aside (w : SipDialogController) := (dc_rips w, dc_clients w, st_orqs (dc_stack w), searched w).

Lemma start_timerD_run orq w :
  is_Some (st_orqs (dc_stack w) !! orq) ->
  (over_dgram orq w = true -> exists c, dc_sent w !! orq = Some c /\ m_mapCallIdAndCSeq2Invite (dc_timerD w) !! key_text c = None) ->
  exists w', start_timerD_if_dgram orq w = Ok (tt, w') /\ timerD_started orq w w' /\ aside w' = aside w /\
    dc_dialogs w' = dc_dialogs w /\ dc_inputs w' = dc_inputs w /\ forall d, dialog_ok d (dc_stack w) -> dialog_ok d (dc_stack w').
Proof.
  intros [otp Hq] Hr. unfold start_timerD_if_dgram, timerD_started, over_dgram in *. rewrite Hq in *. destruct otp as [tp|].
  2: { exists w. split; [|done]. rewrite (M_bind_ok _ _ w None w); [done|]. unfold on_stack, zoom, nta_outgoing_transport. mstep. rewrite Hq. by destruct w. }
  rewrite (M_bind_ok _ _ _ _ _ (on_stack_transport orq tp w Hq)). set (w1 := on_dc_stack _ w).
  assert (forall w2, dc_stack w2 = dc_stack w1 -> on_stack (tport_unref tp) w2 =
    Ok (tt, on_dc_stack (on_refs (insert tp (refs_of (dc_stack w) tp))) w2)) as Hun.
  { intros w2 Es. apply on_stack_unref. rewrite Es. unfold refs_of at 1. cbn -[insert lookup]. by rewrite lookup_insert_eq. }
  destruct (tport_is_dgram tp).
  - destruct (Hr eq_refl) as (c & Hc & Hp).
    rewrite (M_bind_ok _ _ _ _ _ (addInvite_ok w1 orq c (conj (ex_intro _ _ Hq) Hc) Hp)).
    rewrite (Hun (accepted w1 orq c) eq_refl).
    eexists. split; [reflexivity|]. split; [by exists c|]. split_and!; try done. intros d Hd. cbn. by apply dialog_ok_refs.
  - rewrite (M_bind_ok _ _ w1 tt w1 eq_refl). cbn beta. rewrite (Hun w1 eq_refl). eexists. split; [reflexivity|]. split_and!; try done. intros d Hd. by apply dialog_ok_refs.
Qed.

Lemma session_dialog_run sip w : exists o, session_dialog sip w = Ok (o, w) /\ forall w', searched w' = searched w -> session_dialog sip w' = Ok (o, w').
Proof.
  unfold session_dialog, nta_leg_by_call_id. mstep. destruct (head _) as [leg|] eqn:El.
  2: { exists None. split; [done|]. intros w' [= _ _ _ El']. mstep. by rewrite El', El. }
  unfold findDialogByLeg. destruct (findByLeg_run (Some leg) w) as (o & E & Ho).
  assert (forall w', searched w' = searched w -> IIP_FindByLeg (Some leg) w' = Ok (o, w')) as Es.
  { intros w' [= _ E1 E2 _]. unfold IIP_FindByLeg, iip_find in E |- *. unfold mbind, M_bind, get, mret, M_ret, members in E |- *. cbn in E |- *.
    rewrite E1, E2. injection E as ->. done. }
  exists (match o with Some p => iip_dlg <$> dc_iips w !! p | None => SD_FindByLeg (Some leg) (dc_stable w) end).
  assert (forall w', searched w' = searched w -> (iip ← IIP_FindByLeg (Some leg);
    match iip with Some p => i ← iip_load p; mret (Some (iip_dlg i)) | None => w ← get; mret (SD_FindByLeg (Some leg) (dc_stable w)) end) w' =
    Ok (match o with Some p => iip_dlg <$> dc_iips w !! p | None => SD_FindByLeg (Some leg) (dc_stable w) end, w')) as Hall.
  { intros w' Ha. rewrite (M_bind_ok _ _ _ _ _ (Es w' Ha)). pose proof Ha as [= E2 E1 _ _]. destruct o as [p|].
    - destruct Ho as (i & _ & Hi & _). rewrite Hi. unfold iip_load, mbind, M_bind, get, deref. by rewrite E1, Hi.
    - unfold mbind, M_bind, get. by rewrite E2. }
  split; [by apply Hall|]. intros w' Ha. pose proof Ha as [= _ _ _ El']. mstep. rewrite El', El. by apply Hall.
Qed.

Definition restart_session (sip : sip_response) : DC unit :=
  match rs_session_expires sip with
  | None => mret tt
  | Some (delta, refresher) =>
    leg ← nta_leg_by_call_id (sip_call_id (rs_sip sip));
    dlg ← match leg with Some leg => findDialogByLeg leg | None => mret None end;
    match dlg with
    | Some p => dlg_setSessionTimer p delta (uac_refresher refresher)
    | None => mret tt
    end
  end.
Lemma restart_session_run sip w :
  (forall p, session_dialog sip w = Ok (Some p, w) -> exists d c, dc_dialogs w !! p = Some (d, c) /\ dialog_ok d (dc_stack w)) ->
  exists w', restart_session sip w = Ok (tt, w') /\ session_started sip w w' /\ aside w' = aside w /\
    dc_timerD w' = dc_timerD w /\ dc_armed w' = dc_armed w.
Proof.
  intros Hd. unfold restart_session, session_started. destruct (rs_session_expires sip) as [[delta refresher]|]; [|by exists w].
  destruct (session_dialog_run sip w) as (o & E & _).
  assert (forall k : option positive -> DC unit, (leg ← nta_leg_by_call_id (sip_call_id (rs_sip sip));
    dlg ← match leg with Some leg => findDialogByLeg leg | None => mret None end; k dlg) w = k o w) as ->.
  { intros k. unfold session_dialog in E. revert E. unfold mbind, M_bind. destruct (nta_leg_by_call_id _ w) as [[leg w1]|]; [|done].
    intros E. by rewrite E. }
  destruct o as [p|]; [|by exists w; split; [|split; [exists None|]]].
  destruct (Hd p E) as (d & c & Hp & Hok). unfold dlg_setSessionTimer, next_rand. mstep. cbn beta.
  set (rand := Z.of_nat _). set (w1 := on_dc_inputs _ w). assert (dc_dialogs w1 !! p = Some (d, c)) as Hp1 by done.
  destruct (setSessionTimer_run rand delta (uac_refresher refresher) d (dc_stack w1) Hok) as (d1 & st1 & t & cell & Es & _ & _ & _ & _ & _ & _ & Est).
  unfold on_dlg. rewrite Hp1, Es. eexists. split; [reflexivity|]. split; [exists (Some p); split; [done|]; by exists d, c, t, cell|].
  split; [|done]. unfold aside. cbn. rewrite Est. by destruct (m_timerSessionRefresh (d_session d)).
Qed.

Definition accepted_block (orq : positive) (sip : sip_response) : DC unit := _ ← start_timerD_if_dgram orq; restart_session sip.
Lemma accepted_run orq sip w :
  is_Some (st_orqs (dc_stack w) !! orq) -> reinvite_ready orq sip w ->
  exists w', accepted_block orq sip w = Ok (tt, w') /\ timerD_started orq w w' /\ session_started sip w w' /\ aside w' = aside w.
Proof.
  intros Hq [Ht Hd]. destruct (start_timerD_run orq w Hq Ht) as (w1 & E1 & S1 & A1 & D1 & I1 & O1).
  destruct (session_dialog_run sip w1) as (o & Eo & Eso). pose proof A1 as [= _ _ _ B1 B2 B3 B4].
  assert (searched w = searched w1) as As by (unfold searched; congruence). pose proof (Eso w As) as Eo'.
  destruct (restart_session_run sip w1) as (w2 & E2 & S2 & A2 & T2 & R2).
  { intros p Hp. rewrite Eo in Hp. injection Hp as ->. destruct (Hd p Eo') as (d & c & Hc & Hok). exists d, c. rewrite D1. auto. }
  exists w2. unfold accepted_block. rewrite (M_bind_ok _ _ _ _ _ E1), E2. split_and!; [done| | |congruence].
  - unfold timerD_started in *. by rewrite T2, R2.
  - unfold session_started in *. rewrite D1, I1 in S2. destruct (rs_session_expires sip) as [[delta refresher]|]; [|done].
    destruct S2 as (o2 & E & S2). rewrite Eo in E. injection E as <-. by exists o.
Qed.

(** What a response does to the rest of the server. *)
Definition reinvite_settled (orq : positive) (sip : sip_response) (w w' : SipDialogController) : Prop :=
  if accepts_reinvite sip then timerD_started orq w w' /\ session_started sip w w'
  else dc_timerD w' = dc_timerD w /\ dc_armed w' = dc_armed w /\ dc_dialogs w' = dc_dialogs w.

Lemma inside_response_known orq sip rip w :
  is_Some (st_orqs (dc_stack w) !! orq) -> m_lock (dc_clients w) = false ->
  (accepts_reinvite sip = true -> reinvite_ready orq sip w) -> dc_rips w !! orq = Some rip ->
  (ends_dialog sip rip = true -> rip_dialogId rip ≠ ""%string) ->
  exists w', processResponseInsideDialog orq (Some sip) w = Ok (0%Z, w') /\ request_ended orq sip rip w w' /\
    reinvite_settled orq sip w w'.
Proof.
  intros [otp Hq] Hlk Hre Er Hid. unfold processResponseInsideDialog.
  destruct (track_kept orq (Some sip) otp w Hq) as (w1 & E & Ek & Hdk). pose proof Ek as [= K1 K2 K3 K4 K5 K6 K7 K8 K9 K10 K11 K12 K13].
  rewrite (M_bind_ok _ _ _ _ _ E). mstep. unfold findRIPByOrq. mstep. rewrite K1, Er.
  destruct (route_response_unlocked (rs_encoded sip) (rs_meta sip) (cs_name sip) (rs_status sip) (rip_transactionId rip)
    (rip_dialogId rip) (dc_clients w1)) as (routed & cc & Ec & _); [by rewrite K3|].
  rewrite (M_bind_ok _ _ _ _ _ (clients_ok _ routed cc w1 Ec)). set (w2 := on_dc_clients _ w1).
  assert (is_Some (st_orqs (dc_stack w2) !! orq)) as Hq2 by (cbn; rewrite K11; by eexists).
  assert (exists w3, (if accepts_reinvite sip then accepted_block orq sip else mret tt) w2 = Ok (tt, w3) /\
    reinvite_settled orq sip w2 w3 /\ aside w3 = aside w2) as (w3 & E3 & R3 & A3).
  { unfold reinvite_settled. destruct (accepts_reinvite sip); [|by exists w2]. destruct (Hre eq_refl) as [Ht Hd].
    destruct (accepted_run orq sip w2 Hq2) as (w3 & ? & ? & ? & ?); [|by exists w3].
    destruct (session_dialog_run sip w2) as (o & Eo & Eso). constructor.
    - unfold over_dgram. cbn [dc_stack w2 on_dc_clients]. rewrite K11. change (dc_sent w2) with (dc_sent w1). change (dc_timerD w2) with (dc_timerD w1).
      rewrite K10, K5. exact Ht.
    - intros p Hp. rewrite Eo in Hp. injection Hp as ->. destruct (Hd p) as (d & c & Hc & Hok).
      + apply Eso. unfold searched. cbn. congruence.
      + exists d, c. change (dc_dialogs w2) with (dc_dialogs w1). rewrite K4. auto. }
  change (is_method sip sip_method_invite && has_status sip 200) with (accepts_reinvite sip).
  erewrite (M_bind_ok _ _ w2 tt w3); [|exact E3]. pose proof A3 as [= B1 B2 B3 B4 B5 B6 B7].
  rewrite response_end; [|by rewrite B3|exact Hid]. eexists. split; [done|]. split.
  - split_and!; cbn -[delete]; [by rewrite B1; cbn; rewrite K1|by rewrite B3; cbn; rewrite K11|by rewrite B4; cbn; rewrite K2|].
    exists routed. rewrite <- K3. rewrite B2. exact Ec.
  - assert (over_dgram orq w2 = over_dgram orq w) as Eod by (unfold over_dgram; cbn; by rewrite K11).
    destruct (session_dialog_run sip w2) as (o & Eo & Eso). assert (session_dialog sip w = Ok (o, w)) as Eow by (apply Eso; unfold searched; cbn; congruence).
    unfold reinvite_settled, timerD_started, session_started in *. rewrite Eod, Eo in R3. rewrite Eow.
    cbn -[insert delete fresh_addr] in *. rewrite K4, K5, K6, K10, K12 in R3. destruct (accepts_reinvite sip); [|exact R3].
    destruct (rs_session_expires sip) as [[delta refresher]|]; [|exact R3]. destruct R3 as [R3 (o2 & Eo2 & R4)]. injection Eo2 as <-.
    split; [exact R3|]. by exists o.
Qed.

(** C23: A response to a request inside a dialog is routed once, to the client
    that sent the request, and ends it whatever its status is: the request in
    progress is forgotten and its transaction destroyed; the dialog leaves the
    container if the request was a BYE or a final NOTIFY, unless it is
    answered by 401 or 407.  The 200 to a re-INVITE also starts timer D for
    the ACK, when it came over a datagram transport, and the session timer of
    its dialog, when it has Session-Expires; no other response changes the
    dialogs, timer D or a timer.  A response to no known request only destroys
    the transaction. *)
Theorem inside_response_ends_request orq sip w :
  is_Some (st_orqs (dc_stack w) !! orq) -> m_lock (dc_clients w) = false ->
  (accepts_reinvite sip = true -> is_Some (dc_rips w !! orq) -> reinvite_ready orq sip w) ->
  (forall rip, dc_rips w !! orq = Some rip -> ends_dialog sip rip = true -> rip_dialogId rip ≠ ""%string) ->
  exists w', processResponseInsideDialog orq (Some sip) w = Ok (0%Z, w') /\
    match dc_rips w !! orq with
    | Some rip => request_ended orq sip rip w w' /\ reinvite_settled orq sip w w'
    | None => dc_rips w' = dc_rips w /\ st_orqs (dc_stack w') = delete orq (st_orqs (dc_stack w)) /\
        dc_stable w' = dc_stable w /\ dc_clients w' = dc_clients w
    end.
Proof.
  intros Hq Hlk Hno Hid. destruct (dc_rips w !! orq) as [rip|] eqn:Er.
  { apply inside_response_known; auto. }
  destruct Hq as [otp Hq]. unfold processResponseInsideDialog.
  destruct (track_kept orq (Some sip) otp w Hq) as (w1 & E & Ek & _). destruct (kept_eqs w w1 Ek) as (K1 & K2 & K3 & K4 & K5 & K6 & K7).
  rewrite (M_bind_ok _ _ _ _ _ E). mstep. unfold findRIPByOrq. mstep. rewrite K1, Er.
  rewrite (M_bind_ok _ _ _ _ _ (outgoing_destroy_live orq w1 ltac:(rewrite K7; by eexists))).
  eexists. split; [done|]. split_and!; cbn -[delete]; congruence.
Qed.
End responses.
End timed.
