(* ===== verification/DialogSendCorrect.v ===== *)
(** What sending for an application does: what arrives of a command in the
    thread of the stack, a request inside a dialog with its response, and a
    response that comes too late or over a closed connection. *)
From S2P Require Import Prelude CppString SipUri TextUtil SipTags ClientController ClientControllerCorrect TimerQueue Cdr PendingRequests SipDialog SipDialogCorrect SipTransports Connections DialogWorld InviteInProgress InviteInProgressCorrect TimerD TimerDCorrect DialogController Messages LegSetup DialogResponses DialogRequests DialogSend DialogRespond DialogTimers DialogEnds DialogHandlersCorrect.

Open Scope list_scope.

Section timed.
Context `{sutime : SuTime}.

(** ** The message between the threads *)

Section buffers.
Lemma c_str_length s : (String.length (c_str s) <= String.length s)%nat.
Proof. induction s as [|c s IH]; cbn; [done|]. destruct (Ascii.eqb c zero); cbn; lia. Qed.
Lemma c_str_prefix s : exists r, s = (c_str s +:+ r)%string.
Proof.
  induction s as [|c s [r IH]]; [by exists ""%string|]. cbn. destruct (Ascii.eqb c zero); [by exists (String c s)|].
  exists r. rewrite str_app_cons. by f_equal.
Qed.
Lemma buffer_prefix n s : exists r, s = (buffer n s +:+ r)%string.
Proof.
  destruct (c_str_prefix (str_take n s)) as [r1 E1]. exists (r1 +:+ str_drop n s)%string. unfold buffer.
  rewrite <- str_app_assoc, <- E1. by rewrite str_take_drop.
Qed.
Lemma buffer_length n s : (String.length (buffer n s) <= n)%nat.
Proof. unfold buffer. pose proof (c_str_length (str_take n s)). pose proof (str_take_length n s). lia. Qed.
(** A text without NUL arrives whole exactly when it fits. *)
Lemma buffer_exact n s : c_str s = s -> buffer n s = s <-> (String.length s <= n)%nat.
Proof.
  intros Hs. split.
  - intros E. rewrite <- E. apply buffer_length.
  - intros Hl. unfold buffer. by rewrite str_take_all.
Qed.
End buffers.

(** What the thread of the stack gets of a command is a prefix of each of
    its parts, and all of a part (without NUL bytes) exactly when it has at
    most 128 bytes for an id, 512 for the start line, 8400 for the headers and
    12288 for the body; longer ones are cut without an error. A dialog id has
    1024 bytes, but 128 with a route. *)
Theorem SipMessageData_exact (c t r d sl h b u : string) :
  c_str t = t -> c_str d = d -> c_str sl = sl -> c_str h = h -> c_str b = b ->
  let m := SipMessageData_new c t r d sl h b in
  let m' := SipMessageData_routed c t r d sl h b u in
  (getTransactionId m = t <-> (String.length t <= 128)%nat) /\ (getStartLine m = sl <-> (String.length sl <= 512)%nat) /\
  (getHeaders m = h <-> (Z.of_nat (String.length h) <= 8400)%Z) /\ (getBody m = b <-> (Z.of_nat (String.length b) <= 12288)%Z) /\
  (getDialogId_of m = d <-> (String.length d <= 1024)%nat) /\ (getDialogId_of m' = d <-> (String.length d <= 128)%nat) /\
  (exists rest, h = (getHeaders m +:+ rest)%string) /\ (exists rest, b = (getBody m +:+ rest)%string).
Proof.
  intros Ht Hd Hsl Hh Hb. cbn [getTransactionId getStartLine getHeaders getBody getDialogId_of SipMessageData_new SipMessageData_routed].
  split_and!; try by apply buffer_exact.
  - rewrite buffer_exact by done. unfold HDR_LEN. lia.
  - rewrite buffer_exact by done. unfold BODY_LEN. lia.
  - apply buffer_prefix.
  - apply buffer_prefix.
Qed.

(** ** Responses *)

Section respond.
Context `{SofiaTport} `{NtaAgent} `{!NtaMessages} `{MainSending} `{Boost} `{SofiaUrl} `{Inet} `{TportTree} `{StdSort} `{DialogConfig} `{NtaMessage}.
Context (transports : SipTransports).

Lemma pure_ok {A} (r : res A) a w : r = Ok a -> pure r w = Ok (a, w).
Proof. unfold pure. by intros ->. Qed.
Lemma live_irq_ok irq w : irq ∈ dc_irqs w -> live_irq irq w = Ok (tt, w).
Proof. intros Hr. unfold live_irq. mstep. by rewrite bool_decide_eq_true_2. Qed.
Definition replied (w : SipDialogController) : SipDialogController :=
  on_dc_inputs (fun i => Inputs (in_uuids i) (in_rands i) (in_creates i) (tail (in_replies i))) w.
Definition next_rc (w : SipDialogController) : Z := default 0%Z (head (in_replies (dc_inputs w))).
Lemma treply_run irq status headers w :
  irq ∈ dc_irqs w ->
  treply_with irq status headers w = Ok (next_rc w,
    on_dc_events (fun l => l ++ (if Z.eqb (next_rc w) 0 then [SentResponse irq status false headers] else [])) (replied w)).
Proof.
  intros Hr. unfold treply_with. rewrite (M_bind_ok _ _ _ _ _ (live_irq_ok irq w Hr)). unfold next_reply. mstep. fold (next_rc w).
  destruct (Z.eqb (next_rc w) 0); [mstep; done|]. mstep. by rewrite on_dc_events_nil.
Qed.
Definition with_ref (tp : positive) (w : SipDialogController) : SipDialogController :=
  on_dc_stack (fun s => on_refs (insert tp (S (refs_of s tp))) s) w.
Lemma usable_run irq tp w :
  irq ∈ dc_irqs w -> iv_tport (nta_incoming_view irq) = Some tp ->
  usable_transport irq w = Ok (if tport_is_closed (dc_stack w) tp then None else Some tp, with_ref tp w).
Proof.
  intros Hr Ht. unfold usable_transport, nta_incoming_transport. erewrite M_bind_ok; cycle 1.
  { rewrite (M_bind_ok _ _ _ _ _ (live_irq_ok irq w Hr)), Ht. mstep. reflexivity. }
  cbn beta iota. mstep. done.
Qed.
Lemma unref_with_ref tp w :
  on_stack (tport_unref tp) (with_ref tp w) = Ok (tt, on_dc_stack (on_refs (insert tp (refs_of (dc_stack w) tp))) (with_ref tp w)).
Proof. apply on_stack_unref. unfold refs_of at 1. cbn -[insert lookup]. by rewrite lookup_insert_eq. Qed.
Lemma refs_with_ref tp w t : refs_of (dc_stack (with_ref tp w)) t = if decide (tp = t) then S (refs_of (dc_stack w) tp) else refs_of (dc_stack w) t.
Proof. apply (refs_of_insert (dc_stack w) tp). Qed.

(** A response to a request inside a dialog goes out over the request's
    transport and gives back the reference taken on it, whether the stack
    accepts the response or not; when the transport has been closed, nothing
    is sent, and the reference is kept: the closed transport is never
    released. *)
Theorem response_transport_reference irq code headers body tp t tags w :
  irq ∈ dc_irqs w -> iv_tport (nta_incoming_view irq) = Some tp ->
  findTransport transports (tport_parent tp) = Ok t -> response_tags headers t = Ok tags ->
  exists r w', send_response transports irq code headers body w = Ok (r, w') /\
    if tport_is_closed (dc_stack w) tp then
      r = (false, TRANSPORT_GONE) /\ dc_events w' = dc_events w /\
      refs_of (dc_stack w') tp = S (refs_of (dc_stack w) tp) /\ (forall t, t ≠ tp -> refs_of (dc_stack w') t = refs_of (dc_stack w) t)
    else
      (r.1 = true <-> next_rc w = 0%Z) /\ (forall t, refs_of (dc_stack w') t = refs_of (dc_stack w) t) /\
      exists own, dc_events w' = dc_events w ++ (if Z.eqb (next_rc w) 0 then [SentResponse irq code false (own ++ tags)] else []).
Proof.
  intros Hr Ht Hf Hg. unfold send_response. rewrite (M_bind_ok _ _ _ _ _ (usable_run irq tp w Hr Ht)).
  destruct (tport_is_closed (dc_stack w) tp) eqn:Ec.
  - eexists _, _. split; [done|]. split_and!; [done|done| |].
    + by rewrite refs_with_ref, decide_True.
    + intros t' Ht'. by rewrite refs_with_ref, decide_False by done.
  - rewrite (M_bind_ok _ _ _ _ _ (pure_ok _ t _ Hf)), (M_bind_ok _ _ _ _ _ (unref_with_ref tp w)).
    set (w1 := on_dc_stack _ (with_ref tp w)). rewrite (M_bind_ok _ _ _ _ _ (pure_ok _ tags w1 Hg)).
    rewrite (M_bind_ok _ _ _ _ _ (treply_run irq code _ w1 Hr)). change (next_rc w1) with (next_rc w).
    eexists _, _. split; [done|]. split_and!.
    + by destruct (Z.eqb_spec (next_rc w) 0).
    + intros t'. unfold w1. cbn -[refs_of with_ref on_refs]. rewrite refs_of_insert. destruct (decide (tp = t')) as [<-|Hne]; [done|].
      by rewrite refs_with_ref, decide_False.
    + rewrite !app_assoc. eexists. unfold w1. cbn. done.
Qed.

Lemma findByTransaction_run p i w :
  iip_wf w -> p ∈ dc_inProgress w -> dc_iips w !! p = Some i ->
  IIP_FindByTransactionId (iip_transactionId i) w = Ok (Some p, w).
Proof.
  intros Hw Hp Hi. destruct (iip_find_spec (fun j => bool_decide (iip_transactionId j = iip_transactionId i)) w) as (o & E & Ho).
  unfold IIP_FindByTransactionId. rewrite E. destruct o as [q|].
  - destruct Ho as (j & Hq & Hj & Et%bool_decide_eq_true). by rewrite (wf_txn w Hw q p j i).
  - specialize (Ho p i Hp Hi). by rewrite bool_decide_eq_true_2 in Ho.
Qed.
Lemma findAndRemove_none txn w : dc_txn2irq w !! txn = None -> findAndRemoveTransactionIdForIncomingRequest txn w = Ok (None, w).
Proof.
  intros E. unfold findAndRemoveTransactionIdForIncomingRequest. mstep. mstep. rewrite E. unfold mret, M_ret, on_dc_txn2irq.
  rewrite delete_id by done. by destruct w.
Qed.
Lemma api_unlocked c r d : unlocked_ok (route_api_response c r d).
Proof. unfold route_api_response, findClientForApiRequest, find_in, post, removeApiRequest; lock_tac. Qed.
Lemma api_run c r d w :
  m_lock (dc_clients w) = false ->
  exists routed cc, route_api_response c r d (dc_clients w) = Ok (routed, cc) /\ api c r d w = Ok (tt, on_dc_clients (fun _ => cc) w) /\
    m_lock cc = false.
Proof.
  intros Hl. destruct (api_unlocked c r d (dc_clients w) Hl) as (routed & cc & E & Hl'). exists routed, cc.
  split_and!; [done| |done]. unfold api. by rewrite (M_bind_ok _ _ _ _ _ (clients_ok _ routed cc w E)).
Qed.
Lemma removeNet_run txn w :
  m_lock (dc_clients w) = false ->
  clients (removeNetTransaction txn) w = Ok (tt, on_dc_clients (fun cc => set_lock false (on_net (delete txn) (set_lock true cc))) w).
Proof. intros Hl. unfold clients, zoom, removeNetTransaction, locked. by rewrite (lock_guard_ok _ _ _ _ tt _ Hl eq_refl). Qed.

(** A response to an INVITE in progress that was already answered with a
    final status is not sent: no message leaves, no dialog, timer or
    transaction changes. But the application is told that its response was
    sent, with the text of the earlier one, and a call detail record is
    posted for it again. *)
Theorem second_final_discarded pData code p i irq d c m w :
  iip_wf w -> m_lock (dc_clients w) = false ->
  dc_txn2irq w !! getTransactionId pData = None ->
  p ∈ dc_inProgress w -> dc_iips w !! p = Some i -> iip_transactionId i = getTransactionId pData -> iip_irq i = Some irq ->
  dc_dialogs w !! iip_dlg i = Some (d, c) -> (200 <= m_recentSipStatus d)%Z -> m_irqUpdate c = None ->
  sip_status_make (getStartLine pData) = Some code -> nta_incoming_method irq = sip_method_invite ->
  nta_incoming_getresponse w irq = Some m ->
  exists w', doRespondToSipRequest transports pData w = Ok (tt, w') /\ core w' = core w /\ dc_dialogs w' = dc_dialogs w /\
    dc_stack w' = dc_stack w /\
    dc_events w' = dc_events w ++
      (if (300 <=? code)%Z then [PostedCdr stop_record "application" role_undefined call_rejected]
       else if Z.eqb code 200 then [PostedCdr start_record "application" uas no_termination] else []) /\
    exists routed cc, route_api_response (getClientMsgId pData) "OK" (response_sent m (getTransactionId pData) "") (dc_clients w) = Ok (routed, cc) /\
      m_posted (dc_clients w') = m_posted cc.
Proof.
  intros Hw Hlk Hirq Hp Hi Etxn Eirq Hd Hst Hup Hcode Hm Hresp. unfold doRespondToSipRequest. rewrite Hcode. mstep.
  erewrite (M_bind_ok _ _ _ (None, false, Some p) w); cycle 1.
  { unfold find_transaction. rewrite (M_bind_ok _ _ _ _ _ (findAndRemove_none _ w Hirq)). rewrite <- Etxn.
    by rewrite (M_bind_ok _ _ _ _ _ (findByTransaction_run p i w Hw Hp Hi)). }
  cbn beta iota. erewrite (M_bind_ok _ _ _ (RespondResult (Some irq) true "" false false "" false) w); cycle 1.
  { unfold respond_in_progress. rewrite (M_bind_ok _ _ _ _ _ (iip_load_ok _ _ _ Hi)), (M_bind_ok _ _ _ _ _ (dlg_ctl_ok _ _ _ _ Hd)), Hup.
    unfold respond_to_invite, dlg_getSipStatus. rewrite (M_bind_ok _ _ _ _ _ (iip_load_ok _ _ _ Hi)).
    erewrite (M_bind_ok _ _ _ (m_recentSipStatus d) w) by (by rewrite (M_bind_ok _ _ _ _ _ (dlg_self_ok _ _ _ _ Hd))).
    cbn beta. rewrite (proj2 (Z.leb_le _ _) Hst), Eirq. done. }
  cbn beta. rewrite bool_decide_eq_true_2 by (by eexists).
  destruct (api_run (getClientMsgId pData) "OK" (response_sent m (getTransactionId pData) "") w Hlk) as (routed & cc & Er & Ea & Hl).
  set (ev := if (300 <=? code)%Z then _ else _).
  set (w2 := on_dc_events (fun l => l ++ ev) (on_dc_clients (fun _ => cc) w)).
  erewrite (M_bind_ok _ _ w tt w2); cycle 1.
  { unfold report_response. cbn [rr_sentOK rr_irq rr_dialogId rr_isUpdate negb andb]. mstep. mstep. rewrite Hresp.
    rewrite (M_bind_ok _ _ _ _ _ Ea). unfold w2, ev. destruct (300 <=? code)%Z; [done|]. destruct (Z.eqb code 200); [done|].
    by rewrite on_dc_events_nil. }
  cbn beta. cbn [rr_irq rr_isUpdate rr_clearIIP rr_destroyIrq]. rewrite Hm.
  assert (exists w3, (if forgets_transaction sip_method_invite code false false then clients (removeNetTransaction (getTransactionId pData)) else mret tt) w2 = Ok (tt, w3) /\
    w3 = on_dc_clients (fun _ => dc_clients w3) w2 /\ m_posted (dc_clients w3) = m_posted cc) as (w3 & E3 & Eq3 & Ep).
  { destruct (forgets_transaction _ _ _ _); [|by exists w2; split_and!; [|destruct w2|]].
    eexists. split; [by apply removeNet_run|]. done. }
  rewrite (M_bind_ok _ _ _ _ _ E3). mstep. exists w3. split; [done|]. rewrite Eq3. split_and!; [done..|].
  by exists routed, cc.
Qed.
End respond.

(** ** Requests inside a dialog *)

Section inside.
Context `{SofiaTport} `{NtaAgent} `{!NtaMessages} `{TportTree} `{TportByName} `{MainSending} `{Boost} `{SofiaUrl} `{DialogConfig}.

(** What looking for the connection leaves alone: it changes the dialog's
    connection and the table of aliases only. *)
Record tport_chosen (p : positive) (d : SipDialog) (c : dialog_ctl) (w w' : SipDialogController) : Prop := TportChosen {
  tc_beside : beside p w w';
  tc_clients : dc_clients w' = dc_clients w;
  tc_events : dc_events w' = dc_events w;
  tc_inputs : dc_inputs w' = dc_inputs w;
  tc_dialog : exists n, dc_dialogs w' !! p = Some (set_net n d, c) /\ dialog_ok (set_net n d) (dc_stack w') /\
    m_routeUri n = m_routeUri (d_net d);
}.
Lemma tport_chosen_run {A} (m : DLG A) p d c w :
  net_only m -> balanced m -> dc_dialogs w !! p = Some (d, c) -> dialog_ok d (dc_stack w) ->
  exists a w', on_dlg p m w = Ok (a, w') /\ tport_chosen p d c w w'.
Proof.
  intros Hm Hb Hp Hok. destruct (net_run_ok m p d c w Hm Hb Hp Hok) as (a & w1 & d1 & E & B & Ec & Ev & Ei & Hp1 & Hok1 & n & ->).
  exists a, w1. split; [done|]. split; [done..|]. exists n. split_and!; [done|done|].
  destruct (bs_dialog _ _ _ B d c Hp) as (d2 & Hp2 & _ & Er & _). rewrite Hp1 in Hp2. by injection Hp2 as <-.
Qed.
Lemma tport_chosen_trans p d c w1 w2 w3 n :
  tport_chosen p d c w1 w2 -> m_routeUri n = m_routeUri (d_net d) -> tport_chosen p (set_net n d) c w2 w3 -> tport_chosen p d c w1 w3.
Proof.
  intros [B1 C1 V1 I1 _] Hn [B2 C2 V2 I2 (n' & Hp' & Hok' & Hr')].
  split; [by eapply beside_trans|congruence..|]. exists n'. split_and!; [exact Hp'|exact Hok'|]. by rewrite Hr'.
Qed.
Lemma tport_chosen_refl p d c w : dc_dialogs w !! p = Some (d, c) -> dialog_ok d (dc_stack w) -> tport_chosen p d c w w.
Proof. intros Hp Hok. split; [apply beside_refl|done..|]. exists (d_net d). destruct d. by split_and!. Qed.
(** A step after [w] in which the dialog is still well-formed. *)
Lemma tport_chosen_more {A} (m : DC A) p d c w w1 :
  tport_chosen p d c w w1 ->
  (forall d1, dc_dialogs w1 !! p = Some (d1, c) -> dialog_ok d1 (dc_stack w1) ->
     exists a w2, m w1 = Ok (a, w2) /\ tport_chosen p d1 c w1 w2) ->
  exists a w2, m w1 = Ok (a, w2) /\ tport_chosen p d c w w2.
Proof.
  intros T Hm. pose proof T as [_ _ _ _ (n & Hp & Hok & Hr)]. destruct (Hm _ Hp Hok) as (a & w2 & E & T2).
  exists a, w2. split; [done|]. by apply (tport_chosen_trans p d c w w1 w2 n).
Qed.
Lemma alias_chosen t pr ad h po p d c w :
  dc_dialogs w !! p = Some (d, c) -> dialog_ok d (dc_stack w) ->
  exists o w', getTportForContactAlias t pr ad h po w = Ok (o, w') /\ tport_chosen p d c w w'.
Proof.
  intros Hp Hok.
  assert (exists o u, ct_getTportForContactAlias t pr ad h po (dc_conns w, dc_stack w) = Ok (o, (u, dc_stack w))) as (o & u & E).
  { unfold ct_getTportForContactAlias, ct_tables, modify. mstep. destruct (negb _); [by do 2 eexists|].
    destruct (m_mapContactAlias _ !! _) as [[h' p']|]; [|by do 2 eexists]. destruct (tport_by_name _ _ _) as [t'|]; [|by do 2 eexists].
    destruct (negb _); [by do 2 eexists|]. destruct (negb _); by do 2 eexists. }
  exists o, (on_dc_conns (fun _ => u) w). split; [unfold getTportForContactAlias, on_conns; rewrite E; by destruct w|].
  apply tport_chosen_refl in Hp as [[B1 B2 B3] ? ? ? ?]; [|done]. by split; [split|..].
Qed.
Lemma current_chosen p d c remoteTarget w :
  dc_dialogs w !! p = Some (d, c) -> dialog_ok d (dc_stack w) ->
  exists o w', currentTportForDialog p remoteTarget w = Ok (o, w') /\ tport_chosen p d c w w'.
Proof.
  intros Hp Hok. destruct (tport_chosen_run getTport p d c w net_only_getTport balanced_getTport Hp Hok) as (o & w1 & E & T).
  unfold currentTportForDialog. rewrite (M_bind_ok _ _ _ _ _ E). destruct o as [t|]; [|by eexists _, _].
  destruct (remoteTarget ≫= url_host) as [host|]; [|by eexists _, _].
  pose proof T as [_ _ _ _ (n & Hp1 & Hok1 & _)]. rewrite (M_bind_ok _ _ _ _ _ (dlg_self_ok p _ c w1 Hp1)).
  destruct (String.eqb _ ""); [by eexists _, _|].
  match goal with |- exists _ _, (getTportForContactAlias ?t ?pr ?ad ?h ?po ≫= _) _ = _ /\ _ =>
    destruct (tport_chosen_more (getTportForContactAlias t pr ad h po) p d c w w1 T) as (o & w2 & E2 & T2) end.
  { intros d1 Hp2 Hok2. by apply alias_chosen. }
  rewrite (M_bind_ok _ _ _ _ _ E2). destruct o as [cur|]; [|by eexists _, _]. destruct (Pos.eqb cur t); [by eexists _, _|].
  destruct (tport_chosen_more (on_dlg p (setTport cur)) p d c w w2 T2) as ([] & w3 & E3 & T3).
  { intros d1 Hp2 Hok2. apply tport_chosen_run; [apply net_only_setTport|apply balanced_setTport|done..]. }
  rewrite (M_bind_ok _ _ _ _ _ E3). by eexists _, _.
Qed.
Lemma choose_tport_run p d c remoteTarget w :
  dc_dialogs w !! p = Some (d, c) -> dialog_ok d (dc_stack w) ->
  exists tp force reg w', choose_tport p remoteTarget w = Ok ((tp, force, reg), w') /\ tport_chosen p d c w w'.
Proof.
  intros Hp Hok. destruct (tport_chosen_run getTport p d c w net_only_getTport balanced_getTport Hp Hok) as (tp & w1 & E & T).
  unfold choose_tport. rewrite (M_bind_ok _ _ _ _ _ E).
  assert (exists reg, (match remoteTarget ≫= url_host with
    | Some host => findTportForSubscription (remoteTarget ≫= url_user) host | None => mret None end) w1 = Ok (reg, w1)) as [reg Er].
  { destruct (_ ≫= _) as [host|]; [|by eexists]. unfold findTportForSubscription, on_conns. cbn. eexists. by destruct w1. }
  rewrite (M_bind_ok _ _ _ _ _ Er). destruct reg as [r|]; [by do 4 eexists|].
  destruct (tport_chosen_more (currentTportForDialog p remoteTarget) p d c w w1 T) as (o & w2 & E2 & T2).
  { intros d1 Hp1 Hok1. by apply current_chosen. }
  rewrite (M_bind_ok _ _ _ _ _ E2). by do 4 eexists.
Qed.

(** A transaction of the application. *)
Definition app_request_sent (leg : positive) (m : sip_method_t) (route uri : string) (tp : option positive)
    (headers : list (tag_type_t * string)) (cr : created) (w : SipDialogController) : SipDialogController :=
  let q := fresh_addr (st_orqs (dc_stack w)) in
  on_dc_events (fun l => l ++ [SentWithHeaders q leg m route uri tp headers]) (on_dc_sent (insert q cr)
    (on_dc_stack (on_orqs (insert q (cr_tport cr)))
      (on_dc_inputs (fun i => Inputs (in_uuids i) (in_rands i) (tail (in_creates i)) (in_replies i)) w))).
Lemma outgoing_create_run leg m route uri tp headers cr w :
  leg ∈ st_legs (dc_stack w) -> default None (head (in_creates (dc_inputs w))) = Some cr ->
  outgoing_create leg m route uri tp headers w =
    Ok (Some (fresh_addr (st_orqs (dc_stack w))), app_request_sent leg m route uri tp headers cr w).
Proof.
  intros Hl Hc. unfold outgoing_create. mstep. rewrite bool_decide_eq_true_2 by done. unfold next_create. mstep.
  rewrite Hc. done.
Qed.

(** The methods that are sent as they are: not ACK, PRACK and INVITE. *)
Definition plain_method (m : sip_method_t) : bool :=
  negb (bool_decide (m = sip_method_ack) || bool_decide (m = sip_method_prack) || bool_decide (m = sip_method_invite) ||
        bool_decide (m = sip_method_invalid) || bool_decide (m = sip_method_unknown)).
Definition request_headers (m : sip_method_t) (c : dialog_ctl) (body contentType : string) (tags : list (tag_type_t * string)) :=
  TAG_IF (makes_target m && negb (bool_decide (is_Some (searchForHeader tags siptag_contact_str)))) siptag_contact_str (m_strLocalContact c) ++
  TAG_IF (nonempty body) siptag_payload_str body ++ TAG_IF (nonempty contentType) siptag_content_type_str contentType ++ tags.
Definition request_cdr (m : sip_method_t) : list dc_event :=
  if bool_decide (m = sip_method_bye) then [PostedCdr stop_record "application" role_undefined normal_release] else [].
Definition request_rip (pData : SipMessageData) (p : positive) (m : sip_method_t) (d : SipDialog) (cr : created) : RIP :=
  MkRIP (getTransactionId pData) (getDialogId_of pData) (Some p) (clears_dialog m d cr).

Lemma cancel_reinvite_none p leg w :
  (forall q i, q ∈ dc_inProgress w -> dc_iips w !! q = Some i -> iip_leg i ≠ Some leg) -> cancel_reinvite p leg w = Ok (tt, w).
Proof.
  intros Hno. unfold cancel_reinvite. destruct (findByLeg_run (Some leg) w) as (o & E & Ho). rewrite (M_bind_ok _ _ _ _ _ E).
  destruct o as [q|]; [|done]. destruct Ho as (i & Hq & Hi & El). by destruct (Hno q i).
Qed.
Lemma record_request_run pData p leg q m d c cr w :
  plain_method m = true -> dc_dialogs w !! p = Some (d, c) -> is_Some (st_orqs (dc_stack w) !! q) -> dc_sent w !! q = Some cr ->
  m_lock (dc_clients w) = false ->
  exists w' routed, record_request pData p leg q m w = Ok (tt, w') /\
    dc_rips w' = (match dc_rips w !! q with Some _ => dc_rips w | None => <[q := request_rip pData p m d cr]> (dc_rips w) end) /\
    dc_events w' = dc_events w ++ request_cdr m /\ dc_stack w' = dc_stack w /\ dc_stable w' = dc_stable w /\ dc_dialogs w' = dc_dialogs w /\
    m_lock (dc_clients w') = false /\
    route_api_response (getClientMsgId pData) "OK" (msg_sent cr (getTransactionId pData)) (dc_clients w) = Ok (routed, dc_clients w').
Proof.
  intros Hm Hp Hq Hs Hlk. unfold plain_method in Hm. rewrite !negb_orb in Hm.
  apply andb_true_iff in Hm as [[[[Ha%negb_true_iff Hpr]%andb_true_iff Hi%negb_true_iff]%andb_true_iff _]%andb_true_iff _].
  unfold record_request. rewrite (M_bind_ok _ _ w cr w); cycle 1.
  { unfold sent_of. rewrite (M_bind_ok _ _ _ _ _ (live_orq_ok q w Hq)). mstep. by rewrite Hs. }
  erewrite (M_bind_ok _ _ _ (m_recentSipStatus d) w) by (unfold dlg_getSipStatus; by rewrite (M_bind_ok _ _ _ _ _ (dlg_self_ok _ _ _ _ Hp))).
  rewrite Ha, Hi. erewrite M_bind_ok; cycle 1.
  { rewrite (M_bind_ok _ _ _ _ _ (dlg_self_ok _ _ _ _ Hp)). unfold addRIP. reflexivity. }
  set (w1 := on_dc_rips _ w). mstep. set (w2 := on_dc_events (fun l => l ++ request_cdr m) w1).
  erewrite (M_bind_ok _ _ w1 tt w2); cycle 1.
  { unfold w2, request_cdr. destruct (decide (m = sip_method_bye)); [by rewrite !bool_decide_eq_true_2|].
    rewrite !bool_decide_eq_false_2 by done. by rewrite on_dc_events_nil. }
  destruct (api_run (getClientMsgId pData) "OK" (msg_sent cr (getTransactionId pData)) w2 Hlk) as (routed & cc & Er & Ea & Hl).
  exists (on_dc_clients (fun _ => cc) w2), routed. split_and!; [exact Ea|done..].
Qed.

(** C33: A request of an application inside a dialog that the server knows is
    sent once, on the leg and by the route of that dialog, with the
    application's headers, body and content type (and a Contact where the
    method needs one); the application is told that it was sent, with its
    transaction id. The next response to that transaction, whatever its
    status, is routed under that id and ends the request, and the dialog too
    where the request was a BYE or a final NOTIFY.  This is about the requests
    that are sent and answered in this plain way: not about INVITE (a
    re-INVITE), ACK, PRACK or a method the server does not know, not about a
    request URI that is a placeholder for the remote target, and not about a
    BYE while an INVITE is in progress on the leg, which cancels that first. *)
Theorem request_inside_dialog_answered pData m name uri p d c leg tags contentType cr w :
  parseStartLine (getStartLine pData) = (m, name, uri) -> plain_method m = true -> strstr uri "placeholder" = false ->
  SD_FindByDialogId (getDialogId_of pData) (dc_stable w) = Some p -> dc_dialogs w !! p = Some (d, c) -> dialog_ok d (dc_stack w) ->
  m_leg d = Some leg -> tags_of (getHeaders pData) "" None = Ok tags -> content_type_of (getBody pData) tags = Some contentType ->
  (m = sip_method_bye -> forall q i, q ∈ dc_inProgress w -> dc_iips w !! q = Some i -> iip_leg i ≠ Some leg) ->
  default None (head (in_creates (dc_inputs w))) = Some cr -> m_lock (dc_clients w) = false -> getDialogId_of pData ≠ ""%string ->
  exists q tp w', doSendRequestInsideDialog pData w = Ok (tt, w') /\
    dc_events w' = dc_events w ++ [SentWithHeaders q leg m (m_routeUri (d_net d)) uri tp
      (request_headers m c (getBody pData) contentType tags)] ++ request_cdr m /\
    dc_stable w' = dc_stable w /\
    (exists routed, route_api_response (getClientMsgId pData) "OK" (msg_sent cr (getTransactionId pData)) (dc_clients w) =
       Ok (routed, dc_clients w')) /\
    (dc_rips w !! q = None ->
       forall sip, is_method sip sip_method_invite && has_status sip 200 = false ->
       exists w'', processResponseInsideDialog q (Some sip) w' = Ok (0%Z, w'') /\
         request_ended q sip (request_rip pData p m d cr) w' w'').
Proof.
  intros Hline Hm Huri Hfind Hp Hok Hleg Htags Hct Hbye Hcr Hlk Hid.
  destruct (choose_tport_run p d c (if nta_leg_has_route leg then nta_leg_remote_target leg else None) w Hp Hok)
    as (tp & force & reg & w1 & E1 & [B C1 V1 I1 (n & Hp1 & Hok1 & Hr1)]).
  destruct (core_eqs w w1 (bs_core _ _ _ B)) as (_ & Ki & Kp & _ & Ks & El & _).
  pose proof (ok_leg _ _ Hok1 leg Hleg) as Hl1.
  assert (bool_decide (m = sip_method_ack) = false /\ bool_decide (m = sip_method_prack) = false /\ bool_decide (m = sip_method_invite) = false /\
    bool_decide (m = sip_method_invalid) || bool_decide (m = sip_method_unknown) = false) as (Ma & Mp & Mi & Mo).
  { unfold plain_method in Hm. apply negb_true_iff in Hm. rewrite !orb_false_iff in Hm. rewrite orb_false_iff. tauto. }
  set (q := fresh_addr (st_orqs (dc_stack w1))).
  set (hs := request_headers m c (getBody pData) contentType tags).
  set (w2 := app_request_sent leg m (m_routeUri (d_net d)) uri (if force then tp else None) hs cr w1).
  destruct (record_request_run pData p leg q m (set_net n d) c cr w2 Hm Hp1) as (w3 & routed & E3 & R3 & V3 & S3 & T3 & D3 & L3 & A3);
    [eexists; apply lookup_insert_eq|apply lookup_insert_eq|cbn; by rewrite C1|].
  exists q, (if force then tp else None), w3. split_and!.
  - unfold doSendRequestInsideDialog. rewrite Hline. unfold findDialogById. mstep. rewrite Hfind.
    erewrite (M_bind_ok _ _ w (inr None) w3); [done|].
    unfold send_in_dialog. rewrite (M_bind_ok _ _ _ _ _ (pure_ok _ tags w Htags)), (M_bind_ok _ _ _ _ _ (dlg_self_ok p d c w Hp)), Hleg.
    rewrite (M_bind_ok _ _ _ _ _ E1). cbn beta iota.
    erewrite (M_bind_ok _ _ w1 tt w1); cycle 1.
    { destruct (bool_decide_reflect (m = sip_method_bye)) as [->|]; [|done]. apply cancel_reinvite_none. rewrite Ki, Kp. by apply Hbye. }
    unfold resolve_target. rewrite Ma, Huri. cbn [orb andb]. rewrite Mo, Hct, Mi. cbn [andb]. mstep.
    assert (send_method p leg m uri (getBody pData) contentType tags (if force then tp else None) w1 = Ok (inr (Some q, false), w2)) as Es.
    { unfold send_method. rewrite (M_bind_ok _ _ _ _ _ (getRouteUri_run p _ c w1 Hp1)), Ma, Mp.
      change (m_routeUri (d_net (set_net n d))) with (m_routeUri n). rewrite Hr1.
      erewrite M_bind_ok; cycle 1.
      { unfold send_other. erewrite (M_bind_ok _ _ w1 (Some q) w2); [reflexivity|].
        rewrite (M_bind_ok _ _ _ _ _ (dlg_ctl_ok _ _ _ _ Hp1)). apply outgoing_create_run; [done|by rewrite I1]. }
      done. }
    rewrite (M_bind_ok _ _ _ _ _ Es). cbn beta iota. unfold dlg_getSipStatus.
    erewrite (M_bind_ok _ _ w2); [|by rewrite (M_bind_ok _ _ _ _ _ (dlg_self_ok p _ c w2 Hp1))]. cbn beta.
    erewrite (M_bind_ok _ _ w2 tt w3) by (mstep; exact E3).
    assert (dc_dialogs w3 !! p = Some (set_net n d, c)) as Hp3 by (by rewrite D3).
    erewrite (M_bind_ok _ _ w3); [|by rewrite (M_bind_ok _ _ _ _ _ (dlg_self_ok p _ c w3 Hp3))]. cbn beta.
    by rewrite (M_bind_ok _ _ _ _ _ (dlg_ctl_ok _ _ _ _ Hp3)).
  - rewrite V3. unfold w2, app_request_sent. cbn. by rewrite V1, <- app_assoc.
  - rewrite T3. exact Ks.
  - exists routed. rewrite <- C1. exact A3.
  - intros Hq sip Hs. assert (dc_rips w2 = dc_rips w) as Kr by (pose proof (bs_core _ _ _ B) as K; by injection K).
    destruct (inside_response_known q sip (request_rip pData p m d cr) w3) as (w'' & E'' & R'' & _);
      [rewrite S3; eexists; apply lookup_insert_eq|done|unfold accepts_reinvite; congruence| |done|by exists w''].
    rewrite R3, Kr, Hq. apply lookup_insert_eq.
Qed.
End inside.
End timed.
