(* ===== verification/Blacklist.v ===== *)
(** Model of the blacklist (src/blacklist.hpp, src/blacklist.cpp): the
    addresses whose messages are dropped, which a thread of its own reads from
    redis, directly or by way of sentinels. *)
From S2P Require Import Prelude CppString TextUtil.

Open Scope list_scope.

(** ** Addresses *)

(** [std::getline(ss, token, ',')] until the end. *)
Fixpoint getlines (sep : ascii) (s : string) : list string :=
  match s with
  | EmptyString => []
  | String c s' =>
    if Ascii.eqb c sep then "" :: getlines sep s'
    else match getlines sep s' with [] => [String c ""] | t :: ts => String c t :: ts end
  end.
Definition is_blank (c : ascii) : bool := Ascii.eqb c " " || Ascii.eqb c (ascii_of_N 9).
Fixpoint drop_blanks (s : string) : string :=
  match s with String c s' => if is_blank c then drop_blanks s' else s | EmptyString => "" end.
Fixpoint drop_last_blanks (s : string) : string :=
  match s with
  | EmptyString => ""
  | String c s' => match drop_last_blanks s' with "" => if is_blank c then "" else String c "" | t => String c t end
  end.
(** [substr(start, end - start + 1)]: with no other character, [start] is
    [npos]. *)
Definition trim_token (s : string) : res string :=
  match drop_blanks s with "" => Fault (Thrown "out_of_range") | t => Ok (drop_last_blanks t) end.

(** The number that [strtol] reads; none without a digit. *)
Fixpoint c_strtol (s : string) : option Z :=
  match s with
  | EmptyString => None
  | String c s' =>
    if c_isspace c then c_strtol s'
    else let num (neg : bool) (t : string) := match t with
           | String d _ => if is_digit d then Some (if neg then - atoi_digits t 0 else atoi_digits t 0)%Z else None
           | EmptyString => None end in
         if Ascii.eqb c "-" then num true s' else if Ascii.eqb c "+" then num false s' else num false s
  end.
Definition stoi (s : string) : res Z :=
  match c_strtol s with
  | None => Fault (Thrown "invalid_argument")
  | Some z => if bool_decide (- 2 ^ 31 <= z < 2 ^ 31)%Z then Ok z else Fault (Thrown "out_of_range")
  end.
(** As [unsigned int]. *)
Definition stoul (s : string) : res Z :=
  match c_strtol s with
  | None => Fault (Thrown "invalid_argument")
  | Some z => if bool_decide (- 2 ^ 64 < z < 2 ^ 64)%Z then Ok (z mod 2 ^ 32)%Z else Fault (Thrown "out_of_range")
  end.

Definition parseAddress (address : string) : res (string * Z) :=
  match str_find ":" address with
  | Some n => port ← stoul (str_drop (S n) address); Ok (str_take n address, port)
  | None => Ok (""%string, 0%Z)
  end.
Fixpoint parse_entries (tokens : list string) : res (list (string * Z)) :=
  match tokens with
  | [] => Ok []
  | t :: ts =>
    token ← trim_token t;
    e ← match str_find ":" token with
        | Some n => port ← stoi (str_drop (S n) token); Ok [(str_take n token, port)]
        | None => Ok []
        end;
    es ← parse_entries ts;
    Ok (e ++ es)
  end.
Definition parseIpPort (input : string) : res (list (string * Z)) := parse_entries (getlines "," input).

(** ** Redis *)

(** Address and port; ports are cut to 16 bits. *)
Definition endpoint : Type := string * Z.
Definition endpoint_of (address : string) (port : Z) : endpoint := (address, (port mod 2 ^ 16)%Z).
(** Texts are read up to their first NUL, as the code reads them. *)
Inductive redisReply :=
  | ReplyString (str : string)
  | ReplyStatus (str : string)
  | ReplyArray (elements : list redisReply)
  | ReplyError (str : string)
  | ReplyOther.
(** [str]; [None]: NULL. *)
Definition reply_str (r : redisReply) : option string := match r with ReplyString s | ReplyStatus s | ReplyError s => Some s | _ => None end.
Inductive redis_command := AUTH (password : string) | SMEMBERS (key : string) | SENTINEL_REPLICAS (master : string).
(** The [n]th connection that the program makes: whether it succeeds, the
    replies to its commands ([None]: NULL), and whether an error is set after
    one.  Further, what resolvers answer, which texts are addresses, and the
    order in which an [unordered_set] is walked. *)
Class Redis := {
  redisConnect : nat -> endpoint -> bool;
  redisCommand : nat -> endpoint -> redis_command -> option redisReply;
  redis_err : nat -> endpoint -> bool;
  from_string : string -> option string;
  resolve : nat -> string -> Z -> list endpoint;
  walk_set : gset string -> list string;
}.

(** [class Blacklist]: what its constructors keep, *)
Record blacklist_config := BlacklistConfig {
  bl_redisKey : string;
  bl_refreshSecs : Z;
  bl_redisAddress : string;
  bl_redisPassword : string;
  bl_redisPort : Z;
  bl_sentinels : string;
  bl_masterName : string;
}.
Definition Blacklist_redis (redisAddress : string) (redisPort : Z) (redisPassword redisKey : string) (refreshSecs : Z) : blacklist_config :=
  BlacklistConfig redisKey refreshSecs redisAddress redisPassword redisPort "" "".
Definition Blacklist_sentinels (sentinels masterName redisPassword redisKey : string) (refreshSecs : Z) : blacklist_config :=
  BlacklistConfig redisKey refreshSecs "" redisPassword 0 sentinels masterName.
(** and what its thread changes, with the connections made so far and the
    seconds that the thread has slept each time. *)
Record blacklist := MkBlacklist {
  m_ips : gset string;
  m_replicas : gset string;
  bl_connections : nat;
  bl_slept : list Z;
}.
Definition new_blacklist : blacklist := MkBlacklist ∅ ∅ 0 [].
Definition on_ips u b := MkBlacklist (u (m_ips b)) (m_replicas b) (bl_connections b) (bl_slept b).
Definition on_replicas u b := MkBlacklist (m_ips b) (u (m_replicas b)) (bl_connections b) (bl_slept b).
Definition on_connections u b := MkBlacklist (m_ips b) (m_replicas b) (u (bl_connections b)) (bl_slept b).
Definition on_slept u b := MkBlacklist (m_ips b) (m_replicas b) (bl_connections b) (u (bl_slept b)).
Definition isBlackListed (srcAddress : string) (b : blacklist) : bool := bool_decide (c_str srcAddress ∈ m_ips b).

Abbreviation BL := (M blacklist).
Definition next_connection : BL nat := b ← get; _ ← modify (on_connections S); mret (bl_connections b).
Definition bl_pure {A} (r : res A) : BL A := fun b => match r with Ok a => Ok (a, b) | Fault f => Fault f end.

Section redis.
Context `{Redis}.

(** The address in the reply for a replica: [None] when a field or its value is
    not a string. *)
Fixpoint replica_fields (fields : list redisReply) (ip : string) (port : Z) : option (option string) :=
  match fields with
  | [] => Some None
  | ReplyString name :: ReplyString value :: fields =>
    let ip := if String.eqb name "ip" then value else ip in
    let port := if String.eqb name "port" then (c_atoi value mod 2 ^ 32)%Z else port in
    if negb (String.eqb ip "") && negb (Z.eqb port 0) then Some (Some (ip +:+ ":" +:+ to_string port)%string)
    else replica_fields fields ip port
  | _ => None
  end.
Fixpoint read_replicas (elements : list redisReply) : BL bool :=
  match elements with
  | [] => mret true
  | ReplyArray fields :: elements =>
    if Nat.odd (length fields) then mret false else
    match replica_fields fields "" 0 with
    | None => mret false
    | Some replica =>
      _ ← match replica with Some r => modify (on_replicas (fun s => {[r]} ∪ s)) | None => mret tt end;
      read_replicas elements
    end
  | _ => mret false
  end.
Definition QuerySentinel (redisMaster : string) (ep : endpoint) : BL bool :=
  n ← next_connection;
  _ ← modify (on_replicas (fun _ => ∅));
  if negb (redisConnect n ep) then mret false else
  match redisCommand n ep (SENTINEL_REPLICAS redisMaster) with
  | None => mret false
  | Some reply =>
    if redis_err n ep then mret false else
    match reply with ReplyArray elements => read_replicas elements | _ => mret false end
  end.

Fixpoint insert_members (elements : list redisReply) : BL unit :=
  match elements with
  | [] => mret tt
  | r :: elements => s ← deref (reply_str r); _ ← modify (on_ips (fun i => {[s]} ∪ i)); insert_members elements
  end.
(** AUTH: the reply is looked at without a test for NULL. *)
Definition redis_auth (n : nat) (ep : endpoint) (redisPassword : string) : BL bool :=
  if String.eqb redisPassword "" then mret true else
  reply ← deref (redisCommand n ep (AUTH redisPassword));
  mret (match reply with ReplyError _ => false | _ => true end).
Definition QueryRedis (redisPassword redisKey : string) (ep : endpoint) : BL bool :=
  n ← next_connection;
  if negb (redisConnect n ep) then mret false else
  ok ← redis_auth n ep redisPassword;
  if negb ok then mret false else
  match redisCommand n ep (SMEMBERS redisKey) with
  | None => mret false
  | Some reply =>
    if redis_err n ep then mret false else
    match reply with
    | ReplyArray elements => _ ← modify (on_ips (fun _ => ∅)); _ ← insert_members elements; mret true
    | _ => mret false
    end
  end.

(** ** The thread *)

Context (c : blacklist_config).

(** Until one of them answers. *)
Fixpoint query_sentinels (eps : list endpoint) : BL unit :=
  match eps with
  | [] => mret tt
  | ep :: eps => ok ← QuerySentinel (bl_masterName c) ep; if (ok : bool) then mret tt else query_sentinels eps
  end.
Fixpoint sentinel_loop (entries : list (string * Z)) : BL unit :=
  match entries with
  | [] => mret tt
  | (ip, port) :: entries =>
    answered ← match from_string ip with
               | Some a => QuerySentinel (bl_masterName c) (endpoint_of a port)
               | None => b ← get; _ ← query_sentinels (resolve (bl_connections b) ip (port mod 2 ^ 32)); mret false
               end;
    if (answered : bool) then mret tt else
    b ← get;
    if negb (bool_decide (m_replicas b = ∅)) then mret tt else sentinel_loop entries
  end.
(** Every address is asked, for a name only the first endpoint; [initialized]
    is set by an answer. *)
Fixpoint redis_loop (addresses : list string) (initialized : bool) : BL bool :=
  match addresses with
  | [] => mret initialized
  | address :: addresses =>
    '(ip, port) ← bl_pure (parseAddress address);
    b ← get;
    let ep := match from_string ip with
              | Some a => Some (endpoint_of a port)
              | None => head (resolve (bl_connections b) ip port)
              end in
    ok ← match ep with Some ep => QueryRedis (bl_redisPassword c) (bl_redisKey c) ep | None => mret false end;
    redis_loop addresses (initialized || ok)
  end.
Definition redis_addresses (b : blacklist) : list string :=
  if negb (bool_decide (m_replicas b = ∅)) then walk_set (m_replicas b)
  else [(bl_redisAddress c +:+ ":" +:+ to_string (bl_redisPort c))%string].
(** One turn of the loop; whether the thread goes on. *)
Definition bl_turn (initialized : bool) : BL (bool * bool) :=
  _ ← (if String.eqb (bl_sentinels c) "" then mret tt
       else entries ← bl_pure (parseIpPort (bl_sentinels c)); sentinel_loop entries);
  b ← get;
  if negb (String.eqb (bl_redisAddress c) "") || negb (bool_decide (m_replicas b = ∅)) then
    initialized ← redis_loop (redis_addresses b) initialized;
    if (initialized : bool) then mret (initialized, false) else
    let interval := if (initialized : bool) then bl_refreshSecs c else 60%Z in
    _ ← modify (on_slept (fun l => l ++ [interval]));
    mret (initialized, true)
  else mret (initialized, false).
(** At most [fuel] turns; whether the thread has ended. *)
Fixpoint bl_threadFunc (fuel : nat) (initialized : bool) : BL bool :=
  match fuel with
  | 0 => mret false
  | S fuel =>
    '(initialized, more) ← bl_turn initialized;
    if (more : bool) then bl_threadFunc fuel initialized else mret true
  end.
End redis.
