(* ===== verification/BlacklistCorrect.v ===== *)
(** The blacklist: what its thread ends up with, whatever redis answers. *)
From S2P Require Import Prelude CppString TextUtil Blacklist.

Open Scope list_scope.

(** ** Addresses as texts *)

Lemma digit_plain d : is_digit d = true -> c_isspace d = false /\ Ascii.eqb d "-" = false /\ Ascii.eqb d "+" = false /\ Ascii.eqb d "," = false /\ Ascii.eqb d ":" = false /\ is_blank d = false.
Proof.
  unfold is_digit, c_isspace, is_blank. intros [H1 H2]%andb_true_iff. apply N.leb_le in H1, H2.
  assert (forall x, (code x < 48)%N \/ (57 < code x)%N -> Ascii.eqb d x = false) as Hne.
  { intros x Hx. apply Ascii.eqb_neq. intros ->. lia. }
  split_and!; try (apply Hne; vm_compute; (by left) || by right).
  - apply orb_false_iff. split; [apply andb_false_iff; right; apply N.leb_gt; lia|apply N.eqb_neq; lia].
  - apply orb_false_iff. split; apply Hne; vm_compute; by left.
Qed.
Lemma atoi_digits_N s acc : str_forall is_digit s = true -> atoi_digits s (Z.of_N acc) = Z.of_N (dec_value s acc).
Proof.
  revert acc. induction s as [|d s IH]; intros acc; cbn [str_forall atoi_digits dec_value]; [done|].
  intros [Hd Hs]%andb_true_iff. rewrite Hd. rewrite <-IH by done. f_equal. unfold is_digit in Hd.
  apply andb_true_iff in Hd as [H1%N.leb_le _]. lia.
Qed.
Lemma strtol_number n : (0 <= n < 2 ^ 64)%Z -> c_strtol (to_string n) = Some n.
Proof.
  intros Hn. unfold to_string. assert (pretty n = pretty (Z.to_N n)) as -> by (destruct n; [done..|lia]).
  destruct (pretty_N_digits 20 (Z.to_N n)) as (Hd & Hl & Hv); [lia|change (10 ^ N.of_nat 20)%N with 100000000000000000000%N; lia|].
  destruct (pretty (Z.to_N n)) as [|d s] eqn:E; [cbn in Hl; lia|]. pose proof Hd as Hd'. cbn [str_forall] in Hd'.
  apply andb_true_iff in Hd' as [Hd1 _]. destruct (digit_plain d Hd1) as (H1 & H2 & H3 & _). cbn [c_strtol]. rewrite H1, H2, H3, Hd1.
  f_equal. change 0%Z with (Z.of_N 0). rewrite atoi_digits_N by done. rewrite Hv. lia.
Qed.
Lemma number_chars n : (0 <= n < 2 ^ 64)%Z -> str_forall is_digit (to_string n) = true /\ to_string n ≠ ""%string.
Proof.
  intros Hn. unfold to_string. assert (pretty n = pretty (Z.to_N n)) as -> by (destruct n; [done..|lia]).
  destruct (pretty_N_digits 20 (Z.to_N n)) as (Hd & Hl & _); [lia|change (10 ^ N.of_nat 20)%N with 100000000000000000000%N; lia|].
  split; [done|]. intros E. rewrite E in Hl. cbn in Hl. lia.
Qed.

(** A text that can be the address in an entry. *)
Definition plain (s : string) : Prop :=
  str_mem "," s = false /\ str_mem ":" s = false /\ str_forall (fun c => negb (is_blank c)) s = true.
Definition entry_text (e : string * Z) : string := (e.1 +:+ ":" +:+ to_string e.2)%string.
Definition plain_entry (e : string * Z) : Prop := plain e.1 /\ (0 <= e.2 < 2 ^ 31)%Z.

Lemma digits_no c s : str_forall is_digit s = true -> is_digit c = false -> str_mem c s = false.
Proof.
  intros Hs Hc. unfold str_mem. apply negb_false_iff. induction s as [|d s IH]; [done|]. cbn in *.
  apply andb_true_iff in Hs as [Hd Hs]. rewrite IH by done. rewrite andb_true_r. apply negb_true_iff, Ascii.eqb_neq. intros ->. congruence.
Qed.
Lemma digits_solid s : str_forall is_digit s = true -> str_forall (fun c => negb (is_blank c)) s = true.
Proof.
  induction s as [|d s IH]; [done|]. cbn. intros [Hd Hs]%andb_true_iff. rewrite IH by done.
  destruct (digit_plain d Hd) as (_ & _ & _ & _ & _ & ->). done.
Qed.
Lemma entry_chars e : plain_entry e ->
  str_mem "," (entry_text e) = false /\ entry_text e ≠ ""%string /\ str_forall (fun c => negb (is_blank c)) (entry_text e) = true.
Proof.
  destruct e as [ip port]. intros [(H1 & H2 & H3) Hp]. cbn in *. destruct (number_chars port) as [Hd Hne]; [lia|]. unfold entry_text. cbn [fst snd].
  split_and!.
  - rewrite !str_mem_app, H1, (digits_no _ _ Hd) by done. done.
  - by destruct ip.
  - rewrite !str_forall_app, H3, (digits_solid _ Hd). done.
Qed.
Lemma drop_blanks_solid s : str_forall (fun c => negb (is_blank c)) s = true -> drop_blanks s = s /\ drop_last_blanks s = s.
Proof.
  induction s as [|c s IH]; [done|]. cbn [str_forall drop_blanks drop_last_blanks]. intros [Hc%negb_true_iff Hs]%andb_true_iff.
  destruct (IH Hs) as [_ ->]. rewrite Hc. by destruct s.
Qed.
Lemma trim_solid_token s : s ≠ ""%string -> str_forall (fun c => negb (is_blank c)) s = true -> trim_token s = Ok s.
Proof. intros Hne Hs. unfold trim_token. destruct (drop_blanks_solid s Hs) as [-> E]. destruct s; [done|]. by rewrite E. Qed.
Lemma getlines_one sep s : str_mem sep s = false -> s ≠ ""%string -> getlines sep s = [s].
Proof.
  unfold str_mem. intros Hs%negb_false_iff. induction s as [|c s IH]; [done|]. intros _. cbn in *. apply andb_true_iff in Hs as [Hc%negb_true_iff Hs].
  rewrite Ascii.eqb_sym, Hc. destruct s as [|d s]; [done|]. by rewrite (IH Hs).
Qed.
Lemma getlines_more sep s t : str_mem sep s = false -> getlines sep (s +:+ String sep t) = s :: getlines sep t.
Proof.
  unfold str_mem. intros Hs%negb_false_iff. induction s as [|c s IH].
  - change (getlines sep (String sep t) = ""%string :: getlines sep t). cbn [getlines]. by rewrite Ascii.eqb_refl.
  - rewrite str_app_cons. cbn [str_forall getlines] in *. apply andb_true_iff in Hs as [Hc%negb_true_iff Hs].
    rewrite Ascii.eqb_sym, Hc. by rewrite (IH Hs).
Qed.
Lemma getlines_join l : Forall (fun s => str_mem "," s = false /\ s ≠ ""%string) l -> getlines "," (join "," l) = l.
Proof.
  induction 1 as [|s l [H1 H2] _ IH]; [done|]. destruct l as [|t l]; [by apply getlines_one|].
  rewrite join_cons by done. change ("," +:+ join "," (t :: l))%string with (String "," (join "," (t :: l))). by rewrite getlines_more, IH.
Qed.
Lemma str_drop_one s c t : str_drop (S (String.length s)) (s +:+ String c t) = t.
Proof. induction s as [|d s IH]; [by destruct t|]. exact IH. Qed.
Lemma entry_parsed ip port : str_mem ":" ip = false ->
  str_find ":" (ip +:+ ":" +:+ to_string port)%string = Some (String.length ip) /\
  str_take (String.length ip) (ip +:+ ":" +:+ to_string port)%string = ip /\
  str_drop (S (String.length ip)) (ip +:+ ":" +:+ to_string port)%string = to_string port.
Proof. intros Hip. split_and!; [by apply str_find_after|apply str_take_app|apply str_drop_one]. Qed.
Lemma stoi_number n : (0 <= n < 2 ^ 31)%Z -> stoi (to_string n) = Ok n.
Proof. intros Hn. unfold stoi. rewrite strtol_number by lia. by rewrite bool_decide_eq_true_2 by lia. Qed.

(** The list of sentinels of the configuration is read as it was written: a
    comma-separated list of entries address:port gives those addresses and
    ports, in that order. *)
Theorem sentinels_roundtrip (entries : list (string * Z)) :
  Forall plain_entry entries -> parseIpPort (join "," (entry_text <$> entries)) = Ok entries.
Proof.
  intros He. unfold parseIpPort. rewrite getlines_join.
  2: { apply Forall_fmap. eapply Forall_impl; [exact He|]. intros e Hp. destruct (entry_chars e Hp) as (? & ? & _). done. }
  induction He as [|[ip port] l Hp _ IH]; [done|]. cbn [fmap list_fmap parse_entries].
  destruct (entry_chars _ Hp) as (_ & Hne & Hs). rewrite (trim_solid_token _ Hne Hs). destruct Hp as [(_ & Hc & _) Hport]. cbn [fst snd] in *.
  unfold mbind, res_bind. unfold entry_text at 1 2 3. cbn [fst snd]. destruct (entry_parsed ip port Hc) as (-> & -> & ->).
  rewrite stoi_number by done. cbn in IH. by rewrite IH.
Qed.

(** ** What redis answers *)

Section redis.
Context `{Redis}.

Fixpoint member_texts (elements : list redisReply) : option (list string) :=
  match elements with
  | [] => Some []
  | r :: elements => s ← reply_str r; l ← member_texts elements; Some (s :: l)
  end.
(** The members that connection [n] brings; [Ok None]: an error. *)
Definition answer (redisPassword redisKey : string) (n : nat) (ep : endpoint) : res (option (list string)) :=
  if negb (redisConnect n ep) then Ok None else
  match (if String.eqb redisPassword "" then Some ReplyOther else redisCommand n ep (AUTH redisPassword)) with
  | None => Fault BadAccess
  | Some (ReplyError _) => Ok None
  | Some _ =>
    match redisCommand n ep (SMEMBERS redisKey), redis_err n ep with
    | Some (ReplyArray elements), false => match member_texts elements with Some l => Ok (Some l) | None => Fault BadAccess end
    | _, _ => Ok None
    end
  end.

Lemma insert_members_run elements b l : member_texts elements = Some l ->
  insert_members elements b = Ok (tt, on_ips (fun i => list_to_set l ∪ i) b).
Proof.
  revert b l. induction elements as [|r es IH]; intros b l; cbn [member_texts insert_members].
  - intros [= <-]. destruct b. unfold on_ips. cbn. do 2 f_equal. by rewrite (left_id_L ∅ (∪)).
  - destruct (reply_str r) as [s|]; [|done]. cbn. destruct (member_texts es) as [l'|] eqn:E; [|done]. intros [= <-].
    erewrite M_bind_ok by reflexivity. cbn beta. erewrite M_bind_ok by reflexivity. cbn beta. rewrite (IH _ l' eq_refl).
    unfold on_ips. cbn. do 3 f_equal. set_solver.
Qed.
Lemma insert_members_fault elements b : member_texts elements = None -> insert_members elements b = Fault BadAccess.
Proof.
  revert b. induction elements as [|r es IH]; intros b; cbn [member_texts insert_members]; [done|].
  destruct (reply_str r) as [s|]; [|done]. cbn. destruct (member_texts es) as [l'|] eqn:E; [done|]. intros _.
  erewrite M_bind_ok by reflexivity. cbn beta. erewrite M_bind_ok by reflexivity. cbn beta. by apply IH.
Qed.

(** The set after a query: what was answered, or as it was. *)
Lemma smembers_run (reply : option redisReply) (err : bool) b :
  match reply with
  | None => mret false
  | Some reply => if err then mret false else
    match reply with
    | ReplyArray elements => _ ← modify (on_ips (fun _ => ∅)); _ ← insert_members elements; mret true
    | _ => mret false
    end
  end b =
  match match reply, err with
        | Some (ReplyArray elements), false => match member_texts elements with Some l => Ok (Some l) | None => Fault BadAccess end
        | _, _ => Ok None
        end with
  | Ok (Some l) => Ok (true, on_ips (fun _ => list_to_set l) b)
  | Ok None => Ok (false, b)
  | Fault f => Fault f
  end.
Proof.
  destruct reply as [[| |es| |]|], err; try done. erewrite M_bind_ok by reflexivity. cbn beta.
  destruct (member_texts es) as [l|] eqn:El.
  - rewrite (M_bind_ok _ _ _ _ _ (insert_members_run _ _ _ El)). rewrite M_ret_run. unfold on_ips. cbn. do 3 f_equal. set_solver.
  - by rewrite (M_bind_fault _ _ _ _ (insert_members_fault _ _ El)).
Qed.
Lemma QueryRedis_run pw key ep b :
  QueryRedis pw key ep b =
  match answer pw key (bl_connections b) ep with
  | Ok (Some l) => Ok (true, on_connections S (on_ips (fun _ => list_to_set l) b))
  | Ok None => Ok (false, on_connections S b)
  | Fault f => Fault f
  end.
Proof.
  unfold QueryRedis, answer, redis_auth. erewrite M_bind_ok by reflexivity. cbn beta. set (n := bl_connections b).
  destruct (redisConnect n ep); [|done]. cbn [negb]. destruct (String.eqb pw "").
  - erewrite M_bind_ok by reflexivity. cbn beta iota. cbn [negb]. rewrite smembers_run.
    destruct (redisCommand n ep (SMEMBERS key)) as [[| |es| |]|], (redis_err n ep); try done; by destruct (member_texts es).
  - destruct (redisCommand n ep (AUTH pw)) as [r|]; [|done].
    erewrite M_bind_ok by (erewrite M_bind_ok by reflexivity; reflexivity). cbn beta. destruct r; cbn [negb]; try done;
      rewrite smembers_run; destruct (redisCommand n ep (SMEMBERS key)) as [[| |es| |]|], (redis_err n ep); try done; by destruct (member_texts es).
Qed.

(** ** The thread *)

Context (c : blacklist_config) (a : string).
(** One redis server, given by its address. *)
Record direct : Prop := {
  di_sentinels : bl_sentinels c = ""%string;
  di_address : bl_redisAddress c ≠ ""%string /\ str_mem ":" (bl_redisAddress c) = false;
  di_port : (0 <= bl_redisPort c < 2 ^ 16)%Z;
  di_literal : from_string (bl_redisAddress c) = Some a;
}.
Definition server_answer (n : nat) : res (option (list string)) :=
  answer (bl_redisPassword c) (bl_redisKey c) n (a, bl_redisPort c).
Definition waited (n : nat) : blacklist := MkBlacklist ∅ ∅ n (replicate n 60%Z).

Lemma bl_turn_direct n : direct ->
  bl_turn c false (waited n) =
  match server_answer n with
  | Ok (Some l) => Ok ((true, false), on_connections S (on_ips (fun _ => list_to_set l) (waited n)))
  | Ok None => Ok ((false, true), waited (S n))
  | Fault f => Fault f
  end.
Proof.
  intros [Hs [Hne Hc] Hp Hl]. unfold bl_turn. rewrite Hs. erewrite M_bind_ok by reflexivity. cbn beta.
  erewrite M_bind_ok by reflexivity. cbn beta. rewrite (proj2 (String.eqb_neq _ _) Hne). cbn [negb orb].
  assert (redis_addresses c (waited n) = [entry_text (bl_redisAddress c, bl_redisPort c)]) as ->.
  { unfold redis_addresses. by rewrite bool_decide_eq_true_2. }
  assert (parseAddress (entry_text (bl_redisAddress c, bl_redisPort c)) = Ok (bl_redisAddress c, bl_redisPort c)) as Ep.
  { unfold parseAddress, entry_text. cbn [fst snd]. destruct (entry_parsed (bl_redisAddress c) (bl_redisPort c) Hc) as (-> & -> & ->).
    unfold stoul. rewrite strtol_number by lia. rewrite bool_decide_eq_true_2 by lia. unfold mbind, res_bind. by rewrite Z.mod_small by lia. }
  cbn [redis_loop].
  assert (redis_loop c [entry_text (bl_redisAddress c, bl_redisPort c)] false (waited n) =
    match server_answer n with
    | Ok (Some l) => Ok (true, on_connections S (on_ips (fun _ => list_to_set l) (waited n)))
    | Ok None => Ok (false, on_connections S (waited n))
    | Fault f => Fault f
    end) as E.
  { cbn [redis_loop]. unfold bl_pure at 1. unfold mbind at 1, M_bind at 1. rewrite Ep. cbn beta iota.
    erewrite M_bind_ok by reflexivity. cbn beta. rewrite Hl. unfold endpoint_of. rewrite Z.mod_small by lia.
    unfold mbind, M_bind. rewrite QueryRedis_run. change (bl_connections (waited n)) with n. fold (server_answer n).
    by destruct (server_answer n) as [[l|]|]. }
  cbn [redis_loop] in E. unfold mbind at 1, M_bind at 1. rewrite E. destruct (server_answer n) as [[l|]|]; [done| |done].
  unfold mbind, M_bind, modify. cbn. unfold waited, on_slept, on_connections. cbn. do 3 f_equal.
  by rewrite <-replicate_S_end.
Qed.

Lemma bl_thread_waits n k fuel : direct -> (forall i, n <= i < n + k -> server_answer i = Ok None) ->
  bl_threadFunc c (k + fuel) false (waited n) = bl_threadFunc c fuel false (waited (n + k)).
Proof.
  intros Hd. revert n. induction k as [|k IH]; intros n Hn; [by rewrite Nat.add_0_r|].
  cbn [Nat.add bl_threadFunc]. unfold mbind at 1, M_bind at 1. rewrite (bl_turn_direct n Hd), Hn by lia.
  rewrite IH by (intros i Hi; apply Hn; lia). by replace (S n + k) with (n + S k) by lia.
Qed.

(** C24: The blacklist of one redis server.  As long as the server does not
    answer, the thread asks again, a minute apart, and nobody is blocked; with
    its first answer exactly the members of the set are blocked, and the thread
    is over: the list is never read again, whatever the refresh interval is. *)
Theorem blacklist_loaded (n : nat) :
  direct -> (forall k, k < n -> server_answer k = Ok None) ->
  bl_threadFunc c n false new_blacklist = Ok (false, waited n) /\
  (forall s, isBlackListed s (waited n) = false) /\
  forall l, server_answer n = Ok (Some l) -> exists b, forall fuel, bl_threadFunc c (n + S fuel) false new_blacklist = Ok (true, b) /\
    bl_connections b = S n /\ bl_slept b = replicate n 60%Z /\ forall s, isBlackListed s b = bool_decide (c_str s ∈ l).
Proof.
  intros Hd Hn. assert (new_blacklist = waited 0) as -> by done. split_and!.
  - rewrite <-(Nat.add_0_r n) at 1. rewrite (bl_thread_waits 0 n 0 Hd) by (intros i Hi; apply Hn; lia). done.
  - intros s. unfold isBlackListed. apply bool_decide_eq_false_2. cbn. set_solver.
  - intros l Hl. exists (on_connections S (on_ips (fun _ => list_to_set l) (waited n))). intros fuel. split_and!; try done.
    + rewrite (bl_thread_waits 0 n (S fuel) Hd) by (intros i Hi; apply Hn; lia). cbn [Nat.add bl_threadFunc].
      unfold mbind at 1, M_bind at 1. rewrite (bl_turn_direct n Hd), Hl. done.
    + intros s. unfold isBlackListed. cbn. apply bool_decide_ext. set_solver.
Qed.

(** With sentinels, none of which can be reached at the start, the thread gives
    up at once: it takes the lack of replicas for a lack of configuration. *)
Lemma QuerySentinel_refused ep b : redisConnect (bl_connections b) ep = false ->
  QuerySentinel (bl_masterName c) ep b = Ok (false, on_replicas (fun _ => ∅) (on_connections S b)).
Proof. intros E. unfold QuerySentinel. erewrite M_bind_ok by reflexivity. cbn beta. erewrite M_bind_ok by reflexivity. cbn beta. by rewrite E. Qed.
Lemma sentinel_loop_refused entries b : (forall n ep, redisConnect n ep = false) -> m_replicas b = ∅ ->
  Forall (fun e => is_Some (from_string e.1)) entries ->
  exists n, sentinel_loop c entries b = Ok (tt, MkBlacklist (m_ips b) ∅ n (bl_slept b)).
Proof.
  intros Hr Hb He. revert b Hb. induction He as [|[ip port] es [x Hx] _ IH]; intros b Hb.
  - exists (bl_connections b). cbn. destruct b. cbn in *. by subst.
  - cbn [sentinel_loop]. cbn in Hx. rewrite Hx. rewrite (M_bind_ok _ _ _ _ _ (QuerySentinel_refused _ _ (Hr _ _))). cbn iota.
    erewrite M_bind_ok by reflexivity. cbn beta. rewrite bool_decide_eq_true_2 by done. cbn [negb].
    destruct (IH (on_replicas (fun _ => ∅) (on_connections S b)) eq_refl) as [n E]. exists n. exact E.
Qed.
Lemma sentinels_given_up entries : bl_redisAddress c = ""%string -> bl_sentinels c = join "," (entry_text <$> entries) -> entries ≠ [] ->
  Forall plain_entry entries -> Forall (fun e => is_Some (from_string e.1)) entries -> (forall n ep, redisConnect n ep = false) ->
  exists n, forall fuel, bl_threadFunc c (S fuel) false new_blacklist = Ok (true, MkBlacklist ∅ ∅ n []).
Proof.
  intros Ha Hs Hne Hp Hl Hr. destruct (sentinel_loop_refused entries new_blacklist Hr eq_refl Hl) as [n E].
  assert (bl_turn c false new_blacklist = Ok ((false, false), MkBlacklist ∅ ∅ n [])) as Et.
  { unfold bl_turn. rewrite Hs, Ha, (sentinels_roundtrip _ Hp).
    assert (String.eqb (join "," (entry_text <$> entries)) "" = false) as ->.
    { apply String.eqb_neq. destruct entries as [|[ip port] es]; [done|]. cbn [fmap list_fmap].
      destruct (entry_chars _ (Forall_inv Hp)) as (_ & Hne1 & _). destruct es; [done|]. cbn [list_fmap]. rewrite join_cons by done. intros E1.
      by destruct (entry_text (ip, port)). }
    rewrite (M_bind_ok _ _ new_blacklist tt (MkBlacklist ∅ ∅ n [])); [|erewrite M_bind_ok by reflexivity; exact E].
    erewrite M_bind_ok by reflexivity. cbn beta. by rewrite bool_decide_eq_true_2 by done. }
  exists n. intros fuel. cbn [bl_threadFunc]. by rewrite (M_bind_ok _ _ _ _ _ Et).
Qed.
End redis.

(** ** A server that answers at the second attempt *)

Section witnesses.
#[local] Instance patient : Redis := {|
  redisConnect n _ := bool_decide (n ≠ 0);
  redisCommand _ _ command := match command with
    | SMEMBERS _ => Some (ReplyArray [ReplyString "1.2.3.4"; ReplyString "5.6.7.8"])
    | _ => None
    end;
  redis_err _ _ := false;
  from_string s := Some s;
  resolve _ _ _ := [];
  walk_set s := elements s;
|}%string.
Lemma sentinels_roundtrip_witness :
  parseIpPort (join "," (entry_text <$> [("10.0.0.1", 26379); ("10.0.0.2", 26379)]%string%Z)) = Ok [("10.0.0.1", 26379); ("10.0.0.2", 26379)]%string%Z.
Proof.
  apply (sentinels_roundtrip [("10.0.0.1", 26379); ("10.0.0.2", 26379)]%string%Z).
  constructor; [split; [by repeat split|cbn; lia]|]. constructor; [split; [by repeat split|cbn; lia]|]. constructor.
Defined.
Lemma blacklist_loaded_witness :
  let c := Blacklist_redis "10.0.0.1" 6379 "" "blocked" 300 in
  exists b, (forall fuel, bl_threadFunc c (1 + S fuel) false new_blacklist = Ok (true, b)) /\ bl_slept b = [60%Z] /\
    isBlackListed "1.2.3.4" b = true /\ isBlackListed "1.2.3.5" b = false.
Proof.
  intros c. destruct (blacklist_loaded c "10.0.0.1" 1) as (_ & _ & Hl).
  - by constructor.
  - intros k Hk. assert (k = 0) as -> by lia. by vm_compute.
  - destruct (Hl ["1.2.3.4"; "5.6.7.8"]%string) as [b Hb]; [by vm_compute|]. exists b. split; [intros fuel; apply Hb|].
    destruct (Hb 0) as (_ & _ & Hs & Hi). split; [exact Hs|]. split; by rewrite Hi.
Defined.
End witnesses.
