(* ===== verification/HttpRouting.v ===== *)
(** Model of how the main controller obeys the reply of a routing service
    (src/controller.cpp, [httpCallRoutingComplete] and the instructions that it
    carries out), and of [ClientController::makeOutboundConnection]
    (src/client-controller.cpp). *)
From S2P Require Import Prelude CppString TextUtil Regex ClientController.

Open Scope string_scope.
Open Scope list_scope.

(** ** JSON *)

(** A JSON document; the digits of a real number do not matter. *)
Inductive json :=
  | JNull
  | JBool (b : bool)
  | JInteger (z : Z)
  | JReal
  | JString (s : string)
  | JArray (l : list json)
  | JObject (l : list (string * json)).

(** The jansson library: [json_loads(s, 0, &error)]. *)
Class Jansson := {
  json_loads : string -> option json;
}.

(** [json_object_get], which takes NULL and other values too. *)
Fixpoint member (k : string) (l : list (string * json)) : option json :=
  match l with
  | [] => None
  | (k', v) :: l' => if String.eqb k k' then Some v else member k l'
  end.
Definition json_object_get (j : option json) (k : string) : option json :=
  match j with Some (JObject l) => member k l | _ => None end.
Definition json_is_object (j : option json) : bool := match j with Some (JObject _) => true | _ => false end.
Definition json_is_number (j : json) : bool := match j with JInteger _ | JReal => true | _ => false end.
Definition json_integer_value (j : json) : Z := match j with JInteger z => z | _ => 0 end.
Definition json_string_value (j : option json) : option string := match j with Some (JString s) => Some s | _ => None end.
(** A boolean attribute, or its default. *)
Definition bool_or (b : bool) (j : option json) : bool := match j with Some (JBool b') => b' | _ => b end.
Definition string_or (s : string) (j : option json) : string := default s (json_string_value j).

(** ** Instructions *)

Inductive instruction :=
  | reject (status : Z) (reason : option string)
  | proxy (recordRoute followRedirects simultaneous : bool) (provisionalTimeout finalTimeout : string) (destinations : list string)
  | redirect (contacts : list string)
  | connect_uri (uri : string)
  | select_tag (tag : string).

(** An [int] that is passed as [unsigned int]. *)
Definition to_unsigned (z : Z) : Z := (z mod 2 ^ 32)%Z.

(** A string or an array of strings; [inl]: the text of the exception. *)
Definition BAD_ARRAY : string := "DrachtioController::processRoutingInstructions - invalid 'contact' array: must contain strings".
Fixpoint strings_of (l : list json) : string + list string :=
  match l with
  | [] => inr []
  | JString s :: l' => match strings_of l' with inl e => inl e | inr ss => inr (s :: ss) end
  | _ :: _ => inl BAD_ARRAY
  end.
Definition destinations_of (j : option json) : string + list string :=
  match j with
  | Some (JString s) => inr [s]
  | Some (JArray l) => strings_of l
  | _ => inr []
  end.
Definition contacts_of (j : option json) : string + list string :=
  match j with
  | Some (JString s) => inr [s]
  | Some (JArray l) => strings_of l
  | _ => inl "DrachtioController::processRoutingInstructions - invalid 'contact' attribute in redirect action: must be string or array"
  end.

Definition reject_of (data : option json) : string + instruction :=
  match json_object_get data "status" with
  | Some status =>
    if json_is_number status
    then inr (reject (to_unsigned (json_integer_value status)) (json_string_value (json_object_get data "reason")))
    else inl "'status' is missing or is not a number"
  | None => inl "'status' is missing or is not a number"
  end.
Definition proxy_of (data : option json) : string + instruction :=
  match destinations_of (json_object_get data "destination") with
  | inl e => inl e
  | inr destinations =>
    inr (proxy (bool_or false (json_object_get data "recordRoute")) (bool_or true (json_object_get data "followRedirects"))
           (bool_or false (json_object_get data "simultaneous")) (string_or "5s" (json_object_get data "provisionalTimeout"))
           (string_or "60s" (json_object_get data "finalTimeout")) destinations)
  end.
Definition redirect_of (data : option json) : string + instruction :=
  match contacts_of (json_object_get data "contact") with inl e => inl e | inr contacts => inr (redirect contacts) end.
Definition route_of (data : option json) : string + instruction :=
  match json_string_value (json_object_get data "uri") with
  | Some uri => inr (connect_uri uri)
  | None =>
    match json_string_value (json_object_get data "tag") with
    | Some tag => inr (select_tag tag)
    | None => inl "'uri' is missing or is not a string"
    end
  end.
Definition instruction_of (root : option json) : string + instruction :=
  match root with
  | None => inl "error parsing body as JSON"
  | Some _ =>
    if negb (json_is_object root) then inl "expected JSON object but got something else" else
    let data := json_object_get root "data" in
    match json_string_value (json_object_get root "action") with
    | None => inl "missing or invalid 'action' attribute"
    | Some action =>
      if negb (json_is_object data) then inl "missing 'data' object" else
      if String.eqb action "reject" then reject_of data else
      if String.eqb action "proxy" then proxy_of data else
      if String.eqb action "redirect" then redirect_of data else
      if String.eqb action "route" then route_of data else
      inl ("DrachtioController::processRoutingInstructions - invalid 'action' attribute value '" +:+ action +:+
           "': valid values are 'reject', 'proxy', 'redirect', and 'route'")
    end
  end.

(** ** Carrying them out *)

Definition responseReasons : list (Z * string) :=
  [(100, "Trying"); (180, "Ringing"); (181, "Call is Being Forwarded"); (182, "Queued"); (183, "Session in Progress");
   (199, "Early Dialog Terminated"); (200, "OK"); (202, "Accepted"); (204, "No Notification"); (300, "Multiple Choices");
   (301, "Moved Permanently"); (302, "Moved Temporarily"); (305, "Use Proxy"); (380, "Alternative Service");
   (400, "Bad Request"); (401, "Unauthorized"); (402, "Payment Required"); (403, "Forbidden"); (404, "Not Found");
   (405, "Method Not Allowed"); (406, "Not Acceptable"); (407, "Proxy Authentication Required"); (408, "Request Timeout");
   (409, "Conflict"); (410, "Gone"); (411, "Length Required"); (412, "Conditional Request Failed");
   (413, "Request Entity Too Large"); (414, "Request-URI Too Long"); (415, "Unsupported Media Type");
   (416, "Unsupported URI Scheme"); (417, "Unknown Resource-Priority"); (420, "Bad Extension"); (421, "Extension Required");
   (422, "Session Interval Too Small"); (423, "Interval Too Brief"); (424, "Bad Location Information");
   (428, "Use Identity Header"); (429, "Provide Referrer Identity"); (430, "Flow Failed"); (433, "Anonymity Disallowed");
   (436, "Bad Identity-Info"); (437, "Unsupported Certificate"); (438, "Invalid Identity Header");
   (439, "First Hop Lacks Outbound Support"); (470, "Consent Needed"); (480, "Temporarily Unavailable");
   (481, "Call Leg/Transaction Does Not Exist"); (482, "Loop Detected"); (483, "Too Many Hops"); (484, "Address Incomplete");
   (485, "Ambiguous"); (486, "Busy Here"); (487, "Request Terminated"); (488, "Not Acceptable Here"); (489, "Bad Event");
   (491, "Request Pending"); (493, "Undecipherable"); (494, "Security Agreement Required"); (500, "Server Internal Error");
   (501, "Not Implemented"); (502, "Bad Gateway"); (503, "Service Unavailable"); (504, "Server Timeout");
   (505, "Version Not Supported"); (513, "Message Too Large"); (580, "Precondition Failure"); (600, "Busy Everywhere");
   (603, "Decline"); (604, "Does Not Exist Anywhere"); (606, "Not Acceptable")]%Z.
Fixpoint reason_in (l : list (Z * string)) (status : Z) : option string :=
  match l with [] => None | (n, r) :: l' => if Z.eqb n status then Some r else reason_in l' status end.
Definition status_line (status : Z) (reason : option string) : string :=
  "SIP/2.0 " +:+ to_string status +:+ " " +:+
  match reason with Some r => r | None => default "" (reason_in responseReasons status) end.
Definition redirect_headers (contacts : list string) : string := join (String LF "") ((fun c => "Contact: " +:+ c) <$> contacts).

(** [^(.star):(\d+)(;transport=(tcp|tls))?]; the port and transport named by
    default are never used: [mr] always has five elements. *)
Definition outbound_regex : regex :=
  (RBegin · RGroup 1 (RStar (RChar is_dot)) · RChr ":" · RGroup 2 (RPlus (RChar is_digit)) ·
   ROpt (RGroup 3 (RLit ";transport=" · RGroup 4 (RLit "tcp" ∥ RLit "tls"))))%re.

(** What opens connections: [Client::async_connect] to the host and port, for
    a TLS client or not; [false]: resolving the host throws an exception. *)
Class OutboundConnections (W : Type) := {
  dep_async_connect : bool -> string -> string -> string -> M W bool;
}.

Section routing.
Context `{Jansson} {W : Type} `{!ControllerDeps W} `{!OutboundConnections W}.
Abbreviation CW := (M (ClientController * W)).

Definition makeOutboundConnection (transactionId host port transport : string) : CW bool :=
  dep (dep_async_connect (String.eqb transport "tls") transactionId host port).
(** [DrachtioController::makeOutboundConnection]; nothing happens when there
    is no port in the URI. *)
Definition connect_to (transactionId uri : string) : CW bool :=
  match regex_search uri outbound_regex with
  | Some mr => makeOutboundConnection transactionId (group 1 mr) (group 2 mr) (group 4 mr)
  | None => mret true
  end.

Definition processRejectInstruction (transactionId : string) (status : Z) (reason : option string) : CW unit :=
  _ ← dep (dep_respondToSipRequest "" transactionId (status_line status reason) "" ""); mret tt.
Definition processRedirectInstruction (transactionId : string) (contacts : list string) : CW unit :=
  _ ← dep (dep_respondToSipRequest "" transactionId "SIP/2.0 302 Moved" (redirect_headers contacts) ""); mret tt.

(** [false]: an exception. *)
Definition carry_out (transactionId : string) (i : instruction) : CW bool :=
  match i with
  | reject status reason => _ ← processRejectInstruction transactionId status reason; mret true
  | proxy recordRoute followRedirects simultaneous provisionalTimeout finalTimeout destinations =>
    _ ← dep (dep_proxyRequest "" transactionId recordRoute false followRedirects simultaneous provisionalTimeout finalTimeout
               destinations "");
    mret true
  | redirect contacts => _ ← processRedirectInstruction transactionId contacts; mret true
  | connect_uri uri => connect_to transactionId uri
  | select_tag tag => _ ← selectClientForTag transactionId tag; mret true
  end.
Definition httpCallRoutingComplete (transactionId : string) (response_code : Z) (body : string) : CW unit :=
  match instruction_of (json_loads body) with
  | inl _ => processRejectInstruction transactionId 500 None
  | inr i =>
    ok ← carry_out transactionId i;
    if (ok : bool) then mret tt else processRejectInstruction transactionId 500 None
  end.
End routing.
