(* ===== verification/Connecting.v ===== *)
(** Model of how connections with applications come about (src/client.cpp,
    src/client-controller.cpp): connections that are accepted, and those that
    the server opens to an application it is sent to, over TCP or TLS.
    Addresses, the outcome of each attempt and the state of sockets are
    outside. *)
From S2P Require Import Prelude CppString TextUtil Regex ClientController HttpRouting.

Open Scope list_scope.

(** ** State *)

Definition tcp_endpoint : Type := string * Z.
(** The operation of asio that a client has under way. *)
Inductive waits :=
  | WaitsConnect (rest : list tcp_endpoint)
  | WaitsHandshake
  | WaitsRead.
Inductive sockopt := TCP_NODELAY | SO_KEEPALIVE | TCP_KEEPIDLE | TCP_KEEPINTVL.
#[export] Instance sockopt_eq_dec : EqDecision sockopt.
Proof. solve_decision. Defined.

(** What a [Client] keeps of its connection; [co_waits] is [None] before it is
    started, [co_options]: the options that were set on the socket. *)
Record connection := Connection {
  co_tls : bool;
  co_transactionId : string;
  co_host : string;
  co_port : string;
  co_remote : option tcp_endpoint;
  co_options : list (sockopt * Z);
  co_waits : option waits;
}.
Definition set_remote r c := Connection (co_tls c) (co_transactionId c) (co_host c) (co_port c) (Some r) (co_options c) (co_waits c).
Definition set_options o c := Connection (co_tls c) (co_transactionId c) (co_host c) (co_port c) (co_remote c) o (co_waits c).
Definition set_waits w c := Connection (co_tls c) (co_transactionId c) (co_host c) (co_port c) (co_remote c) (co_options c) (Some w).
(** The clients, those for the next connection that is accepted, and all
    attempts to connect. *)
Record connections := MkConnections {
  co_clients : gmap client_id connection;
  co_accept_tcp : option client_id;
  co_accept_tls : option client_id;
  co_tried : list tcp_endpoint;
}.
Definition on_co_clients u s := MkConnections (u (co_clients s)) (co_accept_tcp s) (co_accept_tls s) (co_tried s).
Definition set_accept (tls : bool) a s :=
  if tls then MkConnections (co_clients s) (co_accept_tcp s) a (co_tried s) else MkConnections (co_clients s) a (co_accept_tls s) (co_tried s).
Definition co_accept (tls : bool) s := if tls then co_accept_tls s else co_accept_tcp s.
Definition on_tried u s := MkConnections (co_clients s) (co_accept_tcp s) (co_accept_tls s) (u (co_tried s)).

(** [resolve]: the endpoints of a host, [None] when that throws; [setsockopt]:
    whether an option can be set; [remote_endpoint]: the peer of a connected
    client, [None] when it has gone already, which throws;
    [getTcpKeepaliveInterval]; [logs_debug]: whether debug messages are
    composed at all. *)
Class TcpOutside := {
  tcp_resolve : string -> string -> option (list tcp_endpoint);
  setsockopt : sockopt -> Z -> bool;
  remote_endpoint : client_id -> option tcp_endpoint;
  getTcpKeepaliveInterval : Z;
  logs_debug : bool;
}.

(** ** Connections *)

Section connecting.
Context `{TcpOutside}.

(** The options of a list that are set, up to the first that fails. *)
Fixpoint set_all (l : list (sockopt * Z)) : list (sockopt * Z) :=
  match l with [] => [] | (o, v) :: l => if setsockopt o v then (o, v) :: set_all l else [] end.
Definition setTcpKeepAlive : list (sockopt * Z) :=
  set_all ((TCP_NODELAY, 1%Z) ::
    if bool_decide (getTcpKeepaliveInterval = 0%Z) then []
    else [(SO_KEEPALIVE, 1%Z); (TCP_KEEPIDLE, 1%Z); (TCP_KEEPINTVL, getTcpKeepaliveInterval)]).

Abbreviation CO := (M connections).
Definition new_client (tls : bool) (transactionId host port : string) : CO client_id :=
  s ← get;
  let client := fresh_addr (co_clients s) in
  _ ← modify (on_co_clients (insert client (Connection tls transactionId host port None [] None)));
  mret client.
Definition the_client (client : client_id) : CO connection := s ← get; deref (co_clients s !! client).
Definition update_client (client : client_id) (f : connection -> connection) : CO unit :=
  c ← the_client client; modify (on_co_clients (insert client (f c))).
(** Nothing refers to the client any more. *)
Definition drop_client (client : client_id) : CO unit := modify (on_co_clients (delete client)).
Definition try_endpoint (client : client_id) (e : tcp_endpoint) (rest : list tcp_endpoint) : CO unit :=
  _ ← modify (on_tried (fun l => l ++ [e]));
  update_client client (set_waits (WaitsConnect rest)).
(** [async_connect]; [false]: an exception. *)
Definition async_connect (client : client_id) : CO bool :=
  c ← the_client client;
  match tcp_resolve (co_host c) (co_port c) with
  | Some (e :: rest) => _ ← try_endpoint client e rest; mret true
  | Some [] => fail BadAccess
  | None => mret false
  end.
Definition connect_out (tls : bool) (transactionId host port : string) : CO bool :=
  client ← new_client tls transactionId host port;
  ok ← async_connect client;
  if (ok : bool) then mret true else _ ← drop_client client; mret false.
Definition start_accept (tls : bool) : CO unit :=
  client ← new_client tls "" "" ""; modify (set_accept tls (Some client)).

(** ** With the controller *)

Context {W : Type} `{!ControllerDeps W}.
Abbreviation CWO := (M (ClientController * (connections * W))).
(** What connections call of other controllers does not touch them. *)
Definition beside {A} (m : M W A) : M (connections * W) A := zoom snd (fun w s => (s.1, w)) m.
#[export] Instance connections_deps : ControllerDeps (connections * W) := {|
  dep_generateUuid := beside dep_generateUuid;
  dep_sendRequestInsideDialog a b c d e f := beside (dep_sendRequestInsideDialog a b c d e f);
  dep_sendRequestOutsideDialog a b c d e f g := beside (dep_sendRequestOutsideDialog a b c d e f g);
  dep_respondToSipRequest a b c d e := beside (dep_respondToSipRequest a b c d e);
  dep_sendCancelRequest a b c d e := beside (dep_sendCancelRequest a b c d e);
  dep_proxyRequest a b c d e f g h i j := beside (dep_proxyRequest a b c d e f g h i j);
  dep_getMethodForRequest a := beside (dep_getMethodForRequest a);
  dep_routeNewRequestToClient a b := beside (dep_routeNewRequestToClient a b);
|}.
#[export] Instance connections_out : OutboundConnections (connections * W) := {|
  dep_async_connect tls transactionId host port := zoom fst (fun c s => (c, s.2)) (connect_out tls transactionId host port);
|}.
Definition conn {A} (m : CO A) : CWO A := dep (zoom fst (fun c s => (c, s.2)) m).
(** From here on others can hold a weak pointer to the client. *)
Definition present (client : client_id) : CWO unit := here (modify (fun cc =>
  MkClientController (insert client (ClientInfo ∅ "") (objects cc)) (m_lock cc) (m_clients cc) (m_services cc) (m_request_types cc)
    (m_map_of_request_type_offsets cc) (m_mapDialogs cc) (m_mapAppTransactions cc) (m_mapNetTransactions cc)
    (m_mapApiRequests cc) (m_mapDialogId2Appname cc) (m_posted cc))).
Definition joins (client : client_id) : CWO unit := _ ← present client; here (ClientController_join client).

(** Nothing refers to the client any more; weak pointers to it expire. *)
Definition gone (client : client_id) : CWO unit :=
  _ ← here (modify (fun cc =>
    MkClientController (delete client (objects cc)) (m_lock cc) (m_clients cc) (m_services cc) (m_request_types cc)
      (m_map_of_request_type_offsets cc) (m_mapDialogs cc) (m_mapAppTransactions cc) (m_mapNetTransactions cc)
      (m_mapApiRequests cc) (m_mapDialogId2Appname cc) (m_posted cc)));
  conn (drop_client client).

(** [false]: an exception. *)
Definition client_start (client : client_id) : CWO bool :=
  c ← conn (the_client client);
  match remote_endpoint client with
  | None => mret false
  | Some r =>
    _ ← conn (update_client client (fun c => set_options setTcpKeepAlive (set_remote r c)));
    if co_tls c then _ ← conn (update_client client (set_waits WaitsHandshake)); mret true
    else _ ← joins client; _ ← conn (update_client client (set_waits WaitsRead)); mret true
  end.
(** [accept_handler_tcp], [accept_handler_tls]. *)
Definition accept_handler (tls ok : bool) : CWO unit :=
  s ← get;
  session ← deref (co_accept tls s.2.1);
  _ ← conn (modify (set_accept tls None));
  started ← (if ok then client_start session else _ ← gone session; mret true);
  if (started : bool) then conn (start_accept tls) else gone session.

(** The log message of a TLS client asks for the peer. *)
Definition log_throws (c : connection) (client : client_id) (connected : bool) : bool :=
  co_tls c && logs_debug && negb (connected && bool_decide (is_Some (remote_endpoint client))).
(** An exception in it ends the handler, and the client with it. *)
Definition connect_handler (client : client_id) (ok : bool) : CWO unit :=
  c ← conn (the_client client);
  match co_waits c with
  | Some (WaitsConnect rest) =>
    if ok then
      if log_throws c client true then gone client else
      _ ← joins client;
      if co_tls c then conn (update_client client (set_waits WaitsHandshake))
      else conn (update_client client (fun c => set_waits WaitsRead (set_options setTcpKeepAlive c)))
    else
      match rest with
      | e :: rest => if log_throws c client false then gone client else conn (try_endpoint client e rest)
      | [] => _ ← outboundFailed (co_transactionId c); gone client
      end
  | _ => mret tt
  end.
Definition handle_handshake (client : client_id) (ok : bool) : CWO unit :=
  c ← conn (the_client client);
  _ ← assertb (co_tls c);
  if ok then _ ← present client; conn (update_client client (set_waits WaitsRead))
  else _ ← here (ClientController_leave client); gone client.

(** The outcomes of the attempts, in order. *)
Fixpoint attempts (client : client_id) (outcomes : list bool) : CWO unit :=
  match outcomes with [] => mret tt | ok :: outcomes => _ ← connect_handler client ok; attempts client outcomes end.
End connecting.

(** ** What becomes of a connection to an application *)

Section outcome.
Context `{TcpOutside} {W : Type} `{!ControllerDeps W}.
Abbreviation world := (ClientController * (connections * W))%type.

Lemma conn_ok {A} (m : M connections A) (s : world) a c : m s.2.1 = Ok (a, c) -> conn m s = Ok (a, (s.1, (c, s.2.2))).
Proof. intros E. unfold conn, dep, zoom. by rewrite E. Qed.
Lemma the_client_ok client (s : connections) c : co_clients s !! client = Some c -> the_client client s = Ok (c, s).
Proof. intros E. unfold the_client, mbind, M_bind, get, deref. by rewrite E. Qed.
Lemma update_client_ok client f (s : connections) c : co_clients s !! client = Some c ->
  update_client client f s = Ok (tt, on_co_clients (insert client (f c)) s).
Proof. intros E. unfold update_client. by rewrite (M_bind_ok _ _ _ _ _ (the_client_ok _ _ _ E)). Qed.
Lemma outboundFailed_beside t cc cs (w : W) :
  outboundFailed t (cc, (cs, w)) =
  match outboundFailed (W := W) t (cc, w) with Ok (u, (cc', w')) => Ok (u, (cc', (cs, w'))) | Fault f => Fault f end.
Proof.
  unfold outboundFailed, dep, zoom, mbind, M_bind. cbn. unfold beside, zoom. cbn.
  by destruct (dep_respondToSipRequest _ _ _ _ _ w) as [[b w']|f].
Qed.

(** The client waits for an attempt, with [rest] left to try. *)
Definition at_attempt (client : client_id) (c : connection) (rest tried : list tcp_endpoint) (s : world) : world :=
  (s.1, (MkConnections (<[client := set_waits (WaitsConnect rest) c]> (co_clients s.2.1)) (co_accept_tcp s.2.1) (co_accept_tls s.2.1) tried, s.2.2)).
Lemma connect_out_run tls transactionId host port es (s : connections) e :
  tcp_resolve host port = Some (e :: es) ->
  let client := fresh_addr (co_clients s) in
  connect_out tls transactionId host port s =
  Ok (true, MkConnections (<[client := Connection tls transactionId host port None [] (Some (WaitsConnect es))]> (co_clients s))
    (co_accept_tcp s) (co_accept_tls s) (co_tried s ++ [e])).
Proof.
  intros Hr client. set (c := Connection tls transactionId host port None [] None). set (s1 := on_co_clients (insert client c) s).
  assert (co_clients s1 !! client = Some c) as Hc by apply lookup_insert_eq.
  assert (async_connect client s1 = Ok (true, on_co_clients (insert client (set_waits (WaitsConnect es) c)) (on_tried (fun l => l ++ [e]) s1))) as E.
  { unfold async_connect. rewrite (M_bind_ok _ _ _ _ _ (the_client_ok _ _ _ Hc)). cbn [co_host co_port c]. rewrite Hr. unfold try_endpoint.
    erewrite M_bind_ok by (erewrite M_bind_ok by reflexivity; cbn beta; by apply update_client_ok). done. }
  unfold connect_out. rewrite (M_bind_ok _ _ s client s1) by reflexivity. rewrite (M_bind_ok _ _ _ _ _ E).
  unfold s1, on_co_clients, on_tried. cbn. by rewrite insert_insert_eq.
Qed.
Lemma quiet_log c client ok : co_tls c = false \/ logs_debug = false -> log_throws c client ok = false.
Proof. unfold log_throws. intros [->| ->]; [done|]. by destruct (co_tls c). Qed.
Lemma attempt_refused client c e rest tried (s : world) : co_tls c = false \/ logs_debug = false ->
  connect_handler client false (at_attempt client c (e :: rest) tried s) = Ok (tt, at_attempt client c rest (tried ++ [e]) s).
Proof.
  intros Hq. unfold connect_handler. set (w := at_attempt client c (e :: rest) tried s).
  assert (co_clients w.2.1 !! client = Some (set_waits (WaitsConnect (e :: rest)) c)) as Hc by apply lookup_insert_eq.
  rewrite (M_bind_ok _ _ _ _ _ (conn_ok _ _ _ _ (the_client_ok _ _ _ Hc))). cbn [co_waits set_waits]. rewrite quiet_log by done.
  erewrite conn_ok by (unfold try_endpoint; erewrite M_bind_ok by reflexivity; cbn beta; by apply update_client_ok).
  unfold at_attempt, on_co_clients, on_tried. cbn. by rewrite insert_insert_eq.
Qed.
Lemma attempts_app client a b (s s' : world) : attempts client a s = Ok (tt, s') -> attempts client (a ++ b) s = attempts client b s'.
Proof.
  revert s. induction a as [|ok a IH]; intros s; cbn; [by intros [= ->]|]. intros ([] & s1 & E1 & E2)%M_bind_inv.
  rewrite (M_bind_ok _ _ _ _ _ E1). by apply IH.
Qed.
Lemma attempts_refused client c refused rest tried (s : world) : co_tls c = false \/ logs_debug = false ->
  attempts client (replicate (length refused) false) (at_attempt client c (refused ++ rest) tried s) =
  Ok (tt, at_attempt client c rest (tried ++ refused) s).
Proof.
  intros Hq. revert tried. induction refused as [|e l IH]; intros tried; [by rewrite app_nil_r|]. cbn [length replicate attempts app].
  rewrite (M_bind_ok _ _ _ _ _ (attempt_refused client c e (l ++ rest) tried s Hq)), IH. by rewrite <-app_assoc.
Qed.
Lemma attempt_accepted client c rest tried (s : world) : co_tls c = false \/ logs_debug = false ->
  exists s', connect_handler client true (at_attempt client c rest tried s) = Ok (tt, s') /\ client ∈ m_clients s'.1 /\ s'.2.2 = s.2.2 /\
    co_tried s'.2.1 = tried /\ exists c', co_clients s'.2.1 !! client = Some c' /\
      co_waits c' = Some (if co_tls c then WaitsHandshake else WaitsRead) /\ co_transactionId c' = co_transactionId c.
Proof.
  intros Hq. unfold connect_handler. set (w := at_attempt client c rest tried s).
  assert (co_clients w.2.1 !! client = Some (set_waits (WaitsConnect rest) c)) as Hc by apply lookup_insert_eq.
  rewrite (M_bind_ok _ _ _ _ _ (conn_ok _ _ _ _ (the_client_ok _ _ _ Hc))). cbn [co_waits set_waits]. rewrite quiet_log by done.
  erewrite M_bind_ok by (unfold joins; erewrite M_bind_ok by reflexivity; reflexivity). cbn [co_tls set_waits].
  destruct (co_tls c); (eexists; split; [eapply conn_ok, update_client_ok; exact Hc|]); cbn;
    (split; [set_solver|]); (split; [done|]); (split; [done|]); eexists; by rewrite lookup_insert_eq.
Qed.
Lemma last_refused client c tried (s : world) :
  connect_handler client false (at_attempt client c [] tried s) =
  match outboundFailed (W := W) (co_transactionId c) (s.1, s.2.2) with
  | Ok (u, (cc, w)) => gone client (cc, ((at_attempt client c [] tried s).2.1, w))
  | Fault f => Fault f
  end.
Proof.
  unfold connect_handler. set (w := at_attempt client c [] tried s).
  assert (co_clients w.2.1 !! client = Some (set_waits (WaitsConnect []) c)) as Hc by apply lookup_insert_eq.
  rewrite (M_bind_ok _ _ _ _ _ (conn_ok _ _ _ _ (the_client_ok _ _ _ Hc))). cbn [co_waits set_waits].
  change (co_transactionId (set_waits (WaitsConnect []) c)) with (co_transactionId c).
  unfold mbind, M_bind. change w with (s.1, (w.2.1, s.2.2)). rewrite outboundFailed_beside. cbn [fst snd].
  by destruct (outboundFailed _ (s.1, s.2.2)) as [[[] [cc' w']]|f].
Qed.

(** C32: A connection to the application that a web server names: the endpoints
    of the host are tried in order.  With the first that accepts, the client
    joins and waits for its data (over TLS for the handshake), and nobody else
    is called; when all refuse, the request is answered 480, once, and the
    client is gone.  This needs debug logging to be off for TLS. *)
Theorem outbound_outcome transactionId host port transport es (s : world) :
  let tls := String.eqb transport "tls" in
  tcp_resolve host port = Some es -> es ≠ [] -> tls = false \/ logs_debug = false ->
  exists client s1, makeOutboundConnection transactionId host port transport s = Ok (true, s1) /\
  (forall k, k < length es -> exists s2 c, attempts client (replicate k false ++ [true]) s1 = Ok (tt, s2) /\
    co_tried s2.2.1 = co_tried s.2.1 ++ take (S k) es /\ client ∈ m_clients s2.1 /\ s2.2.2 = s.2.2 /\
    co_clients s2.2.1 !! client = Some c /\ co_waits c = Some (if tls then WaitsHandshake else WaitsRead) /\ co_transactionId c = transactionId) /\
  match outboundFailed (W := W) transactionId (s.1, s.2.2) with
  | Ok (_, (cc, w)) => exists s2, attempts client (replicate (length es) false) s1 = Ok (tt, s2) /\ m_clients s2.1 = m_clients cc /\
      s2.2.2 = w /\ co_tried s2.2.1 = co_tried s.2.1 ++ es /\ co_clients s2.2.1 = co_clients s.2.1
  | Fault f => attempts client (replicate (length es) false) s1 = Fault f
  end.
Proof.
  intros tls Hr Hne Hq. destruct es as [|e es]; [done|]. clear Hne. set (client := fresh_addr (co_clients s.2.1)).
  set (c := Connection tls transactionId host port None [] None). exists client, (at_attempt client c es (co_tried s.2.1 ++ [e]) s). split_and!.
  - unfold makeOutboundConnection. fold tls. exact (conn_ok _ _ _ _ (connect_out_run tls transactionId host port es s.2.1 e Hr)).
  - intros k Hk. cbn [length] in Hk.
    destruct (attempt_accepted client c (drop k es) ((co_tried s.2.1 ++ [e]) ++ take k es) s Hq) as (s2 & E & Hj & Hw & Ht & c' & Hc & Hwt & Hid).
    exists s2, c'. split_and!; try done; [|by rewrite Ht, <-app_assoc].
    pose proof (attempts_refused client c (take k es) (drop k es) (co_tried s.2.1 ++ [e]) s Hq) as E1.
    rewrite take_drop, length_take_le in E1 by lia. rewrite (attempts_app _ _ _ _ _ E1). cbn [attempts].
    by rewrite (M_bind_ok _ _ _ _ _ E).
  - assert (attempts client (replicate (length (e :: es)) false) (at_attempt client c es (co_tried s.2.1 ++ [e]) s) =
      connect_handler client false (at_attempt client c [] (co_tried s.2.1 ++ e :: es) s)) as ->.
    { pose proof (attempts_refused client c es [] (co_tried s.2.1 ++ [e]) s Hq) as E1. rewrite app_nil_r, <-app_assoc in E1.
      change (replicate (length (e :: es)) false) with (replicate 1 false ++ replicate (length es) false).
      rewrite <-replicate_add, Nat.add_comm, replicate_add, (attempts_app _ _ _ _ _ E1). cbn [attempts replicate].
      unfold mbind at 1, M_bind at 1. by destruct (connect_handler _ _ _) as [[[] ?]|]. }
    rewrite last_refused. change (co_transactionId c) with transactionId.
    destruct (outboundFailed transactionId (s.1, s.2.2)) as [[[] [cc w]]|f]; [|done].
    eexists. split; [reflexivity|]. cbn. split_and!; try done. rewrite delete_insert_eq. apply delete_id, fresh_addr_lookup.
Qed.

(** With debug logging a TLS client gives up at the first endpoint that
    refuses: the log message throws, and the request is left to time out. *)
Lemma debug_tls_abandons client c rest tried (s : world) : co_tls c = true -> logs_debug = true -> rest ≠ [] ->
  connect_handler client false (at_attempt client c rest tried s) = gone client (at_attempt client c rest tried s).
Proof.
  intros Ht Hd Hr. unfold connect_handler. set (w := at_attempt client c rest tried s).
  assert (co_clients w.2.1 !! client = Some (set_waits (WaitsConnect rest) c)) as Hc by apply lookup_insert_eq.
  rewrite (M_bind_ok _ _ _ _ _ (conn_ok _ _ _ _ (the_client_ok _ _ _ Hc))). cbn [co_waits set_waits]. destruct rest as [|e rest]; [done|].
  unfold log_throws. cbn [co_tls set_waits]. by rewrite Ht, Hd.
Qed.
(** A handshake that fails: the client leaves, and nobody is told. *)
Lemma failed_handshake_silent client c (s : world) : co_clients s.2.1 !! client = Some c -> co_tls c = true ->
  exists s', handle_handshake client false s = Ok (tt, s') /\ client ∉ m_clients s'.1 /\ s'.2.2 = s.2.2.
Proof.
  intros Hc Ht. unfold handle_handshake. rewrite (M_bind_ok _ _ _ _ _ (conn_ok _ _ _ _ (the_client_ok _ _ _ Hc))).
  rewrite Ht. erewrite M_bind_ok by reflexivity. erewrite M_bind_ok by reflexivity. eexists. split; [reflexivity|]. cbn. set_solver.
Qed.
(** A peer that has gone before its connection is looked at: the handler ends
    without another accept, and no application can connect any more. *)
Lemma reset_stops_accepting tls client c (s : world) : co_accept tls s.2.1 = Some client -> co_clients s.2.1 !! client = Some c ->
  remote_endpoint client = None ->
  exists s', accept_handler tls true s = Ok (tt, s') /\ co_accept tls s'.2.1 = None.
Proof.
  intros Ha Hc Hr. unfold accept_handler. erewrite M_bind_ok by reflexivity. cbn beta. rewrite Ha. erewrite M_bind_ok by reflexivity. cbn beta.
  erewrite M_bind_ok by reflexivity. cbn beta. unfold client_start.
  match goal with |- exists s', (?m ≫= _) ?w = _ /\ _ => assert (m w = Ok (false, w)) as E end.
  { erewrite M_bind_ok by (apply conn_ok, the_client_ok; cbn; destruct tls; exact Hc). by rewrite Hr. }
  rewrite (M_bind_ok _ _ _ _ _ E). eexists. split; [reflexivity|]. by destruct tls.
Qed.
End outcome.

(** ** A host with two addresses *)

Section witness.
#[local] Instance two_addresses : TcpOutside := {|
  tcp_resolve host _ := if String.eqb host "app" then Some [("10.0.0.1", 9022%Z); ("10.0.0.2", 9022%Z)] else None;
  setsockopt _ _ := true;
  remote_endpoint _ := Some ("10.0.0.2", 9022%Z);
  getTcpKeepaliveInterval := 45%Z;
  logs_debug := true;
|}%string.
(** The responses that were asked for. *)
#[local] Instance responses : ControllerDeps (list string) := {|
  dep_generateUuid := mret "u"%string;
  dep_sendRequestInsideDialog _ _ _ _ _ _ := mret false;
  dep_sendRequestOutsideDialog _ _ _ _ _ _ _ := mret false;
  dep_respondToSipRequest _ t startLine _ _ := fun w => Ok (true, w ++ [(t +:+ " " +:+ startLine)%string]);
  dep_sendCancelRequest _ _ _ _ _ := mret false;
  dep_proxyRequest _ _ _ _ _ _ _ _ _ _ := mret tt;
  dep_getMethodForRequest _ := mret None;
  dep_routeNewRequestToClient _ _ := mret 0%Z;
|}.
Definition nobody : ClientController := MkClientController ∅ false ∅ [] [] ∅ ∅ ∅ ∅ ∅ ∅ [].
Definition nothing : ClientController * (connections * list string) := (nobody, (MkConnections ∅ None None [], [])).
Lemma outbound_outcome_witness : exists client s1 s2 s3,
  makeOutboundConnection "t" "app" "9022" "tcp" nothing = Ok (true, s1) /\
  attempts client [false; true] s1 = Ok (tt, s2) /\ client ∈ m_clients s2.1 /\ s2.2.2 = [] /\
  attempts client [false; false] s1 = Ok (tt, s3) /\ s3.2.2 = ["t SIP/2.0 480 Temporarily Unavailable"%string] /\ m_clients s3.1 = ∅.
Proof.
  destruct (outbound_outcome "t" "app" "9022" "tcp" [("10.0.0.1", 9022%Z); ("10.0.0.2", 9022%Z)]%string nothing) as (client & s1 & E & Hacc & Href);
    [reflexivity|done|by left|].
  destruct (Hacc 1 ltac:(cbn; lia)) as (s2 & c & E2 & _ & Hj & Hw & _). destruct Href as (s3 & E3 & Hc3 & Hw3 & _).
  exists client, s1, s2, s3. split_and!; [exact E|exact E2|exact Hj|exact Hw|exact E3|exact Hw3|exact Hc3].
Defined.
End witness.
