(* ===== verification/RequestHandler.v ===== *)
(** Model of the web requests for routing (src/request-handler.hpp,
    src/request-handler.cpp): the easy handles that are used in turn, the
    transfers that are under way, and the reply that each collects.  What
    libcurl does with an easy handle is outside; a handle is the options that
    were set on it, and a transfer starts with those that it has then. *)
From S2P Require Import Prelude CppString TextUtil SipTags ClientController HttpRouting.

Open Scope string_scope.
Open Scope list_scope.

(** ** State *)

Definition TXNID_LEN : nat := 255.
Definition URL_LEN : nat := 1024.
Definition HTTP_BODY_LEN : nat := Z.to_nat 16384.

(** The options of an easy handle that [startRequest] sets: URL, transfer
    (CURLOPT_PRIVATE and the others that point to it), the fields to post
    (the transfer whose body it is, and the size), SSL_VERIFYPEER. *)
Record easy_handle := EasyHandle {
  eh_url : string;
  eh_private : option positive;
  eh_postfields : option (positive * nat);
  eh_verifypeer : bool;
}.
Definition set_url u h := EasyHandle u (eh_private h) (eh_postfields h) (eh_verifypeer h).
Definition set_private c h := EasyHandle (eh_url h) c (eh_postfields h) (eh_verifypeer h).
Definition set_postfields f h := EasyHandle (eh_url h) (eh_private h) f (eh_verifypeer h).
Definition set_verifypeer b h := EasyHandle (eh_url h) (eh_private h) (eh_postfields h) b.

Record ConnInfo := MkConnInfo {
  ci_easy : positive;
  ci_body : string;
  ci_transactionId : string;
  ci_response : string;
}.
Definition on_response u c := MkConnInfo (ci_easy c) (ci_body c) (ci_transactionId c) (u (ci_response c)).

(** A transfer that was started: with POST or GET, and the options. *)
Record transfer := Transfer {
  tr_easy : positive;
  tr_options : easy_handle;
}.
(** Arguments of [startRequest]. *)
Record route_request := RouteRequest {
  rq_transactionId : string;
  rq_httpMethod : string;
  rq_url : string;
  rq_body : string;
  rq_verifyPeer : bool;
}.

(** [rh_handles]: all easy handles; [rh_cache]: [m_cacheEasyHandles];
    [rh_conns]: the transfers of the pool; [rh_posted]: what was posted to the
    thread of the handler; [rh_started]: the transfers that were started. *)
Record RequestHandler := MkRequestHandler {
  rh_handles : gmap positive easy_handle;
  rh_cache : list positive;
  rh_conns : gmap positive ConnInfo;
  rh_posted : list route_request;
  rh_started : list transfer;
}.
Definition on_handles u r := MkRequestHandler (u (rh_handles r)) (rh_cache r) (rh_conns r) (rh_posted r) (rh_started r).
Definition on_cache u r := MkRequestHandler (rh_handles r) (u (rh_cache r)) (rh_conns r) (rh_posted r) (rh_started r).
Definition on_rh_conns u r := MkRequestHandler (rh_handles r) (rh_cache r) (u (rh_conns r)) (rh_posted r) (rh_started r).
Definition on_rh_posted u r := MkRequestHandler (rh_handles r) (rh_cache r) (rh_conns r) (u (rh_posted r)) (rh_started r).
Definition on_started u r := MkRequestHandler (rh_handles r) (rh_cache r) (rh_conns r) (rh_posted r) (u (rh_started r)).

Abbreviation RH := (M RequestHandler).

(** ** Handles *)

(** libcurl verifies the peer by default. *)
Definition new_handle : easy_handle := EasyHandle "" None None true.
Definition createEasyHandle : RH positive :=
  r ← get;
  let e := fresh_addr (rh_handles r) in
  _ ← modify (on_handles (insert e new_handle));
  mret e.
Definition easyHandleCacheSize : nat := 4.
Fixpoint fill_cache (n : nat) : RH unit :=
  match n with
  | O => mret tt
  | S n => e ← createEasyHandle; _ ← modify (on_cache (fun l => l ++ [e])); fill_cache n
  end.
(** The handler that [getInstance] makes when it is first called. *)
Definition getInstance : res RequestHandler :=
  match fill_cache easyHandleCacheSize (MkRequestHandler ∅ [] ∅ [] []) with
  | Ok (_, r) => Ok r
  | Fault f => Fault f
  end.
Definition curl_easy_setopt (e : positive) (f : easy_handle -> easy_handle) : RH unit :=
  r ← get; h ← deref (rh_handles r !! e); modify (on_handles (insert e (f h))).
(** The handle at the front of the cache, which is filled when empty. *)
Definition take_handle : RH positive :=
  r ← get;
  _ ← match rh_cache r with
      | [] => e ← createEasyHandle; modify (on_cache (fun l => l ++ [e]))
      | _ => mret tt
      end;
  r ← get;
  e ← deref (head (rh_cache r));
  _ ← modify (on_cache tail);
  mret e.

(** ** A transfer *)

Definition of_res {A} (x : res A) : RH A := match x with Ok a => mret a | Fault f => fail f end.
(** The buffers are not terminated when a text fills them. *)
Definition new_conn (q : route_request) (e : positive) : RH (positive * string * ConnInfo) :=
  r ← get;
  let c := fresh_addr (rh_conns r) in
  url ← of_res (strncpy_read URL_LEN (rq_url q));
  body ← of_res (strncpy_read HTTP_BODY_LEN (rq_body q));
  transactionId ← of_res (strncpy_read TXNID_LEN (rq_transactionId q));
  let conn := MkConnInfo e body transactionId "" in
  _ ← modify (on_rh_conns (insert c conn));
  mret (c, url, conn).
Definition start_transfer (q : route_request) : RH unit :=
  e ← take_handle;
  '(c, url, conn) ← new_conn q e;
  _ ← curl_easy_setopt e (set_url url);
  _ ← curl_easy_setopt e (set_private (Some c));
  _ ← (if bool_decide (str_find "https:" (rq_url q) = Some 0) then curl_easy_setopt e (set_verifypeer (rq_verifyPeer q)) else mret tt);
  _ ← (if String.eqb (rq_httpMethod q) "POST" then curl_easy_setopt e (set_postfields (Some (c, String.length (ci_body conn)))) else mret tt);
  r ← get;
  h ← deref (rh_handles r !! e);
  modify (on_started (fun l => l ++ [Transfer e h])).
(** [write_cb]: a part of the reply; the number of bytes taken. *)
Definition write_cb (ptr : string) (c : positive) : RH nat :=
  r ← get;
  conn ← deref (rh_conns r !! c);
  if Nat.ltb HTTP_BODY_LEN (String.length (ci_response conn) + String.length ptr) then mret 0
  else _ ← modify (on_rh_conns (insert c (on_response (fun s => s +:+ c_str ptr) conn))); mret (String.length ptr).
(** [makeRequestForRoute] *)
Definition makeRequestForRoute (q : route_request) : RH unit := modify (on_rh_posted (fun l => l ++ [q])).

(** ** With the controllers *)

Section controllers.
Context `{Jansson} {W : Type} `{!ControllerDeps W} `{!OutboundConnections W}.
Abbreviation RW := (M (RequestHandler * (ClientController * W))).
Definition handler_of {A} (m : RH A) : RW A := zoom fst (fun r s => (r, s.2)) m.
Definition controllers {A} (m : M (ClientController * W) A) : RW A := zoom snd (fun c s => (s.1, c)) m.

(** The reply that stands for a route straight to an application. *)
Definition direct_reply (url : string) : string :=
  let quote := String (ascii_of_N 34) "" in
  "{" +:+ quote +:+ "action" +:+ quote +:+ ": " +:+ quote +:+ "route" +:+ quote +:+ ", " +:+ quote +:+ "data" +:+ quote +:+ ": {" +:+
  quote +:+ "uri" +:+ quote +:+ ": " +:+ quote +:+ str_drop 6 url +:+
  (if bool_decide (str_find "tcp://" url = Some 0) then ";transport=tcp" else ";transport=tls") +:+ quote +:+ "}}".
Definition is_application_url (url : string) : bool :=
  bool_decide (str_find "tcp://" url = Some 0) || bool_decide (str_find "tls://" url = Some 0).
Definition startRequest (q : route_request) : RW unit :=
  if is_application_url (rq_url q)
  then controllers (httpCallRoutingComplete (rq_transactionId q) 200 (direct_reply (rq_url q)))
  else handler_of (start_transfer q).
(** [check_multi_info]: the transfer of a handle is done. *)
Definition transfer_done (e : positive) (response_code : Z) : RW unit :=
  s ← get;
  h ← deref (rh_handles s.1 !! e);
  c ← deref (eh_private h);
  conn ← deref (rh_conns s.1 !! c);
  _ ← controllers (httpCallRoutingComplete (ci_transactionId conn) response_code (ci_response conn));
  _ ← handler_of (modify (on_cache (fun l => l ++ [e])));
  handler_of (modify (on_rh_conns (delete c))).
(** The thread of the handler takes the next request that was posted. *)
Definition next_posted : RW unit :=
  s ← get;
  match rh_posted s.1 with
  | [] => mret tt
  | q :: _ => _ ← handler_of (modify (on_rh_posted tail)); startRequest q
  end.
End controllers.
