(* ===== verification/CurlSockets.v ===== *)
(** Model of the sockets of web requests (the callbacks of
    src/request-handler.cpp): libcurl says which sockets it waits for, and the
    handler waits for them with asio.  What libcurl does when it is called is
    outside: it calls the callbacks back, in some order, and that order is an
    argument. *)
From S2P Require Import Prelude.

Open Scope list_scope.

(** ** State *)

(** CURL_POLL_NONE and so on. *)
Inductive poll := POLL_NONE | POLL_IN | POLL_OUT | POLL_INOUT | POLL_REMOVE.
#[export] Instance poll_eq_dec : EqDecision poll.
Proof. solve_decision. Defined.
(** Does an action ask for reading ([true]) or for writing ([false])? *)
Definition wants (a : poll) (read : bool) : bool :=
  match a with POLL_IN => read | POLL_OUT => negb read | POLL_INOUT => true | _ => false end.

(** An [async_read_some] or [async_write_some] that is under way, whose handler
    is [event_cb]: for reading or not, the descriptor, the place where the
    current action is stored, and the socket object that it was started on. *)
Record operation := Operation {
  op_read : bool;
  op_s : Z;
  op_fdp : positive;
  op_socket : positive;
}.
#[export] Instance operation_eq_dec : EqDecision operation.
Proof. solve_decision. Defined.

(** [m_socket_map]: the socket object of each descriptor, [cs_next] the address
    of the next; [cs_fds]: the places for actions ([None]: freed, and not
    given out again); [cs_assigned]: the pointer that libcurl keeps for each
    socket, NULL if absent; [cs_ops]: the operations under way; [cs_timer]:
    the timer, if it runs. *)
Record curl_sockets := CurlSockets {
  m_socket_map : gmap Z positive;
  cs_next : positive;
  cs_fds : gmap positive (option poll);
  cs_assigned : gmap Z positive;
  cs_ops : list operation;
  cs_timer : option Z;
}.
Definition on_sockets u w := CurlSockets (u (m_socket_map w)) (cs_next w) (cs_fds w) (cs_assigned w) (cs_ops w) (cs_timer w).
Definition on_next u w := CurlSockets (m_socket_map w) (u (cs_next w)) (cs_fds w) (cs_assigned w) (cs_ops w) (cs_timer w).
Definition on_fds u w := CurlSockets (m_socket_map w) (cs_next w) (u (cs_fds w)) (cs_assigned w) (cs_ops w) (cs_timer w).
Definition on_assigned u w := CurlSockets (m_socket_map w) (cs_next w) (cs_fds w) (u (cs_assigned w)) (cs_ops w) (cs_timer w).
Definition on_ops u w := CurlSockets (m_socket_map w) (cs_next w) (cs_fds w) (cs_assigned w) (u (cs_ops w)) (cs_timer w).
Definition set_timer t w := CurlSockets (m_socket_map w) (cs_next w) (cs_fds w) (cs_assigned w) (cs_ops w) t.
Definition no_sockets : curl_sockets := CurlSockets ∅ 1 ∅ ∅ [] None.

Abbreviation CS := (M curl_sockets).

(** ** Callbacks of libcurl *)

Definition load_action (fdp : positive) : CS poll := w ← get; a ← deref (cs_fds w !! fdp); deref a.
Definition store_action (fdp : positive) (a : poll) : CS unit :=
  _ ← load_action fdp; modify (on_fds (insert fdp (Some a))).
Definition start_operation (read : bool) (s : Z) (fdp socket : positive) : CS unit :=
  modify (on_ops (fun l => l ++ [Operation read s fdp socket])).

Definition setsock (fdp : positive) (s : Z) (act oldact : poll) : CS unit :=
  w ← get;
  match m_socket_map w !! s with
  | None => mret tt
  | Some tcp_socket =>
    _ ← store_action fdp act;
    match act with
    | POLL_IN => if negb (wants oldact true) then start_operation true s fdp tcp_socket else mret tt
    | POLL_OUT => if negb (wants oldact false) then start_operation false s fdp tcp_socket else mret tt
    | POLL_INOUT =>
      _ ← (if negb (wants oldact true) then start_operation true s fdp tcp_socket else mret tt);
      if negb (wants oldact false) then start_operation false s fdp tcp_socket else mret tt
    | _ => mret tt
    end
  end.
Definition addsock (s : Z) (action : poll) : CS unit :=
  w ← get;
  let fdp := fresh_addr (cs_fds w) in
  _ ← modify (on_fds (insert fdp (Some POLL_NONE)));
  _ ← setsock fdp s action POLL_NONE;
  modify (on_assigned (insert s fdp)).
Definition sock_cb (s : Z) (what : poll) (sockp : option positive) : CS unit :=
  match what with
  | POLL_REMOVE => actionp ← deref sockp; store_action actionp POLL_REMOVE
  | _ =>
    match sockp with
    | None => addsock s what
    | Some actionp => oldact ← load_action actionp; setsock actionp s what oldact
    end
  end.
Definition multi_timer_cb (timeout_ms : Z) : CS unit :=
  modify (set_timer (if bool_decide (0 <= timeout_ms)%Z then Some timeout_ms else None)).
(** [fd]: the descriptor of the new socket; [None]: it cannot be opened, and
    the object is forgotten. *)
Definition opensocket (ipv4 : bool) (fd : option Z) : CS unit :=
  if ipv4 then
    w ← get;
    let tcp_socket := cs_next w in
    _ ← modify (on_next Pos.succ);
    match fd with
    | Some sockfd =>
      match m_socket_map w !! sockfd with
      | None => modify (on_sockets (insert sockfd tcp_socket))
      | Some _ => mret tt
      end
    | None => mret tt
    end
  else mret tt.
(** The operations of a socket object that dies end with an error. *)
Definition close_socket (item : Z) : CS unit := modify (on_sockets (delete item)).

(** What libcurl calls; it passes the pointer that was assigned to the socket,
    and forgets it when it removes the socket. *)
Inductive curl_call :=
  | CurlSocket (s : Z) (what : poll)
  | CurlOpen (ipv4 : bool) (fd : option Z)
  | CurlClose (s : Z)
  | CurlTimer (timeout_ms : Z).
Definition call_back (c : curl_call) : CS unit :=
  match c with
  | CurlSocket s what =>
    w ← get;
    _ ← sock_cb s what (cs_assigned w !! s);
    match what with POLL_REMOVE => modify (on_assigned (delete s)) | _ => mret tt end
  | CurlOpen ipv4 fd => opensocket ipv4 fd
  | CurlClose s => close_socket s
  | CurlTimer timeout_ms => multi_timer_cb timeout_ms
  end.
Fixpoint call_backs (calls : list curl_call) : CS unit :=
  match calls with [] => mret tt | c :: calls => _ ← call_back c; call_backs calls end.

(** ** Handlers of asio *)

Definition remsock (f : positive) : CS unit := modify (on_fds (insert f None)).
(** [running], [calls]: what [curl_multi_socket_action] reports, and what it
    and [check_multi_info] call. *)
Definition event_cb (o : operation) (error : bool) (running : Z) (calls : list curl_call) : CS unit :=
  f ← load_action (op_fdp o);
  if bool_decide (f = POLL_REMOVE) then remsock (op_fdp o) else
  w ← get;
  match m_socket_map w !! op_s o with
  | None => mret tt
  | Some _ =>
    if wants f (op_read o) then
      _ ← call_backs calls;
      _ ← (if bool_decide (running <= 0)%Z then modify (set_timer None) else mret tt);
      w ← get;
      match m_socket_map w !! op_s o with
      | Some tcp_socket => if negb error then start_operation (op_read o) (op_s o) (op_fdp o) tcp_socket else mret tt
      | None => mret tt
      end
    else mret tt
  end.
(** The [n]th operation ends; with an error when its socket object is gone. *)
Definition operation_ends (n : nat) (error : bool) (running : Z) (calls : list curl_call) : CS unit :=
  w ← get;
  match cs_ops w !! n with
  | None => mret tt
  | Some o =>
    _ ← modify (on_ops (fun l => take n l ++ drop (S n) l));
    event_cb o (error || negb (bool_decide (m_socket_map w !! op_s o = Some (op_socket o)))) running calls
  end.
(** The wait for the timer is over; [error] when it was cancelled. *)
Definition timer_cb (error : bool) (calls : list curl_call) : CS unit :=
  if error then mret tt else _ ← modify (set_timer None); call_backs calls.
