(* ===== verification/CurlSocketsCorrect.v ===== *)
(** The sockets of web requests: whatever libcurl asks for, the handler waits
    for every direction that libcurl waits for; and when it reads freed
    memory. *)
From S2P Require Import Prelude CurlSockets.

Open Scope list_scope.

(** ** What libcurl promises *)

(** It stops watching only a socket that it watches, and the descriptor of a
    new socket is not in use: no open socket has it, and libcurl does not watch
    it.  It may watch any descriptor, also one that the handler has not opened,
    such as one of its name resolver, and may close a socket at any time. *)
Definition allowed (c : curl_call) (w : curl_sockets) : Prop :=
  match c with
  | CurlSocket s POLL_REMOVE => is_Some (cs_assigned w !! s)
  | CurlOpen _ (Some fd) => m_socket_map w !! fd = None /\ cs_assigned w !! fd = None
  | _ => True
  end.
Fixpoint obeys (calls : list curl_call) (w : curl_sockets) : Prop :=
  match calls with
  | [] => True
  | c :: calls => allowed c w /\ match call_back c w with Ok (_, w') => obeys calls w' | Fault _ => True end
  end.
(** What libcurl waits for: for each socket that it watches the events it asked
    for last. *)
Definition ask (asked : gmap Z poll) (c : curl_call) : gmap Z poll :=
  match c with
  | CurlSocket s POLL_REMOVE => delete s asked
  | CurlSocket s what => <[s := what]> asked
  | _ => asked
  end.
Definition asks (asked : gmap Z poll) (calls : list curl_call) : gmap Z poll := foldl ask asked calls.

(** ** The invariant *)

(** [failed]: operations that ended with an error; [hole]: the operation whose
    handler is running, which may be started again at its end. *)
Record watching (asked : gmap Z poll) (failed : list operation) (hole : option operation) (w : curl_sockets) : Prop := {
  wa_asked s act : asked !! s = Some act -> is_Some (cs_assigned w !! s);
  wa_assigned s p : cs_assigned w !! s = Some p -> exists act a, asked !! s = Some act /\ cs_fds w !! p = Some (Some a) /\ a ≠ POLL_REMOVE /\
    forall sk, m_socket_map w !! s = Some sk -> a = act /\ forall read, wants a read = true ->
      Operation read s p sk ∈ cs_ops w \/ Operation read s p sk ∈ failed \/ exists o, hole = Some o /\ op_fdp o = p /\ op_read o = read;
  wa_injective s s' p : cs_assigned w !! s = Some p -> cs_assigned w !! s' = Some p -> s = s';
  wa_ops o : o ∈ cs_ops w \/ hole = Some o -> is_Some (cs_fds w !! op_fdp o) /\
    forall s, cs_assigned w !! s = Some (op_fdp o) -> op_s o = s /\ forall sk, m_socket_map w !! s = Some sk -> op_socket o = sk;
  wa_removed p a : cs_fds w !! p = Some (Some a) -> a ≠ POLL_REMOVE -> exists s, cs_assigned w !! s = Some p;
}.

Definition started (old act : poll) (read : bool) (s : Z) (p sk : positive) : list operation :=
  if wants act read && negb (wants old read) then [Operation read s p sk] else [].
Lemma setsock_run p s act old w sk b : act ≠ POLL_REMOVE -> m_socket_map w !! s = Some sk -> cs_fds w !! p = Some (Some b) ->
  setsock p s act old w =
  Ok (tt, on_ops (fun l => l ++ started old act true s p sk ++ started old act false s p sk) (on_fds (insert p (Some act)) w)).
Proof.
  intros Ha Hs Hp. unfold setsock. erewrite M_bind_ok by reflexivity. cbn beta. rewrite Hs.
  unfold store_action, load_action, started. destruct w as [sm nx fds asg ops tm]. cbn in *.
  destruct act, (wants old true), (wants old false); unfold start_operation, mbind, M_bind, get, modify, deref, mret, M_ret, on_ops, on_fds;
    cbn; rewrite Hp; cbn; rewrite ?app_nil_r, <-?app_assoc; done.
Qed.
(** A descriptor that the handler has not opened is left alone. *)
Lemma setsock_unknown p s act old w : m_socket_map w !! s = None -> setsock p s act old w = Ok (tt, w).
Proof. intros Hs. unfold setsock. erewrite M_bind_ok by reflexivity. cbn beta. by rewrite Hs. Qed.

Section preserved.
Context (failed : list operation) (hole : option operation).
Abbreviation inv asked w := (watching asked failed hole w).

Lemma watching_open asked w fd sk : inv asked w -> m_socket_map w !! fd = None -> cs_assigned w !! fd = None ->
  inv asked (on_sockets (insert fd sk) (on_next Pos.succ w)).
Proof.
  intros [H1 H2 H3 H4 H5] Hn Hna. split; cbn; try done.
  - intros s p Hs. destruct (H2 s p Hs) as (act & a & Hk & Hf & Ha & Hw). exists act, a. split_and!; try done.
    intros sk'. rewrite lookup_insert_ne by congruence. apply Hw.
  - intros o Ho. destruct (H4 o Ho) as [Hd Hu]. split; [done|]. intros s Hs. rewrite lookup_insert_ne by congruence. by apply Hu.
Qed.
Lemma watching_close asked w s : inv asked w -> inv asked (on_sockets (delete s) w).
Proof.
  intros [H1 H2 H3 H4 H5]. split; cbn; try done.
  - intros s' p Hs. destruct (H2 s' p Hs) as (act & a & Hk & Hf & Ha & Hw). exists act, a. split_and!; try done.
    intros sk' [_ Hm]%lookup_delete_Some. by apply Hw.
  - intros o Ho. destruct (H4 o Ho) as [Hd Hu]. split; [done|]. intros s' Hs. destruct (Hu s' Hs) as [He Hk]. split; [done|].
    intros sk' [_ Hm]%lookup_delete_Some. by apply Hk.
Qed.
(** Other events for a socket that is watched. *)
Lemma watching_action asked w s p sk act old : inv asked w -> act ≠ POLL_REMOVE -> cs_assigned w !! s = Some p ->
  m_socket_map w !! s = Some sk -> cs_fds w !! p = Some (Some old) ->
  inv (<[s := act]> asked) (on_ops (fun l => l ++ started old act true s p sk ++ started old act false s p sk) (on_fds (insert p (Some act)) w)).
Proof.
  intros [H1 H2 H3 H4 H5] Ha Has Hm Hp. split; cbn.
  - intros s' act' [[<- _]|[_ Hk]]%lookup_insert_Some; [by eexists|by eapply H1].
  - intros s' p' Hs'. destruct (H2 s' p' Hs') as (act' & a & Hk & Hf & Ha' & Hw). destruct (decide (s' = s)) as [->|Hne].
    + assert (p' = p) as -> by congruence. assert (a = old) as -> by congruence. exists act, act. rewrite !lookup_insert_eq.
      split_and!; try done. intros sk' Hm'. assert (sk' = sk) as -> by congruence. split; [done|]. intros read Hr.
      destruct (wants old read) eqn:Eo.
      * destruct (proj2 (Hw sk Hm) read Eo) as [Hin|?]; [left; by apply elem_of_app; left|by right].
      * left. apply elem_of_app. right. apply elem_of_app. unfold started. destruct read; [left|right]; rewrite Hr, Eo; cbn; by left.
    + assert (p' ≠ p) by (intros ->; by destruct Hne; eapply H3). exists act', a. rewrite !lookup_insert_ne by done. split_and!; try done.
      intros sk' Hm'. destruct (Hw sk' Hm') as [He Hd]. split; [done|]. intros read Hr. destruct (Hd read Hr); [left; by apply elem_of_app; left|by right].
  - done.
  - intros o Ho. assert (o ∈ cs_ops w \/ hole = Some o \/ (op_s o = s /\ op_fdp o = p /\ op_socket o = sk)) as [Ho'|[Ho'|(Es & Ep & Ek)]].
    { destruct Ho as [[Ho|Ho]%elem_of_app|Ho]; [by left| |by right; left]. right. right. unfold started in Ho.
      destruct (wants act true && _), (wants act false && _); cbn in Ho; set_unfold in Ho; naive_solver. }
    1,2: destruct (H4 o ltac:(tauto)) as [Hd Hu]; split; [apply lookup_insert_is_Some'; by right|done].
    rewrite Ep. split; [rewrite lookup_insert_eq; by eexists|]. intros s' Hs'. assert (s' = s) as -> by (by eapply H3).
    split; [done|]. intros sk' Hm'. congruence.
  - intros p' a Hp' Hn. destruct (decide (p' = p)) as [->|Hne]; [by exists s|]. rewrite lookup_insert_ne in Hp' by done. by eapply H5.
Qed.
Lemma watching_ignored asked w s p act : inv asked w -> cs_assigned w !! s = Some p -> m_socket_map w !! s = None -> inv (<[s := act]> asked) w.
Proof.
  intros [H1 H2 H3 H4 H5] Has Hm. split; try done.
  - intros s' act' [[<- _]|[_ Hk]]%lookup_insert_Some; [by eexists|by eapply H1].
  - intros s' p' Hs'. destruct (H2 s' p' Hs') as (act' & a & Hk & Hf & Ha' & Hw). destruct (decide (s' = s)) as [->|Hne].
    + exists act, a. rewrite lookup_insert_eq. split_and!; try done. intros sk Hsk. congruence.
    + exists act', a. by rewrite lookup_insert_ne.
Qed.
(** A socket that is watched from now on. *)
Lemma watching_assign asked w s p : inv asked w -> cs_assigned w !! s = None -> cs_fds w !! p = None ->
  inv (<[s := POLL_NONE]> asked) (on_assigned (insert s p) (on_fds (insert p (Some POLL_NONE)) w)).
Proof.
  intros [H1 H2 H3 H4 H5] Hn Hp.
  assert (forall s' p', cs_assigned w !! s' = Some p' -> p' ≠ p) as Hnew.
  { intros s' p' Hs' ->. destruct (H2 s' p Hs') as (act & a & _ & Hf & _). congruence. }
  split; cbn.
  - intros s' act' [[<- _]|[Hne Hk]]%lookup_insert_Some; [rewrite lookup_insert_eq; by eexists|rewrite lookup_insert_ne by done; by eapply H1].
  - intros s' p' [[<- <-]|[Hne Hs']]%lookup_insert_Some.
    + exists POLL_NONE, POLL_NONE. rewrite !lookup_insert_eq. by split_and!.
    + destruct (H2 s' p' Hs') as (act & a & Hk & Hf & Hr). exists act, a. rewrite !lookup_insert_ne by (done || (intros <-; by eapply Hnew)). done.
  - intros s1 s2 p' [[<- E]|[? E1]]%lookup_insert_Some [[<- E']|[? E2]]%lookup_insert_Some; [done| | |by eapply H3]; subst p'; exfalso; by eapply Hnew.
  - intros o Ho. destruct (H4 o Ho) as [Hd Hu]. split; [apply lookup_insert_is_Some'; by right|].
    intros s' [[<- E]|[Hne Hs']]%lookup_insert_Some; [|by apply Hu]. destruct Hd as [? Hd]. congruence.
  - intros p' a [[<- _]|[Hne Hp']]%lookup_insert_Some Hno; [exists s; by rewrite lookup_insert_eq|].
    destruct (H5 p' a Hp' Hno) as [s' Hs']. exists s'. rewrite lookup_insert_ne; [done|congruence].
Qed.
(** A socket that is no longer watched. *)
Lemma watching_remove asked w s p : inv asked w -> cs_assigned w !! s = Some p ->
  inv (delete s asked) (on_assigned (delete s) (on_fds (insert p (Some POLL_REMOVE)) w)).
Proof.
  intros [H1 H2 H3 H4 H5] Has. split; cbn.
  - intros s' act [Hne Hk]%lookup_delete_Some. rewrite lookup_delete_ne by done. by eapply H1.
  - intros s' p' [Hne Hs']%lookup_delete_Some. destruct (H2 s' p' Hs') as (act & a & Hk & Hf & Hr). exists act, a.
    rewrite lookup_delete_ne by done. rewrite lookup_insert_ne; [done|]. intros <-. by destruct (H3 s s' p).
  - intros s1 s2 p' [_ E1]%lookup_delete_Some [_ E2]%lookup_delete_Some. by eapply H3.
  - intros o Ho. destruct (H4 o Ho) as [Hd Hu]. split; [apply lookup_insert_is_Some'; by right|].
    intros s' [_ Hs']%lookup_delete_Some. by apply Hu.
  - intros p' a [[_ E]|[Hne Hp']]%lookup_insert_Some Hno; [congruence|]. destruct (H5 p' a Hp' Hno) as [s' Hs']. exists s'.
    apply lookup_delete_Some. split; [|done]. intros <-. congruence.
Qed.
Lemma watching_timer asked w t : inv asked w -> inv asked (set_timer t w).
Proof. intros [H1 H2 H3 H4 H5]. by split. Qed.
Lemma watching_next asked w : inv asked w -> inv asked (on_next Pos.succ w).
Proof. intros [H1 H2 H3 H4 H5]. by split. Qed.

Lemma setsock_watching asked w s p act : inv asked w -> act ≠ POLL_REMOVE -> cs_assigned w !! s = Some p ->
  exists w', (old ← load_action p; setsock p s act old) w = Ok (tt, w') /\ inv (<[s := act]> asked) w'.
Proof.
  intros Hw Ha Has. destruct (wa_assigned _ _ _ _ Hw s p Has) as (act' & old & _ & Hf & _ & _).
  rewrite (M_bind_ok _ _ _ old w) by (unfold load_action, mbind, M_bind, get, deref; by rewrite Hf).
  destruct (m_socket_map w !! s) as [sk|] eqn:Hm.
  - rewrite (setsock_run p s act old w sk old Ha Hm Hf). eexists. split; [done|]. by apply watching_action.
  - rewrite setsock_unknown by done. exists w. split; [done|]. by eapply watching_ignored.
Qed.
Lemma addsock_watching asked w s act : inv asked w -> act ≠ POLL_REMOVE -> cs_assigned w !! s = None ->
  exists w', addsock s act w = Ok (tt, w') /\ inv (<[s := act]> asked) w'.
Proof.
  intros Hw Ha Has. pose proof (fresh_addr_lookup (cs_fds w)) as Hfr. set (p := fresh_addr (cs_fds w)) in *.
  pose proof (watching_assign asked w s p Hw Has Hfr) as Hw1. set (w1 := on_fds (insert p (Some POLL_NONE)) w) in *.
  assert (addsock s act w = (_ ← setsock p s act POLL_NONE; modify (on_assigned (insert s p))) w1) as -> by done.
  destruct (m_socket_map w !! s) as [sk|] eqn:Hm.
  - rewrite (M_bind_ok _ _ _ _ _ (setsock_run p s act POLL_NONE w1 sk POLL_NONE Ha Hm (lookup_insert_eq _ _ _))). eexists. split; [reflexivity|].
    apply (watching_action _ _ s p sk act POLL_NONE) in Hw1; cbn; [|done|apply lookup_insert_eq|done|apply lookup_insert_eq].
    rewrite insert_insert_eq in Hw1. exact Hw1.
  - rewrite (M_bind_ok _ _ _ _ _ (setsock_unknown p s act POLL_NONE w1 Hm)). eexists. split; [reflexivity|].
    apply (watching_ignored _ _ s p act) in Hw1; [|apply lookup_insert_eq|done]. rewrite insert_insert_eq in Hw1. exact Hw1.
Qed.
Lemma sock_cb_add s what p w : what ≠ POLL_REMOVE ->
  sock_cb s what p w = match p with None => addsock s what w | Some p => (old ← load_action p; setsock p s what old) w end.
Proof. by destruct what, p. Qed.

Lemma call_back_watching asked c w : inv asked w -> allowed c w -> exists w', call_back c w = Ok (tt, w') /\ inv (ask asked c) w'.
Proof.
  intros Hw Hc. destruct c as [s what|ipv4 fd|s|t].
  - destruct (decide (what = POLL_REMOVE)) as [->|Hne].
    + destruct Hc as [p Hp]. destruct (wa_assigned _ _ _ _ Hw s p Hp) as (act & a & _ & Hf & _). eexists. split; [|by eapply watching_remove].
      cbn. unfold mbind, M_bind, get. cbn. rewrite Hp. cbn. unfold store_action, load_action, mbind, M_bind, get, deref. by rewrite Hf.
    + assert (exists w', sock_cb s what (cs_assigned w !! s) w = Ok (tt, w') /\ inv (<[s := what]> asked) w') as (w' & E & Hw').
      { rewrite sock_cb_add by done. destruct (cs_assigned w !! s) as [p|] eqn:Hs; [by apply setsock_watching|by apply addsock_watching]. }
      exists w'. split; [|by destruct what]. cbn. erewrite M_bind_ok by reflexivity. cbn beta. rewrite (M_bind_ok _ _ _ _ _ E). by destruct what.
  - destruct ipv4; [|by exists w]. destruct fd as [fd|]; [|exists (on_next Pos.succ w); split; [done|by apply watching_next]].
    destruct Hc as [Hc1 Hc2]. eexists. split; [|by apply (watching_open asked w fd (cs_next w))].
    cbn. unfold mbind, M_bind, get, modify. cbn. cbn in Hc1. by rewrite Hc1.
  - eexists. split; [reflexivity|]. by apply watching_close.
  - eexists. split; [reflexivity|]. by apply watching_timer.
Qed.
Lemma call_backs_watching asked calls w : inv asked w -> obeys calls w -> exists w', call_backs calls w = Ok (tt, w') /\ inv (asks asked calls) w'.
Proof.
  revert asked w. induction calls as [|c calls IH]; intros asked w Hw Hc; [by exists w|]. destruct Hc as [Hc Hcs].
  destruct (call_back_watching asked c w Hw Hc) as (w1 & E1 & Hw1). rewrite E1 in Hcs. destruct (IH _ w1 Hw1 Hcs) as (w2 & E2 & Hw2).
  exists w2. split; [|done]. cbn. by rewrite (M_bind_ok _ _ _ _ _ E1).
Qed.
End preserved.

(** ** Handlers *)

Definition taken (n : nat) (w : curl_sockets) : curl_sockets := on_ops (fun l => take n l ++ drop (S n) l) w.

(** The operation ends and its handler runs. *)
Lemma watching_taken asked failed w n o : watching asked failed None w -> cs_ops w !! n = Some o ->
  watching asked failed (Some o) (taken n w).
Proof.
  intros [H1 H2 H3 H4 H5] Ho. pose proof (list_elem_of_lookup_2 _ _ _ Ho) as Hin.
  assert (forall x, x ∈ cs_ops w <-> x = o \/ x ∈ take n (cs_ops w) ++ drop (S n) (cs_ops w)) as Hsplit.
  { intros x. rewrite <-(take_drop_middle _ _ _ Ho) at 1. set_solver. }
  split; cbn; try done.
  - intros s p Hs. destruct (H2 s p Hs) as (act & a & Hk & Hf & Ha & Hw). exists act, a. split_and!; try done.
    intros sk Hm. destruct (Hw sk Hm) as [He Hd]. split; [done|]. intros read Hr.
    destruct (Hd read Hr) as [[Heq|Hi]%Hsplit|[?|(? & ? & _)]]; [|by left|by right; left|done]. right. right. exists o. by subst.
  - intros x [Hx|[= <-]]; apply H4; left; [|done]. apply Hsplit. by right.
Qed.
(** Other directions may be excepted, too. *)
Lemma watching_failed asked failed failed' hole w : watching asked failed hole w -> (forall o, o ∈ failed -> o ∈ failed') ->
  watching asked failed' hole w.
Proof.
  intros [H1 H2 H3 H4 H5] Hi. split; try done. intros s p Hs. destruct (H2 s p Hs) as (act & a & Hk & Hf & Ha & Hw). exists act, a.
  split_and!; try done. intros sk Hm. destruct (Hw sk Hm) as [He Hd]. split; [done|]. intros read Hr. destruct (Hd read Hr) as [|[?|?]]; eauto.
Qed.
(** The handler is over: nothing waited for its operation, or it failed, or it
    was started again. *)
Lemma watching_dropped asked failed w o : watching asked failed (Some o) w ->
  o ∈ failed \/ m_socket_map w !! op_s o = None \/ (forall a, cs_fds w !! op_fdp o = Some (Some a) -> wants a (op_read o) = false) ->
  watching asked failed None w.
Proof.
  intros [H1 H2 H3 H4 H5] Hno. split; try done.
  - intros s p Hs. destruct (H2 s p Hs) as (act & a & Hk & Hf & Ha & Hw). exists act, a. split_and!; try done.
    intros sk Hm. destruct (Hw sk Hm) as [He Hd]. split; [done|]. intros read Hr.
    destruct (Hd read Hr) as [|[?|(x & [= <-] & <- & <-)]]; [by left|by right; left|].
    destruct (proj2 (H4 o (or_intror eq_refl)) s Hs) as [Es Ek]. specialize (Ek sk Hm). destruct Hno as [Hin|[Hn|Hn]].
    + right. left. destruct o as [ro so po ko]. cbn in *. by subst.
    + congruence.
    + by rewrite (Hn a Hf) in Hr.
  - intros x [Hx|?]; [|done]. apply H4. by left.
Qed.
Lemma watching_restarted asked failed w o sk : watching asked failed (Some o) w -> m_socket_map w !! op_s o = Some sk ->
  watching asked failed None (on_ops (fun l => l ++ [Operation (op_read o) (op_s o) (op_fdp o) sk]) w).
Proof.
  intros [H1 H2 H3 H4 H5] Hsk. destruct (H4 o (or_intror eq_refl)) as [Hd Hu]. split; cbn; try done.
  - intros s p Hs. destruct (H2 s p Hs) as (act & a & Hk & Hf & Ha & Hw). exists act, a. split_and!; try done.
    intros sk' Hm. destruct (Hw sk' Hm) as [He Hd']. split; [done|]. intros read Hr.
    destruct (Hd' read Hr) as [|[?|(x & [= <-] & <- & <-)]]; [left; set_solver|by right; left|].
    left. destruct (Hu s Hs) as [<- _]. assert (sk' = sk) as -> by congruence. set_solver.
  - intros x [[Hx|Hx%list_elem_of_singleton]%elem_of_app|?]; [by apply H4; left| |done]. subst x. cbn. split; [done|].
    intros s Hs. destruct (Hu s Hs) as [E _]. split; [done|]. intros sk' Hm. congruence.
Qed.
(** Only a place that nobody is assigned is freed. *)
Lemma watching_freed asked failed w o : watching asked failed (Some o) w -> cs_fds w !! op_fdp o = Some (Some POLL_REMOVE) ->
  watching asked failed None (on_fds (insert (op_fdp o) None) w).
Proof.
  intros Hw Hf. assert (forall s, cs_assigned w !! s ≠ Some (op_fdp o)) as Hno.
  { intros s Hs. destruct (wa_assigned _ _ _ _ Hw s _ Hs) as (act & a & _ & Hf' & Ha & _). congruence. }
  destruct Hw as [H1 H2 H3 H4 H5]. split; cbn; try done.
  - intros s p Hs. destruct (H2 s p Hs) as (act & a & Hk & Hf' & Ha & Hw). exists act, a.
    rewrite lookup_insert_ne by (intros <-; by apply (Hno s)). split_and!; try done. intros sk Hm.
    destruct (Hw sk Hm) as [He Hd]. split; [done|]. intros read Hr.
    destruct (Hd read Hr) as [|[?|(x & [= <-] & <- & <-)]]; [by left|by right; left|by destruct (Hno s)].
  - intros x [Hx|?]; [|done]. destruct (H4 x (or_introl Hx)) as [Hd Hu]. split; [apply lookup_insert_is_Some'; by right|done].
  - intros p a [[_ E]|[Hne Hp]]%lookup_insert_Some Hn; [done|by eapply H5].
Qed.

(** ** Runs *)

(** Does the handler of [o] call libcurl? *)
Definition curl_called (o : operation) (w : curl_sockets) : bool :=
  match cs_fds w !! op_fdp o, m_socket_map w !! op_s o with
  | Some (Some a), Some _ => bool_decide (a ≠ POLL_REMOVE) && wants a (op_read o)
  | _, _ => false
  end.
(** The states that can be reached, with the events that libcurl waits for and
    the operations that failed: an operation ends, the wait for the timer is
    over, or libcurl is called for another reason, such as a new request. *)
Inductive reach : gmap Z poll -> list operation -> curl_sockets -> Prop :=
  | reach_start : reach ∅ [] no_sockets
  | reach_operation asked failed w n o error running calls w' : reach asked failed w -> cs_ops w !! n = Some o -> obeys calls (taken n w) ->
      operation_ends n error running calls w = Ok (tt, w') ->
      reach (if curl_called o w then asks asked calls else asked) (if error then failed ++ [o] else failed) w'
  | reach_timer asked failed w error calls w' : reach asked failed w -> obeys calls (set_timer None w) ->
      timer_cb error calls w = Ok (tt, w') -> reach (if error then asked else asks asked calls) failed w'
  | reach_curl asked failed w calls w' : reach asked failed w -> obeys calls w ->
      call_backs calls w = Ok (tt, w') -> reach (asks asked calls) failed w'.

Lemma operation_ends_watching asked failed n o error running calls w :
  watching asked failed None w -> cs_ops w !! n = Some o -> obeys calls (taken n w) ->
  (cs_fds w !! op_fdp o = Some None /\ operation_ends n error running calls w = Fault BadAccess) \/
  exists w', operation_ends n error running calls w = Ok (tt, w') /\
    watching (if curl_called o w then asks asked calls else asked) (if error then failed ++ [o] else failed) None w'.
Proof.
  intros Hw Ho Hc. set (failed' := if error then failed ++ [o] else failed).
  assert (watching asked failed' (Some o) (taken n w)) as Hw1.
  { apply (watching_failed _ failed); [by apply watching_taken|]. unfold failed'. destruct error; set_solver. }
  unfold operation_ends. erewrite M_bind_ok by reflexivity. cbn beta. rewrite Ho. erewrite M_bind_ok by reflexivity. cbn beta.
  fold (taken n w). unfold event_cb. destruct (wa_ops _ _ _ _ Hw1 o (or_intror eq_refl)) as [[[a|] Hf] Hu]; cbn in Hf.
  2: { left. split; [done|]. unfold load_action, mbind, M_bind, get, deref. cbn. by rewrite Hf. }
  right. rewrite (M_bind_ok _ _ _ a (taken n w)) by (unfold load_action, mbind, M_bind, get, deref; cbn; by rewrite Hf).
  unfold curl_called. rewrite Hf. destruct (decide (a = POLL_REMOVE)) as [->|Ha].
  { rewrite bool_decide_eq_true_2 by done. eexists. split; [reflexivity|]. destruct (m_socket_map w !! op_s o); by apply watching_freed. }
  rewrite (bool_decide_eq_false_2 (a = POLL_REMOVE)) by done. rewrite (bool_decide_eq_true_2 (a ≠ POLL_REMOVE)) by done.
  destruct (wa_removed _ _ _ _ Hw1 _ _ Hf Ha) as [s Hs]. destruct (Hu s Hs) as [<- Hsk].
  erewrite M_bind_ok by reflexivity. cbn beta. cbn [m_socket_map taken on_ops] in Hsk |- *.
  destruct (m_socket_map w !! op_s o) as [sk|] eqn:Em.
  2: { exists (taken n w). split; [done|]. apply (watching_dropped _ _ _ o Hw1). right. by left. }
  rewrite bool_decide_eq_true_2 by (f_equal; symmetry; by apply Hsk). cbn [negb andb]. rewrite orb_false_r.
  destruct (wants a (op_read o)) eqn:Ew.
  2: { exists (taken n w). split; [done|]. apply (watching_dropped _ _ _ o Hw1). right. right. intros a'. cbn. rewrite Hf. by intros [= <-]. }
  destruct (call_backs_watching _ _ asked calls _ Hw1 Hc) as (w2 & E2 & Hw2). rewrite (M_bind_ok _ _ _ _ _ E2).
  set (w3 := if bool_decide (running <= 0)%Z then set_timer None w2 else w2).
  assert (watching (asks asked calls) failed' (Some o) w3) as Hw3 by (unfold w3; destruct (bool_decide _); [by apply watching_timer|done]).
  rewrite (M_bind_ok _ _ _ tt w3) by (unfold w3; by destruct (bool_decide _)). erewrite M_bind_ok by reflexivity. cbn beta.
  destruct (m_socket_map w3 !! op_s o) as [sk'|] eqn:Em3; [destruct error|]; cbn [negb].
  - exists w3. split; [done|]. apply (watching_dropped _ _ _ o Hw3). left. unfold failed'. set_solver.
  - eexists. split; [reflexivity|]. by apply watching_restarted.
  - exists w3. split; [done|]. apply (watching_dropped _ _ _ o Hw3). right. by left.
Qed.
Lemma watching_none : watching ∅ [] None no_sockets.
Proof. split; cbn; intros; try done; by set_solver. Qed.
Lemma reach_watching asked failed w : reach asked failed w -> watching asked failed None w.
Proof.
  induction 1 as [|asked failed w n o error running calls w' _ Hw Ho Hc E|asked failed w error calls w' _ Hw Hc E|asked failed w calls w' _ Hw Hc E].
  - apply watching_none.
  - destruct (operation_ends_watching _ _ n o error running calls w Hw Ho Hc) as [[_ E']|(w2 & E' & Hw')]; [congruence|].
    by assert (w2 = w') as -> by congruence.
  - destruct error; [by injection E as <-|]. unfold timer_cb in E. erewrite M_bind_ok in E by reflexivity. cbn beta in E.
    destruct (call_backs_watching _ _ asked calls _ (watching_timer _ _ _ _ None Hw) Hc) as (w2 & E' & Hw'). congruence.
  - destruct (call_backs_watching _ _ asked calls _ Hw Hc) as (w2 & E' & Hw'). congruence.
Qed.

(** A socket that the handler has not opened gets a place, and no operation. *)
Lemma unknown_ignored asked failed w s what : watching asked failed None w -> what ≠ POLL_REMOVE -> m_socket_map w !! s = None ->
  exists w', call_back (CurlSocket s what) w = Ok (tt, w') /\ cs_ops w' = cs_ops w /\ is_Some (cs_assigned w' !! s).
Proof.
  intros Hw Hne Hm. enough (exists w', sock_cb s what (cs_assigned w !! s) w = Ok (tt, w') /\ cs_ops w' = cs_ops w /\ is_Some (cs_assigned w' !! s))
    as (w' & E & Hw').
  { exists w'. split; [|done]. cbn. erewrite M_bind_ok by reflexivity. cbn beta. rewrite (M_bind_ok _ _ _ _ _ E). by destruct what. }
  rewrite sock_cb_add by done. destruct (cs_assigned w !! s) as [p|] eqn:Hs.
  - destruct (wa_assigned _ _ _ _ Hw s p Hs) as (act & a & _ & Hf & _). exists w. split_and!; [|done|by eexists].
    rewrite (M_bind_ok _ _ _ a w) by (unfold load_action, mbind, M_bind, get, deref; cbn; by rewrite Hf). by apply setsock_unknown.
  - eexists. split.
    { unfold addsock. erewrite M_bind_ok by reflexivity. cbn beta. erewrite M_bind_ok by reflexivity. cbn beta.
      erewrite M_bind_ok by (by apply setsock_unknown). reflexivity. }
    split; [done|]. cbn. rewrite lookup_insert_eq. by eexists.
Qed.

(** C31: Waiting for the sockets of web requests.  At any time, every socket
    that libcurl watches has a place for its action; and if the handler has
    the socket open, that place holds the events that libcurl asked for last,
    and there is an operation under way on the open socket for each direction
    they ask for, although libcurl may change its mind at any time and
    operations are left over; so no transfer gets stuck.  Excepted are the
    directions whose operation ended with an error, which libcurl was told and
    which is not started again.  The callbacks of libcurl never fail, also not
    for a socket that the handler has not opened, for which nothing is waited.
    The end of an operation reads freed memory if the place of its action was
    freed, and otherwise does not fail. *)
Theorem sockets_watched (asked : gmap Z poll) (failed : list operation) (w : curl_sockets) :
  reach asked failed w ->
  (forall s act, asked !! s = Some act -> exists p, cs_assigned w !! s = Some p /\ forall sk, m_socket_map w !! s = Some sk ->
    cs_fds w !! p = Some (Some act) /\ forall read, wants act read = true -> Operation read s p sk ∈ cs_ops w \/ Operation read s p sk ∈ failed) /\
  (forall calls, obeys calls w -> exists w', call_backs calls w = Ok (tt, w')) /\
  (forall s what, what ≠ POLL_REMOVE -> m_socket_map w !! s = None ->
    exists w', call_back (CurlSocket s what) w = Ok (tt, w') /\ cs_ops w' = cs_ops w /\ is_Some (cs_assigned w' !! s)) /\
  forall n o error running calls, cs_ops w !! n = Some o -> obeys calls (taken n w) ->
    if bool_decide (cs_fds w !! op_fdp o = Some None) then operation_ends n error running calls w = Fault BadAccess
    else exists w', operation_ends n error running calls w = Ok (tt, w').
Proof.
  intros Hw%reach_watching. split_and!.
  - intros s act Hk. destruct (wa_asked _ _ _ _ Hw s act Hk) as [p Hs]. exists p. split; [done|]. intros sk Hm.
    destruct (wa_assigned _ _ _ _ Hw s p Hs) as (act' & a & Hk' & Hf & _ & Ho). destruct (Ho sk Hm) as [-> Hd].
    assert (act' = act) as -> by congruence. split; [done|]. intros read Hr. destruct (Hd read Hr) as [|[|(? & ? & _)]]; [by left|by right|done].
  - intros calls Hc. destruct (call_backs_watching _ _ _ calls _ Hw Hc) as (w' & E & _). by exists w'.
  - intros s what Hne Hm. by apply (unknown_ignored asked failed).
  - intros n o error running calls Ho Hc.
    destruct (operation_ends_watching _ _ n o error running calls w Hw Ho Hc) as [[Hf E]|(w' & E & _)]; [by rewrite bool_decide_eq_true_2|].
    case_bool_decide as Hf; [|by exists w']. exfalso. revert E. unfold operation_ends. erewrite M_bind_ok by reflexivity. cbn beta. rewrite Ho.
    erewrite M_bind_ok by reflexivity. cbn beta. unfold event_cb, load_action, mbind, M_bind, get, deref. cbn. by rewrite Hf.
Qed.

(** ** A request, its reply, and what is left over *)

(** The name is looked up, on descriptor 4 of libcurl's own; the request is
    sent when descriptor 5 becomes writable, and libcurl waits for the reply;
    the operation for writing is started again all the same. *)
Definition sent_request : curl_sockets := CurlSockets {[5%Z := 1%positive]} 2
  {[1%positive := Some POLL_NONE; 2%positive := Some POLL_IN]} {[4%Z := 1%positive; 5%Z := 2%positive]}
  [Operation true 5 2 1; Operation false 5 2 1] (Some 2000%Z).
Ltac concrete := vm_compute; repeat split; eauto.
Lemma sent_request_runs : reach {[4%Z := POLL_IN; 5%Z := POLL_IN]} [] sent_request.
Proof.
  eapply (eq_rect _ (fun m => reach m [] sent_request)).
  - eapply (reach_operation _ _ _ 0 _ false 1 [CurlSocket 5 POLL_IN]);
      [eapply (reach_timer _ _ _ false [CurlSocket 4 POLL_IN; CurlOpen true (Some 5%Z); CurlSocket 5 POLL_OUT; CurlTimer 2000]);
        [eapply (reach_curl _ _ _ [CurlTimer 0]); [apply reach_start|concrete|vm_compute; reflexivity]
        |concrete|vm_compute; reflexivity]
      |vm_compute; reflexivity|concrete|vm_compute; reflexivity].
  - by vm_compute.
Qed.
(** A read that fails, after which libcurl still waits. *)
Definition failed_read : curl_sockets := taken 0 sent_request.
Lemma failed_read_runs : reach {[4%Z := POLL_IN; 5%Z := POLL_IN]} [Operation true 5 2 1] failed_read.
Proof.
  eapply (eq_rect _ (fun m => reach m [Operation true 5 2 1] failed_read)).
  - eapply (reach_operation _ [] _ 0 _ true 1 []); [exact sent_request_runs|vm_compute; reflexivity|concrete|vm_compute; reflexivity].
  - by vm_compute.
Qed.
Lemma sockets_watched_witness :
  (exists p, cs_assigned sent_request !! 5%Z = Some p /\ cs_fds sent_request !! p = Some (Some POLL_IN) /\ Operation true 5 p 1 ∈ cs_ops sent_request) /\
  (exists w', operation_ends 0 false 0 [CurlSocket 5 POLL_REMOVE] sent_request = Ok (tt, w')) /\
  (exists w', call_back (CurlSocket 4 POLL_INOUT) sent_request = Ok (tt, w') /\ cs_ops w' = cs_ops sent_request) /\
  exists w', call_backs [CurlSocket 7 POLL_OUT; CurlClose 5; CurlSocket 5 POLL_REMOVE] failed_read = Ok (tt, w').
Proof.
  destruct (sockets_watched _ _ _ sent_request_runs) as (Hw & _ & Hu & Ho). split_and!.
  - destruct (Hw 5%Z POLL_IN eq_refl) as (p & Hp & Hs). exists p. destruct (Hs 1%positive eq_refl) as [Hf Hr]. split_and!; [done..|].
    destruct (Hr true eq_refl) as [Hin|Hin]; [exact Hin|by apply elem_of_nil in Hin].
  - apply (Ho 0 (Operation true 5 2 1) false 0%Z [CurlSocket 5 POLL_REMOVE] eq_refl). vm_compute. eauto.
  - destruct (Hu 4%Z POLL_INOUT ltac:(discriminate) eq_refl) as (w' & E & Eo & _). by exists w'.
  - destruct (sockets_watched _ _ _ failed_read_runs) as (_ & Hc & _). apply Hc. concrete.
Defined.

(** The reply is read while the operation for writing is about to end, and
    libcurl keeps the connection.  That operation frees the place of the
    action; the other, which ends when the server closes the connection, reads
    it. *)
Lemma kept_connection_dangles : exists w1 w2,
  operation_ends 0 false 0 [CurlSocket 5 POLL_REMOVE] sent_request = Ok (tt, w1) /\
  operation_ends 0 false 0 [] w1 = Ok (tt, w2) /\ operation_ends 0 false 0 [] w2 = Fault BadAccess.
Proof. do 2 eexists. split_and!; vm_compute; reflexivity. Qed.
(** A connection that is refused leaves the place of its action behind. *)
Lemma refused_connection_leaks : exists asked w,
  reach asked [] w /\ cs_ops w = [] /\ m_socket_map w = ∅ /\ cs_assigned w = ∅ /\ cs_fds w = {[1%positive := Some POLL_REMOVE]}.
Proof.
  do 2 eexists. split.
  - eapply (reach_operation _ _ _ 0 _ false 0 [CurlSocket 5 POLL_REMOVE; CurlClose 5]);
      [eapply (reach_curl _ _ _ [CurlOpen true (Some 5%Z); CurlSocket 5 POLL_OUT]); [apply reach_start|concrete|vm_compute; reflexivity]
      |vm_compute; reflexivity|concrete|vm_compute; reflexivity].
  - by vm_compute.
Qed.
