(* ===== verification/HttpRoutingCorrect.v ===== *)
(** What the main controller makes of the reply of a routing service: the
    replies that are instructions, the contacts of a redirect, a route straight
    to an application; and the handles of the web requests. *)
From S2P Require Import Prelude CppString Regex BoostInstance SipUri TextUtil SipTags TextCorrect ClientController PendingRequests DialogWorld DialogSend DialogSendCorrect HttpRouting RequestHandler.

Open Scope string_scope.
Open Scope list_scope.

(** ** Replies that are instructions *)

(** [v] is the attribute [k] of the object [j]. *)
Definition attribute (j : json) (k : string) (v : json) : Prop := json_object_get (Some j) k = Some v.
Definition no_attribute (j : json) (k : string) : Prop := json_object_get (Some j) k = None.
Definition object (j : json) : Prop := exists l, j = JObject l.
(** A string, or some strings. *)
Inductive texts : json -> list string -> Prop :=
  | one_text s : texts (JString s) [s]
  | many_texts l : texts (JArray (JString <$> l)) l.
(** The number of a JSON value. *)
Inductive number : json -> Z -> Prop :=
  | whole z : number (JInteger z) z
  | fraction : number JReal 0.
(** An attribute of a type, or its default where there is no such one. *)
Definition flag (j : json) (k : string) (b d : bool) : Prop := attribute j k (JBool b) \/ (forall b', ~ attribute j k (JBool b')) /\ b = d.
Definition text (j : json) (k : string) (s : string) (d : string) : Prop :=
  attribute j k (JString s) \/ (forall s', ~ attribute j k (JString s')) /\ s = d.
Definition any_text (j : json) (k : string) (s : option string) : Prop :=
  match s with Some s => attribute j k (JString s) | None => forall s', ~ attribute j k (JString s') end.
(** Destinations may be missing, or be something else. *)
Definition destinations (j : json) (l : list string) : Prop :=
  (exists v, attribute j "destination" v /\ texts v l) \/
  ((forall v, attribute j "destination" v -> (forall s, v ≠ JString s) /\ (forall a, v ≠ JArray a)) /\ l = []).

Inductive instructs (j : json) : instruction -> Prop :=
  | says_reject data v z reason :
      attribute j "action" (JString "reject") -> attribute j "data" data -> object data ->
      attribute data "status" v -> number v z -> any_text data "reason" reason ->
      instructs j (reject (to_unsigned z) reason)
  | says_proxy data rr follow sim ptimeout ftimeout l :
      attribute j "action" (JString "proxy") -> attribute j "data" data -> object data ->
      flag data "recordRoute" rr false -> flag data "followRedirects" follow true -> flag data "simultaneous" sim false ->
      text data "provisionalTimeout" ptimeout "5s" -> text data "finalTimeout" ftimeout "60s" -> destinations data l ->
      instructs j (proxy rr follow sim ptimeout ftimeout l)
  | says_redirect data v l :
      attribute j "action" (JString "redirect") -> attribute j "data" data -> object data ->
      attribute data "contact" v -> texts v l ->
      instructs j (redirect l)
  | says_connect data uri :
      attribute j "action" (JString "route") -> attribute j "data" data -> object data ->
      attribute data "uri" (JString uri) ->
      instructs j (connect_uri uri)
  | says_tag data tag :
      attribute j "action" (JString "route") -> attribute j "data" data -> object data ->
      (forall uri, ~ attribute data "uri" (JString uri)) -> attribute data "tag" (JString tag) ->
      instructs j (select_tag tag).

Lemma string_value_spec j k : any_text j k (json_string_value (json_object_get (Some j) k)).
Proof. unfold any_text, attribute, json_string_value. destruct (json_object_get _ _) as [[]|]; congruence. Qed.
Lemma string_value_some j k s : json_string_value (json_object_get (Some j) k) = Some s <-> attribute j k (JString s).
Proof. unfold attribute, json_string_value. destruct (json_object_get _ _) as [[]|]; split; congruence. Qed.
Lemma any_text_inj j k s : any_text j k s -> s = json_string_value (json_object_get (Some j) k).
Proof.
  destruct s as [s|]; cbn; [by intros Hs%string_value_some|]. intros Hn. destruct (json_string_value _) as [s|] eqn:E; [|done].
  by apply string_value_some, Hn in E.
Qed.
Lemma flag_spec j k b d : flag j k b d <-> b = bool_or d (json_object_get (Some j) k).
Proof.
  unfold flag, attribute, bool_or. destruct (json_object_get _ _) as [[|b'| | | | |]|]; split; try (intros [?|[Hn ->]]; congruence); try (intros ->; right; split; congruence).
  - intros [[= ->]|[Hn _]]; [done|by destruct (Hn b')].
  - intros ->. by left.
Qed.
Lemma text_spec j k s d : text j k s d <-> s = string_or d (json_object_get (Some j) k).
Proof.
  unfold text, attribute, string_or, json_string_value.
  destruct (json_object_get _ _) as [[| | | |s'| |]|]; cbn; split; try (intros [?|[Hn ->]]; congruence); try (intros ->; right; split; congruence).
  - intros [[= ->]|[Hn _]]; [done|by destruct (Hn s')].
  - intros ->. by left.
Qed.
Lemma strings_of_spec l r : strings_of l = inr r <-> l = JString <$> r.
Proof.
  revert r. induction l as [|v l IH]; intros r; cbn; [destruct r; split; by intros|].
  destruct v; try (split; [done|by destruct r]). destruct (strings_of l) as [e|ss] eqn:E.
  - split; [done|]. destruct r as [|s' r]; [done|]. intros [= -> Hl]. by apply IH in Hl.
  - split; [intros [= <-]; cbn; by rewrite <-(proj1 (IH ss) eq_refl)|].
    destruct r as [|s' r]; [done|]. intros [= -> Hl]. apply IH in Hl. by injection Hl as ->.
Qed.
Lemma texts_spec j v k l : json_object_get (Some j) k = Some v -> texts v l <-> contacts_of (Some v) = inr l.
Proof.
  intros _. split.
  - intros [s|l']; [done|]. cbn. by apply strings_of_spec.
  - destruct v; cbn; try done; [intros [= <-]; constructor|]. intros ->%strings_of_spec. constructor.
Qed.
Lemma destinations_spec j l : destinations j l <-> destinations_of (json_object_get (Some j) "destination") = inr l.
Proof.
  unfold destinations, attribute. destruct (json_object_get _ _) as [v|] eqn:E.
  - pose proof (texts_spec j v "destination" l E) as Ht. split.
    + intros [(v' & [= <-] & Hv)|[Hn ->]]; [apply Ht in Hv; by destruct v|]. destruct (Hn v eq_refl) as [H1 H2].
      destruct v; try done; [by destruct (H1 s)|by destruct (H2 l)].
    + destruct v as [| | | |s|a|]; cbn; try (intros [= <-]; right; split; [by intros v [= <-]|done]).
      * intros [= <-]. left. eexists. split; [done|constructor].
      * intros Ha. left. eexists. split; [done|]. by apply Ht.
  - split; [intros [(v & ? & _)|[_ ->]]; done|]. intros [= <-]. right. split; [done|done].
Qed.

Lemma is_object_spec j : json_is_object (Some j) = true <-> object j.
Proof. split; [destruct j; try done; intros _; by eexists|by intros [l ->]]. Qed.
Lemma attribute_object j k v : attribute j k v -> json_is_object (Some j) = true.
Proof. by destruct j. Qed.
(** The dispatch on the action, where the shape of the reply is right. *)
Lemma instruction_of_action j action data :
  attribute j "action" (JString action) -> attribute j "data" data -> object data ->
  exists e, instruction_of (Some j) =
    if String.eqb action "reject" then reject_of (Some data) else
    if String.eqb action "proxy" then proxy_of (Some data) else
    if String.eqb action "redirect" then redirect_of (Some data) else
    if String.eqb action "route" then route_of (Some data) else inl e.
Proof.
  intros Ha Hd Ho%is_object_spec. unfold instruction_of. rewrite (attribute_object _ _ _ Ha). cbn [negb].
  apply string_value_some in Ha as Hs. rewrite Hs. unfold attribute in Hd. rewrite Hd, Ho. cbn [negb]. by eexists.
Qed.

Lemma reject_of_spec data i :
  reject_of (Some data) = inr i <->
  exists v z reason, attribute data "status" v /\ number v z /\ any_text data "reason" reason /\ i = reject (to_unsigned z) reason.
Proof.
  unfold reject_of, attribute. split.
  - destruct (json_object_get (Some data) "status") as [v|]; [|done]. destruct (json_is_number v) eqn:En; [|done]. intros [= <-].
    exists v, (json_integer_value v). eexists. split; [done|]. split; [destruct v; try done; constructor|]. split; [apply string_value_spec|done].
  - intros (v & z & reason & -> & Hn & ->%any_text_inj & ->). by destruct Hn.
Qed.
Lemma redirect_of_spec data i :
  redirect_of (Some data) = inr i <-> exists v l, attribute data "contact" v /\ texts v l /\ i = redirect l.
Proof.
  unfold redirect_of. split.
  - destruct (json_object_get (Some data) "contact") as [v|] eqn:E; [|done]. destruct (contacts_of (Some v)) as [|l] eqn:El; [done|].
    intros [= <-]. exists v, l. split; [done|]. split; [|done]. by apply (texts_spec _ _ _ _ E).
  - intros (v & l & Hv & Ht & ->). apply (texts_spec _ _ _ _ Hv) in Ht. unfold attribute in Hv. by rewrite Hv, Ht.
Qed.
Lemma route_of_spec data i :
  route_of (Some data) = inr i <->
  (exists uri, attribute data "uri" (JString uri) /\ i = connect_uri uri) \/
  (exists tag, (forall uri, ~ attribute data "uri" (JString uri)) /\ attribute data "tag" (JString tag) /\ i = select_tag tag).
Proof.
  unfold route_of. pose proof (string_value_spec data "uri") as Hu. pose proof (string_value_spec data "tag") as Ht. split.
  - destruct (json_string_value (json_object_get (Some data) "uri")) as [uri|]; [intros [= <-]; left; by exists uri|].
    destruct (json_string_value (json_object_get (Some data) "tag")) as [tag|]; [|done]. intros [= <-]. right. by exists tag.
  - intros [(uri & Hx%string_value_some & ->)|(tag & Hn & Hx%string_value_some & ->)]; [by rewrite Hx|].
    destruct (json_string_value (json_object_get (Some data) "uri")) as [uri|]; [by destruct (Hn uri)|]. by rewrite Hx.
Qed.
Lemma instruction_of_spec j i : instruction_of (Some j) = inr i <-> instructs j i.
Proof.
  split.
  - intros E. assert (exists action data, attribute j "action" (JString action) /\ attribute j "data" data /\ object data) as (a & data & Ha & Hd & Ho).
    { unfold instruction_of in E. destruct (json_is_object (Some j)); [|done]. cbn [negb] in E.
      destruct (json_string_value (json_object_get (Some j) "action")) as [a|] eqn:Ea; [|done]. apply string_value_some in Ea.
      destruct (json_is_object (json_object_get (Some j) "data")) eqn:Ed; [|done]. unfold attribute at 2.
      destruct (json_object_get (Some j) "data") as [data|]; [|done]. exists a, data. split; [done|]. split; [done|]. by apply is_object_spec. }
    destruct (instruction_of_action j a data Ha Hd Ho) as [e Hi]. rewrite Hi in E. clear Hi.
    destruct (String.eqb_spec a "reject") as [->|_].
    { apply reject_of_spec in E as (v & z & reason & ? & ? & ? & ->). by econstructor. }
    destruct (String.eqb_spec a "proxy") as [->|_].
    { unfold proxy_of in E. destruct (destinations_of _) as [|l] eqn:El; [done|]. injection E as <-. apply destinations_spec in El.
      econstructor; try done; (by apply flag_spec) || (by apply text_spec). }
    destruct (String.eqb_spec a "redirect") as [->|_].
    { apply redirect_of_spec in E as (v & l & ? & ? & ->). by econstructor. }
    destruct (String.eqb_spec a "route") as [->|Hne].
    { apply route_of_spec in E as [(uri & ? & ->)|(tag & ? & ? & ->)]; by econstructor. }
    done.
  - intros Hi. inversion Hi; subst;
      match goal with Ha : attribute j "action" _, Hd : attribute j "data" ?d, Ho : object ?d |- _ =>
        destruct (instruction_of_action j _ d Ha Hd Ho) as [e ->] end; cbn [String.eqb Ascii.eqb Bool.eqb].
    + apply reject_of_spec. by do 3 eexists.
    + unfold proxy_of.
      repeat match goal with H : flag _ _ _ _ |- _ => apply flag_spec in H as -> | H : text _ _ _ _ |- _ => apply text_spec in H as -> end.
      match goal with H : destinations _ _ |- _ => apply destinations_spec in H as -> end. done.
    + apply redirect_of_spec. by do 2 eexists.
    + apply route_of_spec. left. by eexists.
    + apply route_of_spec. right. by eexists.
Qed.

Section replies.
Context `{Jansson} {W : Type} `{!ControllerDeps W} `{!OutboundConnections W}.

Lemma obeyed transactionId response_code body j i s : json_loads body = Some j -> instructs j i ->
  httpCallRoutingComplete transactionId response_code body s =
    (ok ← carry_out transactionId i; if (ok : bool) then mret tt else processRejectInstruction transactionId 500 None) s.
Proof. unfold httpCallRoutingComplete. intros -> Hi%instruction_of_spec. by rewrite Hi. Qed.

(** C27: The reply of a routing service is obeyed exactly when it is an
    instruction: a JSON object with an action and data that say what to do.
    Any other reply, JSON or not, makes the server refuse the request with 500,
    and so does an instruction whose connection cannot be tried; nothing else
    is done in either case. *)
Theorem routing_reply_obeyed transactionId response_code body s :
  (forall j i, json_loads body = Some j -> instructs j i ->
     httpCallRoutingComplete transactionId response_code body s =
       (ok ← carry_out transactionId i; if (ok : bool) then mret tt else processRejectInstruction transactionId 500 None) s) /\
  ((forall j i, json_loads body = Some j -> ~ instructs j i) ->
     httpCallRoutingComplete transactionId response_code body s = processRejectInstruction transactionId 500 None s).
Proof.
  split; [intros j i Hj Hi; by apply (obeyed _ _ _ j)|]. unfold httpCallRoutingComplete. intros Hn. destruct (json_loads body) as [j|]; [|done]. destruct (instruction_of (Some j)) as [e|i] eqn:E; [done|].
  by apply instruction_of_spec, (Hn j i) in E.
Qed.

(** ** Redirects *)

Context `{BoostLaws} `{SofiaUrl} `{MainSending}.

(** A contact that can stand in a header line. *)
Definition contact_ok (c : string) : Prop :=
  no_sep DR_CRLF c /\ trim c = c /\ str_find "@localhost" c = None.

Lemma no_crlf_find s : no_sep DR_CRLF s -> str_find DR_CRLF s = None.
Proof.
  intros Hs. apply str_find_crlf_none. unfold no_sep, str_mem in *. apply negb_false_iff. revert Hs. apply forall_weaken.
  intros c Hc. destruct (Ascii.eqb_spec CR c) as [<-|]; [by vm_compute in Hc|done].
Qed.
Lemma contact_header_line c : contact_ok c -> parse_header_line ("Contact: " +:+ c) = Some ("Contact", c).
Proof.
  intros (Hs & Ht & _). unfold parse_header_line. change ("Contact: " +:+ c) with ("Contact" +:+ ":" +:+ (" " +:+ c)).
  assert (str_find ":" ("Contact" +:+ ":" +:+ (" " +:+ c)) = Some 7) as -> by done.
  change (str_take 7 _) with "Contact". change (str_drop (7 + 1) _) with (" " +:+ c).
  rewrite trim_padded, Ht, (trim_solid "Contact") by (by vm_compute).
  change (str_forall _ "Contact") with true. cbn iota. by rewrite no_crlf_find.
Qed.
Lemma contact_key : header_key "Contact" = "contact".
Proof. unfold header_key. by rewrite replace_char, to_lower_ascii. Qed.
Lemma contact_known : isImmutableHdr "contact" = false /\ getTagTypeForHdr "contact" = Some siptag_contact_str.
Proof. split; by vm_compute. Qed.
Lemma contact_tag host port c : contact_ok c -> full_tag preservedHeaders host port ("Contact: " +:+ c) = Ok (Some (siptag_contact_str, c)).
Proof.
  intros Hc. unfold full_tag. rewrite (contact_header_line c Hc), contact_key. cbn iota. destruct contact_known as [E1 E2]. rewrite E1, E2.
  destruct Hc as (_ & _ & Hl). rewrite Hl. by rewrite (bool_decide_eq_false_2 (is_Some None)) by (by intros [? ?]).
Qed.
Lemma redirect_lines contacts : contacts ≠ [] -> Forall contact_ok contacts ->
  splitLines (redirect_headers contacts) = (fun c => "Contact: " +:+ c) <$> contacts.
Proof.
  intros Hne Hc. unfold redirect_headers, splitLines. rewrite bool_decide_eq_false_2.
  2: { destruct contacts as [|c cs]; [done|]. cbn [fmap list_fmap]. destruct cs; cbn [list_fmap join]; by rewrite ?str_app_assoc. }
  apply split_compress_char; [done|by destruct contacts|]. apply Forall_fmap. eapply Forall_impl; [exact Hc|].
  intros c (Hs & _). cbn. split; [done|]. unfold no_sep in *. rewrite str_forall_app, Hs. by vm_compute.
Qed.
Lemma contact_tags host port contacts : Forall contact_ok contacts ->
  mapM (full_tag preservedHeaders host port) ((fun c => "Contact: " +:+ c) <$> contacts) = Ok ((fun c => Some (siptag_contact_str, c)) <$> contacts).
Proof. induction 1 as [|c cs Hc _ IH]; [done|]. cbn [fmap list_fmap mapM]. rewrite contact_tag by done. cbn. cbn in IH. by rewrite IH. Qed.

(** When the routing service answers with a redirect, the response that
    the server sends is a 302 with one Contact header for each contact of the
    reply, with that contact and in that order; this holds for contacts that
    can stand in a header line and do not name the local host. *)
Theorem redirect_contacts_sent transactionId response_code body j contacts s :
  json_loads body = Some j -> instructs j (redirect contacts) -> contacts ≠ [] -> Forall contact_ok contacts ->
  exists headers,
    httpCallRoutingComplete transactionId response_code body s =
      (_ ← dep (dep_respondToSipRequest "" transactionId "SIP/2.0 302 Moved" headers ""); mret tt) s /\
    forall transport externalIp,
      tags_of headers transport externalIp = Ok ((fun c => (siptag_contact_str, c_str c)) <$> contacts).
Proof.
  intros Hj Hi Hne Hc. exists (redirect_headers contacts). split.
  - rewrite (obeyed _ _ _ j _ s Hj Hi). cbn [carry_out].
    unfold processRedirectInstruction. unfold mbind, M_bind. destruct (dep _ s) as [[b s']|]; done.
  - intros transport ip. unfold tags_of, makeTags. destruct (transport_hostport transport) as [host port].
    rewrite (redirect_lines _ Hne Hc), (contact_tags _ _ _ Hc).
    destruct (make_tag_array_spec ((fun c => Some (siptag_contact_str, c)) <$> contacts) ∅) as (p & m & E & Et & _).
    { apply Forall_fmap, Forall_forall. intros c _. cbn. split; [apply (bool_decide_unpack _); by vm_compute..]. }
    rewrite E, Et. f_equal. unfold tag_entries. clear. induction contacts as [|c cs IH]; [done|]. cbn. by rewrite IH.
Qed.
End replies.

(** ** A route straight to an application *)

(** Text that JSON shows as it is. *)
Definition plain_text (s : string) : Prop :=
  str_forall (fun c => (32 <=? code c)%N && (code c <? 127)%N && negb (Ascii.eqb c (ascii_of_N 34)) && negb (Ascii.eqb c "\")) s = true.
Definition route_object (uri : string) : json :=
  JObject [("action", JString "route"); ("data", JObject [("uri", JString uri)])].
(** What jansson makes of the reply that [startRequest] makes up. *)
Class JanssonLaws `{Jansson} := {
  json_loads_route uri : plain_text uri ->
    let quote := String (ascii_of_N 34) "" in
    json_loads ("{" +:+ quote +:+ "action" +:+ quote +:+ ": " +:+ quote +:+ "route" +:+ quote +:+ ", " +:+ quote +:+ "data" +:+ quote +:+ ": {" +:+
      quote +:+ "uri" +:+ quote +:+ ": " +:+ quote +:+ uri +:+ quote +:+ "}}") = Some (route_object uri)
}.

Definition transport_suffix (tls : bool) : string := if tls then ";transport=tls" else ";transport=tcp".
Lemma suffix_match R t tls caps (k : string -> captures -> option R) r :
  k "" (<[3 := transport_suffix tls]> (<[4 := if tls then "tls" else "tcp"]> caps)) = Some r ->
  rmatch t (ROpt (RGroup 3 (RSeq (RLit ";transport=") (RGroup 4 (RAlt (RLit "tcp") (RLit "tls")))))) (transport_suffix tls) caps k = Some r.
Proof. intros E. destruct tls; cbn in E |- *; by rewrite E. Qed.
Lemma outbound_uri host port tls :
  str_forall is_dot host = true -> port ≠ "" -> str_forall is_digit port = true ->
  exists mr, regex_search (host +:+ ":" +:+ port +:+ transport_suffix tls) outbound_regex = Some mr /\
    group 1 mr = host /\ group 2 mr = port /\ group 4 mr = if tls then "tls" else "tcp".
Proof.
  intros Hh Hp Hd. set (tail := ":" +:+ port +:+ transport_suffix tls).
  set (caps := <[3 := transport_suffix tls]> (<[4 := if tls then "tls" else "tcp"]> (<[2 := port]> (<[1 := host]> (∅ : captures))))).
  exists caps. split; [|split_and!; by destruct tls].
  unfold outbound_regex. rewrite search_anchored. rewrite rmatch_seq, rmatch_group.
  assert (str_forall is_digit port = true -> str_forall is_dot port = true) as Hdot.
  { apply forall_weaken. intros c Hc. unfold is_dot. destruct (Ascii.eqb_spec c LF) as [->|]; [by vm_compute in Hc|].
    destruct (Ascii.eqb_spec c CR) as [->|]; [by vm_compute in Hc|done]. }
  assert (str_mem ":" (port +:+ transport_suffix tls) = false) as Hcolon.
  { rewrite str_mem_app. apply orb_false_iff. split; [|by destruct tls]. apply (none_of_mem ":" ":"); [done|]. revert Hd. apply forall_weaken.
    intros c Hc. unfold none_of, str_mem. cbn [str_forall]. rewrite andb_true_r, negb_involutive. apply negb_true_iff.
    destruct (Ascii.eqb_spec ":" c) as [<-|]; [by vm_compute in Hc|]. by destruct (Ascii.eqb_spec c ":"). }
  replace (host +:+ tail) with (host +:+ tail +:+ "") at 2 by (by rewrite str_app_nil_r).
  apply star_class.
  - unfold tail. rewrite !str_forall_app, Hh, Hdot by done. by destruct tls.
  - done.
  - intros [|d z1] z2 Hz ?; [done|]. rewrite rmatch_seq. apply rmatch_chr_stops. rewrite str_app_nil_r.
    unfold tail in Hz. change (":" +:+ ?x) with (String ":" x) in Hz. rewrite str_app_cons in Hz. injection Hz as _ Hz.
    rewrite Hz, str_mem_app in Hcolon. apply orb_false_iff in Hcolon as [_ Hc]. destruct z2 as [|e z2]; [done|].
    unfold str_mem in Hc. cbn [str_forall] in Hc. cbn [stops]. by destruct (Ascii.eqb ":" e).
  - rewrite str_app_nil_r, take_diff. unfold tail. rewrite rmatch_seq, rmatch_chr_app, rmatch_seq.
    apply group_plus_all; [done|done|by destruct tls|]. by apply suffix_match.
Qed.

Section direct.
Context `{JanssonLaws} {W : Type} `{!ControllerDeps W} `{!OutboundConnections W}.

Definition scheme (tls : bool) : string := if tls then "tls://" else "tcp://".
Lemma scheme_test tls x : bool_decide (str_find "tcp://" (scheme tls +:+ x) = Some 0) = negb tls.
Proof.
  destruct tls; [|apply bool_decide_eq_true; by destruct x]. apply bool_decide_eq_false. change (scheme true +:+ x) with (String "t" ("ls://" +:+ x)).
  change (str_find "tcp://" (String "t" ("ls://" +:+ x))) with (S <$> str_find "tcp://" ("ls://" +:+ x)).
  by destruct (str_find "tcp://" ("ls://" +:+ x)).
Qed.
Lemma scheme_application tls x : is_application_url (scheme tls +:+ x) = true.
Proof. unfold is_application_url. rewrite scheme_test. destruct tls; [|done]. apply bool_decide_eq_true. by destruct x. Qed.

(** A route tcp://host:port or tls://host:port makes the server connect to
    that host and port, with TLS exactly when the route says so, and without
    any web request; when the connection cannot be tried, the request is
    refused with 500. *)
Theorem direct_route_connects transactionId httpMethod body verifyPeer host port (tls : bool) s :
  str_forall is_dot host = true -> plain_text host -> port ≠ "" -> str_forall is_digit port = true ->
  startRequest (RouteRequest transactionId httpMethod (scheme tls +:+ host +:+ ":" +:+ port) body verifyPeer) s =
    controllers (ok ← dep (dep_async_connect tls transactionId host port);
                 if (ok : bool) then mret tt else processRejectInstruction transactionId 500 None) s.
Proof.
  intros Hd Ht Hp Hn. unfold startRequest. cbn [rq_url rq_transactionId].
  rewrite scheme_application. set (url := scheme tls +:+ host +:+ ":" +:+ port).
  assert (direct_reply url = let quote := String (ascii_of_N 34) "" in
    "{" +:+ quote +:+ "action" +:+ quote +:+ ": " +:+ quote +:+ "route" +:+ quote +:+ ", " +:+ quote +:+ "data" +:+ quote +:+ ": {" +:+
      quote +:+ "uri" +:+ quote +:+ ": " +:+ quote +:+ (host +:+ ":" +:+ port +:+ transport_suffix tls) +:+ quote +:+ "}}") as ->.
  { unfold direct_reply. assert (str_drop 6 url = host +:+ ":" +:+ port) as -> by by destruct tls.
    unfold url. rewrite scheme_test, !str_app_assoc. by destruct tls. }
  set (uri := host +:+ ":" +:+ port +:+ transport_suffix tls).
  destruct (outbound_uri host port tls Hd Hp Hn) as (mr & Emr & E1 & E2 & E4).
  assert (plain_text uri) as Huri.
  { unfold plain_text, uri in *. rewrite !str_forall_app, Ht. apply andb_true_iff. split; [done|]. apply andb_true_iff. split; [done|].
    apply andb_true_iff. split; [|by destruct tls]. revert Hn. apply forall_weaken. intros c. unfold is_digit.
    destruct (Ascii.eqb_spec c (ascii_of_N 34)) as [->|]; [done|]. destruct (Ascii.eqb_spec c "\") as [->|]; [done|].
    rewrite !andb_true_r. intros [Hlo%N.leb_le Hhi%N.leb_le]%andb_prop. apply andb_true_iff. split; [apply N.leb_le; lia|apply N.ltb_lt; lia]. }
  unfold controllers, zoom. cbv zeta. unfold httpCallRoutingComplete. rewrite json_loads_route by done.
  assert (instruction_of (Some (route_object uri)) = inr (connect_uri uri)) as -> by done.
  cbn [carry_out]. unfold connect_to, makeOutboundConnection. unfold uri. rewrite Emr, E1, E2, E4. by destruct tls.
Qed.
End direct.

(** ** The handles of the web requests *)

(** Each handle is in the cache once or belongs to one transfer, which is the
    one that its options point to; a reply fits its buffer. *)
Record rh_inv (r : RequestHandler) : Prop := RhInv {
  ri_cache : NoDup (rh_cache r);
  ri_live e : e ∈ rh_cache r -> is_Some (rh_handles r !! e);
  ri_used e h : rh_handles r !! e = Some h -> e ∉ rh_cache r ->
    exists c conn, eh_private h = Some c /\ rh_conns r !! c = Some conn /\ ci_easy conn = e;
  ri_conn c conn : rh_conns r !! c = Some conn ->
    exists h, rh_handles r !! ci_easy conn = Some h /\ eh_private h = Some c /\ (ci_easy conn ∉ rh_cache r);
  ri_reply c conn : rh_conns r !! c = Some conn -> String.length (ci_response conn) <= HTTP_BODY_LEN
}.

(** A new handle at the end of the cache. *)
Definition with_new_handle (r : RequestHandler) : RequestHandler :=
  let e := fresh_addr (rh_handles r) in on_cache (fun l => l ++ [e]) (on_handles (insert e new_handle) r).
Lemma new_handle_run r : (e ← createEasyHandle; modify (on_cache (fun l => l ++ [e]))) r = Ok (tt, with_new_handle r).
Proof. done. Qed.
Lemma with_new_handle_inv r : rh_inv r -> rh_inv (with_new_handle r).
Proof.
  intros [H1 H2 H3 H4 H5]. set (e := fresh_addr (rh_handles r)).
  assert (rh_handles r !! e = None) as Hf by apply fresh_addr_lookup.
  assert (e ∉ rh_cache r) as Hn by (intros [h Hh]%H2; congruence).
  split; cbn [with_new_handle rh_cache rh_handles rh_conns on_cache on_handles]; fold e.
  - apply NoDup_app. split; [done|]. split; [|apply NoDup_singleton]. by intros x Hx ->%list_elem_of_singleton.
  - intros x [Hx| ->%list_elem_of_singleton]%elem_of_app; [|rewrite lookup_insert_eq; by eexists].
    rewrite lookup_insert_ne by (by intros <-). by apply H2.
  - intros x h Hx Hc. apply lookup_insert_Some in Hx as [[<- _]|[Hne Hx]]; [destruct Hc; apply elem_of_app; right; by left|].
    apply H3; [done|]. intros ?. apply Hc, elem_of_app. by left.
  - intros c conn Hc. destruct (H4 c conn Hc) as (h & Hh & Hp & Hx). exists h.
    assert (e ≠ ci_easy conn) as Hne by congruence. split; [by rewrite lookup_insert_ne|]. split; [done|].
    rewrite elem_of_app, list_elem_of_singleton. intros [?|?]; [done|congruence].
  - exact H5.
Qed.
Lemma fill_cache_inv n r : rh_inv r -> exists r', fill_cache n r = Ok (tt, r') /\ rh_inv r'.
Proof.
  revert r. induction n as [|n IH]; intros r Hr; [by exists r|]. apply (IH (with_new_handle r)). by apply with_new_handle_inv.
Qed.
Lemma getInstance_inv : exists r, getInstance = Ok r /\ rh_inv r.
Proof.
  unfold getInstance. destruct (fill_cache_inv easyHandleCacheSize (MkRequestHandler ∅ [] ∅ [] [])) as (r & -> & Hr); [|by exists r].
  split; cbn; [constructor|by intros e ?%elem_of_nil|by intros ? ?|by intros ? ?|by intros ? ?].
Qed.

(** The handle at the front of the cache starts a transfer. *)
Lemma take_handle_run r : rh_inv r -> exists e rest h r1, take_handle r = Ok (e, on_cache (fun _ => rest) r1) /\ rh_inv r1 /\
  rh_cache r1 = e :: rest /\ rh_handles r1 !! e = Some h /\ rh_conns r1 = rh_conns r.
Proof.
  intros Hr. unfold take_handle. mstep. destruct (rh_cache r) as [|e rest] eqn:Ec.
  - rewrite (M_bind_ok _ _ _ _ _ (new_handle_run r)). mstep. pose proof (with_new_handle_inv r Hr) as Hr'.
    set (e := fresh_addr (rh_handles r)). exists e, [], new_handle, (with_new_handle r).
    assert (rh_cache (with_new_handle r) = [e]) as Ec' by (cbn; by rewrite Ec).
    rewrite Ec'. mstep. split; [|split; [done|split; [done|split; [apply lookup_insert_eq|done]]]].
    mstep. unfold on_cache at 1. rewrite Ec'. done.
  - mstep. mstep. rewrite Ec. mstep. destruct (ri_live r Hr e) as [h Hh]; [rewrite Ec; by left|].
    exists e, rest, h, r. split; [|done]. mstep. unfold on_cache. by rewrite Ec.
Qed.
Lemma started_inv r1 r' e rest c conn h' : rh_inv r1 -> rh_cache r1 = e :: rest -> rh_conns r1 !! c = None ->
  eh_private h' = Some c -> ci_easy conn = e -> ci_response conn = "" -> rh_cache r' = rest ->
  rh_handles r' = <[e := h']> (rh_handles r1) -> rh_conns r' = <[c := conn]> (rh_conns r1) -> rh_inv r'.
Proof.
  intros [H1 H2 H3 H4 H5] Ec Hc Hp He Hrs C1 C2 C3. rewrite Ec in *. apply NoDup_cons in H1 as [Hn H1].
  split; rewrite ?C1, ?C2, ?C3.
  - done.
  - intros x Hx. destruct (decide (x = e)) as [->|Hne]; [done|]. rewrite lookup_insert_ne by done. apply H2. by right.
  - intros x h Hx Hr. apply lookup_insert_Some in Hx as [[<- <-]|[Hne Hx]].
    + exists c, conn. by rewrite lookup_insert_eq.
    + destruct (H3 x h Hx) as (c' & conn' & Hp' & Hc' & He'); [intros [?|?]%elem_of_cons; done|].
      exists c', conn'. split; [done|]. split; [|done]. rewrite lookup_insert_ne; [done|]. intros <-. congruence.
  - intros c' conn' Hc'. apply lookup_insert_Some in Hc' as [[<- <-]|[Hne Hc']].
    + exists h'. rewrite He, lookup_insert_eq. done.
    + destruct (H4 c' conn' Hc') as (h & Hh & Hp' & Hx). exists h. apply not_elem_of_cons in Hx as [Hx1 Hx2].
      split; [by rewrite lookup_insert_ne|]. done.
  - intros c' conn' Hc'. apply lookup_insert_Some in Hc' as [[<- <-]|[Hne Hc']]; [rewrite Hrs; cbn; lia|by eapply H5].
Qed.
Lemma setopt_run e f h r : rh_handles r !! e = Some h -> curl_easy_setopt e f r = Ok (tt, on_handles (insert e (f h)) r).
Proof. intros Hh. unfold curl_easy_setopt. mstep. by rewrite Hh. Qed.
Lemma setopt_if (b : bool) e f h r : rh_handles r !! e = Some h ->
  exists h', (if b then curl_easy_setopt e f else mret tt) r = Ok (tt, on_handles (insert e h') r) /\ (h' = f h \/ h' = h).
Proof.
  intros Hh. destruct b; [exists (f h); split; [by apply setopt_run|by left]|]. exists h. split; [|by right].
  unfold on_handles. rewrite insert_id by done. by destruct r.
Qed.
Lemma new_conn_run q e r c url conn r' : new_conn q e r = Ok (c, url, conn, r') ->
  r' = on_rh_conns (insert c conn) r /\ c = fresh_addr (rh_conns r) /\ ci_easy conn = e /\ ci_response conn = "".
Proof.
  unfold new_conn. intros (w & r1 & [= <- <-] & E)%M_bind_inv. unfold of_res in E.
  apply M_bind_inv in E as (u & r1 & E1 & E). destruct (strncpy_read _ _); [|done]. injection E1 as <- <-.
  apply M_bind_inv in E as (b & r1 & E1 & E). destruct (strncpy_read _ _); [|done]. injection E1 as <- <-.
  apply M_bind_inv in E as (t & r1 & E1 & E). destruct (strncpy_read _ _); [|done]. injection E1 as <- <-.
  apply M_bind_inv in E as (x & r1 & [= <- <-] & E). by injection E as <- <- <- <-.
Qed.
Lemma start_transfer_inv q r r' : rh_inv r -> start_transfer q r = Ok (tt, r') -> rh_inv r'.
Proof.
  intros Hr E. destruct (take_handle_run r Hr) as (e & rest & h & r1 & E1 & Hr1 & Hc1 & Hh1 & Hn1).
  unfold start_transfer in E. rewrite (M_bind_ok _ _ _ _ _ E1) in E. apply M_bind_inv in E as ([[c url] conn] & r2 & E2 & E).
  apply new_conn_run in E2 as (-> & -> & He & Hrs). cbn [rh_conns on_cache] in E. set (c := fresh_addr (rh_conns r1)) in *.
  erewrite M_bind_ok in E by (apply setopt_run; exact Hh1). cbn beta in E.
  erewrite M_bind_ok in E by (apply setopt_run; apply lookup_insert_eq). cbn beta in E.
  apply M_bind_inv in E as (x3 & r3 & E3 & E).
  match type of E3 with _ ?r = _ => destruct (setopt_if (bool_decide (str_find "https:" (rq_url q) = Some 0)) e (set_verifypeer (rq_verifyPeer q)) (set_private (Some c) (set_url url h)) r) as (h3 & E3' & Hh3); [apply lookup_insert_eq|] end.
  rewrite E3' in E3. injection E3 as <- <-. clear E3'.
  apply M_bind_inv in E as (x4 & r4 & E4 & E).
  match type of E4 with _ ?r = _ => destruct (setopt_if (rq_httpMethod q =? "POST")%string e (set_postfields (Some (c, String.length (ci_body conn)))) h3 r) as (h4 & E4' & Hh4); [apply lookup_insert_eq|] end.
  rewrite E4' in E4. injection E4 as <- <-. clear E4'.
  apply M_bind_inv in E as (r4 & ? & [= <- <-] & E). apply M_bind_inv in E as (h5 & r5 & E5 & [= <-]).
  unfold deref in E5. case_match; [|done]. injection E5 as _ <-.
  eapply (started_inv r1 _ e rest c conn h4); try done.
  - apply fresh_addr_lookup.
  - by destruct Hh4 as [-> | ->], Hh3 as [-> | ->].
  - cbn. by rewrite !insert_insert_eq.
Qed.

Section steps.
Context `{Jansson} {W : Type} `{!ControllerDeps W} `{!OutboundConnections W}.
Abbreviation state := (RequestHandler * (ClientController * W))%type.

(** What happens on the thread of the handler, and around it: a request is
    started, a part of a reply comes in, the transfer of a handle that is not
    in the cache is done, a request is posted, the controllers go on. *)
Inductive rh_step : state -> state -> Prop :=
  | step_start q s s' : startRequest q s = Ok (tt, s') -> rh_step s s'
  | step_reply ptr c n s s' : handler_of (write_cb ptr c) s = Ok (n, s') -> rh_step s s'
  | step_done e code s s' :
      is_Some (rh_handles s.1 !! e) -> (e ∉ rh_cache s.1) -> transfer_done e code s = Ok (tt, s') -> rh_step s s'
  | step_post q s s' : handler_of (makeRequestForRoute q) s = Ok (tt, s') -> rh_step s s'
  | step_controllers r w w' : rh_step (r, w) (r, w').
Inductive rh_reach : state -> Prop :=
  | reach_start r w : getInstance = Ok r -> rh_reach (r, w)
  | reach_step s s' : rh_reach s -> rh_step s s' -> rh_reach s'.

Lemma controllers_frame {A} (m : M (ClientController * W) A) s a s' : controllers m s = Ok (a, s') -> s'.1 = s.1.
Proof. unfold controllers, zoom. destruct (m s.2) as [[b t]|]; [|done]. by intros [= _ <-]. Qed.
Lemma handler_run {A} (m : RH A) (s : state) a s' : handler_of m s = Ok (a, s') -> m s.1 = Ok (a, s'.1).
Proof. unfold handler_of, zoom. destruct (m s.1) as [[b t]|]; [|done]. by intros [= <- <-]. Qed.

Lemma write_cb_inv ptr c r n r' : rh_inv r -> write_cb ptr c r = Ok (n, r') -> rh_inv r'.
Proof.
  intros Hr. unfold write_cb. intros (w & r1 & [= <- <-] & E)%M_bind_inv. apply M_bind_inv in E as (conn & r1 & E1 & E).
  unfold deref in E1. destruct (rh_conns r !! c) as [conn'|] eqn:Ec; [|done]. injection E1 as -> <-.
  destruct (Nat.ltb_spec HTTP_BODY_LEN (String.length (ci_response conn) + String.length ptr)) as [Hl|Hl]; [by injection E as _ <-|].
  apply M_bind_inv in E as (x & r1 & E2 & E). injection E2 as _ <-. injection E as _ <-. destruct Hr as [A1 A2 A3 A4 A5].
  split; cbn [on_rh_conns rh_cache rh_handles rh_conns].
  - exact A1.
  - exact A2.
  - intros e h Hh Hn. destruct (A3 e h Hh Hn) as (c' & conn' & Hp & Hc' & He). destruct (decide (c' = c)) as [->|Hne].
    + exists c. eexists. split; [done|]. split; [apply lookup_insert_eq|]. rewrite Ec in Hc'. by injection Hc' as ->.
    + exists c', conn'. by rewrite lookup_insert_ne.
  - intros c' conn' Hc'. apply lookup_insert_Some in Hc' as [[<- <-]|[Hne Hc']]; [apply (A4 c conn Ec)|by apply A4].
  - intros c' conn' Hc'. apply lookup_insert_Some in Hc' as [[<- <-]|[Hne Hc']]; [|by eapply A5].
    cbn. rewrite str_length_app. pose proof (c_str_length ptr). lia.
Qed.
(** A handle in use knows its transfer, which ends with its reply. *)
Definition give_back (e c : positive) (r : RequestHandler) : RequestHandler :=
  on_rh_conns (delete c) (on_cache (fun l => l ++ [e]) r).
Lemma transfer_done_run e code s : rh_inv s.1 -> is_Some (rh_handles s.1 !! e) -> (e ∉ rh_cache s.1) ->
  exists c conn, rh_conns s.1 !! c = Some conn /\ ci_easy conn = e /\
    transfer_done e code s =
      (_ ← controllers (httpCallRoutingComplete (ci_transactionId conn) code (ci_response conn)); handler_of (modify (give_back e c))) s.
Proof.
  intros Hr [h Hh] Hn. destruct (ri_used _ Hr e h Hh Hn) as (c & conn & Hp & Hc & He). exists c, conn. split; [done|]. split; [done|].
  unfold transfer_done. mstep. rewrite Hh. mstep. rewrite Hp. mstep. rewrite Hc. mstep.
  unfold mbind, M_bind. by destruct (controllers _ s) as [[[] s1]|].
Qed.
Lemma give_back_inv e c conn r : rh_inv r -> rh_conns r !! c = Some conn -> ci_easy conn = e -> rh_inv (give_back e c r).
Proof.
  intros [A1 A2 A3 A4 A5] Hc He. destruct (A4 c conn Hc) as (h & Hh & Hp & Hn). rewrite He in *.
  split; cbn [give_back on_rh_conns on_cache rh_cache rh_handles rh_conns].
  - apply NoDup_app. split; [done|]. split; [|apply NoDup_singleton]. by intros x Hx ->%list_elem_of_singleton.
  - intros x [Hx| ->%list_elem_of_singleton]%elem_of_app; [by apply A2|by exists h].
  - intros x hx Hx Hxn. rewrite elem_of_app, list_elem_of_singleton in Hxn.
    destruct (A3 x hx Hx) as (c' & conn' & Hp' & Hc' & He'); [tauto|]. exists c', conn'. split; [done|]. split; [|done].
    rewrite lookup_delete_ne; [done|]. intros ->. assert (conn' = conn) as -> by congruence. apply Hxn. right. congruence.
  - intros c' conn' Hc'. apply lookup_delete_Some in Hc' as [Hne Hc']. destruct (A4 c' conn' Hc') as (h' & Hh' & Hp' & Hn').
    exists h'. split; [done|]. split; [done|]. rewrite elem_of_app, list_elem_of_singleton. intros [?|Heq]; [done|]. rewrite Heq in Hh'. congruence.
  - intros c' conn' Hc'. apply lookup_delete_Some in Hc' as [_ Hc']. by eapply A5.
Qed.
Lemma rh_step_inv s s' : rh_inv s.1 -> rh_step s s' -> rh_inv s'.1.
Proof.
  intros Hr Hs. inversion Hs as [q ? ? E|ptr c n ? ? E|e code ? ? Hl Hn E|q ? ? E|r w w']; subst.
  - unfold startRequest in E. destruct (is_application_url _); [by rewrite (controllers_frame _ _ _ _ E)|].
    apply handler_run in E. by eapply start_transfer_inv.
  - apply handler_run in E. by eapply write_cb_inv.
  - destruct (transfer_done_run e code s Hr Hl Hn) as (c & conn & Hc & He & E'). rewrite E' in E.
    apply M_bind_inv in E as (x & s1 & E1 & E2). apply controllers_frame in E1. apply handler_run in E2. injection E2 as <-.
    rewrite E1. by eapply give_back_inv.
  - apply handler_run in E. injection E as <-. by destruct Hr as [A1 A2 A3 A4 A5].
  - exact Hr.
Qed.

(** No easy handle is ever used by two web requests at once.  Whatever is
    started, received and completed, each handle is once in the cache or
    belongs to exactly one transfer, the one that its options point to, and a
    transfer's reply never exceeds 16384 bytes, so that it fits its buffer with
    the final null; when the transfer of a handle in use is done, that
    transfer's reply goes to the controller, and the handle goes back. *)
Theorem handles_never_shared s : rh_reach s -> rh_inv s.1 /\
  forall e code, is_Some (rh_handles s.1 !! e) -> (e ∉ rh_cache s.1) ->
    exists c conn, rh_conns s.1 !! c = Some conn /\ ci_easy conn = e /\
      transfer_done e code s =
        (_ ← controllers (httpCallRoutingComplete (ci_transactionId conn) code (ci_response conn)); handler_of (modify (give_back e c))) s.
Proof.
  intros Hs. assert (rh_inv s.1) as Hr; [|split; [done|by intros; apply transfer_done_run]].
  induction Hs as [r w E|s s' _ IH Hs]; [|by eapply rh_step_inv].
  destruct getInstance_inv as (r' & E' & Hr). rewrite E' in E. by injection E as <-.
Qed.
End steps.
