(* ===== verification/DialogSendOutCorrect.v ===== *)
(** What sending outside a dialog does: a refused request leaves nothing
    behind, a sent one is ended by its final response, and an INVITE becomes
    an invite in progress that a later CANCEL finds. *)
From S2P Require Import Prelude CppString SipUri TextUtil SipTags ClientController ClientControllerCorrect TimerQueue Cdr PendingRequests SipDialog SipDialogCorrect SipTransports Connections DialogWorld InviteInProgress InviteInProgressCorrect TimerD TimerDCorrect DialogController DialogResponses DialogRequests DialogSend DialogRespond DialogSendOut DialogTimers DialogEnds DialogHandlersCorrect DialogSendCorrect.

Open Scope list_scope.

Section timed.
Context `{sutime : SuTime}.

Section outside.
Context `{SofiaTport} `{NtaAgent} `{!NtaMessages} `{MainSending} `{!NtaOutside} `{Boost} `{SofiaUrl} `{Inet} `{TportTree} `{StdSort} `{DialogConfig}.
Context (transports : SipTransports) (localUris : localUris).

(** ** Running the steps *)

Lemma pure_inv {A} (r : res A) a w w' : pure r w = Ok (a, w') -> r = Ok a /\ w' = w.
Proof. unfold pure. destruct r as [x|]; [|done]. by intros [= -> ->]. Qed.
Lemma find_tport_run user host w :
  findTportForSubscription user host w = Ok (ua_tport <$> m_mapUri2InvalidData (dc_conns w) !! uri_of user host, w).
Proof. unfold findTportForSubscription, on_conns. cbn. by destruct w. Qed.
Lemma registered_same rl w o w' : registered_tport rl w = Ok (o, w') -> w' = w.
Proof.
  unfold registered_tport. destruct (finds_registration _); [|by intros [= _ ->]]. intros (h & w1 & E1 & E2)%M_bind_inv.
  unfold deref in E1. destruct (rl_host rl); [|done]. injection E1 as <- <-. rewrite find_tport_run in E2. by injection E2.
Qed.
Lemma select_same rl proxy uri w o w' : select_for transports rl proxy uri w = Ok (o, w') -> w' = w.
Proof.
  intros (reg & w1 & E1%registered_same & E2)%M_bind_inv. subst w1. destruct reg; [by injection E2|].
  apply M_bind_inv in E2 as (t & w2 & [_ ->]%pure_inv & E3). by injection E3.
Qed.

(** A new leg and its end. *)
Definition with_leg (leg : positive) (w : SipDialogController) : SipDialogController :=
  on_dc_stack (on_legs (fun s => {[leg]} ∪ s)) w.
Lemma acquire_leg_run w : on_stack (acquire st_legs on_legs) w = Ok (fresh (st_legs (dc_stack w)), with_leg (fresh (st_legs (dc_stack w))) w).
Proof. done. Qed.
Lemma leg_destroy_run leg w :
  leg ∈ st_legs (dc_stack w) -> leg_destroy leg w = Ok (tt, on_dc_stack (on_legs (fun s => s ∖ {[leg]})) w).
Proof.
  intros Hl. unfold leg_destroy. rewrite (on_stack_ok _ tt (on_legs (fun s => s ∖ {[leg]}) (dc_stack w))); [done|].
  by apply release_live_ok.
Qed.
Lemma legs_back (L : gset positive) : ({[fresh L]} ∪ L) ∖ {[fresh L]} = L.
Proof. pose proof (is_fresh L). set_solver. Qed.

(** ** A refused request *)

(** Everything but the inputs from the environment and the controller of the
    clients. *)
Definition resources (w : SipDialogController) :=
  (core w, dc_dialogs w, dc_stack w, dc_sent w, dc_events w, dc_conns w).
Lemma outgoing_create_none leg m route uri tp headers w :
  leg ∈ st_legs (dc_stack w) -> default None (head (in_creates (dc_inputs w))) = None ->
  outgoing_create leg m route uri tp headers w =
    Ok (None, on_dc_inputs (fun i => Inputs (in_uuids i) (in_rands i) (tail (in_creates i)) (in_replies i)) w).
Proof.
  intros Hl Hc. unfold outgoing_create. mstep. rewrite bool_decide_eq_true_2 by done. unfold next_create. mstep.
  rewrite Hc. done.
Qed.
Lemma send_on_leg_refused pData m proxy uri from to callid ct tags sel msg w w' :
  send_on_leg pData m proxy uri from to callid ct tags sel w = Ok (inl msg, w') -> resources w' = resources w /\ dc_clients w' = dc_clients w.
Proof.
  unfold send_on_leg. mstep. destruct (nta_leg_tcreate_ok w from to callid); cbn [negb]; [|by intros [= _ ->]].
  rewrite (M_bind_ok _ _ _ _ _ (acquire_leg_run w)). set (leg := fresh (st_legs (dc_stack w))).
  destruct (default None (head (in_creates (dc_inputs (with_leg leg w))))) as [cr|] eqn:Ec.
  - rewrite (M_bind_ok _ _ _ _ _ (outgoing_create_run leg m _ uri _ _ cr (with_leg leg w) ltac:(cbn; set_solver) Ec)).
    intros (c & w1 & _ & E)%M_bind_inv. apply M_bind_inv in E as (u & w2 & _ & E). by apply M_bind_inv in E as (u' & w3 & _ & E).
  - rewrite (M_bind_ok _ _ _ _ _ (outgoing_create_none leg m _ uri _ _ (with_leg leg w) ltac:(cbn; set_solver) Ec)).
    erewrite M_bind_ok; [|apply leg_destroy_run; cbn; set_solver]. intros [= _ <-].
    assert (on_legs (fun s => s ∖ {[leg]}) (on_legs (fun s => {[leg]} ∪ s) (dc_stack w)) = dc_stack w) as Es.
    { unfold on_legs. cbn. unfold leg. rewrite legs_back. by destruct (dc_stack w). }
    split; [|done]. unfold resources, core. cbn -[on_legs]. by rewrite Es.
Qed.
Lemma send_outside_refused pData msg w w' :
  send_outside transports localUris pData w = Ok (inl msg, w') -> resources w' = resources w /\ dc_clients w' = dc_clients w.
Proof.
  unfold send_outside. destruct (valid_request _) as [rl|]; [|by intros [= _ ->]].
  destruct (parseStartLine _) as [[m name] uri]. intros (sel & w1 & E1%select_same & E)%M_bind_inv. subst w1.
  destruct sel as [sel|]; [|by injection E as _ ->].
  apply M_bind_inv in E as (tags & w1 & [_ ->]%pure_inv & E). apply M_bind_inv in E as (from & w1 & [_ ->]%pure_inv & E).
  destruct from as [?|from]; [by injection E as _ ->|]. destruct (content_type_of _ _) as [ct|]; [|by injection E as _ ->].
  apply M_bind_inv in E as (u & w1 & [_ ->]%pure_inv & E). destruct u as [?|u]; [by injection E as _ ->|].
  by apply send_on_leg_refused in E.
Qed.
Lemma removeApp_unlocked t : unlocked_ok (removeAppTransaction t).
Proof. unfold removeAppTransaction; lock_tac. Qed.

(** A request outside a dialog that is refused, for whatever reason (its
    start line, transport, From, content type, URI, that it would go to the
    server itself, or that the stack makes no leg or no transaction), leaves
    nothing behind: no leg, transaction, dialog, invite, request in progress,
    timer or reference, and nothing is sent. The client is told the reason and
    the transaction of the application is forgotten. *)
Theorem request_outside_dialog_refused pData msg w w1 :
  send_outside transports localUris pData w = Ok (inl msg, w1) -> m_lock (dc_clients w) = false ->
  exists w' routed cc, doSendRequestOutsideDialog transports localUris pData w = Ok (tt, w') /\ resources w' = resources w /\
    route_api_response (getClientMsgId pData) "NOK" msg (dc_clients w) = Ok (routed, cc) /\
    removeAppTransaction (getTransactionId pData) cc = Ok (tt, dc_clients w').
Proof.
  intros E Hlk. destruct (send_outside_refused pData msg w w1 E) as [Er Ec].
  destruct (api_run (getClientMsgId pData) "NOK" msg w1) as (routed & cc & Eapi & Ea & Hl); [by rewrite Ec|].
  destruct (removeApp_unlocked (getTransactionId pData) cc Hl) as ([] & cc' & Erm & _).
  exists (on_dc_clients (fun _ => cc') w1), routed, cc. split_and!; [|exact Er|by rewrite <- Ec|done].
  unfold doSendRequestOutsideDialog. rewrite (M_bind_ok _ _ _ _ _ E), (M_bind_ok _ _ _ _ _ Ea).
  by rewrite (clients_ok _ tt cc' (on_dc_clients (fun _ => cc) w1) Erm).
Qed.

(** ** A request that is sent *)

(** The checks before the leg. *)
Record sendable (pData : SipMessageData) (w : SipDialogController) (m : sip_method_t) (proxy : option string) (uri from to : string)
    (callid : option string) (ct : string) (tags : list (tag_type_t * string)) (sel : selection) : Prop := Sendable {
  sn_rl : exists rl name requestUri, valid_request (getStartLine pData) = Some rl /\ parseStartLine (getStartLine pData) = (m, name, requestUri) /\
    select_for transports rl proxy requestUri w = Ok (Some sel, w) /\ to = default requestUri (searchForHeader tags siptag_to_str) /\
    check_uri localUris requestUri = Ok (inr uri);
  sn_proxy : proxy = if nonempty (getRouteUrl pData) then Some (getRouteUrl pData) else configOutboundProxy;
  sn_tags : tags_of (getHeaders pData) (sel_desc sel) (sel_external sel) = Ok tags;
  sn_from : from_header tags sel = Ok (inr from);
  sn_ct : content_type_of (getBody pData) tags = Some ct;
  sn_callid : callid = searchForHeader tags siptag_call_id_str;
}.
Lemma sendable_run pData w m proxy uri from to callid ct tags sel :
  sendable pData w m proxy uri from to callid ct tags sel ->
  send_outside transports localUris pData w = send_on_leg pData m proxy uri from to callid ct tags sel w.
Proof.
  intros [(rl & name & ruri & Erl & Ep & Es & -> & Eu) -> Et Ef Ec ->]. unfold send_outside. rewrite Erl, Ep.
  rewrite (M_bind_ok _ _ _ _ _ Es), (M_bind_ok _ _ _ _ _ (pure_ok _ tags w Et)), (M_bind_ok _ _ _ _ _ (pure_ok _ _ w Ef)), Ec.
  by rewrite (M_bind_ok _ _ _ _ _ (pure_ok _ _ w Eu)).
Qed.
(** The state when the transaction has been made. *)
Definition on_new_leg (pData : SipMessageData) (m : sip_method_t) (proxy : option string) (uri ct : string)
    (tags : list (tag_type_t * string)) (sel : selection) (cr : created) (w : SipDialogController) : SipDialogController :=
  let leg := fresh (st_legs (dc_stack w)) in
  app_request_sent leg m (default ""%string proxy) uri (sel_tport sel) (outside_headers m (sel_contact sel) (getBody pData) ct tags) cr (with_leg leg w).
Definition new_orq (w : SipDialogController) : positive := fresh_addr (st_orqs (dc_stack w)).
Definition new_leg (w : SipDialogController) : positive := fresh (st_legs (dc_stack w)).
(** What happens to the transaction, before the answer to the client. *)
Definition keep_sent (pData : SipMessageData) (m : sip_method_t) (leg orq : positive) (c : created) (tags : list (tag_type_t * string))
    (sel : selection) : DC unit :=
  if starts_dialog m
  then new_uac_dialog pData m leg orq c (sel_desc sel) (default (sel_contact sel) (searchForHeader tags siptag_contact_str))
  else _ ← addRIP orq (MkRIP (getTransactionId pData) (getDialogId_of pData) None false); leg_destroy leg.
Lemma send_on_leg_run pData w m proxy uri from to callid ct tags sel cr w2 :
  nta_leg_tcreate_ok w from to callid = true -> default None (head (in_creates (dc_inputs w))) = Some cr ->
  keep_sent pData m (new_leg w) (new_orq w) cr tags sel (on_new_leg pData m proxy uri ct tags sel cr w) = Ok (tt, w2) ->
  m_lock (dc_clients w2) = false ->
  exists routed cc, send_on_leg pData m proxy uri from to callid ct tags sel w = Ok (inr tt, on_dc_clients (fun _ => cc) w2) /\ m_lock cc = false /\
    route_api_response (getClientMsgId pData) "OK" (msg_sent cr (getTransactionId pData)) (dc_clients w2) = Ok (routed, cc).
Proof.
  intros Hok Hc Ek Hlk. destruct (api_run (getClientMsgId pData) "OK" (msg_sent cr (getTransactionId pData)) w2 Hlk) as (routed & cc & Er & Ea & Hl).
  exists routed, cc. split_and!; [|done|done]. unfold send_on_leg. mstep. rewrite Hok. cbn [negb].
  rewrite (M_bind_ok _ _ _ _ _ (acquire_leg_run w)). fold (new_leg w).
  rewrite (M_bind_ok _ _ _ _ _ (outgoing_create_run (new_leg w) m _ uri _ _ cr (with_leg (new_leg w) w) ltac:(cbn; set_solver) Hc)).
  change (app_request_sent _ _ _ _ _ _ _ _) with (on_new_leg pData m proxy uri ct tags sel cr w). change (fresh_addr _) with (new_orq w).
  cbn beta iota. rewrite (M_bind_ok _ _ _ cr (on_new_leg pData m proxy uri ct tags sel cr w)); cycle 1.
  { unfold sent_of. rewrite (M_bind_ok _ _ _ _ _ (live_orq_ok (new_orq w) (on_new_leg pData m proxy uri ct tags sel cr w) ltac:(eexists; apply lookup_insert_eq))). mstep.
    unfold deref. unfold on_new_leg, app_request_sent. cbn -[lookup insert]. by rewrite lookup_insert_eq. }
  unfold keep_sent in Ek. by rewrite (M_bind_ok _ _ _ _ _ Ek), (M_bind_ok _ _ _ _ _ Ea).
Qed.

(** The end of a request in progress outside a dialog. *)
Lemma outside_response_known orq sip rip w :
  is_Some (st_orqs (dc_stack w) !! orq) -> m_lock (dc_clients w) = false ->
  is_method sip sip_method_invite || is_method sip sip_method_subscribe = false -> dc_rips w !! orq = Some rip ->
  exists w', processResponseOutsideDialog orq sip w = Ok (0%Z, w') /\
    (if (200 <=? rs_status sip)%Z
     then dc_rips w' = delete orq (dc_rips w) /\ st_orqs (dc_stack w') = delete orq (st_orqs (dc_stack w))
     else dc_rips w' = dc_rips w /\ st_orqs (dc_stack w') = st_orqs (dc_stack w)) /\
    exists routed, route_response_inside_transaction (rs_encoded sip) (rs_meta sip) (cs_name sip) (rs_status sip)
      (rip_transactionId rip) "" (dc_clients w) = Ok (routed, dc_clients w').
Proof.
  intros [otp Hq] Hlk Hno Er. unfold processResponseOutsideDialog.
  destruct (track_kept orq (Some sip) otp w Hq) as (w1 & E & Ek & _). destruct (kept_eqs w w1 Ek) as (K1 & K2 & K3 & K4 & K5 & K6 & K7).
  rewrite (M_bind_ok _ _ _ _ _ E), Hno. unfold findRIPByOrq. mstep. rewrite K1, Er.
  set (w2 := if (200 <=? rs_status sip)%Z then on_dc_rips (delete orq) (on_dc_stack (on_orqs (delete orq)) w1) else w1).
  erewrite (M_bind_ok _ _ w1 tt w2); cycle 1.
  { unfold w2. destruct (200 <=? rs_status sip)%Z; [|done]. apply clearRIP_live. rewrite K7. by eexists. }
  assert (dc_clients w2 = dc_clients w) as Ec by (unfold w2; destruct (200 <=? _)%Z; done).
  destruct (route_response_unlocked (rs_encoded sip) (rs_meta sip) (cs_name sip) (rs_status sip) (rip_transactionId rip) "" (dc_clients w2))
    as (routed & cc & Erc & _); [by rewrite Ec|].
  apply orb_false_iff in Hno as [Hinv _]. unfold route_response. rewrite Hinv. cbn [andb]. mstep.
  rewrite (M_bind_ok _ _ _ _ _ (clients_ok _ routed cc w2 Erc)). mstep. mstep.
  eexists. split; [done|]. split; [|exists routed; by rewrite <- Ec]. unfold w2. destruct (200 <=? rs_status sip)%Z; cbn; by rewrite K1, K7.
Qed.

(** C35: A request outside a dialog that starts none (OPTIONS, MESSAGE,
    REGISTER, ...) is sent once, on a leg of its own that is given back at
    once; the application is told, with its transaction id. Each provisional
    response is routed under that id; the first final one is routed, ends the
    request in progress and destroys its transaction. *)
Theorem request_outside_dialog_answered pData w m proxy uri from to callid ct tags sel cr :
  sendable pData w m proxy uri from to callid ct tags sel -> starts_dialog m = false ->
  nta_leg_tcreate_ok w from to callid = true -> default None (head (in_creates (dc_inputs w))) = Some cr ->
  m_lock (dc_clients w) = false -> dc_rips w !! new_orq w = None ->
  exists w', doSendRequestOutsideDialog transports localUris pData w = Ok (tt, w') /\
    dc_events w' = dc_events w ++ [SentWithHeaders (new_orq w) (new_leg w) m (default ""%string proxy) uri (sel_tport sel)
      (outside_headers m (sel_contact sel) (getBody pData) ct tags)] /\
    st_legs (dc_stack w') = st_legs (dc_stack w) /\ dc_dialogs w' = dc_dialogs w /\
    (exists routed, route_api_response (getClientMsgId pData) "OK" (msg_sent cr (getTransactionId pData)) (dc_clients w) =
       Ok (routed, dc_clients w')) /\
    forall sip, is_method sip sip_method_invite || is_method sip sip_method_subscribe = false ->
      exists w'', processResponseOutsideDialog (new_orq w) sip w' = Ok (0%Z, w'') /\
        (exists routed, route_response_inside_transaction (rs_encoded sip) (rs_meta sip) (cs_name sip) (rs_status sip)
           (getTransactionId pData) "" (dc_clients w') = Ok (routed, dc_clients w'')) /\
        if (200 <=? rs_status sip)%Z then dc_rips w'' = dc_rips w /\ st_orqs (dc_stack w'') = st_orqs (dc_stack w)
        else dc_rips w'' = dc_rips w' /\ st_orqs (dc_stack w'') = st_orqs (dc_stack w').
Proof.
  intros Hs Hm Hok Hc Hlk Hrip. set (w1 := on_new_leg pData m proxy uri ct tags sel cr w).
  set (rip := MkRIP (getTransactionId pData) (getDialogId_of pData) None false).
  set (w2 := on_dc_stack (on_legs (fun s => s ∖ {[new_leg w]})) (on_dc_rips (insert (new_orq w) rip) w1)).
  assert (keep_sent pData m (new_leg w) (new_orq w) cr tags sel w1 = Ok (tt, w2)) as Ek.
  { unfold keep_sent. rewrite Hm. unfold addRIP, modify. mstep. fold rip.
    assert (dc_rips w1 !! new_orq w = None) as Hr1 by exact Hrip.
    replace (on_dc_rips _ w1) with (on_dc_rips (insert (new_orq w) rip) w1) by (unfold on_dc_rips; by rewrite Hr1).
    by rewrite leg_destroy_run by (cbn; set_solver). }
  destruct (send_on_leg_run pData w m proxy uri from to callid ct tags sel cr w2 Hok Hc Ek Hlk) as (routed & cc & E & Hl & Er).
  exists (on_dc_clients (fun _ => cc) w2). split_and!.
  - unfold doSendRequestOutsideDialog. rewrite (M_bind_ok _ _ w (inr tt) (on_dc_clients (fun _ => cc) w2)); [done|].
    by rewrite (sendable_run _ _ _ _ _ _ _ _ _ _ _ Hs).
  - done.
  - apply legs_back.
  - done.
  - by exists routed.
  - intros sip Hsip.
    destruct (outside_response_known (new_orq w) sip rip (on_dc_clients (fun _ => cc) w2)) as (w'' & E2 & Hend & routed2 & Hr2);
      [eexists; apply lookup_insert_eq|done|done|apply lookup_insert_eq|].
    exists w''. split; [done|]. split; [by exists routed2|].
    destruct (200 <=? rs_status sip)%Z; [|exact Hend]. destruct Hend as [-> ->]. unfold w2, w1, on_new_leg, app_request_sent. cbn -[insert delete].
    split; (rewrite delete_insert_id; [done|]); [done|apply fresh_addr_lookup].
Qed.

(** ** An INVITE, and its CANCEL *)

Lemma SipDialog_uac_run i s otp ltag :
  st_orqs s !! oi_orq i = Some otp -> oi_ltag i = Some ltag -> oi_leg i ∈ st_legs s ->
  exists d s', SipDialog_uac i s = Ok (d, s') /\ dialog_ok d s' /\ m_leg d = Some (oi_leg i) /\ m_orq d = Some (oi_orq i) /\
    m_tp (d_net d) = otp /\ m_transactionId (d_ids d) = oi_transactionId i /\ m_strCallId (d_ids d) = sip_call_id (oi_sip i) /\
    st_orqs s' = st_orqs s /\ st_legs s' = st_legs s.
Proof.
  intros Hq Hl Hleg. unfold SipDialog_uac, nta_outgoing_transport. destruct otp as [tp|].
  - erewrite M_bind_ok; cycle 1.
    { mstep. rewrite Hq. cbn beta iota. reflexivity. }
    cbn beta iota. rewrite Hl. mstep. eexists _, _. split; [done|]. split_and!; try done. split; cbn; try done.
    + intros tp' [= <-]. unfold refs_of. cbn. rewrite lookup_insert_eq. cbn. lia.
    + by intros l [= <-].
    + intros q [= <-]. by eexists.
  - erewrite M_bind_ok; cycle 1.
    { mstep. rewrite Hq. cbn beta iota. reflexivity. }
    cbn beta iota. destruct (default _ _) as [proto [host port]]. rewrite Hl. mstep.
    eexists _, _. split; [done|]. split_and!; try done. split; cbn; try done.
    + by intros l [= <-].
    + intros q [= <-]. by eexists.
Qed.
(** The invite in progress that an INVITE becomes. *)
Definition outgoing_iip (leg orq : positive) (transactionId : string) (p : positive) : IIP :=
  MkIIP (Some leg) None (Some orq) transactionId [] p uac_role false None None.
Lemma insert_outgoing_run leg orq txn p w :
  no_txn txn w -> IIP_Insert_outgoing leg orq txn p w = Ok (tt, inserted (outgoing_iip leg orq txn p) w).
Proof. intros Hno. by apply insert_iip_run. Qed.
Lemma setCanceled_run p i w :
  dc_iips w !! p = Some i -> iip_timerCancel i = None ->
  exists w' i', IIP_setCanceled p w = Ok (tt, w') /\ dc_iips w' = <[p := i']> (dc_iips w) /\ iip_canceled i' = true /\ iip_orq i' = iip_orq i /\
    st_orqs (dc_stack w') = st_orqs (dc_stack w) /\ dc_clients w' = dc_clients w /\ dc_events w' = dc_events w /\ dc_inputs w' = dc_inputs w.
Proof.
  intros Hp Ht. unfold IIP_setCanceled. rewrite (M_bind_ok _ _ _ _ _ (iip_store_ok p _ i w Hp)). set (w1 := on_dc_iips _ w).
  assert (dc_iips w1 !! p = Some (set_iip_canceled true i)) as Hp1 by apply lookup_insert_eq.
  unfold startCancelTimer. rewrite (M_bind_ok _ _ _ _ _ (iip_load_ok p _ w1 Hp1)). cbn [iip_timerCancel set_iip_canceled]. rewrite Ht.
  mstep. mstep. erewrite iip_store_ok; [|exact Hp1]. eexists _, _. split; [done|]. split; [cbn; by rewrite insert_insert_eq|done].
Qed.
Lemma outgoing_cancel_run (pData : SipMessageData) ip i q c2 tags w :
  IIP_FindByTransactionId (getTransactionId pData) w = Ok (Some ip, w) -> dc_iips w !! ip = Some i -> iip_timerCancel i = None ->
  iip_orq i = Some q -> is_Some (st_orqs (dc_stack w) !! q) -> safe_tags_of (getHeaders pData) = Ok tags ->
  default None (head (in_creates (dc_inputs w))) = Some c2 -> m_lock (dc_clients w) = false ->
  exists w' i' routed, doSendCancelRequest pData w = Ok (tt, w') /\ dc_events w' = dc_events w ++ [CancelledRequest q] /\
    dc_iips w' !! ip = Some i' /\ iip_canceled i' = true /\
    route_api_response (getClientMsgId pData) "OK" (msg_sent c2 (default ""%string (head (in_uuids (dc_inputs w))))) (dc_clients w) =
      Ok (routed, dc_clients w').
Proof.
  intros Ef Hi Ht Eq Hq Etags Hc Hlk. unfold doSendCancelRequest. rewrite (M_bind_ok _ _ _ _ _ Ef).
  destruct (setCanceled_run ip i w Hi Ht) as (w1 & i' & E1 & I1 & C1 & Q1 & S1 & Cl1 & V1 & N1).
  rewrite (M_bind_ok _ _ _ _ _ E1), (M_bind_ok _ _ _ _ _ (pure_ok _ tags w1 Etags)).
  assert (dc_iips w1 !! ip = Some i') as Hi' by (rewrite I1; apply lookup_insert_eq).
  rewrite (M_bind_ok _ _ _ _ _ (iip_load_ok ip i' w1 Hi')), Q1, Eq.
  set (w2 := on_dc_events (fun l => l ++ [CancelledRequest q])
    (on_dc_inputs (fun i => Inputs (in_uuids i) (in_rands i) (tail (in_creates i)) (in_replies i)) w1)).
  erewrite (M_bind_ok _ _ w1 (Some c2) w2); cycle 1.
  { unfold nta_outgoing_tcancel. rewrite (M_bind_ok _ _ _ _ _ (live_orq_ok q w1 ltac:(by rewrite S1))). unfold next_create. mstep.
    rewrite N1, Hc. done. }
  cbn beta iota. unfold next_uuid. mstep. set (w3 := on_dc_inputs _ w2).
  destruct (api_run (getClientMsgId pData) "OK" (msg_sent c2 (default ""%string (head (in_uuids (dc_inputs w))))) w3) as (routed & cc & Er & Ea & _).
  { unfold w3, w2. cbn. by rewrite Cl1. }
  unfold w3, w2 in Er. cbn in Er. rewrite Cl1 in Er. eexists _, i', routed.
  change (in_uuids (dc_inputs w2)) with (in_uuids (dc_inputs w1)). rewrite N1. split; [exact Ea|]. cbn. by rewrite V1.
Qed.

(** C34: An INVITE outside a dialog is sent once, on a new leg, and becomes a
    new dialog and an invite in progress with that leg and transaction under
    the application's transaction id; an attempt record is posted and the
    application is told. A CANCEL with that transaction id then cancels
    exactly that transaction, marks the invite, and is reported. *)
Theorem outside_invite_then_cancel pData w name uri from to callid ct tags sel cr ltag :
  let m := sip_method_invite in
  sendable pData w m name uri from to callid ct tags sel -> nta_leg_tcreate_ok w from to callid = true ->
  default None (head (in_creates (dc_inputs w))) = Some cr -> m_lock (dc_clients w) = false ->
  v_ltag (invite_view_of (new_orq w) cr) = Some ltag -> no_txn (getTransactionId pData) w ->
  exists w' p d ip, doSendRequestOutsideDialog transports localUris pData w = Ok (tt, w') /\
    dc_events w' = dc_events w ++ [SentWithHeaders (new_orq w) (new_leg w) m (default ""%string name) uri (sel_tport sel)
      (outside_headers m (sel_contact sel) (getBody pData) ct tags); PostedCdr attempt_record "application" role_undefined no_termination] /\
    dc_dialogs w !! p = None /\
    dc_dialogs w' !! p = Some (d, set_localContact (default (sel_contact sel) (searchForHeader tags siptag_contact_str)) no_ctl) /\
    dialog_ok d (dc_stack w') /\ m_leg d = Some (new_leg w) /\
    dc_iips w' !! ip = Some (outgoing_iip (new_leg w) (new_orq w) (getTransactionId pData) p) /\ ip ∈ dc_inProgress w' /\
    (exists routed, route_api_response (getClientMsgId pData) "OK" (msg_sent cr (getTransactionId pData)) (dc_clients w) =
       Ok (routed, dc_clients w')) /\
    forall cData ctags c2, getTransactionId cData = getTransactionId pData -> safe_tags_of (getHeaders cData) = Ok ctags ->
      default None (head (in_creates (dc_inputs w'))) = Some c2 ->
      exists w'' i routed, doSendCancelRequest cData w' = Ok (tt, w'') /\ dc_events w'' = dc_events w' ++ [CancelledRequest (new_orq w)] /\
        dc_iips w'' !! ip = Some i /\ iip_canceled i = true /\
        route_api_response (getClientMsgId cData) "OK" (msg_sent c2 (default ""%string (head (in_uuids (dc_inputs w'))))) (dc_clients w') =
          Ok (routed, dc_clients w'').
Proof.
  intros m Hs Hok Hc Hlk Htag Hno. set (w1 := on_new_leg pData m name uri ct tags sel cr w).
  set (i := uac_dialog_of (getTransactionId pData) (new_leg w) (new_orq w) cr (sel_desc sel)).
  destruct (SipDialog_uac_run i (dc_stack w1) (cr_tport cr) ltag) as (d & s' & Ed & Hd & Hl & _ & _ & Ht & _ & Sq & _);
    [apply lookup_insert_eq|exact Htag|cbn; set_solver|].
  set (contact := default (sel_contact sel) (searchForHeader tags siptag_contact_str)).
  set (p := fresh_addr (dc_dialogs w)). set (w2 := on_dc_dialogs (insert p (d, set_localContact contact no_ctl)) (on_dc_stack (fun _ => s') w1)).
  set (ip := fresh_addr (dc_iips w)). set (txn := getTransactionId pData) in *.
  set (w3 := on_dc_inProgress (fun s => {[ip]} ∪ s) (on_dc_iips (insert ip (outgoing_iip (new_leg w) (new_orq w) txn p)) w2)).
  set (w4 := on_dc_events (fun l => l ++ [PostedCdr attempt_record "application" role_undefined no_termination]) w3).
  assert (keep_sent pData m (new_leg w) (new_orq w) cr tags sel w1 = Ok (tt, w4)) as Ek.
  { unfold keep_sent. cbn [starts_dialog]. unfold m at 1. change (starts_dialog sip_method_invite) with true. cbn iota.
    unfold new_uac_dialog. rewrite (M_bind_ok _ _ _ _ _ (on_stack_ok _ d s' w1 Ed)). mstep. mstep.
    assert (dlg_getTransactionId p w2 = Ok (txn, w2)) as Et.
    { unfold dlg_getTransactionId. rewrite (M_bind_ok _ _ _ _ _ (dlg_self_ok p d _ w2 (lookup_insert_eq _ _ _))). by rewrite Ht. }
    erewrite M_bind_ok; [|instantiate (1 := w3); instantiate (1 := tt)]; [done|]. unfold addOutgoingInviteTransaction. erewrite M_bind_ok; [|exact Et].
    by apply (insert_outgoing_run (new_leg w) (new_orq w) txn p w2). }
  destruct (send_on_leg_run pData w m name uri from to callid ct tags sel cr w4 Hok Hc Ek Hlk) as (routed & cc & E & Hlc & Er).
  set (w' := on_dc_clients (fun _ => cc) w4).
  exists w', p, d, ip. split_and!.
  - unfold doSendRequestOutsideDialog. rewrite (M_bind_ok _ _ w (inr tt) w'); [done|]. by rewrite (sendable_run _ _ _ _ _ _ _ _ _ _ _ Hs).
  - unfold w', w4, w3, w2, w1, on_new_leg, app_request_sent. cbn. by rewrite <- app_assoc.
  - apply fresh_addr_lookup.
  - apply lookup_insert_eq.
  - exact Hd.
  - exact Hl.
  - apply lookup_insert_eq.
  - cbn. set_solver.
  - by exists routed.
  - intros cData ctags c2 Hct Hctags Hc2.
    apply (outgoing_cancel_run cData ip (outgoing_iip (new_leg w) (new_orq w) txn p) (new_orq w) c2 ctags w'); try done.
    + rewrite Hct. by apply (find_inserted (outgoing_iip (new_leg w) (new_orq w) txn p) w w' Hno).
    + apply lookup_insert_eq.
    + change (st_orqs (dc_stack w')) with (st_orqs s'). rewrite Sq. eexists. apply lookup_insert_eq.
Qed.
End outside.
End timed.
