(* ===== verification/DialogWitness.v ===== *)
(** Concrete calls for the theorems on the dialog controller: an incoming
    call over UDP that is answered and acknowledged or not, requests inside
    it, and a connection that stops answering. *)
From S2P Require Import Prelude CppString BoostInstance TextUtil SipTags ClientController TimerQueue TimerQueueCorrect Cdr PendingRequests SipDialog SipDialogCorrect SipTransports TransportsWitness Connections DialogWorld InviteInProgress InviteInProgressCorrect InviteInProgressSafety TimerD TimerDCorrect DialogController Messages ProxyDispatch Dispatch LegSetup DialogResponses DialogRequests DialogTimers DialogEnds DialogHandlersCorrect.

Open Scope list_scope.
Import ClockZ.

(** Transports up to 10 are UDP sockets, others are TCP connections. *)
#[export] Instance some_tports : SofiaTport := {|
  tport_name tp := TpName "10.0.0.1" (to_string (Z.pos tp)) (if Pos.leb tp 10 then "udp" else "tcp");
  tport_is_dgram tp := Pos.leb tp 10;
  tport_is_secondary tp := Pos.ltb 10 tp;
  tport_is_udp tp := Pos.leb tp 10 |}.
#[export] Instance some_agent : NtaAgent := {|
  nta_incoming_method _ := sip_method_invite;
  nta_leg_call_id _ := "call";
  nta_leg_remote_target _ := None;
  url_e _ := "sip:peer" |}.
#[export] Instance some_config : DialogConfig := {|
  tportMaxConsecutiveTimeouts := 2; aggressiveNatEnabled := false; natDetectionDisabled := false |}.
Definition no_meta : SipMsgData_t := MkSipMsgData "udp" "100" "10.0.0.2" "5060" "" "network" "" "".
Definition peer_contact : url_t := MkUrl (Some "sip") None (Some "10.0.0.2") (Some "5060")%string.
Definition request_of (k : sip_method_t) (name callid : string) : incoming_msg :=
  IncomingMsg "10.0.0.2" (Some 7%positive) true false None None (Some peer_contact) None None "sip:bob@10.0.0.1" None sip_method_invalid
    true true (Some "ft"%string)
    (NewRequest (MkSip callid (Some k) name 1 (Some "z9hG4bK1"%string) [] None) name None "ENCODED" no_meta ("", "")%string
       (Some "10.0.0.1"%string) (Some "bob"%string) None None None "sip:bob@10.0.0.1" None).
(** Message 1 is an INVITE, 2 the CANCEL for it, 3 a PRACK, 4 a MESSAGE, and
    the others are OPTIONS. *)
#[export] Instance some_message : NtaMessage := {|
  sip_object m :=
    match m with
    | 1%positive => request_of sip_method_invite "INVITE" "quick"
    | 2%positive => request_of sip_method_cancel "CANCEL" "quick"
    | 3%positive => request_of sip_method_prack "PRACK" "stray"
    | 4%positive => request_of sip_method_message "MESSAGE" "call"
    | _ => request_of sip_method_options "OPTIONS" "ping"
    end;
  nta_incoming_getrequest irq := match irq with 6%positive => 4%positive | _ => 1%positive end;
  nta_incoming_find _ _ := None;
  nta_incoming_tag _ tag := if String.eqb tag "" then "tag"%string else tag;
  nta_incoming_create_ok _ := true;
  nta_leg_create_ok _ := true;
  invite_of msg irq leg :=
    IncomingInvite leg 7 "10.0.0.2" "5060" "udp" "sip" (Some "ft"%string) (MkSip "quick" (Some sip_method_invite) "INVITE" 1 (Some "z9hG4bK1"%string) [] None)
      "" "" None |}.
#[export] Instance no_cores : ProxyCoreOps := {|
  core_msg _ := 1%positive;
  core_processResponse _ _ := mret false;
  core_forwardPrack _ _ := mret false;
  core_forwardRequest _ _ := mret false;
  core_setCanceled _ _ := mret tt;
  core_generateResponse _ _ := mret tt;
  core_cancelOutstandingRequests _ := mret tt |}.
#[export] Instance some_main : MainConfig := {|
  spammers := [("user-agent", ["friendly-scanner"])]%string;
  m_bRejectRegisterWithNoRealm := true;
  m_bAlwaysSend180 := false;
  m_strUserAgentAutoAnswerOptions := "pinger";
  main_transports := two_transports;
  pending_iter := map_to_list |}.

(** ** A call that is answered *)

Definition made (tp : option positive) (callid : string) (cseq : Z) : created := Created tp callid cseq None None None None "BYE sip:x SIP/2.0" no_meta.
(** Client 1 owns the dialog. *)
Definition owner : ClientController :=
  MkClientController {[ 1%positive := ClientInfo ∅ "app" ]} false {[ 1%positive ]} [] [] ∅ {[ "call;from-tag="%string := 1%positive ]} ∅ ∅ ∅ ∅ [].
Definition call : SipDialogController :=
  on_dc_clients (fun _ => owner) (on_dc_inputs (fun _ => Inputs [] [] [Some (made (Some 7%positive) "call" 2)] []) ringing).
Definition the_dialog : positive := 9.
Definition answered : SipDialogController := run_world (ft_run (ft_answer 5 7 the_dialog)) call.
Definition the_timerG : positive := fresh_addr (dc_armed call).
Definition the_timerH : positive := fresh_addr ({[ the_timerG := tt ]} : gmap positive unit).

Lemma ringing_wf : iip_wf ringing.
Proof.
  apply rest_wf, iip_reach_rest. apply (reach_op (op_incoming 3 5 "t1" 9) plain_world); [by constructor| |by vm_compute].
  split; [by apply (bool_decide_unpack _); vm_compute|]. split; [by eexists|]. by intros q j Hq.
Defined.
Lemma call_wf : iip_wf call.
Proof. by apply (same_iip_wf ringing call ringing_wf). Defined.
Lemma call_dialogs p d c : dc_dialogs call !! p = Some (d, c) -> p = the_dialog /\ d = plain_dialog (Some 3%positive) /\ c = no_ctl.
Proof.
  intros Hp. assert (dc_dialogs call = {[ the_dialog := (plain_dialog (Some 3%positive), no_ctl) ]}) as E by by vm_compute.
  rewrite E in Hp. apply lookup_singleton_Some in Hp as [<- [= <- <-]]. done.
Qed.
Lemma call_timers : timers_wf call.
Proof.
  split.
  - intros t p d c h (-> & -> & ->)%call_dialogs Hc. by destruct t.
  - intros t h q irq tp p ms Hh. by vm_compute in Hh.
  - by intros p d c r (-> & -> & ->)%call_dialogs.
Qed.
Lemma call_reach : ft_reach call.
Proof.
  apply ft_start; [apply call_wf| |].
  - by intros p d c (-> & -> & ->)%call_dialogs.
  - intros h e Hh. by vm_compute in Hh.
Qed.
(** The call's invite is the only member. *)
Lemma call_members q i : q ∈ dc_inProgress call -> dc_iips call !! q = Some i -> q = the_iip /\ iip_dlg i = the_dialog /\ iip_irq i = Some 5%positive.
Proof.
  intros Hq Hi. assert (exists j, dc_iips call = {[ the_iip := j ]} /\ iip_dlg j = the_dialog /\ iip_irq j = Some 5%positive) as (j & E & Hj)
    by (eexists; split; [by vm_compute|done]).
  rewrite E in Hi. apply lookup_singleton_Some in Hi as [<- <-]. done.
Qed.
Lemma answer_enabled : ft_enabled (ft_answer 5 7 the_dialog) call.
Proof.
  do 2 eexists. split; [by vm_compute|]. split_and!; [done|done|by apply (bool_decide_unpack _); vm_compute|].
  intros q i Hq Hi _. by apply (call_members q i).
Qed.
Lemma answered_run : ft_run (ft_answer 5 7 the_dialog) call = Ok (tt, answered).
Proof. by vm_compute. Qed.
Lemma answered_reach : ft_reach answered.
Proof. exact (ft_step _ call answered call_reach answer_enabled answered_run). Qed.

Lemma final_response_timers_safe_witness :
  exists w', ft_run (ft_fire the_timerG) answered = Ok (tt, w') /\ dc_events w' = [RetransmittedReply 5 7].
Proof.
  assert (ft_enabled (ft_fire the_timerG) answered) as Hen.
  { do 4 eexists. split; [by vm_compute|]. split; [done|]. intros [=]. }
  destruct (final_response_timers_safe (ft_fire the_timerG) answered answered_reach Hen) as (w' & E & _).
  exists w'. split; [done|]. vm_compute in E. by injection E as <-.
Defined.

Lemma final_response_schedule_witness :
  exists w1 w2, start_final_response_timers 5 7 the_dialog call = Ok (tt, w1) /\ times 4 (timerG_goes_off the_dialog) w1 = Ok (tt, w2) /\
    dc_events w2 = replicate 4 (RetransmittedReply 5 7) /\
    exists h, dc_armed w2 !! h = Some ("timerG"%string, retransmitFinalResponse_fn 5 7 the_dialog, 4000%Z).
Proof.
  destruct (final_response_schedule call 5 7 the_dialog (plain_dialog (Some 3%positive)) no_ctl 4 call_timers)
    as (w1 & w2 & _ & E1 & E2 & Ev & _ & HG & Hex & _); [by vm_compute|done|done|done|by apply (bool_decide_unpack _); vm_compute| |].
  { intros q i Hq Hi _. by apply (call_members q i). }
  exists w1, w2. split_and!; [done|done|exact Ev|]. destruct (Hex eq_refl) as (h & ms & Ha). exists h. rewrite Ha. by destruct (HG h _ ms Ha) as [_ ->].
Defined.

Lemma answered_wf : timers_wf answered /\ iip_wf answered.
Proof. exact (ft_reach_wf answered answered_reach). Qed.
Lemma answered_dialog : exists d c, dc_dialogs answered !! the_dialog = Some (d, c) /\ dialog_ok d (dc_stack answered) /\ m_leg d = Some 3%positive.
Proof.
  do 2 eexists. split; [by vm_compute|]. split; [|done]. split; cbn; try done. intros l [= <-].
  by apply (bool_decide_unpack _); vm_compute.
Qed.
Lemma unacknowledged_call_ends_witness :
  exists w', timer_goes_off the_timerH answered = Ok (tt, w') /\ quiet the_dialog w' /\ dc_armed w' = ∅ /\
    dc_events w' = [SentRequest 1 3 sip_method_bye "" "" None] /\
    m_posted (dc_clients w') = [sendSipMessage 1 "unsolicited" "call;from-tag=" "BYE sip:x SIP/2.0" no_meta].
Proof.
  destruct answered_wf as [Hw Hi]. destruct answered_dialog as (d & c & Hp & Hok & Hl).
  assert (exists ms, dc_armed answered !! the_timerH = Some ("timerH"%string, endRetransmitFinalResponse_fn 5 7 the_dialog, ms)) as [ms Ha]
    by (eexists; by vm_compute).
  destruct (unacknowledged_call_ends the_timerH 5 7 the_dialog "timerH" ms d c 3 answered Hw Hi) as (w' & E & [Q _ _ _ _] & _); [done..|].
  exists w'. split; [done|]. split; [done|]. vm_compute in E. injection E as <-. by vm_compute.
Defined.

(** ** The call is acknowledged, and requests are made inside it *)

Definition ack_request : sip_request :=
  SipRequest (MkSip "call" (Some sip_method_ack) "ACK" 1 None [] None) (DialogRequest "ACK" sip_method_ack None None) None "ACK sip:x SIP/2.0" no_meta.
Lemma ack_ends_wait_witness :
  exists w', process_ack 3 6 ack_request "own" answered = Ok (0%Z, w') /\ dc_armed w' = ∅ /\ dc_inProgress w' = ∅ /\ dc_irqs w' = ∅ /\
    m_posted (dc_clients w') = [sendSipMessage 1 "t1" "call;from-tag=" "ACK sip:x SIP/2.0" no_meta].
Proof.
  destruct answered_wf as [Hw Hi].
  destruct (ack_ends_wait 3 6 ack_request "own" answered Hw Hi) as (rc & w' & E & _).
  - by vm_compute.
  - by apply (bool_decide_unpack _); vm_compute.
  - intros q i Hq Hqi _. destruct (call_members q i Hq Hqi) as (-> & -> & ->). split; [by eexists|done].
  - intros p Hp. by vm_compute in Hp.
  - vm_compute in E. injection E as <- <-. eexists. split; [by vm_compute|]. by vm_compute.
Defined.

Definition info_rip : RIP := MkRIP "txn" "call;from-tag=" None false.
Definition requesting : SipDialogController :=
  on_dc_rips (insert 1%positive info_rip) (on_dc_stack (on_orqs (insert 1%positive (Some 7%positive))) answered).
Definition response (m : sip_method_t) (name : string) (status : Z) : sip_response :=
  SipResponse false (MkSip "call" None name 2 None [] None) m status None false None None None None "SIP/2.0" no_meta.
(** ** Timer D *)

Definition inviting : SipDialogController :=
  on_dc_sent (fun _ => {[ 1%positive := made (Some 7%positive) "call" 1; 2%positive := made (Some 7%positive) "call" 1 ]})
    (on_dc_stack (on_orqs (fun _ => {[ 1%positive := Some 7%positive; 2%positive := Some 7%positive ]})) answered).
Lemma timerD_ack_life_witness :
  exists w3, addAck 2 (accepted inviting 1 (made (Some 7%positive) "call" 1)) = Ok (tt, w3) /\
    times 3 (resendIfNeeded 1) w3 = Ok (tt, on_dc_events (fun l => l ++ replicate 3 (RetransmittedRequest 2)) w3).
Proof.
  assert (is_live inviting 1 (made (Some 7%positive) "call" 1)) as H1 by (split; [by eexists|by vm_compute]).
  assert (is_live (accepted inviting 1 (made (Some 7%positive) "call" 1)) 2 (made (Some 7%positive) "call" 1)) as H2 by (split; [by eexists|by vm_compute]).
  destruct (timerD_ack_life inviting 1 (made (Some 7%positive) "call" 1) 2 (accepted inviting 1 (made (Some 7%positive) "call" 1)) 2
    (made (Some 7%positive) "call" 1) 3 (fresh_addr (dc_armed inviting)) "timerD" 30000) as (_ & _ & _ & w3 & w4 & E1 & E2 & _);
    [done|by vm_compute|by vm_compute|done|done|done|apply lookup_insert_eq|]. by exists w3.
Defined.

(** ** A connection that stops answering *)

Definition over_tcp : SipDialogController := on_dc_stack (on_orqs (fun _ => {[ 1%positive := Some 12%positive ]})) answered.
Definition timed_out : option sip_response :=
  Some (SipResponse true (MkSip "call" None "OPTIONS" 2 None [] None) sip_method_options 408 None false None None None None "" no_meta).
Lemma trackTportLiveness_closes_witness :
  exists w1, track_all [(1%positive, timed_out); (1%positive, None); (1%positive, timed_out)] over_tcp = Ok (tt, w1) /\
    dc_events w1 = [ShutTport 12] /\ dc_timeouts w1 !! tport_key 12 = Some 1%N.
Proof.
  destruct (trackTportLiveness_closes 12 [(1%positive, timed_out); (1%positive, None); (1%positive, timed_out)] 1
    (response sip_method_options "OPTIONS" 200) over_tcp) as (w1 & w2 & E & Ev & Et & _); [done|done|done|repeat constructor|done|done|done|].
  exists w1. split_and!; [done|by rewrite Ev|by rewrite Et].
Defined.

(** ** Timer D and the address of a re-INVITE *)

(** A re-INVITE, transaction 1 over UDP, is answered 200; its transaction is
    destroyed, but timer D keeps its address. *)
Definition reinviting : SipDialogController :=
  on_dc_inputs (fun _ => Inputs [] [] [Some (made (Some 7%positive) "other call" 1); Some (made (Some 7%positive) "call" 2)] [])
    (on_dc_sent (fun _ => {[ 1%positive := made (Some 7%positive) "call" 2 ]}) requesting).
(** The 200 names us as the one who refreshes the session every 90 seconds. *)
Definition reinvite_ok : sip_response :=
  SipResponse false (MkSip "call" None "INVITE" 2 None [] None) sip_method_invite 200 None false None (Some (90%Z, Some "uac"%string)) None None "SIP/2.0" no_meta.
Lemma reinviting_ready : reinvite_ready 1 reinvite_ok reinviting.
Proof.
  constructor.
  - intros _. eexists. split; [by vm_compute|by vm_compute].
  - intros p Hp. assert (p = the_dialog) as -> by (vm_compute in Hp; by injection Hp as <-).
    do 2 eexists. split; [by vm_compute|]. split; cbn; try done. intros l [= <-]. by apply (bool_decide_unpack _); vm_compute.
Qed.
(** A provisional response does the same as a final one; the 200 to the
    re-INVITE leaves timer D armed and a session timer running. *)
Lemma inside_response_ends_request_witness :
  (exists w', processResponseInsideDialog 1 (Some (response sip_method_info "INFO" 183)) requesting = Ok (0%Z, w') /\
    dc_rips w' = ∅ /\ st_orqs (dc_stack w') = ∅ /\ dc_dialogs w' = dc_dialogs requesting) /\
  (exists w', processResponseInsideDialog 1 (Some reinvite_ok) reinviting = Ok (0%Z, w') /\ dc_rips w' = ∅ /\
    (exists h, dc_armed w' !! h = Some ("timerD"%string, timerD_fn 1 "call 2", 30000%Z)) /\
    exists d c t, dc_dialogs w' !! the_dialog = Some (d, c) /\ m_timerSessionRefresh (d_session d) = Some t /\
      m_nSessionExpiresSecs (d_session d) = 90%Z).
Proof.
  split.
  - destruct (inside_response_ends_request 1 (response sip_method_info "INFO" 183) requesting) as (w' & E & Hr).
    + eexists. by vm_compute.
    + by vm_compute.
    + done.
    + by intros rip [= <-].
    + exists w'. split; [done|]. destruct Hr as [_ (_ & _ & Hd)]. rewrite Hd. vm_compute in E. injection E as <-. by vm_compute.
  - destruct (inside_response_ends_request 1 reinvite_ok reinviting) as (w' & E & Hr).
    + eexists. by vm_compute.
    + by vm_compute.
    + intros _ _. exact reinviting_ready.
    + by intros rip [= <-].
    + exists w'. split; [done|]. destruct Hr as [(Hrip & _) [(c & Hc & _ & Ha) (o & Eo & Hs)]].
      split; [rewrite Hrip; by vm_compute|]. split.
      * eexists. rewrite Ha, lookup_insert_eq. assert (c = made (Some 7%positive) "call" 2) as -> by (vm_compute in Hc; by injection Hc as <-). by vm_compute.
      * assert (o = Some the_dialog) as -> by (vm_compute in Eo; by injection Eo as <-).
        destruct Hs as (d & c' & t & cell & _ & Hd). do 3 eexists. rewrite Hd, lookup_insert_eq. split; [done|]. by split.
Defined.

Definition reinvited : SipDialogController :=
  run_world (processResponseInsideDialog 1 (Some (response sip_method_invite "INVITE" 200))) reinviting.
Lemma timerD_keeps_address :
  dc_timerD reinvited = MkTimerD {[ "call 2"%string := 1%positive ]} ∅ /\ st_orqs (dc_stack reinvited) = ∅ /\
  exists h, dc_armed reinvited !! h = Some ("timerD"%string, timerD_fn 1 "call 2", 30000%Z).
Proof. split_and!; [by vm_compute..|]. exists (fresh_addr (dc_armed reinviting)). by vm_compute. Qed.
(** A new INVITE gets the address before the application sends the ACK: its
    first response is taken for a retransmission, the ACK of the other call
    is sent again, and the response is dropped. *)
Definition next_call : DC bool :=
  invite ← nta_outgoing_tcreate 3 "" sip_method_invite "" None;
  invite ← deref invite;
  ack ← nta_outgoing_tcreate 3 "" sip_method_ack "" None;
  ack ← deref ack;
  _ ← addAck ack;
  resendIfNeeded invite.
Lemma timerD_swallows_response :
  exists w', next_call reinvited = Ok (true, w') /\
    dc_events w' = [SentRequest 1 3 sip_method_invite "" "" None; SentRequest 2 3 sip_method_ack "" "" None; RetransmittedRequest 2].
Proof. eexists. split; by vm_compute. Qed.

(** An ACK on the INVITE's own transaction is handled with that transaction
    after it was handed back to the stack. *)
Lemma ack_on_invite_uses_destroyed :
  processCancelOrAck 5 (Some ack_request) answered = Fault BadAccess.
Proof. by vm_compute. Qed.
