(* ===== verification/DispatchWitness.v ===== *)
(** Concrete messages for the theorems on the main controller: an INVITE that
    no client takes, one that a client has when its CANCEL comes, and one that
    is answered. *)
From S2P Require Import Prelude CppString Regex BoostInstance TextUtil SipTags ClientController TimerQueue TimerQueueSpec TimerQueueCorrect RequestRouter Cdr PendingRequests PendingCorrect SipDialog SipTransports TransportsWitness Connections DialogWorld InviteInProgress InviteInProgressCorrect InviteInProgressSafety TimerD DialogController Messages ProxyDispatch Dispatch LegSetup DispatchCorrect LegSetupCorrect DialogWitness.

Open Scope list_scope.
Import ClockZ PendingWitnesses.

#[export] Instance some_main_laws : MainConfigLaws.
Proof. by constructor. Qed.

(** ** Nobody takes the INVITE *)

Definition asked : SipDialogController := on_dc_inputs (fun _ => Inputs ["uuid"] [] [] [])%string plain_world.
(** [tac] for each element of a list that [H] lets a variable be. *)
Ltac each_of H tac := repeat (apply elem_of_cons in H as [->|H]; [tac|]); by apply elem_of_nil in H.

(** The INVITE is refused, the CANCEL of a call that is gone is refused, and
    OPTIONS finds no client either. *)
Lemma message_given_back_witness :
  Forall (fun k => exists rc w', processMessageStatelessly k None asked = Ok (rc, w') /\ owed_of w' k = (-1)%Z /\
    owed_of w' 9 = 0%Z /\ dc_events w' ≠ []) [1; 2; 5]%positive.
Proof.
  apply Forall_forall. intros k Hk.
  destruct (processMessageStatelessly k None asked) as [[rc w']|] eqn:E.
  2: { each_of Hk ltac:(by vm_compute in E). }
  exists rc, w'. split; [done|].
  assert (owed_of w' k = (owed_of asked k - 1)%Z /\ owed_of w' 9 = owed_of asked 9) as [-> ->].
  { assert (k ≠ 9%positive) as Hn by each_of Hk ltac:(done).
    destruct (message_given_back k asked rc w') as [E1 E2].
    - constructor.
    - intros core Hc. by vm_compute in Hc.
    - each_of Hk ltac:(by apply (bool_decide_unpack _); vm_compute).
    - each_of Hk ltac:(by eexists).
    - each_of Hk ltac:(by vm_compute).
    - each_of Hk ltac:(by vm_compute).
    - exact E.
    - split; [done|]. by apply E2. }
  split_and!; [done|done|].
  each_of Hk ltac:(vm_compute in E; by injection E as _ <-).
Defined.

(** The server at microsecond [t]: a client takes INVITEs, and another request
    has been pending since microsecond 0. *)
Definition waiting (t : Z) : SipDialogController :=
  on_dc_clients (fun _ => cc1) (on_dc_inputs (fun _ => Inputs ["t9"] [] [] [])%string
    (on_dc_main (fun _ => MkMain prc1 ∅ [] ∅ ∅ None ∅ (at_us t)) plain_world)).
Lemma not_colliding : ~ collides (at_us 5) [x1].
Proof. intros (d & [= <-] & E). by vm_compute in E. Qed.
Lemma colliding : collides (at_us 0) [x1].
Proof. exists x1. split; [done|by vm_compute]. Qed.

(** Without a client the INVITE is refused; with one it is kept and posted to
    the client five microseconds after the other request, and aborts the server
    in the same microsecond. *)
Lemma new_request_outcome_witness :
  (exists w', process_new 1 7 None asked = Ok (0%Z, w') /\
    dc_events w' = [RepliedTo 1 100; PostedCdr attempt_record "network" role_undefined no_termination; RepliedTo 1 503;
      PostedCdr stop_record "application" role_undefined call_rejected] /\ owed_of w' 1 = (-1)%Z) /\
  (exists w', process_new 1 7 None (waiting 5) = Ok (0%Z, w') /\
    dc_events w' = [RepliedTo 1 100; PostedCdr attempt_record "network" role_undefined no_termination] /\
    mt_held (dc_main w') !! "t9"%string = Some (1%positive, 7%positive) /\
    m_mapNetTransactions (dc_clients w') !! "t9"%string = Some 2%positive /\ length (m_posted (dc_clients w')) = 1 /\ owed_of w' 1 = (-1)%Z) /\
  process_new 1 7 None (waiting 0) = Fault AssertFail.
Proof.
  assert (forall t hm hu v, route_of 1 7 (waiting t) = Some (hm, hu, v) -> hu ≠ ""%string) as Hurl.
  { intros t hm hu v Hr. by vm_compute in Hr. }
  assert (forall hm hu v, route_of 1 7 asked = Some (hm, hu, v) -> hu ≠ ""%string) as Hurl0.
  { intros hm hu v Hr. by vm_compute in Hr. }
  split; [|split].
  - destruct (new_request_outcome 1 7 None asked [] PRC_new_inv eq_refl eq_refl ltac:(by vm_compute) ltac:(by vm_compute) ltac:(by vm_compute) ltac:(by vm_compute) ltac:(by vm_compute) Hurl0 ltac:(done))
      as (w' & E & Hw'). exists w'. split; [done|]. vm_compute in E. injection E as <-. split; by vm_compute.
  - destruct (new_request_outcome 1 7 None (waiting 5) [x1] prc1_inv eq_refl eq_refl ltac:(by vm_compute) ltac:(by vm_compute) ltac:(by vm_compute) ltac:(by vm_compute) ltac:(by vm_compute) (Hurl 5%Z) ltac:(done))
      as [_ Hk]. destruct (Hk not_colliding) as (w' & E & Hev & (_ & Hh & _) & (c & Hc & Hn & Hp & _) & Ho).
    exists w'. split; [done|]. rewrite Hev, Hh, Hp, Ho. split_and!; [by vm_compute|by vm_compute| |done|by vm_compute].
    apply list_elem_of_singleton in Hc as ->. exact Hn.
  - destruct (new_request_outcome 1 7 None (waiting 0) [x1] prc1_inv eq_refl eq_refl ltac:(by vm_compute) ltac:(by vm_compute) ltac:(by vm_compute) ltac:(by vm_compute) ltac:(by vm_compute) (Hurl 0%Z) ltac:(done))
      as [Hc _]. apply Hc, colliding.
Defined.

(** ** A client has the INVITE *)

Definition oq : PendingRequest_t := MkPendingRequest (im_sip (sip_object 1)) "t1" (Some 1%positive) false no_meta "".
Definition prcq : PendingRequestController := added PRC_new 1%positive oq (one_timer x1).
Lemma prcq_inv : pending_inv prcq [x1].
Proof. apply (added_inv PRC_new [] [x1] 1%positive oq (one_timer x1) x1); try done; [apply PRC_new_inv|apply one_timer_inv]. Qed.
Definition offered : SipDialogController :=
  on_dc_clients (fun _ => cc1) (on_dc_stack (on_refs (insert 7%positive 1))
    (on_dc_main (fun _ => MkMain prcq ∅ [] {[ "t1"%string := (1%positive, 7%positive) ]} ∅ None ∅ (at_us 0)) plain_world)).
Lemma offered_call : pending_call offered [x1] "t1" 1 oq 1 7 0.
Proof. constructor; [apply prcq_inv|done..]. Qed.
Lemma offered_only id q : m_mapCallId2Invite (prc_of offered) !! id = Some q -> q = 1%positive.
Proof.
  change (m_mapCallId2Invite (prc_of offered)) with ({[ makeUniqueSipTransactionIdentifier (pr_sip oq) := 1%positive ]} : gmap string positive).
  by intros [_ <-]%lookup_singleton_Some.
Qed.
Lemma canceled_before_answer_witness :
  exists w', (_ ← quick_cancel 2; setupLegForIncomingRequest "t1" "") offered = Ok (false, w') /\
    dc_events w' = [RepliedTo 2 200; RepliedToCopy 1 487] /\ m_mapTxnId2Invite (prc_of w') = ∅ /\ dc_irqs w' = dc_irqs offered.
Proof.
  destruct (canceled_before_answer offered [x1] "t1" 1 oq 1 7 0 2 "") as (w' & E & Ev & _ & Em & _ & _ & _ & Ei & _).
  - exact offered_call.
  - done.
  - by vm_compute.
  - intros id q o' Hq _ _. by eapply offered_only.
  - exists w'. split; [done|]. split; [exact Ev|]. split; [|exact Ei]. rewrite Em. by vm_compute.
Defined.
Lemma pending_invite_answered_witness :
  exists w' ip i, setupLegForIncomingRequest "t1" "" offered = Ok (true, w') /\
    IIP_FindByTransactionId "t1" w' = Ok (Some ip, w') /\ dc_iips w' !! ip = Some i /\ iip_irq i = Some (fresh (dc_irqs offered)) /\
    refs_of (dc_stack w') 7 = 1 /\ owed_of w' 1 = 0%Z.
Proof.
  destruct (pending_invite_answered offered [x1] "t1" 1 oq 1 7 0 "" "ft" false) as (w' & ip & i & d & E & E1 & Hi & Hq & _ & _ & _ & _ & _ & _ & _ & _ & _ & _ & Hr & Ho).
  - exact offered_call.
  - done.
  - by vm_compute.
  - by vm_compute.
  - done.
  - done.
  - intros q j Hq. by vm_compute in Hq.
  - done.
  - done.
  - done.
  - intros _. by vm_compute.
  - exists w', ip, i. split_and!; [exact E|exact E1|exact Hi|exact Hq|exact Hr|]. by rewrite Ho.
Defined.

(** ** What the handler does not give back *)

(** The result, the account of message 1, and whether transaction 5 is still
    there. *)
Definition account (r : res (Z * SipDialogController)) : option (Z * Z * bool) :=
  match r with Ok (rc, w) => Some (rc, owed_of w 1, bool_decide (5%positive ∈ dc_irqs w)) | Fault _ => None end.
(** A request that was already made a transaction of its own, because it came
    inside a call that is still ringing: the pending request takes the
    reference of the transaction. *)
Lemma early_request_robbed :
  account (process_new 1 7 (Some 5%positive) (on_dc_clients (fun _ => cc1) asked)) = Some (0, -1, true)%Z.
Proof. by vm_compute. Qed.
(** A PRACK outside any dialog aborts the server. *)
Lemma stray_prack_aborts : processMessageStatelessly 3 None asked = Fault AssertFail.
Proof. by vm_compute. Qed.
(** A message from a blacklisted address is not given back. *)
Lemma blacklisted_kept :
  account (processMessageStatelessly 1 None
    (on_dc_main (fun t => MkMain PRC_new ∅ [] ∅ ∅ (Some {["10.0.0.2"%string]}) ∅ (at_us 0)) asked)) = Some (-1, 0, true)%Z.
Proof. by vm_compute. Qed.
