(* ===== verification/DialogSendWitness.v ===== *)
(** Concrete requests and responses of an application inside the call of
    [DialogWitness], for the theorems of [DialogSendCorrect]. *)
From S2P Require Import Prelude CppString BoostInstance SipUri TextUtil SipTags TextCorrect ClientController TimerQueue TimerQueueCorrect Cdr PendingRequests SipDialog SipDialogCorrect SipTransports TransportsWitness Connections DialogWorld InviteInProgress InviteInProgressCorrect InviteInProgressSafety TimerD DialogController Messages LegSetup DialogResponses DialogRequests DialogSend DialogRespond DialogSendOut DialogTimers DialogEnds DialogHandlersCorrect DialogSendCorrect DialogSendOutCorrect DialogWitness.

Open Scope list_scope.
Import ClockZ.

(** Transaction 5 is the INVITE of the call, over the UDP socket 7. *)
#[export] Instance some_messages : NtaMessages := {|
  nta_incoming_view _ := IncomingView sip_method_invite "call" None false None (Some 7%positive);
  nta_no_method := sip_method_invalid;
  nta_incoming_getresponse _ _ := Some (MadeResponse "INVITE" None None "SIP/2.0 486 Busy Here" no_meta);
  sip_status_make s := if String.prefix "SIP/2.0 200" s then Some 200%Z else Some 486%Z;
  sip_session_expires_make _ := None;
  nta_leg_has_route _ := true;
  url_e_255 _ := "sip:peer" |}.
(** No contact is known by another connection. *)
#[export] Instance no_names : TportByName := {| tport_by_name _ _ _ := None |}.
#[export] Instance some_sending : MainSending := {|
  sessionTimerDefaultRefresher := "uac";
  supportBestEffortTls := false;
  preservedHeaders := [] |}.

Definition long_dialog_id : string := join "" (replicate 200 "a").
Lemma SipMessageData_exact_witness :
  getDialogId_of (SipMessageData_new "" "" "" long_dialog_id "" "" "") = long_dialog_id /\
  getDialogId_of (SipMessageData_routed "" "" "" long_dialog_id "" "" "" "sip:route") ≠ long_dialog_id.
Proof.
  destruct (SipMessageData_exact "" "" "" long_dialog_id "" "" "" "sip:route") as (_ & _ & _ & _ & H1 & H2 & _); [by vm_compute..|].
  split; [apply H1; vm_compute; lia|]. intros E%H2. vm_compute in E. lia.
Defined.

(** ** Responses *)

Definition the_transports : SipTransports := MkTransports {[ 7%positive := named "10.0.0.1" ]} (Some config1) [].
Definition closed_7 : SipDialogController := on_dc_stack (on_closed (fun _ => {[ 7%positive ]})) answered.
Lemma response_transport_reference_witness :
  (exists w', send_response the_transports 5 200 "" "" answered = Ok ((true, ""%string), w') /\ refs_of (dc_stack w') 7 = 0) /\
  (exists w', send_response the_transports 5 200 "" "" closed_7 = Ok ((false, TRANSPORT_GONE), w') /\ refs_of (dc_stack w') 7 = 1).
Proof.
  assert (exists t tags, findTransport the_transports 7 = Ok t /\ response_tags "" t = Ok tags) as (t & tags & Ht & Hg)
    by (do 2 eexists; split; by vm_compute).
  split.
  - destruct (response_transport_reference the_transports 5 200 "" "" 7 t tags answered) as (r & w' & E & Hr);
      [by apply (bool_decide_unpack _); vm_compute|done|done|done|].
    exists w'. split; [|by destruct Hr as (_ & -> & _)]. rewrite E. vm_compute in E. by injection E as <- _.
  - destruct (response_transport_reference the_transports 5 200 "" "" 7 t tags closed_7) as (r & w' & E & -> & _ & Hr & _);
      [by apply (bool_decide_unpack _); vm_compute|done|done|done|]. exists w'. split; [done|]. exact Hr.
Defined.

(** The invite in progress has been answered with 486, and the application
    answers again with 200. *)
Definition busy : SipDialogController := run_world (dlg_setSipStatus the_dialog 486) ringing.
Definition busy_owned : SipDialogController := on_dc_clients (fun _ => owner) busy.
Definition answer_again : SipMessageData := SipMessageData_new "1" "t1" "" "" "SIP/2.0 200 OK" "" "".
Lemma second_final_discarded_witness :
  exists w', doRespondToSipRequest the_transports answer_again busy_owned = Ok (tt, w') /\
    dc_events w' = [PostedCdr start_record "application" uas no_termination].
Proof.
  assert (iip_wf busy_owned) as Hw.
  { apply (same_iip_wf ringing busy_owned ringing_wf); [by vm_compute..|done|].
    intros q [y Hq]. assert (q = the_dialog) as ->.
    { assert (exists z, dc_dialogs ringing = {[ the_dialog := z ]}) as [z E] by (eexists; by vm_compute).
      rewrite E in Hq. by apply lookup_singleton_Some in Hq as [<- _]. }
    eexists. by vm_compute. }
  assert (exists i d c, dc_iips busy_owned !! the_iip = Some i /\ dc_dialogs busy_owned !! iip_dlg i = Some (d, c) /\
    iip_transactionId i = "t1"%string /\ iip_irq i = Some 5%positive /\ m_recentSipStatus d = 486%Z /\ m_irqUpdate c = None)
    as (i & d & c & Hi & Hd & Et & Eq & Es & Eu) by (do 3 eexists; split_and!; by vm_compute).
  destruct (second_final_discarded the_transports answer_again 200 the_iip i 5 d c
    (MadeResponse "INVITE" None None "SIP/2.0 486 Busy Here" no_meta) busy_owned Hw) as (w' & E & _ & _ & _ & Ev & _);
    [by vm_compute|by vm_compute|by apply (bool_decide_unpack _); vm_compute|done|by rewrite Et|done|done|by rewrite Es|done|by vm_compute|by vm_compute|by vm_compute|].
  exists w'. split; [done|]. rewrite Ev. by vm_compute.
Defined.

(** ** A request inside the dialog *)

Definition stable_call : SipDialogController :=
  on_dc_inputs (fun _ => Inputs [] [] [Some (made (Some 7%positive) "call" 3)] [])
    (on_dc_stable (SD_Insert the_dialog (key_of (plain_dialog (Some 3%positive)))) answered).
Definition send_info : SipMessageData :=
  SipMessageData_new "1" "app-1" "" "call;from-tag=" "INFO sip:peer SIP/2.0" ("Content-Type: text/plain" +:+ DR_CRLF) "hello".
Lemma request_inside_dialog_answered_witness :
  exists q w' w'', doSendRequestInsideDialog send_info stable_call = Ok (tt, w') /\
    (exists tp, dc_events w' = [SentWithHeaders q 3 sip_method_info "" "sip:peer" tp
       [(siptag_payload_str, "hello"); (siptag_content_type_str, "text/plain"); (siptag_content_type_str, "text/plain")]%string]) /\
    processResponseInsideDialog q (Some (response sip_method_info "INFO" 200)) w' = Ok (0%Z, w'') /\ dc_rips w'' !! q = None.
Proof.
  destruct answered_dialog as (d0 & c0 & Hp0 & Hok0 & Hl0).
  assert (exists tags, tags_of (getHeaders send_info) "" None = Ok tags) as [tags Htags] by (eexists; by vm_compute).
  destruct (request_inside_dialog_answered send_info sip_method_info "INFO" "sip:peer" the_dialog d0 c0 3 tags "text/plain"
    (made (Some 7%positive) "call" 3) stable_call) as (q & tp & w' & E & Ev & _ & _ & Hr).
  - by vm_compute.
  - done.
  - done.
  - by vm_compute.
  - exact Hp0.
  - destruct Hok0 as [A1 A2 A3 A4]. by split.
  - exact Hl0.
  - exact Htags.
  - vm_compute in Htags. injection Htags as <-. by vm_compute.
  - done.
  - by vm_compute.
  - by vm_compute.
  - by vm_compute.
  - exists q, w'. destruct (Hr ltac:(by vm_compute) (response sip_method_info "INFO" 200) ltac:(done)) as (w'' & E2 & Hr2 & _).
    exists w''. split; [done|]. split; [|split; [done|]].
    + exists tp. rewrite Ev. vm_compute in Htags. injection Htags as <-. vm_compute in Hp0. injection Hp0 as <- <-. by vm_compute.
    + rewrite Hr2. apply lookup_delete_eq.
Defined.

(** ** Requests outside a dialog
    Concrete requests outside a dialog: an OPTIONS and its response, an INVITE
    that is cancelled, and a request that would go to the server itself. *)

(** OPTIONS or INVITE of "sip:peer". *)
#[export] Instance some_outside : NtaOutside := {|
  sip_request_make s :=
    if String.prefix "OPTIONS" s then Some (RequestLine sip_method_options true None (Some "peer"%string))
    else if String.prefix "INVITE" s then Some (RequestLine sip_method_invite true None (Some "peer"%string)) else None;
  getTransportDescription tp := ("tcp/10.0.0.1:" +:+ to_string (Z.pos tp))%string;
  nta_leg_tcreate_ok _ _ _ _ := true;
  invite_view_of _ _ := InviteView (Some "ltag"%string) 1 (MkSip "new call" (Some sip_method_invite) "INVITE" 1 None [] None) "" "" "peer" 5060 None;
  configOutboundProxy := None |}.
Definition only_local : localUris := MkLocalUris [("10.0.0.1", "5060")]%string "".

Definition idle : SipDialogController :=
  on_dc_inputs (fun _ => Inputs [] [] [Some (made (Some 7%positive) "new call" 1); Some (made None "new call" 1)] []) answered.
Definition the_contact : string := "<sip:bob@10.0.0.1:5060;transport=udp;lr>".
Definition the_selection : selection := select_transport (named "10.0.0.1").
Lemma selects rl uri :
  finds_registration (rl_method rl) = true -> rl_host rl = Some "peer"%string -> rl_user rl = None -> uri = "sip:peer"%string ->
  select_for the_transports rl None uri idle = Ok (Some the_selection, idle).
Proof.
  intros Hf Hh Hu ->. assert (registered_tport rl idle = Ok (None, idle)) as Er.
  { unfold registered_tport. rewrite Hf, Hh. mstep. rewrite find_tport_run, Hu. by vm_compute. }
  unfold select_for. rewrite (M_bind_ok _ _ _ _ _ Er).
  assert (findAppropriateTransport the_transports "sip:peer" (Some "udp"%string) = Ok (Some (named "10.0.0.1"))) as E by by vm_compute.
  by rewrite (M_bind_ok _ _ _ _ _ (pure_ok _ _ idle E)).
Qed.

Definition send_options : SipMessageData := sendRequestOutsideDialog "u1" "u2" "1" "OPTIONS sip:peer SIP/2.0" "" "" "app-2" "" "".
Definition send_invite : SipMessageData :=
  sendRequestOutsideDialog "u1" "u2" "1" "INVITE sip:peer SIP/2.0" ("Content-Type: text/plain" +:+ DR_CRLF) "hello" "app-3" "" "".
Lemma options_sendable :
  exists from tags, sendable the_transports only_local send_options idle sip_method_options None "<sip:sip:peer>" from "sip:peer" None "" tags the_selection.
Proof.
  assert (exists tags, tags_of (getHeaders send_options) (sel_desc the_selection) (sel_external the_selection) = Ok tags /\
    searchForHeader tags siptag_from_str = None /\ searchForHeader tags siptag_to_str = None /\ searchForHeader tags siptag_call_id_str = None)
    as (tags & Ht & Hf & Hto & Hc) by (eexists; split_and!; by vm_compute).
  exists (sel_contact the_selection), tags. split.
  - exists (RequestLine sip_method_options true None (Some "peer"%string)), "OPTIONS"%string, "sip:peer"%string.
    split_and!; [by vm_compute|by vm_compute|by apply selects|by rewrite Hto|by vm_compute].
  - by vm_compute.
  - exact Ht.
  - unfold from_header. by rewrite Hf.
  - done.
  - done.
Qed.
Lemma invite_sendable :
  exists from tags, sendable the_transports only_local send_invite idle sip_method_invite None "<sip:sip:peer>" from "sip:peer" None "text/plain" tags the_selection.
Proof.
  assert (exists tags, tags_of (getHeaders send_invite) (sel_desc the_selection) (sel_external the_selection) = Ok tags /\
    searchForHeader tags siptag_from_str = None /\ searchForHeader tags siptag_to_str = None /\ searchForHeader tags siptag_call_id_str = None /\
    content_type_of (getBody send_invite) tags = Some "text/plain"%string)
    as (tags & Ht & Hf & Hto & Hc & Hct) by (eexists; split_and!; by vm_compute).
  exists (sel_contact the_selection), tags. split.
  - exists (RequestLine sip_method_invite true None (Some "peer"%string)), "INVITE"%string, "sip:peer"%string.
    split_and!; [by vm_compute|by vm_compute|by apply selects|by rewrite Hto|by vm_compute].
  - by vm_compute.
  - exact Ht.
  - unfold from_header. by rewrite Hf.
  - exact Hct.
  - done.
Qed.

Lemma request_outside_dialog_answered_witness :
  exists w' w'', doSendRequestOutsideDialog the_transports only_local send_options idle = Ok (tt, w') /\
    processResponseOutsideDialog (new_orq idle) (response sip_method_options "OPTIONS" 200) w' = Ok (0%Z, w'') /\
    dc_rips w'' = dc_rips idle /\ st_orqs (dc_stack w'') = st_orqs (dc_stack idle).
Proof.
  destruct options_sendable as (from & tags & Hs).
  destruct (request_outside_dialog_answered the_transports only_local send_options idle sip_method_options None "<sip:sip:peer>" from "sip:peer"
    None "" tags the_selection (made (Some 7%positive) "new call" 1) Hs) as (w' & E & _ & _ & _ & _ & Hr); [done|done|by vm_compute|by vm_compute|by vm_compute|].
  destruct (Hr (response sip_method_options "OPTIONS" 200) eq_refl) as (w'' & E2 & _ & Hend). exists w', w''. split; [exact E|]. split; [exact E2|exact Hend].
Defined.
Lemma outside_invite_then_cancel_witness :
  exists w' w'', doSendRequestOutsideDialog the_transports only_local send_invite idle = Ok (tt, w') /\
    doSendCancelRequest (sendCancelRequest "2" "app-3" "CANCEL sip:peer SIP/2.0" "" "") w' = Ok (tt, w'') /\
    dc_events w'' = dc_events w' ++ [CancelledRequest (new_orq idle)].
Proof.
  destruct invite_sendable as (from & tags & Hs).
  destruct (outside_invite_then_cancel the_transports only_local send_invite idle None "<sip:sip:peer>" from "sip:peer"
    None "text/plain" tags the_selection (made (Some 7%positive) "new call" 1) "ltag" Hs)
    as (w' & p & d & ip & E & Ev & _ & _ & _ & _ & _ & _ & _ & Hc); [done|by vm_compute|by vm_compute|done| |].
  { intros q i Hq Hi. destruct (call_members q i) as (-> & _); [by vm_compute in Hq |- *|by vm_compute in Hi |- *|].
    vm_compute in Hi. by injection Hi as <-. }
  assert (exists ctags, safe_tags_of (getHeaders (sendCancelRequest "2" "app-3" "CANCEL sip:peer SIP/2.0" "" "")) = Ok ctags) as [ctags Hct]
    by (eexists; by vm_compute).
  assert (w' = run_world (doSendRequestOutsideDialog the_transports only_local send_invite) idle) as Ew by (unfold run_world; by rewrite E).
  destruct (Hc (sendCancelRequest "2" "app-3" "CANCEL sip:peer SIP/2.0" "" "") ctags (made None "new call" 1)) as (w'' & i & routed & E2 & Ev2 & _);
    [by vm_compute|exact Hct|rewrite Ew; by vm_compute|].
  exists w', w''. split; [exact E|]. split; [exact E2|exact Ev2].
Defined.

(** The URI is one of the server's own. *)
Definition sends_to_itself : localUris := MkLocalUris [("<sip:sip:peer>", "5060")]%string "".
Lemma request_outside_dialog_refused_witness :
  exists w', doSendRequestOutsideDialog the_transports sends_to_itself send_options idle = Ok (tt, w') /\ dc_events w' = dc_events idle /\
    dc_stack w' = dc_stack idle.
Proof.
  destruct (request_outside_dialog_refused the_transports sends_to_itself send_options "can not send request to myself" idle idle) as (w' & routed & cc & E & Er & _).
  - destruct options_sendable as (from & tags & [(rl & name & ruri & Erl & Ep & Es & _ & _) Epr Et Ef Ec _]).
    unfold send_outside. rewrite Erl, Ep.
    assert (configOutboundProxy = None) as Ecfg by done. rewrite <- Epr. rewrite (M_bind_ok _ _ _ _ _ Es), (M_bind_ok _ _ _ _ _ (pure_ok _ tags idle Et)),
      (M_bind_ok _ _ _ _ _ (pure_ok _ _ idle Ef)), Ec.
    assert (ruri = "sip:peer"%string) as -> by (vm_compute in Ep; by injection Ep as _ ->).
    assert (check_uri sends_to_itself "sip:peer" = Ok (inl "can not send request to myself"%string)) as Eu by by vm_compute.
    by rewrite (M_bind_ok _ _ _ _ _ (pure_ok _ _ idle Eu)).
  - by vm_compute.
  - exists w'. split; [exact E|]. split; [exact (f_equal (fun r => r.1.2) Er)|exact (f_equal (fun r => r.1.1.1.2) Er)].
Defined.

(** The From of a request to a registered user loses the host. *)
Lemma registered_from_loses_host :
  from_header [(siptag_from_str, "sip:me@localhost"%string)] (select_registered 12) = Ok (inr "<sip:>"%string).
Proof. by vm_compute. Qed.
