(* ===== verification/HttpRoutingWitness.v ===== *)
(** Concrete replies and routes for the theorems on the routing of new
    requests by a web service. *)
From S2P Require Import Prelude CppString BoostInstance TextUtil SipTags TextCorrect ClientController PendingRequests DialogWorld InviteInProgressSafety DialogSend HttpRouting RequestHandler HttpRoutingCorrect DialogSendWitness.

Open Scope string_scope.
Open Scope list_scope.

(** A reader of JSON that knows one redirect, and the replies that stand for a
    direct route. *)
Definition quote : string := String (ascii_of_N 34) "".
Definition route_head : string :=
  "{" +:+ quote +:+ "action" +:+ quote +:+ ": " +:+ quote +:+ "route" +:+ quote +:+ ", " +:+ quote +:+ "data" +:+ quote +:+ ": {" +:+
  quote +:+ "uri" +:+ quote +:+ ": " +:+ quote.
Definition two_contacts : json :=
  JObject [("action", JString "redirect"); ("data", JObject [("contact", JArray [JString "<sip:a@x>"; JString "<sip:b@y>"])])].
#[export] Instance some_json : Jansson := {|
  json_loads s :=
    if String.eqb s "REDIRECT" then Some two_contacts
    else if String.prefix route_head s then
      let r := str_drop (String.length route_head) s in Some (route_object (str_take (String.length r - 3) r))
    else None |}.
#[export] Instance some_json_laws : JanssonLaws.
Proof.
  constructor. intros uri _. cbn zeta. fold quote.
  assert (forall x, String.prefix route_head (route_head +:+ x) = true) as Hp.
  { intros x. vm_compute. by destruct x. }
  assert (forall x, json_loads (route_head +:+ x) = Some (route_object (str_take (String.length x - 3) x))) as Hl.
  { intros x. unfold json_loads, some_json. rewrite Hp. rewrite str_drop_app. by destruct x. }
  specialize (Hl (uri +:+ quote +:+ "}}")). unfold route_head in Hl. rewrite !str_app_assoc in Hl. rewrite Hl.
  rewrite str_length_app. change (String.length (quote +:+ "}}")) with 3. by rewrite Nat.add_sub, str_take_app.
Qed.

(** The other controllers write down what they are asked. *)
#[export] Instance log_deps : ControllerDeps (list string) := {|
  dep_generateUuid := mret "uuid";
  dep_sendRequestInsideDialog _ _ _ _ _ _ := mret true;
  dep_sendRequestOutsideDialog _ _ _ _ _ _ _ := mret true;
  dep_respondToSipRequest _ txn line headers _ := _ ← modify (fun l => l ++ [txn +:+ "|" +:+ line +:+ "|" +:+ headers]); mret true;
  dep_sendCancelRequest _ _ _ _ _ := mret true;
  dep_proxyRequest _ txn _ _ _ _ _ _ _ _ := modify (fun l => l ++ [txn +:+ "|proxy"]);
  dep_getMethodForRequest _ := mret None;
  dep_routeNewRequestToClient _ _ := mret 0%Z |}.
#[export] Instance log_connections : OutboundConnections (list string) := {|
  dep_async_connect tls txn host port :=
    _ ← modify (fun l => l ++ [txn +:+ "|" +:+ (if tls then "tls" else "tcp") +:+ "|" +:+ host +:+ "|" +:+ port]); mret true |}.

Lemma two_contacts_say : instructs two_contacts (redirect ["<sip:a@x>"; "<sip:b@y>"]).
Proof. apply instruction_of_spec. by vm_compute. Qed.
Lemma redirect_contacts_sent_witness :
  exists headers, httpCallRoutingComplete "t1" 200 "REDIRECT" (no_clients, []) = Ok (tt, (no_clients, ["t1|SIP/2.0 302 Moved|" +:+ headers])) /\
    tags_of headers "" None = Ok [(siptag_contact_str, "<sip:a@x>"); (siptag_contact_str, "<sip:b@y>")].
Proof.
  destruct (redirect_contacts_sent "t1" 200 "REDIRECT" two_contacts ["<sip:a@x>"; "<sip:b@y>"] (no_clients, [])) as (headers & E & Et).
  - done.
  - exact two_contacts_say.
  - done.
  - repeat constructor; by vm_compute.
  - exists headers. split; [rewrite E; reflexivity|exact (Et "" None)].
Defined.
Lemma routing_reply_obeyed_witness :
  httpCallRoutingComplete "t1" 200 "REDIRECT" (no_clients, []) =
    Ok (tt, (no_clients, ["t1|SIP/2.0 302 Moved|Contact: <sip:a@x>" +:+ String LF "Contact: <sip:b@y>"])) /\
  httpCallRoutingComplete "t1" 200 "<html>" (no_clients, []) = Ok (tt, (no_clients, ["t1|SIP/2.0 500 Server Internal Error|"])).
Proof.
  destruct (routing_reply_obeyed "t1" 200 "REDIRECT" (no_clients, [])) as [E1 _].
  destruct (routing_reply_obeyed "t1" 200 "<html>" (no_clients, [])) as [_ E2].
  rewrite (E1 two_contacts _ eq_refl two_contacts_say), E2 by done. by split.
Defined.
Lemma direct_route_connects_witness :
  startRequest (RouteRequest "t1" "GET" "tls://10.0.0.9:9023" "INVITE" true) (MkRequestHandler ∅ [] ∅ [] [], (no_clients, [])) =
    Ok (tt, (MkRequestHandler ∅ [] ∅ [] [], (no_clients, ["t1|tls|10.0.0.9|9023"]))).
Proof.
  exact (direct_route_connects "t1" "GET" "INVITE" true "10.0.0.9" "9023" true (MkRequestHandler ∅ [] ∅ [] [], (no_clients, []))
    ltac:(by vm_compute) ltac:(by vm_compute) ltac:(done) ltac:(by vm_compute)).
Defined.

(** ** Web requests *)

Definition four_handles : RequestHandler := match getInstance with Ok r => r | Fault _ => MkRequestHandler ∅ [] ∅ [] [] end.
Definition getting (method txn : string) : route_request := RouteRequest txn method "http://10.0.0.3/route" "INVITE sip:a@b" true.
Definition run_handler (m : RH unit) (r : RequestHandler) : RequestHandler := match m r with Ok (_, r') => r' | Fault _ => r end.
Definition busy : RequestHandler := run_handler (start_transfer (getting "POST" "t1")) four_handles.
Lemma four_handles_run : getInstance = Ok four_handles.
Proof. by vm_compute. Qed.
Lemma busy_run : start_transfer (getting "POST" "t1") four_handles = Ok (tt, busy).
Proof. by vm_compute. Qed.
Definition used : positive := default 1%positive (head (rh_cache four_handles)).
Lemma handles_never_shared_witness :
  exists c, size (rh_conns busy) = 1 /\ length (rh_cache busy) = 3 /\
    (s ← get; transfer_done used 200) (busy, (no_clients, [])) =
      (_ ← controllers (httpCallRoutingComplete "t1" 200 ""); handler_of (modify (give_back used c))) (busy, (no_clients, [])).
Proof.
  destruct (handles_never_shared (busy, (no_clients, []))) as [_ Hd].
  - eapply reach_step; [apply (reach_start four_handles (no_clients, [])); exact four_handles_run|].
    apply (step_start (getting "POST" "t1")). unfold startRequest.
    change (is_application_url _) with false. cbn iota. unfold handler_of, zoom. cbn [fst]. by rewrite busy_run.
  - destruct (Hd used 200%Z) as (c & conn & Hc & _ & E).
    + apply (bool_decide_unpack _). by vm_compute.
    + apply (bool_decide_unpack _). by vm_compute.
    + exists c. split; [by vm_compute|]. split; [by vm_compute|]. mstep. rewrite E. cbn [fst] in Hc.
      assert (forall c conn, rh_conns busy !! c = Some conn -> ci_transactionId conn = "t1" /\ ci_response conn = "") as Hall.
      { assert (map_Forall (fun _ conn => ci_transactionId conn = "t1" /\ ci_response conn = "") (rh_conns busy)) as Hm
          by (apply (bool_decide_unpack _); by vm_compute). exact Hm. }
      by destruct (Hall c conn Hc) as [-> ->].
Defined.

(** libcurl keeps the options of a handle: after a POST, a GET that uses the
    same handle is started with the fields of the transfer that is gone. *)
Definition one_handle : RequestHandler :=
  run_handler (start_transfer (getting "GET" "t2"))
    (give_back 1 1 (run_handler (start_transfer (getting "POST" "t1")) (with_new_handle (MkRequestHandler ∅ [] ∅ [] [])))).
Lemma get_posts_old_fields :
  (fun t => eh_postfields (tr_options t)) <$> last (rh_started one_handle) = Some (Some (1%positive, 14)).
Proof. by vm_compute. Qed.
