(* ===== verification/StartupWitness.v ===== *)
(** The theorems about the configuration file and the start of the server at a
    concrete file. *)
From S2P Require Import Prelude CppString Regex BoostInstance SipUri TextUtil RequestRouter SipTransports TransportsWitness Settings CommandLine CommandLineCorrect SettingsCorrect ConfigFile Startup StartupCorrect.

Open Scope string_scope.
Open Scope list_scope.

(** ** Environments and command lines
    The theorems about the settings at concrete environments and command
    lines. *)

(** Numbers with one decimal. *)
#[export] Instance tenths : Floats := {|
  float := Z;
  c_atof s := match split "." s with
              | [a; String d _] => (10 * c_atoi a + c_atoi (String d ""))%Z
              | a :: _ => (10 * c_atoi a)%Z
              | [] => 0%Z
              end;
  float_zero := 0%Z;
  float_ge f n := (n <=? f)%Z;
  float_le f n := (f <=? n)%Z;
  float_gt f n := (n <? f)%Z;
|}.

Definition sample_items : list item :=
  [ItShort "I" (Some ("F"%char, "cymru", false)); ItWord "left"; ItLong (Long "port" true (ReturnChar "p")) "9022" false;
   ItLong (Long "daemon" false (ReturnFlag flag_bDaemonize)) "" false; ItShort "" (Some ("c"%char, "sip:*", true)); ItWord "-"].
Lemma command_line_roundtrip_witness :
  Forall (item_ok short_options long_options) sample_items /\
  (sample_items ≫= print_item) = ["-IFcymru"; "left"; "--port=9022"; "--daemon"; "-c"; "sip:*"; "-"] /\
  getopt_long short_options long_options (sample_items ≫= print_item) =
  ([EvChar "I" None; EvChar "F" (Some "cymru"); EvChar "p" (Some "9022"); EvFlag flag_bDaemonize; EvChar "c" (Some "sip:*")],
   ["left"; "-"]).
Proof.
  assert (Forall (item_ok short_options long_options) sample_items) as Hok.
  { repeat (apply Forall_cons; split); try apply Forall_nil; cbn; try (unfold long_options; set_solver); done. }
  split; [exact Hok|]. split; [done|]. exact (command_line_roundtrip sample_items Hok).
Defined.


Definition sample_env (name : string) : option string :=
  if String.eqb name "DRACHTIO_SECRET" then Some "env"
  else if String.eqb name "DRACHTIO_TLS_KEY_FILE" then Some "key.pem"
  else if String.eqb name "DRACHTIO_TPORT_QUEUESIZE" then Some "5000" else None.
Definition sample_args : list string := ["--secret"; "first"; "-p"; "9022"; "-F"; "last"; "--homer=10.0.0.1"; "--homer-id"; "101"].
Definition continued (r : res (outcome settings)) : option settings := match r with Ok (Continue s) => Some s | _ => None end.
Definition sample_result : option settings := continued (DrachtioController_init sample_env sample_args).
Lemma continued_some r : bool_decide (is_Some ((fun _ => ()) <$> continued r)) = true -> exists s, r = Ok (Continue s) /\ continued r = Some s.
Proof. destruct r as [[s| |]|]; [by eauto|done..]. Qed.
Lemma sample_init : exists s, DrachtioController_init sample_env sample_args = Ok (Continue s) /\ sample_result = Some s.
Proof.
  refine (continued_some (DrachtioController_init sample_env sample_args) _). vm_compute. reflexivity.
Qed.

Lemma text_settings_precedence_witness :
  exists s, sample_result = Some s /\ m_secret (st_admin s) = "last" /\ m_tlsKeyFile (st_tls s) = "key.pem" /\
    m_configFilename (st_process s) = DEFAULT_CONFIG_FILENAME.
Proof.
  destruct sample_init as (s & Hs & Hr). exists s. split; [exact Hr|]. split; [|split].
  - refine (text_settings_precedence sample_env sample_args s (TextSetting "F" "DRACHTIO_SECRET" (fun s => m_secret (st_admin s)) "") Hs _).
    unfold text_settings. set_solver.
  - refine (text_settings_precedence sample_env sample_args s (TextSetting "A" "DRACHTIO_TLS_KEY_FILE" (fun s => m_tlsKeyFile (st_tls s)) "") Hs _).
    unfold text_settings. set_solver.
  - refine (text_settings_precedence sample_env sample_args s (TextSetting "f" "DRACHTIO_CONFIG_FILE_PATH" (fun s => m_configFilename (st_process s)) DEFAULT_CONFIG_FILENAME) Hs _).
    unfold text_settings. set_solver.
Defined.
Lemma settings_in_range_witness :
  exists s, sample_result = Some s /\ m_tportQueuesize (st_sip s) = 1000%Z /\ m_nHomerPort (st_monitor s) = 9060%Z /\ settings_ok s.
Proof.
  destruct sample_init as (s & Hs & Hr). exists s. split; [exact Hr|].
  assert (Some (m_tportQueuesize (st_sip s), m_nHomerPort (st_monitor s)) = Some (1000, 9060)%Z) as [= E1 E2].
  { transitivity ((fun s => (m_tportQueuesize (st_sip s), m_nHomerPort (st_monitor s))) <$> sample_result); [by rewrite Hr|by vm_compute]. }
  split; [exact E1|]. split; [exact E2|]. exact (proj1 (settings_in_range sample_env sample_args s Hs)).
Defined.

Definition sample_groups : list contact_group :=
  [Group "sip:10.0.0.5" (Some "1.2.3.4") (Some "10.0.0.0/8"); Group "sip:*;transport=tcp" None None].
Lemma res_ok {A} (r : res A) : match r with Ok _ => true | Fault _ => false end = true -> exists a, r = Ok a.
Proof. destruct r; [by eauto|done]. Qed.
Lemma contacts_become_transports_witness :
  exists t1 t2, group_transport (Group "sip:10.0.0.5" (Some "1.2.3.4") (Some "10.0.0.0/8")) = Ok t1 /\
    parseCmdArgs ["--contact"; "sip:10.0.0.5"; "--external-ip"; "1.2.3.4"; "--local-net"; "10.0.0.0/8";
                  "--contact"; "sip:*;transport=tcp"; "--dns-name"; "example.org"] initial_settings =
    Ok (Continue (on_vecTransports (fun l => l ++ [t1; addDnsName "example.org" t2]) initial_settings)).
Proof.
  destruct (res_ok (group_transport (Group "sip:10.0.0.5" (Some "1.2.3.4") (Some "10.0.0.0/8")))) as [t1 E1]; [by vm_compute|].
  destruct (res_ok (group_transport (Group "sip:*;transport=tcp" None None))) as [t2 E2]; [by vm_compute|].
  exists t1, t2. split; [done|].
  refine (contacts_become_transports sample_groups ["example.org"] [t1] t2 initial_settings _ _ eq_refl eq_refl).
  - repeat (apply Forall_cons; split); try apply Forall_nil; by repeat split.
  - repeat (apply Forall2_cons; split); try apply Forall2_nil; done.
Defined.

(** An address of the redis server without a port reads a member that nothing
    has initialised; an option documented without a value wants one; [-i] ends
    the process. *)
Example redis_address_alone : parseCmdArgs ["--blacklist-redis-address"; "10.0.0.1"] initial_settings = Fault BadAccess.
Proof. reflexivity. Qed.
Example auto_respond_without_value : parseCmdArgs ["--user-agent-options-auto-respond"] initial_settings = Fault BadAccess.
Proof. reflexivity. Qed.
Example option_i_aborts : parseCmdArgs ["-i"] initial_settings = Fault AssertFail.
Proof. reflexivity. Qed.
(** The route of the environment wins over the one of the command line. *)
Example http_handler_env_wins :
  match DrachtioController_init (fun n => if String.eqb n "DRACHTIO_HTTP_HANDLER_URI" then Some "http://env" else None)
          ["--http-handler"; "http://cmdline"] with
  | Ok (Continue s) => RequestRouter_getRoute "INVITE" (m_requestRouter s) = Some ("GET", "http://env", true)
  | _ => False
  end.
Proof. reflexivity. Qed.

Definition leaf (s : string) : ptree := Tree s [].
Definition attrs (l : list (string * string)) : string * ptree := ("<xmlattr>", Tree "" ((fun a => (a.1, leaf a.2)) <$> l)).

(** A file with TLS for applications, a TLS contact, a blacklist with a
    password, and spammers with a comment. *)
Definition sample_tree : ptree :=
  Tree "" [("drachtio", Tree ""
    [("admin", Tree "127.0.0.1" [attrs [("port", "9022"); ("tls-port", "9023"); ("secret", "cymru")]]);
     ("sip", Tree ""
        [("contacts", Tree "" [("contact", Tree "sips:*:5061;transport=tls" [])]);
         ("tls", Tree "" [("key-file", leaf "file.key"); ("cert-file", leaf "file.crt"); ("dh-param", leaf "dh.pem")]);
         ("blacklist", Tree "" [("redis-address", leaf "10.0.0.9"); ("redis-key", leaf "banned"); ("redis-password", leaf "secret")]);
         ("spammers", Tree "" [("header", Tree "" [attrs [("name", "User-Agent")]; ("<xmlcomment>", leaf "seen in March"); ("value", leaf "sipcli")])])]);
     ("logging", Tree "" [("loglevel", leaf "debug")])])].
(** A file with a TLS contact, but without key and certificate. *)
Definition bare_tree : ptree :=
  Tree "" [("drachtio", Tree ""
    [("admin", Tree "127.0.0.1" [attrs [("port", "9022"); ("secret", "cymru")]]);
     ("sip", Tree "" [("contacts", Tree "" [("contact", Tree "sips:*:5061;transport=tls" []); ("contact", Tree "sip:*:5060" [])])]);
     ("logging", Tree "" [("loglevel", leaf "debug")])])].
#[local] Instance trees : PropertyTree := {|
  read_xml s := if String.eqb s "sample" then Some sample_tree else if String.eqb s "bare" then Some bare_tree else None;
  find_child k l := snd <$> head (filter (fun c => c.1 = k) l);
  to_unsigned s := Z.of_N <$> lexical_cast_unsigned s;
  to_bool s := if String.eqb s "1" then Some true else if String.eqb s "0" then Some false else None;
  to_float s := Some (c_atof s);
|}.
#[local] Instance trees_laws : PropertyTreeLaws.
Proof.
  split.
  - intros k l c. cbn [find_child trees]. intros (p & Hh & ->)%fmap_Some. assert (p ∈ filter (fun c => c.1 = k) l) as [<- Hin]%list_elem_of_filter.
    { destruct (filter _ l); [done|]. cbn in Hh. injection Hh as ->. left. }
    by destruct p.
  - intros k l. cbn [find_child trees]. intros Hn (p & -> & Hin)%list_elem_of_fmap.
    assert (p ∈ filter (fun c => c.1 = p.1) l) as Hf by (by apply list_elem_of_filter).
    destruct (filter _ l); [by apply elem_of_nil in Hf|by cbn in Hn].
  - intros s n. cbn [to_unsigned trees]. destruct (lexical_cast_unsigned s) as [m|] eqn:E; [|done]. intros [= <-].
    apply lexical_cast_unsigned_range in E. lia.
Qed.

Definition files (name : string) : option string := if String.eqb name DEFAULT_CONFIG_FILENAME then Some "sample" else None.
Lemma some_of {A} (o : option A) : bool_decide (is_Some ((fun _ => ()) <$> o)) = true -> exists a, o = Some a.
Proof. destruct o; [by eauto|done]. Qed.

Lemma config_in_range_witness : exists c, DrachtioConfig_new (Some "sample") = Some c /\ config_ok c.
Proof.
  destruct (some_of (DrachtioConfig_new (Some "sample"))) as [c Hc]; [by vm_compute|].
  exists c. split; [exact Hc|]. exact (config_in_range (Some "sample") c Hc).
Defined.

(** A server that is started with the sample environment. *)
Definition started_with (args : list string) (read_file : string -> option string) : option (settings * server * start) :=
  s ← continued (DrachtioController_init sample_env args);
  sv ← DrachtioController_configure read_file s;
  match run (sv_settings sv) (m_Config sv) with Ok g => Some (s, sv, g) | Fault _ => None end.
Lemma started_with_inv args read_file s sv g : started_with args read_file = Some (s, sv, g) ->
  DrachtioController_init sample_env args = Ok (Continue s) /\ DrachtioController_configure read_file s = Some sv /\
  run (sv_settings sv) (m_Config sv) = Ok g.
Proof.
  unfold started_with. destruct (DrachtioController_init sample_env args) as [[s'| |]|]; try done. cbn [continued mbind option_bind].
  destruct (DrachtioController_configure read_file s') as [sv'|] eqn:E; [|done]. cbn [mbind option_bind].
  destruct (run _ _) as [g'|] eqn:Er; [|done]. by intros [= <- <- <-].
Qed.
Lemma started_some args read_file : bool_decide (is_Some ((fun _ => ()) <$> started_with args read_file)) = true ->
  exists s sv g, started_with args read_file = Some (s, sv, g).
Proof. destruct (started_with args read_file) as [[[s sv] g]|]; [by eauto|done]. Qed.
Definition bare_files (name : string) : option string := if String.eqb name DEFAULT_CONFIG_FILENAME then Some "bare" else None.

(** The TLS files of the file, and which of the transports want TLS. *)
Definition file_facts (x : settings * server * start) : string * string * string * list bool :=
  let tls := cf_tls (m_Config x.1.2) in
  (cf_tlsCertFile tls, cf_tlsKeyFile tls, cf_tlsChainFile tls,
   match choose_transports (sv_settings x.1.2) (m_Config x.1.2) with Ok s' => wants_tls <$> m_vecTransports s' | Fault _ => [] end).

(** The key of the environment with the certificate of the file; and with a
    file that has neither, the key of the environment with the certificate of
    the command line, or nothing when there is no certificate. *)
Lemma startup_precedence_witness :
  (exists s sv g, started_with sample_args files = Some (s, sv, g) /\ (forall w, server_isSecret sv w = true <-> w = "last") /\
     tr_tls_files <$> go_tports g = [Some ("key.pem", "file.crt", None)] /\ cs_certFile (go_clients g) = "file.crt") /\
  (exists s sv g, started_with ("--cert-file" :: "cmd.crt" :: sample_args) bare_files = Some (s, sv, g) /\
     tr_tls_files <$> go_tports g = [Some ("key.pem", "cmd.crt", None); None]) /\
  (exists s sv g, started_with sample_args bare_files = Some (s, sv, g) /\ tr_tls_files <$> go_tports g = [None; None]).
Proof.
  split; [|split].
  - destruct (started_some sample_args files) as (s & sv & g & E); [by vm_compute|]. exists s, sv, g. split; [exact E|].
    pose proof E as (Hs & Hsv & Hg)%started_with_inv.
    destruct (startup_precedence sample_env sample_args files s sv g Hs Hsv Hg) as (Hsecret & _ & (s' & Ec & Ht) & Htls).
    assert ((fun x => (cs_tlsPort (go_clients x.2), file_facts x)) <$> started_with sample_args files =
      Some (9023%Z, ("file.crt", "file.key", "", [true]))) as Hf by (by vm_compute).
    rewrite E in Hf. unfold file_facts in Hf. cbn [fmap option_fmap option_map fst snd] in Hf. rewrite Ec in Hf. injection Hf as Hp Hc Hk Hch Hw.
    split; [exact Hsecret|]. split.
    + rewrite Ht. unfold chosen_tls_files. rewrite Hc, Hk, Hch. destruct (m_vecTransports s') as [|t []]; [done| |done].
      injection Hw as Hw. cbn. by rewrite Hw.
    + destruct Htls as (_ & Hcert & _); [by rewrite Hp|]. rewrite Hcert, Hc. by vm_compute.
  - destruct (started_some ("--cert-file" :: "cmd.crt" :: sample_args) bare_files) as (s & sv & g & E); [by vm_compute|].
    exists s, sv, g. split; [exact E|]. pose proof E as (Hs & Hsv & Hg)%started_with_inv.
    destruct (startup_precedence sample_env ("--cert-file" :: "cmd.crt" :: sample_args) bare_files s sv g Hs Hsv Hg) as (_ & _ & (s' & Ec & Ht) & _).
    assert (file_facts <$> started_with ("--cert-file" :: "cmd.crt" :: sample_args) bare_files = Some ("", "", "", [true; false])) as Hf by (by vm_compute).
    rewrite E in Hf. unfold file_facts in Hf. cbn [fmap option_fmap option_map fst snd] in Hf. rewrite Ec in Hf. injection Hf as Hc Hk Hch Hw.
    rewrite Ht. unfold chosen_tls_files. rewrite Hc, Hk, Hch. destruct (m_vecTransports s') as [|t [|t2 []]]; [done|done| |done].
    injection Hw as Hw1 Hw2. cbn. by rewrite Hw1, Hw2.
  - destruct (started_some sample_args bare_files) as (s & sv & g & E); [by vm_compute|].
    exists s, sv, g. split; [exact E|]. pose proof E as (Hs & Hsv & Hg)%started_with_inv.
    destruct (startup_precedence sample_env sample_args bare_files s sv g Hs Hsv Hg) as (_ & _ & (s' & Ec & Ht) & _).
    assert (file_facts <$> started_with sample_args bare_files = Some ("", "", "", [true; false])) as Hf by (by vm_compute).
    rewrite E in Hf. unfold file_facts in Hf. cbn [fmap option_fmap option_map fst snd] in Hf. rewrite Ec in Hf. injection Hf as Hc Hk Hch Hw.
    rewrite Ht. unfold chosen_tls_files. rewrite Hc, Hk, Hch. destruct (m_vecTransports s') as [|t [|t2 []]]; [done|done| |done].
    injection Hw as Hw1 Hw2. cbn. by rewrite Hw1, Hw2.
Defined.

Definition sample_server : option server := s ← sample_result; DrachtioController_configure files s.
Lemma reload_effect_witness : exists sv, sample_server = Some sv /\
  m_current_severity_threshold (st_log (sv_settings (handleSigHup files sv))) = log_debug /\
  sv_settings (handleSigHup (fun _ => None) sv) = sv_settings sv.
Proof.
  destruct (some_of sample_server) as [sv Hsv]; [by vm_compute|]. exists sv. split; [exact Hsv|].
  assert ((fun sv => (bool_decide (is_Some ((fun _ => ()) <$> m_ConfigNew sv)), m_configFilename (st_process (sv_settings sv)))) <$> sample_server = Some (false, DEFAULT_CONFIG_FILENAME)) as Hp by (by vm_compute).
  rewrite Hsv in Hp. cbn [fmap option_fmap option_map] in Hp. injection Hp as Hnew Hname.
  assert (m_ConfigNew sv = None) as Hnone by (by destruct (m_ConfigNew sv)).
  split.
  - destruct (reload_effect files sv Hnone) as (_ & Hr). rewrite Hname in Hr.
    destruct (some_of (DrachtioConfig_new (files DEFAULT_CONFIG_FILENAME))) as [c Hc]; [by vm_compute|]. rewrite Hc in Hr.
    destruct Hr as (_ & _ & -> & _).
    assert ((fun c => cf_loglevel (cf_log c)) <$> DrachtioConfig_new (files DEFAULT_CONFIG_FILENAME) = Some log_debug) as Hl by (by vm_compute).
    rewrite Hc in Hl. by injection Hl.
  - destruct (reload_effect (fun _ => None) sv Hnone) as (_ & Hr). exact (proj1 Hr).
Defined.

(** The password of the file does not reach the blacklist. *)
Example blacklist_password_lost :
  (c ← DrachtioConfig_new (Some "sample"); cf_redisPassword <$> cf_blacklist c) = Some "secret" /\
  (c ← DrachtioConfig_new (Some "sample"); match start_blacklist (choose_redis initial_settings c) with Ok b => b | _ => None end) =
  Some (RedisServer "10.0.0.9" 6379 "" "banned" 3600).
Proof. by vm_compute. Qed.
(** A comment in the list of spammers is taken for a text to look for. *)
Example comment_is_spammer :
  (c ← DrachtioConfig_new (Some "sample"); (getSpammers c).1 !! "user-agent") = Some ["seen in March"; "sipcli"].
Proof. by vm_compute. Qed.
