(* ===== verification/ProxyChallenges.v ===== *)
(** Model of the challenges that [SipProxyController] remembers
    (src/sip-proxy-controller.hpp, src/sip-proxy-controller.cpp): a proxied
    request that a server answered with 401 or 407 is sent to that server
    again when it comes back with credentials. *)
From S2P Require Import Prelude CppString ClientController.

Open Scope list_scope.

(** The first header of each kind that a message has, if any: what
    [msg_header_find_param] finds in it for realm and nonce. *)
Definition auth_header : Type := option string * option string.
Class SipAuth := {
  sip_www_authenticate : positive -> option auth_header;
  sip_proxy_authenticate : positive -> option auth_header;
  sip_authorization : positive -> option auth_header;
  sip_proxy_authorization : positive -> option auth_header;
}.

(** [class ChallengedRequest] *)
Record ChallengedRequest := MkChallenged {
  cq_realm : string;
  cq_nonce : string;
  cq_remoteAddress : string;
  cq_handle : option positive;
}.
(** [m_mapNonce2Challenge] and the timers of its queue: each calls
    [timeoutChallenge] with a pointer to the nonce in a message ([the message,
    the text]); [ch_freed]: the messages that were freed. *)
Record challenges := MkChallenges {
  m_mapNonce2Challenge : gmap string ChallengedRequest;
  ch_armed : gmap positive (positive * string);
  ch_freed : gset positive;
}.
Definition no_challenges : challenges := MkChallenges ∅ ∅ ∅.
Definition on_nonces u c := MkChallenges (u (m_mapNonce2Challenge c)) (ch_armed c) (ch_freed c).
Definition on_ch_armed u c := MkChallenges (m_mapNonce2Challenge c) (u (ch_armed c)) (ch_freed c).
Definition on_ch_freed u c := MkChallenges (m_mapNonce2Challenge c) (ch_armed c) (u (ch_freed c)).

Abbreviation CH := (M challenges).
(** Reading what belongs to a message. *)
Definition read_msg {A} (msg : positive) (a : A) : CH A :=
  c ← get; if bool_decide (msg ∈ ch_freed c) then fail BadAccess else mret a.
Definition free_msg (msg : positive) : CH unit := modify (on_ch_freed (fun s => {[msg]} ∪ s)).

Section auth.
Context `{SipAuth}.

(** Realm and nonce, both of the same header: the second header only counts
    without the first. *)
Definition auth_params (first second : positive -> option auth_header) (msg : positive) : CH (option (string * string)) :=
  h ← read_msg msg (match first msg with Some h => Some h | None => second msg end);
  mret (match h with Some (Some realm, Some nonce) => Some (realm, nonce) | _ => None end).

Definition CHALLENGE_MSECS : Z := 2000.
Definition addChallenge (msg : positive) (target : string) : CH bool :=
  p ← auth_params sip_www_authenticate sip_proxy_authenticate msg;
  match p with
  | None => mret false
  | Some (realm, nonce) =>
    c ← get;
    let h := fresh_addr (ch_armed c) in
    _ ← modify (on_ch_armed (insert h (msg, nonce)));
    _ ← modify (on_nonces (map_insert nonce (MkChallenged realm nonce target (Some h))));
    mret true
  end.
Definition remove_timer (h : option positive) : CH unit :=
  h ← deref h; c ← get;
  match ch_armed c !! h with
  | Some _ => modify (on_ch_armed (delete h))
  | None => fail BadAccess
  end.
Definition isResponseToChallenge (msg : positive) : CH (option string) :=
  p ← auth_params sip_authorization sip_proxy_authorization msg;
  match p with
  | None => mret None
  | Some (realm, nonce) =>
    c ← get;
    match m_mapNonce2Challenge c !! nonce with
    | Some q =>
      if String.eqb (cq_realm q) realm then
        _ ← modify (on_nonces (delete nonce));
        _ ← remove_timer (cq_handle q);
        mret (Some (cq_remoteAddress q))
      else mret None
    | None => mret None
    end
  end.
(** The timer [h] goes off: the queue has taken it out. *)
Definition timeoutChallenge (h : positive) : CH unit :=
  c ← get;
  '(msg, nonce) ← deref (ch_armed c !! h);
  _ ← modify (on_ch_armed (delete h));
  nonce ← read_msg msg nonce;
  modify (on_nonces (delete nonce)).

(** What can happen, in any order: a response with a challenge, a request with
    credentials, a timer, and a message freed. *)
Inductive chal_op :=
  | Challenged (msg : positive) (target : string)
  | Credentials (msg : positive)
  | TimedOut (h : positive)
  | Freed (msg : positive).
Definition chal_step (op : chal_op) : CH unit :=
  match op with
  | Challenged msg target => _ ← addChallenge msg target; mret tt
  | Credentials msg => _ ← isResponseToChallenge msg; mret tt
  | TimedOut h => timeoutChallenge h
  | Freed msg => free_msg msg
  end.
(** When the program takes such a step: messages are alive when they are
    looked at, armed timers go off, and a message that a timer points to is
    kept. *)
Definition chal_ok (op : chal_op) (c : challenges) : Prop :=
  match op with
  | Challenged msg _ | Credentials msg => msg ∉ ch_freed c
  | TimedOut h => is_Some (ch_armed c !! h)
  | Freed msg => forall h n, ch_armed c !! h ≠ Some (msg, n)
  end.
Inductive chal_reachable : challenges -> Prop :=
  | chal_start : chal_reachable no_challenges
  | chal_more c op c' : chal_reachable c -> chal_ok op c -> chal_step op c = Ok (tt, c') -> chal_reachable c'.
End auth.
