(* ===== verification/ProxyChallengesCorrect.v ===== *)
(** Challenges: no step faults, entries and timers go together, and credentials
    go to the server that asked for them, once. *)
From S2P Require Import Prelude CppString ClientController ProxyChallenges.

Open Scope list_scope.

Section auth.
Context `{SipAuth}.

(** Every entry has its armed timer, and what the timers point to is alive. *)
Record chal_inv (c : challenges) : Prop := {
  ci_entry n q : m_mapNonce2Challenge c !! n = Some q ->
    cq_nonce q = n /\ exists h msg, cq_handle q = Some h /\ ch_armed c !! h = Some (msg, n);
  ci_alive h msg n : ch_armed c !! h = Some (msg, n) -> msg ∉ ch_freed c;
}.

(** The realm and the nonce of a message, if it has both. *)
Definition auth_of (first second : positive -> option auth_header) (msg : positive) : option (string * string) :=
  match match first msg with Some h => Some h | None => second msg end with
  | Some (Some realm, Some nonce) => Some (realm, nonce) | _ => None
  end.
Definition challenge_of := auth_of sip_www_authenticate sip_proxy_authenticate.
Definition credentials_of := auth_of sip_authorization sip_proxy_authorization.
Lemma auth_params_run f g msg c : msg ∉ ch_freed c -> auth_params f g msg c = Ok (auth_of f g msg, c).
Proof. intros Hf. unfold auth_params, read_msg, mbind, M_bind, get. by rewrite bool_decide_false. Qed.
Lemma challenge_params msg c : msg ∉ ch_freed c ->
  auth_params sip_www_authenticate sip_proxy_authenticate msg c = Ok (challenge_of msg, c).
Proof. apply auth_params_run. Qed.
Lemma credentials_params msg c : msg ∉ ch_freed c ->
  auth_params sip_authorization sip_proxy_authorization msg c = Ok (credentials_of msg, c).
Proof. apply auth_params_run. Qed.

Lemma addChallenge_run msg target realm nonce c : msg ∉ ch_freed c -> challenge_of msg = Some (realm, nonce) ->
  addChallenge msg target c =
  Ok (true, on_nonces (map_insert nonce (MkChallenged realm nonce target (Some (fresh_addr (ch_armed c)))))
              (on_ch_armed (insert (fresh_addr (ch_armed c)) (msg, nonce)) c)).
Proof. intros Hf Ha. unfold addChallenge. by rewrite (M_bind_ok _ _ _ _ _ (challenge_params _ _ Hf)), Ha. Qed.
Lemma addChallenge_none msg target c : msg ∉ ch_freed c -> challenge_of msg = None -> addChallenge msg target c = Ok (false, c).
Proof. intros Hf Ha. unfold addChallenge. by rewrite (M_bind_ok _ _ _ _ _ (challenge_params _ _ Hf)), Ha. Qed.

Lemma map_insert_lookup {V} k (v : V) (m : gmap string V) n q :
  map_insert k v m !! n = Some q -> m !! n = Some q \/ (n = k /\ q = v /\ m !! k = None).
Proof.
  unfold map_insert. destruct (m !! k) eqn:E; [by left|]. destruct (decide (n = k)) as [->|Hne].
  - rewrite lookup_insert_eq. intros [= <-]. by right.
  - rewrite lookup_insert_ne by done. by left.
Qed.

Lemma challenge_added_inv c msg n q : chal_inv c -> msg ∉ ch_freed c -> cq_nonce q = n -> cq_handle q = Some (fresh_addr (ch_armed c)) ->
  chal_inv (on_nonces (map_insert n q) (on_ch_armed (insert (fresh_addr (ch_armed c)) (msg, n)) c)).
Proof.
  intros [He Ha] Hf Hn Hh. pose proof (fresh_addr_lookup (ch_armed c)) as Hfresh. split; cbn.
  - intros n' q' [Hl|(-> & -> & _)]%map_insert_lookup.
    + destruct (He n' q' Hl) as (Hnq & h & msg' & Hh' & Hl'). split; [done|]. exists h, msg'. split; [done|].
      rewrite lookup_insert_ne; [done|congruence].
    + split; [done|]. exists (fresh_addr (ch_armed c)), msg. split; [done|]. apply lookup_insert_eq.
  - intros h msg' n'. destruct (decide (h = fresh_addr (ch_armed c))) as [->|Hne].
    + rewrite lookup_insert_eq. by intros [= <- <-].
    + rewrite lookup_insert_ne by done. apply Ha.
Qed.
(** An entry that goes with its timer. *)
Lemma forget_inv c n h msg : chal_inv c -> ch_armed c !! h = Some (msg, n) ->
  chal_inv (on_ch_armed (delete h) (on_nonces (delete n) c)).
Proof.
  intros [He Ha] Hh. split; cbn.
  - intros n' q' [Hne Hl]%lookup_delete_Some. destruct (He n' q' Hl) as (Hn & h' & msg' & Hh' & Hl'). split; [done|].
    exists h', msg'. split; [done|]. rewrite lookup_delete_ne; [done|congruence].
  - intros h' msg' n' [_ Hl]%lookup_delete_Some. by eapply Ha.
Qed.

Lemma remove_timer_run h c msg n : ch_armed c !! h = Some (msg, n) -> remove_timer (Some h) c = Ok (tt, on_ch_armed (delete h) c).
Proof. intros E. unfold remove_timer, mbind, M_bind, deref, get. by rewrite E. Qed.
Lemma timeoutChallenge_run h c msg n : chal_inv c -> ch_armed c !! h = Some (msg, n) ->
  timeoutChallenge h c = Ok (tt, on_nonces (delete n) (on_ch_armed (delete h) c)).
Proof.
  intros Hi E. unfold timeoutChallenge, read_msg, mbind, M_bind, get, deref, modify. rewrite E. cbn.
  rewrite bool_decide_false; [done|]. by eapply ci_alive.
Qed.
(** Credentials for an entry. *)
Lemma isResponseToChallenge_hit msg realm nonce c q : chal_inv c -> msg ∉ ch_freed c -> credentials_of msg = Some (realm, nonce) ->
  m_mapNonce2Challenge c !! nonce = Some q -> cq_realm q = realm ->
  exists h m, cq_handle q = Some h /\ ch_armed c !! h = Some (m, nonce) /\
    isResponseToChallenge msg c = Ok (Some (cq_remoteAddress q), on_ch_armed (delete h) (on_nonces (delete nonce) c)).
Proof.
  intros Hi Hf Ha Hq Hr. destruct (ci_entry c Hi _ _ Hq) as (_ & h & m & Hh & Hl). exists h, m. split; [done|]. split; [done|].
  unfold isResponseToChallenge. rewrite (M_bind_ok _ _ _ _ _ (credentials_params _ _ Hf)), Ha. mstep. rewrite Hq, Hr, String.eqb_refl.
  mstep. rewrite Hh. erewrite M_bind_ok; [|exact (remove_timer_run h (on_nonces (delete nonce) c) m nonce Hl)]. done.
Qed.
Lemma isResponseToChallenge_miss msg c :
  msg ∉ ch_freed c ->
  (forall realm nonce q, credentials_of msg = Some (realm, nonce) -> m_mapNonce2Challenge c !! nonce = Some q -> cq_realm q ≠ realm) ->
  isResponseToChallenge msg c = Ok (None, c).
Proof.
  intros Hf Hm. unfold isResponseToChallenge. rewrite (M_bind_ok _ _ _ _ _ (credentials_params _ _ Hf)).
  destruct (credentials_of msg) as [[realm nonce]|] eqn:Ha; [|done].
  mstep. destruct (m_mapNonce2Challenge c !! nonce) as [q|] eqn:Eq; [|done].
  destruct (String.eqb_spec (cq_realm q) realm) as [Er|]; [|done]. by destruct (Hm realm nonce q eq_refl Eq).
Qed.

Lemma answer_cases msg c : chal_inv c -> msg ∉ ch_freed c ->
  (exists realm nonce q h m, credentials_of msg = Some (realm, nonce) /\ m_mapNonce2Challenge c !! nonce = Some q /\ cq_realm q = realm /\
    ch_armed c !! h = Some (m, nonce) /\
    isResponseToChallenge msg c = Ok (Some (cq_remoteAddress q), on_ch_armed (delete h) (on_nonces (delete nonce) c))) \/
  ((forall realm nonce q, credentials_of msg = Some (realm, nonce) -> m_mapNonce2Challenge c !! nonce = Some q -> cq_realm q ≠ realm) /\
   isResponseToChallenge msg c = Ok (None, c)).
Proof.
  intros Hi Hf. destruct (credentials_of msg) as [[realm nonce]|] eqn:Ha.
  2: { right. split; [done|]. apply isResponseToChallenge_miss; [done|]. intros realm nonce q E. by rewrite Ha in E. }
  destruct (m_mapNonce2Challenge c !! nonce) as [q|] eqn:Eq; [destruct (decide (cq_realm q = realm)) as [Er|Er]|].
  - left. destruct (isResponseToChallenge_hit msg realm nonce c q Hi Hf Ha Eq Er) as (h & m & _ & Hl & E).
    exists realm, nonce, q, h, m. by split_and!.
  - right. assert (forall r n q', Some (realm, nonce) = Some (r, n) -> m_mapNonce2Challenge c !! n = Some q' -> cq_realm q' ≠ r) as Hm
      by (intros r n q' [= <- <-]; rewrite Eq; by intros [= <-]).
    split; [done|]. apply isResponseToChallenge_miss; [done|]. by rewrite Ha.
  - right. assert (forall r n q', Some (realm, nonce) = Some (r, n) -> m_mapNonce2Challenge c !! n = Some q' -> cq_realm q' ≠ r) as Hm
      by (intros r n q' [= <- <-]; by rewrite Eq).
    split; [done|]. apply isResponseToChallenge_miss; [done|]. by rewrite Ha.
Qed.

Lemma chal_step_inv op c : chal_inv c -> chal_ok op c -> exists c', chal_step op c = Ok (tt, c') /\ chal_inv c'.
Proof.
  intros Hi Hok. destruct op as [msg target|msg|h|msg]; cbn [chal_step chal_ok] in *.
  - destruct (challenge_of msg) as [[realm nonce]|] eqn:Ha.
    + rewrite (M_bind_ok _ _ _ _ _ (addChallenge_run msg target _ _ c Hok Ha)). eexists. split; [reflexivity|]. by apply challenge_added_inv.
    + rewrite (M_bind_ok _ _ _ _ _ (addChallenge_none msg target c Hok Ha)). by eexists.
  - destruct (answer_cases msg c Hi Hok) as [(realm & nonce & q & h & m & Ha & Hq & Hr & Hl & E)|[_ E]]; rewrite (M_bind_ok _ _ _ _ _ E); eexists; (split; [reflexivity|]); [by eapply forget_inv|done].
  - destruct Hok as [[msg n] E]. eexists. split; [by eapply timeoutChallenge_run|].
    change (on_nonces (delete n) (on_ch_armed (delete h) c)) with (on_ch_armed (delete h) (on_nonces (delete n) c)). by eapply forget_inv.
  - eexists. split; [reflexivity|]. destruct Hi as [He Ha]. split; cbn; [exact He|].
    intros h m n Hl. pose proof (Ha h m n Hl). assert (m ≠ msg) by (intros ->; by destruct (Hok h n)). set_solver.
Qed.

Lemma chal_reachable_inv c : chal_reachable c -> chal_inv c.
Proof.
  induction 1 as [|c op c' _ IH Hok E]; [by split|].
  destruct (chal_step_inv op c IH Hok) as (c2 & E2 & Hi). rewrite E in E2. by injection E2 as ->.
Qed.

(** C30: in any order of challenges, credentials and timers, nothing is read
    after it was freed and no timer is removed twice, as long as the message of
    a challenge is kept while its timer runs; and every challenge that is
    remembered has a running timer that will forget it. *)
Theorem challenges_safe (c : challenges) (op : chal_op) :
  chal_reachable c -> chal_ok op c ->
  exists c', chal_step op c = Ok (tt, c') /\
    forall nonce q, m_mapNonce2Challenge c' !! nonce = Some q ->
      exists h msg, cq_handle q = Some h /\ ch_armed c' !! h = Some (msg, nonce) /\ msg ∉ ch_freed c'.
Proof.
  intros Hr Hok. destruct (chal_step_inv op c (chal_reachable_inv c Hr) Hok) as (c' & E & [He Ha]). exists c'. split; [done|].
  intros nonce q Hq. destruct (He nonce q Hq) as (_ & h & msg & Hh & Hl). exists h, msg. split_and!; eauto.
Qed.

Lemma add_undone nonce q h x c : m_mapNonce2Challenge c !! nonce = None -> ch_armed c !! h = None ->
  on_ch_armed (delete h) (on_nonces (delete nonce) (on_nonces (map_insert nonce q) (on_ch_armed (insert h x) c))) = c.
Proof.
  intros Hn Hh. destruct c as [m a f]. unfold on_ch_armed, on_nonces, map_insert in *. cbn in *. rewrite Hn.
  by rewrite !delete_insert_id.
Qed.
(** a new challenge is remembered: a request with the same realm and nonce
    is for the server that sent the challenge, a request with another realm is
    not, and the timer makes it forgotten; after the answer as after the timer
    the controller is as it was before the challenge, so that the same
    credentials are not an answer again. *)
Theorem challenge_answered_once (c : challenges) (msg req other : positive) (target realm nonce realm2 : string) :
  chal_reachable c -> msg ∉ ch_freed c -> req ∉ ch_freed c -> other ∉ ch_freed c ->
  challenge_of msg = Some (realm, nonce) -> credentials_of req = Some (realm, nonce) ->
  credentials_of other = Some (realm2, nonce) -> realm2 ≠ realm -> m_mapNonce2Challenge c !! nonce = None ->
  exists c1 h, addChallenge msg target c = Ok (true, c1) /\
    isResponseToChallenge req c1 = Ok (Some target, c) /\
    isResponseToChallenge req c = Ok (None, c) /\
    isResponseToChallenge other c1 = Ok (None, c1) /\
    timeoutChallenge h c1 = Ok (tt, c).
Proof.
  intros Hr Hm Hq Ho Am Aq Ao Hne Hn. pose proof (chal_reachable_inv c Hr) as Hi.
  set (h := fresh_addr (ch_armed c)). pose proof (fresh_addr_lookup (ch_armed c)) as Hfresh.
  set (q := MkChallenged realm nonce target (Some h)).
  set (c1 := on_nonces (map_insert nonce q) (on_ch_armed (insert h (msg, nonce)) c)).
  assert (chal_inv c1) as Hi1 by (by apply challenge_added_inv).
  assert (m_mapNonce2Challenge c1 !! nonce = Some q) as Hl1.
  { unfold c1, on_nonces, map_insert. cbn. rewrite Hn. apply lookup_insert_eq. }
  assert (ch_armed c1 !! h = Some (msg, nonce)) as Ha1 by apply lookup_insert_eq.
  exists c1, h. split_and!.
  - by apply addChallenge_run.
  - destruct (isResponseToChallenge_hit req realm nonce c1 q Hi1 Hq Aq Hl1 eq_refl) as (h' & m & [= <-] & _ & E).
    rewrite E. do 2 f_equal. apply (add_undone nonce q h (msg, nonce) c Hn Hfresh).
  - apply isResponseToChallenge_miss; [done|]. rewrite Aq. intros ? ? ? [= <- <-]. by rewrite Hn.
  - apply isResponseToChallenge_miss; [done|]. rewrite Ao. intros ? ? q' [= <- <-]. rewrite Hl1. by intros [= <-].
  - rewrite (timeoutChallenge_run h c1 msg nonce Hi1 Ha1).
    do 2 f_equal. apply (add_undone nonce q h (msg, nonce) c Hn Hfresh).
Qed.

(** When the message does not live as long as the timer, the timer reads it
    all the same. *)
Lemma challenge_dangles (c : challenges) (msg : positive) (target realm nonce : string) :
  msg ∉ ch_freed c -> challenge_of msg = Some (realm, nonce) ->
  (_ ← addChallenge msg target; _ ← free_msg msg; timeoutChallenge (fresh_addr (ch_armed c))) c = Fault BadAccess.
Proof.
  intros Hf Ha. rewrite (M_bind_ok _ _ _ _ _ (addChallenge_run msg target _ _ c Hf Ha)).
  mstep. unfold timeoutChallenge, mbind, M_bind, get, deref, read_msg, modify. cbn. rewrite lookup_insert_eq. cbn.
  unfold mbind, M_bind, get. rewrite bool_decide_true; [done|]. cbn. set_solver.
Qed.
End auth.

(** ** Concrete messages

    1 and 2: a challenge and its answer; 3: the answer with another realm. *)
#[local] Instance sample_auth : SipAuth := {|
  sip_www_authenticate msg := match msg with 1%positive => Some (Some "sip.example", Some "n1") | _ => None end;
  sip_proxy_authenticate _ := None;
  sip_authorization _ := None;
  sip_proxy_authorization msg := match msg with
                    | 2%positive => Some (Some "sip.example", Some "n1")
                    | 3%positive => Some (Some "other", Some "n1")
                    | _ => None
                    end;
|}%string.
Lemma challenges_safe_witness : exists c, chal_step (Challenged 1 "sip:a") no_challenges = Ok (tt, c) /\
  exists c', chal_step (TimedOut 1) c = Ok (tt, c') /\
    forall nonce q, m_mapNonce2Challenge c' !! nonce = Some q ->
      exists h msg, cq_handle q = Some h /\ ch_armed c' !! h = Some (msg, nonce) /\ msg ∉ ch_freed c'.
Proof.
  assert (chal_ok (Challenged 1 "sip:a") no_challenges) as Hok by (cbn; set_solver).
  destruct (chal_step (Challenged 1 "sip:a") no_challenges) as [[[] c]|] eqn:E; [|by vm_compute in E].
  exists c. split; [done|]. apply (challenges_safe c (TimedOut 1)).
  - eapply chal_more; [apply chal_start|exact Hok|exact E].
  - vm_compute in E. injection E as <-. by eexists.
Defined.
Lemma challenge_answered_once_witness : exists c1 h, addChallenge 1 "sip:a" no_challenges = Ok (true, c1) /\
  isResponseToChallenge 2 c1 = Ok (Some "sip:a"%string, no_challenges) /\
  isResponseToChallenge 2 no_challenges = Ok (None, no_challenges) /\
  isResponseToChallenge 3 c1 = Ok (None, c1) /\ timeoutChallenge h c1 = Ok (tt, no_challenges).
Proof.
  apply (challenge_answered_once no_challenges 1 2 3 "sip:a" "sip.example" "n1" "other");
    first [apply chal_start|cbn; set_solver|done].
Defined.
