(* ===== verification/ProxyCore.v ===== *)
(** Model of [ProxyCore] with its [ServerTransaction] and
    [ClientTransaction]s (src/sip-proxy-controller.hpp,
    src/sip-proxy-controller.cpp): the transaction state machines of a
    stateful SIP proxy, their timers, forking, and the choice of the response
    that goes back upstream. *)
From S2P Require Import Prelude CppString TextUtil SipTags SipDialog Cdr.

Open Scope list_scope.

(** ** Data *)

(** [ClientTransaction::State_t] *)
Inductive State_t := not_started | trying | calling | proceeding | completed | terminated.
#[export] Instance State_eq_dec : EqDecision State_t.
Proof. solve_decision. Defined.

(** The timers of a client transaction; each has a queue of its own in the
    timer queue manager. *)
Inductive timer_class := timerA | timerB | timerC | timerD | timerE | timerF | timerK | timerProvisional.
#[export] Instance timer_class_eq_dec : EqDecision timer_class.
Proof. solve_decision. Defined.
Definition class_code (c : timer_class) : nat :=
  match c with timerA => 0 | timerB => 1 | timerC => 2 | timerD => 3 | timerE => 4 | timerF => 5 | timerK => 6 | timerProvisional => 7 end.
Definition class_of_code (n : nat) : timer_class :=
  match n with 0 => timerA | 1 => timerB | 2 => timerC | 3 => timerD | 4 => timerE | 5 => timerF | 6 => timerK | _ => timerProvisional end.
#[export] Program Instance timer_class_countable : Countable timer_class :=
  inj_countable' class_code class_of_code _.
Next Obligation. by intros []. Qed.

Definition TIMER_B_MSECS : Z := 32000.
Definition TIMER_C_MSECS : Z := 185000.
Definition TIMER_D_MSECS : Z := 30000.
Definition NTA_SIP_T4 : Z := 5000.
Definition rfc3261prefix : string := "z9hG4bK".

(** What the proxy reads of a response. *)
Record response := Response {
  rs_status : Z;
  rs_method : sip_method_t;                    (** of the CSeq header *)
  rs_branch : string;                          (** of the top Via *)
  rs_rseq : option Z;
  rs_contacts : list string;                   (** URLs of the Contact headers *)
  rs_contact_expires : option string;          (** of the first of them *)
  rs_subscription : option (string * string);  (** substate and expires *)
  rs_challenge : bool;                         (** an authenticate header with realm and nonce *)
}.

(** What it reads of the request being proxied: [rq_local] says that the URI
    is a sip or sips URI that addresses this server. *)
Record request := Request {
  rq_method : sip_method_t;
  rq_max_forwards : option Z;
  rq_local : bool;
  rq_contact : option (string * string);       (** user and host *)
}.

Record ClientTransaction := MkClientTransaction {
  ct_target : string;
  ct_method : sip_method_t;
  ct_branch : string;
  ct_branchPrack : string;
  ct_state : State_t;
  ct_sipStatus : Z;
  ct_canceled : bool;
  ct_transmitCount : Z;
  ct_durationTimerA : Z;
  ct_rseq : Z;
  ct_timers : gmap timer_class positive;
  ct_final : option response;
}.
Definition set_ct_branch m b c := MkClientTransaction (ct_target c) m b (ct_branchPrack c) (ct_state c) (ct_sipStatus c)
  (ct_canceled c) (ct_transmitCount c) (ct_durationTimerA c) (ct_rseq c) (ct_timers c) (ct_final c).
Definition set_ct_prack b c := MkClientTransaction (ct_target c) (ct_method c) (ct_branch c) b (ct_state c) (ct_sipStatus c)
  (ct_canceled c) (ct_transmitCount c) (ct_durationTimerA c) (ct_rseq c) (ct_timers c) (ct_final c).
Definition set_ct_state s c := MkClientTransaction (ct_target c) (ct_method c) (ct_branch c) (ct_branchPrack c) s (ct_sipStatus c)
  (ct_canceled c) (ct_transmitCount c) (ct_durationTimerA c) (ct_rseq c) (ct_timers c) (ct_final c).
Definition set_ct_sipStatus s c := MkClientTransaction (ct_target c) (ct_method c) (ct_branch c) (ct_branchPrack c) (ct_state c) s
  (ct_canceled c) (ct_transmitCount c) (ct_durationTimerA c) (ct_rseq c) (ct_timers c) (ct_final c).
Definition set_ct_canceled b c := MkClientTransaction (ct_target c) (ct_method c) (ct_branch c) (ct_branchPrack c) (ct_state c)
  (ct_sipStatus c) b (ct_transmitCount c) (ct_durationTimerA c) (ct_rseq c) (ct_timers c) (ct_final c).
Definition set_ct_transmitCount n c := MkClientTransaction (ct_target c) (ct_method c) (ct_branch c) (ct_branchPrack c) (ct_state c)
  (ct_sipStatus c) (ct_canceled c) n (ct_durationTimerA c) (ct_rseq c) (ct_timers c) (ct_final c).
Definition set_ct_duration n c := MkClientTransaction (ct_target c) (ct_method c) (ct_branch c) (ct_branchPrack c) (ct_state c)
  (ct_sipStatus c) (ct_canceled c) (ct_transmitCount c) n (ct_rseq c) (ct_timers c) (ct_final c).
Definition set_ct_rseq n c := MkClientTransaction (ct_target c) (ct_method c) (ct_branch c) (ct_branchPrack c) (ct_state c)
  (ct_sipStatus c) (ct_canceled c) (ct_transmitCount c) (ct_durationTimerA c) n (ct_timers c) (ct_final c).
Definition on_ct_timers u c := MkClientTransaction (ct_target c) (ct_method c) (ct_branch c) (ct_branchPrack c) (ct_state c)
  (ct_sipStatus c) (ct_canceled c) (ct_transmitCount c) (ct_durationTimerA c) (ct_rseq c) (u (ct_timers c)) (ct_final c).
Definition set_ct_final m c := MkClientTransaction (ct_target c) (ct_method c) (ct_branch c) (ct_branchPrack c) (ct_state c)
  (ct_sipStatus c) (ct_canceled c) (ct_transmitCount c) (ct_durationTimerA c) (ct_rseq c) (ct_timers c) m.
Definition isInviteTransaction (c : ClientTransaction) : bool := bool_decide (ct_method c = sip_method_invite).

Record ServerTransaction := MkServerTransaction {
  sv_request : request;
  sv_canceled : bool;
  sv_sipStatus : Z;
  sv_rseq : Z;
  sv_mapAleg2BlegRseq : gmap Z Z;
}.

(** What leaves the proxy core, in order. *)
Inductive event :=
  | SentRequest (client : positive) (branch route : string) (newUri : option string) (maxForwards : Z) (recordRoute path : bool)
  | SentCancel (client : positive)
  | SentAck (client : positive)
  | SentPrack (client : positive) (rack : Z) (recordRoute : option string)
  | ForwardedResponse (status : Z) (rseq : option Z)
  | GeneratedResponse (status : Z)
  | Discarded
  | CacheTport (user host : string) (expires : Z)
  | FlushTport (user host : string)
  | PostedCdr (record : RecordType_t) (source : string) (role : AgentRole_t) (reason : TerminationReason_t)
  | ApiResponse (what : string)
  | RemovedProxy
  | StoredChallenge (target : string).

(** [class ProxyCore], with the timers it shares with the timer queue manager
    ([pc_armed]: queue, transaction, milliseconds), the objects its vector of
    client transactions points to, the results of the next calls of
    [nta_msg_tsend], [su_random] and [generateUuid], and what it has sent. *)
Record ProxyCore := MkProxyCore {
  pc_fullResponse : bool;
  pc_bFollowRedirects : bool;
  pc_bRecordRoute : bool;
  pc_canceled : bool;
  pc_searching : bool;
  pc_serial : bool;
  pc_nProvisionalTimeout : Z;
  pc_server : ServerTransaction;
  pc_objects : gmap positive ClientTransaction;
  pc_vecClientTransactions : list positive;
  pc_armed : gmap positive (timer_class * positive * Z);
  pc_sends : list Z;
  pc_randoms : list Z;
  pc_uuids : list string;
  pc_events : list event;
}.
Definition set_canceled b p := MkProxyCore (pc_fullResponse p) (pc_bFollowRedirects p) (pc_bRecordRoute p) b (pc_searching p) (pc_serial p)
  (pc_nProvisionalTimeout p) (pc_server p) (pc_objects p) (pc_vecClientTransactions p) (pc_armed p) (pc_sends p) (pc_randoms p) (pc_uuids p) (pc_events p).
Definition set_searching b p := MkProxyCore (pc_fullResponse p) (pc_bFollowRedirects p) (pc_bRecordRoute p) (pc_canceled p) b (pc_serial p)
  (pc_nProvisionalTimeout p) (pc_server p) (pc_objects p) (pc_vecClientTransactions p) (pc_armed p) (pc_sends p) (pc_randoms p) (pc_uuids p) (pc_events p).
Definition set_provisionalTimeout n p := MkProxyCore (pc_fullResponse p) (pc_bFollowRedirects p) (pc_bRecordRoute p) (pc_canceled p) (pc_searching p) (pc_serial p)
  n (pc_server p) (pc_objects p) (pc_vecClientTransactions p) (pc_armed p) (pc_sends p) (pc_randoms p) (pc_uuids p) (pc_events p).
Definition on_server u p := MkProxyCore (pc_fullResponse p) (pc_bFollowRedirects p) (pc_bRecordRoute p) (pc_canceled p) (pc_searching p) (pc_serial p)
  (pc_nProvisionalTimeout p) (u (pc_server p)) (pc_objects p) (pc_vecClientTransactions p) (pc_armed p) (pc_sends p) (pc_randoms p) (pc_uuids p) (pc_events p).
Definition on_pc_objects u p := MkProxyCore (pc_fullResponse p) (pc_bFollowRedirects p) (pc_bRecordRoute p) (pc_canceled p) (pc_searching p) (pc_serial p)
  (pc_nProvisionalTimeout p) (pc_server p) (u (pc_objects p)) (pc_vecClientTransactions p) (pc_armed p) (pc_sends p) (pc_randoms p) (pc_uuids p) (pc_events p).
Definition on_vec u p := MkProxyCore (pc_fullResponse p) (pc_bFollowRedirects p) (pc_bRecordRoute p) (pc_canceled p) (pc_searching p) (pc_serial p)
  (pc_nProvisionalTimeout p) (pc_server p) (pc_objects p) (u (pc_vecClientTransactions p)) (pc_armed p) (pc_sends p) (pc_randoms p) (pc_uuids p) (pc_events p).
Definition on_armed u p := MkProxyCore (pc_fullResponse p) (pc_bFollowRedirects p) (pc_bRecordRoute p) (pc_canceled p) (pc_searching p) (pc_serial p)
  (pc_nProvisionalTimeout p) (pc_server p) (pc_objects p) (pc_vecClientTransactions p) (u (pc_armed p)) (pc_sends p) (pc_randoms p) (pc_uuids p) (pc_events p).
Definition set_sends l p := MkProxyCore (pc_fullResponse p) (pc_bFollowRedirects p) (pc_bRecordRoute p) (pc_canceled p) (pc_searching p) (pc_serial p)
  (pc_nProvisionalTimeout p) (pc_server p) (pc_objects p) (pc_vecClientTransactions p) (pc_armed p) l (pc_randoms p) (pc_uuids p) (pc_events p).
Definition set_randoms l p := MkProxyCore (pc_fullResponse p) (pc_bFollowRedirects p) (pc_bRecordRoute p) (pc_canceled p) (pc_searching p) (pc_serial p)
  (pc_nProvisionalTimeout p) (pc_server p) (pc_objects p) (pc_vecClientTransactions p) (pc_armed p) (pc_sends p) l (pc_uuids p) (pc_events p).
Definition set_uuids l p := MkProxyCore (pc_fullResponse p) (pc_bFollowRedirects p) (pc_bRecordRoute p) (pc_canceled p) (pc_searching p) (pc_serial p)
  (pc_nProvisionalTimeout p) (pc_server p) (pc_objects p) (pc_vecClientTransactions p) (pc_armed p) (pc_sends p) (pc_randoms p) l (pc_events p).
Definition on_events u p := MkProxyCore (pc_fullResponse p) (pc_bFollowRedirects p) (pc_bRecordRoute p) (pc_canceled p) (pc_searching p) (pc_serial p)
  (pc_nProvisionalTimeout p) (pc_server p) (pc_objects p) (pc_vecClientTransactions p) (pc_armed p) (pc_sends p) (pc_randoms p) (pc_uuids p) (u (pc_events p)).

Abbreviation PM := (M ProxyCore).
Definition emit (e : event) : PM unit := modify (on_events (fun l => l ++ [e])).
(** The result of the next send (negative: failure), random number and id. *)
Definition next_send : PM Z := p ← get; _ ← modify (set_sends (tail (pc_sends p))); mret (default 0%Z (head (pc_sends p))).
Definition su_random : PM Z := p ← get; _ ← modify (set_randoms (tail (pc_randoms p))); mret (default 1%Z (head (pc_randoms p))).
Definition generateUuid : PM string := p ← get; _ ← modify (set_uuids (tail (pc_uuids p))); mret (default ""%string (head (pc_uuids p))).

Definition ct_load (p : positive) : PM ClientTransaction := c ← get; deref (pc_objects c !! p).
Definition ct_store (p : positive) (f : ClientTransaction -> ClientTransaction) : PM unit :=
  o ← ct_load p; modify (on_pc_objects (insert p (f o))).

(** ** Timers of a client transaction *)

(** [m_timerX = m_pTQM->addTimer("timerX", ...)] *)
Definition addTimer (p : positive) (cls : timer_class) (ms : Z) : PM unit := fun core =>
  let h := fresh_addr (pc_armed core) in
  match ct_store p (on_ct_timers (insert cls h)) (on_armed (insert h (cls, p, ms)) core) with
  | Ok (_, core') => Ok (tt, core')
  | Fault f => Fault f
  end.
(** [removeTimer(m_timerX, "timerY")]: nothing to do for a NULL handle. *)
Definition removeTimer (p : positive) (member queue : timer_class) : PM unit :=
  c ← ct_load p;
  match ct_timers c !! member with
  | None => mret tt
  | Some h =>
    core ← get;
    match pc_armed core !! h with
    | Some (cls, _, _) =>
      if bool_decide (cls = queue) then
        _ ← modify (on_armed (delete h));
        ct_store p (on_ct_timers (delete member))
      else fail BadAccess
    | None => fail BadAccess
    end
  end.
Definition removeTimerOf (p : positive) (cls : timer_class) : PM unit := removeTimer p cls cls.
Definition assert_unset (p : positive) (cls : timer_class) : PM unit :=
  c ← ct_load p; assertb (bool_decide (ct_timers c !! cls = None)).
Definition clearTimer (p : positive) (cls : timer_class) : PM unit := ct_store p (on_ct_timers (delete cls)).

(** [setState(newState)] *)
Definition enter_invite (p : positive) (s : State_t) : PM unit :=
  match s with
  | calling =>
    _ ← assert_unset p timerA; _ ← assert_unset p timerB; _ ← assert_unset p timerC;
    _ ← ct_store p (set_ct_duration NTA_SIP_T1);
    _ ← addTimer p timerA NTA_SIP_T1;
    _ ← addTimer p timerB TIMER_B_MSECS;
    _ ← addTimer p timerC TIMER_C_MSECS;
    core ← get;
    if bool_decide (0 < pc_nProvisionalTimeout core)%Z then addTimer p timerProvisional (pc_nProvisionalTimeout core) else mret tt
  | proceeding =>
    _ ← removeTimerOf p timerA; _ ← removeTimerOf p timerB; removeTimerOf p timerProvisional
  | completed =>
    _ ← removeTimerOf p timerA; _ ← removeTimerOf p timerB; _ ← removeTimerOf p timerC;
    _ ← removeTimerOf p timerProvisional; _ ← removeTimerOf p timerD;
    addTimer p timerD TIMER_D_MSECS
  | terminated =>
    _ ← removeTimerOf p timerA; _ ← removeTimerOf p timerB; _ ← removeTimerOf p timerC; removeTimerOf p timerProvisional
  | _ => mret tt
  end.
Definition enter_non_invite (p : positive) (s : State_t) : PM unit :=
  match s with
  | trying =>
    _ ← assert_unset p timerE; _ ← assert_unset p timerF;
    _ ← ct_store p (set_ct_duration NTA_SIP_T1);
    _ ← addTimer p timerE NTA_SIP_T1;
    addTimer p timerF (64 * NTA_SIP_T1)
  | proceeding => removeTimerOf p timerE
  | completed => _ ← removeTimerOf p timerE; _ ← removeTimerOf p timerF; addTimer p timerK NTA_SIP_T4
  | terminated => _ ← removeTimerOf p timerE; _ ← removeTimerOf p timerF; removeTimerOf p timerK
  | _ => mret tt
  end.
Definition setState (p : positive) (newState : State_t) : PM unit :=
  c ← ct_load p;
  if bool_decide (newState = ct_state c) then mret tt else
  _ ← ct_store p (set_ct_state newState);
  if isInviteTransaction c then enter_invite p newState else enter_non_invite p newState.

(** ** Sending requests *)

(** The outbound proxy of the configuration, whether there is a transport
    for a target (with or without a transport preferred), and the contact URI
    of the transport that reaches a route, if there is one. *)
Class ProxyEnv := {
  sip_outbound_proxy : option string;
  findAppropriateTransport : string -> option string -> bool;
  contactUriForRoute : string -> option string;
}.

Section core.
Context `{ProxyEnv} (sort : (ClientTransaction -> ClientTransaction -> bool) -> list (positive * ClientTransaction) -> list (positive * ClientTransaction)).

(** [forwardRequest(msg, headers)] of a client transaction; [rq] is the
    message being sent. *)
Definition forwardRequest (p : positive) (rq : request) : PM bool :=
  _ ← ct_store p (fun c => set_ct_transmitCount (ct_transmitCount c + 1) c);
  c ← ct_load p;
  _ ← (if bool_decide (ct_state c = not_started) then
         _ ← assertb (bool_decide (ct_transmitCount c = 1%Z));
         random ← generateUuid;
         _ ← ct_store p (set_ct_branch (rq_method rq) (rfc3261prefix +:+ random));
         setState p (if bool_decide (rq_method rq = sip_method_invite) then calling else trying)
       else mret tt);
  let maxForwards := match rq_max_forwards rq with Some n => (n - 1)%Z | None => 70%Z end in
  c ← ct_load p;
  route ← match sip_outbound_proxy with
          | None => mret (ct_target c)
          | Some route => if String.eqb (ct_target c) "" then fail (Thrown "runtime_error") else mret route
          end;
  let newUri := if rq_local rq then Some (ct_target c) else None in
  if negb (findAppropriateTransport (ct_target c) None) &&
     negb (negb (strstr (ct_target c) "transport=") && findAppropriateTransport (ct_target c) (Some "tcp"%string))
  then mret false else
  core ← get;
  rc ← next_send;
  if bool_decide (rc < 0)%Z then
    _ ← setState p terminated;
    _ ← ct_store p (set_ct_sipStatus 503);
    mret true
  else
    let rr := pc_bRecordRoute core && negb (bool_decide (rq_method rq = sip_method_register)) in
    let path := pc_bRecordRoute core && bool_decide (rq_method rq = sip_method_register) in
    _ ← emit (SentRequest p (ct_branch c) route newUri maxForwards rr path);
    _ ← (if bool_decide (ct_transmitCount c = 1%Z) && isInviteTransaction c
         then emit (PostedCdr attempt_record "application" role_undefined no_termination) else mret tt);
    mret true.

(** [retransmitRequest(msg, headers)]; the shift of an [int]. *)
Definition retransmitRequest (p : positive) (rq : request) : PM bool :=
  _ ← ct_store p (fun c => set_ct_duration (Z.shiftl (ct_durationTimerA c) 1) c);
  ok ← forwardRequest p rq;
  if ok : bool then
    c ← ct_load p;
    _ ← (if isInviteTransaction c then addTimer p timerA (ct_durationTimerA c) else addTimer p timerE (ct_durationTimerA c));
    mret true
  else mret false.

(** [cancelRequest(msg)]: the timers given to [removeTimer] are those of the
    source, C three times more. *)
Definition cancelRequest (p : positive) : PM Z :=
  _ ← removeTimerOf p timerA;
  _ ← removeTimerOf p timerB;
  _ ← removeTimerOf p timerC;
  _ ← removeTimer p timerC timerE;
  _ ← removeTimer p timerC timerF;
  _ ← removeTimer p timerC timerK;
  c ← ct_load p;
  match ct_state c with
  | calling => _ ← setState p completed; _ ← ct_store p (set_ct_canceled true); mret 0%Z
  | not_started => _ ← setState p terminated; mret 0%Z
  | proceeding =>
    rc ← next_send;
    if bool_decide (rc < 0)%Z then mret (-1)%Z else
    _ ← emit (SentCancel p);
    _ ← ct_store p (set_ct_canceled true);
    mret 0%Z
  | _ => mret 0%Z
  end.

(** [forwardPrack(msg, sip)] of a client transaction; [route] is the URL of
    the Route header, if there is one. *)
Definition ct_forwardPrack (p : positive) (route : option string) : PM bool :=
  c ← ct_load p;
  _ ← assertb (bool_decide (ct_rseq c ≠ 0%Z));
  random ← generateUuid;
  _ ← ct_store p (set_ct_prack (rfc3261prefix +:+ random));
  record_route ← match route with
                 | None => mret None
                 | Some r =>
                   match contactUriForRoute r with
                   | None => fail AssertFail
                   | Some uri => mret (Some ("<" +:+ uri +:+ ";lr>"))
                   end
                 end;
  core ← get;
  rc ← next_send;
  if bool_decide (rc < 0)%Z then mret false else
  _ ← emit (SentPrack p (ct_rseq c) (if pc_bRecordRoute core then record_route else None)); mret true.

(** ** The server transaction *)

Definition getReplacedRSeq (rseq : Z) (s : ServerTransaction) : Z := default 0%Z (sv_mapAleg2BlegRseq s !! rseq).

Definition server_writeCdr (status : Z) : PM unit :=
  if bool_decide (status = 200%Z) then emit (PostedCdr start_record "application" proxy_uas no_termination)
  else if bool_decide (200 < status)%Z then
    emit (PostedCdr stop_record "application" role_undefined
            (if bool_decide (status = 487%Z) then call_canceled else call_rejected))
  else mret tt.

(** The rewriting of RSeq: the new number, and the map from it to the
    original one. *)
Definition rewrite_rseq (original : Z) : PM Z :=
  core ← get;
  start ← (if bool_decide (sv_rseq (pc_server core) = 0%Z) then su_random else mret (sv_rseq (pc_server core)));
  let rseq := ((start + 1) mod 2 ^ 32)%Z in
  _ ← modify (on_server (fun s => MkServerTransaction (sv_request s) (sv_canceled s) (sv_sipStatus s) rseq
        (match sv_mapAleg2BlegRseq s !! rseq with
         | Some _ => sv_mapAleg2BlegRseq s
         | None => <[rseq := original]> (sv_mapAleg2BlegRseq s)
         end)));
  mret rseq.

(** Caching the transport of a subscriber whose contact is in .invalid. *)
Definition cache_transport (r : response) : PM unit :=
  core ← get;
  let relevant := (bool_decide (rs_method r = sip_method_subscribe) && bool_decide (rs_status r = 202%Z)) ||
                  (bool_decide (rs_method r = sip_method_register) && bool_decide (rs_status r = 200%Z)) in
  match rq_contact (sv_request (pc_server core)) with
  | Some (user, host) =>
    if relevant && strstr host ".invalid" then
      if bool_decide (rs_method r = sip_method_subscribe) then
        sub ← deref (rs_subscription r);
        if String.eqb sub.1 "terminated" then emit (FlushTport user host)
        else emit (CacheTport user host (atoi sub.2))
      else
        let expires := match rs_contacts r, rs_contact_expires r with _ :: _, Some e => atoi e | _, _ => 0%Z end in
        if bool_decide (0 < expires)%Z then emit (CacheTport user host expires) else emit (FlushTport user host)
    else mret tt
  | None => mret tt
  end.

(** [forwardResponse(msg, sip)] *)
Definition forwardResponse (r : response) : PM bool :=
  rseq ← match rs_rseq r with
         | Some original => if bool_decide (rs_status r < 200)%Z then Some <$> rewrite_rseq original else mret (Some original)
         | None => mret None
         end;
  _ ← cache_transport r;
  rc ← next_send;
  if bool_decide (rc < 0)%Z then mret false else
  _ ← emit (ForwardedResponse (rs_status r) rseq);
  core ← get;
  let bRetransmitFinal := bool_decide (200 <= sv_sipStatus (pc_server core))%Z && bool_decide (200 <= rs_status r)%Z in
  _ ← (if bRetransmitFinal then mret tt else
       modify (on_server (fun s => MkServerTransaction (sv_request s) (sv_canceled s) (rs_status r) (sv_rseq s) (sv_mapAleg2BlegRseq s))));
  _ ← (if negb bRetransmitFinal && bool_decide (rs_method r = sip_method_invite) && bool_decide (200 <= rs_status r)%Z
       then server_writeCdr (rs_status r) else mret tt);
  mret true.

(** [generateResponse(status)] *)
Definition generateResponse (status : Z) : PM bool :=
  core ← get;
  _ ← emit (GeneratedResponse status);
  _ ← (if bool_decide (rq_method (sv_request (pc_server core)) = sip_method_invite) && bool_decide (200 <= status)%Z
       then emit (PostedCdr stop_record "application" role_undefined call_rejected) else mret tt);
  mret true.

(** ** The proxy core *)

Fixpoint load_all (l : list positive) : PM (list (positive * ClientTransaction)) :=
  match l with
  | [] => mret []
  | p :: l => c ← ct_load p; cs ← load_all l; mret ((p, c) :: cs)
  end.
Definition clients : PM (list (positive * ClientTransaction)) := core ← get; load_all (pc_vecClientTransactions core).

Definition IsTerminated (c : ClientTransaction) : bool := bool_decide (ct_state c = terminated).
Definition IsTerminatedOrNotStarted (c : ClientTransaction) : bool :=
  bool_decide (ct_state c = terminated) || bool_decide (ct_state c = not_started).
Definition IsCallingOrProceeding (c : ClientTransaction) : bool :=
  bool_decide (ct_state c = calling) || bool_decide (ct_state c = proceeding).

Definition removeTerminated (alsoRemoveNotStarted : bool) : PM unit :=
  cs ← clients;
  let gone := if alsoRemoveNotStarted then IsTerminatedOrNotStarted else IsTerminated in
  let rest := filter (fun x => gone x.2 = false) cs in
  _ ← modify (on_vec (fun _ => rest.*1));
  if bool_decide (rest = []) then emit RemovedProxy else mret tt.

Fixpoint cancel_all (l : list positive) : PM unit :=
  match l with
  | [] => mret tt
  | p :: l => _ ← cancelRequest p; cancel_all l
  end.
Definition cancelOutstandingRequests : PM unit :=
  _ ← modify (set_searching false);
  core ← get;
  cancel_all (pc_vecClientTransactions core).
Definition notifyForwarded200OK : PM unit :=
  _ ← modify (set_searching false);
  _ ← cancelOutstandingRequests;
  removeTerminated true.
Definition exhaustedAllTargets : PM bool :=
  cs ← clients; mret (bool_decide (filter (fun x => IsCallingOrProceeding x.2 = true) cs = [])).

(** [bestResponseOrder(c1, c2)] *)
Definition challenge_status (s : Z) : bool := bool_decide (s ∈ [401; 407; 415; 420; 484]%Z).
Definition bestResponseOrder (c1 c2 : ClientTransaction) : bool :=
  let d1 := bool_decide (ct_state c1 = completed) in
  let d2 := bool_decide (ct_state c2 = completed) in
  if d1 && negb d2 then true else if negb d1 && d2 then false else
  if d1 && d2 then
    let s1 := ct_sipStatus c1 in
    let s2 := ct_sipStatus c2 in
    if (600 <=? s1)%Z then true else if (600 <=? s2)%Z then false else
    if challenge_status s1 then true else if challenge_status s2 then false else
    if (400 <=? s1)%Z && (s1 <=? 499)%Z then true else if (400 <=? s2)%Z && (s2 <=? 499)%Z then false else
    if (500 <=? s1)%Z && (s1 <=? 599)%Z then true else if (500 <=? s2)%Z && (s2 <=? 599)%Z then false else true
  else true.

Definition forwardBestResponse : PM unit :=
  _ ← modify (set_searching false);
  cs ← clients;
  let sorted := sort bestResponseOrder cs in
  _ ← modify (on_vec (fun _ => sorted.*1));
  _ ← match sorted with
      | (_, c) :: _ =>
        if bool_decide (ct_state c ≠ completed) || bool_decide (ct_sipStatus c = 0%Z) then generateResponse 408
        else match ct_final c with
             | None => fail AssertFail
             | Some msg => forwardResponse msg
             end
      | [] => generateResponse 408
      end;
  core ← get;
  if pc_fullResponse core then emit (ApiResponse "done") else mret tt.

(** The loop of [startRequests]; it stops after one in serial mode. *)
Fixpoint start_loop (serial : bool) (rq : request) (l : list positive) : PM nat :=
  match l with
  | [] => mret 0
  | p :: l =>
    c ← ct_load p;
    if bool_decide (ct_state c = not_started) then
      sent ← forwardRequest p rq;
      if (sent : bool) && serial then mret 1 else
      n ← start_loop serial rq l;
      mret (if sent then S n else n)
    else start_loop serial rq l
  end.
Definition startRequests : PM nat :=
  core ← get;
  if negb (pc_searching core) then mret 0 else
  start_loop (pc_serial core) (sv_request (pc_server core)) (pc_vecClientTransactions core).

(** [addClientTransactions]: after the first one with the same target. *)
Fixpoint insert_after (target : string) (new : list positive) (cs : list (positive * ClientTransaction)) : option (list positive) :=
  match cs with
  | [] => None
  | (p, c) :: cs =>
    if String.eqb target (ct_target c) then Some (p :: new ++ cs.*1)
    else cons p <$> insert_after target new cs
  end.
Definition addClientTransactions (new : list positive) (target : string) : PM unit :=
  cs ← clients;
  match insert_after target new cs with
  | None => fail AssertFail
  | Some v => modify (on_vec (fun _ => v))
  end.
Definition new_transaction (target : string) : PM positive :=
  random ← generateUuid;
  core ← get;
  let p := fresh_addr (pc_objects core) in
  _ ← modify (on_pc_objects (insert p
        (MkClientTransaction target sip_method_unknown (rfc3261prefix +:+ random) "" not_started 0 false 0 0 0 ∅ None)));
  mret p.
Fixpoint new_transactions (targets : list string) : PM (list positive) :=
  match targets with
  | [] => mret []
  | t :: ts => p ← new_transaction t; ps ← new_transactions ts; mret (p :: ps)
  end.
(** The constructor and [initializeTransactions]. *)
Definition initializeTransactions (targets : list string) : PM unit :=
  ps ← new_transactions targets; modify (on_vec (fun v => v ++ ps)).

(** [setProvisionalTimeout(t)]: the expression ^(\d+)(ms|s)$ *)
Definition setProvisionalTimeout (t : string) (core : ProxyCore) : ProxyCore :=
  let d := digits t in
  let unit_ := str_drop (String.length d) t in
  if String.eqb d "" then core
  else if String.eqb unit_ "s" then set_provisionalTimeout ((atoi d * 1000) mod 2 ^ 32)%Z core
  else if String.eqb unit_ "ms" then set_provisionalTimeout (atoi d mod 2 ^ 32)%Z core
  else core.

(** ** Responses *)

Definition client_writeCdr (status : Z) : PM unit :=
  if bool_decide (status = 200%Z) then emit (PostedCdr start_record "network" proxy_uac no_termination)
  else emit (PostedCdr stop_record "network" role_undefined
              (if bool_decide (status = 487%Z) then call_canceled else call_rejected)).

(** A response to the original request: the new state and its timers. *)
Definition apply_status (p : positive) (status : Z) : PM unit :=
  c ← ct_load p;
  if (100 <=? status)%Z && (status <=? 199)%Z then
    _ ← setState p proceeding;
    if negb (Z.eqb status 100) && isInviteTransaction c then
      c ← ct_load p;
      _ ← assertb (bool_decide (is_Some (ct_timers c !! timerC)));
      _ ← removeTimerOf p timerC;
      addTimer p timerC TIMER_C_MSECS
    else mret tt
  else if (200 <=? status)%Z && (status <=? 299)%Z then
    _ ← setState p (if isInviteTransaction c then terminated else completed);
    notifyForwarded200OK
  else if (300 <=? status)%Z then setState p completed
  else mret tt.

(** A final response other than success: kept, acknowledged, redirects followed. *)
Definition keep_final (p : positive) (r : response) : PM unit :=
  _ ← ct_store p (set_ct_final (Some r));
  c ← ct_load p;
  _ ← (if isInviteTransaction c then emit (SentAck p) else mret tt);
  core ← get;
  if (rs_status r <=? 399)%Z && pc_bFollowRedirects core && negb (bool_decide (rs_contacts r = [])) then
    ps ← new_transactions (rs_contacts r);
    addClientTransactions ps (ct_target c)
  else mret tt.

Definition full_response (p : positive) (status : Z) : PM unit :=
  core ← get;
  if pc_fullResponse core && (200 <=? status)%Z then
    _ ← emit (ApiResponse "continue");
    exhausted ← (if pc_canceled core then exhaustedAllTargets else mret false);
    if ((200 <=? status)%Z && (status <=? 299)%Z) || exhausted then emit (ApiResponse "done") else mret tt
  else mret tt.

(** [processResponse(msg, sip)] of a client transaction. *)
Definition ct_processResponse (p : positive) (r : response) : PM bool :=
  c ← ct_load p;
  if negb (String.eqb (ct_branch c) (rs_branch r)) && negb (bool_decide (rs_method r = sip_method_prack)) then mret false else
  if String.eqb (ct_branchPrack c) (rs_branch r) && bool_decide (rs_method r = sip_method_prack) then mret false else
  if bool_decide (ct_state c = terminated) then _ ← emit Discarded; mret true else
  if ct_canceled c && bool_decide (ct_state c = completed) && bool_decide (ct_sipStatus c = 0%Z) &&
     bool_decide (ct_method c = rs_method r) && isInviteTransaction c then
    _ ← setState p proceeding; _ ← cancelRequest p; _ ← emit Discarded; mret true else
  if bool_decide (ct_method c = rs_method r) then
    if (bool_decide (ct_state c = completed) || bool_decide (ct_state c = terminated)) && (200 <=? rs_status r)%Z then
      _ ← (if isInviteTransaction c then emit (SentAck p) else mret tt);
      _ ← emit Discarded; mret true else
    let status := rs_status r in
    _ ← ct_store p (set_ct_sipStatus status);
    _ ← apply_status p status;
    _ ← (if (200 <=? status)%Z && isInviteTransaction c then removeTimerOf p timerC else mret tt);
    if bool_decide (status = 100%Z) then _ ← emit Discarded; mret true else
    let bForward := (100 <? status)%Z && (status <? 300)%Z in
    _ ← match rs_rseq r with
        | Some rseq => if bForward && (status <? 200)%Z then ct_store p (set_ct_rseq rseq) else mret tt
        | None => mret tt
        end;
    _ ← (if (300 <=? status)%Z then keep_final p r else mret tt);
    _ ← (if isInviteTransaction c && (200 <=? status)%Z then client_writeCdr status else mret tt);
    _ ← full_response p status;
    _ ← (if bForward then _ ← forwardResponse r; mret tt else emit Discarded);
    mret true
  else
    _ ← emit Discarded; mret true.

(** [ProxyCore::processResponse(msg, sip)] *)
Fixpoint first_to_handle (l : list positive) (r : response) : PM (option positive) :=
  match l with
  | [] => mret None
  | p :: l => handled ← ct_processResponse p r; if handled : bool then mret (Some p) else first_to_handle l r
  end.
Definition core_processResponse (r : response) : PM bool :=
  core ← get;
  handled ← first_to_handle (pc_vecClientTransactions core) r;
  target ← match handled with Some p => c ← ct_load p; mret (ct_target c) | None => mret ""%string end;
  _ ← (if (bool_decide (rs_status r = 401%Z) || bool_decide (rs_status r = 407%Z)) && rs_challenge r then
         _ ← emit (StoredChallenge target);
         _ ← removeTerminated true;
         forwardBestResponse
       else
         _ ← removeTerminated false;
         _ ← (if (200 <? rs_status r)%Z then _ ← startRequests; mret tt else mret tt);
         core ← get;
         exhausted ← exhaustedAllTargets;
         if pc_searching core && exhausted then forwardBestResponse else mret tt);
  mret (bool_decide (is_Some handled)).

(** [ProxyCore::forwardPrack] and [forwardRequest] *)
Definition first_client (test : ClientTransaction -> bool) : PM (option positive) :=
  cs ← clients; mret (fst <$> head (filter (fun x => test x.2 = true) cs)).
Definition core_forwardPrack (ra_response : Z) (route : option string) : PM bool :=
  core ← get;
  let rseq := getReplacedRSeq ra_response (pc_server core) in
  p ← first_client (fun c => Z.eqb (ct_rseq c) rseq);
  match p with
  | None => mret false
  | Some p => _ ← ct_forwardPrack p route; mret true
  end.
Definition core_forwardRequest (rq : request) : PM bool :=
  p ← first_client IsCallingOrProceeding;
  match p with
  | None => mret false
  | Some p => _ ← forwardRequest p rq; mret true
  end.

(** ** Timers going off *)

Definition best_if_exhausted : PM unit :=
  core ← get;
  exhausted ← exhaustedAllTargets;
  if pc_searching core && exhausted then forwardBestResponse else mret tt.
Definition assert_state (p : positive) (ok : list State_t) : PM unit :=
  c ← ct_load p; assertb (bool_decide (ct_state c ∈ ok)).

Definition fire_timerA (p : positive) : PM unit :=
  _ ← assert_state p [calling]; _ ← clearTimer p timerA;
  core ← get;
  _ ← retransmitRequest p (sv_request (pc_server core)); mret tt.
Definition fire_timerB (p : positive) : PM unit :=
  _ ← assert_state p [calling]; _ ← clearTimer p timerB;
  _ ← setState p terminated; _ ← removeTerminated false; best_if_exhausted.
Definition fire_timerC (p : positive) : PM unit :=
  _ ← assert_state p [proceeding; calling]; _ ← clearTimer p timerC;
  c ← ct_load p;
  _ ← (if bool_decide (ct_state c = proceeding) then _ ← cancelRequest p; mret tt else mret tt);
  _ ← generateResponse 408;
  _ ← setState p terminated; _ ← removeTerminated false; best_if_exhausted.
Definition fire_timerD (p : positive) : PM unit :=
  _ ← assert_state p [completed]; _ ← clearTimer p timerD;
  _ ← setState p terminated; removeTerminated false.
Definition fire_timerE (p : positive) : PM unit :=
  _ ← assert_state p [trying]; _ ← clearTimer p timerE;
  core ← get;
  _ ← retransmitRequest p (sv_request (pc_server core)); mret tt.
Definition fire_timerF (p : positive) : PM unit :=
  _ ← clearTimer p timerF; _ ← setState p terminated; removeTerminated false.
Definition fire_timerK (p : positive) : PM unit :=
  _ ← assert_state p [completed]; _ ← clearTimer p timerK;
  _ ← setState p terminated; removeTerminated false.
Definition fire_timerProvisional (p : positive) : PM unit :=
  _ ← assert_state p [calling]; _ ← clearTimer p timerProvisional;
  _ ← modify (set_canceled true);
  _ ← setState p completed; _ ← removeTerminated false; _ ← startRequests; best_if_exhausted.

(** A timer that is armed goes off: the queue forgets it and calls its
    function. *)
Definition fire (h : positive) : PM unit :=
  core ← get;
  match pc_armed core !! h with
  | None => mret tt
  | Some (cls, p, _) =>
    _ ← modify (on_armed (delete h));
    match cls with
    | timerA => fire_timerA p | timerB => fire_timerB p | timerC => fire_timerC p | timerD => fire_timerD p
    | timerE => fire_timerE p | timerF => fire_timerF p | timerK => fire_timerK p
    | timerProvisional => fire_timerProvisional p
    end
  end.

(** ** Requests from upstream *)

(** CANCEL in [processRequestWithoutRouteHeader]. *)
Definition core_cancel : PM unit :=
  _ ← modify (set_canceled true);
  _ ← modify (on_server (fun s => MkServerTransaction (sv_request s) true (sv_sipStatus s) (sv_rseq s) (sv_mapAleg2BlegRseq s)));
  _ ← generateResponse 487;
  cancelOutstandingRequests.
End core.
