(* ===== verification/ProxyCorrect.v ===== *)
(** Correctness of the proxy core: the timers of a client transaction in each
    of its states, forking, RSeq rewriting, the response sent upstream, and
    the sequences of events that abort it. *)
From S2P Require Import Prelude CppString TextUtil SipTags SipDialog Cdr ProxyCore.

Open Scope list_scope.

Abbreviation armed_map := (gmap positive (timer_class * positive * Z)).

(** ** The timers of one transaction *)

Section timers.
Context (p : positive).
Implicit Types (c : ClientTransaction) (a : armed_map) (core : ProxyCore).

(** The core with transaction [p] and the armed timers replaced. *)
Definition upd c a core : ProxyCore := on_pc_objects (insert p c) (on_armed (fun _ => a) core).

Lemma upd_upd c a c' a' core : upd c a (upd c' a' core) = upd c a core.
Proof. unfold upd, on_pc_objects, on_armed. cbn. by rewrite insert_insert_eq. Qed.
Lemma upd_id c core : pc_objects core !! p = Some c -> upd c (pc_armed core) core = core.
Proof. intros E. unfold upd, on_pc_objects, on_armed. destruct core. cbn in *. by rewrite insert_id. Qed.

(** Every timer the transaction holds is armed, for it and in its queue. *)
Definition timers_ok c a : Prop :=
  forall cls h, ct_timers c !! cls = Some h -> exists ms, a !! h = Some (cls, p, ms).
(** When the timer of a class goes off, if it is set. *)
Definition view c a (cls : timer_class) : option Z := ct_timers c !! cls ≫= fun h => snd <$> a !! h.
(** Timers of other transactions are the same. *)
Definition others_same a a' : Prop := forall h cls q ms, q ≠ p -> a !! h = Some (cls, q, ms) <-> a' !! h = Some (cls, q, ms).
(** No timer is armed for the transaction but the ones it holds. *)
Definition owned c a : Prop := forall h cls ms, a !! h = Some (cls, p, ms) -> ct_timers c !! cls = Some h.

Definition set_timers (t : gmap timer_class positive) c : ClientTransaction := on_ct_timers (fun _ => t) c.

Lemma view_none c a cls : timers_ok c a -> view c a cls = None <-> ct_timers c !! cls = None.
Proof.
  intros Hok. unfold view. destruct (ct_timers c !! cls) as [h|] eqn:E; cbn; [|done].
  destruct (Hok _ _ E) as [ms ->]. done.
Qed.

Lemma ct_load_upd c a core : ct_load p (upd c a core) = Ok (c, upd c a core).
Proof. unfold ct_load, mbind, M_bind, get. cbn. by rewrite lookup_insert_eq. Qed.
Lemma ct_store_upd f c a core : ct_store p f (upd c a core) = Ok (tt, upd (f c) a core).
Proof.
  unfold ct_store. rewrite (M_bind_ok _ _ _ _ _ (ct_load_upd c a core)).
  unfold modify, upd, on_pc_objects. cbn. by rewrite insert_insert_eq.
Qed.

Lemma addTimer_run cls ms c a core :
  timers_ok c a ->
  exists t a', addTimer p cls ms (upd c a core) = Ok (tt, upd (set_timers t c) a' core) /\
    timers_ok (set_timers t c) a' /\ others_same a a' /\
    (forall cls', view (set_timers t c) a' cls' = if decide (cls = cls') then Some ms else view c a cls').
Proof.
  intros Hok. set (h := fresh_addr a). pose proof (fresh_addr_lookup a) as Hf. fold h in Hf.
  exists (<[cls := h]> (ct_timers c)), (<[h := (cls, p, ms)]> a). split_and!.
  - unfold addTimer. change (fresh_addr (pc_armed (upd c a core))) with h.
    change (on_armed (insert h (cls, p, ms)) (upd c a core)) with (upd c (<[h := (cls, p, ms)]> a) core).
    by rewrite ct_store_upd.
  - intros cls' h'. cbn. intros [[<- <-]|[Hne Hl]]%lookup_insert_Some; [rewrite lookup_insert_eq; eauto|].
    destruct (Hok _ _ Hl) as [ms' Hms]. exists ms'. rewrite lookup_insert_ne by congruence. done.
  - intros h' cls' q ms' Hq. destruct (decide (h = h')) as [<-|Hn]; [|by rewrite lookup_insert_ne].
    rewrite lookup_insert_eq, Hf. split; congruence.
  - intros cls'. unfold view. cbn. destruct (decide (cls = cls')) as [<-|Hne].
    + rewrite lookup_insert_eq. cbn. by rewrite lookup_insert_eq.
    + rewrite lookup_insert_ne by done. destruct (ct_timers c !! cls') as [h'|] eqn:E; [|done]. cbn.
      destruct (Hok _ _ E) as [ms' Hms]. by rewrite lookup_insert_ne by congruence.
Qed.

Lemma removeTimer_run cls c a core :
  timers_ok c a ->
  exists t a', removeTimerOf p cls (upd c a core) = Ok (tt, upd (set_timers t c) a' core) /\
    timers_ok (set_timers t c) a' /\ others_same a a' /\
    (forall cls', view (set_timers t c) a' cls' = if decide (cls = cls') then None else view c a cls').
Proof.
  intros Hok. unfold removeTimerOf, removeTimer. rewrite (M_bind_ok _ _ _ _ _ (ct_load_upd c a core)).
  destruct (ct_timers c !! cls) as [h|] eqn:E.
  - destruct (Hok _ _ E) as [ms Hh]. exists (delete cls (ct_timers c)), (delete h a). split_and!.
    + erewrite M_bind_ok by reflexivity. cbn beta. change (pc_armed (upd c a core)) with a. rewrite Hh.
      rewrite bool_decide_eq_true_2 by done. erewrite M_bind_ok by reflexivity. cbn beta.
      change (on_armed (delete h) (upd c a core)) with (upd c (delete h a) core). by rewrite ct_store_upd.
    + intros cls' h'. cbn. intros [Hne Hl]%lookup_delete_Some. destruct (Hok _ _ Hl) as [ms' Hms].
      exists ms'. rewrite lookup_delete_ne; [done|]. intros ->. congruence.
    + intros h' cls' q ms' Hq. destruct (decide (h = h')) as [<-|Hn]; [|by rewrite lookup_delete_ne].
      rewrite lookup_delete_eq, Hh. split; congruence.
    + intros cls'. unfold view. cbn. destruct (decide (cls = cls')) as [<-|Hne]; [by rewrite lookup_delete_eq|].
      rewrite lookup_delete_ne by done. destruct (ct_timers c !! cls') as [h'|] eqn:E'; [|done]. cbn.
      destruct (Hok _ _ E') as [ms' Hms]. rewrite lookup_delete_ne; [done|]. intros ->. congruence.
  - exists (ct_timers c), a. assert (Hc : set_timers (ct_timers c) c = c) by (by destruct c). rewrite !Hc.
    split; [reflexivity|]. split; [done|]. split; [done|]. intros cls'. case_decide; [|done]. subst. unfold view. by rewrite E.
Qed.

(** A sequence of removals ([None]) and additions of timers. *)
Fixpoint timer_ops (us : list (timer_class * option Z)) : PM unit :=
  match us with
  | [] => mret tt
  | (cls, None) :: us => _ ← removeTimerOf p cls; timer_ops us
  | (cls, Some ms) :: us => _ ← addTimer p cls ms; timer_ops us
  end.
Fixpoint after_ops (us : list (timer_class * option Z)) (v : timer_class -> option Z) : timer_class -> option Z :=
  match us with
  | [] => v
  | (cls, o) :: us => after_ops us (fun cls' => if decide (cls = cls') then o else v cls')
  end.

Lemma after_ops_ext us v v' : (forall cls, v cls = v' cls) -> forall cls, after_ops us v cls = after_ops us v' cls.
Proof.
  revert v v'. induction us as [|[cls o] us IH]; intros v v' Hv; [done|]. cbn. apply IH.
  intros cls'. case_decide; [done|apply Hv].
Qed.

Lemma timer_ops_run us c a core :
  timers_ok c a ->
  exists t a', timer_ops us (upd c a core) = Ok (tt, upd (set_timers t c) a' core) /\
    timers_ok (set_timers t c) a' /\ others_same a a' /\
    (forall cls, view (set_timers t c) a' cls = after_ops us (view c a) cls).
Proof.
  revert c a. induction us as [|[cls o] us IH]; intros c a Hok.
  { exists (ct_timers c), a. assert (Hc : set_timers (ct_timers c) c = c) by (by destruct c). rewrite !Hc.
    split_and!; [reflexivity|done|done|done]. }
  assert (exists t a', (match o with Some ms => addTimer p cls ms | None => removeTimerOf p cls end) (upd c a core) =
      Ok (tt, upd (set_timers t c) a' core) /\ timers_ok (set_timers t c) a' /\ others_same a a' /\
      (forall cls', view (set_timers t c) a' cls' = if decide (cls = cls') then o else view c a cls'))
    as (t1 & a1 & E1 & Hok1 & Ho1 & Hv1) by (destruct o; [by apply addTimer_run|by apply removeTimer_run]).
  destruct (IH (set_timers t1 c) a1 Hok1) as (t & a' & E & Hok' & Ho & Hv). exists t, a'. split_and!.
  - destruct o; cbn [timer_ops]; rewrite (M_bind_ok _ _ _ _ _ E1); exact E.
  - exact Hok'.
  - intros h cls' q ms Hq. rewrite (Ho1 h cls' q ms Hq). by apply Ho.
  - intros cls'. change (set_timers t c) with (set_timers t (set_timers t1 c)). rewrite Hv. cbn [after_ops].
    by apply after_ops_ext.
Qed.

(** The operations start only timers that are not set. *)
Fixpoint fresh_starts (us : list (timer_class * option Z)) (v : timer_class -> option Z) : Prop :=
  match us with
  | [] => True
  | (cls, o) :: us => (is_Some o -> v cls = None) /\ fresh_starts us (fun cls' => if decide (cls = cls') then o else v cls')
  end.

Lemma fresh_starts_ext us v v' : (forall cls, v cls = v' cls) -> fresh_starts us v -> fresh_starts us v'.
Proof.
  revert v v'. induction us as [|[cls o] us IH]; intros v v' Hv; [done|]. cbn. rewrite Hv. intros [? Hf]. split; [done|].
  eapply IH, Hf. intros cls'. cbn. case_decide; [done|apply Hv].
Qed.

Lemma upd_inj c a c' a' core : Ok (tt, upd c a core) = Ok (tt, upd c' a' core) -> c = c' /\ a = a'.
Proof.
  intros E0. assert (upd c a core = upd c' a' core) as E by (by apply (f_equal (fun x => match x with Ok y => y.2 | Fault _ => core end)) in E0).
  split; [|exact (f_equal pc_armed E)].
  pose proof (f_equal (fun x => pc_objects x !! p) E) as E'. cbn in E'. rewrite !lookup_insert_eq in E'. congruence.
Qed.

Lemma addTimer_owned cls ms c a core c' a' :
  owned c a -> ct_timers c !! cls = None -> addTimer p cls ms (upd c a core) = Ok (tt, upd c' a' core) -> owned c' a'.
Proof.
  intros Hw Hn. unfold addTimer. set (h := fresh_addr (pc_armed (upd c a core))).
  change (on_armed (insert h (cls, p, ms)) (upd c a core)) with (upd c (<[h := (cls, p, ms)]> a) core).
  rewrite ct_store_upd. intros [<- <-]%upd_inj. intros h' cls' ms'. cbn.
  intros [[<- [= <- <-]]|[Hne Hl]]%lookup_insert_Some; [by rewrite lookup_insert_eq|].
  apply Hw in Hl. rewrite lookup_insert_ne; [done|]. congruence.
Qed.

Lemma removeTimer_owned cls c a core c' a' :
  timers_ok c a -> owned c a -> removeTimerOf p cls (upd c a core) = Ok (tt, upd c' a' core) -> owned c' a'.
Proof.
  intros Hok Hw. unfold removeTimerOf, removeTimer. rewrite (M_bind_ok _ _ _ _ _ (ct_load_upd c a core)).
  destruct (ct_timers c !! cls) as [h|] eqn:E.
  - destruct (Hok _ _ E) as [ms Hh]. erewrite M_bind_ok by reflexivity. cbn beta. change (pc_armed (upd c a core)) with a. rewrite Hh.
    rewrite bool_decide_eq_true_2 by done. erewrite M_bind_ok by reflexivity. cbn beta.
    change (on_armed (delete h) (upd c a core)) with (upd c (delete h a) core). rewrite ct_store_upd.
    intros [<- <-]%upd_inj. intros h' cls' ms'. cbn. intros [Hne Hl]%lookup_delete_Some. apply Hw in Hl.
    rewrite lookup_delete_ne; [done|]. congruence.
  - rewrite M_ret_run. by intros [<- <-]%upd_inj.
Qed.

Lemma timer_ops_owned us c a core t a' :
  timers_ok c a -> owned c a -> fresh_starts us (view c a) ->
  timer_ops us (upd c a core) = Ok (tt, upd (set_timers t c) a' core) -> owned (set_timers t c) a'.
Proof.
  revert c a. induction us as [|[cls o] us IH]; intros c a Hok Hw Hf E.
  { cbn [timer_ops] in E. rewrite M_ret_run in E. by apply upd_inj in E as [<- <-]. }
  destruct Hf as [Hn Hf].
  assert (exists t1 a1, (match o with Some ms => addTimer p cls ms | None => removeTimerOf p cls end) (upd c a core) =
      Ok (tt, upd (set_timers t1 c) a1 core) /\ timers_ok (set_timers t1 c) a1 /\ owned (set_timers t1 c) a1 /\
      forall cls', view (set_timers t1 c) a1 cls' = if decide (cls = cls') then o else view c a cls')
    as (t1 & a1 & E1 & Hok1 & Hw1 & Hv).
  { destruct o as [ms|].
    - destruct (addTimer_run cls ms c a core Hok) as (t1 & a1 & E1 & Hok1 & _ & Hv). exists t1, a1. split_and!; [done..| |done].
      eapply addTimer_owned, E1; [done|]. apply (view_none c a); [done|]. by apply Hn.
    - destruct (removeTimer_run cls c a core Hok) as (t1 & a1 & E1 & Hok1 & _ & Hv). exists t1, a1. split_and!; [done..| |done].
      by eapply removeTimer_owned, E1. }
  change (set_timers t c) with (set_timers t (set_timers t1 c)) in *. eapply IH; [exact Hok1|exact Hw1| |].
  - eapply fresh_starts_ext, Hf. intros cls'. by rewrite Hv.
  - by destruct o; cbn [timer_ops] in E; rewrite (M_bind_ok _ _ _ _ _ E1) in E.
Qed.

(** *** [setState] *)

Lemma bind_unit (m : PM unit) core : (_ ← m; mret tt) core = m core.
Proof. unfold mbind, M_bind. by destruct (m core) as [[[] ?]|]. Qed.

(** What entering a state does to the timers. *)
Definition invite_ops (provisionalTimeout : Z) (s : State_t) : list (timer_class * option Z) :=
  match s with
  | calling => [(timerA, Some NTA_SIP_T1); (timerB, Some TIMER_B_MSECS); (timerC, Some TIMER_C_MSECS)] ++
      (if bool_decide (0 < provisionalTimeout)%Z then [(timerProvisional, Some provisionalTimeout)] else [])
  | proceeding => [(timerA, None); (timerB, None); (timerProvisional, None)]
  | completed => [(timerA, None); (timerB, None); (timerC, None); (timerProvisional, None); (timerD, None); (timerD, Some TIMER_D_MSECS)]
  | terminated => [(timerA, None); (timerB, None); (timerC, None); (timerProvisional, None)]
  | _ => []
  end.
Definition non_invite_ops (s : State_t) : list (timer_class * option Z) :=
  match s with
  | trying => [(timerE, Some NTA_SIP_T1); (timerF, Some (64 * NTA_SIP_T1)%Z)]
  | proceeding => [(timerE, None)]
  | completed => [(timerE, None); (timerF, None); (timerK, Some NTA_SIP_T4)]
  | terminated => [(timerE, None); (timerF, None); (timerK, None)]
  | _ => []
  end.
Definition entry_ops (invite : bool) (provisionalTimeout : Z) (s : State_t) : list (timer_class * option Z) :=
  if invite then invite_ops provisionalTimeout s else non_invite_ops s.
(** The timers that have to be unset on entry, and the field it resets. *)
Definition entry_unset (invite : bool) (s : State_t) : list timer_class :=
  match invite, s with true, calling => [timerA; timerB; timerC] | false, trying => [timerE; timerF] | _, _ => [] end.
Definition entered (invite : bool) (s : State_t) c : ClientTransaction :=
  match invite, s with
  | true, calling | false, trying => set_ct_duration NTA_SIP_T1 (set_ct_state s c)
  | _, _ => set_ct_state s c
  end.

Lemma timer_ops_app us us' core : timer_ops (us ++ us') core = (_ ← timer_ops us; timer_ops us') core.
Proof.
  revert core. induction us as [|[cls o] us IH]; intros core; [done|].
  destruct o; cbn [app timer_ops]; unfold mbind, M_bind.
  - destruct (addTimer _ _ _ _) as [[? ?]|]; [apply IH|done].
  - destruct (removeTimerOf _ _ _) as [[? ?]|]; [apply IH|done].
Qed.

Lemma assert_unset_run cls c a core :
  ct_timers c !! cls = None -> assert_unset p cls (upd c a core) = Ok (tt, upd c a core).
Proof.
  intros E. unfold assert_unset. rewrite (M_bind_ok _ _ _ _ _ (ct_load_upd c a core)).
  by apply assertb_true, bool_decide_eq_true_2.
Qed.

Lemma enter_calling c a core :
  timers_ok c a -> (forall cls, cls ∈ entry_unset true calling -> ct_timers c !! cls = None) ->
  enter_invite p calling (upd c a core) =
    timer_ops (invite_ops (pc_nProvisionalTimeout core) calling) (upd (set_ct_duration NTA_SIP_T1 c) a core).
Proof.
  intros Hok Hun. cbn [enter_invite invite_ops].
  rewrite (M_bind_ok _ _ _ _ _ (assert_unset_run timerA c a core (Hun timerA ltac:(set_solver)))).
  rewrite (M_bind_ok _ _ _ _ _ (assert_unset_run timerB c a core (Hun timerB ltac:(set_solver)))).
  rewrite (M_bind_ok _ _ _ _ _ (assert_unset_run timerC c a core (Hun timerC ltac:(set_solver)))).
  rewrite (M_bind_ok _ _ _ _ _ (ct_store_upd _ c a core)), timer_ops_app.
  destruct (timer_ops_run [(timerA, Some NTA_SIP_T1); (timerB, Some TIMER_B_MSECS); (timerC, Some TIMER_C_MSECS)]
    (set_ct_duration NTA_SIP_T1 c) a core Hok) as (t & a' & E & _).
  rewrite (M_bind_ok _ _ _ _ _ E). cbn [timer_ops] in E. unfold mbind, M_bind in E |- *.
  destruct (addTimer p timerA _ _) as [[[] c1]|]; [|done]. destruct (addTimer p timerB _ _) as [[[] c2]|]; [|done].
  destruct (addTimer p timerC _ _) as [[[] c3]|]; [|done]. rewrite M_ret_run in E. injection E as ->. cbn [get].
  change (pc_nProvisionalTimeout (upd (set_timers t (set_ct_duration NTA_SIP_T1 c)) a' core)) with (pc_nProvisionalTimeout core).
  case_bool_decide; [|done]. cbn [timer_ops]. by rewrite bind_unit.
Qed.

Lemma enter_trying c a core :
  (forall cls, cls ∈ entry_unset false trying -> ct_timers c !! cls = None) ->
  enter_non_invite p trying (upd c a core) =
    timer_ops (non_invite_ops trying) (upd (set_ct_duration NTA_SIP_T1 c) a core).
Proof.
  intros Hun. cbn [enter_non_invite non_invite_ops].
  rewrite (M_bind_ok _ _ _ _ _ (assert_unset_run timerE c a core (Hun timerE ltac:(set_solver)))).
  rewrite (M_bind_ok _ _ _ _ _ (assert_unset_run timerF c a core (Hun timerF ltac:(set_solver)))).
  rewrite (M_bind_ok _ _ _ _ _ (ct_store_upd _ c a core)). cbn [timer_ops]. unfold mbind, M_bind.
  destruct (addTimer p timerE _ _) as [[[] c1]|]; [|done]. by destruct (addTimer p timerF _ _) as [[[] c2]|].
Qed.

(** The other states only add and remove timers. *)
Lemma enter_invite_ops s core :
  s ≠ calling -> forall ms, enter_invite p s core = timer_ops (invite_ops ms s) core.
Proof.
  intros Hs ms. destruct s; try done; cbn [enter_invite invite_ops timer_ops]; unfold mbind, M_bind;
    repeat match goal with
    | |- context [removeTimerOf p ?cls ?x] => destruct (removeTimerOf p cls x) as [[[] ?]|]; [|done]
    end; try done. by destruct (addTimer _ _ _ _) as [[[] ?]|].
Qed.
Lemma enter_non_invite_ops s core :
  s ≠ trying -> enter_non_invite p s core = timer_ops (non_invite_ops s) core.
Proof.
  intros Hs. destruct s; try done; cbn [enter_non_invite non_invite_ops timer_ops]; unfold mbind, M_bind;
    repeat match goal with
    | |- context [removeTimerOf p ?cls ?x] => destruct (removeTimerOf p cls x) as [[[] ?]|]; [|done]
    end; try done. by destruct (addTimer _ _ _ _) as [[[] ?]|].
Qed.

Lemma setState_ops invite s c a core :
  isInviteTransaction c = invite -> ct_state c ≠ s -> timers_ok c a ->
  (forall cls, cls ∈ entry_unset invite s -> ct_timers c !! cls = None) ->
  setState p s (upd c a core) =
    timer_ops (entry_ops invite (pc_nProvisionalTimeout core) s) (upd (entered invite s c) a core).
Proof.
  intros Hinv Hne Hok Hun. unfold setState. rewrite (M_bind_ok _ _ _ _ _ (ct_load_upd c a core)).
  rewrite bool_decide_eq_false_2 by congruence. rewrite (M_bind_ok _ _ _ _ _ (ct_store_upd _ c a core)), Hinv.
  destruct invite.
  - destruct (decide (s = calling)) as [->|Hs]; [by apply enter_calling|].
    rewrite (enter_invite_ops s _ Hs (pc_nProvisionalTimeout core)). by destruct s.
  - destruct (decide (s = trying)) as [->|Hs]; [by apply enter_trying|].
    rewrite enter_non_invite_ops by done. by destruct s.
Qed.

Lemma setState_run invite s c a core :
  isInviteTransaction c = invite -> ct_state c ≠ s -> timers_ok c a ->
  (forall cls, cls ∈ entry_unset invite s -> ct_timers c !! cls = None) ->
  exists t a', setState p s (upd c a core) = Ok (tt, upd (set_timers t (entered invite s c)) a' core) /\
    timers_ok (set_timers t (entered invite s c)) a' /\ others_same a a' /\
    (forall cls, view (set_timers t (entered invite s c)) a' cls =
       after_ops (entry_ops invite (pc_nProvisionalTimeout core) s) (view c a) cls).
Proof.
  intros Hinv Hne Hok Hun. rewrite (setState_ops invite) by done. assert (Hv : forall x, view (entered invite s c) a x = view c a x) by (by destruct invite, s).
  destruct (timer_ops_run (entry_ops invite (pc_nProvisionalTimeout core) s) (entered invite s c) a core)
    as (t & a' & ? & ? & ? & Hview); [by destruct invite, s|].
  exists t, a'. split_and!; [done..|]. intros cls. rewrite Hview. by apply after_ops_ext.
Qed.

(** Entering a state leaves no timer running that the transaction does not hold. *)
Lemma setState_owned invite s c a core t a' :
  isInviteTransaction c = invite -> ct_state c ≠ s -> timers_ok c a -> owned c a ->
  (forall cls, cls ∈ entry_unset invite s -> ct_timers c !! cls = None) ->
  fresh_starts (entry_ops invite (pc_nProvisionalTimeout core) s) (view c a) ->
  setState p s (upd c a core) = Ok (tt, upd (set_timers t (entered invite s c)) a' core) ->
  owned (set_timers t (entered invite s c)) a'.
Proof.
  intros Hinv Hne Hok Hw Hun Hf. rewrite (setState_ops invite) by done. apply timer_ops_owned.
  - by destruct invite, s.
  - by destruct invite, s.
  - eapply fresh_starts_ext, Hf. by destruct invite, s.
Qed.
End timers.

(** ** State machine *)

(** The timers of a state: [Some (Some ms)] started on entry, [Some None]
    stopped, [None] left alone. *)
Definition state_timers (invite : bool) (provisionalTimeout : Z) (s : State_t) (cls : timer_class) : option (option Z) :=
  match invite, s, cls with
  | true, calling, timerA => Some (Some 500%Z)
  | true, calling, timerB => Some (Some 32000%Z)
  | true, calling, timerC => Some (Some 185000%Z)
  | true, calling, timerProvisional => if (0 <? provisionalTimeout)%Z then Some (Some provisionalTimeout) else None
  | true, proceeding, (timerA | timerB | timerProvisional) => Some None
  | true, completed, (timerA | timerB | timerC | timerProvisional) => Some None
  | true, completed, timerD => Some (Some 30000%Z)
  | true, terminated, (timerA | timerB | timerC | timerProvisional) => Some None
  | false, trying, timerE => Some (Some 500%Z)
  | false, trying, timerF => Some (Some 32000%Z)
  | false, proceeding, timerE => Some None
  | false, completed, (timerE | timerF) => Some None
  | false, completed, timerK => Some (Some 5000%Z)
  | false, terminated, (timerE | timerF | timerK) => Some None
  | _, _, _ => None
  end.

Lemma state_timers_ops invite prov s v cls :
  after_ops (entry_ops invite prov s) v cls = match state_timers invite prov s cls with Some o => o | None => v cls end.
Proof.
  destruct invite, s; cbn [entry_ops invite_ops non_invite_ops]; try (by destruct cls).
  case_bool_decide as Hp; destruct cls; cbn; try done.
  - by rewrite (proj2 (Z.ltb_lt _ _)).
  - by rewrite (proj2 (Z.ltb_ge _ _)) by lia.
Qed.

(** The timers a state starts without stopping them first. *)
Definition restarted (invite : bool) (s : State_t) : list timer_class :=
  match invite, s with
  | true, calling => [timerProvisional]
  | false, completed => [timerK]
  | _, _ => []
  end.

Lemma entry_fresh invite prov s v :
  (forall cls, cls ∈ entry_unset invite s ++ restarted invite s -> v cls = None) -> fresh_starts (entry_ops invite prov s) v.
Proof.
  intros Hv. assert (Hin : forall cls, bool_decide (cls ∈ entry_unset invite s ++ restarted invite s) = true -> v cls = None).
  { intros cls Hc%bool_decide_eq_true_1. by apply Hv. }
  assert (Hno : forall o : option Z, o = None -> is_Some o -> False) by (intros ? -> [? ?]; done).
  destruct invite, s; cbn [entry_ops invite_ops non_invite_ops]; try case_bool_decide; cbn;
    repeat match goal with |- _ /\ _ => split end; try done; intros Hs; try (by apply Hin); try (by destruct Hs); by exfalso.
Qed.

(** C4: [ClientTransaction::setState] starts and stops exactly the timers of
    the table for INVITE and other transactions, in their own queues, leaves
    the timers of other transactions alone, and never touches a timer that is
    not armed. Stopped means taken out of the queue: when no timer is armed
    for the transaction but those it holds, and the timers the state starts
    are not running, then afterwards too the armed timers are exactly those it
    holds. *)
Theorem setState_timers p s core c :
  pc_objects core !! p = Some c -> ct_state c ≠ s -> timers_ok p c (pc_armed core) ->
  (forall cls, cls ∈ entry_unset (isInviteTransaction c) s -> ct_timers c !! cls = None) ->
  exists c' core', setState p s core = Ok (tt, core') /\ pc_objects core' !! p = Some c' /\
    ct_state c' = s /\ timers_ok p c' (pc_armed core') /\ others_same p (pc_armed core) (pc_armed core') /\
    (forall q, q ≠ p -> pc_objects core' !! q = pc_objects core !! q) /\ pc_events core' = pc_events core /\
    (forall cls, view c' (pc_armed core') cls =
      match state_timers (isInviteTransaction c) (pc_nProvisionalTimeout core) s cls with
      | Some o => o
      | None => view c (pc_armed core) cls
      end) /\
    (owned p c (pc_armed core) -> (forall cls, cls ∈ restarted (isInviteTransaction c) s -> ct_timers c !! cls = None) ->
     owned p c' (pc_armed core')).
Proof.
  intros Hc Hne Hok Hun.
  destruct (setState_run p (isInviteTransaction c) s c (pc_armed core) core eq_refl Hne Hok Hun) as (t & a' & E & Hok' & Ho & Hv).
  assert (Hw : owned p c (pc_armed core) -> (forall cls, cls ∈ restarted (isInviteTransaction c) s -> ct_timers c !! cls = None) ->
    owned p (set_timers t (entered (isInviteTransaction c) s c)) a').
  { intros Hw Hr. eapply setState_owned, E; try done. apply entry_fresh. intros cls [?|?]%elem_of_app; apply (view_none p); auto. }
  rewrite upd_id in E by done. eexists _, _. split; [exact E|]. split_and!; [apply lookup_insert_eq| |done..| |done| |exact Hw].
  - by destruct (isInviteTransaction c), s.
  - intros q Hq. cbn. by rewrite lookup_insert_ne.
  - intros cls. rewrite <-state_timers_ops. apply Hv.
Qed.

(** ** A provisional response without timer C *)

Lemma ct_load_ok core p c : pc_objects core !! p = Some c -> ct_load p core = Ok (c, core).
Proof. intros E. unfold ct_load, mbind, M_bind, get. by rewrite E. Qed.
Lemma ct_store_ok core p c f : pc_objects core !! p = Some c -> ct_store p f core = Ok (tt, on_pc_objects (insert p (f c)) core).
Proof. intros E. unfold ct_store. by rewrite (M_bind_ok _ _ _ _ _ (ct_load_ok _ _ _ E)). Qed.

Section with_env.
Context `{ProxyEnv}.

Lemma apply_provisional_aborts p c a core status :
  isInviteTransaction c = true -> ct_state c = proceeding \/ ct_state c = completed ->
  ct_timers c !! timerC = None -> timers_ok p c a -> (100 < status < 200)%Z ->
  apply_status p status (upd p c a core) = Fault AssertFail.
Proof.
  intros Hinv Hst HC Hok Hs. unfold apply_status. rewrite (M_bind_ok _ _ _ _ _ (ct_load_upd p c a core)).
  rewrite !(proj2 (Z.leb_le _ _)) by lia. cbn [andb]. rewrite (proj2 (Z.eqb_neq _ _)) by lia. rewrite Hinv. cbn [negb andb].
  assert (exists c' a', setState p proceeding (upd p c a core) = Ok (tt, upd p c' a' core) /\ ct_timers c' !! timerC = None)
    as (c' & a' & E & HC').
  { destruct Hst as [Hst|Hst].
    - exists c, a. split; [|done]. unfold setState. rewrite (M_bind_ok _ _ _ _ _ (ct_load_upd p c a core)).
      by rewrite bool_decide_eq_true_2.
    - destruct (setState_run p true proceeding c a core) as (t & a' & E & Hok' & _ & Hv); try done;
        [by rewrite Hst|by intros ? ?%elem_of_nil|].
      eexists _, _. split; [exact E|]. apply (view_none p _ a'); [done|]. rewrite Hv. cbn. by apply (view_none p). }
  rewrite (M_bind_ok _ _ _ _ _ E), (M_bind_ok _ _ _ _ _ (ct_load_upd p c' a' core)).
  apply M_bind_fault. unfold assertb. by rewrite HC', bool_decide_eq_false_2 by (by intros []).
Qed.

Lemma provisional_aborts p core c r :
  pc_objects core !! p = Some c -> ct_method c = sip_method_invite -> rs_method r = sip_method_invite ->
  ct_branch c = rs_branch r -> ct_state c = proceeding \/ ct_state c = completed /\ ct_canceled c = false ->
  ct_timers c !! timerC = None -> timers_ok p c (pc_armed core) -> (100 < rs_status r < 200)%Z ->
  ct_processResponse p r core = Fault AssertFail.
Proof.
  intros Hc Hm Hrm Hb Hst HC Hok Hs. unfold ct_processResponse. rewrite (M_bind_ok _ _ _ _ _ (ct_load_ok _ _ _ Hc)).
  rewrite Hb, String.eqb_refl, Hrm, Hm. cbn [negb andb]. rewrite (bool_decide_eq_false_2 (sip_method_invite = sip_method_prack)), andb_false_r by done.
  rewrite (bool_decide_eq_false_2 (ct_state c = terminated)) by (destruct Hst as [->|[-> _]]; done).
  assert (Hl : ct_canceled c && bool_decide (ct_state c = completed) = false).
  { destruct Hst as [->|[-> ->]]; [by rewrite bool_decide_eq_false_2, andb_false_r|done]. }
  rewrite Hl. cbn [andb]. rewrite (bool_decide_eq_true_2 (sip_method_invite = sip_method_invite)) by done.
  rewrite (proj2 (Z.leb_gt 200 _)), andb_false_r by lia.
  rewrite (M_bind_ok _ _ _ _ _ (ct_store_ok _ _ _ _ Hc)). apply M_bind_fault.
  change (on_pc_objects (insert p (set_ct_sipStatus (rs_status r) c)) core) with
    (upd p (set_ct_sipStatus (rs_status r) c) (pc_armed core) core).
  apply apply_provisional_aborts; try done; [by apply bool_decide_eq_true_2|tauto].
Qed.

Lemma removeTimer_unset p member queue c a core :
  ct_timers c !! member = None -> removeTimer p member queue (upd p c a core) = Ok (tt, upd p c a core).
Proof. intros E. unfold removeTimer. rewrite (M_bind_ok _ _ _ _ _ (ct_load_upd p c a core)). by rewrite E. Qed.

(** [cancelRequest] stops timers A, B and C, whatever the state. *)
Lemma cancel_timers p c a core {B} (k : unit -> PM B) :
  timers_ok p c a ->
  exists t a', (_ ← removeTimerOf p timerA; _ ← removeTimerOf p timerB; _ ← removeTimerOf p timerC;
     _ ← removeTimer p timerC timerE; _ ← removeTimer p timerC timerF; _ ← removeTimer p timerC timerK; k tt) (upd p c a core) =
    k tt (upd p (set_timers t c) a' core) /\ timers_ok p (set_timers t c) a' /\ t !! timerC = None.
Proof.
  intros Hok.
  destruct (timer_ops_run p [(timerA, None); (timerB, None); (timerC, None)] c a core Hok) as (t & a' & E & Hok' & _ & Hv).
  assert (HC : t !! timerC = None) by (apply (view_none p (set_timers t c) a' timerC Hok'); by rewrite Hv).
  exists t, a'. split_and!; [|done..]. cbn [timer_ops] in E. unfold mbind at 1 2 3, M_bind at 1 2 3 in E. unfold mbind at 1 2 3, M_bind at 1 2 3.
  destruct (removeTimerOf p timerA _) as [[[] c1]|]; [|done]. destruct (removeTimerOf p timerB _) as [[[] c2]|]; [|done].
  destruct (removeTimerOf p timerC _) as [[[] c3]|]; [|done]. rewrite M_ret_run in E. injection E as ->.
  rewrite (M_bind_ok _ _ _ _ _ (removeTimer_unset p timerC timerE (set_timers t c) a' core HC)).
  rewrite (M_bind_ok _ _ _ _ _ (removeTimer_unset p timerC timerF (set_timers t c) a' core HC)).
  by rewrite (M_bind_ok _ _ _ _ _ (removeTimer_unset p timerC timerK (set_timers t c) a' core HC)).
Qed.

(** After an INVITE that is proceeding has been canceled (CANCEL sent,
    timer C stopped), a further provisional response from the same target,
    for instance a ringing that crossed the CANCEL, fails the assertion on
    timer C and aborts the server.  The same response aborts it once the
    provisional timeout has moved the transaction to completed. *)
Theorem provisional_after_cancel_aborts p core c r :
  pc_objects core !! p = Some c -> ct_method c = sip_method_invite -> timers_ok p c (pc_armed core) ->
  rs_method r = sip_method_invite -> ct_branch c = rs_branch r -> (100 < rs_status r < 200)%Z ->
  (ct_state c = proceeding -> (0 <= default 0 (head (pc_sends core)))%Z ->
   exists core', cancelRequest p core = Ok (0%Z, core') /\ last (pc_events core') = Some (SentCancel p) /\
     ct_processResponse p r core' = Fault AssertFail) /\
  (ct_state c = calling -> ct_canceled c = false ->
   exists core', setState p completed core = Ok (tt, core') /\ ct_processResponse p r core' = Fault AssertFail).
Proof.
  intros Hc Hm Hok Hrm Hb Hs. rewrite <-(upd_id p c core Hc). split; intros Hst Hx.
  - change (pc_sends (upd p c (pc_armed core) core)) with (pc_sends core) in Hx.
    unfold cancelRequest. destruct (cancel_timers p c (pc_armed core) core (fun _ => c ← ct_load p; match ct_state c with
      | calling => _ ← setState p completed; _ ← ct_store p (set_ct_canceled true); mret 0%Z
      | not_started => _ ← setState p terminated; mret 0%Z
      | proceeding => rc ← next_send; if bool_decide (rc < 0)%Z then mret (-1)%Z else
        _ ← emit (SentCancel p); _ ← ct_store p (set_ct_canceled true); mret 0%Z
      | _ => mret 0%Z end) Hok) as (t & a' & E & Hok' & HC).
    rewrite E, (M_bind_ok _ _ _ _ _ (ct_load_upd p _ a' core)). change (ct_state (set_timers t c)) with (ct_state c). rewrite Hst.
    erewrite M_bind_ok by reflexivity. cbn beta. change (pc_sends (upd p (set_timers t c) a' core)) with (pc_sends core).
    rewrite (bool_decide_eq_false_2 (_ < 0)%Z) by lia.
    erewrite M_bind_ok by reflexivity. cbn beta.
    erewrite M_bind_ok; [|by eapply ct_store_ok, lookup_insert_eq]. cbn beta.
    eexists. split; [reflexivity|]. split; [cbn; apply last_snoc|].
    eapply provisional_aborts; [apply lookup_insert_eq|by rewrite ?Hm..|by left|done|done|done].
  - destruct (setState_run p true completed c (pc_armed core) core) as (t & a' & E & Hok' & _ & Hv); try done;
      [by apply bool_decide_eq_true_2|by rewrite Hst|by intros ? ?%elem_of_nil|].
    eexists. split; [exact E|]. eapply provisional_aborts; [apply lookup_insert_eq|done..|by right|apply (view_none p _ a' timerC Hok'); by rewrite Hv|done|done].
Qed.
End with_env.

(** ** The response sent upstream *)

Definition rejected_cdr : event := PostedCdr stop_record "application" role_undefined call_rejected.

Section with_sort.
Context `{ProxyEnv}.
Context (sort : (ClientTransaction -> ClientTransaction -> bool) ->
  list (positive * ClientTransaction) -> list (positive * ClientTransaction)).
Context (sort_perm : forall f l, sort f l ≡ₚ l).

Definition add_events (l : list event) core : ProxyCore := on_events (fun e => e ++ l) core.
Lemma add_events_app l l' core : add_events l' (add_events l core) = add_events (l ++ l') core.
Proof. unfold add_events, on_events. cbn. by rewrite <-app_assoc. Qed.

Lemma generateResponse_run status core :
  rq_method (sv_request (pc_server core)) = sip_method_invite -> (200 <= status)%Z ->
  generateResponse status core = Ok (true, add_events [GeneratedResponse status; rejected_cdr] core).
Proof.
  intros Hm Hs. unfold generateResponse. erewrite M_bind_ok by reflexivity. cbn beta.
  erewrite M_bind_ok by reflexivity. cbn beta. rewrite Hm, !bool_decide_eq_true_2 by done.
  erewrite M_bind_ok by reflexivity. rewrite M_ret_run. do 2 f_equal.
  change (add_events [rejected_cdr] (add_events [GeneratedResponse status] core) = add_events [GeneratedResponse status; rejected_cdr] core).
  apply add_events_app.
Qed.

(** With no client left, [forwardBestResponse] answers 408. *)
Lemma forwardBest_empty core :
  pc_vecClientTransactions core = [] -> rq_method (sv_request (pc_server core)) = sip_method_invite ->
  exists core', forwardBestResponse sort core = Ok (tt, core') /\ pc_searching core' = false /\
    pc_events core' = pc_events core ++ [GeneratedResponse 408; rejected_cdr] ++
      (if pc_fullResponse core then [ApiResponse "done"] else []).
Proof.
  intros Hv Hm. unfold forwardBestResponse. erewrite M_bind_ok by reflexivity. cbn beta.
  erewrite M_bind_ok; cycle 1.
  { unfold clients. erewrite M_bind_ok by reflexivity. cbn. rewrite Hv. reflexivity. }
  cbn beta zeta. assert (Hn : sort bestResponseOrder [] = []) by (apply Permutation_nil_r, sort_perm). rewrite Hn.
  erewrite M_bind_ok by reflexivity. cbn beta.
  erewrite M_bind_ok; [|by apply generateResponse_run]. cbn beta. erewrite M_bind_ok by reflexivity. cbn beta.
  cbn. destruct (pc_fullResponse core); eexists; (split; [reflexivity|]); split; try done.
  - cbn. by rewrite <-app_assoc.
Qed.

Lemma removeTerminated_only p c a core :
  ct_state c = terminated -> pc_vecClientTransactions core = [p] ->
  removeTerminated false (upd p c a core) = Ok (tt, add_events [RemovedProxy] (on_vec (fun _ => []) (upd p c a core))).
Proof.
  intros Hs Hv. unfold removeTerminated. erewrite M_bind_ok; cycle 1.
  { unfold clients. erewrite M_bind_ok by reflexivity. cbn beta. change (pc_vecClientTransactions (upd p c a core)) with (pc_vecClientTransactions core).
    rewrite Hv. cbn [load_all]. rewrite (M_bind_ok _ _ _ _ _ (ct_load_upd p c a core)). reflexivity. }
  cbn beta zeta. rewrite filter_cons. unfold IsTerminated. cbn [snd]. rewrite Hs, bool_decide_eq_true_2, decide_False by done.
  done.
Qed.

(** When timer C of the only target goes off before any provisional
    response, the caller gets a final response twice: [timerC] generates a
    408 itself, and then, every target being exhausted,
    [forwardBestResponse] generates another (each with a CDR). *)
Theorem timerC_answers_twice h core p c ms :
  pc_armed core !! h = Some (timerC, p, ms) -> ct_timers c !! timerC = Some h -> pc_objects core !! p = Some c ->
  ct_method c = sip_method_invite -> ct_state c = calling -> timers_ok p c (pc_armed core) ->
  pc_vecClientTransactions core = [p] -> pc_searching core = true ->
  rq_method (sv_request (pc_server core)) = sip_method_invite ->
  exists core', fire sort h core = Ok (tt, core') /\
    pc_events core' = pc_events core ++
      [GeneratedResponse 408; rejected_cdr; RemovedProxy; GeneratedResponse 408; rejected_cdr] ++
      (if pc_fullResponse core then [ApiResponse "done"] else []).
Proof.
  intros Ha Ht Hc Hm Hst Hok Hv Hse Hrm. unfold fire. erewrite M_bind_ok by reflexivity. cbn beta. rewrite Ha.
  erewrite M_bind_ok by reflexivity. cbn beta.
  assert (E0 : on_armed (delete h) core = upd p c (delete h (pc_armed core)) core).
  { transitivity (on_armed (delete h) (upd p c (pc_armed core) core)); [by rewrite upd_id|done]. }
  rewrite E0. clear E0.
  set (a1 := delete h (pc_armed core)). set (c1 := on_ct_timers (delete timerC) c).
  assert (Hok1 : timers_ok p c1 a1).
  { intros cls h'. cbn. intros [Hne Hl]%lookup_delete_Some. destruct (Hok _ _ Hl) as [ms' Hms].
    exists ms'. unfold a1. rewrite lookup_delete_ne; [done|]. intros ->. congruence. }
  unfold fire_timerC, assert_state, clearTimer.
  erewrite M_bind_ok; [|rewrite (M_bind_ok _ _ _ _ _ (ct_load_upd p c a1 core)); apply assertb_true, bool_decide_eq_true_2; rewrite Hst; set_solver].
  rewrite (M_bind_ok _ _ _ _ _ (ct_store_upd p _ c a1 core)). fold c1.
  rewrite (M_bind_ok _ _ _ _ _ (ct_load_upd p c1 a1 core)). change (ct_state c1) with (ct_state c). rewrite Hst.
  rewrite (bool_decide_eq_false_2 (calling = proceeding)) by done. erewrite M_bind_ok by reflexivity. cbn beta.
  erewrite M_bind_ok; [|by apply generateResponse_run]. cbn beta.
  change (add_events ?l (upd p c1 a1 core)) with (upd p c1 a1 (add_events l core)). set (core1 := add_events _ core).
  destruct (setState_run p true terminated c1 a1 core1) as (t & a2 & E & _); try done;
    [by apply bool_decide_eq_true_2|cbn; by rewrite Hst|by intros ? ?%elem_of_nil|].
  rewrite (M_bind_ok _ _ _ _ _ E). erewrite M_bind_ok; [|by apply removeTerminated_only]. cbn beta.
  unfold best_if_exhausted. erewrite M_bind_ok by reflexivity. cbn beta. erewrite M_bind_ok by reflexivity. cbn beta.
  cbn [pc_searching add_events on_events on_vec upd on_pc_objects on_armed core1]. rewrite Hse.
  rewrite bool_decide_eq_true_2 by done. cbn [andb].
  edestruct forwardBest_empty as (core' & -> & _ & Hev); cycle 2; [|done|done].
  eexists. split; [reflexivity|]. rewrite Hev. cbn. by rewrite <-!app_assoc.
Qed.

(** *** The best response *)

(** RFC 3261 16.7.6, as the source ranks the responses. *)
Definition rank (c : ClientTransaction) : nat :=
  if bool_decide (ct_state c = completed) then
    let s := ct_sipStatus c in
    if (600 <=? s)%Z then 0 else if challenge_status s then 1
    else if (400 <=? s)%Z && (s <=? 499)%Z then 2 else if (500 <=? s)%Z && (s <=? 599)%Z then 3 else 4
  else 5.

Lemma bestResponseOrder_rank c1 c2 : bestResponseOrder c1 c2 = true <-> rank c1 <= rank c2.
Proof.
  unfold bestResponseOrder, rank.
  destruct (bool_decide (ct_state c1 = completed)), (bool_decide (ct_state c2 = completed)); cbn [andb negb];
    repeat match goal with |- context [if ?b then _ else _] => destruct b end; split; intros; try done; lia.
Qed.

Lemma load_all_frame core core' l cs :
  pc_objects core' = pc_objects core -> load_all l core = Ok (cs, core) -> load_all l core' = Ok (cs, core').
Proof.
  intros Ho. revert cs. induction l as [|q l IH]; intros cs; cbn [load_all]; [by intros [= <-]|].
  unfold ct_load, mbind, M_bind, get, deref. rewrite Ho. destruct (pc_objects core !! q) as [c|]; [|done].
  destruct (load_all l core) as [[cs' core2]|] eqn:E; [|done]. rewrite !M_ret_run. intros [= <- ->]. by rewrite (IH cs' eq_refl).
Qed.
Lemma clients_frame core core' cs :
  pc_objects core' = pc_objects core -> pc_vecClientTransactions core' = pc_vecClientTransactions core ->
  clients core = Ok (cs, core) -> clients core' = Ok (cs, core').
Proof. intros Ho Hv. unfold clients, mbind, M_bind, get. rewrite Hv. by apply load_all_frame. Qed.

Lemma clients_lookup core cs p c : clients core = Ok (cs, core) -> (p, c) ∈ cs -> pc_objects core !! p = Some c.
Proof.
  unfold clients, mbind, M_bind, get. generalize (pc_vecClientTransactions core) as l. intros l.
  revert cs. induction l as [|q l IH]; intros cs; cbn [load_all].
  - intros [= <-] ?%elem_of_nil. done.
  - unfold ct_load, mbind, M_bind, get, deref. destruct (pc_objects core !! q) as [cq|] eqn:Eq; [|done].
    destruct (load_all l core) as [[cs' core']|] eqn:E; [|done]. rewrite M_ret_run. intros [= <- ->].
    intros [[= -> ->]|Hin]%elem_of_cons; [done|by apply (IH cs')].
Qed.

(** What forwarding a final response that is no success does: the response,
    and a CDR for the first final response to an INVITE. *)
Definition forwarded_events core (m : response) : list event :=
  ForwardedResponse (rs_status m) (rs_rseq m) ::
  (if bool_decide (200 <= sv_sipStatus (pc_server core))%Z || bool_decide (rs_method m ≠ sip_method_invite) then []
   else [PostedCdr stop_record "application" role_undefined
           (if bool_decide (rs_status m = 487%Z) then call_canceled else call_rejected)]).

Lemma forwardResponse_final m core :
  (300 <= rs_status m)%Z -> (0 <= default 0 (head (pc_sends core)))%Z ->
  exists core', forwardResponse m core = Ok (true, core') /\ pc_searching core' = pc_searching core /\
    pc_vecClientTransactions core' = pc_vecClientTransactions core /\ pc_fullResponse core' = pc_fullResponse core /\
    pc_events core' = pc_events core ++ forwarded_events core m.
Proof.
  intros Hs Hsend. unfold forwardResponse, forwarded_events.
  assert (E1 : (match rs_rseq m with
    | Some original => if bool_decide (rs_status m < 200)%Z then Some <$> rewrite_rseq original else mret (Some original)
    | None => mret None end) core = Ok (rs_rseq m, core)).
  { destruct (rs_rseq m); [|done]. by rewrite bool_decide_eq_false_2 by lia. }
  rewrite (M_bind_ok _ _ _ _ _ E1).
  assert (E2 : cache_transport m core = Ok (tt, core)).
  { unfold cache_transport. erewrite M_bind_ok by reflexivity. cbn beta.
    rewrite (bool_decide_eq_false_2 (rs_status m = 202%Z)), (bool_decide_eq_false_2 (rs_status m = 200%Z)) by lia.
    rewrite !andb_false_r. by destruct (rq_contact _) as [[??]|]. }
  rewrite (M_bind_ok _ _ _ _ _ E2). erewrite M_bind_ok by reflexivity. cbn beta.
  rewrite bool_decide_eq_false_2 by lia. erewrite M_bind_ok by reflexivity. cbn beta. erewrite M_bind_ok by reflexivity. cbn beta zeta.
  unfold server_writeCdr. rewrite (bool_decide_eq_false_2 (rs_status m = 200%Z)), (bool_decide_eq_true_2 (200 < rs_status m)%Z),
    (bool_decide_eq_true_2 (200 <= rs_status m)%Z) by lia. rewrite !andb_true_r, bool_decide_not.
  change (pc_server (on_events _ _)) with (pc_server core).
  destruct (bool_decide (200 <= sv_sipStatus (pc_server core))%Z), (bool_decide (rs_method m = sip_method_invite)); cbn [negb andb orb]; eexists;
    (split; [reflexivity|]); split_and!; try done; cbn; by rewrite <-?app_assoc.
Qed.

(** The one answer that goes upstream for the transactions in the order the
    sort left them. *)
Definition answer_events core (cs : list (positive * ClientTransaction)) : list event :=
  match cs with
  | (_, c) :: _ =>
    if bool_decide (ct_state c = completed /\ ct_sipStatus c ≠ 0%Z)
    then match ct_final c with Some m => forwarded_events core m | None => [] end
    else [GeneratedResponse 408; rejected_cdr]
  | [] => [GeneratedResponse 408; rejected_cdr]
  end.

(** The answer for the transaction that was sorted first. *)
Lemma answer_run c q rest core :
  rq_method (sv_request (pc_server core)) = sip_method_invite -> (0 <= default 0 (head (pc_sends core)))%Z ->
  (ct_state c = completed -> ct_sipStatus c ≠ 0%Z -> exists m, ct_final c = Some m /\ (300 <= rs_status m)%Z) ->
  exists core', (if bool_decide (ct_state c ≠ completed) || bool_decide (ct_sipStatus c = 0%Z) then generateResponse 408
      else match ct_final c with None => fail AssertFail | Some msg => forwardResponse msg end) core = Ok (true, core') /\
    pc_searching core' = pc_searching core /\
    pc_vecClientTransactions core' = pc_vecClientTransactions core /\ pc_fullResponse core' = pc_fullResponse core /\
    pc_events core' = pc_events core ++ answer_events core ((q, c) :: rest).
Proof.
  intros Hm Hsend Hfin. unfold answer_events. destruct (decide (ct_state c = completed /\ ct_sipStatus c ≠ 0%Z)) as [[Hst Hs]|Hn].
  - destruct (Hfin Hst Hs) as (m & Hf & Hms). destruct (forwardResponse_final m core Hms Hsend) as (core2 & E & Hr).
    exists core2. rewrite (bool_decide_eq_false_2 (ct_state c ≠ completed)), (bool_decide_eq_false_2 (ct_sipStatus c = 0%Z)),
      (bool_decide_eq_true_2 (ct_state c = completed /\ _)) by naive_solver.
    cbn [orb]. by rewrite Hf, E.
  - eexists. rewrite (bool_decide_eq_false_2 (ct_state c = completed /\ _)) by done.
    assert (Hor : bool_decide (ct_state c ≠ completed) || bool_decide (ct_sipStatus c = 0%Z) = true).
    { apply orb_true_iff. rewrite !bool_decide_eq_true. destruct (decide (ct_state c = completed)); [|by left].
      right. destruct (decide (ct_sipStatus c = 0%Z)); naive_solver. }
    rewrite Hor. split; [by apply generateResponse_run|]. done.
Qed.

(** C22: [forwardBestResponse] ends the search and sends exactly one final
    response upstream, with its CDR: that of the transaction the sort puts
    first, or 408 when there is none, or it is not completed, or it was
    canceled before any response came.  The list of the transactions is left
    in the sorted order.  When the sort leaves them in the order of its
    comparison, the one answered is of the best rank (6xx, then challenges,
    then other 4xx, 5xx, the rest).  The comparison holds of a transaction and
    itself, so it is no strict weak ordering and [std::sort] promises nothing
    for two or more transactions: that they come out permuted is assumed, and
    that they come out in order is a condition of the last clause only; an
    insertion sort does both. *)
Theorem forwardBestResponse_best core cs :
  clients core = Ok (cs, core) -> (0 <= default 0 (head (pc_sends core)))%Z ->
  rq_method (sv_request (pc_server core)) = sip_method_invite ->
  (forall x, x ∈ cs -> ct_state x.2 = completed -> ct_sipStatus x.2 ≠ 0%Z ->
     exists m, ct_final x.2 = Some m /\ (300 <= rs_status m)%Z) ->
  let sorted := sort bestResponseOrder cs in
  (forall c, bestResponseOrder c c = true) /\
  (exists core', forwardBestResponse sort core = Ok (tt, core') /\ pc_searching core' = false /\
    pc_vecClientTransactions core' = sorted.*1 /\
    pc_events core' = pc_events core ++ answer_events core sorted ++
      (if pc_fullResponse core then [ApiResponse "done"] else [])) /\
  (cs = [] <-> sorted = []) /\
  (length cs <= 1 \/ StronglySorted (fun x y => bestResponseOrder x.2 y.2 = true) sorted ->
   forall x rest, sorted = x :: rest -> x ∈ cs /\ forall y, y ∈ cs -> rank x.2 <= rank y.2).
Proof.
  intros Hcs Hsend Hm Hfin sorted. pose proof (sort_perm bestResponseOrder cs) as Hperm. fold sorted in Hperm.
  split; [intros c; by apply bestResponseOrder_rank|]. split; [|split].
  - unfold forwardBestResponse. erewrite M_bind_ok by reflexivity. cbn beta.
    rewrite (M_bind_ok _ _ _ _ _ (clients_frame core (set_searching false core) cs eq_refl eq_refl Hcs)). cbn zeta. fold sorted.
    destruct sorted as [|[q c] rest].
    + erewrite M_bind_ok by reflexivity. cbn beta.
      erewrite M_bind_ok; [|by apply generateResponse_run]. cbn beta. erewrite M_bind_ok by reflexivity. cbn beta.
      cbn [pc_fullResponse add_events on_events on_vec set_searching].
      destruct (pc_fullResponse core); eexists; (split; [reflexivity|]); split_and!; try done; cbn; by rewrite <-app_assoc.
    + set (core1 := on_vec (fun _ => ((q, c) :: rest).*1) (set_searching false core)). erewrite M_bind_ok by reflexivity. cbn beta. fold core1.
      destruct (answer_run c q rest core1) as (core2 & E & Hse & Hve & Hfu & Hev); [done|done| |].
      { apply (Hfin (q, c)). rewrite <-Hperm. by left. }
      rewrite (M_bind_ok _ _ _ _ _ E). erewrite M_bind_ok by reflexivity. cbn beta. rewrite Hfu.
      change (pc_fullResponse core1) with (pc_fullResponse core). change (answer_events core1) with (answer_events core) in Hev.
      change (pc_events core1) with (pc_events core) in Hev.
      destruct (pc_fullResponse core); eexists; (split; [reflexivity|]); split_and!; try done; cbn; rewrite Hev; by rewrite <-?app_assoc, ?app_nil_r.
  - split; intros E; [|rewrite E in Hperm; by apply Permutation_nil in Hperm].
    rewrite E in Hperm. by apply Permutation_nil_r in Hperm.
  - intros Ho x rest E. rewrite E in Hperm, Ho. split; [rewrite <-Hperm; by left|]. intros y Hy. rewrite <-Hperm in Hy.
    apply elem_of_cons in Hy as [->|Hy]; [done|]. apply bestResponseOrder_rank.
    destruct Ho as [Hl|[_ Hall]%StronglySorted_inv]; [|rewrite Forall_forall in Hall; by apply Hall].
    rewrite <-Hperm in Hl. destruct rest; [by apply elem_of_nil in Hy|cbn in Hl; lia].
Qed.
End with_sort.

(** ** Reliable provisional responses *)

Section prack.
Context `{ProxyEnv}.

(** The RSeq that the next reliable response gets. *)
Definition next_rseq core : Z :=
  ((if bool_decide (sv_rseq (pc_server core) = 0%Z) then default 1%Z (head (pc_randoms core)) else sv_rseq (pc_server core)) + 1) mod 2 ^ 32.

Lemma forwardResponse_reliable r original core :
  rs_rseq r = Some original -> rs_method r = sip_method_invite -> (100 < rs_status r < 200)%Z ->
  sv_mapAleg2BlegRseq (pc_server core) !! next_rseq core = None -> (0 <= default 0 (head (pc_sends core)))%Z ->
  exists core', forwardResponse r core = Ok (true, core') /\
    last (pc_events core') = Some (ForwardedResponse (rs_status r) (Some (next_rseq core))) /\
    getReplacedRSeq (next_rseq core) (pc_server core') = original /\
    pc_objects core' = pc_objects core /\ pc_vecClientTransactions core' = pc_vecClientTransactions core /\
    pc_sends core' = tail (pc_sends core).
Proof.
  intros Hr Hm Hs Hnew Hsend. unfold forwardResponse. rewrite Hr.
  assert (exists core1, rewrite_rseq original core = Ok (next_rseq core, core1) /\
    pc_server core1 = MkServerTransaction (sv_request (pc_server core)) (sv_canceled (pc_server core)) (sv_sipStatus (pc_server core))
      (next_rseq core) (<[next_rseq core := original]> (sv_mapAleg2BlegRseq (pc_server core))) /\
    pc_objects core1 = pc_objects core /\ pc_vecClientTransactions core1 = pc_vecClientTransactions core /\
    pc_sends core1 = pc_sends core) as (core1 & E1 & Hsv & Ho & Hv & Hse).
  { unfold rewrite_rseq. erewrite M_bind_ok by reflexivity. cbn beta. unfold next_rseq in Hnew |- *.
    case_bool_decide; (erewrite M_bind_ok by reflexivity); cbn beta zeta; (erewrite M_bind_ok by reflexivity); cbn beta;
      (eexists; split; [reflexivity|]); cbn; rewrite Hnew; done. }
  rewrite (bool_decide_eq_true_2 (rs_status r < 200)%Z) by lia.
  erewrite M_bind_ok; [|unfold fmap, M_fmap; rewrite E1; reflexivity]. cbn beta.
  erewrite M_bind_ok; cycle 1.
  { unfold cache_transport. erewrite M_bind_ok by reflexivity. cbn beta. rewrite Hm.
    rewrite (bool_decide_eq_false_2 (sip_method_invite = sip_method_subscribe)), (bool_decide_eq_false_2 (sip_method_invite = sip_method_register)) by done.
    cbn [andb orb]. instantiate (2 := tt). instantiate (1 := core1). by destruct (rq_contact _) as [[??]|]. }
  cbn beta. erewrite M_bind_ok by reflexivity. cbn beta. rewrite Hse, bool_decide_eq_false_2 by lia.
  erewrite M_bind_ok by reflexivity. cbn beta. erewrite M_bind_ok by reflexivity. cbn beta zeta.
  rewrite (bool_decide_eq_false_2 (200 <= rs_status r)%Z), !andb_false_r by lia.
  eexists. split; [reflexivity|]. cbn. rewrite Hsv. split_and!; [apply last_snoc| |done..].
  unfold getReplacedRSeq. cbn. by rewrite lookup_insert_eq.
Qed.

(** A reliable provisional response is forwarded with an RSeq of the
    proxy's own; the PRACK that acknowledges that number goes to the client
    transaction the response came from, with the RSeq its target used. *)
Theorem prack_roundtrip core cs p c r original route :
  match route with Some url => is_Some (contactUriForRoute url) | None => True end ->
  clients core = Ok (cs, core) -> head (filter (fun x => (ct_rseq x.2 =? original)%Z = true) cs) = Some (p, c) ->
  original ≠ 0%Z -> rs_rseq r = Some original -> rs_method r = sip_method_invite -> (100 < rs_status r < 200)%Z ->
  sv_mapAleg2BlegRseq (pc_server core) !! next_rseq core = None ->
  (0 <= default 0 (head (pc_sends core)))%Z -> (0 <= default 0 (head (tail (pc_sends core))))%Z ->
  exists core1 core2, forwardResponse r core = Ok (true, core1) /\
    last (pc_events core1) = Some (ForwardedResponse (rs_status r) (Some (next_rseq core))) /\
    core_forwardPrack (next_rseq core) route core1 = Ok (true, core2) /\
    exists rr, last (pc_events core2) = Some (SentPrack p original rr).
Proof.
  intros Hroute Hcs Hh Hnz Hr Hm Hs Hnew Hs1 Hs2.
  destruct (forwardResponse_reliable r original core Hr Hm Hs Hnew Hs1) as (core1 & E1 & Hl & Hg & Ho & Hv & Hse).
  pose proof (clients_frame core core1 cs Ho Hv Hcs) as Hcs1. exists core1.
  assert (Hpc : (p, c) ∈ cs /\ ct_rseq c = original).
  { apply head_Some_elem_of, list_elem_of_filter in Hh as [Hz%Z.eqb_eq Hin]. done. }
  destruct Hpc as [Hin Hrs].
  assert (Hobj : pc_objects core1 !! p = Some c) by (rewrite Ho; by apply (clients_lookup core cs)).
  set (rr := route ≫= fun url => (fun uri => "<" +:+ uri +:+ ";lr>")%string <$> contactUriForRoute url).
  eexists. split_and!; [done..| |].
  - unfold core_forwardPrack. erewrite M_bind_ok by reflexivity. cbn beta zeta. rewrite Hg.
    erewrite M_bind_ok; cycle 1.
    { unfold first_client. rewrite (M_bind_ok _ _ _ _ _ Hcs1), Hh. reflexivity. }
    cbn [fmap option_fmap option_map fst]. erewrite M_bind_ok; [reflexivity|]. unfold ct_forwardPrack.
    rewrite (M_bind_ok _ _ _ _ _ (ct_load_ok _ _ _ Hobj)).
    erewrite M_bind_ok; [|apply assertb_true, bool_decide_eq_true_2; congruence]. cbn beta.
    erewrite M_bind_ok by reflexivity. cbn beta. erewrite M_bind_ok; [|by eapply ct_store_ok]. cbn beta.
    erewrite (M_bind_ok _ _ _ rr); [|destruct route as [url|]; [destruct Hroute as [uri Hu]; unfold rr; cbn; rewrite !Hu; reflexivity|done]].
    cbn beta. erewrite M_bind_ok by reflexivity. cbn beta. erewrite M_bind_ok by reflexivity. cbn beta. cbn [pc_sends on_pc_objects set_uuids]. rewrite Hse, bool_decide_eq_false_2 by lia.
    erewrite M_bind_ok by reflexivity. reflexivity.
  - eexists. cbn. rewrite last_snoc. by rewrite Hrs.
Qed.
End prack.

(** ** Forking *)

Section forking.
Context `{ProxyEnv}.

(** The first transmission of an INVITE to a target that has a transport. *)
Lemma forwardRequest_first p core c rq :
  pc_objects core !! p = Some c -> ct_state c = not_started -> ct_transmitCount c = 0%Z -> ct_timers c = ∅ ->
  rq_method rq = sip_method_invite -> sip_outbound_proxy = None -> findAppropriateTransport (ct_target c) None = true ->
  (0 <= default 0 (head (pc_sends core)))%Z ->
  let branch := (rfc3261prefix +:+ default ""%string (head (pc_uuids core)))%string in
  exists c' core', forwardRequest p rq core = Ok (true, core') /\ pc_objects core' !! p = Some c' /\
    ct_state c' = calling /\ ct_branch c' = branch /\ timers_ok p c' (pc_armed core') /\
    view c' (pc_armed core') timerB = Some TIMER_B_MSECS /\ view c' (pc_armed core') timerC = Some TIMER_C_MSECS /\
    (forall q, q ≠ p -> pc_objects core' !! q = pc_objects core !! q) /\
    pc_vecClientTransactions core' = pc_vecClientTransactions core /\
    pc_events core' = pc_events core ++
      [SentRequest p branch (ct_target c) (if rq_local rq then Some (ct_target c) else None)
         (match rq_max_forwards rq with Some n => n - 1 | None => 70 end)%Z (pc_bRecordRoute core) false;
       PostedCdr attempt_record "application" role_undefined no_termination].
Proof.
  intros Hc Hst Htc Htm Hm Hop Htp Hsend branch. unfold forwardRequest.
  rewrite (M_bind_ok _ _ _ _ _ (ct_store_ok _ _ _ _ Hc)). set (c1 := set_ct_transmitCount (ct_transmitCount c + 1) c).
  change (on_pc_objects (insert p c1) core) with (upd p c1 (pc_armed core) core). rewrite (M_bind_ok _ _ _ _ _ (ct_load_upd p c1 _ core)).
  change (ct_state c1) with (ct_state c). rewrite Hst, (bool_decide_eq_true_2 (not_started = not_started)) by done.
  set (c2 := set_ct_branch sip_method_invite branch c1). set (core0 := set_uuids (tail (pc_uuids core)) core).
  destruct (setState_run p true calling c2 (pc_armed core) core0) as (t & a' & E & Hok & _ & Hv);
    [by apply bool_decide_eq_true_2|cbn; by rewrite Hst|intros ? ?; cbn; rewrite Htm; by rewrite lookup_empty|intros ? _; cbn; by rewrite Htm|].
  erewrite M_bind_ok; cycle 1.
  { erewrite M_bind_ok; [|apply assertb_true, bool_decide_eq_true_2; cbn; lia]. cbn beta.
    erewrite M_bind_ok by reflexivity. cbn beta. rewrite Hm.
    change (set_uuids _ (upd p c1 (pc_armed core) core)) with (upd p c1 (pc_armed core) core0).
    rewrite (M_bind_ok _ _ _ _ _ (ct_store_upd p _ c1 _ core0)).
    rewrite (bool_decide_eq_true_2 (sip_method_invite = sip_method_invite)) by done. exact E. }
  cbn beta zeta. rewrite (M_bind_ok _ _ _ _ _ (ct_load_upd p _ a' core0)). rewrite Hop. erewrite M_bind_ok by reflexivity. cbn beta.
  change (ct_target (set_timers t (entered true calling c2))) with (ct_target c). rewrite Htp. cbn [negb andb].
  erewrite M_bind_ok by reflexivity. cbn beta. erewrite M_bind_ok by reflexivity. cbn beta.
  change (pc_sends (upd p _ a' core0)) with (pc_sends core). rewrite bool_decide_eq_false_2 by lia. cbn zeta.
  erewrite M_bind_ok by reflexivity. cbn beta.
  change (ct_transmitCount (set_timers t (entered true calling c2))) with (ct_transmitCount c + 1)%Z.
  rewrite (bool_decide_eq_true_2 (_ = 1%Z)) by lia. rewrite Hm.
  eexists (set_timers t (entered true calling c2)), _. split; [reflexivity|].
  split_and!; [apply lookup_insert_eq|done|done|exact Hok|etrans; [apply Hv|by rewrite state_timers_ops]|etrans; [apply Hv|by rewrite state_timers_ops]| |done|].
  - intros q Hq. cbn. by rewrite lookup_insert_ne.
  - cbn. rewrite <-app_assoc. rewrite andb_true_r, andb_false_r. done.
Qed.

(** Serial forking: [startRequests] sends the request to the first target
    that has not been tried and to no other; that target's transaction is
    then calling, under its new branch, with timers B and C running, and the
    transactions of the other targets are as they were. *)
Theorem startRequests_serial core pre p post c :
  pc_searching core = true -> pc_serial core = true -> pc_vecClientTransactions core = pre ++ p :: post ->
  (forall q, q ∈ pre -> exists cq, pc_objects core !! q = Some cq /\ ct_state cq ≠ not_started) ->
  pc_objects core !! p = Some c -> ct_state c = not_started -> ct_transmitCount c = 0%Z -> ct_timers c = ∅ ->
  rq_method (sv_request (pc_server core)) = sip_method_invite -> sip_outbound_proxy = None ->
  findAppropriateTransport (ct_target c) None = true -> (0 <= default 0 (head (pc_sends core)))%Z ->
  let rq := sv_request (pc_server core) in
  let branch := (rfc3261prefix +:+ default ""%string (head (pc_uuids core)))%string in
  exists c' core', startRequests core = Ok (1, core') /\ pc_objects core' !! p = Some c' /\
    ct_state c' = calling /\ ct_branch c' = branch /\ timers_ok p c' (pc_armed core') /\
    view c' (pc_armed core') timerB = Some TIMER_B_MSECS /\ view c' (pc_armed core') timerC = Some TIMER_C_MSECS /\
    (forall q, q ≠ p -> pc_objects core' !! q = pc_objects core !! q) /\
    pc_vecClientTransactions core' = pc_vecClientTransactions core /\
    pc_events core' = pc_events core ++
      [SentRequest p branch (ct_target c) (if rq_local rq then Some (ct_target c) else None)
         (match rq_max_forwards rq with Some n => n - 1 | None => 70 end)%Z (pc_bRecordRoute core) false;
       PostedCdr attempt_record "application" role_undefined no_termination].
Proof.
  intros Hse Hser Hvec Hpre Hc Hst Htc Htm Hm Hop Htp Hsend rq branch.
  destruct (forwardRequest_first p core c rq Hc Hst Htc Htm Hm Hop Htp Hsend) as (c' & core' & E & Hrest).
  exists c', core'. split; [|exact Hrest]. clear Hrest. unfold startRequests. erewrite M_bind_ok by reflexivity. cbn beta.
  rewrite Hse, Hser, Hvec. cbn [negb]. clear Hvec. induction pre as [|q pre IH]; cbn [app start_loop].
  - rewrite (M_bind_ok _ _ _ _ _ (ct_load_ok _ _ _ Hc)). rewrite Hst, bool_decide_eq_true_2 by done.
    by rewrite (M_bind_ok _ _ _ _ _ E).
  - destruct (Hpre q) as (cq & Hq & Hsq); [by left|]. rewrite (M_bind_ok _ _ _ _ _ (ct_load_ok _ _ _ Hq)).
    rewrite bool_decide_eq_false_2 by done. apply IH. intros q' Hq'. apply Hpre. by right.
Qed.
End forking.

(** ** Witnesses *)

Module ProxyWitnesses.

(** Any target can be reached, and there is no outbound proxy. *)
#[export] Instance reachable_env : ProxyEnv := {|
  sip_outbound_proxy := None;
  findAppropriateTransport _ _ := true;
  contactUriForRoute _ := Some "sip:proxy"%string |}.
(** Insertion sort. *)
Fixpoint insert_by (f : ClientTransaction -> ClientTransaction -> bool) (x : positive * ClientTransaction)
    (l : list (positive * ClientTransaction)) : list (positive * ClientTransaction) :=
  match l with
  | [] => [x]
  | y :: l => if f x.2 y.2 then x :: y :: l else y :: insert_by f x l
  end.
Fixpoint isort (f : ClientTransaction -> ClientTransaction -> bool) (l : list (positive * ClientTransaction)) :=
  match l with [] => [] | x :: l => insert_by f x (isort f l) end.
Lemma isort_perm f l : isort f l ≡ₚ l.
Proof.
  induction l as [|x l IH]; [done|]. cbn. etrans; [|by apply Permutation_cons, IH]. generalize (isort f l) as k. clear l IH. intros k.
  induction k as [|y k IH]; cbn; [done|]. destruct (f x.2 y.2); [done|]. rewrite IH. constructor.
Qed.
Lemma isort_sorted l : StronglySorted (fun x y => bestResponseOrder x.2 y.2 = true) (isort bestResponseOrder l).
Proof.
  induction l as [|x l IH]; cbn; [constructor|]. induction IH as [|y k Hs IH Hf]; cbn; [by repeat constructor|].
  destruct (bestResponseOrder x.2 y.2) eqn:E.
  - constructor; [by constructor|]. constructor; [done|]. eapply Forall_impl; [exact Hf|]. intros z.
    rewrite !bestResponseOrder_rank. apply bestResponseOrder_rank in E. cbn. lia.
  - constructor; [done|]. apply not_true_iff_false in E. rewrite bestResponseOrder_rank in E.
    assert (Hyx : bestResponseOrder y.2 x.2 = true) by (apply bestResponseOrder_rank; lia).
    clear -Hf Hyx. induction k as [|z k IH]; cbn; [by repeat constructor|]. apply Forall_cons in Hf as [Hz Hf].
    destruct (bestResponseOrder x.2 z.2); [by repeat constructor|]. constructor; [done|by apply IH].
Qed.

Definition invite_request : request := Request sip_method_invite (Some 70%Z) false None.
Definition server0 : ServerTransaction := MkServerTransaction invite_request false 0 0 ∅.
(** One target, not tried yet; and the core after it has been called. *)
Definition target (s : State_t) : ClientTransaction :=
  MkClientTransaction "sip:bob@b" sip_method_invite "z9hG4bKu1" "" s 0 false (if bool_decide (s = not_started) then 0 else 1) 500 0
    (if bool_decide (s = not_started) then ∅ else {[ timerC := 9%positive ]}) None.
Definition core_with (s : State_t) : ProxyCore :=
  MkProxyCore false false true false true true 0 server0 {[ 1%positive := target s ]} [1%positive]
    (if bool_decide (s = not_started) then ∅ else {[ 9%positive := (timerC, 1%positive, 185000%Z) ]}) [] [41%Z] ["u1"%string] [].
Lemma target_timers s : timers_ok 1 (target s) (pc_armed (core_with s)).
Proof.
  intros cls h. cbn. case_bool_decide; [by rewrite lookup_empty|].
  intros [<- <-]%lookup_singleton_Some. exists 185000%Z. by rewrite lookup_singleton_eq.
Qed.

Lemma target_owned s : owned 1 (target s) (pc_armed (core_with s)).
Proof.
  intros h cls ms. cbn. case_bool_decide; [by rewrite lookup_empty|].
  intros [<- [= <- <-]]%lookup_singleton_Some. by rewrite lookup_singleton_eq.
Qed.

Lemma setState_timers_witness :
  exists c' core', setState 1 completed (core_with calling) = Ok (tt, core') /\ pc_objects core' !! 1%positive = Some c' /\
    ct_state c' = completed /\ timers_ok 1 c' (pc_armed core') /\ others_same 1 (pc_armed (core_with calling)) (pc_armed core') /\
    (forall q, q ≠ 1%positive -> pc_objects core' !! q = pc_objects (core_with calling) !! q) /\ pc_events core' = [] /\
    (forall cls, view c' (pc_armed core') cls = match state_timers true 0 completed cls with
      | Some o => o | None => view (target calling) (pc_armed (core_with calling)) cls end) /\
    owned 1 c' (pc_armed core').
Proof.
  destruct (setState_timers 1 completed (core_with calling) (target calling) eq_refl ltac:(done) (target_timers calling)
    ltac:(by intros ? ?%elem_of_nil)) as (c' & core' & H1 & H2 & H3 & H4 & H5 & H6 & H7 & H8 & H9).
  exists c', core'. split_and!; try done. apply H9; [apply target_owned|]. by intros ? ?%elem_of_nil.
Defined.

Definition ringing : response := Response 180 sip_method_invite "z9hG4bKu1" (Some 7%Z) [] None None false.
Lemma provisional_after_cancel_aborts_witness :
  exists core', cancelRequest 1 (core_with proceeding) = Ok (0%Z, core') /\ last (pc_events core') = Some (SentCancel 1) /\
     ct_processResponse 1 ringing core' = Fault AssertFail.
Proof.
  exact (proj1 (provisional_after_cancel_aborts 1 (core_with proceeding) (target proceeding) ringing eq_refl eq_refl
    (target_timers proceeding) eq_refl eq_refl ltac:(cbn; lia)) eq_refl ltac:(cbn; lia)).
Defined.

(** The whole course of events with a provisional timeout: the request goes
    out, the timeout expires, and a late 180 aborts the server. *)
Example late_ringing_aborts :
  (_ ← startRequests; core ← get;
   match head (filter (fun x => x.2.1.1 = timerProvisional) (map_to_list (pc_armed core))) with
   | Some (h, _) => _ ← fire isort h; core_processResponse isort ringing
   | None => mret false
   end) (set_provisionalTimeout 2000 (core_with not_started)) = Fault AssertFail.
Proof. vm_compute. reflexivity. Qed.

Lemma timerC_answers_twice_witness :
  exists core', fire isort 9 (core_with calling) = Ok (tt, core') /\
    pc_events core' = [GeneratedResponse 408; rejected_cdr; RemovedProxy; GeneratedResponse 408; rejected_cdr].
Proof.
  exact (timerC_answers_twice isort isort_perm 9 (core_with calling) 1 (target calling) 185000 eq_refl eq_refl eq_refl eq_refl eq_refl
    (target_timers calling) eq_refl eq_refl eq_refl).
Defined.

(** Two targets have answered, 503 and 486. *)
Definition answered (status : Z) : ClientTransaction :=
  MkClientTransaction "sip:bob@b" sip_method_invite "z9hG4bKu1" "" completed status false 1 500 0 ∅
    (Some (Response status sip_method_invite "z9hG4bKu1" None [] None None false)).
Definition answered_core : ProxyCore :=
  MkProxyCore false false true false true true 0 server0 {[ 1%positive := answered 503; 2%positive := answered 486 ]} [1%positive; 2%positive] ∅ [] [] [] [].
Lemma forwardBestResponse_best_witness :
  exists core', forwardBestResponse isort answered_core = Ok (tt, core') /\ pc_searching core' = false /\
    pc_vecClientTransactions core' = [2%positive; 1%positive] /\
    pc_events core' = [ForwardedResponse 486 None; PostedCdr stop_record "application" role_undefined call_rejected] /\
    rank (answered 486) <= rank (answered 503).
Proof.
  destruct (forwardBestResponse_best isort isort_perm answered_core [(1%positive, answered 503); (2%positive, answered 486)]
    eq_refl ltac:(cbn; lia) eq_refl) as (_ & (core' & E & Hs & Hv & Hev) & _ & Hbest).
  - intros x [->|[->|[]%elem_of_nil]%elem_of_cons]%elem_of_cons _ _; eexists; (split; [reflexivity|]); cbn; lia.
  - exists core'. split_and!; [exact E|exact Hs|exact Hv|exact Hev|].
    apply (proj2 (Hbest (or_intror (isort_sorted _)) (2%positive, answered 486) [(1%positive, answered 503)] eq_refl) (1%positive, answered 503)).
    by left.
Defined.

Definition ringing_core : ProxyCore :=
  MkProxyCore false false true false true true 0 server0 {[ 1%positive := set_ct_rseq 7 (target proceeding) ]} [1%positive] ∅ [] [41%Z] [] [].
Lemma prack_roundtrip_witness :
  exists core1 core2, forwardResponse ringing ringing_core = Ok (true, core1) /\
    last (pc_events core1) = Some (ForwardedResponse 180 (Some 42%Z)) /\
    core_forwardPrack 42 None core1 = Ok (true, core2) /\
    exists rr, last (pc_events core2) = Some (SentPrack 1 7 rr).
Proof.
  exact (prack_roundtrip ringing_core [(1%positive, set_ct_rseq 7 (target proceeding))] 1 (set_ct_rseq 7 (target proceeding)) ringing 7 None
    I eq_refl eq_refl ltac:(done) eq_refl eq_refl ltac:(cbn; lia) eq_refl ltac:(cbn; lia) ltac:(cbn; lia)).
Defined.

Lemma startRequests_serial_witness :
  exists c' core', startRequests (core_with not_started) = Ok (1, core') /\ pc_objects core' !! 1%positive = Some c' /\
    ct_state c' = calling /\ ct_branch c' = "z9hG4bKu1"%string /\ timers_ok 1 c' (pc_armed core') /\
    view c' (pc_armed core') timerB = Some TIMER_B_MSECS /\ view c' (pc_armed core') timerC = Some TIMER_C_MSECS /\
    (forall q, q ≠ 1%positive -> pc_objects core' !! q = pc_objects (core_with not_started) !! q) /\
    pc_vecClientTransactions core' = [1%positive] /\
    pc_events core' = [SentRequest 1 "z9hG4bKu1" "sip:bob@b" None 69 true false;
                       PostedCdr attempt_record "application" role_undefined no_termination].
Proof.
  exact (startRequests_serial (core_with not_started) [] 1 [] (target not_started) eq_refl eq_refl eq_refl
    ltac:(by intros ? ?%elem_of_nil) eq_refl eq_refl eq_refl eq_refl eq_refl eq_refl eq_refl ltac:(cbn; lia)).
Defined.
End ProxyWitnesses.
