(* ===== verification/ProxyStart.v ===== *)
(** Model of how [SipProxyController] starts to proxy a request
    (src/sip-proxy-controller.hpp, src/sip-proxy-controller.cpp): the command
    that goes to the thread of the stack, and what that thread does with it. *)
From S2P Require Import Prelude CppString TextUtil SipTags ClientController TimerQueue Cdr PendingRequests SipDialog SipTransports Connections DialogWorld Messages ProxyDispatch Dispatch DialogSend ProxyChallenges ProxyCore.

Open Scope list_scope.

(** ** The command *)

Definition URI_LEN : nat := 256.
Definition HDR_STR_LEN : nat := 1024.
Definition MAX_DESTINATIONS : nat := 10.
Definition TIMEOUT_LEN : nat := 16.

(** [class ProxyData]: the C string in each of its arrays. *)
Record ProxyData := MkProxyData {
  pd_clientMsgId : string;
  pd_transactionId : string;
  pd_bRecordRoute : bool;
  pd_bFullResponse : bool;
  pd_bFollowRedirects : bool;
  pd_bSimultaneous : bool;
  pd_provisionalTimeout : string;
  pd_finalTimeout : string;
  pd_destinations : list string;
  pd_headers : string;
}.
(** [strncpy(field, s.c_str(), n - 1)] into an array of n zero bytes: the
    memory of an [su_msg] is cleared when it is made. *)
Definition field (n : nat) (s : string) : string := str_take (n - 1) (c_str s).
(** The array of destinations: an element after the tenth is written past its
    end; those that are not written are empty. *)
Fixpoint write_destinations (i : nat) (dests : list string) : res (list string) :=
  match dests with
  | [] => Ok (replicate (MAX_DESTINATIONS - i) ""%string)
  | dest :: dests =>
    if bool_decide (i < MAX_DESTINATIONS)%nat
    then match write_destinations (S i) dests with Ok l => Ok (field URI_LEN dest :: l) | Fault f => Fault f end
    else Fault BadAccess
  end.
Definition ProxyData_new (clientMsgId transactionId : string) (recordRoute fullResponse followRedirects simultaneous : bool)
    (provisionalTimeout finalTimeout : string) (vecDestinations : list string) (headers : string) : res ProxyData :=
  match write_destinations 0 vecDestinations with
  | Ok d => Ok (MkProxyData (field MSG_ID_LEN clientMsgId) (field MSG_ID_LEN transactionId) recordRoute fullResponse
                  followRedirects simultaneous (field TIMEOUT_LEN provisionalTimeout) (field TIMEOUT_LEN finalTimeout) d
                  (field HDR_STR_LEN headers))
  | Fault f => Fault f
  end.
(** Up to the first empty one. *)
Fixpoint until_empty (l : list string) : list string :=
  match l with
  | [] => []
  | s :: l => if String.eqb s "" then [] else s :: until_empty l
  end.
Definition getDestinations (d : ProxyData) : list string := until_empty (take MAX_DESTINATIONS (pd_destinations d)).
(** [su_msg_create] and [su_msg_send] succeed: what [doProxy] is given. *)
Definition proxyRequest := ProxyData_new.

(** ** In the thread of the stack *)

Section launch.
Context `{sutime : SuTime}.

(** The main controller and its parts, the challenges, the objects that
    [m_mapCallId2Proxy] points to, and the messages that lost their first
    Route, once for each time. *)
Record proxy_world := MkProxyWorld {
  pw_main : SipDialogController;
  pw_challenges : challenges;
  pw_cores : gmap positive ProxyCore;
  pw_unrouted : list positive;
}.
Definition on_pw_main u w := MkProxyWorld (u (pw_main w)) (pw_challenges w) (pw_cores w) (pw_unrouted w).
Definition on_pw_challenges u w := MkProxyWorld (pw_main w) (u (pw_challenges w)) (pw_cores w) (pw_unrouted w).
Definition on_pw_cores u w := MkProxyWorld (pw_main w) (pw_challenges w) (u (pw_cores w)) (pw_unrouted w).
Definition on_pw_unrouted u w := MkProxyWorld (pw_main w) (pw_challenges w) (pw_cores w) (u (pw_unrouted w)).
Abbreviation PW := (M proxy_world).
Definition main {A} (m : DC A) : PW A := zoom pw_main (fun x => on_pw_main (fun _ => x)) m.
Definition challenge {A} (m : CH A) : PW A := zoom pw_challenges (fun x => on_pw_challenges (fun _ => x)) m.
Definition in_core {A} (p : positive) (m : PM A) : PW A :=
  w ← get; c ← deref (pw_cores w !! p);
  match m c with
  | Ok (a, c') => _ ← modify (on_pw_cores (insert p c')); mret a
  | Fault f => fail f
  end.

(** What a [ProxyCore] reads of a message, and what the stack's sends, the
    random numbers and the ids will be for the core that is made next. *)
Class ProxyLaunch := {
  request_view : positive -> request;
  core_inputs : positive -> list Z * list Z * list string;
}.

Context `{NtaMessage} `{SipAuth} `{ProxyEnv} `{ProxyLaunch}.

(** The constructors of [ProxyCore] and its [ServerTransaction]. *)
Definition ProxyCore_new (id msg : positive) (recordRoute fullResponse followRedirects simultaneous : bool) : ProxyCore :=
  let '(sends, randoms, uuids) := core_inputs id in
  MkProxyCore fullResponse followRedirects recordRoute false true (negb simultaneous) 0
    (MkServerTransaction (request_view msg) false 0 0 ∅) ∅ [] ∅ sends randoms uuids [].
(** The core holds the message with a reference of its own. *)
Definition addProxy (d : ProxyData) (msg : positive) (vecDestination : list string) : PW positive :=
  w ← get;
  let p := fresh_addr (pw_cores w) in
  _ ← modify (on_pw_cores (insert p (ProxyCore_new p msg (pd_bRecordRoute d) (pd_bFullResponse d) (pd_bFollowRedirects d) (pd_bSimultaneous d))));
  _ ← in_core p (initializeTransactions vecDestination);
  _ ← (if String.eqb (pd_provisionalTimeout d) "" then mret tt else in_core p (modify (setProvisionalTimeout (pd_provisionalTimeout d))));
  _ ← main (on_main (on_mt_proxies (map_insert (proxy_id (sip_object msg)) p)));
  mret p.
(** [nta_msg_mreply] with a reference taken for it, the record of the call,
    and the core taken out of the table. *)
Definition reject_proxied (msg : positive) (status : Z) : DC unit :=
  _ ← msg_ref_create msg;
  _ ← nta_msg_treply msg status;
  _ ← DialogWorld.emit (DialogWorld.PostedCdr stop_record "application" role_undefined call_rejected);
  _ ← removeProxy (sip_object msg);
  mret tt.
Definition hops_used_up (msg : positive) : bool :=
  match rq_max_forwards (request_view msg) with Some n => (n <=? 0)%Z | None => false end.
Definition launch (d : ProxyData) (msg : positive) (core : positive) : PW unit :=
  if hops_used_up msg then
    _ ← main (api (pd_clientMsgId d) "NOK" "Rejected with 483 Too Many Hops due to Max-Forwards value of 0");
    main (reject_proxied msg 483)
  else
    _ ← modify (on_pw_unrouted (fun l => l ++ [msg]));
    n ← in_core core startRequests;
    if Nat.eqb n 0 then
      _ ← main (api (pd_clientMsgId d) "NOK" "error proxying request to ");
      main (reject_proxied msg 500)
    else if pd_bFullResponse d then mret tt
    else main (api (pd_clientMsgId d) "OK" "done").
(** The pending request dies when the function returns. *)
Definition doProxy (d : ProxyData) : PW unit :=
  let transactionId := pd_transactionId d in
  p ← main (DialogWorld.on_server (on_prc (findAndRemove transactionId false)));
  match p with
  | None => main (api (pd_clientMsgId d) "NOK" ("Unknown transaction id: " +:+ transactionId))
  | Some _ =>
    msg ← main (held_msg transactionId);
    target ← challenge (isResponseToChallenge msg);
    core ← addProxy d msg (match target with Some t => [t] | None => getDestinations d end);
    _ ← launch d msg core;
    main (drop_pending transactionId)
  end.
End launch.
