(* ===== verification/ProxyStartCorrect.v ===== *)
(** Starting to proxy a request: the destinations that arrive, what the first
    transmission to a target does, and how [doProxy] ends. *)
From S2P Require Import Prelude CppString TextUtil SipTags ClientController TimerQueue Cdr PendingRequests PendingCorrect SipDialog SipTransports Connections DialogWorld Messages ProxyDispatch Dispatch DialogSend DispatchCorrect LegSetupCorrect DialogSendCorrect ProxyChallenges ProxyChallengesCorrect ProxyCore ProxyCorrect ProxyStart.

Open Scope list_scope.

(** ** The first transmission to a target *)

Section first_transmission.
Context `{ProxyEnv}.

Definition is_fresh (c : ClientTransaction) : Prop := ct_state c = not_started /\ ct_transmitCount c = 0%Z /\ ct_timers c = ∅.
Definition has_transport (target : string) : bool :=
  findAppropriateTransport target None || (negb (strstr target "transport=") && findAppropriateTransport target (Some "tcp"%string)).
Definition next_rc (core : ProxyCore) : Z := default 0%Z (head (pc_sends core)).
Definition first_state (rq : request) : State_t := if bool_decide (rq_method rq = sip_method_invite) then calling else trying.

(** What such a transmission leaves alone. *)
Record kept (p : positive) (core core' : ProxyCore) : Prop := {
  kp_vec : pc_vecClientTransactions core' = pc_vecClientTransactions core;
  kp_objects q : q ≠ p -> pc_objects core' !! q = pc_objects core !! q;
  kp_searching : pc_searching core' = pc_searching core;
  kp_serial : pc_serial core' = pc_serial core;
  kp_server : pc_server core' = pc_server core;
  kp_full : pc_fullResponse core' = pc_fullResponse core;
  kp_rr : pc_bRecordRoute core' = pc_bRecordRoute core;
}.
(** What is sent, and the record of the call for an INVITE. *)
Definition sent_events (p : positive) (branch : string) (rq : request) (target : string) (recordRoute : bool) : list event :=
  SentRequest p branch (default target sip_outbound_proxy) (if rq_local rq then Some target else None)
    (match rq_max_forwards rq with Some n => n - 1 | None => 70 end)%Z
    (recordRoute && negb (bool_decide (rq_method rq = sip_method_register)))
    (recordRoute && bool_decide (rq_method rq = sip_method_register)) ::
  (if bool_decide (rq_method rq = sip_method_invite) then [PostedCdr attempt_record "application" role_undefined no_termination] else []).
Definition first_timers (rq : request) (core : ProxyCore) (cls : timer_class) : option Z :=
  mjoin (state_timers (bool_decide (rq_method rq = sip_method_invite)) (pc_nProvisionalTimeout core) (first_state rq) cls).
(** How it ends: no transport, a send that failed, or a request on its way. *)
Inductive first_result (p : positive) (rq : request) (c : ClientTransaction) (core : ProxyCore) : bool -> ClientTransaction -> ProxyCore -> Prop :=
  | FirstNoTransport c' core' :
    has_transport (ct_target c) = false -> ct_state c' = first_state rq -> pc_events core' = pc_events core ->
    pc_sends core' = pc_sends core -> (forall cls, view c' (pc_armed core') cls = first_timers rq core cls) ->
    first_result p rq c core false c' core'
  | FirstSendFailed c' core' :
    has_transport (ct_target c) = true -> (next_rc core < 0)%Z -> ct_state c' = terminated -> ct_sipStatus c' = 503%Z ->
    pc_events core' = pc_events core -> pc_sends core' = tail (pc_sends core) ->
    (forall cls, ct_timers c' !! cls = None) -> first_result p rq c core true c' core'
  | FirstSent c' core' :
    has_transport (ct_target c) = true -> (0 <= next_rc core)%Z -> ct_state c' = first_state rq ->
    pc_sends core' = tail (pc_sends core) -> (forall cls, view c' (pc_armed core') cls = first_timers rq core cls) ->
    pc_events core' = pc_events core ++ sent_events p (ct_branch c') rq (ct_target c) (pc_bRecordRoute core) ->
    first_result p rq c core true c' core'.

(** The transaction has been started and has its timers. *)
Record started (p : positive) (rq : request) (core : ProxyCore) (c c3 : ClientTransaction) (a' : gmap positive (timer_class * positive * Z)) : Prop := {
  st_target : ct_target c3 = ct_target c;
  st_state : ct_state c3 = first_state rq;
  st_method : ct_method c3 = rq_method rq;
  st_count : ct_transmitCount c3 = 1%Z;
  st_ok : timers_ok p c3 a';
  st_same : others_same p (pc_armed core) a';
  st_view cls : view c3 a' cls = first_timers rq core cls;
}.
Lemma first_start_run p rq core c c1 :
  is_fresh c -> c1 = set_ct_transmitCount (ct_transmitCount c + 1) c ->
  exists c3 a', (_ ← assertb (bool_decide (ct_transmitCount c1 = 1%Z)); random ← generateUuid;
      _ ← ct_store p (set_ct_branch (rq_method rq) (rfc3261prefix +:+ random));
      setState p (if bool_decide (rq_method rq = sip_method_invite) then calling else trying)) (upd p c1 (pc_armed core) core) =
    Ok (tt, upd p c3 a' (set_uuids (tail (pc_uuids core)) core)) /\ started p rq core c c3 a'.
Proof.
  intros (Hst & Htc & Htm) ->. set (c1 := set_ct_transmitCount _ c). set (core0 := set_uuids _ core).
  set (c2 := set_ct_branch (rq_method rq) (rfc3261prefix +:+ default ""%string (head (pc_uuids core))) c1).
  destruct (setState_run p (isInviteTransaction c2) (first_state rq) c2 (pc_armed core) core0) as (t & a' & E & Hok & Hsame & Hv).
  { done. }
  { cbn. rewrite Hst. unfold first_state. by case_bool_decide. }
  { intros ? ?. cbn. rewrite Htm. by rewrite lookup_empty. }
  { intros ? _. cbn. by rewrite Htm. }
  eexists _, a'. split.
  - erewrite M_bind_ok; [|apply assertb_true, bool_decide_eq_true_2; cbn; lia]. cbn beta.
    erewrite M_bind_ok by reflexivity. cbn beta.
    change (set_uuids _ (upd p c1 (pc_armed core) core)) with (upd p c1 (pc_armed core) core0).
    rewrite (M_bind_ok _ _ _ _ _ (ct_store_upd p _ c1 _ core0)). exact E.
  - change (isInviteTransaction c2) with (bool_decide (rq_method rq = sip_method_invite)) in *.
    constructor; try done; [unfold first_state; by case_bool_decide..|unfold first_state; case_bool_decide; cbn; lia|].
    intros cls. etrans; [apply Hv|]. rewrite state_timers_ops. unfold first_timers.
    change (pc_nProvisionalTimeout core0) with (pc_nProvisionalTimeout core).
    destruct (state_timers _ _ _ cls) as [[]|]; [done..|]. unfold view. cbn. by rewrite Htm.
Qed.
(** The send has failed. *)
Lemma send_failed_run p rq core core1 c c3 a' :
  started p rq core c c3 a' -> pc_nProvisionalTimeout core1 = pc_nProvisionalTimeout core ->
  exists c4 a2, (_ ← setState p terminated; _ ← ct_store p (set_ct_sipStatus 503); mret true) (upd p c3 a' core1) = Ok (true, upd p c4 a2 core1) /\
    ct_state c4 = terminated /\ ct_sipStatus c4 = 503%Z /\ ct_target c4 = ct_target c /\ timers_ok p c4 a2 /\
    others_same p (pc_armed core) a2 /\ (forall cls, ct_timers c4 !! cls = None).
Proof.
  intros [Et Es Em Ec Hok Hsame Hv] Hp.
  destruct (setState_run p (isInviteTransaction c3) terminated c3 a' core1) as (t2 & a2 & E2 & Hok2 & Hsame2 & Hv2);
    [done|rewrite Es; unfold first_state; by case_bool_decide|done|intros ?; destruct (isInviteTransaction c3); set_solver|].
  rewrite (M_bind_ok _ _ _ _ _ E2). rewrite (M_bind_ok _ _ _ _ _ (ct_store_upd p _ _ _ core1)).
  eexists _, a2. split; [reflexivity|]. split_and!; [by destruct (isInviteTransaction c3)|done|by destruct (isInviteTransaction c3)|done| |].
  - intros h cls q ms Hq. rewrite (Hsame h cls q ms Hq). by apply Hsame2.
  - intros cls. apply (view_none p _ a2); [done|]. etrans; [apply Hv2|]. rewrite state_timers_ops.
    assert (isInviteTransaction c3 = bool_decide (rq_method rq = sip_method_invite)) as -> by (unfold isInviteTransaction; by rewrite Em).
    rewrite Hp, Hv. unfold first_timers, first_state. case_bool_decide; destruct cls; done.
Qed.

Lemma kept_upd p core core1 c a : pc_vecClientTransactions core1 = pc_vecClientTransactions core ->
  pc_objects core1 = pc_objects core -> pc_searching core1 = pc_searching core -> pc_serial core1 = pc_serial core ->
  pc_server core1 = pc_server core -> pc_fullResponse core1 = pc_fullResponse core -> pc_bRecordRoute core1 = pc_bRecordRoute core ->
  kept p core (upd p c a core1).
Proof. intros ? Ho ? ? ? ? ?. constructor; try done. intros q Hq. cbn. rewrite Ho. by rewrite lookup_insert_ne. Qed.
Lemma kept_events p core core1 l : kept p core core1 -> kept p core (add_events l core1).
Proof. by intros []. Qed.

Lemma forwardRequest_fresh p rq core c :
  pc_objects core !! p = Some c -> is_fresh c -> sip_outbound_proxy = None \/ ct_target c ≠ ""%string ->
  exists sent c' core', forwardRequest p rq core = Ok (sent, core') /\ pc_objects core' !! p = Some c' /\ kept p core core' /\
    timers_ok p c' (pc_armed core') /\ others_same p (pc_armed core) (pc_armed core') /\ ct_state c' ≠ not_started /\
    ct_target c' = ct_target c /\ first_result p rq c core sent c' core'.
Proof.
  intros Hc Hf Hop. unfold forwardRequest.
  rewrite (M_bind_ok _ _ _ _ _ (ct_store_ok _ _ _ _ Hc)). set (c1 := set_ct_transmitCount (ct_transmitCount c + 1) c).
  change (on_pc_objects (insert p c1) core) with (upd p c1 (pc_armed core) core). rewrite (M_bind_ok _ _ _ _ _ (ct_load_upd p c1 _ core)).
  rewrite (bool_decide_eq_true_2 (ct_state c1 = not_started)) by apply Hf.
  destruct (first_start_run p rq core c c1 Hf eq_refl) as (c3 & a' & E & Hs). rewrite (M_bind_ok _ _ _ _ _ E). clear E.
  set (core0 := set_uuids _ core). pose proof Hs as [Et Es Em Ec Hok Hsame Hv].
  assert (first_state rq ≠ not_started) as Hns by (unfold first_state; by case_bool_decide).
  cbn zeta. rewrite (M_bind_ok _ _ _ _ _ (ct_load_upd p c3 a' core0)), Et.
  erewrite (M_bind_ok _ _ _ (default (ct_target c) sip_outbound_proxy)); cycle 1.
  { destruct sip_outbound_proxy as [route|]; [|done]. destruct Hop as [|Hop]; [done|]. by rewrite (proj2 (String.eqb_neq _ _) Hop). }
  cbn beta. rewrite <-negb_orb. fold (has_transport (ct_target c)). destruct (has_transport (ct_target c)) eqn:Eh; cbn [negb].
  2: { eexists false, c3, _. split; [reflexivity|]. split_and!; try done; [apply lookup_insert_eq|by apply kept_upd|by rewrite Es|by constructor]. }
  erewrite M_bind_ok by reflexivity. cbn beta. erewrite M_bind_ok by reflexivity. cbn beta.
  change (default 0%Z (head (pc_sends (upd p c3 a' core0)))) with (next_rc core).
  change (set_sends _ (upd p c3 a' core0)) with (upd p c3 a' (set_sends (tail (pc_sends core)) core0)). case_bool_decide as Hrc.
  - destruct (send_failed_run p rq core (set_sends (tail (pc_sends core)) core0) c c3 a' Hs eq_refl) as (c4 & a2 & E & H1 & H2 & H3 & H4 & H5 & H6).
    rewrite E. eexists true, c4, _. split; [reflexivity|]. split_and!; try done; [apply lookup_insert_eq|by apply kept_upd|by rewrite H1|by apply FirstSendFailed].
  - cbn beta iota zeta. erewrite M_bind_ok by reflexivity. cbn beta. rewrite Ec, (bool_decide_eq_true_2 (1%Z = 1%Z)) by done.
    exists true, c3, (add_events (sent_events p (ct_branch c3) rq (ct_target c) (pc_bRecordRoute core)) (upd p c3 a' (set_sends (tail (pc_sends core)) core0))).
    split; [|split_and!; try done; [apply lookup_insert_eq|by apply kept_events, kept_upd|by rewrite Es|by apply FirstSent; [|lia|..]]].
    unfold sent_events. rewrite <-Em. unfold isInviteTransaction. destruct (bool_decide (ct_method c3 = sip_method_invite)).
    + erewrite M_bind_ok by reflexivity. rewrite M_ret_run. do 2 f_equal. unfold add_events, on_events. cbn. f_equal.
      by rewrite <-app_assoc.
    + reflexivity.
Qed.

(** ** The loop over the targets *)

(** A transaction that has not been tried, for the target. *)
Definition ready (core : ProxyCore) (p : positive) (target : string) : Prop :=
  exists c, pc_objects core !! p = Some c /\ is_fresh c /\ ct_target c = target.
Definition can_send (targets : list string) : Prop := sip_outbound_proxy = None \/ Forall (fun t => t ≠ ""%string) targets.
Definition same_core (core core' : ProxyCore) : Prop :=
  pc_vecClientTransactions core' = pc_vecClientTransactions core /\ pc_searching core' = pc_searching core /\
  pc_serial core' = pc_serial core /\ pc_server core' = pc_server core /\ pc_fullResponse core' = pc_fullResponse core.
Lemma same_kept p core core' : kept p core core' -> same_core core core'.
Proof. by intros []. Qed.
Lemma same_trans core1 core2 core3 : same_core core1 core2 -> same_core core2 core3 -> same_core core1 core3.
Proof. intros (?&?&?&?&?) (?&?&?&?&?). split_and!; congruence. Qed.

Definition is_sent (e : event) : bool := match e with SentRequest _ _ _ _ _ _ _ => true | _ => false end.
(** A request goes to one of the targets (or to the outbound proxy), with one
    hop less. *)
Definition sends_to (rq : request) (targets : list string) (e : event) : Prop :=
  match e with
  | SentRequest _ _ route _ max_forwards _ _ => (exists t, t ∈ targets /\ route = default t sip_outbound_proxy) /\
      max_forwards = (match rq_max_forwards rq with Some n => n - 1 | None => 70 end)%Z
  | _ => True
  end.
Lemma sends_to_weaken rq ts ts' e : (forall t, t ∈ ts -> t ∈ ts') -> sends_to rq ts e -> sends_to rq ts' e.
Proof. intros Hs. destruct e; try done. cbn. intros [(t & ? & ->) ->]. split; [|done]. exists t. auto. Qed.

Lemma first_result_events p rq c core sent c' core' : first_result p rq c core sent c' core' ->
  exists evs, pc_events core' = pc_events core ++ evs /\ length (filter (fun e => is_sent e = true) evs) <= (if sent then 1 else 0) /\
    (sent = false -> evs = []) /\ Forall (sends_to rq [ct_target c]) evs /\ sent = has_transport (ct_target c).
Proof.
  intros [c2 core2 ? _ E _ _|c2 core2 ? _ _ _ E _ _|c2 core2 ? _ _ _ _ E].
  1,2: exists []; rewrite app_nil_r; split_and!; try done; cbn; lia.
  eexists. split; [exact E|]. unfold sent_events. rewrite filter_cons_True by done. split_and!; [|done| |done].
  - destruct (bool_decide (rq_method rq = sip_method_invite)); [rewrite filter_cons_False by done|]; cbn; lia.
  - constructor; [|destruct (bool_decide (rq_method rq = sip_method_invite)); by repeat constructor]. cbn. split; [|done].
    exists (ct_target c). split; [by left|done].
Qed.

Lemma ready_kept p core core' l ts : kept p core core' -> p ∉ l -> Forall2 (ready core) l ts -> Forall2 (ready core') l ts.
Proof.
  intros Hk Hp. induction 1 as [|q t l ts (c & Hc & Hf) _ IH]; constructor.
  - exists c. split; [|done]. rewrite (kp_objects _ _ _ Hk); [done|]. intros ->. apply Hp. by left.
  - apply IH. intros Hin. apply Hp. by right.
Qed.

(** Every target gets at most one request; none is counted if and only if no
    target has a transport. *)
Lemma start_loop_run serial rq l ts core :
  NoDup l -> Forall2 (ready core) l ts -> can_send ts ->
  exists n core' evs, start_loop serial rq l core = Ok (n, core') /\ same_core core core' /\
    pc_events core' = pc_events core ++ evs /\ length (filter (fun e => is_sent e = true) evs) <= n /\
    Forall (sends_to rq ts) evs /\ (n = 0 -> evs = []) /\ (n = 0 <-> Forall (fun t => has_transport t = false) ts) /\
    (serial = true -> n <= 1).
Proof.
  revert ts core. induction l as [|p l IH]; intros ts core Hnd Hr Ht.
  { inversion Hr; subst. exists 0, core, []. rewrite app_nil_r. split_and!; try done. cbn; lia. }
  inversion Hnd as [|? ? Hp Hnd']; subst. inversion Hr as [|? t ? ts' (c & Hc & Hf & Htc) Hr']; subst. clear Hr.
  destruct (forwardRequest_fresh p rq core c Hc Hf) as (sent & c' & core1 & E & Hc' & Hk & _ & _ & _ & _ & Hres).
  { destruct Ht as [|Ht]; [by left|]. right. by inversion Ht. }
  destruct (first_result_events _ _ _ _ _ _ _ Hres) as (evs & Ee & Hl & Hz & Hto & Hsent). pose proof (same_kept _ _ _ Hk) as Hs1.
  cbn [start_loop]. rewrite (M_bind_ok _ _ _ _ _ (ct_load_ok _ _ _ Hc)). rewrite bool_decide_eq_true_2 by apply Hf.
  rewrite (M_bind_ok _ _ _ _ _ E).
  assert (Forall (sends_to rq (ct_target c :: ts')) evs) as Hto1.
  { eapply Forall_impl; [exact Hto|]. intros e. apply sends_to_weaken. intros t ->%list_elem_of_singleton. by left. }
  destruct (sent && serial) eqn:Eb.
  { apply andb_true_iff in Eb as [-> ->]. exists 1, core1, evs. split_and!; try done; try lia.
    split; [done|]. intros Hall. inversion Hall; subst. congruence. }
  destruct (IH ts' core1 Hnd') as (n & core2 & evs2 & E2 & Hs2 & Ee2 & Hl2 & Hto2 & Hz2 & Hn & Hser).
  { by eapply ready_kept. }
  { destruct Ht as [|Ht]; [by left|]. right. by inversion Ht. }
  rewrite (M_bind_ok _ _ _ _ _ E2). exists (if sent then S n else n), core2, (evs ++ evs2).
  split_and!; [by destruct sent|by eapply same_trans|by rewrite Ee2, Ee, app_assoc| | | | |].
  - rewrite filter_app, length_app. destruct sent; lia.
  - apply Forall_app. split; [done|]. eapply Forall_impl; [exact Hto2|]. intros e. apply sends_to_weaken. intros t Hin. by right.
  - intros Hn0. destruct sent; [done|]. by rewrite Hz, Hz2.
  - rewrite Forall_cons, <-Hn, <-Hsent. destruct sent; split; try done; lia || (intros; tauto).
  - intros ->. rewrite andb_true_r in Eb. rewrite Eb. by apply Hser.
Qed.
End first_transmission.

(** ** The destinations *)

Lemma write_destinations_ok i dests : i + length dests <= MAX_DESTINATIONS ->
  write_destinations i dests = Ok (map (field URI_LEN) dests ++ replicate (MAX_DESTINATIONS - (i + length dests)) ""%string).
Proof.
  revert i. induction dests as [|x l IH]; intros i Hi; cbn [write_destinations length map app].
  { by rewrite Nat.add_0_r. }
  cbn [length] in Hi. rewrite bool_decide_eq_true_2 by lia. rewrite IH by lia. do 4 f_equal. lia.
Qed.
Lemma write_destinations_overflow i dests : i <= MAX_DESTINATIONS < i + length dests -> write_destinations i dests = Fault BadAccess.
Proof.
  revert i. induction dests as [|x l IH]; intros i Hi; cbn [write_destinations length] in *; [lia|].
  case_bool_decide; [|done]. by rewrite IH by lia.
Qed.
Lemma until_empty_app l k : Forall (fun s => s ≠ ""%string) l -> until_empty (l ++ replicate k ""%string) = l.
Proof.
  induction 1 as [|s l Hs _ IH]; cbn; [by destruct k|]. rewrite (proj2 (String.eqb_neq _ _) Hs). by rewrite IH.
Qed.
Lemma until_empty_nonempty l : Forall (fun s => s ≠ ""%string) (until_empty l).
Proof. induction l as [|s l IH]; cbn; [done|]. destruct (String.eqb_spec s ""); [done|]. by constructor. Qed.
Lemma field_id n s : c_str s = s -> String.length s < n -> field n s = s.
Proof. intros Hc Hl. unfold field. rewrite Hc. apply str_take_all. lia. Qed.

(** A command to proxy a request to at most ten destinations reaches the
    thread of the stack as it was given: ids, timeouts and destinations that fit
    in their arrays and have no NUL arrive unchanged and in order, and so does
    the choice between serial and simultaneous.  With an eleventh destination
    memory behind the array is written. *)
Theorem proxy_command_roundtrip (clientMsgId transactionId provisional final headers : string) (rr full redirects simultaneous : bool)
    (dests : list string) :
  let fits n s := c_str s = s /\ String.length s < n in
  fits MSG_ID_LEN clientMsgId -> fits MSG_ID_LEN transactionId -> fits TIMEOUT_LEN provisional -> fits TIMEOUT_LEN final ->
  fits HDR_STR_LEN headers -> Forall (fun s => fits URI_LEN s /\ s ≠ ""%string) dests ->
  match proxyRequest clientMsgId transactionId rr full redirects simultaneous provisional final dests headers with
  | Ok d => length dests <= 10 /\ pd_clientMsgId d = clientMsgId /\ pd_transactionId d = transactionId /\
      pd_provisionalTimeout d = provisional /\ pd_finalTimeout d = final /\ pd_headers d = headers /\ getDestinations d = dests /\
      (pd_bRecordRoute d, pd_bFullResponse d, pd_bFollowRedirects d, pd_bSimultaneous d) = (rr, full, redirects, simultaneous)
  | Fault f => f = BadAccess /\ 10 < length dests
  end.
Proof.
  intros fits [? ?] [? ?] [? ?] [? ?] [? ?] Hd. unfold proxyRequest, ProxyData_new. destruct (decide (length dests <= MAX_DESTINATIONS)) as [Hn|Hn].
  - rewrite write_destinations_ok by lia. cbn [pd_clientMsgId pd_transactionId pd_provisionalTimeout pd_finalTimeout pd_headers].
    rewrite !field_id by done. split_and!; try done. unfold getDestinations. cbn [pd_destinations].
    assert (map (field URI_LEN) dests = dests) as ->.
    { clear Hn. induction Hd as [|s l [[? ?] _] _ IH]; cbn [map]; [done|]. by rewrite IH, field_id. }
    rewrite firstn_all2 by (rewrite length_app, length_replicate; lia). apply until_empty_app. eapply Forall_impl; [exact Hd|]. by intros s [].
  - rewrite write_destinations_overflow by lia. split; [done|]. unfold MAX_DESTINATIONS in Hn. lia.
Qed.

(** ** A new core *)

Section new_core.
Context `{ProxyEnv}.

Lemma new_transactions_run targets core :
  exists ps objs uuids, new_transactions targets core = Ok (ps, on_pc_objects (fun _ => objs) (set_uuids uuids core)) /\
    NoDup ps /\ (forall q, is_Some (pc_objects core !! q) -> q ∉ ps /\ objs !! q = pc_objects core !! q) /\
    Forall2 (ready (on_pc_objects (fun _ => objs) core)) ps targets.
Proof.
  revert core. induction targets as [|t ts IH]; intros core.
  { exists [], (pc_objects core), (pc_uuids core). split_and!; [by destruct core|constructor|intros; split; [apply not_elem_of_nil|done]|constructor]. }
  cbn [new_transactions]. set (p := fresh_addr (pc_objects core)). pose proof (fresh_addr_lookup (pc_objects core)) as Hfresh. fold p in Hfresh.
  set (c := MkClientTransaction t sip_method_unknown (rfc3261prefix +:+ default ""%string (head (pc_uuids core))) "" not_started 0 false 0 0 0 ∅ None).
  set (core1 := on_pc_objects (insert p c) (set_uuids (tail (pc_uuids core)) core)).
  assert (new_transaction t core = Ok (p, core1)) as E1 by reflexivity. rewrite (M_bind_ok _ _ _ _ _ E1).
  destruct (IH core1) as (ps & objs & uuids & E & Hnd & Hold & Hr). rewrite (M_bind_ok _ _ _ _ _ E).
  assert (is_Some (pc_objects core1 !! p)) as Hp by (cbn; rewrite lookup_insert_eq; by eexists).
  exists (p :: ps), objs, uuids. split_and!.
  - done.
  - constructor; [by apply Hold|done].
  - intros q Hq. assert (q ≠ p) as Hne by (intros ->; rewrite Hfresh in Hq; by destruct Hq).
    assert (is_Some (pc_objects core1 !! q)) as Hq1 by (cbn; by rewrite lookup_insert_ne).
    destruct (Hold q Hq1) as [Hin ->]. split; [by intros [->|?]%elem_of_cons|]. cbn. by rewrite lookup_insert_ne.
  - constructor; [|exact Hr]. exists c. split; [|done]. cbn. rewrite (proj2 (Hold p Hp)). cbn. by rewrite lookup_insert_eq.
Qed.

(** A core that has the targets, none tried, and has sent nothing. *)
Record unstarted (core : ProxyCore) (rq : request) (serial : bool) (targets : list string) : Prop := {
  us_searching : pc_searching core = true;
  us_serial : pc_serial core = serial;
  us_request : sv_request (pc_server core) = rq;
  us_nodup : NoDup (pc_vecClientTransactions core);
  us_ready : Forall2 (ready core) (pc_vecClientTransactions core) targets;
  us_events : pc_events core = [];
}.
Lemma initializeTransactions_run core rq serial targets :
  pc_searching core = true -> pc_serial core = serial -> sv_request (pc_server core) = rq ->
  pc_vecClientTransactions core = [] -> pc_events core = [] ->
  exists core', initializeTransactions targets core = Ok (tt, core') /\ unstarted core' rq serial targets.
Proof.
  intros ? ? ? Hv ?. destruct (new_transactions_run targets core) as (ps & objs & uuids & E & Hnd & _ & Hr).
  unfold initializeTransactions. rewrite (M_bind_ok _ _ _ _ _ E). eexists. split; [reflexivity|].
  constructor; try done; cbn; by rewrite Hv.
Qed.
Lemma setProvisionalTimeout_unstarted t core rq serial targets :
  unstarted core rq serial targets -> unstarted (setProvisionalTimeout t core) rq serial targets.
Proof.
  intros [? ? ? ? Hr ?]. unfold setProvisionalTimeout. repeat case_match; by constructor.
Qed.
Lemma startRequests_run core rq serial targets : unstarted core rq serial targets -> can_send targets ->
  exists n core', startRequests core = Ok (n, core') /\
    length (filter (fun e => is_sent e = true) (pc_events core')) <= n /\ Forall (sends_to rq targets) (pc_events core') /\
    (n = 0 -> pc_events core' = []) /\ (n = 0 <-> Forall (fun t => has_transport t = false) targets) /\ (serial = true -> n <= 1).
Proof.
  intros [Hs Hser <- Hnd Hr He] Ht. destruct (start_loop_run serial (sv_request (pc_server core)) _ targets core Hnd Hr Ht)
    as (n & core' & evs & E & _ & Ee & H1 & H2 & H3 & H4 & H5).
  exists n, core'. rewrite He in Ee. cbn in Ee. rewrite Ee. split; [|done].
  unfold startRequests. erewrite M_bind_ok by reflexivity. cbn beta. rewrite Hs. cbn [negb]. by rewrite Hser.
Qed.
End new_core.

(** ** The command in the thread of the stack *)

Section launch.
Context `{sutime : SuTime} `{!SuTimeLaws} `{NtaMessage} `{SipAuth} `{ProxyEnv} `{ProxyLaunch}.

Lemma main_ok {A} (m : DC A) (a : A) x w : m (pw_main w) = Ok (a, x) -> main m w = Ok (a, on_pw_main (fun _ => x) w).
Proof. intros E. unfold main. by erewrite zoom_ok. Qed.
Lemma in_core_ok {A} p (m : PM A) (a : A) c c' w : pw_cores w !! p = Some c -> m c = Ok (a, c') ->
  in_core p m w = Ok (a, on_pw_cores (insert p c') w).
Proof. intros Hc E. unfold in_core, mbind, M_bind, get, deref. rewrite Hc, E. done. Qed.

Lemma addProxy_run d msg dests w :
  let p := fresh_addr (pw_cores w) in
  exists core, addProxy d msg dests w =
    Ok (p, on_pw_main (on_dc_main (on_mt_proxies (map_insert (proxy_id (sip_object msg)) p))) (on_pw_cores (insert p core) w)) /\
    unstarted core (request_view msg) (negb (pd_bSimultaneous d)) dests.
Proof.
  intros p. unfold addProxy. mstep. fold p.
  set (core0 := ProxyCore_new p msg (pd_bRecordRoute d) (pd_bFullResponse d) (pd_bFollowRedirects d) (pd_bSimultaneous d)).
  set (w1 := on_pw_cores (insert p core0) w).
  destruct (initializeTransactions_run core0 (request_view msg) (negb (pd_bSimultaneous d)) dests) as (core1 & E1 & U1);
    [unfold core0, ProxyCore_new; by destruct (core_inputs p) as [[? ?] ?]..|].
  erewrite M_bind_ok by reflexivity. cbn beta. fold w1.
  rewrite (M_bind_ok _ _ _ _ _ (in_core_ok p _ _ core0 core1 w1 ltac:(apply lookup_insert_eq) E1)).
  set (w2 := on_pw_cores (insert p core1) w1).
  assert (exists core2 w3, (if String.eqb (pd_provisionalTimeout d) "" then mret tt
      else in_core p (modify (setProvisionalTimeout (pd_provisionalTimeout d)))) w2 = Ok (tt, w3) /\
      w3 = on_pw_cores (insert p core2) w /\ unstarted core2 (request_view msg) (negb (pd_bSimultaneous d)) dests) as (core2 & w3 & E3 & -> & U2).
  { destruct (String.eqb _ _).
    - exists core1, w2. split; [done|]. split; [|done]. unfold w2, w1, on_pw_cores. cbn. by rewrite insert_insert_eq.
    - exists (setProvisionalTimeout (pd_provisionalTimeout d) core1), (on_pw_cores (insert p (setProvisionalTimeout (pd_provisionalTimeout d) core1)) w2).
      split; [by apply (in_core_ok p _ _ core1); [apply lookup_insert_eq|]|]. split; [|by apply setProvisionalTimeout_unstarted].
      unfold w2, w1, on_pw_cores. cbn. by rewrite !insert_insert_eq. }
  rewrite (M_bind_ok _ _ _ _ _ E3). exists core2. split; [done|done].
Qed.

(** What a rejection leaves. *)
Lemma reject_proxied_run msg status w : in_replies (dc_inputs w) = [] ->
  exists w', reject_proxied msg status w = Ok (tt, w') /\
    dc_events w' = dc_events w ++ [RepliedTo msg status; DialogWorld.PostedCdr stop_record "application" role_undefined call_rejected] /\
    mt_proxies (dc_main w') = delete (proxy_id (sip_object msg)) (mt_proxies (dc_main w)) /\ server_of w' = server_of w /\
    mt_held (dc_main w') = mt_held (dc_main w) /\ dc_stack w' = dc_stack w /\ (forall k, owed_of w' k = owed_of w k).
Proof.
  intros Hr. unfold reject_proxied, msg_ref_create.
  destruct (owe_run msg 1 w Hr) as (w1 & E1 & S1). rewrite (M_bind_ok _ _ _ _ _ E1).
  destruct (msg_treply_run msg status w1) as (w2 & E2 & S2); [by eapply sn_replies|]. rewrite (M_bind_ok _ _ _ _ _ E2).
  destruct (emit_run msg (DialogWorld.PostedCdr stop_record "application" role_undefined call_rejected) w2) as (w3 & E3 & S3); [by eapply sn_replies|].
  rewrite (M_bind_ok _ _ _ _ _ E3). pose proof (sent_trans _ _ _ _ _ _ _ _ S1 (sent_trans _ _ _ _ _ _ _ _ S2 S3)) as [? ? ? ? ? Hp ? ? ? Ho].
  eexists. split; [reflexivity|]. split_and!; try done; [by cbn; rewrite Hp|]. intros k. unfold owed_of in *. cbn. etrans; [apply Ho|]. case_decide; lia.
Qed.

(** The pending request is gone, and nothing is owed for it. *)
Record done_with (w w' : SipDialogController) (txn : string) (tp : positive) (n : nat) : Prop := {
  dw_txn : m_mapTxnId2Invite (prc_of w') !! txn = None;
  dw_held : mt_held (dc_main w') !! txn = None;
  dw_refs : refs_of (dc_stack w') tp = n;
  dw_owed k : owed_of w' k = owed_of w k;
}.
Definition told (w w' : SipDialogController) (d : ProxyData) (text data : string) : Prop :=
  exists routed, route_api_response (pd_clientMsgId d) text data (dc_clients w) = Ok (routed, dc_clients w').
(** The request that the core sent, if any, goes to the targets. *)
Definition sent_by (core : ProxyCore) (msg : positive) (d : ProxyData) (targets : list string) (n : nat) : Prop :=
  length (filter (fun e => is_sent e = true) (pc_events core)) <= n /\ Forall (sends_to (request_view msg) targets) (pc_events core) /\
  (pd_bSimultaneous d = false -> n <= 1).
Inductive proxy_outcome (w w' : SipDialogController) (d : ProxyData) (msg : positive) (targets : list string) (core : positive) (c : ProxyCore) : Prop :=
  | ProxyNoHops : hops_used_up msg = true -> pc_events c = [] ->
    told w w' d "NOK" "Rejected with 483 Too Many Hops due to Max-Forwards value of 0" ->
    dc_events w' = dc_events w ++ [RepliedTo msg 483; DialogWorld.PostedCdr stop_record "application" role_undefined call_rejected] ->
    mt_proxies (dc_main w') = mt_proxies (dc_main w) -> proxy_outcome w w' d msg targets core c
  | ProxyNoTransport : hops_used_up msg = false -> Forall (fun t => has_transport t = false) targets -> pc_events c = [] ->
    told w w' d "NOK" "error proxying request to " ->
    dc_events w' = dc_events w ++ [RepliedTo msg 500; DialogWorld.PostedCdr stop_record "application" role_undefined call_rejected] ->
    mt_proxies (dc_main w') = mt_proxies (dc_main w) -> proxy_outcome w w' d msg targets core c
  | ProxyStarted n : hops_used_up msg = false -> Exists (fun t => has_transport t = true) targets -> sent_by c msg d targets n ->
    (if pd_bFullResponse d then dc_clients w' = dc_clients w else told w w' d "OK" "done") -> dc_events w' = dc_events w ->
    mt_proxies (dc_main w') = <[proxy_id (sip_object msg) := core]> (mt_proxies (dc_main w)) -> proxy_outcome w w' d msg targets core c.

Definition targets_for (d : ProxyData) (msg : positive) (c : challenges) : list string :=
  match isResponseToChallenge msg c with Ok (Some t, _) => [t] | _ => getDestinations d end.

(** What [proxy_outcome] and [done_with] look at. *)
Definition outcome_view (w : SipDialogController) := (dc_events w, dc_clients w, mt_proxies (dc_main w)).
Lemma outcome_frame w1 w2 w1' w2' d msg targets core c : outcome_view w1 = outcome_view w2 -> outcome_view w1' = outcome_view w2' ->
  proxy_outcome w1 w1' d msg targets core c -> proxy_outcome w2 w2' d msg targets core c.
Proof.
  intros [= A1 A2 A3] [= B1 B2 B3] Ho.
  destruct Ho; [eapply ProxyNoHops|eapply ProxyNoTransport|eapply ProxyStarted]; unfold told in *; rewrite <-?A1, <-?A2, <-?A3, <-?B1, <-?B2, <-?B3; eassumption.
Qed.
Definition pending_view (w : SipDialogController) := (prc_of w, mt_held (dc_main w), dc_stack w).
Definition same_pending (w w' : SipDialogController) : Prop := pending_view w' = pending_view w /\ forall k, owed_of w' k = owed_of w k.

Lemma api_told w d text data : m_lock (dc_clients w) = false ->
  exists cc, api (pd_clientMsgId d) text data w = Ok (tt, on_dc_clients (fun _ => cc) w) /\ told w (on_dc_clients (fun _ => cc) w) d text data.
Proof. intros Hl. destruct (api_run (pd_clientMsgId d) text data w Hl) as (r & cc & E & Ea & _). exists cc. split; [done|]. by exists r. Qed.

Lemma reject_told d msg status data wm core : m_lock (dc_clients wm) = false -> in_replies (dc_inputs wm) = [] ->
  mt_proxies (dc_main wm) !! proxy_id (sip_object msg) = None ->
  let w := on_dc_main (on_mt_proxies (map_insert (proxy_id (sip_object msg)) core)) wm in
  exists w', (_ ← api (pd_clientMsgId d) "NOK" data; reject_proxied msg status) w = Ok (tt, w') /\ same_pending wm w' /\
    told wm w' d "NOK" data /\ mt_proxies (dc_main w') = mt_proxies (dc_main wm) /\
    dc_events w' = dc_events wm ++ [RepliedTo msg status; DialogWorld.PostedCdr stop_record "application" role_undefined call_rejected].
Proof.
  intros Hl Hr Hn w. destruct (api_told w d "NOK" data Hl) as (cc & E & r & Ht). rewrite (M_bind_ok _ _ _ _ _ E).
  destruct (reject_proxied_run msg status (on_dc_clients (fun _ => cc) w)) as (w' & E2 & He & Hp & Hs & Hh & Hst & Ho); [done|].
  exists w'. split; [done|]. injection Hs as S1 S2 S3 S4. split_and!.
  - split; [|by intros k; rewrite Ho]. unfold pending_view, prc_of. rewrite S1, Hh, Hst. done.
  - exists r. rewrite S2. exact Ht.
  - rewrite Hp. cbn. unfold map_insert. rewrite Hn. by rewrite delete_insert_id.
  - exact He.
Qed.

Lemma transport_cases targets : Forall (fun t => has_transport t = false) targets \/ Exists (fun t => has_transport t = true) targets.
Proof.
  induction targets as [|t ts [IH|IH]]; [by left| |right; by right].
  destruct (has_transport t) eqn:E; [right; by left|left; by constructor].
Qed.
Lemma launch_run d msg targets core c0 wm w :
  pw_cores w !! core = Some c0 -> unstarted c0 (request_view msg) (negb (pd_bSimultaneous d)) targets -> can_send targets ->
  m_lock (dc_clients wm) = false -> in_replies (dc_inputs wm) = [] -> mt_proxies (dc_main wm) !! proxy_id (sip_object msg) = None ->
  pw_main w = on_dc_main (on_mt_proxies (map_insert (proxy_id (sip_object msg)) core)) wm ->
  exists w' c, launch d msg core w = Ok (tt, w') /\ pw_cores w' = <[core := c]> (pw_cores w) /\ pw_challenges w' = pw_challenges w /\
    same_pending wm (pw_main w') /\ proxy_outcome wm (pw_main w') d msg targets core c.
Proof.
  intros Hc Hu Ht Hl Hr Hn Hw. unfold launch. destruct (hops_used_up msg) eqn:Eh.
  - destruct (reject_told d msg 483 "Rejected with 483 Too Many Hops due to Max-Forwards value of 0" wm core Hl Hr Hn) as (m' & E & Hs & Ht' & Hp & He).
    apply M_bind_inv in E as ([] & m1 & E1 & E2). rewrite <-Hw in E1. rewrite (M_bind_ok _ _ _ _ _ (main_ok _ _ _ _ E1)).
    eexists _, c0. split; [by apply main_ok|]. cbn. split_and!; [by rewrite insert_id|done|done|]. apply ProxyNoHops; try done. by apply Hu.
  - set (w1 := on_pw_unrouted (fun l => l ++ [msg]) w). assert (pw_main w1 = pw_main w) as Hm1 by done.
    destruct (startRequests_run c0 _ _ _ Hu Ht) as (n & c & E & Hk1 & Hk2 & Hk3 & Hk4 & Hk5).
    erewrite M_bind_ok by reflexivity. cbn beta. fold w1. rewrite (M_bind_ok _ _ _ _ _ (in_core_ok core _ _ c0 c w1 Hc E)).
    set (w2 := on_pw_cores (insert core c) w1). assert (pw_main w2 = pw_main w) as Hm2 by done.
    destruct (Nat.eqb_spec n 0) as [Hn0|Hn0].
    + destruct (reject_told d msg 500 "error proxying request to " wm core Hl Hr Hn) as (m' & Er & Hs & Ht' & Hp & He).
      apply M_bind_inv in Er as ([] & m1 & E1 & E2). rewrite <-Hw, <-Hm2 in E1. rewrite (M_bind_ok _ _ _ _ _ (main_ok _ _ _ _ E1)).
      eexists _, c. split; [by apply main_ok|]. split_and!; try done. by apply ProxyNoTransport; [done|by apply Hk4|by apply Hk3|..].
    + assert (Exists (fun t => has_transport t = true) targets) as Hex.
      { destruct (transport_cases targets) as [Hf|]; [|done]. by destruct Hn0; apply Hk4. }
      assert (sent_by c msg d targets n) as Hsb by (split_and!; [done..|]; intros Hd; apply Hk5; by rewrite Hd).
      assert (mt_proxies (dc_main (pw_main w2)) = <[proxy_id (sip_object msg) := core]> (mt_proxies (dc_main wm))) as Hp
        by (rewrite Hm2, Hw; cbn; unfold map_insert; by rewrite Hn).
      destruct (pd_bFullResponse d) eqn:Ef.
      * exists w2, c. split; [done|]. split_and!; try done; [by rewrite Hm2, Hw|]. eapply ProxyStarted; try done; [by rewrite Ef, Hm2, Hw|by rewrite Hm2, Hw].
      * destruct (api_told (pw_main w2) d "OK" "done") as (cc & E1 & Ht1); [by rewrite Hm2, Hw|].
        eexists _, c. split; [by apply main_ok|]. cbn [pw_cores on_pw_main pw_main pw_challenges].
        split_and!; try done; [by rewrite Hm2, Hw|]. eapply ProxyStarted; try done.
        { rewrite Ef. by rewrite Hm2, Hw in *. }
        { by rewrite Hm2, Hw. }
Qed.

Lemma on_prc_inputs {A} (m : M PendingRequestController A) a w w' :
  DialogWorld.on_server (on_prc m) w = Ok (a, w') -> dc_inputs w' = dc_inputs w.
Proof. unfold DialogWorld.on_server, on_prc, zoom. destruct (m _) as [[? ?]|]; [|done]. by intros [= <- <-]. Qed.

(** C20: What becomes of a command to proxy a pending request, whatever the
    stack does.  The request is no longer pending and its transport is given
    back, and the message is owed to nobody.  With its hops used up it is
    answered with 483 and sent to nobody; if no target has a transport it is
    answered with 500; otherwise the new core is in the table, serially at most
    one request is sent, and requests go only to the destinations that were
    given, or, if the request answers a challenge, only to the server that sent
    the challenge.  The client that gave the command is told which. *)
Theorem doProxy_outcome (w : proxy_world) d l p o msg tp n :
  pending_call (pw_main w) l (pd_transactionId d) p o msg tp n -> in_replies (dc_inputs (pw_main w)) = [] ->
  chal_reachable (pw_challenges w) -> msg ∉ ch_freed (pw_challenges w) ->
  mt_proxies (dc_main (pw_main w)) !! proxy_id (sip_object msg) = None -> can_send (targets_for d msg (pw_challenges w)) ->
  exists w' c, doProxy d w = Ok (tt, w') /\ done_with (pw_main w) (pw_main w') (pd_transactionId d) tp n /\
    pw_cores w' = <[fresh_addr (pw_cores w) := c]> (pw_cores w) /\
    proxy_outcome (pw_main w) (pw_main w') d msg (targets_for d msg (pw_challenges w)) (fresh_addr (pw_cores w)) c.
Proof.
  intros Hpc Hr Hch Hmsg Hnew Ht. unfold doProxy.
  destruct (take_pending _ _ _ _ _ _ _ _ Hpc) as (m1 & E1 & _ & T1 & _ & T3 & T4 & T5 & T6 & T7 & _).
  pose proof (on_prc_inputs _ _ _ _ E1) as T8. rewrite (M_bind_ok _ _ _ _ _ (main_ok _ _ _ w E1)).
  assert (held_msg (pd_transactionId d) m1 = Ok (msg, m1)) as E2 by (unfold held_msg; mstep; rewrite T3; cbn; by rewrite (pl_held _ _ _ _ _ _ _ _ Hpc)).
  set (w1 := on_pw_main (fun _ => m1) w). assert (pw_main w1 = m1) as M1 by done.
  rewrite (M_bind_ok _ _ _ _ _ (main_ok (held_msg _) _ _ w1 E2)). change (on_pw_main (fun _ => m1) w1) with w1.
  assert (exists target ch', isResponseToChallenge msg (pw_challenges w) = Ok (target, ch') /\
    match target with Some t => [t] | None => getDestinations d end = targets_for d msg (pw_challenges w)) as (target & ch' & E3 & Hts).
  { unfold targets_for. destruct (answer_cases msg _ (chal_reachable_inv _ Hch) Hmsg) as [(? & ? & ? & ? & ? & _ & _ & _ & _ & E)|[_ E]]; rewrite E; by eexists _, _. }
  erewrite (M_bind_ok (challenge _)) by (unfold challenge; apply zoom_ok; exact E3). rewrite Hts.
  set (w2 := on_pw_challenges (fun _ => ch') w1).
  destruct (addProxy_run d msg (targets_for d msg (pw_challenges w)) w2) as (c0 & E4 & Hu). rewrite (M_bind_ok _ _ _ _ _ E4).
  change (fresh_addr (pw_cores w2)) with (fresh_addr (pw_cores w)) in *. set (w3 := on_pw_main _ _).
  destruct (launch_run d msg (targets_for d msg (pw_challenges w)) (fresh_addr (pw_cores w)) c0 m1 w3) as (w4 & c & E5 & Hc & _ & [Hs Ho] & Hout);
    [apply lookup_insert_eq|done|done|by rewrite T7; apply Hpc|by rewrite T8|by rewrite T3|done|].
  rewrite (M_bind_ok _ _ _ _ _ E5). injection Hs as P1 P2 P3.
  assert (refs_of (dc_stack (pw_main w4)) tp = S n) as Hrf by (rewrite P3, T4; apply Hpc).
  assert (mt_held (dc_main (pw_main w4)) !! pd_transactionId d = Some (msg, tp)) as Hh by (rewrite P2, T3; apply Hpc).
  eexists _, c. split; [apply main_ok; by eapply drop_pending_run|]. split_and!.
  - constructor.
    + change (m_mapTxnId2Invite (prc_of (pw_main w4)) !! pd_transactionId d = None). rewrite P1, T1. apply lookup_delete_eq.
    + cbn. apply lookup_delete_eq.
    + unfold refs_of. cbn. by rewrite lookup_insert_eq.
    + intros k. transitivity (owed_of (pw_main w4) k); [done|]. rewrite Ho. unfold owed_of, owed. by rewrite T3.
  - cbn. rewrite Hc. cbn. by rewrite insert_insert_eq.
  - eapply outcome_frame; [| |exact Hout]; [|done]. unfold outcome_view. by rewrite T6, T7, T3.
Qed.
End launch.
