(* ===== verification/ProxyEnds.v ===== *)
(** A proxied INVITE that nobody answers comes to an end: the timers of its
    core, played in the order in which they are due. *)
From S2P Require Import Prelude CppString TextUtil SipTags Cdr SipDialog ProxyCore ProxyCorrect ProxyStart ProxyStartCorrect.

Open Scope list_scope.

Section ends.
Context `{ProxyEnv}.
Context (sort : (ClientTransaction -> ClientTransaction -> bool) -> list (positive * ClientTransaction) -> list (positive * ClientTransaction)).
Context (sort_perm : forall f l, sort f l ≡ₚ l).

(** A core with the time at which each of its armed timers is due. *)
Record timed := Timed {
  tm_core : ProxyCore;
  tm_due : positive -> Z;
  tm_now : Z;
}.
(** The timers that were armed when [h] went off. *)
Definition rearm (core core' : ProxyCore) (h : positive) (now : Z) (due : positive -> Z) : positive -> Z :=
  fun k => if decide (k ≠ h /\ pc_armed core' !! k = pc_armed core !! k) then due k
           else match pc_armed core' !! k with Some (_, _, ms) => (now + ms)%Z | None => 0%Z end.
(** The next thing that happens without a message: a timer that is due first
    goes off. *)
Inductive expires : timed -> timed -> Prop :=
  | Expires s h x core' :
    pc_armed (tm_core s) !! h = Some x -> (forall k, is_Some (pc_armed (tm_core s) !! k) -> (tm_due s h <= tm_due s k)%Z) ->
    fire sort h (tm_core s) = Ok (tt, core') ->
    expires s (Timed core' (rearm (tm_core s) core' h (tm_due s h) (tm_due s)) (tm_due s h)).

Lemma addTimer_exact p cls ms c a core : let h := fresh_addr a in
  addTimer p cls ms (upd p c a core) = Ok (tt, upd p (on_ct_timers (insert cls h) c) (insert h (cls, p, ms) a) core).
Proof.
  cbn zeta. unfold addTimer. change (pc_armed (upd p c a core)) with a.
  change (on_armed (insert (fresh_addr a) (cls, p, ms)) (upd p c a core)) with (upd p c (insert (fresh_addr a) (cls, p, ms) a) core).
  by rewrite ct_store_upd.
Qed.
Lemma removeTimerOf_exact p cls c a core h ms : ct_timers c !! cls = Some h -> a !! h = Some (cls, p, ms) ->
  removeTimerOf p cls (upd p c a core) = Ok (tt, upd p (on_ct_timers (delete cls) c) (delete h a) core).
Proof.
  intros E Hh. unfold removeTimerOf, removeTimer. rewrite (M_bind_ok _ _ _ _ _ (ct_load_upd p c a core)), E.
  erewrite M_bind_ok by reflexivity. cbn beta. change (pc_armed (upd p c a core)) with a. rewrite Hh.
  rewrite bool_decide_eq_true_2 by done. erewrite M_bind_ok by reflexivity. cbn beta.
  change (on_armed (delete h) (upd p c a core)) with (upd p c (delete h a) core). by rewrite ct_store_upd.
Qed.

(** ** Waiting for an answer *)

Definition resent (p : positive) (branch target : string) (rq : request) (rr : bool) : event :=
  SentRequest p branch target (if rq_local rq then Some target else None)
    (match rq_max_forwards rq with Some n => n - 1 | None => 70 end)%Z rr false.
(** After [k] retransmissions. *)
Record waiting (p : positive) (k : nat) (core : ProxyCore) (due : positive -> Z) (c : ClientTransaction) (hA hB hC : positive) : Prop := {
  wt_object : pc_objects core !! p = Some c;
  wt_state : ct_state c = calling;
  wt_method : ct_method c = sip_method_invite;
  wt_transport : has_transport (ct_target c) = true;
  wt_count : ct_transmitCount c = (Z.of_nat k + 1)%Z;
  wt_duration : ct_durationTimerA c = (500 * 2 ^ Z.of_nat k)%Z;
  wt_distinct : hA ≠ hB /\ hA ≠ hC /\ hB ≠ hC;
  wt_timers : ct_timers c = <[timerA := hA]> (<[timerB := hB]> {[timerC := hC]});
  wt_armed : pc_armed core = <[hA := (timerA, p, (500 * 2 ^ Z.of_nat k)%Z)]> (<[hB := (timerB, p, TIMER_B_MSECS)]> {[hC := (timerC, p, TIMER_C_MSECS)]});
  wt_dueA : due hA = (500 * (2 ^ (Z.of_nat k + 1) - 1))%Z;
  wt_dueB : due hB = 32000%Z;
  wt_dueC : due hC = 185000%Z;
  wt_vec : pc_vecClientTransactions core = [p];
  wt_searching : pc_searching core = true;
  wt_sends : pc_sends core = [];
  wt_request : rq_method (sv_request (pc_server core)) = sip_method_invite;
}.

(** A retransmission that the stack takes. *)
Lemma forwardRequest_resent p rq c a core :
  ct_state c = calling -> ct_method c = sip_method_invite -> sip_outbound_proxy = None -> has_transport (ct_target c) = true ->
  pc_sends core = [] -> rq_method rq = sip_method_invite -> (0 < ct_transmitCount c)%Z ->
  forwardRequest p rq (upd p c a core) =
    Ok (true, add_events [resent p (ct_branch c) (ct_target c) rq (pc_bRecordRoute core)]
                (upd p (set_ct_transmitCount (ct_transmitCount c + 1) c) a core)).
Proof.
  intros Hst Hm Hop Htr Hse Hrm Hn. unfold forwardRequest. rewrite (M_bind_ok _ _ _ _ _ (ct_store_upd p _ c a core)).
  set (c1 := set_ct_transmitCount (ct_transmitCount c + 1) c). rewrite (M_bind_ok _ _ _ _ _ (ct_load_upd p c1 a core)).
  change (ct_state c1) with (ct_state c). rewrite Hst, (bool_decide_eq_false_2 (calling = not_started)) by done.
  erewrite M_bind_ok by reflexivity. cbn beta zeta. rewrite (M_bind_ok _ _ _ _ _ (ct_load_upd p c1 a core)).
  change (ct_target c1) with (ct_target c). rewrite Hop. erewrite M_bind_ok by reflexivity. cbn beta.
  rewrite <-negb_orb. fold (has_transport (ct_target c)). rewrite Htr. cbn [negb].
  erewrite M_bind_ok by reflexivity. cbn beta. erewrite M_bind_ok by reflexivity. cbn beta.
  change (pc_sends (upd p c1 a core)) with (pc_sends core). rewrite Hse. cbn [head default tail]. rewrite bool_decide_eq_false_2 by lia.
  cbn beta iota zeta. erewrite M_bind_ok by reflexivity. cbn beta.
  change (ct_transmitCount c1) with (ct_transmitCount c + 1)%Z. rewrite (bool_decide_eq_false_2 (_ = 1%Z)) by lia. cbn [andb].
  erewrite M_bind_ok by reflexivity. rewrite M_ret_run. do 2 f_equal. rewrite Hrm.
  rewrite !bool_decide_eq_false_2 by done. unfold resent, add_events, on_events, set_sends. cbn. rewrite andb_true_r, andb_false_r. by rewrite Hse.
Qed.

Lemma fired_upd p h c core : pc_objects core !! p = Some c ->
  on_armed (delete h) core = upd p c (delete h (pc_armed core)) core.
Proof. intros Hc. transitivity (on_armed (delete h) (upd p c (pc_armed core) core)); [by rewrite upd_id|done]. Qed.
Lemma assert_state_run p l c a core : ct_state c ∈ l -> assert_state p l (upd p c a core) = Ok (tt, upd p c a core).
Proof.
  intros Hin. unfold assert_state. rewrite (M_bind_ok _ _ _ _ _ (ct_load_upd p c a core)). by apply assertb_true, bool_decide_eq_true_2.
Qed.
Lemma fire_run h x core : pc_armed core !! h = Some x ->
  fire sort h core = (let '(cls, p, _) := x in
    match cls with
    | timerA => fire_timerA p | timerB => fire_timerB sort p | timerC => fire_timerC sort p | timerD => fire_timerD p
    | timerE => fire_timerE p | timerF => fire_timerF p | timerK => fire_timerK p
    | timerProvisional => fire_timerProvisional sort p
    end) (on_armed (delete h) core).
Proof. intros E. unfold fire. erewrite M_bind_ok by reflexivity. cbn beta. rewrite E. by destruct x as [[[] ?] ?]. Qed.

(** Timer A: the request is sent once more. *)
Lemma waiting_again p k core due c hA hB hC : sip_outbound_proxy = None -> waiting p k core due c hA hB hC ->
  exists core' c' hA', fire sort hA core = Ok (tt, core') /\
    waiting p (S k) core' (rearm core core' hA (due hA) due) c' hA' hB hC /\
    ct_branch c' = ct_branch c /\ ct_target c' = ct_target c /\ pc_server core' = pc_server core /\
    pc_bRecordRoute core' = pc_bRecordRoute core /\ pc_fullResponse core' = pc_fullResponse core /\
    pc_events core' = pc_events core ++ [resent p (ct_branch c) (ct_target c) (sv_request (pc_server core)) (pc_bRecordRoute core)].
Proof.
  intros Hop [Ho Hst Hm Htr Hn Hd (Hab & Hac & Hbc) Ht Ha HdA HdB HdC Hv Hse Hs Hrq].
  set (a0 := <[hB := (timerB, p, TIMER_B_MSECS)]> {[hC := (timerC, p, TIMER_C_MSECS)]} : gmap positive (timer_class * positive * Z)).
  assert (delete hA (pc_armed core) = a0) as Ea.
  { rewrite Ha. apply delete_insert_id. unfold a0. rewrite lookup_insert_ne, lookup_singleton_ne by done. done. }
  pose proof (fresh_addr_lookup a0) as Hfresh. set (h := fresh_addr a0) in *.
  assert (h ≠ hB) as HhB by (intros E; rewrite E in Hfresh; unfold a0 in Hfresh; by rewrite lookup_insert_eq in Hfresh).
  assert (h ≠ hC) as HhC by (intros E; rewrite E in Hfresh; unfold a0 in Hfresh; rewrite lookup_insert_ne, lookup_singleton_eq in Hfresh by done; done).
  set (c2 := set_ct_duration (Z.shiftl (ct_durationTimerA c) 1) (on_ct_timers (delete timerA) c)).
  set (c3 := set_ct_transmitCount (ct_transmitCount c2 + 1) c2). set (rq := sv_request (pc_server core)).
  set (core1 := add_events [resent p (ct_branch c2) (ct_target c2) rq (pc_bRecordRoute core)] core).
  exists (upd p (on_ct_timers (insert timerA h) c3) (insert h (timerA, p, ct_durationTimerA c3) a0) core1), (on_ct_timers (insert timerA h) c3), h.
  split.
  { rewrite (fire_run hA (timerA, p, (500 * 2 ^ Z.of_nat k)%Z)) by (rewrite Ha; apply lookup_insert_eq).
    rewrite (fired_upd p hA c core Ho), Ea. unfold fire_timerA, clearTimer.
    rewrite (M_bind_ok _ _ _ _ _ (assert_state_run p [calling] c a0 core ltac:(rewrite Hst; by left))).
    rewrite (M_bind_ok _ _ _ _ _ (ct_store_upd p _ c a0 core)). erewrite M_bind_ok by reflexivity. cbn beta.
    erewrite M_bind_ok; [reflexivity|]. unfold retransmitRequest. rewrite (M_bind_ok _ _ _ _ _ (ct_store_upd p _ _ a0 core)). fold c2.
    erewrite M_bind_ok; [|apply forwardRequest_resent; try done; cbn; lia]. cbn iota.
    change (add_events ?l (upd p c3 a0 core)) with (upd p c3 a0 (add_events l core)). fold rq core1.
    rewrite (M_bind_ok _ _ _ _ _ (ct_load_upd p c3 a0 core1)). unfold isInviteTransaction. change (ct_method c3) with (ct_method c).
    rewrite Hm, bool_decide_eq_true_2 by done. by rewrite (M_bind_ok _ _ _ _ _ (addTimer_exact p timerA _ c3 a0 core1)). }
  assert (ct_durationTimerA c3 = (500 * 2 ^ Z.of_nat (S k))%Z) as Ed.
  { change (ct_durationTimerA c3) with (Z.shiftl (ct_durationTimerA c) 1). rewrite Hd, Z.shiftl_mul_pow2 by lia.
    rewrite Nat2Z.inj_succ, Z.pow_succ_r by lia. lia. }
  split; [|by split_and!]. constructor; try done.
  - cbn. by rewrite lookup_insert_eq.
  - cbn. rewrite Hn. lia.
  - cbn. rewrite Ht. by rewrite delete_insert_eq, !delete_insert_ne, delete_singleton_ne by done.
  - cbn [pc_armed upd on_pc_objects on_armed]. by rewrite Ed.
  - unfold rearm. cbn [pc_armed upd on_pc_objects on_armed]. rewrite lookup_insert_eq, decide_False.
    + rewrite Ed, HdA, Nat2Z.inj_succ, <-Z.add_1_r, !Z.pow_add_r by lia. lia.
    + intros [Hne E]. rewrite Ha in E. rewrite lookup_insert_ne in E by done. fold a0 in E. by rewrite Hfresh in E.
  - unfold rearm. rewrite decide_True; [done|]. split; [congruence|]. cbn [pc_armed upd on_pc_objects on_armed].
    rewrite Ha. fold a0. by rewrite !lookup_insert_ne by congruence.
  - unfold rearm. rewrite decide_True; [done|]. split; [congruence|]. cbn [pc_armed upd on_pc_objects on_armed].
    rewrite Ha. fold a0. by rewrite !lookup_insert_ne by congruence.
Qed.

(** Timer B: the caller gets a 408 and the core is given up. *)
Definition given_up (full : bool) : list event :=
  [RemovedProxy; GeneratedResponse 408; rejected_cdr] ++ (if full then [ApiResponse "done"] else []).
Lemma enter_terminated p c a core hA hC msA msC :
  ct_timers c = <[timerA := hA]> {[timerC := hC]} -> hA ≠ hC -> a = <[hA := (timerA, p, msA)]> {[hC := (timerC, p, msC)]} ->
  exists c', enter_invite p terminated (upd p c a core) = Ok (tt, upd p c' ∅ core) /\ ct_state c' = ct_state c.
Proof.
  intros Ht Hne ->. set (a := <[hA := _]> _). cbn [enter_invite].
  rewrite (M_bind_ok _ _ _ _ _ (removeTimerOf_exact p timerA c a core hA msA ltac:(rewrite Ht; apply lookup_insert_eq) ltac:(apply lookup_insert_eq))).
  set (c1 := on_ct_timers (delete timerA) c).
  assert (ct_timers c1 = {[timerC := hC]}) as Ht1 by (cbn; rewrite Ht, delete_insert_eq, delete_singleton_ne by done; done).
  assert (delete hA a = {[hC := (timerC, p, msC)]}) as -> by (unfold a; rewrite delete_insert_eq, delete_singleton_ne by done; done).
  unfold removeTimerOf at 1. rewrite (M_bind_ok _ _ _ _ _ (removeTimer_unset p timerB timerB c1 _ core ltac:(rewrite Ht1; by rewrite lookup_singleton_ne))).
  rewrite (M_bind_ok _ _ _ _ _ (removeTimerOf_exact p timerC c1 _ core hC msC ltac:(rewrite Ht1; apply lookup_singleton_eq) ltac:(apply lookup_singleton_eq))).
  rewrite delete_singleton_eq. exists (on_ct_timers (delete timerC) c1). split; [|done].
  apply removeTimer_unset. cbn [ct_timers on_ct_timers]. rewrite Ht1, delete_singleton_eq. done.
Qed.
Lemma forwardBest_nobody core : pc_vecClientTransactions core = [] -> rq_method (sv_request (pc_server core)) = sip_method_invite ->
  exists core', forwardBestResponse sort core = Ok (tt, core') /\ pc_armed core' = pc_armed core /\ pc_vecClientTransactions core' = [] /\
    pc_events core' = pc_events core ++ [GeneratedResponse 408; rejected_cdr] ++ (if pc_fullResponse core then [ApiResponse "done"] else []).
Proof.
  intros Hv Hm. unfold forwardBestResponse. erewrite M_bind_ok by reflexivity. cbn beta.
  erewrite M_bind_ok; cycle 1.
  { unfold clients. erewrite M_bind_ok by reflexivity. cbn. rewrite Hv. reflexivity. }
  cbn beta zeta. assert (sort bestResponseOrder [] = []) as -> by (apply Permutation_nil_r, sort_perm).
  erewrite M_bind_ok by reflexivity. cbn beta.
  erewrite M_bind_ok; [|by apply generateResponse_run]. cbn beta. erewrite M_bind_ok by reflexivity. cbn beta.
  cbn. destruct (pc_fullResponse core); eexists; (split; [reflexivity|]); split_and!; try done. cbn. by rewrite <-app_assoc.
Qed.
Lemma waiting_gives_up p k core due c hA hB hC : waiting p k core due c hA hB hC ->
  exists core', fire sort hB core = Ok (tt, core') /\ pc_armed core' = ∅ /\ pc_vecClientTransactions core' = [] /\
    pc_events core' = pc_events core ++ given_up (pc_fullResponse core).
Proof.
  intros [Ho Hst Hm Htr Hn Hd (Hab & Hac & Hbc) Ht Ha HdA HdB HdC Hv Hse Hs Hrq].
  assert (pc_armed core !! hB = Some (timerB, p, TIMER_B_MSECS)) as HB by (rewrite Ha, lookup_insert_ne by done; apply lookup_insert_eq).
  rewrite (fire_run hB _ core HB), (fired_upd p hB c core Ho). set (a1 := delete hB (pc_armed core)). set (c1 := on_ct_timers (delete timerB) c).
  assert (a1 = <[hA := (timerA, p, (500 * 2 ^ Z.of_nat k)%Z)]> {[hC := (timerC, p, TIMER_C_MSECS)]}) as Ea.
  { unfold a1. rewrite Ha, delete_insert_ne by done. f_equal. rewrite delete_insert_eq, delete_singleton_ne by done. done. }
  unfold fire_timerB, clearTimer.
  rewrite (M_bind_ok _ _ _ _ _ (assert_state_run p [calling] c a1 core ltac:(rewrite Hst; by left))).
  rewrite (M_bind_ok _ _ _ _ _ (ct_store_upd p _ c a1 core)). fold c1.
  destruct (enter_terminated p (set_ct_state terminated c1) a1 core hA hC (500 * 2 ^ Z.of_nat k)%Z TIMER_C_MSECS) as (c2 & E & Hs2); [|exact Hac|exact Ea|].
  { cbn [ct_timers set_ct_state c1 on_ct_timers]. rewrite Ht. by rewrite delete_insert_ne, delete_insert_eq, delete_singleton_ne by done. }
  erewrite M_bind_ok; cycle 1.
  { unfold setState. rewrite (M_bind_ok _ _ _ _ _ (ct_load_upd p c1 a1 core)). change (ct_state c1) with (ct_state c).
    rewrite Hst, bool_decide_eq_false_2 by done. rewrite (M_bind_ok _ _ _ _ _ (ct_store_upd p _ c1 a1 core)).
    unfold isInviteTransaction. change (ct_method c1) with (ct_method c). rewrite Hm, bool_decide_eq_true_2 by done. exact E. }
  erewrite M_bind_ok; [|by apply removeTerminated_only]. cbn beta. unfold best_if_exhausted.
  erewrite M_bind_ok by reflexivity. cbn beta. erewrite M_bind_ok by reflexivity. cbn beta.
  cbn [pc_searching add_events on_events on_vec upd on_pc_objects on_armed]. rewrite Hse, bool_decide_eq_true_2 by done. cbn [andb].
  edestruct forwardBest_nobody as (core' & -> & HA & HV & HE); cycle 2.
  - exists core'. split_and!; [done|by rewrite HA|done|]. rewrite HE. unfold given_up. cbn. by rewrite <-!app_assoc.
  - done.
  - done.
Qed.

(** ** The whole wait *)

(** The phases: up to six retransmissions, and the end. *)
Definition phase (k : nat) (s0 : ProxyCore) (p : positive) (branch target : string) (s : timed) : Prop :=
  let all n := pc_events s0 ++ replicate n (resent p branch target (sv_request (pc_server s0)) (pc_bRecordRoute s0)) in
  if decide (k <= 6) then
    (exists c hA hB hC, waiting p k (tm_core s) (tm_due s) c hA hB hC /\ ct_branch c = branch /\ ct_target c = target) /\
    pc_server (tm_core s) = pc_server s0 /\ pc_bRecordRoute (tm_core s) = pc_bRecordRoute s0 /\
    pc_fullResponse (tm_core s) = pc_fullResponse s0 /\ pc_events (tm_core s) = all k
  else k = 7 /\ tm_now s = 32000%Z /\ pc_armed (tm_core s) = ∅ /\ pc_vecClientTransactions (tm_core s) = [] /\
    pc_events (tm_core s) = all 6 ++ given_up (pc_fullResponse s0).

(** The timer that is due first. *)
Lemma waiting_due p k core due c hA hB hC h x : k <= 6 -> waiting p k core due c hA hB hC ->
  pc_armed core !! h = Some x -> (forall h', is_Some (pc_armed core !! h') -> (due h <= due h')%Z) -> h = if decide (k = 6) then hB else hA.
Proof.
  intros Hk [_ _ _ _ _ _ (Hab & Hac & Hbc) _ Ha HdA HdB HdC _ _ _ _] Hh Hmin. rewrite Ha in Hh, Hmin.
  pose proof (Hmin hA ltac:(rewrite lookup_insert_eq; by eexists)) as MA.
  pose proof (Hmin hB ltac:(rewrite lookup_insert_ne, lookup_insert_eq by done; by eexists)) as MB.
  assert (h = hA \/ h = hB \/ h = hC) as Hcase.
  { apply lookup_insert_Some in Hh as [[-> _]|[_ Hh]]; [by left|]. apply lookup_insert_Some in Hh as [[-> _]|[_ Hh]]; [by right; left|].
    apply lookup_singleton_Some in Hh as [-> _]. by right; right. }
  rewrite HdA in MA. rewrite HdB in MB. destruct Hcase as [->|[->| ->]].
  - case_decide as Hk6; [|done]. subst k. rewrite HdA in MB. cbn in MB. lia.
  - case_decide as Hk6; [done|]. rewrite HdB in MA. assert (k = 0 \/ k = 1 \/ k = 2 \/ k = 3 \/ k = 4 \/ k = 5) as [->|[->|[->|[->|[->| ->]]]]] by lia; cbn in MA; lia.
  - rewrite HdC in MB. lia.
Qed.
Lemma waiting_progress p k core due c hA hB hC : k <= 6 -> waiting p k core due c hA hB hC ->
  exists h x, pc_armed core !! h = Some x /\ (forall h', is_Some (pc_armed core !! h') -> (due h <= due h')%Z) /\ h = if decide (k = 6) then hB else hA.
Proof.
  intros Hk [_ _ _ _ _ _ (Hab & Hac & Hbc) _ Ha HdA HdB HdC _ _ _ _].
  assert (forall P : positive -> Prop, P hA -> P hB -> P hC -> forall h', is_Some (pc_armed core !! h') -> P h') as Hall.
  { intros P PA PB PC h' [x Hx]. rewrite Ha in Hx. apply lookup_insert_Some in Hx as [[-> _]|[_ Hx]]; [done|].
    apply lookup_insert_Some in Hx as [[-> _]|[_ Hx]]; [done|]. by apply lookup_singleton_Some in Hx as [-> _]. }
  case_decide as Hk6.
  - exists hB. eexists. split; [rewrite Ha, lookup_insert_ne by done; apply lookup_insert_eq|]. split; [|done].
    apply Hall; rewrite ?HdA, ?HdB, ?HdC; [|lia..]. subst k. cbn. lia.
  - exists hA. eexists. split; [rewrite Ha; apply lookup_insert_eq|]. split; [|done].
    assert (500 * (2 ^ (Z.of_nat k + 1) - 1) <= 31500)%Z as Hle
      by (assert (k = 0 \/ k = 1 \/ k = 2 \/ k = 3 \/ k = 4 \/ k = 5) as [->|[->|[->|[->|[->| ->]]]]] by lia; cbn; lia).
    apply Hall; rewrite ?HdA, ?HdB, ?HdC; lia.
Qed.

Lemma phase_step k s0 p branch target s s' : sip_outbound_proxy = None ->
  phase k s0 p branch target s -> expires s s' -> phase (S k) s0 p branch target s'.
Proof.
  intros Hop Hph Hex. unfold phase in Hph. destruct (decide (k <= 6)) as [Hk|Hk].
  2: { destruct Hph as (_ & _ & Ha & _). inversion Hex as [? h x ? Hh]; subst. by rewrite Ha in Hh. }
  destruct Hph as ((c & hA & hB & hC & Hw & Hb & Ht) & Hsv & Hrr & Hfull & Hev).
  inversion Hex as [? h x core' Hh Hmin Ef]; subst.
  pose proof (waiting_due _ _ _ _ _ _ _ _ _ _ Hk Hw Hh Hmin) as ->. unfold phase. destruct (decide (k = 6)) as [->|Hk6].
  - destruct (waiting_gives_up _ _ _ _ _ _ _ _ Hw) as (core2 & E & HA & HV & HE). rewrite E in Ef. injection Ef as <-.
    split_and!; [done|apply Hw|done|done|]. cbn. rewrite HE, Hev, Hfull. done.
  - destruct (waiting_again _ _ _ _ _ _ _ _ Hop Hw) as (core2 & c2 & hA2 & E & Hw2 & Hb2 & Ht2 & Hs2 & Hr2 & Hf2 & He2).
    rewrite E in Ef. injection Ef as <-. rewrite decide_True by lia.
    split_and!; cbn [tm_core]; [exists c2, hA2, hB, hC; split_and!; [exact Hw2|done|done]|congruence..|].
    rewrite He2, Hev, <-app_assoc, Hsv, Hrr, replicate_S_end. done.
Qed.
Lemma phase_progress k s0 p branch target s : sip_outbound_proxy = None -> k <= 6 ->
  phase k s0 p branch target s -> exists s', expires s s'.
Proof.
  intros Hop Hk Hph. unfold phase in Hph. rewrite decide_True in Hph by done.
  destruct Hph as ((c & hA & hB & hC & Hw & _) & _). destruct (waiting_progress _ _ _ _ _ _ _ _ Hk Hw) as (h & x & Hh & Hmin & Eh).
  assert (exists core', fire sort h (tm_core s) = Ok (tt, core')) as [core' E].
  { case_decide as Hk6; rewrite Eh.
    - destruct (waiting_gives_up _ _ _ _ _ _ _ _ Hw) as (core' & E & _). by exists core'.
    - destruct (waiting_again _ _ _ _ _ _ _ _ Hop Hw) as (core' & ? & ? & E & _). by exists core'. }
  eexists. by eapply Expires.
Qed.
Lemma phase_steps n k s0 p branch target s s' : sip_outbound_proxy = None ->
  phase k s0 p branch target s -> nsteps expires n s s' -> phase (n + k) s0 p branch target s'.
Proof.
  intros Hop Hph Hn. revert k Hph. induction Hn as [s|n s s1 s' Hs _ IH]; intros k Hph; [done|].
  replace (S n + k) with (n + S k) by lia. apply IH. by eapply phase_step.
Qed.

(** The timers that a started INVITE has, exactly. *)
Lemma insert_three {K V} `{Countable K} (a b c : K) (x y z : V) : a ≠ b -> a ≠ c -> b ≠ c ->
  <[c := z]> (<[b := y]> (<[a := x]> ∅)) =@{gmap K V} <[a := x]> (<[b := y]> {[c := z]}).
Proof.
  intros Hab Hac Hbc. rewrite (insert_insert_ne _ c b), (insert_insert_ne _ c a) by congruence.
  rewrite (insert_insert_ne _ b a) by congruence. done.
Qed.
Lemma enter_calling_exact p c core : ct_timers c = ∅ -> (pc_nProvisionalTimeout core <= 0)%Z ->
  exists hA hB hC, enter_invite p calling (upd p c ∅ core) =
    Ok (tt, upd p (on_ct_timers (fun _ => <[timerA := hA]> (<[timerB := hB]> {[timerC := hC]})) (set_ct_duration NTA_SIP_T1 c))
      (<[hA := (timerA, p, NTA_SIP_T1)]> (<[hB := (timerB, p, TIMER_B_MSECS)]> {[hC := (timerC, p, TIMER_C_MSECS)]})) core) /\
    hA ≠ hB /\ hA ≠ hC /\ hB ≠ hC.
Proof.
  intros Ht Hp. cbn [enter_invite]. assert (forall cls, ct_timers c !! cls = None) as Hun by (intros cls; rewrite Ht; apply lookup_empty).
  rewrite (M_bind_ok _ _ _ _ _ (assert_unset_run p timerA c ∅ core (Hun _))).
  rewrite (M_bind_ok _ _ _ _ _ (assert_unset_run p timerB c ∅ core (Hun _))).
  rewrite (M_bind_ok _ _ _ _ _ (assert_unset_run p timerC c ∅ core (Hun _))).
  rewrite (M_bind_ok _ _ _ _ _ (ct_store_upd p _ c ∅ core)). set (c0 := set_ct_duration NTA_SIP_T1 c).
  rewrite (M_bind_ok _ _ _ _ _ (addTimer_exact p timerA NTA_SIP_T1 c0 ∅ core)). set (hA := fresh_addr ∅).
  set (c1 := on_ct_timers _ c0). set (a1 := <[hA := _]> ∅). rewrite (M_bind_ok _ _ _ _ _ (addTimer_exact p timerB TIMER_B_MSECS c1 a1 core)).
  pose proof (fresh_addr_lookup a1) as H1. set (hB := fresh_addr a1) in *. set (c2 := on_ct_timers _ c1). set (a2 := <[hB := _]> a1).
  rewrite (M_bind_ok _ _ _ _ _ (addTimer_exact p timerC TIMER_C_MSECS c2 a2 core)).
  pose proof (fresh_addr_lookup a2) as H2. set (hC := fresh_addr a2) in *. set (c3 := on_ct_timers _ c2).
  assert (hA ≠ hB) as HAB by (intros E; rewrite <-E in H1; unfold a1 in H1; by rewrite lookup_insert_eq in H1).
  assert (hB ≠ hC) as HBC by (intros E; rewrite <-E in H2; unfold a2 in H2; by rewrite lookup_insert_eq in H2).
  assert (hA ≠ hC) as HAC by (intros E; rewrite <-E in H2; unfold a2, a1 in H2; rewrite lookup_insert_ne, lookup_insert_eq in H2 by done; done).
  exists hA, hB, hC. split; [|done]. erewrite M_bind_ok by reflexivity. cbn beta.
  change (pc_nProvisionalTimeout (upd p c3 _ core)) with (pc_nProvisionalTimeout core). rewrite bool_decide_eq_false_2 by lia.
  rewrite M_ret_run. unfold a2, a1. rewrite (insert_three hA hB hC) by done. do 3 f_equal.
  unfold c3, c2, c1, c0, on_ct_timers, set_ct_duration. cbn. f_equal. rewrite Ht. by apply insert_three.
Qed.

(** When the timers that are armed now go off. *)
Definition due_now (core : ProxyCore) : positive -> Z :=
  fun h => match pc_armed core !! h with Some (_, _, ms) => ms | None => 0%Z end.

Lemma first_waiting p c core : let rq := sv_request (pc_server core) in
  pc_objects core !! p = Some c -> is_fresh c -> has_transport (ct_target c) = true -> sip_outbound_proxy = None ->
  pc_armed core = ∅ -> (pc_nProvisionalTimeout core <= 0)%Z -> pc_sends core = [] -> rq_method rq = sip_method_invite ->
  pc_vecClientTransactions core = [p] -> pc_searching core = true ->
  exists core' c' hA hB hC, forwardRequest p rq core = Ok (true, core') /\ waiting p 0 core' (due_now core') c' hA hB hC /\
    ct_target c' = ct_target c /\ pc_server core' = pc_server core.
Proof.
  intros rq Hc (Hst & Htc & Htm) Htr Hop Ha Hp Hse Hm Hv Hsr. unfold forwardRequest.
  rewrite (M_bind_ok _ _ _ _ _ (ct_store_ok _ _ _ _ Hc)). set (c1 := set_ct_transmitCount (ct_transmitCount c + 1) c).
  assert (on_pc_objects (insert p c1) core = upd p c1 ∅ core) as -> by (unfold upd; by rewrite <-Ha; destruct core).
  rewrite (M_bind_ok _ _ _ _ _ (ct_load_upd p c1 _ core)). change (ct_state c1) with (ct_state c). rewrite Hst.
  rewrite (bool_decide_eq_true_2 (not_started = not_started)) by done. set (core0 := set_uuids (tail (pc_uuids core)) core).
  set (c2 := set_ct_state calling (set_ct_branch (rq_method rq) (rfc3261prefix +:+ default ""%string (head (pc_uuids core))) c1)).
  destruct (enter_calling_exact p c2 core0) as (hA & hB & hC & E & Hne); [exact Htm|exact Hp|].
  erewrite M_bind_ok; cycle 1.
  { erewrite M_bind_ok; [|apply assertb_true, bool_decide_eq_true_2; cbn; lia]. cbn beta. erewrite M_bind_ok by reflexivity. cbn beta.
    change (set_uuids _ (upd p c1 ∅ core)) with (upd p c1 ∅ core0). rewrite (M_bind_ok _ _ _ _ _ (ct_store_upd p _ c1 _ core0)).
    unfold setState. rewrite (M_bind_ok _ _ _ _ _ (ct_load_upd p _ _ core0)). cbn [ct_state set_ct_branch]. change (ct_state c1) with (ct_state c).
    rewrite Hst, Hm, (bool_decide_eq_true_2 (sip_method_invite = sip_method_invite)) by done. rewrite bool_decide_eq_false_2 by done.
    rewrite (M_bind_ok _ _ _ _ _ (ct_store_upd p _ _ _ core0)). unfold isInviteTransaction. cbn [ct_method set_ct_branch].
    rewrite bool_decide_eq_true_2 by done. unfold c2 in E. rewrite Hm in E. exact E. }
  set (c3 := on_ct_timers _ _). set (a := <[hA := _]> _). cbn zeta. rewrite (M_bind_ok _ _ _ _ _ (ct_load_upd p c3 a core0)).
  change (ct_target c3) with (ct_target c). rewrite Hop. erewrite M_bind_ok by reflexivity. cbn beta.
  rewrite <-negb_orb. fold (has_transport (ct_target c)). rewrite Htr. cbn [negb].
  erewrite M_bind_ok by reflexivity. cbn beta. erewrite M_bind_ok by reflexivity. cbn beta.
  change (pc_sends (upd p c3 a core0)) with (pc_sends core). rewrite Hse. cbn [head default tail]. rewrite bool_decide_eq_false_2 by lia.
  cbn beta iota zeta. erewrite M_bind_ok by reflexivity. cbn beta.
  change (ct_transmitCount c3) with (ct_transmitCount c + 1)%Z. rewrite (bool_decide_eq_true_2 (_ = 1%Z)) by lia.
  assert (isInviteTransaction c3 = true) as -> by (by apply bool_decide_eq_true_2). cbn [andb].
  erewrite M_bind_ok by reflexivity. eexists _, c3, hA, hB, hC. split; [reflexivity|]. split; [|done].
  destruct Hne as (Hab & Hac & Hbc). constructor; try done; unfold due_now; cbn; unfold a;
    rewrite ?lookup_insert_eq, ?lookup_insert_ne, ?lookup_insert_eq, ?lookup_singleton_eq by done; try done. lia.
Qed.

(** C21: A proxied INVITE that nobody answers comes to an end.  When the request
    was sent to the only target, and the timers go off in the order in which
    they are due, then as long as no message comes there is always a next one
    until the seventh, and none after it: the request is sent six more times,
    and after 32 seconds the caller gets exactly one final response, a 408, no
    timer is left and the core is given up. *)
Theorem unanswered_invite_ends core rq serial target :
  unstarted core rq serial [target] -> pc_armed core = ∅ -> (pc_nProvisionalTimeout core <= 0)%Z -> pc_sends core = [] ->
  rq_method rq = sip_method_invite -> sip_outbound_proxy = None -> has_transport target = true ->
  exists core1 p branch, startRequests core = Ok (1, core1) /\
    let s0 := Timed core1 (due_now core1) 0 in
    forall n s, nsteps expires n s0 s ->
      (n <= 6 -> exists s', expires s s') /\
      (n <= 7) /\ (n = 7 -> ~ (exists s', expires s s')) /\
      (n = 7 -> tm_now s = 32000%Z /\ pc_armed (tm_core s) = ∅ /\ pc_vecClientTransactions (tm_core s) = [] /\
         pc_events (tm_core s) = pc_events core1 ++ replicate 6 (resent p branch target rq (pc_bRecordRoute core1)) ++
           given_up (pc_fullResponse core1)).
Proof.
  intros [Hs Hser Hrq Hnd Hr He] Ha Hp Hse Hm Hop Htr.
  inversion Hr as [|p ? l ? (c & Hc & Hf & Htc) Hl Hv]; subst. inversion Hl; subst. clear Hr Hl.
  destruct (first_waiting p c core Hc Hf Htr Hop Ha Hp Hse Hm (eq_sym Hv) Hs) as (core1 & c1 & hA & hB & hC & E & Hw & Ht1 & Hsv).
  exists core1, p, (ct_branch c1). split.
  { unfold startRequests. erewrite M_bind_ok by reflexivity. cbn beta. rewrite Hs, <-Hv. cbn [negb start_loop].
    rewrite (M_bind_ok _ _ _ _ _ (ct_load_ok _ _ _ Hc)). rewrite bool_decide_eq_true_2 by apply Hf. rewrite (M_bind_ok _ _ _ _ _ E).
    by destruct (pc_serial core). }
  intros s0 n s Hn. assert (phase 0 core1 p (ct_branch c1) (ct_target c) s0) as H0.
  { unfold phase. rewrite decide_True by lia. split_and!; [exists c1, hA, hB, hC; by split_and!|done..|]. cbn. by rewrite app_nil_r. }
  pose proof (phase_steps n 0 core1 p _ _ s0 s Hop H0 Hn) as Hph. rewrite Nat.add_0_r in Hph.
  assert (n <= 7) as Hn7 by (unfold phase in Hph; case_decide as Hd; [lia|by destruct Hph as [-> _]]).
  assert (n = 7 -> tm_now s = 32000%Z /\ pc_armed (tm_core s) = ∅ /\ pc_vecClientTransactions (tm_core s) = [] /\
         pc_events (tm_core s) = pc_events core1 ++ replicate 6 (resent p (ct_branch c1) (ct_target c) (sv_request (pc_server core)) (pc_bRecordRoute core1)) ++
           given_up (pc_fullResponse core1)) as Hend.
  { intros ->. unfold phase in Hph. rewrite decide_False in Hph by lia. destruct Hph as (_ & H1 & H2 & H3 & H4).
    split_and!; try done. by rewrite H4, <-app_assoc, Hsv. }
  split_and!; [|done| |exact Hend].
  - intros Hn6. by eapply phase_progress.
  - intros H7 [s' Hs']. destruct (Hend H7) as (_ & Hempty & _). inversion Hs' as [? h x ? Hh]; subst. by rewrite Hempty in Hh.
Qed.
End ends.

(** ** Sends that fail
    What a proxied call does when the stack cannot send: a first transmission
    that fails, and a retransmission that fails. *)

Section failures.
Context `{ProxyEnv}.

(** Serial forking, and the send to the first target fails: it counts as
    started, so no other target is tried; nothing was sent, and no timer is
    left that would try again or answer the caller. *)
Lemma failed_send_unanswered core rq t ts :
  unstarted core rq true (t :: ts) -> sip_outbound_proxy = None \/ t ≠ ""%string -> has_transport t = true -> (next_rc core < 0)%Z ->
  exists p c' core', head (pc_vecClientTransactions core) = Some p /\ startRequests core = Ok (1, core') /\ pc_events core' = [] /\
    pc_objects core' !! p = Some c' /\ ct_state c' = terminated /\ (forall cls, ct_timers c' !! cls = None).
Proof.
  intros [Hse Hser <- Hnd Hr He] Ht Htr Hrc. inversion Hr as [|p ? l ? (c & Hc & Hf & <-) _ Hv Hts]; subst ts.
  destruct (forwardRequest_fresh p (sv_request (pc_server core)) core c Hc Hf ltac:(by rewrite Hts)) as (sent & c' & core' & E & Hc' & _ & _ & _ & _ & _ & Hres).
  exists p, c', core'. split; [done|]. destruct Hres; rewrite ?Hts in *; try congruence; [|lia].
  split_and!; try done; [|congruence].
  unfold startRequests. erewrite M_bind_ok by reflexivity. cbn beta. rewrite Hse, Hser, <-Hv. cbn [negb start_loop].
  rewrite (M_bind_ok _ _ _ _ _ (ct_load_ok _ _ _ Hc)). rewrite bool_decide_eq_true_2 by apply Hf. by rewrite (M_bind_ok _ _ _ _ _ E).
Qed.

(** A retransmission that cannot be sent ends the transaction, and arms timer A
    all the same. *)
Context (sort : (ClientTransaction -> ClientTransaction -> bool) -> list (positive * ClientTransaction) -> list (positive * ClientTransaction)).

Lemma forwardRequest_again p rq c a core :
  ct_state c = calling -> ct_method c = sip_method_invite -> timers_ok p c a -> sip_outbound_proxy = None ->
  has_transport (ct_target c) = true -> (next_rc core < 0)%Z ->
  exists c' a' core', forwardRequest p rq (upd p c a core) = Ok (true, upd p c' a' core') /\ ct_state c' = terminated /\
    ct_method c' = sip_method_invite /\ timers_ok p c' a'.
Proof.
  intros Hst Hm Hok Hop Htr Hrc. unfold forwardRequest. rewrite (M_bind_ok _ _ _ _ _ (ct_store_upd p _ c a core)).
  set (c1 := set_ct_transmitCount (ct_transmitCount c + 1) c). rewrite (M_bind_ok _ _ _ _ _ (ct_load_upd p c1 a core)).
  change (ct_state c1) with (ct_state c). rewrite Hst, (bool_decide_eq_false_2 (calling = not_started)) by done.
  erewrite M_bind_ok by reflexivity. cbn beta zeta. rewrite (M_bind_ok _ _ _ _ _ (ct_load_upd p c1 a core)).
  change (ct_target c1) with (ct_target c). rewrite Hop. erewrite M_bind_ok by reflexivity. cbn beta.
  rewrite <-negb_orb. fold (has_transport (ct_target c)). rewrite Htr. cbn [negb].
  erewrite M_bind_ok by reflexivity. cbn beta. erewrite M_bind_ok by reflexivity. cbn beta.
  change (default 0%Z (head (pc_sends (upd p c1 a core)))) with (next_rc core). rewrite bool_decide_eq_true_2 by lia.
  change (set_sends _ (upd p c1 a core)) with (upd p c1 a (set_sends (tail (pc_sends core)) core)).
  destruct (setState_run p true terminated c1 a (set_sends (tail (pc_sends core)) core)) as (t & a' & E & Hok' & _ & _);
    [by apply bool_decide_eq_true_2|cbn; by rewrite Hst|done|set_solver|].
  rewrite (M_bind_ok _ _ _ _ _ E). rewrite (M_bind_ok _ _ _ _ _ (ct_store_upd p _ _ a' _)).
  eexists _, a', _. split; [reflexivity|]. by split_and!.
Qed.
Lemma failed_retransmission_aborts h p c ms core :
  pc_objects core !! p = Some c -> ct_state c = calling -> ct_method c = sip_method_invite -> timers_ok p c (pc_armed core) ->
  ct_timers c !! timerA = Some h -> pc_armed core !! h = Some (timerA, p, ms) -> sip_outbound_proxy = None ->
  has_transport (ct_target c) = true -> (next_rc core < 0)%Z ->
  exists core' h', fire sort h core = Ok (tt, core') /\ fire sort h' core' = Fault AssertFail /\
    exists ms', pc_armed core' !! h' = Some (timerA, p, ms').
Proof.
  intros Hc Hst Hm Hok Ht Ha Hop Htr Hrc.
  assert (on_armed (delete h) core = upd p c (delete h (pc_armed core)) core) as E0.
  { transitivity (on_armed (delete h) (upd p c (pc_armed core) core)); [by rewrite upd_id|done]. }
  set (a1 := delete h (pc_armed core)) in *. set (c1 := set_ct_duration (Z.shiftl (ct_durationTimerA c) 1) (on_ct_timers (delete timerA) c)).
  assert (timers_ok p c1 a1) as Hok1.
  { intros cls h'. cbn. intros [Hne Hl]%lookup_delete_Some. destruct (Hok _ _ Hl) as [ms' Hms].
    exists ms'. unfold a1. rewrite lookup_delete_ne; [done|]. intros ->. congruence. }
  destruct (forwardRequest_again p (sv_request (pc_server core)) c1 a1 core) as (c2 & a2 & core2 & E & Hs2 & Hm2 & Hok2); [done..|].
  destruct (addTimer_run p timerA (ct_durationTimerA c2) c2 a2 core2 Hok2) as (t & a3 & E3 & Hok3 & _ & Hv3).
  set (c3 := set_timers t c2) in *. specialize (Hv3 timerA). rewrite decide_True in Hv3 by done. unfold view in Hv3.
  destruct (ct_timers c3 !! timerA) as [h'|] eqn:Eh; [|done]. cbn in Hv3. destruct (Hok3 _ _ Eh) as [ms' Hms].
  exists (upd p c3 a3 core2), h'. split_and!; [| |by exists ms'].
  - unfold fire. erewrite M_bind_ok by reflexivity. cbn beta. rewrite Ha. erewrite M_bind_ok by reflexivity. cbn beta. rewrite E0.
    unfold fire_timerA, assert_state, clearTimer.
    erewrite M_bind_ok; [|rewrite (M_bind_ok _ _ _ _ _ (ct_load_upd p c a1 core)); apply assertb_true, bool_decide_eq_true_2; rewrite Hst; set_solver].
    rewrite (M_bind_ok _ _ _ _ _ (ct_store_upd p _ c a1 core)). erewrite M_bind_ok by reflexivity. cbn beta.
    erewrite M_bind_ok; [reflexivity|]. unfold retransmitRequest. rewrite (M_bind_ok _ _ _ _ _ (ct_store_upd p _ _ a1 core)). fold c1.
    rewrite (M_bind_ok _ _ _ _ _ E). cbn iota. rewrite (M_bind_ok _ _ _ _ _ (ct_load_upd p c2 a2 core2)).
    unfold isInviteTransaction. rewrite Hm2, bool_decide_eq_true_2 by done. rewrite (M_bind_ok _ _ _ _ _ E3). reflexivity.
  - unfold fire. erewrite M_bind_ok by reflexivity. cbn beta. cbn [pc_armed upd on_pc_objects on_armed]. rewrite Hms.
    erewrite M_bind_ok by reflexivity. cbn beta. change (on_armed (delete h') (upd p c3 a3 core2)) with (upd p c3 (delete h' a3) core2).
    unfold fire_timerA. erewrite M_bind_fault; [reflexivity|]. unfold assert_state. rewrite (M_bind_ok _ _ _ _ _ (ct_load_upd p c3 _ core2)).
    change (ct_state c3) with (ct_state c2). by rewrite Hs2.
Qed.

(** Serial forking, and the first target does not answer: timer B ends the
    search with a 408 although other targets have not been tried. *)
Context (sort_perm : forall f l, sort f l ≡ₚ l).

Lemma load_all_run core l : (forall q, q ∈ l -> is_Some (pc_objects core !! q)) ->
  exists cs, load_all l core = Ok (cs, core) /\ cs.*1 = l /\ forall x, x ∈ cs -> pc_objects core !! x.1 = Some x.2.
Proof.
  induction l as [|q l IH]; intros Hl; [exists []; split_and!; [done..|by intros ? ?%elem_of_nil]|].
  destruct (Hl q) as [c Hc]; [by left|]. destruct IH as (cs & E & Hf & Hcs); [intros; apply Hl; by right|].
  exists ((q, c) :: cs). cbn [load_all]. rewrite (M_bind_ok _ _ _ _ _ (ct_load_ok _ _ _ Hc)), (M_bind_ok _ _ _ _ _ E).
  split_and!; [done|cbn; by f_equal|]. intros x [->|Hin]%elem_of_cons; [done|by apply Hcs].
Qed.
Lemma filter_keep {A} (f : A -> bool) b (l : list A) : (forall x, x ∈ l -> f x = b) -> filter (fun x => f x = b) l = l.
Proof.
  induction l as [|x l IH]; intros Hl; [done|]. rewrite filter_cons_True by (apply Hl; by left). f_equal. apply IH. intros y Hy. apply Hl. by right.
Qed.
Lemma filter_drop {A} (f : A -> bool) b (l : list A) : (forall x, x ∈ l -> f x = negb b) -> filter (fun x => f x = b) l = [].
Proof.
  induction l as [|x l IH]; intros Hl; [done|]. rewrite filter_cons_False by (rewrite Hl by (by left); by destruct b).
  apply IH. intros y Hy. apply Hl. by right.
Qed.
Lemma timerB_skips_targets h core p c ms qs :
  pc_armed core !! h = Some (timerB, p, ms) -> ct_timers c !! timerB = Some h -> pc_objects core !! p = Some c ->
  ct_method c = sip_method_invite -> ct_state c = calling -> timers_ok p c (pc_armed core) ->
  pc_vecClientTransactions core = p :: qs -> p ∉ qs -> qs ≠ [] ->
  (forall q, q ∈ qs -> exists cq, pc_objects core !! q = Some cq /\ ct_state cq = not_started) ->
  pc_searching core = true -> rq_method (sv_request (pc_server core)) = sip_method_invite ->
  exists core', fire sort h core = Ok (tt, core') /\ pc_searching core' = false /\
    pc_events core' = pc_events core ++ [GeneratedResponse 408; rejected_cdr] ++ (if pc_fullResponse core then [ApiResponse "done"] else []).
Proof.
  intros Ha Ht Hc Hm Hst Hok Hv Hp Hne Hqs Hse Hrm. unfold fire. erewrite M_bind_ok by reflexivity. cbn beta. rewrite Ha.
  erewrite M_bind_ok by reflexivity. cbn beta.
  assert (on_armed (delete h) core = upd p c (delete h (pc_armed core)) core) as ->.
  { transitivity (on_armed (delete h) (upd p c (pc_armed core) core)); [by rewrite upd_id|done]. }
  set (a1 := delete h (pc_armed core)). set (c1 := on_ct_timers (delete timerB) c).
  assert (timers_ok p c1 a1) as Hok1.
  { intros cls h'. cbn. intros [Hn Hl]%lookup_delete_Some. destruct (Hok _ _ Hl) as [ms' Hms].
    exists ms'. unfold a1. rewrite lookup_delete_ne; [done|]. intros ->. congruence. }
  unfold fire_timerB, assert_state, clearTimer.
  erewrite M_bind_ok; [|rewrite (M_bind_ok _ _ _ _ _ (ct_load_upd p c a1 core)); apply assertb_true, bool_decide_eq_true_2; rewrite Hst; set_solver].
  rewrite (M_bind_ok _ _ _ _ _ (ct_store_upd p _ c a1 core)). fold c1.
  destruct (setState_run p true terminated c1 a1 core) as (t & a2 & E & _); try done;
    [by apply bool_decide_eq_true_2|cbn; by rewrite Hst|by intros ? ?%elem_of_nil|].
  rewrite (M_bind_ok _ _ _ _ _ E). set (c2 := set_timers t _). set (core1 := upd p c2 a2 core).
  destruct (load_all_run core1 qs) as (cs & Ecs & Hcs1 & Hcs).
  { intros q Hq. destruct (Hqs q Hq) as (cq & Hcq & _). unfold core1. cbn. rewrite lookup_insert_ne by (intros ->; done). by eexists. }
  assert (forall x, x ∈ cs -> ct_state x.2 = not_started) as Hns.
  { intros x Hx. pose proof (Hcs x Hx) as Hl. assert (x.1 ∈ qs) as Hin by (rewrite <-Hcs1; by apply list_elem_of_fmap_2).
    destruct (Hqs _ Hin) as (cq & Hcq & Hsq). unfold core1 in Hl. cbn in Hl. rewrite lookup_insert_ne in Hl by (intros E1; by rewrite E1 in Hp). congruence. }
  assert (removeTerminated false core1 = Ok (tt, on_vec (fun _ => qs) core1)) as E2.
  { unfold removeTerminated. erewrite M_bind_ok; cycle 1.
    { unfold clients. erewrite M_bind_ok by reflexivity. cbn beta. change (pc_vecClientTransactions core1) with (pc_vecClientTransactions core).
      rewrite Hv. cbn [load_all]. rewrite (M_bind_ok _ _ _ _ _ (ct_load_upd p c2 a2 core)). fold core1. rewrite (M_bind_ok _ _ _ _ _ Ecs). reflexivity. }
    cbn beta zeta. rewrite filter_cons_False by done.
    rewrite (filter_keep (fun x : positive * ClientTransaction => IsTerminated x.2) false cs) by (intros x Hx; unfold IsTerminated; by rewrite Hns).
    rewrite Hcs1. erewrite M_bind_ok by reflexivity. rewrite bool_decide_eq_false_2; [done|]. intros ->. by rewrite <-Hcs1 in Hne. }
  rewrite (M_bind_ok _ _ _ _ _ E2). set (core2 := on_vec _ core1).
  assert (load_all qs core2 = Ok (cs, core2)) as E3 by (by eapply (load_all_frame core1)).
  unfold best_if_exhausted. erewrite M_bind_ok by reflexivity. cbn beta.
  erewrite (M_bind_ok exhaustedAllTargets); cycle 1.
  { unfold exhaustedAllTargets, clients. erewrite M_bind_ok; [reflexivity|]. erewrite M_bind_ok by reflexivity. exact E3. }
  rewrite (filter_drop (fun x : positive * ClientTransaction => IsCallingOrProceeding x.2) true cs)
    by (intros x Hx; unfold IsCallingOrProceeding; by rewrite Hns).
  change (pc_searching core2) with (pc_searching core). rewrite Hse, bool_decide_eq_true_2 by done. cbn [andb].
  unfold forwardBestResponse. erewrite M_bind_ok by reflexivity. cbn beta.
  erewrite M_bind_ok; cycle 1.
  { unfold clients. erewrite M_bind_ok by reflexivity. cbn beta. by eapply (load_all_frame core1). }
  cbn beta zeta. pose proof (sort_perm bestResponseOrder cs) as Hperm. destruct (sort bestResponseOrder cs) as [|[q cq] rest] eqn:Es.
  { apply symmetry, Permutation_nil_r in Hperm. by rewrite <-Hcs1, Hperm in Hne. }
  erewrite M_bind_ok by reflexivity. cbn beta iota.
  assert (ct_state cq = not_started) as -> by (apply (Hns (q, cq)); rewrite <-Hperm; by left).
  rewrite (bool_decide_eq_true_2 (not_started ≠ completed)) by done. cbn [orb].
  erewrite M_bind_ok; [|by apply generateResponse_run]. cbn beta. erewrite M_bind_ok by reflexivity. cbn beta.
  cbn. destruct (pc_fullResponse core); eexists; (split; [reflexivity|]); split; try done. cbn. by rewrite <-app_assoc.
Qed.
End failures.
