(* ===== verification/ProxyWitness.v ===== *)
(** Concrete commands for the theorems on starting to proxy a request: an
    INVITE that a client has is proxied, to the destination given or, since it
    answers a challenge, to the server that sent it. *)
From S2P Require Import Prelude CppString Regex BoostInstance TextUtil SipTags ClientController TimerQueue TimerQueueSpec TimerQueueCorrect Cdr PendingRequests PendingCorrect SipDialog SipTransports TransportsWitness Connections DialogWorld Messages ProxyDispatch Dispatch LegSetupCorrect DialogWitness DispatchWitness ProxyChallenges ProxyChallengesCorrect ProxyCore ProxyCorrect ProxyStart ProxyStartCorrect ProxyEnds.

Open Scope list_scope.
Import ClockZ PendingWitnesses.

Lemma proxy_command_roundtrip_witness :
  match proxyRequest "m1" "t1" true false false false "5s" "" ["sip:a"; "sip:b"]%string "" with
  | Ok d => length ["sip:a"; "sip:b"]%string <= 10 /\ pd_clientMsgId d = "m1"%string /\ pd_transactionId d = "t1"%string /\
      pd_provisionalTimeout d = "5s"%string /\ pd_finalTimeout d = ""%string /\ pd_headers d = ""%string /\
      getDestinations d = ["sip:a"; "sip:b"]%string /\
      (pd_bRecordRoute d, pd_bFullResponse d, pd_bFollowRedirects d, pd_bSimultaneous d) = (true, false, false, false)
  | Fault f => f = BadAccess /\ 10 < length ["sip:a"; "sip:b"]%string
  end.
Proof.
  apply (proxy_command_roundtrip "m1" "t1" "5s" "" "" true false false false ["sip:a"; "sip:b"]%string);
    first [split; [done|cbn; lia]|repeat constructor; first [done|cbn; lia]].
Defined.

(** Message 1 has the credentials for a challenge of sip:b. *)
#[local] Instance auth : SipAuth := {|
  sip_www_authenticate m := if bool_decide (m = 3%positive) then Some (Some "realm", Some "n1") else None;
  sip_proxy_authenticate _ := None;
  sip_authorization m := if bool_decide (m = 1%positive) then Some (Some "realm", Some "n1") else None;
  sip_proxy_authorization _ := None;
|}%string.
#[local] Instance env : ProxyEnv := {|
  sip_outbound_proxy := None;
  findAppropriateTransport target transport := true;
  contactUriForRoute _ := None;
|}.
#[local] Instance inputs : ProxyLaunch := {|
  request_view _ := Request sip_method_invite (Some 70%Z) true None;
  core_inputs _ := ([], [], ["u1"; "u2"]%string);
|}.
Definition command : ProxyData := MkProxyData "m1" "t1" true false false false "" "" ["sip:a"%string] "".
Definition challenged : challenges :=
  match addChallenge 3 "sip:b" no_challenges with Ok (_, c) => c | Fault _ => no_challenges end.
Lemma challenged_reachable : chal_reachable challenged.
Proof.
  apply (chal_more no_challenges (Challenged 3 "sip:b")); [apply chal_start|cbn; set_solver|].
  by vm_compute.
Qed.
Definition proxied (w : proxy_world) : option (list event) :=
  match doProxy command w with Ok (_, w') => pc_events <$> pw_cores w' !! 1%positive | Fault _ => None end.
Lemma doProxy_outcome_witness :
  let w := MkProxyWorld offered challenged ∅ [] in
  (exists w' c, doProxy command w = Ok (tt, w') /\ done_with offered (pw_main w') "t1" 7 0 /\
    proxy_outcome offered (pw_main w') command 1 ["sip:b"%string] 1 c) /\
  (** without the challenge, and with it *)
  proxied (MkProxyWorld offered no_challenges ∅ []) =
    Some [SentRequest 1 "z9hG4bKu2" "sip:a" (Some "sip:a") 69 true false; PostedCdr attempt_record "application" role_undefined no_termination]%string /\
  proxied w =
    Some [SentRequest 1 "z9hG4bKu2" "sip:b" (Some "sip:b") 69 true false; PostedCdr attempt_record "application" role_undefined no_termination]%string.
Proof.
  intros w. split; [|split; by vm_compute].
  destruct (doProxy_outcome w command [x1] 1 oq 1 7 0) as (w' & c & E & Hd & _ & Ho).
  - exact offered_call.
  - done.
  - exact challenged_reachable.
  - by vm_compute.
  - done.
  - by left.
  - exists w', c. split; [exact E|]. split; [exact Hd|].
    assert (targets_for command 1 challenged = ["sip:b"%string]) as <- by by vm_compute. exact Ho.
Defined.

(** An INVITE with one target. *)
Definition calls : ProxyCore := ProxyCorrect.ProxyWitnesses.core_with not_started.
Lemma unanswered_invite_ends_witness :
  exists core1 p branch, startRequests calls = Ok (1, core1) /\
    let s0 := Timed core1 (due_now core1) 0 in
    forall n s, nsteps (expires ProxyCorrect.ProxyWitnesses.isort) n s0 s ->
      (n <= 6 -> exists s', expires ProxyCorrect.ProxyWitnesses.isort s s') /\
      (n <= 7) /\ (n = 7 -> ~ (exists s', expires ProxyCorrect.ProxyWitnesses.isort s s')) /\
      (n = 7 -> tm_now s = 32000%Z /\ pc_armed (tm_core s) = ∅ /\ pc_vecClientTransactions (tm_core s) = [] /\
         pc_events (tm_core s) = pc_events core1 ++
           replicate 6 (resent p branch "sip:bob@b" ProxyCorrect.ProxyWitnesses.invite_request (pc_bRecordRoute core1)) ++
           given_up (pc_fullResponse core1)).
Proof.
  apply (unanswered_invite_ends ProxyCorrect.ProxyWitnesses.isort ProxyCorrect.ProxyWitnesses.isort_perm calls
    ProxyCorrect.ProxyWitnesses.invite_request true "sip:bob@b"); try done.
  constructor; try done.
  - constructor; [apply not_elem_of_nil|constructor].
  - constructor; [|constructor]. by eexists.
Defined.
